(* ===== verification/_CoqProject ===== *)
-Q . S2P
Prelude.v
CppString.v
Interfaces.v
Constant.v
Base64.v
QueryHelper.v
RouteHead.v
MetaDataManager.v
DeviceMatrix.v
AssetMachine.v
AssetLoader.v
AutoCache.v
UserDelegate.v
Session.v
UpgradeManager.v
Serializable.v
MetaData.v
CloudData.v
CloudPolicy.v
SyncRecords.v
Permit.v
EventCenter.v
FlowControl.v
RdbFlowControl.v
KvSyncManager.v
Directory.v
Checker.v
CloudSync.v
CloudStore.v
CloudService.v
CloudWork.v
CloudNotify.v
DataShare.v
ProxyData.v
UdmfData.v
UdmfPreprocess.v
UdmfService.v
ObjectKeys.v
ObjectRestore.v
