(* ===== verification/Prelude.v ===== *)
(** * Distributed data management service: a verification library

    The service under [services/distributeddataservice] keeps the databases of
    the applications of a device, their metadata, and their synchronisation
    with other devices and with the cloud. It is a set of components that call each other, share
    the metadata store and react to events:
    - [framework/]: the metadata classes and their JSON form, the metadata
      manager, the event centre, the cache of open stores, flow control, paths,
      checkers and utilities;
    - [app/]: the session layer between devices (message header, access check,
      capabilities) and the checkers of callers;
    - [service/]: the services for key-value and relational stores,
      distributed objects, the cloud, data sharing and unified data; here are also the device
      matrix and the permission of synchronisations;
    - [adapter/]: accounts, network, screen and device manager of the system.

    Paths below are relative to [src/services/distributeddataservice/].

    ** How the code is represented

    One file models a component: its classes are records, its enumerations and
    tagged unions inductive types, each method is a definition with the state
    passed in and out. Machine integers are [Z] with their wrap-around written out
    ([u8] ... [s64] below); buffers are lists of bytes where an access out
    of range is [None]; strings are [string] with the operations of
    [std::string] in CppString. Maps are [gmap]; where the code depends on the
    order of a [std::map], the entries are sorted or kept as a list. Shared objects are
    numbers that refer to a table. Code that takes a lock in several sections,
    or that is called back by timers, is a step relation ([Inductive step]) over
    the sections; the theorems hold in every reachable state, by
    [reachable_invariant] below.

    Code outside of the repository appears as a class with the operations the
    service calls and laws for the documented behaviour it relies on; each class has
    an instance:
    - Interfaces: [LruBucket] (bounded cache), [KvStore] (tables of the
      distributed database), [ConcurrentMap] (a map whose actions tell whether to
      keep an entry), and [MetaStore], which is what our own metadata manager
      promises: MetaDataManager discharges it, and CloudPolicy, SyncRecords, Permit,
      DeviceMatrix and the files of the cloud are proved against it;
    - FlowControl: [PriorityQueue] and [ExecutorPool] (also used by KvSyncManager
      and CloudSync); Directory: [FileSystem]; Serializable: [JsonText] (writer and reader of
      JSON text); Checker: [CheckerOps]; AutoCache: the stores; UserDelegate:
      [Trust]; Session: the services it asks; CloudService: [CloudCodes] (codes of the interface);
      DataShare: [TimeService]; ProxyData: [KvTable], [RowText], [UriSyntax], [ProxyLimits];
      UdmfData: [UdLib] (records and keys); UdmfPreprocess: [TokenKit], [UriLib], [UriWorld],
      [DataLib]; UdmfService: [SvcEnv].

    ** Files

    - Prelude: shared notation, machine integers, reachability, lists; the tactics and hint
      databases;
    - CppString, Interfaces: the operations of [std::string]; the classes of the libraries and
      of the metadata store;
    - Constant, Base64: [framework/utils/constant.cpp], [base64_utils.cpp];
    - Serializable, MetaData, CloudData: [framework/serializable], [framework/metadata],
      [framework/cloud]: the classes, their JSON form, keys and queries;
    - MetaDataManager: [framework/metadata/meta_data_manager.cpp]: the store of the metadata
      with its cache;
    - EventCenter, FlowControl, AutoCache, Directory, Checker: the modules of [framework/] of
      the same names, with [app/src/checker];
    - RouteHead, Session, UpgradeManager: [app/src/session_manager]: message headers, the users
      a message is for, capabilities;
    - UserDelegate, Permit: [service/kvdb/user_delegate.cpp], [auth_delegate.cpp],
      [service/permission]: who may exchange data;
    - QueryHelper, KvSyncManager: [service/kvdb/query_helper.cpp], [kvstore_sync_manager.cpp];
    - DeviceMatrix: [service/matrix/src/device_matrix.cpp];
    - AssetMachine, AssetLoader: [service/object/src]: the machine of the assets, snapshots, the
      loader;
    - RdbFlowControl: [service/rdb/rdb_flow_control_manager.cpp], the strategy of FlowControl;
    - CloudPolicy, SyncRecords, CloudSync, CloudStore: [service/cloud/sync_config.cpp], the
      network strategy, and [sync_manager.cpp]: its records, its tasks, and how it finds and
      binds the stores;
    - CloudService, CloudWork, CloudNotify: [service/cloud/cloud_service_impl.cpp]: switches,
      schemas and cleaning; works, subscriptions and requests; the notifications of clients;
    - DataShare, ProxyData: [service/data_share]: the subscribers and their timers; the proxy
      data and the operations of the service on them;
    - UdmfData, UdmfPreprocess, UdmfService: [service/udmf]: unified data and the stores they
      are kept in; the permissions for their files; the service with its calls, the life of the
      data, and the data that are provided on demand;
    - ObjectKeys, ObjectRestore: [service/object/src/object_manager.cpp],
      [object_data_listener.cpp]: the keys and records of distributed objects; how the observers
      of an object are told of its record and its assets.

    ** What the theorems show

    - Messages between devices: a packed header is read back, a message of any content is parsed
      within its bounds, queries are parsed to the calls they were written from; sessions
      address exactly the permitted users ([route_head_roundtrip], [UnPackData_safe],
      [StringToDbQuery_terms], [GetSession_targets]);
    - Metadata: a load returns what is stored whatever the cache holds, metadata is read back
      from its JSON form and stays within its types for any text, keys identify stores
      ([LoadMeta_fresh], [StoreMeta_roundtrip], [Unmarshall_typed], [GetKey_injective]);
    - Synchronisation between devices: no change bit is lost, masks are converted bit by bit,
      permission is decided by the present metadata, delayed synchronisations are started or
      cancelled exactly once ([no_change_lost], [ConvertDynamic_spec], [permission_decision],
      [sync_accounted]);
    - Synchronisation with the cloud: the table of synchronisations names the waiting tasks, one
      event is posted per database asked for, retries end, last results are reported, and which
      tasks a stop removes ([tasks_accounted], [posted_exactly], [retry_decision],
      [last_result_reported], [stop_keeps_own_user]);
    - The cloud service: works are carried out in order with bounded retries, results reach
      subscribed clients, cleaning takes the most specific action, subscriptions are exact,
      removed applications are forgotten ([works_in_order], [results_notified],
      [clean_most_specific], [subscribe_exact], [uninstalled_forgotten]);
    - Data sharing: missed changes are told once enabled, timers are neither lost nor shared,
      the lists of publishers are exact, limits hold, and an application cannot change the
      values of others ([missed_change_told], [timers_accounted], [proxy_lists_exact],
      [proxy_limits], [others_values_untouched]);
    - Tasks, events and stores: a scope serves its deferred events, a timer covers the earliest
      waiting task, rates are limited, callers are identified by their present installation
      ([scope_served], [earliest_covered], [rate_limited], [app_id_current]);
    - Assets: deferred synchronisations of assets are compensated, callbacks are called once
      ([deferred_sync_compensated], [callback_once]);
    - Unified data: data are read back as they were written; they are given only to those who
      have been granted access, whatever happens; a receiver gets no more rights to files than
      the sender had; data that were read, or are too old, are removed and no others
      ([unified_data_roundtrip], [data_only_for_granted], [grants_within_authority],
      [read_once], [timed_out_removed]);
    - Distributed objects: the manager treats every object as an abstract object for the events
      that concern it, and every observer is told exactly once that an object is complete
      ([restore_refines], [told_when_complete]).

    ** Recursion

    Loops over data are structural. The others have fuel, with a lemma or a
    theorem that it suffices: [Split], [IsValidPath] and [BatchProcess] of Constant
    and [StringToString] of QueryHelper (size of the input plus one, each round
    consumes a character or an element); the keyword loop of a query (501 rounds,
    the limit in the code); the matrix's mask conversion (four rounds,
    one per bit); the asset machine's [PostEvent] (2: an action posts at most
    one more event that posts none); the event centre's service loop (100
    rounds, the limit in the code, at nesting level 1); the refill and the due tasks of
    FlowControl and KvSyncManager (the length of the queue plus one);
    [Split] and [CreateDirectory] of Directory (size plus two); the works of CloudWork (their number plus four: the
    retries, at most three, are counted for the whole list). Where the code calls
    observers, whose programs may call back, the calls recurse over the program.

    ** Bounds

    Counters that the code never resets are assumed not to wrap around where a theorem
    says so: the 32-bit part of a synchronisation identifier in SyncRecords and CloudSync. Times are
    integers without a limit; the clock is an argument.

    ** Not modelled

    IPC stubs and proxies, the adapters to system services, cryptography,
    backup, installation, reports and logging, and what the sources only pass to
    the database libraries. Of the relational, key-value, data share, object and
    unified data services only the parts listed above are modelled. The failure of
    an allocation is not modelled. Within modelled files, each component's doc comment
    names what is left out. *)

From Stdlib Require Export ZArith Lia Bool.
From stdpp Require Export base tactics list numbers strings pretty gmap.

#[export] Set Default Goal Selector "!".

(** ** Scope, hint databases

    [dds] holds the resolution hints of the components (range side conditions,
    invariants of sub-structures), [dds_rw] the rewrite rules that evaluate
    lookups and getters over the results of setters. *)

Declare Scope dds_scope.
Delimit Scope dds_scope with dds.
#[global] Open Scope dds_scope.
#[global] Open Scope Z_scope.

Create HintDb dds discriminated.
Create Rewrite HintDb dds_rw.

(** ** Machine integers

    A [w]-bit unsigned value is a [Z] in [0, 2^w); [wrap] is the conversion C++
    performs when a wider value is stored in a [w]-bit unsigned object. *)

Definition wrap (w z : Z) : Z := z mod 2 ^ w.

Abbreviation u8 := (wrap 8).
Abbreviation u16 := (wrap 16).
Abbreviation u32 := (wrap 32).
Abbreviation u64 := (wrap 64).

(** Storing in a signed [w]-bit object (two's complement). *)
Definition swrap (w z : Z) : Z :=
  let u := z mod 2 ^ w in if u <? 2 ^ (w - 1) then u else u - 2 ^ w.

Abbreviation s32 := (swrap 32).
Abbreviation s64 := (swrap 64).

Definition in_u (w z : Z) : Prop := 0 <= z < 2 ^ w.
Definition in_s (w z : Z) : Prop := - 2 ^ (w - 1) <= z < 2 ^ (w - 1).

#[export] Instance in_u_dec w z : Decision (in_u w z).
Proof. unfold in_u. apply _. Defined.
#[export] Instance in_s_dec w z : Decision (in_s w z).
Proof. unfold in_s. apply _. Defined.

Lemma wrap_range w z : 0 <= w -> in_u w (wrap w z).
Proof. intros. apply Z.mod_pos_bound. by apply Z.pow_pos_nonneg. Qed.

Lemma wrap_id w z : in_u w z -> wrap w z = z.
Proof. intros. by apply Z.mod_small. Qed.

Lemma swrap_id w z : 0 < w -> in_s w z -> swrap w z = z.
Proof.
  unfold swrap, in_s. intros Hw Hz.
  assert (2 ^ w = 2 * 2 ^ (w - 1)) as E.
  { rewrite <- Z.pow_succ_r by lia. f_equal. lia. }
  assert (0 < 2 ^ (w - 1)) by (apply Z.pow_pos_nonneg; lia).
  destruct (decide (0 <= z)).
  - rewrite Z.mod_small by lia. case_match; [done|]. lia.
  - replace (z mod 2 ^ w) with (z + 2 ^ w).
    + case_match; lia.
    + apply Z.mod_unique with (-1); lia.
Qed.

Lemma swrap_range w z : 0 < w -> in_s w (swrap w z).
Proof.
  intros Hw. unfold swrap, in_s. assert (2 ^ w = 2 * 2 ^ (w - 1)) as E.
  { rewrite <- Z.pow_succ_r by lia. f_equal. lia. }
  assert (0 < 2 ^ (w - 1)) by (apply Z.pow_pos_nonneg; lia).
  pose proof (Z.mod_pos_bound z (2 ^ w)). destruct (Z.ltb_spec (z mod 2 ^ w) (2 ^ (w - 1))); lia.
Qed.

Lemma wrap_wrap w z : 0 <= w -> wrap w (wrap w z) = wrap w z.
Proof. intros. apply wrap_id. by apply wrap_range. Qed.

#[export] Hint Resolve wrap_range : dds.
#[export] Hint Extern 1 (0 <= _) => lia : dds.
#[export] Hint Extern 1 (in_u _ _) => (unfold in_u; lia) : dds.

(** Bit-level facts the mask arithmetic uses. *)
Lemma land_range w a b : 0 <= w -> in_u w a -> 0 <= b -> in_u w (Z.land a b).
Proof.
  unfold in_u. intros Hw Ha Hb. split; [apply Z.land_nonneg; lia|].
  destruct (Z.eq_dec a 0) as [->|Hne].
  { rewrite Z.land_0_l. lia. }
  destruct (Z.eq_dec (Z.land a b) 0) as [E|E].
  { rewrite E. lia. }
  assert (0 <= Z.land a b) by (apply Z.land_nonneg; lia).
  apply Z.log2_lt_pow2; [lia|].
  eapply Z.le_lt_trans; [apply Z.log2_land; lia|].
  eapply Z.le_lt_trans; [apply Z.le_min_l|]. apply Z.log2_lt_pow2; lia.
Qed.

Lemma lor_range w a b : 0 <= w -> in_u w a -> in_u w b -> in_u w (Z.lor a b).
Proof.
  unfold in_u. intros Hw Ha Hb.
  split; [apply Z.lor_nonneg; lia|].
  destruct (Z.eq_dec (Z.lor a b) 0) as [E|E]; [rewrite E; lia|].
  assert (0 <= Z.lor a b) by (apply Z.lor_nonneg; lia).
  apply Z.log2_lt_pow2; [lia|]. rewrite Z.log2_lor by lia.
  apply Z.max_lub_lt.
  - destruct (Z.eq_dec a 0) as [->|]; [|apply Z.log2_lt_pow2; lia].
    destruct (Z.eq_dec w 0) as [->|]; simpl; [|lia]. assert (b = 0) by lia. subst. done.
  - destruct (Z.eq_dec b 0) as [->|]; [|apply Z.log2_lt_pow2; lia].
    destruct (Z.eq_dec w 0) as [->|]; simpl; [|lia]. assert (a = 0) by lia. subst. done.
Qed.

#[export] Hint Resolve land_range lor_range : dds.

(** Two values that agree on every non-negative bit are equal. *)
Lemma bits_eq a b : (forall i, 0 <= i -> Z.testbit a i = Z.testbit b i) -> a = b.
Proof. intros H. apply Z.bits_inj'. auto. Qed.

(** ** Tactics of the development *)

(** Case analysis on the condition of the first [if] or boolean test in sight. *)
Ltac case_if :=
  match goal with
  | |- context [if ?b then _ else _] => destruct b eqn:?
  | H : context [if ?b then _ else _] |- _ => destruct b eqn:?
  end.

(** Turns boolean hypotheses into propositions. *)
Ltac bool_prop :=
  repeat match goal with
  | H : andb _ _ = true |- _ => apply andb_true_iff in H; destruct H
  | H : orb _ _ = false |- _ => apply orb_false_iff in H; destruct H
  | H : negb _ = true |- _ => apply negb_true_iff in H
  | H : negb _ = false |- _ => apply negb_false_iff in H
  | H : (_ =? _) = true |- _ => apply Z.eqb_eq in H
  | H : (_ =? _) = false |- _ => apply Z.eqb_neq in H
  | H : (_ <? _) = true |- _ => apply Z.ltb_lt in H
  | H : (_ <? _) = false |- _ => apply Z.ltb_ge in H
  | H : (_ <=? _) = true |- _ => apply Z.leb_le in H
  | H : (_ <=? _) = false |- _ => apply Z.leb_gt in H
  | H : bool_decide _ = true |- _ => apply bool_decide_eq_true in H
  | H : bool_decide _ = false |- _ => apply bool_decide_eq_false in H
  end.

(** Proves a decidable closed proposition by evaluation. *)
Ltac by_decide := apply (bool_decide_unpack _); vm_compute; exact I.

(** Closes an equation between closed terms by evaluating both sides. *)
Ltac by_vm := match goal with |- ?x = ?y => vm_cast_no_check (@eq_refl _ y) end.

(** Evaluates getters over setters with the rules of [dds_rw]. *)
Ltac dds_simp := cbn; autorewrite with dds_rw; cbn.

(** ** Reflexive-transitive closure, for components modelled as step relations *)

Section Reach.
Context {S : Type} (init : S -> Prop) (step : S -> S -> Prop).

Inductive reachable : S -> Prop :=
| reach_init s : init s -> reachable s
| reach_step s s' : reachable s -> step s s' -> reachable s'.

Lemma reachable_invariant (I : S -> Prop) :
  (forall s, init s -> I s) ->
  (forall s s', I s -> step s s' -> I s') ->
  forall s, reachable s -> I s.
Proof. intros Hi Hs s. induction 1; eauto. Qed.
End Reach.

(** ** Lists and options shared by the components *)

Lemma list_find_None_inv {A} (P : A -> Prop) `{forall x, Decision (P x)} l x :
  list_find P l = None -> x ∈ l -> ¬ P x.
Proof. intros H1 H2. by apply list_find_None, Forall_forall with (x := x) in H1. Qed.

Lemma fold_left_app_string (f : string -> string) (l : list string) (a : string) :
  fold_left (fun r s => r +:+ f s) l a = a +:+ fold_right (fun s r => f s +:+ r) "" l.
Proof.
  revert a. induction l as [|x l IH]; intros a; cbn.
  - induction a; cbn; [done|]. unfold String.app in *. cbn. by f_equal.
  - rewrite IH. induction a as [|c a IHa]; cbn; [done|].
    unfold String.app in *. cbn. by f_equal.
Qed.

Lemma filter_same {A} (P Q : A -> Prop) `{forall x, Decision (P x)} `{forall x, Decision (Q x)} (l : list A) :
  (forall x, x ∈ l -> P x <-> Q x) -> filter P l = filter Q l.
Proof.
  induction l as [|a l IH]; intros E; [done|]. rewrite !filter_cons, IH by (intros x Hx; apply E; by right).
  assert (P a <-> Q a) by (apply E; by left). do 2 case_decide; done || tauto.
Qed.

Lemma filter_keeps_all {A} (P : A -> Prop) `{forall x, Decision (P x)} (l : list A) : (forall x, x ∈ l -> P x) -> filter P l = l.
Proof. induction l as [|a l IH]; intros HP; [done|]. rewrite filter_cons_True by (apply HP; by left). rewrite IH; [done|]. intros x Hx. apply HP. by right. Qed.

Lemma filter_keeps_none {A} (P : A -> Prop) `{forall x, Decision (P x)} (l : list A) : (forall x, x ∈ l -> ~ P x) -> filter P l = [].
Proof. induction l as [|a l IH]; intros HP; [done|]. rewrite filter_cons_False by (apply HP; by left). apply IH. intros x Hx. apply HP. by right. Qed.

Lemma NoDup_fmap_filter {A B} (f : A -> B) (P : A -> Prop) `{forall x, Decision (P x)} l :
  NoDup (f <$> l) -> NoDup (f <$> filter P l).
Proof.
  induction l as [|x l IH]; [done|]. rewrite fmap_cons, filter_cons. intros [Hx Hnd]%NoDup_cons.
  case_decide; [|by apply IH]. rewrite fmap_cons. apply NoDup_cons. split; [|by apply IH]. intros (y & Hy & Hin)%list_elem_of_fmap. apply Hx.
  apply list_elem_of_fmap. exists y. by apply list_elem_of_filter in Hin as [_ ?].
Qed.

Lemma NoDup_fmap_filters {A B} (f : A -> B) (P Q : A -> Prop)
    `{forall x, Decision (P x)} `{forall x, Decision (Q x)} l :
  NoDup (f <$> l) -> (forall x, P x -> Q x -> False) -> NoDup ((f <$> filter P l) ++ (f <$> filter Q l)).
Proof.
  intros Hnd Hpq. apply NoDup_app. split_and!; [by apply NoDup_fmap_filter| |by apply NoDup_fmap_filter].
  intros z (x & -> & [Hpx Hx]%list_elem_of_filter)%list_elem_of_fmap
    (y & Hxy & [Hqy Hy]%list_elem_of_filter)%list_elem_of_fmap.
  apply list_elem_of_lookup in Hx as [i Hi]. apply list_elem_of_lookup in Hy as [j Hj].
  assert (i = j) as ->.
  { eapply NoDup_lookup; [exact Hnd| |]; rewrite list_lookup_fmap; [by rewrite Hi|rewrite Hj; cbn; by rewrite Hxy]. }
  simplify_eq. by eapply Hpq.
Qed.
