(* ===== verification/CppString.v ===== *)
(** * The operations of [std::string] the service uses

    A C++ string is a Rocq [string]; the searching and slicing operations are
    defined on its list of characters. Positions are [nat]; [None] is
    [std::string::npos]. Nothing here is code of the repository: it is the part
    of the C++ standard library the components call, with the lemmas about it. *)

From S2P Require Import Prelude.
From Stdlib Require Import Ascii.
From stdpp Require Import sorting.

Local Open Scope nat_scope.

Abbreviation chars := String.list_ascii_of_string.
Abbreviation str_of := String.string_of_list_ascii.

#[export] Instance ascii_inhabited : Inhabited ascii := populate Ascii.zero.

Definition size (s : string) : nat := length (chars s).

(** [s.substr(pos, n)] for [pos <= s.size()]. *)
Definition substr (s : string) (pos n : nat) : string :=
  str_of (take n (drop pos (chars s))).

(** [s.substr(pos)]. *)
Definition substr_from (s : string) (pos : nat) : string :=
  str_of (drop pos (chars s)).

Section Search.
Context {A : Type} `{EqDecision A}.

(** First occurrence of [pat] in [s]. *)
Fixpoint lfind (pat s : list A) : option nat :=
  if decide (pat `prefix_of` s) then Some 0
  else match s with [] => None | _ :: s' => S <$> lfind pat s' end.

(** Last occurrence of [pat] in [s]. *)
Fixpoint lrfind (pat s : list A) : option nat :=
  match s with
  | [] => if decide (pat `prefix_of` s) then Some 0 else None
  | _ :: s' =>
      match lrfind pat s' with
      | Some i => Some (S i)
      | None => if decide (pat `prefix_of` s) then Some 0 else None
      end
  end.

Definition occurs_at (pat s : list A) (i : nat) : Prop :=
  pat `prefix_of` drop i s /\ i <= length s.

#[global] Instance occurs_at_dec pat s i : Decision (occurs_at pat s i).
Proof. unfold occurs_at. apply _. Defined.

Lemma occurs_at_0 pat s : occurs_at pat s 0 <-> pat `prefix_of` s.
Proof. unfold occurs_at. rewrite drop_0. split; [tauto|]. split; [done|lia]. Qed.

Lemma occurs_at_S pat c s i : occurs_at pat (c :: s) (S i) <-> occurs_at pat s i.
Proof. unfold occurs_at. cbn. split; intros [??]; split; auto; lia. Qed.

Lemma lfind_Some pat s i :
  lfind pat s = Some i <-> occurs_at pat s i /\ forall j, j < i -> ~ occurs_at pat s j.
Proof.
  revert i. induction s as [|c s IH]; intros i; cbn; case_decide as Hp.
  - split.
    + intros [= <-]. rewrite occurs_at_0. split; [done|]. lia.
    + intros [[_ Hi] _]. cbn in Hi. by replace i with 0 by lia.
  - split; [done|]. intros [[Ho Hi] _]. cbn in Hi. replace i with 0 in Ho by lia.
    by rewrite drop_0 in Ho.
  - split.
    + intros [= <-]. rewrite occurs_at_0. split; [done|]. lia.
    + intros [_ Hmin]. destruct i; [done|]. exfalso. apply (Hmin 0); [lia|].
      by apply occurs_at_0.
  - rewrite fmap_Some. split.
    + intros (k & Hk & ->). apply IH in Hk as [Ho Hmin].
      rewrite occurs_at_S. split; [done|]. intros [|j] Hj.
      * by rewrite occurs_at_0.
      * rewrite occurs_at_S. apply Hmin. lia.
    + intros [Ho Hmin]. destruct i as [|i].
      { by rewrite occurs_at_0 in Ho. }
      exists i. split; [|done]. apply IH. rewrite occurs_at_S in Ho. split; [done|].
      intros j Hj Hoj. apply (Hmin (S j)); [lia|]. by rewrite occurs_at_S.
Qed.

Lemma lfind_None pat s : lfind pat s = None <-> forall j, ~ occurs_at pat s j.
Proof.
  split.
  - intros Hf j Hj. destruct (lfind pat s) eqn:E; [done|]. clear Hf.
    revert j Hj E. induction s as [|c s IH]; intros j Hj E; cbn in E; case_decide; try done.
    + destruct Hj as [Hj Hl]. cbn in Hl. replace j with 0 in Hj by lia. by rewrite drop_0 in Hj.
    + apply fmap_None in E. destruct j as [|j]; [by rewrite occurs_at_0 in Hj|].
      rewrite occurs_at_S in Hj. by eapply IH.
  - intros Hn. destruct (lfind pat s) as [i|] eqn:E; [|done].
    apply lfind_Some in E as [Ho _]. by destruct (Hn i).
Qed.

Lemma lrfind_Some pat s i :
  lrfind pat s = Some i -> occurs_at pat s i /\ forall j, i < j -> ~ occurs_at pat s j.
Proof.
  revert i. induction s as [|c s IH]; intros i; cbn.
  - case_decide; [|done]. intros [= <-]. rewrite occurs_at_0. split; [done|].
    intros j Hj [_ Hl]. cbn in Hl. lia.
  - destruct (lrfind pat s) as [k|] eqn:E.
    + intros [= <-]. destruct (IH k eq_refl) as [Ho Hm]. rewrite occurs_at_S. split; [done|].
      intros [|j] Hj; [lia|]. rewrite occurs_at_S. apply Hm. lia.
    + case_decide; [|done]. intros [= <-]. rewrite occurs_at_0. split; [done|].
      intros [|j] Hj; [lia|]. rewrite occurs_at_S. clear IH H Hj. revert j.
      induction s as [|d s IHs]; intros j [Hj Hl]; cbn in E.
      * case_decide; [done|]. cbn in Hl. replace j with 0 in Hj by lia. by rewrite drop_0 in Hj.
      * destruct (lrfind pat s); [done|]. case_decide; [done|]. destruct j as [|j].
        -- by rewrite drop_0 in Hj.
        -- apply (IHs eq_refl j). split; [done|]. cbn in Hl. lia.
Qed.

Lemma lrfind_None pat s : lrfind pat s = None -> forall j, ~ occurs_at pat s j.
Proof.
  induction s as [|c s IH]; cbn; intros E j.
  - case_decide; [done|]. intros [Hj Hl]. cbn in Hl. replace j with 0 in Hj by lia.
    by rewrite drop_0 in Hj.
  - destruct (lrfind pat s); [done|]. case_decide; [done|].
    destruct j as [|j]; [by rewrite occurs_at_0|]. rewrite occurs_at_S. by apply IH.
Qed.

(** An occurrence at [i] splits the text there. *)
Lemma occurs_at_split pat s i :
  occurs_at pat s i -> exists b, s = take i s ++ pat ++ b.
Proof.
  intros [[b Hb] _]. exists b. rewrite <- Hb. by rewrite take_drop.
Qed.

Lemma occurs_at_app pat a b : occurs_at pat (a ++ pat ++ b) (length a).
Proof.
  split; [|rewrite length_app; lia]. rewrite drop_app_length. by eexists.
Qed.

(** Searching past a text none of whose characters starts the pattern. *)
Lemma lfind_skip p pat a b :
  p ∉ a -> lfind (p :: pat) (a ++ (p :: pat) ++ b) = Some (length a).
Proof.
  intros Hp. apply lfind_Some. split; [apply occurs_at_app|].
  intros j Hj [[r Hr] _]. rewrite drop_app_le in Hr by lia.
  destruct (drop j a) as [|x a'] eqn:E.
  - apply (f_equal length) in E. rewrite length_drop in E. cbn in E. lia.
  - injection Hr as -> _. apply Hp. apply list_elem_of_lookup. exists j.
    by rewrite <- (Nat.add_0_r j), <- lookup_drop, E.
Qed.

Lemma lfind_none_fresh p pat a : p ∉ a -> lfind (p :: pat) a = None.
Proof.
  intros Hp. apply lfind_None. intros j [[r Hr] _]. apply Hp.
  apply list_elem_of_lookup. exists j. by rewrite <- (Nat.add_0_r j), <- lookup_drop, Hr.
Qed.
End Search.

(** [s.find(pat, pos)] *)
Definition find (s pat : string) (pos : nat) : option nat :=
  if pos <=? size s then Nat.add pos <$> lfind (chars pat) (drop pos (chars s)) else None.

(** [s.rfind(pat)] *)
Definition rfind (s pat : string) : option nat := lrfind (chars pat) (chars s).

(** [s.find(c) != npos] *)
Definition contains_char (s : string) (c : ascii) : bool := bool_decide (c ∈ chars s).

Lemma chars_str_of l : chars (str_of l) = l.
Proof. apply String.list_ascii_of_string_of_list_ascii. Qed.

Lemma str_of_chars s : str_of (chars s) = s.
Proof. apply String.string_of_list_ascii_of_string. Qed.

Lemma chars_inj s1 s2 : chars s1 = chars s2 -> s1 = s2.
Proof. intros H. by rewrite <- (str_of_chars s1), <- (str_of_chars s2), H. Qed.

Lemma chars_app s1 s2 : chars (s1 +:+ s2) = chars s1 ++ chars s2.
Proof.
  induction s1 as [|c s1 IH]; [done|]. unfold String.app in *. cbn. by f_equal.
Qed.

Lemma size_app s1 s2 : size (s1 +:+ s2) = size s1 + size s2.
Proof. unfold size. by rewrite chars_app, length_app. Qed.

Lemma string_app_nil_l (s : string) : "" +:+ s = s.
Proof. done. Qed.

Lemma string_app_assoc (a b c : string) : (a +:+ b) +:+ c = a +:+ b +:+ c.
Proof. apply chars_inj. rewrite !chars_app. by rewrite app_assoc. Qed.

Lemma string_app_inj_l (a b c : string) : a +:+ b = a +:+ c -> b = c.
Proof.
  intros H. apply chars_inj. apply (f_equal chars) in H. rewrite !chars_app in H.
  by apply app_inv_head in H.
Qed.

(** A prefix of a string, and of its list of characters. *)
Lemma prefix_chars a b : String.prefix a b = true <-> chars a `prefix_of` chars b.
Proof.
  revert b. induction a as [|c a IH]; intros b; cbn [String.prefix chars].
  - split; [intros _; apply prefix_nil|by destruct b].
  - destruct b as [|d b]; cbn [chars].
    + split; [done|]. intros H. by apply prefix_nil_inv in H.
    + change (String.prefix (String c a) (String d b)) with (if Ascii.ascii_dec c d then String.prefix a b else false).
      destruct (Ascii.ascii_dec c d) as [->|Hne].
      * rewrite IH. split; [apply prefix_cons|apply prefix_cons_inv_2].
      * split; [done|]. intros H. by apply prefix_cons_inv_1 in H.
Qed.

Lemma prefix_app p r : String.prefix p (p +:+ r) = true.
Proof. apply prefix_chars. rewrite chars_app. by apply prefix_app_r. Qed.

Lemma substr_first a b : substr (a +:+ b) 0 (size a) = a.
Proof. unfold substr, size. rewrite drop_0, chars_app, take_app_length. apply str_of_chars. Qed.

#[export] Hint Rewrite chars_str_of str_of_chars chars_app : dds_rw.

Lemma drop_app_len {A} (a b : list A) n : n = length a -> drop n (a ++ b) = b.
Proof. intros ->. apply drop_app_length. Qed.

Lemma take_app_len {A} (a b : list A) n : n = length a -> take n (a ++ b) = a.
Proof. intros ->. apply take_app_length. Qed.

Lemma occurs_at_length {A} `{EqDecision A} (pat s : list A) i :
  occurs_at pat s i -> i + length pat <= length s.
Proof.
  intros [[b Hb] Hi]. apply (f_equal length) in Hb. rewrite length_drop, length_app in Hb. lia.
Qed.

Lemma find_spec path pat pos i :
  find path pat pos = Some i <->
  pos <= i /\ occurs_at (chars pat) (chars path) i /\
  forall j, pos <= j < i -> ~ occurs_at (chars pat) (chars path) j.
Proof.
  unfold find, size. assert (Hshift : forall k, pos <= length (chars path) ->
    occurs_at (chars pat) (drop pos (chars path)) k <-> occurs_at (chars pat) (chars path) (pos + k)).
  { intros k Hp. unfold occurs_at. rewrite drop_drop, length_drop.
    split; intros [? ?]; (split; [done|lia]). }
  destruct (Nat.leb_spec pos (length (chars path))) as [Hp|Hp].
  - rewrite fmap_Some. split.
    + intros (k & Hk & ->). apply lfind_Some in Hk as [Ho Hm]. split_and!; [lia|by apply Hshift|].
      intros j Hj Ho'. apply (Hm (j - pos)); [lia|]. apply Hshift; [done|].
      by replace (pos + (j - pos)) with j by lia.
    + intros (Hi & Ho & Hm). exists (i - pos). split; [|lia]. apply lfind_Some. split.
      * apply Hshift; [done|]. by replace (pos + (i - pos)) with i by lia.
      * intros j Hj Ho'. apply (Hm (pos + j)); [lia|]. by apply Hshift.
  - split; [done|]. intros (Hi & [_ Hl] & _). lia.
Qed.

Lemma find_None_spec path pat pos :
  find path pat pos = None -> forall j, pos <= j -> ~ occurs_at (chars pat) (chars path) j.
Proof.
  intros E j Hj Ho. revert E. unfold find, size.
  destruct (Nat.leb_spec pos (length (chars path))) as [Hp|Hp].
  - rewrite fmap_None. intros E. apply lfind_None with (j := j - pos) in E. apply E.
    unfold occurs_at in *. rewrite drop_drop, length_drop. destruct Ho as [Ho Hl].
    replace (pos + (j - pos)) with j by lia.
    split; [done|]. lia.
  - destruct Ho as [_ Hl]. lia.
Qed.

(** Searching a text from the end of its first part. *)
Lemma find_app pat done l :
  find (str_of (done ++ l)) pat (length done) = Nat.add (length done) <$> lfind (chars pat) l.
Proof.
  unfold find, size. rewrite chars_str_of, length_app, drop_app_length.
  by replace (length done <=? length done + length l) with true by (symmetry; apply Nat.leb_le; lia).
Qed.

Lemma substr_second a c b : substr_from (a +:+ String c b) (S (size a)) = b.
Proof.
  unfold substr_from. rewrite chars_app. cbn [chars]. rewrite (cons_middle c), app_assoc, drop_app_len; [apply str_of_chars|].
  rewrite length_app. cbn. unfold size. lia.
Qed.

Lemma suffix_cancel a b s : a +:+ s = b +:+ s -> a = b.
Proof.
  intros E. apply (f_equal chars) in E. rewrite !chars_app in E. apply (inj (.++ chars s)) in E.
  by rewrite <- (str_of_chars a), <- (str_of_chars b), E.
Qed.

(** [std::to_string] of an integer. *)
Definition to_string (z : Z) : string := pretty z.

Lemma to_string_inj z z' : to_string z = to_string z' -> z = z'.
Proof. apply (inj pretty). Qed.

(** A decimal number has no other characters than digits and the sign. *)
Lemma pretty_N_chars c n s :
  c ∉ chars "0123456789" -> c ∉ chars s -> c ∉ chars (pretty_N_go n s).
Proof.
  intros Hc. revert s. induction (N.lt_wf_0 n) as [n _ IH]; intros s Hs.
  destruct (decide (n = 0%N)) as [->|Hn]; [by rewrite pretty_N_go_0|].
  rewrite pretty_N_go_step by lia. apply IH; [by apply N.div_lt; lia|].
  change (chars (String ?a s)) with (a :: chars s). rewrite not_elem_of_cons. split; [|done].
  intros ->. apply Hc. unfold pretty_N_char. repeat case_match; by_decide.
Qed.

Lemma to_string_chars c z : c ∉ chars "-0123456789" -> c ∉ chars (to_string z).
Proof.
  intros Hc. assert (Hd : c ∉ chars "0123456789") by (intros H; apply Hc; by right).
  assert (Hn : forall n : N, c ∉ chars (pretty n)).
  { intros n. unfold pretty, pretty_N. case_decide; [|apply pretty_N_chars; [done|apply not_elem_of_nil]].
    intros Hin. apply Hd. revert Hin. change (chars "0") with ["0"%char]. rewrite list_elem_of_singleton. intros ->. by_decide. }
  destruct z as [|p|p]; [apply (Hn 0%N)|apply (Hn (Npos p))|].
  change (chars (to_string (Zneg p))) with ("-"%char :: chars (pretty (Npos p))). rewrite not_elem_of_cons.
  split; [|apply Hn]. intros ->. apply Hc. by left.
Qed.

(** [atoi] of the decimal strings the service passes to it: optional leading
    white space and sign, then the longest run of digits; 0 without a digit. *)
Fixpoint atoi_digits (acc : Z) (l : list ascii) : Z :=
  match l with
  | c :: l' => match Ascii.is_nat c with
               | Some d => atoi_digits (10 * acc + Z.of_nat d)%Z l'
               | None => acc
               end
  | [] => acc
  end.

Fixpoint atoi_chars (l : list ascii) : Z :=
  match l with
  | c :: l' =>
      if Ascii.is_space c then atoi_chars l'
      else if bool_decide (c = "-"%char) then (- atoi_digits 0 l')%Z
      else if bool_decide (c = "+"%char) then atoi_digits 0 l'
      else atoi_digits 0 l
  | [] => 0%Z
  end.

Definition atoi (s : string) : Z := s32 (atoi_chars (chars s)).

(** A [char] holding the byte [b], and the byte held by a [char]. *)
Definition char_of (b : Z) : ascii := ascii_of_N (Z.to_N b).
Definition byte_of (c : ascii) : Z := Z.of_N (N_of_ascii c).

Lemma char_of_byte_of c : char_of (byte_of c) = c.
Proof. unfold char_of, byte_of. rewrite N2Z.id. apply ascii_N_embedding. Qed.

(** The entries of a map in the order of its keys. *)
Definition name_le {A} (a b : string * A) : Prop := String.le a.1 b.1.
#[export] Instance name_le_dec {A} (a b : string * A) : Decision (name_le a b).
Proof. unfold name_le. apply _. Defined.
Definition in_order {A} (m : gmap string A) : list (string * A) := merge_sort name_le (map_to_list m).

Lemma in_order_elements {A} (m : gmap string A) : in_order m ≡ₚ map_to_list m.
Proof. apply merge_sort_Permutation. Qed.
