(* ===== verification/Interfaces.v ===== *)
(** * Interfaces of the libraries and components other components use

    [LRUBucket] (a bounded cache) and the local and synchronised tables of the
    distributed database are libraries outside of the repository: a class states
    the operations the service calls and the documented behaviour it relies on.
    [MetaStore] is what [MetaDataManager] promises to its clients. Each class has
    an instance, which shows that its laws can hold. *)

From S2P Require Import Prelude.

(** ** [LRUBucket]

    [peek] is the content. Storing an entry may evict others, and keeps nothing
    when the capacity is 0. *)
Class LruBucket (K V : Type) := {
  bucket : Type;
  peek : K -> bucket -> option V;
  lru_get : K -> bucket -> option V * bucket;
  lru_set : K -> V -> bucket -> bucket;
  lru_delete : K -> bucket -> bucket;
  lru_reset : nat -> bucket -> bucket;
  lru_get_result k b : (lru_get k b).1 = peek k b;
  lru_get_peek k k' b : peek k' (lru_get k b).2 = peek k' b;
  lru_set_same k v b : peek k (lru_set k v b) = Some v \/ peek k (lru_set k v b) = None;
  lru_set_other k k' v b : k' <> k ->
    peek k' (lru_set k v b) = peek k' b \/ peek k' (lru_set k v b) = None;
  lru_delete_same k b : peek k (lru_delete k b) = None;
  lru_delete_other k k' b : k' <> k -> peek k' (lru_delete k b) = peek k' b;
  lru_reset_zero k b : peek k (lru_reset 0 b) = None;
  lru_reset_grow k n b : peek k (lru_reset n b) = peek k b \/ peek k (lru_reset n b) = None
}.
Arguments bucket K V {_}.

(** Any property of the entries survives [lru_set] when the new entry has it. *)
Lemma lru_set_inv {K V} `{LruBucket K V} `{EqDecision K} (P : K -> V -> Prop) k v b :
  P k v -> (forall k' v', peek k' b = Some v' -> P k' v') ->
  forall k' v', peek k' (lru_set k v b) = Some v' -> P k' v'.
Proof.
  intros Hkv Hb k' v' Hp. destruct (decide (k' = k)) as [->|Hne].
  - destruct (lru_set_same k v b) as [E|E]; rewrite E in Hp; [by simplify_eq|done].
  - destruct (lru_set_other k k' v b Hne) as [E|E]; rewrite E in Hp; [by apply Hb|done].
Qed.

(** A bucket as an association list, most recent entry first. *)
Section AssocLru.
Context {K V : Type} `{EqDecision K}.

Record assoc := mkAssoc { cap : nat; entries : list (K * V) }.

Fixpoint assoc_find (k : K) (l : list (K * V)) : option V :=
  match l with
  | [] => None
  | (k', v) :: l => if decide (k = k') then Some v else assoc_find k l
  end.

Definition assoc_remove (k : K) (l : list (K * V)) : list (K * V) := filter (fun kv => kv.1 <> k) l.

Definition assoc_get (k : K) (b : assoc) : option V * assoc :=
  match assoc_find k (entries b) with
  | Some v => (Some v, mkAssoc (cap b) ((k, v) :: assoc_remove k (entries b)))
  | None => (None, b)
  end.

Definition assoc_set (k : K) (v : V) (b : assoc) : assoc :=
  mkAssoc (cap b) (take (cap b) ((k, v) :: assoc_remove k (entries b))).

Lemma assoc_find_remove_ne k k' l : k' <> k -> assoc_find k' (assoc_remove k l) = assoc_find k' l.
Proof.
  intros Hne. unfold assoc_remove. induction l as [|[k0 v0] l IH]; [done|].
  rewrite filter_cons. cbn. case_decide as E; cbn; [by rewrite IH|].
  subst. by rewrite decide_False.
Qed.

Lemma assoc_find_remove_eq k l : assoc_find k (assoc_remove k l) = None.
Proof.
  unfold assoc_remove. induction l as [|[k0 v0] l IH]; [done|].
  rewrite filter_cons. cbn. case_decide as E; cbn in *; [|done].
  rewrite decide_False by naive_solver. done.
Qed.

Lemma assoc_find_take k n l : assoc_find k (take n l) = assoc_find k l \/ assoc_find k (take n l) = None.
Proof.
  revert n. induction l as [|[k0 v0] l IH]; intros [|n]; cbn; auto. case_decide; auto.
Qed.

#[local] Program Instance AssocLru : LruBucket K V := {
  bucket := assoc;
  peek k b := assoc_find k (entries b);
  lru_get := assoc_get;
  lru_set := assoc_set;
  lru_delete k b := mkAssoc (cap b) (assoc_remove k (entries b));
  lru_reset n b := mkAssoc n (take n (entries b))
}.
Next Obligation. intros k b. unfold assoc_get. by destruct (assoc_find k (entries b)). Qed.
Next Obligation.
  intros k k' b. unfold assoc_get. destruct (assoc_find k (entries b)) eqn:E; cbn; [|done].
  case_decide; [by subst|]. by apply assoc_find_remove_ne.
Qed.
Next Obligation.
  intros k v b. cbn. destruct (cap b); cbn; [by right|]. rewrite decide_True by done. by left.
Qed.
Next Obligation.
  intros k k' v b Hne. cbn. destruct (cap b); cbn; [by right|]. rewrite decide_False by done.
  destruct (assoc_find_take k' n (assoc_remove k (entries b))) as [E|E]; rewrite E; [left|by right].
  by apply assoc_find_remove_ne.
Qed.
Next Obligation. intros k b. apply assoc_find_remove_eq. Qed.
Next Obligation. intros k k' b Hne. by apply assoc_find_remove_ne. Qed.
Next Obligation. done. Qed.
Next Obligation. intros k n b. apply assoc_find_take. Qed.
End AssocLru.
Arguments assoc : clear implicits.

(** ** The tables of a key-value store ([DistributedDB::KvStoreNbDelegate])

    [content s isLocal key] is what is stored. Every operation reports a status;
    an operation that does not report [OK] changes nothing. *)
Inductive DBStatus : Type := OK | NOT_FOUND | INVALID_PASSWD_OR_CORRUPTED_DB | OTHER_ERROR.

#[export] Instance DBStatus_eq_dec : EqDecision DBStatus.
Proof. solve_decision. Defined.

(** The entries of a table whose keys begin with a prefix, in some order. *)
Definition entries_with {V} (table : string -> option V) (p : string) (es : list (string * V)) : Prop :=
  NoDup es.*1 /\ forall k v, (k, v) ∈ es <-> table k = Some v /\ String.prefix p k = true.

Class KvStore := {
  kv : Type;
  content : kv -> bool -> string -> option string;
  kv_get : bool -> string -> kv -> DBStatus * string * kv;
  kv_put : bool -> list (string * string) -> kv -> DBStatus * kv;
  kv_delete : bool -> list string -> kv -> DBStatus * kv;
  kv_entries : bool -> string -> kv -> DBStatus * list (string * string) * kv;
  kv_get_ok l k s v s' : kv_get l k s = (OK, v, s') -> content s l k = Some v;
  kv_get_not_found l k s v s' : kv_get l k s = (NOT_FOUND, v, s') -> content s l k = None;
  kv_get_content l k s : content (kv_get l k s).2 = content s;
  kv_put_ok l es s s' : kv_put l es s = (OK, s') ->
    forall l' k, content s' l' k =
      if bool_decide (l' = l) then
        match list_find (fun e => e.1 = k) (reverse es) with Some (_, e) => Some e.2 | None => content s l' k end
      else content s l' k;
  kv_put_fail l es s st s' : kv_put l es s = (st, s') -> st <> OK -> content s' = content s;
  kv_delete_ok l ks s s' : kv_delete l ks s = (OK, s') ->
    forall l' k, content s' l' k = if bool_decide (l' = l /\ k ∈ ks) then None else content s l' k;
  kv_delete_fail l ks s st s' : kv_delete l ks s = (st, s') -> st <> OK -> content s' = content s;
  kv_delete_not_found l ks s s' : kv_delete l ks s = (NOT_FOUND, s') -> forall k, k ∈ ks -> content s l k = None;
  kv_entries_ok l p s es s' : kv_entries l p s = (OK, es, s') -> entries_with (content s l) p es;
  kv_entries_not_found l p s es s' : kv_entries l p s = (NOT_FOUND, es, s') -> es = [] /\ entries_with (content s l) p [];
  kv_entries_content l p s : content (kv_entries l p s).2 = content s
}.

(** ** [ConcurrentMap]

    A map whose operations run an action on the entry of a key and erase the entry
    when the action says so. [cm_view] is the map. The action returns whether the
    entry is kept, the entry and a result. *)
Section ConcurrentMapRef.
Context {K V : Type} `{Countable K}.

Definition compute_ref {R} (d : V) (k : K) (f : V -> bool * V * R) (m : gmap K V) : gmap K V * R :=
  let '(keep, v, r) := f (default d (m !! k)) in (if (keep : bool) then <[k := v]> m else delete k m, r).

Definition compute_if_present_ref {R} (r0 : R) (k : K) (f : V -> bool * V * R) (m : gmap K V) : gmap K V * R :=
  match m !! k with
  | None => (m, r0)
  | Some v => let '(keep, v, r) := f v in (if (keep : bool) then <[k := v]> m else delete k m, r)
  end.

Definition erase_if_ref (f : K -> V -> bool * V) (m : gmap K V) : gmap K V :=
  map_imap (fun k v => let '(e, v) := f k v in if (e : bool) then None else Some v) m.
End ConcurrentMapRef.

Class ConcurrentMap (K V : Type) `{Countable K} := {
  cmap : Type;
  cm_view : cmap -> gmap K V;
  cm_compute : forall R, V -> K -> (V -> bool * V * R) -> cmap -> cmap * R;
  cm_compute_if_present : forall R, R -> K -> (V -> bool * V * R) -> cmap -> cmap * R;
  cm_erase_if : (K -> V -> bool * V) -> cmap -> cmap;
  cm_compute_spec R d k f m :
    (cm_view (cm_compute R d k f m).1, (cm_compute R d k f m).2) = compute_ref d k f (cm_view m);
  cm_compute_if_present_spec R r0 k f m :
    (cm_view (cm_compute_if_present R r0 k f m).1, (cm_compute_if_present R r0 k f m).2)
    = compute_if_present_ref r0 k f (cm_view m);
  cm_erase_if_spec f m :
    cm_view (cm_erase_if f m) = erase_if_ref f (cm_view m)
}.
Arguments cmap K V {_ _ _}.
Arguments cm_compute {K V _ _ _} {R}.
Arguments cm_compute_if_present {K V _ _ _} {R}.

(** [InsertOrAssign], [Insert] (which keeps a present entry), [Erase] and [Clear]. *)
Section ConcurrentMapOps.
Context {K V : Type} `{CM : ConcurrentMap K V}.

Definition InsertOrAssign (k : K) (v : V) (m : cmap K V) : cmap K V := (cm_compute v k (fun _ => (true, v, tt)) m).1.
Definition Insert (k : K) (v : V) (m : cmap K V) : cmap K V := (cm_compute v k (fun old => (true, old, tt)) m).1.
Definition Erase (k : K) (m : cmap K V) : cmap K V := (cm_compute_if_present tt k (fun old => (false, old, tt)) m).1.
Definition Clear (m : cmap K V) : cmap K V := cm_erase_if (fun _ v => (true, v)) m.

Lemma InsertOrAssign_view k v m : cm_view (InsertOrAssign k v m) = <[k := v]> (cm_view m).
Proof.
  unfold InsertOrAssign. match goal with |- context [cm_compute ?z ?t ?f ?m] => pose proof (cm_compute_spec _ z t f m) as Hs end.
  by injection Hs as -> _.
Qed.

Lemma Insert_view k v m : cm_view (Insert k v m) = <[k := default v (cm_view m !! k)]> (cm_view m).
Proof.
  unfold Insert. match goal with |- context [cm_compute ?z ?t ?f ?m] => pose proof (cm_compute_spec _ z t f m) as Hs end.
  by injection Hs as -> _.
Qed.

Lemma Erase_view k m : cm_view (Erase k m) = delete k (cm_view m).
Proof.
  unfold Erase. match goal with |- context [cm_compute_if_present ?z ?t ?f ?m] =>
    pose proof (cm_compute_if_present_spec _ z t f m) as Hs end.
  unfold compute_if_present_ref in Hs. destruct (cm_view m !! k) eqn:E; injection Hs as -> _; [done|by rewrite delete_id].
Qed.

Lemma Clear_view m : cm_view (Clear m) = ∅.
Proof.
  unfold Clear. rewrite cm_erase_if_spec. apply map_eq. intros k. unfold erase_if_ref. rewrite map_lookup_imap, lookup_empty.
  by destruct (cm_view m !! k).
Qed.
End ConcurrentMapOps.

#[local] Program Instance GmapConcurrent {K V} `{Countable K} : ConcurrentMap K V := {
  cmap := gmap K V;
  cm_view m := m;
  cm_compute R := compute_ref;
  cm_compute_if_present R := compute_if_present_ref;
  cm_erase_if := erase_if_ref
}.
Next Obligation. intros. symmetry. apply surjective_pairing. Qed.
Next Obligation. intros. symmetry. apply surjective_pairing. Qed.
Next Obligation. done. Qed.

(** ** The promise of [MetaDataManager] to its clients

    [stored d isLocal key] is the value a reader of the table finds. Loading may
    fail, but returns nothing else; saving reports whether it has happened. *)
Class MetaStore (V : Type) := {
  meta_db : Type;
  stored : meta_db -> bool -> string -> option V;
  LoadMeta : string -> bool -> meta_db -> option V * meta_db;
  SaveMeta : string -> V -> bool -> meta_db -> bool * meta_db;
  LoadMeta_result k l d v d' : LoadMeta k l d = (Some v, d') -> stored d l k = Some v;
  LoadMeta_stored k l d : stored (LoadMeta k l d).2 = stored d;
  SaveMeta_ok k v l d d' : SaveMeta k v l d = (true, d') ->
    forall l' k', stored d' l' k' = if bool_decide (l' = l /\ k' = k) then Some v else stored d l' k';
  SaveMeta_fail k v l d d' : SaveMeta k v l d = (false, d') -> stored d' = stored d;
  DelMeta : string -> bool -> meta_db -> bool * meta_db;
  DelMeta_ok k l d d' : DelMeta k l d = (true, d') -> stored d' l k = None;
  DelMeta_fail k l d d' : DelMeta k l d = (false, d') -> stored d' = stored d;
  DelMeta_other k l d l' k' : (l', k') <> (l, k) -> stored (DelMeta k l d).2 l' k' = stored d l' k';
  LoadMetas : string -> bool -> meta_db -> option (list V) * meta_db;
  LoadMetas_result p l d vs d' : LoadMetas p l d = (Some vs, d') ->
    exists es, vs = es.*2 /\ entries_with (stored d l) p es;
  LoadMetas_stored p l d : stored (LoadMetas p l d).2 = stored d
}.
Arguments meta_db V {_}.

(** The entries of a table with a prefix. *)
Definition map_entries {V} (p : string) (l : bool) (d : gmap (bool * string) V) : list (string * V) :=
  (fun e => (e.1.2, e.2)) <$> map_to_list (filter (fun e => e.1.1 = l /\ String.prefix p e.1.2 = true) d).

Lemma map_entries_with {V} (p : string) (l : bool) (d : gmap (bool * string) V) : entries_with (fun k => d !! (l, k)) p (map_entries p l d).
Proof.
  unfold map_entries. split.
  - rewrite <- list_fmap_compose. apply NoDup_fmap_2_strong; [|apply NoDup_map_to_list].
    intros [[l1 k1] v1] [[l2 k2] v2] H1 H2 E. cbn in E. subst.
    apply elem_of_map_to_list, map_lookup_filter_Some in H1 as [H1 [E1 _]].
    apply elem_of_map_to_list, map_lookup_filter_Some in H2 as [H2 [E2 _]]. cbn in *. subst. congruence.
  - intros k v. rewrite list_elem_of_fmap. split.
    + intros ([[l1 k1] v1] & [= -> ->] & H). by apply elem_of_map_to_list, map_lookup_filter_Some in H as [? [<- ?]].
    + intros [H1 H2]. exists ((l, k), v). split; [done|]. by apply elem_of_map_to_list, map_lookup_filter_Some.
Qed.

(** A table that never fails. *)
#[local] Program Instance MapMetaStore {V} : MetaStore V := {
  meta_db := gmap (bool * string) V;
  stored d l k := d !! (l, k);
  LoadMeta k l d := (d !! (l, k), d);
  SaveMeta k v l d := (true, <[(l, k) := v]> d);
  DelMeta k l d := (true, delete (l, k) d);
  LoadMetas p l d := (Some (map_entries p l d).*2, d)
}.
Next Obligation. intros V k l d v d' E. by injection E. Qed.
Next Obligation. done. Qed.
Next Obligation.
  intros V k v l d d' [= <-] l' k'. case_bool_decide as E.
  - destruct E as [-> ->]. apply lookup_insert_eq.
  - apply lookup_insert_ne. naive_solver.
Qed.
Next Obligation. done. Qed.
Next Obligation. intros V k l d d' [= <-]. apply lookup_delete_eq. Qed.
Next Obligation. done. Qed.
Next Obligation. intros V k l d l' k' Hne. cbn. by apply lookup_delete_ne. Qed.
Next Obligation. intros V p l d vs d' [= <- <-]. exists (map_entries p l d). split; [done|]. apply map_entries_with. Qed.
Next Obligation. done. Qed.
