(* ===== verification/Constant.v ===== *)
(** * String, path and batching utilities ([framework/utils/constant.cpp])

    [Constant] builds and splits the keys of the metadata store, validates
    application supplied paths and cuts work into batches. *)

From S2P Require Import Prelude CppString.
From Stdlib Require Import Ascii.

Local Open Scope nat_scope.

Module Constant.

(* @src framework/include/utils/constant.h 87-87 Constant::KEY_SEPARATOR *)
Definition KEY_SEPARATOR : string := "###".

(* @src framework/utils/constant.cpp 30-42 Constant::Concatenate *)
Definition Concatenate (stringList : list string) : string :=
  fold_left (fun result str => result +:+ str) stringList "".

(* @src framework/utils/constant.cpp 44-58 Constant::Join *)
Definition Join (prefix separator : string) (params : list string) : string :=
  fold_left (fun result str => result +:+ separator +:+ str) params prefix.

(** The loop of [Split]; [None] when the fuel runs out before the loop ends. *)
Fixpoint Split_loop (fuel : nat) (str delim : string) (pos : nat) (res : list string)
    : option (list string) :=
  match fuel with
  | O => None
  | S fuel =>
      if pos <? size str then
        match find str delim pos with
        | None => Some (res ++ [substr_from str pos])
        | Some found =>
            Split_loop fuel str delim (found + size delim)
              (res ++ [substr str pos (found - pos)])
        end
      else Some res
  end.

(* @src framework/utils/constant.cpp 60-77 Constant::Split *)
Definition Split (str delim : string) : option (list string) :=
  if bool_decide (str = "") then Some [str]
  else Split_loop (S (size str)) str delim 0 [].

(* @src framework/utils/constant.cpp 79-82 Constant::Equal *)
Definition Equal (first second : bool) : bool :=
  (first && second) || (negb first && negb second).

(* @src framework/utils/constant.cpp 84-87 Constant::NotEqual *)
Definition NotEqual (first second : bool) : bool :=
  (first || second) && (negb first || negb second).

(** The [while] loop over the occurrences of ["../"]: [Some true] when it
    returns from the function with [false], [Some false] when it falls through. *)
Fixpoint IsValidPath_loop (fuel : nat) (path : string) (pos : option nat) : option bool :=
  match fuel with
  | O => None
  | S fuel =>
      match pos with
      | None => Some false
      | Some p =>
          if (p =? 0) || bool_decide (chars path !! (p - 1) = Some "/"%char) then Some true
          else IsValidPath_loop fuel path (find path "../" (p + 3))
      end
  end.

(* @src framework/utils/constant.cpp 103-123 Constant::IsValidPath *)
Definition IsValidPath (path : string) : option bool :=
  if bool_decide (path = "..") || contains_char path "\"%char then Some false
  else
    match IsValidPath_loop (S (size path)) path (find path "../" 0) with
    | None => None
    | Some true => Some false
    | Some false =>
        match rfind path "/.." with
        | Some pos => Some (negb (size path - pos =? 3))
        | None => Some true
        end
    end.

(** The loop of [BatchProcess]: [action] is called on the slice [it, end) and
    threads a state; [None] when the fuel runs out. *)
Fixpoint BatchProcess_loop {T S : Type} (fuel : nat) (value : list T) (batchSize : nat)
    (action : S -> list T -> S * bool) (s : S) : option (S * bool) :=
  match fuel with
  | O => None
  | Datatypes.S fuel =>
      match value with
      | [] => Some (s, true)
      | _ =>
          let n := Nat.min batchSize (length value) in
          let (s', ok) := action s (take n value) in
          if ok then BatchProcess_loop fuel (drop n value) batchSize action s'
          else Some (s', false)
      end
  end.

(* @src framework/include/utils/constant.h 47-59 Constant::BatchProcess *)
Definition BatchProcess {T S : Type} (value : list T) (batchSize : nat)
    (action : S -> list T -> S * bool) (s : S) : option (S * bool) :=
  BatchProcess_loop (Datatypes.S (length value)) value batchSize action s.

(** ** Join and Split *)

Lemma Join_cons prefix sep x params :
  Join prefix sep (x :: params) = prefix +:+ sep +:+ Join x sep params.
Proof.
  unfold Join. cbn [fold_left].
  rewrite (fold_left_app_string (fun s => sep +:+ s) params (prefix +:+ sep +:+ x)).
  rewrite (fold_left_app_string (fun s => sep +:+ s) params x).
  by rewrite !string_app_assoc.
Qed.

(** [Join] appends: a longer list of fields extends the key of a shorter one. *)
Lemma Join_app prefix sep ps qs :
  Join prefix sep (ps ++ qs) = Join (Join prefix sep ps) sep qs.
Proof. unfold Join. by rewrite fold_left_app. Qed.

Lemma chars_Join prefix sep params :
  chars (Join prefix sep params) =
  chars prefix ++ concat ((fun p => chars sep ++ chars p) <$> params).
Proof.
  revert prefix. induction params as [|x ps IH]; intros prefix; cbn.
  - by rewrite app_nil_r.
  - unfold Join in *. cbn. rewrite IH, !chars_app. by rewrite <- !app_assoc.
Qed.

(** The fields from position [length done] of a joined text are read one by one. *)
Lemma Split_loop_Join fuel d delim done f fs res :
  chars delim = d :: tail (chars delim) ->
  Forall (fun f => d ∉ chars f) (f :: fs) -> last (f :: fs) <> Some "" ->
  size (Join f delim fs) < fuel ->
  Split_loop fuel (str_of (done ++ chars (Join f delim fs))) delim (length done) res
  = Some (res ++ f :: fs).
Proof.
  intros Hd. revert f fs done res.
  induction fuel as [|fuel IH]; intros f fs done res Hfs Hlast Hfuel; [lia|].
  apply Forall_cons in Hfs as [Hf Hfs]. cbn [Split_loop].
  set (text := str_of _).
  assert (Hsize : size text = length done + size (Join f delim fs))
    by (unfold text, size; by rewrite chars_str_of, length_app).
  assert (Hpos : 0 < size (Join f delim fs)).
  { destruct fs; [destruct f; [done|unfold size; cbn; lia]|].
    rewrite Join_cons, !size_app. unfold size. rewrite Hd. cbn. lia. }
  rewrite Hsize. replace (_ <? _) with true by (symmetry; apply Nat.ltb_lt; lia).
  unfold find. rewrite Hsize. replace (_ <=? _) with true by (symmetry; apply Nat.leb_le; lia).
  unfold text, substr, substr_from. rewrite chars_str_of, !drop_app_length, Hd.
  destruct fs as [|g gs].
  - unfold Join. cbn [fold_left]. rewrite lfind_none_fresh by done. by rewrite str_of_chars.
  - rewrite Join_cons, !chars_app, Hd, lfind_skip by done. cbn [fmap option_fmap option_map].
    rewrite <- Hd. unfold size. rewrite take_app_len, str_of_chars by lia.
    replace (length done + length (chars f) + length (chars delim))
      with (length (done ++ chars f ++ chars delim)) by (rewrite !length_app; lia).
    specialize (IH g gs (done ++ chars f ++ chars delim) (res ++ [f]) Hfs Hlast).
    rewrite <- !app_assoc in IH. rewrite IH; [done|].
    rewrite Join_cons, !size_app in Hfuel. unfold size in Hfuel at 2. rewrite Hd in Hfuel. cbn in Hfuel. lia.
Qed.

Lemma split_joined prefix delim d params :
  chars delim = d :: tail (chars delim) ->
  Forall (fun f => d ∉ chars f) (prefix :: params) ->
  last (prefix :: params) <> Some "" ->
  Split (Join prefix delim params) delim = Some (prefix :: params).
Proof.
  intros Hd Hfs Hlast.
  assert (E : Split_loop (S (size (Join prefix delim params)))
            (str_of ([] ++ chars (Join prefix delim params))) delim (length (@nil ascii)) []
          = Some ([] ++ prefix :: params)) by (eapply Split_loop_Join; eauto; lia).
  unfold Split. rewrite bool_decide_eq_false_2.
  - cbn [length app] in E. by rewrite str_of_chars in E.
  - intros Hnil. apply (f_equal chars) in Hnil. destruct params as [|p ps].
    + cbn in Hlast, Hnil. by destruct prefix.
    + rewrite Join_cons, !chars_app, Hd in Hnil. by destruct (chars prefix).
Qed.

(** Two keys built from the same number of fields are equal only if the fields
    are, when no field contains the first character of the separator. *)
Lemma Join_inj d sep p ps q qs :
  chars sep = d :: tail (chars sep) ->
  Forall (fun f => d ∉ chars f) (p :: ps) -> Forall (fun f => d ∉ chars f) (q :: qs) ->
  Join p sep ps = Join q sep qs -> p = q /\ ps = qs.
Proof.
  intros Hd. revert q qs p. induction ps as [|x ps IH]; intros q qs p Hp Hq E.
  - destruct qs as [|y qs]; [by split|].
    exfalso. rewrite Join_cons in E. apply (f_equal chars) in E. cbn in E.
    rewrite !chars_app, Hd in E. apply Forall_cons in Hp as [Hp _]. apply Hp. rewrite E.
    apply elem_of_app. right. apply elem_of_app. left. apply list_elem_of_here.
  - destruct qs as [|y qs].
    + exfalso. rewrite Join_cons in E. apply (f_equal chars) in E. cbn in E.
      rewrite !chars_app, Hd in E. apply Forall_cons in Hq as [Hq _]. apply Hq. rewrite <- E.
      apply elem_of_app. right. apply elem_of_app. left. apply list_elem_of_here.
    + rewrite !Join_cons in E.
      apply Forall_cons in Hp as [Hp Hps]. apply Forall_cons in Hq as [Hq Hqs].
      assert (length (chars p) = length (chars q)) as Hlen.
      { apply (f_equal chars) in E. rewrite !chars_app, Hd in E.
        pose proof (lfind_skip d (tail (chars sep)) (chars p) (chars (Join x sep ps)) Hp) as E1.
        pose proof (lfind_skip d (tail (chars sep)) (chars q) (chars (Join y sep qs)) Hq) as E2.
        rewrite E in E1. congruence. }
      assert (p = q) as ->.
      { apply (f_equal chars) in E. rewrite !chars_app in E.
        apply chars_inj. by eapply app_inj_1 in E as [? _]. }
      apply string_app_inj_l in E. apply string_app_inj_l in E.
      destruct (IH _ _ _ Hps Hqs E) as [-> ->]. done.
Qed.

(** ** Path validation *)

(** The reference: the components of a path between ['/'] characters. *)
Fixpoint components (s : list ascii) : list (list ascii) :=
  match s with
  | [] => [[]]
  | c :: s' =>
      if bool_decide (c = "/"%char) then [] :: components s'
      else match components s' with
           | h :: t => (c :: h) :: t
           | [] => [[c]]
           end
  end.

Definition at_start (a : list ascii) : Prop := a = [] \/ last a = Some "/"%char.
Definition at_end (b : list ascii) : Prop := b = [] \/ head b = Some "/"%char.

Lemma components_cons s : exists h t, components s = h :: t.
Proof.
  destruct s as [|c s]; cbn; [by eexists _, _|]. case_bool_decide; [by eexists _, _|].
  destruct (components s); by eexists _, _.
Qed.

Lemma at_start_cons c a : a <> [] -> at_start (c :: a) <-> at_start a.
Proof.
  intros Ha. unfold at_start. destruct a as [|x a]; [done|]. cbn.
  split; intros [|]; try done; by right.
Qed.

Lemma components_head s h t :
  components s = h :: t <->
  exists b, s = h ++ b /\ ("/"%char ∉ h) /\ at_end b /\
    t = match b with [] => [] | _ :: b' => components b' end.
Proof.
  revert h t. induction s as [|c s IH]; intros h t; cbn.
  - split.
    + intros [= <- <-]. exists []. split_and!; [done| by apply not_elem_of_nil | by left | done].
    + intros (b & E & _ & _ & ->). symmetry in E. apply app_eq_nil in E as [-> ->]. done.
  - case_bool_decide as Hc.
    + subst c. split.
      * intros [= <- <-]. eexists. split_and!; [done| by apply not_elem_of_nil | by right | done].
      * intros (b & E & Hh & Hb & ->). destruct h as [|x h].
        -- cbn in E. by subst b.
        -- cbn in E. injection E as <- _. exfalso. apply Hh. apply list_elem_of_here.
    + destruct (components_cons s) as (h0 & t0 & E0). rewrite E0.
      destruct (proj1 (IH h0 t0) E0) as (b0 & -> & Hh0 & Hb0 & ->). split.
      * intros [= <- <-]. exists b0. split_and!; [done| |done|done].
        rewrite elem_of_cons. by intros [?|?].
      * intros (b & E & Hh & Hb & ->). destruct h as [|x h].
        { cbn in E. subst b. destruct Hb as [?|[= ?]]; [done|]. by subst. }
        cbn in E. injection E as <- E.
        assert (Hh' : "/"%char ∉ h) by (intros ?; apply Hh; by right).
        assert (components (h0 ++ b0) = h :: match b with [] => [] | _ :: b' => components b' end) as E1 by (apply IH; rewrite E; by exists b).
        rewrite E0 in E1. by injection E1 as -> ->.
Qed.

(** A component is a maximal segment free of ['/']. *)
Lemma components_elem s x :
  x ∈ components s <->
  exists a b, s = a ++ x ++ b /\ ("/"%char ∉ x) /\ at_start a /\ at_end b.
Proof.
  remember (length s) as n eqn:Hn. revert s Hn. induction (lt_wf n) as [n _ IH].
  intros s ->. destruct (components_cons s) as (h & t & E).
  destruct (proj1 (components_head s h t) E) as (b & Es & Hh & Hb & Ht). rewrite E, elem_of_cons.
  split.
  - intros [->|Hx].
    + exists [], b. split_and!; [done|done|by left|done].
    + subst t. destruct b as [|c b']; [by apply not_elem_of_nil in Hx|].
      apply (IH (length b')) in Hx as (a & e & -> & Hx & Ha & He); [|subst s; rewrite length_app; cbn; lia|done].
      exists (h ++ c :: a), e. split_and!; [|done| |done].
      * rewrite Es, <- !app_assoc. done.
      * right. destruct Hb as [?|[= ->]]; [done|]. rewrite last_app_cons.
        destruct Ha as [->|Ha]; [done|]. destruct a; [done|]. done.
  - intros (a & e & Es' & Hx & Ha & He). destruct a as [|y a'].
    + left. assert (components s = x :: match e with [] => [] | _ :: b' => components b' end) as E1.
      { apply components_head. by exists e. }
      rewrite E in E1. by injection E1.
    + right. subst t. assert (Hlen : (length h <= length a')).
      { destruct (decide (length (y :: a') <= length h)) as [Hle|]; [|cbn in *; lia].
        exfalso. destruct Ha as [?|Ha]; [done|]. apply Hh.
        apply last_Some in Ha as [l Hl]. rewrite Hl in Es'. rewrite Es in Es'.
        rewrite Hl, length_app in Hle. cbn in Hle.
        apply list_elem_of_lookup. exists (length l).
        rewrite <- (lookup_app_l h b) by lia. rewrite Es', <- app_assoc. cbn [app].
        by apply list_lookup_middle. }
      assert (Hsplit : exists c a'', y :: a' = h ++ c :: a'' /\ b = c :: a'' ++ x ++ e).
      { exists (default "/"%char ((y :: a') !! length h)), (drop (S (length h)) (y :: a')).
        assert (h = take (length h) (y :: a')) as Hh'.
        { rewrite Es in Es'. apply (f_equal (take (length h))) in Es'.
          rewrite take_app_length in Es'. rewrite take_app_le in Es' by (cbn; lia). done. }
        destruct (lookup_lt_is_Some_2 (y :: a') (length h)) as [c Hc]; [cbn; lia|].
        rewrite Hc. cbn [default from_option].
        assert (y :: a' = h ++ c :: drop (S (length h)) (y :: a')) as E2.
        { rewrite Hh' at 1. by rewrite take_drop_middle. }
        split; [done|]. rewrite Es in Es'. rewrite E2 in Es'.
        rewrite <- app_assoc in Es'. by apply app_inv_head in Es'. }
      destruct Hsplit as (c & a'' & Ea & ->). apply (IH (length (a'' ++ x ++ e)));
        [rewrite Es, !length_app; cbn; rewrite !length_app; lia|done|].
      exists a'', e. split_and!; [done|done| |done].
      destruct Ha as [?|Ha]; [done|]. rewrite Ea, last_app_cons in Ha.
      destruct a''; [by left|]. by right.
Qed.

Definition dotdot : list ascii := ["."; "."]%char.
Definition leading : list ascii := ["."; "."; "/"]%char.
Definition trailing : list ascii := ["/"; "."; "."]%char.

(** Occurrences of ["../"] never overlap. *)
Lemma leading_no_overlap s i j :
  occurs_at leading s i -> occurs_at leading s j -> i < j -> i + 3 <= j.
Proof.
  intros [[b Hb] _] [[c Hc] _] Hij.
  assert (drop j s = drop (j - i) (leading ++ b)) as E.
  { rewrite <- Hb, drop_drop. f_equal. lia. }
  rewrite Hc in E. destruct (decide (j = i + 1)) as [->|].
  { replace (i + 1 - i) with 1 in E by lia. done. }
  destruct (decide (j = i + 2)) as [->|]; [|lia].
  replace (i + 2 - i) with 2 in E by lia. done.
Qed.

(** An occurrence of ["../"] that starts a component. *)
Definition bad_leading (s : list ascii) (i : nat) : Prop :=
  occurs_at leading s i /\ (i = 0 \/ s !! (i - 1) = Some "/"%char).

Lemma IsValidPath_loop_spec fuel path pos :
  0 < fuel -> size path < fuel + pos ->
  exists b, IsValidPath_loop fuel path (find path "../" pos) = Some b /\
    (b = true <-> exists i, pos <= i /\ bad_leading (chars path) i).
Proof.
  revert pos. induction fuel as [|fuel IH]; intros pos Hf0 Hf; [lia|].
  destruct (find path "../" pos) as [p|] eqn:E; cbn.
    + apply find_spec in E as (Hp & Ho & Hm).
      destruct ((p =? 0) || bool_decide (chars path !! (p - 1) = Some "/"%char)) eqn:Hb.
      * exists true. split; [done|]. split; [|done]. intros _. exists p. split; [done|]. split; [done|].
        apply orb_true_iff in Hb as [Hb|Hb]; [left; by apply Nat.eqb_eq|].
        right. by apply bool_decide_eq_true in Hb.
      * apply orb_false_iff in Hb as [Hb1 Hb2]. apply Nat.eqb_neq in Hb1.
        apply bool_decide_eq_false in Hb2.
        pose proof (occurs_at_length _ _ _ Ho) as Hl. unfold size in Hf. cbn in Hl.
        destruct (IH (p + 3)) as (b & Eb & Hiff); [lia|unfold size; lia|]. exists b. split; [done|].
        rewrite Hiff. split; intros (i & Hi & Hbad); exists i; (split; [|done]); [lia|].
        destruct Hbad as [Hoi Hst]. destruct (decide (i = p)) as [->|]; [by destruct Hst|].
        destruct (decide (i < p)); [by destruct (Hm i)|].
        eapply leading_no_overlap; [exact Ho|exact Hoi|lia].
    + exists false. split; [done|]. split; [done|]. intros (i & Hi & [Ho _]).
      by eapply find_None_spec in E.
Qed.

Lemma bad_leading_split s :
  (exists i, bad_leading s i) <->
  exists a b, s = a ++ leading ++ b /\ at_start a.
Proof.
  split.
  - intros (i & Ho & Hst). destruct (occurs_at_split _ _ _ Ho) as [b Hb].
    destruct Ho as [_ Hi]. exists (take i s), b. split; [done|].
    destruct Hst as [->|Hc]; [by left|].
    destruct (decide (i = 0)) as [->|]; [by left|]. right.
    rewrite last_lookup, length_take, Nat.min_l by done.
    rewrite lookup_take_lt by lia. by replace (pred i) with (i - 1) by lia.
  - intros (a & b & -> & Ha). exists (length a). split; [apply occurs_at_app|].
    destruct Ha as [->|Ha]; [by left|]. right. rewrite last_lookup in Ha.
    assert (0 < length a) by (destruct a; [done|cbn; lia]).
    rewrite lookup_app_l by lia. by replace (length a - 1) with (pred (length a)) by lia.
Qed.

(** The parent-directory component, by where it stands in the path. *)
Lemma dotdot_cases s :
  dotdot ∈ components s <->
  s = dotdot \/ (exists i, bad_leading s i) \/ exists a, s = a ++ trailing.
Proof.
  rewrite components_elem, bad_leading_split. split.
  - intros (a & b & -> & _ & Ha & [->|Hb]).
    + destruct Ha as [->|Ha]; [by left|]. right. right.
      apply last_Some in Ha as [l ->]. exists l. by rewrite <- app_assoc.
    + right. left. destruct b as [|c b]; [done|]. injection Hb as ->. by exists a, b.
  - assert (Hd : "/"%char ∉ dotdot) by by_decide.
    intros [->|[(a & b & -> & Ha)|(a & ->)]].
    + exists [], []. split_and!; [done|done|by left|by left].
    + exists a, ("/"%char :: b). split_and!; [done|done|done|by right].
    + exists (a ++ ["/"%char]), []. split_and!; [by rewrite <- app_assoc|done| |by left].
      right. apply last_snoc.
Qed.

Lemma rfind_trailing path :
  (exists a, chars path = a ++ trailing) <->
  exists pos, rfind path "/.." = Some pos /\ size path - pos = 3.
Proof.
  unfold rfind, size. change (chars "/..") with trailing. split.
  - intros [a Ha]. assert (Ho : occurs_at trailing (chars path) (length a)).
    { rewrite Ha. rewrite <- (app_nil_r trailing) at 2. apply occurs_at_app. }
    destruct (lrfind trailing (chars path)) as [i|] eqn:E.
    + apply lrfind_Some in E as [Hi Hmax]. exists i. split; [done|].
      pose proof (occurs_at_length _ _ _ Hi) as Hl. cbn in Hl.
      assert (length (chars path) = length a + 3) by (rewrite Ha, length_app; done).
      destruct (decide (i < length a)); [by destruct (Hmax (length a))|]. lia.
    + by eapply lrfind_None in E.
  - intros (i & E & Hi). apply lrfind_Some in E as [Ho _].
    destruct (occurs_at_split _ _ _ Ho) as [b Hb]. pose proof (occurs_at_length _ _ _ Ho) as Hl.
    exists (take i (chars path)).
    assert (Hlb : length b = 0).
    { apply (f_equal length) in Hb. rewrite !length_app, length_take in Hb. cbn in *. lia. }
    destruct b; [by rewrite app_nil_r in Hb|done].
Qed.

(** Path validation is exact: on every path the scan terminates, and it
    accepts precisely the paths without a backslash none of whose components
    between slashes is the parent directory. *)
Lemma IsValidPath_spec path :
  exists b, IsValidPath path = Some b /\
    (b = true <-> ("\"%char ∉ chars path) /\ (dotdot ∉ components (chars path))).
Proof.
  destruct (IsValidPath_loop_spec (S (size path)) path 0) as (b & Eb & Hb); [lia|lia|].
  assert (Hlead : b = true <-> exists i, bad_leading (chars path) i).
  { rewrite Hb. split; [intros (i & _ & Hi); by exists i|].
    intros (i & Hi). exists i. split; [lia|done]. }
  assert (Hdd : path = ".." <-> chars path = dotdot).
  { split; [by intros ->|]. intros E. by apply chars_inj. }
  pose proof (dotdot_cases (chars path)) as Hc. rewrite rfind_trailing, <- Hlead, <- Hdd in Hc.
  unfold IsValidPath, contains_char. rewrite Eb.
  do 2 case_bool_decide; cbn; try (eexists; split; [done|]; naive_solver).
  destruct b; [eexists; split; [done|]; naive_solver|].
  destruct (rfind path "/..") as [pos|]; (eexists; split; [done|]).
  - rewrite negb_true_iff, Nat.eqb_neq. naive_solver.
  - naive_solver.
Qed.

(** ** Batches *)

(** The slices [BatchProcess] cuts, in order. *)
Fixpoint batches {T} (fuel : nat) (value : list T) (n : nat) : list (list T) :=
  match fuel, value with
  | S fuel, _ :: _ => take n value :: batches fuel (drop n value) n
  | _, _ => []
  end.

Lemma take_min {T} n (l : list T) : take (Nat.min n (length l)) l = take n l.
Proof.
  destruct (Nat.min_spec n (length l)) as [[_ ->]|[? ->]]; [done|].
  rewrite firstn_all. symmetry. by apply take_ge.
Qed.

Lemma drop_min {T} n (l : list T) : drop (Nat.min n (length l)) l = drop n l.
Proof.
  destruct (Nat.min_spec n (length l)) as [[_ ->]|[? ->]]; [done|].
  rewrite skipn_all. symmetry. by apply drop_ge.
Qed.

(** The reference run of the batches: stop at the first failing one. *)
Fixpoint run_batches {T S} (bs : list (list T)) (action : S -> list T -> S * bool) (s : S)
    : S * bool :=
  match bs with
  | [] => (s, true)
  | b :: bs' => let (s', ok) := action s b in
                if ok then run_batches bs' action s' else (s', false)
  end.

Lemma BatchProcess_loop_spec {T S} fuel (value : list T) n (action : S -> list T -> S * bool) s :
  0 < n -> length value < fuel ->
  BatchProcess_loop fuel value n action s = Some (run_batches (batches fuel value n) action s).
Proof.
  intros Hn. revert value s. induction fuel as [|fuel IH]; intros value s Hf; [lia|].
  destruct value as [|x value]; [done|]. cbn [BatchProcess_loop batches run_batches].
  rewrite take_min, drop_min. destruct (action s _) as [s' []]; [|done].
  apply IH. rewrite length_drop. cbn in *. lia.
Qed.

Lemma batches_concat {T} fuel (value : list T) n :
  0 < n -> length value < fuel -> concat (batches fuel value n) = value.
Proof.
  intros Hn. revert value. induction fuel as [|fuel IH]; intros value Hf; [lia|].
  destruct value as [|x value]; [done|]. cbn [batches concat].
  rewrite IH; [by rewrite take_drop|]. rewrite length_drop. cbn in *. lia.
Qed.

Lemma batches_size {T} fuel (value : list T) n :
  0 < n -> Forall (fun b => b <> [] /\ length b <= n) (batches fuel value n).
Proof.
  intros Hn. revert value. induction fuel as [|fuel IH]; intros value; [constructor|].
  destruct value as [|x value]; [constructor|]. cbn [batches]. constructor; [|done].
  destruct n as [|n]; [lia|]. split; [done|]. rewrite length_take. lia.
Qed.

(** Batching terminates for every positive batch size and calls the action
    on non-empty slices of at most that size, which concatenated are the whole
    vector, in order, stopping at the first slice the action refuses. *)
Lemma BatchProcess_spec {T S} (value : list T) n (action : S -> list T -> S * bool) s :
  0 < n ->
  exists bs, BatchProcess value n action s = Some (run_batches bs action s) /\
    concat bs = value /\ Forall (fun b => b <> [] /\ length b <= n) bs.
Proof.
  intros Hn. exists (batches (Datatypes.S (length value)) value n). split_and!.
  - apply BatchProcess_loop_spec; [done|lia].
  - apply batches_concat; [done|lia].
  - by apply batches_size.
Qed.
End Constant.

Lemma BatchProcess_spec_witness :
  exists bs, Constant.BatchProcess [1; 2; 3; 4; 5] 2
      (fun s b => (s ++ [b], true)) [] = Some (Constant.run_batches bs (fun s b => (s ++ [b], true)) []) /\
    concat bs = [1; 2; 3; 4; 5] /\ Forall (fun b => b <> [] /\ length b <= 2) bs.
Proof. apply Constant.BatchProcess_spec. lia. Defined.
