(* ===== verification/Base64.v ===== *)
(** * Base64 codec ([framework/utils/base64_utils.cpp])

    The encoder and the decoder are loops over the input that fill a small
    array; the arrays are modelled as lists updated in place, bytes as [Z] in
    [0, 256), characters as [ascii]. *)

From S2P Require Import Prelude CppString.
From Stdlib Require Import Ascii.

Module Base64.

(* @src framework/utils/base64_utils.cpp 22-25 BASE64_CHARS *)
Definition BASE64_CHARS : list ascii :=
  chars "ABCDEFGHIJKLMNOPQRSTUVWXYZabcdefghijklmnopqrstuvwxyz0123456789+/".

(** [isalnum] in the C locale. *)
Definition isalnum (c : ascii) : bool :=
  let b := byte_of c in
  ((48 <=? b) && (b <=? 57)) || ((65 <=? b) && (b <=? 90)) || ((97 <=? b) && (b <=? 122)).

(* @src framework/utils/base64_utils.cpp 59-62 IsBase64Char *)
Definition IsBase64Char (c : ascii) : bool :=
  isalnum c || bool_decide (c = "+"%char) || bool_decide (c = "/"%char).

(** [BASE64_CHARS[idx]] and [BASE64_CHARS.find(c)]. *)
Definition base64_at (idx : Z) : ascii := BASE64_CHARS !!! Z.to_nat idx.
Definition base64_find (c : ascii) : option Z := Z.of_nat <$> (fst <$> list_find (eq c) BASE64_CHARS).

(* @src framework/utils/base64_utils.cpp 64-78 MakeCharFour *)
Definition MakeCharFour (three : list Z) : list Z :=
  [ u8 (Z.shiftr (Z.land (three !!! 0%nat) 0xfc) 2);
    u8 (Z.shiftl (Z.land (three !!! 0%nat) 0x03) 4 + Z.shiftr (Z.land (three !!! 1%nat) 0xf0) 4);
    u8 (Z.shiftl (Z.land (three !!! 1%nat) 0x0f) 2 + Z.shiftr (Z.land (three !!! 2%nat) 0xc0) 6);
    u8 (Z.land (three !!! 2%nat) 0x3f) ].

(* @src framework/utils/base64_utils.cpp 80-94 MakeCharTree *)
Definition MakeCharTree (four : list Z) : list Z :=
  [ u8 (Z.shiftl (four !!! 0%nat) 2 + Z.shiftr (Z.land (four !!! 1%nat) 0x30) 4);
    u8 (Z.shiftl (Z.land (four !!! 1%nat) 0xf) 4 + Z.shiftr (Z.land (four !!! 2%nat) 0x3c) 2);
    u8 (Z.shiftl (Z.land (four !!! 2%nat) 0x3) 6 + four !!! 3%nat) ].

(** The [while] loop of [Encode]: the array, the fill index and the output. *)
Fixpoint Encode_loop (source : list Z) (index : nat) (three : list Z) (ret : list ascii)
    : nat * list Z * list ascii :=
  match source with
  | [] => (index, three, ret)
  | x :: source' =>
      let three := <[index := x]> three in
      let index := S index in
      if (index =? 3)%nat
      then Encode_loop source' 0 three (ret ++ (base64_at <$> MakeCharFour three))
      else Encode_loop source' index three ret
  end.

(* @src framework/utils/base64_utils.cpp 96-135 Encode *)
Definition Encode (source : list Z) : string :=
  let '(index, three, ret) := Encode_loop source 0 [0; 0; 0] [] in
  if (index =? 0)%nat then str_of ret
  else
    let three := take index three ++ replicate (3 - index) 0 in
    let four := MakeCharFour three in
    str_of (ret ++ (base64_at <$> take (index + 1) four) ++ replicate (3 - index) "="%char).

(** The [while] loop of [Decode]. *)
Fixpoint Decode_loop (encoded : list ascii) (index : nat) (four : list Z) (ret : list Z)
    : nat * list Z * list Z :=
  match encoded with
  | c :: encoded' =>
      if IsBase64Char c then
        let four := <[index := byte_of c]> four in
        let index := S index in
        if (index =? 4)%nat then
          (* [find] yields a [size_t]; [npos] becomes 255 when stored in a byte *)
          let four := (fun b => u8 (default (2 ^ 64 - 1) (base64_find (char_of b)))) <$> four in
          Decode_loop encoded' 0 four (ret ++ MakeCharTree four)
        else Decode_loop encoded' index four ret
      else (index, four, ret)
  | [] => (index, four, ret)
  end.

(* @src framework/utils/base64_utils.cpp 137-180 Decode *)
Definition Decode (encoded : string) : list Z :=
  let '(index, four, ret) := Decode_loop (chars encoded) 0 [0; 0; 0; 0] [] in
  if (index =? 0)%nat then ret
  else
    let four := take index four ++ replicate (4 - index) 0 in
    let four := (fun i => default i (u8 <$> base64_find (char_of i))) <$> four in
    ret ++ take (index - 1) (MakeCharTree four).

(** ** The alphabet *)

Lemma alphabet_check :
  forallb (fun n => let i := Z.of_nat n in
      IsBase64Char (base64_at i) && bool_decide (base64_find (base64_at i) = Some i)) (seq 0 64)
  = true.
Proof. vm_compute. reflexivity. Qed.

Lemma alphabet i : 0 <= i < 64 ->
  IsBase64Char (base64_at i) = true /\ base64_find (base64_at i) = Some i.
Proof.
  intros Hi. pose proof alphabet_check as H. rewrite forallb_forall in H.
  specialize (H (Z.to_nat i)). rewrite Z2Nat.id in H by lia.
  rewrite in_seq in H. destruct (andb_prop _ _ (H ltac:(lia))) as [H1 H2].
  split; [done|]. by apply bool_decide_eq_true in H2.
Qed.

Lemma IsBase64Char_at i : 0 <= i < 64 -> IsBase64Char (base64_at i) = true.
Proof. intros. by apply alphabet. Qed.


Lemma base64_find_char i : 0 <= i < 64 ->
  base64_find (char_of (byte_of (base64_at i))) = Some i.
Proof. intros Hi. rewrite char_of_byte_of. by apply alphabet. Qed.

Lemma find_nul : base64_find (char_of 0) = None.
Proof. vm_compute. reflexivity. Qed.

Abbreviation is_byte b := (in_u 8 b) (only parsing).

(** Equality of two lists of arithmetic expressions, element by element. *)
Ltac list_arith :=
  repeat (apply (f_equal2 cons); [Z.div_mod_to_equations; lia|]); reflexivity.

(** ** The packing is a bijection on three bytes *)

Lemma four_arith x y z : is_byte x -> is_byte y -> is_byte z ->
  MakeCharFour [x; y; z] =
  [x / 4; (x mod 4) * 16 + y / 16; (y mod 16) * 4 + z / 64; z mod 64].
Proof.
  unfold in_u, MakeCharFour. cbn [lookup_total list_lookup_total]. intros Hx Hy Hz.
  change (Z.land x 3) with (Z.land x (Z.ones 2)). change (Z.land y 15) with (Z.land y (Z.ones 4)).
  change (Z.land z 63) with (Z.land z (Z.ones 6)).
  rewrite !Z.shiftr_land. change (Z.shiftr 252 2) with (Z.ones 6).
  change (Z.shiftr 240 4) with (Z.ones 4). change (Z.shiftr 192 6) with (Z.ones 2).
  rewrite !Z.land_ones, !Z.shiftr_div_pow2, !Z.shiftl_mul_pow2 by lia.
  change (2 ^ 2) with 4. change (2 ^ 4) with 16. change (2 ^ 6) with 64.
  unfold wrap. change (2 ^ 8) with 256 in *.
  list_arith.
Qed.

Lemma tree_arith a b c d :
  0 <= a < 64 -> 0 <= b < 64 -> 0 <= c < 64 -> 0 <= d < 64 ->
  MakeCharTree [a; b; c; d] =
  [a * 4 + b / 16; (b mod 16) * 16 + c / 4; (c mod 4) * 64 + d].
Proof.
  unfold MakeCharTree. cbn [lookup_total list_lookup_total]. intros Ha Hb Hc Hd.
  change (Z.land b 15) with (Z.land b (Z.ones 4)). change (Z.land c 3) with (Z.land c (Z.ones 2)).
  rewrite !Z.shiftr_land. change (Z.shiftr 48 4) with (Z.ones 2).
  change (Z.shiftr 60 2) with (Z.ones 4).
  rewrite !Z.land_ones, !Z.shiftr_div_pow2, !Z.shiftl_mul_pow2 by lia.
  change (2 ^ 2) with 4. change (2 ^ 4) with 16. change (2 ^ 6) with 64.
  unfold wrap. change (2 ^ 8) with 256 in *.
  list_arith.
Qed.

Lemma tree_four x y z : is_byte x -> is_byte y -> is_byte z ->
  MakeCharTree (MakeCharFour [x; y; z]) = [x; y; z].
Proof.
  intros Hx Hy Hz. rewrite four_arith by done. unfold in_u in *. change (2 ^ 8) with 256 in *.
  rewrite tree_arith by (Z.div_mod_to_equations; lia).
  list_arith.
Qed.

Lemma four_range x y z : is_byte x -> is_byte y -> is_byte z ->
  exists a b c d, MakeCharFour [x; y; z] = [a; b; c; d] /\
    0 <= a < 64 /\ 0 <= b < 64 /\ 0 <= c < 64 /\ 0 <= d < 64.
Proof.
  intros Hx Hy Hz. rewrite four_arith by done. unfold in_u in *. change (2 ^ 8) with 256 in *.
  do 4 eexists. split; [done|]. Z.div_mod_to_equations. lia.
Qed.

(** ** Blocks of three bytes and of four characters *)

Lemma Encode_loop_block x y z src three ret : length three = 3%nat ->
  Encode_loop (x :: y :: z :: src) 0 three ret =
  Encode_loop src 0 [x; y; z] (ret ++ (base64_at <$> MakeCharFour [x; y; z])).
Proof. intros H. destruct three as [|? [|? [|? [|]]]]; done. Qed.

Lemma Decode_loop_block x y z rest four ret :
  is_byte x -> is_byte y -> is_byte z -> length four = 4%nat ->
  exists four', length four' = 4%nat /\
  Decode_loop ((base64_at <$> MakeCharFour [x; y; z]) ++ rest) 0 four ret =
  Decode_loop rest 0 four' (ret ++ [x; y; z]).
Proof.
  intros Hx Hy Hz Hl. destruct (four_range x y z) as (a & b & c & d & E & Ha & Hb & Hc & Hd); [done..|].
  exists (MakeCharFour [x; y; z]). split; [done|].
  rewrite <- (tree_four x y z) at 3 by done. rewrite E.
  destruct four as [|? [|? [|? [|? [|]]]]]; try done.
  cbn [fmap list_fmap app Decode_loop].
  rewrite !IsBase64Char_at by done. cbn [Nat.eqb insert list_insert fmap list_fmap].
  rewrite !base64_find_char by done. cbn [default from_option id].
  rewrite !wrap_id by (unfold in_u; lia). done.
Qed.

Lemma Encode_loop_acc src index three ret :
  Encode_loop src index three ret =
  let '(i, t, r) := Encode_loop src index three [] in (i, t, ret ++ r).
Proof.
  revert index three ret. induction src as [|x src IH]; intros index three ret; cbn.
  - by rewrite app_nil_r.
  - case_match; [|done]. rewrite IH. symmetry. rewrite IH.
    destruct (Encode_loop src 0 _ []) as [[i t] r]. by rewrite app_assoc.
Qed.

(** The encoding of a block followed by more bytes, as text. *)
Lemma Encode_block x y z src :
  chars (Encode (x :: y :: z :: src)) =
  (base64_at <$> MakeCharFour [x; y; z]) ++ chars (Encode src).
Proof.
  unfold Encode. rewrite Encode_loop_block by done. rewrite Encode_loop_acc.
  assert (E : forall src t, length t = 3%nat ->
     let '(i, t1, r1) := Encode_loop src 0 t [] in
     let '(j, t2, r2) := Encode_loop src 0 [0; 0; 0] [] in
     i = j /\ r1 = r2 /\ take i t1 = take i t2).
  { clear. intros src t Ht. destruct t as [|a [|b [|c [|]]]]; try done.
    destruct src as [|x [|y [|z src]]]; [done..|]. rewrite !Encode_loop_block by done.
    destruct (Encode_loop src 0 _ _) as [[??]?]. done. }
  specialize (E src [x; y; z] eq_refl).
  destruct (Encode_loop src 0 [x; y; z] []) as [[i t1] r1].
  destruct (Encode_loop src 0 [0; 0; 0] []) as [[j t2] r2]. destruct E as (-> & -> & Et).
  rewrite Et. cbn [app]. case_match; rewrite !chars_str_of; [done|].
  by rewrite !app_assoc.
Qed.

(** The last, partial block. *)
Lemma Decode_tail src four ret :
  Forall (fun b => is_byte b) src -> (length src < 3)%nat -> length four = 4%nat ->
  let '(index, f, r) := Decode_loop (chars (Encode src)) 0 four ret in
  (if (index =? 0)%nat then r
   else r ++ take (index - 1)
     (MakeCharTree ((fun i => default i (u8 <$> base64_find (char_of i))) <$>
        (take index f ++ replicate (4 - index) 0)))) = ret ++ src.
Proof.
  intros Hb Hl Hf. destruct four as [|f0 [|f1 [|f2 [|f3 [|]]]]]; try done.
  destruct src as [|x [|y [|z src]]]; [by rewrite app_nil_r| | |cbn in Hl; lia].
  - apply Forall_cons in Hb as [Hx _].
    destruct (four_range x 0 0) as (a & b & c & d & E & Ha & Hb & Hc & Hd); [done|by_decide..|].
    pose proof (tree_four x 0 0 Hx ltac:(by_decide) ltac:(by_decide)) as T.
    rewrite four_arith in E by (first [done|by_decide]). injection E as Ea Eb Ec Ed.
    unfold Encode. cbn [Encode_loop insert list_insert Nat.eqb take replicate app Nat.sub Nat.add].
    rewrite chars_str_of, (four_arith x 0 0) by (first [done|by_decide]).
    rewrite Ea, Eb, Ec, Ed. cbn [fmap list_fmap app take Decode_loop].
    rewrite !IsBase64Char_at by done. cbn [Nat.eqb insert list_insert].
    change (IsBase64Char "=") with false. cbn iota.
    cbn [Nat.eqb Nat.sub take replicate app fmap list_fmap].
    rewrite !base64_find_char, find_nul by done. cbn [default from_option id fmap option_fmap option_map].
    rewrite !wrap_id by (unfold in_u; lia). rewrite four_arith in T by (first [done|by_decide]).
    assert (c = 0 /\ d = 0) as [-> ->].
    { unfold in_u in Hx. Z.div_mod_to_equations. lia. }
    rewrite Ea, Eb, Ec, Ed in T. by rewrite T.
  - apply Forall_cons in Hb as [Hx Hb]. apply Forall_cons in Hb as [Hy _].
    destruct (four_range x y 0) as (a & b & c & d & E & Ha & Hb & Hc & Hd); [done|done|by_decide|].
    pose proof (tree_four x y 0 Hx Hy ltac:(by_decide)) as T.
    rewrite four_arith in E by (first [done|by_decide]). injection E as Ea Eb Ec Ed.
    unfold Encode. cbn [Encode_loop insert list_insert Nat.eqb take replicate app Nat.sub Nat.add].
    rewrite chars_str_of, (four_arith x y 0) by (first [done|by_decide]).
    rewrite Ea, Eb, Ec, Ed. cbn [fmap list_fmap app take Decode_loop].
    rewrite !IsBase64Char_at by done. cbn [Nat.eqb insert list_insert].
    change (IsBase64Char "=") with false. cbn iota.
    cbn [Nat.eqb Nat.sub take replicate app fmap list_fmap].
    rewrite !base64_find_char, find_nul by done. cbn [default from_option id fmap option_fmap option_map].
    rewrite !wrap_id by (unfold in_u; lia). rewrite four_arith in T by (first [done|by_decide]).
    assert (d = 0) as -> by (Z.div_mod_to_equations; lia).
    rewrite Ea, Eb, Ec, Ed in T. by rewrite T.
Qed.

Lemma Decode_Encode_gen src four ret :
  Forall (fun b => is_byte b) src -> length four = 4%nat ->
  let '(index, f, r) := Decode_loop (chars (Encode src)) 0 four ret in
  (if (index =? 0)%nat then r
   else r ++ take (index - 1)
     (MakeCharTree ((fun i => default i (u8 <$> base64_find (char_of i))) <$>
        (take index f ++ replicate (4 - index) 0)))) = ret ++ src.
Proof.
  remember (length src) as n eqn:Hn. revert src Hn four ret.
  induction (lt_wf n) as [n _ IH]. intros src -> four ret Hb Hf.
  destruct src as [|x [|y [|z src]]]; try (apply Decode_tail; [done|cbn; lia|done]).
  apply Forall_cons in Hb as [Hx Hb]. apply Forall_cons in Hb as [Hy Hb].
  apply Forall_cons in Hb as [Hz Hb]. rewrite Encode_block.
  destruct (Decode_loop_block x y z (chars (Encode src)) four ret) as (four' & Hf' & ->); [done..|].
  specialize (IH (length src) ltac:(cbn; lia) src eq_refl four' (ret ++ [x; y; z]) Hb Hf').
  rewrite <- app_assoc in IH. exact IH.
Qed.

(** Decoding the encoding of any byte sequence returns that sequence. *)
Lemma Decode_Encode src : Forall (fun b => is_byte b) src -> Decode (Encode src) = src.
Proof.
  intros Hb. pose proof (Decode_Encode_gen src [0; 0; 0; 0] [] Hb eq_refl) as H.
  unfold Decode. destruct (Decode_loop _ _ _ _) as [[i f] r].
  destruct (i =? 0)%nat; exact H.
Qed.

(** The encoding of [n] bytes has [4 * ceil(n / 3)] characters. *)
Lemma Encode_length src :
  Z.of_nat (size (Encode src)) = 4 * ((Z.of_nat (length src) + 2) / 3).
Proof.
  remember (length src) as n eqn:Hn. revert src Hn.
  induction (lt_wf n) as [n _ IH]. intros src ->. unfold size in *.
  destruct src as [|x [|y [|z src]]]; [done..|].
  rewrite Encode_block, length_app, length_fmap. cbn [length MakeCharFour].
  rewrite Nat2Z.inj_add, (IH (length src) ltac:(cbn; lia) src eq_refl).
  Z.div_mod_to_equations. lia.
Qed.
End Base64.

Lemma Decode_Encode_witness : Base64.Decode (Base64.Encode [77; 97; 110; 255; 0]) = [77; 97; 110; 255; 0].
Proof. apply Base64.Decode_Encode. by_decide. Defined.
