(* ===== verification/QueryHelper.v ===== *)
(** * Parsing of serialized KV queries ([service/kvdb/query_helper.cpp])

    A client sends a query as one string of space separated words; the helper
    tokenizes it and replays it on a [DistributedDB::Query] builder. The builder
    is not part of the repository: the model records the calls made to it. The
    conversion of a word to [double] and the device manager's translation of a
    network id are parameters. [words.at(i)] out of range throws; the outcome
    [Threw] makes that visible. *)

From S2P Require Import Prelude CppString.
From Stdlib Require Import Ascii.

Module QueryHelper.
Local Open Scope nat_scope.

(* @src service/kvdb/query_helper.cpp 28-28 MAX_QUERY_LENGTH *)
Definition MAX_QUERY_LENGTH : nat := 5 * 1024.
(* @src service/kvdb/query_helper.cpp 29-29 MAX_QUERY_COMPLEXITY *)
Definition MAX_QUERY_COMPLEXITY : nat := 500.

(** The keywords and type names. *)
(* @srcs service/kvdb/query_helper.cpp 34 *)
Definition EQUAL_TO := "^EQUAL".
Definition NOT_EQUAL_TO := "^NOT_EQUAL".
Definition GREATER_THAN := "^GREATER".
Definition LESS_THAN := "^LESS".
Definition GREATER_THAN_OR_EQUAL_TO := "^GREATER_EQUAL".
Definition LESS_THAN_OR_EQUAL_TO := "^LESS_EQUAL".
Definition IS_NULL := "^IS_NULL".
Definition IN := "^IN".
Definition NOT_IN := "^NOT_IN".
Definition LIKE := "^LIKE".
Definition NOT_LIKE := "^NOT_LIKE".
Definition AND := "^AND".
Definition OR := "^OR".
Definition ORDER_BY_ASC := "^ASC".
Definition ORDER_BY_DESC := "^DESC".
Definition ORDER_BY_WRITE_TIME := "^OrderByWriteTime".
Definition IS_ASC := "^IS_ASC".
Definition LIMIT := "^LIMIT".
Definition SPACE := " ".
Definition SPECIAL := "^".
Definition SPECIAL_ESCAPE := "(^)".
Definition SPACE_ESCAPE := "^^".
Definition EMPTY_STRING := "^EMPTY_STRING".
Definition START_IN := "^START".
Definition END_IN := "^END".
Definition BEGIN_GROUP := "^BEGIN_GROUP".
Definition END_GROUP := "^END_GROUP".
Definition KEY_PREFIX := "^KEY_PREFIX".
Definition DEVICE_ID := "^DEVICE_ID".
Definition IS_NOT_NULL := "^IS_NOT_NULL".
Definition TYPE_STRING := "STRING".
Definition TYPE_INTEGER := "INTEGER".
Definition TYPE_LONG := "LONG".
Definition TYPE_DOUBLE := "DOUBLE".
Definition TYPE_BOOLEAN := "BOOL".
Definition VALUE_TRUE := "true".
Definition VALUE_FALSE := "false".
Definition SUGGEST_INDEX := "^SUGGEST_INDEX".
Definition IN_KEYS := "^IN_KEYS".

Definition str_eqb (a b : string) : bool := bool_decide (a = b).
Infix "=s?" := str_eqb (at level 70).

(** A call returns a value, reports failure, or throws [std::out_of_range]. *)
Inductive outcome (A : Type) : Type :=
| Done (a : A)
| Failed
| Threw.
Arguments Done {A} a.
Arguments Failed {A}.
Arguments Threw {A}.

Definition bind {A B} (x : outcome A) (f : A -> outcome B) : outcome B :=
  match x with Done a => f a | Failed => Failed | Threw => Threw end.
Notation "'let*' x ':=' c 'in' d" := (bind c (fun x => d))
  (at level 10, x name, d at level 200).

(** [words.at(i)] *)
Definition at_ (words : list string) (i : nat) : outcome string :=
  match words !! i with Some w => Done w | None => Threw end.

(** ** Conversion of words *)

Fixpoint skip_space (l : list ascii) : list ascii :=
  match l with c :: l' => if Ascii.is_space c then skip_space l' else l | [] => [] end.

Definition clamp (lo hi z : Z) : Z := Z.max lo (Z.min hi z).

Fixpoint digits (l : list ascii) : list nat :=
  match l with
  | c :: l' => match Ascii.is_nat c with Some d => d :: digits l' | None => [] end
  | [] => []
  end.

Definition decimal (ds : list nat) : Z := fold_left (fun acc d => 10 * acc + Z.of_nat d)%Z ds 0%Z.

(** [std::istringstream(word) >> result] for a signed integer object of the
    given range: leading white space is skipped, 0 is stored when no digit
    follows, the nearest bound on overflow. When nothing but white space is left
    the extraction stores nothing, so the uninitialised object is returned:
    [None]. *)
Definition extract_int (lo hi : Z) (word : string) : option Z :=
  match skip_space (chars word) with
  | [] => None
  | c :: l =>
      if bool_decide (c = "-"%char) then Some (clamp lo hi (- decimal (digits l))%Z)
      else if bool_decide (c = "+"%char) then Some (clamp lo hi (decimal (digits l)))
      else Some (clamp lo hi (decimal (digits (c :: l))))
  end.

(* @src service/kvdb/query_helper.cpp 609-614 QueryHelper::StringToInt *)
Definition StringToInt (word : string) : option Z :=
  extract_int (- 2 ^ 31) (2 ^ 31 - 1) word.

(* @src service/kvdb/query_helper.cpp 616-621 QueryHelper::StringToLong *)
Definition StringToLong (word : string) : option Z :=
  extract_int (- 2 ^ 63) (2 ^ 63 - 1) word.

(* @src service/kvdb/query_helper.cpp 630-640 QueryHelper::StringToBoolean *)
Definition StringToBoolean (word : string) : bool :=
  if word =s? VALUE_TRUE then true
  else if word =s? VALUE_FALSE then false
  else false.

(** [result.replace(index, n, rep)] *)
Definition replace (result : string) (index n : nat) (rep : string) : string :=
  str_of (take index (chars result) ++ chars rep ++ drop (index + n) (chars result)).

(** One of the two [while (true)] loops of [StringToString]. *)
Fixpoint replace_loop (fuel : nat) (pat rep result : string) (index : nat) : option string :=
  match fuel with
  | O => None
  | S fuel =>
      match find result pat index with
      | None => Some result
      | Some i => replace_loop fuel pat rep (replace result i (size pat) rep) (i + 1)
      end
  end.

(** Fuel [size word + 1] is enough for both loops ([StringToString_subst]). *)
(* @src service/kvdb/query_helper.cpp 642-668 QueryHelper::StringToString *)
Definition StringToString_opt (word : string) : option string :=
  if word =s? EMPTY_STRING then Some ""
  else
    (r ← replace_loop (S (size word)) SPACE_ESCAPE SPACE word 0;
     replace_loop (S (size word)) SPECIAL_ESCAPE SPECIAL r 0).

Definition StringToString (word : string) : string := default "" (StringToString_opt word).

(** ** The escape layer

    [lsubst] is the reference for a replacement loop: every non-overlapping
    occurrence of the pattern, found left to right, is replaced. *)
Section Subst.
Context (pat rep : list ascii).

Fixpoint lsubst (skip : nat) (l : list ascii) : list ascii :=
  match l with
  | [] => []
  | c :: l' =>
      match skip with
      | S k => lsubst k l'
      | O => if decide (pat `prefix_of` l) then rep ++ lsubst (length pat - 1) l'
             else c :: lsubst 0 l'
      end
  end.

Lemma lsubst_skip k l : lsubst k l = lsubst 0 (drop k l).
Proof.
  revert l. induction k as [|k IH]; intros l; [by rewrite drop_0|].
  destruct l as [|c l]; [done|]. cbn. apply IH.
Qed.

Lemma lsubst_none l : (forall j, ~ occurs_at pat l j) -> lsubst 0 l = l.
Proof.
  induction l as [|c l IH]; intros Hn; [done|]. cbn [lsubst].
  rewrite decide_False by (rewrite <- occurs_at_0; apply Hn). f_equal.
  apply IH. intros j Hj. apply (Hn (S j)). by apply occurs_at_S.
Qed.

Lemma lsubst_found a b :
  pat <> [] -> (forall j, j < length a -> ~ occurs_at pat (a ++ pat ++ b) j) ->
  lsubst 0 (a ++ pat ++ b) = a ++ rep ++ lsubst 0 b.
Proof.
  intros Hp. induction a as [|c a IH]; intros Hn; cbn [app].
  - destruct pat as [|p pat'] eqn:E; [done|]. rewrite <- E in *. rewrite E at 1. cbn [app lsubst].
    rewrite decide_True by (rewrite E; by eexists). f_equal. rewrite lsubst_skip. f_equal.
    rewrite E. cbn [length]. replace (S (length pat') - 1) with (length pat') by lia.
    by rewrite drop_app_length.
  - cbn [lsubst]. rewrite decide_False by (rewrite <- occurs_at_0; apply (Hn 0); cbn; lia).
    f_equal. apply IH. intros j Hj Ho. apply (Hn (S j)); [cbn; lia|]. by apply occurs_at_S.
Qed.

Lemma lsubst_hit b : pat <> [] -> lsubst 0 (pat ++ b) = rep ++ lsubst 0 b.
Proof. intros Hp. apply (lsubst_found [] b Hp). cbn. lia. Qed.

Lemma lsubst_miss c l : ~ pat `prefix_of` (c :: l) -> lsubst 0 (c :: l) = c :: lsubst 0 l.
Proof. intros Hp. cbn [lsubst]. by rewrite decide_False. Qed.

Lemma lsubst_length : length rep = 1 -> forall k l, length (lsubst k l) <= length l.
Proof.
  intros Hr k l. revert k. induction l as [|c l IH]; intros k; [done|]. cbn [lsubst].
  destruct k as [|k]; [case_decide|].
  - rewrite length_app, Hr. cbn [length]. specialize (IH (length pat - 1)). lia.
  - cbn [length]. specialize (IH 0). lia.
  - cbn [length]. specialize (IH k). lia.
Qed.
End Subst.

Lemma replace_loop_spec fuel pat rep done l :
  chars pat <> [] -> size rep = 1 -> length l < fuel ->
  replace_loop fuel pat rep (str_of (done ++ l)) (length done)
  = Some (str_of (done ++ lsubst (chars pat) (chars rep) 0 l)).
Proof.
  intros Hp Hr. revert done l. induction fuel as [|fuel IH]; intros done l Hf; [lia|].
  cbn [replace_loop]. rewrite find_app. destruct (lfind (chars pat) l) as [i|] eqn:E; cbn.
  - apply lfind_Some in E as [Ho Hmin]. destruct (occurs_at_split _ _ _ Ho) as [b Hb].
    destruct Ho as [_ Hi]. assert (Hti : length (take i l) = i) by (rewrite length_take; lia).
    assert (Hlen : length b < length l).
    { rewrite Hb, !length_app. destruct (chars pat); [done|]. cbn. lia. }
    rewrite Hb at 2. rewrite lsubst_found; [|done|rewrite <- Hb, Hti; done].
    unfold replace. rewrite chars_str_of, take_app_add, Hb.
    replace (drop (length done + i + size pat) (done ++ take i l ++ chars pat ++ b)) with b.
    + rewrite take_app_len by done.
      specialize (IH (done ++ take i l ++ chars rep) b ltac:(lia)).
      rewrite !length_app, Hti, <- !app_assoc in IH. unfold size in Hr. rewrite Hr in IH.
      rewrite <- !app_assoc. by rewrite Nat.add_assoc in IH.
    + rewrite !app_assoc. symmetry. apply drop_app_len. unfold size.
      rewrite !length_app, Hti. lia.
  - by rewrite lsubst_none by (by apply lfind_None).
Qed.

(** The two loops always end within their fuel. *)
Lemma StringToString_subst word : word <> EMPTY_STRING ->
  StringToString_opt word =
  Some (str_of (lsubst (chars SPECIAL_ESCAPE) (chars SPECIAL) 0
                  (lsubst (chars SPACE_ESCAPE) (chars SPACE) 0 (chars word)))).
Proof.
  intros Hw. unfold StringToString_opt, str_eqb. rewrite bool_decide_eq_false_2 by done.
  pose proof (replace_loop_spec (S (size word)) SPACE_ESCAPE SPACE [] (chars word)
                ltac:(done) eq_refl ltac:(unfold size; lia)) as E1.
  cbn [app length] in E1. rewrite str_of_chars in E1. rewrite E1. cbn [mbind option_bind].
  apply (replace_loop_spec (S (size word)) SPECIAL_ESCAPE SPECIAL []); [done|done|].
  pose proof (lsubst_length (chars SPACE_ESCAPE) (chars SPACE) eq_refl 0 (chars word)) as H.
  apply Nat.lt_succ_r, H.
Qed.

(** The escaping that the decoder inverts: a caret is written as a caret in
    parentheses, a space as two carets. *)
Definition escape_char (c : ascii) : list ascii :=
  if bool_decide (c = "^"%char) then chars SPECIAL_ESCAPE
  else if bool_decide (c = " "%char) then chars SPACE_ESCAPE
  else [c].

Definition escape (s : string) : string := str_of (chars s ≫= escape_char).

(** After the first loop only the carets are still escaped. *)
Definition escape_caret (c : ascii) : list ascii :=
  if bool_decide (c = "^"%char) then chars SPECIAL_ESCAPE else [c].

Lemma prefix_cons_ne {A} (x y : A) k l : x <> y -> ~ (x :: k) `prefix_of` (y :: l).
Proof. intros Hne [r Hr]. by injection Hr. Qed.

Lemma unescape_space l :
  lsubst (chars SPACE_ESCAPE) (chars SPACE) 0 (l ≫= escape_char) = l ≫= escape_caret.
Proof.
  induction l as [|c l IH]; [done|]. cbn [mbind list_bind].
  unfold escape_char at 1, escape_caret at 1.
  case_bool_decide as Hc; [|case_bool_decide as Hs].
  - change (chars SPECIAL_ESCAPE ++ ?r) with ("(" :: "^" :: ")" :: r)%char.
    rewrite !lsubst_miss, IH; [done| | |]; intros [r Hr]; by injection Hr.
  - subst c. by rewrite lsubst_hit, IH.
  - cbn [app]. rewrite lsubst_miss, IH by (by apply prefix_cons_ne). done.
Qed.

Lemma head_caret l : head (l ≫= escape_caret) <> Some "^"%char.
Proof.
  destruct l as [|c l]; [done|]. cbn. unfold escape_caret. case_bool_decide; cbn; congruence.
Qed.

Lemma unescape_special l :
  lsubst (chars SPECIAL_ESCAPE) (chars SPECIAL) 0 (l ≫= escape_caret) = l.
Proof.
  induction l as [|c l IH]; [done|]. cbn [mbind list_bind]. unfold escape_caret at 1.
  case_bool_decide as Hc.
  - subst c. by rewrite lsubst_hit, IH.
  - cbn [app]. rewrite lsubst_miss, IH; [done|].
    intros [r Hr]. cbn in Hr. injection Hr as _ Hr.
    apply (head_caret l). refine (eq_trans (f_equal head Hr) _). done.
Qed.

Lemma escape_not_empty_string s : escape s <> EMPTY_STRING.
Proof.
  intros E. apply (f_equal chars) in E. unfold escape in E. rewrite chars_str_of in E.
  destruct (chars s) as [|c l]; [done|]. cbn in E. unfold escape_char in E.
  repeat case_bool_decide; cbn in E; simplify_eq.
Qed.

Lemma StringToString_escape_aux s : StringToString_opt (escape s) = Some s.
Proof.
  rewrite StringToString_subst by apply escape_not_empty_string.
  unfold escape. rewrite chars_str_of, unescape_space, unescape_special. by rewrite str_of_chars.
Qed.

(** The unescaping of query words terminates on every word and inverts the
    escaping of carets and spaces, whatever string was escaped. *)
Lemma StringToString_escape :
  (forall word, is_Some (StringToString_opt word)) /\
  (forall s, StringToString (escape s) = s).
Proof.
  split.
  - intros word. destruct (decide (word = EMPTY_STRING)) as [->|Hw]; [done|].
    rewrite StringToString_subst by done. done.
  - intros s. unfold StringToString. by rewrite StringToString_escape_aux.
Qed.

Section Model.
Context (double : Type) (StringToDouble : string -> double).
Context (GetUuidByNetworkId : string -> string).

Inductive FieldValue : Type :=
| VInt (z : option Z)
| VLong (z : option Z)
| VDouble (d : double)
| VBool (b : bool)
| VString (s : string).

Inductive FieldValues : Type :=
| VInts (l : list (option Z))
| VLongs (l : list (option Z))
| VDoubles (l : list double)
| VStrings (l : list string).

Inductive Compare : Type :=
| EqualTo | NotEqualTo | GreaterThan | LessThan | GreaterThanOrEqualTo | LessThanOrEqualTo.

(** The calls on [DistributedDB::Query]. *)
Inductive Call : Type :=
| CCompare (op : Compare) (field : string) (v : FieldValue)
| CIsNull (field : string)
| CIsNotNull (field : string)
| CIn (field : string) (vs : FieldValues)
| CNotIn (field : string) (vs : FieldValues)
| CLike (field v : string)
| CNotLike (field v : string)
| CAnd
| COr
| COrderBy (field : string) (isAsc : bool)
| COrderByWriteTime (isAsc : bool)
| CLimit (number offset : option Z)
| CBeginGroup
| CEndGroup
| CPrefixKey (key : string)
| CInKeys (keys : gset string)
| CSuggestIndex (index : string).

(** The read pointer, the query built so far and the two static members. *)
Record Ctx := mkCtx {
  pointer : nat;
  dbQuery : list Call;
  deviceId_ : string;
  hasPrefixKey_ : bool
}.

Definition advance (n : nat) (c : Call) (s : Ctx) : Ctx :=
  mkCtx (pointer s + n) (dbQuery s ++ [c]) (deviceId_ s) (hasPrefixKey_ s).

Definition Handler := list string -> nat -> Ctx -> outcome Ctx.

(** The six comparison handlers differ in the builder method they call and in
    whether they accept a boolean value. *)
Definition HandleCompare (op : Compare) (withBool : bool) : Handler := fun words end_ s =>
  if end_ <? pointer s + 3 then Failed
  else
    let* fieldType := at_ words (pointer s + 1) in
    let* fieldName := at_ words (pointer s + 2) in
    let* fieldValue := at_ words (pointer s + 3) in
    let call v := Done (advance 4 (CCompare op (StringToString fieldName) v) s) in
    if fieldType =s? TYPE_INTEGER then call (VInt (StringToInt fieldValue))
    else if fieldType =s? TYPE_LONG then call (VLong (StringToLong fieldValue))
    else if fieldType =s? TYPE_DOUBLE then call (VDouble (StringToDouble fieldValue))
    else if withBool && (fieldType =s? TYPE_BOOLEAN) then call (VBool (StringToBoolean fieldValue))
    else if fieldType =s? TYPE_STRING then call (VString (StringToString fieldValue))
    else Failed.

(* @src service/kvdb/query_helper.cpp 181-206 QueryHelper::HandleEqualTo *)
Definition HandleEqualTo : Handler := HandleCompare EqualTo true.
(* @src service/kvdb/query_helper.cpp 208-233 QueryHelper::HandleNotEqualTo *)
Definition HandleNotEqualTo : Handler := HandleCompare NotEqualTo true.
(* @src service/kvdb/query_helper.cpp 235-258 QueryHelper::HandleGreaterThan *)
Definition HandleGreaterThan : Handler := HandleCompare GreaterThan false.
(* @src service/kvdb/query_helper.cpp 260-283 QueryHelper::HandleLessThan *)
Definition HandleLessThan : Handler := HandleCompare LessThan false.
(* @src service/kvdb/query_helper.cpp 285-309 QueryHelper::HandleGreaterThanOrEqualTo *)
Definition HandleGreaterThanOrEqualTo : Handler := HandleCompare GreaterThanOrEqualTo false.
(* @src service/kvdb/query_helper.cpp 311-335 QueryHelper::HandleLessThanOrEqualTo *)
Definition HandleLessThanOrEqualTo : Handler := HandleCompare LessThanOrEqualTo false.

(** Handlers of a keyword followed by one word. *)
Definition HandleOne (mk : string -> Call) : Handler := fun words end_ s =>
  if end_ <? pointer s + 1 then Failed
  else
    let* w := at_ words (pointer s + 1) in
    Done (advance 2 (mk w) s).

(* @src service/kvdb/query_helper.cpp 337-347 QueryHelper::HandleIsNull *)
Definition HandleIsNull : Handler := HandleOne (fun w => CIsNull (StringToString w)).
(* @src service/kvdb/query_helper.cpp 349-359 QueryHelper::HandleIsNotNull *)
Definition HandleIsNotNull : Handler := HandleOne (fun w => CIsNotNull (StringToString w)).
(* @src service/kvdb/query_helper.cpp 473-483 QueryHelper::HandleOrderByAsc *)
Definition HandleOrderByAsc : Handler := HandleOne (fun w => COrderBy (StringToString w) true).
(* @src service/kvdb/query_helper.cpp 485-495 QueryHelper::HandleOrderByDesc *)
Definition HandleOrderByDesc : Handler := HandleOne (fun w => COrderBy (StringToString w) false).
(* @src service/kvdb/query_helper.cpp 497-508 QueryHelper::HandleOrderByWriteTime *)
Definition HandleOrderByWriteTime : Handler := HandleOne (fun w => COrderByWriteTime (w =s? IS_ASC)).
(* @src service/kvdb/query_helper.cpp 576-586 QueryHelper::HandleSetSuggestIndex *)
Definition HandleSetSuggestIndex : Handler := HandleOne (fun w => CSuggestIndex (StringToString w)).

(* @src service/kvdb/query_helper.cpp 537-548 QueryHelper::HandleKeyPrefix *)
Definition HandleKeyPrefix : Handler := fun words end_ s =>
  HandleOne (fun w => CPrefixKey (deviceId_ s +:+ StringToString w)) words end_ s.

(* @src service/kvdb/query_helper.cpp 588-607 QueryHelper::HandleDeviceId *)
Definition HandleDeviceId : Handler := fun words end_ s =>
  if end_ <? pointer s + 1 then Failed
  else
    let* w := at_ words (pointer s + 1) in
    let deviceId := GetUuidByNetworkId (StringToString w) in
    let query := if negb (hasPrefixKey_ s) then dbQuery s ++ [CPrefixKey deviceId] else dbQuery s in
    Done (mkCtx (pointer s + 2) query deviceId (hasPrefixKey_ s)).

(** Handlers of a keyword followed by two words. *)
Definition HandleTwo (mk : string -> string -> Call) : Handler := fun words end_ s =>
  if end_ <? pointer s + 2 then Failed
  else
    let* w1 := at_ words (pointer s + 1) in
    let* w2 := at_ words (pointer s + 2) in
    Done (advance 3 (mk w1 w2) s).

(* @src service/kvdb/query_helper.cpp 433-444 QueryHelper::HandleLike *)
Definition HandleLike : Handler := HandleTwo (fun f v => CLike (StringToString f) (StringToString v)).
(* @src service/kvdb/query_helper.cpp 446-457 QueryHelper::HandleNotLike *)
Definition HandleNotLike : Handler :=
  HandleTwo (fun f v => CNotLike (StringToString f) (StringToString v)).
(* @src service/kvdb/query_helper.cpp 510-521 QueryHelper::HandleLimit *)
Definition HandleLimit : Handler := HandleTwo (fun n o => CLimit (StringToInt n) (StringToInt o)).

(** Handlers of a keyword without parameters. *)
Definition HandleZero (c : Call) : Handler := fun words end_ s => Done (advance 1 c s).

(* @src service/kvdb/query_helper.cpp 459-464 QueryHelper::HandleAnd *)
Definition HandleAnd : Handler := HandleZero CAnd.
(* @src service/kvdb/query_helper.cpp 466-471 QueryHelper::HandleOr *)
Definition HandleOr : Handler := HandleZero COr.
(* @src service/kvdb/query_helper.cpp 523-528 QueryHelper::HandleBeginGroup *)
Definition HandleBeginGroup : Handler := HandleZero CBeginGroup.
(* @src service/kvdb/query_helper.cpp 530-535 QueryHelper::HandleEndGroup *)
Definition HandleEndGroup : Handler := HandleZero CEndGroup.

(** The loop of the list readers: it runs while [elementPointer <= end], that is
    for the [end + 1 - elementPointer] remaining words. *)
Fixpoint GetList_loop {V} (conv : string -> V) (words : list string) (remaining : nat)
    (elementPointer : nat) (valueList : list V) : outcome (list V * nat) :=
  match remaining with
  | O => Done ([], elementPointer)    (* no END keyword: an empty vector is returned *)
  | S remaining =>
      let* w := at_ words elementPointer in
      if w =s? END_IN then Done (valueList, elementPointer)
      else GetList_loop conv words remaining (S elementPointer) (valueList ++ [conv w])
  end.

Definition GetList {V} (conv : string -> V) (words : list string) (elementPointer end_ : nat)
    : outcome (list V * nat) :=
  GetList_loop conv words (S end_ - elementPointer) elementPointer [].

(* @src service/kvdb/query_helper.cpp 670-688 QueryHelper::GetIntegerList *)
Definition GetIntegerList := GetList StringToInt.
(* @src service/kvdb/query_helper.cpp 690-708 QueryHelper::GetLongList *)
Definition GetLongList := GetList StringToLong.
(* @src service/kvdb/query_helper.cpp 710-728 QueryHelper::GetDoubleList *)
Definition GetDoubleList := GetList StringToDouble.
(* @src service/kvdb/query_helper.cpp 730-748 QueryHelper::GetStringList *)
Definition GetStringList := GetList StringToString.

(** [HandleIn] and [HandleNotIn] differ in the builder method. *)
Definition HandleInList (mk : string -> FieldValues -> Call) : Handler := fun words end_ s =>
  if end_ <? pointer s + 4 then Failed
  else
    let* start := at_ words (pointer s + 3) in
    if negb (start =s? START_IN) then Failed
    else
      let* fieldType := at_ words (pointer s + 1) in
      let* fieldName := at_ words (pointer s + 2) in
      let call ep vs :=
        Done (mkCtx (ep + 1) (dbQuery s ++ [mk (StringToString fieldName) vs])
                (deviceId_ s) (hasPrefixKey_ s)) in
      if fieldType =s? TYPE_INTEGER then
        let* r := GetIntegerList words (pointer s + 4) end_ in call r.2 (VInts r.1)
      else if fieldType =s? TYPE_LONG then
        let* r := GetLongList words (pointer s + 4) end_ in call r.2 (VLongs r.1)
      else if fieldType =s? TYPE_DOUBLE then
        let* r := GetDoubleList words (pointer s + 4) end_ in call r.2 (VDoubles r.1)
      else if fieldType =s? TYPE_STRING then
        let* r := GetStringList words (pointer s + 4) end_ in call r.2 (VStrings r.1)
      else Failed.

(* @src service/kvdb/query_helper.cpp 361-395 QueryHelper::HandleIn *)
Definition HandleIn : Handler := HandleInList CIn.
(* @src service/kvdb/query_helper.cpp 397-431 QueryHelper::HandleNotIn *)
Definition HandleNotIn : Handler := HandleInList CNotIn.

(* @src service/kvdb/query_helper.cpp 550-574 QueryHelper::HandleInKeys *)
Definition HandleInKeys : Handler := fun words end_ s =>
  let startInOffSet := pointer s + 1 in
  let queryLen := end_ - pointer s in
  if queryLen <? 2 then Failed
  else
    let* start := at_ words startInOffSet in
    if negb (start =s? START_IN) then Failed
    else
      let* r := GetStringList words (startInOffSet + 1) end_ in
      Done (mkCtx (r.2 + 1) (dbQuery s ++ [CInKeys (list_to_set r.1)])
              (deviceId_ s) (hasPrefixKey_ s)).

(* @src service/kvdb/query_helper.cpp 159-179 QueryHelper::HandleExtra *)
Definition HandleExtra : Handler := fun words end_ s =>
  let* keyword := at_ words (pointer s) in
  if keyword =s? BEGIN_GROUP then HandleBeginGroup words end_ s
  else if keyword =s? END_GROUP then HandleEndGroup words end_ s
  else if keyword =s? KEY_PREFIX then HandleKeyPrefix words end_ s
  else if keyword =s? IS_NOT_NULL then HandleIsNotNull words end_ s
  else if keyword =s? DEVICE_ID then HandleDeviceId words end_ s
  else if keyword =s? SUGGEST_INDEX then HandleSetSuggestIndex words end_ s
  else if keyword =s? IN_KEYS then HandleInKeys words end_ s
  else Failed.

(* @src service/kvdb/query_helper.cpp 129-157 QueryHelper::Handle *)
Definition Handle : Handler := fun words end_ s =>
  let* keyword := at_ words (pointer s) in
  if keyword =s? IS_NULL then HandleIsNull words end_ s
  else if keyword =s? IN then HandleIn words end_ s
  else if keyword =s? NOT_IN then HandleNotIn words end_ s
  else if keyword =s? LIKE then HandleLike words end_ s
  else if keyword =s? NOT_LIKE then HandleNotLike words end_ s
  else if keyword =s? AND then HandleAnd words end_ s
  else if keyword =s? OR then HandleOr words end_ s
  else if keyword =s? ORDER_BY_ASC then HandleOrderByAsc words end_ s
  else if keyword =s? ORDER_BY_DESC then HandleOrderByDesc words end_ s
  else if keyword =s? ORDER_BY_WRITE_TIME then HandleOrderByWriteTime words end_ s
  else if keyword =s? LIMIT then HandleLimit words end_ s
  else HandleExtra words end_ s.

(** The dispatch at the head of the loop of [StringToDbQuery]. *)
Definition Dispatch : Handler := fun words end_ s =>
  let* keyword := at_ words (pointer s) in
  if keyword =s? EQUAL_TO then HandleEqualTo words end_ s
  else if keyword =s? NOT_EQUAL_TO then HandleNotEqualTo words end_ s
  else if keyword =s? GREATER_THAN then HandleGreaterThan words end_ s
  else if keyword =s? LESS_THAN then HandleLessThan words end_ s
  else if keyword =s? GREATER_THAN_OR_EQUAL_TO then HandleGreaterThanOrEqualTo words end_ s
  else if keyword =s? LESS_THAN_OR_EQUAL_TO then HandleLessThanOrEqualTo words end_ s
  else Handle words end_ s.

(** The [for] loop, with the iterations [count = 0 .. MAX_QUERY_COMPLEXITY] left.
    The flag is [isSuccess] after the loop. *)
Fixpoint Query_loop (iterations : nat) (words : list string) (end_ : nat) (isSuccess : bool) (s : Ctx)
    : outcome (bool * Ctx) :=
  match iterations with
  | O => Done (isSuccess, s)
  | S iterations =>
      if pointer s <=? end_ then
        match Dispatch words end_ s with
        | Done s' => Query_loop iterations words end_ true s'
        | Failed => Done (false, mkCtx (pointer s) [] (deviceId_ s) (hasPrefixKey_ s))
        | Threw => Threw
        end
      else Done (isSuccess, s)
  end.

(** The pieces of a text between spaces. *)
Fixpoint pieces (l : list ascii) : list (list ascii) :=
  match l with
  | [] => [[]]
  | c :: l' =>
      if bool_decide (c = " "%char) then [] :: pieces l'
      else match pieces l' with h :: t => (c :: h) :: t | [] => [[c]] end
  end.

(** [std::sregex_token_iterator(begin, end, " ", -1)]: the text between the
    matches; an empty suffix after the last match is not a token, while a text
    without a match is one token, also when it is empty. *)
Definition tokens (l : list ascii) : list (list ascii) :=
  let ps := pieces l in
  match ps with
  | _ :: _ :: _ => if bool_decide (last ps = Some []) then removelast ps else ps
  | _ => ps
  end.

(** [query.find_first_not_of(SPACE)] and the suffix from there. *)
Fixpoint trim_left (l : list ascii) : list ascii :=
  match l with c :: l' => if bool_decide (c = " "%char) then trim_left l' else l | [] => [] end.

(** The query string, the flag passed by the caller and the static members give
    the builder calls, the flag and the static members after the call. *)
(* @src service/kvdb/query_helper.cpp 74-127 QueryHelper::StringToDbQuery *)
Definition StringToDbQuery (query : string) (isSuccess : bool) (deviceId : string) (hasPrefixKey : bool)
    : outcome (bool * Ctx) :=
  if query =s? "" then Done (true, mkCtx 0 [] deviceId hasPrefixKey)
  else if MAX_QUERY_LENGTH <? size query then Done (false, mkCtx 0 [] deviceId hasPrefixKey)
  else
    let hasPrefixKey := match find query KEY_PREFIX 0 with Some _ => true | None => false end in
    let inputTrim := trim_left (chars query) in
    let words := str_of <$> tokens inputTrim in
    match words with
    | [] => Done (isSuccess, mkCtx 0 [] "" hasPrefixKey)
    | _ =>
        let end_ := length words - 1 in
        Query_loop (S MAX_QUERY_COMPLEXITY) words end_ isSuccess (mkCtx 0 [] "" hasPrefixKey)
    end.

(** ** No access out of range

    Every [words.at(i)] is guarded by a comparison with [end]. *)
Section Safe.
Context (words : list string) (end_ : nat) (Hend : end_ < length words).

Lemma at_ok i : i <= end_ -> exists w, at_ words i = Done w.
Proof.
  intros Hi. unfold at_. destruct (lookup_lt_is_Some_2 words i) as [w ->]; [lia|by eexists].
Qed.

Lemma GetList_ok {V} (conv : string -> V) ep : ep <= end_ ->
  exists r, GetList conv words ep end_ = Done r.
Proof.
  intros Hep. unfold GetList. generalize (@nil V).
  assert (Hr : ep + (S end_ - ep) = S end_) by lia. revert Hr. clear Hep.
  generalize (S end_ - ep) as n. intros n. revert ep.
  induction n as [|n IH]; intros ep Hr acc; cbn; [by eexists|].
  destruct (at_ok ep) as [w ->]; [lia|]. cbn. case_if; [by eexists|]. apply IH. lia.
Qed.

Definition safe (h : Handler) : Prop := forall s, pointer s <= end_ -> h words end_ s <> Threw.

(** The word accesses of a handler, one by one. *)
Ltac reads :=
  repeat match goal with
  | |- context [at_ words ?i] => destruct (at_ok i) as [? ->]; [lia|]; cbn [bind]
  | |- context [GetIntegerList words ?i end_] =>
      destruct (GetList_ok StringToInt i) as [? E]; [lia|]; unfold GetIntegerList; rewrite E; clear E
  | |- context [GetLongList words ?i end_] =>
      destruct (GetList_ok StringToLong i) as [? E]; [lia|]; unfold GetLongList; rewrite E; clear E
  | |- context [GetDoubleList words ?i end_] =>
      destruct (GetList_ok StringToDouble i) as [? E]; [lia|]; unfold GetDoubleList; rewrite E; clear E
  | |- context [GetStringList words ?i end_] =>
      destruct (GetList_ok StringToString i) as [? E]; [lia|]; unfold GetStringList; rewrite E; clear E
  | |- context [if ?b then _ else _] => destruct b eqn:?
  end; cbn; try done.

Ltac guards :=
  intros s Hs; red; cbv beta delta [HandleCompare HandleOne HandleTwo HandleZero HandleInList
    HandleInKeys HandleDeviceId HandleKeyPrefix] zeta;
  repeat match goal with
  | |- (if ?a <? ?b then _ else _) = _ -> _ => destruct (Nat.ltb_spec a b); [done|]
  end.

Lemma safe_compare op b : safe (HandleCompare op b).
Proof. guards. reads. Qed.
Lemma safe_one mk : safe (HandleOne mk).
Proof. guards. reads. Qed.
Lemma safe_two mk : safe (HandleTwo mk).
Proof. guards. reads. Qed.
Lemma safe_zero c : safe (HandleZero c).
Proof. by intros s. Qed.
Lemma safe_in mk : safe (HandleInList mk).
Proof. guards. reads. Qed.
Lemma safe_inkeys : safe HandleInKeys.
Proof. guards. reads. Qed.
Lemma safe_deviceid : safe HandleDeviceId.
Proof. guards. reads. Qed.
Lemma safe_prefix : safe HandleKeyPrefix.
Proof. intros s. apply safe_one. Qed.

Lemma safe_Dispatch : safe Dispatch.
Proof.
  intros s Hs. unfold Dispatch, Handle, HandleExtra.
  destruct (at_ok (pointer s)) as [w ->]; [done|]. cbn [bind].
  repeat case_if; try done.
  all: first [by apply safe_compare|by apply safe_one|by apply safe_two|by apply safe_in
             |by apply safe_zero|by apply safe_inkeys|by apply safe_deviceid|by apply safe_prefix].
Qed.

Lemma safe_loop n b s : Query_loop n words end_ b s <> Threw.
Proof.
  revert b s. induction n as [|n IH]; intros b s; [done|]. cbn.
  destruct (Nat.leb_spec (pointer s) end_); [|done].
  destruct (Dispatch words end_ s) eqn:E; [apply IH|done|by apply safe_Dispatch in E].
Qed.
End Safe.

(** Whatever string a client sends and whatever state the parser's static
    members are in, parsing a query never reads a word out of range: it ends
    with a flag and a query, not with an exception. *)
Lemma StringToDbQuery_no_throw query isSuccess deviceId hasPrefixKey :
  StringToDbQuery query isSuccess deviceId hasPrefixKey <> Threw.
Proof.
  unfold StringToDbQuery. destruct (query =s? ""); [done|].
  destruct (MAX_QUERY_LENGTH <? size query); [done|]. cbv zeta.
  destruct (str_of <$> _) as [|w ws] eqn:E; [done|]. apply safe_loop. cbn. lia.
Qed.

(** ** The query language

    The abstract syntax of the language, the words that serialize a term and the
    builder calls it stands for. A string constant is serialized by [encode];
    numeric constants are words without a space. *)
Inductive Value : Type :=
| TInt (w : string)
| TLong (w : string)
| TDouble (w : string)
| TBool (b : bool)
| TString (v : string).

Inductive Values : Type :=
| TInts (l : list string)
| TLongs (l : list string)
| TDoubles (l : list string)
| TStrings (l : list string).

Inductive Term : Type :=
| TCompare (op : Compare) (field : string) (v : Value)
| TIsNull (field : string)
| TIsNotNull (field : string)
| TIn (field : string) (vs : Values)
| TNotIn (field : string) (vs : Values)
| TLike (field v : string)
| TNotLike (field v : string)
| TAnd
| TOr
| TOrderBy (field : string) (isAsc : bool)
| TOrderByWriteTime (isAsc : bool)
| TLimit (number offset : string)
| TBeginGroup
| TEndGroup
| TPrefixKey (key : string)
| TInKeys (keys : list string)
| TSuggestIndex (index : string)
| TDeviceId (device : string).

Definition encode (s : string) : string := if decide (s = "") then EMPTY_STRING else escape s.

Definition compare_keyword (op : Compare) : string :=
  match op with
  | EqualTo => EQUAL_TO | NotEqualTo => NOT_EQUAL_TO
  | GreaterThan => GREATER_THAN | LessThan => LESS_THAN
  | GreaterThanOrEqualTo => GREATER_THAN_OR_EQUAL_TO | LessThanOrEqualTo => LESS_THAN_OR_EQUAL_TO
  end.

Definition value_type (v : Value) : string :=
  match v with
  | TInt _ => TYPE_INTEGER | TLong _ => TYPE_LONG | TDouble _ => TYPE_DOUBLE
  | TBool _ => TYPE_BOOLEAN | TString _ => TYPE_STRING
  end.

Definition value_word (v : Value) : string :=
  match v with
  | TInt w | TLong w | TDouble w => w
  | TBool b => if b then VALUE_TRUE else VALUE_FALSE
  | TString s => encode s
  end.

Definition value_denote (v : Value) : FieldValue :=
  match v with
  | TInt w => VInt (StringToInt w) | TLong w => VLong (StringToLong w)
  | TDouble w => VDouble (StringToDouble w) | TBool b => VBool b | TString s => VString s
  end.

Definition values_type (vs : Values) : string :=
  match vs with
  | TInts _ => TYPE_INTEGER | TLongs _ => TYPE_LONG | TDoubles _ => TYPE_DOUBLE | TStrings _ => TYPE_STRING
  end.

Definition values_words (vs : Values) : list string :=
  match vs with TInts l | TLongs l | TDoubles l => l | TStrings l => encode <$> l end.

Definition values_denote (vs : Values) : FieldValues :=
  match vs with
  | TInts l => VInts (StringToInt <$> l) | TLongs l => VLongs (StringToLong <$> l)
  | TDoubles l => VDoubles (StringToDouble <$> l) | TStrings l => VStrings l
  end.

Definition list_words (l : list string) : list string := START_IN :: l ++ [END_IN].

Definition term_words (t : Term) : list string :=
  match t with
  | TCompare op f v => [compare_keyword op; value_type v; encode f; value_word v]
  | TIsNull f => [IS_NULL; encode f]
  | TIsNotNull f => [IS_NOT_NULL; encode f]
  | TIn f vs => IN :: values_type vs :: encode f :: list_words (values_words vs)
  | TNotIn f vs => NOT_IN :: values_type vs :: encode f :: list_words (values_words vs)
  | TLike f v => [LIKE; encode f; encode v]
  | TNotLike f v => [NOT_LIKE; encode f; encode v]
  | TAnd => [AND]
  | TOr => [OR]
  | TOrderBy f isAsc => [if isAsc then ORDER_BY_ASC else ORDER_BY_DESC; encode f]
  | TOrderByWriteTime isAsc => [ORDER_BY_WRITE_TIME; if isAsc then IS_ASC else "^IS_DESC"]
  | TLimit n o => [LIMIT; n; o]
  | TBeginGroup => [BEGIN_GROUP]
  | TEndGroup => [END_GROUP]
  | TPrefixKey k => [KEY_PREFIX; encode k]
  | TInKeys ks => IN_KEYS :: list_words (encode <$> ks)
  | TSuggestIndex i => [SUGGEST_INDEX; encode i]
  | TDeviceId d => [DEVICE_ID; encode d]
  end.

(** A numeric word. *)
Definition word_ok (w : string) : Prop := w <> "" /\ (" "%char ∉ chars w) /\ w <> END_IN.

Definition value_ok (op : Compare) (v : Value) : Prop :=
  match v with
  | TInt w | TLong w | TDouble w => word_ok w
  | TBool _ => op = EqualTo \/ op = NotEqualTo
  | TString _ => True
  end.

(** Well-formed terms: numeric words; booleans only compared for (in)equality. *)
Definition term_ok (t : Term) : Prop :=
  match t with
  | TCompare op _ v => value_ok op v
  | TIn _ vs | TNotIn _ vs =>
      match vs with TInts l | TLongs l | TDoubles l => Forall word_ok l | TStrings _ => True end
  | TLimit n o => word_ok n /\ word_ok o
  | _ => True
  end.

(** The calls of a term; the device prefix comes from the static members. *)
Definition term_calls (t : Term) (s : Ctx) : list Call :=
  match t with
  | TCompare op f v => [CCompare op f (value_denote v)]
  | TIsNull f => [CIsNull f]
  | TIsNotNull f => [CIsNotNull f]
  | TIn f vs => [CIn f (values_denote vs)]
  | TNotIn f vs => [CNotIn f (values_denote vs)]
  | TLike f v => [CLike f v]
  | TNotLike f v => [CNotLike f v]
  | TAnd => [CAnd]
  | TOr => [COr]
  | TOrderBy f isAsc => [COrderBy f isAsc]
  | TOrderByWriteTime isAsc => [COrderByWriteTime isAsc]
  | TLimit n o => [CLimit (StringToInt n) (StringToInt o)]
  | TBeginGroup => [CBeginGroup]
  | TEndGroup => [CEndGroup]
  | TPrefixKey k => [CPrefixKey (deviceId_ s +:+ k)]
  | TInKeys ks => [CInKeys (list_to_set ks)]
  | TSuggestIndex i => [CSuggestIndex i]
  | TDeviceId d => if hasPrefixKey_ s then [] else [CPrefixKey (GetUuidByNetworkId d)]
  end.

Definition term_run (s : Ctx) (t : Term) : Ctx :=
  mkCtx (pointer s + length (term_words t)) (dbQuery s ++ term_calls t s)
    (match t with TDeviceId d => GetUuidByNetworkId d | _ => deviceId_ s end) (hasPrefixKey_ s).

(** *** Encoded strings *)

Lemma StringToString_encode s : StringToString (encode s) = s.
Proof.
  unfold encode. case_decide as H; [by subst|]. unfold StringToString.
  by rewrite StringToString_escape_aux.
Qed.

Lemma StringToString_encode_list (l : list string) : StringToString <$> (encode <$> l) = l.
Proof. induction l as [|s l IH]; cbn; [done|]. by rewrite StringToString_encode, IH. Qed.

Lemma escape_char_spec c :
  escape_char c <> [] /\ (" "%char ∉ escape_char c) /\
  forall r, escape_char c ++ r <> chars END_IN.
Proof.
  unfold escape_char. case_bool_decide as H1; [|case_bool_decide as H2].
  - split_and!; [done|by_decide|]. intros r Hr. by apply (f_equal head) in Hr.
  - split_and!; [done|by_decide|]. intros r Hr. apply (f_equal (fun l => l !! 1)) in Hr.
    by cbn in Hr.
  - split_and!; [done| |].
    + rewrite list_elem_of_singleton. congruence.
    + intros r Hr. apply (f_equal head) in Hr. cbn in Hr. congruence.
Qed.

Lemma encode_ok s : word_ok (encode s).
Proof.
  unfold encode. case_decide as H; [by_decide || (split_and!; [done| |done]; by_decide)|].
  unfold escape. split_and!.
  - intros E. apply (f_equal chars) in E. rewrite chars_str_of in E.
    destruct s as [|c s]; [done|]. cbn in E. apply app_eq_nil in E as [E _].
    destruct (escape_char_spec c) as (Hc & _). by apply Hc.
  - rewrite chars_str_of, list_elem_of_bind. intros (c & Hc & _).
    destruct (escape_char_spec c) as (_ & Hs & _). by apply Hs.
  - intros E. apply (f_equal chars) in E. rewrite chars_str_of in E.
    destruct s as [|c s]; [done|]. cbn in E.
    destruct (escape_char_spec c) as (_ & _ & Hr). by apply Hr in E.
Qed.

Lemma encode_list_ok (l : list string) : Forall word_ok (encode <$> l).
Proof. apply Forall_fmap, Forall_true. intros s. apply encode_ok. Qed.

(** *** One term *)

Lemma at_app pre l i : at_ (pre ++ l) (length pre + i) = at_ l i.
Proof. unfold at_. by rewrite lookup_app_r, Nat.add_comm, Nat.add_sub by lia. Qed.

Lemma at_app_0 pre w l : at_ (pre ++ w :: l) (length pre) = Done w.
Proof. rewrite <- (Nat.add_0_r (length pre)). apply at_app. Qed.

Lemma GetList_loop_app {V} (conv : string -> V) pre ws post n acc :
  Forall word_ok ws -> length ws < n ->
  GetList_loop conv (pre ++ ws ++ END_IN :: post) n (length pre) acc
  = Done (acc ++ (conv <$> ws), length pre + length ws).
Proof.
  revert pre n acc. induction ws as [|w ws IH]; intros pre n acc Hok Hn.
  - destruct n; [cbn in Hn; lia|]. cbn [GetList_loop app fmap list_fmap length].
    rewrite at_app_0. cbn. by rewrite app_nil_r, Nat.add_0_r.
  - destruct n; [cbn in Hn; lia|]. inversion_clear Hok as [|?? (Hw1 & Hw2 & Hw3) Hok']. 
    cbn [GetList_loop app]. rewrite at_app_0. cbn [bind]. unfold str_eqb.
    rewrite bool_decide_eq_false_2 by done.
    specialize (IH (pre ++ [w]) n (acc ++ [conv w]) Hok').
    rewrite length_app in IH. cbn in IH, Hn. rewrite Nat.add_1_r in IH.
    rewrite <- !app_assoc in IH. refine (eq_trans (IH _) _); [lia|]. cbn. do 2 f_equal. lia.
Qed.

Lemma GetList_app {V} (conv : string -> V) pre ws post e :
  Forall word_ok ws -> e = length (pre ++ ws ++ END_IN :: post) - 1 ->
  GetList conv (pre ++ ws ++ END_IN :: post) (length pre) e
  = Done (conv <$> ws, length pre + length ws).
Proof.
  intros Hok ->. unfold GetList. rewrite GetList_loop_app; [done|done|].
  rewrite !length_app. cbn. lia.
Qed.

(** Decides the comparisons of keywords. *)
Ltac keywords :=
  repeat match goal with
  | |- context [?a =s? ?b] =>
      let v := eval vm_compute in (a =s? b) in
      match v with true => idtac | false => idtac end; change (a =s? b) with v; cbn match
  end.

(** The length check of a handler passes: its words are there. *)
Ltac long_enough :=
  match goal with
  | |- context [?e <? ?n] =>
      replace (e <? n) with false
        by (symmetry; apply Nat.ltb_ge; rewrite ?length_app; cbn [length app];
            rewrite ?length_app; cbn [length]; lia)
  end.

Ltac words_at :=
  rewrite ?at_app; repeat match goal with
  | |- context [at_ (?a :: ?l) ?n] =>
      let v := eval cbn in (at_ (a :: l) n) in change (at_ (a :: l) n) with v
  end; cbn [bind].

Ltac dispatch :=
  unfold Dispatch, Handle, HandleExtra; cbn [pointer term_words app list_words];
  rewrite at_app_0; cbn [bind]; keywords.

Section OneTerm.
Context (pre post : list string) (q : list Call) (dev : string) (hp : bool).
Let st := mkCtx (length pre) q dev hp.
Let end_of (ws : list string) := length (pre ++ ws ++ post) - 1.

Lemma HandleCompare_ok op f v b :
  value_ok op v -> (b = true <-> op = EqualTo \/ op = NotEqualTo) ->
  let t := TCompare op f v in
  HandleCompare op b (pre ++ term_words t ++ post) (end_of (term_words t)) st = Done (term_run st t).
Proof.
  intros Hv Hb t. unfold t, HandleCompare, end_of, st. cbn [pointer term_words app]. long_enough. words_at.
  destruct v; cbn [value_type]; keywords; cbn [value_word value_ok] in *;
    rewrite ?StringToString_encode, ?andb_false_r; try done.
  replace b with true by (symmetry; by apply Hb). cbn. by destruct b0.
Qed.

Lemma HandleInList_ok (neg : bool) f vs :
  let t := if neg then TNotIn f vs else TIn f vs in
  term_ok t ->
  HandleInList (if neg then CNotIn else CIn) (pre ++ term_words t ++ post) (end_of (term_words t)) st
  = Done (term_run st t).
Proof.
  intros t Hok. set (kw := if neg then NOT_IN else IN).
  assert (Hw : term_words t = [kw; values_type vs; encode f; START_IN] ++ values_words vs ++ [END_IN]).
  { by destruct neg. }
  assert (Hr : forall ep, ep = length pre + (4 + length (values_words vs)) ->
    mkCtx (ep + 1) (q ++ [(if neg then CNotIn else CIn) f (values_denote vs)]) dev hp = term_run st t).
  { intros ep ->. unfold term_run, st. cbn [pointer]. rewrite Hw, length_app, length_app. 
    cbn [length]. destruct neg; cbn; f_equal; lia. }
  assert (Hvs : Forall word_ok (values_words vs)).
  { subst t. destruct neg, vs; cbn in *; auto using encode_list_ok. }
  unfold HandleInList, end_of, st. cbn [pointer]. rewrite Hw, <- !app_assoc. cbn [app]. long_enough.
  words_at. keywords.
  replace (pre ++ kw :: values_type vs :: encode f :: START_IN :: values_words vs ++ END_IN :: post)
    with ((pre ++ [kw; values_type vs; encode f; START_IN]) ++ values_words vs ++ END_IN :: post)
    by (by rewrite <- app_assoc).
  assert (Hl : length pre + 4 = length (pre ++ [kw; values_type vs; encode f; START_IN]))
    by (by rewrite length_app).
  rewrite Hl. destruct vs; cbn [values_type values_words] in *; keywords;
    unfold GetIntegerList, GetLongList, GetDoubleList, GetStringList;
    rewrite GetList_app by done; cbn [bind dbQuery deviceId_ hasPrefixKey_ fst snd];
    rewrite ?StringToString_encode, ?StringToString_encode_list;
    f_equal; apply Hr; rewrite <- Hl; lia.
Qed.

Lemma HandleInKeys_ok ks :
  let t := TInKeys ks in
  HandleInKeys (pre ++ term_words t ++ post) (end_of (term_words t)) st = Done (term_run st t).
Proof.
  intros t. unfold t, HandleInKeys, end_of, st. cbn [pointer term_words list_words app].
  rewrite <- app_assoc. cbn [app]. long_enough. words_at. keywords. unfold GetStringList.
  replace (pre ++ IN_KEYS :: START_IN :: (encode <$> ks) ++ END_IN :: post)
    with ((pre ++ [IN_KEYS; START_IN]) ++ (encode <$> ks) ++ END_IN :: post)
    by (by rewrite <- app_assoc).
  replace (length pre + 1 + 1) with (length (pre ++ [IN_KEYS; START_IN]))
    by (rewrite length_app; cbn; lia).
  rewrite GetList_app by auto using encode_list_ok. cbn [bind negb fst snd].
  rewrite StringToString_encode_list. unfold term_run. cbn. rewrite !length_app. cbn. do 2 f_equal.
  lia.
Qed.
End OneTerm.

(** The terms with a fixed number of words. *)
Ltac simple_term :=
  dispatch;
  cbv beta delta [HandleIsNull HandleIsNotNull HandleLike HandleNotLike HandleAnd HandleOr
    HandleOrderByAsc HandleOrderByDesc HandleOrderByWriteTime HandleLimit HandleBeginGroup
    HandleEndGroup HandleKeyPrefix HandleSetSuggestIndex HandleDeviceId HandleOne HandleTwo
    HandleZero];
  cbn [pointer app]; try long_enough; words_at; keywords; rewrite ?StringToString_encode;
  unfold term_run, advance; cbn; rewrite ?app_nil_r; try done.

Lemma Dispatch_term pre t post q dev hp :
  term_ok t ->
  let s := mkCtx (length pre) q dev hp in
  let ws := pre ++ term_words t ++ post in
  Dispatch ws (length ws - 1) s = Done (term_run s t).
Proof.
  intros Hok s ws. subst s ws. destruct t.
  - destruct op; dispatch; apply HandleCompare_ok; naive_solver.
  - simple_term.
  - simple_term.
  - dispatch. by apply (HandleInList_ok pre post q dev hp false field vs).
  - dispatch. by apply (HandleInList_ok pre post q dev hp true field vs).
  - simple_term.
  - simple_term.
  - simple_term.
  - simple_term.
  - destruct isAsc; simple_term.
  - destruct isAsc; simple_term.
  - simple_term.
  - simple_term.
  - simple_term.
  - simple_term.
  - dispatch. apply HandleInKeys_ok.
  - simple_term.
  - simple_term. destruct hp; cbn; by rewrite ?app_nil_r.
Qed.

(** *** A sequence of terms *)

Definition terms_words (ts : list Term) : list string := ts ≫= term_words.

Lemma term_words_pos t : 0 < length (term_words t).
Proof. destruct t; cbn; lia. Qed.

Lemma Query_loop_terms n pre ts b s :
  pre ++ terms_words ts <> [] -> Forall term_ok ts -> pointer s = length pre ->
  let words := pre ++ terms_words ts in
  Query_loop n words (length words - 1) b s
  = Done (match take n ts with [] => b | _ => true end, fold_left term_run (take n ts) s).
Proof.
  revert pre ts b s. induction n as [|n IH]; intros pre ts b s Hne Hok Hp words; [done|].
  cbn [Query_loop]. destruct ts as [|t ts]; cbn [take fold_left].
  - subst words. unfold terms_words in *. cbn [mbind list_bind] in *. rewrite app_nil_r in *.
    destruct (Nat.leb_spec (pointer s) (length pre - 1)); [|done].
    destruct pre; [done|]. cbn in *. lia.
  - inversion_clear Hok as [|?? Ht Hts].
    assert (Hw : words = pre ++ term_words t ++ terms_words ts) by done.
    pose proof (term_words_pos t).
    replace (pointer s <=? length words - 1) with true
      by (symmetry; apply Nat.leb_le; rewrite Hw, !length_app; lia).
    destruct s as [p q dev hp]. cbn in Hp. subst p.
    rewrite Hw at 1 2. rewrite Dispatch_term by done. rewrite Hw, app_assoc.
    rewrite IH; [by destruct (take n ts)| |done|].
    + intros E. apply (f_equal length) in E. rewrite !length_app in E. cbn in E. lia.
    + unfold term_run. cbn [pointer]. by rewrite length_app.
Qed.

(** *** Tokenizing *)

Definition token_ok (w : string) : Prop := w <> "" /\ (" "%char ∉ chars w).

Fixpoint unwords (ws : list string) : string :=
  match ws with
  | [] => ""
  | w :: ws' => match ws' with [] => w | _ => w +:+ SPACE +:+ unwords ws' end
  end.

Lemma pieces_word w : (" "%char ∉ w) -> pieces w = [w].
Proof.
  induction w as [|c w IH]; [done|]. rewrite elem_of_cons. intros Hs. cbn.
  rewrite bool_decide_eq_false_2 by naive_solver. rewrite IH by naive_solver. done.
Qed.

Lemma pieces_app w l : (" "%char ∉ w) -> pieces (w ++ " "%char :: l) = w :: pieces l.
Proof.
  induction w as [|c w IH]; [done|]. rewrite elem_of_cons. intros Hs. cbn [app pieces].
  rewrite bool_decide_eq_false_2 by naive_solver. rewrite IH by naive_solver. done.
Qed.

Lemma pieces_unwords ws :
  ws <> [] -> Forall token_ok ws -> pieces (chars (unwords ws)) = chars <$> ws.
Proof.
  induction ws as [|w ws IH]; intros Hne Hok; [done|]. inversion_clear Hok as [|?? (_ & Hw) Hws].
  destruct ws as [|w' ws]; [by apply pieces_word|].
  change (unwords (w :: w' :: ws)) with (w +:+ SPACE +:+ unwords (w' :: ws)).
  rewrite !chars_app. change (chars SPACE) with [" "%char]. cbn [app].
  rewrite pieces_app by done. by rewrite IH.
Qed.

Lemma str_of_chars_list (ws : list string) : str_of <$> (chars <$> ws) = ws.
Proof. induction ws as [|w ws IH]; cbn; [done|]. by rewrite str_of_chars, IH. Qed.

Lemma tokens_unwords ws :
  ws <> [] -> Forall token_ok ws -> str_of <$> tokens (trim_left (chars (unwords ws))) = ws.
Proof.
  intros Hne Hok. assert (Ht : trim_left (chars (unwords ws)) = chars (unwords ws)).
  { destruct ws as [|w ws]; [done|]. inversion_clear Hok as [|?? (Hn & Hw) _].
    assert (exists r, chars (unwords (w :: ws)) = chars w ++ r) as [r ->].
    { destruct ws; cbn; [exists []; by rewrite app_nil_r|]. rewrite !chars_app. by eexists. }
    destruct w as [|c w]; [done|]. cbn in *. rewrite bool_decide_eq_false_2; [done|].
    rewrite elem_of_cons in Hw. naive_solver. }
  rewrite Ht. unfold tokens. rewrite pieces_unwords by done.
  replace (bool_decide (last (chars <$> ws) = Some [])) with false.
  - destruct ws as [|? [|??]]; apply str_of_chars_list.
  - symmetry. apply bool_decide_eq_false. rewrite fmap_last, fmap_Some.
    intros (w & Hl & E). apply last_Some_elem_of in Hl. rewrite Forall_forall in Hok.
    destruct (Hok w Hl) as [Hw _]. apply Hw. by apply chars_inj.
Qed.

#[local] Instance token_ok_dec w : Decision (token_ok w).
Proof. unfold token_ok. apply _. Defined.

Lemma word_token w : word_ok w -> token_ok w.
Proof. by intros (H1 & H2 & _). Qed.

Lemma list_words_ok l : Forall word_ok l -> Forall token_ok (l ++ [END_IN]).
Proof.
  intros Hl. apply Forall_app. split.
  - eapply Forall_impl; [done|]. apply word_token.
  - apply Forall_singleton. by_decide.
Qed.

Lemma term_words_ok t : term_ok t -> Forall token_ok (term_words t).
Proof.
  assert (He : forall s, token_ok (encode s)) by (intros; apply word_token, encode_ok).
  assert (Hl : forall vs : Values, term_ok (TIn "" vs) -> Forall token_ok (values_words vs ++ [END_IN])).
  { intros vs Hvs. apply list_words_ok. destruct vs; cbn in *; auto using encode_list_ok. }
  intros Hok. destruct t; cbn [term_words term_ok] in *; repeat apply Forall_cons_2;
    try apply Forall_nil_2; try apply He; try (by_decide).
  - destruct op; by_decide.
  - destruct v; by_decide.
  - destruct v as [| | |[]|]; cbn in *; try (by apply word_token); try (by_decide); apply He.
  - destruct vs; by_decide.
  - by apply (Hl vs).
  - destruct vs; by_decide.
  - by apply (Hl vs).
  - destruct isAsc; by_decide.
  - destruct isAsc; by_decide.
  - apply word_token, Hok.
  - apply word_token, Hok.
  - apply list_words_ok, encode_list_ok.
Qed.

Lemma terms_words_ok ts : Forall term_ok ts -> Forall token_ok (terms_words ts).
Proof.
  intros Hok. unfold terms_words. induction Hok as [|t ts Ht _ IH]; [done|].
  cbn [mbind list_bind]. apply Forall_app. auto using term_words_ok.
Qed.

Lemma terms_words_ne ts : ts <> [] -> terms_words ts <> [].
Proof.
  destruct ts as [|t ts]; [done|]. intros _ E. apply (f_equal length) in E.
  cbn in E. rewrite length_app in E. pose proof (term_words_pos t). lia.
Qed.

(** C6: A query serialized from any non-empty sequence of well-formed terms
    within the length limit parses successfully, whatever the field names and
    string constants contain, and makes exactly the builder calls of its terms in
    order; terms after the first 501 are dropped without an error. *)
Theorem StringToDbQuery_terms ts isSuccess deviceId hasPrefixKey :
  let query := unwords (terms_words ts) in
  let init := mkCtx 0 [] "" (bool_decide (is_Some (find query KEY_PREFIX 0))) in
  ts <> [] -> Forall term_ok ts -> size query <= MAX_QUERY_LENGTH ->
  StringToDbQuery query isSuccess deviceId hasPrefixKey
  = Done (true, fold_left term_run (take (S MAX_QUERY_COMPLEXITY) ts) init).
Proof.
  intros query init Hne Hok Hlen.
  pose proof (terms_words_ne ts Hne) as Hwne. pose proof (terms_words_ok ts Hok) as Hwok.
  assert (Hq : query <> "").
  { intros E. pose proof (pieces_unwords _ Hwne Hwok) as Hp. fold query in Hp. rewrite E in Hp.
    destruct (terms_words ts) as [|w ws]; [done|]. inversion_clear Hwok as [|?? [Hw _] _].
    cbn in Hp. injection Hp as Hp _. by destruct w. }
  unfold StringToDbQuery, str_eqb. rewrite bool_decide_eq_false_2 by done.
  replace (MAX_QUERY_LENGTH <? size query) with false by (symmetry; by apply Nat.ltb_ge).
  cbv zeta. unfold query at 1 2 3 4. rewrite tokens_unwords by done.
  pose proof (Query_loop_terms (S MAX_QUERY_COMPLEXITY) [] ts isSuccess init Hwne Hok eq_refl) as E.
  cbn [app] in E. destruct (terms_words ts) as [|w ws] eqn:Ew; [done|].
  rewrite <- Ew in *. replace (mkCtx _ _ _ _) with init.
  - rewrite E. by destruct ts.
  - unfold init. f_equal. fold query. by destruct (find query KEY_PREFIX 0).
Qed.


End Model.

Definition sample_query : list Term :=
  [TCompare EqualTo "$.name" (TString "a ^b"); TOr; TIn "$.age" (TInts ["1"; "22"]); TPrefixKey "k"].

Lemma StringToDbQuery_terms_witness :
  StringToDbQuery Z (fun _ => 0%Z) id
    "^EQUAL STRING $.name a^^(^)b ^OR ^IN INTEGER $.age ^START 1 22 ^END ^KEY_PREFIX k" false "" false
  = Done (true, mkCtx Z 14
      [CCompare Z EqualTo "$.name" (VString Z "a ^b"); COr Z;
       CIn Z "$.age" (VInts Z [Some 1%Z; Some 22%Z]); CPrefixKey Z "k"] "" true).
Proof.
  refine (eq_trans (StringToDbQuery_terms Z (fun _ => 0%Z) id sample_query false "" false _ _ _) _).
  - done.
  - repeat constructor; by_decide.
  - apply Nat.leb_le. vm_compute. reflexivity.
  - vm_compute. reflexivity.
Defined.

(** A list of values without its end keyword is accepted as an empty list. *)
Lemma unterminated_list_accepted :
  StringToDbQuery Z (fun _ => 0%Z) id "^IN INTEGER $.age ^START 1 22" false "" false
  = Done (true, mkCtx Z 7 [CIn Z "$.age" (VInts Z [])] "" false).
Proof. vm_compute. reflexivity. Qed.

(** Two spaces make an empty word; extracting a number from it stores nothing,
    so the comparison uses the uninitialised object. *)
Lemma empty_word_uninitialised :
  StringToDbQuery Z (fun _ => 0%Z) id "^EQUAL INTEGER $.age  ^OR" false "" false
  = Done (true, mkCtx Z 5 [CCompare Z EqualTo "$.age" (VInt Z None); COr Z] "" false).
Proof. vm_compute. reflexivity. Qed.
End QueryHelper.
