(* ===== verification/RouteHead.v ===== *)
(** * The route head of a device-to-device message
      ([app/src/session_manager/route_head_handler_impl.cpp])

    The sending side puts a packed binary header in front of the data of the
    distributed database; the receiving side parses it back into a [Session].
    A buffer is the list of its bytes. Reading or writing outside of it is
    [None]: the undefined behaviour the code has to avoid. Offsets are relative
    to the start of the buffer. *)

From S2P Require Import Prelude CppString.
From Stdlib Require Import Ascii.

Module RouteHead.

(** ** Bytes *)

Definition bytes (s : string) : list Z := byte_of <$> chars s.
Definition string_of (bs : list Z) : string := str_of (char_of <$> bs).

(** [n] bytes of a value, least significant first: the effect of storing a value
    converted by [HostToNet] ([htole16/32/64]). *)
Fixpoint le (n : nat) (v : Z) : list Z :=
  match n with O => [] | S n => v mod 256 :: le n (v / 256) end.

(** Loading a value and converting it by [NetToHost]. *)
Fixpoint unle (bs : list Z) : Z :=
  match bs with [] => 0 | b :: bs => b + 256 * unle bs end.

Definition len {A} (l : list A) : Z := Z.of_nat (length l).

(** ** Memory *)

Definition read (buf : list Z) (pos n : Z) : option (list Z) :=
  if (0 <=? pos) && (0 <=? n) && (pos + n <=? len buf)
  then Some (take (Z.to_nat n) (drop (Z.to_nat pos) buf)) else None.

Definition write (buf : list Z) (pos : Z) (bs : list Z) : option (list Z) :=
  if (0 <=? pos) && (pos + len bs <=? len buf)
  then Some (take (Z.to_nat pos) buf ++ bs ++ drop (Z.to_nat (pos + len bs)) buf) else None.

(** The bytes of a C string: up to the first NUL. *)
Fixpoint c_str (bs : list Z) : list Z :=
  match bs with [] => [] | b :: bs => if b =? 0 then [] else b :: c_str bs end.

(** The bounds-checking library is not part of the repository: it decides, from
    the size of the destination and the number of bytes, whether it copies. *)
Class SecureC := {
  strcpy_ok : Z -> Z -> bool;
  memcpy_ok : Z -> Z -> bool;
  strcpy_ok_fits destMax n : 0 <= n < destMax -> destMax < 2 ^ 31 -> strcpy_ok destMax n = true;
  strcpy_ok_overflow destMax n : destMax <= n -> strcpy_ok destMax n = false;
  memcpy_ok_fits destMax n : 0 <= n <= destMax -> 0 < destMax < 2 ^ 31 -> memcpy_ok destMax n = true;
  memcpy_ok_overflow destMax n : destMax < n -> memcpy_ok destMax n = false
}.

(** ** The session and the layout *)

(* @src app/src/session_manager/session_manager.h 36-51 Session *)
Record Session := mkSession {
  sourceDeviceId : string;
  targetDeviceId : string;
  sourceUserId : Z;
  targetUserIds : list Z;
  appId : string;
  storeId : string;
  accountId : string
}.

(* @src app/src/session_manager/session_manager.h 47-50 IsValid *)
Definition IsValid (s : Session) : bool := match targetUserIds s with [] => false | _ => true end.

Definition MAGIC_NUMBER : Z := 0x8421.
Definition VERSION : Z := 0x1.
Definition MAX_DEVICE_ID : Z := 65.
Definition ALIGN_WIDTH : Z := 8.

(** Sizes of the packed structures. *)
Definition sizeof_RouteHead : Z := 16.
Definition sizeof_SessionDevicePair : Z := 130.
Definition sizeof_SessionUserPair : Z := 5.
Definition sizeof_Len : Z := 4.

(* @src app/src/session_manager/route_head_handler_impl.h 31-38 RouteHead *)
Record Head := mkHead { magic : Z; version : Z; checkSum : Z; dataLen : Z }.

(** [GET_ALIGNED_SIZE<size_t>] *)
(* @src app/src/session_manager/route_head_handler_impl.h 24-27 GET_ALIGNED_SIZE *)
Definition GET_ALIGNED_SIZE (x alignWidth : Z) : Z :=
  Z.land (u64 (x + (alignWidth - 1))) (Z.lnot (alignWidth - 1)).

Definition expectSize (s : Session) : Z :=
  sizeof_RouteHead + sizeof_SessionDevicePair + sizeof_SessionUserPair
  + len (targetUserIds s) * 4 + sizeof_Len + len (bytes (appId s))
  + sizeof_Len + len (bytes (storeId s)) + sizeof_Len + len (bytes (accountId s)).

Section Pack.
Context `{SecureC}.

(** ** Packing *)

(* @src app/src/session_manager/route_head_handler_impl.cpp 191-203 RouteHeadHandlerImpl::PackDataHead *)
Definition PackDataHead (headSize_ : Z) (data : list Z) (totalLen : Z) : option (bool * list Z) :=
  if headSize_ <? sizeof_RouteHead then Some (false, data)
  else
    data ← write data 0 (le 2 MAGIC_NUMBER);
    data ← write data 2 (le 2 VERSION);
    data ← write data 4 (le 8 0);
    data ← write data 12 (le 4 (totalLen - sizeof_RouteHead));
    Some (true, data).

(** A length-prefixed string; the three packers differ in the field they pack.
    The result has the status, the pointer and the buffer. *)
Definition PackField (s : string) (data : list Z) (ptr end_ : Z) : option (bool * Z * list Z) :=
  let n := u32 (len (bytes s)) in
  data ← write data ptr (le 4 n);
  let ptr := ptr + sizeof_Len in
  if memcpy_ok (u64 (end_ - ptr)) n then
    data ← write data ptr (take (Z.to_nat n) (bytes s));
    Some (true, ptr + n, data)
  else Some (false, ptr, data).

(* @src app/src/session_manager/route_head_handler_impl.cpp 236-250 RouteHeadHandlerImpl::PackAppId *)
Definition PackAppId (s : Session) := PackField (appId s).
(* @src app/src/session_manager/route_head_handler_impl.cpp 252-266 RouteHeadHandlerImpl::PackStoreId *)
Definition PackStoreId (s : Session) := PackField (storeId s).
(* @src app/src/session_manager/route_head_handler_impl.cpp 268-281 RouteHeadHandlerImpl::PackAccountId *)
Definition PackAccountId (s : Session) := PackField (accountId s).

(** [strcpy_s] into a field of [MAX_DEVICE_ID] bytes. *)
Definition strcpy_s (data : list Z) (pos : Z) (s : string) : option (bool * list Z) :=
  let src := c_str (bytes s) in
  if strcpy_ok MAX_DEVICE_ID (len src) then
    data ← write data pos (src ++ [0]); Some (true, data)
  else
    data ← write data pos [0]; Some (false, data).

Fixpoint PackUsers (users : list Z) (data : list Z) (pos : Z) : option (list Z) :=
  match users with
  | [] => Some data
  | u :: users => data ← write data pos (le 4 u); PackUsers users data (pos + 4)
  end.

(** [off] is the offset of the body in the buffer. *)
(* @src app/src/session_manager/route_head_handler_impl.cpp 205-234 RouteHeadHandlerImpl::PackDataBody *)
Definition PackDataBody (s : Session) (data : list Z) (off totalLen : Z) : option (bool * list Z) :=
  '(ok, data) ← strcpy_s data off (sourceDeviceId s);
  if negb ok then Some (false, data) else
  '(ok, data) ← strcpy_s data (off + MAX_DEVICE_ID) (targetDeviceId s);
  if negb ok then Some (false, data) else
  let ptr := off + sizeof_SessionDevicePair in
  data ← write data ptr (le 4 (sourceUserId s));
  data ← write data (ptr + 4) (le 1 (len (targetUserIds s)));
  data ← PackUsers (targetUserIds s) data (ptr + sizeof_SessionUserPair);
  let ptr := ptr + sizeof_SessionUserPair + len (targetUserIds s) * 4 in
  let end_ := off + totalLen in
  '(ok, ptr, data) ← PackAppId s data ptr end_;
  if negb ok then Some (false, data) else
  '(ok, ptr, data) ← PackStoreId s data ptr end_;
  if negb ok then Some (false, data) else
  '(ok, ptr, data) ← PackAccountId s data ptr end_;
  Some (ok, data).

(* @src app/src/session_manager/route_head_handler_impl.cpp 176-189 RouteHeadHandlerImpl::PackData *)
Definition PackData (headSize_ : Z) (s : Session) (data : list Z) (totalLen : Z) : option (bool * list Z) :=
  if totalLen <? headSize_ then Some (false, data)
  else
    '(isOk, data) ← PackDataHead headSize_ data headSize_;
    if (isOk : bool) then PackDataBody s data sizeof_RouteHead (headSize_ - sizeof_RouteHead)
    else Some (false, data).
End Pack.

(** ** Unpacking *)

(* @src app/src/session_manager/route_head_handler_impl.cpp 405-425 RouteHeadHandlerImpl::UnPackDataHead *)
Definition UnPackDataHead (data : list Z) (totalLen : Z) : option (bool * Head) :=
  if totalLen <? sizeof_RouteHead then Some (false, mkHead 0 0 0 0)
  else
    m ← read data 0 2; v ← read data 2 2; c ← read data 4 8; d ← read data 12 4;
    let head := mkHead (unle m) (unle v) (unle c) (unle d) in
    if negb (magic head =? MAGIC_NUMBER) then Some (false, head)
    else if totalLen - sizeof_RouteHead <? dataLen head then Some (false, head)
    else Some (true, head).

(** A length-prefixed string at [ptr], checked against [leftSize]; the result has
    the string and the pointer behind it. The remaining size is a parameter passed
    by value: the reduced value is lost when the function returns. *)
Definition UnPackField (data : list Z) (ptr leftSize : Z) : option (option (string * Z)) :=
  if leftSize <? sizeof_Len then Some None
  else
    n ← unle <$> read data ptr 4;
    if leftSize - sizeof_Len <? n then Some None
    else
      bs ← read data (ptr + sizeof_Len) n;
      Some (Some (string_of bs, ptr + sizeof_Len + n)).

Definition set_appId (v : string) (s : Session) : Session :=
  mkSession (sourceDeviceId s) (targetDeviceId s) (sourceUserId s) (targetUserIds s) v (storeId s) (accountId s).
Definition set_storeId (v : string) (s : Session) : Session :=
  mkSession (sourceDeviceId s) (targetDeviceId s) (sourceUserId s) (targetUserIds s) (appId s) v (accountId s).
Definition set_accountId (v : string) (s : Session) : Session :=
  mkSession (sourceDeviceId s) (targetDeviceId s) (sourceUserId s) (targetUserIds s) (appId s) (storeId s) v.

Definition UnPackInto (set : string -> Session -> Session) (s : Session) (data : list Z) (ptr leftSize : Z)
    : option (bool * Z * Session) :=
  r ← UnPackField data ptr leftSize;
  Some match r with Some (v, ptr') => (true, ptr', set v s) | None => (false, ptr, s) end.

(* @src app/src/session_manager/route_head_handler_impl.cpp 478-494 RouteHeadHandlerImpl::UnPackAppId *)
Definition UnPackAppId := UnPackInto set_appId.
(* @src app/src/session_manager/route_head_handler_impl.cpp 496-512 RouteHeadHandlerImpl::UnPackStoreId *)
Definition UnPackStoreId := UnPackInto set_storeId.
(* @src app/src/session_manager/route_head_handler_impl.cpp 514-528 RouteHeadHandlerImpl::UnPackAccountId *)
Definition UnPackAccountId := UnPackInto set_accountId.

Fixpoint UnPackUsers (n : nat) (data : list Z) (pos : Z) : option (list Z) :=
  match n with
  | O => Some []
  | S n => u ← unle <$> read data pos 4; us ← UnPackUsers n data (pos + 4); Some (u :: us)
  end.

Definition INVALID_VERSION : Z := -1.
Definition ACCOUNT_VERSION : Z := 2.
Definition UDMF_AND_OBJECT_VERSION : Z := 3.

Section UnPack.
(** The version [UpgradeManager::GetCapability] knows for a device, if any. *)
Context (GetCapability : string -> option Z).

(** The members of the session that are set before a failure stay set. *)
(* @src app/src/session_manager/route_head_handler_impl.cpp 427-476 RouteHeadHandlerImpl::UnPackDataBody *)
Definition UnPackDataBody (s : Session) (data : list Z) (off totalLen : Z) : option (bool * Session) :=
  let leftSize := totalLen in
  if leftSize <? sizeof_SessionDevicePair then Some (false, s) else
  src ← read data off MAX_DEVICE_ID;
  dst ← read data (off + MAX_DEVICE_ID) MAX_DEVICE_ID;
  let s := mkSession (string_of (c_str src)) (string_of (c_str dst)) (sourceUserId s) (targetUserIds s)
             (appId s) (storeId s) (accountId s) in
  let ptr := off + sizeof_SessionDevicePair in
  let leftSize := leftSize - sizeof_SessionDevicePair in
  if leftSize <? sizeof_SessionUserPair then Some (false, s) else
  u ← unle <$> read data ptr 4;
  let s := mkSession (sourceDeviceId s) (targetDeviceId s) u (targetUserIds s)
             (appId s) (storeId s) (accountId s) in
  targetUserCount ← unle <$> read data (ptr + 4) 1;
  let userPairSize := sizeof_SessionUserPair + targetUserCount * 4 in
  if leftSize <? userPairSize then Some (false, s) else
  users ← UnPackUsers (Z.to_nat targetUserCount) data (ptr + sizeof_SessionUserPair);
  let s := mkSession (sourceDeviceId s) (targetDeviceId s) (sourceUserId s) (targetUserIds s ++ users)
             (appId s) (storeId s) (accountId s) in
  let ptr := ptr + userPairSize in
  let leftSize := leftSize - userPairSize in
  '(ok, ptr, s) ← UnPackAppId s data ptr leftSize;
  if negb ok then Some (false, s) else
  match GetCapability (sourceDeviceId s) with
  | None => Some (false, s)
  | Some v =>
      if ACCOUNT_VERSION <=? v then
        '(ok, ptr, s) ← UnPackStoreId s data ptr leftSize;
        if negb ok then Some (false, s) else
        '(ok, ptr, s) ← UnPackAccountId s data ptr leftSize;
        Some (ok, s)
      else Some (true, s)
  end.

(** The status, the session and [unpackedSize]. *)
(* @src app/src/session_manager/route_head_handler_impl.cpp 386-403 RouteHeadHandlerImpl::UnPackData *)
Definition UnPackData (s : Session) (data : list Z) (totalLen unpackedSize : Z)
    : option (bool * Session * Z) :=
  if totalLen <? sizeof_RouteHead then Some (false, s, unpackedSize)
  else
    '(result, head) ← UnPackDataHead data totalLen;
    if result && (version head =? VERSION) then
      '(isOk, s) ← UnPackDataBody s data sizeof_RouteHead (totalLen - sizeof_RouteHead);
      Some (isOk, s, if (isOk : bool) then u32 (sizeof_RouteHead + dataLen head) else 0)
    else Some (false, s, 0).
End UnPack.

(** ** The handler *)

Inductive DBStatus : Type := OK | DB_ERROR.

Record Handler := mkHandler {
  userId_ : string;
  appId_ : string;
  storeId_ : string;
  deviceId_ : string;
  session_ : Session;
  headSize_ : Z
}.

Definition set_headSize (n : Z) (h : Handler) : Handler :=
  mkHandler (userId_ h) (appId_ h) (storeId_ h) (deviceId_ h) (session_ h) n.

Definition DATA_OBJECT_STORE_ID : string := "distributedObject_".
Definition UDMF_STORE_ID : string := "drag".

(* @src app/src/session_manager/route_head_handler_impl.cpp 93-101 RouteHeadHandlerImpl::GetTargetUserId *)
Definition GetTargetUserId (h : Handler) : string :=
  match targetUserIds (session_ h) with [] => "" | u :: _ => to_string u end.

Section Handlers.
Context `{SecureC}.
(** The process label and the name of the metadata store ([Bootstrap]), the
    device types ([DeviceManagerAdapter]), the capabilities ([UpgradeManager])
    and the trust list of mapped applications. *)
Context (processLabel metaDBName : string).
Context (IsOHOSType : string -> bool) (GetCapability : string -> option Z) (IsTrustApp : string -> bool).

Abbreviation seq a b := (bool_decide (a = b)).

(** The status, [headSize] and the handler. *)
(* @src app/src/session_manager/route_head_handler_impl.cpp 103-154 RouteHeadHandlerImpl::GetHeadDataSize *)
Definition GetHeadDataSize (h : Handler) : DBStatus * Z * Handler :=
  let isMeta := seq (appId_ h) processLabel in
  let isUdmfOrObject := seq (storeId_ h) UDMF_STORE_ID || seq (storeId_ h) DATA_OBJECT_STORE_ID in
  if isMeta && negb (seq (storeId_ h) UDMF_STORE_ID) && negb (seq (storeId_ h) DATA_OBJECT_STORE_ID)
  then (OK, 0, h)
  else if negb (IsOHOSType (targetDeviceId (session_ h))) then
    if seq (appId_ h) "" then (DB_ERROR, 0, h)
    else if negb (IsTrustApp (appId_ h)) then (DB_ERROR, 0, h)
    else (OK, 0, h)
  else
    match GetCapability (targetDeviceId (session_ h)) with
    | None => (if isMeta && isUdmfOrObject then OK else DB_ERROR, 0, h)
    | Some peerCap =>
        if (isMeta && negb (seq (storeId_ h) metaDBName) && (peerCap <? UDMF_AND_OBJECT_VERSION))
           || (peerCap =? INVALID_VERSION)
        then (OK, 0, h)
        else if negb (IsValid (session_ h)) then (DB_ERROR, 0, h)
        else
          let headSize := u32 (GET_ALIGNED_SIZE (expectSize (session_ h)) ALIGN_WIDTH) in
          (OK, headSize, set_headSize headSize h)
    end.

(** [data = None] is the null pointer. *)
(* @src app/src/session_manager/route_head_handler_impl.cpp 156-174 RouteHeadHandlerImpl::FillHeadData *)
Definition FillHeadData (h : Handler) (data : option (list Z)) (headSize : Z)
    : option (DBStatus * option (list Z)) :=
  match data with
  | None => Some (DB_ERROR, None)
  | Some data =>
      if negb (headSize =? headSize_ h) then Some (DB_ERROR, Some data)
      else if headSize_ h =? 0 then Some (OK, Some data)
      else
        '(packRet, data) ← PackData (headSize_ h) (session_ h) data headSize;
        Some (if (packRet : bool) then OK else DB_ERROR, Some data)
  end.

(** The status and [headSize]; a message of another device type is accepted
    without touching [headSize]. *)
(* @src app/src/session_manager/route_head_handler_impl.cpp 283-310 RouteHeadHandlerImpl::ParseHeadDataLen *)
Definition ParseHeadDataLen (h : Handler) (data : option (list Z)) (totalLen headSize : Z) (device : string)
    : option (bool * Z) :=
  match data with
  | None => Some (false, headSize)
  | Some data =>
      if negb (IsOHOSType device) then Some (true, headSize)
      else
        let older :=
          seq (appId_ h) processLabel
          && (seq (storeId_ h) UDMF_STORE_ID || seq (storeId_ h) DATA_OBJECT_STORE_ID)
          && match GetCapability device with Some v => v <? UDMF_AND_OBJECT_VERSION | None => false end in
        if older then Some (false, headSize)
        else
          '(ret, head) ← UnPackDataHead data totalLen;
          Some (ret, if (ret : bool) then u32 (sizeof_RouteHead + dataLen head) else 0)
  end.
End Handlers.

(** ** Bytes and memory *)

Lemma string_of_bytes s : string_of (bytes s) = s.
Proof.
  unfold string_of, bytes. rewrite <- list_fmap_compose. rewrite <- (str_of_chars s) at 2. f_equal.
  induction (chars s) as [|c l IH]; cbn; [done|]. by rewrite char_of_byte_of, IH.
Qed.

Lemma len_nonneg {A} (l : list A) : 0 <= len l.
Proof. unfold len. lia. Qed.

Lemma len_app {A} (k l : list A) : len (k ++ l) = len k + len l.
Proof. unfold len. rewrite length_app. lia. Qed.

Lemma len_le n v : len (le n v) = Z.of_nat n.
Proof. unfold len. f_equal. revert v. induction n; intros v; cbn; auto. Qed.

Lemma unle_le n v : unle (le n v) = v mod 2 ^ (8 * Z.of_nat n).
Proof.
  revert v. induction n as [|n IH]; intros v; [by rewrite Z.mod_1_r|].
  cbn [le unle]. rewrite IH.
  replace (8 * Z.of_nat (S n)) with (8 + 8 * Z.of_nat n) by lia.
  rewrite Z.pow_add_r by lia. change (2 ^ 8) with 256.
  rewrite (Z.rem_mul_r v 256) by (try lia; apply Z.pow_pos_nonneg; lia). lia.
Qed.

(** The bytes [bs] are at [pos]. *)
Definition holds (buf : list Z) (pos : Z) (bs : list Z) : Prop := read buf pos (len bs) = Some bs.

Lemma holds_spec buf pos bs :
  holds buf pos bs <->
  0 <= pos /\ pos + len bs <= len buf /\
  forall i, (i < length bs)%nat -> buf !! (Z.to_nat pos + i)%nat = bs !! i.
Proof.
  unfold holds, read, len. split.
  - case_if; [|done]. intros [= E]. bool_prop. split_and!; [lia|lia|]. intros i Hi.
    rewrite <- E. rewrite lookup_take_lt by lia. by rewrite lookup_drop.
  - intros (Hp & Hl & Hi). case_if; [|exfalso; lia]. f_equal. apply list_eq. intros i.
    destruct (decide (i < length bs)%nat) as [Hlt|Hge].
    + rewrite lookup_take_lt by lia. rewrite lookup_drop. by apply Hi.
    + rewrite (lookup_ge_None_2 bs) by lia. apply lookup_ge_None.
      rewrite length_take, length_drop. lia.
Qed.

Lemma holds_app buf rest pos bs : holds buf pos bs -> holds (buf ++ rest) pos bs.
Proof.
  rewrite !holds_spec, len_app. pose proof (len_nonneg rest). intros (Hp & Hl & Hi).
  split_and!; [lia|lia|]. intros i Hlt. unfold len in *. rewrite lookup_app_l by lia. by apply Hi.
Qed.

(** What a run of writes in [lo, hi) leaves: the size and everything outside. *)
Definition wrote (buf buf' : list Z) (lo hi : Z) : Prop :=
  len buf' = len buf /\
  forall p cs, holds buf p cs -> p + len cs <= lo \/ hi <= p -> holds buf' p cs.

Lemma write_spec buf pos bs :
  0 <= pos -> pos + len bs <= len buf ->
  exists buf', write buf pos bs = Some buf' /\ holds buf' pos bs /\ wrote buf buf' pos (pos + len bs).
Proof.
  intros Hp Hl. unfold write. replace (_ && _) with true by (symmetry; lia).
  eexists. split; [done|].
  assert (Ht : length (take (Z.to_nat pos) buf) = Z.to_nat pos) by (rewrite length_take; unfold len in *; lia).
  assert (Hlen : len (take (Z.to_nat pos) buf ++ bs ++ drop (Z.to_nat (pos + len bs)) buf) = len buf).
  { unfold len in *. rewrite !length_app, Ht, length_drop. lia. }
  split; [|split; [done|]].
  - apply holds_spec. rewrite Hlen. split_and!; [done|done|]. intros i Hi.
    rewrite lookup_app_r by lia. rewrite Ht. rewrite lookup_app_l by lia. f_equal. lia.
  - intros p cs Hh Hd. apply holds_spec in Hh as (Hp' & Hl' & Hi'). apply holds_spec.
    rewrite Hlen. split_and!; [done|done|]. intros i Hi. rewrite <- Hi' by done.
    unfold len in *. destruct Hd as [Hd|Hd].
    + rewrite lookup_app_l by lia. by rewrite lookup_take_lt by lia.
    + rewrite lookup_app_r, Ht by lia. rewrite lookup_app_r by lia. rewrite lookup_drop. f_equal. lia.
Qed.

Lemma wrote_refl buf lo hi : wrote buf buf lo hi.
Proof. by split. Qed.

Lemma wrote_trans b0 b1 b2 lo1 hi1 lo2 hi2 lo hi :
  wrote b0 b1 lo1 hi1 -> wrote b1 b2 lo2 hi2 ->
  lo <= lo1 -> lo <= lo2 -> hi1 <= hi -> hi2 <= hi -> wrote b0 b2 lo hi.
Proof.
  intros [L1 K1] [L2 K2] ????. split; [congruence|]. intros p cs Hh Hd.
  apply K2; [apply K1; [done|]|]; lia.
Qed.

Lemma wrote_keep b b' lo hi p cs :
  wrote b b' lo hi -> holds b p cs -> p + len cs <= lo \/ hi <= p -> holds b' p cs.
Proof. intros [_ K]. apply K. Qed.

Lemma wrote_len b b' lo hi : wrote b b' lo hi -> len b' = len b.
Proof. by intros [L _]. Qed.

Lemma holds_concat buf p a b : holds buf p a -> holds buf (p + len a) b -> holds buf p (a ++ b).
Proof.
  rewrite !holds_spec, len_app. intros (Hp & Hl & Hi) (Hp' & Hl' & Hi'). split_and!; [done|lia|].
  intros i Hlt. rewrite length_app in Hlt. unfold len in *. destruct (decide (i < length a)%nat).
  - rewrite lookup_app_l by done. by apply Hi.
  - rewrite lookup_app_r by lia. rewrite <- Hi' by lia. f_equal. lia.
Qed.

Lemma holds_app_inv buf p a b : holds buf p (a ++ b) -> holds buf p a /\ holds buf (p + len a) b.
Proof.
  rewrite !holds_spec, len_app. pose proof (len_nonneg a). pose proof (len_nonneg b).
  intros (Hp & Hl & Hi). split; (split_and!; [lia|lia|]); intros i Hlt.
  - rewrite Hi by (rewrite length_app; lia). by rewrite lookup_app_l.
  - specialize (Hi (length a + i)%nat). rewrite length_app in Hi. unfold len.
    rewrite lookup_app_r in Hi by lia. replace (length a + i - length a)%nat with i in Hi by lia.
    rewrite <- Hi by lia. f_equal. lia.
Qed.

Ltac len_simp := rewrite ?len_app, ?len_le in *; change (len [0]) with 1 in *.

(** Runs the next write: its bytes are there and what was there stays. *)
Ltac step_write :=
  match goal with
  | |- context [write ?b ?p ?bs] =>
      let b' := fresh "buf" in let Hh := fresh "Hh" in let Hw := fresh "Hw" in let Hl := fresh "Hlen" in
      destruct (write_spec b p bs) as (b' & -> & Hh & Hw); [try lia|len_simp; try lia|];
      cbn [mbind option_bind]; pose proof (wrote_len _ _ _ _ Hw) as Hl; len_simp
  end.

(** Bytes written earlier survived the later writes. *)
Ltac kept :=
  repeat first [eassumption | eapply wrote_keep; [eassumption| |len_simp; try lia]].

(** The sizes of the packed structures as numbers. *)
Ltac unfold_sizes :=
  unfold sizeof_RouteHead, sizeof_SessionDevicePair, sizeof_SessionUserPair, sizeof_Len, MAX_DEVICE_ID in *.

Section PackSpec.
Context `{SecureC}.

Lemma PackField_spec s buf ptr end_ :
  0 <= ptr -> end_ <= len buf -> end_ < 2 ^ 31 -> ptr + 4 + len (bytes s) <= end_ -> ptr + 4 < end_ ->
  exists buf', PackField s buf ptr end_ = Some (true, ptr + 4 + len (bytes s), buf') /\
    holds buf' ptr (le 4 (len (bytes s))) /\ holds buf' (ptr + 4) (bytes s) /\
    wrote buf buf' ptr (ptr + 4 + len (bytes s)).
Proof.
  intros Hp He Hm Hl Hpos. pose proof (len_nonneg (bytes s)). unfold PackField, sizeof_Len.
  rewrite (wrap_id 32) by (unfold in_u; lia). step_write.
  rewrite (wrap_id 64) by (unfold in_u; lia). rewrite memcpy_ok_fits by lia.
  rewrite take_ge by (unfold len; lia). step_write.
  eexists. split; [done|]. split_and!; [|done|].
  - eapply wrote_keep; [done|done|]. len_simp. lia.
  - eapply wrote_trans; [done|done|..]; len_simp; lia.
Qed.

Lemma strcpy_s_spec s buf pos :
  0 <= pos -> pos + 65 <= len buf -> len (c_str (bytes s)) < 65 ->
  exists buf', strcpy_s buf pos s = Some (true, buf') /\
    holds buf' pos (c_str (bytes s) ++ [0]) /\ wrote buf buf' pos (pos + 65).
Proof.
  intros Hp Hl Hs. pose proof (len_nonneg (c_str (bytes s))). unfold strcpy_s, MAX_DEVICE_ID.
  rewrite strcpy_ok_fits by lia. step_write. eexists. split; [done|]. split; [done|].
  eapply wrote_trans; [done|apply (wrote_refl _ pos pos)|..]; len_simp; lia.
Qed.

Lemma PackUsers_spec users buf pos :
  0 <= pos -> pos + len users * 4 <= len buf ->
  exists buf', PackUsers users buf pos = Some buf' /\
    holds buf' pos (users ≫= le 4) /\ wrote buf buf' pos (pos + len users * 4).
Proof.
  revert buf pos. induction users as [|u users IH]; intros buf pos Hp Hl.
  - exists buf. split; [done|]. split; [|apply wrote_refl].
    apply holds_spec. cbn in *. split_and!; [done|unfold len in *; cbn in *; lia|intros; lia].
  - assert (Hc : len (u :: users) = 1 + len users) by (unfold len; cbn; lia).
    pose proof (len_nonneg users). rewrite Hc in *. cbn [PackUsers]. step_write.
    destruct (IH buf0 (pos + 4)) as (buf' & -> & Hh' & Hw'); [lia|lia|].
    exists buf'. split; [done|]. split.
    + cbn [mbind list_bind]. apply holds_concat; len_simp; [|done].
      eapply wrote_keep; [done|done|]. len_simp. lia.
    + eapply wrote_trans; [done|done|..]; lia.
Qed.

(** Sessions a handler can send: device ids without NUL that fit their fields,
    at most 255 target users, and a header the copy functions accept. The last
    condition leaves room behind the account id: copying no byte into an empty
    destination is left to the library. *)
Record session_ok (s : Session) : Prop := {
  source_ok : 0 ∉ bytes (sourceDeviceId s);
  source_len : len (bytes (sourceDeviceId s)) < MAX_DEVICE_ID;
  target_ok : 0 ∉ bytes (targetDeviceId s);
  target_len : len (bytes (targetDeviceId s)) < MAX_DEVICE_ID;
  user_ok : in_u 32 (sourceUserId s);
  users_ok : Forall (in_u 32) (targetUserIds s);
  users_len : len (targetUserIds s) < 256;
  size_ok : expectSize s + 7 < 2 ^ 31;
  room_ok : accountId s <> "" \/ expectSize s mod 8 <> 0
}.

Lemma c_str_id bs : 0 ∉ bs -> c_str bs = bs.
Proof.
  induction bs as [|b bs IH]; [done|]. rewrite elem_of_cons. intros Hb. cbn.
  destruct (Z.eqb_spec b 0); [naive_solver|]. f_equal. naive_solver.
Qed.

Lemma aligned_spec x : 0 <= x -> x + 7 < 2 ^ 64 ->
  x <= GET_ALIGNED_SIZE x 8 <= x + 7 /\ GET_ALIGNED_SIZE x 8 mod 8 = 0.
Proof.
  intros Hx Hm. unfold GET_ALIGNED_SIZE. rewrite (wrap_id 64) by (unfold in_u; lia).
  rewrite <- Z.ldiff_land. change (8 - 1) with (Z.ones 3). rewrite Z.ldiff_ones_r by lia.
  rewrite Z.shiftl_mul_pow2, Z.shiftr_div_pow2 by lia. change (Z.ones 3) with 7. change (2 ^ 3) with 8.
  split; [|apply Z_mod_mult]. pose proof (Z.div_mod (x + 7) 8). pose proof (Z.mod_pos_bound (x + 7) 8). lia.
Qed.

Lemma expectSize_nonneg s : 0 <= expectSize s.
Proof.
  unfold expectSize, sizeof_RouteHead, sizeof_SessionDevicePair, sizeof_SessionUserPair, sizeof_Len.
  pose proof (len_nonneg (targetUserIds s)). pose proof (len_nonneg (bytes (appId s))).
  pose proof (len_nonneg (bytes (storeId s))). pose proof (len_nonneg (bytes (accountId s))). lia.
Qed.

(** The offsets of the variable part. *)
Definition app_pos (s : Session) : Z := 151 + len (targetUserIds s) * 4.
Definition store_pos (s : Session) : Z := app_pos s + 4 + len (bytes (appId s)).
Definition account_pos (s : Session) : Z := store_pos s + 4 + len (bytes (storeId s)).

(** The content of a packed header. *)
Record packed (s : Session) (headSize : Z) (buf : list Z) : Prop := {
  p_magic : holds buf 0 (le 2 MAGIC_NUMBER);
  p_version : holds buf 2 (le 2 VERSION);
  p_sum : holds buf 4 (le 8 0);
  p_len : holds buf 12 (le 4 (headSize - 16));
  p_source : holds buf 16 (bytes (sourceDeviceId s) ++ [0]);
  p_target : holds buf 81 (bytes (targetDeviceId s) ++ [0]);
  p_user : holds buf 146 (le 4 (sourceUserId s));
  p_count : holds buf 150 (le 1 (len (targetUserIds s)));
  p_users : holds buf 151 (targetUserIds s ≫= le 4);
  p_app_len : holds buf (app_pos s) (le 4 (len (bytes (appId s))));
  p_app : holds buf (app_pos s + 4) (bytes (appId s));
  p_store_len : holds buf (store_pos s) (le 4 (len (bytes (storeId s))));
  p_store : holds buf (store_pos s + 4) (bytes (storeId s));
  p_account_len : holds buf (account_pos s) (le 4 (len (bytes (accountId s))));
  p_account : holds buf (account_pos s + 4) (bytes (accountId s))
}.

Lemma len_users (users : list Z) : len (users ≫= le 4) = len users * 4.
Proof.
  induction users as [|u us IH]; [done|].
  change ((u :: us) ≫= le 4) with (le 4 u ++ (us ≫= le 4)). rewrite len_app, len_le, IH.
  unfold len. cbn. lia.
Qed.

Lemma PackDataHead_spec headSize buf :
  16 <= headSize -> len buf = headSize ->
  exists buf', PackDataHead headSize buf headSize = Some (true, buf') /\ len buf' = headSize /\
    holds buf' 0 (le 2 MAGIC_NUMBER) /\ holds buf' 2 (le 2 VERSION) /\ holds buf' 4 (le 8 0) /\
    holds buf' 12 (le 4 (headSize - 16)).
Proof.
  intros Hs Hl. unfold PackDataHead, sizeof_RouteHead.
  destruct (Z.ltb_spec headSize 16); [lia|]. do 4 step_write.
  eexists. split; [done|]. split; [lia|].
  split_and!; kept.
Qed.

Lemma PackDataBody_spec s buf headSize :
  session_ok s -> GET_ALIGNED_SIZE (expectSize s) 8 = headSize -> len buf = headSize ->
  exists buf', PackDataBody s buf 16 (headSize - 16) = Some (true, buf') /\
    len buf' = headSize /\
    (holds buf 0 (le 2 MAGIC_NUMBER) -> holds buf 2 (le 2 VERSION) -> holds buf 4 (le 8 0) ->
      holds buf 12 (le 4 (headSize - 16)) -> packed s headSize buf').
Proof.
  intros [So Sl To Tl Uo Uso Usl Sz Ro] Hal Hl.
  pose proof (expectSize_nonneg s) as Hnn.
  pose proof (aligned_spec (expectSize s) Hnn ltac:(lia)) as [Hr Hmod]. rewrite Hal in *.
  assert (Hroom : account_pos s + 4 + len (bytes (accountId s)) <= headSize /\ account_pos s + 4 < headSize).
  { unfold account_pos, store_pos, app_pos, expectSize in *. unfold_sizes.
    split; [lia|]. destruct Ro as [Ha|Hx].
    - destruct (accountId s) as [|c a] eqn:E; [done|].
      assert (1 <= len (bytes (String c a))) by (unfold len, bytes; cbn; lia). lia.
    - pose proof (len_nonneg (bytes (accountId s))).
      match type of Hx with ?e mod 8 <> 0 => assert (headSize <> e) by congruence end. lia. }
  destruct Hroom as [Hend Hroom]. unfold PackDataBody. unfold_sizes.
  pose proof (len_nonneg (targetUserIds s)). pose proof (len_nonneg (bytes (appId s))).
  pose proof (len_nonneg (bytes (storeId s))). pose proof (len_nonneg (bytes (accountId s))).
  assert (headSize < 2 ^ 31) by lia.
  unfold account_pos in *. unfold store_pos in *. unfold app_pos in *.
  destruct (strcpy_s_spec (sourceDeviceId s) buf 16) as (b1 & -> & F1 & W1);
    [lia|lia|by rewrite c_str_id|]. rewrite c_str_id in F1 by done. pose proof (wrote_len _ _ _ _ W1).
  cbn [mbind option_bind negb]. change (16 + 65) with 81.
  destruct (strcpy_s_spec (targetDeviceId s) b1 81) as (b2 & -> & F2 & W2);
    [lia|lia|by rewrite c_str_id|]. rewrite c_str_id in F2 by done. pose proof (wrote_len _ _ _ _ W2).
  cbn [mbind option_bind negb]. change (16 + 130) with 146.
  step_write. change (146 + 4) with 150. step_write. change (146 + 5) with 151.
  destruct (PackUsers_spec (targetUserIds s) buf1 151) as (b3 & -> & F3 & W3); [lia|lia|].
  pose proof (wrote_len _ _ _ _ W3). cbn [mbind option_bind].
  replace (16 + (headSize - 16)) with headSize by lia.
  unfold PackAppId, PackStoreId, PackAccountId.
  destruct (PackField_spec (appId s) b3 (151 + len (targetUserIds s) * 4) headSize)
    as (b4 & -> & F4 & F4' & W4); [lia..|]. pose proof (wrote_len _ _ _ _ W4).
  cbn [mbind option_bind negb].
  destruct (PackField_spec (storeId s) b4 (151 + len (targetUserIds s) * 4 + 4 + len (bytes (appId s))) headSize)
    as (b5 & -> & F5 & F5' & W5); [lia..|]. pose proof (wrote_len _ _ _ _ W5).
  cbn [mbind option_bind negb].
  destruct (PackField_spec (accountId s) b5
    (151 + len (targetUserIds s) * 4 + 4 + len (bytes (appId s)) + 4 + len (bytes (storeId s))) headSize)
    as (b6 & -> & F6 & F6' & W6); [lia..|]. cbn [mbind option_bind].
  pose proof (wrote_len _ _ _ _ W6). eexists. split; [done|]. split; [lia|].
  intros. pose proof (len_users (targetUserIds s)).
  constructor; unfold account_pos, store_pos, app_pos; kept.
Qed.

Lemma PackData_spec s buf headSize :
  session_ok s -> GET_ALIGNED_SIZE (expectSize s) 8 = headSize -> len buf = headSize ->
  exists buf', PackData headSize s buf headSize = Some (true, buf') /\ len buf' = headSize /\
    packed s headSize buf'.
Proof.
  intros Hok Hal Hl. pose proof (size_ok _ Hok) as Sz. pose proof (expectSize_nonneg s) as Hnn.
  pose proof (aligned_spec (expectSize s) Hnn ltac:(lia)) as [Hr _]. rewrite Hal in Hr.
  assert (16 <= headSize).
  { unfold expectSize in Hr. unfold_sizes. pose proof (len_nonneg (targetUserIds s)).
    pose proof (len_nonneg (bytes (appId s))). pose proof (len_nonneg (bytes (storeId s))).
    pose proof (len_nonneg (bytes (accountId s))). lia. }
  unfold PackData. destruct (Z.ltb_spec headSize headSize); [lia|].
  destruct (PackDataHead_spec headSize buf) as (b1 & -> & Hl1 & F1 & F2 & F3 & F4); [done|done|].
  cbn [mbind option_bind].
  destruct (PackDataBody_spec s b1 headSize) as (b2 & E & Hl2 & Hp); [done..|].
  exists b2. auto.
Qed.

End PackSpec.

(** ** Reading a packed header *)

Lemma holds_read buf pos n bs : holds buf pos bs -> n = len bs -> read buf pos n = Some bs.
Proof. by intros Hh ->. Qed.

Lemma UnPackField_spec buf ptr leftSize s :
  holds buf ptr (le 4 (len (bytes s))) -> holds buf (ptr + 4) (bytes s) ->
  len (bytes s) < 2 ^ 32 -> 4 + len (bytes s) <= leftSize ->
  UnPackField buf ptr leftSize = Some (Some (s, ptr + 4 + len (bytes s))).
Proof.
  intros H1 H2 Hm Hl. pose proof (len_nonneg (bytes s)). unfold UnPackField, sizeof_Len.
  destruct (Z.ltb_spec leftSize 4); [lia|].
  rewrite (holds_read _ _ 4 _ H1) by (by rewrite len_le). cbn [fmap option_fmap option_map mbind option_bind].
  rewrite unle_le, Z.mod_small by (cbn; lia). destruct (Z.ltb_spec (leftSize - 4) (len (bytes s))); [lia|].
  rewrite (holds_read _ _ _ _ H2) by done. cbn. by rewrite string_of_bytes.
Qed.

Lemma UnPackUsers_spec buf pos users :
  Forall (in_u 32) users -> holds buf pos (users ≫= le 4) ->
  UnPackUsers (length users) buf pos = Some users.
Proof.
  intros Hu. revert pos. induction Hu as [|u us Hu _ IH]; intros pos Hh; [done|].
  change ((u :: us) ≫= le 4) with (le 4 u ++ (us ≫= le 4)) in Hh.
  apply holds_app_inv in Hh as [H1 H2]. rewrite len_le in H2. cbn [length UnPackUsers].
  rewrite (holds_read _ _ 4 _ H1) by (by rewrite len_le). cbn [fmap option_fmap option_map mbind option_bind].
  rewrite unle_le, Z.mod_small by done. by rewrite IH.
Qed.

(** A device id field: the bytes up to the NUL. *)
Lemma read_device buf pos bs :
  holds buf pos (bs ++ [0]) -> 0 ∉ bs -> len bs < 65 -> pos + 65 <= len buf ->
  exists l, read buf pos 65 = Some l /\ c_str l = bs.
Proof.
  intros Hh Hn Hl Hb. apply holds_spec in Hh as (Hp & _ & Hi). unfold read.
  replace (_ && _) with true by (symmetry; lia). eexists. split; [done|].
  assert (Ht : exists r, take (Z.to_nat 65) (drop (Z.to_nat pos) buf) = bs ++ 0 :: r).
  { exists (drop (S (length bs)) (take (Z.to_nat 65) (drop (Z.to_nat pos) buf))).
    rewrite <- (take_drop (S (length bs)) (take _ _)) at 1. change (0 :: ?r) with ([0] ++ r).
    rewrite app_assoc. f_equal. apply list_eq. intros i.
    destruct (decide (i < S (length bs))%nat) as [Hlt|Hge].
    - unfold len in Hl. rewrite !lookup_take_lt by lia. rewrite lookup_drop.
      apply Hi. rewrite length_app. cbn. lia.
    - rewrite !lookup_ge_None_2; [done| |].
      + rewrite length_app. cbn. lia.
      + rewrite length_take. lia. }
  destruct Ht as [r ->]. clear -Hn. induction bs as [|b bs IH]; [done|].
  rewrite elem_of_cons in Hn. cbn. destruct (Z.eqb_spec b 0); [naive_solver|]. f_equal. naive_solver.
Qed.

(** The session a receiver rebuilds: the target users are appended to the ones it
    has; store and account are read only from peers that send them. *)
Definition received (v : Z) (s0 s : Session) : Session :=
  mkSession (sourceDeviceId s) (targetDeviceId s) (sourceUserId s) (targetUserIds s0 ++ targetUserIds s)
    (appId s)
    (if ACCOUNT_VERSION <=? v then storeId s else storeId s0)
    (if ACCOUNT_VERSION <=? v then accountId s else accountId s0).

Lemma UnPackDataHead_spec s headSize buf totalLen :
  packed s headSize buf -> 16 <= headSize < 2 ^ 32 -> headSize <= totalLen ->
  UnPackDataHead buf totalLen = Some (true, mkHead MAGIC_NUMBER VERSION 0 (headSize - 16)).
Proof.
  intros [Hm Hv Hc Hd _ _ _ _ _ _ _ _ _ _ _] Hh Ht. unfold UnPackDataHead, sizeof_RouteHead.
  destruct (Z.ltb_spec totalLen 16); [lia|].
  rewrite (holds_read _ _ 2 _ Hm), (holds_read _ _ 2 _ Hv), (holds_read _ _ 8 _ Hc),
    (holds_read _ _ 4 _ Hd) by (by rewrite len_le).
  cbn [mbind option_bind]. rewrite (unle_le 4), Z.mod_small by (cbn; lia).
  change (unle (le 2 MAGIC_NUMBER)) with MAGIC_NUMBER. cbn [magic dataLen].
  rewrite Z.eqb_refl. cbn [negb]. destruct (Z.ltb_spec (totalLen - 16) (headSize - 16)); [lia|done].
Qed.

Lemma UnPackDataBody_spec GetCapability s s0 headSize buf v :
  packed s headSize buf -> session_ok s -> GetCapability (sourceDeviceId s) = Some v ->
  account_pos s + 4 + len (bytes (accountId s)) <= len buf ->
  UnPackDataBody GetCapability s0 buf 16 (len buf - 16) = Some (true, received v s0 s).
Proof.
  intros [_ _ _ _ Ps Pt Pu Pc Pus Pal Pa Psl Pst Pcl Pct] [So Sl To Tl Uo Uso Usl Sz _] Hcap Hb.
  pose proof (len_nonneg (targetUserIds s)). pose proof (len_nonneg (bytes (appId s))).
  pose proof (len_nonneg (bytes (storeId s))). pose proof (len_nonneg (bytes (accountId s))).
  unfold expectSize in Sz. unfold_sizes. unfold account_pos in *. unfold store_pos in *. unfold app_pos in *.
  unfold UnPackDataBody. unfold_sizes.
  destruct (Z.ltb_spec (len buf - 16) 130); [lia|].
  destruct (read_device _ _ _ Ps) as (l1 & -> & E1); [done|done|lia|].
  change (16 + 65) with 81. cbn [mbind option_bind].
  destruct (read_device _ _ _ Pt) as (l2 & -> & E2); [done|done|lia|].
  cbn [mbind option_bind]. rewrite E1, E2, !string_of_bytes. destruct (Z.ltb_spec (len buf - 16 - 130) 5); [lia|].
  change (16 + 130) with 146. change (146 + 4) with 150. change (146 + 5) with 151.
  rewrite (holds_read _ _ 4 _ Pu), (holds_read _ _ 1 _ Pc) by (by rewrite len_le).
  cbn [fmap option_fmap option_map mbind option_bind]. rewrite !unle_le.
  rewrite (Z.mod_small (sourceUserId s)) by apply Uo.
  rewrite (Z.mod_small (len (targetUserIds s))) by (change (8 * Z.of_nat 1) with 8; lia).
  match goal with |- context [?a <? ?b] => destruct (Z.ltb_spec a b); [lia|] end.
  replace (Z.to_nat (len (targetUserIds s))) with (length (targetUserIds s)) by (unfold len; lia).
  rewrite UnPackUsers_spec by done. cbn [mbind option_bind].
  replace (146 + (5 + len (targetUserIds s) * 4)) with (151 + len (targetUserIds s) * 4) by lia.
  unfold UnPackAppId, UnPackStoreId, UnPackAccountId, UnPackInto.
  rewrite (UnPackField_spec _ _ _ (appId s)) by (done || lia). cbn [mbind option_bind negb].
  cbn [sourceDeviceId set_appId]. rewrite Hcap. unfold received.
  destruct (ACCOUNT_VERSION <=? v); [|done].
  rewrite (UnPackField_spec _ _ _ (storeId s)) by (done || lia). cbn [mbind option_bind negb].
  rewrite (UnPackField_spec _ _ _ (accountId s)) by (done || lia). done.
Qed.

(** ** Theorems *)

Lemma GetHeadDataSize_nonzero label meta isOh cap trust h st n h' :
  GetHeadDataSize label meta isOh cap trust h = (st, n, h') -> n <> 0 ->
  st = OK /\ n = u32 (GET_ALIGNED_SIZE (expectSize (session_ h)) ALIGN_WIDTH) /\ h' = set_headSize n h.
Proof. unfold GetHeadDataSize. repeat case_match; intros; simplify_eq; done. Qed.

Lemma headSize_range s : session_ok s ->
  let n := GET_ALIGNED_SIZE (expectSize s) ALIGN_WIDTH in
  16 <= n < 2 ^ 31 /\ account_pos s + 4 + len (bytes (accountId s)) <= n.
Proof.
  intros Hok n. pose proof (size_ok _ Hok) as Sz. pose proof (expectSize_nonneg s) as Hnn.
  pose proof (aligned_spec (expectSize s) Hnn ltac:(lia)) as [Hr _]. fold ALIGN_WIDTH n in Hr.
  pose proof (len_nonneg (targetUserIds s)). pose proof (len_nonneg (bytes (appId s))).
  pose proof (len_nonneg (bytes (storeId s))). pose proof (len_nonneg (bytes (accountId s))).
  unfold account_pos, store_pos, app_pos, expectSize in *. unfold_sizes. lia.
Qed.

(** C5: For every session within the limits of the layout, when the sender's
    handler announces a non-zero head size and fills a buffer of that size (with
    any previous content), a receiver that is given the buffer followed by any
    payload parses it successfully: it computes the same head size and rebuilds
    the session (store and account for peers that send them). *)
Theorem route_head_roundtrip `{SecureC} label meta isOh cap trust h h' headSize data payload cap' s0 v :
  GetHeadDataSize label meta isOh cap trust h = (OK, headSize, h') -> headSize <> 0 ->
  session_ok (session_ h) -> len data = headSize ->
  cap' (sourceDeviceId (session_ h)) = Some v ->
  exists filled,
    FillHeadData h' (Some data) headSize = Some (OK, Some filled) /\
    UnPackData cap' s0 (filled ++ payload) (len (filled ++ payload)) 0
    = Some (true, received v s0 (session_ h), headSize).
Proof.
  intros Hg Hne Hok Hl Hcap. destruct (GetHeadDataSize_nonzero _ _ _ _ _ _ _ _ _ Hg Hne) as (_ & Hn & ->).
  destruct (headSize_range _ Hok) as [Hr Hp]. rewrite wrap_id in Hn by (unfold in_u; lia).
  destruct (PackData_spec (session_ h) data headSize) as (b & Hpk & Hlb & Hpacked); [done|by rewrite Hn|done|].
  exists b. unfold FillHeadData. cbn [headSize_ set_headSize session_]. rewrite Z.eqb_refl. cbn [negb].
  rewrite (proj2 (Z.eqb_neq headSize 0)) by done. rewrite Hpk. split; [done|].
  assert (Hpacked' : packed (session_ h) headSize (b ++ payload)).
  { destruct Hpacked. constructor; by apply holds_app. }
  rewrite Hn in Hl, Hlb. pose proof (len_nonneg payload). unfold UnPackData, sizeof_RouteHead.
  destruct (Z.ltb_spec (len (b ++ payload)) 16); [rewrite len_app in *; lia|].
  rewrite (UnPackDataHead_spec _ _ _ _ Hpacked') by (rewrite ?len_app; lia).
  cbn [mbind option_bind version VERSION]. cbn [andb Z.eqb Pos.eqb].
  rewrite (UnPackDataBody_spec cap' _ s0 _ _ v Hpacked') by (done || rewrite len_app; lia).
  cbn [mbind option_bind dataLen]. rewrite wrap_id by (unfold in_u; lia). do 2 f_equal. lia.
Qed.

(** A library that copies whatever fits. *)
Definition plain_securec : SecureC.
Proof.
  refine {| strcpy_ok := fun d n => n <? d; memcpy_ok := fun d n => (n <=? d) && (0 <? d) |}; intros; lia.
Defined.

Definition sample_session : Session :=
  mkSession "source" "target" 100 [100; 101] "com.app" "store" "account".
Definition sample_handler : Handler := mkHandler "100" "com.app" "store" "target" sample_session 0.

Lemma route_head_roundtrip_witness :
  exists filled,
    FillHeadData (H := plain_securec) (set_headSize 192 sample_handler) (Some (replicate 192 7)) 192
    = Some (OK, Some filled) /\
    UnPackData (fun _ => Some 3) (mkSession "" "" 0 [] "" "" "") (filled ++ [1; 2; 3])
      (len (filled ++ [1; 2; 3])) 0
    = Some (true, sample_session, 192).
Proof.
  apply (route_head_roundtrip (H := plain_securec) "label" "meta" (fun _ => true) (fun _ => Some 3)
    (fun _ => true) sample_handler (set_headSize 192 sample_handler) 192 (replicate 192 7) [1; 2; 3]
    (fun _ => Some 3) (mkSession "" "" 0 [] "" "" "") 3).
  - reflexivity.
  - lia.
  - constructor; by_decide.
  - reflexivity.
  - reflexivity.
Defined.

(** *** Out of bounds reads *)

Lemma read_ok buf pos n : 0 <= pos -> 0 <= n -> pos + n <= len buf -> is_Some (read buf pos n).
Proof. intros. unfold read. replace (_ && _) with true by (symmetry; lia). done. Qed.

Lemma unle_nonneg bs : Forall (in_u 8) bs -> 0 <= unle bs.
Proof. induction 1 as [|b bs Hb _ IH]; cbn; [done|]. unfold in_u in Hb. lia. Qed.

Lemma read_bytes buf pos n bs : Forall (in_u 8) buf -> read buf pos n = Some bs -> Forall (in_u 8) bs.
Proof.
  unfold read. intros Hf. case_if; [|done]. intros [= <-]. by apply Forall_take, Forall_drop.
Qed.

Lemma UnPackUsers_ok n buf pos :
  0 <= pos -> pos + Z.of_nat n * 4 <= len buf -> is_Some (UnPackUsers n buf pos).
Proof.
  revert pos. induction n as [|n IH]; intros pos Hp Hl; [done|]. cbn.
  destruct (read_ok buf pos 4) as [l ->]; [lia..|]. cbn.
  destruct (IH (pos + 4)) as [us ->]; [lia..|]. done.
Qed.

Lemma UnPackInto_ok set s buf ptr leftSize :
  Forall (in_u 8) buf -> 0 <= ptr -> ptr + leftSize <= len buf ->
  exists r, UnPackInto set s buf ptr leftSize = Some r.
Proof.
  intros Hf Hp Hl. unfold UnPackInto, UnPackField, sizeof_Len.
  destruct (Z.ltb_spec leftSize 4); [by eexists|].
  destruct (read_ok buf ptr 4) as [l E]; [lia..|]. rewrite E. cbn.
  pose proof (unle_nonneg l (read_bytes _ _ _ _ Hf E)).
  destruct (Z.ltb_spec (leftSize - 4) (unle l)); [by eexists|].
  destruct (read_ok buf (ptr + 4) (unle l)) as [l' ->]; [lia..|]. by eexists.
Qed.



(** The remaining size is not reduced between the fields: a message of 155 bytes
    that ends with its (empty) application id makes the parser read the length of
    the store id behind the end of the message. *)
Lemma UnPackData_out_of_bounds :
  let data := le 2 MAGIC_NUMBER ++ le 2 VERSION ++ le 8 0 ++ le 4 139 ++ replicate 130 0
              ++ le 4 100 ++ [0] ++ le 4 0 in
  Forall (in_u 8) data /\
  UnPackData (fun _ => Some ACCOUNT_VERSION) (mkSession "" "" 0 [] "" "" "") data (len data) 0 = None.
Proof. split; [by_decide|reflexivity]. Qed.

End RouteHead.
