(* ===== verification/MetaDataManager.v ===== *)
(** * The metadata manager ([framework/metadata/meta_data_manager.cpp])

    Metadata is stored as strings in the synchronised and in the local table of
    one key-value store; a bounded cache holds strings of the local table. The
    module models the operations over the [KvStore] and [LruBucket] interfaces and
    shows that the cache never serves anything but the stored value, so that the
    manager implements [MetaStore]. *)

From S2P Require Import Prelude CppString Interfaces.

Module MetaDataManager.

(* @src framework/metadata/meta_data_manager.cpp 64-67 Filter::operator() *)
Definition Filter (pattern_ key : string) : bool := bool_decide (find key pattern_ 0 = Some 0%nat).

Lemma Filter_spec pattern key :
  Filter pattern key = true <-> exists rest, key = pattern +:+ rest.
Proof.
  unfold Filter. rewrite bool_decide_eq_true, find_spec. split.
  - intros (_ & Ho & _). rewrite occurs_at_0 in Ho. destruct Ho as [r Hr]. exists (str_of r).
    apply chars_inj. by rewrite chars_app, chars_str_of.
  - intros [r ->]. split_and!; [lia| |lia]. rewrite occurs_at_0, chars_app. by eexists.
Qed.

(* @src framework/include/metadata/meta_data_manager.h 33-37 Action *)
Inductive Action : Type := INSERT | UPDATE | DELETE.

(** One change notification of the store: the entries per kind. *)
Record ChangedData := mkChanged {
  inserted : list (string * string);
  updated : list (string * string);
  deleted : list (string * string)
}.

(** The calls an observer with a filter receives for a notification. *)
(* @src framework/metadata/meta_data_manager.cpp 78-99 MetaObserver::OnChange *)
Definition OnChange (pattern_ : string) (data : ChangedData) : list (string * string * Action) :=
  let calls (es : list (string * string)) (a : Action) :=
    (fun e => (e, a)) <$> filter (fun e => Filter pattern_ e.1 = true) es in
  calls (inserted data) INSERT ++ calls (updated data) UPDATE ++ calls (deleted data) DELETE.

(** Notifications of the cloud carry only keys; [None] is a primary key that is
    missing or not a string. *)
(* @src framework/metadata/meta_data_manager.cpp 110-132 MetaObserver::HandleChanges *)
Definition HandleChanges (pattern_ : string) (flag : Action) (priData : list (option string))
    : list (string * string * Action) :=
  (fun k => ((k, ""), flag)) <$> filter (fun k => Filter pattern_ k = true) (omap id priData).

Section Manager.
Context `{KvStore} `{LruBucket string string}.

(** An observer is a name: what it does is the business of its owner. *)
Record Manager := mkManager {
  inited_ : bool;
  metaStore_ : kv;
  localdata_ : bucket string string;
  metaObservers_ : gmap string nat;
  registered : list (nat * bool);     (* the observers registered at the store, with [isLocal] *)
  backups : nat;                      (* calls of [backup_] *)
  cloudSyncs : nat;                   (* calls of [cloudSyncer_] *)
  stopped : bool                      (* [StopSA] has raised SIGKILL *)
}.

Definition set_store s m :=
  mkManager (inited_ m) s (localdata_ m) (metaObservers_ m) (registered m) (backups m) (cloudSyncs m) (stopped m).
Definition set_cache c m :=
  mkManager (inited_ m) (metaStore_ m) c (metaObservers_ m) (registered m) (backups m) (cloudSyncs m) (stopped m).
Definition set_observers o r m :=
  mkManager (inited_ m) (metaStore_ m) (localdata_ m) o r (backups m) (cloudSyncs m) (stopped m).

(* @src framework/metadata/meta_data_manager.cpp 524-531 MetaDataManager::StopSA *)
Definition StopSA m :=
  mkManager (inited_ m) (metaStore_ m) (localdata_ m) (metaObservers_ m) (registered m)
    (backups m) (cloudSyncs m) true.

(** The notifications after a write. *)
Definition notify (status : DBStatus) (isLocal : bool) m :=
  mkManager (inited_ m) (metaStore_ m) (localdata_ m) (metaObservers_ m) (registered m)
    (if bool_decide (status = OK) then S (backups m) else backups m)
    (if isLocal then cloudSyncs m else S (cloudSyncs m)) (stopped m).

(* @src framework/include/metadata/meta_data_manager.h 103-109 DelCacheMeta *)
Definition DelCacheMeta (key : string) (isLocal : bool) m :=
  if negb isLocal then m else set_cache (lru_delete key (localdata_ m)) m.

(* @src framework/include/metadata/meta_data_manager.h 111-122 LoadCacheMeta *)
Definition LoadCacheMeta (key : string) (isLocal : bool) m : option string * Manager :=
  if negb isLocal then (None, m)
  else let '(r, c) := lru_get key (localdata_ m) in (r, set_cache c m).

(* @src framework/include/metadata/meta_data_manager.h 124-130 SaveCacheMeta *)
Definition SaveCacheMeta (key data : string) (isLocal : bool) m :=
  if negb isLocal then m else set_cache (lru_set key data (localdata_ m)) m.

(** The first initialization wins. *)
(* @src framework/metadata/meta_data_manager.cpp 147-161 MetaDataManager::Initialize *)
Definition Initialize (store : option kv) m :=
  match store with
  | None => m
  | Some s =>
      if inited_ m then m
      else mkManager true s (localdata_ m) (metaObservers_ m) (registered m) (backups m) (cloudSyncs m) (stopped m)
  end.

(* @src framework/metadata/meta_data_manager.cpp 179-207 MetaDataManager::SaveMeta *)
Definition SaveMeta (key data : string) (isLocal : bool) m : bool * Manager :=
  if negb (inited_ m) then (false, m)
  else
    let '(status, s) := kv_put isLocal [(key, data)] (metaStore_ m) in
    let m := set_store s m in
    if bool_decide (status = INVALID_PASSWD_OR_CORRUPTED_DB) then (false, StopSA m)
    else (bool_decide (status = OK), DelCacheMeta key isLocal (notify status isLocal m)).

(* @src framework/metadata/meta_data_manager.cpp 209-240 MetaDataManager::SaveMeta *)
Definition SaveMetaBatch (values : list (string * string)) (isLocal : bool) m : bool * Manager :=
  if negb (inited_ m) then (false, m)
  else if bool_decide (values = []) then (true, m)
  else
    let m := fold_left (fun m e => DelCacheMeta e.1 isLocal m) values m in
    let '(status, s) := kv_put isLocal values (metaStore_ m) in
    let m := set_store s m in
    if bool_decide (status = INVALID_PASSWD_OR_CORRUPTED_DB) then (false, StopSA m)
    else (bool_decide (status = OK), notify status isLocal m).

(** The string that is unmarshalled into the caller's object, if any. *)
(* @src framework/metadata/meta_data_manager.cpp 242-270 MetaDataManager::LoadMeta *)
Definition LoadMeta (key : string) (isLocal : bool) m : option string * Manager :=
  if negb (inited_ m) then (None, m)
  else
    let '(cached, m) := LoadCacheMeta key isLocal m in
    match cached with
    | Some d => (Some d, m)
    | None =>
        let '(status, data, s) := kv_get isLocal key (metaStore_ m) in
        let m := set_store s m in
        if bool_decide (status = INVALID_PASSWD_OR_CORRUPTED_DB) then (None, StopSA m)
        else if negb (bool_decide (status = OK)) then (None, m)
        else (Some data, SaveCacheMeta key data isLocal m)
    end.

(* @src framework/metadata/meta_data_manager.cpp 273-293 MetaDataManager::GetEntries *)
Definition GetEntries (prefix : string) (isLocal : bool) m : option (list string) * Manager :=
  let '(status, dbEntries, s) := kv_entries isLocal prefix (metaStore_ m) in
  let m := set_store s m in
  if bool_decide (status = INVALID_PASSWD_OR_CORRUPTED_DB) then (None, StopSA m)
  else if negb (bool_decide (status = OK)) && negb (bool_decide (status = NOT_FOUND)) then (None, m)
  else (Some dbEntries.*2, m).

(** The load of all entries with a prefix; the strings are unmarshalled one by one. *)
(* @src framework/include/metadata/meta_data_manager.h 76-91 MetaDataManager::LoadMeta *)
Definition LoadMetas (prefix : string) (isLocal : bool) m : option (list string) * Manager :=
  if negb (inited_ m) then (None, m) else GetEntries prefix isLocal m.

(* @src framework/metadata/meta_data_manager.cpp 295-317 MetaDataManager::DelMeta *)
Definition DelMeta (key : string) (isLocal : bool) m : bool * Manager :=
  if negb (inited_ m) then (false, m)
  else
    let m := DelCacheMeta key isLocal m in
    let '(status, s) := kv_delete isLocal [key] (metaStore_ m) in
    let m := set_store s m in
    if bool_decide (status = INVALID_PASSWD_OR_CORRUPTED_DB) then (false, StopSA m)
    else (bool_decide (status = OK \/ status = NOT_FOUND), notify status isLocal m).

(* @src framework/metadata/meta_data_manager.cpp 319-348 MetaDataManager::DelMeta *)
Definition DelMetaBatch (keys : list string) (isLocal : bool) m : bool * Manager :=
  if negb (inited_ m) then (false, m)
  else if bool_decide (keys = []) then (true, m)
  else
    let m := fold_left (fun m k => DelCacheMeta k isLocal m) keys m in
    let '(status, s) := kv_delete isLocal keys (metaStore_ m) in
    let m := set_store s m in
    if bool_decide (status = INVALID_PASSWD_OR_CORRUPTED_DB) then (false, StopSA m)
    else (bool_decide (status = OK \/ status = NOT_FOUND), notify status isLocal m).

(** [RegisterObserver] is called once for a local observer and twice for another
    one (data, then cloud changes); the statuses are the store's answers. *)
(* @src framework/metadata/meta_data_manager.cpp 477-506 MetaDataManager::Subscribe *)
Definition Subscribe (prefix : string) (observer : nat) (isLocal : bool)
    (regStatus cloudStatus : DBStatus) m : bool * Manager :=
  if negb (inited_ m) then (false, m)
  else
    match metaObservers_ m !! prefix with
    | Some _ => (true, m)
    | None =>
        let status := if negb isLocal && bool_decide (regStatus = OK) then cloudStatus else regStatus in
        if negb (bool_decide (status = OK)) then (false, m)
        else (true, set_observers (<[prefix := observer]> (metaObservers_ m))
                      ((observer, isLocal) :: registered m) m)
    end.

(* @src framework/metadata/meta_data_manager.cpp 508-522 MetaDataManager::Unsubscribe *)
Definition Unsubscribe (filter_ : string) m : bool * Manager :=
  if negb (inited_ m) then (false, m)
  else
    match metaObservers_ m !! filter_ with
    | None => (true, m)
    | Some o => (true, set_observers (delete filter_ (metaObservers_ m))
                         (filter (fun r => r.1 <> o) (registered m)) m)
    end.

(** ** Cache coherence *)

(** Every cached string is the stored one. *)
Definition coherent m : Prop :=
  forall k d, peek k (localdata_ m) = Some d -> content (metaStore_ m) true k = Some d.

Lemma DelCacheMeta_peek key isLocal m k d :
  peek k (localdata_ (DelCacheMeta key isLocal m)) = Some d ->
  peek k (localdata_ m) = Some d /\ (isLocal = true -> k <> key).
Proof.
  unfold DelCacheMeta. destruct isLocal; cbn; [|done]. intros Hp.
  destruct (decide (k = key)) as [->|Hne]; [by rewrite lru_delete_same in Hp|].
  by rewrite lru_delete_other in Hp.
Qed.

Lemma DelCacheMeta_store key isLocal m : metaStore_ (DelCacheMeta key isLocal m) = metaStore_ m.
Proof. by destruct isLocal. Qed.

(** Dropping the entries of a list of keys. *)
Lemma DelCacheMetas_peek {A} (key : A -> string) isLocal l m k d :
  let m' := fold_left (fun m a => DelCacheMeta (key a) isLocal m) l m in
  metaStore_ m' = metaStore_ m /\
  (peek k (localdata_ m') = Some d ->
   peek k (localdata_ m) = Some d /\ (isLocal = true -> k ∉ key <$> l)).
Proof.
  revert m. induction l as [|a l IH]; intros m m'; cbn in *; [by split; [|split; [|set_solver]]|].
  subst m'. destruct (IH (DelCacheMeta (key a) isLocal m)) as [Hs Hp].
  rewrite DelCacheMeta_store in Hs. split; [done|]. intros Hk.
  destruct (Hp Hk) as [Hk' Hn]. apply DelCacheMeta_peek in Hk' as [Hk' Hn']. split; [done|].
  intros Hl. rewrite not_elem_of_cons. auto.
Qed.

(** Writing [es] keeps the cache coherent when their keys are not cached. *)
Lemma put_coherent isLocal es m st s (c : bucket string string) :
  kv_put isLocal es (metaStore_ m) = (st, s) ->
  (forall k d, peek k c = Some d -> content (metaStore_ m) true k = Some d) ->
  (st = OK -> isLocal = true -> forall k d, peek k c = Some d -> k ∉ es.*1) ->
  forall k d, peek k c = Some d -> content s true k = Some d.
Proof.
  intros Hput Hc Hfresh k d Hp. destruct (decide (st = OK)) as [->|Hne].
  - rewrite (kv_put_ok _ _ _ _ Hput). case_bool_decide as El; [|by apply Hc].
    destruct (list_find _ _) as [[i e]|] eqn:Ef; [|by apply Hc].
    apply list_find_Some in Ef as (Hi & Hk & _). exfalso.
    apply (Hfresh eq_refl (eq_sym El) k d Hp). apply list_elem_of_fmap. exists e. split; [done|].
    apply elem_of_reverse. by apply list_elem_of_lookup_2 in Hi.
  - rewrite (kv_put_fail _ _ _ _ _ Hput Hne). by apply Hc.
Qed.

Lemma delete_coherent isLocal ks m st s (c : bucket string string) :
  kv_delete isLocal ks (metaStore_ m) = (st, s) ->
  (forall k d, peek k c = Some d -> content (metaStore_ m) true k = Some d) ->
  (isLocal = true -> forall k d, peek k c = Some d -> k ∉ ks) ->
  forall k d, peek k c = Some d -> content s true k = Some d.
Proof.
  intros Hdel Hc Hfresh k d Hp. destruct (decide (st = OK)) as [->|Hne].
  - rewrite (kv_delete_ok _ _ _ _ Hdel). case_bool_decide as El; [|by apply Hc].
    destruct El as [El Hk]. by destruct (Hfresh (eq_sym El) k d Hp).
  - rewrite (kv_delete_fail _ _ _ _ _ Hdel Hne). by apply Hc.
Qed.

Lemma SaveMeta_coherent key data isLocal m : coherent m -> coherent (SaveMeta key data isLocal m).2.
Proof.
  intros Hc. unfold SaveMeta. destruct (inited_ m); cbn; [|done].
  destruct (kv_put _ _ _) as [st s] eqn:Eput. case_bool_decide as Ecor; cbn.
  - subst st. intros k d Hp. cbn in *. rewrite (kv_put_fail _ _ _ _ _ Eput) by done. by apply Hc.
  - intros k d Hp. rewrite DelCacheMeta_store. cbn. apply DelCacheMeta_peek in Hp as Hp'.
    eapply (put_coherent _ _ _ _ _ (localdata_ (DelCacheMeta key isLocal (notify st isLocal (set_store s m)))) Eput);
      [| |exact Hp].
    + intros k' d' Hp2. apply DelCacheMeta_peek in Hp2 as [Hp2 _]. by apply Hc.
    + intros _ Hl k' d' Hp2. apply DelCacheMeta_peek in Hp2 as [_ Hn]. cbn. set_solver.
Qed.

Lemma SaveMetaBatch_coherent values isLocal m : coherent m -> coherent (SaveMetaBatch values isLocal m).2.
Proof.
  intros Hc. unfold SaveMetaBatch. destruct (inited_ m); cbn [negb]; [|done]. case_bool_decide; [done|].
  set (m1 := fold_left _ _ _). destruct (kv_put _ _ _) as [st s] eqn:Eput.
  assert (Hm1 : forall k d, peek k (localdata_ m1) = Some d ->
    content (metaStore_ m1) true k = Some d /\ (isLocal = true -> k ∉ values.*1)).
  { intros k d Hp. destruct (DelCacheMetas_peek (fst (B := string)) isLocal values m k d) as [Hs Hk].
    fold m1 in Hs, Hk. rewrite Hs. destruct (Hk Hp). auto. }
  assert (forall k d, peek k (localdata_ m1) = Some d -> content s true k = Some d).
  { eapply put_coherent; [done|naive_solver|]. intros _ Hl k d Hp. by apply (Hm1 k d Hp). }
  case_bool_decide; done.
Qed.

Lemma DelMeta_coherent key isLocal m : coherent m -> coherent (DelMeta key isLocal m).2.
Proof.
  intros Hc. unfold DelMeta. destruct (inited_ m); cbn [negb]; [|done].
  destruct (kv_delete _ _ _) as [st s] eqn:Edel.
  assert (forall k d, peek k (localdata_ (DelCacheMeta key isLocal m)) = Some d -> content s true k = Some d).
  { eapply delete_coherent; [done| |].
    - intros k d Hp. apply DelCacheMeta_peek in Hp as [Hp _]. rewrite DelCacheMeta_store. by apply Hc.
    - intros Hl k d Hp. apply DelCacheMeta_peek in Hp as [_ Hn]. set_solver. }
  case_bool_decide; done.
Qed.

Lemma LoadMetas_spec p isLocal m : coherent m ->
  let '(r, m') := LoadMetas p isLocal m in
  coherent m' /\ content (metaStore_ m') = content (metaStore_ m) /\ inited_ m' = inited_ m /\
  forall ds, r = Some ds -> exists es, ds = es.*2 /\ entries_with (content (metaStore_ m) isLocal) p es.
Proof.
  intros Hc. unfold LoadMetas, GetEntries. destruct (inited_ m) eqn:Hi; cbn [negb]; [|by split_and!].
  pose proof (kv_entries_content isLocal p (metaStore_ m)) as Hs. destruct (kv_entries isLocal p (metaStore_ m)) as [[st es] s] eqn:E.
  cbn in Hs. assert (coherent (set_store s m)) as Hc' by (intros k d Hp; cbn; rewrite Hs; by apply Hc).
  case_bool_decide; [by split_and!|]. destruct st; cbn; (split_and!; [done|done|done|]); try done; intros ds [= <-]; exists es; (split; [done|]).
  - by eapply kv_entries_ok.
  - by apply kv_entries_not_found in E as [-> ?].
Qed.

Lemma DelMetaBatch_coherent keys isLocal m : coherent m -> coherent (DelMetaBatch keys isLocal m).2.
Proof.
  intros Hc. unfold DelMetaBatch. destruct (inited_ m); cbn [negb]; [|done]. case_bool_decide; [done|].
  set (m1 := fold_left _ _ _). destruct (kv_delete _ _ _) as [st s] eqn:Edel.
  assert (Hm1 : forall k d, peek k (localdata_ m1) = Some d ->
    content (metaStore_ m1) true k = Some d /\ (isLocal = true -> k ∉ keys)).
  { intros k d Hp. destruct (DelCacheMetas_peek (fun k => k) isLocal keys m k d) as [Hs Hk].
    fold m1 in Hs, Hk. rewrite Hs. rewrite list_fmap_id in Hk. destruct (Hk Hp). auto. }
  assert (forall k d, peek k (localdata_ m1) = Some d -> content s true k = Some d).
  { eapply delete_coherent; [done|naive_solver|]. intros Hl k d Hp. by apply (Hm1 k d Hp). }
  case_bool_decide; done.
Qed.

Lemma LoadCacheMeta_spec key isLocal m r m1 :
  LoadCacheMeta key isLocal m = (r, m1) ->
  metaStore_ m1 = metaStore_ m /\ inited_ m1 = inited_ m /\
  (forall k, peek k (localdata_ m1) = peek k (localdata_ m)) /\
  (forall d, r = Some d -> isLocal = true /\ peek key (localdata_ m) = Some d).
Proof.
  unfold LoadCacheMeta. destruct isLocal; cbn; [|intros; by simplify_eq].
  destruct (lru_get key (localdata_ m)) as [r' c] eqn:E. intros [= <- <-]. cbn.
  pose proof (lru_get_result key (localdata_ m)) as Hr. rewrite E in Hr. cbn in Hr.
  split_and!; [done|done| |].
  - intros k. pose proof (lru_get_peek key k (localdata_ m)) as Hk. by rewrite E in Hk.
  - intros d ->. by rewrite <- Hr.
Qed.

(** Loading from a coherent manager: the content of the store is unchanged, the
    cache stays coherent, and what is returned is what is stored. *)
Lemma LoadMeta_spec key isLocal m r m' :
  coherent m -> LoadMeta key isLocal m = (r, m') ->
  coherent m' /\ content (metaStore_ m') = content (metaStore_ m) /\
  (forall d, r = Some d -> content (metaStore_ m) isLocal key = Some d).
Proof.
  intros Hc. unfold LoadMeta. destruct (inited_ m); cbn [negb]; [|intros; by simplify_eq].
  destruct (LoadCacheMeta key isLocal m) as [cached m1] eqn:E1.
  apply LoadCacheMeta_spec in E1 as (Hs & _ & Hp & Hr).
  assert (Hc1 : coherent m1) by (intros k d Hk; rewrite Hp in Hk; rewrite Hs; by apply Hc).
  destruct cached as [d|].
  { intros [= <- <-]. destruct (Hr d eq_refl) as [-> Hk]. split_and!; [done|by rewrite Hs|].
    intros ? [= <-]. by apply Hc. }
  destruct (kv_get isLocal key (metaStore_ m1)) as [[st data] s] eqn:Eg.
  assert (Hcont : content s = content (metaStore_ m)).
  { rewrite <- Hs. pose proof (kv_get_content isLocal key (metaStore_ m1)) as Hk. by rewrite Eg in Hk. }
  assert (Hc2 : coherent (set_store s m1)).
  { intros k d Hk. cbn in *. rewrite Hcont, <- Hs. by apply Hc1. }
  case_bool_decide; [intros [= <- <-]; by split_and!|].
  case_bool_decide as Hok; cbn [negb]; [|intros [= <- <-]; by split_and!].
  subst st. apply kv_get_ok in Eg. rewrite Hs in Eg. intros [= <- <-].
  split_and!; [|by destruct isLocal|by intros ? [= <-]].
  unfold SaveCacheMeta. destruct isLocal; cbn [negb]; [|done]. unfold coherent, set_cache. cbn.
  apply (lru_set_inv (fun k d => content s true k = Some d)); [by rewrite Hcont|].
  intros k d Hk. by apply Hc2.
Qed.

(** ** Reachable states *)

Definition initial m : Prop := inited_ m = false /\ forall k, peek k (localdata_ m) = None.

Inductive step : Manager -> Manager -> Prop :=
| step_init s m : step m (Initialize s m)
| step_save k v l m : step m (SaveMeta k v l m).2
| step_saves es l m : step m (SaveMetaBatch es l m).2
| step_load k l m : step m (LoadMeta k l m).2
| step_loads p l m : step m (LoadMetas p l m).2
| step_del k l m : step m (DelMeta k l m).2
| step_dels ks l m : step m (DelMetaBatch ks l m).2
| step_subscribe p o l st cst m : step m (Subscribe p o l st cst m).2
| step_unsubscribe p m : step m (Unsubscribe p m).2.

(** Before the initialization nothing is cached. *)
Definition inv m : Prop := coherent m /\ (inited_ m = false -> forall k, peek k (localdata_ m) = None).

(** An operation that needs the initialization does nothing before it. *)
Lemma inv_op m m' :
  inv m -> (inited_ m = false -> m' = m) -> (coherent m -> coherent m') ->
  (inited_ m = true -> inited_ m' = true) -> inv m'.
Proof.
  intros [Hc Hi] Hno Hco Hin. destruct (inited_ m) eqn:E.
  - split; [by apply Hco|]. intros E'. by rewrite Hin in E'.
  - rewrite Hno by done. split; [done|]. intros _. by apply Hi.
Qed.

Lemma DelCacheMeta_inited k l m : inited_ (DelCacheMeta k l m) = inited_ m.
Proof. by destruct l. Qed.

Lemma DelCacheMetas_inited {A} (key : A -> string) l ks m :
  inited_ (fold_left (fun m a => DelCacheMeta (key a) l m) ks m) = inited_ m.
Proof.
  revert m. induction ks as [|k ks IH]; intros m; cbn; [done|]. by rewrite IH, DelCacheMeta_inited.
Qed.

(** No operation resets the flag. *)
Lemma step_inited m m' : step m m' -> inited_ m = true -> inited_ m' = true.
Proof.
  intros Hs Hi. destruct Hs; unfold Initialize, SaveMeta, SaveMetaBatch, LoadMeta, DelMeta, DelMetaBatch,
    Subscribe, Unsubscribe; rewrite ?Hi; cbn [negb].
  - destruct s; [|done]. done.
  - destruct (kv_put _ _ _). case_bool_decide; [done|]. cbn. by rewrite DelCacheMeta_inited.
  - case_bool_decide; [done|]. destruct (kv_put _ _ _). case_bool_decide; cbn; by rewrite DelCacheMetas_inited.
  - destruct (LoadCacheMeta k l m) as [r m1] eqn:E. apply LoadCacheMeta_spec in E as (_ & Hm1 & _).
    rewrite Hi in Hm1. destruct r; [done|]. destruct (kv_get _ _ _) as [[??] ?].
    case_bool_decide; [done|]. case_bool_decide; cbn; [|done]. by destruct l.
  - pose proof Hi. unfold LoadMetas, GetEntries. rewrite Hi. cbn [negb]. destruct (kv_entries _ _ _) as [[??] ?].
    case_bool_decide; [done|]. by case_if.
  - destruct (kv_delete _ _ _). case_bool_decide; cbn; by rewrite DelCacheMeta_inited.
  - case_bool_decide; [done|]. destruct (kv_delete _ _ _).
    case_bool_decide; cbn; by rewrite (DelCacheMetas_inited (fun k => k)).
  - destruct (metaObservers_ m !! p); [done|]. by case_if.
  - by destruct (metaObservers_ m !! p).
Qed.

Lemma step_inv m m' : inv m -> step m m' -> inv m'.
Proof.
  intros Hinv Hs. pose proof (step_inited m m' Hs) as Hin. revert Hin. destruct Hs; intros Hin.
  - destruct s as [s|]; cbn; [|done]. destruct (inited_ m) eqn:E; [done|]. destruct Hinv as [_ Hi].
    split; [|done]. intros k d Hp. cbn in Hp. by rewrite Hi in Hp.
  - apply (inv_op _ _ Hinv); [by unfold SaveMeta; intros ->|apply SaveMeta_coherent|done].
  - apply (inv_op _ _ Hinv); [by unfold SaveMetaBatch; intros ->|apply SaveMetaBatch_coherent|done].
  - apply (inv_op _ _ Hinv); [by unfold LoadMeta; intros ->| |done]. intros Hc.
    destruct (LoadMeta k l m) eqn:E. by apply LoadMeta_spec in E as [? _].
  - apply (inv_op _ _ Hinv); [by unfold LoadMetas; intros ->| |done]. intros Hc.
    pose proof (LoadMetas_spec p l m Hc) as Hl. destruct (LoadMetas p l m). by destruct Hl.
  - apply (inv_op _ _ Hinv); [by unfold DelMeta; intros ->|apply DelMeta_coherent|done].
  - apply (inv_op _ _ Hinv); [by unfold DelMetaBatch; intros ->|apply DelMetaBatch_coherent|done].
  - apply (inv_op _ _ Hinv); [by unfold Subscribe; intros ->| |done].
    unfold Subscribe. by repeat case_match.
  - apply (inv_op _ _ Hinv); [by unfold Unsubscribe; intros ->| |done].
    unfold Unsubscribe. by repeat case_match.
Qed.


(** ** Refinement: the manager implements [MetaStore] for every type of metadata
    whose marshalling can be undone. *)
Section Refine.
Context {V : Type} (marshall : V -> string) (unmarshall : string -> V).
Context (Hround : forall v, unmarshall (marshall v) = v).

Definition coherent_manager : Type := sig coherent.

Program Definition load_coherent (k : string) (l : bool) (d : coherent_manager)
    : option V * coherent_manager :=
  (unmarshall <$> (LoadMeta k l (`d)).1, exist _ (LoadMeta k l (`d)).2 _).
Next Obligation.
  intros k l [m Hm]. cbn. destruct (LoadMeta k l m) eqn:E. by apply LoadMeta_spec in E as [? _].
Qed.

Program Definition save_coherent (k : string) (v : V) (l : bool) (d : coherent_manager)
    : bool * coherent_manager :=
  ((SaveMeta k (marshall v) l (`d)).1, exist _ (SaveMeta k (marshall v) l (`d)).2 _).
Next Obligation. intros k v l [m Hm]. cbn. by apply SaveMeta_coherent. Qed.

Lemma SaveMeta_content k s l m :
  (forall l' k', content (metaStore_ (SaveMeta k s l m).2) l' k' =
     if (SaveMeta k s l m).1 && bool_decide (l' = l /\ k' = k) then Some s else content (metaStore_ m) l' k')
  /\ ((SaveMeta k s l m).1 = false -> content (metaStore_ (SaveMeta k s l m).2) = content (metaStore_ m)).
Proof.
  unfold SaveMeta. destruct (inited_ m); cbn; [|done].
  destruct (kv_put l [(k, s)] (metaStore_ m)) as [st st'] eqn:E. case_bool_decide as Hcor; cbn.
  - rewrite (kv_put_fail _ _ _ _ _ E) by congruence. done.
  - rewrite DelCacheMeta_store. cbn. case_bool_decide as Hok; cbn.
    + subst st. split; [|done]. intros l' k'. rewrite (kv_put_ok _ _ _ _ E). cbn.
      destruct (decide (k = k')) as [<-|Hk], (decide (l' = l)) as [->|Hl]; cbn;
        rewrite ?decide_True, ?decide_False by done; repeat case_bool_decide; naive_solver.
    + rewrite (kv_put_fail _ _ _ _ _ E) by done. done.
Qed.

Program Definition delete_coherent_m (k : string) (l : bool) (d : coherent_manager) : bool * coherent_manager :=
  ((DelMeta k l (`d)).1, exist _ (DelMeta k l (`d)).2 _).
Next Obligation. intros k l [m Hm]. cbn. by apply DelMeta_coherent. Qed.

Program Definition loads_coherent (p : string) (l : bool) (d : coherent_manager) : option (list V) * coherent_manager :=
  ((fun ds : list string => unmarshall <$> ds) <$> (LoadMetas p l (`d)).1, exist _ (LoadMetas p l (`d)).2 _).
Next Obligation. intros p l [m Hm]. cbn. pose proof (LoadMetas_spec p l m Hm) as H2. destruct (LoadMetas p l m). by destruct H2. Qed.

Lemma DelMeta_content k l m :
  ((DelMeta k l m).1 = true -> content (metaStore_ (DelMeta k l m).2) l k = None) /\
  ((DelMeta k l m).1 = false -> content (metaStore_ (DelMeta k l m).2) = content (metaStore_ m)) /\
  (forall l' k', (l', k') <> (l, k) -> content (metaStore_ (DelMeta k l m).2) l' k' = content (metaStore_ m) l' k').
Proof.
  unfold DelMeta. destruct (inited_ m); cbn [negb]; [|done]. rewrite DelCacheMeta_store.
  destruct (kv_delete l [k] (metaStore_ m)) as [st s] eqn:E.
  destruct (decide (st = OK)) as [->|Hst].
  - cbn. pose proof (kv_delete_ok _ _ _ _ E) as Hd. split_and!; [|done|].
    + intros _. rewrite Hd. by rewrite bool_decide_eq_true_2 by set_solver.
    + intros l' k' Hne. rewrite Hd. rewrite bool_decide_eq_false_2; [done|]. intros [-> Hk%list_elem_of_singleton]. congruence.
  - pose proof (kv_delete_fail _ _ _ _ _ E Hst) as Hs. case_bool_decide; cbn [fst snd].
    + cbn. by rewrite Hs.
    + assert (content (metaStore_ (notify st l (set_store s (DelCacheMeta k l m)))) = content s) as -> by done. rewrite Hs.
      split_and!; [|done|done]. intros [?|Hnf]%bool_decide_eq_true; [done|]. subst st.
      eapply kv_delete_not_found; [exact E|set_solver].
Qed.

#[local] Program Instance ManagerMetaStore : MetaStore V := {
  meta_db := coherent_manager;
  stored d l k := unmarshall <$> content (metaStore_ (`d)) l k;
  Interfaces.LoadMeta := load_coherent;
  Interfaces.SaveMeta := save_coherent;
  Interfaces.DelMeta := delete_coherent_m;
  Interfaces.LoadMetas := loads_coherent
}.
Next Obligation.
  intros k l [m Hm] v d' E. cbn in *. injection E as E _.
  apply fmap_Some in E as (s & E & ->). destruct (LoadMeta k l m) as [r m'] eqn:El. cbn in E. subst r.
  apply LoadMeta_spec in El as (_ & _ & Hd); [|done]. by rewrite (Hd s).
Qed.
Next Obligation.
  intros k l [m Hm]. cbn. destruct (LoadMeta k l m) as [r m'] eqn:El.
  apply LoadMeta_spec in El as (_ & Hc & _); [|done]. cbn. by rewrite Hc.
Qed.
Next Obligation.
  intros k v l [m Hm] d' E l' k'. injection E as E1 <-. cbn.
  destruct (SaveMeta_content k (marshall v) l m) as [Hc _]. rewrite Hc, E1. cbn.
  case_bool_decide; cbn; [|done]. by rewrite Hround.
Qed.
Next Obligation.
  intros k v l [m Hm] d' E. injection E as E1 <-. cbn.
  destruct (SaveMeta_content k (marshall v) l m) as [_ Hc]. by rewrite Hc.
Qed.
Next Obligation.
  intros k l [m Hm] d' E. injection E as E1 <-. cbn. destruct (DelMeta_content k l m) as [Hc _]. by rewrite Hc.
Qed.
Next Obligation.
  intros k l [m Hm] d' E. injection E as E1 <-. cbn. destruct (DelMeta_content k l m) as (_ & Hc & _). by rewrite Hc.
Qed.
Next Obligation.
  intros k l [m Hm] l' k' Hne. cbn. destruct (DelMeta_content k l m) as (_ & _ & Hc). by rewrite Hc.
Qed.
Next Obligation.
  intros p l [m Hm] vs d' E. cbn in *. injection E as E _. apply fmap_Some in E as (ds & E & ->).
  pose proof (LoadMetas_spec p l m Hm) as Hl. destruct (LoadMetas p l m) as [r m']. cbn in E. subst r.
  destruct Hl as (_ & _ & _ & Hl). destruct (Hl ds eq_refl) as (es & -> & [Hnd Hes]).
  exists ((fun e => (e.1, unmarshall e.2)) <$> es). split; [by rewrite <- !list_fmap_compose|]. split.
  - by rewrite <- list_fmap_compose.
  - intros k v. rewrite list_elem_of_fmap. split.
    + intros ([k' s] & [= -> ->] & Hin). apply Hes in Hin as [-> ?]. done.
    + intros [(s & Hs & ->)%fmap_Some Hp]. exists (k, s). split; [done|]. by apply Hes.
Qed.
Next Obligation.
  intros p l [m Hm]. cbn. pose proof (LoadMetas_spec p l m Hm) as Hl. destruct (LoadMetas p l m) as [r m'].
  destruct Hl as (_ & Hl & _). cbn. by rewrite Hl.
Qed.
End Refine.

(** After a successful save, a load of the same table that returns a string
    returns the saved one for the saved key, and what was stored before for every
    other key; a save that reports failure leaves the store as it was. *)
Lemma SaveMeta_LoadMeta key value isLocal ok m m1 :
  coherent m -> SaveMeta key value isLocal m = (ok, m1) ->
  forall k d m2, LoadMeta k isLocal m1 = (Some d, m2) ->
    if ok && bool_decide (k = key) then d = value else content (metaStore_ m) isLocal k = Some d.
Proof.
  intros Hc Hs k d m2 Hl. pose proof (SaveMeta_coherent key value isLocal m Hc) as Hc1.
  destruct (SaveMeta_content key value isLocal m) as [Hcont _]. rewrite Hs in *. cbn in *.
  apply LoadMeta_spec in Hl as (_ & _ & Hd); [|done]. specialize (Hd d eq_refl). rewrite Hcont in Hd.
  destruct ok; cbn in *; [|done]. repeat case_bool_decide; naive_solver.
Qed.

(** One observer per prefix: while a subscription is in place, a further
    subscription to the same prefix reports success but registers nothing,
    whichever table it asks for. *)
Lemma Subscribe_once prefix o1 o2 l1 l2 st1 cst1 st2 cst2 m m1 :
  inited_ m = true -> Subscribe prefix o1 l1 st1 cst1 m = (true, m1) ->
  Subscribe prefix o2 l2 st2 cst2 m1 = (true, m1).
Proof.
  intros Hi. unfold Subscribe. rewrite Hi. cbn [negb].
  destruct (metaObservers_ m !! prefix) as [o|] eqn:E.
  - intros [= <-]. rewrite Hi, E. done.
  - destruct (negb (bool_decide _)); [done|]. intros [= <-]. cbn. rewrite Hi. by rewrite lookup_insert_eq.
Qed.
End Manager.

(** ** A store in memory *)

Definition map_get (l : bool) (k : string) (s : gmap (bool * string) string) :=
  match s !! (l, k) with Some v => (OK, v, s) | None => (NOT_FOUND, "", s) end.

Definition map_put (l : bool) (es : list (string * string)) (s : gmap (bool * string) string) :=
  fold_left (fun s e => <[(l, e.1) := e.2]> s) es s.

Definition map_delete (l : bool) (ks : list string) (s : gmap (bool * string) string) :=
  fold_left (fun s k => delete (l, k) s) ks s.

Lemma map_put_lookup l es s l' k :
  map_put l es s !! (l', k) =
  if bool_decide (l' = l) then
    match list_find (fun e => e.1 = k) (reverse es) with Some (_, e) => Some e.2 | None => s !! (l', k) end
  else s !! (l', k).
Proof.
  induction es as [|e es IH] using rev_ind; [by case_bool_decide|].
  unfold map_put in *. rewrite fold_left_app, reverse_snoc. cbn.
  destruct (decide (e.1 = k)) as [He|He].
  - case_bool_decide as Hl; [by rewrite Hl, He, lookup_insert_eq|]. rewrite lookup_insert_ne by congruence. done.
  - rewrite lookup_insert_ne by congruence. rewrite IH. case_bool_decide; [|done].
    by destruct (list_find _ _) as [[]|].
Qed.

Lemma map_delete_lookup l ks s l' k :
  map_delete l ks s !! (l', k) = if bool_decide (l' = l /\ k ∈ ks) then None else s !! (l', k).
Proof.
  unfold map_delete. revert s. induction ks as [|k0 ks IH]; intros s; cbn.
  - rewrite bool_decide_eq_false_2; [done|]. set_solver.
  - rewrite IH. destruct (decide (l' = l)) as [->|]; [destruct (decide (k = k0)) as [->|]|].
    + rewrite (bool_decide_eq_true_2 (l = l /\ k0 ∈ k0 :: ks)) by set_solver.
      rewrite lookup_delete_eq. by case_bool_decide.
    + rewrite lookup_delete_ne by congruence. repeat case_bool_decide; set_solver.
    + rewrite lookup_delete_ne by congruence. repeat case_bool_decide; naive_solver.
Qed.

#[local] Program Instance MapKvStore : KvStore := {
  kv := gmap (bool * string) string;
  content s l k := s !! (l, k);
  kv_get := map_get;
  kv_put l es s := (OK, map_put l es s);
  kv_delete l ks s := (OK, map_delete l ks s);
  kv_entries l p s := (OK, map_entries p l s, s)
}.
Next Obligation. intros l k s v s'. unfold map_get. destruct (s !! (l, k)) eqn:E; intros E'; by simplify_eq. Qed.
Next Obligation. intros l k s v s'. unfold map_get. by destruct (s !! (l, k)) eqn:E. Qed.
Next Obligation. intros l k s. unfold map_get. by destruct (s !! (l, k)). Qed.
Next Obligation. intros l es s s' [= <-] l' k. apply map_put_lookup. Qed.
Next Obligation. intros l es s st s' [= <- <-]. done. Qed.
Next Obligation. intros l ks s s' [= <-] l' k. apply map_delete_lookup. Qed.
Next Obligation. intros l ks s st s' [= <- <-]. done. Qed.
Next Obligation. done. Qed.
Next Obligation. intros l p s es s' [= <- <-]. apply map_entries_with. Qed.
Next Obligation. done. Qed.
Next Obligation. done. Qed.

#[local] Existing Instance AssocLru.

Abbreviation MapManager := (Manager (H := MapKvStore) (H0 := AssocLru)).

Definition empty_manager : MapManager := mkManager false ∅ (mkAssoc 64 []) ∅ [] 0 0 false.

(** Initialized, one local entry saved and loaded, so that it is cached. *)
Definition sample_manager : MapManager :=
  (LoadMeta "k" true (SaveMeta "k" "v" true (Initialize (Some ∅) empty_manager)).2).2.


Lemma SaveMeta_LoadMeta_witness :
  if true && bool_decide ("k" = "k") then "w" = "w" else content (metaStore_ sample_manager) true "k" = Some "w".
Proof.
  apply (SaveMeta_LoadMeta "k" "w" true true sample_manager (SaveMeta "k" "w" true sample_manager).2)
    with (m2 := (LoadMeta "k" true (SaveMeta "k" "w" true sample_manager).2).2).
  - intros k d. vm_compute. case_match; [|done]. intros [= <-]. by subst.
  - by_vm.
  - by_vm.
Defined.

Lemma Subscribe_once_witness :
  let m1 := (Subscribe "MatrixMeta" 1 true OK OK (Initialize (Some ∅) empty_manager)).2 in
  Subscribe "MatrixMeta" 2 false OK OK m1 = (true, m1).
Proof.
  intros m1. apply (Subscribe_once "MatrixMeta" 1 2 true false OK OK OK OK
    (Initialize (Some ∅) empty_manager) m1); reflexivity.
Defined.

(** ** A race

    Nothing excludes a save between the read of the store and the fill of the
    cache in another thread's load. [load_read] and [load_fill] are the two halves
    of a load that misses the cache. *)
Definition load_read (key : string) (m : MapManager) : option string := metaStore_ m !! (true, key).
Definition load_fill (key data : string) (m : MapManager) : MapManager := SaveCacheMeta key data true m.

Lemma LoadMeta_halves key data m :
  inited_ m = true -> peek key (localdata_ m) = None -> load_read key m = Some data ->
  LoadMeta key true m = (Some data, load_fill key data m).
Proof.
  unfold LoadMeta, load_read, load_fill, LoadCacheMeta. intros -> Hp Hr. cbn [negb].
  destruct m as [i s c o r b cs st]. cbn in *. unfold assoc_get. rewrite Hp. unfold map_get. cbn. rewrite Hr. done.
Qed.

Lemma stale_cache_after_race :
  let m0 : MapManager := (SaveMeta "k" "old" true (Initialize (Some ∅) empty_manager)).2 in
  let read := default "" (load_read "k" m0) in
  let m1 := (SaveMeta "k" "new" true m0).2 in
  let m2 := load_fill "k" read m1 in
  (LoadMeta "k" true m2).1 = Some "old" /\ content (KvStore := MapKvStore) (metaStore_ m2) true "k" = Some "new".
Proof. split; vm_compute; reflexivity. Qed.

End MetaDataManager.
