(* ===== verification/DeviceMatrix.v ===== *)
(** * The device matrix ([service/matrix/src/device_matrix.cpp])

    The matrix tracks, per peer device, which groups of stores have changes that
    have not been exchanged. A 16-bit level has a change mask in its low four bits
    and a version number in the high twelve. The state below is the class's; the
    metadata store is used through [MetaStore], the two caches through
    [LruBucket]. *)

From S2P Require Import Prelude CppString Interfaces Constant.

Module DeviceMatrix.

(** ** Levels *)

Definition META_STORE_MASK : Z := 0x0001.
Definition INVALID_HIGH : Z := 0xFFF0.
Definition INVALID_LEVEL : Z := 0xFFFF.
Definition INVALID_LENGTH : Z := 0.
Definition INVALID_VALUE : Z := 0xFFFFFFFF.
Definition INVALID_MASK : Z := 0.
Definition CURRENT_VERSION : Z := 3.
Definition CURRENT_DYNAMIC_MASK : Z := 0x0006.
Definition CURRENT_STATICS_MASK : Z := 0x0003.
Definition MAX_DEVICES : nat := 64.

(* @src service/matrix/include/device_matrix.h 106-109 SetMask *)
Definition SetMask (index : Z) : Z := u16 (Z.shiftl 0x1 index).
(* @src service/matrix/include/device_matrix.h 110-113 Low *)
Definition Low (data : Z) : Z := Z.land data 0x000F.
(* @src service/matrix/include/device_matrix.h 114-117 High *)
Definition High (data : Z) : Z := Z.land data 0xFFF0.
(* @src service/matrix/include/device_matrix.h 118-121 Merge *)
Definition Merge (high low : Z) : Z := Z.lor (High high) (Low low).
(* @src service/matrix/include/device_matrix.h 122-125 ResetMask *)
Definition ResetMask (data : Z) : Z := Z.land data 0xFFF0.

(** [data &= ~bits] *)
Definition clear (data bits : Z) : Z := Z.land data (Z.lnot bits).

Inductive LevelType : Type := STATICS | DYNAMIC | OtherType.
Inductive ChangeType : Type := CHANGE_LOCAL | CHANGE_REMOTE | CHANGE_ALL.

Definition changes_local (c : ChangeType) : bool := match c with CHANGE_REMOTE => false | _ => true end.
Definition changes_remote (c : ChangeType) : bool := match c with CHANGE_LOCAL => false | _ => true end.

(* @src service/matrix/include/device_matrix.h 126-131 Mask *)
Record Mask := mkMask { dynamic : Z; statics : Z }.
Definition default_mask : Mask := mkMask (Z.lor META_STORE_MASK CURRENT_DYNAMIC_MASK) CURRENT_STATICS_MASK.

(* @src service/matrix/src/device_matrix.cpp 441-445 SetDynamicMask *)
Definition SetDynamicMask (mask : Z) (m : Mask) : Mask :=
  mkMask (Z.lor (ResetMask (dynamic m)) (Low mask)) (statics m).
(* @src service/matrix/src/device_matrix.cpp 447-451 SetStaticsMask *)
Definition SetStaticsMask (mask : Z) (m : Mask) : Mask :=
  mkMask (dynamic m) (Z.lor (ResetMask (statics m)) (Low mask)).

(** A level as it is broadcast ([DataLevel], [MatrixEvent::MatrixData]). *)
(* @src service/matrix/include/device_matrix.h 57-63 DataLevel *)
Record DataLevel := mkLevel { l_dynamic : Z; l_statics : Z; switches : Z; switchesLen : Z }.
Definition invalid_level : DataLevel := mkLevel INVALID_LEVEL INVALID_LEVEL INVALID_VALUE INVALID_LENGTH.

(* @src service/matrix/src/device_matrix.cpp 758-762 IsValid *)
Definition IsValid (d : DataLevel) : bool :=
  negb ((l_dynamic d =? INVALID_LEVEL) && (l_statics d =? INVALID_LEVEL)
        && (switches d =? INVALID_VALUE) && (switchesLen d =? INVALID_LENGTH)).

(** ** Metadata *)

(* @src framework/include/metadata/matrix_meta_data.h 22-26 Origin *)
Inductive Origin : Type := LOCAL | REMOTE_RECEIVED | REMOTE_CONSISTENT.
#[export] Instance Origin_eq_dec : EqDecision Origin.
Proof. solve_decision. Defined.

(* @src framework/include/metadata/matrix_meta_data.h 20-45 MatrixMetaData *)
Record MatrixMetaData := mkMatrix {
  version : Z;
  m_dynamic : Z;
  m_statics : Z;
  origin : Origin;
  deviceId : string;
  dynamicInfo : list string;
  staticsInfo : list string
}.
Definition default_matrix : MatrixMetaData := mkMatrix 0 0 0 LOCAL "" [] [].
Definition set_device (d : string) (m : MatrixMetaData) : MatrixMetaData :=
  mkMatrix (version m) (m_dynamic m) (m_statics m) (origin m) d (dynamicInfo m) (staticsInfo m).
Definition set_levels (d s : Z) (m : MatrixMetaData) : MatrixMetaData :=
  mkMatrix (version m) d s (origin m) (deviceId m) (dynamicInfo m) (staticsInfo m).
Definition set_origin (o : Origin) (m : MatrixMetaData) : MatrixMetaData :=
  mkMatrix (version m) (m_dynamic m) (m_statics m) o (deviceId m) (dynamicInfo m) (staticsInfo m).
Definition set_infos (d s : list string) (m : MatrixMetaData) : MatrixMetaData :=
  mkMatrix (version m) (m_dynamic m) (m_statics m) (origin m) (deviceId m) d s.

Definition KEY_PREFIX : string := "MatrixMeta".
(* @src framework/metadata/matrix_meta_data.cpp 43-46 MatrixMetaData::GetKey *)
Definition GetKey (device : string) : string := Constant.Join KEY_PREFIX Constant.KEY_SEPARATOR [device].
(* @src framework/metadata/matrix_meta_data.cpp 48-51 MatrixMetaData::GetConsistentKey *)
Definition GetConsistentKey (device : string) : string :=
  Constant.Join KEY_PREFIX Constant.KEY_SEPARATOR [device; "Consistent"].

(* @src framework/metadata/matrix_meta_data.cpp 58-62 MatrixMetaData::operator== *)
Definition matrix_eqb (a b : MatrixMetaData) : bool :=
  (m_dynamic a =? m_dynamic b) && (m_statics a =? m_statics b)
  && bool_decide (deviceId a = deviceId b) && bool_decide (origin a = origin b).

(* @src framework/include/metadata/switches_meta_data.h 23-43 SwitchesMetaData *)
Record SwitchesMetaData := mkSwitches {
  s_version : Z; s_value : Z; s_length : Z; s_deviceId : string; s_networkId : string }.
(* @src framework/metadata/switches_meta_data.cpp 40-43 SwitchesMetaData::GetKey *)
Definition SwitchesKey (device : string) : string :=
  Constant.Join "SwitchesMeta" Constant.KEY_SEPARATOR [device].
(* @src framework/metadata/switches_meta_data.cpp 50-53 SwitchesMetaData::operator== *)
Definition switches_eqb (a b : SwitchesMetaData) : bool :=
  (s_length a =? s_length b) && (s_value a =? s_value b).

(** The members of a store's metadata the matrix looks at; [dataType] is the raw
    number. *)
Record StoreMeta := mkStore { dataType : Z; tokenId : Z; storeId : string; appId : string }.

Definition level_type (t : Z) : LevelType :=
  if t =? 0 then STATICS else if t =? 1 then DYNAMIC else OtherType.

(** ** Converting the mask of another version *)

(* @src service/matrix/src/device_matrix.cpp 275-288 DeviceMatrix::ConvertIndex *)
Definition ConvertIndex (code : Z) : Z :=
  let index := u16 (Z.land (Z.lnot code) (code - 1)) in
  let index := u16 (Z.shiftr (Z.land index 0xAAAA) 1 + Z.land index 0x5555) in
  let index := u16 (Z.shiftr (Z.land index 0xCCCC) 2 + Z.land index 0x3333) in
  let index := u16 (Z.shiftr (Z.land index 0xF0F0) 4 + Z.land index 0x0F0F) in
  let index := u16 (Z.shiftr (Z.land index 0xFF00) 8 + Z.land index 0x00FF) in
  u16 (index - 1).

(** Position of an application in a list, as the loops over the lists find it. *)
Definition index_of (app : string) (apps : list string) : option nat :=
  fst <$> list_find (fun a => a = app) apps.

(** The [while] loop of the two converters. Each round clears the lowest bit of a
    four-bit code: four rounds of fuel are enough ([Convert_loop_fuel]). *)
Fixpoint Convert_loop (fuel : nat) (info apps : list string) (code result : Z) : option Z :=
  if code =? 0 then Some result
  else
    match fuel with
    | O => None
    | S fuel =>
        match info !! Z.to_nat (ConvertIndex code) with
        | None => Some result
        | Some app =>
            let result :=
              match index_of app apps with Some i => Z.lor result (SetMask (Z.of_nat i)) | None => result end in
            Convert_loop fuel info apps (Z.land code (code - 1)) result
        end
    end.

(* @src service/matrix/src/device_matrix.cpp 233-252 DeviceMatrix::ConvertDynamic *)
Definition ConvertDynamic (dynamicApps_ : list string) (meta : MatrixMetaData) (mask : Z) : option Z :=
  Convert_loop 4 (dynamicInfo meta) dynamicApps_ (clear (Low mask) META_STORE_MASK)
    (Z.land (Low mask) META_STORE_MASK).

(* @src service/matrix/src/device_matrix.cpp 254-273 DeviceMatrix::ConvertStatics *)
Definition ConvertStatics (staticsApps_ : list string) (meta : MatrixMetaData) (mask : Z) : option Z :=
  Convert_loop 4 (staticsInfo meta) staticsApps_ (Low mask) 0.

Section Matrix.
Context `{MetaStore MatrixMetaData} `{MetaStore SwitchesMetaData} `{LruBucket string MatrixMetaData}.
(** The local device ([DeviceManagerAdapter]); the executor's answers to
    rescheduling a task and to scheduling one ([None]: no valid task id). *)
Context (localUuid : string) (exec_reset : Z -> option Z) (exec_schedule : option Z).

Record State := mkState {
  lasts_ : DataLevel;
  executors_ : bool;
  task_ : option Z;
  isSupportBroadcast_ : bool;
  tokenId_ : Z;
  storeId_ : string;
  onLines_ : gmap string Mask;
  offLines_ : gmap string Mask;
  remotes_ : gmap string Mask;
  dynamicApps_ : list string;
  staticsApps_ : list string;
  matrices_ : bucket string MatrixMetaData;
  versions_ : bucket string MatrixMetaData;
  matrixDb : meta_db MatrixMetaData;
  switchDb : meta_db SwitchesMetaData;
  events : list DataLevel           (* MATRIX_BROADCAST events posted, latest first *)
}.

Definition upd_masks (on off rem : gmap string Mask) (s : State) : State :=
  mkState (lasts_ s) (executors_ s) (task_ s) (isSupportBroadcast_ s) (tokenId_ s) (storeId_ s)
    on off rem (dynamicApps_ s) (staticsApps_ s) (matrices_ s) (versions_ s) (matrixDb s) (switchDb s) (events s).
Definition upd_caches m v (s : State) : State :=
  mkState (lasts_ s) (executors_ s) (task_ s) (isSupportBroadcast_ s) (tokenId_ s) (storeId_ s)
    (onLines_ s) (offLines_ s) (remotes_ s) (dynamicApps_ s) (staticsApps_ s) m v (matrixDb s) (switchDb s) (events s).
Definition upd_db d (s : State) : State :=
  mkState (lasts_ s) (executors_ s) (task_ s) (isSupportBroadcast_ s) (tokenId_ s) (storeId_ s)
    (onLines_ s) (offLines_ s) (remotes_ s) (dynamicApps_ s) (staticsApps_ s) (matrices_ s) (versions_ s) d
    (switchDb s) (events s).
Definition upd_switchDb d (s : State) : State :=
  mkState (lasts_ s) (executors_ s) (task_ s) (isSupportBroadcast_ s) (tokenId_ s) (storeId_ s)
    (onLines_ s) (offLines_ s) (remotes_ s) (dynamicApps_ s) (staticsApps_ s) (matrices_ s) (versions_ s)
    (matrixDb s) d (events s).
Definition upd_lasts l t (s : State) : State :=
  mkState l (executors_ s) t (isSupportBroadcast_ s) (tokenId_ s) (storeId_ s)
    (onLines_ s) (offLines_ s) (remotes_ s) (dynamicApps_ s) (staticsApps_ s) (matrices_ s) (versions_ s)
    (matrixDb s) (switchDb s) (events s).
Definition PostEvent (e : DataLevel) (s : State) : State :=
  mkState (lasts_ s) (executors_ s) (task_ s) (isSupportBroadcast_ s) (tokenId_ s) (storeId_ s)
    (onLines_ s) (offLines_ s) (remotes_ s) (dynamicApps_ s) (staticsApps_ s) (matrices_ s) (versions_ s)
    (matrixDb s) (switchDb s) (e :: events s).

Definition SaveMatrix (key : string) (m : MatrixMetaData) (isLocal : bool) (s : State) : bool * State :=
  let '(ok, d) := SaveMeta key m isLocal (matrixDb s) in (ok, upd_db d s).

(* @src service/matrix/src/device_matrix.cpp 656-675 DeviceMatrix::GetMatrixMeta *)
Definition GetMatrixMeta (device : string) (isConsistent : bool) (s : State) : bool * MatrixMetaData * State :=
  let '(cached, s) :=
    if isConsistent then (None, s)
    else let '(r, b) := lru_get device (matrices_ s) in (r, upd_caches b (versions_ s) s) in
  match cached with
  | Some meta => (true, meta, s)
  | None =>
      let key := if isConsistent then GetConsistentKey device else GetKey device in
      let '(r, d) := LoadMeta key true (matrixDb s) in
      let s := upd_db d s in
      match r with
      | None => (false, set_device device default_matrix, s)
      | Some meta =>
          if isConsistent then (true, meta, s)
          else
            let meta := set_device "" meta in
            (true, meta, upd_caches (lru_set device meta (matrices_ s)) (versions_ s) s)
      end
  end.

(* @src service/matrix/src/device_matrix.cpp 705-717 DeviceMatrix::GetMatrixInfo *)
Definition GetMatrixInfo (device : string) (s : State) : MatrixMetaData * State :=
  let '(r, b) := lru_get device (versions_ s) in
  let s := upd_caches (matrices_ s) b s in
  match r with
  | Some meta => (meta, s)
  | None =>
      let '(r, d) := LoadMeta (GetKey device) false (matrixDb s) in
      let s := upd_db d s in
      match r with
      | None => (set_device device default_matrix, s)
      | Some meta =>
          let meta := set_device "" meta in
          (meta, upd_caches (matrices_ s) (lru_set device meta (versions_ s)) s)
      end
  end.

(* @src service/matrix/src/device_matrix.cpp 174-180 DeviceMatrix::UpdateMask *)
Definition UpdateMask (mask : Mask) (s : State) : Mask * State :=
  let '(_, meta, s) := GetMatrixMeta localUuid false s in
  (mkMask (Merge (m_dynamic meta) (dynamic mask)) (Merge (m_statics meta) (statics mask)), s).

(* @src service/matrix/src/device_matrix.cpp 126-138 DeviceMatrix::Online *)
Definition Online (device : string) (s : State) : State :=
  match offLines_ s !! device with
  | Some mask => upd_masks (<[device := mask]> (onLines_ s)) (delete device (offLines_ s)) (remotes_ s) s
  | None =>
      let '(mask, s) := UpdateMask default_mask s in
      upd_masks (<[device := mask]> (onLines_ s)) (offLines_ s) (remotes_ s) s
  end.

(* @src service/matrix/src/device_matrix.cpp 160-172 DeviceMatrix::Offline *)
Definition Offline (device : string) (s : State) : State :=
  match onLines_ s !! device with
  | Some mask => upd_masks (delete device (onLines_ s)) (<[device := mask]> (offLines_ s)) (remotes_ s) s
  | None =>
      let '(mask, s) := UpdateMask default_mask s in
      upd_masks (onLines_ s) (<[device := mask]> (offLines_ s)) (remotes_ s) s
  end.

(* @src service/matrix/src/device_matrix.cpp 336-355 DeviceMatrix::SaveSwitches *)
Definition SaveSwitches (device networkId : string) (dataLevel : DataLevel) (s : State) : State :=
  if bool_decide (device = "") || bool_decide (networkId = "")
     || (switches dataLevel =? INVALID_VALUE) || (switchesLen dataLevel =? INVALID_LENGTH)
  then s
  else
    let newMeta := mkSwitches 1 (switches dataLevel) (switchesLen dataLevel) device networkId in
    let '(r, d) := LoadMeta (SwitchesKey device) true (switchDb s) in
    let unchanged := match r with Some oldMeta => switches_eqb newMeta oldMeta | None => false end in
    if unchanged then upd_switchDb d s
    else upd_switchDb (SaveMeta (SwitchesKey device) newMeta true d).2 s.

(** Fuel never runs out in the converters ([ConvertDynamic_total]). *)
(* @src service/matrix/src/device_matrix.cpp 223-231 DeviceMatrix::ConvertMask *)
Definition ConvertMask (device : string) (dataLevel : DataLevel) (s : State) : Z * Z * State :=
  let '(meta, s) := GetMatrixInfo device s in
  if version meta =? CURRENT_VERSION then
    (Z.land (dynamic default_mask) (l_dynamic dataLevel), Z.land (statics default_mask) (l_statics dataLevel), s)
  else
    (default 0 (ConvertDynamic (dynamicApps_ s) meta (l_dynamic dataLevel)),
     default 0 (ConvertStatics (staticsApps_ s) meta (l_statics dataLevel)), s).

(* @src service/matrix/src/device_matrix.cpp 290-300 DeviceMatrix::GetMatrixMetaData *)
Definition GetMatrixMetaData (device : string) (mask : Mask) (s : State) : MatrixMetaData :=
  mkMatrix 0 (dynamic mask) (statics mask) REMOTE_RECEIVED device (dynamicApps_ s) (staticsApps_ s).

(** The adjustment of one level against the old one: the new level and whether
    all bits of the mask become pending. *)
Definition adjust_level (new old : Z) : Z * bool :=
  if High new <? High old then (Z.lor (Z.land new 0x000F) (High old), false)
  else if 1 <? High new - High old then (Z.lor new 0x000F, true)
  else (new, false).

Definition all_pending (b : bool) (z : Z) : Z := if b then Z.lor z 0x000F else z.

(* @src service/matrix/src/device_matrix.cpp 302-334 DeviceMatrix::UpdateRemoteMeta *)
Definition UpdateRemoteMeta (device : string) (mask : Mask) (newMeta : MatrixMetaData) (s : State) : Mask * State :=
  let '(isExist, oldMeta, s) := GetMatrixMeta device false s in
  if (isExist : bool) && matrix_eqb oldMeta newMeta then (mask, s)
  else
    let '(d, dp, st, sp) :=
      if isExist then
        let '(d, dp) := adjust_level (m_dynamic newMeta) (m_dynamic oldMeta) in
        let '(st, sp) := adjust_level (m_statics newMeta) (m_statics oldMeta) in
        (d, dp, st, sp)
      else
        let dp := negb (High (m_dynamic newMeta) =? 0x0010) in
        let sp := negb (High (m_statics newMeta) =? 0x0010) in
        (all_pending dp (m_dynamic newMeta), dp, all_pending sp (m_statics newMeta), sp) in
    let newMeta := set_levels d st newMeta in
    let mask := mkMask (all_pending dp (dynamic mask)) (all_pending sp (statics mask)) in
    (mask, (SaveMatrix (GetKey (deviceId newMeta)) newMeta true s).2).

(** The mask a received level gives, from the converted low bits. *)
Definition receive_level (default_bits level converted : Z) : Z :=
  if negb (level =? INVALID_LEVEL) then
    let m := Z.land default_bits (Low converted) in
    if negb (High level =? INVALID_HIGH) then Z.lor m (High level) else m
  else clear default_bits level.

(* @src service/matrix/src/device_matrix.cpp 182-221 DeviceMatrix::OnBroadcast *)
Definition OnBroadcast (device networkId : string) (dataLevel : DataLevel) (s : State) : Z * Z * State :=
  if bool_decide (device = "") || bool_decide (networkId = "") || negb (IsValid dataLevel)
  then (INVALID_LEVEL, INVALID_LEVEL, s)
  else
    let s := SaveSwitches device networkId dataLevel s in
    let '(cd, cs, s) := ConvertMask device dataLevel s in
    let mask := mkMask (receive_level (dynamic default_mask) (l_dynamic dataLevel) cd)
                       (receive_level (statics default_mask) (l_statics dataLevel) cs) in
    let meta := GetMatrixMetaData device mask s in
    let '(mask, s) := UpdateRemoteMeta device mask meta s in
    let mask :=
      match remotes_ s !! device with
      | Some old => mkMask (Z.lor (dynamic mask) (Low (dynamic old))) (Z.lor (statics mask) (Low (statics old)))
      | None => mask
      end in
    (dynamic mask, statics mask, upd_masks (onLines_ s) (offLines_ s) (<[device := mask]> (remotes_ s)) s).

(** The level correction of [Broadcast], as written: the level it merges back is
    the one it has just cleared. *)
Definition broadcast_level (level last : Z) : Z :=
  if negb (High level =? INVALID_HIGH) && negb (High last =? INVALID_HIGH) && (High level <? High last)
  then let level := Z.land level 0x000F in Z.lor level (High level)
  else level.

(* @src service/matrix/src/device_matrix.cpp 357-389 DeviceMatrix::Broadcast *)
Definition Broadcast (dataLevel : DataLevel) (s : State) : State :=
  let d := ResetMask (l_dynamic dataLevel) in
  let st := ResetMask (l_statics dataLevel) in
  if negb (IsValid (lasts_ s)) then
    PostEvent (mkLevel d st (switches dataLevel) (switchesLen dataLevel)) s
  else
    let d := broadcast_level (Z.lor d (Low (l_dynamic (lasts_ s)))) (l_dynamic (lasts_ s)) in
    let st := broadcast_level (Z.lor st (Low (l_statics (lasts_ s)))) (l_statics (lasts_ s)) in
    let matrix := mkLevel d st (switches dataLevel) (switchesLen dataLevel) in
    let s := PostEvent matrix s in
    let task := match task_ s with
                | Some t => if executors_ s then exec_reset t else Some t
                | None => None
                end in
    upd_lasts matrix task s.

Definition or_mask (st dy : Z) (m : Mask) : Mask := mkMask (Z.lor (dynamic m) dy) (Z.lor (statics m) st).
Definition clear_mask (st dy : Z) (m : Mask) : Mask := mkMask (clear (dynamic m) dy) (clear (statics m) st).

(** [codes[type] |= low] *)
Definition codes (type : LevelType) (low : Z) : Z * Z :=
  match type with STATICS => (low, 0) | DYNAMIC => (0, low) | OtherType => (0, 0) end.

(* @src service/matrix/src/device_matrix.cpp 391-439 DeviceMatrix::OnChanged *)
Definition OnChanged (code : Z) (type : LevelType) (s : State) : State :=
  match type with
  | OtherType => s
  | _ =>
      let low := Low code in
      let '(st, dy) := codes type low in
      let s := upd_masks (or_mask st dy <$> onLines_ s) (or_mask st dy <$> offLines_ s) (remotes_ s) s in
      if low =? 0 then s
      else
        let '(mask, s) := UpdateMask default_mask s in
        let mask := SetDynamicMask dy (SetStaticsMask st mask) in
        let '(r, d) := LoadMeta (SwitchesKey localUuid) true (switchDb s) in
        let s := upd_switchDb d s in
        let matrixData :=
          match r with
          | Some sw => mkLevel (dynamic mask) (statics mask) (s_value sw) (s_length sw)
          | None => mkLevel (dynamic mask) (statics mask) INVALID_VALUE INVALID_LENGTH
          end in
        let s := PostEvent matrixData s in
        let task := if executors_ s then match task_ s with Some t => exec_reset t | None => exec_schedule end
                    else task_ s in
        upd_lasts matrixData task s
  end.

(* @src service/matrix/src/device_matrix.cpp 542-562 DeviceMatrix::GetCode *)
Definition GetCode (metaData : StoreMeta) (s : State) : Z :=
  if (tokenId metaData =? tokenId_ s) && bool_decide (storeId metaData = storeId_ s) then META_STORE_MASK
  else
    match level_type (dataType metaData) with
    | STATICS => match index_of (appId metaData) (staticsApps_ s) with Some i => SetMask (Z.of_nat i) | None => 0 end
    | DYNAMIC => match index_of (appId metaData) (dynamicApps_ s) with Some i => SetMask (Z.of_nat i) | None => 0 end
    | OtherType => 0
    end.

(* @src service/matrix/src/device_matrix.cpp 453-462 DeviceMatrix::OnChanged *)
Definition OnChangedStore (metaData : StoreMeta) (s : State) : State :=
  match level_type (dataType metaData) with
  | OtherType => s
  | t => let code := GetCode metaData s in if negb (code =? 0) then OnChanged code t s else s
  end.

(* @src service/matrix/src/device_matrix.cpp 498-529 DeviceMatrix::UpdateConsistentMeta *)
Definition UpdateConsistentMeta (device : string) (remote : Mask) (s : State) : State :=
  let st := Low (statics remote) in
  let dy := Low (dynamic remote) in
  if negb (st =? 0) && negb (dy =? 0) then s
  else
    let '(isExist, meta, s) := GetMatrixMeta device false s in
    let '(meta, s) :=
      if (isExist : bool) then (meta, s)
      else
        let meta := mkMatrix (version meta) (dynamic remote) (statics remote) REMOTE_RECEIVED device
                      (dynamicApps_ s) (staticsApps_ s) in
        (meta, (SaveMatrix (GetKey device) meta true s).2) in
    let '(saved, metaData, s) := GetMatrixMeta device true s in
    if negb saved then
      let meta := set_device device (set_origin REMOTE_CONSISTENT meta) in
      (SaveMatrix (GetConsistentKey device) meta true s).2
    else
      let metaData :=
        set_levels
          (if (dy =? 0) && (High (m_dynamic metaData) <? High (m_dynamic meta)) then m_dynamic meta
           else m_dynamic metaData)
          (if (st =? 0) && (High (m_statics metaData) <? High (m_statics meta)) then m_statics meta
           else m_statics metaData) metaData in
      (SaveMatrix (GetConsistentKey (deviceId metaData)) metaData true s).2.

(* @src service/matrix/src/device_matrix.cpp 464-496 DeviceMatrix::OnExchanged *)
Definition OnExchanged (device : string) (code : Z) (type : LevelType) (changeType : ChangeType) (s : State)
    : State :=
  match bool_decide (device = ""), type with
  | true, _ | _, OtherType => s
  | _, _ =>
      let '(st, dy) := codes type (Low code) in
      let s :=
        if changes_local changeType then
          upd_masks (alter (clear_mask st dy) device (onLines_ s)) (alter (clear_mask st dy) device (offLines_ s))
            (remotes_ s) s
        else s in
      if changes_remote changeType then
        match remotes_ s !! device with
        | None => s
        | Some old =>
            let remote := clear_mask st dy old in
            UpdateConsistentMeta device remote
              (upd_masks (onLines_ s) (offLines_ s) (<[device := remote]> (remotes_ s)) s)
        end
      else s
  end.

(* @src service/matrix/src/device_matrix.cpp 531-540 DeviceMatrix::OnExchanged *)
Definition OnExchangedStore (device : string) (metaData : StoreMeta) (type : ChangeType) (s : State) : State :=
  match level_type (dataType metaData) with
  | OtherType => s
  | t => let code := GetCode metaData s in if negb (code =? 0) then OnExchanged device code t type s else s
  end.

Definition mask_low (type : LevelType) (m : option Mask) : bool * Z :=
  match m, type with
  | Some m, STATICS => (true, Low (statics m))
  | Some m, DYNAMIC => (true, Low (dynamic m))
  | _, _ => (false, 0)
  end.

(* @src service/matrix/src/device_matrix.cpp 564-580 DeviceMatrix::GetMask *)
Definition GetMask (device : string) (type : LevelType) (s : State) : bool * Z :=
  mask_low type (onLines_ s !! device).
(* @src service/matrix/src/device_matrix.cpp 582-598 DeviceMatrix::GetRemoteMask *)
Definition GetRemoteMask (device : string) (type : LevelType) (s : State) : bool * Z :=
  mask_low type (remotes_ s !! device).
(* @src service/matrix/src/device_matrix.cpp 600-608 DeviceMatrix::GetRemoteDynamicMask *)
Definition GetRemoteDynamicMask (s : State) : gmap string Z := (fun m => Low (dynamic m)) <$> remotes_ s.

Definition meta_level (type : LevelType) (r : bool * MatrixMetaData) : bool * Z :=
  match r, type with
  | (true, m), STATICS => (true, High (m_statics m))
  | (true, m), DYNAMIC => (true, High (m_dynamic m))
  | _, _ => (false, High INVALID_LEVEL)
  end.

(* @src service/matrix/src/device_matrix.cpp 610-625 DeviceMatrix::GetRecvLevel *)
Definition GetRecvLevel (device : string) (type : LevelType) (s : State) : bool * Z * State :=
  let '(r, s) := GetMatrixMeta device false s in (meta_level type r, s).
(* @src service/matrix/src/device_matrix.cpp 627-642 DeviceMatrix::GetConsLevel *)
Definition GetConsLevel (device : string) (type : LevelType) (s : State) : bool * Z * State :=
  let '(r, s) := GetMatrixMeta device true s in (meta_level type r, s).

(* @src service/matrix/src/device_matrix.cpp 140-158 DeviceMatrix::IsConsistent *)
Definition IsConsistent (device : string) (s : State) : bool * bool * State :=
  let '(dynamicSaved, dynamicRecv, s) := GetRecvLevel device DYNAMIC s in
  let '(dynamicExist, dynamicCons, s) := GetConsLevel device DYNAMIC s in
  let '(staticsSaved, staticsRecv, s) := GetRecvLevel device STATICS s in
  let '(staticsExist, staticsCons, s) := GetConsLevel device STATICS s in
  (dynamicSaved && dynamicExist && (dynamicRecv <=? dynamicCons) && negb (dynamicRecv =? INVALID_MASK),
   staticsSaved && staticsExist && (staticsRecv <=? staticsCons) && negb (staticsRecv =? INVALID_MASK), s).

(* @src service/matrix/src/device_matrix.cpp 677-703 DeviceMatrix::UpdateLevel *)
Definition UpdateLevel (device : string) (level : Z) (type : LevelType) (isConsistent : bool) (s : State) : State :=
  match bool_decide (device = ""), type with
  | true, _ | _, OtherType => s
  | _, _ =>
      let '(isExist, meta, s) := GetMatrixMeta device isConsistent s in
      let meta :=
        if (isExist : bool) then meta
        else
          let o := if bool_decide (device = localUuid) then LOCAL
                   else if isConsistent then REMOTE_CONSISTENT else REMOTE_RECEIVED in
          set_infos (dynamicApps_ s) (staticsApps_ s) (set_origin o meta) in
      let meta := set_device device meta in
      let meta := set_levels
        (match type with DYNAMIC => Merge level (m_dynamic meta) | _ => m_dynamic meta end)
        (match type with STATICS => Merge level (m_statics meta) | _ => m_statics meta end) meta in
      let s := (SaveMatrix (if isConsistent then GetConsistentKey device else GetKey device) meta true s).2 in
      if isConsistent then s
      else upd_caches (lru_set device (set_device "" meta) (matrices_ s)) (versions_ s) s
  end.

(* @src service/matrix/src/device_matrix.cpp 644-654 DeviceMatrix::Clear *)
Definition Clear (s : State) : State :=
  upd_masks ∅ ∅ ∅
    (upd_caches (lru_reset MAX_DEVICES (lru_reset 0 (matrices_ s)))
       (lru_reset MAX_DEVICES (lru_reset 0 (versions_ s))) s).

(** The body of the task scheduled by [OnChanged]. *)
(* @src service/matrix/src/device_matrix.cpp 743-756 DeviceMatrix::GenResetTask *)
Definition ResetTask (s : State) : State :=
  PostEvent (mkLevel (ResetMask (l_dynamic (lasts_ s))) (ResetMask (l_statics (lasts_ s)))
               (switches (lasts_ s)) (switchesLen (lasts_ s)))
    (upd_lasts (lasts_ s) None s).

(* @src service/matrix/src/device_matrix.cpp 719-728 DeviceMatrix::IsDynamic *)
Definition IsDynamic (metaData : StoreMeta) (s : State) : bool :=
  match level_type (dataType metaData) with
  | DYNAMIC => (tokenId metaData =? tokenId_ s) && bool_decide (storeId metaData = storeId_ s)
               || bool_decide (appId metaData ∈ dynamicApps_ s)
  | _ => false
  end.
(* @src service/matrix/src/device_matrix.cpp 730-736 DeviceMatrix::IsStatics *)
Definition IsStatics (metaData : StoreMeta) (s : State) : bool :=
  match level_type (dataType metaData) with
  | STATICS => bool_decide (appId metaData ∈ staticsApps_ s)
  | _ => false
  end.

(** The observer of the local table: an inserted or updated entry, [None] when it
    cannot be unmarshalled. *)
(* @src service/matrix/src/device_matrix.cpp 38-58 DeviceMatrix::DeviceMatrix *)
Definition OnLocalMeta (meta : option MatrixMetaData) (s : State) : State :=
  match meta with
  | None => s
  | Some m =>
      if bool_decide (origin m = REMOTE_CONSISTENT) then s
      else upd_caches (lru_set (deviceId m) (set_device "" m) (matrices_ s)) (versions_ s) s
  end.

(** The configured stores, the process label and whether the communicator
    supports broadcasts are the environment's; the result is the returned flag. *)
(* @src service/matrix/src/device_matrix.cpp 83-124 DeviceMatrix::Initialize *)
Definition Initialize (token : Z) (store metaName : string) (dynamicStores staticStores : list string)
    (supported : bool) (s : State) : bool * State :=
  let s := mkState (lasts_ s) (executors_ s) (task_ s) supported token store (onLines_ s) (offLines_ s)
             (remotes_ s) (metaName :: dynamicStores) staticStores (matrices_ s) (versions_ s)
             (matrixDb s) (switchDb s) (events s) in
  let newMeta := mkMatrix CURRENT_VERSION (Z.lor CURRENT_DYNAMIC_MASK META_STORE_MASK) CURRENT_STATICS_MASK
                   LOCAL localUuid (dynamicApps_ s) (staticsApps_ s) in
  let '(r, d) := LoadMeta (GetKey localUuid) false (matrixDb s) in
  let s := upd_db d s in
  match r with
  | Some oldMeta =>
      if version newMeta =? version oldMeta then (true, s)
      else
        let newMeta := set_levels (Merge (m_dynamic oldMeta) (m_dynamic newMeta))
                         (Merge (m_statics oldMeta) (m_statics newMeta)) newMeta in
        let s := (SaveMatrix (GetKey localUuid) newMeta true s).2 in
        SaveMatrix (GetKey localUuid) newMeta false s
  | None =>
      let s := (SaveMatrix (GetKey localUuid) newMeta true s).2 in
      SaveMatrix (GetKey localUuid) newMeta false s
  end.
End Matrix.

(** ** Bits of levels *)

Lemma testbit_Low d i : 0 <= i -> Z.testbit (Low d) i = Z.testbit d i && (i <? 4).
Proof. intros Hi. unfold Low. rewrite Z.land_spec. f_equal. by apply (Z.testbit_ones_nonneg 4). Qed.

Lemma testbit_High d i : 0 <= i -> Z.testbit (High d) i = Z.testbit d i && (4 <=? i) && (i <? 16).
Proof.
  intros Hi. unfold High. rewrite Z.land_spec. rewrite <- andb_assoc. f_equal.
  change 0xFFF0 with (Z.ldiff (Z.ones 16) (Z.ones 4)). rewrite Z.ldiff_spec.
  rewrite !Z.testbit_ones_nonneg by lia. destruct (Z.ltb_spec i 16), (Z.ltb_spec i 4), (Z.leb_spec 4 i); cbn; lia.
Qed.

Lemma testbit_clear d b i : 0 <= i -> Z.testbit (clear d b) i = Z.testbit d i && negb (Z.testbit b i).
Proof. intros Hi. unfold clear. by rewrite Z.land_spec, Z.lnot_spec. Qed.

Lemma testbit_ones4 i : 0 <= i -> Z.testbit 0x000F i = (i <? 4).
Proof. intros. by apply (Z.testbit_ones_nonneg 4). Qed.

Create Rewrite HintDb mask_bits.
#[export] Hint Rewrite testbit_Low testbit_High testbit_clear testbit_ones4 Z.lor_spec Z.land_spec
  using lia : mask_bits.

(** Proves an equation of levels bit by bit. *)
Ltac mask_bits :=
  apply bits_eq; let i := fresh "i" in let Hi := fresh "Hi" in intros i Hi;
  unfold Merge, ResetMask; autorewrite with mask_bits;
  repeat match goal with |- context [Z.testbit ?x i] => destruct (Z.testbit x i) end;
  destruct (Z.ltb_spec i 4), (Z.leb_spec 4 i), (Z.ltb_spec i 16); cbn; try lia; try done.

Lemma Low_Merge h l : Low (Merge h l) = Low l.
Proof. mask_bits. Qed.
Lemma High_Merge h l : High (Merge h l) = High h.
Proof. mask_bits. Qed.
Lemma Low_lor a b : Low (Z.lor a b) = Z.lor (Low a) (Low b).
Proof. mask_bits. Qed.
Lemma High_lor a b : High (Z.lor a b) = Z.lor (High a) (High b).
Proof. mask_bits. Qed.
Lemma High_Low a : High (Low a) = 0.
Proof.
  apply bits_eq. intros i Hi. autorewrite with mask_bits. rewrite Z.bits_0.
  destruct (Z.ltb_spec i 4), (Z.leb_spec 4 i); cbn; try lia; by rewrite ?andb_false_r.
Qed.
Lemma High_High a : High (High a) = High a.
Proof. mask_bits. Qed.
Lemma Low_Low a : Low (Low a) = Low a.
Proof. mask_bits. Qed.
Lemma High_pending a : High (Z.lor a 0x000F) = High a.
Proof. mask_bits. Qed.
Lemma Low_pending a : Low (Z.lor a 0x000F) = 0x000F.
Proof. mask_bits. Qed.
Lemma Low_clear a b : Low (clear a b) = clear (Low a) b.
Proof. mask_bits. Qed.

Lemma High_step a b : High a - High b = 16 * (Z.shiftr (High a) 4 - Z.shiftr (High b) 4).
Proof.
  assert (E : forall x, High x = 16 * Z.shiftr (High x) 4).
  { intros x. rewrite Z.mul_comm. change 16 with (2 ^ 4). rewrite <- Z.shiftl_mul_pow2 by lia.
    apply bits_eq. intros i Hi. rewrite Z.shiftl_spec by lia. rewrite testbit_High by lia.
    destruct (Z.leb_spec 4 i).
    - rewrite Z.shiftr_spec by lia. rewrite testbit_High by lia.
      replace (i - 4 + 4) with i by lia. by rewrite (proj2 (Z.leb_le 4 i)).
    - rewrite andb_false_r. by rewrite Z.testbit_neg_r by lia. }
  rewrite (E a) at 1. rewrite (E b) at 1. lia.
Qed.

(** [ConvertIndex] finds the lowest set bit. *)
Lemma trailing_zeros n k : 0 <= n -> 0 <= k ->
  let code := 2 ^ n * (2 * k + 1) in Z.land (Z.lnot code) (code - 1) = Z.ones n.
Proof.
  intros Hn Hk code. apply bits_eq. intros i Hi.
  rewrite Z.land_spec, Z.lnot_spec by done. rewrite Z.testbit_ones_nonneg by done.
  assert (Hp : 0 < 2 ^ n) by (apply Z.pow_pos_nonneg; lia).
  assert (E : code - 1 = k * 2 ^ (n + 1) + Z.ones n).
  { unfold code. rewrite Z.ones_equiv, Z.pow_add_r by lia. lia. }
  assert (Hbit : forall x, 0 <= x < 2 ^ n -> forall j, n <= j ->
    Z.testbit (k * 2 ^ (n + 1) + x) j = (n <? j) && Z.testbit k (j - (n + 1))).
  { intros x Hx j Hj. rewrite <- (Z.shiftl_mul_pow2 k) by lia.
    rewrite <- (Z.mod_small x (2 ^ n)) by done. rewrite <- Z.land_ones by lia.
    rewrite Z.add_nocarry_lxor, Z.lxor_spec.
    - rewrite Z.shiftl_spec, Z.land_spec by lia. rewrite (Z.testbit_ones_nonneg n j) by lia.
      rewrite (proj2 (Z.ltb_ge j n)) by lia. rewrite andb_false_r, xorb_false_r.
      destruct (Z.ltb_spec n j); [done|]. by rewrite Z.testbit_neg_r by lia.
    - apply bits_eq. intros m Hm. rewrite Z.land_spec, Z.shiftl_spec, Z.land_spec, Z.bits_0 by lia.
      rewrite (Z.testbit_ones_nonneg n m) by lia. destruct (Z.ltb_spec m n); [|by rewrite !andb_false_r].
      by rewrite Z.testbit_neg_r by lia. }
  destruct (Z.ltb_spec i n) as [Hlt|Hge].
  - assert (Hc : Z.testbit code i = false).
    { unfold code. rewrite Z.mul_comm, <- Z.shiftl_mul_pow2 by lia. by apply Z.shiftl_spec_low. }
    rewrite Hc. cbn. rewrite E. rewrite Z.add_comm.
    rewrite <- (Z.mod_pow2_bits_low _ n) by done. rewrite Z.pow_add_r, Z.mul_assoc by lia.
    replace (k * 2 ^ n * 2 ^ 1) with (k * 2 ^ 1 * 2 ^ n) by lia. rewrite Z_mod_plus_full.
    rewrite Z.mod_pow2_bits_low by done. by apply Z.ones_spec_low.
  - rewrite E. rewrite Hbit; [|rewrite Z.ones_equiv; lia|done].
    replace code with (k * 2 ^ (n + 1) + 2 ^ n) by (unfold code; rewrite Z.pow_add_r by lia; lia).
    destruct (decide (i = n)) as [->|Hne]; [by rewrite Z.ltb_irrefl, andb_false_r|].
    replace (Z.testbit (k * 2 ^ (n + 1) + 2 ^ n) i) with (Z.testbit k (i - (n + 1))).
    + rewrite (proj2 (Z.ltb_lt n i)) by lia. by destruct (Z.testbit k _).
    + symmetry. rewrite <- Z.shiftl_mul_pow2 by lia. rewrite Z.add_nocarry_lxor.
      * rewrite Z.lxor_spec, Z.shiftl_spec, Z.pow2_bits_eqb by lia.
        rewrite (proj2 (Z.eqb_neq n i)) by lia. apply xorb_false_r.
      * apply bits_eq. intros m Hm. rewrite Z.land_spec, Z.shiftl_spec, Z.pow2_bits_eqb, Z.bits_0 by lia.
        destruct (Z.eqb_spec n m); [|apply andb_false_r]. subst. by rewrite Z.testbit_neg_r by lia.
Qed.

Lemma ConvertIndex_lowest n k :
  0 <= n < 16 -> 0 <= k -> ConvertIndex (2 ^ n * (2 * k + 1)) = u16 (n - 1).
Proof.
  intros Hn Hk. unfold ConvertIndex. rewrite trailing_zeros by lia.
  assert (Hin : In n (seqZ 0 16)) by (apply list_elem_of_In, elem_of_seqZ; lia).
  clear Hn. by repeat (destruct Hin as [<-|Hin]).
Qed.

(** *** The converters

    The bit of the local list for the application that another device has at a
    position of its own list. *)
Definition app_bit (info apps : list string) (idx : nat) : Z :=
  match info !! idx with
  | Some app => match index_of app apps with Some i => SetMask (Z.of_nat i) | None => 0 end
  | None => 0
  end.

Lemma Low_cases mask : exists m, Low mask = m /\
  (forall j, 0 <= j < 4 -> Z.testbit mask j = Z.testbit m j) /\ In m (seqZ 0 16).
Proof.
  exists (Low mask). split; [done|]. split.
  - intros j Hj. rewrite testbit_Low by lia. rewrite (proj2 (Z.ltb_lt j 4)) by lia. by rewrite andb_true_r.
  - assert (0 <= Low mask < 16).
    { change (Low mask) with (Z.land mask (Z.ones 4)). rewrite Z.land_ones by lia.
      apply Z.mod_pos_bound. lia. }
    apply list_elem_of_In, elem_of_seqZ. lia.
Qed.

(** One round of the loop on a concrete code. *)
Lemma Convert_loop_step fuel info apps code result idx code' :
  (code =? 0) = false -> Z.to_nat (ConvertIndex code) = idx -> Z.land code (code - 1) = code' ->
  Convert_loop (S fuel) info apps code result =
  match info !! idx with
  | None => Some result
  | Some app => Convert_loop fuel info apps code' (Z.lor result (app_bit info apps idx))
  end.
Proof.
  intros Hc Hi Hc'. cbn [Convert_loop]. rewrite Hc, Hi, Hc'. unfold app_bit.
  destruct (info !! idx) as [app|]; [|done]. destruct (index_of app apps); [done|]. by rewrite Z.lor_0_r.
Qed.

Lemma Convert_loop_0 fuel info apps result : Convert_loop fuel info apps 0 result = Some result.
Proof. by destruct fuel. Qed.

(** Beyond the end of the list nothing is found any more. *)
Lemma app_bit_beyond info apps i j : info !! i = None -> (i <= j)%nat -> app_bit info apps j = 0.
Proof.
  intros Hi Hj. unfold app_bit. apply lookup_ge_None in Hi.
  by rewrite (lookup_ge_None_2 info j) by lia.
Qed.

(** The rounds for the bits of a code, lowest first. *)
Ltac convert_rounds info :=
  repeat (erewrite Convert_loop_step; [|reflexivity|vm_compute; reflexivity|vm_compute; reflexivity];
    match goal with
    | |- context [match info !! ?i with _ => _ end] =>
        let E := fresh "E" in destruct (info !! i) eqn:E;
        [|repeat match goal with |- context [app_bit info ?a ?j] => rewrite (app_bit_beyond info a i j E) by lia end]
    end);
  rewrite ?Convert_loop_0, ?Z.lor_0_r, ?Z.lor_0_l; try done.

(** C36: Converting the dynamic mask of a device with another version terminates
    and keeps the bit of the metadata store; every other set bit becomes the bit
    of the application which the other device lists for it, if it is known here. *)
Theorem ConvertDynamic_spec apps meta mask :
  let info := dynamicInfo meta in
  let bit j idx := if Z.testbit mask j then app_bit info apps idx else 0 in
  ConvertDynamic apps meta mask =
  Some (Z.lor (Z.lor (Z.lor (Z.land mask 1) (bit 1 0%nat)) (bit 2 1%nat)) (bit 3 2%nat)).
Proof.
  intros info bit. subst bit. unfold ConvertDynamic. fold info.
  destruct (Low_cases mask) as (m & Em & Hb & Hm).
  replace (Z.land mask 1) with (Z.land (Low mask) 1) by (unfold Low; by rewrite <- Z.land_assoc). rewrite Em.
  rewrite !Hb by lia. clear Em Hb.
  repeat (destruct Hm as [<-|Hm]); [..|done];
    cbn -[Convert_loop Z.lor app_bit]; convert_rounds info.
Qed.

(** Converting a static mask terminates; when the lowest bit is set the loop
    stops at once and the result is empty, whatever the other bits are; otherwise
    bit [j] is looked up at position [j - 1] of the other device's list. *)
Lemma ConvertStatics_spec apps meta mask :
  let info := staticsInfo meta in
  let bit j idx := if Z.testbit mask j then app_bit info apps idx else 0 in
  (Z.of_nat (length info) < 65535) ->
  ConvertStatics apps meta mask =
  Some (if Z.testbit mask 0 then 0 else Z.lor (Z.lor (bit 1 0%nat) (bit 2 1%nat)) (bit 3 2%nat)).
Proof.
  intros info bit Hlen. subst bit. unfold ConvertStatics. fold info.
  destruct (Low_cases mask) as (m & Em & Hb & Hm). rewrite Em.
  rewrite !Hb by lia. clear Em Hb.
  assert (Hbig : info !! Z.to_nat 65535 = None) by (apply lookup_ge_None; lia).
  assert (Hodd : forall fuel code, (code =? 0) = false -> ConvertIndex code = 65535 ->
    Convert_loop (S fuel) info apps code 0 = Some 0).
  { intros fuel code Hc Hi. cbn [Convert_loop]. by rewrite Hc, Hi, Hbig. }
  repeat (destruct Hm as [<-|Hm]); [..|done];
    cbn -[Convert_loop Z.lor app_bit]; try (rewrite Hodd by (vm_compute; reflexivity)); try done;
    convert_rounds info.
Qed.

Lemma ConvertStatics_spec_witness :
  ConvertStatics ["b"; "a"] (set_infos [] ["a"; "b"] default_matrix) 0x0006 = Some 0x0003.
Proof. apply (ConvertStatics_spec ["b"; "a"] (set_infos [] ["a"; "b"] default_matrix) 0x0006). reflexivity. Defined.

(** ** What the helpers leave alone *)

Section Props.
Context `{MetaStore MatrixMetaData} `{MetaStore SwitchesMetaData} `{LruBucket string MatrixMetaData}.
Context (localUuid : string) (exec_reset : Z -> option Z) (exec_schedule : option Z).

Record frame (s s' : State) : Prop := {
  f_on : onLines_ s' = onLines_ s;
  f_off : offLines_ s' = offLines_ s;
  f_rem : remotes_ s' = remotes_ s;
  f_dyn : dynamicApps_ s' = dynamicApps_ s;
  f_sta : staticsApps_ s' = staticsApps_ s
}.

Lemma frame_refl s : frame s s.
Proof. by constructor. Qed.
Lemma frame_trans s1 s2 s3 : frame s1 s2 -> frame s2 s3 -> frame s1 s3.
Proof. intros [] []. constructor; congruence. Qed.

Lemma GetMatrixMeta_frame d c s : frame s (GetMatrixMeta d c s).2.
Proof. unfold GetMatrixMeta. repeat case_match; simplify_eq; by constructor. Qed.
Lemma GetMatrixInfo_frame d s : frame s (GetMatrixInfo d s).2.
Proof. unfold GetMatrixInfo. repeat case_match; simplify_eq; by constructor. Qed.
Lemma SaveMatrix_frame k m l s : frame s (SaveMatrix k m l s).2.
Proof. unfold SaveMatrix. case_match. by constructor. Qed.
Lemma UpdateMask_frame m s : frame s (UpdateMask localUuid m s).2.
Proof.
  unfold UpdateMask. pose proof (GetMatrixMeta_frame localUuid false s) as Hf.
  by destruct (GetMatrixMeta _ _ _) as [[??]?].
Qed.
Lemma SaveSwitches_frame d n l s : frame s (SaveSwitches d n l s).
Proof. unfold SaveSwitches. repeat case_match; by constructor. Qed.
Lemma ConvertMask_frame d l s : frame s (ConvertMask d l s).2.
Proof.
  unfold ConvertMask. pose proof (GetMatrixInfo_frame d s) as Hf. destruct (GetMatrixInfo _ _) as [? ?].
  by case_if.
Qed.
Lemma UpdateRemoteMeta_frame d m n s : frame s (UpdateRemoteMeta d m n s).2.
Proof.
  unfold UpdateRemoteMeta. pose proof (GetMatrixMeta_frame d false s) as Hf.
  destruct (GetMatrixMeta _ _ _) as [[e o] s']. cbn in Hf. case_if; [done|].
  repeat case_match; (eapply frame_trans; [exact Hf|apply SaveMatrix_frame]).
Qed.
Lemma UpdateConsistentMeta_frame d m s : frame s (UpdateConsistentMeta d m s).
Proof.
  unfold UpdateConsistentMeta. case_if; [apply frame_refl|].
  pose proof (GetMatrixMeta_frame d false s) as Hf. destruct (GetMatrixMeta d false s) as [[e o] s1]. cbn in Hf.
  set (p := if e then _ else _). assert (Hp : frame s p.2).
  { subst p. destruct e; [done|]. eapply frame_trans; [exact Hf|apply SaveMatrix_frame]. }
  destruct p as [meta s2]. cbn in Hp. pose proof (GetMatrixMeta_frame d true s2) as Hf2.
  destruct (GetMatrixMeta d true s2) as [[e2 o2] s3]. cbn in Hf2.
  case_if; (eapply frame_trans; [exact Hp|]); (eapply frame_trans; [exact Hf2|]); apply SaveMatrix_frame.
Qed.

(** ** Operations *)

Inductive op : Type :=
| OpOnline (d : string)
| OpOffline (d : string)
| OpBroadcastRecv (d n : string) (l : DataLevel)
| OpBroadcast (l : DataLevel)
| OpChanged (code : Z) (t : LevelType)
| OpExchanged (d : string) (code : Z) (t : LevelType) (c : ChangeType)
| OpUpdateLevel (d : string) (level : Z) (t : LevelType) (cons : bool)
| OpResetTask
| OpLocalMeta (m : option MatrixMetaData)
| OpIsConsistent (d : string)
| OpClear.

Definition run (o : op) (s : State) : State :=
  match o with
  | OpOnline d => Online localUuid d s
  | OpOffline d => Offline localUuid d s
  | OpBroadcastRecv d n l => (OnBroadcast d n l s).2
  | OpBroadcast l => Broadcast exec_reset l s
  | OpChanged c t => OnChanged localUuid exec_reset exec_schedule c t s
  | OpExchanged d c t ct => OnExchanged d c t ct s
  | OpUpdateLevel d l t c => UpdateLevel localUuid d l t c s
  | OpResetTask => ResetTask s
  | OpLocalMeta m => OnLocalMeta m s
  | OpIsConsistent d => (IsConsistent d s).2
  | OpClear => Clear s
  end.

Definition runs (os : list op) (s : State) : State := fold_left (fun s o => run o s) os s.

(** What an operation does to the masks of the devices that are on or off line:
    the specification of the operations on these two maps. *)
Definition masks_after (o : op) (s s' : State) : Prop :=
  match o with
  | OpOnline d =>
      exists m, onLines_ s' = <[d := m]> (onLines_ s) /\ offLines_ s' = delete d (offLines_ s) /\
        match offLines_ s !! d with
        | Some m0 => m = m0
        | None => Low (dynamic m) = Low (dynamic default_mask) /\ Low (statics m) = Low (statics default_mask)
        end
  | OpOffline d =>
      exists m, onLines_ s' = delete d (onLines_ s) /\ offLines_ s' = <[d := m]> (offLines_ s) /\
        match onLines_ s !! d with
        | Some m0 => m = m0
        | None => Low (dynamic m) = Low (dynamic default_mask) /\ Low (statics m) = Low (statics default_mask)
        end
  | OpChanged code t =>
      let '(st, dy) := codes t (Low code) in
      onLines_ s' = or_mask st dy <$> onLines_ s /\ offLines_ s' = or_mask st dy <$> offLines_ s
  | OpExchanged d code t ct =>
      let '(st, dy) := codes t (Low code) in
      if negb (bool_decide (d = "")) && changes_local ct then
        onLines_ s' = alter (clear_mask st dy) d (onLines_ s) /\
        offLines_ s' = alter (clear_mask st dy) d (offLines_ s)
      else onLines_ s' = onLines_ s /\ offLines_ s' = offLines_ s
  | OpClear => onLines_ s' = ∅ /\ offLines_ s' = ∅
  | _ => onLines_ s' = onLines_ s /\ offLines_ s' = offLines_ s
  end.

Lemma or_mask_0 m : or_mask 0 0 m = m.
Proof. unfold or_mask. rewrite !Z.lor_0_r. by destruct m. Qed.

Lemma clear_mask_0 m : clear_mask 0 0 m = m.
Proof. unfold clear_mask, clear. change (Z.lnot 0) with (-1). rewrite !Z.land_m1_r. by destruct m. Qed.

Lemma alter_clear_0 (d : string) (x : gmap string Mask) : alter (clear_mask 0 0) d x = x.
Proof. apply alter_id. intros m _. apply clear_mask_0. Qed.

Lemma fmap_or_0 (x : gmap string Mask) : or_mask 0 0 <$> x = x.
Proof.
  apply map_eq. intros d. rewrite lookup_fmap. destruct (x !! d); cbn; [|done]. by rewrite or_mask_0.
Qed.

Lemma UpdateMask_low s :
  let m := (UpdateMask localUuid default_mask s).1 in
  Low (dynamic m) = Low (dynamic default_mask) /\ Low (statics m) = Low (statics default_mask).
Proof.
  unfold UpdateMask. destruct (GetMatrixMeta _ _ _) as [[??]?]. cbn [fst dynamic statics].
  by rewrite !Low_Merge.
Qed.

Lemma run_OpExchanged_masks d code t ct s :
  masks_after (OpExchanged d code t ct) s (OnExchanged d code t ct s).
Proof.
  unfold masks_after, OnExchanged. case_bool_decide as Hd; cbn [negb andb].
  { by destruct (codes t (Low code)). }
  destruct t; cbn [codes]; [| |by case_if; rewrite ?alter_clear_0].
  all: destruct ct; cbn [changes_local changes_remote andb upd_masks remotes_ onLines_ offLines_]; try done.
  all: destruct (remotes_ s !! d); [|done].
  all: match goal with |- context [UpdateConsistentMeta ?d ?m ?x] =>
         destruct (UpdateConsistentMeta_frame d m x) as [-> -> _ _ _] end; done.
Qed.

(** Every operation changes the change masks of the devices as specified:
    going on or off line carries a known device's mask along and gives a device
    without one the default mask, a change is added to all of them, an exchange
    clears its bits for one device, and everything else leaves them alone. *)
Lemma run_masks o s : masks_after o s (run o s).
Proof.
  destruct o; cbn [run]; [| | | | |apply run_OpExchanged_masks| | | | |done]; cbn [masks_after].
  - unfold Online. destruct (offLines_ s !! d) as [m|] eqn:E; [by exists m|].
    pose proof (UpdateMask_low s) as Hl. destruct (UpdateMask_frame default_mask s) as [F1 F2 _ _ _].
    destruct (UpdateMask localUuid default_mask s) as [m s']. cbn in *. exists m. rewrite F1, F2.
    by rewrite delete_id.
  - unfold Offline. destruct (onLines_ s !! d) as [m|] eqn:E; [by exists m|].
    pose proof (UpdateMask_low s) as Hl. destruct (UpdateMask_frame default_mask s) as [F1 F2 _ _ _].
    destruct (UpdateMask localUuid default_mask s) as [m s']. cbn in *. exists m. rewrite F1, F2.
    by rewrite delete_id.
  - unfold OnBroadcast. case_if; [done|].
    pose proof (SaveSwitches_frame d n l s) as F1. set (s1 := SaveSwitches d n l s) in *.
    pose proof (ConvertMask_frame d l s1) as F2. destruct (ConvertMask d l s1) as [[cd cs] s2]. cbn in F2.
    match goal with |- context [UpdateRemoteMeta ?a ?b ?c ?x] =>
      pose proof (UpdateRemoteMeta_frame a b c x) as F3; destruct (UpdateRemoteMeta a b c x) as [m s3] end.
    cbn in *. destruct F1, F2, F3. split; congruence.
  - unfold Broadcast. case_if; [done|]. done.
  - unfold OnChanged. destruct t; cbn [codes]; [| |by rewrite !fmap_or_0].
    all: match goal with |- context [upd_masks ?a ?b ?c ?x] => set (s1 := upd_masks a b c x) end.
    all: case_if; [done|].
    all: destruct (UpdateMask_frame default_mask s1) as [F1 F2 _ _ _].
    all: destruct (UpdateMask localUuid default_mask s1) as [m s2]; cbn in F1, F2.
    all: destruct (LoadMeta _ _ _) as [r dd]; cbn; split; congruence.
  - unfold UpdateLevel. case_bool_decide; [done|]. destruct t; [| |done].
    all: pose proof (GetMatrixMeta_frame d cons s) as F1; destruct (GetMatrixMeta d cons s) as [[e m] s1].
    all: cbn in F1; match goal with |- context [SaveMatrix ?a ?b ?c ?x] =>
      pose proof (SaveMatrix_frame a b c x) as F2; destruct (SaveMatrix a b c x) as [ok s2] end.
    all: destruct F1, F2; cbn in *; case_if; cbn; split; congruence.
  - done.
  - unfold OnLocalMeta. by repeat case_match.
  - unfold IsConsistent, GetRecvLevel, GetConsLevel.
    repeat match goal with |- context [GetMatrixMeta ?a ?b ?x] =>
      pose proof (GetMatrixMeta_frame a b x); destruct (GetMatrixMeta a b x) as [[]] end.
    cbn in *. repeat case_match; simplify_eq; cbn;
    repeat match goal with F : frame _ _ |- _ => destruct F end; split; congruence.
Qed.

(** *** No change is lost *)

Definition level (t : LevelType) (m : Mask) : Z := match t with STATICS => statics m | _ => dynamic m end.

(** A device is in at most one of the two maps. *)
Definition split_lines (s : State) : Prop :=
  forall d, onLines_ s !! d = None \/ offLines_ s !! d = None.

(** Bit [b] of the mask of [d] is set, on or off line. *)
Definition pending (d : string) (t : LevelType) (b : Z) (s : State) : Prop :=
  exists m, (onLines_ s !! d = Some m \/ offLines_ s !! d = Some m) /\ Z.testbit (level t m) b = true.

(** The operations that may reset the bit: an exchange with the device whose code
    contains it, and [Clear]. *)
Definition resets (d : string) (t : LevelType) (b : Z) (o : op) : bool :=
  match o with
  | OpClear => true
  | OpExchanged d' code t' ct =>
      bool_decide (d' = d) && changes_local ct && Z.testbit (Low code) b
      && match t, t' with STATICS, STATICS | DYNAMIC, DYNAMIC => true | _, _ => false end
  | _ => false
  end.

Lemma split_lines_run o s : split_lines s -> split_lines (run o s).
Proof.
  intros Hs d0. specialize (Hs d0). pose proof (run_masks o s) as Hm. revert Hm. generalize (run o s). intros s' Hm.
  destruct o; cbn [masks_after] in Hm.
  1: destruct Hm as (m & -> & -> & _); destruct (decide (d0 = d)) as [->|];
       [rewrite lookup_delete_eq; by right|by rewrite lookup_insert_ne, lookup_delete_ne].
  1: destruct Hm as (m & -> & -> & _); destruct (decide (d0 = d)) as [->|];
       [rewrite lookup_delete_eq; by left|by rewrite lookup_insert_ne, lookup_delete_ne].
  3: destruct (codes _ _) as [st dy]; destruct Hm as [-> ->]; rewrite !lookup_fmap, !fmap_None; done.
  3: destruct (codes _ _) as [st dy]; case_if; destruct Hm as [-> ->]; [|done];
       destruct (decide (d0 = d)) as [->|]; rewrite ?lookup_alter_eq, ?fmap_None, ?lookup_alter_ne by done; done.
  7: destruct Hm as [-> ->]; by left.
  all: by destruct Hm as [-> ->].
Qed.

Lemma level_low t m b : 0 <= b < 4 -> Z.testbit (level t m) b = Z.testbit (Low (level t m)) b.
Proof. intros Hb. rewrite testbit_Low by lia. rewrite (proj2 (Z.ltb_lt b 4)) by lia. by rewrite andb_true_r. Qed.

Lemma level_default t m b :
  0 <= b < 4 -> Low (dynamic m) = Low (dynamic default_mask) /\ Low (statics m) = Low (statics default_mask) ->
  Z.testbit (level t default_mask) b = true -> Z.testbit (level t m) b = true.
Proof. intros Hb [Hd Hs]. rewrite !level_low by done. destruct t; cbn [level]; by rewrite ?Hd, ?Hs. Qed.

Lemma level_or t st dy m b : 0 <= b ->
  Z.testbit (level t m) b = true -> Z.testbit (level t (or_mask st dy m)) b = true.
Proof. intros Hb Hl. destruct t; cbn in *; rewrite Z.lor_spec, Hl; done. Qed.

Lemma pending_run d t b o s :
  0 <= b < 4 -> Z.testbit (level t default_mask) b = true -> t <> OtherType ->
  split_lines s -> pending d t b s -> resets d t b o = false -> pending d t b (run o s).
Proof.
  intros Hb Hdef Ht Hs (m & Hm & Hbit) Hr. pose proof (run_masks o s) as Ho. revert Ho.
  generalize (run o s). intros s' Ho. specialize (Hs d). destruct o; cbn [masks_after] in Ho.
  - destruct Ho as (m' & E1 & E2 & Hm'). destruct (decide (d = d0)) as [<-|Hne].
    + exists m'. rewrite E1, lookup_insert_eq. split; [by left|].
      destruct (offLines_ s !! d) as [m0|] eqn:E; [|by apply level_default]. subst m'.
      destruct Hm as [Hm|Hm]; [|by simplify_eq]. rewrite Hm in Hs. by destruct Hs.
    + exists m. rewrite E1, E2, lookup_insert_ne, lookup_delete_ne by done. done.
  - destruct Ho as (m' & E1 & E2 & Hm'). destruct (decide (d = d0)) as [<-|Hne].
    + exists m'. rewrite E2, lookup_insert_eq. split; [by right|].
      destruct (onLines_ s !! d) as [m0|] eqn:E; [|by apply level_default]. subst m'.
      destruct Hm as [Hm|Hm]; [by simplify_eq|]. rewrite Hm in Hs. by destruct Hs.
    + exists m. rewrite E1, E2, lookup_insert_ne, lookup_delete_ne by done. done.
  - destruct Ho as [E1 E2]. exists m. by rewrite E1, E2.
  - destruct Ho as [E1 E2]. exists m. by rewrite E1, E2.
  - destruct (codes t0 (Low code)) as [st dy]. destruct Ho as [E1 E2]. exists (or_mask st dy m).
    rewrite E1, E2, !lookup_fmap. split; [|apply level_or; [lia|done]].
    destruct Hm as [->| ->]; [by left|by right].
  - destruct (codes t0 (Low code)) as [st dy] eqn:Ec. case_if; destruct Ho as [E1 E2]; [|by exists m; rewrite E1, E2].
    destruct (decide (d = d0)) as [<-|Hne]; [|by exists m; rewrite E1, E2, !lookup_alter_ne].
    exists (clear_mask st dy m). rewrite E1, E2, !lookup_alter_eq.
    split; [destruct Hm as [->| ->]; [by left|by right]|]. bool_prop.
    cbn [resets] in Hr. rewrite bool_decide_eq_true_2 in Hr by done.
    destruct t, t0; cbn in Ec; simplify_eq; cbn [level clear_mask statics dynamic] in *; rewrite testbit_clear by lia;
      rewrite Hbit, ?Z.bits_0; try done; cbn; destruct (changes_local c); try done;
      cbn in Hr; rewrite andb_true_r in Hr; by rewrite Hr.
  - destruct Ho as [E1 E2]. exists m. by rewrite E1, E2.
  - destruct Ho as [E1 E2]. exists m. by rewrite E1, E2.
  - destruct Ho as [E1 E2]. exists m. by rewrite E1, E2.
  - destruct Ho as [E1 E2]. exists m. by rewrite E1, E2.
  - done.
Qed.

(** C1: No change is lost: once a change that the masks support is pending for a
    device, it stays pending through any sequence of operations - the device
    going off and on line any number of times, broadcasts, exchanges with other
    devices or of other stores - until an exchange with that device reports it or
    the matrix is cleared; and no device is on line and off line at once. *)
Theorem no_change_lost d t b os s :
  0 <= b < 4 -> Z.testbit (level t default_mask) b = true -> t <> OtherType ->
  split_lines s -> pending d t b s -> forallb (fun o => negb (resets d t b o)) os = true ->
  pending d t b (runs os s) /\ split_lines (runs os s).
Proof.
  intros Hb Hdef Ht. revert s. induction os as [|o os IH]; intros s Hs Hp Hr; [done|].
  cbn in Hr. apply andb_true_iff in Hr as [Ho Hr]. apply negb_true_iff in Ho.
  cbn. apply IH; [by apply split_lines_run|by apply pending_run|done].
Qed.

(** A change raises its bits in the mask every on-line device reports, for
    its level type only; an exchange with a device then clears exactly these bits
    for that device and leaves the other devices' masks as they are. *)
Lemma OnChanged_OnExchanged_GetMask code t d m s :
  t <> OtherType -> d <> "" -> onLines_ s !! d = Some m ->
  let s1 := OnChanged localUuid exec_reset exec_schedule code t s in
  let s2 := OnExchanged d code t CHANGE_LOCAL s1 in
  GetMask d t s1 = (true, Z.lor (Low (level t m)) (Low code)) /\
  GetMask d t s2 = (true, clear (Low (level t m)) (Low code)) /\
  (forall t', t' <> OtherType -> t' <> t -> GetMask d t' s2 = GetMask d t' s) /\
  (forall d' t', d' <> d -> GetMask d' t' s2 = GetMask d' t' s1).
Proof.
  intros Ht Hd Hon s1 s2. pose proof (run_masks (OpChanged code t) s) as M1. cbn [run masks_after] in M1.
  pose proof (run_masks (OpExchanged d code t CHANGE_LOCAL) s1) as M2. cbn [run masks_after] in M2.
  fold s1 in M1. fold s2 in M2. destruct (codes t (Low code)) as [st dy] eqn:Ec.
  rewrite bool_decide_eq_false_2 in M2 by done. cbn [negb andb changes_local] in M2.
  destruct M1 as [E1 _], M2 as [E2 _].
  assert (L1 : onLines_ s1 !! d = Some (or_mask st dy m)) by (by rewrite E1, lookup_fmap, Hon).
  assert (L2 : onLines_ s2 !! d = Some (clear_mask st dy (or_mask st dy m)))
    by (by rewrite E2, lookup_alter_eq, L1).
  unfold GetMask. split_and!.
  - rewrite L1. destruct t; cbn in Ec; simplify_eq; cbn; by rewrite Low_lor, Low_Low.
  - rewrite L2. destruct t; cbn in Ec; simplify_eq; cbn; f_equal; mask_bits.
  - intros t' Ht' Hne. rewrite L2, Hon. destruct t, t'; cbn in Ec; simplify_eq; cbn; f_equal;
      unfold clear; change (Z.lnot 0) with (-1); by rewrite Z.land_m1_r, Z.lor_0_r.
  - intros d' t' Hne. by rewrite E2, lookup_alter_ne.
Qed.

(** *** Levels only grow *)

(** The entries of the cache carry no device id. *)
Definition cached_blank (s : State) : Prop :=
  forall k m, peek k (matrices_ s) = Some m -> deviceId m = "".

Lemma GetMatrixMeta_blank d c s : cached_blank s ->
  cached_blank (GetMatrixMeta d c s).2 /\
  (c = false -> (GetMatrixMeta d c s).1.1 = true -> deviceId (GetMatrixMeta d c s).1.2 = "").
Proof.
  intros Hc. unfold GetMatrixMeta. destruct c.
  { destruct (LoadMeta _ _ _) as [[m|] db]; cbn; done. }
  pose proof (lru_get_result d (matrices_ s)) as Hr. pose proof (fun k => lru_get_peek d k (matrices_ s)) as Hp.
  destruct (lru_get d (matrices_ s)) as [r b]. cbn in Hr, Hp.
  assert (Hb : forall k m, peek k b = Some m -> deviceId m = "") by (intros k m Hk; rewrite Hp in Hk; by apply (Hc k)).
  destruct r as [m|]; cbn; [split; [done|]; intros _ _; by apply (Hc d)|].
  destruct (LoadMeta _ _ _) as [[m|] db]; cbn; [|done]. split; [|done].
  intros k m' Hk. cbn in Hk. revert k m' Hk. by apply (lru_set_inv (fun _ m => deviceId m = "")).
Qed.

Lemma adjust_level_spec new old :
  High (adjust_level new old).1 = Z.max (High new) (High old) /\
  (adjust_level new old).2 = (High old <? High new) /\
  (High old < High new -> Low (adjust_level new old).1 = 0x000F).
Proof.
  unfold adjust_level. pose proof (High_step new old) as Hs.
  destruct (Z.ltb_spec (High new) (High old)); cbn [fst snd].
  - rewrite High_lor. change (Z.land new 15) with (Low new). rewrite High_Low, High_High, Z.lor_0_l.
    split_and!; [lia| |lia]. symmetry. apply Z.ltb_ge. lia.
  - destruct (Z.ltb_spec 1 (High new - High old)); cbn [fst snd].
    + rewrite High_pending, Low_pending. split_and!; [lia| |done]. symmetry. apply Z.ltb_lt. lia.
    + split_and!; [lia| |lia]. symmetry. apply Z.ltb_ge. lia.
Qed.

(** When a broadcast of a known device is recorded, the new levels are always
    written, the level written is the larger of the received and the known one -
    so the recorded level never falls - and a received level above the known one
    marks all groups of stores as pending. *)
Lemma UpdateRemoteMeta_monotone device mask newMeta old s s0 :
  cached_blank s -> device <> "" -> deviceId newMeta = device ->
  GetMatrixMeta device false s = (true, old, s0) ->
  exists mask' saved ok db,
    UpdateRemoteMeta device mask newMeta s = (mask', upd_db db s0) /\
    SaveMeta (GetKey device) saved true (matrixDb s0) = (ok, db) /\
    High (m_dynamic saved) = Z.max (High (m_dynamic newMeta)) (High (m_dynamic old)) /\
    High (m_statics saved) = Z.max (High (m_statics newMeta)) (High (m_statics old)) /\
    (High (m_dynamic old) < High (m_dynamic newMeta) ->
     Low (dynamic mask') = 0x000F /\ Low (m_dynamic saved) = 0x000F) /\
    (High (m_statics old) < High (m_statics newMeta) ->
     Low (statics mask') = 0x000F /\ Low (m_statics saved) = 0x000F).
Proof.
  intros Hc Hd Hn Hg. destruct (GetMatrixMeta_blank device false s Hc) as [_ Hold].
  unfold UpdateRemoteMeta. rewrite Hg in *. specialize (Hold eq_refl eq_refl). cbn in Hold.
  assert (matrix_eqb old newMeta = false) as ->.
  { unfold matrix_eqb. rewrite (bool_decide_eq_false_2 (deviceId old = _)) by congruence.
    by rewrite andb_false_r. }
  cbn [andb]. destruct (adjust_level_spec (m_dynamic newMeta) (m_dynamic old)) as (D1 & D2 & D3).
  destruct (adjust_level_spec (m_statics newMeta) (m_statics old)) as (S1 & S2 & S3).
  destruct (adjust_level (m_dynamic newMeta) (m_dynamic old)) as [d dp].
  destruct (adjust_level (m_statics newMeta) (m_statics old)) as [st sp]. cbn [fst snd] in *.
  unfold SaveMatrix. cbn [deviceId set_levels]. rewrite Hn.
  set (saved := set_levels d st newMeta). destruct (SaveMeta (GetKey device) saved true (matrixDb s0)) as [ok db] eqn:Es.
  eexists _, saved, ok, db. split; [done|]. cbn [dynamic statics m_dynamic m_statics saved set_levels].
  split_and!; [done|done|done| |].
  - intros Hlt. rewrite D2, (proj2 (Z.ltb_lt _ _) Hlt). cbn [all_pending]. rewrite Low_pending. auto.
  - intros Hlt. rewrite S2, (proj2 (Z.ltb_lt _ _) Hlt). cbn [all_pending]. rewrite Low_pending. auto.
Qed.

(** The key of the consistent level is not the key of the received one. *)
Lemma keys_differ device : GetConsistentKey device <> GetKey device.
Proof.
  unfold GetConsistentKey, GetKey. rewrite !Constant.Join_cons. intros E.
  apply (f_equal size) in E. cbn [Constant.Join fold_left] in E. rewrite !size_app in E. cbn in E. lia.
Qed.

Lemma GetMatrixMeta_stored d c s : stored (matrixDb (GetMatrixMeta d c s).2) = stored (matrixDb s).
Proof.
  unfold GetMatrixMeta.
  destruct c; [|destruct (lru_get _ _) as [[m|] b]; [done|]];
    match goal with |- context [LoadMeta ?k ?l ?d] =>
      pose proof (LoadMeta_stored k l d) as Hs; destruct (LoadMeta k l d) as [[m|] db] end; cbn in *; done.
Qed.

Section Reliable.
(** A store whose loads do not fail transiently. *)
Context (reliable : forall k l d, (LoadMeta (V := MatrixMetaData) k l d).1 = stored d l k).

Lemma GetMatrixMeta_consistent d s :
  (GetMatrixMeta d true s).1 =
  match stored (matrixDb s) true (GetConsistentKey d) with
  | Some m => (true, m) | None => (false, set_device d default_matrix) end.
Proof.
  unfold GetMatrixMeta. pose proof (reliable (GetConsistentKey d) true (matrixDb s)) as Hr.
  destruct (LoadMeta _ _ _) as [r db]. cbn in Hr. subst r. by destruct (stored _ _ _).
Qed.

(** Recording an exchange never lowers the consistent level of a device, and
    raises the level of a type only when no change of that type is pending. *)
Lemma UpdateConsistentMeta_monotone device remote s c :
  stored (matrixDb s) true (GetConsistentKey device) = Some c -> deviceId c = device ->
  exists c', stored (matrixDb (UpdateConsistentMeta device remote s)) true (GetConsistentKey device) = Some c' /\
    High (m_dynamic c) <= High (m_dynamic c') /\ High (m_statics c) <= High (m_statics c') /\
    (Low (dynamic remote) <> 0 -> m_dynamic c' = m_dynamic c) /\
    (Low (statics remote) <> 0 -> m_statics c' = m_statics c).
Proof.
  intros Hc Hdev. unfold UpdateConsistentMeta.
  destruct (negb (Low (statics remote) =? 0) && negb (Low (dynamic remote) =? 0));
    [exists c; split_and!; done || lia|].
  pose proof (GetMatrixMeta_stored device false s) as Hs1.
  destruct (GetMatrixMeta device false s) as [[e meta] s1]. cbn in Hs1.
  set (p := if e then _ else _).
  assert (Hp : stored (matrixDb p.2) true (GetConsistentKey device) = Some c).
  { subst p. destruct e; cbn [snd]; [by rewrite Hs1|]. unfold SaveMatrix.
    match goal with |- context [SaveMeta ?k ?v ?l ?d] => destruct (SaveMeta k v l d) as [[] db] eqn:Es end; cbn [snd upd_db matrixDb].
    - rewrite (SaveMeta_ok _ _ _ _ _ Es), bool_decide_eq_false_2, Hs1; [done|]. intros [_ E].
      by apply keys_differ in E.
    - by rewrite (SaveMeta_fail _ _ _ _ _ Es), Hs1. }
  destruct p as [meta' s2]. cbn [snd] in Hp. pose proof (GetMatrixMeta_consistent device s2) as Hg.
  pose proof (GetMatrixMeta_stored device true s2) as Hs3. rewrite Hp in Hg.
  destruct (GetMatrixMeta device true s2) as [r s3]. cbn [fst snd] in Hg, Hs3. subst r. cbn [negb].
  unfold SaveMatrix. cbn [deviceId set_levels]. rewrite Hdev.
  match goal with |- context [SaveMeta ?k ?v ?l ?d] => destruct (SaveMeta k v l d) as [[] db] eqn:Es end; cbn [snd upd_db matrixDb].
  - rewrite (SaveMeta_ok _ _ _ _ _ Es), bool_decide_eq_true_2 by done. eexists. split; [done|].
    cbn [m_dynamic m_statics set_levels].
    destruct (Z.eqb_spec (Low (dynamic remote)) 0), (Z.eqb_spec (Low (statics remote)) 0); cbn [andb];
      split_and!; try done; try lia; case_if; bool_prop; lia || done.
  - rewrite (SaveMeta_fail _ _ _ _ _ Es), Hs3, Hp. exists c. split_and!; done || lia.
Qed.
End Reliable.

(** The level correction of [Broadcast] gives level 0 when a level lower than the
    last one is broadcast, where the last level was to be kept. *)
Lemma broadcast_level_lost level last :
  High level <> INVALID_HIGH -> High last <> INVALID_HIGH -> High level < High last ->
  High (broadcast_level level last) = 0.
Proof.
  intros B1 B2 B3. unfold broadcast_level. rewrite (proj2 (Z.eqb_neq _ _) B1), (proj2 (Z.eqb_neq _ _) B2).
  rewrite (proj2 (Z.ltb_lt _ _) B3). cbn [negb andb]. rewrite High_lor, High_High.
  change (Z.land level 15) with (Low level). by rewrite High_Low.
Qed.

End Props.

(** ** Witnesses *)

#[local] Existing Instances AssocLru MapMetaStore.

Abbreviation SampleState :=
  (State (H := MapMetaStore) (H0 := MapMetaStore) (H1 := AssocLru)).

Definition sample_state : SampleState :=
  mkState invalid_level false None true 1 "store" {[ "dev" := mkMask 0x12 0x10 ]} ∅ ∅
    ["meta"; "a"; "b"] ["c"; "d"] (mkAssoc 64 []) (mkAssoc 64 [])
    (<[(true, GetKey "dev") := mkMatrix 3 0x27 0x13 REMOTE_RECEIVED "dev" [] []]>
      {[ (true, GetConsistentKey "dev") := mkMatrix 3 0x17 0x13 REMOTE_CONSISTENT "dev" [] [] ]})
    ∅ [].

Lemma no_change_lost_witness :
  let os := [OpOffline "dev"; OpOnline "dev"; OpExchanged "other" 2 DYNAMIC CHANGE_ALL;
             OpExchanged "dev" 4 DYNAMIC CHANGE_ALL; OpOnline "dev"] in
  let s := runs "me" (fun t => Some t) None os sample_state in
  pending "dev" DYNAMIC 1 s /\ split_lines s.
Proof.
  intros os s. apply (no_change_lost "me" (fun t => Some t) None "dev" DYNAMIC 1 os sample_state).
  - lia.
  - reflexivity.
  - discriminate.
  - intros d. right. reflexivity.
  - exists (mkMask 0x12 0x10). split; [left|]; reflexivity.
  - vm_compute. reflexivity.
Defined.

Lemma OnChanged_OnExchanged_GetMask_witness :
  GetMask "dev" DYNAMIC (OnChanged "me" (fun t => Some t) None 0x0001 DYNAMIC sample_state) = (true, 0x0003).
Proof.
  refine (proj1 (OnChanged_OnExchanged_GetMask "me" (fun t => Some t) None 0x0001 DYNAMIC "dev"
    (mkMask 0x12 0x10) sample_state _ _ _)); [discriminate|discriminate|reflexivity].
Defined.

Lemma UpdateRemoteMeta_monotone_witness :
  exists mask' saved ok db,
    UpdateRemoteMeta "dev" (mkMask 0x31 0x10) (mkMatrix 0 0x31 0x10 REMOTE_RECEIVED "dev" [] []) sample_state
      = (mask', upd_db db (GetMatrixMeta "dev" false sample_state).2) /\
    SaveMeta (GetKey "dev") saved true (matrixDb sample_state) = (ok, db) /\
    High (m_dynamic saved) = 0x30.
Proof.
  destruct (UpdateRemoteMeta_monotone "dev" (mkMask 0x31 0x10) (mkMatrix 0 0x31 0x10 REMOTE_RECEIVED "dev" [] [])
    (mkMatrix 3 0x27 0x13 REMOTE_RECEIVED "" [] []) sample_state (GetMatrixMeta "dev" false sample_state).2)
    as (mask' & saved & ok & db & E1 & E2 & E3 & _).
  - intros k m. discriminate.
  - discriminate.
  - reflexivity.
  - reflexivity.
  - exists mask', saved, ok, db. split; [exact E1|]. split; [exact E2|exact E3].
Defined.

Lemma UpdateConsistentMeta_monotone_witness :
  exists c', stored (V := MatrixMetaData) (matrixDb (UpdateConsistentMeta "dev" (mkMask 0x20 0x11) sample_state))
    true (GetConsistentKey "dev") = Some c' /\ 0x10 <= High (m_dynamic c') /\ m_statics c' = 0x13.
Proof.
  destruct (UpdateConsistentMeta_monotone (H := MapMetaStore) (H1 := AssocLru) (fun k l d => eq_refl) "dev" (mkMask 0x20 0x11) sample_state
    (mkMatrix 3 0x17 0x13 REMOTE_CONSISTENT "dev" [] [])) as (c' & E1 & E2 & _ & _ & E5).
  - reflexivity.
  - reflexivity.
  - exists c'. split; [exact E1|]. split; [exact E2|]. apply E5. discriminate.
Defined.

End DeviceMatrix.
