(* ===== verification/AssetMachine.v ===== *)
(** * Bound assets of distributed objects
      ([service/object/src/object_asset_machine.cpp], [object_snapshot.cpp],
      [object_asset_loader.cpp])

    An asset bound to a row of a store is driven by a table of transitions: changes
    of other devices are transferred, synchronisations with the cloud that meet a
    transfer are deferred. The machine changes the record of the asset and asks
    for effects: transfers to start and bind events to post; both are recorded in
    order. *)

From S2P Require Import Prelude CppString.

Module AssetMachine.

(* @src framework/include/store/general_value.h 65-93 Asset *)
Record Asset := mkAsset {
  a_version : Z; a_status : Z; expiresTime : Z; a_id : string; name : string; uri : string;
  createTime : string; modifyTime : string; a_size : string; hash : string; path : string; extension : string
}.
#[export] Instance Asset_eq_dec : EqDecision Asset.
Proof. solve_decision. Defined.

Definition ASSET_STATUS_NORMAL : Z := 1.
Definition set_status (st : Z) (a : Asset) : Asset :=
  mkAsset (a_version a) st (expiresTime a) (a_id a) (name a) (uri a) (createTime a) (modifyTime a)
    (a_size a) (hash a) (path a) (extension a).

(** A column value; the machine does not look into the scalar alternatives. *)
Inductive Value : Type :=
| VNull
| VScalar (repr : string)
| VAsset (a : Asset)
| VAssets (l : list Asset).

(* @src framework/include/snapshot/machine_status.h 24-34 TransferStatus *)
Inductive TransferStatus : Type :=
| STATUS_STABLE | STATUS_TRANSFERRING | STATUS_DOWNLOADING | STATUS_UPLOADING
| STATUS_WAIT_TRANSFER | STATUS_WAIT_UPLOAD | STATUS_WAIT_DOWNLOAD | STATUS_BUTT.
#[export] Instance TransferStatus_eq_dec : EqDecision TransferStatus.
Proof. solve_decision. Defined.

(* @src framework/include/snapshot/machine_status.h 36-44 AssetEvent *)
Inductive AssetEvent : Type :=
| REMOTE_CHANGED | TRANSFER_FINISHED | UPLOAD | UPLOAD_FINISHED | DOWNLOAD | DOWNLOAD_FINISHED | EVENT_BUTT.

(** The primary key is a map in the source; its entries come in key order. *)
(* @src framework/include/snapshot/machine_status.h 46-52 AssetBindInfo *)
Record AssetBindInfo := mkBind {
  storeName : string; tableName : string; primaryKey : list (string * Value); field : string;
  assetName : string
}.

(* @src framework/include/store/store_info.h 22-31 StoreInfo *)
Record StoreInfo := mkStoreInfo {
  tokenId : Z; bundleName : string; si_storeName : string; instanceId : Z; user : Z; si_deviceId : string;
  syncId : Z; si_path : string
}.

(* @src service/object/include/object_asset_machine.h 26-40 ChangedAssetInfo *)
Record ChangedAssetInfo := mkInfo {
  deviceId : string; asset : Asset; status : TransferStatus; bindInfo : AssetBindInfo; storeInfo : StoreInfo
}.
Definition with_status (st : TransferStatus) (i : ChangedAssetInfo) : ChangedAssetInfo :=
  mkInfo (deviceId i) (asset i) st (bindInfo i) (storeInfo i).
Definition with_asset (d : string) (a : Asset) (i : ChangedAssetInfo) : ChangedAssetInfo :=
  mkInfo d a (status i) (bindInfo i) (storeInfo i).

Inductive BindEventId : Type := COMPENSATE_SYNC | RECOVER_SYNC.
Record BindEventInfo := mkEvent {
  e_bundleName : string; e_user : Z; e_tokenId : Z; e_instanceId : Z; e_storeName : string;
  e_tableName : string; e_filed : string; e_primaryKey : list (string * Value); e_assetName : string
}.

(* @src service/object/src/object_asset_machine.cpp 351-364 MakeBindInfo *)
Definition MakeBindInfo (i : ChangedAssetInfo) : BindEventInfo :=
  mkEvent (bundleName (storeInfo i)) (user (storeInfo i)) (tokenId (storeInfo i)) (instanceId (storeInfo i))
    (storeName (bindInfo i)) (tableName (bindInfo i)) (field (bindInfo i)) (primaryKey (bindInfo i))
    (assetName (bindInfo i)).

(** Effects, latest first. *)
Inductive Effect : Type :=
| Transfer (user : Z) (bundle device : string) (a : Asset)
| PostBind (id : BindEventId) (info : BindEventInfo).

Inductive Action : Type :=
| DoTransfer | ChangeAssetToNormal | CompensateSync | CompensateTransferring | SaveNewAsset | Recover.

(** An entry of the table: the next status ([None]: STATUS_NO_CHANGE) and the
    action after the change; no entry has an action before it. *)
Record DFAAction := mkDFA { next : option TransferStatus; after : option Action }.

(* @src service/object/src/object_asset_machine.cpp 67-131 AssetDFA *)
Definition AssetDFA (s : TransferStatus) (e : AssetEvent) : DFAAction :=
  let recover := mkDFA None (Some Recover) in
  let save := mkDFA (Some STATUS_WAIT_TRANSFER) (Some SaveNewAsset) in
  let wait_upload := mkDFA (Some STATUS_WAIT_UPLOAD) (Some ChangeAssetToNormal) in
  let wait_download := mkDFA (Some STATUS_WAIT_DOWNLOAD) (Some ChangeAssetToNormal) in
  let compensate := mkDFA (Some STATUS_STABLE) (Some CompensateTransferring) in
  match s with
  | STATUS_STABLE =>
      match e with
      | REMOTE_CHANGED => mkDFA (Some STATUS_TRANSFERRING) (Some DoTransfer)
      | UPLOAD => mkDFA (Some STATUS_UPLOADING) None
      | DOWNLOAD => mkDFA (Some STATUS_DOWNLOADING) None
      | _ => recover
      end
  | STATUS_TRANSFERRING =>
      match e with
      | REMOTE_CHANGED => save
      | TRANSFER_FINISHED => mkDFA (Some STATUS_STABLE) None
      | UPLOAD => wait_upload
      | DOWNLOAD => wait_download
      | _ => recover
      end
  | STATUS_DOWNLOADING =>
      match e with
      | REMOTE_CHANGED => save
      | DOWNLOAD_FINISHED => mkDFA (Some STATUS_STABLE) None
      | _ => recover
      end
  | STATUS_UPLOADING =>
      match e with
      | REMOTE_CHANGED => save
      | UPLOAD_FINISHED => mkDFA (Some STATUS_STABLE) None
      | _ => recover
      end
  | STATUS_WAIT_TRANSFER =>
      match e with
      | REMOTE_CHANGED => save
      | UPLOAD => wait_upload
      | DOWNLOAD => wait_download
      | _ => compensate
      end
  | _ =>
      match e with
      | REMOTE_CHANGED => save
      | TRANSFER_FINISHED => mkDFA (Some STATUS_STABLE) (Some CompensateSync)
      | UPLOAD => wait_upload
      | DOWNLOAD => wait_download
      | _ => recover
      end
  end.

Inductive GeneralError : Type := E_OK | E_ERROR.

(** The record of the asset, the caller's asset, the effects. No event that ends
    in a nested call changes the caller's asset, so the alias the nested call
    passes for it is not visible. *)
Record M := mkM { info : ChangedAssetInfo; arg : Asset; effects : list Effect }.

Definition emit (e : Effect) (m : M) : M := mkM (info m) (arg m) (e :: effects m).

(** The fuel bounds the nesting of [DFAPostEvent] through [CompensateTransferring];
    two levels are enough ([DFAPostEvent_total]). *)
(* @src service/object/src/object_asset_machine.cpp 133-160 ObjectAssetMachine::DFAPostEvent *)
Fixpoint PostEvent (fuel : nat) (eventId : AssetEvent) (m : M) (newAsset : string * Asset)
    : option (GeneralError * M) :=
  match fuel with
  | O => None
  | S fuel =>
      match eventId, status (info m) with
      | EVENT_BUTT, _ | _, STATUS_BUTT => Some (E_ERROR, m)
      | _, _ =>
          let action := AssetDFA (status (info m)) eventId in
          let m := match next action with
                   | Some st => mkM (with_status st (info m)) (arg m) (effects m)
                   | None => m
                   end in
          match after action with
          | None => Some (E_OK, m)
          | Some DoTransfer =>
              let i := with_asset newAsset.1 newAsset.2 (info m) in
              Some (E_OK, emit (Transfer (user (storeInfo i)) (bundleName (storeInfo i)) (deviceId i) (asset i))
                            (mkM i (arg m) (effects m)))
          | Some ChangeAssetToNormal => Some (E_OK, mkM (info m) (set_status ASSET_STATUS_NORMAL (arg m)) (effects m))
          | Some CompensateSync => Some (E_OK, emit (PostBind COMPENSATE_SYNC (MakeBindInfo (info m))) m)
          | Some CompensateTransferring =>
              '(res, m) ← PostEvent fuel REMOTE_CHANGED m (deviceId (info m), asset (info m));
              Some (res, m)
          | Some SaveNewAsset => Some (E_OK, mkM (with_asset newAsset.1 newAsset.2 (info m)) (arg m) (effects m))
          | Some Recover =>
              Some (E_OK, emit (PostBind RECOVER_SYNC (MakeBindInfo (info m)))
                            (mkM (with_status STATUS_STABLE (info m)) (arg m) (effects m)))
          end
      end
  end.

Definition no_asset : string * Asset := ("", mkAsset 0 0 0 "" "" "" "" "" "" "" "" "").

Definition DFAPostEvent (eventId : AssetEvent) (m : M) (newAsset : string * Asset) : GeneralError * M :=
  default (E_ERROR, m) (PostEvent 2 eventId m newAsset).

(** ** Writing a transferred asset back *)

(* @src service/object/src/object_asset_machine.cpp 280-289 MergeAsset *)
Definition MergeAsset (oldAsset newAsset : Asset) : Asset :=
  mkAsset (a_version oldAsset) (a_status oldAsset) (expiresTime oldAsset) (a_id oldAsset) (name newAsset)
    (uri newAsset) (createTime newAsset) (modifyTime newAsset) (a_size newAsset) (hash newAsset)
    (path newAsset) (extension oldAsset).

(** The loop over the assets of a field. *)
Fixpoint MergeAssets (l : list Asset) (newAsset : Asset) : list Asset :=
  match l with
  | [] => [newAsset]
  | a :: l => if bool_decide (name a = name newAsset) then MergeAsset a newAsset :: l else a :: MergeAssets l newAsset
  end.

Definition VBucket : Type := gmap string Value.

(* @src service/object/src/object_asset_machine.cpp 241-278 MergeAssetData *)
Definition MergeAssetData (record : VBucket) (newAsset : Asset) (b : AssetBindInfo) : VBucket :=
  let record := fold_left (fun r kv => <[kv.1 := kv.2]> r) (primaryKey b) record in
  match record !! field b with
  | None => record
  | Some VNull => <[field b := VAssets [newAsset]]> record
  | Some (VAsset a) => record      (* another asset, or the same one: nothing is written *)
  | Some (VAssets l) => <[field b := VAssets (MergeAssets l newAsset)]> record
  | Some (VScalar _) => record
  end.

Definition SQL_AND : string := " = ? and ".
Definition AND_SIZE : nat := 5.

(* @src service/object/src/object_asset_machine.cpp 229-239 BuildSql *)
Definition BuildSql (b : AssetBindInfo) : string * list Value :=
  let sql := "SELECT " +:+ field b +:+ " FROM " +:+ tableName b +:+ " WHERE " in
  let sql := fold_left (fun sql kv => sql +:+ kv.1 +:+ SQL_AND) (primaryKey b) sql in
  (substr sql 0 (size sql - AND_SIZE), (primaryKey b).*2).

(** A cursor: the count it reports, whether it can be moved to the first row, and
    the rows ([None]: the row cannot be read). *)
Record Cursor := mkCursor { count : Z; first_ok : bool; rows : list (option VBucket) }.

(** The [while] loop over the rows. *)
Fixpoint ReadRows (rs : list (option VBucket)) (n : nat) (newAsset : Asset) (b : AssetBindInfo) : list VBucket :=
  match n, rs with
  | S n, Some row :: rs => MergeAssetData row newAsset b :: ReadRows rs n newAsset b
  | _, _ => []
  end.

(* @src service/object/src/object_asset_machine.cpp 200-227 GetMigratedData *)
Definition GetMigratedData (Query : string -> string -> list Value -> option Cursor) (b : AssetBindInfo)
    (newAsset : Asset) : list VBucket :=
  let '(sql, args) := BuildSql b in
  match Query (tableName b) sql args with
  | None => []
  | Some c =>
      if negb (count c =? 1) then []
      else if first_ok c then ReadRows (rows c) (Z.to_nat (count c)) newAsset b else []
  end.

(** The store of the asset, if it is found: its query and its merge operation. *)
(* @src service/object/src/object_asset_machine.cpp 185-198 UpdateStore *)
Definition UpdateStore (store : option (string -> string -> list Value -> option Cursor))
    (Merge : string -> list VBucket -> GeneralError) (i : ChangedAssetInfo) : GeneralError :=
  match store with
  | None => E_ERROR
  | Some q =>
      match GetMigratedData q (bindInfo i) (asset i) with
      | [] => E_OK
      | vs => Merge (tableName (bindInfo i)) vs
      end
  end.

(** ** The snapshot: the bound assets by their uri *)

Record Snapshot := mkSnap { changedAssets_ : gmap string ChangedAssetInfo; effects_ : list Effect }.

(* @src service/object/src/object_snapshot.cpp 34-41 ObjectSnapshot::IsBoundAsset *)
Definition IsBoundAsset (a : Asset) (s : Snapshot) : bool := bool_decide (is_Some (changedAssets_ s !! uri a)).

(** The record is looked up by the uri the caller's asset has on entry. *)
Definition Post (e : AssetEvent) (a : Asset) (newAsset : string * Asset) (s : Snapshot)
    : GeneralError * Asset * Snapshot :=
  match changedAssets_ s !! uri a with
  | None => (E_OK, a, s)
  | Some i =>
      let '(res, m) := DFAPostEvent e (mkM i a (effects_ s)) newAsset in
      (res, arg m, mkSnap (<[uri a := info m]> (changedAssets_ s)) (effects m))
  end.

(* @src service/object/src/object_snapshot.cpp 26-32 ObjectSnapshot::Upload *)
Definition Upload (a : Asset) := Post UPLOAD a no_asset.
(* @src service/object/src/object_snapshot.cpp 43-49 ObjectSnapshot::Download *)
Definition Download (a : Asset) := Post DOWNLOAD a no_asset.
(* @src service/object/src/object_snapshot.cpp 59-65 ObjectSnapshot::Uploaded *)
Definition Uploaded (a : Asset) := Post UPLOAD_FINISHED a no_asset.
(* @src service/object/src/object_snapshot.cpp 67-73 ObjectSnapshot::Downloaded *)
Definition Downloaded (a : Asset) := Post DOWNLOAD_FINISHED a no_asset.
(* @src service/object/src/object_snapshot.cpp 95-101 ObjectSnapshot::Transferred *)
Definition Transferred (a : Asset) := Post TRANSFER_FINISHED a no_asset.
(* @src service/object/src/object_snapshot.cpp 75-82 ObjectSnapshot::OnDataChanged *)
Definition OnDataChanged (a : Asset) (device : string) := Post REMOTE_CHANGED a (device, a).
(* @src service/object/src/object_snapshot.cpp 51-57 ObjectSnapshot::GetAssetStatus *)
Definition GetAssetStatus (a : Asset) (s : Snapshot) : TransferStatus :=
  match changedAssets_ s !! uri a with Some i => status i | None => STATUS_BUTT end.

(* @src service/object/src/object_snapshot.cpp 84-93 ObjectSnapshot::BindAsset *)
Definition BindAsset (a : Asset) (b : AssetBindInfo) (si : StoreInfo) (s : Snapshot) : Snapshot :=
  if IsBoundAsset a s then s
  else mkSnap (<[uri a := mkInfo "" a STATUS_STABLE b si]> (changedAssets_ s)) (effects_ s).

(** The callback of a transfer: the store is updated when it has succeeded; its
    result is only logged. *)
(* @src service/object/src/object_asset_machine.cpp 162-183 DoTransfer *)
Definition TransferCallback (u : string) (s : Snapshot) : Snapshot :=
  match changedAssets_ s !! u with
  | None => s
  | Some i =>
      let '(_, m) := DFAPostEvent TRANSFER_FINISHED (mkM i (asset i) (effects_ s)) no_asset in
      mkSnap (<[u := info m]> (changedAssets_ s)) (effects m)
  end.

(** ** The transition function *)

Lemma PostEvent_total e m new : is_Some (PostEvent 2 e m new).
Proof. destruct m as [[d a st b si] arg eff]. by destruct e, st. Qed.

(** Evaluates an event in a record whose status is known. *)
Ltac dfa := unfold DFAPostEvent; cbn; try done.

(** An event never gets stuck: within two nested calls the machine returns.
    It reports an error exactly for an invalid event or status; otherwise the
    status stays a valid one, and the binding and the store of the record never
    change. *)
Lemma DFAPostEvent_total e m new :
  is_Some (PostEvent 2 e m new) /\
  let '(res, m') := DFAPostEvent e m new in
  (res = E_ERROR <-> e = EVENT_BUTT \/ status (info m) = STATUS_BUTT) /\
  (status (info m) <> STATUS_BUTT -> status (info m') <> STATUS_BUTT) /\
  bindInfo (info m') = bindInfo (info m) /\ storeInfo (info m') = storeInfo (info m).
Proof.
  split; [apply PostEvent_total|]. destruct m as [[d a st b si] arg eff].
  destruct e, st; dfa; split_and!; try done; naive_solver.
Qed.

(** The transfer a record asks for. *)
Definition transfer_of (i : ChangedAssetInfo) : Effect :=
  Transfer (user (storeInfo i)) (bundleName (storeInfo i)) (deviceId i) (asset i).

(** A change of another device is never dropped. It is stored in the record;
    when the asset is stable its transfer starts at once, otherwise the machine
    waits, and whichever of the running operations finishes next starts the
    transfer of exactly the change that was stored last. *)
Lemma remote_change_kept m dev a fin :
  status (info m) <> STATUS_BUTT ->
  In fin [TRANSFER_FINISHED; UPLOAD_FINISHED; DOWNLOAD_FINISHED] ->
  let '(res, m1) := DFAPostEvent REMOTE_CHANGED m (dev, a) in
  res = E_OK /\ deviceId (info m1) = dev /\ asset (info m1) = a /\
  if bool_decide (status (info m) = STATUS_STABLE) then
    status (info m1) = STATUS_TRANSFERRING /\ effects m1 = transfer_of (info m1) :: effects m
  else
    status (info m1) = STATUS_WAIT_TRANSFER /\ effects m1 = effects m /\
    let '(res2, m2) := DFAPostEvent fin m1 no_asset in
    res2 = E_OK /\ status (info m2) = STATUS_TRANSFERRING /\ effects m2 = transfer_of (info m1) :: effects m1.
Proof.
  intros Hv Hfin. destruct m as [[d a0 st b si] arg eff]. cbn in Hv.
  destruct st; try (by destruct (Hv eq_refl)); destruct Hfin as [<-|[<-|[<-|[]]]]; vm_compute; repeat split.
Qed.


(** ** The bound assets *)

Inductive step : Snapshot -> Snapshot -> Prop :=
| step_bind a b si s : step s (BindAsset a b si s)
| step_upload a s : step s (Upload a s).2
| step_download a s : step s (Download a s).2
| step_uploaded a s : step s (Uploaded a s).2
| step_downloaded a s : step s (Downloaded a s).2
| step_transferred a s : step s (Transferred a s).2
| step_changed a d s : step s (OnDataChanged a d s).2
| step_callback u s : step s (TransferCallback u s).

(** Every record is valid and describes the asset it is filed under. *)
Definition valid (s : Snapshot) : Prop :=
  forall u i, changedAssets_ s !! u = Some i -> status i <> STATUS_BUTT /\ uri (asset i) = u.

Lemma DFAPostEvent_valid e m new u :
  status (info m) <> STATUS_BUTT -> uri (asset (info m)) = u -> (e = REMOTE_CHANGED -> uri new.2 = u) ->
  status (info (DFAPostEvent e m new).2) <> STATUS_BUTT /\ uri (asset (info (DFAPostEvent e m new).2)) = u.
Proof.
  destruct m as [[d a st b si] arg eff]. intros Hs Hu Hn. cbn in Hs, Hu. subst u.
  destruct st; try (by destruct (Hs eq_refl)); destruct e; vm_compute; split; first [discriminate|by apply Hn|reflexivity].
Qed.

Lemma insert_valid s u i effs :
  valid s -> status i <> STATUS_BUTT /\ uri (asset i) = u ->
  valid (mkSnap (<[u := i]> (changedAssets_ s)) effs).
Proof.
  intros Hs Hi u' i'. cbn. destruct (decide (u' = u)) as [->|Hne].
  - rewrite lookup_insert_eq. by intros [= <-].
  - rewrite lookup_insert_ne by done. apply Hs.
Qed.

Lemma Post_valid e a new s : valid s -> (e = REMOTE_CHANGED -> uri new.2 = uri a) -> valid (Post e a new s).2.
Proof.
  intros Hs Hn. unfold Post. destruct (changedAssets_ s !! uri a) as [i|] eqn:E; [|done].
  destruct (Hs _ _ E) as [H1 H2].
  pose proof (DFAPostEvent_valid e (mkM i a (effects_ s)) new (uri a) H1 H2 Hn) as Hv.
  destruct (DFAPostEvent _ _ _) as [res m]. by apply insert_valid.
Qed.

Lemma step_valid s s' : valid s -> step s s' -> valid s'.
Proof.
  intros Hs Hst. destruct Hst; try (by apply Post_valid).
  - unfold BindAsset. case_if; [done|]. by apply insert_valid.
  - unfold TransferCallback. destruct (changedAssets_ s !! u) as [i|] eqn:E; [|done].
    destruct (Hs _ _ E) as [H1 H2].
    pose proof (DFAPostEvent_valid TRANSFER_FINISHED (mkM i (asset i) (effects_ s)) no_asset u H1 H2) as Hv.
    destruct (DFAPostEvent _ _ _) as [res m]. apply insert_valid; [done|]. by apply Hv.
Qed.

(** In every snapshot reachable from the empty one each record has a valid
    status and belongs to the uri it is filed under, so no operation on a bound
    asset is ever refused by the machine. *)
Lemma snapshot_never_refused s e a new :
  reachable (fun x => x = mkSnap ∅ []) step s -> e <> EVENT_BUTT ->
  valid s /\ (Post e a new s).1.1 = E_OK.
Proof.
  intros Hr He. assert (Hv : valid s).
  { eapply (reachable_invariant _ _ valid); [|apply step_valid|exact Hr]. intros x -> u i Hi. cbn in Hi.
    by rewrite lookup_empty in Hi. }
  split; [done|]. unfold Post. destruct (changedAssets_ s !! uri a) as [i|] eqn:E; [|done].
  destruct (Hv _ _ E) as [H1 _]. destruct i as [d a0 st b si]. cbn in H1. destruct e, st; dfa.
Qed.

(** ** Merging *)

(** Merging a transferred asset into the assets of a field replaces the data
    of the first asset of that name in place, keeping its identity and status, and
    leaves all others as they are; without such an asset it is appended. *)
Lemma MergeAssets_spec l new :
  match list_find (fun a => name a = name new) l with
  | Some (i, old) => MergeAssets l new = <[i := MergeAsset old new]> l
  | None => MergeAssets l new = l ++ [new]
  end /\
  (exists a, In a (MergeAssets l new) /\ name a = name new /\ hash a = hash new /\ uri a = uri new).
Proof.
  induction l as [|a l [IH1 IH2]]; cbn; [split; [done|]; exists new; auto|].
  case_bool_decide as Hn.
  - rewrite decide_True by done. cbn. split; [done|]. exists (MergeAsset a new). auto.
  - rewrite decide_False by done. split.
    + destruct (list_find _ l) as [[i old]|]; cbn; by rewrite IH1.
    + destruct IH2 as (x & Hx & ?). exists x. cbn. auto.
Qed.

(** The condition the query is meant to have. *)
Fixpoint conditions (keys : list string) : string :=
  match keys with
  | [] => ""
  | k :: keys => match keys with [] => k +:+ " = ?" | _ => k +:+ " = ?" +:+ " and " +:+ conditions keys end
  end.

Lemma fold_conditions keys sql : keys <> [] ->
  fold_left (fun sql (kv : string * Value) => sql +:+ kv.1 +:+ SQL_AND) keys sql
  = (sql +:+ conditions keys.*1) +:+ " and ".
Proof.
  revert sql. induction keys as [|[k v] keys IH]; intros sql Hne; [done|].
  destruct keys as [|kv keys].
  - cbn [fold_left fmap list_fmap fst conditions]. by rewrite !string_app_assoc.
  - etrans; [apply (IH (sql +:+ k +:+ SQL_AND)); done|].
    change ((k, v) :: kv :: keys).*1 with (k :: (kv :: keys).*1). cbn [conditions].
    destruct ((kv :: keys).*1) eqn:E; [done|]. by rewrite !string_app_assoc.
Qed.

Lemma substr_drop_suffix a b : substr (a +:+ b) 0 (size (a +:+ b) - size b) = a.
Proof.
  unfold substr. rewrite size_app, drop_0, chars_app.
  rewrite take_app_len; [apply str_of_chars|unfold size; lia].
Qed.

(** For an asset bound to a row with a primary key the query selects the bound
    field under the conjunction of its key columns, with one argument per column
    in the same order. *)
Lemma BuildSql_spec b : primaryKey b <> [] ->
  BuildSql b = ("SELECT " +:+ field b +:+ " FROM " +:+ tableName b +:+ " WHERE " +:+ conditions (primaryKey b).*1,
                (primaryKey b).*2) /\
  length (BuildSql b).2 = length (primaryKey b).
Proof.
  intros Hne. unfold BuildSql. rewrite fold_conditions by done. split; [|apply length_fmap].
  f_equal. change AND_SIZE with (size " and "). rewrite substr_drop_suffix. by rewrite !string_app_assoc.
Qed.

(** *** Witnesses *)

Definition sample_asset (n h : string) : Asset := mkAsset 0 2 0 "id" n ("uri/" +:+ n) "" "" "10" h "" "".
Definition sample_bind : AssetBindInfo := mkBind "store" "tbl" [("id", VScalar "7"); ("k", VScalar "8")] "files" "a".
Definition sample_info (st : TransferStatus) : ChangedAssetInfo :=
  mkInfo "" (sample_asset "a" "h0") st sample_bind (mkStoreInfo 1 "app" "store" 0 100 "" 0 "").
Definition sample_m (st : TransferStatus) : M := mkM (sample_info st) (sample_asset "a" "h0") [].

Lemma BuildSql_spec_witness : (BuildSql sample_bind).1 = "SELECT files FROM tbl WHERE id = ? and k = ?".
Proof. refine (eq_trans (f_equal fst (proj1 (BuildSql_spec sample_bind _))) _); [discriminate|reflexivity]. Defined.

Lemma remote_change_kept_witness :
  let m1 := (DFAPostEvent REMOTE_CHANGED (sample_m STATUS_UPLOADING) ("peer", sample_asset "a" "h1")).2 in
  asset (info m1) = sample_asset "a" "h1" /\
  effects (DFAPostEvent UPLOAD_FINISHED m1 no_asset).2 = [transfer_of (info m1)].
Proof.
  intros m1. pose proof (remote_change_kept (sample_m STATUS_UPLOADING) "peer" (sample_asset "a" "h1") UPLOAD_FINISHED)
    as Hk. destruct Hk as (_ & _ & Ha & _ & _ & _ & _ & He); [discriminate|right; left; reflexivity|].
  split; [exact Ha|exact He].
Defined.


Lemma snapshot_never_refused_witness :
  let s := BindAsset (sample_asset "a" "h0") sample_bind (mkStoreInfo 1 "app" "store" 0 100 "" 0 "") (mkSnap ∅ []) in
  (Post UPLOAD (sample_asset "a" "h0") no_asset s).1.1 = E_OK.
Proof.
  intros s. refine (proj2 (snapshot_never_refused s UPLOAD (sample_asset "a" "h0") no_asset _ _)); [|discriminate].
  eapply reach_step; [apply reach_init; reflexivity|apply step_bind].
Defined.

(** A field that holds a single asset is not updated when that asset is
    transferred: only lists of assets are merged. *)
Lemma single_asset_not_merged record a new b :
  primaryKey b = [] -> record !! field b = Some (VAsset a) -> name a = name new ->
  MergeAssetData record new b = record.
Proof. intros Hp Hf _. unfold MergeAssetData. rewrite Hp. cbn. by rewrite Hf. Qed.

(** Without a primary key the query is cut in the middle of its last keyword. *)
Lemma BuildSql_no_key :
  BuildSql (mkBind "store" "tbl" [] "files" "a") = ("SELECT files FROM tbl W", []).
Proof. reflexivity. Qed.

End AssetMachine.
