(* ===== verification/AssetLoader.v ===== *)
(** * Loading assets ([service/object/src/object_asset_loader.cpp])

    A request to transfer assets becomes a task with the set of uris that are
    still missing and a callback; jobs on the thread pool transfer the assets and
    finish the tasks. The calls of callbacks are recorded in order; a callback is
    known by a number. The transfer itself is a parameter. *)

From S2P Require Import Prelude AssetMachine.
Import AssetMachine.

Module AssetLoader.

Definition LAST_DOWNLOAD_ASSET_SIZE : nat := 200.

(* @src service/object/include/object_asset_loader.h 31-35 TransferTask *)
Record TransferTask := mkTask { downloadAssets : gset string; callback : nat }.

(* @src service/object/include/object_asset_loader.h 44-74 ObjectAssetLoader *)
Record Loader := mkLoader {
  executors_ : bool;
  taskSeq_ : Z;
  assetQueue_ : list string;
  tasks_ : list (Z * TransferTask);
  downloaded_ : gmap string string;
  downloading_ : gmap string string;
  called : list (nat * bool)
}.

Definition set_tasks ts cs (s : Loader) : Loader :=
  mkLoader (executors_ s) (taskSeq_ s) (assetQueue_ s) ts (downloaded_ s) (downloading_ s) cs.
Definition set_downloading d (s : Loader) : Loader :=
  mkLoader (executors_ s) (taskSeq_ s) (assetQueue_ s) (tasks_ s) (downloaded_ s) d (called s).
Definition set_downloaded q d (s : Loader) : Loader :=
  mkLoader (executors_ s) (taskSeq_ s) q (tasks_ s) d (downloading_ s) (called s).

(** [ComputeIfAbsent] with a constant value. *)
Definition insert_absent (k v : string) (m : gmap string string) : gmap string string :=
  match m !! k with Some _ => m | None => <[k := v]> m end.

(* @src service/object/src/object_asset_loader.cpp 129-137 ObjectAssetLoader::IsDownloading *)
Definition IsDownloading (a : Asset) (s : Loader) : bool := bool_decide (downloading_ s !! uri a = Some (hash a)).
(* @src service/object/src/object_asset_loader.cpp 139-147 ObjectAssetLoader::IsDownloaded *)
Definition IsDownloaded (a : Asset) (s : Loader) : bool := bool_decide (downloaded_ s !! uri a = Some (hash a)).

(* @src service/object/src/object_asset_loader.cpp 116-127 ObjectAssetLoader::UpdateDownloaded *)
Definition UpdateDownloaded (a : Asset) (s : Loader) : Loader :=
  let d := insert_absent (uri a) (hash a) (downloaded_ s) in
  let q := assetQueue_ s ++ [uri a] in
  if (LAST_DOWNLOAD_ASSET_SIZE <? length q)%nat then
    match q with
    | oldAsset :: q => set_downloaded q (delete oldAsset d) s
    | [] => set_downloaded q d s
    end
  else set_downloaded q d s.

Definition erase (u : string) (t : Z * TransferTask) : Z * TransferTask :=
  (t.1, mkTask (downloadAssets t.2 ∖ {[u]}) (callback t.2)).
Definition finished (t : Z * TransferTask) : bool := bool_decide (downloadAssets t.2 = ∅).

(* @src service/object/src/object_asset_loader.cpp 100-114 ObjectAssetLoader::FinishTask *)
Definition FinishTask (u : string) (result : bool) (s : Loader) : Loader :=
  let ts := erase u <$> tasks_ s in
  set_tasks (filter (fun t => finished t = false) ts)
    (called s ++ ((fun t => (callback t.2, result)) <$> filter (fun t => finished t = true) ts)) s.

(** The synchronous part of a request: the new state and the job it submits. *)
(* @src service/object/src/object_asset_loader.cpp 49-98 ObjectAssetLoader::TransferAssetsAsync *)
Definition TransferAssetsAsync (assets : list Asset) (cb : nat) (s : Loader) : Loader * option (list Asset) :=
  if negb (executors_ s) then (set_tasks (tasks_ s) (called s ++ [(cb, false)]) s, None)
  else
    let downloadAssets := filter (fun a => IsDownloaded a s = false) assets in
    let uris : gset string := list_to_set (uri <$> downloadAssets) in
    let s := if bool_decide (uris = ∅) then set_tasks (tasks_ s) (called s ++ [(cb, true)]) s else s in
    let seq := u32 (taskSeq_ s + 1) in
    let ts := if bool_decide (seq ∈ (tasks_ s).*1) then tasks_ s else tasks_ s ++ [(seq, mkTask uris cb)] in
    (mkLoader (executors_ s) seq (assetQueue_ s) ts (downloaded_ s) (downloading_ s) (called s),
     Some downloadAssets).

Section Job.
Context (Transfer : Asset -> bool).

(** One round of the job's loop, with the accumulated result. *)
Definition JobAsset (rs : bool * Loader) (a : Asset) : bool * Loader :=
  let '(result, s) := rs in
  if IsDownloaded a s then (result, FinishTask (uri a) result s)
  else if IsDownloading a s then (result, s)
  else
    let s := set_downloading (insert_absent (uri a) (hash a) (downloading_ s)) s in
    let success := Transfer a in
    let s := set_downloading (delete (uri a) (downloading_ s)) s in
    let s := if success then UpdateDownloaded a s else s in
    let result := result && success in
    (result, FinishTask (uri a) result s).

Definition RunJob (assets : list Asset) (s : Loader) : Loader := (fold_left JobAsset assets (true, s)).2.

(** ** The memory of downloaded assets is bounded *)

Definition bounded (s : Loader) : Prop :=
  (length (assetQueue_ s) <= LAST_DOWNLOAD_ASSET_SIZE)%nat /\
  forall u, is_Some (downloaded_ s !! u) -> u ∈ assetQueue_ s.

Lemma insert_absent_Some k v m u : is_Some (insert_absent k v m !! u) -> u = k \/ is_Some (m !! u).
Proof.
  unfold insert_absent. destruct (m !! k) eqn:E; [by right|].
  destruct (decide (u = k)) as [->|Hne]; [by left|]. rewrite lookup_insert_ne by done. by right.
Qed.

Lemma UpdateDownloaded_bounded a s : bounded s -> bounded (UpdateDownloaded a s).
Proof.
  intros [Hl Hd]. unfold UpdateDownloaded.
  assert (Hin : forall u, is_Some (insert_absent (uri a) (hash a) (downloaded_ s) !! u) -> u ∈ assetQueue_ s ++ [uri a]).
  { intros u Hu. apply insert_absent_Some in Hu as [->|Hu]; [set_solver|]. apply Hd in Hu. set_solver. }
  destruct (Nat.ltb_spec LAST_DOWNLOAD_ASSET_SIZE (length (assetQueue_ s ++ [uri a]))) as [Hlt|Hge]; [|done].
  rewrite length_app in Hlt. cbn in Hlt.
  destruct (assetQueue_ s ++ [uri a]) as [|o q] eqn:E; [by destruct (assetQueue_ s)|].
  apply (f_equal length) in E as El. rewrite length_app in El. cbn in El. split; cbn; [lia|].
  intros u Hu. destruct (decide (u = o)) as [->|Hne]; [by rewrite lookup_delete_eq in Hu; destruct Hu|].
  rewrite lookup_delete_ne in Hu by done. apply Hin in Hu. apply elem_of_cons in Hu as [?|?]; done.
Qed.

Lemma JobAsset_bounded r s a : bounded s -> bounded (JobAsset (r, s) a).2.
Proof.
  intros Hb. unfold JobAsset. case_if; [done|]. case_if; [done|].
  destruct (Transfer a); [|done]. cbn. by apply UpdateDownloaded_bounded.
Qed.

Lemma list_to_set_size (l : list string) : (size (list_to_set l : gset string) <= length l)%nat.
Proof.
  induction l as [|u l IH]; [done|]. rewrite list_to_set_cons, size_union_alt, size_singleton.
  assert (Hs : list_to_set (C := gset string) l ∖ {[u]} ⊆ list_to_set l) by set_solver.
  apply subseteq_size in Hs. cbn [length]. lia.
Qed.

(** The loader remembers at most 200 downloaded assets, whatever jobs run:
    every remembered uri is in the queue, which never exceeds its limit. *)
Lemma RunJob_bounded assets s :
  bounded s -> bounded (RunJob assets s) /\
  (size (dom (downloaded_ (RunJob assets s))) <= LAST_DOWNLOAD_ASSET_SIZE)%nat.
Proof.
  intros Hb. assert (Hr : bounded (RunJob assets s)).
  { unfold RunJob. revert Hb. generalize true as r. revert s.
    induction assets as [|a l IH]; intros s r Hb; [done|]. cbn [fold_left].
    pose proof (JobAsset_bounded r s a Hb). destruct (JobAsset (r, s) a). by apply IH. }
  split; [done|]. destruct Hr as [Hl Hd]. etrans; [|exact Hl].
  trans (size (list_to_set (assetQueue_ (RunJob assets s)) : gset string)).
  - apply subseteq_size. intros u Hu. apply elem_of_dom in Hu. apply elem_of_list_to_set. by apply Hd.
  - apply list_to_set_size.
Qed.

(** ** Callbacks *)

Definition count_called (cb : nat) (s : Loader) : nat := length (filter (fun c => c.1 = cb) (called s)).
Definition count_tasks (cb : nat) (s : Loader) : nat := length (filter (fun t => callback t.2 = cb) (tasks_ s)).

(** Finishing moves tasks to calls. *)
Lemma FinishTask_count cb u r s :
  (count_called cb (FinishTask u r s) + count_tasks cb (FinishTask u r s) = count_called cb s + count_tasks cb s)%nat.
Proof.
  unfold count_called, count_tasks, FinishTask. cbn. rewrite filter_app, length_app, <- Nat.add_assoc. f_equal.
  induction (tasks_ s) as [|[k t] ts IH]; [done|].
  rewrite fmap_cons, (filter_cons (fun t => callback t.2 = cb)). cbn [snd].
  destruct (finished (erase u (k, t))) eqn:E.
  - rewrite (filter_cons_True (fun t => finished t = true)) by done.
    rewrite (filter_cons_False (fun t => finished t = false)) by congruence.
    rewrite fmap_cons, filter_cons. cbn [fst snd erase callback].
    destruct (decide (callback t = cb)); cbn [length]; lia.
  - rewrite (filter_cons_False (fun t => finished t = true)) by congruence.
    rewrite (filter_cons_True (fun t => finished t = false)) by done.
    rewrite filter_cons. cbn [fst snd erase callback].
    destruct (decide (callback t = cb)); cbn [length]; lia.
Qed.

Lemma JobAsset_count cb r s a :
  let s' := (JobAsset (r, s) a).2 in
  (count_called cb s' + count_tasks cb s' = count_called cb s + count_tasks cb s)%nat.
Proof.
  unfold JobAsset. case_if; [apply FinishTask_count|]. case_if; [done|]. cbn [snd].
  rewrite FinishTask_count. destruct (Transfer a); [|done].
  unfold UpdateDownloaded. case_if; [|done]. by case_match.
Qed.

(** No job is running for other requests. *)
Definition quiet (s : Loader) : Prop := downloading_ s = ∅.

(** Every round of a job that runs alone finishes its uri. *)
Lemma JobAsset_finish r s a : quiet s ->
  quiet (JobAsset (r, s) a).2 /\
  exists r' s0, (JobAsset (r, s) a).2 = FinishTask (uri a) r' s0 /\ tasks_ s0 = tasks_ s.
Proof.
  unfold quiet, JobAsset. intros Hq. case_if; [cbn; split; [done|]; by exists r, s|].
  assert (IsDownloading a s = false) as ->
    by (unfold IsDownloading; rewrite Hq, lookup_empty; by apply bool_decide_eq_false).
  set (s1 := set_downloading (delete _ _) _).
  assert (Hs1 : downloading_ s1 = ∅ /\ tasks_ s1 = tasks_ s).
  { subst s1. cbn. split; [|done]. rewrite Hq. unfold insert_absent. rewrite lookup_empty.
    rewrite delete_insert_eq. apply delete_empty. }
  assert (Hs2 : forall b : bool, downloading_ (if b then UpdateDownloaded a s1 else s1) = ∅ /\
    tasks_ (if b then UpdateDownloaded a s1 else s1) = tasks_ s).
  { intros []; [|done]. unfold UpdateDownloaded. case_if; [|done]. by case_match. }
  split; [by apply Hs2|]. eexists _, _. split; [done|]. by apply Hs2.
Qed.

(** The tasks after [FinishTask]: without the uri, and not empty. *)
Lemma FinishTask_tasks u r s k t :
  (k, t) ∈ tasks_ (FinishTask u r s) ->
  downloadAssets t <> ∅ /\ exists t0, (k, t0) ∈ tasks_ s /\ callback t = callback t0 /\
    downloadAssets t = downloadAssets t0 ∖ {[u]}.
Proof.
  unfold FinishTask. cbn. rewrite list_elem_of_filter, list_elem_of_fmap. intros [Hf ([k0 t0] & E & Hin)].
  unfold erase in E. cbn in E. simplify_eq. split; [by apply bool_decide_eq_false in Hf|]. by exists t0.
Qed.

Lemma RunJob_count cb assets s :
  (count_called cb (RunJob assets s) + count_tasks cb (RunJob assets s) = count_called cb s + count_tasks cb s)%nat.
Proof.
  unfold RunJob. generalize true as r. revert s. induction assets as [|a l IH]; intros s r; [done|].
  cbn [fold_left]. pose proof (JobAsset_count cb r s a) as Hc. destruct (JobAsset (r, s) a) as [r' s'].
  cbn in Hc. rewrite IH. done.
Qed.

(** After a job that runs alone no task waits for uris of the job only. *)
Lemma RunJob_done cb assets s :
  quiet s -> assets <> [] ->
  (forall k t, (k, t) ∈ tasks_ s -> callback t = cb -> downloadAssets t ⊆ list_to_set (uri <$> assets)) ->
  count_tasks cb (RunJob assets s) = 0%nat.
Proof.
  unfold RunJob. generalize true as r. revert s. induction assets as [|a l IH]; intros s r Hq Hne Hs; [done|].
  cbn [fold_left]. destruct (JobAsset_finish r s a Hq) as [Hq' (r' & s0 & Ef & Hts)].
  destruct (JobAsset (r, s) a) as [r1 s1]. cbn in Hq', Ef. subst s1.
  assert (Hs' : forall k t, (k, t) ∈ tasks_ (FinishTask (uri a) r' s0) -> callback t = cb ->
    downloadAssets t <> ∅ /\ downloadAssets t ⊆ list_to_set (uri <$> l)).
  { intros k t Hin Hcb. apply FinishTask_tasks in Hin as (Hn & t0 & Hin & Hcb0 & Ed). split; [done|].
    rewrite Ed. rewrite Hts in Hin. specialize (Hs k t0 Hin). rewrite fmap_cons, list_to_set_cons in Hs.
    rewrite <- Hcb0 in Hs. specialize (Hs Hcb). set_solver. }
  destruct l as [|a' l].
  - cbn [fold_left snd]. unfold count_tasks. apply length_zero_iff_nil. apply elem_of_nil_inv.
    intros [k t] Hin. apply list_elem_of_filter in Hin as [Hcb Hin]. destruct (Hs' k t Hin Hcb) as [Hn Hsub].
    apply Hn. cbn in Hsub. set_solver.
  - apply IH; [done|done|]. intros k t Hin Hcb. by apply (Hs' k t).
Qed.

End Job.

(** ** Witnesses *)

Definition sample_loader : Loader := mkLoader true 0 [] [] ∅ ∅ [].


Lemma RunJob_bounded_witness :
  bounded (RunJob (fun _ => true) [sample_asset "a" "h"] sample_loader).
Proof.
  refine (proj1 (RunJob_bounded (fun _ => true) [sample_asset "a" "h"] sample_loader _)).
  split; [cbn; lia|]. intros u [x Hx]. discriminate.
Defined.

(** A request whose assets are all downloaded calls its callback at once and also
    leaves a task behind, so the next job that finishes any uri calls it again. *)
Lemma callback_twice_when_downloaded :
  let s0 := UpdateDownloaded (sample_asset "a" "h") sample_loader in
  let '(s1, _) := TransferAssetsAsync [sample_asset "a" "h"] 5 s0 in
  let '(s2, job) := TransferAssetsAsync [sample_asset "b" "h"] 6 s1 in
  called s1 = [(5%nat, true)] /\
  called (RunJob (fun _ => false) (default [] job) s2) = [(5%nat, true); (5%nat, false); (6%nat, false)].
Proof. vm_compute. split; reflexivity. Qed.

(** A new version of a remembered asset does not replace the remembered hash. *)
Lemma downloaded_hash_stale :
  let s := UpdateDownloaded (sample_asset "a" "new") (UpdateDownloaded (sample_asset "a" "old") sample_loader) in
  IsDownloaded (sample_asset "a" "old") s = true /\ IsDownloaded (sample_asset "a" "new") s = false.
Proof. vm_compute. split; reflexivity. Qed.

End AssetLoader.
