(* ===== verification/AutoCache.v ===== *)
(** * The cache of open stores ([framework/store/auto_cache.cpp])

    Stores are opened on demand by the creator of their type, kept per
    application token and store key, and closed when they have not been used for a
    while. A store is known by a number. Time, the state of the screen and of the
    user accounts and the answers of the stores to [Close] are arguments of the
    operations that read them. *)

From S2P Require Import Prelude CppString Interfaces.

Module AutoCache.

Inductive Error : Type :=
| E_OK | E_ERROR | E_SCREEN_LOCKED | E_USER_DEACTIVATING | E_USER_LOCKED | E_CODE (code : Z).
#[export] Instance Error_eq_dec : EqDecision Error.
Proof. solve_decision. Defined.

Definition MAX_CREATOR_NUM : Z := 30.
Definition KEY_SEPARATOR : string := "###".
Definition EL1 : Z := 1.
Definition EL4 : Z := 4.

(** The members of the metadata the cache reads. *)
Record StoreMeta := mkMeta {
  tokenId : Z; storeType : Z; dataDir : string; storeId : string; user : string; area : Z
}.

(** A cached store: the constructor sets the deadline, a use renews it. *)
(* @src framework/include/store/auto_cache.h 89-115 Delegate *)
Record Delegate := mkDelegate {
  store_ : nat; watchers_ : gset nat; meta_ : StoreMeta; interval_ : Z; time_ : Z
}.

(* @src framework/store/auto_cache.cpp 310-319 Delegate::Delegate *)
Definition NewDelegate (store : nat) (watchers : gset nat) (meta : StoreMeta) (interval now : Z) : Delegate :=
  mkDelegate store watchers meta interval (now + interval).

(** The conversion of a delegate to a store: the store and the renewed delegate. *)
(* @src framework/store/auto_cache.cpp 331-339 Delegate::operator Store *)
Definition ToStore (now : Z) (d : Delegate) : nat * Delegate :=
  (store_ d, mkDelegate (store_ d) (watchers_ d) (meta_ d) (interval_ d) (now + interval_ d)).

(* @src framework/store/auto_cache.cpp 341-344 Delegate::operator< *)
Definition older (d : Delegate) (time : Z) : bool := time_ d <? time.

(* @src framework/store/auto_cache.cpp 358-362 Delegate::SetObservers *)
Definition SetObservers (w : gset nat) (d : Delegate) : Delegate :=
  mkDelegate (store_ d) w (meta_ d) (interval_ d) (time_ d).

(* @src framework/store/auto_cache.cpp 364-367 Delegate::GetArea *)
Definition GetArea (d : Delegate) : Z := area (meta_ d).

(* @src framework/store/auto_cache.cpp 70-77 AutoCache::GenerateKey *)
Definition GenerateKey (path storeId : string) : string :=
  if bool_decide (path = "") then storeId else path +:+ KEY_SEPARATOR +:+ storeId.

Abbreviation Delegates := (gmap string Delegate).
Abbreviation Creator := (StoreMeta -> Error * option nat).

(** The screen and the accounts. *)
Record Env := mkEnv { locked : bool; IsDeactivating : Z -> bool; IsVerified : Z -> bool }.

(* @src framework/store/auto_cache.cpp 79-100 AutoCache::CheckStatusBeforeOpen *)
Definition CheckStatusBeforeOpen (env : Env) (meta : StoreMeta) : Error :=
  if (area meta =? EL4) && locked env then E_SCREEN_LOCKED
  else if (atoi (user meta) =? 0) || (area meta =? EL1) then E_OK
  else if IsDeactivating env (atoi (user meta)) then E_USER_DEACTIVATING
  else if negb (IsVerified env (atoi (user meta))) then E_USER_LOCKED
  else E_OK.

Section Cache.
Context {CS : ConcurrentMap Z (gmap string Delegate)} {CD : ConcurrentMap Z (gset string)}.

Record Cache := mkCache {
  garbageInterval_ : Z;
  executor_ : bool;
  taskId_ : bool;                      (* a garbage collection is scheduled *)
  stores_ : cmap Z Delegates;
  disables_ : cmap Z (gset string);
  creators_ : gmap Z Creator
}.

Definition set_stores s (c : Cache) : Cache :=
  mkCache (garbageInterval_ c) (executor_ c) (taskId_ c) s (disables_ c) (creators_ c).
Definition set_disables d (c : Cache) : Cache :=
  mkCache (garbageInterval_ c) (executor_ c) (taskId_ c) (stores_ c) d (creators_ c).
Definition set_task t (c : Cache) : Cache :=
  mkCache (garbageInterval_ c) (executor_ c) t (stores_ c) (disables_ c) (creators_ c).

(* @src framework/store/auto_cache.cpp 41-48 AutoCache::RegCreator *)
Definition RegCreator (type : Z) (creator : Creator) (c : Cache) : Error * Cache :=
  if (type <? 0) || (MAX_CREATOR_NUM <=? type) then (E_ERROR, c)
  else (E_OK, mkCache (garbageInterval_ c) (executor_ c) (taskId_ c) (stores_ c) (disables_ c)
                (<[type := creator]> (creators_ c))).

(* @src framework/store/auto_cache.cpp 50-56 AutoCache::Bind *)
Definition Bind (executor : bool) (c : Cache) : Cache :=
  if negb executor || taskId_ c then c
  else mkCache (garbageInterval_ c) true (taskId_ c) (stores_ c) (disables_ c) (creators_ c).

(* @src framework/store/auto_cache.cpp 302-308 AutoCache::Configure *)
Definition Configure (interval : Z) (c : Cache) : Cache :=
  mkCache interval (executor_ c) (taskId_ c) (stores_ c) (disables_ c) (creators_ c).

(** The synchronous part: a timer is started unless one runs or nothing is open. *)
(* @src framework/store/auto_cache.cpp 177-199 AutoCache::StartTimer *)
Definition StartTimer (c : Cache) : Cache :=
  if negb (executor_ c) then c
  else if taskId_ c || bool_decide (cm_view (stores_ c) = ∅) then c
  else set_task true c.

Definition disabled (meta : StoreMeta) (c : Cache) : bool :=
  match cm_view (disables_ c) !! tokenId meta with
  | Some keys => bool_decide (GenerateKey (dataDir meta) (storeId meta) ∈ keys)
  | None => false
  end.

(** The action on the stores of a token: the status, the store and whether the
    timer has to be started. *)
Definition OpenIn (interval : Z) (creator : Creator) (now : Z) (meta : StoreMeta) (watchers : gset nat)
    (stores : Delegates) : bool * Delegates * (Error * option nat * bool) :=
  let key := GenerateKey (dataDir meta) (storeId meta) in
  match stores !! key with
  | Some d =>
      let d := if bool_decide (watchers = ∅) then d else SetObservers watchers d in
      let '(st, d) := ToStore now d in
      (true, <[key := d]> stores, (E_OK, Some st, false))
  | None =>
      match creator meta with
      | (ret, None) => (negb (bool_decide (stores = ∅)), stores, (ret, None, false))
      | (ret, Some st) =>
          let '(st, d) := ToStore now (NewDelegate st watchers meta interval now) in
          (true, <[key := d]> stores, (ret, Some st, true))
      end
  end.

(* @src framework/store/auto_cache.cpp 102-149 AutoCache::GetDBStore *)
Definition GetDBStore (env : Env) (now : Z) (meta : StoreMeta) (watchers : gset nat) (c : Cache)
    : Error * option nat * Cache :=
  if (MAX_CREATOR_NUM <=? storeType meta) || (storeType meta <? 0) then (E_ERROR, None, c)
  else
    match creators_ c !! storeType meta with
    | None => (E_ERROR, None, c)
    | Some creator =>
        if disabled meta c then (E_ERROR, None, c)
        else
          match CheckStatusBeforeOpen env meta with
          | E_OK =>
              let '(s, (ret, st, start)) :=
                cm_compute ∅ (tokenId meta) (OpenIn (garbageInterval_ c) creator now meta watchers) (stores_ c) in
              let c := set_stores s c in
              let c := if (start : bool) then StartTimer c else c in
              (if bool_decide (ret = E_OK) && bool_decide (st = None) then E_ERROR else ret, st, c)
          | e => (e, None, c)
          end
    end.

(** The stores of a token, or the one with the key. The entry of the token is
    kept when something was found. *)
(* @src framework/store/auto_cache.cpp 156-175 AutoCache::GetStoresIfPresent *)
Definition GetStoresIfPresent (now : Z) (token : Z) (path storeName : string) (c : Cache) : list nat * Cache :=
  let key := GenerateKey path storeName in
  let '(s, r) :=
    cm_compute_if_present [] token (fun ds : Delegates =>
      let '(ds, found) :=
        if bool_decide (key = "") then (snd ∘ ToStore now <$> ds, (fun kv => store_ kv.2) <$> map_to_list ds)
        else match ds !! key with
             | Some d => let '(st, d) := ToStore now d in (<[key := d]> ds, [st])
             | None => (ds, [])
             end in
      (negb (bool_decide (found = [])), ds, found)) (stores_ c) in
  (r, set_stores s c).

(** The delegates that stay after closing those that [close] selects. *)
Definition keep (close : string -> Delegate -> bool) (ds : Delegates) : Delegates :=
  filter (fun kd => close kd.1 kd.2 = false) ds.

(* @src framework/store/auto_cache.cpp 201-220 AutoCache::CloseStore *)
Definition CloseStore (env : Env) (token : Z) (path storeId : string) (c : Cache) : Cache :=
  let key := GenerateKey path storeId in
  let close k d := (bool_decide (k = key) || bool_decide (key = ""))
                   && (negb (locked env) || negb (GetArea d =? EL4)) in
  let '(s, _) :=
    cm_compute_if_present tt token (fun ds : Delegates =>
      let ds := keep close ds in (negb (bool_decide (ds = ∅)), ds, tt)) (stores_ c) in
  set_stores s c.

(* @src framework/store/auto_cache.cpp 222-240 AutoCache::CloseStore *)
Definition CloseStoreIf (filter_ : option (StoreMeta -> bool)) (c : Cache) : Cache :=
  match filter_ with
  | None => c
  | Some f =>
      set_stores (cm_erase_if (fun _ (ds : Delegates) =>
        let ds := keep (fun _ d => f (meta_ d)) ds in (bool_decide (ds = ∅), ds)) (stores_ c)) c
  end.

(* @src framework/store/auto_cache.cpp 242-256 AutoCache::SetObserver *)
Definition SetObserver (token : Z) (watchers : gset nat) (path storeId : string) (c : Cache) : Cache :=
  let '(s, _) :=
    cm_compute_if_present tt token (fun ds : Delegates =>
      (true, alter (SetObservers watchers) (GenerateKey path storeId) ds, tt)) (stores_ c) in
  set_stores s c.

(** [busy st] is whether the store refuses to close. *)
(* @src framework/store/auto_cache.cpp 346-356 Delegate::Close *)
Definition Close (busy : nat -> bool) (d : Delegate) : bool := negb (busy (store_ d)).

(* @src framework/store/auto_cache.cpp 258-281 AutoCache::GarbageCollect *)
Definition GarbageCollect (env : Env) (busy : nat -> bool) (isForce : bool) (now : Z) (c : Cache) : Cache :=
  let close (_ : string) d := (negb (locked env) || negb (GetArea d =? EL4))
                              && (isForce || older d now) && Close busy d in
  set_stores (cm_erase_if (fun _ (ds : Delegates) => let ds := keep close ds in (bool_decide (ds = ∅), ds)) (stores_ c)) c.

(* @src framework/store/auto_cache.cpp 283-290 AutoCache::Enable *)
Definition Enable (token : Z) (path storeId : string) (c : Cache) : Cache :=
  let key := GenerateKey path storeId in
  let '(d, _) :=
    cm_compute_if_present tt token (fun keys : gset string =>
      let keys := keys ∖ {[key]} in (negb (bool_decide (keys = ∅) || bool_decide (key = "")), keys, tt)) (disables_ c) in
  set_disables d c.

(* @src framework/store/auto_cache.cpp 292-300 AutoCache::Disable *)
Definition Disable (env : Env) (token : Z) (path storeId : string) (c : Cache) : Cache :=
  let key := GenerateKey path storeId in
  let '(d, _) := cm_compute ∅ token (fun keys : gset string =>
      let keys := keys ∪ {[key]} in (negb (bool_decide (keys = ∅)), keys, tt)) (disables_ c) in
  CloseStore env token path storeId (set_disables d c).

(** The body of the timer's task. *)
Definition TimerTask (env : Env) (busy : nat -> bool) (now : Z) (c : Cache) : Cache :=
  StartTimer (set_task false (GarbageCollect env busy false now c)).

(** ** The content of the cache *)

Definition cached (token : Z) (key : string) (c : Cache) : option Delegate :=
  cm_view (stores_ c) !! token ≫= fun ds => ds !! key.

Lemma StartTimer_stores c : stores_ (StartTimer c) = stores_ c.
Proof. unfold StartTimer. by repeat case_match. Qed.

Lemma lookup_if_empty {A} (b : bool) (x : gmap string A) (m : gmap Z (gmap string A)) t t' k :
  (b = false -> x = ∅) ->
  ((if b then <[t := x]> m else delete t m) !! t' ≫= fun ds => ds !! k)
  = if bool_decide (t' = t) then x !! k else m !! t' ≫= fun ds => ds !! k.
Proof.
  intros Hb. case_bool_decide as E.
  - subst t'. destruct b; [by rewrite lookup_insert_eq|]. rewrite lookup_delete_eq, Hb by done. by rewrite lookup_empty.
  - by destruct b; rewrite ?lookup_insert_ne, ?lookup_delete_ne by done.
Qed.

Lemma keep_lookup close ds k : keep close ds !! k = match ds !! k with
  | Some d => if close k d then None else Some d | None => None end.
Proof.
  unfold keep. rewrite map_lookup_filter. destruct (ds !! k) as [d|]; [|done]. cbn.
  destruct (close k d) eqn:E; case_guard; cbn; congruence.
Qed.

Lemma not_empty_false {A} (m : gmap string A) : negb (bool_decide (m = ∅)) = false -> m = ∅.
Proof. intros E. by apply negb_false_iff, bool_decide_eq_true in E. Qed.

(** Closing selected stores of one token, and of all tokens. *)
Lemma CloseStore_cached env t path sid c t' k :
  cached t' k (CloseStore env t path sid c) =
  match cached t' k c with
  | Some d => if bool_decide (t' = t) && (bool_decide (k = GenerateKey path sid) || bool_decide (GenerateKey path sid = ""))
                 && (negb (locked env) || negb (GetArea d =? EL4)) then None else Some d
  | None => None
  end.
Proof.
  unfold CloseStore, cached.
  match goal with |- context [cm_compute_if_present ?r ?t ?f ?m] =>
    pose proof (cm_compute_if_present_spec _ r t f m) as Hs; destruct (cm_compute_if_present r t f m) as [s []] end.
  cbn [fst snd] in Hs. cbn [stores_ set_stores]. apply (f_equal fst) in Hs. cbn [fst] in Hs.
  unfold compute_if_present_ref in Hs. destruct (cm_view (stores_ c) !! t) as [ds|] eqn:E; cbn [fst] in Hs; rewrite Hs.
  - rewrite lookup_if_empty by apply not_empty_false. rewrite keep_lookup.
    destruct (decide (t' = t)) as [->|Et].
    + rewrite !(bool_decide_eq_true_2 (t = t)) by done. by rewrite E.
    + rewrite !(bool_decide_eq_false_2 (t' = t)) by done. cbn [andb]. by destruct (_ ≫= _).
  - destruct (decide (t' = t)) as [->|Et]; [by rewrite E|].
    rewrite (bool_decide_eq_false_2 (t' = t)) by done. cbn [andb]. by destruct (_ ≫= _).
Qed.

Lemma erase_keep_cached close c t k :
  cached t k (set_stores (cm_erase_if (fun _ (ds : Delegates) =>
    let ds := keep close ds in (bool_decide (ds = ∅), ds)) (stores_ c)) c) =
  match cached t k c with Some d => if close k d then None else Some d | None => None end.
Proof.
  unfold cached. cbn [stores_ set_stores]. rewrite cm_erase_if_spec. unfold erase_if_ref.
  rewrite map_lookup_imap. destruct (cm_view (stores_ c) !! t) as [ds|]; cbn; [|done].
  pose proof (keep_lookup close ds k) as Hk. case_bool_decide as E; cbn; [|done].
  by rewrite E, lookup_empty in Hk.
Qed.

(** Garbage collection closes exactly the stores that are unused for longer
    than their interval (all of them when forced), that do not refuse to close,
    and that are not protected by the locked screen; every other store stays as it
    is. *)
Lemma GarbageCollect_exact env busy isForce now c t k :
  cached t k (GarbageCollect env busy isForce now c) =
  match cached t k c with
  | Some d =>
      if (negb (locked env) || negb (area (meta_ d) =? EL4)) && (isForce || (time_ d <? now)) && negb (busy (store_ d))
      then None else Some d
  | None => None
  end.
Proof. unfold GarbageCollect. by rewrite erase_keep_cached. Qed.

(** What opening a store does, once the checks are passed. *)
Lemma open_cached env now meta w c creator :
  0 <= storeType meta < MAX_CREATOR_NUM -> creators_ c !! storeType meta = Some creator ->
  disabled meta c = false -> CheckStatusBeforeOpen env meta = E_OK ->
  let key := GenerateKey (dataDir meta) (storeId meta) in
  let '(ret, st, c') := GetDBStore env now meta w c in
  match cached (tokenId meta) key c with
  | Some d => ret = E_OK /\ st = Some (store_ d)
  | None =>
      st = (creator meta).2 /\
      ret = match creator meta with (E_OK, None) => E_ERROR | (e, _) => e end
  end /\
  (forall s, st = Some s -> exists d', cached (tokenId meta) key c' = Some d' /\ store_ d' = s /\
     time_ d' = now + interval_ d' /\
     match cached (tokenId meta) key c with
     | Some d => interval_ d' = interval_ d /\ meta_ d' = meta_ d
     | None => interval_ d' = garbageInterval_ c /\ meta_ d' = meta
     end) /\
  (forall t k, (t, k) <> (tokenId meta, key) -> cached t k c' = cached t k c) /\
  (st = None -> forall t k, cached t k c' = cached t k c).
Proof.
  intros Ht Hcr Hdis Hst key. unfold GetDBStore.
  replace ((MAX_CREATOR_NUM <=? storeType meta) || (storeType meta <? 0)) with false by (symmetry; lia).
  rewrite Hcr, Hdis, Hst.
  match goal with |- context [cm_compute ?d ?t ?f ?m] =>
    pose proof (cm_compute_spec _ d t f m) as Hs; destruct (cm_compute d t f m) as [s [[ret st] start]] end.
  cbn [fst snd] in Hs. unfold compute_ref in Hs.
  assert (Hcache : forall t k, cached t k (if start then StartTimer (set_stores s c) else set_stores s c)
    = cm_view s !! t ≫= fun ds => ds !! k).
  { intros t k. unfold cached. destruct start; [by rewrite StartTimer_stores|done]. }
  assert (Hds : cached (tokenId meta) key c = default ∅ (cm_view (stores_ c) !! tokenId meta) !! key).
  { unfold cached. destruct (cm_view (stores_ c) !! tokenId meta); cbn; [done|]. by rewrite lookup_empty. }
  set (ds := default ∅ (cm_view (stores_ c) !! tokenId meta)) in *. rewrite Hds.
  assert (Hframe : forall t k, t = tokenId meta -> cached t k c = ds !! k).
  { intros t k ->. unfold cached, ds. destruct (cm_view (stores_ c) !! tokenId meta); cbn; [done|]. by rewrite lookup_empty. }
  unfold OpenIn in Hs. fold key in Hs.
  destruct (ds !! key) as [d|] eqn:Ed.
  - injection Hs as Hv -> -> ->. rewrite andb_false_r. split; [by case_bool_decide|]. split_and!; [| |done].
    + intros s0 [= <-]. eexists. rewrite Hcache, Hv, lookup_insert_eq. cbn. rewrite lookup_insert_eq.
      split; [done|]. case_bool_decide; done.
    + intros t k Hne. rewrite Hcache, Hv, (lookup_if_empty true) by done.
      destruct (decide (t = tokenId meta)) as [->|E]; [|by rewrite bool_decide_eq_false_2].
      rewrite bool_decide_eq_true_2 by done. rewrite lookup_insert_ne by congruence. by rewrite Hframe.
  - destruct (creator meta) as [e [st0|]] eqn:Ec; cbn [snd] in *.
    + injection Hs as Hv -> -> ->. rewrite andb_false_r. split; [by destruct e|]. split_and!; [| |done].
      * intros s0 [= <-]. eexists. rewrite Hcache, Hv, lookup_insert_eq. cbn. rewrite lookup_insert_eq.
        split; [done|]. done.
      * intros t k Hne. rewrite Hcache, Hv, (lookup_if_empty true) by done.
        destruct (decide (t = tokenId meta)) as [->|E]; [|by rewrite bool_decide_eq_false_2].
        rewrite bool_decide_eq_true_2 by done. rewrite lookup_insert_ne by congruence. by rewrite Hframe.
    + injection Hs as Hv -> -> ->. assert (Hsame : forall t k, cm_view s !! t ≫= (fun ds => ds !! k) = cached t k c).
      { intros t k. rewrite Hv, lookup_if_empty by apply not_empty_false.
        destruct (decide (t = tokenId meta)) as [->|E]; [|by rewrite bool_decide_eq_false_2].
        rewrite bool_decide_eq_true_2 by done. by rewrite Hframe. }
      split; [by destruct e|]. split_and!; [done| |].
      * intros t k _. by rewrite Hcache.
      * intros _ t k. by rewrite Hcache.
Qed.

(** The checks of [GetDBStore] before it opens a store. *)
Definition openable (env : Env) (meta : StoreMeta) (c : Cache) : Prop :=
  0 <= storeType meta < MAX_CREATOR_NUM /\ is_Some (creators_ c !! storeType meta) /\
  disabled meta c = false /\ CheckStatusBeforeOpen env meta = E_OK.

Lemma GetDBStore_keeps env now meta w c :
  let c' := (GetDBStore env now meta w c).2 in creators_ c' = creators_ c /\ disables_ c' = disables_ c.
Proof.
  unfold GetDBStore, StartTimer. destruct (_ || _); [done|]. destruct (creators_ c !! _); [|done].
  destruct (disabled meta c); [done|]. destruct (CheckStatusBeforeOpen env meta); [|done..].
  destruct (cm_compute _ _ _ _) as [s [[ret st] start]]. by destruct start; cbn; repeat case_match.
Qed.

(** A store that has been opened stays open and is shared: until its interval
    has passed since its last use no garbage collection closes it, and opening it
    again - as often as the checks allow - returns the same store. *)
Lemma GetDBStore_shared env now meta w c st c' :
  openable env meta c -> GetDBStore env now meta w c = (E_OK, Some st, c') ->
  let key := GenerateKey (dataDir meta) (storeId meta) in
  exists d, cached (tokenId meta) key c' = Some d /\ store_ d = st /\ time_ d = now + interval_ d /\
    forall env1 busy now1, now1 <= now + interval_ d ->
      let c1 := GarbageCollect env1 busy false now1 c' in
      cached (tokenId meta) key c1 = Some d /\
      forall env2 now2 w2, CheckStatusBeforeOpen env2 meta = E_OK ->
        (GetDBStore env2 now2 meta w2 c1).1 = (E_OK, Some st).
Proof.
  intros (Ht & [cr Hcr] & Hdis & Hst) Hg key.
  pose proof (open_cached env now meta w c cr Ht Hcr Hdis Hst) as Ho. fold key in Ho.
  pose proof (GetDBStore_keeps env now meta w c) as Hk. rewrite Hg in Ho, Hk. cbn in Hk. destruct Hk as [Hk1 Hk2].
  destruct Ho as (_ & Ho & _). destruct (Ho st eq_refl) as (d & Hd & Hs & Htime & _).
  exists d. split_and!; [done..|]. intros env1 busy now1 Hnow c1.
  assert (Hc1 : cached (tokenId meta) key c1 = Some d).
  { unfold c1, GarbageCollect. rewrite erase_keep_cached, Hd. unfold older.
    rewrite (proj2 (Z.ltb_ge _ _)) by lia. by rewrite andb_false_r. }
  split; [done|]. intros env2 now2 w2 Hst2.
  assert (Hcr1 : creators_ c1 !! storeType meta = Some cr) by (unfold c1; cbn; by rewrite Hk1).
  assert (Hdis1 : disabled meta c1 = false) by (unfold disabled, c1 in *; cbn; by rewrite Hk2).
  pose proof (open_cached env2 now2 meta w2 c1 cr Ht Hcr1 Hdis1 Hst2) as Ho2. cbv zeta in Ho2. fold key in Ho2.
  destruct (GetDBStore env2 now2 meta w2 c1) as [[ret st2] c2]. rewrite Hc1 in Ho2.
  destruct Ho2 as [[-> ->] _]. by rewrite Hs.
Qed.

(** A disabled store cannot be opened, whoever asks and whatever state the
    screen and the accounts are in; it is closed unless the locked screen protects
    it; and enabling it again lifts the ban. *)
Lemma Disable_Enable env0 meta c :
  let key := GenerateKey (dataDir meta) (storeId meta) in
  let c1 := Disable env0 (tokenId meta) (dataDir meta) (storeId meta) c in
  (forall env now w, GetDBStore env now meta w c1 = (E_ERROR, None, c1)) /\
  (forall d, cached (tokenId meta) key c1 = Some d -> locked env0 = true /\ GetArea d = EL4) /\
  disabled meta (Enable (tokenId meta) (dataDir meta) (storeId meta) c1) = false.
Proof.
  intros key c1. assert (Hdis : exists keys, cm_view (disables_ c1) !! tokenId meta = Some keys /\ key ∈ keys).
  { unfold c1, Disable. fold key.
    match goal with |- context [cm_compute ?d ?t ?f ?m] =>
      pose proof (cm_compute_spec _ d t f m) as Hs; destruct (cm_compute d t f m) as [s []] end.
    cbn [fst snd] in Hs. apply (f_equal fst) in Hs. unfold compute_ref in Hs. cbn [fst] in Hs.
    unfold CloseStore. destruct (cm_compute_if_present _ _ _ _) as [s2 []]. cbn.
    rewrite Hs, bool_decide_eq_false_2 by set_solver. cbn. rewrite lookup_insert_eq. eexists. split; [done|]. set_solver. }
  destruct Hdis as (keys & Hk & Hin). split_and!.
  - intros env now w. unfold GetDBStore. destruct (_ || _); [done|]. destruct (creators_ c1 !! _); [|done].
    unfold disabled. rewrite Hk, bool_decide_eq_true_2 by done. done.
  - intros d Hd. unfold c1, Disable in Hd. destruct (cm_compute _ _ _ _) as [s []].
    rewrite CloseStore_cached in Hd. fold key in Hd. destruct (cached _ _ _) as [d0|]; [|done].
    rewrite (bool_decide_eq_true_2 (tokenId meta = _)), (bool_decide_eq_true_2 (key = key)) in Hd by done.
    cbn in Hd. destruct (locked env0); cbn in Hd; [|done].
    destruct (Z.eqb_spec (GetArea d0) EL4); cbn in Hd; [|done]. by simplify_eq.
  - unfold Enable. fold key.
    match goal with |- context [cm_compute_if_present ?r ?t ?f ?m] =>
      pose proof (cm_compute_if_present_spec _ r t f m) as Hs; destruct (cm_compute_if_present r t f m) as [s []] end.
    cbn [fst snd] in Hs. apply (f_equal fst) in Hs. unfold compute_if_present_ref in Hs. rewrite Hk in Hs. cbn [fst] in Hs.
    unfold disabled. cbn. rewrite Hs. case_if; [rewrite lookup_insert_eq|by rewrite lookup_delete_eq].
    apply bool_decide_eq_false. fold key. set_solver.
Qed.

(** Looking up open stores. *)
Lemma GetStoresIfPresent_cached now t path name c t' k :
  let key := GenerateKey path name in
  cached t' k (GetStoresIfPresent now t path name c).2 =
  if bool_decide (t' = t) then
    if bool_decide (key = "") then snd ∘ ToStore now <$> cached t k c
    else match cached t key c with
         | None => None
         | Some d => if bool_decide (k = key) then Some (ToStore now d).2 else cached t k c
         end
  else cached t' k c.
Proof.
  intros key. unfold GetStoresIfPresent. fold key.
  match goal with |- context [cm_compute_if_present ?r ?t ?f ?m] =>
    pose proof (cm_compute_if_present_spec _ r t f m) as Hs; destruct (cm_compute_if_present r t f m) as [s rr] end.
  cbn [fst snd] in Hs. apply (f_equal fst) in Hs. cbn [fst snd] in Hs. unfold compute_if_present_ref in Hs.
  unfold cached. cbn [stores_ set_stores snd]. destruct (cm_view (stores_ c) !! t) as [ds|] eqn:E; cbn [fst] in Hs.
  - cbn [mbind option_bind]. destruct (decide (key = "")) as [Hk|Hk].
    + rewrite (bool_decide_eq_true_2 (key = "")) in Hs |- * by done. cbn [fst] in Hs. rewrite Hs, lookup_if_empty.
      * destruct (bool_decide (t' = t)); [|done]. by rewrite lookup_fmap.
      * rewrite negb_false_iff, bool_decide_eq_true. intros E'. apply fmap_nil_inv in E'.
        apply map_to_list_empty_iff in E'. by rewrite E', fmap_empty.
    + rewrite (bool_decide_eq_false_2 (key = "")) in Hs |- * by done.
      destruct (ds !! key) as [d|] eqn:Ed; cbn in Hs; rewrite Hs.
      * rewrite (lookup_if_empty true) by done. destruct (bool_decide (t' = t)); [|done].
        destruct (decide (k = key)) as [->|E2].
        -- by rewrite lookup_insert_eq, bool_decide_eq_true_2.
        -- by rewrite lookup_insert_ne, bool_decide_eq_false_2.
      * destruct (decide (t' = t)) as [->|Et].
        -- by rewrite lookup_delete_eq, bool_decide_eq_true_2.
        -- by rewrite lookup_delete_ne, bool_decide_eq_false_2.
  - rewrite Hs. case_bool_decide as Et; [|done]. subst t'. rewrite E. cbn. by case_bool_decide.
Qed.

(** Asking for one store that is not open drops every open store of the token
    from the cache: the action answers whether something was found, which is taken
    for whether the entry of the token is to be kept. *)
Lemma lookup_miss_drops_token now t path name c k :
  GenerateKey path name <> "" -> cached t (GenerateKey path name) c = None ->
  cached t k (GetStoresIfPresent now t path name c).2 = None.
Proof.
  intros Hk Hc. rewrite GetStoresIfPresent_cached. cbv zeta.
  by rewrite bool_decide_eq_true_2, bool_decide_eq_false_2, Hc by done.
Qed.

End Cache.

#[local] Existing Instances GmapConcurrent.

Lemma GetDBStore_shared_witness :
  let meta := mkMeta 7 2 "/data/a" "s.db" "100" 2 in
  let env := mkEnv false (fun _ => false) (fun _ => true) in
  let c := mkCache 60 true false ∅ ∅ {[2 := fun _ => (E_OK, Some 5%nat)]} in
  exists c' d, GetDBStore env 10 meta ∅ c = (E_OK, Some 5%nat, c') /\ time_ d = 70 /\
    cached 7 "/data/a###s.db" (GarbageCollect env (fun _ => false) false 70 c') = Some d /\
    (GetDBStore env 200 meta ∅ (GarbageCollect env (fun _ => false) false 70 c')).1 = (E_OK, Some 5%nat).
Proof.
  intros meta env c. set (key := "/data/a###s.db").
  assert (Hret : (GetDBStore env 10 meta ∅ c).1 = (E_OK, Some 5%nat)) by (vm_compute; reflexivity).
  assert (Hi : option_map interval_ (cached 7 key (GetDBStore env 10 meta ∅ c).2) = Some 60)
    by (vm_compute; reflexivity).
  assert (Hopen : openable env meta c).
  { split; [by split|]. split; [by eexists|]. by split. }
  destruct (GetDBStore env 10 meta ∅ c) as [r c'] eqn:E. cbn [fst snd] in Hret, Hi. subst r.
  destruct (GetDBStore_shared env 10 meta ∅ c 5%nat c' Hopen E) as (d & Hd & _ & Ht & Hgc).
  change (cached 7 key c' = Some d) in Hd. rewrite Hd in Hi. injection Hi as Hi. rewrite Hi in Ht, Hgc.
  exists c', d. destruct (Hgc env (fun _ => false) 70) as [H1 H2]; [lia|].
  split; [done|]. split; [exact Ht|]. split; [exact H1|]. by apply H2.
Defined.

End AutoCache.
