(* ===== verification/UserDelegate.v ===== *)
(** * Users of the devices and access checks

    [service/kvdb/user_delegate.cpp] knows the users of every device: it caches
    the user metadata and follows its changes. [service/kvdb/auth_delegate.cpp]
    decides from it whether a local user may exchange data with a peer user. A
    [std::map<int, bool>] is the list of its entries in the order of the keys.
    The account service is represented by its answers; the two trust queries to
    the device manager are parameters. *)

From Stdlib Require Import Sorted.
From S2P Require Import Prelude CppString Interfaces Constant.

(** ** Ordered maps with integer keys *)
Module IntMap.
Section IntMap.
Context {V : Type}.

(** [m[k] = v] *)
Fixpoint assign (k : Z) (v : V) (m : list (Z * V)) : list (Z * V) :=
  match m with
  | [] => [(k, v)]
  | (k', v') :: r => if k <? k' then (k, v) :: m else if k =? k' then (k, v) :: r else (k', v') :: assign k v r
  end.

Fixpoint at_key (k : Z) (m : list (Z * V)) : option V :=
  match m with [] => None | (k', v) :: r => if k =? k' then Some v else at_key k r end.

(** The keys are strictly increasing. *)
Definition ordered (m : list (Z * V)) : Prop := StronglySorted Z.lt m.*1.

Lemma at_key_assign k v m k' : at_key k' (assign k v m) = if k' =? k then Some v else at_key k' m.
Proof.
  induction m as [|[k0 v0] m IH]; cbn; [done|].
  destruct (Z.ltb_spec k k0); cbn; [done|]. destruct (Z.eqb_spec k k0) as [->|Hne]; cbn.
  - by destruct (k' =? k0).
  - rewrite IH. destruct (Z.eqb_spec k' k0) as [->|]; [|done]. by destruct (Z.eqb_spec k0 k); [lia|].
Qed.

Lemma assign_keys k v m x : x ∈ (assign k v m).*1 <-> x = k \/ x ∈ m.*1.
Proof.
  induction m as [|[k0 v0] m IH]; cbn; [set_solver|].
  destruct (k <? k0); cbn; [set_solver|]. destruct (Z.eqb_spec k k0) as [->|]; cbn; [set_solver|].
  rewrite !elem_of_cons, IH. tauto.
Qed.

Lemma assign_ordered k v m : ordered m -> ordered (assign k v m).
Proof.
  unfold ordered. induction m as [|[k0 v0] m IH]; cbn; intros Hm; [repeat constructor|].
  apply StronglySorted_inv in Hm as [Hm Hall]. rewrite Forall_forall in Hall.
  destruct (Z.ltb_spec k k0); cbn; [|destruct (Z.eqb_spec k k0) as [->|]; cbn].
  - repeat constructor; [done|by apply Forall_forall|done|]. apply Forall_forall. intros x Hx. specialize (Hall x Hx). lia.
  - constructor; [done|]. by apply Forall_forall.
  - constructor; [by apply IH|]. apply Forall_forall. intros x [->|Hx]%assign_keys; [lia|]. by apply Hall.
Qed.

Lemma ordered_NoDup m : ordered m -> NoDup m.*1.
Proof.
  unfold ordered. induction m.*1 as [|x l IH]; intros Hm; [constructor|].
  apply StronglySorted_inv in Hm as [Hm Hall]. constructor; [|by apply IH].
  intros Hx. rewrite Forall_forall in Hall. specialize (Hall x Hx). lia.
Qed.

Lemma at_key_elem m k v : ordered m -> (at_key k m = Some v <-> (k, v) ∈ m).
Proof.
  intros Hm%ordered_NoDup. induction m as [|[k0 v0] m IH]; cbn; [set_solver|].
  cbn in Hm. apply NoDup_cons in Hm as [Hn Hm]. rewrite elem_of_cons.
  destruct (Z.eqb_spec k k0) as [->|Hne].
  - split; [intros [= ->]; by left|]. intros [[= ->]|Hin]; [done|]. destruct Hn. apply list_elem_of_fmap. by exists (k0, v).
  - rewrite (IH Hm). split; [by right|]. by intros [[= -> ->]|?].
Qed.
End IntMap.
End IntMap.
Import IntMap.

Module UserDelegate.

Definition SYSTEM_USER : Z := 0.

(* @src framework/include/metadata/user_meta_data.h 21-31 UserStatus *)
Record UserStatus := mkUser { id : Z; isActive : bool }.
(* @src framework/include/metadata/user_meta_data.h 33-40 UserMetaData *)
Record UserMetaData := mkUsers { deviceId : string; users : list UserStatus }.
Definition no_users : UserMetaData := mkUsers "" [].

Definition KEY_PREFIX : string := "UserMeta".
(* @src framework/metadata/user_meta_data.cpp 58-62 UserMetaRow::GetKeyFor *)
Definition GetKeyFor (key : string) : string :=
  Constant.Concatenate [KEY_PREFIX; Constant.KEY_SEPARATOR; key].

(** [users[user.id] = user.isActive] for each of the vector. *)
Definition fill (us : list UserStatus) (m : list (Z * bool)) : list (Z * bool) :=
  fold_left (fun m u => assign (id u) (isActive u) m) us m.

Definition statuses (m : list (Z * bool)) : list UserStatus := (fun kv => mkUser kv.1 kv.2) <$> m.

Inductive Flag : Type := INSERT | UPDATE | DELETE | OtherFlag.

Section Delegate.
Context {CU : ConcurrentMap string (list (Z * bool))} {MU : MetaStore UserMetaData}.

Record Delegate := mkDelegate {
  deviceUser_ : cmap string (list (Z * bool));
  userDb : meta_db UserMetaData
}.

(** The users of a cached device, read from the metadata when nothing is cached. *)
Definition LoadUsers (device : string) (cached : list (Z * bool)) (db : meta_db UserMetaData)
    : list (Z * bool) * meta_db UserMetaData :=
  match cached with
  | [] => let '(r, db) := LoadMeta (GetKeyFor device) false db in (fill (users (default no_users r)) [], db)
  | _ => (cached, db)
  end.

(* @src service/kvdb/user_delegate.cpp 80-100 UserDelegate::GetUsers *)
Definition GetUsers (device : string) (d : Delegate) : list UserStatus * Delegate :=
  let '(m, (us, db)) :=
    cm_compute [] device (fun cached =>
      let '(us, db) := LoadUsers device cached (userDb d) in
      (negb (bool_decide (us = [])), us, (statuses us, db))) (deviceUser_ d) in
  (us, mkDelegate m db).

(** [localUuid] is the identifier of the device itself. *)
(* @src service/kvdb/user_delegate.cpp 36-45 UserDelegate::GetLocalUserStatus *)
Definition GetLocalUserStatus (localUuid : string) (d : Delegate) : list UserStatus * Delegate :=
  if bool_decide (localUuid = "") then ([], d) else GetUsers localUuid d.

(* @src service/kvdb/user_delegate.cpp 47-69 UserDelegate::GetLocalUsers *)
Definition GetLocalUsers (localUuid : string) (d : Delegate) : gset string * Delegate :=
  if bool_decide (localUuid = "") then (∅, d)
  else
    let '(m, (us, db)) :=
      cm_compute [] localUuid (fun cached =>
        let '(us, db) := LoadUsers localUuid cached (userDb d) in
        (negb (bool_decide (us = [])), us, (list_to_set ((fun kv => to_string kv.1) <$> us) : gset string, db)))
        (deviceUser_ d) in
    (us, mkDelegate m db).

(* @src service/kvdb/user_delegate.cpp 71-78 UserDelegate::GetRemoteUserStatus *)
Definition GetRemoteUserStatus (device : string) (d : Delegate) : list UserStatus * Delegate :=
  if bool_decide (device = "") then ([], d) else GetUsers device d.

(* @src service/kvdb/user_delegate.cpp 102-105 UserDelegate::DeleteUsers *)
Definition DeleteUsers (device : string) (d : Delegate) : Delegate :=
  mkDelegate (cm_compute_if_present tt device (fun us => (false, us, tt)) (deviceUser_ d)).1 (userDb d).

(* @src service/kvdb/user_delegate.cpp 107-118 UserDelegate::UpdateUsers *)
Definition UpdateUsers (device : string) (userStatus : list UserStatus) (d : Delegate) : Delegate :=
  mkDelegate (cm_compute [] device (fun _ => (true, fill userStatus [], tt)) (deviceUser_ d)).1 (userDb d).

(** [QueryUsers] is what the account service reports, if it does. *)
(* @src service/kvdb/user_delegate.cpp 120-143 UserDelegate::InitLocalUserMeta *)
Definition InitLocalUserMeta (localUuid : string) (QueryUsers : option (list Z)) (d : Delegate) : bool * Delegate :=
  match QueryUsers with
  | None | Some [] => (false, d)
  | Some us =>
      let userStatus := mkUser 0 true :: ((fun u => mkUser u true) <$> us) in
      let d := UpdateUsers localUuid userStatus d in
      let '(m, saved) :=
        cm_compute_if_present [] localUuid (fun us => (true, us, statuses us)) (deviceUser_ d) in
      let '(ok, db) := SaveMeta (GetKeyFor localUuid) (mkUsers localUuid saved) false (userDb d) in
      (ok, mkDelegate m db)
  end.

(** The observer of the user metadata. [value] is what the notified value
    unmarshals to; it is [None] when the notification has no value. *)
(* @src service/kvdb/user_delegate.cpp 151-175 UserDelegate::Init *)
Definition OnUserMeta (localUuid key : string) (value : option UserMetaData) (flag : Flag) (d : Delegate)
    : bool * Delegate :=
  let '(meta, d) :=
    match value with
    | Some m => (m, d)
    | None => let '(r, db) := LoadMeta key false (userDb d) in (default no_users r, mkDelegate (deviceUser_ d) db)
    end in
  if bool_decide (deviceId meta = localUuid) then (false, d)
  else
    (true, match flag with
           | INSERT | UPDATE => UpdateUsers (deviceId meta) (users meta) d
           | DELETE => DeleteUsers (deviceId meta) d
           | OtherFlag => d
           end).

(** ** What the delegate knows *)

(** The users of a device: the cached ones, or those of the metadata. *)
Definition known (device : string) (d : Delegate) : list (Z * bool) :=
  match default [] (cm_view (deviceUser_ d) !! device) with
  | [] => fill (users (default no_users (stored (userDb d) false (GetKeyFor device)))) []
  | us => us
  end.

(** Every cached map is a map. *)
Definition well_formed (d : Delegate) : Prop :=
  forall device us, cm_view (deviceUser_ d) !! device = Some us -> ordered us.

Lemma fill_ordered us m : ordered m -> ordered (fill us m).
Proof. revert m. induction us as [|u us IH]; intros m Hm; cbn; [done|]. by apply IH, assign_ordered. Qed.

Lemma fill_at_key us m k :
  at_key k (fill us m) = match list_find (fun u => id u = k) (reverse us) with
                         | Some (_, u) => Some (isActive u) | None => at_key k m end.
Proof.
  revert m. induction us as [|u us IH]; intros m; [done|].
  change (fill (u :: us) m) with (fill us (assign (id u) (isActive u) m)). rewrite reverse_cons, IH.
  destruct (list_find _ (reverse us)) as [[i u']|] eqn:E.
  - by rewrite (list_find_app_l _ _ _ i u') by done.
  - rewrite list_find_app_r by done. cbn. rewrite at_key_assign.
    destruct (Z.eqb_spec k (id u)) as [->|Hne]; [by rewrite decide_True|]. by rewrite decide_False by done.
Qed.

Lemma known_ordered device d : well_formed d -> ordered (known device d).
Proof.
  intros Hw. unfold known. destruct (cm_view (deviceUser_ d) !! device) as [[|u us]|] eqn:E; cbn.
  - apply fill_ordered. constructor.
  - by apply Hw in E.
  - apply fill_ordered. constructor.
Qed.

Section Reliable.
(** Loading a stored value succeeds. *)
Context (reliable : forall k l d, (LoadMeta (V := UserMetaData) k l d).1 = stored d l k).

Lemma LoadUsers_known device d :
  let '(us, db) := LoadUsers device (default [] (cm_view (deviceUser_ d) !! device)) (userDb d) in
  us = known device d /\ stored db = stored (userDb d).
Proof.
  unfold LoadUsers, known. destruct (default [] _) as [|u us]; [|done].
  pose proof (reliable (GetKeyFor device) false (userDb d)) as Hr.
  pose proof (LoadMeta_stored (GetKeyFor device) false (userDb d)) as Hs.
  destruct (LoadMeta _ _ _) as [r db]. cbn in *. by rewrite Hr.
Qed.

(** Asking for the users of a device changes nothing that is known. *)
Lemma GetUsers_known device d :
  let '(us, d') := GetUsers device d in
  us = statuses (known device d) /\ (forall dev, known dev d' = known dev d) /\
  (well_formed d -> well_formed d').
Proof.
  unfold GetUsers. pose proof (LoadUsers_known device d) as Hl.
  match goal with |- context [cm_compute ?z ?t ?f ?m] =>
    pose proof (cm_compute_spec _ z t f m) as Hs; destruct (cm_compute z t f m) as [m' [us db]] end.
  cbn [fst snd] in Hs. unfold compute_ref in Hs. destruct (LoadUsers device _ _) as [us0 db0] eqn:E.
  destruct Hl as [-> Hst]. injection Hs as Hv -> ->. split; [done|].
  assert (Hlook : forall dev, cm_view m' !! dev =
    if bool_decide (dev = device) then (if bool_decide (known device d = []) then None else Some (known device d))
    else cm_view (deviceUser_ d) !! dev).
  { intros dev. rewrite Hv. destruct (decide (dev = device)) as [->|Hne].
    - rewrite (bool_decide_eq_true_2 (device = device)) by done.
      by destruct (bool_decide (known device d = [])); cbn; [rewrite lookup_delete_eq|rewrite lookup_insert_eq].
    - rewrite (bool_decide_eq_false_2 (dev = device)) by done.
      by destruct (bool_decide (known device d = [])); cbn; [rewrite lookup_delete_ne|rewrite lookup_insert_ne]. }
  split.
  - intros dev. unfold known at 1. cbn [deviceUser_ userDb]. rewrite Hlook, Hst.
    destruct (decide (dev = device)) as [->|Hne].
    + rewrite (bool_decide_eq_true_2 (device = device)) by done.
      destruct (decide (known device d = [])) as [Ek|Ek].
      * rewrite bool_decide_eq_true_2 by done. cbn. revert Ek. unfold known.
        destruct (default [] _); [done|]. done.
      * rewrite bool_decide_eq_false_2 by done. cbn. by destruct (known device d).
    + by rewrite (bool_decide_eq_false_2 (dev = device)) by done.
  - intros Hw dev us. cbn [deviceUser_]. rewrite Hlook. destruct (bool_decide (dev = device)); [|apply Hw].
    destruct (bool_decide (known device d = [])); [done|]. intros [= <-]. by apply known_ordered.
Qed.

Lemma GetRemoteUserStatus_known device d :
  let '(us, d') := GetRemoteUserStatus device d in
  us = (if bool_decide (device = "") then [] else statuses (known device d)) /\
  (forall dev, known dev d' = known dev d) /\ (well_formed d -> well_formed d').
Proof. unfold GetRemoteUserStatus. destruct (bool_decide (device = "")); [done|]. apply GetUsers_known. Qed.
End Reliable.

(** The users an update leaves in the cache. *)
Lemma UpdateUsers_view device us d :
  cm_view (deviceUser_ (UpdateUsers device us d)) = <[device := fill us []]> (cm_view (deviceUser_ d)).
Proof.
  unfold UpdateUsers. cbn [deviceUser_].
  match goal with |- context [cm_compute ?z ?t ?f ?m] => pose proof (cm_compute_spec _ z t f m) as Hs end.
  by injection Hs as -> _.
Qed.

Lemma DeleteUsers_view device d :
  cm_view (deviceUser_ (DeleteUsers device d)) = delete device (cm_view (deviceUser_ d)).
Proof.
  unfold DeleteUsers. cbn [deviceUser_].
  match goal with |- context [cm_compute_if_present ?z ?t ?f ?m] =>
    pose proof (cm_compute_if_present_spec _ z t f m) as Hs end.
  unfold compute_if_present_ref in Hs. destruct (cm_view (deviceUser_ d) !! device) eqn:E.
  - by injection Hs as -> _.
  - injection Hs as -> _. by rewrite delete_id.
Qed.

Lemma statuses_elem u m : ordered m -> (u ∈ statuses m <-> at_key (id u) m = Some (isActive u)).
Proof.
  intros Hm. rewrite at_key_elem by done. unfold statuses. rewrite list_elem_of_fmap. split.
  - by intros ([k v] & -> & Hin).
  - intros Hin. exists (id u, isActive u). by destruct u.
Qed.

Lemma fill_nonempty us m : us <> [] \/ m <> [] -> fill us m <> [].
Proof.
  revert m. induction us as [|u us IH]; intros m Hne; [by destruct Hne|]. cbn. apply IH. right.
  destruct m as [|[k v] m]; cbn; repeat case_match; done.
Qed.

Lemma known_cached device us d :
  cm_view (deviceUser_ d) !! device = Some us -> us <> [] -> known device d = us.
Proof. intros E Hne. unfold known. rewrite E. by destruct us. Qed.

(** When the metadata of a remote device reports its users, the delegate
    answers with exactly the last reported status of each of them, and what it
    knows of the other devices is unchanged; when the metadata is deleted the next
    answer comes from the store again. *)
Lemma OnUserMeta_followed localUuid key m flag d :
  (forall k l d, (LoadMeta (V := UserMetaData) k l d).1 = stored d l k) ->
  deviceId m <> localUuid -> deviceId m <> "" -> users m <> [] ->
  let '(handled, d') := OnUserMeta localUuid key (Some m) flag d in
  handled = true /\ userDb d' = userDb d /\
  (forall dev, dev <> deviceId m -> known dev d' = known dev d) /\
  match flag with
  | INSERT | UPDATE =>
      forall u, u ∈ (GetRemoteUserStatus (deviceId m) d').1 <->
        exists i, list_find (fun x => id x = id u) (reverse (users m)) = Some (i, u)
  | DELETE => (GetRemoteUserStatus (deviceId m) d').1
              = statuses (fill (users (default no_users (stored (userDb d) false (GetKeyFor (deviceId m))))) [])
  | OtherFlag => d' = d
  end.
Proof.
  intros Hrel Hloc Hdev Hus. unfold OnUserMeta. rewrite bool_decide_eq_false_2 by done. split; [done|].
  assert (Hget : forall d', (GetRemoteUserStatus (deviceId m) d').1 = statuses (known (deviceId m) d')).
  { intros d'. pose proof (GetRemoteUserStatus_known Hrel (deviceId m) d') as Hg.
    destruct (GetRemoteUserStatus _ d'). destruct Hg as [-> _]. by rewrite bool_decide_eq_false_2. }
  assert (Hup : forall u, u ∈ (GetRemoteUserStatus (deviceId m) (UpdateUsers (deviceId m) (users m) d)).1 <->
        exists i, list_find (fun x => id x = id u) (reverse (users m)) = Some (i, u)).
  { intros u. rewrite Hget, (known_cached _ (fill (users m) [])).
    - rewrite statuses_elem by (apply fill_ordered; constructor). rewrite fill_at_key. split.
      + destruct (list_find _ _) as [[i u']|] eqn:E; cbn; [|done]. intros [= Ha]. exists i.
        apply list_find_Some in E as (_ & Hid & _). destruct u, u'. cbn in *. by subst.
      + by intros [i ->].
    - rewrite UpdateUsers_view. apply lookup_insert_eq.
    - apply fill_nonempty. by left. }
  assert (Hfr : forall dev, dev <> deviceId m -> known dev (UpdateUsers (deviceId m) (users m) d) = known dev d).
  { intros dev Hne. unfold known. by rewrite UpdateUsers_view, lookup_insert_ne by done. }
  destruct flag; [split_and!; [done|exact Hfr|exact Hup]|split_and!; [done|exact Hfr|exact Hup]| |done].
  split_and!; [done| |].
  - intros dev Hne. unfold known. by rewrite DeleteUsers_view, lookup_delete_ne by done.
  - rewrite Hget. unfold known. by rewrite DeleteUsers_view, lookup_delete_eq.
Qed.

(** After a successful initialisation the users of the device itself are the
    system user and the users of the account service, all active and each once, and
    the metadata announces the same list to the other devices. *)
Lemma InitLocalUserMeta_spec localUuid us d d' :
  (forall k l d, (LoadMeta (V := UserMetaData) k l d).1 = stored d l k) ->
  localUuid <> "" -> InitLocalUserMeta localUuid (Some us) d = (true, d') ->
  let status := (GetLocalUserStatus localUuid d').1 in
  NoDup (id <$> status) /\
  (forall u, u ∈ status <-> isActive u = true /\ (id u = SYSTEM_USER \/ id u ∈ us)) /\
  stored (userDb d') false (GetKeyFor localUuid) = Some (mkUsers localUuid status).
Proof.
  intros Hrel Hloc Hi. unfold InitLocalUserMeta in Hi. destruct us as [|u0 us]; [done|].
  set (l := mkUser 0 true :: _) in *.
  match type of Hi with context [cm_compute_if_present ?z ?t ?f ?m] =>
    pose proof (cm_compute_if_present_spec _ z t f m) as Hs; destruct (cm_compute_if_present z t f m) as [m' saved] end.
  cbn [fst snd] in Hs. unfold compute_if_present_ref in Hs. rewrite UpdateUsers_view, lookup_insert_eq in Hs.
  injection Hs as Hv ->. destruct (SaveMeta _ _ _ _) as [ok db] eqn:E. injection Hi as -> <-.
  assert (Hne : fill l [] <> []) by (apply fill_nonempty; by left).
  assert (Hord : ordered (fill l [])) by (apply fill_ordered; constructor).
  assert (Hst : (GetLocalUserStatus localUuid (mkDelegate m' db)).1 = statuses (fill l [])).
  { change (GetLocalUserStatus localUuid) with (GetRemoteUserStatus localUuid).
    pose proof (GetRemoteUserStatus_known Hrel localUuid (mkDelegate m' db)) as Hg.
    destruct (GetRemoteUserStatus _ _). destruct Hg as [-> _]. rewrite bool_decide_eq_false_2 by done. cbn [fst]. f_equal. apply known_cached; [|done]. cbn [deviceUser_]. by rewrite Hv, lookup_insert_eq. }
  cbv zeta. rewrite Hst. split_and!.
  - unfold statuses. rewrite <- list_fmap_compose. by apply ordered_NoDup.
  - intros u. rewrite statuses_elem, fill_at_key by done. split.
    + destruct (list_find _ _) as [[i u']|] eqn:El; cbn; [|done]. intros [= <-].
      apply list_find_Some in El as (Hi & Hid & _). apply list_elem_of_lookup_2 in Hi. rewrite elem_of_reverse in Hi.
      unfold l in Hi. rewrite elem_of_cons, list_elem_of_fmap in Hi. destruct Hi as [->|(x & -> & Hx)]; cbn in Hid |- *; rewrite <- Hid; auto.
    + intros [-> Hid]. destruct (list_find _ (reverse l)) as [[i u']|] eqn:El.
      * apply list_find_Some in El as (Hi & _ & _). apply list_elem_of_lookup_2 in Hi. rewrite elem_of_reverse in Hi.
        unfold l in Hi. rewrite elem_of_cons, list_elem_of_fmap in Hi. by destruct Hi as [->|(x & -> & Hx)].
      * exfalso. apply (list_find_None_inv _ _ (mkUser (id u) true) El); [|done].
        apply elem_of_reverse. unfold l. rewrite elem_of_cons, list_elem_of_fmap.
        destruct Hid as [->|Hid]; [by left|]. right. by exists (id u).
  - erewrite SaveMeta_ok by exact E. by rewrite bool_decide_eq_true_2.
Qed.

(** A user of a device that is known to be active. *)
Definition active (device : string) (user : Z) (d : Delegate) : Prop :=
  device <> "" /\ mkUser user true ∈ statuses (known device d).

Lemma active_known device user d d' :
  (forall dev, known dev d' = known dev d) -> active device user d' <-> active device user d.
Proof. intros Hk. unfold active. by rewrite Hk. Qed.
End Delegate.

#[local] Existing Instances GmapConcurrent MapMetaStore.

Definition sample_users : UserMetaData := mkUsers "peer" [mkUser 101 true; mkUser 100 false; mkUser 101 false].

Lemma OnUserMeta_followed_witness :
  let d := mkDelegate ∅ ∅ in
  (GetRemoteUserStatus "peer" (OnUserMeta "local" "" (Some sample_users) UPDATE d).2).1
    = [mkUser 100 false; mkUser 101 false] /\
  mkUser 101 true ∉ (GetRemoteUserStatus "peer" (OnUserMeta "local" "" (Some sample_users) UPDATE d).2).1.
Proof.
  intros d. split; [reflexivity|].
  pose proof (OnUserMeta_followed "local" "" sample_users UPDATE d (fun k l d => eq_refl)) as Ho.
  destruct (OnUserMeta _ _ _ _ _) as [h d'] eqn:E. destruct Ho as (_ & _ & _ & Hu); [done..|].
  cbn [snd]. rewrite (Hu (mkUser 101 true)). intros [i Hi]. by vm_compute in Hi.
Defined.

Lemma InitLocalUserMeta_spec_witness :
  let d := mkDelegate ∅ ∅ in
  let d' := (InitLocalUserMeta "local" (Some [100; 101]) d).2 in
  (GetLocalUserStatus "local" d').1 = [mkUser 0 true; mkUser 100 true; mkUser 101 true] /\
  mkUser 101 true ∈ (GetLocalUserStatus "local" d').1.
Proof.
  intros d d'. split; [reflexivity|].
  destruct (InitLocalUserMeta_spec "local" [100; 101] d d' (fun k l d => eq_refl)) as (_ & Hu & _); [done|reflexivity|].
  apply Hu. split; [done|]. right. by_decide.
Defined.
End UserDelegate.

(** ** Access checks *)
Module AuthDelegate.
Import UserDelegate.

(* @src adapter/include/communicator/commu_types.h 26-31 AccessCaller *)
Record AccessCaller := mkCaller { caller_accountId : string; bundleName : string; caller_networkId : string; caller_userId : Z }.
(* @src adapter/include/communicator/commu_types.h 33-37 AccessCallee *)
Record AccessCallee := mkCallee { callee_accountId : string; callee_networkId : string; callee_userId : Z }.
(* @src adapter/include/communicator/commu_types.h 39-43 AclParams *)
Record AclParams := mkAcl { accCaller : AccessCaller; accCallee : AccessCallee; authType : Z }.

(** The authentication types of the store options (an enumeration of the key-value
    interface) and the answers of the device manager. *)
Class Trust := {
  AuthType_DEFAULT : Z;
  IDENTICAL_ACCOUNT : Z;
  IsSameAccount : AccessCaller -> AccessCallee -> bool;
  CheckAccessControl : AccessCaller -> AccessCallee -> bool
}.

(* @src service/kvdb/auth_delegate.cpp 87-95 AuthHandlerStub::IsUserActive *)
Fixpoint IsUserActive (users : list UserStatus) (userId : Z) : bool :=
  match users with
  | [] => false
  | user :: users => if (id user =? userId) && isActive user then true else IsUserActive users userId
  end.

(* @src service/kvdb/auth_delegate.cpp 41-44 AuthHandlerStub::IsSystemUser *)
Definition IsSystemUser (localUserId peerUserId : Z) : bool :=
  (localUserId =? SYSTEM_USER) && (peerUserId =? SYSTEM_USER).

Section Auth.
Context {CU : ConcurrentMap string (list (Z * bool))} {MU : MetaStore UserMetaData} {TR : Trust}.
Context (localUuid : string).

(* @src service/kvdb/auth_delegate.cpp 46-55 AuthHandlerStub::CheckUsers *)
Definition CheckUsers (localUserId peerUserId : Z) (peerDeviceId : string) (d : Delegate) : bool * Delegate :=
  if localUserId =? SYSTEM_USER then (peerUserId =? SYSTEM_USER, d)
  else
    let '(localUsers, d) := GetLocalUserStatus localUuid d in
    let '(peerUsers, d) := GetRemoteUserStatus peerDeviceId d in
    (negb (peerUserId =? SYSTEM_USER) && IsUserActive localUsers localUserId && IsUserActive peerUsers peerUserId, d).

(** Whether the access is permitted and whether both ends have the same account. *)
(* @src service/kvdb/auth_delegate.cpp 57-85 AuthHandlerStub::CheckAccess *)
Definition CheckAccess (localUserId peerUserId : Z) (peerDeviceId : string) (acl : AclParams) (d : Delegate)
    : bool * bool * Delegate :=
  if IsSystemUser localUserId peerUserId then (true, false, d)
  else
    let '(ok, d) := CheckUsers localUserId peerUserId peerDeviceId d in
    if negb ok then (false, false, d)
    else if authType acl =? AuthType_DEFAULT then
      if IsSameAccount (accCaller acl) (accCallee acl) then (true, true, d)
      else if CheckAccessControl (accCaller acl) (accCallee acl) then (true, false, d)
      else (false, false, d)
    else if authType acl =? IDENTICAL_ACCOUNT then
      let same := IsSameAccount (accCaller acl) (accCallee acl) in (same, same, d)
    else (false, false, d).

(** ** The policy *)

(** The ends are both the system user, or both an active ordinary user. *)
Definition users_match (localUserId peerUserId : Z) (peer : string) (d : Delegate) : Prop :=
  localUserId <> SYSTEM_USER /\ peerUserId <> SYSTEM_USER /\
  active localUuid localUserId d /\ active peer peerUserId d.

Definition trusted (acl : AclParams) : Prop :=
  (IsSameAccount (accCaller acl) (accCallee acl) = true /\
     (authType acl = AuthType_DEFAULT \/ authType acl = IDENTICAL_ACCOUNT)) \/
  (CheckAccessControl (accCaller acl) (accCallee acl) = true /\ authType acl = AuthType_DEFAULT).

Definition policy (localUserId peerUserId : Z) (peer : string) (acl : AclParams) (d : Delegate) : Prop :=
  (localUserId = SYSTEM_USER /\ peerUserId = SYSTEM_USER) \/
  (users_match localUserId peerUserId peer d /\ trusted acl).

Lemma IsUserActive_spec us u : IsUserActive us u = true <-> mkUser u true ∈ us.
Proof.
  induction us as [|[i a] us IH]; cbn; [set_solver|]. rewrite elem_of_cons, <- IH.
  destruct (Z.eqb_spec i u) as [->|Hne], a; cbn; naive_solver.
Qed.

Section Reliable.
Context (reliable : forall k l d, (LoadMeta (V := UserMetaData) k l d).1 = stored d l k).

Lemma status_active device d :
  let '(us, d') := GetRemoteUserStatus device d in
  (forall u, IsUserActive us u = true <-> active device u d) /\ (forall dev, known dev d' = known dev d) /\
  (well_formed d -> well_formed d').
Proof.
  pose proof (GetRemoteUserStatus_known reliable device d) as Hg.
  destruct (GetRemoteUserStatus device d) as [us d']. destruct Hg as (-> & Hk & Hw). split_and!; [|done..].
  intros u. rewrite IsUserActive_spec. unfold active. case_bool_decide; rewrite ?elem_of_nil; naive_solver.
Qed.

Lemma CheckUsers_spec lu pu peer d :
  let '(ok, d') := CheckUsers lu pu peer d in
  (ok = true <-> (lu = SYSTEM_USER /\ pu = SYSTEM_USER) \/ users_match lu pu peer d) /\
  (forall dev, known dev d' = known dev d) /\ (well_formed d -> well_formed d').
Proof.
  unfold CheckUsers, users_match. destruct (Z.eqb_spec lu SYSTEM_USER) as [->|Hl].
  - rewrite Z.eqb_eq. split; [|done]. naive_solver.
  - change (GetLocalUserStatus localUuid d) with (GetRemoteUserStatus localUuid d).
    pose proof (status_active localUuid d) as H1. destruct (GetRemoteUserStatus localUuid d) as [us1 d1].
    destruct H1 as (Ha1 & Hk1 & Hw1).
    pose proof (status_active peer d1) as H2. destruct (GetRemoteUserStatus peer d1) as [us2 d2].
    destruct H2 as (Ha2 & Hk2 & Hw2). split_and!; [|intros dev; by rewrite Hk2|auto].
    rewrite !andb_true_iff, negb_true_iff, Z.eqb_neq, Ha1, Ha2, (active_known peer pu d d1 Hk1). tauto.
Qed.

Lemma CheckAccess_policy lu pu peer acl d :
  let '(permitted, same, d') := CheckAccess lu pu peer acl d in
  (permitted = true <-> policy lu pu peer acl d) /\
  (same = true <-> users_match lu pu peer d /\ trusted acl /\ IsSameAccount (accCaller acl) (accCallee acl) = true) /\
  (forall dev, known dev d' = known dev d) /\ (well_formed d -> well_formed d').
Proof.
  unfold CheckAccess, policy, IsSystemUser.
  destruct (Z.eqb_spec lu SYSTEM_USER) as [El|El], (Z.eqb_spec pu SYSTEM_USER) as [Ep|Ep]; cbn [andb];
    [split_and!; [naive_solver| |done|done]; unfold users_match; naive_solver| | |];
    (pose proof (CheckUsers_spec lu pu peer d) as Hc; destruct (CheckUsers lu pu peer d) as [ok d']; destruct Hc as (Hok & Hk & Hw);
     destruct ok; cbn [negb]; [|split_and!; [| |done|done]; naive_solver];
     assert (Hm : users_match lu pu peer d) by naive_solver; unfold trusted;
     destruct (Z.eqb_spec (authType acl) AuthType_DEFAULT) as [E1|E1];
     [|destruct (Z.eqb_spec (authType acl) IDENTICAL_ACCOUNT) as [E2|E2]];
     destruct (IsSameAccount _ _), (CheckAccessControl _ _); (split_and!; [| |done|done]); naive_solver).
Qed.
End Reliable.
End Auth.
End AuthDelegate.
