(* ===== verification/Session.v ===== *)
(** * Sessions between devices

    [app/src/session_manager/session_manager.cpp] chooses the users of a peer
    device that a message is for, and checks on the other side which of them may
    receive it; [route_head_handler_impl.cpp] does so for the header of a message.
    The metadata of the stores, the account service, the device manager and the
    database's store identifiers are represented by their answers. *)

From S2P Require Import Prelude CppString Interfaces UserDelegate RouteHead.

Module SessionManager.
Import IntMap UserDelegate AuthDelegate.
Import RouteHead (Session, mkSession, sourceDeviceId, targetDeviceId, sourceUserId, targetUserIds,
  Handler, mkHandler, userId_, appId_, storeId_, deviceId_, session_, headSize_).

(** The members of the store metadata the session manager reads. *)
Record StoreMeta := mkStore { m_appId : string; m_storeId : string; m_bundleName : string; m_authType : Z }.

(* @src app/src/session_manager/session_manager.h 28-34 SessionPoint *)
Record SessionPoint := mkPoint {
  deviceId : string; userId : Z; appId : string; storeId : string; accountId : string
}.

Definition DEFAULT_USERID : string := "0".

(** What the other services answer. *)
Class Services := {
  StoreMetas : string -> option (list StoreMeta);      (* the store metadata of a device *)
  HasStore : string -> string -> string -> string -> bool;   (* of a device, user, bundle and store *)
  ToNetworkID : string -> string;
  GetCurrentAccountId : string;
  QueryForegroundUserId : Z;
  IsUserForeground : Z -> bool;
  IsOHOSType : string -> bool;
  GetKvStoreIdentifier : string -> string -> string;
  processLabel : string;
  metaDBName : string;
  localUuid : string;
  GetCapability : string -> option Z
}.

Section Manager.
Context {CU : ConcurrentMap string (list (Z * bool))} {MU : MetaStore UserMetaData} {TR : Trust} {SV : Services}.

(** [accCallee.userId] is set by the caller. *)
(* @src app/src/session_manager/session_manager.cpp 86-111 SessionManager::GetSendAuthParams *)
Definition GetSendAuthParams (local : SessionPoint) (target : string) : option (Z -> AclParams) :=
  metaData ← StoreMetas (deviceId local);
  '(_, storeMeta) ← list_find (fun m => m_appId m = appId local /\ m_storeId m = storeId local) metaData;
  Some (fun calleeUser =>
    mkAcl (mkCaller (accountId local) (m_bundleName storeMeta) (ToNetworkID (deviceId local)) (s32 (userId local)))
          (mkCallee "" (ToNetworkID target) calleeUser) (m_authType storeMeta)).

(** One turn of the loop over the peer's users, on the session's users, the users
    of other accounts and the user delegate. *)
Definition AddTarget (local : SessionPoint) (target : string) (acl : Z -> AclParams)
    (st : list Z * list Z * Delegate) (user : UserStatus) : list Z * list Z * Delegate :=
  let '(targetUserIds, targetUsers, d) := st in
  let '(isPermitted, isSameAccount, d) :=
    CheckAccess localUuid (s32 (userId local)) (id user) target (acl (id user)) d in
  if isPermitted && negb (bool_decide (u32 (id user) ∈ targetUserIds)) then
    if isSameAccount then (targetUserIds ++ [u32 (id user)], targetUsers, d)
    else (targetUserIds, targetUsers ++ [u32 (id user)], d)
  else (targetUserIds, targetUsers, d).

(* @src app/src/session_manager/session_manager.cpp 42-84 SessionManager::GetSession *)
Definition GetSession (local : SessionPoint) (target : string) (d : Delegate) : Session * Delegate :=
  let session ids := mkSession (deviceId local) target (userId local) ids (appId local) (storeId local) (accountId local) in
  let '(users, d) := GetRemoteUserStatus target d in
  let targetUserIds := if userId local =? SYSTEM_USER then [SYSTEM_USER] else [] in
  match GetSendAuthParams local target with
  | None => (session targetUserIds, d)
  | Some acl =>
      let '(targetUserIds, targetUsers, d) := fold_left (AddTarget local target acl) users (targetUserIds, [], d) in
      (session (targetUserIds ++ targetUsers), d)
  end.

(* @src app/src/session_manager/session_manager.cpp 113-141 SessionManager::GetRecvAuthParams *)
Definition GetRecvAuthParams (local peer : SessionPoint) (accountFlag : bool) : option AclParams :=
  metaData ← StoreMetas (deviceId peer);
  '(_, storeMeta) ← list_find (fun m => m_appId m = appId local) metaData;
  Some (mkAcl
    (mkCaller GetCurrentAccountId (m_bundleName storeMeta) (ToNetworkID (deviceId local)) (s32 (userId local)))
    (mkCallee (if accountFlag then accountId peer else GetCurrentAccountId) (ToNetworkID (deviceId peer)) (s32 (userId peer)))
    (m_authType storeMeta)).

(* @src app/src/session_manager/session_manager.cpp 143-158 SessionManager::CheckSession *)
Definition CheckSession (local peer : SessionPoint) (accountFlag : bool) (d : Delegate) : bool * Delegate :=
  match GetRecvAuthParams local peer accountFlag with
  | None => (false, d)
  | Some acl =>
      let '(isPermitted, _, d) :=
        CheckAccess localUuid (s32 (userId local)) (s32 (userId peer)) (deviceId peer) acl d in
      (if isPermitted && negb (userId local =? SYSTEM_USER) then IsUserForeground (s32 (userId local))
       else isPermitted, d)
  end.

(** ** The handler of a message header *)

(* @src app/src/session_manager/route_head_handler_impl.cpp 63-91 RouteHeadHandlerImpl::Init *)
Definition Init (h : Handler) (d : Delegate) : Handler * Delegate :=
  if bool_decide (deviceId_ h = "") || negb (IsOHOSType (deviceId_ h)) then (h, d)
  else
    let userId := userId_ h in
    let userId :=
      if negb (bool_decide (userId = DEFAULT_USERID)) && HasStore (deviceId_ h) DEFAULT_USERID (appId_ h) (storeId_ h)
      then DEFAULT_USERID else userId in
    let userId :=
      if bool_decide (appId_ h = processLabel) && negb (bool_decide (storeId_ h = metaDBName))
      then to_string QueryForegroundUserId else userId in
    let localPoint := mkPoint localUuid (u32 (atoi userId)) (appId_ h) (storeId_ h) GetCurrentAccountId in
    let '(session, d) := GetSession localPoint (deviceId_ h) d in
    (mkHandler userId (appId_ h) (storeId_ h) (deviceId_ h) session (headSize_ h), d).

(* @src app/src/session_manager/route_head_handler_impl.cpp 312-330 RouteHeadHandlerImpl::ParseStoreId *)
Definition ParseStoreId (s : Session) (device label : string) : string :=
  if negb (bool_decide (RouteHead.storeId s = "")) then RouteHead.storeId s
  else
    match StoreMetas device with
    | None => ""
    | Some metaData =>
        match list_find (fun m => GetKvStoreIdentifier (m_appId m) (m_storeId m) = label) metaData with
        | Some (_, m) => m_storeId m
        | None => ""
        end
    end.

Record UserInfo := mkInfo { receiveUser : string; sendUser : string }.

(** The store of the message belongs to the system user of the sender and is not
    one of the receiver's system user: the message goes to the foreground user. *)
Definition to_foreground (s : Session) (label : string) : bool :=
  let storeId := ParseStoreId s (targetDeviceId s) label in
  IsOHOSType (sourceDeviceId s) && negb (bool_decide (storeId = ""))
  && bool_decide (to_string (sourceUserId s) = DEFAULT_USERID)
  && negb (HasStore (targetDeviceId s) DEFAULT_USERID (RouteHead.appId s) storeId).

Definition peer_point (s : Session) : SessionPoint :=
  mkPoint (sourceDeviceId s) (sourceUserId s) (RouteHead.appId s) "" (RouteHead.accountId s).
Definition local_point (s : Session) (user : Z) : SessionPoint :=
  mkPoint (targetDeviceId s) user (RouteHead.appId s) "" "".

Definition AddReceiver (s : Session) (accountFlag : bool) (st : list UserInfo * Delegate) (user : Z) : list UserInfo * Delegate :=
  let '(userInfos, d) := st in
  let '(ok, d) := CheckSession (local_point s user) (peer_point s) accountFlag d in
  (if (ok : bool) then userInfos ++ [mkInfo (to_string user) (to_string (sourceUserId s))] else userInfos, d).

(** The status, [userInfos], the handler and the user delegate; [None] is a read
    outside of the message. *)
(* @src app/src/session_manager/route_head_handler_impl.cpp 332-384 RouteHeadHandlerImpl::ParseHeadDataUser *)
Definition ParseHeadDataUser (h : Handler) (data : option (list Z)) (totalLen : Z) (label : string)
    (userInfos : list UserInfo) (d : Delegate) : option (bool * list UserInfo * Handler * Delegate) :=
  match data with
  | None => Some (false, userInfos, h, d)
  | Some data =>
      '(ret, s, _) ← RouteHead.UnPackData GetCapability (session_ h) data totalLen 0;
      let h := mkHandler (userId_ h) (appId_ h) (storeId_ h) (deviceId_ h) s (headSize_ h) in
      if negb ret then Some (false, userInfos, h, d)
      else if to_foreground s label then
        Some (true, userInfos ++ [mkInfo (to_string QueryForegroundUserId) (to_string (sourceUserId s))], h, d)
      else
        match GetCapability (sourceDeviceId s) with
        | None => Some (false, userInfos, h, d)
        | Some version =>
            let accountFlag := RouteHead.ACCOUNT_VERSION <=? version in
            let '(userInfos, d) := fold_left (AddReceiver s accountFlag) (targetUserIds s) (userInfos, d) in
            Some (true, userInfos, h, d)
        end
  end.

(** ** The users a message is for *)

Lemma s32_u32 p : in_s 32 p -> s32 (u32 p) = p.
Proof.
  intros Hp. rewrite <- (swrap_id 32 p) at 2 by done. unfold swrap, wrap. by rewrite Z.mod_mod.
Qed.

Lemma s32_zero u : in_u 32 u -> s32 u = SYSTEM_USER -> u = SYSTEM_USER.
Proof. unfold swrap, in_u, SYSTEM_USER. intros Hu. rewrite Z.mod_small by lia. case_if; bool_prop; lia. Qed.

Section Reliable.
Context (reliable : forall k l d, (LoadMeta (V := UserMetaData) k l d).1 = stored d l k).

(** The verdict on an access depends on what is known only. *)
Lemma CheckAccess_known lu pu peer acl d d1 :
  (forall dev, known dev d1 = known dev d) ->
  (CheckAccess localUuid lu pu peer acl d1).1 = (CheckAccess localUuid lu pu peer acl d).1.
Proof.
  intros Hk.
  pose proof (CheckAccess_policy localUuid reliable lu pu peer acl d1) as H1.
  pose proof (CheckAccess_policy localUuid reliable lu pu peer acl d) as H2.
  destruct (CheckAccess _ _ _ _ _ d1) as [[p1 s1] ?], (CheckAccess _ _ _ _ _ d) as [[p2 s2] ?].
  destruct H1 as (Hp1 & Hs1 & _), H2 as (Hp2 & Hs2 & _). cbn [fst].
  assert (Hu : users_match localUuid lu pu peer d1 <-> users_match localUuid lu pu peer d).
  { unfold users_match. by rewrite (active_known localUuid lu d d1), (active_known peer pu d d1). }
  f_equal; apply eq_iff_eq_true.
  - rewrite Hp1, Hp2. unfold policy. by rewrite Hu.
  - rewrite Hs1, Hs2. by rewrite Hu.
Qed.

Section Targets.
Context (local : SessionPoint) (target : string) (acl : Z -> AclParams) (d0 : Delegate).

Definition verdict (u : UserStatus) : bool * bool :=
  (CheckAccess localUuid (s32 (userId local)) (id u) target (acl (id u)) d0).1.

Lemma AddTarget_eq ids others d u :
  (forall dev, known dev d = known dev d0) ->
  exists d', AddTarget local target acl (ids, others, d) u =
    ((if (verdict u).1 && negb (bool_decide (u32 (id u) ∈ ids)) && (verdict u).2 then ids ++ [u32 (id u)] else ids),
     (if (verdict u).1 && negb (bool_decide (u32 (id u) ∈ ids)) && negb (verdict u).2 then others ++ [u32 (id u)] else others),
     d') /\ (forall dev, known dev d' = known dev d0).
Proof.
  intros Hk. unfold AddTarget, verdict. rewrite <- (CheckAccess_known _ _ _ _ d0 d) by done.
  pose proof (CheckAccess_policy localUuid reliable (s32 (userId local)) (id u) target (acl (id u)) d) as Hp.
  destruct (CheckAccess _ _ _ _ _ d) as [[p s] d']. destruct Hp as (_ & _ & Hk' & _). cbn [fst snd].
  exists d'. split; [|intros dev; by rewrite Hk'].
  by destruct p, (bool_decide _), s.
Qed.

(** Users that are not yet in the list are added, those of the same account first. *)
Lemma AddTargets_new users ids others d :
  (forall dev, known dev d = known dev d0) -> NoDup ((u32 ∘ id) <$> users) ->
  (forall u, u ∈ users -> u32 (id u) ∉ ids) ->
  exists d', fold_left (AddTarget local target acl) users (ids, others, d) =
    (ids ++ ((u32 ∘ id) <$> filter (fun u => verdict u = (true, true)) users),
     others ++ ((u32 ∘ id) <$> filter (fun u => verdict u = (true, false)) users), d') /\
    (forall dev, known dev d' = known dev d0).
Proof.
  revert ids others d. induction users as [|u us IH]; intros ids others d Hk Hnd Hids.
  - exists d. cbn. by rewrite !app_nil_r.
  - cbn [fold_left]. destruct (AddTarget_eq ids others d u Hk) as (d1 & -> & Hk1).
    rewrite (bool_decide_eq_false_2 (u32 (id u) ∈ ids)) by (apply Hids; left).
    rewrite fmap_cons in Hnd. apply NoDup_cons in Hnd as [Hu Hnd].
    rewrite !filter_cons. cbn [negb andb]. rewrite andb_true_r.
    destruct (verdict u) as [p s] eqn:Ev; cbn [fst snd].
    assert (Hstep : forall ids', ids' = ids \/ ids' = ids ++ [u32 (id u)] -> forall v, v ∈ us -> u32 (id v) ∉ ids').
    { intros ids' Hd v Hv. assert (Hn : u32 (id v) ∉ ids) by (apply Hids; by right).
      destruct Hd as [-> | ->]; [done|]. rewrite elem_of_app, list_elem_of_singleton. intros [?|E]; [done|].
      apply Hu. apply list_elem_of_fmap. exists v. split; [by symmetry|done]. }
    destruct p, s; cbn [andb negb];
      (repeat first [rewrite (decide_True (P := _ = _)) by done | rewrite (decide_False (P := _ = _)) by done]);
      rewrite ?fmap_cons.
    + destruct (IH (ids ++ [u32 (id u)]) others d1 Hk1 Hnd (Hstep _ (or_intror eq_refl))) as (d2 & -> & Hk2).
      exists d2. by rewrite <- app_assoc.
    + destruct (IH ids (others ++ [u32 (id u)]) d1 Hk1 Hnd (Hstep _ (or_introl eq_refl))) as (d2 & -> & Hk2).
      exists d2. by rewrite <- app_assoc.
    + apply (IH ids others d1 Hk1 Hnd (Hstep _ (or_introl eq_refl))).
    + apply (IH ids others d1 Hk1 Hnd (Hstep _ (or_introl eq_refl))).
Qed.

(** Users that are in the list are not added again. *)
Lemma AddTargets_old users ids others d :
  (forall dev, known dev d = known dev d0) ->
  (forall u, u ∈ users -> (verdict u).1 = true -> u32 (id u) ∈ ids) ->
  exists d', fold_left (AddTarget local target acl) users (ids, others, d) = (ids, others, d') /\
    (forall dev, known dev d' = known dev d0).
Proof.
  revert d. induction users as [|u us IH]; intros d Hk Hids; [by exists d|].
  cbn [fold_left]. destruct (AddTarget_eq ids others d u Hk) as (d1 & -> & Hk1).
  replace ((verdict u).1 && negb (bool_decide (u32 (id u) ∈ ids))) with false; cbn [andb].
  - apply IH; [done|]. intros v Hv. apply Hids. by right.
  - destruct (verdict u).1 eqn:E; [|done]. rewrite bool_decide_eq_true_2; [done|]. by apply Hids; [left|].
Qed.
End Targets.

Lemma verdict_ordinary local target acl d u :
  s32 (userId local) <> SYSTEM_USER ->
  (exists same, verdict local target acl d u = (true, same)) <->
  users_match localUuid (s32 (userId local)) (id u) target d /\ trusted (acl (id u)).
Proof.
  intros Hl. unfold verdict.
  pose proof (CheckAccess_policy localUuid reliable (s32 (userId local)) (id u) target (acl (id u)) d) as Hp.
  destruct (CheckAccess _ _ _ _ _ d) as [[p s] ?]. destruct Hp as (Hp & _). cbn [fst]. unfold policy in Hp. naive_solver.
Qed.

Lemma verdict_same local target acl d u same :
  verdict local target acl d u = (true, same) -> s32 (userId local) <> SYSTEM_USER ->
  IsSameAccount (accCaller (acl (id u))) (accCallee (acl (id u))) = same.
Proof.
  intros Hv Hl. destruct (proj1 (verdict_ordinary local target acl d u Hl)) as [Hm Ht]; [by eexists|].
  unfold verdict in Hv.
  pose proof (CheckAccess_policy localUuid reliable (s32 (userId local)) (id u) target (acl (id u)) d) as Hp.
  destruct (CheckAccess _ _ _ _ _ d) as [[p s] ?]. destruct Hp as (_ & Hs & _). cbn [fst] in Hv.
  injection Hv as -> ->. destruct same; [by apply Hs|]. apply not_true_iff_false. intros E. naive_solver.
Qed.

Lemma NoDup_u32 us :
  NoDup (id <$> us) -> Forall (fun u => in_s 32 (id u)) us -> NoDup ((u32 ∘ id) <$> us).
Proof.
  induction us as [|u us IH]; cbn; [done|]. rewrite !NoDup_cons, Forall_cons. intros [Hu Hnd] [Hr Hall].
  split; [|by apply IH]. rewrite list_elem_of_fmap. intros (v & Hv & Hin). apply Hu. apply list_elem_of_fmap.
  exists v. split; [|done]. rewrite Forall_forall in Hall. cbn in Hv.
  rewrite <- (s32_u32 (id u)), <- (s32_u32 (id v)) by auto. by rewrite Hv.
Qed.
End Reliable.

Definition same_account (acl : Z -> AclParams) (u : Z) : bool :=
  IsSameAccount (accCaller (acl (s32 u))) (accCallee (acl (s32 u))).

Lemma same_account_filter local target acl d us b :
  (forall k l d, (LoadMeta (V := UserMetaData) k l d).1 = stored d l k) ->
  s32 (userId local) <> SYSTEM_USER -> Forall (fun u => in_s 32 (id u)) us ->
  Forall (fun u => same_account acl u = b)
    ((u32 ∘ id) <$> filter (fun u => verdict local target acl d u = (true, b)) us).
Proof.
  intros Hrel Hls Hus. rewrite Forall_forall in Hus. apply Forall_forall.
  intros u (u0 & -> & [Hv Hin]%list_elem_of_filter)%list_elem_of_fmap.
  unfold same_account. cbn. rewrite s32_u32 by auto. by apply (verdict_same Hrel) in Hv.
Qed.

(** C34: A session addresses exactly the users of the peer the access policy
    permits, each once, those of the same account before the others; a session of
    the system user addresses the system user. When the store is unknown nobody
    else is addressed, and building a session changes nothing that is known of the
    users. *)
Theorem GetSession_targets local target d :
  (forall k l d, (LoadMeta (V := UserMetaData) k l d).1 = stored d l k) ->
  well_formed d -> in_u 32 (userId local) -> Forall (fun u => in_s 32 (id u)) (statuses (known target d)) ->
  let '(s, d') := GetSession local target d in
  NoDup (targetUserIds s) /\ (forall dev, known dev d' = known dev d) /\
  if userId local =? SYSTEM_USER then targetUserIds s = [SYSTEM_USER]
  else
    match GetSendAuthParams local target with
    | None => targetUserIds s = []
    | Some acl =>
        (forall u, u ∈ targetUserIds s <->
           exists p, u = u32 p /\ users_match localUuid (s32 (userId local)) p target d /\ trusted (acl p)) /\
        exists same others, targetUserIds s = same ++ others /\
          Forall (fun u => same_account acl u = true) same /\ Forall (fun u => same_account acl u = false) others
    end.
Proof.
  intros Hrel Hw Hlu Hr. unfold GetSession.
  pose proof (GetRemoteUserStatus_known Hrel target d) as Hg.
  destruct (GetRemoteUserStatus target d) as [us d1]. destruct Hg as (Hus & Hk & _).
  destruct (GetSendAuthParams local target) as [acl|].
  2:{ destruct (userId local =? SYSTEM_USER); cbn [targetUserIds]; (split_and!; [repeat constructor; set_solver|done|done]). }
  destruct (Z.eqb_spec (userId local) SYSTEM_USER) as [El|El].
  - destruct (AddTargets_old Hrel local target acl d us [SYSTEM_USER] [] d1 Hk) as (d2 & -> & Hk2).
    { intros u _ Hv. unfold verdict in Hv.
      pose proof (CheckAccess_policy localUuid Hrel (s32 (userId local)) (id u) target (acl (id u)) d) as Hp.
      destruct (CheckAccess _ _ _ _ _ d) as [[p sm] ?]. destruct Hp as ([Hp _] & _). cbn [fst] in Hv.
      destruct (Hp Hv) as [[_ ->]|[(Hn & _) _]]; [apply list_elem_of_singleton; reflexivity|]. by rewrite El in Hn. }
    cbn [targetUserIds]. rewrite app_nil_r. split_and!; [repeat constructor; set_solver|done|done].
  - assert (Hls : s32 (userId local) <> SYSTEM_USER) by (intros E; apply El; by apply s32_zero).
    assert (Hin : Forall (fun u => in_s 32 (id u)) us) by (rewrite Hus; by destruct (bool_decide (target = ""))).
    assert (Hnd : NoDup ((u32 ∘ id) <$> us)).
    { apply NoDup_u32; [|done]. rewrite Hus; destruct (bool_decide (target = "")); [constructor|].
      unfold statuses. rewrite <- list_fmap_compose. by apply ordered_NoDup, known_ordered. }
    destruct (AddTargets_new Hrel local target acl d us [] [] d1 Hk Hnd) as (d2 & -> & Hk2).
    { intros u _. apply not_elem_of_nil. }
    cbn [targetUserIds app]. split_and!; [|done| |].
    + apply NoDup_fmap_filters; [done|]. intros u -> [=].
    + intros u. rewrite elem_of_app, !list_elem_of_fmap. split.
      * assert (Hpol : forall u0 b, verdict local target acl d u0 = (true, b) ->
          users_match localUuid (s32 (userId local)) (id u0) target d /\ trusted (acl (id u0))).
        { intros u0 b Hv. apply (verdict_ordinary Hrel); [done|by eexists]. }
        intros [(u0 & -> & [Hv _]%list_elem_of_filter)|(u0 & -> & [Hv _]%list_elem_of_filter)];
          exists (id u0); by apply Hpol in Hv.
      * intros (p & -> & Hm & Ht). destruct Hm as (H1 & H2 & H3 & Hne & Hact).
        destruct (proj2 (verdict_ordinary Hrel local target acl d (mkUser p true) Hls)) as [b Hv]; [done|].
        assert (Hu : mkUser p true ∈ us) by (by rewrite Hus, bool_decide_eq_false_2).
        destruct b; [left|right]; exists (mkUser p true); (split; [done|]); by apply list_elem_of_filter.
    + eexists _, _. split_and!; [done|by apply same_account_filter..].
Qed.

(** ** The users that receive a message *)

Definition accepted (s : Session) (accountFlag : bool) (u : Z) (d : Delegate) : Prop :=
  exists acl, GetRecvAuthParams (local_point s u) (peer_point s) accountFlag = Some acl /\
    policy localUuid (s32 u) (s32 (sourceUserId s)) (sourceDeviceId s) acl d /\
    (u <> SYSTEM_USER -> IsUserForeground (s32 u) = true).

Lemma CheckSession_accepted s accountFlag u d :
  (forall k l d, (LoadMeta (V := UserMetaData) k l d).1 = stored d l k) ->
  let '(ok, d') := CheckSession (local_point s u) (peer_point s) accountFlag d in
  (ok = true <-> accepted s accountFlag u d) /\ (forall dev, known dev d' = known dev d).
Proof.
  intros Hrel. unfold CheckSession, accepted. destruct (GetRecvAuthParams _ _ _) as [acl|]; [|naive_solver].
  cbn [userId deviceId local_point peer_point].
  pose proof (CheckAccess_policy localUuid Hrel (s32 u) (s32 (sourceUserId s)) (sourceDeviceId s) acl d) as Hp.
  destruct (CheckAccess _ _ _ _ _ d) as [[p sm] d']. destruct Hp as (Hp & _ & Hk & _). split; [|done].
  destruct (Z.eqb_spec u SYSTEM_USER), p; cbn [andb negb]; naive_solver.
Qed.

Lemma accepted_known s accountFlag u d d' :
  (forall dev, known dev d' = known dev d) -> accepted s accountFlag u d' <-> accepted s accountFlag u d.
Proof.
  intros Hk. unfold accepted, policy, users_match.
  by setoid_rewrite (active_known localUuid (s32 u) d d' Hk);
     setoid_rewrite (active_known (sourceDeviceId s) (s32 (sourceUserId s)) d d' Hk).
Qed.

Lemma AddReceivers_spec s accountFlag us infos d :
  (forall k l d, (LoadMeta (V := UserMetaData) k l d).1 = stored d l k) ->
  let '(infos', d') := fold_left (AddReceiver s accountFlag) us (infos, d) in
  (forall dev, known dev d' = known dev d) /\
  forall i, i ∈ infos' <-> i ∈ infos \/
    exists u, u ∈ us /\ i = mkInfo (to_string u) (to_string (sourceUserId s)) /\ accepted s accountFlag u d.
Proof.
  intros Hrel. revert infos d. induction us as [|u us IH]; intros infos d; cbn [fold_left].
  - split; [done|]. intros i. set_solver.
  - unfold AddReceiver at 2. pose proof (CheckSession_accepted s accountFlag u d Hrel) as Hc.
    destruct (CheckSession _ _ _ d) as [ok d1]. destruct Hc as [Hok Hk1].
    specialize (IH (if ok then infos ++ [mkInfo (to_string u) (to_string (sourceUserId s))] else infos) d1).
    destruct (fold_left _ us _) as [infos' d']. destruct IH as [Hk IH]. split; [intros dev; by rewrite Hk|].
    intros i. rewrite IH. setoid_rewrite (accepted_known s accountFlag _ d d1 Hk1).
    setoid_rewrite elem_of_cons. destruct ok.
    + rewrite elem_of_app, list_elem_of_singleton. naive_solver.
    + naive_solver.
Qed.

(** The receivers of a message are exactly the addressed users that the
    access policy of the receiving device permits for the sending user and that are
    in the foreground (the system user need not be); a message of a store that only
    the sender's system user has goes to the foreground user. Each names the sending
    user. *)
Lemma ParseHeadDataUser_receivers h data totalLen label d infos h' d' :
  (forall k l d, (LoadMeta (V := UserMetaData) k l d).1 = stored d l k) ->
  ParseHeadDataUser h (Some data) totalLen label [] d = Some (true, infos, h', d') ->
  let s := session_ h' in
  (forall dev, known dev d' = known dev d) /\
  if to_foreground s label then infos = [mkInfo (to_string QueryForegroundUserId) (to_string (sourceUserId s))]
  else exists version, GetCapability (sourceDeviceId s) = Some version /\
    forall i, i ∈ infos <-> exists u, u ∈ targetUserIds s /\ i = mkInfo (to_string u) (to_string (sourceUserId s)) /\
      accepted s (RouteHead.ACCOUNT_VERSION <=? version) u d.
Proof.
  intros Hrel Hp. unfold ParseHeadDataUser in Hp.
  destruct (RouteHead.UnPackData _ _ _ _ _) as [[[ret s] n]|]; cbn [mbind option_bind] in Hp; [|done].
  destruct ret; cbn [negb] in Hp; [|done].
  destruct (to_foreground s label) eqn:Ef; [injection Hp as <- <- <-; cbn; by rewrite Ef|].
  destruct (GetCapability (sourceDeviceId s)) as [v|] eqn:Ec; [|done].
  pose proof (AddReceivers_spec s (RouteHead.ACCOUNT_VERSION <=? v) (targetUserIds s) [] d Hrel) as Ha.
  destruct (fold_left _ _ _) as [infos0 d0]. injection Hp as <- <- <-. destruct Ha as [Hk Ha]. cbn [session_ app].
  split; [done|]. rewrite Ef. exists v. split; [done|]. intros i. rewrite Ha, elem_of_nil. naive_solver.
Qed.
End Manager.

(** *** Witnesses *)

#[local] Existing Instances GmapConcurrent MapMetaStore.

(** User 102 of the peer has the same account; everybody is trusted. *)
#[local] Instance sample_trust : Trust :=
  {| AuthType_DEFAULT := 0; IDENTICAL_ACCOUNT := 1;
     IsSameAccount := fun _ callee => callee_userId callee =? 102; CheckAccessControl := fun _ _ => true |}.

#[local] Instance sample_services : Services :=
  {| StoreMetas := fun _ => Some [mkStore "com.app" "store" "bundle" 0]; HasStore := fun _ _ _ _ => false;
     ToNetworkID := fun d => d; GetCurrentAccountId := "account"; QueryForegroundUserId := 100;
     IsUserForeground := fun u => u =? 100; IsOHOSType := fun _ => true;
     GetKvStoreIdentifier := fun a s => a +:+ s; processLabel := "service"; metaDBName := "meta";
     localUuid := "target"; GetCapability := fun _ => Some 3 |}.

Definition sample_delegate : Delegate :=
  mkDelegate {[ "target" := [(0, true); (100, true); (101, true)];
                "source" := [(0, true); (100, true); (101, false); (102, true)] ]} ∅.

Lemma GetSession_targets_witness :
  let local := mkPoint "target" 100 "com.app" "store" "account" in
  targetUserIds (GetSession local "source" sample_delegate).1 = [102; 100] /\
  NoDup (targetUserIds (GetSession local "source" sample_delegate).1).
Proof.
  intros local. split; [by vm_compute|].
  pose proof (GetSession_targets local "source" sample_delegate (fun k l d => eq_refl)) as Hg.
  destruct (GetSession local "source" sample_delegate) as [s d'] eqn:E. apply Hg.
  - intros dev us Hl. change (({[ "target" := [(0, true); (100, true); (101, true)];
      "source" := [(0, true); (100, true); (101, false); (102, true)] ]} : gmap string _) !! dev = Some us) in Hl.
    apply lookup_insert_Some in Hl as [[_ <-]|[_ Hl]]; [repeat constructor|].
    apply lookup_singleton_Some in Hl as [_ <-]. repeat constructor.
  - by_decide.
  - by_decide.
Defined.

Definition sample_message : list Z :=
  match RouteHead.FillHeadData (H := RouteHead.plain_securec) (RouteHead.set_headSize 192 RouteHead.sample_handler)
          (Some (replicate 192 0)) 192 with
  | Some (_, Some data) => data
  | _ => []
  end.

Lemma ParseHeadDataUser_receivers_witness :
  let h := mkHandler "100" "com.app" "store" "source" (mkSession "" "" 0 [] "" "" "") 0 in
  exists h' d', ParseHeadDataUser h (Some sample_message) 192 "label" [] sample_delegate
                = Some (true, [mkInfo "100" "100"], h', d') /\
    accepted (session_ h') true 100 sample_delegate.
Proof.
  intros h.
  assert (Hr : option_map (fun r => (r.1.1.1, r.1.1.2, session_ r.1.2))
      (ParseHeadDataUser h (Some sample_message) 192 "label" [] sample_delegate)
    = Some (true, [mkInfo "100" "100"], RouteHead.sample_session)) by (vm_compute; reflexivity).
  destruct (ParseHeadDataUser h _ _ _ _ _) as [[[[ok infos] h'] d']|] eqn:E; [|done]. injection Hr as -> -> Es.
  exists h', d'. split; [done|].
  destruct (ParseHeadDataUser_receivers h sample_message 192 "label" sample_delegate _ h' d'
    (fun k l d => eq_refl) E) as [_ Hi0]. rewrite Es in Hi0 |- *. clear E Es.
  destruct Hi0 as (v & [= <-] & Hi). destruct (proj1 (Hi (mkInfo "100" "100"))) as (u & Hu & Hs & Ha); [left|].
  cbn in Hu. rewrite !elem_of_cons, elem_of_nil in Hu. destruct Hu as [->|[->|[]]]; [done|]. by vm_compute in Hs.
Defined.
End SessionManager.
