(* ===== verification/UpgradeManager.v ===== *)
(** * Capabilities of the devices ([app/src/session_manager/upgrade_manager.cpp])

    Every device publishes the version of its service in the synchronised
    metadata; the manager caches the versions of the others, follows the changes of
    their metadata and answers with which version a peer is to be addressed. *)

From Stdlib Require Import Ascii.
From S2P Require Import Prelude CppString Interfaces Constant.

Module UpgradeManager.

Definition CURRENT_VERSION : Z := 3.
Definition INVALID_VERSION : Z := -1.

(* @src framework/include/metadata/capability_meta_data.h 21-34 CapMetaData *)
Record CapMetaData := mkCap { version : Z; deviceId : string }.
Definition default_cap : CapMetaData := mkCap INVALID_VERSION "".

Definition KEY_PREFIX : string := "CapabilityMeta".

(* @src framework/metadata/capability_meta_data.cpp 42-46 CapMetaRow::GetKeyFor *)
Definition GetKeyFor (key : string) : string :=
  Constant.Concatenate [KEY_PREFIX; Constant.KEY_SEPARATOR; key].

(** [None] when splitting does not terminate, which is excluded below. *)
(* @src framework/metadata/capability_meta_data.cpp 48-55 CapMetaRow::GetDeviceId *)
Definition GetDeviceId (key : string) : option string :=
  items ← Constant.Split key Constant.KEY_SEPARATOR;
  Some match items with
       | prefix :: device :: _ => if bool_decide (prefix = KEY_PREFIX) then device else ""
       | _ => ""
       end.

Inductive Flag : Type := INSERT | UPDATE | DELETE | OtherFlag.

Section Manager.
Context {CC : ConcurrentMap string CapMetaData} {MC : MetaStore CapMetaData}.

Record Manager := mkManager { capabilities_ : cmap string CapMetaData; capDb : meta_db CapMetaData }.

(** The observer of the capability metadata. [value] is what the notified value
    unmarshals to; it is [None] when the notification has no value. *)
(* @src app/src/session_manager/upgrade_manager.cpp 33-60 UpgradeManager::Init *)
Definition OnCapMeta (localUuid key : string) (value : option CapMetaData) (flag : Flag) (m : Manager)
    : option (bool * Manager) :=
  let '(capMeta, m) :=
    match value with
    | Some c => (c, m)
    | None => let '(r, db) := LoadMeta key false (capDb m) in (default default_cap r, mkManager (capabilities_ m) db)
    end in
  device ← GetDeviceId key;
  if bool_decide (device = "") then Some (false, m)
  else if bool_decide (device = localUuid) then Some (true, m)
  else
    let capMeta := mkCap (version capMeta) (if bool_decide (deviceId capMeta = "") then device else deviceId capMeta) in
    Some (true, match flag with
                | INSERT | UPDATE => mkManager (InsertOrAssign (deviceId capMeta) capMeta (capabilities_ m)) (capDb m)
                | DELETE => mkManager (Erase (deviceId capMeta) (capabilities_ m)) (capDb m)
                | OtherFlag => m
                end).

(** The capability and the status. *)
(* @src app/src/session_manager/upgrade_manager.cpp 77-95 UpgradeManager::GetCapability *)
Definition GetCapability (device : string) (m : Manager) : CapMetaData * bool * Manager :=
  match cm_view (capabilities_ m) !! device with
  | Some c => (c, true, m)
  | None =>
      match LoadMeta (GetKeyFor device) false (capDb m) with
      | (Some c, db) => (c, true, mkManager (Insert device c (capabilities_ m)) db)
      | (None, db) => (default_cap, false, mkManager (capabilities_ m) db)
      end
  end.

(* @src app/src/session_manager/upgrade_manager.cpp 97-110 UpgradeManager::InitLocalCapability *)
Definition InitLocalCapability (localUuid : string) (m : Manager) : bool * Manager :=
  let cap := mkCap CURRENT_VERSION localUuid in
  let '(status, db) := SaveMeta (GetKeyFor localUuid) cap false (capDb m) in
  (status, mkManager (if (status : bool) then Insert localUuid cap (capabilities_ m) else capabilities_ m) db).

(** ** Lookups *)

(** Device identifiers as the device manager hands them out. *)
Definition valid_device (d : string) : Prop := d <> "" /\ "#"%char ∉ chars d.

Lemma GetKeyFor_join d : GetKeyFor d = Constant.Join KEY_PREFIX Constant.KEY_SEPARATOR [d].
Proof. unfold GetKeyFor, Constant.Concatenate, Constant.Join. cbn. by destruct d. Qed.

Lemma GetDeviceId_GetKeyFor d : valid_device d -> GetDeviceId (GetKeyFor d) = Some d.
Proof.
  intros [Hne Hd]. unfold GetDeviceId. rewrite GetKeyFor_join.
  rewrite (Constant.split_joined KEY_PREFIX Constant.KEY_SEPARATOR "#"%char [d]).
  - done.
  - done.
  - repeat constructor; [by_decide|done].
  - cbn. congruence.
Qed.

Lemma GetKeyFor_inj d d' : GetKeyFor d = GetKeyFor d' -> d = d'.
Proof. unfold GetKeyFor, Constant.Concatenate. cbn. intros E. by simplify_eq. Qed.

(** ** The life of the manager

    The synchronisation changes the metadata of a remote device and notifies the
    manager; clients ask for capabilities; the device publishes its own. *)
Section Life.
Context (localUuid : string).

Inductive step : Manager -> Manager -> Prop :=
| step_published m dev v flag db b m' :
    valid_device dev -> dev <> localUuid -> flag = INSERT \/ flag = UPDATE ->
    SaveMeta (GetKeyFor dev) (mkCap v dev) false (capDb m) = (true, db) ->
    OnCapMeta localUuid (GetKeyFor dev) (Some (mkCap v dev)) flag (mkManager (capabilities_ m) db) = Some (b, m') ->
    step m m'
| step_removed m dev value db b m' :
    valid_device dev -> dev <> localUuid -> (forall c, value = Some c -> deviceId c = dev) ->
    (forall k l, stored db l k = if bool_decide (l = false /\ k = GetKeyFor dev) then None else stored (capDb m) l k) ->
    OnCapMeta localUuid (GetKeyFor dev) value DELETE (mkManager (capabilities_ m) db) = Some (b, m') ->
    step m m'
| step_get m dev : step m (GetCapability dev m).2
| step_init m : step m (InitLocalCapability localUuid m).2.

Definition initial (m : Manager) : Prop := cm_view (capabilities_ m) = ∅.

(** The cached capabilities of the other devices are the published ones. *)
Definition current (m : Manager) : Prop :=
  forall dev c, dev <> localUuid -> cm_view (capabilities_ m) !! dev = Some c ->
    stored (capDb m) false (GetKeyFor dev) = Some c.

Lemma get_current dev m : current m -> current (GetCapability dev m).2.
Proof.
  intros Hc. unfold GetCapability. destruct (cm_view (capabilities_ m) !! dev) as [c|] eqn:E; [done|].
  destruct (LoadMeta _ _ _) as [[c|] db] eqn:El; intros dev' c' Hne; cbn [snd capabilities_ capDb].
  - pose proof (LoadMeta_stored (GetKeyFor dev) false (capDb m)) as Hs. rewrite El in Hs. cbn in Hs. rewrite Hs, Insert_view, E.
    intros [[<- <-]|[_ Hl]]%lookup_insert_Some; [by apply LoadMeta_result in El|by apply Hc].
  - pose proof (LoadMeta_stored (GetKeyFor dev) false (capDb m)) as Hs. rewrite El in Hs. cbn in Hs. rewrite Hs. by apply Hc.
Qed.

Lemma saved_current dev cap db m dev' c :
  SaveMeta (GetKeyFor dev) cap false (capDb m) = (true, db) -> current m -> dev' <> localUuid -> dev' <> dev ->
  cm_view (capabilities_ m) !! dev' = Some c -> stored db false (GetKeyFor dev') = Some c.
Proof.
  intros Hs Hc Hl Hne Hv. rewrite (SaveMeta_ok _ _ _ _ _ Hs), bool_decide_eq_false_2; [by apply Hc|].
  intros [_ E]. by apply GetKeyFor_inj in E.
Qed.

Lemma removed_deviceId dev value db b m m' :
  valid_device dev -> dev <> localUuid -> (forall c, value = Some c -> deviceId c = dev) ->
  stored db false (GetKeyFor dev) = None ->
  OnCapMeta localUuid (GetKeyFor dev) value DELETE (mkManager (capabilities_ m) db) = Some (b, m') ->
  cm_view (capabilities_ m') = delete dev (cm_view (capabilities_ m)) /\ stored (capDb m') = stored db.
Proof.
  intros Hd Hl Hv Hn. unfold OnCapMeta. destruct value as [c|].
  - rewrite GetDeviceId_GetKeyFor by done. cbn [mbind option_bind].
    rewrite !(bool_decide_eq_false_2 (dev = _)) by (by destruct Hd). intros [= _ <-]. cbn. rewrite Erase_view, (Hv c) by done.
    by rewrite bool_decide_eq_false_2 by (by destruct Hd).
  - pose proof (LoadMeta_stored (GetKeyFor dev) false db) as Hs. cbn [capDb].
    destruct (LoadMeta _ _ _) as [[c|] db'] eqn:El; [apply LoadMeta_result in El; congruence|]. cbn in Hs.
    rewrite GetDeviceId_GetKeyFor by done. cbn [mbind option_bind].
    rewrite !(bool_decide_eq_false_2 (dev = _)) by (by destruct Hd). intros [= _ <-]. cbn. by rewrite Erase_view.
Qed.

Lemma step_current m m' : current m -> step m m' -> current m'.
Proof.
  intros Hc Hs. destruct Hs as [m dev v flag db b m' Hd Hl Hf Hsave Ho|m dev value db b m' Hd Hl Hval Hdb Ho|m dev|m].
  - assert (E : m' = mkManager (InsertOrAssign dev (mkCap v dev) (capabilities_ m)) db).
    { unfold OnCapMeta in Ho. rewrite GetDeviceId_GetKeyFor in Ho by done. cbn [mbind option_bind deviceId version] in Ho.
      rewrite !(bool_decide_eq_false_2 (dev = _)) in Ho by (by destruct Hd). by destruct Hf as [-> | ->]; injection Ho as _ <-. }
    subst m'. intros dev' c Hne. cbn [capabilities_ capDb]. rewrite InsertOrAssign_view.
    intros [[<- <-]|[Hd' Hv]]%lookup_insert_Some; [|by eapply saved_current].
    by rewrite (SaveMeta_ok _ _ _ _ _ Hsave), bool_decide_eq_true_2.
  - apply removed_deviceId in Ho as [Hv Hst]; [|done..|by rewrite Hdb, bool_decide_eq_true_2].
    intros dev' c Hne. rewrite Hv, Hst. intros [Hd' Hv']%lookup_delete_Some. rewrite Hdb, bool_decide_eq_false_2; [by apply Hc|].
    intros [_ E]. by apply GetKeyFor_inj in E.
  - by apply get_current.
  - unfold InitLocalCapability. destruct (SaveMeta _ _ _ _) as [[] db] eqn:E; intros dev' c Hne; cbn [snd capabilities_ capDb].
    + rewrite Insert_view, lookup_insert_ne by done. by eapply saved_current.
    + rewrite (SaveMeta_fail _ _ _ _ _ E). by apply Hc.
Qed.

(** Whatever the other devices publish and in whatever order it is asked for,
    the capability reported for a peer is the one its metadata currently holds;
    when none can be loaded the status says so and the version is the invalid one. *)
Lemma GetCapability_current m dev c status m' :
  reachable initial step m -> dev <> localUuid -> GetCapability dev m = (c, status, m') ->
  if (status : bool) then stored (capDb m) false (GetKeyFor dev) = Some c else version c = INVALID_VERSION.
Proof.
  intros Hr Hne Hg. assert (Hc : current m).
  { eapply (reachable_invariant _ _ current); [|by intros; eapply step_current|exact Hr].
    intros m0 Hi dev' c' _. rewrite Hi. by rewrite lookup_empty. }
  unfold GetCapability in Hg. destruct (cm_view (capabilities_ m) !! dev) as [c0|] eqn:E.
  - injection Hg as <- <- <-. by apply Hc.
  - destruct (LoadMeta _ _ _) as [[c0|] db] eqn:El; injection Hg as <- <- <-; [by apply LoadMeta_result in El|done].
Qed.
End Life.
End Manager.

#[local] Existing Instances GmapConcurrent MapMetaStore.

(** A peer is asked for, upgrades itself, and is asked for again. *)
Lemma GetCapability_current_witness :
  let m0 := mkManager ∅ {[ (false, GetKeyFor "peer") := mkCap 1 "peer" ]} in
  let m1 := (GetCapability "peer" m0).2 in
  let m2 := mkManager (InsertOrAssign "peer" (mkCap 3 "peer") (capabilities_ m1))
              (SaveMeta (GetKeyFor "peer") (mkCap 3 "peer") false (capDb m1)).2 in
  exists m3, GetCapability "peer" m2 = (mkCap 3 "peer", true, m3) /\ reachable initial (step "local") m2 /\
    stored (capDb m2) false (GetKeyFor "peer") = Some (mkCap 3 "peer").
Proof.
  intros m0 m1 m2. exists m2. split; [reflexivity|].
  assert (Hd : valid_device "peer") by (by split; by_decide).
  assert (Hr : reachable initial (step "local") m2).
  { apply reach_step with m1.
    - apply reach_step with m0; [by apply reach_init|]. apply step_get.
    - eapply (step_published "local" m1 "peer" 3 UPDATE); [done|done|by right|reflexivity|].
      unfold OnCapMeta. by rewrite (GetDeviceId_GetKeyFor "peer" Hd). }
  split; [done|]. exact (GetCapability_current "local" m2 "peer" _ true m2 Hr ltac:(done) eq_refl).
Defined.

(** The own capability is inserted, not assigned: the version that an older
    software has published and that was asked for before stays in the cache. *)
Lemma local_capability_stale :
  let m0 := mkManager ∅ {[ (false, GetKeyFor "local") := mkCap 2 "local" ]} in
  let m1 := (InitLocalCapability "local" (GetCapability "local" m0).2).2 in
  stored (capDb m1) false (GetKeyFor "local") = Some (mkCap CURRENT_VERSION "local") /\
  (GetCapability "local" m1).1 = (mkCap 2 "local", true).
Proof. split; reflexivity. Qed.
End UpgradeManager.
