(* ===== verification/Serializable.v ===== *)
(** * JSON serialization ([framework/serializable/serializable.cpp], [serializable.h])

    The metadata is stored as JSON text. A JSON value is a tree whose objects are
    finite maps; numbers keep the distinction of the JSON library between signed
    and unsigned integers. The library's writer and reader of text are behind
    [JsonText]: reading what was written gives the tree back, except that a
    non-negative signed number comes back as an unsigned one.

    [SetValue] and [GetValue] are overloaded on the type of the value; here each
    overload belongs to a [codec]. A codec has the two functions, the values of
    the C++ type ([valid]), those that survive writing and reading ([kept]), the
    values a target may have before it is filled ([fresh]), and proofs that any node leaves a valid target valid and that a
    value is read back as it was written. The overloads for [double], byte vectors,
    pointers and variants are not modelled. *)

From S2P Require Import Prelude.

Module Serializable.

Inductive json : Type :=
| JNull
| JBool (b : bool)
| JInt (z : Z)          (* number_integer *)
| JUint (z : Z)         (* number_unsigned *)
| JString (s : string)
| JArray (l : list json)
| JObject (m : gmap string json).

(** A tree after it was written as text and read again. *)
Fixpoint reparse (j : json) : json :=
  match j with
  | JInt z => if 0 <=? z then JUint z else JInt z
  | JArray l => JArray (reparse <$> l)
  | JObject m => JObject (reparse <$> m)
  | _ => j
  end.

(* @src framework/serializable/serializable.cpp 226-242 Serializable::GetSubNode *)
Definition GetSubNode (node : json) (name : string) : json :=
  match node with
  | JNull => JNull
  | _ => if bool_decide (name = "") then node
         else match node with JObject m => default JNull (m !! name) | _ => JNull end
  end.

(** [node[name] = value]: a null node becomes an object. Other nodes are never
    written to. *)
Definition put (name : string) (value node : json) : json :=
  match node with
  | JNull => JObject {[name := value]}
  | JObject m => JObject (<[name := value]> m)
  | _ => node
  end.

Definition is_object (j : json) : bool := match j with JObject _ => true | _ => false end.

(** ** The overloads *)

(* @src framework/serializable/serializable.cpp 173-177 Serializable::SetValue *)
Definition SetString (v : string) : json := JString v.
(* @src framework/serializable/serializable.cpp 66-74 Serializable::GetValue *)
Definition GetString (node : json) (v : string) : bool * string :=
  match node with JString s => (true, s) | _ => (false, v) end.

(** Unsigned integers of [w] bits. *)
(* @src framework/serializable/serializable.cpp 179-183 Serializable::SetValue *)
Definition SetU32 (v : Z) : json := JUint v.
(* @src framework/serializable/serializable.cpp 76-84 Serializable::GetValue *)
Definition GetU32 (node : json) (v : Z) : bool * Z :=
  match node with JUint z => (true, u32 z) | _ => (false, v) end.
(* @src framework/serializable/serializable.cpp 203-207 Serializable::SetValue *)
Definition SetU64 (v : Z) : json := JUint v.
(* @src framework/serializable/serializable.cpp 106-114 Serializable::GetValue *)
Definition GetU64 (node : json) (v : Z) : bool * Z :=
  match node with JUint z => (true, u64 z) | _ => (false, v) end.
(* @src framework/serializable/serializable.cpp 209-213 Serializable::SetValue *)
Definition SetU16 (v : Z) : json := JUint v.
(* @src framework/serializable/serializable.cpp 116-124 Serializable::GetValue *)
Definition GetU16 (node : json) (v : Z) : bool * Z :=
  match node with JUint z => (true, u16 z) | _ => (false, v) end.

(** Signed integers; [is_number_integer] holds of unsigned numbers too. *)
(* @src framework/serializable/serializable.cpp 185-189 Serializable::SetValue *)
Definition SetI32 (v : Z) : json := JInt v.
(* @src framework/serializable/serializable.cpp 86-94 Serializable::GetValue *)
Definition GetI32 (node : json) (v : Z) : bool * Z :=
  match node with JInt z | JUint z => (true, s32 z) | _ => (false, v) end.
(* @src framework/serializable/serializable.cpp 191-195 Serializable::SetValue *)
Definition SetI64 (v : Z) : json := JInt v.
(* @src framework/serializable/serializable.cpp 96-104 Serializable::GetValue *)
Definition GetI64 (node : json) (v : Z) : bool * Z :=
  match node with JInt z | JUint z => (true, s64 z) | _ => (false, v) end.

(* @src framework/include/serializable/serializable.h 74-79 SetValue *)
Definition SetBool (v : bool) : json := JBool v.
(* @src framework/serializable/serializable.cpp 126-142 Serializable::GetValue *)
Definition GetBool (node : json) (v : bool) : bool * bool :=
  match node with
  | JBool b => (true, b)
  | JUint z => (true, negb (u32 z =? 0))
  | _ => (false, v)
  end.

(** ** Codecs *)

Record codec (T : Type) := mkCodec {
  SetValue : T -> json;
  GetFrom : json -> T -> bool * T;
  blank : T;
  valid : T -> Prop;
  kept : T -> Prop;
  fresh : T -> Prop;
  blank_valid : valid blank;
  blank_fresh : fresh blank;
  GetFrom_valid j y : valid y -> valid (GetFrom j y).2;
  GetFrom_SetValue x y : valid x -> kept x -> fresh y -> GetFrom (reparse (SetValue x)) y = (true, x)
}.
Arguments mkCodec {T}.
Arguments SetValue {T}.
Arguments GetFrom {T}.
Arguments blank {T}.
Arguments valid {T}.
Arguments kept {T}.
Arguments fresh {T}.
Arguments blank_valid {T}.
Arguments blank_fresh {T}.
Arguments GetFrom_valid {T}.
Arguments GetFrom_SetValue {T}.

(** [GetValue(node, name, value)]: the status and the value. *)
Definition GetValue {T} (c : codec T) (node : json) (name : string) (v : T) : bool * T :=
  GetFrom c (GetSubNode node name) v.
(** The value alone, where the status is ignored. *)
Definition Got {T} (c : codec T) (node : json) (name : string) (v : T) : T := (GetValue c node name v).2.

#[global] Arguments GetValue : simpl never.

Definition string_c : codec string.
Proof. by refine (mkCodec SetString GetString "" (fun _ => True) (fun _ => True) (fun _ => True) _ _ _ _). Defined.

Definition bool_c : codec bool.
Proof. by refine (mkCodec SetBool GetBool false (fun _ => True) (fun _ => True) (fun _ => True) _ _ _ _). Defined.

Definition u32_c : codec Z.
Proof.
  refine (mkCodec SetU32 GetU32 0 (in_u 32) (fun _ => True) (fun _ => True) _ _ _ _); [done|done| |].
  - intros [] y Hy; cbn; try done. by apply wrap_range.
  - intros x y Hx _ _. cbn. by rewrite wrap_id.
Defined.

Definition u64_c : codec Z.
Proof.
  refine (mkCodec SetU64 GetU64 0 (in_u 64) (fun _ => True) (fun _ => True) _ _ _ _); [done|done| |].
  - intros [] y Hy; cbn; try done. by apply wrap_range.
  - intros x y Hx _ _. cbn. by rewrite wrap_id.
Defined.

Definition u16_c : codec Z.
Proof.
  refine (mkCodec SetU16 GetU16 0 (in_u 16) (fun _ => True) (fun _ => True) _ _ _ _); [done|done| |].
  - intros [] y Hy; cbn; try done. by apply wrap_range.
  - intros x y Hx _ _. cbn. by rewrite wrap_id.
Defined.

Definition i32_c : codec Z.
Proof.
  refine (mkCodec SetI32 GetI32 0 (in_s 32) (fun _ => True) (fun _ => True) _ _ _ _); [done|done| |].
  - intros [] y Hy; cbn; try done; by apply swrap_range.
  - intros x y Hx _ _. cbn. case_if; cbn; by rewrite swrap_id.
Defined.

Definition i64_c : codec Z.
Proof.
  refine (mkCodec SetI64 GetI64 0 (in_s 64) (fun _ => True) (fun _ => True) _ _ _ _); [done|done| |].
  - intros [] y Hy; cbn; try done; by apply swrap_range.
  - intros x y Hx _ _. cbn. case_if; cbn; by rewrite swrap_id.
Defined.

(** *** Vectors: the target is resized, and each element read in place. *)
Section Vector.
Context {T : Type} (c : codec T).

(* @src framework/include/serializable/serializable.h 139-150 SetValue *)
Definition SetVector (v : list T) : json := JArray (SetValue c <$> v).

Fixpoint GetElements (l : list json) (v : list T) : bool * list T :=
  match l with
  | [] => (true, [])
  | j :: l =>
      let '(ok, x) := GetFrom c j (default (blank c) (head v)) in
      let '(ok', xs) := GetElements l (tail v) in
      (ok && ok', x :: xs)
  end.

(* @src framework/include/serializable/serializable.h 124-137 GetValue *)
Definition GetVector (node : json) (v : list T) : bool * list T :=
  match node with JArray l => GetElements l v | _ => (false, v) end.

Definition vector_c : codec (list T).
Proof.
  refine (mkCodec SetVector GetVector [] (Forall (valid c)) (Forall (kept c)) (fun v => v = []) _ _ _ _); [constructor|done| |].
  - intros [] y Hy; cbn; try done. revert y Hy. induction l as [|j l IH]; intros y Hy; cbn; [constructor|].
    specialize (IH (tail y)). pose proof (GetFrom_valid c j (default (blank c) (head y))) as Hj.
    destruct (GetFrom _ _ _) as [ok x], (GetElements l (tail y)) as [ok' xs]. cbn in *. constructor.
    + apply Hj. destruct y; [apply blank_valid|]. by apply Forall_cons in Hy as [? _].
    + apply IH. destruct y; [constructor|]. by apply Forall_cons in Hy as [_ ?].
  - intros x y Hx Hk ->. cbn. induction Hx as [|a x Ha Hx IH]; cbn; [done|]. apply Forall_cons in Hk as [Hka Hk].
    cbn in IH. rewrite (GetFrom_SetValue c a _ Ha Hka (blank_fresh c)). by rewrite IH.
Defined.
End Vector.

(** *** Maps with string keys: the entries of the node are read into the target. *)
Section StringMap.
Context {T : Type} (c : codec T).

(* @src framework/include/serializable/serializable.h 166-175 SetValue *)
Definition SetMap (v : gmap string T) : json := JObject (SetValue c <$> v).

(* @src framework/include/serializable/serializable.h 152-164 GetValue *)
Definition GetMap (node : json) (v : gmap string T) : bool * gmap string T :=
  match node with
  | JObject m =>
      map_fold (fun k j r => let '(ok, x) := GetFrom c j (default (blank c) (r.2 !! k)) in (r.1 && ok, <[k := x]> r.2))
        (true, v) m
  | _ => (false, v)
  end.

Definition map_c : codec (gmap string T).
Proof.
  refine (mkCodec SetMap GetMap ∅ (map_Forall (fun _ => valid c)) (map_Forall (fun _ => kept c))
    (fun v => v = ∅) _ _ _ _);
    [apply map_Forall_empty|done| |].
  - intros [] y Hy; cbn; try done.
    apply (map_fold_weak_ind (fun r _ => map_Forall (fun _ => valid c) r.2)); [done|].
    intros k j m0 [ok r] _ Hr. cbn in *. pose proof (GetFrom_valid c j (default (blank c) (r !! k))) as Hj.
    destruct (GetFrom _ _ _) as [ok' x]. cbn in *. apply map_Forall_insert_2; [|done]. apply Hj.
    destruct (r !! k) eqn:E; [by apply (Hr k)|apply blank_valid].
  - intros x y Hx Hk0 ->. cbn. revert Hx Hk0.
    set (P := fun (r : bool * gmap string T) (m : gmap string json) =>
      forall x : gmap string T, map_Forall (fun _ => valid c) x -> map_Forall (fun _ => kept c) x -> m = reparse <$> (SetValue c <$> x) -> r = (true, x)).
    enough (HP : forall m, P (map_fold (fun k j r => let '(ok, x0) := GetFrom c j (default (blank c) (r.2 !! k)) in
      (r.1 && ok, <[k := x0]> r.2)) (true, ∅) m) m) by (intros Hx Hk0; by apply HP).
    apply (map_fold_weak_ind P).
    + intros z _ _ E. symmetry in E. apply fmap_empty_inv, fmap_empty_inv in E. by rewrite E.
    + intros k j m [ok r] Hk IH z Hz Hkz E. cbn.
      assert (Hzk : exists a, z !! k = Some a /\ j = reparse (SetValue c a)).
      { assert (El : (<[k := j]> m) !! k = (reparse <$> (SetValue c <$> z)) !! k) by (by rewrite E).
        rewrite lookup_insert_eq, !lookup_fmap in El. destruct (z !! k) as [a|]; [|done]. exists a. by injection El. }
      destruct Hzk as (a & Ha & ->).
      assert (Hm : m = reparse <$> (SetValue c <$> delete k z)).
      { rewrite <- (delete_insert_id m k (reparse (SetValue c a))) by done. rewrite E.
        by rewrite <- !fmap_delete. }
      assert (Er : (ok, r) = (true, delete k z)) by (apply IH; [by apply map_Forall_delete..|done]).
      injection Er as -> ->. cbn. rewrite lookup_delete_eq. cbn.
      rewrite (GetFrom_SetValue c a); [|by apply (Hz k)|by apply (Hkz k)|apply blank_fresh]. cbn. f_equal.
      by rewrite insert_delete_id.
Defined.
End StringMap.

(** *** Objects *)

(** [SetValue(node[name], value)] for each field in turn. *)
Definition write (fields : list (string * json)) (node : json) : json :=
  fold_left (fun node kv => put kv.1 kv.2 node) fields node.

Lemma write_app fs fs' node : write (fs ++ fs') node = write fs' (write fs node).
Proof. apply fold_left_app. Qed.

Fixpoint field (name : string) (fields : list (string * json)) : option json :=
  match fields with
  | [] => None
  | (k, v) :: fields => if String.eqb name k then Some v else field name fields
  end.

Lemma write_object fields m :
  write fields (JObject m) = JObject (fold_left (fun m kv => <[kv.1 := kv.2]> m) fields m).
Proof. revert m. induction fields as [|[k v] fs IH]; intros m; [done|]. apply IH. Qed.

Lemma fold_insert_lookup (fields : list (string * json)) (m : gmap string json) name :
  NoDup fields.*1 ->
  fold_left (fun m kv => <[kv.1 := kv.2]> m) fields m !! name
  = match field name fields with Some v => Some v | None => m !! name end.
Proof.
  revert m. induction fields as [|[k v] fs IH]; intros m Hnd; [done|]. cbn in Hnd. apply NoDup_cons in Hnd as [Hk Hnd].
  cbn. rewrite IH by done. destruct (String.eqb_spec name k) as [->|Hne].
  - assert (Hf : field k fs = None).
    { clear -Hk. induction fs as [|[k' v'] fs IH]; [done|]. cbn in *. rewrite not_elem_of_cons in Hk. destruct Hk as [Hne Hk].
      destruct (String.eqb_spec k k'); [done|]. by apply IH. }
    by rewrite Hf, lookup_insert_eq.
  - destruct (field name fs); [done|]. by rewrite lookup_insert_ne.
Qed.

Lemma write_null fields : fields <> [] -> write fields JNull = write fields (JObject ∅).
Proof. destruct fields as [|[k v] fs]; [done|]. intros _. cbn. by rewrite insert_empty. Qed.

(** A field of a written object is read back. *)
Lemma GetValue_written {T} (c : codec T) fields name x y :
  NoDup fields.*1 -> name <> "" -> field name fields = Some (SetValue c x) -> valid c x -> kept c x -> fresh c y ->
  GetValue c (reparse (write fields JNull)) name y = (true, x).
Proof.
  intros Hnd Hn Hf Hx Hkx Hy. rewrite write_null by (by intros ->). rewrite write_object. cbn [reparse].
  unfold GetValue, GetSubNode. rewrite bool_decide_eq_false_2 by done.
  rewrite lookup_fmap, fold_insert_lookup, Hf by done. by apply GetFrom_SetValue.
Qed.

(** A field that was not written is not found. *)
Lemma GetValue_absent {T} (c : codec T) fields name y :
  (forall v, (GetFrom c JNull v) = (false, v)) ->
  NoDup fields.*1 -> name <> "" -> field name fields = None ->
  GetValue c (reparse (write fields JNull)) name y = (false, y).
Proof.
  intros Hc Hnd Hn Hf. destruct (decide (fields = [])) as [->|Hne]; [apply Hc|].
  rewrite write_null by done. rewrite write_object. cbn [reparse]. unfold GetValue, GetSubNode.
  rewrite bool_decide_eq_false_2 by done. by rewrite lookup_fmap, fold_insert_lookup, Hf, lookup_empty by done.
Qed.

Lemma Got_valid {T} (c : codec T) node name y : valid c y -> valid c (Got c node name y).
Proof. apply GetFrom_valid. Qed.

Section Object.
Context {T : Type} (Marshal : T -> json -> json) (Unmarshal : json -> T -> bool * T).

(* @src framework/serializable/serializable.cpp 221-224 Serializable::SetValue *)
Definition SetObject (v : T) : json := Marshal v JNull.
(* @src framework/serializable/serializable.cpp 164-171 Serializable::GetValue *)
Definition GetObject (node : json) (v : T) : bool * T := if is_object node then Unmarshal node v else (false, v).

Definition object_c (blank0 : T) (valid0 kept0 fresh0 : T -> Prop)
    (Hbv : valid0 blank0) (Hbf : fresh0 blank0)
    (Hv : forall j y, valid0 y -> valid0 (Unmarshal j y).2)
    (Ho : forall x, is_object (Marshal x JNull) = true)
    (Hl : forall x y, valid0 x -> kept0 x -> fresh0 y -> Unmarshal (reparse (Marshal x JNull)) y = (true, x)) : codec T.
Proof.
  refine (mkCodec SetObject GetObject blank0 valid0 kept0 fresh0 Hbv Hbf _ _).
  - intros j y Hy. unfold GetObject. destruct (is_object j); [by apply Hv|done].
  - intros x y Hx Hk Hy. unfold SetObject, GetObject. specialize (Ho x).
    destruct (Marshal x JNull) eqn:E; try done. cbn [reparse is_object]. rewrite <- (Hl x y Hx Hk Hy), E. done.
Defined.
End Object.

(** ** Text *)

Class JsonText := {
  text : Type;
  dump : json -> text;
  parse : text -> option json;
  empty_text : text -> bool;
  drop_first : text -> text;
  printable : json -> Prop;          (* every string of the tree is well-formed Unicode text *)
  parse_dump j : printable j -> parse (dump j) = Some (reparse j)
}.

Section Text.
Context {JT : JsonText}.

(* @src framework/serializable/serializable.cpp 42-56 Serializable::ToJson *)
Definition ToJson (jsonStr : text) : json :=
  match parse jsonStr with
  | Some j => j
  | None => if empty_text jsonStr then JNull else default JNull (parse (drop_first jsonStr))
  end.

(** Reading an object of a class from text with its [Unmarshal]. *)
(* @src framework/serializable/serializable.cpp 26-40 Serializable::Unmarshall *)
Definition UnmarshallObject {T} (Unmarshal : json -> T -> bool * T) (jsonStr : text) (value : T) : bool * T :=
  match parse jsonStr with
  | Some j => Unmarshal j value
  | None =>
      if empty_text jsonStr then (false, value)
      else match parse (drop_first jsonStr) with Some j => Unmarshal j value | None => (false, value) end
  end.

(* @src framework/include/serializable/serializable.h 38-44 Marshall *)
Definition Marshall {T} (c : codec T) (values : T) : text := dump (SetValue c values).

(* @src framework/include/serializable/serializable.h 47-51 Unmarshall *)
Definition Unmarshall {T} (c : codec T) (body : text) (values : T) : bool * T := GetValue c (ToJson body) "" values.

Lemma GetSubNode_self j : GetSubNode j "" = j.
Proof. by destruct j. Qed.

(** Text written from a value is read back to the value. *)
Lemma Unmarshall_Marshall {T} (c : codec T) x y :
  valid c x -> kept c x -> fresh c y -> printable (SetValue c x) -> Unmarshall c (Marshall c x) y = (true, x).
Proof.
  intros Hx Hk Hy Hp. unfold Unmarshall, Marshall, ToJson, GetValue. rewrite parse_dump by done.
  rewrite GetSubNode_self. by apply GetFrom_SetValue.
Qed.

(** Whatever the text is, the value stays one of its type. *)
Lemma Unmarshall_valid {T} (c : codec T) body y : valid c y -> valid c (Unmarshall c body y).2.
Proof. apply GetFrom_valid. Qed.
End Text.

(** Trees as their own text. *)
#[local] Program Instance TreeText : JsonText :=
  {| text := json; dump j := j; parse j := Some (reparse j); empty_text _ := false; drop_first j := j;
     printable _ := True |}.
Next Obligation. done. Qed.

(** ** Automation for the classes *)

(** Reads the fields of a written object back, one after the other. *)
Ltac read_fields Hnd :=
  repeat match goal with
  | |- context [GetValue ?c (reparse (write ?fs JNull)) ?n ?y] =>
      first [ erewrite (GetValue_written c fs n _ y Hnd) by
                (first [ discriminate | reflexivity | assumption | exact I | by cbn ])
            | rewrite (GetValue_absent c fs n y) by (first [ discriminate | reflexivity | exact Hnd | done ]) ];
      cbn [fst snd]
  end.

Ltac read_back :=
  match goal with
  | |- context [reparse (write ?fs JNull)] =>
      assert (Hnd : NoDup fs.*1) by (cbn; by_decide); unfold Got; read_fields Hnd
  end.

(** A trivially valid default. *)
Ltac solve_blank :=
  repeat match goal with |- _ /\ _ => split end;
  first [ done | by_decide | apply blank_valid | apply blank_fresh | constructor | apply map_Forall_empty ].

(** The codec of a class from its functions. *)
Ltac solve_codec marshal unmarshal blank0 valid0 kept0 fresh0 :=
  refine (object_c marshal unmarshal blank0 valid0 kept0 fresh0 _ _ _ _ _);
  [ unfold valid0; cbn; solve_blank
  | unfold fresh0; cbn; solve_blank
  | intros j y Hy; unfold valid0, unmarshal in *; cbv zeta; cbn [fst snd]; destruct_and?;
    repeat match goal with |- _ /\ _ => split end; try exact I;
    try match goal with |- valid ?c ?t => let t' := eval cbn in t in change (valid c t') end;
    repeat first [ apply Got_valid | match goal with |- valid _ (if ?b then _ else _) => destruct b end ]; try done
  | intros x; reflexivity
  | intros x y Hx Hk Hy; unfold valid0, kept0, fresh0, marshal, unmarshal in *; cbv zeta; destruct_and?; read_back;
    repeat match goal with |- context [if ?b then ?v else ?v] => replace (if b then v else v) with v by (by destruct b) end;
    try (by destruct x); try (by destruct x; simpl in *; congruence) ].

(** Validity of a concrete value. *)
Ltac solve_valid :=
  repeat first
    [ exact I | by_decide
    | hnf; match goal with |- _ /\ _ => split | |- Forall _ [] => apply Forall_nil | |- Forall _ (_ :: _) => apply Forall_cons; split end ].
End Serializable.
