(* ===== verification/MetaData.v ===== *)
(** * The metadata classes ([framework/metadata])

    Each class has its record, its [Marshal] and [Unmarshal] and the codec made of
    them, whose laws say that the class is read back as it was written and that any
    JSON leaves its members in the range of their types; then its keys in the
    metadata store and its comparison. [StoreMetaData] also reads the field names
    of older versions. *)

From Stdlib Require Import Ascii.
From S2P Require Import Prelude CppString Interfaces Constant Serializable UserDelegate RouteHead UpgradeManager.
Import Serializable.

Module MetaData.

Module CapabilityRange.
(* @src framework/include/metadata/capability_range.h 23-28 CapabilityRange *)
Record CapabilityRange := mk {
  localLabel : list string;
  remoteLabel : list string
}.
Definition blank_m : CapabilityRange := mk [] [].

(* @src framework/metadata/capability_range.cpp 18-24 CapabilityRange::Marshal *)
Definition Marshal (m : CapabilityRange) : json -> json :=
  write [ ("localLabel", SetValue (vector_c string_c) (localLabel m));
          ("remoteLabel", SetValue (vector_c string_c) (remoteLabel m)) ].

(* @src framework/metadata/capability_range.cpp 26-32 CapabilityRange::Unmarshal *)
Definition Unmarshal (node : json) (m : CapabilityRange) : bool * CapabilityRange :=
  ((GetValue (vector_c string_c) node "localLabel" (localLabel m)).1
   && (GetValue (vector_c string_c) node "remoteLabel" (remoteLabel m)).1,
   mk (Got (vector_c string_c) node "localLabel" (localLabel m))
      (Got (vector_c string_c) node "remoteLabel" (remoteLabel m))).

Definition valid_m (m : CapabilityRange) : Prop :=
  valid (vector_c string_c) (localLabel m) /\
  valid (vector_c string_c) (remoteLabel m).
Definition fresh_m (m : CapabilityRange) : Prop :=
  fresh (vector_c string_c) (localLabel m) /\
  fresh (vector_c string_c) (remoteLabel m).
Definition kept_m (m : CapabilityRange) : Prop :=
  kept (vector_c string_c) (localLabel m) /\
  kept (vector_c string_c) (remoteLabel m).

Definition c : codec CapabilityRange.
Proof. solve_codec Marshal Unmarshal blank_m valid_m kept_m fresh_m. Defined.
End CapabilityRange.

Module StrategyMeta.
(* @src framework/include/metadata/strategy_meta_data.h 21-42 StrategyMeta *)
Record StrategyMeta := mk {
  devId : string;
  userId : string;
  bundleName : string;
  instanceId : Z;
  storeId : string;
  capabilityEnabled : bool;
  capabilityRange : CapabilityRange.CapabilityRange
}.
Definition blank_m : StrategyMeta := mk "" "" "" 0 "" false (blank CapabilityRange.c).

(* @src framework/metadata/strategy_meta_data.cpp 19-30 StrategyMeta::Marshal *)
Definition Marshal (m : StrategyMeta) : json -> json :=
  write [ ("devId", SetValue string_c (devId m));
          ("userId", SetValue string_c (userId m));
          ("bundleName", SetValue string_c (bundleName m));
          ("instanceId", SetValue i32_c (instanceId m));
          ("storeId", SetValue string_c (storeId m));
          ("capabilityEnabled", SetValue bool_c (capabilityEnabled m));
          ("capabilityRange", SetValue CapabilityRange.c (capabilityRange m)) ].

(* @src framework/metadata/strategy_meta_data.cpp 32-43 StrategyMeta::Unmarshal *)
Definition Unmarshal (node : json) (m : StrategyMeta) : bool * StrategyMeta :=
  ((GetValue string_c node "devId" (devId m)).1
   && (GetValue string_c node "userId" (userId m)).1
   && (GetValue string_c node "bundleName" (bundleName m)).1
   && (GetValue i32_c node "instanceId" (instanceId m)).1
   && (GetValue string_c node "storeId" (storeId m)).1
   && (GetValue bool_c node "capabilityEnabled" (capabilityEnabled m)).1
   && (GetValue CapabilityRange.c node "capabilityRange" (capabilityRange m)).1,
   mk (Got string_c node "devId" (devId m))
      (Got string_c node "userId" (userId m))
      (Got string_c node "bundleName" (bundleName m))
      (Got i32_c node "instanceId" (instanceId m))
      (Got string_c node "storeId" (storeId m))
      (Got bool_c node "capabilityEnabled" (capabilityEnabled m))
      (Got CapabilityRange.c node "capabilityRange" (capabilityRange m))).

Definition valid_m (m : StrategyMeta) : Prop :=
  valid i32_c (instanceId m) /\
  valid CapabilityRange.c (capabilityRange m).
Definition fresh_m (m : StrategyMeta) : Prop :=
  fresh CapabilityRange.c (capabilityRange m).
Definition kept_m (m : StrategyMeta) : Prop :=
  kept CapabilityRange.c (capabilityRange m).

Definition c : codec StrategyMeta.
Proof. solve_codec Marshal Unmarshal blank_m valid_m kept_m fresh_m. Defined.
(* @src framework/metadata/strategy_meta_data.cpp 51-54 StrategyMeta::IsEffect *)
Definition IsEffect (m : StrategyMeta) : bool :=
  negb (bool_decide (CapabilityRange.localLabel (capabilityRange m) = []))
  && negb (bool_decide (CapabilityRange.remoteLabel (capabilityRange m) = [])).

(* @src framework/metadata/strategy_meta_data.cpp 65-68 StrategyMeta::GetPrefix *)
Definition GetPrefix (fields : list string) : string := Constant.Join "StrategyMetaData" Constant.KEY_SEPARATOR fields.

(* @src framework/metadata/strategy_meta_data.cpp 56-63 StrategyMeta::GetKey *)
Definition GetKey (m : StrategyMeta) : string :=
  GetPrefix ([devId m; userId m; "default"; bundleName m; storeId m]
             ++ (if instanceId m =? 0 then [] else [to_string (instanceId m)])).
End StrategyMeta.

Module PolicyValue.
(* @src framework/include/metadata/store_meta_data_local.h 24-35 PolicyValue *)
Record PolicyValue := mk {
  type : Z;
  index : Z;
  valueUint : Z
}.
Definition blank_m : PolicyValue := mk 4294967295 0 0.

(* @src framework/metadata/store_meta_data_local.cpp 20-26 PolicyValue::Marshal *)
Definition Marshal (m : PolicyValue) : json -> json :=
  write [ ("type", SetValue u32_c (type m));
          ("valueUint", SetValue u32_c (valueUint m));
          ("index", SetValue u32_c (index m)) ].

(* @src framework/metadata/store_meta_data_local.cpp 28-34 PolicyValue::Unmarshal *)
Definition Unmarshal (node : json) (m : PolicyValue) : bool * PolicyValue :=
  (true,
   mk (Got u32_c node "type" (type m))
      (Got u32_c node "index" (index m))
      (Got u32_c node "valueUint" (valueUint m))).

Definition valid_m (m : PolicyValue) : Prop :=
  valid u32_c (type m) /\
  valid u32_c (index m) /\
  valid u32_c (valueUint m).
Definition fresh_m (m : PolicyValue) : Prop :=
  True.
Definition kept_m (m : PolicyValue) : Prop :=
  True.

Definition c : codec PolicyValue.
Proof. solve_codec Marshal Unmarshal blank_m valid_m kept_m fresh_m. Defined.
(* @src framework/metadata/store_meta_data_local.cpp 36-39 PolicyValue::IsValueEffect *)
Definition IsValueEffect (m : PolicyValue) : bool := 0 <? index m.

(* @src framework/metadata/store_meta_data_local.cpp 41-44 PolicyValue::operator== *)
Definition eqb (a b : PolicyValue) : bool :=
  (type a =? type b) && (index a =? index b) && (valueUint a =? valueUint b).
End PolicyValue.

Module PromiseInfo.
(* @src framework/include/metadata/store_meta_data_local.h 37-47 PromiseInfo *)
Record PromiseInfo := mk {
  tokenIds : list Z;
  uids : list Z;
  permissionNames : list string
}.
Definition blank_m : PromiseInfo := mk [] [] [].

(* @src framework/metadata/store_meta_data_local.cpp 71-77 PromiseInfo::Marshal *)
Definition Marshal (m : PromiseInfo) : json -> json :=
  write [ ("tokenIds", SetValue (vector_c u32_c) (tokenIds m));
          ("uids", SetValue (vector_c i32_c) (uids m));
          ("permissionNames", SetValue (vector_c string_c) (permissionNames m)) ].

(* @src framework/metadata/store_meta_data_local.cpp 79-85 PromiseInfo::Unmarshal *)
Definition Unmarshal (node : json) (m : PromiseInfo) : bool * PromiseInfo :=
  (true,
   mk (Got (vector_c u32_c) node "tokenIds" (tokenIds m))
      (Got (vector_c i32_c) node "uids" (uids m))
      (Got (vector_c string_c) node "permissionNames" (permissionNames m))).

Definition valid_m (m : PromiseInfo) : Prop :=
  valid (vector_c u32_c) (tokenIds m) /\
  valid (vector_c i32_c) (uids m) /\
  valid (vector_c string_c) (permissionNames m).
Definition fresh_m (m : PromiseInfo) : Prop :=
  fresh (vector_c u32_c) (tokenIds m) /\
  fresh (vector_c i32_c) (uids m) /\
  fresh (vector_c string_c) (permissionNames m).
Definition kept_m (m : PromiseInfo) : Prop :=
  kept (vector_c u32_c) (tokenIds m) /\
  kept (vector_c i32_c) (uids m) /\
  kept (vector_c string_c) (permissionNames m).

Definition c : codec PromiseInfo.
Proof. solve_codec Marshal Unmarshal blank_m valid_m kept_m fresh_m. Defined.
End PromiseInfo.

Module StoreMetaDataLocal.
(* @src framework/include/metadata/store_meta_data_local.h 49-74 StoreMetaDataLocal *)
Record StoreMetaDataLocal := mk {
  isAutoSync : bool;
  autoSyncSwitch : bool;
  isBackup : bool;
  isDirty : bool;
  isEncrypt : bool;
  isPublic : bool;
  dataDir : string;
  schema : string;
  policies : list PolicyValue.PolicyValue;
  promiseInfo : PromiseInfo.PromiseInfo
}.
Definition blank_m : StoreMetaDataLocal := mk false false false false false false "" "" [] (blank PromiseInfo.c).

(* @src framework/metadata/store_meta_data_local.cpp 87-99 StoreMetaDataLocal::Marshal *)
Definition Marshal (m : StoreMetaDataLocal) : json -> json :=
  write [ ("isAutoSync", SetValue bool_c (isAutoSync m));
          ("isBackup", SetValue bool_c (isBackup m));
          ("isDirty", SetValue bool_c (isDirty m));
          ("isEncrypt", SetValue bool_c (isEncrypt m));
          ("dataDir", SetValue string_c (dataDir m));
          ("schema", SetValue string_c (schema m));
          ("policies", SetValue (vector_c PolicyValue.c) (policies m));
          ("isPublic", SetValue bool_c (isPublic m));
          ("promiseInfo", SetValue PromiseInfo.c (promiseInfo m)) ].

(* @src framework/metadata/store_meta_data_local.cpp 101-113 StoreMetaDataLocal::Unmarshal *)
Definition Unmarshal (node : json) (m : StoreMetaDataLocal) : bool * StoreMetaDataLocal :=
  (true,
   mk (Got bool_c node "isAutoSync" (isAutoSync m))
      (autoSyncSwitch m)
      (Got bool_c node "isBackup" (isBackup m))
      (Got bool_c node "isDirty" (isDirty m))
      (Got bool_c node "isEncrypt" (isEncrypt m))
      (Got bool_c node "isPublic" (isPublic m))
      (Got string_c node "dataDir" (dataDir m))
      (Got string_c node "schema" (schema m))
      (Got (vector_c PolicyValue.c) node "policies" (policies m))
      (Got PromiseInfo.c node "promiseInfo" (promiseInfo m))).

Definition valid_m (m : StoreMetaDataLocal) : Prop :=
  valid (vector_c PolicyValue.c) (policies m) /\
  valid PromiseInfo.c (promiseInfo m).
Definition fresh_m (m : StoreMetaDataLocal) : Prop :=
  fresh (vector_c PolicyValue.c) (policies m) /\
  fresh PromiseInfo.c (promiseInfo m) /\
  autoSyncSwitch m = false.
Definition kept_m (m : StoreMetaDataLocal) : Prop :=
  autoSyncSwitch m = false /\
  kept (vector_c PolicyValue.c) (policies m) /\
  kept PromiseInfo.c (promiseInfo m).

Definition c : codec StoreMetaDataLocal.
Proof. solve_codec Marshal Unmarshal blank_m valid_m kept_m fresh_m. Defined.
(* @src framework/metadata/store_meta_data_local.cpp 51-59 StoreMetaDataLocal::HasPolicy *)
Definition HasPolicy (type : Z) (m : StoreMetaDataLocal) : bool :=
  existsb (fun p => PolicyValue.type p =? type) (policies m).

(* @src framework/metadata/store_meta_data_local.cpp 61-69 StoreMetaDataLocal::GetPolicy *)
Definition GetPolicy (type : Z) (m : StoreMetaDataLocal) : PolicyValue.PolicyValue :=
  match list_find (fun p => PolicyValue.type p = type) (policies m) with
  | Some (_, p) => p
  | None => PolicyValue.blank_m
  end.

(* @src framework/metadata/store_meta_data_local.cpp 123-131 StoreMetaDataLocal::operator== *)
Definition eqb (a b : StoreMetaDataLocal) : bool :=
  negb (Constant.NotEqual (isAutoSync a) (isAutoSync b) || Constant.NotEqual (isBackup a) (isBackup b)
        || Constant.NotEqual (isDirty a) (isDirty b) || Constant.NotEqual (isEncrypt a) (isEncrypt b)
        || Constant.NotEqual (isPublic a) (isPublic b))
  && bool_decide (dataDir a = dataDir b).

(* @src framework/metadata/store_meta_data_local.cpp 138-141 StoreMetaDataLocal::GetKey *)
Definition GetKey (fields : list string) : string := Constant.Join "KvStoreMetaDataLocal" Constant.KEY_SEPARATOR fields.

(* @src framework/metadata/store_meta_data_local.cpp 143-148 StoreMetaDataLocal::GetPrefix *)
Definition GetPrefix (fields : list string) : string :=
  Constant.Join "KvStoreMetaDataLocal" Constant.KEY_SEPARATOR fields +:+ Constant.KEY_SEPARATOR.
End StoreMetaDataLocal.

Module StoreDfxInfo.
(* @src framework/include/metadata/store_meta_data_local.h 76-86 StoreDfxInfo *)
Record StoreDfxInfo := mk {
  lastOpenTime : string
}.
Definition blank_m : StoreDfxInfo := mk "".

(* @src framework/metadata/store_meta_data_local.cpp 157-161 StoreDfxInfo::Marshal *)
Definition Marshal (m : StoreDfxInfo) : json -> json :=
  write [ ("lastOpenTime", SetValue string_c (lastOpenTime m)) ].

(* @src framework/metadata/store_meta_data_local.cpp 163-167 StoreDfxInfo::Unmarshal *)
Definition Unmarshal (node : json) (m : StoreDfxInfo) : bool * StoreDfxInfo :=
  (true,
   mk (Got string_c node "lastOpenTime" (lastOpenTime m))).

Definition valid_m (m : StoreDfxInfo) : Prop :=
  True.
Definition fresh_m (m : StoreDfxInfo) : Prop :=
  True.
Definition kept_m (m : StoreDfxInfo) : Prop :=
  True.

Definition c : codec StoreDfxInfo.
Proof. solve_codec Marshal Unmarshal blank_m valid_m kept_m fresh_m. Defined.
(* @src framework/metadata/store_meta_data_local.cpp 150-155 StoreDfxInfo::GetPrefix *)
Definition GetPrefix (fields : list string) : string :=
  Constant.Join "StoreDfxInfo" Constant.KEY_SEPARATOR fields +:+ Constant.KEY_SEPARATOR.
End StoreDfxInfo.

Module CorruptedMetaData.
(* @src framework/include/metadata/corrupted_meta_data.h 21-35 CorruptedMetaData *)
Record CorruptedMetaData := mk {
  appId : string;
  bundleName : string;
  storeId : string;
  isCorrupted : bool
}.
Definition blank_m : CorruptedMetaData := mk "" "" "" false.

(* @src framework/metadata/corrupted_meta_data.cpp 21-28 CorruptedMetaData::Marshal *)
Definition Marshal (m : CorruptedMetaData) : json -> json :=
  write [ ("appId", SetValue string_c (appId m));
          ("bundleName", SetValue string_c (bundleName m));
          ("storeId", SetValue string_c (storeId m));
          ("isCorrupted", SetValue bool_c (isCorrupted m)) ].

(* @src framework/metadata/corrupted_meta_data.cpp 30-37 CorruptedMetaData::Unmarshal *)
Definition Unmarshal (node : json) (m : CorruptedMetaData) : bool * CorruptedMetaData :=
  (true,
   mk (Got string_c node "appId" (appId m))
      (Got string_c node "bundleName" (bundleName m))
      (Got string_c node "storeId" (storeId m))
      (Got bool_c node "isCorrupted" (isCorrupted m))).

Definition valid_m (m : CorruptedMetaData) : Prop :=
  True.
Definition fresh_m (m : CorruptedMetaData) : Prop :=
  True.
Definition kept_m (m : CorruptedMetaData) : Prop :=
  True.

Definition c : codec CorruptedMetaData.
Proof. solve_codec Marshal Unmarshal blank_m valid_m kept_m fresh_m. Defined.
(* @src framework/metadata/corrupted_meta_data.cpp 53-57 CorruptedMetaData::GetKey *)
Definition GetKey (m : CorruptedMetaData) : string :=
  Constant.Join "CorruptedMetaData" Constant.KEY_SEPARATOR [appId m; bundleName m; storeId m].
End CorruptedMetaData.

Module DeviceMetaData.
(* @src framework/include/metadata/device_meta_data.h 22-31 DeviceMetaData *)
Record DeviceMetaData := mk {
  newUuid : string
}.
Definition blank_m : DeviceMetaData := mk "".

(* @src framework/metadata/device_meta_data.cpp 20-24 DeviceMetaData::Marshal *)
Definition Marshal (m : DeviceMetaData) : json -> json :=
  write [ ("newUuid", SetValue string_c (newUuid m)) ].

(* @src framework/metadata/device_meta_data.cpp 26-30 DeviceMetaData::Unmarshal *)
Definition Unmarshal (node : json) (m : DeviceMetaData) : bool * DeviceMetaData :=
  (true,
   mk (Got string_c node "newUuid" (newUuid m))).

Definition valid_m (m : DeviceMetaData) : Prop :=
  True.
Definition fresh_m (m : DeviceMetaData) : Prop :=
  True.
Definition kept_m (m : DeviceMetaData) : Prop :=
  True.

Definition c : codec DeviceMetaData.
Proof. solve_codec Marshal Unmarshal blank_m valid_m kept_m fresh_m. Defined.
End DeviceMetaData.

Module VersionMetaData.
(* @src framework/include/metadata/version_meta_data.h 21-38 VersionMetaData *)
Record VersionMetaData := mk {
  version : Z
}.
Definition blank_m : VersionMetaData := mk (-1).

(* @src framework/metadata/version_meta_data.cpp 27-32 VersionMetaData::Marshal *)
Definition Marshal (m : VersionMetaData) : json -> json :=
  write [ ("version", SetValue i32_c (version m)) ].

(* @src framework/metadata/version_meta_data.cpp 34-39 VersionMetaData::Unmarshal *)
Definition Unmarshal (node : json) (m : VersionMetaData) : bool * VersionMetaData :=
  ((GetValue i32_c node "version" (version m)).1,
   mk (Got i32_c node "version" (version m))).

Definition valid_m (m : VersionMetaData) : Prop :=
  valid i32_c (version m).
Definition fresh_m (m : VersionMetaData) : Prop :=
  True.
Definition kept_m (m : VersionMetaData) : Prop :=
  True.

Definition c : codec VersionMetaData.
Proof. solve_codec Marshal Unmarshal blank_m valid_m kept_m fresh_m. Defined.
End VersionMetaData.

Module BundleVersionMetaData.
(* @src framework/include/metadata/bundle_version_meta_data.h 23-37 BundleVersionMetaData *)
Record BundleVersionMetaData := mk {
  bundleName : string;
  user : string;
  appIndex : Z;
  versionCode : Z
}.
Definition blank_m : BundleVersionMetaData := mk "" "" 0 0.

(* @src framework/metadata/bundle_version_meta_data.cpp 27-35 BundleVersionMetaData::Marshal *)
Definition Marshal (m : BundleVersionMetaData) : json -> json :=
  write [ ("bundleName", SetValue string_c (bundleName m));
          ("user", SetValue string_c (user m));
          ("appIndex", SetValue i32_c (appIndex m));
          ("versionCode", SetValue i32_c (versionCode m)) ].

(* @src framework/metadata/bundle_version_meta_data.cpp 37-45 BundleVersionMetaData::Unmarshal *)
Definition Unmarshal (node : json) (m : BundleVersionMetaData) : bool * BundleVersionMetaData :=
  ((GetValue string_c node "bundleName" (bundleName m)).1
   && (GetValue string_c node "user" (user m)).1
   && (GetValue i32_c node "appIndex" (appIndex m)).1
   && (GetValue i32_c node "versionCode" (versionCode m)).1,
   mk (Got string_c node "bundleName" (bundleName m))
      (Got string_c node "user" (user m))
      (Got i32_c node "appIndex" (appIndex m))
      (Got i32_c node "versionCode" (versionCode m))).

Definition valid_m (m : BundleVersionMetaData) : Prop :=
  valid i32_c (appIndex m) /\
  valid i32_c (versionCode m).
Definition fresh_m (m : BundleVersionMetaData) : Prop :=
  True.
Definition kept_m (m : BundleVersionMetaData) : Prop :=
  True.

Definition c : codec BundleVersionMetaData.
Proof. solve_codec Marshal Unmarshal blank_m valid_m kept_m fresh_m. Defined.
(* @src framework/metadata/bundle_version_meta_data.cpp 52-59 BundleVersionMetaData::GetKey *)
Definition GetKeyOf (fields : list string) : string := Constant.Join "BundleVersionMetaData" Constant.KEY_SEPARATOR fields.

(* @src framework/metadata/bundle_version_meta_data.cpp 47-50 BundleVersionMetaData::GetKey *)
Definition GetKey (m : BundleVersionMetaData) : string := GetKeyOf [user m; bundleName m; to_string (appIndex m)].
End BundleVersionMetaData.

Module ObjectUserMetaData.
(* @src framework/include/metadata/object_user_meta_data.h 21-33 ObjectUserMetaData *)
Record ObjectUserMetaData := mk {
  userId : string
}.
Definition blank_m : ObjectUserMetaData := mk "".

(* @src framework/metadata/object_user_meta_data.cpp 21-24 ObjectUserMetaData::Marshal *)
Definition Marshal (m : ObjectUserMetaData) : json -> json :=
  write [ ("userId", SetValue string_c (userId m)) ].

(* @src framework/metadata/object_user_meta_data.cpp 26-29 ObjectUserMetaData::Unmarshal *)
Definition Unmarshal (node : json) (m : ObjectUserMetaData) : bool * ObjectUserMetaData :=
  ((GetValue string_c node "userId" (userId m)).1,
   mk (Got string_c node "userId" (userId m))).

Definition valid_m (m : ObjectUserMetaData) : Prop :=
  True.
Definition fresh_m (m : ObjectUserMetaData) : Prop :=
  True.
Definition kept_m (m : ObjectUserMetaData) : Prop :=
  True.

Definition c : codec ObjectUserMetaData.
Proof. solve_codec Marshal Unmarshal blank_m valid_m kept_m fresh_m. Defined.
End ObjectUserMetaData.

Module SpecialChannelData.
(* @src framework/include/metadata/special_channel_data.h 22-30 SpecialChannelData *)
Record SpecialChannelData := mk {
  devices : list string
}.
Definition blank_m : SpecialChannelData := mk [].

(* @src framework/metadata/special_channel_data.cpp 19-23 SpecialChannelData::Marshal *)
Definition Marshal (m : SpecialChannelData) : json -> json :=
  write [ ("devices", SetValue (vector_c string_c) (devices m)) ].

(* @src framework/metadata/special_channel_data.cpp 25-29 SpecialChannelData::Unmarshal *)
Definition Unmarshal (node : json) (m : SpecialChannelData) : bool * SpecialChannelData :=
  (true,
   mk (Got (vector_c string_c) node "devices" (devices m))).

Definition valid_m (m : SpecialChannelData) : Prop :=
  valid (vector_c string_c) (devices m).
Definition fresh_m (m : SpecialChannelData) : Prop :=
  fresh (vector_c string_c) (devices m).
Definition kept_m (m : SpecialChannelData) : Prop :=
  kept (vector_c string_c) (devices m).

Definition c : codec SpecialChannelData.
Proof. solve_codec Marshal Unmarshal blank_m valid_m kept_m fresh_m. Defined.
End SpecialChannelData.

Module AutoLaunchMetaData.
(* @src framework/include/metadata/auto_launch_meta_data.h 22-33 AutoLaunchMetaData *)
Record AutoLaunchMetaData := mk {
  datas : gmap string (list string);
  launchForCleanData : bool
}.
Definition blank_m : AutoLaunchMetaData := mk ∅ false.

(* @src framework/metadata/auto_launch_meta_data.cpp 25-30 AutoLaunchMetaData::Marshal *)
Definition Marshal (m : AutoLaunchMetaData) : json -> json :=
  write [ ("datas", SetValue (map_c (vector_c string_c)) (datas m));
          ("launchForCleanData", SetValue bool_c (launchForCleanData m)) ].

(* @src framework/metadata/auto_launch_meta_data.cpp 32-37 AutoLaunchMetaData::Unmarshal *)
Definition Unmarshal (node : json) (m : AutoLaunchMetaData) : bool * AutoLaunchMetaData :=
  (true,
   mk (Got (map_c (vector_c string_c)) node "datas" (datas m))
      (Got bool_c node "launchForCleanData" (launchForCleanData m))).

Definition valid_m (m : AutoLaunchMetaData) : Prop :=
  valid (map_c (vector_c string_c)) (datas m).
Definition fresh_m (m : AutoLaunchMetaData) : Prop :=
  fresh (map_c (vector_c string_c)) (datas m).
Definition kept_m (m : AutoLaunchMetaData) : Prop :=
  kept (map_c (vector_c string_c)) (datas m).

Definition c : codec AutoLaunchMetaData.
Proof. solve_codec Marshal Unmarshal blank_m valid_m kept_m fresh_m. Defined.
(* @src framework/metadata/auto_launch_meta_data.cpp 39-42 AutoLaunchMetaData::GetPrefix *)
Definition GetPrefix (fields : list string) : string := Constant.Join "AutoLaunchMetaData" Constant.KEY_SEPARATOR fields.
End AutoLaunchMetaData.

Module AppIDMetaData.
(* @src framework/include/metadata/appid_meta_data.h 22-34 AppIDMetaData *)
Record AppIDMetaData := mk {
  appId : string;
  bundleName : string
}.
Definition blank_m : AppIDMetaData := mk "" "".

(* @src framework/metadata/appid_meta_data.cpp 19-24 AppIDMetaData::Marshal *)
Definition Marshal (m : AppIDMetaData) : json -> json :=
  write [ ("appId", SetValue string_c (appId m));
          ("bundleName", SetValue string_c (bundleName m)) ].

(* @src framework/metadata/appid_meta_data.cpp 26-31 AppIDMetaData::Unmarshal *)
Definition Unmarshal (node : json) (m : AppIDMetaData) : bool * AppIDMetaData :=
  (true,
   mk (Got string_c node "appId" (appId m))
      (Got string_c node "bundleName" (bundleName m))).

Definition valid_m (m : AppIDMetaData) : Prop :=
  True.
Definition fresh_m (m : AppIDMetaData) : Prop :=
  True.
Definition kept_m (m : AppIDMetaData) : Prop :=
  True.

Definition c : codec AppIDMetaData.
Proof. solve_codec Marshal Unmarshal blank_m valid_m kept_m fresh_m. Defined.
End AppIDMetaData.

Module FileInfo.
(* @src framework/include/metadata/store_debug_info.h 22-32 FileInfo *)
Record FileInfo := mk {
  inode : Z;
  size : Z;
  dev : Z;
  mode : Z;
  uid : Z;
  gid : Z
}.
Definition blank_m : FileInfo := mk 0 0 0 0 0 0.

(* @src framework/metadata/store_debug_info.cpp 18-27 StoreDebugInfo::FileInfo::Marshal *)
Definition Marshal (m : FileInfo) : json -> json :=
  write [ ("inode", SetValue u64_c (inode m));
          ("size", SetValue i64_c (size m));
          ("dev", SetValue u32_c (dev m));
          ("mode", SetValue u32_c (mode m));
          ("uid", SetValue u32_c (uid m));
          ("gid", SetValue u32_c (gid m)) ].

(* @src framework/metadata/store_debug_info.cpp 29-38 StoreDebugInfo::FileInfo::Unmarshal *)
Definition Unmarshal (node : json) (m : FileInfo) : bool * FileInfo :=
  (true,
   mk (Got u64_c node "inode" (inode m))
      (Got i64_c node "size" (size m))
      (Got u32_c node "dev" (dev m))
      (Got u32_c node "mode" (mode m))
      (Got u32_c node "uid" (uid m))
      (Got u32_c node "gid" (gid m))).

Definition valid_m (m : FileInfo) : Prop :=
  valid u64_c (inode m) /\
  valid i64_c (size m) /\
  valid u32_c (dev m) /\
  valid u32_c (mode m) /\
  valid u32_c (uid m) /\
  valid u32_c (gid m).
Definition fresh_m (m : FileInfo) : Prop :=
  True.
Definition kept_m (m : FileInfo) : Prop :=
  True.

Definition c : codec FileInfo.
Proof. solve_codec Marshal Unmarshal blank_m valid_m kept_m fresh_m. Defined.
End FileInfo.

Module StoreDebugInfo.
(* @src framework/include/metadata/store_debug_info.h 21-39 StoreDebugInfo *)
Record StoreDebugInfo := mk {
  fileInfos : gmap string FileInfo.FileInfo
}.
Definition blank_m : StoreDebugInfo := mk ∅.

(* @src framework/metadata/store_debug_info.cpp 40-44 StoreDebugInfo::Marshal *)
Definition Marshal (m : StoreDebugInfo) : json -> json :=
  write [ ("fileInfos", SetValue (map_c FileInfo.c) (fileInfos m)) ].

(* @src framework/metadata/store_debug_info.cpp 46-50 StoreDebugInfo::Unmarshal *)
Definition Unmarshal (node : json) (m : StoreDebugInfo) : bool * StoreDebugInfo :=
  (true,
   mk (Got (map_c FileInfo.c) node "fileInfos" (fileInfos m))).

Definition valid_m (m : StoreDebugInfo) : Prop :=
  valid (map_c FileInfo.c) (fileInfos m).
Definition fresh_m (m : StoreDebugInfo) : Prop :=
  fresh (map_c FileInfo.c) (fileInfos m).
Definition kept_m (m : StoreDebugInfo) : Prop :=
  kept (map_c FileInfo.c) (fileInfos m).

Definition c : codec StoreDebugInfo.
Proof. solve_codec Marshal Unmarshal blank_m valid_m kept_m fresh_m. Defined.
(* @src framework/metadata/store_debug_info.cpp 52-55 StoreDebugInfo::GetPrefix *)
Definition GetPrefix (fields : list string) : string := Constant.Join "StoreDebugInfo" Constant.KEY_SEPARATOR fields.
End StoreDebugInfo.

Module UserStatus.
Import UserDelegate.UserDelegate (UserStatus, mkUser, id, isActive).
Abbreviation UserStatus := UserDelegate.UserDelegate.UserStatus.
Definition blank_m : UserStatus := mkUser 0 false.

(* @src framework/metadata/user_meta_data.cpp 39-45 UserStatus::Marshal *)
Definition Marshal (m : UserStatus) : json -> json :=
  write [ ("id", SetValue i32_c (id m));
          ("isActive", SetValue bool_c (isActive m)) ].

(* @src framework/metadata/user_meta_data.cpp 47-53 UserStatus::Unmarshal *)
Definition Unmarshal (node : json) (m : UserStatus) : bool * UserStatus :=
  ((GetValue i32_c node "id" (id m)).1
   && (GetValue bool_c node "isActive" (isActive m)).1,
   mkUser (Got i32_c node "id" (id m))
      (Got bool_c node "isActive" (isActive m))).

Definition valid_m (m : UserStatus) : Prop :=
  valid i32_c (id m).
Definition fresh_m (m : UserStatus) : Prop :=
  True.
Definition kept_m (m : UserStatus) : Prop :=
  True.

Definition c : codec UserStatus.
Proof. solve_codec Marshal Unmarshal blank_m valid_m kept_m fresh_m. Defined.
End UserStatus.

Module UserMetaData.
Import UserDelegate.UserDelegate (UserMetaData, mkUsers, deviceId, users).
Abbreviation UserMetaData := UserDelegate.UserDelegate.UserMetaData.
Definition blank_m : UserMetaData := mkUsers "" [].

(* @src framework/metadata/user_meta_data.cpp 21-28 UserMetaData::Marshal *)
Definition Marshal (m : UserMetaData) : json -> json :=
  write [ ("deviceId", SetValue string_c (deviceId m));
          ("users", SetValue (vector_c UserStatus.c) (users m)) ].

(* @src framework/metadata/user_meta_data.cpp 30-37 UserMetaData::Unmarshal *)
Definition Unmarshal (node : json) (m : UserMetaData) : bool * UserMetaData :=
  ((GetValue string_c node "deviceId" (deviceId m)).1
   && (GetValue (vector_c UserStatus.c) node "users" (users m)).1,
   mkUsers (Got string_c node "deviceId" (deviceId m))
      (Got (vector_c UserStatus.c) node "users" (users m))).

Definition valid_m (m : UserMetaData) : Prop :=
  valid (vector_c UserStatus.c) (users m).
Definition fresh_m (m : UserMetaData) : Prop :=
  fresh (vector_c UserStatus.c) (users m).
Definition kept_m (m : UserMetaData) : Prop :=
  kept (vector_c UserStatus.c) (users m).

Definition c : codec UserMetaData.
Proof. solve_codec Marshal Unmarshal blank_m valid_m kept_m fresh_m. Defined.
End UserMetaData.

Module CapMetaData.
Import UpgradeManager.UpgradeManager (CapMetaData, mkCap, version, deviceId).
Abbreviation CapMetaData := UpgradeManager.UpgradeManager.CapMetaData.
Definition blank_m : CapMetaData := mkCap (-1) "".

(* @src framework/metadata/capability_meta_data.cpp 26-32 CapMetaData::Marshal *)
Definition Marshal (m : CapMetaData) : json -> json :=
  write [ ("version", SetValue i32_c (version m));
          ("deviceId", SetValue string_c (deviceId m)) ].

(* @src framework/metadata/capability_meta_data.cpp 34-40 CapMetaData::Unmarshal *)
Definition Unmarshal (node : json) (m : CapMetaData) : bool * CapMetaData :=
  ((GetValue i32_c node "version" (version m)).1
   && (GetValue string_c node "deviceId" (deviceId m)).1,
   mkCap (Got i32_c node "version" (version m))
      (Got string_c node "deviceId" (deviceId m))).

Definition valid_m (m : CapMetaData) : Prop :=
  valid i32_c (version m).
Definition fresh_m (m : CapMetaData) : Prop :=
  True.
Definition kept_m (m : CapMetaData) : Prop :=
  True.

Definition c : codec CapMetaData.
Proof. solve_codec Marshal Unmarshal blank_m valid_m kept_m fresh_m. Defined.
End CapMetaData.

Module Session.
Import RouteHead.RouteHead (Session, mkSession, sourceDeviceId, targetDeviceId, sourceUserId, targetUserIds, appId, storeId, accountId).
Abbreviation Session := RouteHead.RouteHead.Session.
Definition blank_m : Session := mkSession "" "" 0 [] "" "" "".

(* @src app/src/session_manager/session_manager.cpp 160-171 Session::Marshal *)
Definition Marshal (m : Session) : json -> json :=
  write [ ("sourceDeviceId", SetValue string_c (sourceDeviceId m));
          ("targetDeviceId", SetValue string_c (targetDeviceId m));
          ("sourceUserId", SetValue u32_c (sourceUserId m));
          ("targetUserIds", SetValue (vector_c u32_c) (targetUserIds m));
          ("appId", SetValue string_c (appId m));
          ("storeId", SetValue string_c (storeId m));
          ("accountId", SetValue string_c (accountId m)) ].

(* @src app/src/session_manager/session_manager.cpp 173-184 Session::Unmarshal *)
Definition Unmarshal (node : json) (m : Session) : bool * Session :=
  ((GetValue string_c node "sourceDeviceId" (sourceDeviceId m)).1
   && (GetValue string_c node "targetDeviceId" (targetDeviceId m)).1
   && (GetValue u32_c node "sourceUserId" (sourceUserId m)).1
   && (GetValue (vector_c u32_c) node "targetUserIds" (targetUserIds m)).1
   && (GetValue string_c node "appId" (appId m)).1
   && (GetValue string_c node "storeId" (storeId m)).1
   && (GetValue string_c node "accountId" (accountId m)).1,
   mkSession (Got string_c node "sourceDeviceId" (sourceDeviceId m))
      (Got string_c node "targetDeviceId" (targetDeviceId m))
      (Got u32_c node "sourceUserId" (sourceUserId m))
      (Got (vector_c u32_c) node "targetUserIds" (targetUserIds m))
      (Got string_c node "appId" (appId m))
      (Got string_c node "storeId" (storeId m))
      (Got string_c node "accountId" (accountId m))).

Definition valid_m (m : Session) : Prop :=
  valid u32_c (sourceUserId m) /\
  valid (vector_c u32_c) (targetUserIds m).
Definition fresh_m (m : Session) : Prop :=
  fresh (vector_c u32_c) (targetUserIds m).
Definition kept_m (m : Session) : Prop :=
  kept (vector_c u32_c) (targetUserIds m).

Definition c : codec Session.
Proof. solve_codec Marshal Unmarshal blank_m valid_m kept_m fresh_m. Defined.
End Session.

(** The keys of the secret key metadata; its byte members are not modelled. *)
Module SecretKey.
(* @src framework/metadata/secret_key_meta_data.cpp 74-82 SecretKeyMetaData::GetPrefix *)
Definition GetPrefix (fields : list string) : string :=
  Constant.Join "SecretKey" Constant.KEY_SEPARATOR fields +:+ Constant.KEY_SEPARATOR.

(* @src framework/metadata/secret_key_meta_data.cpp 61-66 SecretKeyMetaData::GetKey *)
Definition GetKey (fields : list string) : string := GetPrefix fields +:+ "SINGLE_KEY".

(* @src framework/metadata/secret_key_meta_data.cpp 84-92 SecretKeyMetaData::GetBackupPrefix *)
Definition GetBackupPrefix (fields : list string) : string :=
  Constant.Join "BackupSecretKey" Constant.KEY_SEPARATOR fields +:+ Constant.KEY_SEPARATOR.

(* @src framework/metadata/secret_key_meta_data.cpp 68-72 SecretKeyMetaData::GetBackupKey *)
Definition GetBackupKey (fields : list string) : string := GetBackupPrefix fields.

(* @src framework/metadata/secret_key_meta_data.cpp 94-99 SecretKeyMetaData::GetCloneKey *)
Definition GetCloneKey (fields : list string) : string :=
  "Clone" +:+ Constant.KEY_SEPARATOR +:+ GetKey fields.
End SecretKey.

Definition FIELD_CHANGED_TAG : Z := 0x03000003.
Definition UUID_CHANGED_TAG : Z := 0x03000004.

Module StoreMetaData.
(* @src framework/include/metadata/store_meta_data.h 24-110 StoreMetaData *)
Record StoreMetaData := mk {
  version : Z;
  isAutoSync : bool;
  autoSyncSwitch : bool;
  isBackup : bool;
  isDirty : bool;
  isEncrypt : bool;
  isManualClean : bool;
  isManualCleanDevice : bool;
  isSearchable : bool;
  isNeedCompress : bool;
  enableCloud : bool;
  cloudAutoSync : bool;
  customSwitch : bool;
  dataType : Z;
  storeType : Z;
  securityLevel : Z;
  area : Z;
  uid : Z;
  instanceId : Z;
  haMode : Z;
  tokenId : Z;
  appId : string;
  appType : string;
  bundleName : string;
  hapName : string;
  dataDir : string;
  customDir : string;
  deviceId : string;
  schema : string;
  storeId : string;
  user : string;
  account : string;
  authType : Z;
  asyncDownloadAsset : bool;
  isNeedUpdateDeviceId : bool;
  assetConflictPolicy : Z;
  assetTempPath : string;
  assetDownloadOnDemand : bool;
  filterMode : Z
}.
Definition blank_m : StoreMetaData := mk 50331654 false true false false false false false false false false false false (-1) (-1) 0 0 (-1) 0 0 0 "" "" "" "" "" "" "" "" "" "" "" 0 false false 0 "" false 0.

(* @src framework/metadata/store_meta_data.cpp 31-78 StoreMetaData::Marshal *)
Definition Marshal (m : StoreMetaData) : json -> json :=
  write [ ("version", SetValue u32_c (version m));
          ("isAutoSync", SetValue bool_c (isAutoSync m));
          ("autoSyncSwitch", SetValue bool_c (autoSyncSwitch m));
          ("isBackup", SetValue bool_c (isBackup m));
          ("isEncrypt", SetValue bool_c (isEncrypt m));
          ("isManualClean", SetValue bool_c (isManualClean m));
          ("isManualCleanDevice", SetValue bool_c (isManualCleanDevice m));
          ("isDirty", SetValue bool_c (isDirty m));
          ("isSearchable", SetValue bool_c (isSearchable m));
          ("isNeedCompress", SetValue bool_c (isNeedCompress m));
          ("storeType", SetValue i32_c (storeType m));
          ("securityLevel", SetValue i32_c (securityLevel m));
          ("area", SetValue i32_c (area m));
          ("uid", SetValue i32_c (uid m));
          ("tokenId", SetValue u32_c (tokenId m));
          ("instanceId", SetValue i32_c (instanceId m));
          ("appId", SetValue string_c (appId m));
          ("appType", SetValue string_c (appType m));
          ("bundleName", SetValue string_c (bundleName m));
          ("hapName", SetValue string_c (hapName m));
          ("dataDir", SetValue string_c (dataDir m));
          ("deviceId", SetValue string_c (deviceId m));
          ("schema", SetValue string_c (schema m));
          ("storeId", SetValue string_c (storeId m));
          ("user", SetValue string_c (user m));
          ("account", SetValue string_c (account m));
          ("dataType", SetValue i32_c (dataType m));
          ("enableCloud", SetValue bool_c (enableCloud m));
          ("customSwitch", SetValue bool_c (customSwitch m));
          ("cloudAutoSync", SetValue bool_c (cloudAutoSync m));
          ("asyncDownloadAsset", SetValue bool_c (asyncDownloadAsset m));
          ("isNeedUpdateDeviceId", SetValue bool_c (isNeedUpdateDeviceId m));
          ("assetConflictPolicy", SetValue i32_c (assetConflictPolicy m));
          ("assetTempPath", SetValue string_c (assetTempPath m));
          ("assetDownloadOnDemand", SetValue bool_c (assetDownloadOnDemand m));
          ("filterMode", SetValue u32_c (filterMode m));
          ("kvStoreType", SetValue i32_c (storeType m));
          ("deviceAccountID", SetValue string_c (user m));
          ("userId", SetValue string_c (account m));
          ("UID", SetValue i32_c (uid m));
          ("customDir", SetValue string_c (customDir m));
          ("authType", SetValue i32_c (authType m));
          ("haMode", SetValue i32_c (haMode m)) ].

(* @src framework/metadata/store_meta_data.cpp 80-129 StoreMetaData::Unmarshal *)
Definition Unmarshal (node : json) (m : StoreMetaData) : bool * StoreMetaData :=
  let version' := Got u32_c node "version" (version m) in
  let older := version' <? FIELD_CHANGED_TAG in
  (true,
   mk version'
      (Got bool_c node "isAutoSync" (isAutoSync m))
      (Got bool_c node "autoSyncSwitch" (autoSyncSwitch m))
      (Got bool_c node "isBackup" (isBackup m))
      (Got bool_c node "isDirty" (isDirty m))
      (Got bool_c node "isEncrypt" (isEncrypt m))
      (Got bool_c node "isManualClean" (isManualClean m))
      (Got bool_c node "isManualCleanDevice" (isManualCleanDevice m))
      (Got bool_c node "isSearchable" (isSearchable m))
      (Got bool_c node "isNeedCompress" (isNeedCompress m))
      (Got bool_c node "enableCloud" (enableCloud m))
      (Got bool_c node "cloudAutoSync" (cloudAutoSync m))
      (Got bool_c node "customSwitch" (customSwitch m))
      (Got i32_c node "dataType" (dataType m))
      (if older then Got i32_c node "kvStoreType" (Got i32_c node "storeType" (storeType m)) else Got i32_c node "storeType" (storeType m))
      (Got i32_c node "securityLevel" (securityLevel m))
      (Got i32_c node "area" (area m))
      (if older then Got i32_c node "UID" (Got i32_c node "uid" (uid m)) else Got i32_c node "uid" (uid m))
      (Got i32_c node "instanceId" (instanceId m))
      (Got i32_c node "haMode" (haMode m))
      (Got u32_c node "tokenId" (tokenId m))
      (Got string_c node "appId" (appId m))
      (Got string_c node "appType" (appType m))
      (Got string_c node "bundleName" (bundleName m))
      (Got string_c node "hapName" (hapName m))
      (Got string_c node "dataDir" (dataDir m))
      (Got string_c node "customDir" (customDir m))
      (Got string_c node "deviceId" (deviceId m))
      (Got string_c node "schema" (schema m))
      (Got string_c node "storeId" (storeId m))
      (if older then Got string_c node "deviceAccountID" (Got string_c node "user" (user m)) else Got string_c node "user" (user m))
      (if older then Got string_c node "userId" (Got string_c node "account" (account m)) else Got string_c node "account" (account m))
      (Got i32_c node "authType" (authType m))
      (Got bool_c node "asyncDownloadAsset" (asyncDownloadAsset m))
      (Got bool_c node "isNeedUpdateDeviceId" (isNeedUpdateDeviceId m))
      (Got i32_c node "assetConflictPolicy" (assetConflictPolicy m))
      (Got string_c node "assetTempPath" (assetTempPath m))
      (Got bool_c node "assetDownloadOnDemand" (assetDownloadOnDemand m))
      (Got u32_c node "filterMode" (filterMode m))).

Definition valid_m (m : StoreMetaData) : Prop :=
  valid u32_c (version m) /\
  valid i32_c (dataType m) /\
  valid i32_c (storeType m) /\
  valid i32_c (securityLevel m) /\
  valid i32_c (area m) /\
  valid i32_c (uid m) /\
  valid i32_c (instanceId m) /\
  valid i32_c (haMode m) /\
  valid u32_c (tokenId m) /\
  valid i32_c (authType m) /\
  valid i32_c (assetConflictPolicy m) /\
  valid u32_c (filterMode m).
Definition fresh_m (m : StoreMetaData) : Prop :=
  True.
Definition kept_m (m : StoreMetaData) : Prop :=
  True.

Definition c : codec StoreMetaData.
Proof. solve_codec Marshal Unmarshal blank_m valid_m kept_m fresh_m. Defined.
(* @src framework/metadata/store_meta_data.cpp 150-172 StoreMetaData::operator== *)
Definition eqb (a b : StoreMetaData) : bool :=
  if Constant.NotEqual (isAutoSync a) (isAutoSync b) || Constant.NotEqual (isBackup a) (isBackup b) || Constant.NotEqual (isDirty a) (isDirty b) || Constant.NotEqual (isEncrypt a) (isEncrypt b) || Constant.NotEqual (isSearchable a) (isSearchable b) || Constant.NotEqual (isNeedCompress a) (isNeedCompress b) || Constant.NotEqual (enableCloud a) (enableCloud b)
      || Constant.NotEqual (negb (filterMode a =? 0)) (negb (filterMode b =? 0)) || Constant.NotEqual (customSwitch a) (customSwitch b) || Constant.NotEqual (cloudAutoSync a) (cloudAutoSync b) || Constant.NotEqual (isManualClean a) (isManualClean b) || Constant.NotEqual (isManualCleanDevice a) (isManualCleanDevice b) || Constant.NotEqual (isNeedUpdateDeviceId a) (isNeedUpdateDeviceId b)
  then false
  else bool_decide (version a = version b) && bool_decide (storeType a = storeType b) && bool_decide (dataType a = dataType b) && bool_decide (securityLevel a = securityLevel b)
    && bool_decide (area a = area b) && bool_decide (uid a = uid b) && bool_decide (tokenId a = tokenId b) && bool_decide (instanceId a = instanceId b)
    && bool_decide (appId a = appId b) && bool_decide (appType a = appType b) && bool_decide (bundleName a = bundleName b) && bool_decide (dataDir a = dataDir b)
    && bool_decide (storeId a = storeId b) && bool_decide (user a = user b) && bool_decide (deviceId a = deviceId b) && bool_decide (account a = account b)
    && bool_decide (authType a = authType b) && bool_decide (haMode a = haMode b).

(* @src framework/metadata/store_meta_data.cpp 252-259 StoreMetaData::GetKey *)
Definition GetKeyOf (fields : list string) : string := Constant.Join "KvStoreMetaData" Constant.KEY_SEPARATOR fields.

(* @src framework/metadata/store_meta_data.cpp 261-264 StoreMetaData::GetPrefix *)
Definition GetPrefix (fields : list string) : string := GetKeyOf fields +:+ Constant.KEY_SEPARATOR.

(* @src framework/metadata/store_meta_data.cpp 179-185 StoreMetaData::GetKey *)
Definition GetKey (m : StoreMetaData) : string :=
  GetKeyOf ([deviceId m; user m; "default"; bundleName m; storeId m] ++ (if instanceId m =? 0 then [] else [to_string (instanceId m)]) ++ [dataDir m]).

(* @src framework/metadata/store_meta_data.cpp 281-287 StoreMetaData::GetKeyWithoutPath *)
Definition GetKeyWithoutPath (m : StoreMetaData) : string :=
  GetKeyOf ([deviceId m; user m; "default"; bundleName m; storeId m] ++ (if instanceId m =? 0 then [] else [to_string (instanceId m)])).

(* @src framework/metadata/store_meta_data.cpp 187-194 StoreMetaData::GetKeyLocal *)
Definition GetKeyLocal (m : StoreMetaData) : string :=
  StoreMetaDataLocal.GetKey ([deviceId m; user m; "default"; bundleName m; storeId m] ++ (if instanceId m =? 0 then [] else [to_string (instanceId m)]) ++ [dataDir m]).

(* @src framework/metadata/store_meta_data.cpp 289-295 StoreMetaData::GetKeyLocalWithoutPath *)
Definition GetKeyLocalWithoutPath (m : StoreMetaData) : string :=
  StoreMetaDataLocal.GetKey ([deviceId m; user m; "default"; bundleName m; storeId m] ++ (if instanceId m =? 0 then [] else [to_string (instanceId m)])).

(* @src framework/metadata/store_meta_data.cpp 196-202 StoreMetaData::GetSecretKey *)
Definition GetSecretKey (m : StoreMetaData) : string :=
  SecretKey.GetKey ([user m; "default"; bundleName m; storeId m]
    ++ (if version m <? UUID_CHANGED_TAG then [] else [to_string (instanceId m)]) ++ [dataDir m]).

(* @src framework/metadata/store_meta_data.cpp 297-303 StoreMetaData::GetSecretKeyWithoutPath *)
Definition GetSecretKeyWithoutPath (m : StoreMetaData) : string :=
  SecretKey.GetKey ([user m; "default"; bundleName m; storeId m]
    ++ (if version m <? UUID_CHANGED_TAG then [] else [to_string (instanceId m)])).

(* @src framework/metadata/store_meta_data.cpp 204-210 StoreMetaData::GetBackupSecretKey *)
Definition GetBackupSecretKey (m : StoreMetaData) : string :=
  SecretKey.GetBackupKey ([user m; "default"; bundleName m; storeId m]
    ++ (if version m <? UUID_CHANGED_TAG then [] else [to_string (instanceId m)])).

(* @src framework/metadata/store_meta_data.cpp 276-279 StoreMetaData::GetCloneSecretKey *)
Definition GetCloneSecretKey (m : StoreMetaData) : string :=
  SecretKey.GetCloneKey [user m; "default"; bundleName m; storeId m; to_string (instanceId m)].

(* @src framework/metadata/store_meta_data.cpp 212-215 StoreMetaData::GetAutoLaunchKey *)
Definition GetAutoLaunchKey (m : StoreMetaData) : string := AutoLaunchMetaData.GetPrefix [deviceId m; user m; "default"; bundleName m; storeId m].

(* @src framework/metadata/store_meta_data.cpp 217-221 StoreMetaData::GetDebugInfoKey *)
Definition GetDebugInfoKey (m : StoreMetaData) : string :=
  StoreDebugInfo.GetPrefix ([deviceId m; user m; "default"; bundleName m; storeId m] ++ [to_string (instanceId m); dataDir m]).

(* @src framework/metadata/store_meta_data.cpp 223-226 StoreMetaData::GetDebugInfoKeyWithoutPath *)
Definition GetDebugInfoKeyWithoutPath (m : StoreMetaData) : string :=
  StoreDebugInfo.GetPrefix ([deviceId m; user m; "default"; bundleName m; storeId m] ++ [to_string (instanceId m)]).

(* @src framework/metadata/store_meta_data.cpp 228-232 StoreMetaData::GetDfxInfoKey *)
Definition GetDfxInfoKey (m : StoreMetaData) : string :=
  StoreDfxInfo.GetPrefix ([deviceId m; user m; "default"; bundleName m; storeId m] ++ [to_string (instanceId m); dataDir m]).

(* @src framework/metadata/store_meta_data.cpp 234-237 StoreMetaData::GetDfxInfoKeyWithoutPath *)
Definition GetDfxInfoKeyWithoutPath (m : StoreMetaData) : string :=
  StoreDfxInfo.GetPrefix ([deviceId m; user m; "default"; bundleName m; storeId m] ++ [to_string (instanceId m)]).

(* @src framework/metadata/store_meta_data.cpp 244-250 StoreMetaData::GetStrategyKey *)
Definition GetStrategyKey (m : StoreMetaData) : string :=
  StrategyMeta.GetPrefix ([deviceId m; user m; "default"; bundleName m; storeId m] ++ (if instanceId m =? 0 then [] else [to_string (instanceId m)])).
End StoreMetaData.

(** ** The mapping of a store to its paths, which extends [StoreMetaData] *)
Module StoreMetaMapping.
Import StoreMetaData (StoreMetaData, deviceId, user, bundleName, storeId, instanceId).

(* @src framework/include/metadata/store_meta_data.h 112-132 StoreMetaMapping *)
Record StoreMetaMapping := mk { meta : StoreMetaData; cloudPath : string; devicePath : string; searchPath : string }.
Definition blank_m : StoreMetaMapping := mk StoreMetaData.blank_m "" "" "".

(* @src framework/metadata/store_meta_data.cpp 309-316 StoreMetaMapping::Marshal *)
Definition Marshal (m : StoreMetaMapping) (node : json) : json :=
  write [ ("cloudPath", SetValue string_c (cloudPath m));
          ("devicePath", SetValue string_c (devicePath m));
          ("searchPath", SetValue string_c (searchPath m)) ] (StoreMetaData.Marshal (meta m) node).

(* @src framework/metadata/store_meta_data.cpp 317-324 StoreMetaMapping::Unmarshal *)
Definition Unmarshal (node : json) (m : StoreMetaMapping) : bool * StoreMetaMapping :=
  (true, mk (StoreMetaData.Unmarshal node (meta m)).2 (Got string_c node "cloudPath" (cloudPath m))
            (Got string_c node "devicePath" (devicePath m)) (Got string_c node "searchPath" (searchPath m))).

Definition valid_m (m : StoreMetaMapping) : Prop := valid StoreMetaData.c (meta m).
Definition fresh_m (m : StoreMetaMapping) : Prop := fresh StoreMetaData.c (meta m).
Definition kept_m (m : StoreMetaMapping) : Prop := kept StoreMetaData.c (meta m).

Lemma is_object_marshal m : is_object (Marshal m JNull) = true.
Proof. reflexivity. Qed.

Lemma read_written x y : valid_m x -> Unmarshal (reparse (Marshal x JNull)) y = (true, x).
Proof.
  destruct x as [x p1 p2 p3]. unfold valid_m. intros (?&?&?&?&?&?&?&?&?&?&?&?). cbn [meta] in *.
  unfold Marshal, Unmarshal, StoreMetaData.Marshal, StoreMetaData.Unmarshal. rewrite <- write_app. cbv zeta.
  cbn [app meta cloudPath devicePath searchPath]. read_back.
  repeat match goal with |- context [if ?b then ?v else ?v] => replace (if b then v else v) with v by (by destruct b) end.
  by destruct x.
Qed.

Definition c : codec StoreMetaMapping.
Proof.
  refine (object_c Marshal Unmarshal blank_m valid_m kept_m fresh_m _ _ _ is_object_marshal _).
  - apply (blank_valid StoreMetaData.c).
  - apply (blank_fresh StoreMetaData.c).
  - intros j y Hy. destruct (is_object j) eqn:E.
    + pose proof (GetFrom_valid StoreMetaData.c j (meta y) Hy) as Hv. cbn in Hv. unfold GetObject in Hv. by rewrite E in Hv.
    + unfold valid_m. cbn. pose proof (GetFrom_valid StoreMetaData.c (JObject ∅) (meta y) Hy) as Hv.
      by destruct j.
  - intros x y Hx _ _. by apply read_written.
Defined.

(* @src framework/metadata/store_meta_data.cpp 361-368 StoreMetaMapping::GetKey *)
Definition GetKeyOf (fields : list string) : string := Constant.Join "StoreMetaMapping" Constant.KEY_SEPARATOR fields.

(* @src framework/metadata/store_meta_data.cpp 326-332 StoreMetaMapping::GetKey *)
Definition GetKey (m : StoreMetaMapping) : string :=
  let m := meta m in
  GetKeyOf ([deviceId m; user m; "default"; bundleName m; storeId m] ++ (if instanceId m =? 0 then [] else [to_string (instanceId m)])).

(* @src framework/metadata/store_meta_data.cpp 353-359 StoreMetaMapping::GetStoreMetaKeyWithPath *)
Definition GetStoreMetaKeyWithPath (path : string) (m : StoreMetaMapping) : string :=
  let m := meta m in
  StoreMetaData.GetKeyOf ([deviceId m; user m; "default"; bundleName m; storeId m]
    ++ (if instanceId m =? 0 then [] else [to_string (instanceId m)]) ++ [path]).

(* @src framework/metadata/store_meta_data.cpp 334-337 StoreMetaMapping::GetCloudStoreMetaKey *)
Definition GetCloudStoreMetaKey (m : StoreMetaMapping) : string := GetStoreMetaKeyWithPath (cloudPath m) m.
End StoreMetaMapping.

(** ** Properties *)

(** No field of a key contains the separator's character. *)
Definition plain (s : string) : Prop := "#"%char ∉ chars s.

Lemma plain_to_string z : plain (to_string z).
Proof. apply to_string_chars. by_decide. Qed.

Lemma instance_fields i i' (l l' : list string) :
  (if i =? 0 then [] else [to_string i]) ++ l = (if i' =? 0 then [] else [to_string i']) ++ l' ->
  length l = length l' -> i = i' /\ l = l'.
Proof.
  destruct (Z.eqb_spec i 0) as [->|], (Z.eqb_spec i' 0) as [->|]; cbn; intros E Hl; subst; cbn in Hl; try lia; try done.
  injection E as E ->. by apply to_string_inj in E.
Qed.

(** C10: The metadata of a store and its path mapping survive the text of the
    metadata store: what is written and read again into a new object is the same
    object, for every version of the format it is labelled with. *)
Theorem StoreMeta_roundtrip `{JsonText} m :
  valid StoreMetaMapping.c m -> printable (SetValue StoreMetaMapping.c m) ->
  printable (SetValue StoreMetaData.c (StoreMetaMapping.meta m)) ->
  Unmarshall StoreMetaMapping.c (Marshall StoreMetaMapping.c m) StoreMetaMapping.blank_m = (true, m) /\
  Unmarshall StoreMetaData.c (Marshall StoreMetaData.c (StoreMetaMapping.meta m)) StoreMetaData.blank_m
    = (true, StoreMetaMapping.meta m).
Proof. intros Hv Hp Hp'. split; by apply Unmarshall_Marshall. Qed.


Section Keys.
Import StoreMetaData.

Definition plain_store (m : StoreMetaData) : Prop :=
  plain (deviceId m) /\ plain (user m) /\ plain (bundleName m) /\ plain (storeId m) /\ plain (dataDir m).

End Keys.

(** *** Witnesses *)

#[local] Existing Instance TreeText.

Definition sample_store (dir : string) (filter : Z) : StoreMetaData.StoreMetaData :=
  StoreMetaData.mk 0x03000002 true true false false true false false false false false false false
    (-1) 10 1 2 20010 0 0 537 "app" "type" "bundle" "hap" dir "" "device" "" "store" "100" "account" 0 false false 0 "" false filter.

Lemma StoreMeta_roundtrip_witness :
  let m := StoreMetaMapping.mk (sample_store "/data/a" 1) "/cloud" "/device" "" in
  valid StoreMetaMapping.c m /\
  Unmarshall StoreMetaMapping.c (Marshall StoreMetaMapping.c m) StoreMetaMapping.blank_m = (true, m).
Proof.
  intros m. assert (Hv : valid StoreMetaMapping.c m) by solve_valid.
  split; [done|]. by apply (StoreMeta_roundtrip m).
Defined.


(** *** Two members that get lost *)

(** The comparison looks at the filter mode, a number, as if it were a flag. *)
Lemma filter_mode_ignored :
  StoreMetaData.eqb (sample_store "/data/a" 1) (sample_store "/data/a" 2) = true.
Proof. reflexivity. Qed.

(** The switch of the local metadata is not written. *)
Lemma auto_sync_switch_lost :
  let m := StoreMetaDataLocal.mk true true false false false false "" "" [] PromiseInfo.blank_m in
  StoreMetaDataLocal.autoSyncSwitch (Unmarshall StoreMetaDataLocal.c (Marshall StoreMetaDataLocal.c m) StoreMetaDataLocal.blank_m).2
  = false.
Proof. reflexivity. Qed.

End MetaData.
