(* ===== verification/CloudData.v ===== *)
(** * The metadata of the cloud synchronisation ([framework/cloud])

    The schemas, the account information, the subscriptions and the records of the
    last synchronisation, with their codecs and queries. The iteration over a
    [std::map] is in the order of its keys. *)

From Stdlib Require Import Ascii.
From stdpp Require Import sorting.
From S2P Require Import Prelude CppString Constant Serializable.
Import Serializable.

Module CloudData.

Definition ordered_entries {A} (m : gmap string A) : list (string * A) :=
  merge_sort (fun a b => String.le a.1 b.1) (map_to_list m).

Module CompatibleConstraint.
(* @src framework/include/cloud/schema_meta.h 20-26 CompatibleConstraint *)
Record CompatibleConstraint := mk {
  notNull : bool;
  hasDefault : bool
}.
Definition blank_m : CompatibleConstraint := mk false false.

(* @src framework/cloud/schema_meta.cpp 21-26 CompatibleConstraint::Marshal *)
Definition Marshal (m : CompatibleConstraint) : json -> json :=
  write [ ("notNull", SetValue bool_c (notNull m));
          ("hasDefault", SetValue bool_c (hasDefault m)) ].

(* @src framework/cloud/schema_meta.cpp 28-33 CompatibleConstraint::Unmarshal *)
Definition Unmarshal (node : json) (m : CompatibleConstraint) : bool * CompatibleConstraint :=
  (true,
   mk (Got bool_c node "notNull" (notNull m))
      (Got bool_c node "hasDefault" (hasDefault m))).

Definition valid_m (m : CompatibleConstraint) : Prop :=
  True.
Definition fresh_m (m : CompatibleConstraint) : Prop :=
  True.
Definition kept_m (m : CompatibleConstraint) : Prop :=
  True.

Definition c : codec CompatibleConstraint.
Proof. solve_codec Marshal Unmarshal blank_m valid_m kept_m fresh_m. Defined.
#[global] Instance CompatibleConstraint_eq_dec : EqDecision CompatibleConstraint.
Proof. solve_decision. Defined.

(* @src framework/cloud/schema_meta.cpp 35-38 CompatibleConstraint::operator== *)
Definition eqb (a b : CompatibleConstraint) : bool :=
  bool_decide (notNull a = notNull b) && bool_decide (hasDefault a = hasDefault b).
End CompatibleConstraint.

Module FieldsPolicy.
(* @src framework/include/cloud/schema_meta.h 28-34 FieldsPolicy *)
Record FieldsPolicy := mk {
  columnName : string;
  compatibleConstraints : list CompatibleConstraint.CompatibleConstraint
}.
Definition blank_m : FieldsPolicy := mk "" [].

(* @src framework/cloud/schema_meta.cpp 40-45 FieldsPolicy::Marshal *)
Definition Marshal (m : FieldsPolicy) : json -> json :=
  write [ ("columnName", SetValue string_c (columnName m));
          ("compatibleConstraints", SetValue (vector_c CompatibleConstraint.c) (compatibleConstraints m)) ].

(* @src framework/cloud/schema_meta.cpp 47-52 FieldsPolicy::Unmarshal *)
Definition Unmarshal (node : json) (m : FieldsPolicy) : bool * FieldsPolicy :=
  (true,
   mk (Got string_c node "columnName" (columnName m))
      (Got (vector_c CompatibleConstraint.c) node "compatibleConstraints" (compatibleConstraints m))).

Definition valid_m (m : FieldsPolicy) : Prop :=
  valid (vector_c CompatibleConstraint.c) (compatibleConstraints m).
Definition fresh_m (m : FieldsPolicy) : Prop :=
  fresh (vector_c CompatibleConstraint.c) (compatibleConstraints m).
Definition kept_m (m : FieldsPolicy) : Prop :=
  kept (vector_c CompatibleConstraint.c) (compatibleConstraints m).

Definition c : codec FieldsPolicy.
Proof. solve_codec Marshal Unmarshal blank_m valid_m kept_m fresh_m. Defined.
#[global] Instance FieldsPolicy_eq_dec : EqDecision FieldsPolicy.
Proof. solve_decision. Defined.
End FieldsPolicy.

Module CompatiblePolicy.
(* @src framework/include/cloud/schema_meta.h 36-42 CompatiblePolicy *)
Record CompatiblePolicy := mk {
  tableName : string;
  fieldsPolicy : list FieldsPolicy.FieldsPolicy
}.
Definition blank_m : CompatiblePolicy := mk "" [].

(* @src framework/cloud/schema_meta.cpp 60-65 CompatiblePolicy::Marshal *)
Definition Marshal (m : CompatiblePolicy) : json -> json :=
  write [ ("tableName", SetValue string_c (tableName m));
          ("fieldsPolicy", SetValue (vector_c FieldsPolicy.c) (fieldsPolicy m)) ].

(* @src framework/cloud/schema_meta.cpp 67-72 CompatiblePolicy::Unmarshal *)
Definition Unmarshal (node : json) (m : CompatiblePolicy) : bool * CompatiblePolicy :=
  (true,
   mk (Got string_c node "tableName" (tableName m))
      (Got (vector_c FieldsPolicy.c) node "fieldsPolicy" (fieldsPolicy m))).

Definition valid_m (m : CompatiblePolicy) : Prop :=
  valid (vector_c FieldsPolicy.c) (fieldsPolicy m).
Definition fresh_m (m : CompatiblePolicy) : Prop :=
  fresh (vector_c FieldsPolicy.c) (fieldsPolicy m).
Definition kept_m (m : CompatiblePolicy) : Prop :=
  kept (vector_c FieldsPolicy.c) (fieldsPolicy m).

Definition c : codec CompatiblePolicy.
Proof. solve_codec Marshal Unmarshal blank_m valid_m kept_m fresh_m. Defined.
#[global] Instance CompatiblePolicy_eq_dec : EqDecision CompatiblePolicy.
Proof. solve_decision. Defined.
End CompatiblePolicy.

Module Field.
(* @src framework/include/cloud/schema_meta.h 44-55 Field *)
Record Field := mk {
  colName : string;
  alias : string;
  type : Z;
  primary : bool;
  autoIncrement : bool;
  nullable : bool;
  dupCheckCol : bool
}.
Definition blank_m : Field := mk "" "" 0 false false true false.

(* @src framework/cloud/schema_meta.cpp 244-254 Field::Marshal *)
Definition Marshal (m : Field) : json -> json :=
  write [ ("colName", SetValue string_c (colName m));
          ("alias", SetValue string_c (alias m));
          ("type", SetValue i32_c (type m));
          ("primary", SetValue bool_c (primary m));
          ("autoIncrement", SetValue bool_c (autoIncrement m));
          ("nullable", SetValue bool_c (nullable m));
          ("dupCheckCol", SetValue bool_c (dupCheckCol m)) ].

(* @src framework/cloud/schema_meta.cpp 256-269 Field::Unmarshal *)
Definition Unmarshal (node : json) (m : Field) : bool * Field :=
  (true,
   mk (Got string_c node "columnName" (Got string_c node "colName" (colName m)))
      (Got string_c node "alias" (alias m))
      (Got i32_c node "type" (type m))
      (Got bool_c node "primaryKey" (Got bool_c node "primary" (primary m)))
      (Got bool_c node "autoIncrement" (autoIncrement m))
      (Got bool_c node "notNull" (Got bool_c node "nullable" (nullable m)))
      (Got bool_c node "dupCheckCol" (dupCheckCol m))).

Definition valid_m (m : Field) : Prop :=
  valid i32_c (type m).
Definition fresh_m (m : Field) : Prop :=
  True.
Definition kept_m (m : Field) : Prop :=
  True.

Definition c : codec Field.
Proof. solve_codec Marshal Unmarshal blank_m valid_m kept_m fresh_m. Defined.
#[global] Instance Field_eq_dec : EqDecision Field.
Proof. solve_decision. Defined.

(* @src framework/cloud/schema_meta.cpp 270-274 Field::operator== *)
Definition eqb (a b : Field) : bool :=
  bool_decide (colName a = colName b) && bool_decide (alias a = alias b) && bool_decide (type a = type b) && bool_decide (primary a = primary b) && bool_decide (nullable a = nullable b) && bool_decide (dupCheckCol a = dupCheckCol b).
End Field.

Module Table.
(* @src framework/include/cloud/schema_meta.h 57-67 Table *)
Record Table := mk {
  name : string;
  sharedTableName : string;
  alias : string;
  fields : list Field.Field;
  deviceSyncFields : list string;
  cloudSyncFields : list string
}.
Definition blank_m : Table := mk "" "" "" [] [] [].

(* @src framework/cloud/schema_meta.cpp 214-223 Table::Marshal *)
Definition Marshal (m : Table) : json -> json :=
  write [ ("name", SetValue string_c (name m));
          ("sharedTableName", SetValue string_c (sharedTableName m));
          ("alias", SetValue string_c (alias m));
          ("fields", SetValue (vector_c Field.c) (fields m));
          ("deviceSyncFields", SetValue (vector_c string_c) (deviceSyncFields m));
          ("cloudSyncFields", SetValue (vector_c string_c) (cloudSyncFields m)) ].

(* @src framework/cloud/schema_meta.cpp 225-235 Table::Unmarshal *)
Definition Unmarshal (node : json) (m : Table) : bool * Table :=
  (true,
   mk (Got string_c node "tableName" (Got string_c node "name" (name m)))
      (Got string_c node "sharedTableName" (sharedTableName m))
      (Got string_c node "alias" (alias m))
      (Got (vector_c Field.c) node "fields" (fields m))
      (Got (vector_c string_c) node "deviceSyncFields" (deviceSyncFields m))
      (Got (vector_c string_c) node "cloudSyncFields" (cloudSyncFields m))).

Definition valid_m (m : Table) : Prop :=
  valid (vector_c Field.c) (fields m) /\
  valid (vector_c string_c) (deviceSyncFields m) /\
  valid (vector_c string_c) (cloudSyncFields m).
Definition fresh_m (m : Table) : Prop :=
  fresh (vector_c Field.c) (fields m) /\
  fresh (vector_c string_c) (deviceSyncFields m) /\
  fresh (vector_c string_c) (cloudSyncFields m).
Definition kept_m (m : Table) : Prop :=
  kept (vector_c Field.c) (fields m) /\
  kept (vector_c string_c) (deviceSyncFields m) /\
  kept (vector_c string_c) (cloudSyncFields m).

Definition c : codec Table.
Proof. solve_codec Marshal Unmarshal blank_m valid_m kept_m fresh_m. Defined.
End Table.

Module Database.
(* @src framework/include/cloud/schema_meta.h 69-88 Database *)
Record Database := mk {
  name : string;
  alias : string;
  tables : list Table.Table;
  backwardCompatiblePolicies : list CompatiblePolicy.CompatiblePolicy;
  autoSyncType : Z;
  user : string;
  deviceId : string;
  version : Z;
  bundleName : string
}.
Definition blank_m : Database := mk "" "" [] [] 0 "" "" 0 "".

(* @src framework/cloud/schema_meta.cpp 175-187 Database::Marshal *)
Definition Marshal (m : Database) : json -> json :=
  write [ ("name", SetValue string_c (name m));
          ("alias", SetValue string_c (alias m));
          ("tables", SetValue (vector_c Table.c) (tables m));
          ("version", SetValue u32_c (version m));
          ("bundleName", SetValue string_c (bundleName m));
          ("user", SetValue string_c (user m));
          ("deviceId", SetValue string_c (deviceId m));
          ("autoSyncType", SetValue u32_c (autoSyncType m));
          ("backwardCompatiblePolicies", SetValue (vector_c CompatiblePolicy.c) (backwardCompatiblePolicies m)) ].

(* @src framework/cloud/schema_meta.cpp 189-202 Database::Unmarshal *)
Definition Unmarshal (node : json) (m : Database) : bool * Database :=
  (true,
   mk (Got string_c node "dbName" (Got string_c node "name" (name m)))
      (Got string_c node "alias" (alias m))
      (Got (vector_c Table.c) node "tables" (tables m))
      (Got (vector_c CompatiblePolicy.c) node "backwardCompatiblePolicies" (backwardCompatiblePolicies m))
      (Got u32_c node "autoSyncType" (autoSyncType m))
      (Got string_c node "user" (user m))
      (Got string_c node "deviceId" (deviceId m))
      (Got u32_c node "version" (version m))
      (Got string_c node "bundleName" (bundleName m))).

Definition valid_m (m : Database) : Prop :=
  valid (vector_c Table.c) (tables m) /\
  valid (vector_c CompatiblePolicy.c) (backwardCompatiblePolicies m) /\
  valid u32_c (autoSyncType m) /\
  valid u32_c (version m).
Definition fresh_m (m : Database) : Prop :=
  fresh (vector_c Table.c) (tables m) /\
  fresh (vector_c CompatiblePolicy.c) (backwardCompatiblePolicies m).
Definition kept_m (m : Database) : Prop :=
  kept (vector_c Table.c) (tables m) /\
  kept (vector_c CompatiblePolicy.c) (backwardCompatiblePolicies m).

Definition c : codec Database.
Proof. solve_codec Marshal Unmarshal blank_m valid_m kept_m fresh_m. Defined.
(* @src framework/cloud/schema_meta.cpp 113-124 Database::GetTableNames *)
Definition GetTableNames (d : Database) : list string :=
  t ← tables d; Table.name t :: (if bool_decide (Table.sharedTableName t = "") then [] else [Table.sharedTableName t]).

(* @src framework/cloud/schema_meta.cpp 126-137 Database::GetSyncTables *)
Definition GetSyncTables (d : Database) : list string :=
  Table.name <$> filter (fun t => Table.deviceSyncFields t <> []) (tables d).

(* @src framework/cloud/schema_meta.cpp 139-154 Database::GetCloudTables *)
Definition GetCloudTables (d : Database) : list string :=
  t ← filter (fun t => Table.cloudSyncFields t <> []) (tables d);
  Table.name t :: (if bool_decide (Table.sharedTableName t = "") then [] else [Table.sharedTableName t]).

(* @src framework/cloud/schema_meta.cpp 161-168 Database::GetKey *)
Definition GetKeyOf (fields : list string) : string := Constant.Join "DistributedSchema" Constant.KEY_SEPARATOR fields.

(* @src framework/cloud/schema_meta.cpp 156-159 Database::GetKey *)
Definition GetKey (d : Database) : string := GetKeyOf [user d; "default"; bundleName d; name d].

(* @src framework/cloud/schema_meta.cpp 170-173 Database::GetPrefix *)
Definition GetPrefix (fields : list string) : string := GetKeyOf fields +:+ Constant.KEY_SEPARATOR.
End Database.

Module SchemaMeta.
(* @src framework/include/cloud/schema_meta.h 90-137 SchemaMeta *)
Record SchemaMeta := mk {
  metaVersion : Z;
  version : Z;
  bundleName : string;
  databases : list Database.Database;
  e2eeEnable : bool
}.
Definition blank_m : SchemaMeta := mk 65537 0 "" [] false.

(* @src framework/cloud/schema_meta.cpp 79-87 SchemaMeta::Marshal *)
Definition Marshal (m : SchemaMeta) : json -> json :=
  write [ ("metaVersion", SetValue u32_c (metaVersion m));
          ("version", SetValue i32_c (version m));
          ("bundleName", SetValue string_c (bundleName m));
          ("databases", SetValue (vector_c Database.c) (databases m));
          ("e2eeEnable", SetValue bool_c (e2eeEnable m)) ].

(* @src framework/cloud/schema_meta.cpp 89-100 SchemaMeta::Unmarshal *)
Definition Unmarshal (node : json) (m : SchemaMeta) : bool * SchemaMeta :=
  (true,
   mk (let '(ok, v) := GetValue u32_c node "metaVersion" (metaVersion m) in if (ok : bool) then v else 0)
      (Got i32_c node "version" (version m))
      (Got string_c node "bundleName" (bundleName m))
      (Got (vector_c Database.c) node "dbSchema" (Got (vector_c Database.c) node "databases" (databases m)))
      (Got bool_c node "e2eeEnable" (e2eeEnable m))).

Definition valid_m (m : SchemaMeta) : Prop :=
  valid u32_c (metaVersion m) /\
  valid i32_c (version m) /\
  valid (vector_c Database.c) (databases m).
Definition fresh_m (m : SchemaMeta) : Prop :=
  fresh (vector_c Database.c) (databases m).
Definition kept_m (m : SchemaMeta) : Prop :=
  kept (vector_c Database.c) (databases m).

Definition c : codec SchemaMeta.
Proof. solve_codec Marshal Unmarshal blank_m valid_m kept_m fresh_m.
  pose proof (GetFrom_valid u32_c (GetSubNode j "metaVersion") (metaVersion y)) as Hv. unfold GetValue.
  destruct (GetFrom _ _ _) as [ok v]. destruct ok; [by apply Hv|by_decide]. Defined.
(* @src framework/cloud/schema_meta.cpp 276-284 SchemaMeta::GetDataBase *)
Definition GetDataBase (storeId : string) (m : SchemaMeta) : Database.Database :=
  match list_find (fun d => Database.name d = storeId) (databases m) with Some (_, d) => d | None => Database.blank_m end.

(* @src framework/cloud/schema_meta.cpp 286-289 SchemaMeta::IsValid *)
Definition IsValid (m : SchemaMeta) : bool :=
  negb (bool_decide (bundleName m = "")) && match databases m with [] => false | _ => true end.

(* @src framework/cloud/schema_meta.cpp 291-298 SchemaMeta::GetStores *)
Definition GetStores (m : SchemaMeta) : list string := Database.name <$> databases m.
End SchemaMeta.

Module AppInfo.
(* @src framework/include/cloud/cloud_info.h 26-37 AppInfo *)
Record AppInfo := mk {
  bundleName : string;
  appId : string;
  version : Z;
  instanceId : Z;
  cloudSwitch : bool
}.
Definition blank_m : AppInfo := mk "" "" 0 0 false.

(* @src framework/cloud/cloud_info.cpp 76-84 CloudInfo::AppInfo::Marshal *)
Definition Marshal (m : AppInfo) : json -> json :=
  write [ ("bundleName", SetValue string_c (bundleName m));
          ("appId", SetValue string_c (appId m));
          ("version", SetValue u64_c (version m));
          ("instanceId", SetValue i32_c (instanceId m));
          ("cloudSwitch", SetValue bool_c (cloudSwitch m)) ].

(* @src framework/cloud/cloud_info.cpp 86-94 CloudInfo::AppInfo::Unmarshal *)
Definition Unmarshal (node : json) (m : AppInfo) : bool * AppInfo :=
  (true,
   mk (Got string_c node "bundleName" (bundleName m))
      (Got string_c node "appId" (appId m))
      (Got u64_c node "version" (version m))
      (Got i32_c node "instanceId" (instanceId m))
      (Got bool_c node "cloudSwitch" (cloudSwitch m))).

Definition valid_m (m : AppInfo) : Prop :=
  valid u64_c (version m) /\
  valid i32_c (instanceId m).
Definition fresh_m (m : AppInfo) : Prop :=
  True.
Definition kept_m (m : AppInfo) : Prop :=
  True.

Definition c : codec AppInfo.
Proof. solve_codec Marshal Unmarshal blank_m valid_m kept_m fresh_m. Defined.
#[global] Instance AppInfo_eq_dec : EqDecision AppInfo.
Proof. solve_decision. Defined.
End AppInfo.

Definition DEFAULT_BATCH_NUMBER : Z := 30.
Definition DEFAULT_BATCH_SIZE : Z := 1024 * 512 * 3.

Module CloudInfo.
(* @src framework/include/cloud/cloud_info.h 22-71 CloudInfo *)
Record CloudInfo := mk {
  user : Z;
  id : string;
  totalSpace : Z;
  remainSpace : Z;
  maxNumber : Z;
  maxSize : Z;
  enableCloud : bool;
  apps : gmap string AppInfo.AppInfo
}.
Definition blank_m : CloudInfo := mk 0 "" 0 0 0 0 false ∅.

(* @src framework/cloud/cloud_info.cpp 21-32 CloudInfo::Marshal *)
Definition Marshal (m : CloudInfo) : json -> json :=
  write [ ("user", SetValue i32_c (user m));
          ("id", SetValue string_c (id m));
          ("totalSpace", SetValue u64_c (totalSpace m));
          ("remainSpace", SetValue u64_c (remainSpace m));
          ("enableCloud", SetValue bool_c (enableCloud m));
          ("apps", SetValue (map_c AppInfo.c) (apps m));
          ("maxNumber", SetValue i32_c (maxNumber m));
          ("maxSize", SetValue i32_c (maxSize m)) ].

(* @src framework/cloud/cloud_info.cpp 34-49 CloudInfo::Unmarshal *)
Definition Unmarshal (node : json) (m : CloudInfo) : bool * CloudInfo :=
  (true,
   mk (Got i32_c node "user" (user m))
      (Got string_c node "id" (id m))
      (Got u64_c node "totalSpace" (totalSpace m))
      (Got u64_c node "remainSpace" (remainSpace m))
      (let '(ok, v) := GetValue i32_c node "maxNumber" (maxNumber m) in if negb ok || (v =? 0) then DEFAULT_BATCH_NUMBER else v)
      (let '(ok, v) := GetValue i32_c node "maxSize" (maxSize m) in if negb ok || (v =? 0) then DEFAULT_BATCH_SIZE else v)
      (Got bool_c node "enableCloud" (enableCloud m))
      (Got (map_c AppInfo.c) node "apps" (apps m))).

Definition valid_m (m : CloudInfo) : Prop :=
  valid i32_c (user m) /\
  valid u64_c (totalSpace m) /\
  valid u64_c (remainSpace m) /\
  valid i32_c (maxNumber m) /\
  valid i32_c (maxSize m) /\
  valid (map_c AppInfo.c) (apps m).
Definition fresh_m (m : CloudInfo) : Prop :=
  fresh (map_c AppInfo.c) (apps m).
Definition kept_m (m : CloudInfo) : Prop :=
  maxNumber m <> 0 /\
  maxSize m <> 0 /\
  kept (map_c AppInfo.c) (apps m).

Definition c : codec CloudInfo.
Proof. solve_codec Marshal Unmarshal blank_m valid_m kept_m fresh_m.
  - pose proof (GetFrom_valid i32_c (GetSubNode j "maxNumber") (maxNumber y)) as Hv. unfold GetValue.
    destruct (GetFrom _ _ _) as [ok v]. destruct (_ || _); [by_decide|by apply Hv].
  - pose proof (GetFrom_valid i32_c (GetSubNode j "maxSize") (maxSize y)) as Hv. unfold GetValue.
    destruct (GetFrom _ _ _) as [ok v]. destruct (_ || _); [by_decide|by apply Hv].
  - cbn [negb orb]. rewrite !(proj2 (Z.eqb_neq _ _)) by done. by destruct x. Defined.
(* @src framework/cloud/cloud_info.cpp 51-62 CloudInfo::IsAppsEqual *)
Definition IsAppsEqual (a : CloudInfo) (b : gmap string AppInfo.AppInfo) : bool :=
  bool_decide (length (map_to_list (apps a)) = length (map_to_list b)) && bool_decide ((ordered_entries (apps a)).*2 = (ordered_entries b).*2).

(* @src framework/cloud/cloud_info.cpp 183-186 CloudInfo::GetKey *)
Definition GetKeyOf (prefix : string) (fields : list string) : string := Constant.Join prefix Constant.KEY_SEPARATOR fields.

(* @src framework/cloud/cloud_info.cpp 107-110 CloudInfo::GetKey *)
Definition GetKey (m : CloudInfo) : string := GetKeyOf "CLOUD_INFO" [to_string (user m)].

(* @src framework/cloud/cloud_info.cpp 112-120 CloudInfo::GetSchemaKey *)
Definition GetSchemaKeys (m : CloudInfo) : gmap string string :=
  fold_left (fun keys kv => <[AppInfo.bundleName kv.2 :=
      GetKeyOf "CLOUD_SCHEMA" [to_string (user m); kv.1; to_string (AppInfo.instanceId kv.2)]]> keys)
    (ordered_entries (apps m)) ∅.

(* @src framework/cloud/cloud_info.cpp 122-125 CloudInfo::GetSchemaKey *)
Definition GetSchemaKey (bundleName : string) (instanceId : Z) (m : CloudInfo) : string :=
  GetKeyOf "CLOUD_SCHEMA" [to_string (user m); bundleName; to_string instanceId].

(* @src framework/cloud/cloud_info.cpp 132-138 CloudInfo::GetSchemaPrefix *)
Definition GetSchemaPrefix (bundleName : string) (m : CloudInfo) : string :=
  GetKeyOf "CLOUD_SCHEMA" (to_string (user m) :: (if bool_decide (bundleName = "") then [] else [bundleName])).

(* @src framework/cloud/cloud_info.cpp 150-157 CloudInfo::Exist *)
Definition Exist (bundleName : string) (instanceId : Z) (m : CloudInfo) : bool :=
  if bool_decide (bundleName = "") then false
  else match apps m !! bundleName with
       | Some a => bool_decide (AppInfo.bundleName a = bundleName) && (AppInfo.instanceId a =? instanceId)
       | None => false
       end.

(* @src framework/cloud/cloud_info.cpp 159-166 CloudInfo::IsOn *)
Definition IsOn (bundleName : string) (instanceId : Z) (m : CloudInfo) : bool :=
  if bool_decide (bundleName = "") then false
  else match apps m !! bundleName with
       | Some a => (AppInfo.instanceId a =? instanceId) && AppInfo.cloudSwitch a
       | None => false
       end.

(* @src framework/cloud/cloud_info.cpp 168-176 CloudInfo::IsAllSwitchOff *)
Definition IsAllSwitchOff (m : CloudInfo) : bool :=
  forallb (fun kv => negb (AppInfo.cloudSwitch kv.2)) (ordered_entries (apps m)).

(* @src framework/cloud/cloud_info.cpp 188-198 CloudInfo::GetAppInfo *)
Definition GetAppInfo (bundleName : string) (m : CloudInfo) : option AppInfo.AppInfo :=
  if bool_decide (bundleName = "") then None else apps m !! bundleName.
End CloudInfo.

Module Relation.
(* @src framework/include/cloud/subscription.h 25-31 Relation *)
Record Relation := mk {
  id : string;
  bundleName : string;
  relations : gmap string string
}.
Definition blank_m : Relation := mk "" "" ∅.

(* @src framework/cloud/subscription.cpp 20-26 Subscription::Relation::Marshal *)
Definition Marshal (m : Relation) : json -> json :=
  write [ ("id", SetValue string_c (id m));
          ("bundleName", SetValue string_c (bundleName m));
          ("relations", SetValue (map_c string_c) (relations m)) ].

(* @src framework/cloud/subscription.cpp 28-34 Subscription::Relation::Unmarshal *)
Definition Unmarshal (node : json) (m : Relation) : bool * Relation :=
  (true,
   mk (Got string_c node "id" (id m))
      (Got string_c node "bundleName" (bundleName m))
      (Got (map_c string_c) node "relations" (relations m))).

Definition valid_m (m : Relation) : Prop :=
  valid (map_c string_c) (relations m).
Definition fresh_m (m : Relation) : Prop :=
  fresh (map_c string_c) (relations m).
Definition kept_m (m : Relation) : Prop :=
  kept (map_c string_c) (relations m).

Definition c : codec Relation.
Proof. solve_codec Marshal Unmarshal blank_m valid_m kept_m fresh_m. Defined.
End Relation.

Module Subscription.
(* @src framework/include/cloud/subscription.h 20-46 Subscription *)
Record Subscription := mk {
  userId : Z;
  id : string;
  expiresTime : gmap string Z
}.
Definition blank_m : Subscription := mk 0 "" ∅.

(* @src framework/cloud/subscription.cpp 36-42 Subscription::Marshal *)
Definition Marshal (m : Subscription) : json -> json :=
  write [ ("userId", SetValue i32_c (userId m));
          ("id", SetValue string_c (id m));
          ("expiresTime", SetValue (map_c u64_c) (expiresTime m)) ].

(* @src framework/cloud/subscription.cpp 44-50 Subscription::Unmarshal *)
Definition Unmarshal (node : json) (m : Subscription) : bool * Subscription :=
  (true,
   mk (Got i32_c node "userId" (userId m))
      (Got string_c node "id" (id m))
      (Got (map_c u64_c) node "expiresTime" (expiresTime m))).

Definition valid_m (m : Subscription) : Prop :=
  valid i32_c (userId m) /\
  valid (map_c u64_c) (expiresTime m).
Definition fresh_m (m : Subscription) : Prop :=
  fresh (map_c u64_c) (expiresTime m).
Definition kept_m (m : Subscription) : Prop :=
  kept (map_c u64_c) (expiresTime m).

Definition c : codec Subscription.
Proof. solve_codec Marshal Unmarshal blank_m valid_m kept_m fresh_m. Defined.
(* @src framework/cloud/subscription.cpp 62-79 Subscription::GetMinExpireTime *)
Definition GetMinExpireTime (m : Subscription) : Z :=
  match ordered_entries (expiresTime m) with
  | [] => 0
  | (_, expire) :: rest =>
      fold_left (fun expire kv => if kv.2 =? 0 then expire else if kv.2 <? expire then kv.2 else expire) rest expire
  end.

(* @src framework/cloud/subscription.cpp 81-84 Subscription::GetKey *)
Definition GetKey (userId : Z) : string := Constant.Join "CLOUD_SUBSCRIPTION" Constant.KEY_SEPARATOR [to_string userId].

(* @src framework/cloud/subscription.cpp 86-89 Subscription::GetRelationKey *)
Definition GetRelationKey (userId : Z) (bundleName : string) : string :=
  Constant.Join "CLOUD_RELATION" Constant.KEY_SEPARATOR [to_string userId; bundleName].
End Subscription.

Module TableSyncConfig.
(* @src framework/include/cloud/cloud_db_sync_config.h 27-33 TableSyncConfig *)
Record TableSyncConfig := mk {
  tableName : string;
  cloudSyncEnabled : bool
}.
Definition blank_m : TableSyncConfig := mk "" true.

(* @src framework/cloud/cloud_db_sync_config.cpp 21-26 CloudDbSyncConfig::TableSyncConfig::Marshal *)
Definition Marshal (m : TableSyncConfig) : json -> json :=
  write [ ("tableName", SetValue string_c (tableName m));
          ("cloudSyncEnabled", SetValue bool_c (cloudSyncEnabled m)) ].

(* @src framework/cloud/cloud_db_sync_config.cpp 28-33 CloudDbSyncConfig::TableSyncConfig::Unmarshal *)
Definition Unmarshal (node : json) (m : TableSyncConfig) : bool * TableSyncConfig :=
  (true,
   mk (Got string_c node "tableName" (tableName m))
      (Got bool_c node "cloudSyncEnabled" (cloudSyncEnabled m))).

Definition valid_m (m : TableSyncConfig) : Prop :=
  True.
Definition fresh_m (m : TableSyncConfig) : Prop :=
  True.
Definition kept_m (m : TableSyncConfig) : Prop :=
  True.

Definition c : codec TableSyncConfig.
Proof. solve_codec Marshal Unmarshal blank_m valid_m kept_m fresh_m. Defined.
End TableSyncConfig.

Module DbSyncConfig.
(* @src framework/include/cloud/cloud_db_sync_config.h 35-42 DbSyncConfig *)
Record DbSyncConfig := mk {
  dbName : string;
  cloudSyncEnabled : bool;
  tableConfigs : list TableSyncConfig.TableSyncConfig
}.
Definition blank_m : DbSyncConfig := mk "" true [].

(* @src framework/cloud/cloud_db_sync_config.cpp 35-41 CloudDbSyncConfig::DbSyncConfig::Marshal *)
Definition Marshal (m : DbSyncConfig) : json -> json :=
  write [ ("dbName", SetValue string_c (dbName m));
          ("cloudSyncEnabled", SetValue bool_c (cloudSyncEnabled m));
          ("tableConfigs", SetValue (vector_c TableSyncConfig.c) (tableConfigs m)) ].

(* @src framework/cloud/cloud_db_sync_config.cpp 43-49 CloudDbSyncConfig::DbSyncConfig::Unmarshal *)
Definition Unmarshal (node : json) (m : DbSyncConfig) : bool * DbSyncConfig :=
  (true,
   mk (Got string_c node "dbName" (dbName m))
      (Got bool_c node "cloudSyncEnabled" (cloudSyncEnabled m))
      (Got (vector_c TableSyncConfig.c) node "tableConfigs" (tableConfigs m))).

Definition valid_m (m : DbSyncConfig) : Prop :=
  valid (vector_c TableSyncConfig.c) (tableConfigs m).
Definition fresh_m (m : DbSyncConfig) : Prop :=
  fresh (vector_c TableSyncConfig.c) (tableConfigs m).
Definition kept_m (m : DbSyncConfig) : Prop :=
  kept (vector_c TableSyncConfig.c) (tableConfigs m).

Definition c : codec DbSyncConfig.
Proof. solve_codec Marshal Unmarshal blank_m valid_m kept_m fresh_m. Defined.
End DbSyncConfig.

Module CloudDbSyncConfig.
(* @src framework/include/cloud/cloud_db_sync_config.h 25-54 CloudDbSyncConfig *)
Record CloudDbSyncConfig := mk {
  bundleName : string;
  dbConfigs : list DbSyncConfig.DbSyncConfig
}.
Definition blank_m : CloudDbSyncConfig := mk "" [].

(* @src framework/cloud/cloud_db_sync_config.cpp 51-56 CloudDbSyncConfig::Marshal *)
Definition Marshal (m : CloudDbSyncConfig) : json -> json :=
  write [ ("bundleName", SetValue string_c (bundleName m));
          ("dbConfigs", SetValue (vector_c DbSyncConfig.c) (dbConfigs m)) ].

(* @src framework/cloud/cloud_db_sync_config.cpp 58-63 CloudDbSyncConfig::Unmarshal *)
Definition Unmarshal (node : json) (m : CloudDbSyncConfig) : bool * CloudDbSyncConfig :=
  (true,
   mk (Got string_c node "bundleName" (bundleName m))
      (Got (vector_c DbSyncConfig.c) node "dbConfigs" (dbConfigs m))).

Definition valid_m (m : CloudDbSyncConfig) : Prop :=
  valid (vector_c DbSyncConfig.c) (dbConfigs m).
Definition fresh_m (m : CloudDbSyncConfig) : Prop :=
  fresh (vector_c DbSyncConfig.c) (dbConfigs m).
Definition kept_m (m : CloudDbSyncConfig) : Prop :=
  kept (vector_c DbSyncConfig.c) (dbConfigs m).

Definition c : codec CloudDbSyncConfig.
Proof. solve_codec Marshal Unmarshal blank_m valid_m kept_m fresh_m. Defined.
End CloudDbSyncConfig.

Module CloudLastSyncInfo.
(* @src framework/include/cloud/cloud_last_sync_info.h 23-40 CloudLastSyncInfo *)
Record CloudLastSyncInfo := mk {
  id : string;
  storeId : string;
  startTime : Z;
  finishTime : Z;
  code : Z;
  syncStatus : Z;
  instanceId : Z
}.
Definition blank_m : CloudLastSyncInfo := mk "" "" 0 0 (-1) 0 0.

(* @src framework/cloud/cloud_last_sync_info.cpp 20-30 CloudLastSyncInfo::Marshal *)
Definition Marshal (m : CloudLastSyncInfo) : json -> json :=
  write [ ("id", SetValue string_c (id m));
          ("storeId", SetValue string_c (storeId m));
          ("startTime", SetValue i64_c (startTime m));
          ("finishTime", SetValue i64_c (finishTime m));
          ("code", SetValue i32_c (code m));
          ("syncStatus", SetValue i32_c (syncStatus m));
          ("instanceId", SetValue i32_c (instanceId m)) ].

(* @src framework/cloud/cloud_last_sync_info.cpp 32-42 CloudLastSyncInfo::Unmarshal *)
Definition Unmarshal (node : json) (m : CloudLastSyncInfo) : bool * CloudLastSyncInfo :=
  (true,
   mk (Got string_c node "id" (id m))
      (Got string_c node "storeId" (storeId m))
      (Got i64_c node "startTime" (startTime m))
      (Got i64_c node "finishTime" (finishTime m))
      (Got i32_c node "code" (code m))
      (Got i32_c node "syncStatus" (syncStatus m))
      (Got i32_c node "instanceId" (instanceId m))).

Definition valid_m (m : CloudLastSyncInfo) : Prop :=
  valid i64_c (startTime m) /\
  valid i64_c (finishTime m) /\
  valid i32_c (code m) /\
  valid i32_c (syncStatus m) /\
  valid i32_c (instanceId m).
Definition fresh_m (m : CloudLastSyncInfo) : Prop :=
  True.
Definition kept_m (m : CloudLastSyncInfo) : Prop :=
  True.

Definition c : codec CloudLastSyncInfo.
Proof. solve_codec Marshal Unmarshal blank_m valid_m kept_m fresh_m. Defined.
End CloudLastSyncInfo.

Module Context.
(* @src framework/include/cloud/cloud_extra_data.h 23-29 Context *)
Record Context := mk {
  traceId : string;
  prepareTraceId : string
}.
Definition blank_m : Context := mk "" "".

(* @src framework/cloud/cloud_extra_data.cpp 20-25 Context::Marshal *)
Definition Marshal (m : Context) : json -> json :=
  write [ ("traceId", SetValue string_c (traceId m));
          ("prepareTraceId", SetValue string_c (prepareTraceId m)) ].

(* @src framework/cloud/cloud_extra_data.cpp 27-32 Context::Unmarshal *)
Definition Unmarshal (node : json) (m : Context) : bool * Context :=
  (true,
   mk (Got string_c node "traceId" (traceId m))
      (Got string_c node "prepareTraceId" (prepareTraceId m))).

Definition valid_m (m : Context) : Prop :=
  True.
Definition fresh_m (m : Context) : Prop :=
  True.
Definition kept_m (m : Context) : Prop :=
  True.

Definition c : codec Context.
Proof. solve_codec Marshal Unmarshal blank_m valid_m kept_m fresh_m. Defined.
End Context.

(** ** Properties *)

(** The schema of an application, with its databases, tables and fields, and
    the account information of a user survive the text of the metadata store; the
    batch limits of the account are never 0 after reading. *)
Lemma cloud_roundtrip `{JsonText} schema info body :
  valid SchemaMeta.c schema -> kept SchemaMeta.c schema -> printable (SetValue SchemaMeta.c schema) ->
  valid CloudInfo.c info -> kept CloudInfo.c info -> printable (SetValue CloudInfo.c info) ->
  Unmarshall SchemaMeta.c (Marshall SchemaMeta.c schema) SchemaMeta.blank_m = (true, schema) /\
  Unmarshall CloudInfo.c (Marshall CloudInfo.c info) CloudInfo.blank_m = (true, info) /\
  (is_object (ToJson body) = true ->
   CloudInfo.maxNumber (Unmarshall CloudInfo.c body CloudInfo.blank_m).2 <> 0 /\
   CloudInfo.maxSize (Unmarshall CloudInfo.c body CloudInfo.blank_m).2 <> 0).
Proof.
  intros Hv Hk Hp Hv' Hk' Hp'. split; [|split].
  - apply Unmarshall_Marshall; [done|done|apply (blank_fresh SchemaMeta.c)|done].
  - apply Unmarshall_Marshall; [done|done|apply (blank_fresh CloudInfo.c)|done].
  - intros Ho. unfold Unmarshall, GetValue. rewrite GetSubNode_self. cbn [CloudInfo.c object_c GetFrom].
    unfold GetObject. rewrite Ho. unfold CloudInfo.Unmarshal. cbn [snd CloudInfo.maxNumber CloudInfo.maxSize].
    destruct (GetValue i32_c _ "maxNumber" _) as [[] v], (GetValue i32_c _ "maxSize" _) as [[] w]; cbn [negb orb];
      repeat match goal with |- context [?z =? 0] => destruct (Z.eqb_spec z 0) end; done.
Qed.

(** Searching the entries of a map in the order of its keys. *)
Lemma ordered_entries_elem {A} (m : gmap string A) kv : kv ∈ ordered_entries m <-> m !! kv.1 = Some kv.2.
Proof.
  unfold ordered_entries. rewrite merge_sort_Permutation. destruct kv as [k v]. apply elem_of_map_to_list.
Qed.

Lemma IsAllSwitchOff_spec m :
  CloudInfo.IsAllSwitchOff m = true <->
  forall bundle a, CloudInfo.apps m !! bundle = Some a -> AppInfo.cloudSwitch a = false.
Proof.
  unfold CloudInfo.IsAllSwitchOff. rewrite forallb_forall. split.
  - intros Hf b a Hb. specialize (Hf (b, a)). rewrite <- list_elem_of_In, ordered_entries_elem in Hf.
    specialize (Hf Hb). by apply negb_true_iff in Hf.
  - intros Hf [b a]. rewrite <- list_elem_of_In, ordered_entries_elem. intros Hb. by rewrite (Hf _ _ Hb).
Qed.

(** *** Witnesses *)

#[local] Existing Instance TreeText.

Definition sample_schema : SchemaMeta.SchemaMeta :=
  SchemaMeta.mk 65537 1 "bundle"
    [Database.mk "store" "alias"
       [Table.mk "t" "" "t" [Field.mk "id" "id" 0 true false false false; Field.mk "v" "v" 2 false false true false] [] ["v"]]
       [CompatiblePolicy.mk "t" [FieldsPolicy.mk "v" [CompatibleConstraint.mk true false]]] 0 "100" "dev" 3 "bundle"] false.
Definition sample_info : CloudInfo.CloudInfo :=
  CloudInfo.mk 100 "id" 1000 900 30 1024 true {["bundle" := AppInfo.mk "bundle" "app" 1 0 true]}.

Lemma cloud_roundtrip_witness :
  Unmarshall SchemaMeta.c (Marshall SchemaMeta.c sample_schema) SchemaMeta.blank_m = (true, sample_schema) /\
  Unmarshall CloudInfo.c (Marshall CloudInfo.c sample_info) CloudInfo.blank_m = (true, sample_info).
Proof.
  assert (Hs : valid SchemaMeta.c sample_schema) by solve_valid.
  assert (Hsk : kept SchemaMeta.c sample_schema) by solve_valid.
  assert (Hi : valid CloudInfo.c sample_info).
  { unfold sample_info. hnf. repeat match goal with |- _ /\ _ => split end; [solve_valid..|]. apply map_Forall_singleton. solve_valid. }
  assert (Hik : kept CloudInfo.c sample_info).
  { unfold sample_info. hnf. split; [done|]. split; [done|]. by apply map_Forall_singleton. }
  destruct (cloud_roundtrip (H := TreeText) sample_schema sample_info (Marshall CloudInfo.c sample_info)
    Hs Hsk I Hi Hik I) as (H1 & H2 & _). by split.
Defined.

(** *** Reading and comparing in other ways than intended *)

(** The older name [notNull] is stored as it is in [nullable]. *)
Lemma not_null_inverted :
  Field.nullable (Field.Unmarshal (JObject {["notNull" := JBool true]}) Field.blank_m).2 = true.
Proof. reflexivity. Qed.

(** An invalid expiry time is skipped, unless it is the first. *)
Lemma min_expire_time_invalid_first :
  let at_ l := Subscription.GetMinExpireTime (Subscription.mk 100 "" (list_to_map l)) in
  at_ [("a", 7); ("b", 0)] = 7 /\ at_ [("a", 0); ("b", 7)] = 0.
Proof. split; reflexivity. Qed.

(** The applications of two accounts are compared without their names. *)
Lemma apps_equal_ignores_names :
  let app := AppInfo.mk "x" "app" 1 0 true in
  CloudInfo.IsAppsEqual (CloudInfo.mk 100 "" 0 0 1 1 true {["a" := app]}) {["b" := app]} = true.
Proof. reflexivity. Qed.

End CloudData.
