(* ===== verification/CloudPolicy.v ===== *)
(** * Which data may be synchronised with the cloud ([service/cloud])

    [SyncConfig] keeps in the metadata which databases and tables of an application
    take part in the cloud synchronisation; [NetworkSyncStrategy] decides by the
    user's settings for an application, or the global ones, whether the network in
    use is acceptable. Both are proved against the interface of the metadata store. *)

From Stdlib Require Import Ascii.
From S2P Require Import Prelude CppString Interfaces Constant CloudData.
Import CloudData.

Module SyncConfig.

Abbreviation TableConfig := TableSyncConfig.TableSyncConfig.
Abbreviation DbConfig := DbSyncConfig.DbSyncConfig.
Abbreviation Config := CloudDbSyncConfig.CloudDbSyncConfig.

(** [DBSwitchInfo]; maps are lists of their entries in order. *)
Record DBSwitchInfo := mkSwitch { enable : bool; tableInfo : list (string * bool) }.

(* @src framework/cloud/cloud_db_sync_config.cpp 65-68 CloudDbSyncConfig::GetKey *)
Definition GetKey (userId : Z) (bundleName : string) : string :=
  Constant.Join "CLOUD_DB_SYNC_CONFIG" Constant.KEY_SEPARATOR [to_string userId; bundleName].

(** One iteration of [UpdateTableConfigs]: the first entry of the name is set, or a
    new one is added behind. *)
Fixpoint set_table (tableName : string) (tableEnable : bool) (l : list TableConfig) : bool * list TableConfig :=
  match l with
  | [] => (true, [TableSyncConfig.mk tableName tableEnable])
  | c :: l =>
      if bool_decide (TableSyncConfig.tableName c = tableName) then
        if negb (eqb (TableSyncConfig.cloudSyncEnabled c) tableEnable)
        then (true, TableSyncConfig.mk (TableSyncConfig.tableName c) tableEnable :: l) else (false, c :: l)
      else let '(changed, l) := set_table tableName tableEnable l in (changed, c :: l)
  end.

(* @src service/cloud/sync_config.cpp 86-107 SyncConfig::UpdateTableConfigs *)
Fixpoint UpdateTableConfigs (tableConfigs : list TableConfig) (tableInfo : list (string * bool)) : bool * list TableConfig :=
  match tableInfo with
  | [] => (false, tableConfigs)
  | (tableName, tableEnable) :: rest =>
      let '(changed, tableConfigs) := set_table tableName tableEnable tableConfigs in
      let '(hasChanges, tableConfigs) := UpdateTableConfigs tableConfigs rest in
      (changed || hasChanges, tableConfigs)
  end.

Definition new_db (dbName : string) (sw : DBSwitchInfo) : DbConfig :=
  DbSyncConfig.mk dbName (enable sw) ((fun p => TableSyncConfig.mk p.1 p.2) <$> tableInfo sw).

(** The change of the entry that was found. *)
Definition change_db (sw : DBSwitchInfo) (c : DbConfig) : bool * DbConfig :=
  let '(changed, tables) :=
    match tableInfo sw with
    | [] => (false, DbSyncConfig.tableConfigs c)
    | _ => UpdateTableConfigs (DbSyncConfig.tableConfigs c) (tableInfo sw)
    end in
  (negb (eqb (DbSyncConfig.cloudSyncEnabled c) (enable sw)) || changed, DbSyncConfig.mk (DbSyncConfig.dbName c) (enable sw) tables).

(* @src service/cloud/sync_config.cpp 109-136 SyncConfig::UpdateSingleDbConfig *)
Fixpoint UpdateSingleDbConfig (l : list DbConfig) (dbName : string) (dbSwitch : DBSwitchInfo) : bool * list DbConfig :=
  match l with
  | [] => (true, [new_db dbName dbSwitch])
  | c :: l =>
      if bool_decide (DbSyncConfig.dbName c = dbName) then let '(changed, c) := change_db dbSwitch c in (changed, c :: l)
      else let '(changed, l) := UpdateSingleDbConfig l dbName dbSwitch in (changed, c :: l)
  end.

Fixpoint update_dbs (l : list DbConfig) (dbInfo : list (string * DBSwitchInfo)) : bool * list DbConfig :=
  match dbInfo with
  | [] => (false, l)
  | (dbName, dbSwitch) :: rest =>
      let '(changed, l) := UpdateSingleDbConfig l dbName dbSwitch in
      let '(hasChanges, l) := update_dbs l rest in
      (changed || hasChanges, l)
  end.

Section Store.
Context {MS : MetaStore Config}.

(* @src service/cloud/sync_config.cpp 25-48 SyncConfig::UpdateConfig *)
Definition UpdateConfig (userId : Z) (bundleName : string) (dbInfo : list (string * DBSwitchInfo)) (d : meta_db Config)
    : bool * meta_db Config :=
  match dbInfo with
  | [] => (false, d)
  | _ =>
      let key := GetKey userId bundleName in
      let '(loaded, d) := LoadMeta key true d in
      let config := default (CloudDbSyncConfig.mk bundleName []) loaded in
      let '(hasChanges, dbs) := update_dbs (CloudDbSyncConfig.dbConfigs config) dbInfo in
      if (hasChanges : bool) then SaveMeta key (CloudDbSyncConfig.mk (CloudDbSyncConfig.bundleName config) dbs) true d
      else (true, d)
  end.

Definition find_db (dbName : string) (l : list DbConfig) : option DbConfig :=
  List.find (fun c => bool_decide (DbSyncConfig.dbName c = dbName)) l.

(* @src service/cloud/sync_config.cpp 50-62 SyncConfig::IsDbEnable *)
Definition IsDbEnable (userId : Z) (bundleName dbName : string) (d : meta_db Config) : bool :=
  match (LoadMeta (GetKey userId bundleName) true d).1 with
  | None => true
  | Some config => match find_db dbName (CloudDbSyncConfig.dbConfigs config) with
                   | Some c => DbSyncConfig.cloudSyncEnabled c
                   | None => true
                   end
  end.

Definition isTableDisabled (tableConfigs : list TableConfig) (table : string) : bool :=
  existsb (fun c => bool_decide (TableSyncConfig.tableName c = table) && negb (TableSyncConfig.cloudSyncEnabled c)) tableConfigs.

(** The answer and the tables that are left. *)
(* @src service/cloud/sync_config.cpp 64-84 SyncConfig::FilterCloudEnabledTables *)
Definition FilterCloudEnabledTables (userId : Z) (bundleName dbName : string) (tables : list string) (d : meta_db Config)
    : bool * list string :=
  match (LoadMeta (GetKey userId bundleName) true d).1 with
  | None => (true, tables)
  | Some config =>
      match find_db dbName (CloudDbSyncConfig.dbConfigs config) with
      | None => (true, tables)
      | Some c =>
          let tables := filter (fun t => isTableDisabled (DbSyncConfig.tableConfigs c) t = false) tables in
          (negb (bool_decide (tables = [])), tables)
      end
  end.

(** ** What a configuration says *)

Definition db_on (l : list DbConfig) (db : string) : bool :=
  match find_db db l with Some c => DbSyncConfig.cloudSyncEnabled c | None => true end.
Definition table_on (l : list DbConfig) (db table : string) : bool :=
  match find_db db l with Some c => negb (isTableDisabled (DbSyncConfig.tableConfigs c) table) | None => true end.

(** A name stands once in the table list of a database. *)
Definition wf (l : list DbConfig) : Prop := Forall (fun c => NoDup (TableSyncConfig.tableName <$> DbSyncConfig.tableConfigs c)) l.

(** What the configuration of an application says, when there is one. *)
Definition configured (d : meta_db Config) (userId : Z) (bundleName : string) : list DbConfig :=
  match stored d true (GetKey userId bundleName) with Some c => CloudDbSyncConfig.dbConfigs c | None => [] end.

Definition entry {A} (k : string) (l : list (string * A)) : option A :=
  snd <$> List.find (fun p => bool_decide (p.1 = k)) l.

#[global] Arguments entry : simpl never.

(** ** Lemmas *)

Lemma set_table_names t v l : NoDup (TableSyncConfig.tableName <$> l) ->
  NoDup (TableSyncConfig.tableName <$> (set_table t v l).2) /\
  (forall x, x ∈ TableSyncConfig.tableName <$> (set_table t v l).2 -> x = t \/ x ∈ TableSyncConfig.tableName <$> l).
Proof.
  induction l as [|c l IH]; cbn; intros Hnd; [split; [apply NoDup_singleton|set_solver]|].
  apply NoDup_cons in Hnd as [Hc Hnd]. case_bool_decide as E.
  - case_match; cbn; (split; [by apply NoDup_cons|set_solver]).
  - destruct (IH Hnd) as [IH1 IH2]. destruct (set_table t v l) as [b l']. cbn in *. split; [apply NoDup_cons; split; [|done]|set_solver].
    intros [E'|Hin]%IH2; done.
Qed.

Lemma isTableDisabled_cons c l t : isTableDisabled (c :: l) t =
  bool_decide (TableSyncConfig.tableName c = t) && negb (TableSyncConfig.cloudSyncEnabled c) || isTableDisabled l t.
Proof. done. Qed.

Lemma set_table_on t v l t' : NoDup (TableSyncConfig.tableName <$> l) ->
  isTableDisabled (set_table t v l).2 t' = if bool_decide (t' = t) then negb v else isTableDisabled l t'.
Proof.
  induction l as [|c l IH]; cbn; intros Hnd.
  { rewrite orb_false_r. do 2 case_bool_decide; first [done|congruence]. }
  apply NoDup_cons in Hnd as [Hc Hnd]. specialize (IH Hnd).
  destruct (decide (TableSyncConfig.tableName c = t)) as [<-|E].
  - rewrite (bool_decide_eq_true_2 (TableSyncConfig.tableName c = TableSyncConfig.tableName c)) by done.
    assert (isTableDisabled l (TableSyncConfig.tableName c) = false) as Hno.
    { apply not_true_is_false. intros (c' & Hin & [Hn _]%andb_true_iff)%existsb_exists. apply bool_decide_eq_true in Hn.
      apply Hc. rewrite <- Hn. apply list_elem_of_fmap. exists c'. split; [done|]. by apply list_elem_of_In. }
    assert (isTableDisabled (if negb (eqb (TableSyncConfig.cloudSyncEnabled c) v)
      then (true, TableSyncConfig.mk (TableSyncConfig.tableName c) v :: l) else (false, c :: l)).2 t'
      = bool_decide (TableSyncConfig.tableName c = t') && negb v || isTableDisabled l t') as ->.
    { destruct (eqb (TableSyncConfig.cloudSyncEnabled c) v) eqn:Ev; [|done]. apply eqb_prop in Ev. by subst v. }
    destruct (decide (t' = TableSyncConfig.tableName c)) as [->|Hne].
    + rewrite !bool_decide_eq_true_2, Hno by done. by rewrite orb_false_r.
    + rewrite !bool_decide_eq_false_2 by congruence. done.
  - rewrite (bool_decide_eq_false_2 (TableSyncConfig.tableName c = t)) by done. destruct (set_table t v l) as [b l'].
    cbn [snd] in *. rewrite isTableDisabled_cons, IH. destruct (decide (t' = t)) as [->|Hne].
    + by rewrite !(bool_decide_eq_true_2 (t = t)), bool_decide_eq_false_2 by done.
    + by rewrite !(bool_decide_eq_false_2 (t' = t)) by done.
Qed.

#[global] Arguments isTableDisabled : simpl never.

Lemma set_table_unchanged t v l : (set_table t v l).1 = false -> (set_table t v l).2 = l.
Proof.
  induction l as [|c l IH]; cbn; [done|]. case_bool_decide; [case_match; done|].
  destruct (set_table t v l) as [b l']. cbn in *. intros Hb. by rewrite IH.
Qed.

(** The value a list of entries gives to a table, or the former one. *)
Definition given (info : list (string * bool)) (old : bool) (t : string) : bool := default old (entry t info).

#[global] Arguments given : simpl never.

Lemma entry_cons {A} k v (l : list (string * A)) t : entry t ((k, v) :: l) = if bool_decide (k = t) then Some v else entry t l.
Proof. unfold entry. cbn. by case_bool_decide. Qed.

Lemma entry_None {A} (l : list (string * A)) t : t ∉ l.*1 -> entry t l = None.
Proof.
  induction l as [|[k v] l IH]; [done|]. rewrite fmap_cons, not_elem_of_cons. intros [Hk Hn]. cbn in Hk.
  rewrite entry_cons, bool_decide_eq_false_2 by congruence. by apply IH.
Qed.

Lemma UpdateTableConfigs_spec info l : NoDup (TableSyncConfig.tableName <$> l) -> NoDup info.*1 ->
  NoDup (TableSyncConfig.tableName <$> (UpdateTableConfigs l info).2) /\
  forall t, negb (isTableDisabled (UpdateTableConfigs l info).2 t) = given info (negb (isTableDisabled l t)) t.
Proof.
  revert l. induction info as [|[k v] info IH]; intros l Hl Hi; [done|]. cbn [UpdateTableConfigs]. cbn in Hi.
  apply NoDup_cons in Hi as [Hk Hi]. destruct (set_table_names k v l Hl) as [Hnd _]. pose proof (set_table_on k v l) as Hon.
  destruct (set_table k v l) as [b l']. cbn in Hnd, Hon. destruct (IH l' Hnd Hi) as [IH1 IH2].
  destruct (UpdateTableConfigs l' info) as [b' l'']. split; [done|]. intros t. cbn in *. rewrite IH2. unfold given. rewrite entry_cons, Hon by done.
  destruct (decide (k = t)) as [->|Hne].
  - rewrite !bool_decide_eq_true_2 by done. rewrite (entry_None info t Hk). cbn. apply negb_involutive.
  - rewrite !bool_decide_eq_false_2 by congruence. done.
Qed.

Lemma UpdateTableConfigs_unchanged info l : (UpdateTableConfigs l info).1 = false -> (UpdateTableConfigs l info).2 = l.
Proof.
  revert l. induction info as [|[k v] info IH]; intros l; [done|]. cbn. pose proof (set_table_unchanged k v l) as Hs.
  destruct (set_table k v l) as [b l']. specialize (IH l'). destruct (UpdateTableConfigs l' info) as [b' l'']. cbn in *.
  intros [-> ->]%orb_false_iff. rewrite IH, Hs; done.
Qed.

Lemma new_db_spec db sw : NoDup (tableInfo sw).*1 ->
  NoDup (TableSyncConfig.tableName <$> DbSyncConfig.tableConfigs (new_db db sw)) /\
  forall t, negb (isTableDisabled (DbSyncConfig.tableConfigs (new_db db sw)) t) = given (tableInfo sw) true t.
Proof.
  intros Hnd. cbn. split.
  { rewrite <- list_fmap_compose. by replace ((TableSyncConfig.tableName ∘ (fun p : string * bool => TableSyncConfig.mk p.1 p.2)) <$> tableInfo sw)
      with (tableInfo sw).*1 by (by apply list_fmap_ext). }
  intros t. induction (tableInfo sw) as [|[k v] l IH]; [done|]. cbn in Hnd. apply NoDup_cons in Hnd as [Hk Hnd]. specialize (IH Hnd).
  rewrite fmap_cons, isTableDisabled_cons. cbn. unfold given in *. rewrite entry_cons. case_bool_decide as E.
  - subst k. rewrite (entry_None l t Hk) in IH. cbn in *. apply negb_true_iff in IH. rewrite IH, orb_false_r. apply negb_involutive.
  - done.
Qed.

Lemma find_db_cons c l db : find_db db (c :: l) = if bool_decide (DbSyncConfig.dbName c = db) then Some c else find_db db l.
Proof. done. Qed.

Definition wf_switch (sw : DBSwitchInfo) : Prop := NoDup (tableInfo sw).*1.

Lemma change_db_spec sw c : wf_switch sw -> NoDup (TableSyncConfig.tableName <$> DbSyncConfig.tableConfigs c) ->
  let c' := (change_db sw c).2 in
  DbSyncConfig.dbName c' = DbSyncConfig.dbName c /\ DbSyncConfig.cloudSyncEnabled c' = enable sw /\
  NoDup (TableSyncConfig.tableName <$> DbSyncConfig.tableConfigs c') /\
  (forall t, negb (isTableDisabled (DbSyncConfig.tableConfigs c') t) = given (tableInfo sw) (negb (isTableDisabled (DbSyncConfig.tableConfigs c) t)) t) /\
  ((change_db sw c).1 = false -> c' = c).
Proof.
  intros Hsw Hc. unfold change_db. pose proof (UpdateTableConfigs_spec (tableInfo sw) (DbSyncConfig.tableConfigs c) Hc Hsw) as Hu.
  pose proof (UpdateTableConfigs_unchanged (tableInfo sw) (DbSyncConfig.tableConfigs c)) as Hn.
  assert (match tableInfo sw with [] => (false, DbSyncConfig.tableConfigs c) | _ => UpdateTableConfigs (DbSyncConfig.tableConfigs c) (tableInfo sw) end
    = UpdateTableConfigs (DbSyncConfig.tableConfigs c) (tableInfo sw)) as -> by by destruct (tableInfo sw).
  destruct (UpdateTableConfigs (DbSyncConfig.tableConfigs c) (tableInfo sw)) as [b ts]. cbn in *. destruct Hu as [Hu1 Hu2].
  split_and!; try done. intros [He%negb_false_iff%eqb_prop ->]%orb_false_iff. rewrite <- He, Hn by done. by destruct c.
Qed.

(** Setting one database. *)
Lemma UpdateSingleDbConfig_spec l db sw : wf l -> wf_switch sw ->
  let l' := (UpdateSingleDbConfig l db sw).2 in
  wf l' /\ ((UpdateSingleDbConfig l db sw).1 = false -> l' = l) /\
  (forall x, db_on l' x = if bool_decide (db = x) then enable sw else db_on l x) /\
  (forall x t, table_on l' x t = if bool_decide (db = x) then given (tableInfo sw) (table_on l x t) t else table_on l x t).
Proof.
  intros Hl Hsw. unfold db_on, table_on. induction Hl as [|c l Hc Hl IH]; cbn [UpdateSingleDbConfig].
  { destruct (new_db_spec db sw Hsw) as [Hn Ht]. cbn [snd fst]. split_and!; [by repeat constructor|done| |]; intros x; [|intros t];
      rewrite find_db_cons; change (DbSyncConfig.dbName (new_db db sw)) with db; case_bool_decide; try done. }
  destruct (decide (DbSyncConfig.dbName c = db)) as [Hdb|Hdb].
  - rewrite (bool_decide_eq_true_2 (DbSyncConfig.dbName c = db)) by done. pose proof (change_db_spec sw c Hsw Hc) as Hch.
    destruct (change_db sw c) as [b c']. cbn in Hch. destruct Hch as (Hn & He & Hnd & Ht & Hsame). cbn [fst snd].
    split_and!; [by constructor|intros ->; by rewrite Hsame| |]; intros x; [|intros t]; rewrite !find_db_cons, Hn, Hdb; case_bool_decide; done.
  - rewrite (bool_decide_eq_false_2 (DbSyncConfig.dbName c = db)) by done. destruct (UpdateSingleDbConfig l db sw) as [b l'].
    cbn [fst snd] in *. destruct IH as (IH1 & IH2 & IH3 & IH4). split_and!; [by constructor|intros ->; by rewrite IH2| |]; intros x; [|intros t];
      rewrite !find_db_cons; destruct (decide (DbSyncConfig.dbName c = x)) as [<-|Hx].
    1,3: rewrite !(bool_decide_eq_true_2 (DbSyncConfig.dbName c = DbSyncConfig.dbName c)) by done; by rewrite bool_decide_eq_false_2 by done.
    all: rewrite !(bool_decide_eq_false_2 (DbSyncConfig.dbName c = x)) by done; auto.
Qed.

Lemma update_dbs_spec info l : wf l -> NoDup info.*1 -> Forall (fun p => wf_switch p.2) info ->
  let l' := (update_dbs l info).2 in
  wf l' /\ ((update_dbs l info).1 = false -> l' = l) /\
  (forall x, db_on l' x = match entry x info with Some sw => enable sw | None => db_on l x end) /\
  (forall x t, table_on l' x t = match entry x info with Some sw => given (tableInfo sw) (table_on l x t) t | None => table_on l x t end).
Proof.
  revert l. induction info as [|[k sw] info IH]; intros l Hl Hnd Hf; [done|]. cbn [update_dbs].
  rewrite fmap_cons in Hnd. apply NoDup_cons in Hnd as [Hk Hnd]. apply Forall_cons in Hf as [Hsw Hf]. cbn in Hsw, Hk.
  pose proof (UpdateSingleDbConfig_spec l k sw Hl Hsw) as Hs. destruct (UpdateSingleDbConfig l k sw) as [b l1]. cbn in Hs.
  destruct Hs as (Hw1 & Hu1 & Hd1 & Ht1). specialize (IH l1 Hw1 Hnd Hf). destruct (update_dbs l1 info) as [b' l2]. cbn in IH.
  destruct IH as (Hw2 & Hu2 & Hd2 & Ht2). cbn [fst snd]. split_and!; [done| | |].
  - intros [-> ->]%orb_false_iff. by rewrite Hu2, Hu1.
  - intros x. rewrite Hd2, Hd1, entry_cons. case_bool_decide; [subst; by rewrite (entry_None info x Hk)|done].
  - intros x t. rewrite Ht2, Ht1, entry_cons. case_bool_decide; [subst; by rewrite (entry_None info x Hk)|done].
Qed.

(** Loading finds what is stored. *)
Hypothesis load_complete : forall k d d', LoadMeta k true d = (None, d') -> stored d true k = None.

Lemma loaded_stored k d : (LoadMeta k true d).1 = stored d true k.
Proof.
  destruct (LoadMeta k true d) as [[c|] d'] eqn:E; cbn; symmetry; [by eapply LoadMeta_result|by eapply load_complete].
Qed.

Lemma IsDbEnable_on u b x d : IsDbEnable u b x d = db_on (configured d u b) x.
Proof. unfold IsDbEnable, configured, db_on. rewrite loaded_stored. by destruct (stored d true (GetKey u b)). Qed.

Lemma filter_all {A} (P : A -> Prop) `{forall x, Decision (P x)} (l : list A) : (forall x, P x) -> filter P l = l.
Proof. intros Hp. induction l as [|x l IH]; [done|]. rewrite filter_cons, decide_True by done. by rewrite IH. Qed.

Lemma Filter_on u b x ts d : (FilterCloudEnabledTables u b x ts d).2 = filter (fun t => table_on (configured d u b) x t = true) ts.
Proof.
  unfold FilterCloudEnabledTables, configured, table_on. rewrite loaded_stored.
  destruct (stored d true (GetKey u b)) as [c|]; [|cbn; by rewrite filter_all].
  destruct (find_db x (CloudDbSyncConfig.dbConfigs c)) as [db|]; [|cbn; by rewrite filter_all].
  cbn. apply list_filter_iff. intros t. symmetry. apply negb_true_iff.
Qed.

(** When an update of an application's configuration reports success, a later
    question whether a database takes part in the cloud synchronisation is answered
    as the update says for the databases it names and as before for all others; a
    later filtering of tables keeps exactly those that the update switches on, or
    that it does not mention and were on before; the configurations of other
    applications and users are untouched. *)
Lemma config_read_back (userId : Z) (bundleName : string) (info : list (string * DBSwitchInfo)) (d d' : meta_db Config) :
  wf (configured d userId bundleName) -> NoDup info.*1 -> Forall (fun p => wf_switch p.2) info ->
  UpdateConfig userId bundleName info d = (true, d') ->
  wf (configured d' userId bundleName) /\
  (forall x, IsDbEnable userId bundleName x d' =
     match entry x info with Some sw => enable sw | None => IsDbEnable userId bundleName x d end) /\
  (forall x ts, (FilterCloudEnabledTables userId bundleName x ts d').2 =
     filter (fun t => match entry x info with
                      | Some sw => given (tableInfo sw) (table_on (configured d userId bundleName) x t) t
                      | None => table_on (configured d userId bundleName) x t
                      end = true) ts) /\
  (forall k, k <> GetKey userId bundleName -> stored d' true k = stored d true k).
Proof.
  intros Hwf Hnd Hsw HU. pose proof (update_dbs_spec info _ Hwf Hnd Hsw) as (Hw & Hun & Hdb & Ht).
  remember (GetKey userId bundleName) as key eqn:Ek.
  assert (forall x, stored d' true x = (if bool_decide (x = key) then Some (CloudDbSyncConfig.mk
    (default bundleName (CloudDbSyncConfig.bundleName <$> stored d true key)) (update_dbs (configured d userId bundleName) info).2) else stored d true x)
    \/ (update_dbs (configured d userId bundleName) info).2 = configured d userId bundleName /\ stored d' true x = stored d true x) as Hst.
  { intros x. destruct info as [|e info']; [done|]. unfold UpdateConfig in HU. rewrite <- Ek in HU. pose proof (loaded_stored key d) as Hld.
    pose proof (LoadMeta_stored key true d) as Hls. destruct (LoadMeta key true d) as [r d1]. cbn [fst snd] in Hld, Hls. subst r.
    unfold configured in *. rewrite <- Ek in *. revert HU Hun.
    destruct (stored d true key) as [c|]; cbn [default fmap option_fmap option_map CloudDbSyncConfig.dbConfigs CloudDbSyncConfig.bundleName];
      destruct (update_dbs _ (e :: info')) as [ch dbs]; cbn [fst snd]; (destruct ch; cbv iota; [intros HS _|intros [= <-] Hun]).
    all: try (right; split; [by apply Hun|by rewrite Hls]).
    all: left; rewrite (SaveMeta_ok _ _ _ _ _ HS true x), Hls; do 2 case_bool_decide; naive_solver. }
  assert (configured d' userId bundleName = (update_dbs (configured d userId bundleName) info).2) as Hc.
  { unfold configured at 1. rewrite <- Ek. destruct (Hst key) as [->|[-> ->]]; [by rewrite bool_decide_eq_true_2|unfold configured; by rewrite <- Ek]. }
  split_and!.
  - by rewrite Hc.
  - intros x. by rewrite !IsDbEnable_on, Hc, Hdb.
  - intros x ts. rewrite Filter_on, Hc. apply list_filter_iff. intros t. by rewrite Ht.
  - intros x Hx. destruct (Hst x) as [->|[_ ->]]; [by rewrite bool_decide_eq_false_2|done].
Qed.
End Store.

#[local] Existing Instance MapMetaStore.

Definition switch_off : list (string * DBSwitchInfo) := [("notes.db", mkSwitch true [("draft", false)])].

Lemma config_read_back_witness :
  IsDbEnable 100 "com.notes" "other.db" (UpdateConfig 100 "com.notes" switch_off ∅).2 = true /\
  (FilterCloudEnabledTables 100 "com.notes" "notes.db" ["draft"; "final"] (UpdateConfig 100 "com.notes" switch_off ∅).2).2 = ["final"].
Proof.
  assert (forall k (d d' : meta_db Config), LoadMeta k true d = (None, d') -> stored d true k = None) as Hl by (intros k d d' [= ]; done).
  destruct (config_read_back Hl 100 "com.notes" switch_off ∅ (UpdateConfig 100 "com.notes" switch_off ∅).2) as (_ & Hd & Hf & _).
  - constructor.
  - by_decide.
  - repeat constructor. by_decide.
  - reflexivity.
  - rewrite Hd, Hf. split; [by_vm|]. vm_compute. reflexivity.
Defined.
End SyncConfig.

(** ** The network *)

Module NetworkSyncStrategy.

Definition E_OK : Z := 0.
Definition E_NETWORK_ERROR : Z := 2.
Definition E_BLOCKED_BY_NETWORK_STRATEGY : Z := 7.

Inductive NetworkType : Type := NONE | CELLULAR_NET | WIFI_NET | ETHERNET | OTHER.

Definition WIFI : Z := 1.
Definition CELLULAR : Z := 2.
Definition DEFAULT_STRATEGY : Z := Z.lor WIFI CELLULAR.
Definition INVALID_USER : Z := -1.
Definition GLOBAL_BUNDLE : string := "GLOBAL".
Definition PREFIX : string := "NETWORK_SYNC_STRATEGY".

(* @src service/cloud/sync_strategies/network_sync_strategy.h 32-42 StrategyInfo *)
Record StrategyInfo := mkInfo { user : Z; bundleName : string; strategy : Z }.
Definition default_info : StrategyInfo := mkInfo INVALID_USER "" DEFAULT_STRATEGY.

(* @src service/cloud/sync_strategies/network_sync_strategy.cpp 108-111 NetworkSyncStrategy::GetKey *)
Definition GetKey (user : Z) (bundleName : string) : string :=
  Constant.Join PREFIX Constant.KEY_SEPARATOR [to_string user; bundleName].

Inductive Flag : Type := INSERT | UPDATE | DELETE | OtherFlag.

(** [types] are the network type that is known and the one after a renewed look. *)
(* @src service/cloud/sync_strategies/network_sync_strategy.cpp 113-129 NetworkSyncStrategy::Check *)
Definition Check_ (types : NetworkType * NetworkType) (strategy : Z) : bool :=
  match match types.1 with NONE => types.2 | t => t end with
  | WIFI_NET | ETHERNET => Z.land strategy WIFI =? WIFI
  | CELLULAR_NET => Z.land strategy CELLULAR =? CELLULAR
  | _ => false
  end.

Section Strategy.
Context {CM : ConcurrentMap string StrategyInfo} {MS : MetaStore StrategyInfo}.

(* @src service/cloud/sync_strategies/network_sync_strategy.h 53-56 strategies_ *)
Record State := mkState { user_ : Z; strategies_ : cmap string StrategyInfo; db : meta_db StrategyInfo }.

(** The observer of the stored strategies; [info] is what the notified value reads as. *)
(* @src service/cloud/sync_strategies/network_sync_strategy.cpp 28-47 NetworkSyncStrategy::NetworkSyncStrategy *)
Definition OnStrategy (info : StrategyInfo) (flag : Flag) (s : State) : State :=
  if negb (user info =? user_ s) then s
  else match flag with
       | INSERT | UPDATE => mkState (user_ s) (InsertOrAssign (bundleName info) info (strategies_ s)) (db s)
       | DELETE => mkState (user_ s) (Erase (bundleName info) (strategies_ s)) (db s)
       | OtherFlag => s
       end.

(* @src service/cloud/sync_strategies/network_sync_strategy.cpp 131-142 NetworkSyncStrategy::GetStrategy *)
Definition GetStrategy (user : Z) (bundle : string) (s : State) : StrategyInfo * State :=
  match cm_view (strategies_ s) !! bundle with
  | Some info => (info, s)
  | None =>
      match LoadMeta (GetKey user bundle) true (db s) with
      | (None, d) => (default_info, mkState (user_ s) (strategies_ s) d)
      | (Some info, d) => (info, mkState (user_ s) (Insert (bundleName info) info (strategies_ s)) d)
      end
  end.

(** The member [next_] of the class is never set, so that the check is the last one. *)
(* @src service/cloud/sync_strategies/network_sync_strategy.cpp 54-74 NetworkSyncStrategy::CheckSyncAction *)
Definition CheckSyncAction (available : bool) (types : NetworkType * NetworkType) (storeUser : Z) (bundle : string) (s : State) : Z * State :=
  if negb available then (E_NETWORK_ERROR, s)
  else if storeUser =? 0 then (E_OK, s)
  else
    let s := if negb (storeUser =? user_ s) then mkState storeUser (Clear (strategies_ s)) (db s) else s in
    let '(info, s) := GetStrategy storeUser bundle s in
    let '(info, s) := if user info =? INVALID_USER then GetStrategy storeUser GLOBAL_BUNDLE s else (info, s) in
    if negb (Check_ types (strategy info)) then (E_BLOCKED_BY_NETWORK_STRATEGY, s) else (E_OK, s).

(** ** The cache and the stored strategies *)

Lemma first_char_split (c : ascii) (x y a b : list ascii) : c ∉ x -> c ∉ y -> x ++ c :: a = y ++ c :: b -> x = y /\ a = b.
Proof.
  revert y. induction x as [|d x IH]; intros [|e y] Hx Hy E; cbn in E.
  - by injection E.
  - injection E as -> _. exfalso. apply Hy. by left.
  - injection E as -> _. exfalso. apply Hx. by left.
  - injection E as -> E. destruct (IH y) as [-> ->]; [set_solver..|done|done].
Qed.

Lemma GetKey_user_bundle u b u' b' : GetKey u b = GetKey u' b' -> u = u' /\ b = b'.
Proof.
  unfold GetKey. rewrite !Constant.Join_cons. cbn [Constant.Join fold_left]. intros E%string_app_inj_l%string_app_inj_l.
  apply (f_equal chars) in E. rewrite !chars_app in E. cbn in E.
  apply first_char_split in E as [E1 E2]; [|by apply to_string_chars; by_decide..].
  split; [by apply to_string_inj, chars_inj|]. injection E2 as E2. by apply chars_inj.
Qed.

(** Stored strategies are filed under their own key, and the cache agrees with them. *)
Record Inv (s : State) : Prop := {
  inv_filed u b i : stored (db s) true (GetKey u b) = Some i -> user i = u /\ bundleName i = b;
  inv_cached b i : cm_view (strategies_ s) !! b = Some i -> stored (db s) true (GetKey (user_ s) b) = Some i
}.

Hypothesis load_complete : forall k d d', LoadMeta k true d = (None, d') -> stored d true k = None.

Lemma GetStrategy_spec b s : Inv s ->
  let '(i, s') := GetStrategy (user_ s) b s in
  i = default default_info (stored (db s) true (GetKey (user_ s) b)) /\ Inv s' /\ user_ s' = user_ s /\ stored (db s') = stored (db s).
Proof.
  intros [Hf Hc]. unfold GetStrategy. destruct (cm_view (strategies_ s) !! b) as [i|] eqn:Eb.
  { rewrite (Hc b i Eb). split_and!; [done|by split|done|done]. }
  pose proof (LoadMeta_stored (GetKey (user_ s) b) true (db s)) as Hs. destruct (LoadMeta (GetKey (user_ s) b) true (db s)) as [[i|] d] eqn:El; cbn in Hs.
  - pose proof (LoadMeta_result _ _ _ _ _ El) as Hst. rewrite Hst. destruct (Hf _ _ _ Hst) as [Hu Hb].
    split_and!; [done| |done|done]. split; cbn; rewrite Hs; [done|]. intros b' i'. rewrite Insert_view, Hb, Eb. cbn.
    destruct (decide (b' = b)) as [->|Hne]; [rewrite lookup_insert_eq; by intros [= <-]|rewrite lookup_insert_ne by done; apply Hc].
  - rewrite (load_complete _ _ _ El). split_and!; [done| |done|done]. split; cbn; rewrite Hs; done.
Qed.

(** The strategy in force for an application: its own, else the user's global one,
    else any network. *)
Definition effective (d : meta_db StrategyInfo) (u : Z) (b : string) : Z :=
  match stored d true (GetKey u b), stored d true (GetKey u GLOBAL_BUNDLE) with
  | Some i, _ => strategy i
  | None, Some i => strategy i
  | None, None => DEFAULT_STRATEGY
  end.

Lemma CheckSyncAction_spec av types u b s : Inv s -> u <> INVALID_USER ->
  (CheckSyncAction av types u b s).1 =
    (if negb av then E_NETWORK_ERROR else if u =? 0 then E_OK
     else if Check_ types (effective (db s) u b) then E_OK else E_BLOCKED_BY_NETWORK_STRATEGY) /\
  Inv (CheckSyncAction av types u b s).2.
Proof.
  intros HI Hu. unfold CheckSyncAction. destruct av; [|done]. cbn [negb]. destruct (Z.eqb_spec u 0) as [->|Hu0]; [done|].
  set (s0 := if negb (u =? user_ s) then _ else s).
  assert (Inv s0 /\ user_ s0 = u /\ stored (db s0) = stored (db s)) as (HI0 & Eu & Hd0).
  { unfold s0. destruct (Z.eqb_spec u (user_ s)) as [->|Hne]; cbn; [done|]. split_and!; [|done|done]. destruct HI as [Hf _].
    split; cbn; [done|]. intros b' i. by rewrite Clear_view, lookup_empty. }
  clearbody s0. subst u. unfold effective. rewrite <- Hd0. pose proof (GetStrategy_spec b s0 HI0) as H1. destruct (GetStrategy (user_ s0) b s0) as [i1 s1].
  destruct H1 as (-> & HI1 & Hu1 & Hd1). destruct (stored (db s0) true (GetKey (user_ s0) b)) as [i|] eqn:Ei; cbn [default].
  - destruct (inv_filed _ HI0 _ _ _ Ei) as [Hui _]. change (id i) with i. destruct (Z.eqb_spec (user i) INVALID_USER) as [E|_]; [by rewrite Hui in E|].
    cbn. destruct (Check_ types (strategy i)); done.
  - change (user (id default_info) =? INVALID_USER) with true. cbv iota. rewrite <- Hu1. pose proof (GetStrategy_spec GLOBAL_BUNDLE s1 HI1) as H2.
    destruct (GetStrategy (user_ s1) GLOBAL_BUNDLE s1) as [i2 s2]. destruct H2 as (-> & HI2 & _ & _). rewrite Hu1, Hd1.
    destruct (stored (db s0) true (GetKey (user_ s0) GLOBAL_BUNDLE)) as [i|]; cbn -[Check_]; destruct (Check_ types _); done.
Qed.

(** Calls, and changes of the stored strategies with their notifications. *)
Inductive step : State -> State -> Prop :=
| n_check av types u b s : u <> INVALID_USER -> step s (CheckSyncAction av types u b s).2
| n_save info flag d s : flag = INSERT \/ flag = UPDATE ->
    SaveMeta (GetKey (user info) (bundleName info)) info true (db s) = (true, d) ->
    step s (OnStrategy info flag (mkState (user_ s) (strategies_ s) d))
| n_delete u b old d s : stored (db s) true (GetKey u b) = Some old ->
    (forall k, stored d true k = if bool_decide (k = GetKey u b) then None else stored (db s) true k) ->
    step s (OnStrategy old DELETE (mkState (user_ s) (strategies_ s) d)).

Inductive initial : State -> Prop :=
| initial_state m d : cm_view m = ∅ -> (forall u b i, stored d true (GetKey u b) = Some i -> user i = u /\ bundleName i = b) ->
    initial (mkState INVALID_USER m d).

Lemma net_step s s' : Inv s -> step s s' -> Inv s'.
Proof.
  intros HI Hs. destruct Hs as [av types u b s Hu|info flag d s Hfl HS|u b old d s Hold Hd].
  - by apply CheckSyncAction_spec.
  - pose proof (SaveMeta_ok _ _ _ _ _ HS true) as Hst. destruct HI as [Hf Hc].
    assert (forall u b i, stored d true (GetKey u b) = Some i -> user i = u /\ bundleName i = b) as Hf'.
    { intros u b i. rewrite Hst. case_bool_decide as E; [|apply Hf]. intros [= <-]. destruct E as [_ E]. apply GetKey_user_bundle in E as [-> ->]. done. }
    assert (forall b i, cm_view (strategies_ s) !! b = Some i -> (user info, bundleName info) <> (user_ s, b) -> stored d true (GetKey (user_ s) b) = Some i) as Hother.
    { intros b i Hb Hne. rewrite Hst, bool_decide_eq_false_2; [by apply Hc|]. intros [_ E]. apply GetKey_user_bundle in E as [? ?]. congruence. }
    unfold OnStrategy. cbn. destruct (Z.eqb_spec (user info) (user_ s)) as [Eu|Eu]; cbn [negb].
    + assert (Inv (mkState (user_ s) (InsertOrAssign (bundleName info) info (strategies_ s)) d)) as HI'.
      { split; cbn; [done|]. intros b i. rewrite InsertOrAssign_view. destruct (decide (bundleName info = b)) as [<-|Hne].
        - rewrite lookup_insert_eq. intros [= <-]. rewrite Hst, bool_decide_eq_true_2; [done|]. by rewrite Eu.
        - rewrite lookup_insert_ne by done. intros Hb. apply Hother; [done|]. congruence. }
      by destruct Hfl as [-> | ->].
    + split; cbn; [done|]. intros b i Hb. apply Hother; [done|]. congruence.
  - destruct HI as [Hf Hc]. destruct (Hf _ _ _ Hold) as [<- <-].
    assert (forall u b i, stored d true (GetKey u b) = Some i -> user i = u /\ bundleName i = b) as Hf'.
    { intros u b i. rewrite Hd. case_bool_decide; [done|apply Hf]. }
    assert (forall b i, cm_view (strategies_ s) !! b = Some i -> (user old, bundleName old) <> (user_ s, b) -> stored d true (GetKey (user_ s) b) = Some i) as Hother.
    { intros b i Hb Hne. rewrite Hd, bool_decide_eq_false_2; [by apply Hc|]. intros E. apply GetKey_user_bundle in E as [? ?]. congruence. }
    unfold OnStrategy. cbn. destruct (Z.eqb_spec (user old) (user_ s)) as [Eu|Eu]; cbn [negb]; (split; cbn; [done|]); intros b i.
    + rewrite Erase_view. destruct (decide (bundleName old = b)) as [<-|Hne]; [by rewrite lookup_delete_eq|].
      rewrite lookup_delete_ne by done. intros Hb. apply Hother; [done|]. congruence.
    + intros Hb. apply Hother; [done|]. congruence.
Qed.

(** In every reachable state a synchronisation is refused for lack of a network
    exactly when none is available, and otherwise, for a user other than the system
    user, blocked exactly when the network in use is not among those that the
    currently stored strategy of the application, or else the user's global one, or
    else the default permits: the cache of strategies never gives another answer than
    the metadata. *)
Lemma network_decision (s : State) (av : bool) (types : NetworkType * NetworkType) (u : Z) (b : string) :
  reachable initial step s -> u <> INVALID_USER ->
  (CheckSyncAction av types u b s).1 =
    (if negb av then E_NETWORK_ERROR else if u =? 0 then E_OK
     else if Check_ types (effective (db s) u b) then E_OK else E_BLOCKED_BY_NETWORK_STRATEGY).
Proof.
  intros Hr Hu. apply CheckSyncAction_spec; [|done]. revert s Hr. apply reachable_invariant; [|apply net_step].
  intros ? [m d Hm Hd]. split; cbn; [done|]. intros b' i. by rewrite Hm, lookup_empty.
Qed.
End Strategy.

#[local] Existing Instances GmapConcurrent MapMetaStore.

Definition wifi_only : StrategyInfo := mkInfo 100 "com.notes" WIFI.
Definition settled : State := OnStrategy wifi_only INSERT (mkState INVALID_USER ∅ (SaveMeta (GetKey 100 "com.notes") wifi_only true ∅).2).

Lemma network_decision_witness :
  reachable initial step settled /\
  (CheckSyncAction true (CELLULAR_NET, NONE) 100 "com.notes" settled).1 = E_BLOCKED_BY_NETWORK_STRATEGY.
Proof.
  assert (reachable initial step settled) as Hr.
  { eapply reach_step; [apply reach_init, (initial_state ∅ ∅); done|]. apply (n_save wifi_only INSERT); [by left|done]. }
  assert (forall k (d d' : meta_db StrategyInfo), LoadMeta k true d = (None, d') -> stored d true k = None) as Hl by (intros k d d' [= ]; done).
  split; [exact Hr|]. rewrite (network_decision Hl settled true (CELLULAR_NET, NONE) 100 "com.notes" Hr); [|done].
  by_vm.
Defined.
End NetworkSyncStrategy.
