(* ===== verification/SyncRecords.v ===== *)
(** * Requests and results of cloud synchronisations ([service/cloud/sync_manager.cpp])

    The data of the synchronisation manager: the error codes, the description of a
    request ([SyncInfo]), the identifiers of synchronisations, and three records the
    manager keeps: the running synchronisations with their last results
    ([lastSyncInfos_]), the applications whose synchronisation was missed while the
    network was down ([NetworkRecoveryManager]) and while the screen was locked
    ([compensateSyncInfos_]). The tasks are in [CloudSync].

    The map is [ConcurrentMap], the metadata [MetaStore] of [Interfaces]. *)

From S2P Require Import Prelude CppString Interfaces Constant CloudData.
Import CloudData.

(** ** Codes *)
Module GeneralError.
(* @src framework/include/error/general_error.h 20-74 GeneralError *)
Definition E_OK : Z := 0.
Definition E_ERROR : Z := 1.
Definition E_NETWORK_ERROR : Z := 2.
Definition E_CLOUD_DISABLED : Z := 3.
Definition E_LOCKED_BY_OTHERS : Z := 4.
Definition E_BUSY : Z := 9.
Definition E_NOT_INIT : Z := 11.
Definition E_NOT_SUPPORT : Z := 14.
Definition E_RETRY_TIMEOUT : Z := 18.
Definition E_USER_LOCKED : Z := 20.
Definition E_SYNC_TASK_MERGED : Z := 24.
Definition E_SCREEN_LOCKED : Z := 38.

(* @src service/cloud/sync_manager.cpp 1346-1349 SyncManager::ConvertValidGeneralCode *)
Definition ConvertValidGeneralCode (code : Z) : Z := if (E_OK <=? code) && (code <? E_BUSY) then code else E_ERROR.

Lemma ConvertValidGeneralCode_range c : E_OK <= ConvertValidGeneralCode c < E_BUSY.
Proof. unfold ConvertValidGeneralCode, E_OK, E_BUSY, E_ERROR. destruct (_ && _) eqn:E; bool_prop; lia. Qed.
End GeneralError.
Import GeneralError.

(** ** Identifiers of synchronisations: the user in the upper half, a counter in the lower *)
Module SyncId.

(* @src service/cloud/sync_manager.cpp 657-661 SyncManager::GenerateId *)
Definition GenerateId (user genId : Z) : Z * Z :=
  let syncId := Z.land (u64 user) 0xFFFFFFFF in
  let genId := u32 (genId + 1) in
  (Z.lor (u64 (Z.shiftl syncId 32)) genId, genId).

(* @src service/cloud/sync_manager.cpp 670-674 SyncManager::Compare *)
Definition Compare (syncId user : Z) : Z :=
  let inner := Z.land (u64 user) 0xFFFFFFFF in
  if Z.land syncId 0xFFFFFFFF00000000 =? u64 (Z.shiftl inner 32) then 1 else 0.

(** The two halves of an identifier. *)
Definition user_of (syncId : Z) : Z := Z.shiftr syncId 32.
Definition count_of (syncId : Z) : Z := u32 syncId.

Lemma low_half z : Z.land (u64 z) 0xFFFFFFFF = u32 z.
Proof.
  change 0xFFFFFFFF with (Z.ones 32). rewrite Z.land_ones by lia. unfold wrap.
  apply Z.mod_mod_divide. exists (2 ^ 32). reflexivity.
Qed.

Lemma GenerateId_sum user g : GenerateId user g = (u32 user * 2 ^ 32 + u32 (g + 1), u32 (g + 1)).
Proof.
  unfold GenerateId. rewrite low_half. f_equal. pose proof (wrap_range 32 user ltac:(lia)) as Hu. pose proof (wrap_range 32 (g + 1) ltac:(lia)) as Hg.
  unfold in_u in *. rewrite Z.shiftl_mul_pow2 by lia. rewrite (wrap_id 64) by (unfold in_u; lia).
  pose proof (Z.add_lor_land (u32 user * 2 ^ 32) (u32 (g + 1))) as Hs. enough (Z.land (u32 user * 2 ^ 32) (u32 (g + 1)) = 0) by lia.
  apply Z.bits_inj'. intros i Hi. rewrite Z.land_spec, Z.bits_0. destruct (Z.lt_ge_cases i 32).
  - rewrite Z.mul_pow2_bits_low by lia. done.
  - rewrite andb_false_intro2; [done|]. apply Z.bits_above_log2; [lia|].
    destruct (Z.eq_dec (u32 (g + 1)) 0) as [->|]; [cbn; lia|]. enough (Z.log2 (u32 (g + 1)) < 32) by lia. apply Z.log2_lt_pow2; lia.
Qed.

Lemma GenerateId_halves user g : user_of (GenerateId user g).1 = u32 user /\ count_of (GenerateId user g).1 = u32 (g + 1).
Proof.
  rewrite GenerateId_sum. cbn [fst]. pose proof (wrap_range 32 (g + 1) ltac:(lia)) as Hg. unfold in_u in Hg.
  unfold user_of, count_of. rewrite Z.shiftr_div_pow2 by lia. split.
  - rewrite Z.div_add_l by lia. rewrite Z.div_small by lia. lia.
  - unfold wrap at 1. rewrite Z.add_comm, Z.mod_add by lia. by apply Z.mod_small.
Qed.

Lemma Compare_spec syncId user : in_u 64 syncId -> Compare syncId user = (if user_of syncId =? u32 user then 1 else 0).
Proof.
  intros Hs. unfold Compare, user_of. rewrite low_half. pose proof (wrap_range 32 user ltac:(lia)) as Hu. unfold in_u in *.
  rewrite (Z.shiftl_mul_pow2 _ 32) by lia. rewrite (wrap_id 64) by (unfold in_u; lia).
  assert (Z.land syncId 0xFFFFFFFF00000000 = Z.shiftr syncId 32 * 2 ^ 32) as ->.
  { rewrite <- Z.shiftl_mul_pow2 by lia. change 0xFFFFFFFF00000000 with (Z.shiftl (Z.ones 32) 32).
    apply Z.bits_inj'. intros i Hi. rewrite Z.land_spec, !Z.shiftl_spec by lia. destruct (Z.lt_ge_cases i 32).
    - rewrite !(Z.testbit_neg_r _ (i - 32)) by lia. apply andb_false_r.
    - rewrite Z.shiftr_spec by lia. replace (i - 32 + 32) with i by lia. rewrite Z.testbit_ones by lia.
      destruct (Z.lt_ge_cases (i - 32) 32).
      + replace (0 <=? i - 32) with true by (symmetry; apply Z.leb_le; lia). replace (i - 32 <? 32) with true by (symmetry; apply Z.ltb_lt; lia).
        apply andb_true_r.
      + rewrite (Z.bits_above_log2 syncId); [done|lia|]. destruct (Z.eq_dec syncId 0) as [->|]; [cbn; lia|].
        enough (Z.log2 syncId < 64) by lia. apply Z.log2_lt_pow2; lia. }
  destruct (Z.eqb_spec (Z.shiftr syncId 32) (u32 user)) as [->|Hne]; [by rewrite Z.eqb_refl|].
  by rewrite (proj2 (Z.eqb_neq _ _)) by nia.
Qed.

Lemma GenerateId_range user g : in_u 64 (GenerateId user g).1.
Proof.
  rewrite GenerateId_sum. cbn [fst]. pose proof (wrap_range 32 user ltac:(lia)). pose proof (wrap_range 32 (g + 1) ltac:(lia)).
  unfold in_u in *. lia.
Qed.
End SyncId.

(** ** Requests *)
Module SyncInfo.

(** A query of the application, by its tables, or one the manager makes. *)
Inductive GenQuery : Type := Given (ident : Z) (tables : list string) | SyncQuery (tables : list string).
Definition query_tables (q : GenQuery) : list string := match q with Given _ t | SyncQuery t => t end.

Definition CLOUD_TIME_FIRST : Z := 4.
Definition AUTO_SYNC_MODE : Z := 0x10000.
Definition MODE_DEFAULT : Z := 0.
Definition MODE_ONLINE : Z := 2.
Definition MODE_UNLOCK : Z := 3.
Definition DEFAULT_ID : string := "default".

(* @src framework/include/store/general_store.h 83-96 GeneralStore::MixMode *)
Definition MixMode (syncMode highMode : Z) : Z := Z.lor syncMode highMode.
Definition GetHighMode (mixMode : Z) : Z := Z.land (u32 mixMode) 0xFFFF0000.

(** A callback of the caller is a name. *)
(* @src service/cloud/sync_manager.h 93-108 syncId_ *)
Record SyncInfo := mk {
  syncId_ : Z;
  mode_ : Z;
  user_ : Z;
  wait_ : Z;
  id_ : string;
  bundleName_ : string;
  tables_ : gmap string (list string);
  async_ : option Z;
  query_ : option GenQuery;
  isCompensation_ : bool;
  triggerMode_ : Z;
  prepareTraceId_ : string;
  isDownloadOnly_ : bool;
  isEnablePredicate_ : bool;
  isFullSync_ : bool
}.

Definition made (syncId user : Z) (bundleName : string) (tables : gmap string (list string)) (triggerMode : Z) (trace : string) : SyncInfo :=
  mk syncId (MixMode CLOUD_TIME_FIRST AUTO_SYNC_MODE) user 0 DEFAULT_ID bundleName tables None None false triggerMode trace false false false.

(* @src service/cloud/sync_manager.cpp 58-66 SyncInfo::SyncInfo *)
Definition of_store (user : Z) (bundleName store : string) (tables : list string) (triggerMode g : Z) : SyncInfo * Z :=
  let '(i, g) := SyncId.GenerateId user g in
  (made i user bundleName (if bool_decide (store = "") then ∅ else {[store := tables]}) triggerMode "", g).

(* @src service/cloud/sync_manager.cpp 68-75 SyncInfo::SyncInfo *)
Definition of_stores (user : Z) (bundleName : string) (stores : list string) (g : Z) : SyncInfo * Z :=
  let '(i, g) := SyncId.GenerateId user g in
  (made i user bundleName (fold_left (fun m s => <[s := []]> m) stores ∅) MODE_DEFAULT "", g).

(* @src service/cloud/sync_manager.cpp 77-82 SyncInfo::SyncInfo *)
Definition of_tables (user : Z) (bundleName : string) (tables : gmap string (list string)) (g : Z) : SyncInfo * Z :=
  let '(i, g) := SyncId.GenerateId user g in (made i user bundleName tables MODE_DEFAULT "", g).

(* @src service/cloud/sync_manager.cpp 84-92 SyncInfo::SyncInfo *)
Definition of_param (user : Z) (bundleName store : string) (tables : list string) (triggerMode : Z) (trace : string) (g : Z) : SyncInfo * Z :=
  let '(i, g) := SyncId.GenerateId user g in
  (made i user bundleName (if bool_decide (store = "") then ∅ else {[store := tables]}) triggerMode trace, g).

(* @src service/cloud/sync_manager.h 86-89 SyncInfo::IsAutoSync *)
Definition IsAutoSync (i : SyncInfo) : bool := GetHighMode (mode_ i) =? AUTO_SYNC_MODE.

Definition set_user (u : Z) (i : SyncInfo) : SyncInfo :=
  mk (syncId_ i) (mode_ i) u (wait_ i) (id_ i) (bundleName_ i) (tables_ i) (async_ i) (query_ i) (isCompensation_ i) (triggerMode_ i)
    (prepareTraceId_ i) (isDownloadOnly_ i) (isEnablePredicate_ i) (isFullSync_ i).

(* @src service/cloud/sync_manager.cpp 131-134 SyncInfo::SetTriggerMode *)
Definition SetTriggerMode (t : Z) (i : SyncInfo) : SyncInfo :=
  mk (syncId_ i) (mode_ i) (user_ i) (wait_ i) (id_ i) (bundleName_ i) (tables_ i) (async_ i) (query_ i) (isCompensation_ i) t
    (prepareTraceId_ i) (isDownloadOnly_ i) (isEnablePredicate_ i) (isFullSync_ i).

(* @src service/cloud/sync_manager.cpp 114-124 SyncInfo::GetTables *)
Definition GetTables (database : Database.Database) (i : SyncInfo) : list string :=
  match query_ i with
  | Some q => query_tables q
  | None =>
      match tables_ i !! Database.name database with
      | Some (t :: ts) => t :: ts
      | _ => Database.GetTableNames database
      end
  end.

(* @src service/cloud/sync_manager.cpp 162-185 SyncInfo::GenerateQuery *)
Definition GenerateQuery (tables : list string) (i : SyncInfo) : GenQuery :=
  match query_ i with
  | Some q => if Z.of_nat (length (query_tables q)) =? 1 then q else SyncQuery tables
  | None => SyncQuery tables
  end.

(* @src service/cloud/sync_manager.cpp 187-190 SyncInfo::Contains *)
Definition Contains (storeName : string) (i : SyncInfo) : bool :=
  bool_decide (tables_ i = ∅) || bool_decide (is_Some (tables_ i !! storeName)).
End SyncInfo.

(** ** Running synchronisations and last results *)
Module LastSync.
Abbreviation Info := CloudLastSyncInfo.CloudLastSyncInfo.

(** The key of a query, a type of the interface. *)
Record QueryKey := mkKey { user : Z; accountId : string; bundleName : string; storeId : string }.

#[global] Instance QueryKey_eq_dec : EqDecision QueryKey.
Proof. solve_decision. Defined.
#[global] Instance QueryKey_countable : Countable QueryKey.
Proof.
  refine (inj_countable' (fun k => (user k, accountId k, bundleName k, storeId k)) (fun '(u, a, b, s) => mkKey u a b s) _). by intros [].
Defined.

(* @src framework/cloud/cloud_last_sync_info.cpp 44-48 CloudLastSyncInfo::GetKey *)
Definition GetKey (u : Z) (bundle store : string) : string :=
  Constant.Join "CLOUD_LAST_SYNC_INFO" Constant.KEY_SEPARATOR [to_string u; bundle; to_string 0; store].
(* @src framework/cloud/cloud_last_sync_info.cpp 50-53 CloudLastSyncInfo::GetKey *)
Definition GetKeyOfBundle (u : Z) (bundle : string) : string :=
  Constant.Join "CLOUD_LAST_SYNC_INFO" Constant.KEY_SEPARATOR [to_string u; bundle].

Definition EXPIRATION_TIME : Z := 6 * 60 * 60 * 1000.
Definition INVALID_SYNC_CODE : Z := -1.

(** The entry with the greatest identifier ([rbegin] of the ordered map). *)
Definition newest (m : gmap Z Info) : option Info :=
  snd <$> map_fold (fun i v acc => match acc with Some (j, _) => if j <? i then Some (i, v) else acc | None => Some (i, v) end) None m.

(* @src service/cloud/sync_manager.cpp 924-931 SyncManager::GetLastResults *)
Definition GetLastResults (infos : gmap Z Info) : option Info :=
  match newest infos with
  | Some i => if CloudLastSyncInfo.code i =? INVALID_SYNC_CODE then None else Some i
  | None => None
  end.

Section Last.
Context {CM : ConcurrentMap QueryKey (gmap Z Info)} {MS : MetaStore Info}.

(** The status of a finished synchronisation, a constant of the interface; the bundles
    of key-value stores, whose synchronisations are not recorded. *)
Context (FINISHED : Z) (kvApps_ : gset string).

(** The notifications ([CloudSyncFinishedEvent]) are a trace. *)
Record State := mkState { lastSyncInfos_ : cmap QueryKey (gmap Z Info); lastDb : meta_db Info; posted : list (QueryKey * Info) }.

Definition insert_new (k : string) (i : Info) (m : gmap string Info) : gmap string Info :=
  match m !! k with Some _ => m | None => <[k := i]> m end.

(* @src service/cloud/sync_manager.cpp 933-939 SyncManager::NeedSaveSyncInfo *)
Definition NeedSaveSyncInfo (k : QueryKey) : bool :=
  if bool_decide (accountId k = "") then false else negb (bool_decide (bundleName k ∈ kvApps_)).

(* @src service/cloud/sync_manager.cpp 1303-1317 SyncManager::GetLastSyncInfoFromMeta *)
Definition GetLastSyncInfoFromMeta (k : QueryKey) (s : State) : option Info * State :=
  let '(r, db) := LoadMeta (GetKey (user k) (bundleName k) (storeId k)) true (lastDb s) in
  (match r with
   | None => None
   | Some i =>
       if negb (bool_decide (accountId k = CloudLastSyncInfo.id i)) ||
          (negb (bool_decide (storeId k = "")) && negb (bool_decide (storeId k = CloudLastSyncInfo.storeId i))) then None
       else Some i
   end, mkState (lastSyncInfos_ s) db (posted s)).

(* @src service/cloud/sync_manager.cpp 941-965 SyncManager::QueryLastSyncInfo *)
Fixpoint QueryLastSyncInfo (keys : list QueryKey) (acc : gmap string Info) (s : State) : gmap string Info * State :=
  match keys with
  | [] => (acc, s)
  | k :: keys =>
      let '(m, r) := cm_compute_if_present None k (fun vals => (negb (bool_decide (vals = ∅)), vals, GetLastResults vals)) (lastSyncInfos_ s) in
      let s := mkState m (lastDb s) (posted s) in
      let acc := match r with Some i => insert_new (storeId k) i acc | None => acc end in
      if bool_decide (is_Some (acc !! storeId k)) then QueryLastSyncInfo keys acc s
      else
        let '(r, s) := GetLastSyncInfoFromMeta k s in
        QueryLastSyncInfo keys (match r with Some i => insert_new (CloudLastSyncInfo.storeId i) i acc | None => acc end) s
  end.

(** The loop over the databases of a bundle's schema; [only] is the store asked for, or empty. *)
(* @src service/cloud/sync_manager.cpp 967-1010 SyncManager::QueryLastSyncInfo *)
Fixpoint QueryDatabases (u : Z) (account bundle only : string) (databases : list string) (acc : gmap string Info) (s : State)
    : gmap string Info * State :=
  match databases with
  | [] => (acc, s)
  | store :: databases =>
      if negb (bool_decide (only = "")) && negb (bool_decide (only = store)) then QueryDatabases u account bundle only databases acc s
      else
        let k := mkKey u account bundle store in
        let '(m, r) := cm_compute_if_present None k (fun vals => (negb (bool_decide (vals = ∅)), vals, GetLastResults vals)) (lastSyncInfos_ s) in
        let s := mkState m (lastDb s) (posted s) in
        match r with
        | Some i => QueryDatabases u account bundle only databases (insert_new store i acc) s
        | None =>
            let '(r, s) := GetLastSyncInfoFromMeta k s in
            QueryDatabases u account bundle only databases
              (match r with Some i => insert_new (CloudLastSyncInfo.storeId i) i acc | None => acc end) s
        end
  end.

Definition started (k : QueryKey) (startTime : Z) : Info := CloudLastSyncInfo.mk (accountId k) (storeId k) startTime 0 0 0 0.

(* @src service/cloud/sync_manager.cpp 1012-1038 SyncManager::UpdateStartSyncInfo *)
Definition UpdateStart (startTime : Z) (k : QueryKey) (syncId : Z) (s : State) : State :=
  if negb (NeedSaveSyncInfo k) then s
  else
    let '(m, e) := cm_compute ∅ k (fun val : gmap Z Info => (true, <[syncId := started k startTime]> val, (k, started k startTime))) (lastSyncInfos_ s) in
    mkState m (lastDb s) (posted s ++ [e]).

Definition UpdateStartSyncInfo (startTime : Z) (infos : list (QueryKey * Z)) (s : State) : State :=
  fold_left (fun s e => UpdateStart startTime e.1 e.2 s) infos s.

(* @src service/cloud/sync_manager.cpp 1319-1333 SyncManager::SaveLastSyncInfo *)
Definition SaveLastSyncInfo (k : QueryKey) (i : Info) (s : State) : State :=
  mkState (lastSyncInfos_ s) (SaveMeta (GetKey (user k) (bundleName k) (storeId k)) i true (lastDb s)).2 (posted s ++ [(k, i)]).

Definition done (code finishTime : Z) (i : Info) : Info :=
  CloudLastSyncInfo.mk (CloudLastSyncInfo.id i) (CloudLastSyncInfo.storeId i) (CloudLastSyncInfo.startTime i) finishTime
    (ConvertValidGeneralCode code) FINISHED (CloudLastSyncInfo.instanceId i).

(** What the loop leaves of the running synchronisations: neither the finished one nor
    those that have expired. *)
Definition still_running (syncId now : Z) (val : gmap Z Info) : gmap Z Info :=
  filter (fun e => e.1 <> syncId /\ now - CloudLastSyncInfo.startTime e.2 < EXPIRATION_TIME) val.

(** The clock is read at the start of the action and again for the finishing time. *)
(* @src service/cloud/sync_manager.cpp 1040-1065 SyncManager::UpdateFinishSyncInfo *)
Definition UpdateFinishSyncInfo (k : QueryKey) (syncId code now finishTime : Z) (s : State) : State :=
  if negb (NeedSaveSyncInfo k) then s
  else
    let '(m, r) := cm_compute_if_present None k
      (fun val : gmap Z Info => (true, still_running syncId now val, done code finishTime <$> val !! syncId)) (lastSyncInfos_ s) in
    let s := mkState m (lastDb s) (posted s) in
    match r with Some i => SaveLastSyncInfo k i s | None => s end.

(* @src service/cloud/sync_manager.cpp 1203-1209 SyncManager::BatchUpdateFinishState *)
Definition BatchUpdateFinishState (infos : list (QueryKey * Z)) (code now finishTime : Z) (s : State) : State :=
  fold_left (fun s e => UpdateFinishSyncInfo e.1 e.2 code now finishTime s) infos s.

(* @src service/cloud/sync_manager.cpp 1280-1292 SyncManager::ClearLastSyncInfo *)
Definition ClearLastSyncInfo (u : Z) (account bundle : string) (s : State) : State :=
  mkState
    (cm_erase_if (fun k v =>
       ((if negb (user k =? u) || negb (bool_decide (accountId k = account)) then false
         else bool_decide (bundle = "") || bool_decide (bundleName k = bundle)), v)) (lastSyncInfos_ s))
    (DelMeta (GetKeyOfBundle u bundle) true (lastDb s)).2 (posted s).

(** ** What is reported *)
Definition running (s : State) (k : QueryKey) : gmap Z Info := default ∅ (cm_view (lastSyncInfos_ s) !! k).

(** The saved result of a store, when it is of the account asked for. *)
Definition saved (s : State) (k : QueryKey) : option Info :=
  match stored (lastDb s) true (GetKey (user k) (bundleName k) (storeId k)) with
  | Some i => if bool_decide (accountId k = CloudLastSyncInfo.id i) && bool_decide (storeId k = CloudLastSyncInfo.storeId i) then Some i else None
  | None => None
  end.

(** The newest running synchronisation, otherwise the saved result. *)
Definition reported (s : State) (k : QueryKey) : option Info :=
  match newest (running s k) with Some i => Some i | None => saved s k end.

(** Every running synchronisation is recorded as it was started. *)
Definition Inv (s : State) : Prop := forall k i info, running s k !! i = Some info -> exists t, info = started k t.

Inductive step : State -> State -> Prop :=
| step_start t k i s : step s (UpdateStart t k i s)
| step_finish k i code now t s : step s (UpdateFinishSyncInfo k i code now t s)
| step_query ks s : step s (QueryLastSyncInfo ks ∅ s).2
| step_databases u a b o ds s : step s (QueryDatabases u a b o ds ∅ s).2
| step_clear u a b s : step s (ClearLastSyncInfo u a b s)
| step_meta db s : step s (mkState (lastSyncInfos_ s) db (posted s)).

Definition init (s : State) : Prop := cm_view (lastSyncInfos_ s) = ∅.

Lemma newest_spec m :
  match newest m with
  | Some v => exists i, m !! i = Some v /\ forall j, is_Some (m !! j) -> j <= i
  | None => m = ∅
  end.
Proof.
  unfold newest.
  enough (forall r, r = map_fold (fun i v acc => match acc with Some (j, _) => if j <? i then Some (i, v) else acc | None => Some (i, v) end) None m ->
    match r with Some (i, v) => m !! i = Some v /\ forall j, is_Some (m !! j) -> j <= i | None => m = ∅ end) as H.
  { specialize (H _ eq_refl). destruct (map_fold _ None m) as [[i v]|]; cbn; [by exists i|done]. }
  intros r ->. apply (map_fold_weak_ind (fun r m => match r with Some (i, v) => m !! i = Some v /\ forall j, is_Some (m !! j) -> j <= i | None => m = (∅ : gmap Z Info) end)); [done|].
  intros i x m' r Hi IH. destruct r as [[j v]|]; cbn in *.
  - destruct IH as (Hj & Hmax). destruct (Z.ltb_spec j i) as [Hlt|Hge].
    + split; [apply lookup_insert_eq|]. intros l [y Hl]. destruct (decide (l = i)) as [->|]; [lia|].
      rewrite lookup_insert_ne in Hl by done. specialize (Hmax l ltac:(eauto)). lia.
    + split; [rewrite lookup_insert_ne by congruence; done|].
      intros l [y Hl]. destruct (decide (l = i)) as [->|]; [lia|]. rewrite lookup_insert_ne in Hl by done. apply Hmax. eauto.
  - subst m'. split; [apply lookup_insert_eq|]. intros l [y Hl]. destruct (decide (l = i)) as [->|]; [lia|].
    by rewrite lookup_insert_ne in Hl.
Qed.

Lemma newest_running s k i : Inv s -> newest (running s k) = Some i -> exists t, i = started k t.
Proof. intros HI E. pose proof (newest_spec (running s k)) as H. rewrite E in H. destruct H as (j & Hj & _). by eapply HI. Qed.

Lemma GetLastResults_running s k : Inv s -> GetLastResults (running s k) = newest (running s k).
Proof.
  intros HI. unfold GetLastResults. destruct (newest (running s k)) as [i|] eqn:E; [|done].
  by destruct (newest_running s k i HI E) as [t ->].
Qed.

(** An update of one entry that changes no other. *)
Lemma update_running m db p s k :
  (forall k', k' <> k -> cm_view m !! k' = cm_view (lastSyncInfos_ s) !! k') ->
  forall k', k' <> k -> running (mkState m db p) k' = running s k'.
Proof. intros H k' Hne. unfold running. cbn. by rewrite H. Qed.

(** The entry left by an action on a present key. *)
Lemma present_running {R} (r0 : R) k (f : gmap Z Info -> bool * gmap Z Info * R) db p s :
  (f ∅).1.2 = ∅ -> (forall v, (f v).1.1 = false -> (f v).1.2 = ∅) ->
  let '(m, r) := cm_compute_if_present r0 k f (lastSyncInfos_ s) in
  forall k', running (mkState m db p) k' = if bool_decide (k' = k) then (f (running s k)).1.2 else running s k'.
Proof.
  intros He Hk. pose proof (cm_compute_if_present_spec _ r0 k f (lastSyncInfos_ s)) as Hs.
  destruct (cm_compute_if_present r0 k f (lastSyncInfos_ s)) as [m r]. cbn [fst snd] in Hs. intros k'. unfold running. cbn.
  unfold compute_if_present_ref in Hs. destruct (cm_view (lastSyncInfos_ s) !! k) as [v|] eqn:Ev; cbn.
  - specialize (Hk v). destruct (f v) as [[keep v'] r']. cbn in *. injection Hs as -> _.
    destruct (decide (k' = k)) as [->|Hne].
    + rewrite bool_decide_eq_true_2 by done. destruct keep; [by rewrite lookup_insert_eq|]. rewrite lookup_delete_eq. cbn. by rewrite Hk.
    + rewrite bool_decide_eq_false_2 by done. by destruct keep; rewrite ?lookup_insert_ne, ?lookup_delete_ne.
  - injection Hs as -> _. destruct (decide (k' = k)) as [->|Hne].
    + rewrite bool_decide_eq_true_2 by done. rewrite Ev. cbn. by rewrite He.
    + by rewrite bool_decide_eq_false_2.
Qed.

Lemma UpdateStart_running t k i s k' :
  running (UpdateStart t k i s) k' =
  if NeedSaveSyncInfo k && bool_decide (k' = k) then <[i := started k t]> (running s k) else running s k'.
Proof.
  unfold UpdateStart. destruct (NeedSaveSyncInfo k); cbn [negb andb]; [|done].
  match goal with |- context [cm_compute ?z ?k ?f ?m] => pose proof (cm_compute_spec _ z k f m) as Hs; destruct (cm_compute z k f m) as [m' r] end.
  cbn [fst snd] in Hs. unfold compute_ref in Hs. injection Hs as Hm _. unfold running. cbn. rewrite Hm.
  destruct (decide (k' = k)) as [->|Hne]; [by rewrite lookup_insert_eq, bool_decide_eq_true_2|].
  by rewrite lookup_insert_ne, bool_decide_eq_false_2.
Qed.

Lemma UpdateFinish_running k i code now t s k' :
  running (UpdateFinishSyncInfo k i code now t s) k' =
  if NeedSaveSyncInfo k && bool_decide (k' = k) then still_running i now (running s k) else running s k'.
Proof.
  unfold UpdateFinishSyncInfo. destruct (NeedSaveSyncInfo k); cbn [negb andb]; [|done].
  pose proof (present_running None k (fun val : gmap Z Info => (true, still_running i now val, done code t <$> val !! i))) as Hp.
  specialize (Hp (lastDb s) (posted s) s). destruct (cm_compute_if_present _ _ _ _) as [m r].
  assert (forall k', running (mkState m (lastDb s) (posted s)) k' = if bool_decide (k' = k) then still_running i now (running s k) else running s k') as Hr.
  { apply Hp; [|done]. unfold still_running. apply map_filter_empty. }
  rewrite <- Hr. by destruct r.
Qed.

Lemma ClearLastSyncInfo_running u a b s k :
  running (ClearLastSyncInfo u a b s) k =
  if (user k =? u) && bool_decide (accountId k = a) && (bool_decide (b = "") || bool_decide (bundleName k = b)) then ∅ else running s k.
Proof.
  unfold ClearLastSyncInfo, running. cbn [lastSyncInfos_]. rewrite cm_erase_if_spec. unfold erase_if_ref. rewrite map_lookup_imap.
  destruct (cm_view (lastSyncInfos_ s) !! k) as [v|]; cbn; [|by case_if].
  destruct (user k =? u), (bool_decide (accountId k = a)), (bool_decide (b = "")), (bool_decide (bundleName k = b)); done.
Qed.

(** The action of the queries leaves the running synchronisations as they are. *)
Lemma query_action k s :
  let '(m, r) := cm_compute_if_present None k (fun vals : gmap Z Info => (negb (bool_decide (vals = ∅)), vals, GetLastResults vals)) (lastSyncInfos_ s) in
  r = GetLastResults (running s k) /\ forall db p k', running (mkState m db p) k' = running s k'.
Proof.
  set (f := fun vals : gmap Z Info => (negb (bool_decide (vals = ∅)), vals, GetLastResults vals)).
  pose proof (fun db p => present_running None k f db p s) as Hp.
  pose proof (cm_compute_if_present_spec _ None k f (lastSyncInfos_ s)) as Hs. destruct (cm_compute_if_present None k f (lastSyncInfos_ s)) as [m r].
  cbn [fst snd] in Hs. split.
  - unfold compute_if_present_ref, running in *. destruct (cm_view (lastSyncInfos_ s) !! k) as [v|]; cbn in Hs; by injection Hs as _ ->.
  - intros db p k'. rewrite Hp; [|done|].
    + cbn. case_bool_decide; by subst.
    + intros v. cbn. intros Hv. bool_prop. done.
Qed.

Definition same_answers (s s' : State) : Prop := (forall k, running s' k = running s k) /\ stored (lastDb s') = stored (lastDb s).

Lemma same_answers_trans s1 s2 s3 : same_answers s1 s2 -> same_answers s2 s3 -> same_answers s1 s3.
Proof. intros [H1 E1] [H2 E2]. split; [intros k; by rewrite H2|congruence]. Qed.

Lemma same_answers_reported s s' k : same_answers s s' -> reported s' k = reported s k.
Proof. intros [Hr Hs]. unfold reported, saved. by rewrite Hr, Hs. Qed.

Section Reliable.
Context (reliable : forall k l d, (LoadMeta (V := Info) k l d).1 = stored d l k).

Lemma from_meta k s : storeId k <> "" ->
  let '(r, s') := GetLastSyncInfoFromMeta k s in r = saved s k /\ same_answers s s'.
Proof.
  intros Hk. unfold GetLastSyncInfoFromMeta, saved. set (key := GetKey _ _ _).
  pose proof (reliable key true (lastDb s)) as Hr. pose proof (LoadMeta_stored key true (lastDb s)) as Hs.
  destruct (LoadMeta key true (lastDb s)) as [r db]. cbn [fst snd] in Hr, Hs. subst r. split; [|by split].
  destruct (stored (lastDb s) true key) as [i|]; [|done]. rewrite (bool_decide_eq_false_2 (storeId k = "")) by done. cbn.
  by do 2 case_bool_decide.
Qed.

Lemma reported_store s k i : Inv s -> reported s k = Some i -> CloudLastSyncInfo.storeId i = storeId k.
Proof.
  intros HI. unfold reported, saved. destruct (newest (running s k)) as [j|] eqn:E.
  - intros [= <-]. by destruct (newest_running s k j HI E) as [t ->].
  - destruct (stored _ _ _); [|done]. case_if; [|done]. intros [= <-]. bool_prop. done.
Qed.

Lemma same_answers_Inv s s' : same_answers s s' -> Inv s -> Inv s'.
Proof. intros [Hr _] HI k i info. rewrite Hr. apply HI. Qed.

(** A query of several stores answers for each of them what is reported. *)
Lemma QueryLastSyncInfo_spec ks acc s :
  Inv s -> NoDup (storeId <$> ks) -> Forall (fun k => storeId k <> "" /\ acc !! storeId k = None) ks ->
  let '(res, s') := QueryLastSyncInfo ks acc s in
  (forall k, k ∈ ks -> res !! storeId k = reported s k) /\ (forall st, st ∉ storeId <$> ks -> res !! st = acc !! st) /\ same_answers s s'.
Proof.
  revert acc s. induction ks as [|k ks IH]; intros acc s HI Hnd Hks; cbn [QueryLastSyncInfo].
  { split_and!; [intros k Hk; by apply not_elem_of_nil in Hk|done|done]. }
  rewrite fmap_cons in Hnd. apply NoDup_cons in Hnd as [Hk Hnd]. apply Forall_cons in Hks as [[Hkn Hka] Hks].
  pose proof (query_action k s) as Ha. destruct (cm_compute_if_present _ _ _ _) as [m r]. destruct Ha as [-> Hm].
  rewrite GetLastResults_running by done. set (s1 := mkState m (lastDb s) (posted s)).
  assert (same_answers s s1) as H1 by (split; [intros k'; apply Hm|done]).
  assert (forall st s2 (x : option Info), same_answers s s2 -> st = storeId k -> x = reported s k ->
    let '(res, s') := QueryLastSyncInfo ks (match x with Some i => insert_new st i acc | None => acc end) s2 in
    (forall k', k' ∈ k :: ks -> res !! storeId k' = reported s k') /\ (forall st', st' ∉ storeId <$> k :: ks -> res !! st' = acc !! st') /\ same_answers s s') as Hstep.
  { intros st s2 x H2 -> ->.
    assert (forall st', st' <> storeId k -> (match reported s k with Some i => insert_new (storeId k) i acc | None => acc end) !! st' = acc !! st') as Hother.
    { intros st' Hne. destruct (reported s k); [|done]. unfold insert_new. rewrite Hka. by rewrite lookup_insert_ne. }
    pose proof (IH (match reported s k with Some i => insert_new (storeId k) i acc | None => acc end) s2 (same_answers_Inv _ _ H2 HI) Hnd) as Hq.
    destruct (QueryLastSyncInfo ks _ s2) as [res s3]. destruct Hq as (Hq1 & Hq2 & Hq3).
    { apply Forall_forall. intros k' Hk'. pose proof (proj1 (Forall_forall _ _) Hks k' Hk') as [? Hn]. split; [done|].
      rewrite Hother; [done|]. intros E. apply Hk. rewrite <- E. by apply list_elem_of_fmap_2. }
    split_and!; [| |by eapply same_answers_trans].
    - intros k' [->|Hk']%elem_of_cons; [|by rewrite Hq1, (same_answers_reported _ _ _ H2)].
      rewrite Hq2 by done. destruct (reported s k); [|done]. unfold insert_new. rewrite Hka. apply lookup_insert_eq.
    - intros st' Hst. rewrite fmap_cons in Hst. apply not_elem_of_cons in Hst as [? ?]. rewrite Hq2 by done. by apply Hother. }
  destruct (newest (running s k)) as [i|] eqn:En.
  - assert (insert_new (storeId k) i acc = <[storeId k := i]> acc) as Ei by (unfold insert_new; by rewrite Hka).
    specialize (Hstep (storeId k) s1 (Some i) H1 eq_refl). unfold reported in Hstep at 1. rewrite En in Hstep. rewrite Ei in *.
    rewrite bool_decide_eq_true_2 by (rewrite lookup_insert_eq; eauto). by apply Hstep.
  - rewrite Hka, bool_decide_eq_false_2 by (by intros [? ?]). pose proof (from_meta k s1 Hkn) as Hf.
    destruct (GetLastSyncInfoFromMeta k s1) as [r s2]. destruct Hf as [-> H2].
    assert (saved s1 k = reported s k) as Es by (unfold reported; by rewrite En). rewrite Es.
    pose proof (reported_store s k) as Hst.
    specialize (Hstep (storeId k) s2 (reported s k) (same_answers_trans _ _ _ H1 H2) eq_refl eq_refl).
    destruct (reported s k) as [i|]; [|done]. by rewrite (Hst i HI eq_refl).
Qed.

Lemma from_meta_running k s k' : running (GetLastSyncInfoFromMeta k s).2 k' = running s k'.
Proof. unfold GetLastSyncInfoFromMeta. by destruct (LoadMeta _ _ _). Qed.

Lemma QueryLastSyncInfo_running ks acc s k' : running (QueryLastSyncInfo ks acc s).2 k' = running s k'.
Proof.
  revert acc s. induction ks as [|k ks IH]; intros acc s; cbn [QueryLastSyncInfo]; [done|].
  pose proof (query_action k s) as Ha. destruct (cm_compute_if_present _ _ _ _) as [m r]. destruct Ha as [_ Hm].
  case_bool_decide; [by rewrite IH|]. pose proof (from_meta_running k (mkState m (lastDb s) (posted s)) k') as Hf.
  destruct (GetLastSyncInfoFromMeta _ _) as [r' s']. cbn [snd] in Hf. by rewrite IH, Hf.
Qed.

Lemma QueryDatabases_running u a b o ds acc s k' : running (QueryDatabases u a b o ds acc s).2 k' = running s k'.
Proof.
  revert acc s. induction ds as [|d ds IH]; intros acc s; cbn [QueryDatabases]; [done|]. destruct (_ && _); [apply IH|].
  pose proof (query_action (mkKey u a b d) s) as Ha. destruct (cm_compute_if_present _ _ _ _) as [m r]. destruct Ha as [_ Hm].
  destruct r; [by rewrite IH|]. pose proof (from_meta_running (mkKey u a b d) (mkState m (lastDb s) (posted s)) k') as Hf.
  destruct (GetLastSyncInfoFromMeta _ _) as [r' s']. cbn [snd] in Hf. by rewrite IH, Hf.
Qed.

Lemma records_step_Inv s s' : Inv s -> step s s' -> Inv s'.
Proof.
  intros HI Hs k i info. destruct Hs as [t k0 i0 s|k0 i0 c n t s|ks s|u a b o ds s|u a b s|db s].
  - rewrite UpdateStart_running. destruct (NeedSaveSyncInfo k0); cbn [andb]; [|apply HI]. case_bool_decide; [subst k0|apply HI].
    intros [[<- <-] | [_ H]]%lookup_insert_Some; [by exists t|by eapply HI].
  - rewrite UpdateFinish_running. destruct (NeedSaveSyncInfo k0); cbn [andb]; [|apply HI]. case_bool_decide; [subst k0|apply HI].
    intros [H _]%map_lookup_filter_Some. by eapply HI.
  - rewrite QueryLastSyncInfo_running. apply HI.
  - rewrite QueryDatabases_running. apply HI.
  - rewrite ClearLastSyncInfo_running. destruct (_ && _); [by rewrite lookup_empty|apply HI].
  - apply HI.
Qed.

Lemma reachable_Inv s : reachable init step s -> Inv s.
Proof.
  apply reachable_invariant; [|apply records_step_Inv]. intros s' E k i info. unfold running. rewrite E, lookup_empty. cbn. by rewrite lookup_empty.
Qed.

(** What finishing a synchronisation changes. *)
Lemma UpdateFinish_saved k i code now t s s' info :
  NeedSaveSyncInfo k = true -> running s k !! i = Some info -> storeId k = CloudLastSyncInfo.storeId info -> accountId k = CloudLastSyncInfo.id info ->
  s' = UpdateFinishSyncInfo k i code now t s ->
  (forall db, (SaveMeta (GetKey (user k) (bundleName k) (storeId k)) (done code t info) true db).1 = true) ->
  saved s' k = Some (done code t info).
Proof.
  intros Hk Hi Hs Ha -> Hsave. unfold UpdateFinishSyncInfo. rewrite Hk. cbn [negb].
  match goal with |- context [cm_compute_if_present ?z ?k ?f ?m] =>
    pose proof (cm_compute_if_present_spec _ z k f m) as Hc; destruct (cm_compute_if_present z k f m) as [m' r] end.
  cbn [fst snd] in Hc. unfold compute_if_present_ref in Hc. unfold running in Hi.
  destruct (cm_view (lastSyncInfos_ s) !! k) as [v|]; cbn in Hi; [|by rewrite lookup_empty in Hi]. rewrite Hi in Hc. cbn in Hc.
  injection Hc as _ ->. unfold saved, SaveLastSyncInfo. cbn [lastDb].
  specialize (Hsave (lastDb s)). destruct (SaveMeta _ _ _ _) as [ok db] eqn:E. cbn in Hsave. subst ok. cbn [snd].
  rewrite (SaveMeta_ok _ _ _ _ _ E), bool_decide_eq_true_2 by done. cbn. rewrite !bool_decide_eq_true_2 by done. done.
Qed.


Lemma sync_keys_differ u b st b' : (size b' <= size b)%nat -> GetKey u b st <> GetKeyOfBundle u b'.
Proof.
  intros Hb E. apply (f_equal size) in E. unfold GetKey, GetKeyOfBundle, Constant.Join in E. cbn [fold_left] in E.
  rewrite !size_app in E. assert (0 < size Constant.KEY_SEPARATOR)%nat by (vm_compute; lia). lia.
Qed.

(** Clearing the last results of an application does not clear them: the key that is
    deleted from the metadata is never written, the results being saved under keys that
    continue with the store. The running synchronisations are forgotten, and the next query
    of the same account answers with the saved result as before. *)
Lemma cleared_still_reported s k b info :
  reachable init step s -> storeId k <> "" -> b = "" \/ b = bundleName k -> saved s k = Some info ->
  running (ClearLastSyncInfo (user k) (accountId k) b s) k = ∅ /\
  (QueryLastSyncInfo [k] ∅ (ClearLastSyncInfo (user k) (accountId k) b s)).1 !! storeId k = Some info.
Proof.
  intros Hr Hk Hb Hs. pose proof (reachable_Inv s Hr) as HI. set (s' := ClearLastSyncInfo (user k) (accountId k) b s).
  assert (running s' k = ∅) as Hrun.
  { unfold s'. rewrite ClearLastSyncInfo_running, Z.eqb_refl, bool_decide_eq_true_2 by done. cbn [andb].
    destruct Hb as [-> | ->]; [done|]. rewrite (bool_decide_eq_true_2 (bundleName k = bundleName k)) by done. by rewrite orb_true_r. }
  split; [done|]. assert (Inv s') as HI' by (eapply records_step_Inv; [exact HI|apply step_clear]).
  pose proof (QueryLastSyncInfo_spec [k] ∅ s' HI') as Hq. destruct (QueryLastSyncInfo [k] ∅ s') as [res s2].
  destruct Hq as (Hq & _ & _); [apply NoDup_singleton|by apply Forall_singleton|]. cbn [fst]. rewrite Hq by by apply elem_of_cons, or_introl.
  unfold reported. rewrite Hrun. cbn. unfold saved in Hs |- *. unfold s', ClearLastSyncInfo. cbn [lastDb].
  rewrite DelMeta_other; [done|]. intros E. apply (f_equal snd) in E. cbn [snd] in E. revert E. apply sync_keys_differ. destruct Hb as [-> | ->]; [cbn; lia|done].
Qed.
End Reliable.
End Last.

#[local] Existing Instances GmapConcurrent MapMetaStore.

Abbreviation sample_state := (mkState (CM := GmapConcurrent) (MS := MapMetaStore)).

Definition sample_key : QueryKey := mkKey 100 "acc" "com.notes" "notes.db".
Definition at_start : State := sample_state ∅ ∅ [].
Definition two_started : State := UpdateStart ∅ 2000 sample_key 8 (UpdateStart ∅ 1000 sample_key 7 at_start).
Definition first_done : State := UpdateFinishSyncInfo 1 ∅ sample_key 7 4000 3000 3001 two_started.

Lemma first_done_reachable : reachable init (step 1 ∅) first_done.
Proof.
  eapply reach_step; [|apply step_finish]. eapply reach_step; [|apply step_start]. eapply reach_step; [|apply step_start]. by apply reach_init.
Qed.


Lemma cleared_still_reported_witness :
  running (ClearLastSyncInfo 100 "acc" "com.notes" first_done) sample_key = ∅ /\
  (QueryLastSyncInfo [sample_key] ∅ (ClearLastSyncInfo 100 "acc" "com.notes" first_done)).1 !! "notes.db" =
    Some (CloudLastSyncInfo.mk "acc" "notes.db" 1000 3001 1 1 0).
Proof.
  apply (cleared_still_reported (MS := MapMetaStore) 1 ∅ (fun k l d => eq_refl) first_done sample_key "com.notes").
  - apply first_done_reachable.
  - done.
  - by right.
  - by_vm.
Defined.
End LastSync.

(** ** Synchronisations missed while the network was down *)
Module NetworkRecovery.

Definition NETWORK_DISCONNECT_TIMEOUT_HOURS : Z := 20.

(* @src service/cloud/sync_manager.h 140-143 NetWorkEvent *)
Record NetWorkEvent := mkNetEvent { disconnectTime : Z; syncApps : gmap Z (list string) }.

(** Appends a name that is not in the list yet. *)
Definition add_app (l : list string) (b : string) : list string := if bool_decide (b ∈ l) then l else l ++ [b].

Section Recovery.
(** The ticks of the clock in an hour, and the bundle names of the configured dynamic and static stores. *)
Context (HOUR : Z) (storeBundles : list string).

(* @src service/cloud/sync_manager.cpp 1361-1367 NetworkRecoveryManager::OnNetworkDisconnected *)
Definition OnNetworkDisconnected (now : Z) : option NetWorkEvent := Some (mkNetEvent now ∅).

(* @src service/cloud/sync_manager.cpp 1394-1404 NetworkRecoveryManager::RecordSyncApps *)
Definition RecordSyncApps (u : Z) (bundleName : string) (e : option NetWorkEvent) : option NetWorkEvent :=
  match e with
  | None => None
  | Some e => Some (mkNetEvent (disconnectTime e) (<[u := add_app (default [] (syncApps e !! u)) bundleName]> (syncApps e)))
  end.

(** [cloud] is the stored cloud information of the user. *)
(* @src service/cloud/sync_manager.cpp 1406-1434 NetworkRecoveryManager::GetAppList *)
Definition GetAppList (cloud : option CloudInfo.CloudInfo) : list string :=
  match cloud with
  | None => []
  | Some c => fold_left add_app (storeBundles ++ (AppInfo.bundleName ∘ snd <$> ordered_entries (CloudInfo.apps c))) []
  end.

(** The requests that are started, as user and bundle. *)
(* @src service/cloud/sync_manager.cpp 1369-1392 NetworkRecoveryManager::OnNetworkConnected *)
Definition OnNetworkConnected (loadCloud : Z -> option CloudInfo.CloudInfo) (users : list Z) (now : Z) (e : option NetWorkEvent)
    : list (Z * string) * option NetWorkEvent :=
  match e with
  | None => ([], None)
  | Some e =>
      let hours := (now - disconnectTime e) ÷ HOUR in
      let timeout := NETWORK_DISCONNECT_TIMEOUT_HOURS <? hours in
      (mjoin ((fun u => pair u <$> (if timeout then GetAppList (loadCloud u) else default [] (syncApps e !! u))) <$> users), None)
  end.

(** ** Recovery is exact *)
Lemma add_apps_spec bs l : NoDup l -> NoDup (fold_left add_app bs l) /\ forall b, b ∈ fold_left add_app bs l <-> b ∈ l \/ b ∈ bs.
Proof.
  revert l. induction bs as [|b bs IH]; intros l Hl; cbn [fold_left].
  - split; [done|]. intros b. rewrite elem_of_nil. tauto.
  - assert (NoDup (add_app l b) /\ forall x, x ∈ add_app l b <-> x ∈ l \/ x = b) as [Hn Hx].
    { unfold add_app. case_bool_decide as Hb; [naive_solver|]. split.
      - apply NoDup_app. split_and!; [done| |apply NoDup_singleton]. intros x Hx ->%list_elem_of_singleton. done.
      - intros x. rewrite elem_of_app, list_elem_of_singleton. done. }
    destruct (IH _ Hn) as [H1 H2]. split; [done|]. intros x. rewrite H2, Hx, elem_of_cons. tauto.
Qed.

Lemma records_spec rs e : (forall u, NoDup (default [] (syncApps e !! u))) ->
  exists e', fold_left (fun e r => RecordSyncApps r.1 r.2 e) rs (Some e) = Some e' /\ disconnectTime e' = disconnectTime e /\
    forall u, NoDup (default [] (syncApps e' !! u)) /\
      forall b, b ∈ default [] (syncApps e' !! u) <-> b ∈ default [] (syncApps e !! u) \/ (u, b) ∈ rs.
Proof.
  revert e. induction rs as [|[u0 b0] rs IH]; intros e He; cbn [fold_left].
  - exists e. split_and!; [done..|]. intros u. split; [done|]. intros b. rewrite elem_of_nil. tauto.
  - cbn [RecordSyncApps fst snd]. set (e1 := mkNetEvent _ _).
    assert (forall u, NoDup (default [] (syncApps e1 !! u)) /\
      forall b, b ∈ default [] (syncApps e1 !! u) <-> b ∈ default [] (syncApps e !! u) \/ (u, b) = (u0, b0)) as H1.
    { intros u. unfold e1. cbn [syncApps]. destruct (decide (u = u0)) as [->|Hne].
      - rewrite lookup_insert_eq. cbn [default from_option id]. pose proof (add_apps_spec [b0] _ (He u0)) as [Hn Hb]. split; [done|].
        intros b. etransitivity; [apply Hb|]. rewrite list_elem_of_singleton. naive_solver.
      - rewrite lookup_insert_ne by done. split; [done|]. naive_solver. }
    destruct (IH e1) as (e' & E & Ht & Hu); [naive_solver|]. exists e'. split_and!; [done|done|]. intros u. destruct (Hu u) as [Hn Hb].
    split; [done|]. intros b. rewrite Hb. destruct (H1 u) as [_ ->]. rewrite elem_of_cons. tauto.
Qed.

(** When the network comes back, exactly the synchronisations that failed since it went
    away are started: for every user given, each recorded bundle once. After more than twenty
    hours every application of the user is started instead, each once. Nothing is started
    twice: a second notification starts nothing. *)
Lemma recovery_exact t0 t1 rs loadCloud users :
  let e := fold_left (fun e r => RecordSyncApps r.1 r.2 e) rs (OnNetworkDisconnected t0) in
  let '(started, e') := OnNetworkConnected loadCloud users t1 e in
  exists apps, started = mjoin ((fun u => pair u <$> apps u) <$> users) /\
  (forall u, NoDup (apps u) /\
    forall b, b ∈ apps u <->
      if 20 <? (t1 - t0) ÷ HOUR
      then exists c, loadCloud u = Some c /\ (b ∈ storeBundles \/ exists k a, CloudInfo.apps c !! k = Some a /\ AppInfo.bundleName a = b)
      else (u, b) ∈ rs) /\
  (OnNetworkConnected loadCloud users t1 e').1 = [].
Proof.
  intros e. destruct (records_spec rs (mkNetEvent t0 ∅)) as (e' & E & Ht & Hu).
  { intros u. cbn. rewrite lookup_empty. apply NoDup_nil_2. }
  unfold e, OnNetworkDisconnected. rewrite E. cbn [OnNetworkConnected]. rewrite Ht. cbn [disconnectTime]. unfold NETWORK_DISCONNECT_TIMEOUT_HOURS.
  destruct (20 <? (t1 - t0) ÷ HOUR); eexists; (split_and!; [reflexivity| |done]); intros u; cbn beta.
  - unfold GetAppList. destruct (loadCloud u) as [c|].
    + match goal with |- context [fold_left add_app ?x []] => pose proof (add_apps_spec x [] (NoDup_nil_2)) as [Hn Hb] end.
      split; [done|]. intros b. rewrite Hb, elem_of_nil, elem_of_app, list_elem_of_fmap. split.
      * intros [[]|[?|([k a] & -> & Hin)]]; exists c; (split; [done|]); [by left|right]. exists k, a. split; [|done].
        by apply ordered_entries_elem in Hin.
      * intros (? & [= <-] & [?|(k & a & Hk & <-)]); right; [by left|right]. exists (k, a). split; [done|].
        by apply ordered_entries_elem.
    + split; [apply NoDup_nil_2|]. intros b. rewrite elem_of_nil. naive_solver.
  - destruct (Hu u) as [Hn Hb]. split; [done|]. intros b. rewrite Hb. cbn. rewrite lookup_empty. cbn. rewrite elem_of_nil. tauto.
Qed.
End Recovery.
End NetworkRecovery.

(** ** Synchronisations missed while the screen was locked *)
Module Compensation.
Section Compensate.
Context {CM : ConcurrentMap Z (gmap string (gset string))}.

Definition SYSTEM_USER_ID : Z := 0.

(** [user] is the textual user of the store's metadata. *)
(* @src service/cloud/sync_manager.cpp 1294-1301 SyncManager::AddCompensateSync *)
Definition AddCompensateSync (user bundleName storeId : string) (m : cmap Z (gmap string (gset string))) : cmap Z (gmap string (gset string)) :=
  (cm_compute ∅ (atoi user) (fun apps : gmap string (gset string) =>
     (true, <[bundleName := {[storeId]} ∪ default ∅ (apps !! bundleName)]> apps, tt)) m).1.

(* @src service/cloud/sync_manager.cpp 1275-1278 SyncManager::CleanCompensateSync *)
Definition CleanCompensateSync (userId : Z) (m : cmap Z (gmap string (gset string))) : cmap Z (gmap string (gset string)) := Erase userId m.

(** The action on an entry: one request per bundle, in the order of the bundles, and the entry is erased. *)
Definition take_requests (userId : Z) (m : cmap Z (gmap string (gset string))) : cmap Z (gmap string (gset string)) * list (Z * string * gset string) :=
  cm_compute_if_present [] userId (fun apps : gmap string (gset string) =>
    (false, apps, (fun e => (userId, e.1, e.2)) <$> ordered_entries apps)) m.

(** The requests that are started: user, bundle and stores. *)
(* @src service/cloud/sync_manager.cpp 1250-1273 SyncManager::OnScreenUnlocked *)
Definition OnScreenUnlocked (user : Z) (m : cmap Z (gmap string (gset string)))
    : list (Z * string * gset string) * cmap Z (gmap string (gset string)) :=
  let '(m, own) := take_requests user m in
  let '(m, system) := take_requests SYSTEM_USER_ID m in
  (own ++ system, m).

(** The stores of a bundle that wait for a user. *)
Definition waiting (m : cmap Z (gmap string (gset string))) (u : Z) (b : string) : option (gset string) :=
  match cm_view m !! u with Some apps => apps !! b | None => None end.

Lemma Add_waiting user b s m u' b' :
  waiting (AddCompensateSync user b s m) u' b' =
  if bool_decide (u' = atoi user /\ b' = b) then Some ({[s]} ∪ default ∅ (waiting m u' b')) else waiting m u' b'.
Proof.
  unfold AddCompensateSync, waiting.
  match goal with |- context [cm_compute ?z ?k ?f ?m] => pose proof (cm_compute_spec _ z k f m) as Hs end.
  injection Hs as -> _. destruct (decide (u' = atoi user)) as [->|Hu].
  - rewrite lookup_insert_eq. destruct (decide (b' = b)) as [->|Hb].
    + rewrite lookup_insert_eq, bool_decide_eq_true_2 by done. do 2 f_equal. destruct (cm_view m !! atoi user); cbn; by rewrite ?lookup_empty.
    + rewrite lookup_insert_ne, bool_decide_eq_false_2 by naive_solver. destruct (cm_view m !! atoi user); cbn; by rewrite ?lookup_empty.
  - rewrite lookup_insert_ne by done. by rewrite bool_decide_eq_false_2 by naive_solver.
Qed.

Lemma take_requests_spec u m :
  let '(m', rs) := take_requests u m in
  (forall r, r ∈ rs <-> r.1.1 = u /\ waiting m u r.1.2 = Some r.2) /\ NoDup rs.*1 /\
  forall u' b, waiting m' u' b = if bool_decide (u' = u) then None else waiting m u' b.
Proof.
  unfold take_requests, waiting. match goal with |- context [cm_compute_if_present ?z ?k ?f ?m] =>
    pose proof (cm_compute_if_present_spec _ z k f m) as Hs; destruct (cm_compute_if_present z k f m) as [m' rs] end.
  cbn [fst snd] in Hs. unfold compute_if_present_ref in Hs. destruct (cm_view m !! u) as [apps|] eqn:E; injection Hs as Hm ->; rewrite Hm.
  - split_and!.
    + intros [[u' b] ss]. rewrite list_elem_of_fmap. cbn. split.
      * by intros ([b0 ss0] & [= -> -> ->] & [= H]%ordered_entries_elem).
      * intros [-> H]. exists (b, ss). split; [done|]. by apply ordered_entries_elem.
    + replace ((fun e : string * gset string => (u, e.1, e.2)) <$> ordered_entries apps).*1 with (pair u <$> (ordered_entries apps).*1)
        by (by rewrite <- !list_fmap_compose).
      apply (NoDup_fmap_2 _). unfold ordered_entries. rewrite sorting.merge_sort_Permutation. apply NoDup_fst_map_to_list.
    + intros u' b. destruct (decide (u' = u)) as [->|Hne]; [by rewrite lookup_delete_eq, bool_decide_eq_true_2|].
      by rewrite lookup_delete_ne, bool_decide_eq_false_2.
  - split_and!; [intros r; rewrite elem_of_nil; naive_solver|apply NoDup_nil_2|]. intros u' b.
    case_bool_decide; [subst; by rewrite E|done].
Qed.

Lemma Adds_waiting (ms : list (string * string * string)) m u b :
  (forall u b, waiting m u b = None) ->
  match waiting (fold_left (fun m a => AddCompensateSync a.1.1 a.1.2 a.2 m) ms m) u b with
  | Some ss => ss <> ∅ /\ forall s, s ∈ ss <-> exists user, atoi user = u /\ (user, b, s) ∈ ms
  | None => forall user s, atoi user = u -> (user, b, s) ∉ ms
  end.
Proof.
  intros Hm. induction ms as [|[[user0 b0] s0] ms IH] using rev_ind; cbn [fold_left]; [rewrite Hm; intros; apply not_elem_of_nil|].
  rewrite fold_left_app. cbn [fold_left fst snd]. rewrite Add_waiting. case_bool_decide as Hd; [destruct Hd as [-> ->]|].
  - split; [set_solver|]. intros s. destruct (waiting _ (atoi user0) b0) as [ss|]; cbn [default from_option id].
    + destruct IH as [_ IH]. rewrite elem_of_union, elem_of_singleton, IH. setoid_rewrite elem_of_app. setoid_rewrite list_elem_of_singleton. naive_solver.
    + rewrite elem_of_union, elem_of_singleton. setoid_rewrite elem_of_app. setoid_rewrite list_elem_of_singleton. split.
      { intros [-> | []%not_elem_of_empty]. exists user0. split; [done|]. by right. }
      intros (user & Hu & [H | [= _ ->]]); [by destruct (IH user s Hu)|by left].
  - destruct (waiting _ u b) as [ss|].
    + destruct IH as [Hne IH]. split; [done|]. intros s. rewrite IH. setoid_rewrite elem_of_app. setoid_rewrite list_elem_of_singleton. naive_solver.
    + intros user s Hu [H | [= -> -> ->]%list_elem_of_singleton]%elem_of_app; [by eapply IH|]. naive_solver.
Qed.

(** Unlocking the screen starts the missed synchronisations of the user and of the
    system user: for every bundle of which a store was missed exactly one request, with
    exactly the missed stores. They are forgotten then: a second unlock starts nothing. *)
Lemma unlock_compensates m ms user :
  (forall u b, waiting m u b = None) ->
  let '(rs, m') := OnScreenUnlocked user (fold_left (fun m a => AddCompensateSync a.1.1 a.1.2 a.2 m) ms m) in
  NoDup rs.*1 /\
  (forall u b ss, (u, b, ss) ∈ rs -> (u = user \/ u = 0) /\ ss <> ∅ /\ forall s, s ∈ ss <-> exists t, atoi t = u /\ (t, b, s) ∈ ms) /\
  (forall t b s, (t, b, s) ∈ ms -> atoi t = user \/ atoi t = 0 -> exists ss, (atoi t, b, ss) ∈ rs /\ s ∈ ss) /\
  (OnScreenUnlocked user m').1 = [].
Proof.
  intros Hm. unfold OnScreenUnlocked. pose proof (fun u b => Adds_waiting ms m u b Hm) as Hw.
  set (m0 := fold_left _ ms m) in *. pose proof (take_requests_spec user m0) as H1. destruct (take_requests user m0) as [m1 own].
  destruct H1 as (Ho & Hno & H1). pose proof (take_requests_spec SYSTEM_USER_ID m1) as H2. destruct (take_requests SYSTEM_USER_ID m1) as [m2 sys].
  destruct H2 as (Hy & Hns & H2).
  assert (forall u b ss, (u, b, ss) ∈ own ++ sys <-> (u = user \/ u = 0) /\ waiting m0 u b = Some ss) as Hr.
  { intros u b ss. rewrite elem_of_app, Ho, Hy. cbn [fst snd]. rewrite H1. unfold SYSTEM_USER_ID. case_bool_decide; naive_solver. }
  split_and!.
  - rewrite fmap_app. apply NoDup_app. split_and!; [done| |done]. intros [u b] (x & E & Hx)%list_elem_of_fmap (y & E' & Hy')%list_elem_of_fmap.
    apply Ho in Hx as [Hu _]. apply Hy in Hy' as [Hu' Hw']. rewrite H1 in Hw'. assert (user = 0) by (unfold SYSTEM_USER_ID in *; congruence).
    subst user. by rewrite bool_decide_eq_true_2 in Hw'.
  - intros u b ss Hin. apply Hr in Hin as [Hu Hss]. specialize (Hw u b). rewrite Hss in Hw. naive_solver.
  - intros t b s Hin Ht. specialize (Hw (atoi t) b). destruct (waiting m0 (atoi t) b) as [ss|] eqn:E.
    + exists ss. split; [by apply Hr|]. apply Hw. eauto.
    + by destruct (Hw t s eq_refl).
  - assert (forall u b, u = user \/ u = 0 -> waiting m2 u b = None) as Hnone.
    { intros u b Hu. rewrite H2, H1. unfold SYSTEM_USER_ID. repeat case_bool_decide; naive_solver. }
    pose proof (take_requests_spec user m2) as H3. destruct (take_requests user m2) as [m3 r3]. destruct H3 as (H3 & _ & H3').
    pose proof (take_requests_spec SYSTEM_USER_ID m3) as H4. destruct (take_requests SYSTEM_USER_ID m3) as [m4 r4]. destruct H4 as (H4 & _ & _).
    cbn [fst]. destruct r3 as [|x r3]; [destruct r4 as [|x r4]; [done|]|].
    + destruct (proj1 (H4 x) ltac:(by left)) as [_ Hx]. rewrite H3' in Hx. unfold SYSTEM_USER_ID in Hx.
      case_bool_decide; [done|]. rewrite Hnone in Hx; [done|by right].
    + destruct (proj1 (H3 x) ltac:(by left)) as [_ Hx]. rewrite Hnone in Hx; [done|by left].
Qed.
End Compensate.

#[local] Existing Instance GmapConcurrent.

Lemma unlock_compensates_witness :
  (OnScreenUnlocked 100 (fold_left (fun m a => AddCompensateSync a.1.1 a.1.2 a.2 m)
     [("100", "a", "s1"); ("0", "b", "s2"); ("100", "a", "s3"); ("200", "c", "s4")] ∅)).1 = [(100, "a", {["s1"; "s3"]}); (0, "b", {["s2"]})] /\
  exists ss, (100, "a", ss) ∈ [(100, "a", {["s1"; "s3"]} : gset string); (0, "b", {["s2"]})] /\ "s3" ∈ ss.
Proof.
  pose proof (unlock_compensates ∅ [("100", "a", "s1"); ("0", "b", "s2"); ("100", "a", "s3"); ("200", "c", "s4")] 100 (fun u b => eq_refl)) as H.
  match goal with |- ?x = ?y /\ _ => assert (x = y) as E by by_vm end. split; [exact E|].
  destruct (OnScreenUnlocked _ _) as [rs m']. cbn [fst] in E. subst rs. destruct H as (_ & _ & H & _).
  apply (H "100" "a" "s3"); [by_decide|by left].
Defined.
End Compensation.
