(* ===== verification/Permit.v ===== *)
(** * Permission of synchronisations ([service/permission/src/permit_delegate.cpp])

    The database asks the delegate before it exchanges data of a store with another
    device. The delegate finds the store's metadata by the identifiers in the
    question, compares the synchronisation strategies of the two devices and asks
    for the permission of the application. The metadata of the last stores is cached.

    The metadata store, the cache and the map of bundle names are the classes of
    [Interfaces]; access tokens are parameters. *)

From S2P Require Import Prelude CppString Interfaces Constant MetaData.
Import MetaData.

Module PermitDelegate.

Abbreviation StoreMeta := StoreMetaData.StoreMetaData.
Abbreviation StrategyM := StrategyMeta.StrategyMeta.
Abbreviation AppIdMeta := AppIDMetaData.AppIDMetaData.

Inductive Status : Type := SUCCESS | ERROR.
Inductive DataFlowCheckRet : Type := DEFAULT | DENIED_SEND.

#[export] Instance Status_eq_dec : EqDecision Status.
Proof. solve_decision. Defined.

(** [DistributedDB::PermissionCheckParam] and [ActivationCheckParam]. *)
Record CheckParam := mkParam { userId : string; appId : string; storeId : string; deviceId : string; instanceId : Z }.

Definition DEFAULT_USER : string := "0".

Section Delegate.
Context {SM : MetaStore StoreMeta} {TM : MetaStore StrategyM} {AM : MetaStore AppIdMeta}.
Context {CB : ConcurrentMap string string} {LB : LruBucket string StoreMeta}.

(** The uuid of this device, and [PermissionValidator::CheckSyncPermission]. *)
Context (localUuid : string) (CheckSyncPermission : Z -> bool).

(* @src service/permission/include/permit_delegate.h 54-55 appId2BundleNameMap_ *)
Record Delegate := mkDelegate {
  appId2BundleNameMap_ : cmap string string;
  metaDataBucket_ : bucket string StoreMeta;
  storeDb : meta_db StoreMeta;
  strategyDb : meta_db StrategyM;
  appIdDb : meta_db AppIdMeta
}.

(** [GetLocalUsers] is that of the user delegate. *)
(* @src service/permission/src/permit_delegate.cpp 75-84 PermitDelegate::SyncActivate *)
Definition SyncActivate (GetLocalUsers : gset string) (param : CheckParam) : bool :=
  if negb (instanceId param =? 0) then false else bool_decide (userId param ∈ GetLocalUsers).

Definition strategy_of (device : string) (data : StoreMeta) : StrategyM :=
  StrategyMeta.mk device (StoreMetaData.user data) (StoreMetaData.bundleName data) 0 (StoreMetaData.storeId data) false
    (Serializable.Serializable.blank CapabilityRange.c).

(** A load leaves the object as it was made when nothing is stored. *)
Definition load_strategy (device : string) (data : StoreMeta) (d : Delegate) : StrategyM * Delegate :=
  let made := strategy_of device data in
  let '(r, db) := LoadMeta (StrategyMeta.GetKey made) false (strategyDb d) in
  (default made r, mkDelegate (appId2BundleNameMap_ d) (metaDataBucket_ d) (storeDb d) db (appIdDb d)).

Definition ranges_meet (local remote : StrategyM) : bool :=
  existsb (fun l => bool_decide (l ∈ CapabilityRange.localLabel (StrategyMeta.capabilityRange remote)))
    (CapabilityRange.remoteLabel (StrategyMeta.capabilityRange local)).

(* @src service/permission/src/permit_delegate.cpp 142-161 PermitDelegate::VerifyStrategy *)
Definition VerifyStrategy (data : StoreMeta) (rmdevId : string) (d : Delegate) : Status * Delegate :=
  let '(local, d) := load_strategy (StoreMetaData.deviceId data) data d in
  let '(remote, d) := load_strategy rmdevId data d in
  (if negb (StrategyMeta.IsEffect local) || negb (StrategyMeta.IsEffect remote) then SUCCESS
   else if ranges_meet local remote then SUCCESS else ERROR, d).

(** The bundle name of an application, from the map or the metadata; the entry is kept
    when there is a name. *)
(* @src service/permission/src/permit_delegate.cpp 97-109 appId2BundleNameMap_ *)
Definition ResolveBundle (appId : string) (d : Delegate) : string * Delegate :=
  let '(r, db) := LoadMeta appId true (appIdDb d) in
  let meta := default AppIDMetaData.blank_m r in
  let '(m, (name, asked)) :=
    cm_compute "" appId (fun value =>
      if negb (bool_decide (value = "")) then (true, value, (value, false))
      else if bool_decide (AppIDMetaData.appId meta = appId)
           then (negb (bool_decide (AppIDMetaData.bundleName meta = "")), AppIDMetaData.bundleName meta, (AppIDMetaData.bundleName meta, true))
           else (false, value, ("", true))) (appId2BundleNameMap_ d) in
  (name, mkDelegate m (metaDataBucket_ d) (storeDb d) (strategyDb d) (if (asked : bool) then db else appIdDb d)).

(** The key made of the question, as [StoreMetaData::GetKeyWithoutPath] makes it. *)
Definition param_key (bundle : string) (param : CheckParam) : string :=
  StoreMetaData.GetKeyOf
    ([localUuid; if bool_decide (userId param = "default") then DEFAULT_USER else userId param; "default"; bundle; storeId param]
     ++ (if instanceId param =? 0 then [] else [to_string (instanceId param)])).

(** The metadata of a store, cached or loaded. *)
(* @src service/permission/src/permit_delegate.cpp 110-117 metaDataBucket_ *)
Definition FindMeta (key : string) (d : Delegate) : option StoreMeta * Delegate :=
  let '(r, bucket) := lru_get key (metaDataBucket_ d) in
  let d := mkDelegate (appId2BundleNameMap_ d) bucket (storeDb d) (strategyDb d) (appIdDb d) in
  match r with
  | Some data => (Some data, d)
  | None =>
      match LoadMeta key false (storeDb d) with
      | (None, db) => (None, mkDelegate (appId2BundleNameMap_ d) (metaDataBucket_ d) db (strategyDb d) (appIdDb d))
      | (Some data, db) =>
          (Some data, mkDelegate (appId2BundleNameMap_ d) (lru_set (StoreMetaData.GetKeyWithoutPath data) data (metaDataBucket_ d))
                        db (strategyDb d) (appIdDb d))
      end
  end.

(* @src service/permission/src/permit_delegate.cpp 86-128 PermitDelegate::VerifyPermission *)
Definition VerifyPermission (param : CheckParam) (d : Delegate) : bool * Delegate :=
  let '(bundle, d) := ResolveBundle (appId param) d in
  match FindMeta (param_key bundle param) d with
  | (None, d) => (false, d)
  | (Some data, d) =>
      if bool_decide (StoreMetaData.appType data = "default") then (true, d)
      else match VerifyStrategy data (deviceId param) d with
           | (SUCCESS, d) => (CheckSyncPermission (StoreMetaData.tokenId data), d)
           | (ERROR, d) => (false, d)
           end
  end.

(* @src service/permission/src/permit_delegate.cpp 163-166 PermitDelegate::DelCache *)
Definition DelCache (key : string) (d : Delegate) : Delegate :=
  mkDelegate (appId2BundleNameMap_ d) (lru_delete key (metaDataBucket_ d)) (storeDb d) (strategyDb d) (appIdDb d).

(** The check of a single permission; [VerifyAccessToken] is the token service's. *)
(* @src service/permission/src/permit_delegate.cpp 168-179 PermitDelegate::VerifyPermission *)
Definition VerifyTokenPermission (VerifyAccessToken : Z -> string -> bool) (permission : string) (callerTokenId : Z) : bool :=
  bool_decide (permission = "") || VerifyAccessToken callerTokenId permission.

(** [account] is [None] without an account delegate, otherwise whether the constraint
    of the account is enabled; [token] is the property of the token: missing, of
    another type, or a token. *)
(* @src service/permission/src/permit_delegate.cpp 181-212 PermitDelegate::IsTransferAllowed *)
Definition IsTransferAllowed (account : option bool) (IsAccessRestricted : Z -> string -> string -> bool)
    (token : option (option Z)) (param : CheckParam) (d : Delegate) : DataFlowCheckRet * Delegate :=
  match account with
  | None => (DENIED_SEND, d)
  | Some enabled =>
      let '(r, db) := LoadMeta (appId param) true (appIdDb d) in
      let meta := default AppIDMetaData.blank_m r in
      let d := mkDelegate (appId2BundleNameMap_ d) (metaDataBucket_ d) (storeDb d) (strategyDb d) db in
      (if negb enabled then DEFAULT
       else if bool_decide (AppIDMetaData.appId meta = "") then DENIED_SEND
       else match token with
            | Some (Some t) => if negb (IsAccessRestricted t (AppIDMetaData.appId meta) (AppIDMetaData.bundleName meta)) then DEFAULT else DENIED_SEND
            | _ => DENIED_SEND
            end, d)
  end.

(** ** What the decision depends on *)

Definition bundle_name (db : meta_db AppIdMeta) (a : string) : string :=
  match stored db true a with
  | Some m => if bool_decide (AppIDMetaData.appId m = a) then AppIDMetaData.bundleName m else ""
  | None => ""
  end.

Definition current_strategy (db : meta_db StrategyM) (device : string) (data : StoreMeta) : StrategyM :=
  default (strategy_of device data) (stored db false (StrategyMeta.GetKey (strategy_of device data))).

(** The strategies of the two devices admit each other, or one of them has none. *)
Definition strategies_agree (db : meta_db StrategyM) (data : StoreMeta) (remote : string) : bool :=
  let l := current_strategy db (StoreMetaData.deviceId data) data in
  let r := current_strategy db remote data in
  negb (StrategyMeta.IsEffect l) || negb (StrategyMeta.IsEffect r) || ranges_meet l r.

Definition permitted (d : Delegate) (param : CheckParam) : bool :=
  match stored (storeDb d) false (param_key (bundle_name (appIdDb d) (appId param)) param) with
  | None => false
  | Some data =>
      bool_decide (StoreMetaData.appType data = "default") ||
      (strategies_agree (strategyDb d) data (deviceId param) && CheckSyncPermission (StoreMetaData.tokenId data))
  end.

(** Loading finds what is stored. *)
Hypothesis load_store : forall k d d', LoadMeta (V := StoreMeta) k false d = (None, d') -> stored d false k = None.
Hypothesis load_strat : forall k d d', LoadMeta (V := StrategyM) k false d = (None, d') -> stored d false k = None.
Hypothesis load_app : forall k d d', LoadMeta (V := AppIdMeta) k true d = (None, d') -> stored d true k = None.

(** The cached names and metadata are those stored, and a store's metadata is filed
    under its own key. *)
Record Inv (d : Delegate) : Prop := {
  inv_names a n : cm_view (appId2BundleNameMap_ d) !! a = Some n -> n <> "" /\ n = bundle_name (appIdDb d) a;
  inv_cache k m : peek k (metaDataBucket_ d) = Some m -> stored (storeDb d) false k = Some m;
  inv_filed b p m : stored (storeDb d) false (param_key b p) = Some m -> StoreMetaData.GetKeyWithoutPath m = param_key b p
}.

(** The two states have the same stored content. *)
Definition same_content (d d' : Delegate) : Prop :=
  stored (storeDb d') = stored (storeDb d) /\ stored (strategyDb d') = stored (strategyDb d) /\ stored (appIdDb d') = stored (appIdDb d).

Lemma ResolveBundle_spec a d : Inv d ->
  let '(n, d') := ResolveBundle a d in n = bundle_name (appIdDb d) a /\ Inv d' /\ same_content d d'.
Proof.
  intros [Hn Hc Hf]. unfold ResolveBundle, bundle_name in *. pose proof (LoadMeta_stored a true (appIdDb d)) as Hs.
  assert ((LoadMeta a true (appIdDb d)).1 = stored (appIdDb d) true a) as Hr.
  { destruct (LoadMeta a true (appIdDb d)) as [[m|] db] eqn:E; cbn; symmetry; [by eapply LoadMeta_result|by eapply load_app]. }
  destruct (LoadMeta a true (appIdDb d)) as [r db]. cbn [fst snd] in Hs, Hr. subst r.
  match goal with |- context [cm_compute ?z ?k ?f ?m] => pose proof (cm_compute_spec _ z k f m) as Hcm; destruct (cm_compute z k f m) as [m' [n asked]] end.
  cbn [fst snd] in Hcm. unfold compute_ref in Hcm.
  destruct (cm_view (appId2BundleNameMap_ d) !! a) as [v|] eqn:Ev; cbn [default] in Hcm.
  - destruct (Hn a v Ev) as [Hv Hv']. change (id v) with v in Hcm. rewrite (bool_decide_eq_false_2 (v = "")) in Hcm by done. cbn in Hcm. injection Hcm as Hm Hn' Ha. subst n asked.
    split_and!; [done| |done]. split; cbn; [|done|done]. intros a' n'. rewrite Hm, insert_id by done. apply Hn.
  - rewrite (bool_decide_eq_true_2 ("" = "")) in Hcm by done. cbn in Hcm.
    assert (forall x n', cm_view (appId2BundleNameMap_ d) !! x = Some n' -> n' <> "" /\ n' = bundle_name db x) as Hn2.
    { intros x n' Hx. unfold bundle_name. rewrite Hs. by apply Hn. }
    destruct (stored (appIdDb d) true a) as [m|] eqn:Em; cbn [default from_option id] in Hcm; case_bool_decide as Ea; injection Hcm as Hm Hn' Ha; subst n asked.
    all: split_and!; [done| |by repeat split; cbn]. all: split; cbn; rewrite ?Hs; [|done|done]; intros x n'; rewrite Hm.
    all: try (case_bool_decide; cbn). all: try (intros [Hx Hd]%lookup_delete_Some; by apply Hn2).
    all: (destruct (decide (x = a)) as [->|Hne]; [rewrite lookup_insert_eq; intros [= <-]|rewrite lookup_insert_ne by done; by apply Hn2]).
    all: split; [done|]. all: unfold bundle_name; rewrite Hs, Em; by rewrite bool_decide_eq_true_2.
Qed.

Lemma LoadMeta_reads {V} `{MetaStore V} k l (db : meta_db V) :
  (forall k d d', LoadMeta (V := V) k l d = (None, d') -> stored d l k = None) -> (LoadMeta k l db).1 = stored db l k.
Proof.
  intros Hnone. destruct (LoadMeta k l db) as [[m|] db'] eqn:E; cbn; symmetry; [by eapply LoadMeta_result|by eapply Hnone].
Qed.

Lemma bundle_name_ext db db' a : stored db' = stored db -> bundle_name db' a = bundle_name db a.
Proof. intros E. unfold bundle_name. by rewrite E. Qed.

Lemma same_content_trans d1 d2 d3 : same_content d1 d2 -> same_content d2 d3 -> same_content d1 d3.
Proof. unfold same_content. intros (-> & -> & ->) (-> & -> & ->). done. Qed.

Lemma FindMeta_spec b p d : Inv d ->
  let '(r, d') := FindMeta (param_key b p) d in
  r = stored (storeDb d) false (param_key b p) /\ Inv d' /\ same_content d d'.
Proof.
  intros [Hn Hc Hf]. unfold FindMeta. pose proof (lru_get_result (param_key b p) (metaDataBucket_ d)) as Hg.
  pose proof (fun k' => lru_get_peek (param_key b p) k' (metaDataBucket_ d)) as Hp.
  destruct (lru_get (param_key b p) (metaDataBucket_ d)) as [r bk]. cbn [fst snd] in Hg, Hp. subst r.
  destruct (peek (param_key b p) (metaDataBucket_ d)) as [m|] eqn:Em.
  - split_and!; [by rewrite (Hc _ _ Em)| |done]. split; cbn; [done| |done]. intros k m'. rewrite Hp. apply Hc.
  - cbn [storeDb]. pose proof (LoadMeta_stored (param_key b p) false (storeDb d)) as Hs.
    pose proof (LoadMeta_reads (param_key b p) false (storeDb d) load_store) as Hr.
    destruct (LoadMeta (param_key b p) false (storeDb d)) as [[m|] db]; cbn [fst snd] in Hs, Hr; (split_and!; [done| |by repeat split; cbn]);
      split; cbn [appId2BundleNameMap_ metaDataBucket_ storeDb appIdDb]; try rewrite !Hs; try done; [|intros k m'; rewrite Hp; apply Hc].
    apply (lru_set_inv (fun k v => stored (storeDb d) false k = Some v)); [by rewrite (Hf b p m)|]. intros k m'. rewrite Hp. apply Hc.
Qed.

Lemma load_strategy_spec device data d :
  let '(s, d') := load_strategy device data d in
  s = current_strategy (strategyDb d) device data /\ (Inv d -> Inv d') /\ same_content d d'.
Proof.
  unfold load_strategy, current_strategy. set (k := StrategyMeta.GetKey _).
  pose proof (LoadMeta_stored k false (strategyDb d)) as Hs. pose proof (LoadMeta_reads k false (strategyDb d) load_strat) as Hr.
  destruct (LoadMeta k false (strategyDb d)) as [r db]. cbn [fst snd] in Hs, Hr. subst r.
  split_and!; [done| |by repeat split; cbn]. intros [Hn Hc Hf]. by split.
Qed.

Lemma current_strategy_ext db db' dev m : stored db' = stored db -> current_strategy db' dev m = current_strategy db dev m.
Proof. intros E. unfold current_strategy. by rewrite E. Qed.

Lemma VerifyStrategy_spec data remote d :
  let '(st, d') := VerifyStrategy data remote d in
  bool_decide (st = SUCCESS) = strategies_agree (strategyDb d) data remote /\ (Inv d -> Inv d') /\ same_content d d'.
Proof.
  unfold VerifyStrategy, strategies_agree. pose proof (load_strategy_spec (StoreMetaData.deviceId data) data d) as H1.
  destruct (load_strategy (StoreMetaData.deviceId data) data d) as [l d1]. destruct H1 as (-> & Hi1 & Hs1).
  pose proof (load_strategy_spec remote data d1) as H2. destruct (load_strategy remote data d1) as [r d2].
  destruct H2 as (-> & Hi2 & Hs2). split_and!; [|auto|by eapply same_content_trans].
  destruct Hs1 as (_ & E & _). rewrite (current_strategy_ext _ _ _ _ E).
  destruct (StrategyMeta.IsEffect _), (StrategyMeta.IsEffect _), (ranges_meet _ _); done.
Qed.

Lemma VerifyPermission_spec param d : Inv d ->
  let '(r, d') := VerifyPermission param d in r = permitted d param /\ Inv d' /\ same_content d d'.
Proof.
  intros HI. unfold VerifyPermission, permitted. pose proof (ResolveBundle_spec (appId param) d HI) as H1.
  destruct (ResolveBundle (appId param) d) as [b d1]. destruct H1 as (-> & HI1 & Hs1).
  pose proof (FindMeta_spec (bundle_name (appIdDb d) (appId param)) param d1 HI1) as H2.
  destruct (FindMeta _ d1) as [r d2]. destruct H2 as (-> & HI2 & Hs2). pose proof Hs1 as (E1 & _).
  assert (same_content d d2) as Hs12 by (by eapply same_content_trans).
  rewrite E1. destruct (stored (storeDb d) false _) as [m|]; [|done].
  case_bool_decide; cbn [orb]; [done|].
  pose proof (VerifyStrategy_spec m (deviceId param) d2) as H3. destruct (VerifyStrategy m (deviceId param) d2) as [st d3].
  destruct H3 as (Hst & Hi3 & Hs3).
  assert (strategies_agree (strategyDb d2) m (deviceId param) = strategies_agree (strategyDb d) m (deviceId param)) as Ea.
  { unfold strategies_agree. destruct Hs12 as (_ & F2 & _). by rewrite !(current_strategy_ext (strategyDb d) (strategyDb d2)). }
  rewrite <- Ea, <- Hst. destruct st; (split_and!; [done|auto|by eapply same_content_trans]).
Qed.

(** ** The delegate in use

    Besides the questions of the database, metadata of stores is saved under unused
    keys or removed, a removal deleting the cached entry; strategies change freely; and
    applications are registered, a registered one keeping its bundle name. *)
Definition filed (db : meta_db StoreMeta) : Prop :=
  forall b p m, stored db false (param_key b p) = Some m -> StoreMetaData.GetKeyWithoutPath m = param_key b p.

Inductive step : Delegate -> Delegate -> Prop :=
| step_verify param d : step d (VerifyPermission param d).2
| step_transfer account restricted token param d : step d (IsTransferAllowed account restricted token param d).2
| step_store db removed d :
    (forall k, k ∉ removed -> stored (storeDb d) false k = stored db false k \/ stored (storeDb d) false k = None) ->
    filed db ->
    step d (foldr DelCache (mkDelegate (appId2BundleNameMap_ d) (metaDataBucket_ d) db (strategyDb d) (appIdDb d)) removed)
| step_strategy db d : step d (mkDelegate (appId2BundleNameMap_ d) (metaDataBucket_ d) (storeDb d) db (appIdDb d))
| step_app db d : (forall a, bundle_name (appIdDb d) a <> "" -> bundle_name db a = bundle_name (appIdDb d) a) ->
    step d (mkDelegate (appId2BundleNameMap_ d) (metaDataBucket_ d) (storeDb d) (strategyDb d) db).

(** Nothing is cached at the start. *)
Definition init (d : Delegate) : Prop :=
  cm_view (appId2BundleNameMap_ d) = ∅ /\ (forall k, peek k (metaDataBucket_ d) = None) /\ filed (storeDb d).

Lemma DelCaches_spec ks d :
  let d' := foldr DelCache d ks in
  appId2BundleNameMap_ d' = appId2BundleNameMap_ d /\ storeDb d' = storeDb d /\ strategyDb d' = strategyDb d /\ appIdDb d' = appIdDb d /\
  forall k, peek k (metaDataBucket_ d') = if bool_decide (k ∈ ks) then None else peek k (metaDataBucket_ d).
Proof.
  induction ks as [|x ks IH]; cbn; [split_and!; [done..|]; intros k; by rewrite bool_decide_eq_false_2 by set_solver|].
  destruct IH as (-> & -> & -> & -> & Hp). split_and!; [done..|]. intros k. destruct (decide (k = x)) as [->|Hne].
  - rewrite lru_delete_same, bool_decide_eq_true_2 by apply elem_of_cons, or_introl, eq_refl. done.
  - rewrite lru_delete_other, Hp by done. assert (k ∈ ks <-> k ∈ x :: ks) as E by (rewrite elem_of_cons; naive_solver).
    by rewrite (bool_decide_ext _ _ E).
Qed.

Lemma permit_step_Inv d d' : Inv d -> step d d' -> Inv d'.
Proof.
  intros HI Hs. destruct Hs as [param d|account restricted token param d|db removed d Hch Hfiled|db d|db d Happ].
  - pose proof (VerifyPermission_spec param d HI) as H.
    destruct (VerifyPermission param d) as [r d']. by destruct H as (_ & ? & _).
  - unfold IsTransferAllowed. destruct account as [e|]; [|done]. pose proof (LoadMeta_stored (appId param) true (appIdDb d)) as E.
    destruct (LoadMeta (appId param) true (appIdDb d)) as [r db]. destruct HI as [Hn Hc Hf]. split; cbn; [|done|done].
    intros a n Ha. rewrite (bundle_name_ext (appIdDb d)) by done. by apply Hn.
  - destruct HI as [Hn Hc Hf].
    pose proof (DelCaches_spec removed (mkDelegate (appId2BundleNameMap_ d) (metaDataBucket_ d) db (strategyDb d) (appIdDb d))) as (E1 & E2 & E3 & E4 & Hp).
    split; rewrite ?E1, ?E2, ?E4; cbn [appId2BundleNameMap_ storeDb appIdDb]; [done| |done].
    intros k m. rewrite Hp. case_bool_decide as Hk; [done|]. cbn. intros Hm. apply Hc in Hm. destruct (Hch k Hk); congruence.
  - destruct HI as [Hn Hc Hf]. by split.
  - destruct HI as [Hn Hc Hf]. split; cbn; [|done|done]. intros a n Ha. destruct (Hn a n Ha) as [Hne ->]. split; [done|].
    by rewrite Happ.
Qed.

Lemma permit_init_Inv d : init d -> Inv d.
Proof.
  intros (Hm & Hp & Hf). split; [intros a n; by rewrite Hm|intros k m; by rewrite Hp|done].
Qed.

End Delegate.

#[local] Existing Instance AssocLru.
#[local] Existing Instance MapMetaStore.
#[local] Existing Instance GmapConcurrent.

(** A store and its registered application; the second question is answered from the caches. *)
Definition sample_app : AppIdMeta := AppIDMetaData.mk "app" "com.app".
Definition sample_param : CheckParam := mkParam "100" "app" "st" "peer" 0.
Definition sample_store : StoreMeta :=
  let m := StoreMetaData.blank_m in
  StoreMetaData.mk (StoreMetaData.version m) false true false false false false false false false false false false (-1) (-1) 0 0 (-1) 0 0 7
    "app" "harmony" "com.app" "" "" "" "local" "" "st" "100" "" 0 false false 0 "" false 0.

Abbreviation sample_delegate := (mkDelegate (SM := MapMetaStore) (TM := MapMetaStore) (AM := MapMetaStore) (CB := GmapConcurrent) (LB := AssocLru)).

Definition sample_before : Delegate :=
  sample_delegate ∅ (mkAssoc 4 []) {[(false, StoreMetaData.GetKeyWithoutPath sample_store) := sample_store]} ∅ {[(true, "app") := sample_app]}.

(** After a first question the name and the metadata are cached. *)
Definition sample_after : Delegate := (VerifyPermission "local" (fun t => t =? 7) sample_param sample_before).2.

End PermitDelegate.
