(* ===== verification/EventCenter.v ===== *)
(** * The event centre ([framework/eventcenter/event_center.cpp])

    Components post events and subscribe observers to them. An event posted while
    no handling is under way in the thread is dispatched at once; one posted during
    the handling of another, or within a [Defer] scope, waits in a queue that is
    served when the outermost scope ends.

    Observers are arbitrary programs: what one does to the centre when it is called
    with an event is a list of actions, among them further posts, scopes and
    subscriptions. The log is the history of what happened. A failing allocation of
    the queue is not modelled. *)

From S2P Require Import Prelude Interfaces.

Module EventCenter.

(* @src framework/eventcenter/event.cpp 19-33 Event *)
Record Event {P : Type} := mkEvent { evtId_ : Z; payload : P }.
Arguments Event : clear implicits.
Arguments mkEvent {P}.

Definition GetEventId {P} (e : Event P) : Z := evtId_ e.
Definition EVT_INVALID : Z := 0.

Definition CODE_SYNC : Z := 1.
Definition CODE_ASYNC : Z := 2.
Definition CODE_INVALID_ARGS : Z := 3.
Definition MAX_CAPABILITY : nat := 100.

(** What an observer does to the centre: posting an event (or a null pointer), a
    scope of a [Defer] object with its temporary handler, subscribing and
    unsubscribing. An observer has a name, under which its calls are logged. *)
Inductive action {P : Type} : Type :=
| APost (evt : option (Event P))
| ADefer (handler : option (Z * (Event P -> list action))) (evtId : Z) (body : list action)
| ASubscribe (evtId : Z) (observer : Z * (Event P -> list action))
| AUnsubscribe (evtId : Z).
Arguments action : clear implicits.

Abbreviation observer P := (Z * (Event P -> list (action P)))%type.

Inductive entry {P : Type} : Type :=
| Accepted (evt : Event P)
| Served (evt : Event P)
| Called (name : Z) (evt : Event P).
Arguments entry : clear implicits.

(* @src framework/include/eventcenter/event_center.h 49-61 AsyncQueue *)
Record AsyncQueue {P : Type} := mkQueue {
  handlers_ : gmap Z (observer P);
  events_ : list (Event P);
  depth_ : Z
}.
Arguments AsyncQueue : clear implicits.
Arguments mkQueue {P}.

Section Center.
Context {P : Type} {CO : ConcurrentMap Z (list (observer P))}.

(** [Event::Equals] is virtual; the base class compares nothing as equal. *)
Variable Equals : Event P -> Event P -> bool.

(* @src framework/include/eventcenter/event_center.h 26-64 EventCenter *)
Record Center := mkCenter {
  observers_ : cmap Z (list (observer P));
  asyncQueue_ : option (AsyncQueue P);
  log : list (entry P)
}.

Definition set_queue (q : option (AsyncQueue P)) (c : Center) : Center := mkCenter (observers_ c) q (log c).
Definition note (e : entry P) (c : Center) : Center := mkCenter (observers_ c) (asyncQueue_ c) (log c ++ [e]).

(* @src framework/eventcenter/event_center.cpp 27-33 EventCenter::Subscribe *)
Definition Subscribe (evtId : Z) (o : observer P) (c : Center) : bool * Center :=
  let '(m, r) := cm_compute [] evtId (fun l => (true, l ++ [o], true)) (observers_ c) in
  (r, mkCenter m (asyncQueue_ c) (log c)).

(* @src framework/eventcenter/event_center.cpp 35-38 EventCenter::Unsubscribe *)
Definition Unsubscribe (evtId : Z) (c : Center) : bool * Center :=
  let '(m, r) := cm_compute_if_present false evtId (fun l => (false, l, true)) (observers_ c) in
  (r, mkCenter m (asyncQueue_ c) (log c)).

(* @src framework/eventcenter/event_center.cpp 126-138 AsyncQueue::Post *)
Definition Post (evt : Event P) (q : AsyncQueue P) (c : Center) : Center :=
  if existsb (fun event => (GetEventId event =? GetEventId evt) && Equals event evt) (events_ q)
  then set_queue (Some q) c
  else note (Accepted evt) (set_queue (Some (mkQueue (handlers_ q) (events_ q ++ [evt]) (depth_ q))) c).

(* @src framework/eventcenter/event_center.cpp 140-152 AsyncQueue::AddHandler *)
Definition AddHandler (evtId : Z) (handler : option (observer P)) (q : AsyncQueue P) : AsyncQueue P :=
  match handler with
  | None => q
  | Some h =>
      if evtId =? EVT_INVALID then q
      else match handlers_ q !! evtId with
           | Some _ => q
           | None => mkQueue (<[evtId := h]> (handlers_ q)) (events_ q) (depth_ q)
           end
  end.

(** The constructor of a [Defer] object and [AsyncQueue::operator++]. *)
(* @src framework/eventcenter/event_center.cpp 66-78 Defer::Defer *)
Definition Defer_open (handler : option (observer P)) (evtId : Z) (c : Center) : Center :=
  let q := default (mkQueue ∅ [] 0) (asyncQueue_ c) in
  let q := mkQueue (handlers_ q) (events_ q) (depth_ q + 1) in
  set_queue (Some (AddHandler evtId handler q)) c.

(** Everything below calls observers; [call] is such a call. *)
Section Call.
Variable call : observer P -> Event P -> Center -> option Center.

Fixpoint call_all (os : list (observer P)) (evt : Event P) (c : Center) : option Center :=
  match os with
  | [] => Some c
  | o :: os => c ← call o evt c; call_all os evt c
  end.

(* @src framework/eventcenter/event_center.cpp 54-64 EventCenter::Dispatch *)
Definition Dispatch (evt : Event P) (c : Center) : option Center :=
  match cm_view (observers_ c) !! GetEventId evt with
  | None => Some c
  | Some os => call_all os evt c
  end.

(** The call of the temporary handler after the resident ones. *)
Definition DispatchTemporary (evt : Event P) (c : Center) : option Center :=
  match q ← asyncQueue_ c; handlers_ q !! GetEventId evt with
  | None => Some c
  | Some h => call h evt c
  end.

Definition pop_front (c : Center) : Center :=
  match asyncQueue_ c with
  | None => c
  | Some q => set_queue (Some (mkQueue (handlers_ q) (tail (events_ q)) (depth_ q))) c
  end.

(** The loop of [operator--], which serves at most [count] events. *)
(* @src framework/eventcenter/event_center.cpp 98-117 AsyncQueue::operator-- *)
Fixpoint serve (count : nat) (c : Center) : option Center :=
  match count with
  | O => Some c
  | S count =>
      match q ← asyncQueue_ c; head (events_ q) with
      | None => Some c
      | Some evt =>
          c ← Dispatch evt (note (Served evt) c);
          c ← DispatchTemporary evt c;
          serve count (pop_front c)
      end
  end.

Definition set_depth (d : Z) (c : Center) : Center :=
  match asyncQueue_ c with
  | None => c
  | Some q => set_queue (Some (mkQueue (handlers_ q) (events_ q) d)) c
  end.

(* @src framework/eventcenter/event_center.cpp 98-119 AsyncQueue::operator-- *)
Definition decrement (q : AsyncQueue P) (c : Center) : option Center :=
  let c := set_depth (depth_ q - 1) c in
  if 0 <? depth_ q - 1 then Some c
  else c ← serve MAX_CAPABILITY (set_depth 1 c); Some (set_depth 0 c).

(* @src framework/eventcenter/event_center.cpp 80-90 Defer::~Defer *)
Definition Defer_close (c : Center) : option Center :=
  match asyncQueue_ c with
  | None => Some c
  | Some q =>
      c ← decrement q c;
      Some match asyncQueue_ c with
           | Some q => if depth_ q <=? 0 then set_queue None c else c
           | None => c
           end
  end.

(* @src framework/eventcenter/event_center.cpp 40-52 EventCenter::PostEvent *)
Definition PostEvent (evt : option (Event P)) (c : Center) : option (Z * Center) :=
  match evt with
  | None => Some (CODE_INVALID_ARGS, c)
  | Some evt =>
      match asyncQueue_ c with
      | None =>
          c ← Dispatch evt (note (Served evt) (Defer_open None EVT_INVALID c));
          c ← Defer_close c;
          Some (CODE_SYNC, c)
      | Some q => Some (CODE_ASYNC, Post evt q c)
      end
  end.

Fixpoint exec_action (a : action P) (c : Center) {struct a} : option Center :=
  match a with
  | APost evt => snd <$> PostEvent evt c
  | ADefer handler evtId body =>
      c ← (fix go (l : list (action P)) (c : Center) : option Center :=
             match l with
             | [] => Some c
             | a :: l => c ← exec_action a c; go l c
             end) body (Defer_open handler evtId c);
      Defer_close c
  | ASubscribe evtId o => Some (Subscribe evtId o c).2
  | AUnsubscribe evtId => Some (Unsubscribe evtId c).2
  end.

Fixpoint exec (l : list (action P)) (c : Center) : option Center :=
  match l with
  | [] => Some c
  | a :: l => c ← exec_action a c; exec l c
  end.
End Call.

(** A call of an observer logs the call and runs its actions. The fuel bounds the
    nesting of calls; [None] stands for a deeper one. *)
Fixpoint call_observer (fuel : nat) (o : observer P) (evt : Event P) (c : Center) : option Center :=
  match fuel with
  | O => None
  | S fuel => exec (call_observer fuel) (o.2 evt) (note (Called o.1 evt) c)
  end.

(** One level is enough: an observer never runs inside another one. *)
Definition run (l : list (action P)) (c : Center) : option Center := exec (call_observer 1) l c.
Definition post (evt : option (Event P)) (c : Center) : option (Z * Center) := PostEvent (call_observer 1) evt c.

(** ** What the log says *)

Definition accepted (l : list (entry P)) : list (Event P) :=
  omap (fun e => match e with Accepted evt => Some evt | _ => None end) l.
Definition served (l : list (entry P)) : list (Event P) :=
  omap (fun e => match e with Served evt => Some evt | _ => None end) l.
Definition calls (l : list (entry P)) : list (Z * Event P) :=
  omap (fun e => match e with Called n evt => Some (n, evt) | _ => None end) l.

(** ** Running inside of a scope *)

(** From [c] to [c'] the new events are those that were appended to the queue, the
    observers [cs] were called and nothing was taken from the queue. *)
Definition grows (cs : list (Z * Event P)) (c c' : Center) : Prop :=
  exists q q' new, asyncQueue_ c = Some q /\ asyncQueue_ c' = Some q' /\
    1 <= depth_ q /\ depth_ q' = depth_ q /\ events_ q' = events_ q ++ new /\
    accepted (log c') = accepted (log c) ++ new /\
    served (log c') = served (log c) /\ calls (log c') = calls (log c) ++ cs.

Lemma grows_refl c q : asyncQueue_ c = Some q -> 1 <= depth_ q -> grows [] c c.
Proof. intros Hq Hd. exists q, q, []. rewrite !app_nil_r. eauto 10. Qed.

Lemma grows_trans cs1 cs2 c1 c2 c3 : grows cs1 c1 c2 -> grows cs2 c2 c3 -> grows (cs1 ++ cs2) c1 c3.
Proof.
  intros (q1 & q2 & n1 & E1 & E2 & D1 & D2 & V1 & A1 & S1 & C1)
    (q2' & q3 & n2 & E2' & E3 & D2' & D3 & V2 & A2 & S2 & C2).
  rewrite E2 in E2'. injection E2' as <-. exists q1, q3, (n1 ++ n2).
  rewrite (assoc_L (++)), <- V1, V2, (assoc_L (++)), <- A1, A2, S2, S1, C2, C1, D3, (assoc_L (++)). eauto 10.
Qed.

Lemma grows_busy cs c c' : grows cs c c' -> exists q, asyncQueue_ c' = Some q /\ 1 <= depth_ q.
Proof. intros (q & q' & new & ? & ? & ? & Hd & _). exists q'. split; [done|]. lia. Qed.

Lemma accepted_app l l' : accepted (l ++ l') = accepted l ++ accepted l'.
Proof. apply omap_app. Qed.
Lemma served_app l l' : served (l ++ l') = served l ++ served l'.
Proof. apply omap_app. Qed.
Lemma calls_app l l' : calls (l ++ l') = calls l ++ calls l'.
Proof. apply omap_app. Qed.

Lemma Post_grows evt q c : asyncQueue_ c = Some q -> 1 <= depth_ q -> grows [] c (Post evt q c).
Proof.
  intros Hq Hd. unfold Post. case_match.
  - exists q, q, []. rewrite !app_nil_r. cbn. eauto 10.
  - exists q, (mkQueue (handlers_ q) (events_ q ++ [evt]) (depth_ q)), [evt]. cbn.
    rewrite accepted_app, served_app, calls_app, !app_nil_r. eauto 10.
Qed.

Lemma AddHandler_same evtId h q : depth_ (AddHandler evtId h q) = depth_ q /\ events_ (AddHandler evtId h q) = events_ q.
Proof. unfold AddHandler. repeat case_match; done. Qed.

(** Actions with the lists inside of them. *)
Definition action_nested_ind (Q : action P -> Prop)
    (Hpost : forall evt, Q (APost evt))
    (Hdefer : forall h i body, Forall Q body -> Q (ADefer h i body))
    (Hsub : forall i o, Q (ASubscribe i o)) (Hunsub : forall i, Q (AUnsubscribe i)) : forall a, Q a :=
  fix rec a := match a with
  | APost evt => Hpost evt
  | ADefer h i body => Hdefer h i body ((fix go (l : list (action P)) : Forall Q l :=
      match l with [] => @List.Forall_nil _ Q | a :: l => @List.Forall_cons _ Q a l (rec a) (go l) end) body)
  | ASubscribe i o => Hsub i o
  | AUnsubscribe i => Hunsub i
  end.

Lemma exec_action_ADefer call h i body c :
  exec_action call (ADefer h i body) c = (exec call body (Defer_open h i c) ≫= Defer_close call).
Proof.
  cbn. generalize (Defer_open h i c). clear. induction body as [|a body IH]; intros c; [done|]. cbn.
  destruct (exec_action call a c); cbn; [|done]. apply IH.
Qed.

Lemma exec_busy_of call l :
  Forall (fun a => forall c q, asyncQueue_ c = Some q -> 1 <= depth_ q ->
    exists c', exec_action call a c = Some c' /\ grows [] c c') l ->
  forall c q, asyncQueue_ c = Some q -> 1 <= depth_ q -> exists c', exec call l c = Some c' /\ grows [] c c'.
Proof.
  induction 1 as [|a l Ha _ IH]; intros c q Hq Hd; [eauto using grows_refl|].
  destruct (Ha c q Hq Hd) as (c1 & E1 & G1). destruct (grows_busy _ _ _ G1) as (q1 & Hq1 & Hd1).
  destruct (IH c1 q1 Hq1 Hd1) as (c2 & E2 & G2). exists c2. cbn. rewrite E1. cbn. split; [done|]. by apply (grows_trans [] [] c c1 c2).
Qed.

(** Inside of a scope nothing is dispatched, whatever is run. *)
Lemma exec_action_busy call a : forall c q, asyncQueue_ c = Some q -> 1 <= depth_ q ->
  exists c', exec_action call a c = Some c' /\ grows [] c c'.
Proof.
  induction a as [evt|h i body IH|i o|i] using action_nested_ind; intros c q Hq Hd.
  - destruct evt as [evt|]; cbn; [rewrite Hq|]; eauto using grows_refl, Post_grows.
  - rewrite exec_action_ADefer.
    set (q0 := AddHandler i h (mkQueue (handlers_ q) (events_ q) (depth_ q + 1))).
    destruct (AddHandler_same i h (mkQueue (handlers_ q) (events_ q) (depth_ q + 1))) as [D0 V0].
    fold q0 in D0, V0. cbn in D0, V0.
    assert (asyncQueue_ (Defer_open h i c) = Some q0) as E0 by (unfold Defer_open; by rewrite Hq).
    destruct (exec_busy_of call body IH _ q0 E0) as (c1 & E1 & q1 & q2 & new & Hq1 & Hq2 & ? & D2 & V2 & A2 & S2 & C2); [lia|].
    rewrite E1. rewrite E0 in Hq1. injection Hq1 as <-. cbn. unfold Defer_close. rewrite Hq2. unfold decrement.
    rewrite D2, D0. replace (depth_ q + 1 - 1) with (depth_ q) by lia.
    destruct (Z.ltb_spec 0 (depth_ q)) as [_|]; [|lia]. cbn. unfold set_depth. rewrite Hq2. cbn.
    destruct (Z.leb_spec (depth_ q) 0); [lia|]. eexists. split; [done|].
    exists q, (mkQueue (handlers_ q2) (events_ q2) (depth_ q)), new. cbn. rewrite V2, V0. cbn in A2, S2, C2. eauto 10.
  - cbn. unfold Subscribe. destruct (cm_compute _ _ _ _) as [m r]. cbn. eexists. split; [done|]. exists q, q, []. cbn. rewrite !app_nil_r. eauto 10.
  - cbn. unfold Unsubscribe. destruct (cm_compute_if_present _ _ _ _) as [m r]. cbn. eexists. split; [done|]. exists q, q, []. cbn. rewrite !app_nil_r. eauto 10.
Qed.

Lemma exec_busy call l c q : asyncQueue_ c = Some q -> 1 <= depth_ q -> exists c', exec call l c = Some c' /\ grows [] c c'.
Proof. apply exec_busy_of. apply Forall_forall. intros a _. apply exec_action_busy. Qed.

(** ** Calls, dispatches and the service loop *)

Lemma note_grows o evt cs c c' q : asyncQueue_ c = Some q ->
  grows cs (note (Called o evt) c) c' -> grows ((o, evt) :: cs) c c'.
Proof.
  intros Hq (q1 & q2 & new & E1 & E2 & D1 & D2 & V & A & S & C). cbn in *.
  rewrite accepted_app in A. rewrite served_app in S. rewrite calls_app, <- (assoc_L (++)) in C. cbn in *. rewrite app_nil_r in *.
  exists q1, q2, new. eauto 10.
Qed.

Lemma call_observer_grows o evt c q : asyncQueue_ c = Some q -> 1 <= depth_ q ->
  exists c', call_observer 1 o evt c = Some c' /\ grows [(o.1, evt)] c c'.
Proof.
  intros Hq Hd. cbn [call_observer]. destruct (exec_busy (call_observer 0) (o.2 evt) (note (Called o.1 evt) c) q Hq Hd) as (c' & E & G).
  exists c'. split; [done|]. by eapply note_grows.
Qed.

Lemma call_all_grows os evt c q : asyncQueue_ c = Some q -> 1 <= depth_ q ->
  exists c', call_all (call_observer 1) os evt c = Some c' /\ grows ((fun o => (o.1, evt)) <$> os) c c'.
Proof.
  revert c q. induction os as [|o os IH]; intros c q Hq Hd; [eauto using grows_refl|].
  destruct (call_observer_grows o evt c q Hq Hd) as (c1 & E1 & G1). destruct (grows_busy _ _ _ G1) as (q1 & Hq1 & Hd1).
  destruct (IH c1 q1 Hq1 Hd1) as (c2 & E2 & G2). exists c2. cbn [call_all]. rewrite E1. cbn [mbind option_bind].
  split; [done|]. rewrite fmap_cons. by apply (grows_trans [_] _ c c1 c2).
Qed.

(** The calls of a dispatch: the resident observers in the order of subscription. *)
Definition resident (evt : Event P) (c : Center) : list (Z * Event P) :=
  (fun o => (o.1, evt)) <$> default [] (cm_view (observers_ c) !! GetEventId evt).

Lemma Dispatch_grows evt c q : asyncQueue_ c = Some q -> 1 <= depth_ q ->
  exists c', Dispatch (call_observer 1) evt c = Some c' /\ grows (resident evt c) c c'.
Proof.
  intros Hq Hd. unfold Dispatch, resident. destruct (cm_view (observers_ c) !! GetEventId evt) as [os|]; cbn [default].
  - by apply call_all_grows with q.
  - eauto using grows_refl.
Qed.

Lemma DispatchTemporary_grows evt c q : asyncQueue_ c = Some q -> 1 <= depth_ q ->
  exists c' cs, DispatchTemporary (call_observer 1) evt c = Some c' /\ grows cs c c'.
Proof.
  intros Hq Hd. unfold DispatchTemporary. rewrite Hq. cbn [mbind option_bind].
  destruct (handlers_ q !! GetEventId evt) as [h|].
  - destruct (call_observer_grows h evt c q Hq Hd) as (c' & ? & ?). eauto.
  - eauto using grows_refl.
Qed.

(** Serving takes the first events of the queue, among them those that arrive
    meanwhile; the accepted events are those served and those left. *)
Lemma serve_fifo count c q : asyncQueue_ c = Some q -> 1 <= depth_ q ->
  exists c' q' new, serve (call_observer 1) count c = Some c' /\ asyncQueue_ c' = Some q' /\ 1 <= depth_ q' /\
    accepted (log c') = accepted (log c) ++ new /\
    served (log c') = served (log c) ++ take count (events_ q ++ new) /\
    events_ q' = drop count (events_ q ++ new) /\
    calls (log c) `prefix_of` calls (log c').
Proof.
  revert c q. induction count as [|count IH]; intros c q Hq Hd.
  { exists c, q, []. cbn. rewrite !app_nil_r, drop_0. eauto 10. }
  cbn [serve]. rewrite Hq. cbn [mbind option_bind]. destruct (events_ q) as [|evt evts] eqn:Hev.
  { exists c, q, []. cbn. rewrite Hev, !app_nil_r. eauto 10. }
  cbn [head]. destruct (Dispatch_grows evt (note (Served evt) c) q Hq Hd) as (c1 & E1 & G1). rewrite E1. cbn [mbind option_bind].
  destruct (grows_busy _ _ _ G1) as (q1 & Hq1 & Hd1).
  destruct (DispatchTemporary_grows evt c1 q1 Hq1 Hd1) as (c2 & cs & E2 & G2). rewrite E2. cbn [mbind option_bind].
  destruct (grows_trans _ _ _ _ _ G1 G2) as (q0 & q2 & new & Hq0 & Hq2 & _ & D2 & V & A & S & C).
  cbn in Hq0. assert (q0 = q) as -> by congruence. cbn in A, S, C.
  rewrite accepted_app in A. rewrite served_app in S. rewrite calls_app in C. cbn in A, S, C. rewrite app_nil_r in A, C.
  unfold pop_front. rewrite Hq2. rewrite Hev in V.
  edestruct (IH (set_queue (Some (mkQueue (handlers_ q2) (tail (events_ q2)) (depth_ q2))) c2)) as (c3 & q3 & new3 & E3 & Hq3 & D3 & A3 & S3 & V3 & C3); [done|cbn; lia|].
  cbn [log set_queue events_] in A3, S3, V3, C3. rewrite V in S3, V3. cbn [tail app] in S3, V3.
  rewrite <- (assoc_L (++)) in S3, V3. exists c3, q3, (new ++ new3).
  split_and!; [done|done|done|by rewrite A3, A, (assoc_L (++))|rewrite S3, S|done|].
  - cbn. by rewrite <- (assoc_L (++)).
  - etrans; [|exact C3]. rewrite C. by apply prefix_app_r.
Qed.

Lemma set_depth_queue d c q : asyncQueue_ c = Some q -> set_depth d c = set_queue (Some (mkQueue (handlers_ q) (events_ q) d)) c.
Proof. intros Hq. unfold set_depth. by rewrite Hq. Qed.

Lemma close_outermost c q : asyncQueue_ c = Some q -> depth_ q = 1 ->
  exists c' new, Defer_close (call_observer 1) c = Some c' /\ asyncQueue_ c' = None /\
    accepted (log c') = accepted (log c) ++ new /\
    served (log c') = served (log c) ++ take MAX_CAPABILITY (events_ q ++ new) /\
    calls (log c) `prefix_of` calls (log c').
Proof.
  intros Hq Hd. unfold Defer_close. rewrite Hq. unfold decrement.
  rewrite (set_depth_queue _ c q Hq). erewrite (set_depth_queue 1) by done. rewrite Hd. change (0 <? 1 - 1) with false.
  cbn [set_queue asyncQueue_ observers_ log handlers_ events_ depth_].
  match goal with |- context [serve _ _ ?x] => set (c0 := x) end.
  destruct (serve_fifo MAX_CAPABILITY c0 (mkQueue (handlers_ q) (events_ q) 1))
    as (c1 & q1 & new & E1 & Hq1 & D1 & A1 & S1 & V1 & C1); [done|done|]. rewrite E1. cbn [mbind option_bind].
  unfold set_depth. rewrite Hq1. cbn. eexists. exists new. split_and!; [done|done|exact A1|exact S1|exact C1].
Qed.

(** C13: A scope of deferred events that is opened while no event is being handled
    always ends, whatever its body and the observers post, subscribe or nest; when it
    has ended no queue is left, and the events served in it are exactly the first 100
    of those accepted in it, each once and in the order in which they were posted. *)
Theorem scope_served (c : Center) (handler : option (observer P)) (evtId : Z) (body : list (action P)) :
  asyncQueue_ c = None ->
  exists c' new, run [ADefer handler evtId body] c = Some c' /\ asyncQueue_ c' = None /\
    accepted (log c') = accepted (log c) ++ new /\
    served (log c') = served (log c) ++ take MAX_CAPABILITY new.
Proof.
  intros Hq. unfold run. cbn [exec]. rewrite exec_action_ADefer.
  set (c0 := Defer_open handler evtId c).
  destruct (AddHandler_same evtId handler (mkQueue ∅ [] 1)) as [D0 V0]. cbn in D0, V0.
  assert (asyncQueue_ c0 = Some (AddHandler evtId handler (mkQueue ∅ [] 1))) as E0 by (unfold c0, Defer_open; by rewrite Hq).
  destruct (exec_busy (call_observer 1) body c0 _ E0) as (c1 & E1 & q & q1 & n1 & Hq0 & Hq1 & _ & D1 & V1 & A1 & S1 & _); [by rewrite D0|].
  rewrite E1. cbn [mbind option_bind]. rewrite E0 in Hq0. injection Hq0 as <-. rewrite V0 in V1. rewrite D0 in D1. cbn in V1.
  destruct (close_outermost c1 q1 Hq1 D1) as (c2 & n2 & E2 & Hq2 & A2 & S2 & _). rewrite E2. cbn [mbind option_bind].
  exists c2, (n1 ++ n2). rewrite A2, A1, S2, S1, V1, (assoc_L (++)). done.
Qed.

(** Posting a null pointer reports [CODE_INVALID_ARGS] and changes nothing. Posting
    while events are being handled or deferred reports [CODE_ASYNC], calls no observer,
    and afterwards the event, or an equal one that was waiting already, is in the
    queue. Posting otherwise reports [CODE_SYNC]: the call returns, the resident
    observers of the event were called first and in the order of their subscription,
    then the first 100 events their handling gave rise to were served, and no queue is
    left. *)
Lemma PostEvent_codes (c : Center) (evt : option (Event P)) :
  match evt, asyncQueue_ c with
  | None, _ => post evt c = Some (CODE_INVALID_ARGS, c)
  | Some e, Some q =>
      exists c' q', post evt c = Some (CODE_ASYNC, c') /\ asyncQueue_ c' = Some q' /\
        calls (log c') = calls (log c) /\ served (log c') = served (log c) /\
        ((events_ q' = events_ q ++ [e] /\ accepted (log c') = accepted (log c) ++ [e]) \/
         c' = c /\ exists e', e' ∈ events_ q' /\ GetEventId e' = GetEventId e /\ Equals e' e = true)
  | Some e, None =>
      exists c' new, post evt c = Some (CODE_SYNC, c') /\ asyncQueue_ c' = None /\
        accepted (log c') = accepted (log c) ++ new /\
        served (log c') = served (log c) ++ e :: take MAX_CAPABILITY new /\
        (calls (log c) ++ resident e c) `prefix_of` calls (log c')
  end.
Proof.
  destruct evt as [e|]; [|done]. unfold post, PostEvent. destruct (asyncQueue_ c) as [q|] eqn:Hq.
  - unfold Post. destruct (existsb _ _) eqn:Hex.
    + exists c, q. split_and!; [|done..|right].
      { destruct c. cbn in *. by subst. }
      split; [done|]. apply existsb_exists in Hex as (e' & He' & [Hid Heq]%andb_true_iff). exists e'.
      apply list_elem_of_In in He'. apply Z.eqb_eq in Hid. done.
    + eexists _, _. split; [done|]. cbn. rewrite accepted_app, served_app, calls_app. cbn. rewrite !app_nil_r. eauto 10.
  - set (c0 := note (Served e) (Defer_open None EVT_INVALID c)).
    assert (asyncQueue_ c0 = Some (mkQueue ∅ [] 1)) as E0 by (unfold c0, Defer_open; cbn; by rewrite Hq).
    destruct (Dispatch_grows e c0 _ E0) as (c1 & E1 & q & q1 & n1 & Hq0 & Hq1 & _ & D1 & V1 & A1 & S1 & C1); [done|].
    rewrite E1. cbn [mbind option_bind]. rewrite E0 in Hq0. injection Hq0 as <-. cbn in D1, V1.
    destruct (close_outermost c1 q1 Hq1 D1) as (c2 & n2 & E2 & Hq2 & A2 & S2 & C2). rewrite E2. cbn [mbind option_bind].
    cbn in A1, S1, C1. rewrite accepted_app in A1. rewrite served_app in S1. rewrite calls_app in C1. cbn in A1, S1, C1. rewrite app_nil_r in A1, C1.
    exists c2, (n1 ++ n2). rewrite A2, A1, S2, S1, V1, (assoc_L (++)). split_and!; [done..| |].
    + by rewrite <- (assoc_L (++)).
    + change (resident e c0) with (resident e c) in C1. by rewrite <- C1.
Qed.
End Center.

#[local] Existing Instance GmapConcurrent.

(** An observer that posts the event it handles again, and never stops on its own. *)
Definition reposting : observer unit := (1, fun evt => [APost (Some evt)]).
Definition small_center : @Center unit _ := mkCenter (<[4096 := [reposting]]> ∅) None [].

(** With events that never compare as equal (the base class), the reposting observer
    is stopped after the direct dispatch and 100 served events. *)
Lemma reposting_bounded :
  (fun r => (r.1, length (calls (log r.2)))) <$> post (fun _ _ => false) (Some (mkEvent 4096 tt)) small_center
  = Some (CODE_SYNC, 101%nat).
Proof. vm_compute. reflexivity. Qed.

(** What exceeds the limit is dropped with the queue: of 101 events posted in one
    scope the last is never served. *)
Lemma overflow_events_lost :
  (fun c => (length (accepted (log c)), length (served (log c)))) <$>
    run (fun _ _ => false) [ADefer None EVT_INVALID (repeat (APost (Some (mkEvent 8192 tt))) 101)] small_center
  = Some (101%nat, 100%nat).
Proof. vm_compute. reflexivity. Qed.

Lemma scope_served_witness :
  asyncQueue_ small_center = None /\
  exists c' new, run (fun _ _ => false) [ADefer None EVT_INVALID [APost (Some (mkEvent 4096 tt))]] small_center = Some c' /\
    asyncQueue_ c' = None /\ accepted (log c') = [] ++ new /\ served (log c') = [] ++ take MAX_CAPABILITY new.
Proof. split; [done|]. apply (scope_served (fun _ _ => false) small_center). done. Defined.
End EventCenter.
