(* ===== verification/FlowControl.v ===== *)
(** * Flow control ([framework/flow_control_manager/flow_control_manager.cpp])

    Tasks wait in a priority queue until their time; one timer of the thread pool
    is armed for the earliest of them. The operations take the lock in several
    sections, so that threads interleave between them: the sections are functions,
    the operations compose them, and [step] interleaves the sections of any number
    of threads with the firing of timers.

    [std::priority_queue] and the thread pool are classes with the behaviour the
    code relies on. Points in time are integers; the clock is an argument. *)

From Stdlib Require Import Sorted.
From S2P Require Import Prelude.

(** ** [std::priority_queue]

    [less] is the order of the queue; the top is an element that is less than no
    other one, and ties are resolved arbitrarily. *)
Class PriorityQueue (A : Type) (less : A -> A -> bool) := {
  pq : Type;
  pq_list : pq -> list A;
  pq_empty : pq;
  pq_push : A -> pq -> pq;
  pq_top : pq -> option A;
  pq_pop : pq -> pq;
  pq_empty_list : pq_list pq_empty = [];
  pq_push_list x q : pq_list (pq_push x q) ≡ₚ x :: pq_list q;
  pq_top_None q : pq_top q = None -> pq_list q = [];
  pq_top_max q x : pq_top q = Some x -> x ∈ pq_list q /\ forall y, y ∈ pq_list q -> less x y = false;
  pq_pop_list q x : pq_top q = Some x -> pq_list q ≡ₚ x :: pq_list (pq_pop q)
}.
Arguments pq A less {_}.

(** ** The thread pool ([ExecutorPool])

    Delayed tasks have identifiers, which are never reused; [timers] are those not
    yet started with the time they start at. Resetting or removing an identifier
    that is not waiting has no effect. *)
Class ExecutorPool := {
  pool : Type;
  INVALID_TASK_ID : Z;
  timers : pool -> gmap Z Z;
  used : pool -> gset Z;
  pool_Schedule : Z -> Z -> pool -> Z * pool;
  pool_Reset : Z -> Z -> Z -> pool -> pool;
  pool_Remove : Z -> pool -> pool;
  pool_Schedule_spec now duration p :
    let '(i, p') := pool_Schedule now duration p in
    i <> INVALID_TASK_ID /\ (i ∉ used p) /\ used p' = {[i]} ∪ used p /\ timers p' = <[i := now + duration]> (timers p);
  pool_Reset_spec i now duration p :
    used (pool_Reset i now duration p) = used p /\
    timers (pool_Reset i now duration p) =
      match timers p !! i with Some _ => <[i := now + duration]> (timers p) | None => timers p end;
  pool_Remove_spec i p : used (pool_Remove i p) = used p /\ timers (pool_Remove i p) = delete i (timers p)
}.

Module FlowControl.

Definition INVALID_INNER_TASK_ID : Z := 0.

(** A task is named by a number; [None] is an empty [std::function]. *)
Definition Task : Type := option Z.

(* @src framework/include/flow_control_manager/flow_control_manager.h 31-35 TaskInfo *)
Record TaskInfo := mkInfo { type : Z; label : string }.

(* @src framework/include/flow_control_manager/flow_control_manager.h 52-65 InnerTask *)
Record InnerTask := mkInner { task : Task; info : TaskInfo; time : Z; id : Z }.

(** [InnerTask::operator<]: the earlier task has priority. *)
Definition later (a b : InnerTask) : bool := time b <? time a.

Section Manager.
Context {Q : PriorityQueue InnerTask later} {E : ExecutorPool}.

(** [pool_] is [None] for a null pointer; [executed] are the batches handed to the
    pool for immediate execution. *)
(* @src framework/include/flow_control_manager/flow_control_manager.h 80-86 isRunning_ *)
Record Manager := mkManager {
  pool_ : option pool;
  isRunning_ : bool;
  tasks_ : pq InnerTask later;
  taskId_ : Z;
  innerTaskId_ : Z;
  executed : list (list Z)
}.

Definition set_tasks (q : pq InnerTask later) (m : Manager) : Manager :=
  mkManager (pool_ m) (isRunning_ m) q (taskId_ m) (innerTaskId_ m) (executed m).

(* @src framework/include/flow_control_manager/flow_control_manager.h 71-78 FlowControlManager::GenTaskId *)
Definition GenTaskId (m : Manager) : Z * Manager :=
  let next n := u64 (n + 1) in
  let taskId := next (innerTaskId_ m) in
  let taskId := if taskId =? INVALID_INNER_TASK_ID then next taskId else taskId in
  (taskId, mkManager (pool_ m) (isRunning_ m) (tasks_ m) (taskId_ m) taskId (executed m)).

(** Up to the end of the locked section of [Execute]; answers whether [Schedule] is
    called afterwards. [answer] is what [strategy_->GetExecuteTime] returns in this
    call, [None] when there is no strategy. *)
(* @src framework/flow_control_manager/flow_control_manager.cpp 47-66 FlowControlManager::Execute *)
Definition Execute_push (answer : option Z) (task : Task) (info : TaskInfo) (now : Z) (m : Manager) : bool * Manager :=
  match pool_ m with
  | None => (false, m)
  | Some _ =>
      if negb (isRunning_ m) then (false, m)
      else
        let executeTime := default now answer in
        let '(id, m) := GenTaskId m in
        let m := set_tasks (pq_push (mkInner task info executeTime id) (tasks_ m)) m in
        (match pq_top (tasks_ m) with
         | Some top => FlowControl.id top =? id
         | None => false
         end, m)
  end.

(** The loop of [ExecuteTask]; the fuel is at least the number of tasks. *)
(* @src framework/flow_control_manager/flow_control_manager.cpp 69-89 FlowControlManager::ExecuteTask *)
Fixpoint take_due (fuel : nat) (isRunning : bool) (now : Z) (q : pq InnerTask later) (tasks : list Z)
    : option (list Z * pq InnerTask later) :=
  match fuel with
  | O => None
  | S fuel =>
      match pq_top q with
      | None => Some (tasks, q)
      | Some t =>
          match task t, isRunning with
          | None, _ | _, false => take_due fuel isRunning now (pq_pop q) tasks
          | Some f, true =>
              if time t <=? now then take_due fuel isRunning now (pq_pop q) (tasks ++ [f])
              else Some (tasks, q)
          end
      end
  end.

(* @src framework/flow_control_manager/flow_control_manager.cpp 69-98 FlowControlManager::ExecuteTask *)
Definition ExecuteTask (now : Z) (m : Manager) : option Manager :=
  match pool_ m with
  | None => Some m
  | Some _ =>
      if negb (isRunning_ m) then Some m
      else
        '(tasks, q) ← take_due (S (length (pq_list (tasks_ m)))) (isRunning_ m) now (tasks_ m) [];
        Some (mkManager (pool_ m) (isRunning_ m) q INVALID_TASK_ID (innerTaskId_ m)
                (match tasks with [] => executed m | _ => executed m ++ [tasks] end))
  end.

(** What [Schedule] goes on with after its first locked section. *)
Inductive next_section : Type := Return | RemoveTimer (i : Z) | Arm.

(* @src framework/flow_control_manager/flow_control_manager.cpp 100-116 FlowControlManager::Schedule *)
Definition Schedule_check (m : Manager) : next_section * Manager :=
  match pool_ m with
  | None => (Return, m)
  | Some _ =>
      if negb (isRunning_ m) then (Return, m)
      else
        match pq_top (tasks_ m) with
        | None =>
            if taskId_ m =? INVALID_TASK_ID then (Arm, m)
            else (RemoveTimer (taskId_ m),
                  mkManager (pool_ m) (isRunning_ m) (tasks_ m) INVALID_TASK_ID (innerTaskId_ m) (executed m))
        | Some _ => (Arm, m)
        end
  end.

(** The second locked section. *)
(* @src framework/flow_control_manager/flow_control_manager.cpp 117-133 FlowControlManager::Schedule *)
Definition Schedule_arm (now : Z) (m : Manager) : Manager :=
  match pq_top (tasks_ m), isRunning_ m, pool_ m with
  | Some t, true, Some p =>
      let duration := if time t <? now then 0 else time t - now in
      if negb (taskId_ m =? INVALID_TASK_ID) then
        mkManager (Some (pool_Reset (taskId_ m) now duration p)) true (tasks_ m) (taskId_ m) (innerTaskId_ m) (executed m)
      else
        let '(i, p) := pool_Schedule now duration p in
        mkManager (Some p) true (tasks_ m) i (innerTaskId_ m) (executed m)
  | _, _, _ => m
  end.

Definition RemoveTimer_section (i : Z) (m : Manager) : Manager :=
  mkManager (pool_Remove i <$> pool_ m) (isRunning_ m) (tasks_ m) (taskId_ m) (innerTaskId_ m) (executed m).

(* @src framework/flow_control_manager/flow_control_manager.cpp 100-133 FlowControlManager::Schedule *)
Definition Schedule (now : Z) (m : Manager) : Manager :=
  match Schedule_check m with
  | (Return, m) => m
  | (RemoveTimer i, m) => RemoveTimer_section i m
  | (Arm, m) => Schedule_arm now m
  end.

(* @src framework/flow_control_manager/flow_control_manager.cpp 40-67 FlowControlManager::Execute *)
Definition Execute (answer : option Z) (task : Task) (info : TaskInfo) (now : Z) (m : Manager) : Manager :=
  match Execute_push answer task info now m with
  | (true, m) => Schedule now m
  | (false, m) => m
  end.

(** The loop of [Remove]; an empty filter selects every task. *)
Fixpoint refill (fuel : nat) (filter : option (TaskInfo -> bool)) (old q : pq InnerTask later)
    : option (pq InnerTask later) :=
  match fuel with
  | O => None
  | S fuel =>
      match pq_top old with
      | None => Some q
      | Some t =>
          refill fuel filter (pq_pop old)
            (if match filter with None => true | Some f => f (info t) end then q else pq_push t q)
      end
  end.

(* @src framework/flow_control_manager/flow_control_manager.cpp 142-157 FlowControlManager::Remove *)
Definition Remove_section (filter : option (TaskInfo -> bool)) (m : Manager) : option Manager :=
  q ← refill (S (length (pq_list (tasks_ m)))) filter (tasks_ m) pq_empty;
  Some (set_tasks q m).

Definition Remove (filter : option (TaskInfo -> bool)) (now : Z) (m : Manager) : option Manager :=
  m ← Remove_section filter m; Some (Schedule now m).

(* @src framework/flow_control_manager/flow_control_manager.cpp 135-140 FlowControlManager::Remove *)
Definition RemoveType (ty now : Z) (m : Manager) : option Manager := Remove (Some (fun i => type i =? ty)) now m.

(** The destructor. *)
(* @src framework/flow_control_manager/flow_control_manager.cpp 25-38 FlowControlManager::~FlowControlManager *)
Definition destroy (m : Manager) : Manager :=
  mkManager (pool_Remove (taskId_ m) <$> pool_ m) false pq_empty INVALID_TASK_ID (innerTaskId_ m) (executed m).

(** ** The loops over the queue *)

Lemma pq_pop_length q t : pq_top q = Some t -> length (pq_list q) = S (length (pq_list (pq_pop q))).
Proof. intros Ht. by rewrite (pq_pop_list q t Ht). Qed.

Lemma pq_pop_incl q t x : pq_top q = Some t -> x ∈ pq_list (pq_pop q) -> x ∈ pq_list q.
Proof. intros Ht Hx. rewrite (pq_pop_list q t Ht). by right. Qed.

Lemma pq_top_earliest q t x : pq_top q = Some t -> x ∈ pq_list q -> time t <= time x.
Proof. intros Ht Hx. apply pq_top_max in Ht as [_ Ht]. specialize (Ht x Hx). unfold later in Ht. bool_prop. lia. Qed.

(** Of the tasks in the queue the due ones are taken in the order of their times;
    empty ones are dropped, the others stay. *)
Lemma take_due_spec fuel now q acc : (length (pq_list q) < fuel)%nat ->
  exists due dropped q', take_due fuel true now q acc = Some (acc ++ omap task due, q') /\
    pq_list q ≡ₚ due ++ dropped ++ pq_list q' /\
    Forall (fun t => task t <> None /\ time t <= now) due /\ Forall (fun t => task t = None) dropped /\
    StronglySorted (fun a b => time a <= time b) due /\ (forall t, t ∈ pq_list q' -> now < time t).
Proof.
  revert q acc. induction fuel as [|fuel IH]; intros q acc Hf; [lia|]. cbn [take_due].
  destruct (pq_top q) as [t|] eqn:Ht.
  2:{ exists [], [], q. rewrite (pq_top_None q Ht), !app_nil_r. split_and!; [done|done|constructor..|]. intros t Hin. inversion Hin. }
  pose proof (pq_pop_length q t Ht). pose proof (pq_pop_list q t Ht) as Hp.
  destruct (task t) as [f|] eqn:Hf'; [destruct (Z.leb_spec (time t) now) as [Hle|Hgt]|].
  - destruct (IH (pq_pop q) (acc ++ [f])) as (due & dropped & q' & Et & Hl & Hdue & Hdr & Hs & Hr); [lia|].
    exists (t :: due), dropped, q'. split_and!; [|by rewrite Hp, Hl|constructor; [by rewrite Hf'|done]|done| |done].
    + rewrite Et, <- (assoc_L (++)). cbn. by rewrite Hf'.
    + constructor; [done|]. apply Forall_forall. intros x Hx. apply (pq_top_earliest q); [done|].
      apply (pq_pop_incl q t); [done|]. rewrite Hl. apply elem_of_app. by left.
  - exists [], [], q. rewrite app_nil_r. split_and!; [done|done|constructor..|]. intros x Hx.
    pose proof (pq_top_earliest q t x Ht Hx). lia.
  - destruct (IH (pq_pop q) acc) as (due & dropped & q' & Et & Hl & Hdue & Hdr & Hs & Hr); [lia|].
    exists due, (t :: dropped), q'. split_and!; [done| |done|by constructor|done|done].
    rewrite Hp, Hl. cbn. by rewrite Permutation_middle.
Qed.

Definition selected (f : option (TaskInfo -> bool)) (t : InnerTask) : bool :=
  match f with None => true | Some f => f (info t) end.

Lemma refill_spec fuel f old q : (length (pq_list old) < fuel)%nat ->
  exists q', refill fuel f old q = Some q' /\
    pq_list q' ≡ₚ filter (fun t => selected f t = false) (pq_list old) ++ pq_list q.
Proof.
  revert old q. induction fuel as [|fuel IH]; intros old q Hf; [lia|]. cbn [refill].
  destruct (pq_top old) as [t|] eqn:Ht; [|exists q; by rewrite (pq_top_None old Ht)].
  pose proof (pq_pop_length old t Ht). pose proof (pq_pop_list old t Ht) as Hp.
  fold (selected f t). destruct (IH (pq_pop old) (if selected f t then q else pq_push t q)) as (q' & Hq' & Hl); [lia|].
  exists q'. split; [done|]. rewrite Hl, Hp, filter_cons. destruct (selected f t); cbn [decide]; case_decide; try done.
  rewrite pq_push_list. cbn. by rewrite Permutation_middle.
Qed.

(** Executing the due tasks always returns; the tasks handed to the pool are, in the
    order of their times, exactly the non-empty ones whose time has come, in one
    batch; every other non-empty task stays in the queue, and no other one is added. *)
Lemma ExecuteTask_spec (now : Z) (p : pool) (q : pq InnerTask later) (i n : Z) (ex : list (list Z)) :
  exists due dropped q', ExecuteTask now (mkManager (Some p) true q i n ex) =
      Some (mkManager (Some p) true q' INVALID_TASK_ID n
              (match omap task due with [] => ex | batch => ex ++ [batch] end)) /\
    pq_list q ≡ₚ due ++ dropped ++ pq_list q' /\
    Forall (fun t => task t <> None /\ time t <= now) due /\ Forall (fun t => task t = None) dropped /\
    StronglySorted (fun a b => time a <= time b) due /\ (forall t, t ∈ pq_list q' -> now < time t).
Proof.
  destruct (take_due_spec (S (length (pq_list q))) now q []) as (due & dropped & q' & Et & H'); [lia|].
  exists due, dropped, q'. split; [|done]. unfold ExecuteTask. cbn [pool_ isRunning_ negb tasks_]. rewrite Et. cbn. by destruct (omap task due).
Qed.

(** ** Interleaving

    [toSchedule] threads are about to enter [Schedule], [toArm] its second section;
    [toRemove] are the timers that threads are about to remove from the pool and
    [toRun] those whose callback has started and is about to call [ExecuteTask]. *)
Record System := mkSystem {
  manager : Manager;
  clock : Z;
  toSchedule : nat;
  toArm : nat;
  toRemove : list Z;
  toRun : list Z
}.

Definition timers_of (m : Manager) : gmap Z Z := default ∅ (timers <$> pool_ m).

Inductive step : System -> System -> Prop :=
| s_tick m c c' a b r f : c <= c' -> step (mkSystem m c a b r f) (mkSystem m c' a b r f)
| s_execute m c a b r f answer task info again m' :
    Execute_push answer task info c m = (again, m') ->
    step (mkSystem m c a b r f) (mkSystem m' c (if again then S a else a) b r f)
| s_remove m c a b r f filter m' :
    Remove_section filter m = Some m' ->
    step (mkSystem m c a b r f) (mkSystem m' c (S a) b r f)
| s_check_arm m c a b r f m' :
    Schedule_check m = (Arm, m') -> step (mkSystem m c (S a) b r f) (mkSystem m' c a (S b) r f)
| s_check_remove m c a b r f i m' :
    Schedule_check m = (RemoveTimer i, m') -> step (mkSystem m c (S a) b r f) (mkSystem m' c a b (i :: r) f)
| s_arm m c a b r f : step (mkSystem m c a (S b) r f) (mkSystem (Schedule_arm c m) c a b r f)
| s_remove_timer m c a b r r' i f :
    step (mkSystem m c a b (r ++ i :: r') f) (mkSystem (RemoveTimer_section i m) c a b (r ++ r') f)
| s_fire m c a b r f i d :
    timers_of m !! i = Some d -> d <= c ->
    step (mkSystem m c a b r f) (mkSystem (RemoveTimer_section i m) c a b r (i :: f))
| s_run m c a b r f f' i m' :
    ExecuteTask c m = Some m' ->
    step (mkSystem m c a b r (f ++ i :: f')) (mkSystem m' c (S a) b r (f ++ f')).

(** A manager with a pool and nothing to do. *)
Inductive initial : System -> Prop :=
| initial_system p c :
    initial (mkSystem (mkManager (Some p) true pq_empty INVALID_TASK_ID 0 []) c 0 0 [] []).

(** A thread is on its way to look at the queue. *)
Definition in_flight (s : System) : Prop := (0 < toSchedule s)%nat \/ (0 < toArm s)%nat \/ toRun s <> [].

(** The timer is armed for the earliest task, or for the present if that is past. *)
Definition armed (s : System) : Prop :=
  exists d, timers_of (manager s) !! taskId_ (manager s) = Some d /\
    forall t, t ∈ pq_list (tasks_ (manager s)) -> d <= Z.max (time t) (clock s).

Definition used_of (m : Manager) : gset Z := default ∅ (used <$> pool_ m).

Record Inv (s : System) : Prop := {
  inv_running : isRunning_ (manager s) = true;
  inv_pool : is_Some (pool_ (manager s));
  inv_removed i : i ∈ toRemove s -> i ∈ used_of (manager s) /\ i <> INVALID_TASK_ID /\ i <> taskId_ (manager s);
  inv_used : taskId_ (manager s) <> INVALID_TASK_ID -> taskId_ (manager s) ∈ used_of (manager s);
  inv_timer : taskId_ (manager s) <> INVALID_TASK_ID ->
    is_Some (timers_of (manager s) !! taskId_ (manager s)) \/ toRun s <> [];
  inv_armed : pq_list (tasks_ (manager s)) <> [] -> in_flight s \/ armed s
}.

Lemma flow_initial s : initial s -> Inv s.
Proof. intros [p c]. split; cbn; try done; [set_solver|by rewrite pq_empty_list]. Qed.

(** Queue operations keep the timer. *)
Lemma Execute_push_spec answer task info now m again m' : isRunning_ m = true -> is_Some (pool_ m) ->
  Execute_push answer task info now m = (again, m') ->
  exists t n, m' = mkManager (pool_ m) true (pq_push t (tasks_ m)) (taskId_ m) n (executed m) /\
    (again = false -> exists top, top ∈ pq_list (tasks_ m) /\ time top <= time t).
Proof.
  intros Hr [p Hp] HE. unfold Execute_push in HE. rewrite Hr, Hp in HE. cbn in HE. injection HE as <- <-. rewrite Hp, Hr.
  eexists _, _. split; [reflexivity|]. match goal with |- context [pq_push ?x _] => set (t := x) end.
  destruct (pq_top (pq_push t (tasks_ m))) as [top|] eqn:Ht.
  - intros Hne. apply Z.eqb_neq in Hne. exists top. pose proof (pq_top_max _ _ Ht) as [Hin _]. rewrite pq_push_list in Hin.
    apply elem_of_cons in Hin as [->|Hin]; [done|]. split; [done|]. apply (pq_top_earliest (pq_push t (tasks_ m))); [done|].
    rewrite pq_push_list. by left.
  - apply pq_top_None in Ht. pose proof (pq_push_list t (tasks_ m)) as Hl. rewrite Ht in Hl. by apply Permutation_nil_cons in Hl.
Qed.

Lemma Remove_section_spec f m m' : Remove_section f m = Some m' ->
  exists q, m' = set_tasks q m /\ pq_list q ≡ₚ filter (fun t => selected f t = false) (pq_list (tasks_ m)).
Proof.
  unfold Remove_section. destruct (refill_spec (S (length (pq_list (tasks_ m)))) f (tasks_ m) pq_empty) as (q & -> & Hq); [lia|].
  cbn. intros [= <-]. exists q. split; [done|]. by rewrite Hq, pq_empty_list, app_nil_r.
Qed.

Lemma Schedule_check_spec m n m' : isRunning_ m = true -> is_Some (pool_ m) -> Schedule_check m = (n, m') ->
  (n = Arm /\ m' = m) \/
  (n = RemoveTimer (taskId_ m) /\ taskId_ m <> INVALID_TASK_ID /\ pq_list (tasks_ m) = [] /\
   m' = mkManager (pool_ m) true (tasks_ m) INVALID_TASK_ID (innerTaskId_ m) (executed m)).
Proof.
  intros Hr [p Hp]. unfold Schedule_check. rewrite Hp, Hr. cbn.
  destruct (pq_top (tasks_ m)) as [t|] eqn:Ht; [intros [= <- <-]; by left|].
  case_match; intros [= <- <-]; [by left|right]. bool_prop. by rewrite (pq_top_None _ Ht).
Qed.

(** Arming leaves a timer for the earliest task, unless its callback has started. *)
Lemma Schedule_arm_spec now m p : isRunning_ m = true -> pool_ m = Some p ->
  exists p' i, Schedule_arm now m = mkManager (Some p') true (tasks_ m) i (innerTaskId_ m) (executed m) /\
    used p ⊆ used p' /\
    ((i = taskId_ m /\ pq_list (tasks_ m) = [] /\ p' = p) \/
     (i = taskId_ m /\ i <> INVALID_TASK_ID /\ timers p !! i = None /\ timers p' = timers p) \/
     ((i = taskId_ m /\ i <> INVALID_TASK_ID \/ (i ∉ used p) /\ i ∈ used p' /\ i <> INVALID_TASK_ID) /\
      exists d, timers p' !! i = Some d /\ forall t, t ∈ pq_list (tasks_ m) -> d <= Z.max (time t) now)).
Proof.
  intros Hr Hp. unfold Schedule_arm. rewrite Hr, Hp. destruct (pq_top (tasks_ m)) as [t|] eqn:Ht.
  2:{ exists p, (taskId_ m). split; [by destruct m; cbn in *; subst|]. split; [done|]. left. by rewrite (pq_top_None _ Ht). }
  set (d := if time t <? now then 0 else time t - now).
  assert (forall x, x ∈ pq_list (tasks_ m) -> now + d <= Z.max (time x) now) as Hd.
  { intros x Hx. pose proof (pq_top_earliest _ _ _ Ht Hx). unfold d. destruct (Z.ltb_spec (time t) now); lia. }
  destruct (Z.eqb_spec (taskId_ m) INVALID_TASK_ID) as [Hi|Hi]; cbn [negb].
  - pose proof (pool_Schedule_spec now d p) as HS. destruct (pool_Schedule now d p) as [i p']. destruct HS as (Hv & Hf & Hu & Hti).
    exists p', i. split; [done|]. rewrite Hu. split; [set_solver|]. right. right. split; [right; set_solver|].
    exists (now + d). rewrite Hti. split; [apply lookup_insert_eq|done].
  - destruct (pool_Reset_spec (taskId_ m) now d p) as [Hu Hti]. exists (pool_Reset (taskId_ m) now d p), (taskId_ m).
    split; [done|]. rewrite Hu. split; [done|]. right. rewrite Hti. destruct (timers p !! taskId_ m) eqn:El; [right|by left].
    split; [by left|]. exists (now + d). split; [apply lookup_insert_eq|done].
Qed.

(** A system that differs only in its queue and clock, with a thread in flight or the
    timer still early enough. *)
Lemma Inv_requeue m c a b r f q n c' a' :
  Inv (mkSystem m c a b r f) ->
  (pq_list q <> [] -> (0 < a')%nat \/
     pq_list (tasks_ m) <> [] /\ (a <= a')%nat /\
     forall t, t ∈ pq_list q -> exists t', t' ∈ pq_list (tasks_ m) /\ Z.max (time t') c <= Z.max (time t) c') ->
  Inv (mkSystem (mkManager (pool_ m) true q (taskId_ m) n (executed m)) c' a' b r f).
Proof.
  intros [Hr Hp Hrm Hu Ht Ha] Hq. cbn in *. split; cbn; try done. intros Hne.
  destruct (Hq Hne) as [?|(Hm & Hle & Hmax)]; [by left; left|]. destruct (Ha Hm) as [[?|?]|(d & Hd & Hearly)].
  - left. left. cbn in *. lia.
  - left. by right.
  - right. exists d. split; [done|]. intros t Hin. destruct (Hmax t Hin) as (t' & Hin' & ?). specialize (Hearly t' Hin'). cbn in Hearly. cbn. lia.
Qed.

Lemma Inv_remove_timer m c a b r f f' i :
  Inv (mkSystem m c a b r f) -> (f' <> [] \/ f' = f /\ i <> taskId_ m) -> (forall x, x ∈ f -> x ∈ f') ->
  Inv (mkSystem (RemoveTimer_section i m) c a b r f').
Proof.
  intros [Hr [p Hp] Hrm Hu Ht Ha] Hi Hsub. cbn in *. unfold used_of, timers_of in *. rewrite Hp in *. cbn in *.
  destruct (pool_Remove_spec i p) as [Eu Et]. split; cbn; unfold used_of, timers_of; cbn; rewrite ?Hp; cbn; rewrite ?Eu, ?Et; try done.
  - intros Hv. destruct Hi as [?|[-> Hi]]; [by right|]. rewrite lookup_delete_ne by done. by apply Ht.
  - intros Hne. destruct Hi as [?|[-> Hi]]; [left; by right; right|]. destruct (Ha Hne) as [?|(d & Hd & He)]; [by left|right].
    exists d. cbn in *. unfold timers_of in *. cbn. rewrite Hp in *. cbn in *. rewrite Et, lookup_delete_ne by done. done.
Qed.

Lemma Inv_check m c a b r f n m' : Inv (mkSystem m c (S a) b r f) -> Schedule_check m = (n, m') ->
  match n with
  | Return => False
  | Arm => Inv (mkSystem m' c a (S b) r f)
  | RemoveTimer i => Inv (mkSystem m' c a b (i :: r) f)
  end.
Proof.
  intros [Hr Hp Hrm Hu Ht Ha] HS. cbn in *.
  destruct (Schedule_check_spec _ _ _ Hr Hp HS) as [[-> ->]|(-> & Hv & Hempty & ->)]; split; cbn; try done.
  - intros _. left. right. left. cbn. lia.
  - intros i [->|Hi]%elem_of_cons; [split; [by apply Hu|done]|]. by destruct (Hrm i Hi) as (? & ? & _).
Qed.

Lemma Inv_arm m c a b r f : Inv (mkSystem m c a (S b) r f) -> Inv (mkSystem (Schedule_arm c m) c a b r f).
Proof.
  intros [Hr [p Hp] Hrm Hu Ht Ha]. cbn in *. destruct (Schedule_arm_spec c m p Hr Hp) as (p' & i & -> & Hsub & Hcase).
  unfold used_of, timers_of in *. rewrite Hp in *. cbn in *.
  destruct Hcase as [(-> & Hempty & ->)|[(-> & Hv & Hnone & Et)|(Hi & d & Hd & He)]].
  - split; cbn; unfold used_of, timers_of; cbn; try done.
  - destruct (Ht Hv) as [[d Hd]|Hf]; [by rewrite Hnone in Hd|].
    split; cbn; unfold used_of, timers_of; cbn; rewrite ?Et; try done.
    + intros i Hin. destruct (Hrm i Hin) as (? & ? & ?). set_solver.
    + set_solver.
    + intros _. left. by right; right.
  - split; cbn; unfold used_of, timers_of; cbn; try done.
    + intros j Hin. destruct (Hrm j Hin) as (? & ? & ?). split; [set_solver|]. split; [done|]. destruct Hi as [[-> _]|Hi]; [done|]. set_solver.
    + intros _. destruct Hi as [[-> Hv]|Hi]; [set_solver|]. tauto.
    + intros _. left. by rewrite Hd.
    + intros _. right. exists d. done.
Qed.

Lemma Inv_run m c a b r f f' i m' : Inv (mkSystem m c a b r (f ++ i :: f')) -> ExecuteTask c m = Some m' ->
  Inv (mkSystem m' c (S a) b r (f ++ f')).
Proof.
  intros [Hr [p Hp] Hrm Hu Ht Ha] HE. cbn in *. destruct m as [pl run q ti n ex]. cbn in *. subst pl run.
  unfold ExecuteTask in HE. cbn [pool_ isRunning_ negb tasks_] in HE.
  destruct (take_due_spec (S (length (pq_list q))) c q []) as (due & dropped & q' & E' & _); [lia|]. rewrite E' in HE.
  injection HE as <-. split; cbn; try done.
  - intros j Hin. destruct (Hrm j Hin) as (? & ? & _). done.
  - intros _. left. left. cbn. lia.
Qed.

Lemma flow_step s s' : Inv s -> step s s' -> Inv s'.
Proof.
  intros HI Hs. destruct Hs as [m c c' a b r f Hc|m c a b r f ans ta inf again m' HE|m c a b r f fl m' HR|m c a b r f m' HC
    |m c a b r f i m' HC|m c a b r f|m c a b r r' i f|m c a b r f i d Hd Hle|m c a b r f f' i m' HE].
  - pose proof (inv_running _ HI) as Hr. cbn in Hr. destruct m as [pl run q ti n ex]. cbn in Hr. subst run.
    apply (Inv_requeue (mkManager pl true q ti n ex) c a b r f q n c' a HI). intros Hne. right. cbn. split; [done|]. split; [done|].
    intros t Hin. exists t. split; [done|]. lia.
  - destruct (Execute_push_spec _ _ _ _ _ _ _ (inv_running _ HI) (inv_pool _ HI) HE) as (t & n & -> & Hag). cbn in *.
    apply (Inv_requeue m c a b r f _ n c _ HI). intros _. destruct again; [left; lia|right]. destruct (Hag eq_refl) as (top & Hin & Hle).
    split; [intros He; rewrite He in Hin; inversion Hin|]. split; [done|]. intros x Hx. rewrite pq_push_list in Hx.
    apply elem_of_cons in Hx as [->|Hx]; [exists top|exists x]; (split; [done|]); lia.
  - apply Remove_section_spec in HR as (q & -> & Hq). pose proof (inv_running _ HI) as Hr. cbn in Hr. unfold set_tasks. rewrite Hr.
    apply (Inv_requeue m c a b r f q _ c (S a) HI). intros _. left. lia.
  - exact (Inv_check _ _ _ _ _ _ _ _ HI HC).
  - exact (Inv_check _ _ _ _ _ _ _ _ HI HC).
  - by apply Inv_arm.
  - assert (i <> taskId_ m) as Hi by (destruct (inv_removed _ HI i) as (_ & _ & ?); cbn; [set_solver|done]).
    apply Inv_remove_timer with f; [|by right|done]. destruct HI as [Hr Hp Hrm Hu Ht Ha]. split; cbn in *; try done.
    intros j Hj. apply Hrm. set_solver.
  - apply Inv_remove_timer with f; [done|by left|set_solver].
  - by apply Inv_run with (1 := HI).
Qed.

(** C29: However the calls of any number of threads and the firing of timers interleave,
    in every reachable state in which tasks wait, some thread is on its way to look
    at the queue, or a timer is armed that fires no later than the time of the
    earliest task (or at once, when that has passed): no task is forgotten. *)
Theorem earliest_covered (s : System) :
  reachable initial step s -> pq_list (tasks_ (manager s)) <> [] -> in_flight s \/ armed s.
Proof.
  intros Hs. apply inv_armed. revert s Hs. apply reachable_invariant; [apply flow_initial|apply flow_step].
Qed.
End Manager.

(** ** The classes can be instantiated *)

(** A queue as a list, from which the first of the earliest tasks is taken. *)
Fixpoint extract (l : list InnerTask) : option (InnerTask * list InnerTask) :=
  match l with
  | [] => None
  | x :: l =>
      match extract l with
      | None => Some (x, [])
      | Some (y, r) => if time x <=? time y then Some (x, l) else Some (y, x :: r)
      end
  end.

Lemma extract_spec l x r : extract l = Some (x, r) -> l ≡ₚ x :: r /\ forall y, y ∈ l -> time x <= time y.
Proof.
  revert x r. induction l as [|z l IH]; intros x r; cbn; [done|].
  destruct (extract l) as [[y r']|] eqn:He.
  - destruct (IH y r' eq_refl) as [Hp Hm]. destruct (Z.leb_spec (time z) (time y)); intros [= <- <-]; (split; [|intros w [->|Hw]%elem_of_cons]).
    + done.
    + lia.
    + specialize (Hm w Hw). lia.
    + rewrite Hp. by apply Permutation_swap.
    + lia.
    + by apply Hm.
  - intros [= <- <-]. destruct l as [|a l]; [|cbn in He; destruct (extract l) as [[??]|]; [case_match|]; done].
    split; [done|]. intros w ->%list_elem_of_singleton. lia.
Qed.

#[local] Program Instance ListQueue : PriorityQueue InnerTask later := {
  pq := list InnerTask;
  pq_list q := q;
  pq_empty := [];
  pq_push x q := x :: q;
  pq_top q := fst <$> extract q;
  pq_pop q := default [] (snd <$> extract q)
}.
Next Obligation. done. Qed.
Next Obligation. done. Qed.
Next Obligation. intros [|x l]; cbn; [done|]. destruct (extract l) as [[??]|]; [case_match|]; done. Qed.
Next Obligation.
  intros q x Hx. cbn in Hx. destruct (extract q) as [[y r]|] eqn:He; [|done]. cbn in Hx. injection Hx as ->.
  destruct (extract_spec q x r He) as [Hp Hm]. split; [rewrite Hp; by left|]. intros y Hy. specialize (Hm y Hy). apply Z.ltb_ge. lia.
Qed.
Next Obligation.
  intros q x Hx. cbn in *. destruct (extract q) as [[y r]|] eqn:He; [|done]. cbn in *. injection Hx as ->. by destruct (extract_spec q x r He).
Qed.

(** A pool that counts its timers. *)
Definition reset_timer (i d : Z) (t : gmap Z Z) : gmap Z Z :=
  match t !! i with Some _ => <[i := d]> t | None => t end.

#[local] Program Instance SetPool : ExecutorPool := {
  pool := gmap Z Z * gset Z;
  INVALID_TASK_ID := 0;
  timers p := p.1;
  used p := p.2;
  pool_Schedule now duration p :=
    let i := fresh ({[0]} ∪ p.2) in (i, (<[i := now + duration]> p.1, {[i]} ∪ p.2));
  pool_Reset i now duration p := (reset_timer i (now + duration) p.1, p.2);
  pool_Remove i p := (delete i p.1, p.2)
}.
Next Obligation. intros now duration p. cbn. pose proof (is_fresh ({[0]} ∪ p.2)). set_solver. Qed.
Next Obligation. intros i now duration p. by split. Qed.
Next Obligation. intros i p. by split. Qed.

Definition idle_manager : Manager := mkManager (Some (∅, ∅)) true [] 0 0 [].
Definition idle : System := mkSystem idle_manager 5 0 0 [] [].

(** The state after a thread has added a task for time 5. *)
Definition added : System := mkSystem (Execute_push None (Some 1) (mkInfo 0 "") 5 idle_manager).2 5 1 0 [] [].

Lemma earliest_covered_witness :
  reachable initial step added /\ pq_list (tasks_ (manager added)) <> [] /\ (in_flight added \/ armed added).
Proof.
  assert (reachable initial step added) as Hr.
  { apply reach_step with idle; [apply reach_init; constructor|].
    apply (s_execute idle_manager 5 0 0 [] [] None (Some 1) (mkInfo 0 "") true _). reflexivity. }
  split; [exact Hr|]. split; [discriminate|]. apply (earliest_covered added Hr). discriminate.
Defined.

(** ** A timer the manager has lost track of

    A callback that has started but not yet entered [ExecuteTask], a removal of all
    tasks and a new task in between: [ExecuteTask] forgets the timer of the new task
    and the following [Schedule] arms another one. *)
Definition m1 : Manager := Eval vm_compute in (Execute_push (Some 5) (Some 1) (mkInfo 0 "") 5 idle_manager).2.
Definition m2 : Manager := Eval vm_compute in Schedule_arm 5 m1.
Definition m3 : Manager := Eval vm_compute in RemoveTimer_section (taskId_ m2) m2.
Definition m4 : Manager := Eval vm_compute in default m3 (Remove_section None m3).
Definition m5 : Manager := Eval vm_compute in (Schedule_check m4).2.
Definition m6 : Manager := Eval vm_compute in (Execute_push (Some 100) (Some 2) (mkInfo 0 "") 5 m5).2.
Definition m7 : Manager := Eval vm_compute in Schedule_arm 5 m6.
Definition m8 : Manager := Eval vm_compute in default m7 (ExecuteTask 5 m7).
Definition m9 : Manager := Eval vm_compute in Schedule_arm 5 m8.

Lemma arm_to m c a b r f m' : Schedule_arm c m = m' -> step (mkSystem m c a (S b) r f) (mkSystem m' c a b r f).
Proof. intros <-. constructor. Qed.

Lemma fire_to m c a b r f i d m' : timers_of m !! i = Some d -> d <= c -> RemoveTimer_section i m = m' ->
  step (mkSystem m c a b r f) (mkSystem m' c a b r (i :: f)).
Proof. intros ?? <-. by apply s_fire with d. Qed.

Lemma orphan_timer :
  reachable initial step (mkSystem m9 5 0 0 [taskId_ m2] []) /\
  timers_of (destroy m9) !! taskId_ m7 = Some 100.
Proof.
  split; [|by_vm].
  apply reach_step with (mkSystem m8 5 0 1 [taskId_ m2] []); [|apply arm_to; by_vm].
  apply reach_step with (mkSystem m8 5 1 0 [taskId_ m2] []); [|apply s_check_arm; by_vm].
  apply reach_step with (mkSystem m7 5 0 0 [taskId_ m2] [taskId_ m2]); [|apply (s_run m7 5 0 0 _ [] []); by_vm].
  apply reach_step with (mkSystem m6 5 0 1 [taskId_ m2] [taskId_ m2]); [|apply arm_to; by_vm].
  apply reach_step with (mkSystem m6 5 1 0 [taskId_ m2] [taskId_ m2]); [|apply s_check_arm; by_vm].
  apply reach_step with (mkSystem m5 5 0 0 [taskId_ m2] [taskId_ m2]);
    [|apply (s_execute m5 5 0 0 _ _ (Some 100) (Some 2) (mkInfo 0 "") true); by_vm].
  apply reach_step with (mkSystem m4 5 1 0 [] [taskId_ m2]); [|apply s_check_remove; by_vm].
  apply reach_step with (mkSystem m3 5 0 0 [] [taskId_ m2]); [|apply (s_remove m3 5 0 0 _ _ None); by_vm].
  apply reach_step with (mkSystem m2 5 0 0 [] []); [|apply (fire_to m2 5 0 0 [] [] _ 5); [by_vm|done|by_vm]].
  apply reach_step with (mkSystem m1 5 0 1 [] []); [|apply arm_to; by_vm].
  apply reach_step with (mkSystem m1 5 1 0 [] []); [|apply s_check_arm; by_vm].
  apply reach_step with idle; [apply reach_init; constructor|].
  apply (s_execute idle_manager 5 0 0 [] [] (Some 5) (Some 1) (mkInfo 0 "") true). by_vm.
Qed.
End FlowControl.
