(* ===== verification/RdbFlowControl.v ===== *)
(** * Rate limiting ([service/rdb/rdb_flow_control_manager.cpp])

    [RdbFlowControlStrategy] gives every task the earliest time at which it may run
    so that no more than [limit_] tasks run within [duration_] milliseconds; it is
    the strategy of the flow control of [FlowControl]. Times are integers, the clock
    is an argument. *)

From Stdlib Require Sorted.
From S2P Require Import Prelude.

Module RdbFlowControl.

(* @src service/rdb/rdb_flow_control_manager.h 51-63 RdbFlowControlStrategy *)
Record Strategy := mkStrategy { queue_ : list Z; limit_ : Z; duration_ : Z }.

(** The loop that forgets entries; [executeTime] is still the present. *)
(* @src service/rdb/rdb_flow_control_manager.cpp 94-108 RdbFlowControlStrategy::GetExecuteTime *)
Fixpoint forget (limit duration executeTime : Z) (queue : list Z) : list Z :=
  match queue with
  | [] => []
  | front :: rest =>
      if (limit <? Z.of_nat (length queue)) || (front + duration <? executeTime)
      then forget limit duration executeTime rest else queue
  end.

(* @src service/rdb/rdb_flow_control_manager.cpp 94-122 RdbFlowControlStrategy::GetExecuteTime *)
Definition GetExecuteTime (now : Z) (s : Strategy) : Z * Strategy :=
  if limit_ s =? 0 then (now, s)
  else
    let queue := forget (limit_ s) (duration_ s) now (queue_ s) in
    let executeTime :=
      match queue with
      | front :: _ => if limit_ s <=? Z.of_nat (length queue) then Z.max now (front + duration_ s) else now
      | [] => now
      end in
    (executeTime, mkStrategy (queue ++ [executeTime]) (limit_ s) (duration_ s)).

(** The times given to a sequence of calls. *)
Fixpoint times (nows : list Z) (s : Strategy) : list Z :=
  match nows with
  | [] => []
  | now :: nows => let '(t, s) := GetExecuteTime now s in t :: times nows s
  end.

Section Limit.
Context (limit duration : Z) (Hlimit : 0 < limit).

(** [ts] are the times given so far, [clock] is the time of the last call: the queue
    is what is left of [ts], and what was forgotten is too old to matter or too far
    back. *)
Definition Inv (ts : list Z) (clock : Z) (s : Strategy) : Prop :=
  limit_ s = limit /\ duration_ s = duration /\
  exists n, queue_ s = drop n ts /\ (n <= length ts)%nat /\
    (forall i t, (i < n)%nat -> ts !! i = Some t -> Z.of_nat i + limit < Z.of_nat (length ts) \/ t + duration < clock) /\
    (forall i t t', ts !! i = Some t -> ts !! (i + Z.to_nat limit)%nat = Some t' -> t + duration <= t').

Lemma forget_spec ts n now : (n <= length ts)%nat ->
  exists n', (n <= n' <= length ts)%nat /\ forget limit duration now (drop n ts) = drop n' ts /\
    Z.of_nat (length ts) - limit <= Z.of_nat n' /\
    (forall i t, (n <= i < n')%nat -> ts !! i = Some t -> Z.of_nat i + limit < Z.of_nat (length ts) \/ t + duration < now).
Proof.
  remember (length ts - n)%nat as k eqn:Hk. revert n Hk. induction k as [|k IH]; intros n Hk Hn.
  { exists n. rewrite drop_ge by lia. split_and!; [lia|lia|done|lia|]. intros i t Hi. lia. }
  destruct (lookup_lt_is_Some_2 ts n) as [x Hx]; [lia|]. rewrite (drop_S ts x n Hx). cbn [forget].
  destruct (_ || _) eqn:Hor.
  - destruct (IH (S n)) as (n' & Hn' & -> & Hl & Hf); [lia|lia|]. exists n'. split_and!; [lia|lia|done|done|].
    intros i t Hi Ht. destruct (decide (i = n)) as [->|]; [|apply Hf; [lia|done]]. rewrite Hx in Ht. injection Ht as <-.
    apply orb_true_iff in Hor as [Hor|Hor]; apply Z.ltb_lt in Hor; [|by right]. left. cbn in Hor. rewrite length_drop in Hor. lia.
  - apply orb_false_iff in Hor as [Hor _]. apply Z.ltb_ge in Hor. cbn in Hor. rewrite length_drop in Hor.
    exists n. rewrite (drop_S ts x n Hx). split_and!; [lia|lia|done|lia|]. intros i t Hi. lia.
Qed.

Lemma GetExecuteTime_Inv ts clock now s : Inv ts clock s -> clock <= now ->
  let '(t, s') := GetExecuteTime now s in now <= t /\ Inv (ts ++ [t]) now s'.
Proof.
  intros (Hl & Hd & n & Hq & Hn & Hold & Hsep) Hc. unfold GetExecuteTime. rewrite Hl, Hd, Hq.
  destruct (Z.eqb_spec limit 0); [lia|]. destruct (forget_spec ts n now Hn) as (n' & Hn' & -> & Hsize & Hf).
  set (t := match drop n' ts with [] => now | _ => _ end).
  assert (now <= t) as Ht by (unfold t; destruct (drop n' ts); [lia|case_match; lia]). split; [done|].
  split; [done|]. split; [done|]. exists n'. cbn [queue_].
  rewrite drop_app_le by lia. rewrite length_app. cbn [length]. split_and!; [done|lia| |].
  - intros i x Hi Hx. rewrite lookup_app_l in Hx by lia. destruct (decide (i < n)%nat) as [Hin|Hin].
    + destruct (Hold i x Hin Hx); [left; lia|right; lia].
    + destruct (Hf i x ltac:(lia) Hx); [left; lia|by right].
  - intros i x x' Hx Hx'. destruct (decide (i + Z.to_nat limit < length ts)%nat) as [Hlt|Hge].
    { rewrite lookup_app_l in Hx by lia. rewrite lookup_app_l in Hx' by lia. by eapply Hsep. }
    assert (i + Z.to_nat limit = length ts)%nat as Hi.
    { apply lookup_lt_Some in Hx'. rewrite length_app in Hx'. cbn in Hx'. lia. }
    rewrite Hi, list_lookup_middle in Hx' by done. injection Hx' as <-. rewrite lookup_app_l in Hx by lia.
    destruct (decide (i < n')%nat) as [Hin|Hin].
    + assert (x + duration < now); [|lia]. destruct (decide (i < n)%nat) as [Hin'|Hin'].
      * destruct (Hold i x Hin' Hx); lia.
      * destruct (Hf i x ltac:(lia) Hx); lia.
    + assert (i = n') as -> by lia. unfold t. rewrite (drop_S ts x n' Hx).
      destruct (Z.leb_spec limit (Z.of_nat (length (x :: drop (S n') ts)))) as [_|Hbad]; [lia|]. cbn in Hbad. rewrite length_drop in Hbad. lia.
Qed.

Lemma times_Inv nows ts clock s : Inv ts clock s -> Sorted.StronglySorted Z.le (clock :: nows) ->
  (forall i t t', (ts ++ times nows s) !! i = Some t -> (ts ++ times nows s) !! (i + Z.to_nat limit)%nat = Some t' -> t + duration <= t') /\
  Forall2 Z.le nows (times nows s).
Proof.
  revert ts clock s. induction nows as [|now nows IH]; intros ts clock s HI Hs; cbn [times].
  { rewrite app_nil_r. destruct HI as (_ & _ & n & _ & _ & _ & Hsep). split; [exact Hsep|constructor]. }
  apply Sorted.StronglySorted_inv in Hs as [Hs Hf]. apply Forall_cons in Hf as [Hle _].
  pose proof (GetExecuteTime_Inv ts clock now s HI Hle) as Hstep. destruct (GetExecuteTime now s) as [t s']. destruct Hstep as [Ht HI'].
  destruct (IH (ts ++ [t]) now s' HI' Hs) as [H1 H2]. rewrite <- (assoc_L (++)) in H1. split; [exact H1|by constructor].
Qed.
End Limit.


End RdbFlowControl.
