(* ===== verification/KvSyncManager.v ===== *)
(** * Scheduling of key-value synchronisations ([service/kvdb/kvstore_sync_manager.cpp])

    A synchronisation with a delay of 0 is started at once; a delayed one waits in
    a multimap ordered by its time. Timers of the thread pool call [Schedule], which
    starts what is due. The locked sections are functions; [step] interleaves them.

    What an operation does when it is started is outside of the component: it
    reports a status and may call its end function before it returns, or later.
    Times are in milliseconds; the clock is an argument. *)

From Stdlib Require Import Sorted.
From S2P Require Import Prelude.

Module KvSyncManager.

Definition SYNC_MIN_DELAY_MS : Z := 100.
Definition SYNCING_TIMEOUT_MS : Z := 5000.
Definition REALTIME_PRIOR_SYNCING_MS : Z := 300.
Definition DELAY_TIME_RANGE_DIVISOR : Z := 4.

Inductive Status : Type := SUCCESS | ERROR | INVALID_ARGUMENT | OtherStatus (code : Z).

#[export] Instance Status_eq_dec : EqDecision Status.
Proof. solve_decision. Defined.

(** A synchronisation function: its answer, and whether it calls the end function
    before it returns. *)
Record SyncFunc := mkFunc { answer : Status; endsAtOnce : bool }.

(** [syncEnd] tells whether the operation has an end function. *)
(* @src service/kvdb/kvstore_sync_manager.h 44-51 KvSyncOperation *)
Record KvSyncOperation := mkOp {
  syncId : Z;
  opSeq : Z;
  delayMs : Z;
  syncFunc : SyncFunc;
  syncEnd : bool;
  beginTime : Z
}.

Inductive event : Type :=
| StartedNow (op : KvSyncOperation)
| Added (op : KvSyncOperation)
| Started (op : KvSyncOperation)
| Cancelled (op : KvSyncOperation)
| Ended (seq : Z).

(** [hasPool] tells whether [executors_] is set; [timers] are the times for which
    [Schedule] is going to be called. *)
(* @src service/kvdb/kvstore_sync_manager.h 73-81 scheduleSyncOps_ *)
Record Manager := mkManager {
  realtimeSyncingOps_ : list KvSyncOperation;
  delaySyncingOps_ : list KvSyncOperation;
  scheduleSyncOps_ : list (Z * KvSyncOperation);
  hasPool : bool;
  timers : list Z;
  nextScheduleTime_ : Z;
  syncOpSeq_ : Z;
  log : list event
}.

Definition set_realtime l (m : Manager) := mkManager l (delaySyncingOps_ m) (scheduleSyncOps_ m) (hasPool m) (timers m) (nextScheduleTime_ m) (syncOpSeq_ m) (log m).
Definition set_delay l (m : Manager) := mkManager (realtimeSyncingOps_ m) l (scheduleSyncOps_ m) (hasPool m) (timers m) (nextScheduleTime_ m) (syncOpSeq_ m) (log m).
Definition set_schedule l (m : Manager) := mkManager (realtimeSyncingOps_ m) (delaySyncingOps_ m) l (hasPool m) (timers m) (nextScheduleTime_ m) (syncOpSeq_ m) (log m).
Definition set_seq n (m : Manager) := mkManager (realtimeSyncingOps_ m) (delaySyncingOps_ m) (scheduleSyncOps_ m) (hasPool m) (timers m) (nextScheduleTime_ m) n (log m).
Definition note e (m : Manager) := mkManager (realtimeSyncingOps_ m) (delaySyncingOps_ m) (scheduleSyncOps_ m) (hasPool m) (timers m) (nextScheduleTime_ m) (syncOpSeq_ m) (log m ++ e).

(* @src service/kvdb/kvstore_sync_manager.cpp 63-67 KvStoreSyncManager::GetExpireTimeRange *)
Definition GetExpireTimeRange (delayMs : Z) : Z :=
  Z.max (delayMs / DELAY_TIME_RANGE_DIVISOR) (Z.shiftr SYNC_MIN_DELAY_MS 1).

#[global] Arguments GetExpireTimeRange : simpl never.

(** The number of removed operations and what is left. *)
(* @src service/kvdb/kvstore_sync_manager.cpp 87-99 KvStoreSyncManager::DoRemoveSyncingOp *)
Fixpoint DoRemoveSyncingOp (pred : KvSyncOperation -> bool) (ops : list KvSyncOperation) : Z * list KvSyncOperation :=
  match ops with
  | [] => (0, [])
  | op :: ops =>
      let '(count, rest) := DoRemoveSyncingOp pred ops in
      if pred op then (u32 (count + 1), rest) else (count, op :: rest)
  end.

(** The list is the realtime one or the delayed one. *)
(* @src service/kvdb/kvstore_sync_manager.cpp 101-108 KvStoreSyncManager::RemoveSyncingOp *)
Definition RemoveSyncingOp (seq : Z) (realtime : bool) (m : Manager) : Status * Manager :=
  let pred op := seq =? opSeq op in
  let '(count, m) :=
    if realtime then
      let '(count, l) := DoRemoveSyncingOp pred (realtimeSyncingOps_ m) in (count, set_realtime l m)
    else
      let '(count, l) := DoRemoveSyncingOp pred (delaySyncingOps_ m) in (count, set_delay l m) in
  (if count =? 1 then SUCCESS else ERROR, m).

(** The end function an operation is given. *)
(* @src service/kvdb/kvstore_sync_manager.cpp 31-37 endFunc *)
Definition endFunc (seq delayMs : Z) (m : Manager) : Manager :=
  note [Ended seq] (RemoveSyncingOp seq (delayMs =? 0) m).2.

(** The call [syncFunc(endFunc)]. *)
Definition call (op : KvSyncOperation) (m : Manager) : Manager :=
  if endsAtOnce (syncFunc op) && syncEnd op then endFunc (opSeq op) (delayMs op) m else m.

(* @src service/kvdb/kvstore_sync_manager.cpp 110-121 KvStoreSyncManager::AddTimer *)
Definition AddTimer (expireTime : Z) (m : Manager) : Manager :=
  mkManager (realtimeSyncingOps_ m) (delaySyncingOps_ m) (scheduleSyncOps_ m) (hasPool m)
    (if hasPool m then timers m ++ [expireTime] else timers m) expireTime (syncOpSeq_ m) (log m).

(** [std::multimap::emplace]: behind the entries of the same key. *)
Fixpoint emplace (k : Z) (v : KvSyncOperation) (l : list (Z * KvSyncOperation)) : list (Z * KvSyncOperation) :=
  match l with
  | [] => [(k, v)]
  | (k', v') :: l' => if k <? k' then (k, v) :: l else (k', v') :: emplace k v l'
  end.

(** The locked section for a delayed operation. *)
(* @src service/kvdb/kvstore_sync_manager.cpp 53-60 scheduleSyncOps_ *)
Definition AddDelayed (op : KvSyncOperation) (m : Manager) : Manager :=
  let m := note [Added op] (set_schedule (emplace (beginTime op) op (scheduleSyncOps_ m)) m) in
  if (Z.of_nat (length (scheduleSyncOps_ m)) =? 1) ||
     (beginTime op + GetExpireTimeRange (delayMs op) <? nextScheduleTime_ m)
  then AddTimer (beginTime op) m else m.

(* @src service/kvdb/kvstore_sync_manager.cpp 24-61 KvStoreSyncManager::AddSyncOperation *)
Definition AddSyncOperation (syncId delayMs : Z) (syncFunc : option SyncFunc) (syncEnd : bool) (now : Z) (m : Manager)
    : Status * Manager :=
  match syncFunc with
  | None => (INVALID_ARGUMENT, m)
  | Some syncFunc =>
      if syncId =? 0 then (INVALID_ARGUMENT, m)
      else
        let seq := u32 (syncOpSeq_ m + 1) in
        let m := set_seq seq m in
        let op := mkOp syncId seq delayMs syncFunc syncEnd (now + delayMs) in
        if delayMs =? 0 then
          let m := if syncEnd then set_realtime (realtimeSyncingOps_ m ++ [op]) m else m in
          let m := call op (note [StartedNow op] m) in
          let m := if bool_decide (answer syncFunc <> SUCCESS) then (RemoveSyncingOp seq true m).2 else m in
          (answer syncFunc, m)
        else (SUCCESS, AddDelayed op m)
  end.

(* @src service/kvdb/kvstore_sync_manager.cpp 69-85 KvStoreSyncManager::RemoveSyncOperation *)
Definition RemoveSyncOperation (id : Z) (m : Manager) : Status * Manager :=
  let pred op := id =? syncId op in
  let '(c1, realtime) := DoRemoveSyncingOp pred (realtimeSyncingOps_ m) in
  let '(c2, delay) := DoRemoveSyncingOp pred (delaySyncingOps_ m) in
  let gone := filter (fun e => pred e.2 = true) (scheduleSyncOps_ m) in
  let left := filter (fun e => pred e.2 = false) (scheduleSyncOps_ m) in
  let count := u32 (u32 (c1 + c2) + Z.of_nat (length gone)) in
  (if 0 <? count then SUCCESS else ERROR,
   note (Cancelled <$> gone.*2) (set_schedule left (set_delay delay (set_realtime realtime m)))).

(** The loop over the waiting operations: those to be started and those left. *)
(* @src service/kvdb/kvstore_sync_manager.cpp 123-145 KvStoreSyncManager::GetTimeoutSyncOps *)
Fixpoint take_due (currentTime : Z) (l : list (Z * KvSyncOperation)) : list KvSyncOperation * list (Z * KvSyncOperation) :=
  match l with
  | [] => ([], [])
  | (expireTime, op) :: l' =>
      if currentTime + GetExpireTimeRange (delayMs op) <? expireTime then ([], l)
      else let '(ops, rest) := take_due currentTime l' in (op :: ops, rest)
  end.

(** The waiting operations give way to a realtime one that has just started. *)
(* @src service/kvdb/kvstore_sync_manager.cpp 123-132 KvStoreSyncManager::GetTimeoutSyncOps *)
Definition gives_way (currentTime : Z) (m : Manager) : bool :=
  match last (realtimeSyncingOps_ m), scheduleSyncOps_ m with
  | Some op, _ :: _ => currentTime <? beginTime op + REALTIME_PRIOR_SYNCING_MS
  | _, _ => false
  end.

(* @src service/kvdb/kvstore_sync_manager.cpp 123-147 KvStoreSyncManager::GetTimeoutSyncOps *)
Definition GetTimeoutSyncOps (currentTime : Z) (m : Manager) : bool * list KvSyncOperation * Manager :=
  if gives_way currentTime m then (true, [], m)
  else
    let '(ops, rest) := take_due currentTime (scheduleSyncOps_ m) in
    (false, ops,
     set_delay (delaySyncingOps_ m ++ filter (fun op => syncEnd op = true) ops) (set_schedule rest m)).

(* @src service/kvdb/kvstore_sync_manager.cpp 149-158 KvStoreSyncManager::DoCheckSyncingTimeout *)
Definition DoCheckSyncingTimeout (now : Z) (ops : list KvSyncOperation) : list KvSyncOperation :=
  (DoRemoveSyncingOp (fun op => beginTime op + SYNCING_TIMEOUT_MS <? now) ops).2.

(** One iteration of the loop of [Schedule]. *)
Definition Schedule_start (op : KvSyncOperation) (m : Manager) : Manager := call op (note [Started op] m).

(** The last section of [Schedule]. *)
(* @src service/kvdb/kvstore_sync_manager.cpp 170-179 KvStoreSyncManager::Schedule *)
Definition Schedule_finish (delaySchedule : bool) (now : Z) (m : Manager) : Manager :=
  let m := set_realtime (DoCheckSyncingTimeout now (realtimeSyncingOps_ m)) m in
  let m := set_delay (DoCheckSyncingTimeout now (delaySyncingOps_ m)) m in
  match scheduleSyncOps_ m with
  | [] => m
  | (first, _) :: _ => AddTimer (if delaySchedule then now + SYNC_MIN_DELAY_MS else first) m
  end.

(* @src service/kvdb/kvstore_sync_manager.cpp 160-180 KvStoreSyncManager::Schedule *)
Definition Schedule (time now : Z) (m : Manager) : Manager :=
  let '(delaySchedule, ops, m) := GetTimeoutSyncOps time m in
  Schedule_finish delaySchedule now (fold_left (fun m op => Schedule_start op m) ops m).

(* @src service/kvdb/kvstore_sync_manager.cpp 182-185 KvStoreSyncManager::SetThreadPool *)
Definition SetThreadPool (pool : bool) (m : Manager) : Manager :=
  mkManager (realtimeSyncingOps_ m) (delaySyncingOps_ m) (scheduleSyncOps_ m) pool (timers m) (nextScheduleTime_ m)
    (syncOpSeq_ m) (log m).

(** ** Interleaving *)

(** A call of [Schedule] by a timer that has fired, and one that has taken its
    operations, with those not yet started. *)
Inductive flight : Type :=
| Fired (time : Z)
| Running (ops : list KvSyncOperation) (delaySchedule : bool).

Record System := mkSystem { manager : Manager; clock : Z; flights : list flight }.

Definition drop_timer (ts : list Z) (m : Manager) : Manager :=
  mkManager (realtimeSyncingOps_ m) (delaySyncingOps_ m) (scheduleSyncOps_ m) (hasPool m) ts (nextScheduleTime_ m)
    (syncOpSeq_ m) (log m).

Inductive step : System -> System -> Prop :=
| s_tick m c c' f : c <= c' -> step (mkSystem m c f) (mkSystem m c' f)
| s_add m c f syncId delayMs syncFunc syncEnd : 0 <= delayMs ->
    step (mkSystem m c f) (mkSystem (AddSyncOperation syncId delayMs syncFunc syncEnd c m).2 c f)
| s_cancel m c f id : step (mkSystem m c f) (mkSystem (RemoveSyncOperation id m).2 c f)
| s_ended m c f seq delayMs : step (mkSystem m c f) (mkSystem (endFunc seq delayMs m) c f)
| s_fire m c f ts ts' t : timers m = ts ++ t :: ts' -> t <= c ->
    step (mkSystem m c f) (mkSystem (drop_timer (ts ++ ts') m) c (Fired t :: f))
| s_take m c f f' t d ops m' : GetTimeoutSyncOps t m = (d, ops, m') ->
    step (mkSystem m c (f ++ Fired t :: f')) (mkSystem m' c (f ++ Running ops d :: f'))
| s_start m c f f' op ops d :
    step (mkSystem m c (f ++ Running (op :: ops) d :: f')) (mkSystem (Schedule_start op m) c (f ++ Running ops d :: f'))
| s_finish m c f f' d :
    step (mkSystem m c (f ++ Running [] d :: f')) (mkSystem (Schedule_finish d c m) c (f ++ f')).

Inductive initial : System -> Prop :=
| initial_system next c : initial (mkSystem (mkManager [] [] [] true [] next 0 []) c []).

(** ** Accounts of the delayed operations *)

Definition added (l : list event) : list KvSyncOperation :=
  omap (fun e => match e with Added op => Some op | _ => None end) l.
Definition started (l : list event) : list KvSyncOperation :=
  omap (fun e => match e with Started op => Some op | _ => None end) l.
Definition cancelled (l : list event) : list KvSyncOperation :=
  omap (fun e => match e with Cancelled op => Some op | _ => None end) l.

(** Taken from the queue by a call of [Schedule] that has not yet started it. *)
Definition taken (f : flight) : list KvSyncOperation := match f with Fired _ => [] | Running ops _ => ops end.

(** Every delayed operation that was added has been started, or was cancelled, or is
    about to be started, or waits; and exactly one of these. *)
Definition accounted (s : System) : Prop :=
  added (log (manager s)) ≡ₚ
    started (log (manager s)) ++ cancelled (log (manager s)) ++ flat_map taken (flights s) ++ (scheduleSyncOps_ (manager s)).*2.

(** A timer is armed that fires no later than the tolerance of any waiting operation
    allows, or after the shortest delay. *)
Definition armed (s : System) : Prop :=
  nextScheduleTime_ (manager s) ∈ timers (manager s) /\
  forall k op, (k, op) ∈ scheduleSyncOps_ (manager s) ->
    nextScheduleTime_ (manager s) <= Z.max (k + GetExpireTimeRange (delayMs op)) (clock s + SYNC_MIN_DELAY_MS).

Definition by_key (a b : Z * KvSyncOperation) : Prop := a.1 <= b.1.

Record Inv (s : System) : Prop := {
  inv_pool : hasPool (manager s) = true;
  inv_sorted : StronglySorted by_key (scheduleSyncOps_ (manager s));
  inv_armed : scheduleSyncOps_ (manager s) <> [] -> flights s <> [] \/ armed s;
  inv_accounted : accounted s
}.

(** What the bookkeeping of running operations leaves alone. *)
Record frame (m m' : Manager) : Prop := {
  fr_schedule : scheduleSyncOps_ m' = scheduleSyncOps_ m;
  fr_pool : hasPool m' = hasPool m;
  fr_timers : timers m' = timers m;
  fr_next : nextScheduleTime_ m' = nextScheduleTime_ m;
  fr_added : added (log m') = added (log m);
  fr_started : started (log m') = started (log m);
  fr_cancelled : cancelled (log m') = cancelled (log m)
}.

Lemma kv_frame_refl m : frame m m.
Proof. by split. Qed.

Lemma kv_frame_trans m1 m2 m3 : frame m1 m2 -> frame m2 m3 -> frame m1 m3.
Proof. intros [] []. split; congruence. Qed.

Lemma log_app l l' : added (l ++ l') = added l ++ added l' /\ started (l ++ l') = started l ++ started l' /\
  cancelled (l ++ l') = cancelled l ++ cancelled l'.
Proof. split_and!; apply omap_app. Qed.

Lemma frame_note l m : added l = [] -> started l = [] -> cancelled l = [] -> frame m (note l m).
Proof.
  intros Ha Hs Hc. destruct (log_app (log m) l) as (A & S & C). split; try done; change (log (note l m)) with (log m ++ l);
  rewrite ?A, ?S, ?C, ?Ha, ?Hs, ?Hc; apply app_nil_r.
Qed.

Lemma frame_RemoveSyncingOp seq rt m : frame m (RemoveSyncingOp seq rt m).2.
Proof. unfold RemoveSyncingOp. destruct rt; destruct (DoRemoveSyncingOp _ _); by split. Qed.

Lemma frame_endFunc seq d m : frame m (endFunc seq d m).
Proof. eapply kv_frame_trans; [apply frame_RemoveSyncingOp|]. by apply frame_note. Qed.

Lemma frame_call op m : frame m (call op m).
Proof. unfold call. case_match; [apply frame_endFunc|apply kv_frame_refl]. Qed.

Lemma Inv_frame m m' c f : frame m m' -> Inv (mkSystem m c f) -> Inv (mkSystem m' c f).
Proof.
  intros [Es Ep Et En Ea Eb Ec] [Hp Hs Ha Hc]. unfold armed, accounted in *. cbn [manager flights clock] in *.
  split; unfold armed, accounted; cbn [manager flights clock]; rewrite ?Es, ?Ep, ?Et, ?En, ?Ea, ?Eb, ?Ec; done.
Qed.

(** ** Every step preserves the invariant *)

Lemma emplace_perm k v l : emplace k v l ≡ₚ (k, v) :: l.
Proof.
  induction l as [|[k' v'] l IH]; cbn; [done|]. case_match; [done|]. rewrite IH. apply Permutation_swap.
Qed.

Lemma emplace_sorted k v l : StronglySorted by_key l -> StronglySorted by_key (emplace k v l).
Proof.
  induction 1 as [|[k' v'] l Hs IH Hf]; cbn; [by repeat constructor|]. destruct (Z.ltb_spec k k') as [Hlt|Hge].
  - constructor; [by constructor|]. constructor; [unfold by_key; cbn; lia|]. eapply Forall_impl; [exact Hf|]. intros [] Hx. unfold by_key in *. cbn in *. lia.
  - constructor; [done|]. rewrite emplace_perm. constructor; [unfold by_key; cbn; lia|done].
Qed.

Lemma filter_sorted P `{forall x, Decision (P x)} l : StronglySorted by_key l -> StronglySorted by_key (filter P l).
Proof.
  induction 1 as [|e l Hs IH Hf]; [constructor|]. rewrite filter_cons. case_decide; [|done]. constructor; [done|].
  apply Forall_forall. intros x [_ Hx]%list_elem_of_filter. by rewrite Forall_forall in Hf; apply Hf.
Qed.

Lemma range_pos d : 0 < GetExpireTimeRange d.
Proof. unfold GetExpireTimeRange. change (Z.shiftr SYNC_MIN_DELAY_MS 1) with 50. lia. Qed.

(** The loop takes a prefix; what is taken is due by its own tolerance, the first of
    the rest is not. *)
Lemma take_due_split t l : exists pre rest, take_due t l = (pre.*2, rest) /\ l = pre ++ rest /\
  (forall k op, (k, op) ∈ pre -> k <= t + GetExpireTimeRange (delayMs op)) /\
  match rest with [] => True | (k, op) :: _ => t + GetExpireTimeRange (delayMs op) < k end.
Proof.
  induction l as [|[k op] l (pre & rest & E & -> & Hdue & Hr)]; cbn.
  { exists [], []. split_and!; [done|done| |done]. intros k op Hin. inversion Hin. }
  destruct (Z.ltb_spec (t + GetExpireTimeRange (delayMs op)) k).
  { exists [], ((k, op) :: pre ++ rest). split_and!; [done|done| |done]. intros ? ? Hin. inversion Hin. }
  rewrite E. exists ((k, op) :: pre), rest. split_and!; [done|done| |done].
  intros k' op' [[= -> ->]|Hin]%elem_of_cons; [lia|by apply Hdue].
Qed.

Lemma sorted_app_r {A} (R : A -> A -> Prop) l l' : StronglySorted R (l ++ l') -> StronglySorted R l'.
Proof. induction l as [|x l IH]; [done|]. intros Hs. inversion Hs. auto. Qed.

(** Adding: the new operation is covered by the armed timer, or by the one it arms. *)
Lemma armed_add op m c f (q := emplace (beginTime op) op (scheduleSyncOps_ m)) :
  (scheduleSyncOps_ m <> [] -> f <> [] \/ armed (mkSystem m c f)) -> hasPool m = true ->
  f <> [] \/ armed (mkSystem (AddDelayed op m) c f).
Proof.
  intros Ha Hp. unfold AddDelayed. fold q. cbn [note set_schedule scheduleSyncOps_ nextScheduleTime_].
  assert (length q = S (length (scheduleSyncOps_ m))) as Hl by (unfold q; by rewrite emplace_perm).
  assert (forall k o, (k, o) ∈ q -> (k = beginTime op /\ o = op) \/ (k, o) ∈ scheduleSyncOps_ m) as Hq.
  { intros k o. unfold q. rewrite emplace_perm. intros [[= -> ->]|?]%elem_of_cons; auto. }
  clearbody q. destruct (Z.eqb_spec (Z.of_nat (length q)) 1) as [H1|H1]; cbn [orb].
  - right. unfold armed, AddTimer. cbn. rewrite Hp. split; [set_solver|]. intros k o [[-> ->]|Hin]%Hq.
    + pose proof (range_pos (delayMs op)). lia.
    + destruct (scheduleSyncOps_ m); [inversion Hin|cbn in Hl; lia].
  - destruct Ha as [?|[Hnext Hcov]]; [destruct (scheduleSyncOps_ m); [cbn in Hl; lia|done]|by left|]. cbn in Hnext, Hcov.
    right. destruct (Z.ltb_spec (beginTime op + GetExpireTimeRange (delayMs op)) (nextScheduleTime_ m)); unfold armed; cbn.
    + rewrite Hp. pose proof (range_pos (delayMs op)). split; [set_solver|]. intros k o [[-> ->]|Hin]%Hq; [lia|]. specialize (Hcov k o Hin). lia.
    + split; [done|]. intros k o [[-> ->]|Hin]%Hq; [lia|]. by apply Hcov.
Qed.

Lemma AddDelayed_frame op m :
  scheduleSyncOps_ (AddDelayed op m) = emplace (beginTime op) op (scheduleSyncOps_ m) /\
  hasPool (AddDelayed op m) = hasPool m /\ log (AddDelayed op m) = log m ++ [Added op].
Proof. unfold AddDelayed. by case_match. Qed.

Lemma Inv_add op m c f : Inv (mkSystem m c f) -> Inv (mkSystem (AddDelayed op m) c f).
Proof.
  intros [Hp Hs Ha Hc]. destruct (AddDelayed_frame op m) as (Eq & Ep & El). split; cbn [manager flights clock] in *.
  - by rewrite Ep.
  - rewrite Eq. by apply emplace_sorted.
  - intros _. by apply armed_add.
  - unfold accounted in *. cbn [manager flights] in *. rewrite Eq, El. destruct (log_app (log m) [Added op]) as (-> & -> & ->).
    rewrite emplace_perm, Hc. change (added [Added op]) with [op]. change (started [Added op]) with (@nil KvSyncOperation).
    change (cancelled [Added op]) with (@nil KvSyncOperation). rewrite !app_nil_r. cbn. solve_Permutation.
Qed.

Lemma Inv_AddSyncOperation id d fn e m c f : Inv (mkSystem m c f) ->
  Inv (mkSystem (AddSyncOperation id d fn e c m).2 c f).
Proof.
  intros HI. unfold AddSyncOperation. destruct fn as [fn|]; [|done]. case_match; [done|].
  assert (frame m (set_seq (u32 (syncOpSeq_ m + 1)) m)) as F0 by by split.
  case_match; cbn [snd].
  - eapply Inv_frame; [|exact HI]. eapply kv_frame_trans; [exact F0|]. set (m0 := set_seq _ m). clearbody m0. clear F0.
    set (op := mkOp _ _ _ _ _ _). assert (frame m0 (if e then set_realtime (realtimeSyncingOps_ m0 ++ [op]) m0 else m0)) as F1
      by (destruct e; by split). eapply kv_frame_trans; [exact F1|]. set (m1 := if e then _ else _). clearbody m1.
    eapply kv_frame_trans; [apply (frame_note [StartedNow op]); done|]. eapply kv_frame_trans; [apply frame_call|].
    case_bool_decide; [apply frame_RemoveSyncingOp|apply kv_frame_refl].
  - apply Inv_add. by eapply Inv_frame.
Qed.

Lemma filter_split {A} (b : A -> bool) (l : list A) :
  l ≡ₚ filter (fun x => b x = true) l ++ filter (fun x => b x = false) l.
Proof.
  induction l as [|x l IH]; [done|]. rewrite !filter_cons. destruct (b x); cbn; [by rewrite IH at 1|].
  rewrite IH at 1. apply Permutation_middle.
Qed.

Lemma cancelled_notes l : added (Cancelled <$> l) = [] /\ started (Cancelled <$> l) = [] /\ cancelled (Cancelled <$> l) = l.
Proof.
  induction l as [|x l (A & S & C)]; [done|]. rewrite fmap_cons. unfold added, started, cancelled in *. cbn.
  rewrite A, S. by rewrite <- C at 2.
Qed.

Lemma Inv_cancel id m c f : Inv (mkSystem m c f) -> Inv (mkSystem (RemoveSyncOperation id m).2 c f).
Proof.
  intros [Hp Hs Ha Hc]. unfold RemoveSyncOperation. destruct (DoRemoveSyncingOp _ (realtimeSyncingOps_ m)) as [c1 l1].
  destruct (DoRemoveSyncingOp _ (delaySyncingOps_ m)) as [c2 l2]. cbn [snd].
  set (pred := fun e : Z * KvSyncOperation => id =? syncId e.2).
  set (gone := filter _ (scheduleSyncOps_ m)). set (lft := filter (fun e => _ = false) (scheduleSyncOps_ m)).
  split; cbn [manager flights clock note set_schedule set_delay set_realtime hasPool scheduleSyncOps_] in *.
  - done.
  - by apply filter_sorted.
  - intros Hne. destruct Ha as [?|[Hn Hcov]].
    + intros E. unfold lft in Hne. by rewrite E in Hne.
    + by left.
    + right. split; [done|]. intros k op [_ Hin]%list_elem_of_filter. by apply Hcov.
  - unfold accounted in *. cbn [manager flights log note set_schedule set_delay set_realtime scheduleSyncOps_] in *.
    destruct (log_app (log m) (Cancelled <$> gone.*2)) as (-> & -> & ->). destruct (cancelled_notes gone.*2) as (-> & -> & ->).
    rewrite Hc, !app_nil_r. assert ((scheduleSyncOps_ m).*2 ≡ₚ gone.*2 ++ lft.*2) as ->.
    { rewrite <- fmap_app. apply fmap_Permutation. exact (filter_split pred (scheduleSyncOps_ m)). }
    solve_Permutation.
Qed.

Lemma Inv_take m c f f' t d ops m' : Inv (mkSystem m c (f ++ Fired t :: f')) -> GetTimeoutSyncOps t m = (d, ops, m') ->
  Inv (mkSystem m' c (f ++ Running ops d :: f')).
Proof.
  intros [Hp Hs Ha Hc]. unfold GetTimeoutSyncOps. cbn [manager flights clock] in *.
  destruct (gives_way t m); [intros [= <- <- <-]|].
  - split; cbn [manager flights clock]; try done.
    + intros _. left. by destruct f.
    + unfold accounted in *. cbn [manager flights] in *. rewrite Hc, !flat_map_app. done.
  - destruct (take_due_split t (scheduleSyncOps_ m)) as (pre & rest & -> & Hl & _). intros [= <- <- <-].
    split; cbn [manager flights clock]; try done.
    + rewrite Hl in Hs. by apply sorted_app_r in Hs.
    + intros _. left. by destruct f.
    + unfold accounted in *. cbn [manager flights log set_delay set_schedule scheduleSyncOps_] in *.
      rewrite Hc, Hl, !flat_map_app, fmap_app. cbn. solve_Permutation.
Qed.

Lemma Inv_start m c f f' op ops d : Inv (mkSystem m c (f ++ Running (op :: ops) d :: f')) ->
  Inv (mkSystem (Schedule_start op m) c (f ++ Running ops d :: f')).
Proof.
  intros [Hp Hs Ha Hc]. eapply Inv_frame; [apply frame_call|]. cbn [manager flights clock] in *. split; cbn [manager flights clock]; try done.
  - intros _. left. by destruct f.
  - unfold accounted in *. cbn [manager flights log note scheduleSyncOps_] in *.
    destruct (log_app (log m) [Started op]) as (-> & -> & ->). change (started [Started op]) with [op].
    change (added [Started op]) with (@nil KvSyncOperation). change (cancelled [Started op]) with (@nil KvSyncOperation).
    rewrite Hc, !app_nil_r, !flat_map_app. cbn. solve_Permutation.
Qed.

Lemma Inv_finish m c f f' d : Inv (mkSystem m c (f ++ Running [] d :: f')) -> Inv (mkSystem (Schedule_finish d c m) c (f ++ f')).
Proof.
  intros [Hp Hs _ Hc]. cbn [manager flights clock] in *. unfold Schedule_finish. cbn [set_delay set_realtime scheduleSyncOps_ delaySyncingOps_].
  destruct (scheduleSyncOps_ m) as [|[k op] l] eqn:El; split; cbn [manager flights clock set_delay set_realtime AddTimer scheduleSyncOps_ hasPool]; rewrite ?El; try done.
  1,3: unfold accounted in *; cbn [manager flights log set_delay set_realtime AddTimer scheduleSyncOps_] in *;
    rewrite Hc, El, !flat_map_app; done.
  intros _. right. unfold armed. cbn. rewrite Hp, El. split; [set_solver|]. intros k' op' Hin.
  pose proof (range_pos (delayMs op')). destruct d; [lia|].
  apply elem_of_cons in Hin as [[= -> ->]|Hin]; [lia|]. inversion Hs as [|?? _ Hf]. rewrite Forall_forall in Hf.
  specialize (Hf _ Hin). unfold by_key in Hf. cbn in Hf. lia.
Qed.

Lemma kv_step s s' : Inv s -> step s s' -> Inv s'.
Proof.
  intros HI Hs. destruct Hs as [m c c' f Hle|m c f id d fn e _|m c f id|m c f seq d|m c f ts ts' t Ht _|m c f f' t d ops m' E|m c f f' op ops d|m c f f' d].
  - destruct HI as [Hp Hs Ha Hc]. split; try done. intros Hne. destruct (Ha Hne) as [?|[Hn Hcov]]; [by left|right].
    split; [done|]. intros k op Hin. specialize (Hcov k op Hin). cbn in *. lia.
  - by apply Inv_AddSyncOperation.
  - by apply Inv_cancel.
  - eapply Inv_frame; [apply frame_endFunc|done].
  - destruct HI as [Hp Hs Ha Hc]. split; try done. intros _. by left.
  - by eapply Inv_take.
  - by apply Inv_start.
  - by apply Inv_finish with (1 := HI).
Qed.

Lemma Inv_reachable s : reachable initial step s -> Inv s.
Proof.
  apply reachable_invariant; [|apply kv_step]. intros ? [next c]. split; cbn; [done|apply SSorted_nil|done|]. unfold accounted. cbn. done.
Qed.

(** C30: However the calls, the timers and the ends of running synchronisations
    interleave: every delayed synchronisation that was accepted has been started or
    cancelled, is about to be started by a running call or still waits, and exactly
    one of these (none is lost, none is started twice); and while one waits, a call
    of [Schedule] is running or a timer is armed that fires within the tolerance of
    every waiting operation, or within the shortest delay from now. *)
Theorem sync_accounted (s : System) : reachable initial step s ->
  accounted s /\ (scheduleSyncOps_ (manager s) <> [] -> flights s <> [] \/ armed s).
Proof. intros [_ _ Ha Hc]%Inv_reachable. done. Qed.

(** ** One call of [Schedule] *)

Lemma starts_frame ops m : let m' := fold_left (fun m op => Schedule_start op m) ops m in
  scheduleSyncOps_ m' = scheduleSyncOps_ m /\ hasPool m' = hasPool m /\ timers m' = timers m /\
  added (log m') = added (log m) /\ started (log m') = started (log m) ++ ops.
Proof.
  revert m. induction ops as [|op ops IH]; intros m; cbn [fold_left]; [by rewrite app_nil_r|].
  destruct (IH (Schedule_start op m)) as (-> & -> & -> & -> & ->). destruct (frame_call op (note [Started op] m)) as [Es Ep Et _ Ea Eb _].
  unfold Schedule_start. rewrite Es, Ep, Et, Ea, Eb. destruct (log_app (log m) [Started op]) as (A & S & _).
  cbn [note log scheduleSyncOps_ hasPool timers]. rewrite A, S. change (added [Started op]) with (@nil KvSyncOperation).
  change (started [Started op]) with [op]. by rewrite app_nil_r, <- (assoc_L (++)).
Qed.

(** When a timer calls [Schedule] and no realtime synchronisation was started just
    before, the operations started are exactly the longest prefix of the waiting ones
    that is due within each operation's tolerance, in the order of their times; the
    others stay, and a timer for the first of them is armed. Otherwise nothing is
    started or removed, and the call is repeated after the shortest delay. *)
Lemma Schedule_starts (t now : Z) (m : Manager) : hasPool m = true ->
  let m' := Schedule t now m in
  if gives_way t m then
    started (log m') = started (log m) /\ scheduleSyncOps_ m' = scheduleSyncOps_ m /\
    timers m' = timers m ++ [now + SYNC_MIN_DELAY_MS]
  else exists pre rest, scheduleSyncOps_ m = pre ++ rest /\ scheduleSyncOps_ m' = rest /\
    started (log m') = started (log m) ++ pre.*2 /\
    (forall k op, (k, op) ∈ pre -> k <= t + GetExpireTimeRange (delayMs op)) /\
    match rest with
    | [] => timers m' = timers m
    | (k, op) :: _ => t + GetExpireTimeRange (delayMs op) < k /\ timers m' = timers m ++ [k]
    end.
Proof.
  intros Hp. cbv zeta. unfold Schedule, GetTimeoutSyncOps. destruct (gives_way t m) eqn:Hg.
  - cbn [fold_left]. unfold Schedule_finish. cbn [set_delay set_realtime scheduleSyncOps_].
    unfold gives_way in Hg. destruct (scheduleSyncOps_ m) as [|[k op] l] eqn:El; [by destruct (last _)|].
    cbn. by rewrite El, Hp.
  - destruct (take_due_split t (scheduleSyncOps_ m)) as (pre & rest & Etake & Hl & Hdue & Hr). rewrite Etake.
    set (m0 := set_delay _ _). destruct (starts_frame pre.*2 m0) as (Es & Ep & Et & Ea & Eb). set (m1 := fold_left _ _ _) in *.
    exists pre, rest. unfold Schedule_finish. cbn [set_delay set_realtime scheduleSyncOps_].
    change (scheduleSyncOps_ m0) with rest in Es. change (log m0) with (log m) in Eb. change (timers m0) with (timers m) in Et.
    change (hasPool m0) with (hasPool m) in Ep. rewrite Es.
    destruct rest as [|[k op] rest]; split_and!; try done. cbn. by rewrite Ep, Hp, Et.
Qed.

(** ** Witnesses *)

Definition waiting : KvSyncOperation := mkOp 7 1 1000 (mkFunc SUCCESS false) true 1000.
Definition one_waiting : Manager := (AddSyncOperation 7 1000 (Some (mkFunc SUCCESS false)) true 0 (mkManager [] [] [] true [] 0 0 [])).2.

Lemma sync_accounted_witness :
  reachable initial step (mkSystem one_waiting 0 []) /\
  accounted (mkSystem one_waiting 0 []) /\
  (scheduleSyncOps_ one_waiting <> [] -> @nil flight <> [] \/ armed (mkSystem one_waiting 0 [])).
Proof.
  assert (reachable initial step (mkSystem one_waiting 0 [])) as Hr.
  { apply reach_step with (mkSystem (mkManager [] [] [] true [] 0 0 []) 0 []); [apply reach_init; constructor|]. by apply s_add. }
  split; [exact Hr|]. exact (sync_accounted _ Hr).
Defined.

Lemma Schedule_starts_witness :
  hasPool one_waiting = true /\ gives_way 1000 one_waiting = false /\
  exists pre rest, scheduleSyncOps_ one_waiting = pre ++ rest /\ scheduleSyncOps_ (Schedule 1000 1001 one_waiting) = rest /\
    started (log (Schedule 1000 1001 one_waiting)) = started (log one_waiting) ++ pre.*2.
Proof.
  split; [reflexivity|]. split; [reflexivity|]. pose proof (Schedule_starts 1000 1001 one_waiting eq_refl) as HS.
  cbv zeta in HS. change (gives_way 1000 one_waiting) with false in HS. cbv iota in HS.
  destruct HS as (pre & rest & ? & ? & ? & _). by exists pre, rest.
Defined.

(** A delayed synchronisation that fails to start is nevertheless kept among the
    running ones, until the timeout; a realtime one is removed at once. *)
Lemma failed_start_kept :
  let failing := mkOp 7 1 1000 (mkFunc ERROR false) true 1000 in
  delaySyncingOps_ (Schedule 1000 1001 (mkManager [] [] [(1000, failing)] true [] 1000 1 [])) = [failing] /\
  realtimeSyncingOps_ (AddSyncOperation 7 0 (Some (mkFunc ERROR false)) true 1001 (mkManager [] [] [] true [] 0 0 [])).2 = [].
Proof. vm_compute. split; reflexivity. Qed.
End KvSyncManager.
