(* ===== verification/Directory.v ===== *)
(** * Store paths ([framework/directory/directory_manager.cpp])

    The path of a store is generated from a configured pattern such as
    [/data/service/{area}/{userId}/database/{bundleName}], one pattern per version of
    the directory layout. The file system is a class with the behaviour of [access]
    and [mkdir] the code relies on; [std::sort] and the type of an access token are
    parameters. *)

From Stdlib Require Import Ascii Sorted.
From S2P Require Import Prelude CppString Constant MetaData.
Import MetaData.

(** ** The file system *)
Class FileSystem := {
  fs : Type;
  fs_access : string -> fs -> bool;
  fs_mkdir : string -> fs -> bool * fs;
  fs_mkdir_ok p f f' : fs_mkdir p f = (true, f') -> forall q, fs_access q f' = bool_decide (q = p) || fs_access q f;
  fs_mkdir_fail p f f' : fs_mkdir p f = (false, f') -> forall q, fs_access q f' = fs_access q f
}.

Module DirectoryManager.

Inductive TokenType : Type := TOKEN_INVALID | TOKEN_HAP | TOKEN_NATIVE | TOKEN_SHELL.

#[export] Instance TokenType_eq_dec : EqDecision TokenType.
Proof. solve_decision. Defined.

(* @src framework/include/directory/directory_manager.h 27-33 DirectoryManager::Strategy *)
Record Strategy := mkStrategy { autoCreate : bool; version : Z; pattern : string; metaPath : string; clonePath : string }.

(* @src framework/include/directory/directory_manager.h 34-37 DirectoryManager::StoreType *)
Record StoreType := mkStoreType { range : list Z; type : string }.

Inductive Action : Type :=
| GetSecurity_ | GetStore_ | GetType_ | GetArea_ | GetUserId_ | GetBundleName_ | GetHapName_ | GetCustomDir_.

(* @src framework/include/directory/directory_manager.h 49-56 DirectoryManager::StrategyImpl *)
Record StrategyImpl := mkImpl {
  autoCreate_i : bool;
  version_i : Z;
  metaPath_i : string;
  clonePath_i : string;
  path_i : list string;
  pipes_i : list (option Action)
}.

(* @src framework/directory/directory_manager.cpp 29-35 DirectoryManager::DirectoryManager *)
Definition actions_ : list (string * Action) :=
  [ ("{security}", GetSecurity_); ("{store}", GetStore_); ("{type}", GetType_); ("{area}", GetArea_);
    ("{userId}", GetUserId_); ("{bundleName}", GetBundleName_); ("{hapName}", GetHapName_); ("{customDir}", GetCustomDir_) ].

Fixpoint find_action (s : string) (l : list (string * Action)) : option Action :=
  match l with
  | [] => None
  | (k, a) :: l => if bool_decide (k = s) then Some a else find_action s l
  end.

(** ** Splitting a pattern *)

(** The loop of [Split]: [nextPos] is searched from [pos]; empty parts are skipped,
    except behind the last delimiter. *)
Fixpoint Split_loop (fuel : nat) (source pattern : string) (pos : nat) (values : list string) : option (list string) :=
  match fuel with
  | O => None
  | S fuel =>
      match find source pattern pos with
      | None => Some (values ++ [substr_from source pos])
      | Some nextPos =>
          if (nextPos =? pos)%nat then Split_loop fuel source pattern (pos + size pattern)%nat values
          else Split_loop fuel source pattern (nextPos + size pattern)%nat (values ++ [substr source pos (nextPos - pos)])
      end
  end.

(* @src framework/directory/directory_manager.cpp 196-211 DirectoryManager::Split *)
Definition Split (source pattern : string) : option (list string) := Split_loop (size source + 2) source pattern 0 [].

(** ** The sections of a path *)

Section Manager.
Context {F : FileSystem}.

(** [std::sort] with the comparison of [Initialize], [AccessTokenKit::GetTokenTypeFlag]
    and the security levels of the key-value library. *)
Variable sort : list StrategyImpl -> list StrategyImpl.
Variable GetTokenTypeFlag : Z -> TokenType.
Variables NO_LABEL S0 S1 : Z.

Record Manager := mkManager { strategies_ : list StrategyImpl; storeTypes_ : list StoreType }.

(* @src framework/directory/directory_manager.cpp 129-136 DirectoryManager::GetType *)
Definition GetType (metaData : StoreMetaData.StoreMetaData) : string :=
  let type := GetTokenTypeFlag (StoreMetaData.tokenId metaData) in
  if bool_decide (type = TOKEN_NATIVE \/ type = TOKEN_SHELL) then "service" else "app".

(** [range.front()] and [range.back()] of an empty range are undefined; such an entry
    is taken not to match. *)
(* @src framework/directory/directory_manager.cpp 138-146 DirectoryManager::GetStore *)
Definition GetStore (types : list StoreType) (metaData : StoreMetaData.StoreMetaData) : string :=
  let matches t := match head (range t), last (range t) with
                   | Some lo, Some hi => (lo <=? StoreMetaData.storeType metaData) && (StoreMetaData.storeType metaData <=? hi)
                   | _, _ => false
                   end in
  match List.find matches types with Some t => type t | None => "other" end.

(* @src framework/directory/directory_manager.cpp 148-162 DirectoryManager::GetSecurity *)
Definition GetSecurity (metaData : StoreMetaData.StoreMetaData) : string :=
  let level := StoreMetaData.securityLevel metaData in
  if level =? NO_LABEL then
    if bool_decide (StoreMetaData.bundleName metaData <> StoreMetaData.appId metaData) ||
       bool_decide (StoreMetaData.appType metaData <> "harmony")
    then "misc_ce" else "misc_de"
  else if (level =? S0) || (level =? S1) then "misc_de" else "misc_ce".

(* @src framework/directory/directory_manager.cpp 164-167 DirectoryManager::GetArea *)
Definition GetArea (metaData : StoreMetaData.StoreMetaData) : string := "el" +:+ to_string (StoreMetaData.area metaData).

(* @src framework/directory/directory_manager.cpp 169-176 DirectoryManager::GetUserId *)
Definition GetUserId (metaData : StoreMetaData.StoreMetaData) : string :=
  let type := GetTokenTypeFlag (StoreMetaData.tokenId metaData) in
  if bool_decide (type = TOKEN_NATIVE \/ type = TOKEN_SHELL) && bool_decide (StoreMetaData.user metaData = "0")
  then "public" else StoreMetaData.user metaData.

(* @src framework/directory/directory_manager.cpp 178-184 DirectoryManager::GetBundleName *)
Definition GetBundleName (metaData : StoreMetaData.StoreMetaData) : string :=
  if StoreMetaData.instanceId metaData =? 0 then StoreMetaData.bundleName metaData
  else "+clone-" +:+ to_string (StoreMetaData.instanceId metaData) +:+ "+" +:+ StoreMetaData.bundleName metaData.

(* @src framework/directory/directory_manager.cpp 186-194 DirectoryManager::GetHapName *)
Definition run_action (m : Manager) (a : Action) (metaData : StoreMetaData.StoreMetaData) : string :=
  match a with
  | GetSecurity_ => GetSecurity metaData
  | GetStore_ => GetStore (storeTypes_ m) metaData
  | GetType_ => GetType metaData
  | GetArea_ => GetArea metaData
  | GetUserId_ => GetUserId metaData
  | GetBundleName_ => GetBundleName metaData
  | GetHapName_ => StoreMetaData.hapName metaData
  | GetCustomDir_ => StoreMetaData.customDir metaData
  end.

(** ** Operations *)

Definition make_impl (strategy : Strategy) : option StrategyImpl :=
  path ← Split (pattern strategy) "/";
  Some (mkImpl (autoCreate strategy) (version strategy) (metaPath strategy) (clonePath strategy) path
          ((fun value => find_action value actions_) <$> path)).

(* @src framework/directory/directory_manager.cpp 105-127 DirectoryManager::Initialize *)
Definition Initialize (strategies : list Strategy) (storeTypes : list StoreType) : option Manager :=
  impls ← mapM make_impl strategies;
  Some (mkManager (sort impls) storeTypes).

Fixpoint index_from (i : Z) (version : Z) (l : list StrategyImpl) : option Z :=
  match l with
  | [] => None
  | s :: l => if version_i s <=? version then Some i else index_from (i + 1) version l
  end.

(* @src framework/directory/directory_manager.cpp 213-221 DirectoryManager::GetVersionIndex *)
Definition GetVersionIndex (version : Z) (m : Manager) : Z :=
  match index_from 0 version (strategies_ m) with
  | Some i => s32 i
  | None => s32 (Z.of_nat (length (strategies_ m))) - 1
  end.

(** The do-while loop of [CreateDirectory]; [index] is where the last separator was
    found. The result is [false] when [mkdir] has failed. *)
Fixpoint create_loop (fuel : nat) (path : string) (index : nat) (f : fs) : option (bool * fs) :=
  match fuel with
  | O => None
  | S fuel =>
      let next := find path "/" (index + 1)%nat in
      let subPath := match next with None => path | Some i => substr path 0 i end in
      let '(ok, f) := if fs_access subPath f then (true, f) else fs_mkdir subPath f in
      if (ok : bool) then match next with None => Some (true, f) | Some i => create_loop fuel path i f end
      else Some (false, f)
  end.

(* @src framework/directory/directory_manager.cpp 252-277 DirectoryManager::CreateDirectory *)
Definition CreateDirectory (path : string) (f : fs) : option (bool * fs) :=
  if fs_access path f then Some (true, f)
  else
    '(ok, f) ← create_loop (size path + 2) path 0 f;
    Some (if (ok : bool) then (fs_access path f, f) else (false, f)).

Definition create_if (b : bool) (path : string) (f : fs) : option fs := if b then snd <$> CreateDirectory path f else Some f.

Fixpoint join_sections (m : Manager) (metaData : StoreMetaData.StoreMetaData) (l : list (string * option Action)) (path : string) : string :=
  match l with
  | [] => path
  | (p, pipe) :: l =>
      let section := match pipe with None => p | Some a => run_action m a metaData end in
      join_sections m metaData l (if bool_decide (section = "") then path else path +:+ "/" +:+ section)
  end.

(* @src framework/directory/directory_manager.cpp 223-250 DirectoryManager::GenPath *)
Definition GenPath (m : Manager) (metaData : StoreMetaData.StoreMetaData) (version : Z) (exPath : string) (f : fs) : option (string * fs) :=
  let index := GetVersionIndex version m in
  if index <? 0 then Some ("", f)
  else match strategies_ m !! Z.to_nat index with
       | None => None
       | Some strategy =>
           let path := join_sections m metaData (zip (path_i strategy) (pipes_i strategy)) "" in
           let path := if bool_decide (exPath = "") then path else path +:+ "/" +:+ exPath in
           f ← create_if (autoCreate_i strategy) path f;
           Some (path, f)
       end.

(* @src framework/directory/directory_manager.cpp 43-46 DirectoryManager::GetStorePath *)
Definition GetStorePath (m : Manager) (metaData : StoreMetaData.StoreMetaData) (version : Z) (f : fs) : option (string * fs) :=
  GenPath m metaData version "" f.

(* @src framework/directory/directory_manager.cpp 48-52 DirectoryManager::GetStoreBackupPath *)
Definition GetStoreBackupPath (m : Manager) (metaData : StoreMetaData.StoreMetaData) (version : Z) (f : fs) : option (string * fs) :=
  '(root, f) ← GenPath m metaData version "backup" f;
  Some (root +:+ "/" +:+ StoreMetaData.storeId metaData, f).

(* @src framework/directory/directory_manager.cpp 54-66 DirectoryManager::GetMetaStorePath *)
Definition GetMetaStorePath (m : Manager) (version : Z) (f : fs) : option (string * fs) :=
  let index := GetVersionIndex version m in
  if index <? 0 then Some ("", f)
  else
    strategy ← strategies_ m !! Z.to_nat index;
    f ← create_if (autoCreate_i strategy) (metaPath_i strategy) f;
    Some (metaPath_i strategy, f).

(* @src framework/directory/directory_manager.cpp 68-81 DirectoryManager::GetMetaBackupPath *)
Definition GetMetaBackupPath (m : Manager) (version : Z) (f : fs) : option (string * fs) :=
  let index := GetVersionIndex version m in
  if index <? 0 then Some ("", f)
  else
    strategy ← strategies_ m !! Z.to_nat index;
    let path := metaPath_i strategy +:+ "/backup" in
    f ← create_if (autoCreate_i strategy) path f;
    Some (path, f).

(** [path.substr(0, path.rfind('/'))] is the whole path when there is no separator. *)
(* @src framework/directory/directory_manager.cpp 83-103 DirectoryManager::GetClonePath *)
Definition GetClonePath (m : Manager) (userId : string) (version : Z) (f : fs) : option (string * fs) :=
  let index := GetVersionIndex version m in
  if index <? 0 then Some ("", f)
  else
    strategy ← strategies_ m !! Z.to_nat index;
    let path := clonePath_i strategy in
    let pattern := "{userId}" in
    match find path pattern 0 with
    | None => Some ("", f)
    | Some pos =>
        let path := substr path 0 pos +:+ userId +:+ substr_from path (pos + size pattern) in
        '(ok, f) ← CreateDirectory (match rfind path "/" with Some i => substr path 0 i | None => path end) f;
        Some (if (ok : bool) then (path, f) else ("", f))
    end.

(** ** Creating directories *)

Lemma ensure_spec p f ok f' : (if fs_access p f then (true, f) else fs_mkdir p f) = (ok, f') ->
  (forall q, fs_access q f' = (ok && bool_decide (q = p)) || fs_access q f) /\ (ok = false -> fs_access p f = false).
Proof.
  destruct (fs_access p f) eqn:Ha; [intros [= <- <-]|intros Hm].
  - split; [|done]. intros q. cbn. case_bool_decide; [by subst|done].
  - split; [|done]. intros q. destruct ok; cbn; [by apply fs_mkdir_ok|by apply fs_mkdir_fail with p].
Qed.

Lemma substr_prefix path i : chars (substr path 0 i) `prefix_of` chars path.
Proof. unfold substr. rewrite chars_str_of, drop_0. exists (drop i (chars path)). by rewrite take_drop. Qed.

Lemma substr_proper path i : (i < size path)%nat -> substr path 0 i <> path.
Proof.
  intros Hi E. apply (f_equal size) in E. unfold substr, size in *. rewrite chars_str_of, drop_0, length_take in E. lia.
Qed.

(** The loop ends; it removes nothing, adds only prefixes of the path, and reports
    whether the path exists; when it does, all its parents do. *)
Lemma create_loop_spec fuel path index f : (index <= size path)%nat -> (size path < index + fuel)%nat ->
  exists ok f', create_loop fuel path index f = Some (ok, f') /\
    (forall q, fs_access q f = true -> fs_access q f' = true) /\
    (forall q, fs_access q f' = true -> fs_access q f = true \/ chars q `prefix_of` chars path) /\
    (fs_access path f = false -> ok = fs_access path f') /\
    (ok = true -> forall i, (index < i)%nat -> occurs_at ["/"%char] (chars path) i -> fs_access (substr path 0 i) f' = true).
Proof.
  revert index f. induction fuel as [|fuel IH]; intros index f Hi Hf; [lia|]. cbn [create_loop].
  set (next := find path "/" (index + 1)). set (sub := match next with None => path | Some i => substr path 0 i end).
  assert (chars sub `prefix_of` chars path) as Hsub by (unfold sub; destruct next; [apply substr_prefix|done]).
  destruct (if fs_access sub f then (true, f) else fs_mkdir sub f) as [ok f1] eqn:E.
  destruct (ensure_spec sub f ok f1 E) as [Hacc Hno]. destruct ok; cbn [andb] in Hacc; cycle 1.
  { exists false, f1. split_and!; [done| | | |done].
    - intros q Hq. by rewrite Hacc, Hq.
    - intros q Hq. left. by rewrite Hacc in Hq.
    - intros Hp. by rewrite Hacc, Hp. }
  destruct next as [i|] eqn:En; cycle 1.
  { exists true, f1. split_and!; [done| | | |].
    - intros q Hq. by rewrite Hacc, Hq, orb_true_r.
    - intros q. rewrite Hacc. intros [Hq|?]%orb_true_iff; [right|by left]. apply bool_decide_eq_true in Hq. by subst.
    - intros _. rewrite Hacc. by rewrite bool_decide_eq_true_2.
    - intros _ j Hj Ho. by destruct (find_None_spec _ _ _ En j ltac:(lia) Ho). }
  apply find_spec in En as (Hle & Ho & Hmin). pose proof (occurs_at_length _ _ _ Ho) as Hlen. cbn in Hlen. change (length (chars path)) with (size path) in Hlen.
  destruct (IH i f1) as (ok & f' & -> & Hkeep & Hnew & Hok & Hpar); [lia|lia|]. exists ok, f'. split_and!; [done| | | |].
  - intros q Hq. apply Hkeep. by rewrite Hacc, Hq, orb_true_r.
  - intros q Hq. destruct (Hnew q Hq) as [Hq'|?]; [|by right]. rewrite Hacc in Hq'.
    apply orb_true_iff in Hq' as [Hq'|?]; [|by left]. right. apply bool_decide_eq_true in Hq'. by subst q.
  - intros Hp. apply Hok. rewrite Hacc, Hp, orb_false_r. apply bool_decide_eq_false. intros Hs. by apply (substr_proper path i); [lia|].
  - intros -> j Hj Hoj. destruct (decide (i < j)%nat) as [?|Hji]; [by apply Hpar|].
    destruct (decide (j = i)) as [->|]; [|by destruct (Hmin j); [lia|]]. apply Hkeep. rewrite Hacc.
    by rewrite bool_decide_eq_true_2.
Qed.

(** Creating a directory always returns; it reports exactly whether the path exists
    afterwards. Nothing that existed is removed, only prefixes of the path are added,
    and when the path was missing and has been created all its parent directories
    exist. *)
Lemma CreateDirectory_spec (path : string) (f : fs) :
  exists f', CreateDirectory path f = Some (fs_access path f', f') /\
    (forall q, fs_access q f = true -> fs_access q f' = true) /\
    (forall q, fs_access q f' = true -> fs_access q f = true \/ chars q `prefix_of` chars path) /\
    (fs_access path f = false -> fs_access path f' = true ->
       forall i, (0 < i)%nat -> occurs_at ["/"%char] (chars path) i -> fs_access (substr path 0 i) f' = true).
Proof.
  unfold CreateDirectory. destruct (fs_access path f) eqn:Ha.
  { exists f. rewrite Ha. split_and!; [done|done|by left|done]. }
  destruct (create_loop_spec (size path + 2) path 0 f) as (ok & f' & -> & Hkeep & Hnew & Hok & Hpar); [lia|lia|].
  specialize (Hok Ha). cbn [mbind option_bind]. exists f'. subst ok. split_and!; [by destruct (fs_access path f')|done|done|].
  intros _. exact Hpar.
Qed.

(** ** Splitting and joining *)

(** What [Split] keeps of the components: the non-empty ones, and the last. *)
Fixpoint kept (cs : list (list ascii)) : list string :=
  match cs with
  | [] => []
  | [h] => [str_of h]
  | h :: t => (match h with [] => [] | _ => [str_of h] end) ++ kept t
  end.

Lemma Split_loop_spec fuel before rest values : (length rest < fuel)%nat ->
  Split_loop fuel (str_of (before ++ rest)) "/" (length before) values = Some (values ++ kept (Constant.components rest)).
Proof.
  revert before rest values. induction fuel as [|fuel IH]; intros before rest values Hf; [lia|]. cbn [Split_loop].
  rewrite find_app. destruct (Constant.components_cons rest) as (h & t & Ec). rewrite Ec.
  apply Constant.components_head in Ec as (b & -> & Hh & Hb & ->). destruct b as [|c b].
  - rewrite app_nil_r. rewrite (lfind_none_fresh "/"%char [] h Hh). cbn [fmap option_fmap option_map kept].
    unfold substr_from. by rewrite chars_str_of, drop_app_length.
  - destruct Hb as [?|[= ->]]; [done|]. rewrite (lfind_skip "/"%char [] h b Hh). cbn [fmap option_fmap option_map].
    destruct (Constant.components_cons b) as (h' & t' & Eb). rewrite Eb. rewrite length_app in Hf. cbn in Hf.
    change (size "/") with 1%nat.
    destruct h as [|x h].
    + cbn [length]. rewrite Nat.add_0_r, Nat.eqb_refl. cbn [app].
      specialize (IH (before ++ ["/"%char]) b values). rewrite <- app_assoc in IH. cbn [app] in IH. rewrite length_app in IH. cbn [length] in IH.
      rewrite IH by lia. by rewrite Eb.
    + destruct (Nat.eqb_spec (length before + length (x :: h)) (length before)) as [E|_]; [cbn in E; lia|].
      specialize (IH (before ++ (x :: h) ++ ["/"%char]) b (values ++ [str_of (x :: h)])).
      rewrite <- !app_assoc in IH. rewrite !length_app in IH. cbn [length] in IH.
      replace (length before + length (x :: h) + 1)%nat with (length before + (S (length h) + 1))%nat by (cbn; lia).
      unfold substr. rewrite chars_str_of, drop_app_length.
      replace (length before + length (x :: h) - length before)%nat with (length (x :: h)) by lia. rewrite take_app_length.
      cbn [app] in IH |- *. rewrite IH by lia. by rewrite Eb.
Qed.

Lemma Split_spec source : Split source "/" = Some (kept (Constant.components (chars source))).
Proof.
  unfold Split. pose proof (Split_loop_spec (size source + 2) [] (chars source) []) as HS. cbn [app length] in HS.
  rewrite str_of_chars in HS. apply HS. unfold size. lia.
Qed.

(** What a component of a pattern stands for. *)
Definition resolve (m : Manager) (metaData : StoreMetaData.StoreMetaData) (part : string) : string :=
  match find_action part actions_ with None => part | Some a => run_action m a metaData end.

(** The path made of sections. *)
Definition path_of (sections : list string) : string := fold_right (fun s r => "/" +:+ s +:+ r) "" (filter (fun s => s <> "") sections).

Lemma path_of_cons s l : path_of (s :: l) = if bool_decide (s = "") then path_of l else "/" +:+ s +:+ path_of l.
Proof. unfold path_of. rewrite filter_cons. case_bool_decide; case_decide; done. Qed.

Lemma join_sections_path m metaData parts acc :
  join_sections m metaData (zip parts ((fun v => find_action v actions_) <$> parts)) acc
  = acc +:+ path_of (resolve m metaData <$> parts).
Proof.
  revert acc. induction parts as [|p parts IH]; intros acc; cbn [zip zip_with fmap list_fmap join_sections].
  { apply chars_inj. by rewrite chars_app, app_nil_r. }
  rewrite IH, path_of_cons. fold (resolve m metaData p). case_bool_decide; [done|]. by rewrite !string_app_assoc.
Qed.

(** Empty components stand for nothing, so that it does not matter which are kept. *)
Lemma path_of_kept m metaData cs :
  path_of (resolve m metaData <$> kept cs) = path_of (resolve m metaData <$> (str_of <$> cs)).
Proof.
  induction cs as [|h [|h' t] IH]; [done|done|]. change (kept (h :: h' :: t)) with ((match h with [] => [] | _ => [str_of h] end) ++ kept (h' :: t)).
  rewrite (fmap_cons str_of), (fmap_cons (resolve m metaData)), path_of_cons.
  destruct h as [|c h].
  - cbn [app]. change (resolve m metaData (str_of [])) with "". by rewrite bool_decide_eq_true_2.
  - cbn [app]. rewrite fmap_cons, path_of_cons, IH. done.
Qed.

(** ** Choosing the strategy *)

(** The layout in force at a version: the newest one not newer than the version, and
    the oldest one when all are newer. *)
Definition in_force {A} (ver : A -> Z) (v : Z) (s : A) (l : list A) : Prop :=
  (ver s <= v /\ forall s', s' ∈ l -> ver s' <= v -> ver s' <= ver s) \/
  (forall s', s' ∈ l -> v < ver s' /\ ver s <= ver s').

Definition newest_first (a b : StrategyImpl) : Prop := version_i b <= version_i a.

Hypothesis sort_perm : forall l, sort l ≡ₚ l.
Hypothesis sort_sorted : forall l, StronglySorted newest_first (sort l).

Lemma index_from_spec i v l : StronglySorted newest_first l ->
  match index_from i v l with
  | Some j => exists k s, j = i + Z.of_nat k /\ l !! k = Some s /\ version_i s <= v /\
                forall s', s' ∈ l -> version_i s' <= v -> version_i s' <= version_i s
  | None => forall s, s ∈ l -> v < version_i s
  end.
Proof.
  intros Hs. revert i. induction Hs as [|s l Hs IH Hf]; intros i; cbn; [intros s Hin; inversion Hin|].
  destruct (Z.leb_spec (version_i s) v) as [Hle|Hgt].
  - exists 0%nat, s. split_and!; [lia|done|done|]. intros s' [->|Hin]%elem_of_cons _; [lia|].
    rewrite Forall_forall in Hf. exact (Hf s' Hin).
  - specialize (IH (i + 1)). destruct (index_from (i + 1) v l) as [j|].
    + destruct IH as (k & s' & -> & Hk & Hv & Hmax). exists (S k), s'. split_and!; [lia|done|done|].
      intros s'' [->|Hin]%elem_of_cons Hv''; [lia|by apply Hmax].
    + intros s' [->|Hin]%elem_of_cons; [done|by apply IH].
Qed.

Lemma sorted_last (l : list StrategyImpl) s : StronglySorted newest_first l -> last l = Some s ->
  forall s', s' ∈ l -> version_i s <= version_i s'.
Proof.
  induction 1 as [|x l Hs IH Hf]; [done|]. intros Hl s' [->|Hin]%elem_of_cons.
  - destruct l as [|y l]; [injection Hl as ->; lia|]. rewrite Forall_forall in Hf. apply Hf. by apply last_Some_elem_of.
  - destruct l as [|y l]; [inversion Hin|]. by apply IH.
Qed.

Lemma GetVersionIndex_spec v m : StronglySorted newest_first (strategies_ m) -> strategies_ m <> [] ->
  Z.of_nat (length (strategies_ m)) < 2 ^ 31 ->
  exists s, 0 <= GetVersionIndex v m /\ strategies_ m !! Z.to_nat (GetVersionIndex v m) = Some s /\
    in_force version_i v s (strategies_ m).
Proof.
  intros Hs Hne Hlen. unfold GetVersionIndex. pose proof (index_from_spec 0 v (strategies_ m) Hs) as Hi.
  destruct (index_from 0 v (strategies_ m)) as [j|].
  - destruct Hi as (k & s & -> & Hk & Hv & Hmax). exists s. pose proof (lookup_lt_Some _ _ _ Hk).
    rewrite (swrap_id 32) by (unfold in_s; lia). replace (Z.to_nat (0 + Z.of_nat k)) with k by lia. split_and!; [lia|done|by left].
  - destruct (last (strategies_ m)) as [s|] eqn:El; [|by apply last_None in El]. exists s.
    assert (0 < length (strategies_ m))%nat by (destruct (strategies_ m); [done|cbn; lia]).
    rewrite (swrap_id 32) by (unfold in_s; lia). rewrite last_lookup in El.
    replace (Z.to_nat (Z.of_nat (length (strategies_ m)) - 1)) with (pred (length (strategies_ m))) by lia.
    split_and!; [lia|done|]. right. intros s' Hin. split; [by apply Hi|]. apply (sorted_last (strategies_ m)); [done| |done].
    by rewrite last_lookup.
Qed.

Lemma make_impl_spec s : make_impl s = Some (mkImpl (autoCreate s) (version s) (metaPath s) (clonePath s)
  (kept (Constant.components (chars (pattern s))))
  ((fun value => find_action value actions_) <$> kept (Constant.components (chars (pattern s))))).
Proof. unfold make_impl. by rewrite Split_spec. Qed.

Lemma Initialize_spec strategies types : exists impls, Forall2 (fun s i => make_impl s = Some i) strategies impls /\
  Initialize strategies types = Some (mkManager (sort impls) types).
Proof.
  assert (is_Some (mapM make_impl strategies)) as [impls Hi].
  { apply mapM_is_Some, Forall_forall. intros s _. change (is_Some (make_impl s)). rewrite make_impl_spec. by eexists. }
  exists impls. unfold Initialize. rewrite Hi. split; [by apply mapM_Some|done].
Qed.

Lemma create_if_Some b path f : is_Some (create_if b path f).
Proof.
  unfold create_if. destruct b; [|done]. unfold CreateDirectory. destruct (fs_access path f); [done|].
  destruct (create_loop_spec (size path + 2) path 0 f) as (ok & f' & -> & _); [lia|lia|]. by eexists.
Qed.

(** After initialisation with any non-empty list of strategies, the path of a store
    is always generated: from the newest layout that is not newer than the asked
    version, or the oldest one when all are newer, it is made of the components of
    that layout's pattern in order, each placeholder replaced by its value for the
    store and the empty ones left out. *)
Lemma GetStorePath_sections (strategies : list Strategy) (types : list StoreType) (metaData : StoreMetaData.StoreMetaData)
    (v : Z) (f : fs) : strategies <> [] -> Z.of_nat (length strategies) < 2 ^ 31 ->
  exists m s f', Initialize strategies types = Some m /\ s ∈ strategies /\ in_force version v s strategies /\
    GetStorePath m metaData v f =
      Some (path_of (resolve m metaData <$> (str_of <$> Constant.components (chars (pattern s)))), f').
Proof.
  intros Hne Hlen. destruct (Initialize_spec strategies types) as (impls & Hi & ->). set (m := mkManager (sort impls) types).
  pose proof (Forall2_length _ _ _ Hi) as Hl.
  assert (length (sort impls) = length impls) as Hls by (by rewrite sort_perm).
  destruct (GetVersionIndex_spec v m) as (impl & Hpos & Hlook & Hforce); cbn; [apply sort_sorted| |lia|].
  { intros E. rewrite E in Hls. destruct strategies; [done|]. cbn in *. lia. }
  assert (impl ∈ impls) as Hin by (rewrite <- (sort_perm impls); by apply list_elem_of_lookup_2 in Hlook).
  apply list_elem_of_lookup in Hin as [k Hk]. destruct (Forall2_lookup_r _ _ _ _ _ Hi Hk) as (s & Hks & Es).
  rewrite make_impl_spec in Es. injection Es as Es.
  exists m, s. unfold GetStorePath, GenPath. destruct (Z.ltb_spec (GetVersionIndex v m) 0); [lia|]. rewrite Hlook, <- Es.
  cbn [path_i pipes_i autoCreate_i]. rewrite join_sections_path, string_app_nil_l, path_of_kept. change (bool_decide ("" = "")) with true. cbv iota.
  destruct (create_if_Some (autoCreate s) (path_of (resolve m metaData <$> (str_of <$> Constant.components (chars (pattern s))))) f) as [f' ->].
  exists f'. split_and!; [done|by apply list_elem_of_lookup_2 in Hks| |done].
  subst impl. destruct Hforce as [[Hv Hmax]|Hall]; [left|right]; cbn in *.
  - split; [done|]. intros s' (j & Hj)%list_elem_of_lookup Hv'. destruct (Forall2_lookup_l _ _ _ _ _ Hi Hj) as (i' & Hi' & Ei').
    rewrite make_impl_spec in Ei'. injection Ei' as <-. apply list_elem_of_lookup_2 in Hi'. rewrite <- (sort_perm impls) in Hi'. by specialize (Hmax _ Hi' Hv').
  - intros s' (j & Hj)%list_elem_of_lookup. destruct (Forall2_lookup_l _ _ _ _ _ Hi Hj) as (i' & Hi' & Ei').
    rewrite make_impl_spec in Ei'. injection Ei' as <-. apply list_elem_of_lookup_2 in Hi'. rewrite <- (sort_perm impls) in Hi'. exact (Hall _ Hi').
Qed.
End Manager.

(** ** Witness: a file system of path names, and a layout as the service configures it *)

#[local] Program Instance NameFs : FileSystem := {
  fs := gset string;
  fs_access p f := bool_decide (p ∈ f);
  fs_mkdir p f := (true, {[p]} ∪ f)
}.
Next Obligation. intros p f f' [= <-] q. destruct (decide (q = p)) as [->|]; repeat case_bool_decide; set_solver. Qed.
Next Obligation. done. Qed.

Definition insert_impl (s : StrategyImpl) : list StrategyImpl -> list StrategyImpl :=
  fix go l := match l with
              | [] => [s]
              | x :: l' => if version_i x <=? version_i s then s :: l else x :: go l'
              end.
Definition insertion_sort (l : list StrategyImpl) : list StrategyImpl := fold_right insert_impl [] l.

Lemma insert_impl_perm s l : insert_impl s l ≡ₚ s :: l.
Proof. induction l as [|x l IH]; cbn; [done|]. case_match; [done|]. rewrite IH. apply Permutation_swap. Qed.

Lemma insertion_sort_perm l : insertion_sort l ≡ₚ l.
Proof. induction l as [|x l IH]; cbn; [done|]. by rewrite insert_impl_perm, IH. Qed.

Lemma insert_impl_sorted s l : StronglySorted newest_first l -> StronglySorted newest_first (insert_impl s l).
Proof.
  induction 1 as [|x l Hs IH Hf]; cbn; [apply SSorted_cons; [apply SSorted_nil|apply List.Forall_nil]|].
  destruct (Z.leb_spec (version_i x) (version_i s)) as [Hle|Hgt].
  - constructor; [by constructor|]. constructor; [done|]. eapply Forall_impl; [exact Hf|]. intros y Hy. unfold newest_first in *. lia.
  - constructor; [done|]. rewrite insert_impl_perm. constructor; [unfold newest_first; lia|done].
Qed.

Lemma insertion_sort_sorted l : StronglySorted newest_first (insertion_sort l).
Proof. induction l as [|s l IH]; [apply SSorted_nil|]. by apply insert_impl_sorted. Qed.

Definition layouts : list Strategy :=
  [ mkStrategy false 1 "/data/misc_de/{userId}/{bundleName}" "/data/meta" "";
    mkStrategy false 3 "/data/{type}/{area}/{userId}/database/{bundleName}/{store}" "/data/meta" "" ].
Definition some_store : StoreMetaData.StoreMetaData := StoreMetaData.blank_m.

Lemma GetStorePath_sections_witness :
  layouts <> [] /\ Z.of_nat (length layouts) < 2 ^ 31 /\
  exists m s f', Initialize insertion_sort layouts [] = Some m /\ s ∈ layouts /\ in_force version 2 s layouts /\
    GetStorePath (fun _ => TOKEN_HAP) 0 1 2 m some_store 2 ∅ =
      Some (path_of (resolve (fun _ => TOKEN_HAP) 0 1 2 m some_store <$> (str_of <$> Constant.components (chars (pattern s)))), f').
Proof.
  split; [done|]. split; [done|].
  apply (GetStorePath_sections insertion_sort (fun _ => TOKEN_HAP) 0 1 2 insertion_sort_perm insertion_sort_sorted layouts [] some_store 2 ∅); done.
Defined.
End DirectoryManager.
