(* ===== verification/Checker.v ===== *)
(** * Checkers: who is calling, and is it trusted ([framework/checker], [app/src/checker])

    A checker answers for one kind of caller which application it is and whether it
    may use a store: [SystemChecker] for native services and shells, [BundleChecker]
    for installed applications, whose identifiers it asks the bundle manager for and
    caches. [CheckerManager] asks the loaded checkers in the order of their names.

    Access tokens, the bundle manager and the hash function are outside: they are
    parameters, the bundle manager's answers also change over time. The cache is the
    bucket of [Interfaces]. *)

From Stdlib Require Import Ascii.
From S2P Require Import Prelude CppString Interfaces.

Module Checker.

Inductive TokenType : Type := TOKEN_INVALID | TOKEN_HAP | TOKEN_NATIVE | TOKEN_SHELL.

#[export] Instance TokenType_eq_dec : EqDecision TokenType.
Proof. solve_decision. Defined.

(* @src framework/include/checker/checker_manager.h 25-31 CheckerManager::Trust *)
Record Trust := mkTrust {
  t_bundleName : string;
  t_appId : string;
  t_packageName : string;
  t_base64Key : string;
  t_checker : string
}.

(* @src framework/include/checker/checker_manager.h 34-39 CheckerManager::StoreInfo *)
Record StoreInfo := mkInfo { uid : Z; tokenId : Z; bundleName : string; storeId : string }.

(** What the environment answers: the type of a token, the bundle a token was issued
    to, and the hash. *)
Record Env := mkEnv {
  GetTokenTypeFlag : Z -> TokenType;
  GetHapTokenInfo : Z -> option string;
  Sha256 : string -> string;
  BASE_USER_RANGE : Z
}.

(** The bundle manager's [GetAppIdByBundleName]; [None] when it cannot be reached. *)
Abbreviation Bms := (option (string -> Z -> string)).

(** ** The interface of a checker *)
(* @src framework/include/checker/checker_manager.h 40-59 CheckerManager::Checker *)
Class CheckerOps (S : Type) := {
  SetTrustInfo : Trust -> S -> bool * S;
  SetDistrustInfo : Trust -> S -> bool * S;
  SetSwitchesInfo : Trust -> S -> bool * S;
  GetAppId : Env -> Bms -> StoreInfo -> S -> string * S;
  IsValid : Env -> StoreInfo -> S -> bool;
  IsDistrust : Env -> Bms -> StoreInfo -> S -> bool * S;
  IsSwitches : Env -> StoreInfo -> S -> bool;
  AddDynamicStore : StoreInfo -> S -> bool * S;
  AddStaticStore : StoreInfo -> S -> bool * S;
  GetDynamicStores : S -> list StoreInfo;
  GetStaticStores : S -> list StoreInfo;
  IsDynamic : StoreInfo -> S -> bool;
  IsStatic : StoreInfo -> S -> bool;
  DeleteCache : string -> Z -> Z -> S -> S;
  ClearCache : S -> S
}.

(** The configured lists, which both checkers keep. *)
Record Lists := mkLists {
  trusts_ : gmap string string;
  distrusts_ : gmap string string;
  switches_ : gmap string string;
  dynamicStores_ : list StoreInfo;
  staticStores_ : list StoreInfo
}.
Definition no_lists : Lists := mkLists ∅ ∅ ∅ [] [].

(* @src app/src/checker/system_checker.cpp 37-41 SystemChecker::SetTrustInfo *)
Definition add_trust (t : Trust) (l : Lists) : Lists :=
  mkLists (<[t_bundleName t := t_appId t]> (trusts_ l)) (distrusts_ l) (switches_ l) (dynamicStores_ l) (staticStores_ l).
(* @src app/src/checker/system_checker.cpp 43-47 SystemChecker::SetDistrustInfo *)
Definition add_distrust (t : Trust) (l : Lists) : Lists :=
  mkLists (trusts_ l) (<[t_bundleName t := t_appId t]> (distrusts_ l)) (switches_ l) (dynamicStores_ l) (staticStores_ l).
(* @src app/src/checker/system_checker.cpp 49-53 SystemChecker::SetSwitchesInfo *)
Definition add_switches (t : Trust) (l : Lists) : Lists :=
  mkLists (trusts_ l) (distrusts_ l) (<[t_bundleName t := t_appId t]> (switches_ l)) (dynamicStores_ l) (staticStores_ l).
(* @src app/src/checker/system_checker.cpp 120-124 SystemChecker::AddDynamicStore *)
Definition add_dynamic (i : StoreInfo) (l : Lists) : Lists :=
  mkLists (trusts_ l) (distrusts_ l) (switches_ l) (dynamicStores_ l ++ [i]) (staticStores_ l).
(* @src app/src/checker/system_checker.cpp 126-130 SystemChecker::AddStaticStore *)
Definition add_static (i : StoreInfo) (l : Lists) : Lists :=
  mkLists (trusts_ l) (distrusts_ l) (switches_ l) (dynamicStores_ l) (staticStores_ l ++ [i]).

(* @src app/src/checker/system_checker.cpp 100-118 SystemChecker::IsDynamic *)
Definition lists_store (info : StoreInfo) (stores : list StoreInfo) : bool :=
  existsb (fun store => bool_decide (bundleName info = bundleName store) && bool_decide (storeId info = storeId store)) stores.

Definition is_system (env : Env) (info : StoreInfo) : bool :=
  let type := GetTokenTypeFlag env (tokenId info) in
  bool_decide (type = TOKEN_NATIVE) || bool_decide (type = TOKEN_SHELL).

(** ** [SystemChecker] *)

Record System := mkSystem { sys : Lists }.

(* @src app/src/checker/system_checker.cpp 55-63 SystemChecker::GetAppId *)
Definition System_GetAppId (env : Env) (info : StoreInfo) (s : System) : string :=
  if negb (is_system env info) then ""
  else match trusts_ (sys s) !! bundleName info with Some appId => appId | None => bundleName info end.

(* @src app/src/checker/system_checker.cpp 71-81 SystemChecker::IsDistrust *)
Definition System_IsDistrust (env : Env) (info : StoreInfo) (s : System) : bool :=
  if negb (is_system env info) then false
  else match distrusts_ (sys s) !! bundleName info with Some _ => true | None => false end.

(* @src app/src/checker/system_checker.cpp 83-89 SystemChecker::IsSwitches *)
Definition System_IsSwitches (env : Env) (info : StoreInfo) (s : System) : bool :=
  if negb (is_system env info) then false
  else match switches_ (sys s) !! bundleName info with Some _ => true | None => false end.

(** The cache operations are those of the base class, which do nothing. *)
(* @src app/src/checker/system_checker.cpp 33-131 SystemChecker *)
#[export] Instance SystemChecker : CheckerOps System := {
  SetTrustInfo t s := (true, mkSystem (add_trust t (sys s)));
  SetDistrustInfo t s := (true, mkSystem (add_distrust t (sys s)));
  SetSwitchesInfo t s := (true, mkSystem (add_switches t (sys s)));
  GetAppId env _ info s := (System_GetAppId env info s, s);
  IsValid env info _ := is_system env info;
  IsDistrust env _ info s := (System_IsDistrust env info s, s);
  IsSwitches := System_IsSwitches;
  AddDynamicStore i s := (true, mkSystem (add_dynamic i (sys s)));
  AddStaticStore i s := (true, mkSystem (add_static i (sys s)));
  GetDynamicStores s := dynamicStores_ (sys s);
  GetStaticStores s := staticStores_ (sys s);
  IsDynamic info s := lists_store info (dynamicStores_ (sys s));
  IsStatic info s := lists_store info (staticStores_ (sys s));
  DeleteCache _ _ _ s := s;
  ClearCache s := s
}.

(** ** [BundleChecker] *)

Section Bundle.
Context {L : LruBucket string string}.

Definition CACHE_SIZE : nat := 32.

(* @src app/src/checker/bundle_checker.h 43-57 BundleChecker *)
Record Bundle := mkBundle { bun : Lists; appIds_ : bucket string string }.

(* @src app/src/checker/bundle_checker.cpp 64-67 BundleChecker::GetKey *)
Definition GetKey (bundleName : string) (userId : Z) : string := bundleName +:+ "###" +:+ to_string userId.

(* @src app/src/checker/bundle_checker.cpp 69-75 BundleChecker::GetAppidFromCache *)
Definition GetAppidFromCache (bundleName : string) (userId : Z) (b : Bundle) : string * Bundle :=
  let '(r, ids) := lru_get (GetKey bundleName userId) (appIds_ b) in (default "" r, mkBundle (bun b) ids).

Definition user_of (env : Env) (info : StoreInfo) : Z := Z.quot (uid info) (BASE_USER_RANGE env).

(* @src app/src/checker/bundle_checker.cpp 77-107 BundleChecker::GetBundleAppId *)
Definition GetBundleAppId (env : Env) (bms : Bms) (info : StoreInfo) (b : Bundle) : string * Bundle :=
  let userId := user_of env info in
  let '(appId, b) := GetAppidFromCache (bundleName info) userId b in
  if negb (bool_decide (appId = "")) then (appId, b)
  else match bms with
       | None => ("", b)
       | Some GetAppIdByBundleName =>
           let appId := GetAppIdByBundleName (bundleName info) userId in
           if bool_decide (appId = "") then (appId, b)
           else (appId, mkBundle (bun b) (lru_set (GetKey (bundleName info) userId) appId (appIds_ b)))
       end.

(* @src app/src/checker/bundle_checker.cpp 109-113 BundleChecker::DeleteCache *)
Definition Bundle_DeleteCache (bundleName : string) (user index : Z) (b : Bundle) : Bundle :=
  mkBundle (bun b) (lru_delete (GetKey bundleName user) (appIds_ b)).

(* @src app/src/checker/bundle_checker.cpp 115-119 BundleChecker::ClearCache *)
Definition Bundle_ClearCache (b : Bundle) : Bundle := mkBundle (bun b) (lru_reset CACHE_SIZE (lru_reset 0 (appIds_ b))).

Definition is_hap (env : Env) (info : StoreInfo) : bool := bool_decide (GetTokenTypeFlag env (tokenId info) = TOKEN_HAP).

(* @src app/src/checker/bundle_checker.cpp 121-136 BundleChecker::GetAppId *)
Definition Bundle_GetAppId (env : Env) (bms : Bms) (info : StoreInfo) (b : Bundle) : string * Bundle :=
  if negb (is_hap env info) then ("", b)
  else
    let '(appId, b) := GetBundleAppId env bms info b in
    if bool_decide (appId = "") then ("", b)
    else if bool_decide (trusts_ (bun b) !! bundleName info = Some appId) then (bundleName info, b)
    else (Sha256 env appId, b).

(* @src app/src/checker/bundle_checker.cpp 138-149 BundleChecker::IsValid *)
Definition Bundle_IsValid (env : Env) (info : StoreInfo) : bool :=
  if negb (is_hap env info) then false
  else match GetHapTokenInfo env (tokenId info) with
       | None => false
       | Some bundle => bool_decide (bundle = bundleName info)
       end.

(* @src app/src/checker/bundle_checker.cpp 151-165 BundleChecker::IsDistrust *)
Definition Bundle_IsDistrust (env : Env) (bms : Bms) (info : StoreInfo) (b : Bundle) : bool * Bundle :=
  if negb (is_hap env info) then (false, b)
  else
    let '(appId, b) := GetBundleAppId env bms info b in
    if bool_decide (appId = "") then (false, b)
    else (bool_decide (distrusts_ (bun b) !! bundleName info = Some appId), b).

(* @src app/src/checker/bundle_checker.cpp 46-62 BundleChecker::SetTrustInfo *)
Definition on_lists (f : Lists -> Lists) (b : Bundle) : Bundle := mkBundle (f (bun b)) (appIds_ b).

(* @src app/src/checker/bundle_checker.cpp 167-212 BundleChecker *)
#[export] Instance BundleChecker : CheckerOps Bundle := {
  SetTrustInfo t b := (true, on_lists (add_trust t) b);
  SetDistrustInfo t b := (true, on_lists (add_distrust t) b);
  SetSwitchesInfo t b := (true, on_lists (add_switches t) b);
  GetAppId := Bundle_GetAppId;
  IsValid env info _ := Bundle_IsValid env info;
  IsDistrust := Bundle_IsDistrust;
  IsSwitches _ _ _ := false;
  AddDynamicStore i b := (true, on_lists (add_dynamic i) b);
  AddStaticStore i b := (true, on_lists (add_static i) b);
  GetDynamicStores b := dynamicStores_ (bun b);
  GetStaticStores b := staticStores_ (bun b);
  IsDynamic info b := lists_store info (dynamicStores_ (bun b));
  IsStatic info b := lists_store info (staticStores_ (bun b));
  DeleteCache := Bundle_DeleteCache;
  ClearCache := Bundle_ClearCache
}.

(** ** [CheckerManager] *)

(** A pointer to a checker: the two classes there are. *)
Inductive AnyChecker : Type := ASystem (s : System) | ABundle (b : Bundle).

(** A virtual call that may change the checker. *)
Definition invoke {R} (f : forall S (_ : CheckerOps S), S -> R * S) (c : AnyChecker) : R * AnyChecker :=
  match c with
  | ASystem s => let '(r, s) := f System _ s in (r, ASystem s)
  | ABundle b => let '(r, b) := f Bundle _ b in (r, ABundle b)
  end.

(** A virtual call that only reads. *)
Definition ask {R} (f : forall S (_ : CheckerOps S), S -> R) (c : AnyChecker) : R :=
  match c with ASystem s => f System _ s | ABundle b => f Bundle _ b end.

(** [checkers_] is ordered by name; a getter is [None] when it yields no checker. *)
(* @src framework/include/checker/checker_manager.h 76-78 checkers_ *)
Record Manager := mkManager { checkers_ : list (string * AnyChecker); getters_ : gmap string (option AnyChecker) }.

(** [checkers_[name] = checker] of a [std::map]. *)
Fixpoint put (name : string) (c : AnyChecker) (l : list (string * AnyChecker)) : list (string * AnyChecker) :=
  match l with
  | [] => [(name, c)]
  | (n, c') :: l' =>
      if bool_decide (n = name) then (name, c) :: l'
      else if String.ltb name n then (name, c) :: l else (n, c') :: put name c l'
  end.

Definition lookup_checker (name : string) (l : list (string * AnyChecker)) : option AnyChecker :=
  snd <$> List.find (fun e => bool_decide (e.1 = name)) l.

(* @src framework/checker/checker_manager.cpp 43-48 CheckerManager::RegisterPlugin *)
Definition RegisterPlugin (name : string) (c : option AnyChecker) (m : Manager) : Manager :=
  match getters_ m !! name with
  | Some _ => m
  | None => mkManager (checkers_ m) (<[name := c]> (getters_ m))
  end.

(* @src framework/checker/checker_manager.cpp 24-41 CheckerManager::LoadCheckers *)
Definition LoadCheckers (names : list string) (m : Manager) : Manager :=
  fold_left (fun m name =>
    match lookup_checker name (checkers_ m) with
    | Some _ => m
    | None => match getters_ m !! name with
              | Some (Some c) => mkManager (put name c (checkers_ m)) (getters_ m)
              | _ => m
              end
    end) names m.

(** The loop that asks one checker after another until an answer is final. *)
Fixpoint visit {R} (stop : R -> bool) (none : R) (f : AnyChecker -> R * AnyChecker) (l : list (string * AnyChecker))
    : R * list (string * AnyChecker) :=
  match l with
  | [] => (none, [])
  | (n, c) :: l =>
      let '(r, c) := f c in
      if stop r then (r, (n, c) :: l)
      else let '(r, l) := visit stop none f l in (r, (n, c) :: l)
  end.

Definition with_visit {R} (stop : R -> bool) (none : R) (f : AnyChecker -> R * AnyChecker) (m : Manager) : R * Manager :=
  let '(r, l) := visit stop none f (checkers_ m) in (r, mkManager l (getters_ m)).

(* @src framework/checker/checker_manager.cpp 50-58 CheckerManager::DeleteCache *)
Definition Manager_DeleteCache (bundleName : string) (user index : Z) (m : Manager) : Manager :=
  (with_visit (fun _ => false) tt (invoke (fun _ _ s => (tt, DeleteCache bundleName user index s))) m).2.

(* @src framework/checker/checker_manager.cpp 60-68 CheckerManager::ClearCache *)
Definition Manager_ClearCache (m : Manager) : Manager :=
  (with_visit (fun _ => false) tt (invoke (fun _ _ s => (tt, ClearCache s))) m).2.

(* @src framework/checker/checker_manager.cpp 70-83 CheckerManager::GetAppId *)
Definition Manager_GetAppId (env : Env) (bms : Bms) (info : StoreInfo) (m : Manager) : string * Manager :=
  with_visit (fun appId => negb (bool_decide (appId = ""))) "" (invoke (fun _ _ s => GetAppId env bms info s)) m.

(* @src framework/checker/checker_manager.cpp 85-97 CheckerManager::IsValid *)
Definition Manager_IsValid (env : Env) (info : StoreInfo) (m : Manager) : bool :=
  existsb (fun e => ask (fun _ _ s => IsValid env info s) e.2) (checkers_ m).

(* @src framework/checker/checker_manager.cpp 99-111 CheckerManager::IsDistrust *)
Definition Manager_IsDistrust (env : Env) (bms : Bms) (info : StoreInfo) (m : Manager) : bool * Manager :=
  with_visit (fun r => r) false (invoke (fun _ _ s => IsDistrust env bms info s)) m.

(* @src framework/checker/checker_manager.cpp 113-124 CheckerManager::IsSwitches *)
Definition Manager_IsSwitches (env : Env) (info : StoreInfo) (m : Manager) : bool :=
  existsb (fun e => ask (fun _ _ s => IsSwitches env info s) e.2) (checkers_ m).

(** [GetChecker] yields a pointer, through which the configuration fills the lists. *)
(* @src framework/checker/checker_manager.cpp 126-133 CheckerManager::GetChecker *)
Definition with_checker (name : string) (f : AnyChecker -> AnyChecker) (m : Manager) : Manager :=
  match lookup_checker name (checkers_ m) with
  | None => m
  | Some c => mkManager (put name (f c) (checkers_ m)) (getters_ m)
  end.

(** The answer of the first checker that knows any store. *)
Fixpoint first_stores (f : AnyChecker -> list StoreInfo) (l : list (string * AnyChecker)) : list StoreInfo :=
  match l with
  | [] => []
  | (_, c) :: l => match f c with [] => first_stores f l | res => res end
  end.

(* @src framework/checker/checker_manager.cpp 135-148 CheckerManager::GetDynamicStores *)
Definition Manager_GetDynamicStores (m : Manager) : list StoreInfo := first_stores (ask (fun _ _ s => GetDynamicStores s)) (checkers_ m).

(* @src framework/checker/checker_manager.cpp 149-162 CheckerManager::GetStaticStores *)
Definition Manager_GetStaticStores (m : Manager) : list StoreInfo := first_stores (ask (fun _ _ s => GetStaticStores s)) (checkers_ m).

(* @src framework/checker/checker_manager.cpp 163-174 CheckerManager::IsDynamic *)
Definition Manager_IsDynamic (info : StoreInfo) (m : Manager) : bool :=
  existsb (fun e => ask (fun _ _ s => IsDynamic info s) e.2) (checkers_ m).

(* @src framework/checker/checker_manager.cpp 175-186 CheckerManager::IsStatic *)
Definition Manager_IsStatic (info : StoreInfo) (m : Manager) : bool :=
  existsb (fun e => ask (fun _ _ s => IsStatic info s) e.2) (checkers_ m).

(** ** The key of the cache *)

Lemma last_char_split (c : ascii) (a b x y : list ascii) :
  a ++ c :: x = b ++ c :: y -> c ∉ x -> c ∉ y -> a = b /\ x = y.
Proof.
  revert b. induction a as [|d a IH]; intros [|e b] E Hx Hy; cbn in E.
  - by injection E.
  - injection E as -> E. exfalso. apply Hx. rewrite E. apply elem_of_app. right. by left.
  - injection E as -> E. exfalso. apply Hy. rewrite <- E. apply elem_of_app. right. by left.
  - injection E as -> E. destruct (IH b E Hx Hy) as [-> ->]. done.
Qed.

Lemma GetKey_inj b u b' u' : GetKey b u = GetKey b' u' -> b = b' /\ u = u'.
Proof.
  intros E. apply (f_equal chars) in E. unfold GetKey in E. rewrite !chars_app in E. cbn in E.
  assert (forall l d, l ++ "#"%char :: "#"%char :: "#"%char :: d = (l ++ ["#"%char; "#"%char]) ++ "#"%char :: d) as Hs
    by (intros; by rewrite <- app_assoc).
  rewrite !Hs in E. apply last_char_split in E as [E1 E2]; [|by apply to_string_chars; by_decide..].
  apply (inj (.++ ["#"%char; "#"%char])) in E1. split; [by apply chars_inj|]. by apply to_string_inj, chars_inj.
Qed.

(** ** The cache follows the installed applications *)

(** Entries of the cache are what the bundle manager would answer now. *)
Definition coherent (installed : string -> Z -> string) (b : Bundle) : Prop :=
  forall k a, peek k (appIds_ b) = Some a -> a <> "" /\ exists bn u, k = GetKey bn u /\ a = installed bn u.

Lemma GetAppidFromCache_spec inst bn u b : coherent inst b ->
  let '(r, b') := GetAppidFromCache bn u b in
  (r = "" \/ r <> "" /\ r = inst bn u) /\ bun b' = bun b /\ coherent inst b'.
Proof.
  intros Hc. unfold GetAppidFromCache. pose proof (lru_get_result (GetKey bn u) (appIds_ b)) as Hr.
  pose proof (lru_get_peek (GetKey bn u)) as Hp. destruct (lru_get (GetKey bn u) (appIds_ b)) as [r ids] eqn:Eg. cbn in Hr.
  split_and!; [|done|].
  - destruct r as [a|]; [right|by left]. cbn. destruct (Hc (GetKey bn u) a) as (Ha & bn' & u' & Ek & ->); [done|].
    apply GetKey_inj in Ek as [-> ->]. done.
  - intros k a Hk. apply (Hc k a). cbn in Hk. specialize (Hp k (appIds_ b)). rewrite Eg in Hp. cbn in Hp. by rewrite <- Hp.
Qed.

(** With the bundle manager at hand, the identifier is the installed one; without, it
    is that or empty. *)
Lemma GetBundleAppId_spec env inst bms info b : coherent inst b -> (bms = None \/ bms = Some inst) ->
  let '(r, b') := GetBundleAppId env bms info b in
  (bms = Some inst -> r = inst (bundleName info) (user_of env info)) /\ bun b' = bun b /\ coherent inst b'.
Proof.
  intros Hc Hb. unfold GetBundleAppId. pose proof (GetAppidFromCache_spec inst (bundleName info) (user_of env info) b Hc) as HG.
  destruct (GetAppidFromCache (bundleName info) (user_of env info) b) as [r b1]. destruct HG as (Hr & Hl & Hc1).
  case_bool_decide as Hre; cbn [negb]; [|by destruct Hr as [?|[_ ->]]].
  destruct Hb as [-> | ->]; [done|]. set (a := inst (bundleName info) (user_of env info)). case_bool_decide as Ha; [done|].
  split_and!; [done|done|]. unfold coherent. cbn [appIds_]. apply (lru_set_inv (fun k a => a <> "" /\ exists bn u, k = GetKey bn u /\ a = inst bn u)); [|done].
  split; [done|]. by eexists _, _.
Qed.

Lemma Bundle_GetAppId_coherent env inst bms info b : coherent inst b -> (bms = None \/ bms = Some inst) ->
  bun (Bundle_GetAppId env bms info b).2 = bun b /\ coherent inst (Bundle_GetAppId env bms info b).2.
Proof.
  intros Hc Hb. unfold Bundle_GetAppId. destruct (is_hap env info); [|done]. cbn [negb].
  pose proof (GetBundleAppId_spec env inst bms info b Hc Hb) as HG. destruct (GetBundleAppId env bms info b) as [r b1].
  destruct HG as (_ & Hl & Hc1). repeat case_bool_decide; done.
Qed.

Lemma Bundle_IsDistrust_coherent env inst bms info b : coherent inst b -> (bms = None \/ bms = Some inst) ->
  coherent inst (Bundle_IsDistrust env bms info b).2.
Proof.
  intros Hc Hb. unfold Bundle_IsDistrust. destruct (is_hap env info); [|done]. cbn [negb].
  pose proof (GetBundleAppId_spec env inst bms info b Hc Hb) as HG. destruct (GetBundleAppId env bms info b) as [r b1].
  destruct HG as (_ & Hl & Hc1). by case_bool_decide.
Qed.

(** ** The manager in its surroundings *)

(** The configuration of a checker. *)
Inductive config : Type := CTrust (t : Trust) | CDistrust (t : Trust) | CSwitches (t : Trust) | CDynamic (i : StoreInfo) | CStatic (i : StoreInfo).

Definition apply_config (c : config) (a : AnyChecker) : AnyChecker :=
  (invoke (fun _ _ s => match c with
                        | CTrust t => SetTrustInfo t s
                        | CDistrust t => SetDistrustInfo t s
                        | CSwitches t => SetSwitchesInfo t s
                        | CDynamic i => AddDynamicStore i s
                        | CStatic i => AddStaticStore i s
                        end) a).2.

Record World := mkWorld { mgr : Manager; installed : string -> Z -> string }.

(** Installing or removing an application changes the bundle manager's answer, and the
    service removes the entry from the cache. *)
Definition reinstall (bn : string) (u : Z) (a : string) (inst : string -> Z -> string) : string -> Z -> string :=
  fun bn' u' => if bool_decide (bn' = bn /\ u' = u) then a else inst bn' u'.

Inductive step : World -> World -> Prop :=
| w_appid env bms info m inst : bms = None \/ bms = Some inst ->
    step (mkWorld m inst) (mkWorld (Manager_GetAppId env bms info m).2 inst)
| w_distrust env bms info m inst : bms = None \/ bms = Some inst ->
    step (mkWorld m inst) (mkWorld (Manager_IsDistrust env bms info m).2 inst)
| w_install bn u index a m inst :
    step (mkWorld m inst) (mkWorld (Manager_DeleteCache bn u index m) (reinstall bn u a inst))
| w_clear m inst : step (mkWorld m inst) (mkWorld (Manager_ClearCache m) inst)
| w_config name c m inst : step (mkWorld m inst) (mkWorld (with_checker name (apply_config c) m) inst).

(** The static objects register themselves and the configuration loads them. *)
Definition start (empty : bucket string string) : Manager :=
  LoadCheckers ["SystemChecker"; "BundleChecker"]
    (RegisterPlugin "SystemChecker" (Some (ASystem (mkSystem no_lists)))
      (RegisterPlugin "BundleChecker" (Some (ABundle (mkBundle no_lists empty))) (mkManager [] ∅))).

Inductive initial : World -> Prop :=
| initial_world empty inst : (forall k, peek k empty = None) -> initial (mkWorld (start empty) inst).

Definition Inv (w : World) : Prop :=
  exists b s, checkers_ (mgr w) = [("BundleChecker", ABundle b); ("SystemChecker", ASystem s)] /\ coherent (installed w) b.

Lemma world_initial w : initial w -> Inv w.
Proof.
  intros [empty inst He]. exists (mkBundle no_lists empty), (mkSystem no_lists). split; [done|].
  intros k a Hk. cbn in Hk. by rewrite He in Hk.
Qed.

Lemma coherent_delete inst bn u a b : coherent inst b -> coherent (reinstall bn u a inst) (Bundle_DeleteCache bn u 0 b).
Proof.
  intros Hc k a' Hk. cbn in Hk. destruct (decide (k = GetKey bn u)) as [->|Hne]; [by rewrite lru_delete_same in Hk|].
  rewrite lru_delete_other in Hk by done. destruct (Hc k a' Hk) as (Ha & bn' & u' & -> & ->). split; [done|].
  exists bn', u'. split; [done|]. unfold reinstall. case_bool_decide as E; [destruct E as [-> ->]; done|done].
Qed.

Lemma coherent_clear inst b : coherent inst (Bundle_ClearCache b).
Proof.
  intros k a Hk. cbn in Hk. destruct (lru_reset_grow k CACHE_SIZE (lru_reset 0 (appIds_ b))) as [E|E]; rewrite E in Hk; [|done].
  by rewrite lru_reset_zero in Hk.
Qed.

Lemma world_step w w' : Inv w -> step w w' -> Inv w'.
Proof.
  intros (b & s & Hl & Hc) Hs. destruct Hs as [env bms info m inst Hb|env bms info m inst Hb|bn u index a m inst|m inst|name c m inst]; cbn in Hl, Hc.
  - exists (Bundle_GetAppId env bms info b).2, s. destruct (Bundle_GetAppId_coherent env inst bms info b Hc Hb) as [_ Hc'].
    split; [|done]. unfold Manager_GetAppId, with_visit. rewrite Hl. cbn. destruct (Bundle_GetAppId env bms info b) as [r b']. cbn.
    destruct (negb (bool_decide (r = ""))); [done|]. by destruct (negb _).
  - exists (Bundle_IsDistrust env bms info b).2, s. pose proof (Bundle_IsDistrust_coherent env inst bms info b Hc Hb) as Hc'.
    split; [|done]. unfold Manager_IsDistrust, with_visit. rewrite Hl. cbn. destruct (Bundle_IsDistrust env bms info b) as [r b']. cbn.
    destruct r; [done|]. by destruct (System_IsDistrust env info s).
  - exists (Bundle_DeleteCache bn u index b), s. unfold Manager_DeleteCache, with_visit. cbn. rewrite Hl. split; [done|]. by apply coherent_delete.
  - exists (Bundle_ClearCache b), s. unfold Manager_ClearCache, with_visit. cbn. rewrite Hl. split; [done|]. apply coherent_clear.
  - unfold with_checker, lookup_checker. rewrite Hl. cbn. destruct (bool_decide ("BundleChecker" = name)) eqn:E1; [|destruct (bool_decide ("SystemChecker" = name)) eqn:E2].
    + apply bool_decide_eq_true in E1. subst name. unfold Inv. cbn. destruct c; cbn; eexists _, s; (split; [reflexivity|done]).
    + apply bool_decide_eq_true in E2. subst name. unfold Inv. cbn. destruct c; cbn; eexists b, _; (split; [reflexivity|done]).
    + exists b, s. done.
Qed.

(** The identifier a caller is known by. *)
Definition identity (env : Env) (inst : string -> Z -> string) (bundleTrusts systemTrusts : gmap string string) (info : StoreInfo) : string :=
  match GetTokenTypeFlag env (tokenId info) with
  | TOKEN_HAP =>
      let appId := inst (bundleName info) (user_of env info) in
      if bool_decide (appId = "") then ""
      else if bool_decide (bundleTrusts !! bundleName info = Some appId) then bundleName info
      else Sha256 env appId
  | TOKEN_NATIVE | TOKEN_SHELL => default (bundleName info) (systemTrusts !! bundleName info)
  | TOKEN_INVALID => ""
  end.

Lemma Bundle_GetAppId_identity env inst info b s : coherent inst b -> is_hap env info = true ->
  (Bundle_GetAppId env (Some inst) info b).1 = identity env inst (trusts_ (bun b)) (trusts_ (sys s)) info.
Proof.
  intros Hc Hh. unfold Bundle_GetAppId, identity. rewrite Hh. cbn [negb]. apply bool_decide_eq_true in Hh. rewrite Hh.
  pose proof (GetBundleAppId_spec env inst (Some inst) info b Hc ltac:(by right)) as HG.
  destruct (GetBundleAppId env (Some inst) info b) as [r b1]. destruct HG as (Hr & Hl & _). rewrite <- (Hr eq_refl), Hl.
  by repeat case_bool_decide.
Qed.

Lemma System_GetAppId_identity env inst info b s : is_hap env info = false ->
  System_GetAppId env info s = identity env inst (trusts_ (bun b)) (trusts_ (sys s)) info.
Proof.
  intros Hh. apply bool_decide_eq_false in Hh. unfold System_GetAppId, identity, is_system.
  destruct (GetTokenTypeFlag env (tokenId info)); try done; destruct (trusts_ (sys s) !! bundleName info); done.
Qed.

End Bundle.

#[local] Existing Instance AssocLru.

Definition test_env : Env := mkEnv (fun _ => TOKEN_HAP) (fun _ => Some "com.app") (fun s => "hash" +:+ s) 200000.
Definition test_world : World := mkWorld (start (mkAssoc 32 [])) (fun _ _ => "id1").

End Checker.
