(* ===== verification/CloudSync.v ===== *)
(** * The tasks of the cloud synchronisation ([service/cloud/sync_manager.cpp])

    A request becomes a task of the thread pool. The task checks the request, posts one event per
    database that is to be synchronised, and the handler of these events starts the
    synchronisation of the stores. Their callbacks report progress, save the results
    and schedule the task again after a failure that allows it.

    A task runs in one step; the pool's timers are those of [ExecutorPool], beside
    which the closures of the waiting tasks are kept. The account, the network, the cloud
    server and the stores are answers of an environment ([Env]). Reports for
    diagnosis are left out. *)

From S2P Require Import Prelude CppString Interfaces Constant CloudData MetaData CloudPolicy FlowControl SyncRecords EventCenter.
Import CloudData MetaData GeneralError.

Module CloudSync.
Abbreviation Cloud := CloudInfo.CloudInfo.
Abbreviation Schema := SchemaMeta.SchemaMeta.
Abbreviation StoreMeta := StoreMetaData.StoreMetaData.
Abbreviation Request := SyncInfo.SyncInfo.
Abbreviation QueryKey := LastSync.QueryKey.

Definition RETRY_INTERVAL : Z := 10000.
Definition LOCKED_INTERVAL : Z := 30000.
Definition BUSY_INTERVAL : Z := 180000.
Definition RETRY_TIMES : Z := 6.
Definition CLIENT_RETRY_TIMES : Z := 3.

Inductive CloudErrorAction : Type := ACTION_DEFAULT | ACTION_RETRY_SYNC_TASK.
Inductive GenProgress : Type := SYNC_BEGIN | SYNC_IN_PROGRESS | SYNC_FINISH.

#[export] Instance CloudErrorAction_eq_dec : EqDecision CloudErrorAction.
Proof. solve_decision. Defined.
#[export] Instance GenProgress_eq_dec : EqDecision GenProgress.
Proof. solve_decision. Defined.

(** The part of a progress report the manager looks at. *)
Record Detail := mkDetail { progress : GenProgress; code : Z; cloudAction : CloudErrorAction }.

(* @src framework/include/store/store_info.h 22-31 StoreInfo *)
Record StoreInfo := mkStore { bundleName : string; storeName : string; instanceId : Z; user : Z; syncId : Z }.

(* @src framework/include/cloud/sync_event.h 23-47 SyncEvent::EventInfo *)
Record SyncEvent := mkEvent {
  storeInfo : StoreInfo;
  retry_ : bool;
  mode_ : Z;
  wait_ : Z;
  query_ : SyncInfo.GenQuery;
  asyncDetail_ : option Z;
  isCompensation_ : bool;
  triggerMode_ : Z;
  prepareTraceId_ : string;
  user_ : Z;
  isDownloadOnly_ : bool;
  isEnablePredicate_ : bool;
  isFullSync_ : bool
}.

(** A task waiting in the pool: the number of the attempt, whether failures are retried,
    the identifier it is registered with, and the request. *)
Record Job := mkJob { times : Z; retry : bool; keep : option Z; info : Request }.

(** The function that decides about another attempt. *)
Record Retryer := mkRetryer { r_times : Z; r_info : Request; r_user : Z }.

(** What the outside sees: calls of a caller's callback with the codes of its details, requests to fetch the schema,
    and synchronisations started at a store. *)
Inductive Effect : Type :=
| ECallback (cb : Z) (codes : list Z)
| EGetSchema (user : Z) (bundle : string)
| ESync (evt : SyncEvent) (meta : StoreMeta).

Section Manager.
Context {EP : ExecutorPool} {CA : ConcurrentMap Z Z}.
Context {CL : ConcurrentMap QueryKey (gmap Z CloudLastSyncInfo.CloudLastSyncInfo)} {ML : MetaStore CloudLastSyncInfo.CloudLastSyncInfo}.
Context {CC : ConcurrentMap Z (gmap string (gset string))}.
Context {MC : MetaStore Cloud} {MS : MetaStore Schema} {MD : MetaStore CloudDbSyncConfig.CloudDbSyncConfig}.
Context (FINISHED : Z) (kvApps_ : gset string).

(** The answers of the system while a task or a callback runs. [server] is the cloud server's answer for a user,
    [prepareTrace] the identifier the reporting service gives, [checkSyncAction] the
    answer of the synchronisation strategy, [fetchSchema] what the handlers of [GET_SCHEMA]
    store, the rest are the answers for the stores. *)
Record Env := mkEnv {
  networkAvailable : bool;
  verified : Z -> bool;
  loginAccount : bool;
  allUsers : list Z;
  server : option (Z -> Cloud);
  prepareTrace : option (Z -> string -> string);
  checkSyncAction : Z -> string -> Z;
  fetchSchema : meta_db Schema -> meta_db Schema;
  getMeta : StoreInfo -> option StoreMeta;
  getStore : StoreMeta -> Z -> Z * bool;
  conflictHandler : StoreMeta -> Z;
  storeSync : SyncEvent -> StoreMeta -> Z;
  now : Z
}.

(* @src service/cloud/sync_manager.h 245-255 actives_ *)
Record Manager := mkManager {
  executor_ : option pool;
  jobs : gmap Z Job;
  actives_ : cmap Z Z;
  activeInfos_ : cmap Z Z;
  genId_ : Z;
  last : LastSync.State;
  currentEvent_ : option NetworkRecovery.NetWorkEvent;
  compensateSyncInfos_ : cmap Z (gmap string (gset string));
  cloudDb : meta_db Cloud;
  schemaDb : meta_db Schema;
  configDb : meta_db CloudDbSyncConfig.CloudDbSyncConfig;
  effects : list Effect
}.

Definition set_pool p js act infos g m : Manager :=
  mkManager p js act infos g (last m) (currentEvent_ m) (compensateSyncInfos_ m) (cloudDb m) (schemaDb m) (configDb m) (effects m).
Definition set_last l m : Manager :=
  mkManager (executor_ m) (jobs m) (actives_ m) (activeInfos_ m) (genId_ m) l (currentEvent_ m) (compensateSyncInfos_ m) (cloudDb m) (schemaDb m) (configDb m) (effects m).
Definition set_net e m : Manager :=
  mkManager (executor_ m) (jobs m) (actives_ m) (activeInfos_ m) (genId_ m) (last m) e (compensateSyncInfos_ m) (cloudDb m) (schemaDb m) (configDb m) (effects m).
Definition set_compensate c m : Manager :=
  mkManager (executor_ m) (jobs m) (actives_ m) (activeInfos_ m) (genId_ m) (last m) (currentEvent_ m) c (cloudDb m) (schemaDb m) (configDb m) (effects m).
Definition set_cloud c m : Manager :=
  mkManager (executor_ m) (jobs m) (actives_ m) (activeInfos_ m) (genId_ m) (last m) (currentEvent_ m) (compensateSyncInfos_ m) c (schemaDb m) (configDb m) (effects m).
Definition set_schema s m : Manager :=
  mkManager (executor_ m) (jobs m) (actives_ m) (activeInfos_ m) (genId_ m) (last m) (currentEvent_ m) (compensateSyncInfos_ m) (cloudDb m) s (configDb m) (effects m).
Definition emit e m : Manager :=
  mkManager (executor_ m) (jobs m) (actives_ m) (activeInfos_ m) (genId_ m) (last m) (currentEvent_ m) (compensateSyncInfos_ m) (cloudDb m) (schemaDb m) (configDb m) (effects m ++ [e]).

(* @src service/cloud/sync_manager.cpp 151-160 SyncInfo::SetError *)
Definition SetError (i : Request) (c : Z) (m : Manager) : Manager :=
  match SyncInfo.async_ i with Some cb => emit (ECallback cb [c]) m | None => m end.

(** ** Starting and stopping *)

(** Hands a task to the pool; [ref] is the identifier it is registered with in [actives_]. *)
Definition add_job (p : pool) (delay time : Z) (t : Z) (rt : bool) (syncId : Z) (i : Request) (m : Manager) : Manager :=
  let '(task, p) := pool_Schedule time delay p in
  set_pool (Some p) (<[task := mkJob t rt (Some syncId) i]> (jobs m)) (InsertOrAssign syncId task (actives_ m)) (activeInfos_ m) (genId_ m) m.

(** A task is made with the number of its attempt, one more than those before. *)
(* @src service/cloud/sync_manager.cpp 275-287 SyncManager::DoCloudSync *)
Definition DoCloudSync (time : Z) (i : Request) (m : Manager) : Z * Manager :=
  match executor_ m with
  | None => (E_NOT_INIT, m)
  | Some p =>
      let '(syncId, g) := SyncId.GenerateId (SyncInfo.user_ i) (genId_ m) in
      (E_OK, add_job p 0 time (0 + 1) true syncId i (set_pool (executor_ m) (jobs m) (actives_ m) (activeInfos_ m) g m))
  end.

(** When a task that has not started is removed its reference is dropped, which erases its entry. *)
(* @src service/cloud/sync_manager.cpp 663-668 SyncManager::GenSyncRef *)
Definition drop_job (task : Z) (m : Manager) : Manager :=
  let acts := match jobs m !! task with Some (mkJob _ _ (Some k) _) => Erase k (actives_ m) | _ => actives_ m end in
  set_pool (pool_Remove task <$> executor_ m) (delete task (jobs m)) acts (activeInfos_ m) (genId_ m) m.

(* @src service/cloud/sync_manager.cpp 289-301 SyncManager::StopCloudSync *)
Definition StopCloudSync (user : Z) (m : Manager) : Z * Manager :=
  match executor_ m with
  | None => (E_NOT_INIT, m)
  | Some _ =>
      (E_OK, fold_left (fun m e => if SyncId.Compare e.1 user =? 0 then drop_job e.2 m else m) (map_to_list (cm_view (actives_ m))) m)
  end.

(* @src service/cloud/sync_manager.cpp 1114-1124 SyncManager::GetInterval *)
Definition GetInterval (c : Z) : Z :=
  if c =? E_LOCKED_BY_OTHERS then LOCKED_INTERVAL else if c =? E_BUSY then BUSY_INTERVAL else RETRY_INTERVAL.

(** ** Retrying *)

(* @src service/cloud/sync_manager.cpp 595-613 SyncManager::HandleRetryFinished *)
Definition HandleRetryFinished (i : Request) (u c : Z) (m : Manager) : Manager :=
  if (c =? E_OK) || (c =? E_SYNC_TASK_MERGED) then m
  else
    let m := if c =? E_NETWORK_ERROR then set_net (NetworkRecovery.RecordSyncApps u (SyncInfo.bundleName_ i) (currentEvent_ m)) m else m in
    SetError i c m.

(** A request that was moved into a task: the strings, tables, query and callback are gone. *)
Definition moved_from (i : Request) : Request :=
  SyncInfo.mk (SyncInfo.syncId_ i) (SyncInfo.mode_ i) (SyncInfo.user_ i) (SyncInfo.wait_ i) "" "" ∅ None None (SyncInfo.isCompensation_ i)
    (SyncInfo.triggerMode_ i) "" (SyncInfo.isDownloadOnly_ i) (SyncInfo.isEnablePredicate_ i) (SyncInfo.isFullSync_ i).

(** Another attempt is scheduled unless one is pending for the same request. The result is
    the function's answer and the function as it is left. *)
(* @src service/cloud/sync_manager.cpp 615-655 SyncManager::GetRetryer *)
Definition Retry (r : Retryer) (interval c : Z) (action : CloudErrorAction) (time : Z) (m : Manager) : bool * Retryer * Manager :=
  let i := r_info r in
  if RETRY_TIMES <=? r_times r then (true, r, HandleRetryFinished i (r_user r) c m)
  else if (c =? E_OK) || (c =? E_SYNC_TASK_MERGED) then (true, r, m)
  else if negb (c =? E_NETWORK_ERROR) && negb (bool_decide (action = ACTION_RETRY_SYNC_TASK)) then (true, r, SetError i (ConvertValidGeneralCode c) m)
  else
    match executor_ m with
    | None => (false, r, m)
    | Some p =>
        match cm_view (activeInfos_ m) !! SyncInfo.syncId_ i with
        | Some _ => (true, r, m)
        | None =>
            let '(syncId, g) := SyncId.GenerateId (SyncInfo.user_ i) (genId_ m) in
            let m := set_pool (executor_ m) (jobs m) (actives_ m) (InsertOrAssign (SyncInfo.syncId_ i) syncId (activeInfos_ m)) g m in
            (true, mkRetryer (r_times r) (moved_from i) (r_user r), add_job p interval time (r_times r + 1) true syncId i m)
        end
    end.

(** ** Checking a request *)

(** The user of a request without one is the first of the accounts. *)
(* @src service/cloud/sync_manager.cpp 1164-1175 SyncManager::InitDefaultUser *)
Definition InitDefaultUser (env : Env) (i : Request) : bool * Request :=
  if negb (SyncInfo.user_ i =? 0) then (false, i)
  else (true, match allUsers env with u :: _ => SyncInfo.set_user u i | [] => i end).

Definition cloud_of_user (u : Z) : Cloud := CloudInfo.mk u "" 0 0 0 0 false ∅.

(** A load leaves the object as it is when nothing is stored. *)
Definition LoadCloud (c : Cloud) (m : Manager) : option Cloud := (LoadMeta (CloudInfo.GetKey c) true (cloudDb m)).1.

(* @src service/cloud/sync_manager.cpp 1103-1112 SyncManager::GetAccountId *)
Definition GetAccountId (u : Z) (m : Manager) : string :=
  match LoadCloud (cloud_of_user u) m with Some c => CloudInfo.id c | None => "" end.

(* @src framework/cloud/cloud_info.cpp 145-148 CloudInfo::IsValid *)
Definition CloudIsValid (c : Cloud) : bool := negb (bool_decide (CloudInfo.id c = "")).

(* @src framework/cloud/cloud_info.cpp 64-69 CloudInfo::operator== *)
Definition CloudEqual (a b : Cloud) : bool :=
  (CloudInfo.user a =? CloudInfo.user b) && bool_decide (CloudInfo.id a = CloudInfo.id b) &&
  (CloudInfo.totalSpace a =? CloudInfo.totalSpace b) && (CloudInfo.remainSpace a =? CloudInfo.remainSpace b) &&
  Bool.eqb (CloudInfo.enableCloud a) (CloudInfo.enableCloud b) && (CloudInfo.maxNumber a =? CloudInfo.maxNumber b) &&
  (CloudInfo.maxSize a =? CloudInfo.maxSize b) && CloudInfo.IsAppsEqual a (CloudInfo.apps b).

(** The answer and the cloud information, which is the stored one when there is one. *)
(* @src service/cloud/sync_manager.cpp 862-866 SyncManager::NeedGetCloudInfo *)
Definition NeedGetCloudInfo (env : Env) (c : Cloud) (m : Manager) : bool * Cloud :=
  let r := LoadCloud c m in
  let c := default c r in
  ((negb (bool_decide (is_Some r)) || negb (CloudInfo.enableCloud c)) && networkAvailable env && loginAccount env, c).

(* @src service/cloud/sync_manager.cpp 868-879 SyncManager::GetStoresIntersection *)
Definition GetStoresIntersection (schemaStores : list string) (requestedTables : gmap string (list string)) : list string :=
  filter (fun s => s ∈ schemaStores) (ordered_entries requestedTables).*1.

(* @src service/cloud/sync_manager.cpp 881-922 SyncManager::GetCloudSyncInfo *)
Definition GetCloudSyncInfo (env : Env) (i : Request) (c : Cloud) (m : Manager) : list (QueryKey * Z) * Cloud * Manager :=
  let '(need, c) := NeedGetCloudInfo env c m in
  let '(go_on, c, m) :=
    if negb need then (true, c, m)
    else match server env with
         | None => (false, c, m)
         | Some get =>
             let c := get (CloudInfo.user c) in
             if negb (CloudIsValid c) then (false, c, m)
             else if match LoadCloud c m with Some old => negb (CloudEqual old c) | None => true end
                  then (true, c, set_cloud (SaveMeta (CloudInfo.GetKey c) c true (cloudDb m)).2 m)
                  else (true, c, m)
         end in
  if negb go_on then ([], c, m)
  else
      match (LoadMeta (CloudInfo.GetSchemaKey (SyncInfo.bundleName_ i) 0 c) true (schemaDb m)).1 with
      | None => ([], c, m)
      | Some schema =>
          let stores := SchemaMeta.GetStores schema in
          let stores := if bool_decide (SyncInfo.tables_ i = ∅) then stores else GetStoresIntersection stores (SyncInfo.tables_ i) in
          ((fun s => (LastSync.mkKey (CloudInfo.user c) (CloudInfo.id c) (SyncInfo.bundleName_ i) s, SyncInfo.syncId_ i)) <$> stores, c, m)
      end.

(** The code, the cloud information that was loaded, and the report to the caller. *)
(* @src service/cloud/sync_manager.cpp 303-340 SyncManager::IsValid *)
Definition IsValid (env : Env) (i : Request) (c : Cloud) (m : Manager) : Z * Cloud * Manager :=
  let r := LoadCloud c m in
  let c := default c r in
  if negb (bool_decide (is_Some r)) ||
     (negb (bool_decide (SyncInfo.id_ i = SyncInfo.DEFAULT_ID)) && negb (bool_decide (CloudInfo.id c = SyncInfo.id_ i)))
  then (E_CLOUD_DISABLED, c, SetError i E_CLOUD_DISABLED m)
  else if negb (CloudInfo.enableCloud c) ||
          (negb (bool_decide (SyncInfo.bundleName_ i = "")) && negb (CloudInfo.IsOn (SyncInfo.bundleName_ i) 0 c))
  then (E_CLOUD_DISABLED, c, SetError i E_CLOUD_DISABLED m)
  else if negb (networkAvailable env) then (E_NETWORK_ERROR, c, SetError i E_NETWORK_ERROR m)
  else if negb (verified env (SyncInfo.user_ i)) then (E_ERROR, c, SetError i E_USER_LOCKED m)
  else (E_OK, c, m).

Definition finish (k : QueryKey) (sid c : Z) (env : Env) (m : Manager) : Manager :=
  set_last (LastSync.UpdateFinishSyncInfo FINISHED kvApps_ k sid c (now env) (now env) (last m)) m.
Definition finish_all (infos : list (QueryKey * Z)) (c : Z) (env : Env) (m : Manager) : Manager :=
  set_last (LastSync.BatchUpdateFinishState FINISHED kvApps_ infos c (now env) (now env) (last m)) m.

(* @src service/cloud/sync_manager.cpp 841-860 SyncManager::GetPrepareTraceId *)
Definition GetPrepareTraceId (env : Env) (i : Request) (c : Cloud) : gmap string string :=
  if negb (bool_decide (SyncInfo.prepareTraceId_ i = "")) then {[SyncInfo.bundleName_ i := SyncInfo.prepareTraceId_ i]}
  else match prepareTrace env with
       | None => ∅
       | Some trace =>
           if bool_decide (SyncInfo.bundleName_ i = "")
           then list_to_map ((fun kv => (kv.1, trace (SyncInfo.user_ i) kv.1)) <$> ordered_entries (CloudInfo.apps c))
           else {[SyncInfo.bundleName_ i := trace (SyncInfo.user_ i) (SyncInfo.bundleName_ i)]}
       end.

(* @src service/cloud/sync_manager.cpp 396-424 SyncManager::PrepareForCloudSync *)
Definition PrepareForCloudSync (env : Env) (i : Request) (c : Cloud) (m : Manager) : bool * Cloud * list (QueryKey * Z) * gmap string string * Manager :=
  match GetCloudSyncInfo env i c m with
  | ([], c, m) => (false, c, [], ∅, SetError i E_CLOUD_DISABLED m)
  | (infos, c, m) =>
      let traces := GetPrepareTraceId env i c in
      let m := set_last (LastSync.UpdateStartSyncInfo kvApps_ (now env) infos (last m)) m in
      let '(code, c, m) := IsValid env i c m in
      if negb (code =? E_OK) then
        let m := if code =? E_NETWORK_ERROR
                 then set_net (NetworkRecovery.RecordSyncApps (SyncInfo.user_ i) (SyncInfo.bundleName_ i) (currentEvent_ m)) m else m in
        (false, c, infos, traces, finish_all infos code env m)
      else (true, c, infos, traces, m)
  end.

(* @src service/cloud/sync_manager.cpp 1126-1148 SyncManager::GetSchemaMeta *)
Definition GetSchemaMeta (c : Cloud) (i : Request) (db : meta_db Schema) : list Schema :=
  let schemas := default [] (LoadMetas (CloudInfo.GetSchemaPrefix (SyncInfo.bundleName_ i) c) true db).1 in
  if bool_decide (SyncInfo.bundleName_ i = "") then schemas
  else filter (fun s => SchemaMeta.databases s <> [])
    ((fun s => SchemaMeta.mk (SchemaMeta.metaVersion s) (SchemaMeta.version s) (SchemaMeta.bundleName s)
        (filter (fun d => SyncInfo.Contains (Database.name d) i = true) (SchemaMeta.databases s)) (SchemaMeta.e2eeEnable s)) <$> schemas).

(** The schemas of a request; when there are none they are fetched and looked for once more. *)
(* @src service/cloud/sync_manager.cpp 676-682 SyncManager::UpdateSchema *)
Definition UpdateSchemas (env : Env) (c : Cloud) (i : Request) (m : Manager) : list Schema * Manager :=
  match GetSchemaMeta c i (schemaDb m) with
  | [] =>
      let m := emit (EGetSchema (SyncInfo.user_ i) (SyncInfo.bundleName_ i)) (set_schema (fetchSchema env (schemaDb m)) m) in
      (GetSchemaMeta c i (schemaDb m), m)
  | schemas => (schemas, m)
  end.

(** ** Posting the events of the databases *)

(* @src service/cloud/sync_manager.cpp 1458-1464 SyncManager::HandleSyncError *)
Definition HandleSyncError (env : Env) (c : Cloud) (bundle db : string) (sid code : Z) (m : Manager) : Manager :=
  finish (LastSync.mkKey (CloudInfo.user c) (CloudInfo.id c) bundle db) sid code env m.

Definition event_of (c : Cloud) (i : Request) (rt : bool) (trace bundle db : string) (tables : list string) : SyncEvent :=
  mkEvent (mkStore bundle db (default 0 (AppInfo.instanceId <$> CloudInfo.apps c !! bundle)) (SyncInfo.user_ i) (SyncInfo.syncId_ i))
    rt (SyncInfo.mode_ i) (SyncInfo.wait_ i) (SyncInfo.GenerateQuery tables i) (SyncInfo.async_ i) (SyncInfo.isCompensation_ i)
    (SyncInfo.triggerMode_ i) trace (SyncInfo.user_ i) (SyncInfo.isDownloadOnly_ i) (SyncInfo.isEnablePredicate_ i) (SyncInfo.isFullSync_ i).

(** One database of a schema: the event that is posted, if any. *)
(* @src service/cloud/sync_manager.cpp 355-387 PostEvent *)
Definition post_database (env : Env) (c : Cloud) (i : Request) (rt : bool) (trace bundle : string) (db : Database.Database) (m : Manager)
    : option SyncEvent * Manager :=
  let name := Database.name db in
  let u := SyncInfo.user_ i in
  if negb (SyncInfo.Contains name i) || negb (SyncConfig.IsDbEnable u bundle name (configDb m))
  then (None, HandleSyncError env c bundle name (SyncInfo.syncId_ i) E_ERROR m)
  else
    let status := checkSyncAction env u bundle in
    if negb (status =? E_OK) then (None, SetError i status (HandleSyncError env c bundle name (SyncInfo.syncId_ i) status m))
    else
      let '(some_left, tables) := SyncConfig.FilterCloudEnabledTables u bundle name (SyncInfo.GetTables db i) (configDb m) in
      if negb some_left then (None, SetError i E_CLOUD_DISABLED (HandleSyncError env c bundle name (SyncInfo.syncId_ i) E_CLOUD_DISABLED m))
      else (Some (event_of c i rt trace bundle name tables), m).

Fixpoint post_databases (env : Env) (c : Cloud) (i : Request) (rt : bool) (trace bundle : string) (dbs : list Database.Database) (m : Manager)
    : list SyncEvent * Manager :=
  match dbs with
  | [] => ([], m)
  | db :: dbs =>
      let '(e, m) := post_database env c i rt trace bundle db m in
      let '(es, m) := post_databases env c i rt trace bundle dbs m in
      (option_list e ++ es, m)
  end.

Fixpoint post_schemas (env : Env) (c : Cloud) (i : Request) (rt : bool) (traces : gmap string string) (schemas : list Schema) (m : Manager)
    : list SyncEvent * Manager :=
  match schemas with
  | [] => ([], m)
  | s :: schemas =>
      let bundle := SchemaMeta.bundleName s in
      let trace := default "" (traces !! bundle) in
      let '(es, m) :=
        if negb (CloudInfo.IsOn bundle 0 c) then ([], HandleSyncError env c bundle "" (SyncInfo.syncId_ i) E_ERROR m)
        else post_databases env c i rt trace bundle (SchemaMeta.databases s) m in
      let '(es', m) := post_schemas env c i rt traces schemas m in
      (es ++ es', m)
  end.

(* @src service/cloud/sync_manager.cpp 342-394 SyncManager::GetPostEventTask *)
Definition PostEventTask (env : Env) (schemas : list Schema) (c : Cloud) (i : Request) (rt : bool) (traces : gmap string string) (m : Manager)
    : list SyncEvent * Manager :=
  let '(es, m) := post_schemas env c i rt traces schemas m in
  (es, match es with [] => SetError i E_ERROR m | _ => m end).

(** ** The handler of the events *)

(** The callback a store is given. *)
Inductive Callback : Type := RetryCallback (evt : SyncEvent) (r : Retryer) | PlainCallback (evt : SyncEvent).

Definition query_key (u : Z) (s : StoreInfo) (m : Manager) : QueryKey := LastSync.mkKey u (GetAccountId (user s) m) (bundleName s) (storeName s).

Definition call (cb : option Z) (codes : list Z) (m : Manager) : Manager := match cb with Some f => emit (ECallback f codes) m | None => m end.

(* @src service/cloud/sync_manager.cpp 1150-1162 SyncManager::DoExceptionalCallback *)
Definition DoExceptionalCallback (env : Env) (evt : SyncEvent) (c : Z) (m : Manager) : Manager :=
  let s := storeInfo evt in
  let m := call (asyncDetail_ evt) [c] m in
  finish (query_key (user s) s m) (syncId s) c env m.

(** The callback is handed to the store with the call. *)
(* @src service/cloud/sync_manager.cpp 462-498 SyncManager::StartCloudSync *)
Definition StartCloudSync (env : Env) (r : Retryer) (evt : SyncEvent) (meta : StoreMeta) (m : Manager) : Callback * Manager :=
  let s := storeInfo evt in
  let m := emit (ESync evt meta) m in
  let status := storeSync env evt meta in
  (if retry_ evt then RetryCallback evt r else PlainCallback evt,
   if negb (status =? E_OK) then
     let m := call (asyncDetail_ evt) [ConvertValidGeneralCode status] m in
     finish (query_key (user s) s m) (syncId s) E_ERROR env m
   else m).

(* @src service/cloud/sync_manager.cpp 500-544 SyncManager::GetSyncHandler *)
Definition SyncHandler (env : Env) (r : Retryer) (evt : SyncEvent) (m : Manager) : list Callback * Manager :=
  match getMeta env (storeInfo evt) with
  | None => ([], DoExceptionalCallback env evt E_ERROR m)
  | Some meta =>
      let '(c, has) := getStore env meta (user (storeInfo evt)) in
      let m := if c =? E_SCREEN_LOCKED
               then set_compensate (Compensation.AddCompensateSync (StoreMetaData.user meta) (StoreMetaData.bundleName meta) (StoreMetaData.storeId meta)
                      (compensateSyncInfos_ m)) m else m in
      if negb has then ([], DoExceptionalCallback env evt E_ERROR m)
      else if negb (StoreMetaData.enableCloud meta) then ([], DoExceptionalCallback env evt E_CLOUD_DISABLED m)
      else if StoreMetaData.customSwitch meta && negb (conflictHandler env meta =? E_OK) then ([], DoExceptionalCallback env evt E_ERROR m)
      else let '(cb, m) := StartCloudSync env r evt meta m in ([cb], m)
  end.

Fixpoint handle_all (env : Env) (r : Retryer) (evts : list SyncEvent) (m : Manager) : list Callback * Manager :=
  match evts with
  | [] => ([], m)
  | e :: evts =>
      let '(cbs, m) := SyncHandler env r e m in
      let '(cbs', m) := handle_all env r evts m in
      (cbs ++ cbs', m)
  end.

(** ** The task *)

(** The body of a task: the callbacks handed to the stores and the state. The events
    posted in the scope are served when it ends, up to the capacity of the event centre. *)
(* @src service/cloud/sync_manager.cpp 426-460 SyncManager::GetSyncTask *)
Definition SyncTask (env : Env) (t : Z) (rt : bool) (i : Request) (m : Manager) : list Callback * Manager :=
  let m := set_pool (executor_ m) (jobs m) (actives_ m) (Erase (SyncInfo.syncId_ i) (activeInfos_ m)) (genId_ m) m in
  let '(createdByDefaultUser, i) := InitDefaultUser env i in
  let '(ok, c, infos, traces, m) := PrepareForCloudSync env i (cloud_of_user (SyncInfo.user_ i)) m in
  if negb ok then ([], m)
  else
    let retryer := mkRetryer t i (CloudInfo.user c) in
    let '(schemas, m) := UpdateSchemas env c i m in
    match schemas with
    | [] => ([], finish_all infos E_CLOUD_DISABLED env (Retry retryer RETRY_INTERVAL E_RETRY_TIMEOUT ACTION_DEFAULT (now env) m).2)
    | _ =>
        let i := if (createdByDefaultUser : bool) then SyncInfo.set_user 0 i else i in
        let '(evts, m) := PostEventTask env schemas c i rt traces m in
        handle_all env retryer (take EventCenter.MAX_CAPABILITY evts) m
    end.

(** The pool takes a waiting task and runs it; its reference is dropped at the end. *)
Definition RunJob (env : Env) (task : Z) (j : Job) (m : Manager) : list Callback * Manager :=
  let m := set_pool (pool_Remove task <$> executor_ m) (delete task (jobs m)) (actives_ m) (activeInfos_ m) (genId_ m) m in
  let '(cbs, m) := SyncTask env (times j) (retry j) (info j) m in
  (cbs, match keep j with
        | Some k => set_pool (executor_ m) (jobs m) (Erase k (actives_ m)) (activeInfos_ m) (genId_ m) m
        | None => m
        end).

(** A change of a client's store starts a task that is not registered, with fewer attempts or none. *)
(* @src service/cloud/sync_manager.cpp 561-582 SyncManager::GetClientChangeHandler *)
Definition ClientChange (time : Z) (evt : SyncEvent) (m : Manager) : Manager :=
  match executor_ m with
  | None => m
  | Some p =>
      let s := storeInfo evt in
      let '(i, g) := SyncInfo.of_store (user s) (bundleName s) (storeName s) [] SyncInfo.MODE_DEFAULT (genId_ m) in
      let i := SyncInfo.mk (SyncInfo.syncId_ i) (mode_ evt) (SyncInfo.user_ i) (wait_ evt) (SyncInfo.id_ i) (SyncInfo.bundleName_ i) (SyncInfo.tables_ i)
                 (asyncDetail_ evt) (Some (query_ evt)) (isCompensation_ evt) (triggerMode_ evt) (SyncInfo.prepareTraceId_ i)
                 (isDownloadOnly_ evt) (isEnablePredicate_ evt) (isFullSync_ evt) in
      let t := if retry_ evt then RETRY_TIMES - CLIENT_RETRY_TIMES else RETRY_TIMES in
      let '(task, p) := pool_Schedule time 0 p in
      set_pool (Some p) (<[task := mkJob (t + 1) (retry_ evt) None i]> (jobs m)) (actives_ m) (activeInfos_ m) g m
  end.

(** ** Callbacks of the stores *)

(* @src service/cloud/sync_manager.cpp 1177-1201 SyncManager::RetryCallback *)
Definition run_retry_callback (env : Env) (evt : SyncEvent) (r : Retryer) (details : list Detail) (m : Manager) : Retryer * Manager :=
  match details with
  | [] => (r, m)
  | d :: _ =>
      let s := storeInfo evt in
      let m := if bool_decide (progress d = SYNC_FINISH) then finish (query_key (user s) s m) (syncId s) (code d) env m else m in
      let '(_, r, m) := Retry r (GetInterval (code d)) (code d) (cloudAction d) (now env) m in
      (r, m)
  end.

(* @src service/cloud/sync_manager.cpp 1335-1344 SyncManager::ConvertGenDetailsCode *)
Definition ConvertGenDetailsCode (details : list Detail) : list Z := (fun d => ConvertValidGeneralCode (code d)) <$> details.

(* @src service/cloud/sync_manager.cpp 1067-1101 SyncManager::GetCallback *)
Definition run_plain_callback (env : Env) (evt : SyncEvent) (details : list Detail) (m : Manager) : Manager :=
  let s := storeInfo evt in
  let m := call (asyncDetail_ evt) (ConvertGenDetailsCode details) m in
  match details with
  | [] => m
  | d :: _ =>
      if negb (bool_decide (progress d = SYNC_FINISH)) then m
      else if bool_decide (GetAccountId (user s) m = "") then m
      else finish (query_key (user_ evt) s m) (syncId s) (code d) env m
  end.

(** ** Network and screen *)

(* @src service/cloud/sync_manager.cpp 1356-1359 SyncManager::OnNetworkConnected *)
Definition OnNetworkConnected (HOUR : Z) (storeBundles : list string) (users : list Z) (time : Z) (m : Manager) : Manager :=
  let '(requests, e) := NetworkRecovery.OnNetworkConnected HOUR storeBundles (fun u => LoadCloud (cloud_of_user u) m) users time (currentEvent_ m) in
  fold_left (fun m ub =>
      let '(i, g) := SyncInfo.of_store ub.1 ub.2 "" [] SyncInfo.MODE_ONLINE (genId_ m) in
      (DoCloudSync time i (set_pool (executor_ m) (jobs m) (actives_ m) (activeInfos_ m) g m)).2)
    requests (set_net e m).

(** The identifiers of all the requests are taken before the first one is started. *)
Definition unlock_request (st : list Request * Z) (r : Z * string * gset string) : list Request * Z :=
  let '(i, g) := SyncInfo.of_stores r.1.1 r.1.2 (elements r.2) st.2 in
  (st.1 ++ [SyncInfo.SetTriggerMode SyncInfo.MODE_UNLOCK i], g).

(* @src service/cloud/sync_manager.cpp 1250-1273 SyncManager::OnScreenUnlocked *)
Definition OnScreenUnlocked (u time : Z) (m : Manager) : Manager :=
  let '(rs, c) := Compensation.OnScreenUnlocked u (compensateSyncInfos_ m) in
  let '(infos, g) := fold_left unlock_request rs ([], genId_ m) in
  fold_left (fun m i => (DoCloudSync time i m).2) infos
    (set_compensate c (set_pool (executor_ m) (jobs m) (actives_ m) (activeInfos_ m) g m)).

(** ** Which operations touch the tasks *)
Definition tasks (m : Manager) := (executor_ m, jobs m, actives_ m, activeInfos_ m, genId_ m).

Lemma SetError_tasks i c m : tasks (SetError i c m) = tasks m.
Proof. unfold SetError. by destruct (SyncInfo.async_ i). Qed.
Lemma call_tasks cb cs m : tasks (call cb cs m) = tasks m.
Proof. by destruct cb. Qed.
Lemma finish_tasks k s c env m : tasks (finish k s c env m) = tasks m.
Proof. done. Qed.
Lemma finish_all_tasks l c env m : tasks (finish_all l c env m) = tasks m.
Proof. done. Qed.

Lemma HandleRetryFinished_tasks i u c m : tasks (HandleRetryFinished i u c m) = tasks m.
Proof. unfold HandleRetryFinished. destruct (_ || _); [done|]. rewrite SetError_tasks. by destruct (_ =? _). Qed.

Lemma IsValid_tasks env i c m : tasks (IsValid env i c m).2 = tasks m.
Proof. unfold IsValid. repeat case_if; cbn [snd]; by rewrite ?SetError_tasks. Qed.

Lemma GetCloudSyncInfo_tasks env i c m : tasks (GetCloudSyncInfo env i c m).2 = tasks m.
Proof.
  unfold GetCloudSyncInfo. destruct (NeedGetCloudInfo env c m) as [need c1].
  set (x := if negb need then _ else _). assert (tasks x.2 = tasks m) as Hx.
  { unfold x. destruct need; cbn [negb]; [|done]. destruct (server env); [|done]. destruct (CloudIsValid _); cbn [negb]; [|done]. by case_if. }
  destruct x as [[go c2] m2]. cbn [snd] in Hx. destruct go; cbn [negb]; [|done]. by destruct (LoadMeta _ _ _).1.
Qed.

Lemma PrepareForCloudSync_tasks env i c m : tasks (PrepareForCloudSync env i c m).2 = tasks m.
Proof.
  unfold PrepareForCloudSync. pose proof (GetCloudSyncInfo_tasks env i c m) as Hg. destruct (GetCloudSyncInfo env i c m) as [[infos c1] m1].
  cbn [snd] in Hg. destruct infos as [|k infos]; [cbn [snd]; by rewrite SetError_tasks|].
  match goal with |- context [IsValid env i c1 ?m2] => pose proof (IsValid_tasks env i c1 m2) as Hv; destruct (IsValid env i c1 m2) as [[code c2] m3] end.
  cbn [snd] in Hv. transitivity (tasks m3); [|by rewrite Hv]. destruct (code =? E_OK); cbn [negb snd]; [done|]. by destruct (code =? E_NETWORK_ERROR).
Qed.

Lemma UpdateSchemas_tasks env c i m : tasks (UpdateSchemas env c i m).2 = tasks m.
Proof. unfold UpdateSchemas. by destruct (GetSchemaMeta c i (schemaDb m)). Qed.

Lemma post_database_tasks env c i rt tr b db m : tasks (post_database env c i rt tr b db m).2 = tasks m.
Proof.
  unfold post_database. case_if; [done|]. case_if; [cbn [snd]; by rewrite SetError_tasks|].
  destruct (SyncConfig.FilterCloudEnabledTables _ _ _ _ _) as [l ts]. case_if; [cbn [snd]; by rewrite SetError_tasks|done].
Qed.

Lemma post_databases_tasks env c i rt tr b dbs m : tasks (post_databases env c i rt tr b dbs m).2 = tasks m.
Proof.
  revert m. induction dbs as [|db dbs IH]; intros m; cbn [post_databases]; [done|].
  pose proof (post_database_tasks env c i rt tr b db m) as H1. destruct (post_database env c i rt tr b db m) as [e m1].
  pose proof (IH m1) as H2. destruct (post_databases env c i rt tr b dbs m1) as [es m2]. cbn [snd] in *. congruence.
Qed.

Lemma post_schemas_tasks env c i rt trs ss m : tasks (post_schemas env c i rt trs ss m).2 = tasks m.
Proof.
  revert m. induction ss as [|s ss IH]; intros m; cbn [post_schemas]; [done|]. set (x := if negb _ then _ else _).
  assert (tasks x.2 = tasks m) as H1 by (unfold x; case_if; [done|apply post_databases_tasks]).
  destruct x as [es m1]. pose proof (IH m1) as H2. destruct (post_schemas env c i rt trs ss m1) as [es' m2]. cbn [snd] in *. congruence.
Qed.

Lemma PostEventTask_tasks env ss c i rt trs m : tasks (PostEventTask env ss c i rt trs m).2 = tasks m.
Proof.
  unfold PostEventTask. pose proof (post_schemas_tasks env c i rt trs ss m) as H. destruct (post_schemas _ _ _ _ _ _ _) as [es m1].
  cbn [snd] in *. destruct es; by rewrite ?SetError_tasks.
Qed.

Lemma DoExceptionalCallback_tasks env evt c m : tasks (DoExceptionalCallback env evt c m) = tasks m.
Proof. unfold DoExceptionalCallback. rewrite finish_tasks. apply call_tasks. Qed.

Lemma StartCloudSync_tasks env r evt meta m : tasks (StartCloudSync env r evt meta m).2 = tasks m.
Proof. unfold StartCloudSync. cbn [snd]. case_if; [|done]. rewrite finish_tasks. by rewrite call_tasks. Qed.

Lemma SyncHandler_tasks env r evt m : tasks (SyncHandler env r evt m).2 = tasks m.
Proof.
  unfold SyncHandler. destruct (getMeta env (storeInfo evt)) as [meta|]; cbn [snd]; [|apply DoExceptionalCallback_tasks].
  destruct (getStore env meta _) as [c has]. set (m1 := if c =? E_SCREEN_LOCKED then _ else m).
  assert (tasks m1 = tasks m) as H1 by (unfold m1; by case_if).
  destruct has; cbn [negb]; [|cbn [snd]; by rewrite DoExceptionalCallback_tasks].
  destruct (StoreMetaData.enableCloud meta); cbn [negb]; [|cbn [snd]; by rewrite DoExceptionalCallback_tasks].
  case_if; [cbn [snd]; by rewrite DoExceptionalCallback_tasks|].
  pose proof (StartCloudSync_tasks env r evt meta m1) as H2. destruct (StartCloudSync env r evt meta m1). cbn [snd] in *. congruence.
Qed.

Lemma handle_all_tasks env r evts m :
  tasks (handle_all env r evts m).2 = tasks m /\ Forall (fun cb => forall e r', cb = RetryCallback e r' -> r' = r) (handle_all env r evts m).1.
Proof.
  revert m. induction evts as [|e evts IH]; intros m; cbn [handle_all]; [done|].
  pose proof (SyncHandler_tasks env r e m) as H1.
  assert (Forall (fun cb => forall e' r', cb = RetryCallback e' r' -> r' = r) (SyncHandler env r e m).1) as H2.
  { unfold SyncHandler. destruct (getMeta env (storeInfo e)); [|by apply Forall_nil]. destruct (getStore _ _ _).
    unfold StartCloudSync. repeat case_if; cbn [fst]; try by apply Forall_nil. all: apply Forall_singleton; naive_solver. }
  destruct (SyncHandler env r e m) as [cbs m1]. destruct (IH m1) as [H3 H4]. destruct (handle_all env r evts m1) as [cbs' m2].
  cbn [fst snd] in *. split; [congruence|]. by apply Forall_app.
Qed.

Lemma Retry_tasks r interval c action time m :
  let '(ans, r', m') := Retry r interval c action time m in
  r_times r' = r_times r /\ SyncInfo.syncId_ (r_info r') = SyncInfo.syncId_ (r_info r) /\
  (tasks m' = tasks m \/
   exists p task p' k g, r_times r < RETRY_TIMES /\ executor_ m = Some p /\ cm_view (activeInfos_ m) !! SyncInfo.syncId_ (r_info r) = None /\
     pool_Schedule time interval p = (task, p') /\ SyncId.GenerateId (SyncInfo.user_ (r_info r)) (genId_ m) = (k, g) /\
     (c <> E_OK /\ c <> E_SYNC_TASK_MERGED /\ (c = E_NETWORK_ERROR \/ action = ACTION_RETRY_SYNC_TASK)) /\
     tasks m' = (Some p', <[task := mkJob (r_times r + 1) true (Some k) (r_info r)]> (jobs m), InsertOrAssign k task (actives_ m),
                 InsertOrAssign (SyncInfo.syncId_ (r_info r)) k (activeInfos_ m), g)).
Proof.
  unfold Retry. case_if; [split_and!; [done..|left; apply HandleRetryFinished_tasks]|]. case_if; [by split_and!; [..|left]|].
  case_if; [split_and!; [done..|left; apply SetError_tasks]|]. destruct (executor_ m) as [p|] eqn:Ep; [|by split_and!; [..|left]].
  destruct (cm_view (activeInfos_ m) !! SyncInfo.syncId_ (r_info r)) eqn:Ea; [by split_and!; [..|left]|].
  destruct (SyncId.GenerateId _ _) as [k g] eqn:Eg. unfold add_job. destruct (pool_Schedule time interval p) as [task p'] eqn:Es.
  split_and!; [done..|]. right. exists p, task, p', k, g. bool_prop. unfold RETRY_TIMES in *. split_and!; try done; [congruence..|].
  match goal with H : negb _ && negb _ = false |- _ => apply andb_false_iff in H as [H|H] end; bool_prop; auto.
Qed.

Lemma SyncTask_tasks env t rt i m :
  tasks (SyncTask env t rt i m).2 = (executor_ m, jobs m, actives_ m, Erase (SyncInfo.syncId_ i) (activeInfos_ m), genId_ m) /\
  Forall (fun cb => forall e r, cb = RetryCallback e r -> r_times r = t /\ SyncInfo.syncId_ (r_info r) = SyncInfo.syncId_ i) (SyncTask env t rt i m).1.
Proof.
  unfold SyncTask. assert (SyncInfo.syncId_ (InitDefaultUser env i).2 = SyncInfo.syncId_ i) as Hi.
  { unfold InitDefaultUser. case_if; [done|]. by destruct (allUsers env). }
  destruct (InitDefaultUser env i) as [cd i']. cbn [snd] in Hi. set (m0 := set_pool _ _ _ _ _ m).
  pose proof (PrepareForCloudSync_tasks env i' (cloud_of_user (SyncInfo.user_ i')) m0) as H1.
  destruct (PrepareForCloudSync env i' _ m0) as [[[[ok c] infos] traces] m1]. cbn [snd] in H1.
  destruct ok; cbn [negb fst snd]; [|by split; [rewrite H1|apply Forall_nil]].
  pose proof (UpdateSchemas_tasks env c i' m1) as H2. destruct (UpdateSchemas env c i' m1) as [schemas m2]. cbn [snd] in H2.
  destruct schemas as [|s ss].
  - split; [|by apply Forall_nil]. cbn [snd]. rewrite finish_all_tasks.
    pose proof (Retry_tasks (mkRetryer t i' (CloudInfo.user c)) RETRY_INTERVAL E_RETRY_TIMEOUT ACTION_DEFAULT (now env) m2) as Hr.
    destruct (Retry _ _ _ _ _ _) as [[ans r'] m3]. destruct Hr as (_ & _ & [Hr|(? & ? & ? & ? & ? & _ & _ & _ & _ & _ & (_ & _ & [Hc|Hc]) & _)]); [|done..].
    cbn [snd]. by rewrite Hr, H2, H1.
  - pose proof (PostEventTask_tasks env (s :: ss) c (if cd then SyncInfo.set_user 0 i' else i') rt traces m2) as H3.
    destruct (PostEventTask _ _ _ _ _ _ _) as [evts m3]. cbn [snd] in H3.
    destruct (handle_all_tasks env (mkRetryer t i' (CloudInfo.user c)) (take EventCenter.MAX_CAPABILITY evts) m3) as [H4 H5].
    destruct (handle_all _ _ _ _) as [cbs m4]. cbn [fst snd] in *. split; [by rewrite H4, H3, H2, H1|].
    eapply Forall_impl; [exact H5|]. cbn beta. intros cb Hcb e r ->. by rewrite (Hcb e r eq_refl).
Qed.

(** ** The manager in use

    Requests are made, each with an identifier of its own, and started; client changes,
    stops, runs of waiting tasks and callbacks of the stores come in any order, and
    everything else may change freely. A callback may have been copied by the store and is
    called any number of times. The identifiers are assumed not to wrap around. *)
Record System := mkSys { mgr : Manager; created : list Request; callbacks : list Callback }.

Definition room (m : Manager) : Prop := genId_ m + 1 < 2 ^ 32.
Definition set_gen (g : Z) (m : Manager) : Manager := set_pool (executor_ m) (jobs m) (actives_ m) (activeInfos_ m) g m.

Inductive step : System -> System -> Prop :=
| step_create u i g s : room (mgr s) -> SyncId.GenerateId u (genId_ (mgr s)) = (SyncInfo.syncId_ i, g) ->
    step s (mkSys (set_gen g (mgr s)) (i :: created s) (callbacks s))
| step_start l1 i l2 time s : room (mgr s) -> created s = l1 ++ i :: l2 -> step s (mkSys (DoCloudSync time i (mgr s)).2 (l1 ++ l2) (callbacks s))
| step_client time evt s : room (mgr s) -> step s (mkSys (ClientChange time evt (mgr s)) (created s) (callbacks s))
| step_stop u s : step s (mkSys (StopCloudSync u (mgr s)).2 (created s) (callbacks s))
| step_run env task j s : jobs (mgr s) !! task = Some j ->
    step s (mkSys (RunJob env task j (mgr s)).2 (created s) ((RunJob env task j (mgr s)).1 ++ callbacks s))
| step_retry env evt r ds s : room (mgr s) -> RetryCallback evt r ∈ callbacks s ->
    step s (mkSys (run_retry_callback env evt r ds (mgr s)).2 (created s) (RetryCallback evt (run_retry_callback env evt r ds (mgr s)).1 :: callbacks s))
| step_other m s : tasks m = tasks (mgr s) -> step s (mkSys m (created s) (callbacks s)).

Definition init (s : System) : Prop :=
  is_Some (executor_ (mgr s)) /\ jobs (mgr s) = ∅ /\ cm_view (actives_ (mgr s)) = ∅ /\ genId_ (mgr s) = 0 /\ created s = [] /\ callbacks s = [].

(** An identifier that has been given out. *)
Definition old (g i : Z) : Prop := in_u 64 i /\ 1 <= SyncId.count_of i <= g.
Definition is_retry (j : Job) : Prop := is_Some (keep j) /\ 2 <= times j.
Definition request_of (j : Job) : Z := SyncInfo.syncId_ (info j).

Record Inv (m : Manager) (cr : list Request) (cbs : list Callback) : Prop := {
  inv_gen : 0 <= genId_ m < 2 ^ 32;
  inv_pool : exists p, executor_ m = Some p /\ forall t, is_Some (jobs m !! t) -> t ∈ used p;
  inv_old t j : jobs m !! t = Some j -> old (genId_ m) (request_of j) /\ forall k, keep j = Some k -> old (genId_ m) k;
  inv_times t j : jobs m !! t = Some j -> 1 <= times j <= RETRY_TIMES + 1 /\ (is_Some (keep j) -> times j <= RETRY_TIMES);
  inv_actives k t : cm_view (actives_ m) !! k = Some t <-> exists j, jobs m !! t = Some j /\ keep j = Some k;
  inv_distinct t t' j j' : jobs m !! t = Some j -> jobs m !! t' = Some j' -> request_of j = request_of j' -> t = t';
  inv_pending t j : jobs m !! t = Some j -> is_retry j -> cm_view (activeInfos_ m) !! request_of j = keep j;
  inv_created : NoDup (SyncInfo.syncId_ <$> cr) /\ forall i, i ∈ cr -> old (genId_ m) (SyncInfo.syncId_ i) /\
    (forall t j, jobs m !! t = Some j -> request_of j <> SyncInfo.syncId_ i) /\
    (forall e r, RetryCallback e r ∈ cbs -> SyncInfo.syncId_ (r_info r) <> SyncInfo.syncId_ i);
  inv_callbacks e r : RetryCallback e r ∈ cbs -> 1 <= r_times r <= RETRY_TIMES + 1 /\ old (genId_ m) (SyncInfo.syncId_ (r_info r)) /\
    forall t j, jobs m !! t = Some j -> request_of j = SyncInfo.syncId_ (r_info r) -> is_retry j
}.

Lemma GenerateId_fresh u g k g' : 0 <= g -> g + 1 < 2 ^ 32 -> SyncId.GenerateId u g = (k, g') ->
  g' = g + 1 /\ ~ old g k /\ old (g + 1) k.
Proof.
  intros Hg Hr E. pose proof (SyncId.GenerateId_halves u g) as [_ Hc]. pose proof (SyncId.GenerateId_range u g) as Hin.
  assert (u32 (g + 1) = g + 1) as Ew by (apply wrap_id; unfold in_u; lia).
  rewrite SyncId.GenerateId_sum in *. injection E as <- <-. cbn [fst] in Hc, Hin. unfold old. rewrite Hc. rewrite Ew in *. split_and!; [done|lia|done|lia|lia].
Qed.

Lemma old_mono g g' i : g <= g' -> old g i -> old g' i.
Proof. unfold old. intros ? [? ?]. split; [done|lia]. Qed.

Lemma Inv_tasks m m' cr cbs : tasks m' = tasks m -> Inv m cr cbs -> Inv m' cr cbs.
Proof.
  unfold tasks. intros E [H1 H2 H3 H4 H5 H6 H7 H8 H9]. injection E as E1 E2 E3 E4 E5.
  split; rewrite ?E1, ?E2, ?E3, ?E4, ?E5; done.
Qed.

Lemma add_Inv m m' cr cr' cbs t j p p' :
  Inv m cr cbs -> executor_ m = Some p -> t ∉ used p -> used p' = {[t]} ∪ used p ->
  executor_ m' = Some p' -> jobs m' = <[t := j]> (jobs m) -> genId_ m <= genId_ m' < 2 ^ 32 ->
  cm_view (actives_ m') = (match keep j with Some k => <[k := t]> (cm_view (actives_ m)) | None => cm_view (actives_ m) end) ->
  (forall k, keep j = Some k -> ~ old (genId_ m) k /\ old (genId_ m') k) ->
  cm_view (activeInfos_ m') =
    (match keep j with Some k => if 2 <=? times j then <[request_of j := k]> (cm_view (activeInfos_ m)) else cm_view (activeInfos_ m) | None => cm_view (activeInfos_ m) end) ->
  old (genId_ m') (request_of j) -> (forall t' j', jobs m !! t' = Some j' -> request_of j' <> request_of j) ->
  1 <= times j <= RETRY_TIMES + 1 /\ (is_Some (keep j) -> times j <= RETRY_TIMES) ->
  NoDup (SyncInfo.syncId_ <$> cr') -> (forall i, i ∈ cr' -> i ∈ cr /\ request_of j <> SyncInfo.syncId_ i) ->
  (forall e r, RetryCallback e r ∈ cbs -> SyncInfo.syncId_ (r_info r) = request_of j -> is_retry j) ->
  Inv m' cr' cbs.
Proof.
  intros [Hg Hpool Hold Htimes Hact Hdist Hpend [_ Hcr] Hcb] Ep Hfresh Hused Ep' Ej Hg' Ea Hk Ei Hro Hnew Ht Hnd Hcr' Hcbs.
  assert (jobs m !! t = None) as Hnone.
  { apply eq_None_not_Some. intros Hs. destruct Hpool as (q & Eq & Hq). apply Hfresh. rewrite Ep in Eq. injection Eq as <-. by apply Hq. }
  assert (forall t' j', jobs m' !! t' = Some j' <-> (t' = t /\ j' = j) \/ (t' <> t /\ jobs m !! t' = Some j')) as Hjobs.
  { intros t' j'. rewrite Ej, lookup_insert_Some. split; (intros [[? ?]|[? ?]]; [left|right]; split; congruence). }
  assert (forall t' j', jobs m !! t' = Some j' -> t' <> t) as Hne by congruence.
  split; [lia| | | | | | |split; [done|]|].
  - exists p'. split; [done|]. intros t' [j' [[-> _] | [_ H]]%Hjobs]; rewrite Hused; [set_solver|].
    destruct Hpool as (q & Eq & Hq). rewrite Ep in Eq. injection Eq as <-. apply elem_of_union_r. apply Hq. eauto.
  - intros t' j' [[-> ->] | [_ H]]%Hjobs; [split; [done|]; intros k E; by apply Hk|]. destruct (Hold t' j' H) as [H1 H2].
    split; [by eapply old_mono; [|exact H1]; lia|]. intros k E. eapply old_mono; [|by apply H2]; lia.
  - intros t' j' [[-> ->] | [_ H]]%Hjobs; [done|by eapply Htimes].
  - intros k t'. rewrite Ea. split.
    + intros Hl. destruct (keep j) as [k0|] eqn:Ek.
      * apply lookup_insert_Some in Hl as [[-> ->] | [Hkk Hl]]; [exists j; split; [apply Hjobs; by left|done]|].
        apply Hact in Hl as (j' & H1 & H2). exists j'. split; [|done]. apply Hjobs. right. split; [by eapply Hne|done].
      * apply Hact in Hl as (j' & H1 & H2). exists j'. split; [|done]. apply Hjobs. right. split; [by eapply Hne|done].
    + intros (j' & [[-> ->] | [_ H]]%Hjobs & Hkk); [rewrite Hkk; apply lookup_insert_eq|].
      assert (cm_view (actives_ m) !! k = Some t') as Hl by (apply Hact; eauto).
      destruct (keep j) as [k0|] eqn:Ek; [|done]. rewrite lookup_insert_ne; [done|]. intros ->. destruct (Hk k eq_refl) as [Hno _].
      apply Hno. by eapply Hold.
  - intros t1 t2 j1 j2 [[-> ->] | [_ H1]]%Hjobs [[-> ->] | [_ H2]]%Hjobs E; [done| | |by eapply Hdist].
    + by destruct (Hnew _ _ H2).
    + by destruct (Hnew _ _ H1).
  - intros t' j' [[-> ->] | [_ H]]%Hjobs Hr; rewrite Ei.
    + destruct Hr as [[k Ek] H2]. rewrite Ek, (proj2 (Z.leb_le 2 (times j))) by done. apply lookup_insert_eq.
    + pose proof (Hpend t' j' H Hr) as Hp. destruct (keep j); [|done]. destruct (2 <=? times j); [|done].
      rewrite lookup_insert_ne; [done|]. intros E. by destruct (Hnew _ _ H).
  - intros i Hi. destruct (Hcr' i Hi) as [Hin Hdiff]. destruct (Hcr i Hin) as (H1 & H2 & H3). split_and!; [by eapply old_mono; [|exact H1]; lia| |done].
    intros t' j' [[-> ->] | [_ H]]%Hjobs; [done|by eapply H2].
  - intros e r Hin. destruct (Hcb e r Hin) as (H1 & H2 & H3). split_and!; [lia|lia|by eapply old_mono; [|exact H2]; lia|].
    intros t' j' [[-> ->] | [_ H]]%Hjobs E; [by eapply Hcbs|by eapply H3].
Qed.

Lemma remove_Inv m m' cr cbs t j p' :
  Inv m cr cbs -> jobs m !! t = Some j -> executor_ m' = Some p' -> (forall p, executor_ m = Some p -> used p' = used p) ->
  jobs m' = delete t (jobs m) -> genId_ m' = genId_ m ->
  cm_view (actives_ m') = (match keep j with Some k => delete k (cm_view (actives_ m)) | None => cm_view (actives_ m) end) ->
  (forall i, i <> request_of j -> cm_view (activeInfos_ m') !! i = cm_view (activeInfos_ m) !! i) ->
  Inv m' cr cbs /\ forall t' j', jobs m' !! t' = Some j' -> request_of j' <> request_of j.
Proof.
  intros [Hg Hpool Hold Htimes Hact Hdist Hpend [Hnd Hcr] Hcb] Hj Ep' Hu Ej Eg Ea Ei.
  assert (forall t' j', jobs m' !! t' = Some j' <-> t' <> t /\ jobs m !! t' = Some j') as Hjobs.
  { intros t' j'. rewrite Ej, lookup_delete_Some. split; (intros [? ?]; split; congruence). }
  assert (forall t' j', jobs m' !! t' = Some j' -> request_of j' <> request_of j) as Hnot.
  { intros t' j' [Hne H]%Hjobs E. apply Hne. by eapply Hdist. }
  split; [|done]. split; rewrite ?Eg; [done| | | | | | |split; [done|]|].
  - destruct Hpool as (p & Ep & Hp). exists p'. split; [done|]. rewrite (Hu p Ep). intros t' [j' [_ H]%Hjobs]. apply Hp. eauto.
  - intros t' j' [_ H]%Hjobs. by eapply Hold.
  - intros t' j' [_ H]%Hjobs. by eapply Htimes.
  - intros k t'. rewrite Ea. split.
    + intros Hl. assert (cm_view (actives_ m) !! k = Some t' /\ keep j <> Some k) as [Hl' Hk].
      { destruct (keep j); [|done]. apply lookup_delete_Some in Hl as [? ?]. split; [done|congruence]. }
      apply Hact in Hl' as (j' & H1 & H2). exists j'. split; [|done]. apply Hjobs. split; [|done]. intros ->. congruence.
    + intros (j' & [Hne H]%Hjobs & Hk). assert (cm_view (actives_ m) !! k = Some t') as Hl by (apply Hact; eauto).
      destruct (keep j) as [k0|] eqn:Ek; [|done]. apply lookup_delete_Some. split; [|done]. intros ->.
      assert (cm_view (actives_ m) !! k = Some t) by (apply Hact; eauto). congruence.
  - intros t1 t2 j1 j2 [_ H1]%Hjobs [_ H2]%Hjobs. by eapply Hdist.
  - intros t' j' H Hr. rewrite Ei by (by eapply Hnot). apply Hjobs in H as [_ H]. by eapply Hpend.
  - intros i Hi. destruct (Hcr i Hi) as (H1 & H2 & H3). split_and!; [done| |done]. intros t' j' [_ H]%Hjobs. by eapply H2.
  - intros e r Hin. destruct (Hcb e r Hin) as (H1 & H2 & H3). split_and!; [lia|lia|done|]. intros t' j' [_ H]%Hjobs. by eapply H3.
Qed.

Lemma callbacks_Inv m cr cbs new :
  Inv m cr cbs ->
  (forall e r, RetryCallback e r ∈ new -> 1 <= r_times r <= RETRY_TIMES + 1 /\ old (genId_ m) (SyncInfo.syncId_ (r_info r)) /\
    (forall t j, jobs m !! t = Some j -> request_of j = SyncInfo.syncId_ (r_info r) -> is_retry j) /\
    (forall i, i ∈ cr -> SyncInfo.syncId_ (r_info r) <> SyncInfo.syncId_ i)) ->
  Inv m cr (new ++ cbs).
Proof.
  intros [Hg Hpool Hold Htimes Hact Hdist Hpend [Hnd Hcr] Hcb] Hnew. split; [done..|split; [done|]|].
  - intros i Hi. destruct (Hcr i Hi) as (H1 & H2 & H3). split_and!; [done|done|]. intros e r [Hin|Hin]%elem_of_app; [|by eapply H3].
    by apply (Hnew e r Hin).
  - intros e r [Hin|Hin]%elem_of_app; [|by eapply Hcb]. by destruct (Hnew e r Hin) as (H1 & H2 & H3 & _).
Qed.

Lemma Schedule_fresh time delay p t p' : pool_Schedule time delay p = (t, p') -> t ∉ used p /\ used p' = {[t]} ∪ used p.
Proof. intros Es. pose proof (pool_Schedule_spec time delay p) as Hs. rewrite Es in Hs. naive_solver. Qed.

Lemma create_Inv u i g m cr cbs : room m -> SyncId.GenerateId u (genId_ m) = (SyncInfo.syncId_ i, g) -> Inv m cr cbs -> Inv (set_gen g m) (i :: cr) cbs.
Proof.
  intros Hroom Hgen [Hg Hpool Hold Htimes Hact Hdist Hpend [Hnd Hcr] Hcb].
  apply GenerateId_fresh in Hgen as (-> & Hno & Hyes); [|lia|exact Hroom]. unfold room in Hroom.
  assert (forall x, old (genId_ m) x -> old (genId_ m + 1) x) as Hm by (intros x; apply old_mono; lia).
  split; cbn; [lia|done| |done|done|done|done| |].
  - intros t j Hj. destruct (Hold t j Hj) as [H1 H2]. split; [by apply Hm|]. intros k Hk. by apply Hm, H2.
  - split.
    + apply NoDup_cons. split; [|done]. intros (x & Ex & Hx)%list_elem_of_fmap. apply Hno. rewrite Ex. by apply Hcr.
    + intros x [->|Hx]%elem_of_cons.
      * split_and!; [done| |].
        -- intros t j Hj Ej. apply Hno. rewrite <- Ej. apply (proj1 (Hold _ _ Hj)).
        -- intros e r Hr Er. apply Hno. rewrite <- Er. apply (proj1 (proj2 (Hcb _ _ Hr))).
      * destruct (Hcr x Hx) as (H1 & H2 & H3). split_and!; [by apply Hm|done|done].
  - intros e r Hr. destruct (Hcb e r Hr) as (H1 & H2 & H3). split_and!; [lia|lia|by apply Hm|done].
Qed.

Lemma start_Inv l1 i l2 time m cbs : room m -> Inv m (l1 ++ i :: l2) cbs -> Inv (DoCloudSync time i m).2 (l1 ++ l2) cbs.
Proof.
  intros Hroom HI. pose proof HI as [Hg Hpool Hold Htimes Hact Hdist Hpend [Hnd Hcr] Hcb]. destruct Hpool as (p & Ep & Hp).
  unfold DoCloudSync. rewrite Ep. destruct (SyncId.GenerateId _ _) as [k g] eqn:Hgen. apply GenerateId_fresh in Hgen as (-> & Hno & Hyes); [|lia|exact Hroom].
  unfold add_job. destruct (pool_Schedule time 0 p) as [t p'] eqn:Es. apply Schedule_fresh in Es as [Hf Hu]. unfold room in Hroom. cbn [snd].
  destruct (Hcr i) as (H1 & H2 & H3); [set_solver|]. rewrite fmap_app, fmap_cons in Hnd. apply NoDup_app in Hnd as (Hn1 & Hn2 & Hn3).
  apply NoDup_cons in Hn3 as [Hn3 Hn4].
  eapply (add_Inv m _ (l1 ++ i :: l2) (l1 ++ l2) cbs t (mkJob (0 + 1) true (Some k) i) p p');
    [exact HI|exact Ep|exact Hf|exact Hu|done|done|cbn; lia|apply InsertOrAssign_view| |done| |exact H2|unfold RETRY_TIMES; cbn; lia| | |].
  - intros ? [= <-]. by split.
  - eapply old_mono; [|exact H1]. cbn. lia.
  - rewrite fmap_app. apply NoDup_app. split_and!; [done| |done]. intros x Hx Hx'. apply (Hn2 x Hx). apply elem_of_cons. by right.
  - intros x Hx. split; [rewrite elem_of_app, elem_of_cons; apply elem_of_app in Hx; tauto|].
    unfold request_of. cbn. intros Ex. apply elem_of_app in Hx as [Hx|Hx].
    + apply (Hn2 (SyncInfo.syncId_ x)); [by apply list_elem_of_fmap_2|]. rewrite <- Ex. apply elem_of_cons. by left.
    + apply Hn3. rewrite Ex. by apply list_elem_of_fmap_2.
  - intros e r Hr Er. by destruct (H3 e r Hr).
Qed.

Lemma client_Inv time evt m cr cbs : room m -> Inv m cr cbs -> Inv (ClientChange time evt m) cr cbs.
Proof.
  intros Hroom HI. pose proof HI as [Hg Hpool Hold Htimes Hact Hdist Hpend [Hnd Hcr] Hcb]. destruct Hpool as (p & Ep & Hp).
  unfold ClientChange, SyncInfo.of_store. rewrite Ep. destruct (SyncId.GenerateId _ _) as [k g] eqn:Hgen. apply GenerateId_fresh in Hgen as (-> & Hno & Hyes); [|lia|exact Hroom].
  destruct (pool_Schedule time 0 p) as [t p'] eqn:Es. apply Schedule_fresh in Es as [Hf Hu]. unfold room in Hroom.
  eapply (add_Inv m _ cr cr cbs t _ p p');
    [exact HI|exact Ep|exact Hf|exact Hu|done|done|cbn; lia|done|done|done|exact Hyes| | |exact Hnd| |].
  - intros t' j' Hj Ej. apply Hno. unfold request_of at 2 in Ej. cbn in Ej. rewrite <- Ej. apply (proj1 (Hold _ _ Hj)).
  - unfold RETRY_TIMES, CLIENT_RETRY_TIMES. cbn. split; [destruct (retry_ evt); lia|]. by intros [? ?].
  - intros x Hx. split; [done|]. unfold request_of. cbn. intros Ex. apply Hno. rewrite Ex. by apply Hcr.
  - intros e r Hr Er. exfalso. apply Hno. unfold request_of in Er. cbn in Er. rewrite <- Er. by eapply Hcb.
Qed.

Lemma drop_Inv t m cr cbs : Inv m cr cbs -> Inv (drop_job t m) cr cbs.
Proof.
  intros HI. pose proof HI as [Hg Hpool Hold Htimes Hact Hdist Hpend [Hnd Hcr] Hcb]. destruct Hpool as (p & Ep & Hp).
  pose proof (pool_Remove_spec t p) as [Hu _]. unfold drop_job. destruct (jobs m !! t) as [j|] eqn:Ej.
  - eapply remove_Inv; [exact HI|exact Ej|by cbn; rewrite Ep|..]; cbn; try done.
    + intros q Eq. rewrite Ep in Eq. by injection Eq as <-.
    + destruct j as [a b [k|] d]; cbn; [|done]. apply Erase_view.
  - rewrite (delete_id (jobs m)) by done. split; cbn; try done. exists (pool_Remove t p). rewrite Ep, Hu. done.
Qed.

Lemma run_Inv env t j m cr cbs : jobs m !! t = Some j -> Inv m cr cbs ->
  Inv (RunJob env t j m).2 cr ((RunJob env t j m).1 ++ cbs).
Proof.
  intros Hj HI. unfold RunJob. set (m0 := set_pool _ _ _ _ _ m).
  destruct (SyncTask_tasks env (times j) (retry j) (info j) m0) as [Ht Hcbs]. destruct (SyncTask _ _ _ _ m0) as [new m1]. cbn [fst snd] in *.
  set (m2 := match keep j with Some k => _ | None => m1 end). destruct (inv_pool _ _ _ HI) as (p & Ep & Hp).
  pose proof (pool_Remove_spec t p) as [Hu _]. injection Ht as T1 T2 T3 T4 T5.
  destruct (remove_Inv m m2 cr cbs t j (pool_Remove t p) HI Hj) as [HI2 Hnot].
  - unfold m2. destruct (keep j); cbn; rewrite T1; unfold m0; cbn; by rewrite Ep.
  - intros q Eq. rewrite Ep in Eq. by injection Eq as <-.
  - unfold m2. destruct (keep j); cbn; by rewrite T2.
  - unfold m2. destruct (keep j); cbn; by rewrite T5.
  - unfold m2. destruct (keep j); cbn; rewrite ?Erase_view; by rewrite T3.
  - intros i Hi. unfold m2. destruct (keep j); cbn; rewrite T4, Erase_view; by rewrite lookup_delete_ne.
  - apply callbacks_Inv; [exact HI2|]. intros e r Hr. pose proof (proj1 (Forall_forall _ _) Hcbs _ Hr e r eq_refl) as [-> Er].
    assert (genId_ m2 = genId_ m) as Eg by (unfold m2; destruct (keep j); cbn; by rewrite T5). rewrite Eg, Er.
    destruct (inv_times _ _ _ HI t j Hj) as [? _]. destruct (inv_old _ _ _ HI t j Hj) as [? _]. split_and!; [lia|lia|done| |].
    + intros t' j' Hj' Ej'. by destruct (Hnot t' j' Hj').
    + intros i Hi. destruct (inv_created _ _ _ HI) as [_ Hcr]. destruct (Hcr i Hi) as (_ & Hd & _). by apply (Hd t j).
Qed.

Lemma retry_Inv env evt r ds m cr cbs : room m -> RetryCallback evt r ∈ cbs -> Inv m cr cbs ->
  Inv (run_retry_callback env evt r ds m).2 cr (RetryCallback evt (run_retry_callback env evt r ds m).1 :: cbs).
Proof.
  intros Hroom Hr HI. destruct (inv_callbacks _ _ _ HI evt r Hr) as (R1 & R2 & R3).
  assert (forall m' r', r_times r' = r_times r -> SyncInfo.syncId_ (r_info r') = SyncInfo.syncId_ (r_info r) -> tasks m' = tasks m ->
    Inv m' cr (RetryCallback evt r' :: cbs)) as Hsame.
  { intros m' r' E1 E2 Et. apply (Inv_tasks m); [done|]. apply (callbacks_Inv m cr cbs [RetryCallback evt r'] HI).
    intros e0 r0 [= -> ->]%list_elem_of_singleton. rewrite E1, E2. split_and!; [lia|lia|done|done|].
    intros i Hi. destruct (inv_created _ _ _ HI) as [_ Hcr]. destruct (Hcr i Hi) as (_ & _ & Hd). by eapply Hd. }
  unfold run_retry_callback. destruct ds as [|d ds]; [by apply Hsame|]. set (m1 := if bool_decide _ then _ else m).
  assert (tasks m1 = tasks m) as E1 by (unfold m1; by case_bool_decide).
  pose proof (Retry_tasks r (GetInterval (code d)) (code d) (cloudAction d) (now env) m1) as Hrt. destruct (Retry _ _ _ _ _ m1) as [[ans r'] m2].
  destruct Hrt as (E2 & E3 & [Et|(p & t & p' & k & g & Hlt & Ep & Hn & Es & Hgen & _ & Et)]); cbn [fst snd].
  { apply Hsame; [done|done|congruence]. }
  pose proof (Hsame m1 r' E2 E3 E1) as HI1. pose proof E1 as E1'. unfold tasks in E1'. injection E1' as F1 F2 F3 F4 F5.
  apply GenerateId_fresh in Hgen as (-> & Hno & Hyes); [|rewrite F5; pose proof (inv_gen _ _ _ HI); lia|unfold room in Hroom; rewrite F5; exact Hroom].
  apply Schedule_fresh in Es as [Hf Hu]. injection Et as T1 T2 T3 T4 T5. unfold room in Hroom. pose proof (inv_gen _ _ _ HI) as Hg.
  assert (is_retry (mkJob (r_times r + 1) true (Some k) (r_info r))) as Hretry by (split; cbn; [eauto|lia]).
  eapply (add_Inv m1 m2 cr cr _ t (mkJob (r_times r + 1) true (Some k) (r_info r)) p p');
    [exact HI1|exact Ep|exact Hf|exact Hu|exact T1|exact T2|lia|rewrite T3; apply InsertOrAssign_view| | | | | | | |by intros].
  - cbn. intros ? [= <-]. rewrite T5. by split.
  - rewrite T4, InsertOrAssign_view. cbn [keep times]. by rewrite (proj2 (Z.leb_le 2 _)) by lia.
  - rewrite T5. unfold request_of. cbn. eapply old_mono; [|exact R2]. lia.
  - intros t' j' Hj' Ej'. unfold request_of at 2 in Ej'. cbn in Ej'. rewrite F2 in Hj'. pose proof (R3 t' j' Hj' Ej') as Hr'.
    pose proof (inv_pending _ _ _ HI t' j' Hj' Hr') as Hp. rewrite <- F4, Ej', Hn in Hp. destruct Hr' as [[x Hx] _]. congruence.
  - cbn. unfold RETRY_TIMES in *. lia.
  - apply (inv_created _ _ _ HI1).
  - intros i Hi. split; [done|]. unfold request_of. cbn. destruct (inv_created _ _ _ HI) as [_ Hcr]. destruct (Hcr i Hi) as (_ & _ & Hd). by eapply Hd.
Qed.

Lemma sync_step_Inv s s' : Inv (mgr s) (created s) (callbacks s) -> step s s' -> Inv (mgr s') (created s') (callbacks s').
Proof.
  intros HI Hs. destruct Hs as [u i g s Hroom Hgen|l1 i l2 time s Hroom Hcr|time evt s Hroom|u s|env t j s Hj|env evt r ds s Hroom Hr|m s Ht]; cbn [mgr created callbacks].
  - by eapply create_Inv.
  - rewrite Hcr in HI. by apply start_Inv.
  - by apply client_Inv.
  - unfold StopCloudSync. destruct (executor_ (mgr s)); [|done]. cbn [snd]. generalize (map_to_list (cm_view (actives_ (mgr s)))) as l.
    intros l. revert HI. generalize (mgr s) as m. induction l as [|e l IH]; intros m HI; cbn [fold_left]; [done|]. apply IH.
    case_if; [by apply drop_Inv|done].
  - by apply run_Inv.
  - by apply retry_Inv.
  - by eapply Inv_tasks.
Qed.

Lemma sync_init_Inv s : init s -> Inv (mgr s) (created s) (callbacks s).
Proof.
  intros ([p Hp] & Hj & Ha & Hg & -> & ->). split; rewrite ?Hj, ?Ha, ?Hg.
  - lia.
  - exists p. split; [done|]. intros t [? H]. by rewrite lookup_empty in H.
  - intros t j. by rewrite lookup_empty.
  - intros t j. by rewrite lookup_empty.
  - intros k t. rewrite lookup_empty. split; [done|]. intros (j & H & _). by rewrite lookup_empty in H.
  - intros t t' j j'. by rewrite lookup_empty.
  - intros t j. by rewrite lookup_empty.
  - split; [apply NoDup_nil_2|]. intros i Hi. by apply not_elem_of_nil in Hi.
  - intros e r Hr. by apply not_elem_of_nil in Hr.
Qed.

(** C2: however requests, client changes, stops, runs and callbacks interleave, the tasks
    are accounted for: the table of active synchronisations names exactly the waiting
    registered tasks; a request has at most one waiting task, so that however many stores
    fail it is tried again only once at a time; and no task is an attempt beyond the sixth
    (a change of a client that is not retried counts as the seventh from the start). *)
Theorem tasks_accounted s : reachable init step s ->
  (forall k t, cm_view (actives_ (mgr s)) !! k = Some t <-> exists j, jobs (mgr s) !! t = Some j /\ keep j = Some k) /\
  (forall t t' j j', jobs (mgr s) !! t = Some j -> jobs (mgr s) !! t' = Some j' ->
     SyncInfo.syncId_ (info j) = SyncInfo.syncId_ (info j') -> t = t') /\
  (forall t j, jobs (mgr s) !! t = Some j -> 1 <= times j <= 7 /\ (is_Some (keep j) -> times j <= 6)).
Proof.
  intros Hr. assert (Inv (mgr s) (created s) (callbacks s)) as HI.
  { apply (reachable_invariant init step (fun s => Inv (mgr s) (created s) (callbacks s))); [apply sync_init_Inv|intros ??; apply sync_step_Inv|done]. }
  split_and!; [apply (inv_actives _ _ _ HI)|apply (inv_distinct _ _ _ HI)|apply (inv_times _ _ _ HI)].
Qed.

Definition told (i : Request) (c : Z) : list Effect := match SyncInfo.async_ i with Some cb => [ECallback cb [c]] | None => [] end.

Lemma SetError_effects i c m : effects (SetError i c m) = effects m ++ told i c.
Proof. unfold SetError, told. destruct (SyncInfo.async_ i); cbn; [done|by rewrite app_nil_r]. Qed.

(** C11: what a failure leads to. Success and a merged task end the matter. From the
    sixth attempt on the caller is told the code, and a network failure is recorded for the
    time the network is back. Before, a network failure or a failure that the cloud asks to
    retry schedules the next attempt of the same request after the interval, unless one is
    pending, and the caller hears nothing yet; any other failure is told, reduced to the
    public codes. *)
Theorem retry_decision r interval c action time m p :
  executor_ m = Some p ->
  let m' := (Retry r interval c action time m).2 in
  let final := c = E_OK \/ c = E_SYNC_TASK_MERGED in
  let wanted := c = E_NETWORK_ERROR \/ action = ACTION_RETRY_SYNC_TASK in
  (final -> m' = m) /\
  (~ final -> 6 <= r_times r -> jobs m' = jobs m /\ effects m' = effects m ++ told (r_info r) c /\
     currentEvent_ m' = if c =? E_NETWORK_ERROR then NetworkRecovery.RecordSyncApps (r_user r) (SyncInfo.bundleName_ (r_info r)) (currentEvent_ m)
                        else currentEvent_ m) /\
  (~ final -> r_times r < 6 -> ~ wanted -> jobs m' = jobs m /\ effects m' = effects m ++ told (r_info r) (ConvertValidGeneralCode c)) /\
  (~ final -> r_times r < 6 -> wanted -> is_Some (cm_view (activeInfos_ m) !! SyncInfo.syncId_ (r_info r)) -> m' = m) /\
  (~ final -> r_times r < 6 -> wanted -> cm_view (activeInfos_ m) !! SyncInfo.syncId_ (r_info r) = None ->
     effects m' = effects m /\ exists task p' k,
       jobs m' = <[task := mkJob (r_times r + 1) true (Some k) (r_info r)]> (jobs m) /\ executor_ m' = Some p' /\
       timers p' !! task = Some (time + interval) /\ cm_view (actives_ m') !! k = Some task /\
       cm_view (activeInfos_ m') !! SyncInfo.syncId_ (r_info r) = Some k).
Proof.
  intros Ep m' final wanted. unfold m', Retry, RETRY_TIMES.
  assert ((c =? E_OK) || (c =? E_SYNC_TASK_MERGED) = true <-> final) as Hf by (unfold final; rewrite orb_true_iff, !Z.eqb_eq; done).
  assert (negb (c =? E_NETWORK_ERROR) && negb (bool_decide (action = ACTION_RETRY_SYNC_TASK)) = false <-> wanted) as Hw.
  { unfold wanted. rewrite andb_false_iff, !negb_false_iff, Z.eqb_eq, bool_decide_eq_true. done. }
  assert (forall b, (b = true <-> final) -> final -> b = true) as Hft by tauto.
  destruct (Z.leb_spec 6 (r_times r)) as [H6|H6]; cbn [snd].
  { unfold HandleRetryFinished. split; [intros H; by rewrite (Hft _ Hf)|]. split; [|split; [|split]; intros; lia].
    intros Hnf _. destruct ((c =? E_OK) || _); [by destruct Hnf; apply Hf|]. rewrite SetError_effects. unfold SetError.
    destruct (c =? E_NETWORK_ERROR); by destruct (SyncInfo.async_ _). }
  destruct ((c =? E_OK) || _) eqn:E1.
  { assert final by by apply Hf. split; [done|]. split; [|split; [|split]]; by intros ?. }
  assert (~ final) as Hnf by (intros H; by apply Hf in H). split; [done|]. split; [intros; lia|].
  destruct (negb _ && negb _) eqn:E2; cbn [snd].
  { assert (~ wanted) as Hnw by (intros H; by apply Hw in H). split; [|split; by intros ? ? ?].
    intros _ _ _. rewrite SetError_effects. split; [|done]. unfold SetError. by destruct (SyncInfo.async_ _). }
  assert wanted by by apply Hw. split; [by intros ? ? ?|]. rewrite Ep. destruct (cm_view (activeInfos_ m) !! _) eqn:Ea; cbn [snd].
  { split; [done|]. by intros ? ? ? ?. }
  split; [by intros ? ? ? [? ?]|]. intros _ _ _ _. destruct (SyncId.GenerateId _ _) as [k g]. unfold add_job.
  pose proof (pool_Schedule_spec time interval p) as Hs. destruct (pool_Schedule time interval p) as [task p']. destruct Hs as (_ & _ & _ & Ht).
  split; [done|]. exists task, p', k. cbn. rewrite !InsertOrAssign_view, Ht, !lookup_insert_eq. done.
Qed.

(** ** Stopping *)
Lemma fold_drop_jobs u l m t j :
  jobs (fold_left (fun m e => if SyncId.Compare e.1 u =? 0 then drop_job e.2 m else m) l m) !! t = Some j <->
  jobs m !! t = Some j /\ forall e, e ∈ l -> SyncId.Compare e.1 u = 0 -> e.2 <> t.
Proof.
  revert m. induction l as [|e l IH]; intros m; cbn [fold_left].
  - split; [intros H; split; [done|]; intros e He; by apply not_elem_of_nil in He|naive_solver].
  - rewrite IH. setoid_rewrite elem_of_cons. destruct (Z.eqb_spec (SyncId.Compare e.1 u) 0) as [Ec|Ec].
    + assert (jobs (drop_job e.2 m) !! t = Some j <-> jobs m !! t = Some j /\ e.2 <> t) as -> by (cbn; rewrite lookup_delete_Some; tauto).
      split.
      * intros [[? ?] Hl]. split; [done|]. intros e' [->|?]; [done|by apply Hl].
      * intros [? Hl]. split; [split; [done|by apply Hl; [left|]]|]. intros e' ?. apply Hl. by right.
    + split.
      * intros [? Hl]. split; [done|]. intros e' [->|?]; [done|by apply Hl].
      * intros [? Hl]. split; [done|]. intros e' ?. apply Hl. by right.
Qed.

(** C33: stopping the synchronisations of a user stops those of all the others: the
    comparison answers 1 for an identifier of the user and the caller takes 0 for it. The
    waiting registered tasks of the user stay, and exactly those of other users are removed. *)
Theorem stop_keeps_own_user u s t j : reachable init step s ->
  jobs (StopCloudSync u (mgr s)).2 !! t = Some j <->
  jobs (mgr s) !! t = Some j /\ forall k, keep j = Some k -> SyncId.user_of k = u32 u.
Proof.
  intros Hr. assert (Inv (mgr s) (created s) (callbacks s)) as HI.
  { apply (reachable_invariant init step (fun s => Inv (mgr s) (created s) (callbacks s))); [apply sync_init_Inv|intros ??; apply sync_step_Inv|done]. }
  destruct (inv_pool _ _ _ HI) as (p & Ep & _). unfold StopCloudSync. rewrite Ep. cbn [snd]. rewrite fold_drop_jobs.
  assert (forall k, keep j = Some k -> jobs (mgr s) !! t = Some j -> (SyncId.Compare k u = 0 <-> SyncId.user_of k <> u32 u)) as Hc.
  { intros k Hk Hj. destruct (inv_old _ _ _ HI t j Hj) as [_ Ho]. destruct (Ho k Hk) as [Hin _]. rewrite SyncId.Compare_spec by done.
    destruct (Z.eqb_spec (SyncId.user_of k) (u32 u)); split; done. }
  split; intros [Hj H]; (split; [done|]).
  - intros k Hk. destruct (decide (SyncId.user_of k = u32 u)) as [|Hne]; [done|]. exfalso. apply (H (k, t)); [|by apply Hc|done].
    apply elem_of_map_to_list. apply (inv_actives _ _ _ HI). eauto.
  - intros [k t'] He Hcmp Et. cbn in Et. subst t'. apply elem_of_map_to_list, (inv_actives _ _ _ HI) in He as (j' & Hj' & Hk).
    assert (j' = j) as -> by congruence. apply (Hc k Hk Hj) in Hcmp. by apply Hcmp, H.
Qed.

(** ** What is synchronised *)

(** The conditions on a database: it is asked for, its synchronisation is not switched
    off, the strategy permits it and a table is left. *)
Definition eligible (env : Env) (i : Request) (config : meta_db CloudDbSyncConfig.CloudDbSyncConfig) (bundle : string) (db : Database.Database) : bool :=
  let name := Database.name db in
  SyncInfo.Contains name i && SyncConfig.IsDbEnable (SyncInfo.user_ i) bundle name config && (checkSyncAction env (SyncInfo.user_ i) bundle =? E_OK) &&
  (SyncConfig.FilterCloudEnabledTables (SyncInfo.user_ i) bundle name (SyncInfo.GetTables db i) config).1.

Definition event_for (c : Cloud) (i : Request) (rt : bool) (traces : gmap string string) (config : meta_db CloudDbSyncConfig.CloudDbSyncConfig)
    (bundle : string) (db : Database.Database) : SyncEvent :=
  event_of c i rt (default "" (traces !! bundle)) bundle (Database.name db)
    (SyncConfig.FilterCloudEnabledTables (SyncInfo.user_ i) bundle (Database.name db) (SyncInfo.GetTables db i) config).2.

Lemma SetError_config i c m : configDb (SetError i c m) = configDb m.
Proof. unfold SetError. by destruct (SyncInfo.async_ i). Qed.

Lemma post_database_spec env c i rt traces b db m :
  let '(e, m') := post_database env c i rt (default "" (traces !! b)) b db m in
  e = (if eligible env i (configDb m) b db then Some (event_for c i rt traces (configDb m) b db) else None) /\ configDb m' = configDb m.
Proof.
  unfold post_database, eligible, event_for. destruct (SyncInfo.Contains _ i), (SyncConfig.IsDbEnable _ _ _ _); cbn [negb orb andb]; try done.
  destruct (checkSyncAction env (SyncInfo.user_ i) b =? E_OK); cbn [negb andb]; [|by rewrite SetError_config].
  destruct (SyncConfig.FilterCloudEnabledTables _ _ _ _ _) as [l ts]; cbn [fst snd]. destruct l; cbn [negb]; [done|by rewrite SetError_config].
Qed.

Lemma post_databases_spec env c i rt traces b dbs m :
  let '(es, m') := post_databases env c i rt (default "" (traces !! b)) b dbs m in
  es = event_for c i rt traces (configDb m) b <$> filter (fun db => eligible env i (configDb m) b db = true) dbs /\ configDb m' = configDb m.
Proof.
  revert m. induction dbs as [|db dbs IH]; intros m; cbn [post_databases]; [done|].
  pose proof (post_database_spec env c i rt traces b db m) as H1. destruct (post_database _ _ _ _ _ _ _ m) as [e m1]. destruct H1 as [-> E1].
  specialize (IH m1). destruct (post_databases _ _ _ _ _ _ _ m1) as [es m2]. destruct IH as [-> E2]. rewrite E1 in *. split; [|congruence].
  rewrite filter_cons. destruct (eligible env i (configDb m) b db) eqn:El; cbn [option_list app];
    [rewrite decide_True by done|rewrite decide_False by congruence]; done.
Qed.

(** C9: a request posts exactly one event for every database that is to be synchronised, in
    the order of the schemas: the application's switch is on, the database is asked for and
    not switched off, the strategy permits it and at least one of its tables is not switched
    off; the event carries the tables that are left. When there is no such database the
    caller is told an error at the end. *)
Theorem posted_exactly env schemas c i rt traces m :
  let '(evts, m') := PostEventTask env schemas c i rt traces m in
  evts = (s ← filter (fun s => CloudInfo.IsOn (SchemaMeta.bundleName s) 0 c = true) schemas;
          event_for c i rt traces (configDb m) (SchemaMeta.bundleName s) <$>
            filter (fun db => eligible env i (configDb m) (SchemaMeta.bundleName s) db = true) (SchemaMeta.databases s)) /\
  (evts = [] -> exists before, effects m' = before ++ told i E_ERROR).
Proof.
  unfold PostEventTask.
  assert (let '(es, m') := post_schemas env c i rt traces schemas m in
    es = (s ← filter (fun s => CloudInfo.IsOn (SchemaMeta.bundleName s) 0 c = true) schemas;
          event_for c i rt traces (configDb m) (SchemaMeta.bundleName s) <$>
            filter (fun db => eligible env i (configDb m) (SchemaMeta.bundleName s) db = true) (SchemaMeta.databases s))) as H.
  { revert m. induction schemas as [|s ss IH]; intros m; cbn [post_schemas]; [done|].
    rewrite filter_cons. destruct (CloudInfo.IsOn (SchemaMeta.bundleName s) 0 c) eqn:Eon; cbn [negb].
    - pose proof (post_databases_spec env c i rt traces (SchemaMeta.bundleName s) (SchemaMeta.databases s) m) as H1.
      destruct (post_databases _ _ _ _ _ _ _ m) as [es m1]. destruct H1 as [-> E1]. specialize (IH m1).
      destruct (post_schemas env c i rt traces ss m1) as [es' m2]. rewrite IH, E1. rewrite decide_True by done. by rewrite bind_cons.
    - match goal with |- context [post_schemas env c i rt traces ss ?m1] => specialize (IH m1); destruct (post_schemas env c i rt traces ss m1) as [es' m2] end.
      rewrite IH. rewrite decide_False by congruence. done. }
  destruct (post_schemas env c i rt traces schemas m) as [es m1]. split; [done|]. intros ->. exists (effects m1). apply SetError_effects.
Qed.

(** A request for one application also takes in every application whose name begins
    with its name: the schemas are loaded by a prefix of the key that does not end with the
    separator. A stored schema of such an application with a database is among those of
    which the task posts events. *)
Lemma request_takes_in_longer_names c i db rest instance schema schemas d :
  SyncInfo.bundleName_ i <> "" -> SyncInfo.tables_ i = ∅ -> d ∈ SchemaMeta.databases schema ->
  stored db true (CloudInfo.GetSchemaKey (SyncInfo.bundleName_ i +:+ rest) instance c) = Some schema ->
  (LoadMetas (CloudInfo.GetSchemaPrefix (SyncInfo.bundleName_ i) c) true db).1 = Some schemas ->
  exists s, s ∈ GetSchemaMeta c i db /\ SchemaMeta.bundleName s = SchemaMeta.bundleName schema /\ d ∈ SchemaMeta.databases s.
Proof.
  intros Hb Ht Hd Hs Hl. unfold GetSchemaMeta. rewrite Hl. cbn [default from_option id]. rewrite bool_decide_eq_false_2 by done.
  destruct (LoadMetas _ true db) as [r db'] eqn:El. cbn in Hl. subst r. apply LoadMetas_result in El as (es & -> & [_ Hes]).
  assert (schema ∈ es.*2) as Hin.
  { apply list_elem_of_fmap. exists (CloudInfo.GetSchemaKey (SyncInfo.bundleName_ i +:+ rest) instance c, schema). split; [done|]. apply Hes. split; [done|].
    assert (CloudInfo.GetSchemaKey (SyncInfo.bundleName_ i +:+ rest) instance c =
      CloudInfo.GetSchemaPrefix (SyncInfo.bundleName_ i) c +:+ (rest +:+ Constant.KEY_SEPARATOR +:+ to_string instance)) as ->; [|apply prefix_app].
    unfold CloudInfo.GetSchemaPrefix, CloudInfo.GetSchemaKey, CloudInfo.GetKeyOf, Constant.Join. rewrite bool_decide_eq_false_2 by done. cbn [fold_left].
    by rewrite !string_app_assoc. }
  assert (SyncInfo.Contains (Database.name d) i = true) as Hc by (unfold SyncInfo.Contains; by rewrite Ht).
  eexists. split; [|split; [|]].
  - apply list_elem_of_filter. split; [|apply list_elem_of_fmap; exists schema; split; [reflexivity|exact Hin]]. cbn [SchemaMeta.databases].
    intros E. assert (d ∈ ([] : list Database.Database)) as Hn; [|by apply not_elem_of_nil in Hn]. rewrite <- E. by apply list_elem_of_filter.
  - done.
  - cbn [SchemaMeta.databases]. by apply list_elem_of_filter.
Qed.
End Manager.

#[local] Existing Instances GmapConcurrent MapMetaStore FlowControl.SetPool.

(** ** A small system *)
Definition empty_last : LastSync.State (CM := GmapConcurrent) (MS := MapMetaStore) := LastSync.mkState ∅ ∅ [].

Definition idle : Manager :=
  mkManager (EP := FlowControl.SetPool) (CA := GmapConcurrent) (CL := GmapConcurrent) (ML := MapMetaStore) (CC := GmapConcurrent)
    (MC := MapMetaStore) (MS := MapMetaStore) (MD := MapMetaStore) (Some (∅, ∅)) ∅ ∅ ∅ 0 empty_last None ∅ ∅ ∅ ∅ [].

(** A request of a user for one application, and the states in which two of them have been started. *)
Definition request (u g : Z) : Request := (SyncInfo.of_store u "com.notes" "" [] 0 g).1.
Definition s0 : System := mkSys idle [] [].
Definition s1 : System := mkSys (set_gen 1 (mgr s0)) [request 100 0] [].
Definition s2 : System := mkSys (DoCloudSync 0 (request 100 0) (mgr s1)).2 [] [].
Definition s3 : System := mkSys (set_gen 3 (mgr s2)) [request 200 2] [].
Definition s4 : System := mkSys (DoCloudSync 5 (request 200 2) (mgr s3)).2 [] [].

Lemma s4_reachable : reachable init (step 1 ∅) s4.
Proof.
  apply (reach_step _ _ s3); [apply (reach_step _ _ s2); [apply (reach_step _ _ s1); [apply (reach_step _ _ s0); [apply reach_init|]|]|]|].
  - split_and!; [eexists; reflexivity|reflexivity..].
  - eapply (step_create 1 ∅ 100 (request 100 0) 1 s0); by_vm || done.
  - apply (step_start 1 ∅ [] (request 100 0) [] 0 s1); done.
  - eapply (step_create 1 ∅ 200 (request 200 2) 3 s2); by_vm || done.
  - apply (step_start 1 ∅ [] (request 200 2) [] 5 s3); done.
Qed.

Definition first_task : Z := default 0 (cm_view (actives_ (mgr s4)) !! (SyncId.GenerateId 100 1).1).

Lemma tasks_accounted_witness :
  cm_view (actives_ (mgr s4)) !! (SyncId.GenerateId 100 1).1 = Some first_task /\
  exists j, jobs (mgr s4) !! first_task = Some j /\ keep j = Some (SyncId.GenerateId 100 1).1.
Proof.
  destruct (tasks_accounted 1 ∅ s4 s4_reachable) as (Ha & _ & _). assert (cm_view (actives_ (mgr s4)) !! (SyncId.GenerateId 100 1).1 = Some first_task) as El by by_vm.
  split; [exact El|]. by apply Ha.
Defined.

(** Stopping the synchronisations of user 200 leaves that of user 200 and removes that of user 100. *)
Lemma stop_keeps_own_user_witness :
  jobs (StopCloudSync 200 (mgr s4)).2 !! first_task = None /\
  (forall j, jobs (StopCloudSync 200 (mgr s4)).2 !! first_task = Some j -> False) /\ is_Some (jobs (mgr s4) !! first_task).
Proof.
  assert (jobs (mgr s4) !! first_task = Some (mkJob 1 true (Some (SyncId.GenerateId 100 1).1) (request 100 0))) as Ej by by_vm.
  split; [by_vm|]. split; [|by eexists]. intros j Hj. apply (stop_keeps_own_user 1 ∅ 200 s4 first_task j s4_reachable) in Hj as [Hj Hk].
  rewrite Ej in Hj. injection Hj as <-. specialize (Hk _ eq_refl). vm_compute in Hk. done.
Defined.

Definition first_failure : Retryer := mkRetryer 1 (request 100 0) 100.

Lemma retry_decision_witness :
  exists task p' k, jobs (Retry first_failure RETRY_INTERVAL E_NETWORK_ERROR ACTION_DEFAULT 7 idle).2 =
    <[task := mkJob 2 true (Some k) (request 100 0)]> (jobs idle) /\ timers (ExecutorPool := FlowControl.SetPool) p' !! task = Some 10007.
Proof.
  destruct (retry_decision first_failure RETRY_INTERVAL E_NETWORK_ERROR ACTION_DEFAULT 7 idle (∅, ∅) eq_refl) as (_ & _ & _ & _ & H).
  destruct H as (_ & task & p' & k & H1 & _ & H2 & _ & _).
  - by intros [?|?].
  - done.
  - by left.
  - by_vm.
  - exists task, p', k. split; [exact H1|exact H2].
Defined.

(** A request for [com.app] takes in the schema of [com.app2]. *)
Definition other_schema : Schema := SchemaMeta.mk 65537 1 "com.app2" [CloudData.Database.mk "d" "" [] [] 0 "" "" 0 ""] false.
Definition app_request : Request := (SyncInfo.of_store 100 "com.app" "" [] 0 0).1.
Definition other_db : gmap (bool * string) Schema := {[(true, CloudInfo.GetSchemaKey "com.app2" 0 (cloud_of_user 100)) := other_schema]}.

Lemma request_takes_in_longer_names_witness :
  exists s, s ∈ GetSchemaMeta (MS := MapMetaStore) (cloud_of_user 100) app_request other_db /\ SchemaMeta.bundleName s = "com.app2" /\
    CloudData.Database.mk "d" "" [] [] 0 "" "" 0 "" ∈ SchemaMeta.databases s.
Proof.
  apply (request_takes_in_longer_names (MS := MapMetaStore) (cloud_of_user 100) app_request other_db "2" 0 other_schema [other_schema]).
  - done.
  - by_vm.
  - by_decide || (apply elem_of_cons; by left).
  - by_vm.
  - by_vm.
Defined.
End CloudSync.
