(* ===== verification/CloudStore.v ===== *)
(** * The stores of a cloud synchronisation ([service/cloud/sync_manager.cpp])

    How the synchronisation manager finds the metadata of a store, private or public, opens the store and
    binds it to the cloud databases of its users. The cache of stores, the store itself,
    the cloud server and the accounts are parameters; the metadata is read through [MetaStore]. *)

From stdpp Require Import sorting.
From S2P Require Import Prelude CppString Interfaces Constant CloudData MetaData SyncRecords CloudSync.
Import CloudData MetaData GeneralError.

Module CloudStore.
Abbreviation Cloud := CloudInfo.CloudInfo.
Abbreviation Schema := SchemaMeta.SchemaMeta.
Abbreviation StoreMeta := StoreMetaData.StoreMetaData.
Abbreviation Mapping := StoreMetaMapping.StoreMetaMapping.

Definition STORE_KV_BEGIN : Z := 0.
Definition STORE_KV_END : Z := 9.
Definition SYSTEM_USER_ID : Z := 0.

(* @src framework/include/store/general_store.h 119-124 GeneralStore::CloudConfig *)
Record CloudConfig := mkConfig { maxNumber : Z; maxSize : Z; maxRetryConflictTimes : Z; isSupportEncrypt : bool }.
Definition default_config : CloudConfig := mkConfig 30 (1024 * 512 * 3) 3 false.

(** A cloud database and an asset loader are names. *)
Record BindInfo := mkBind { db_ : Z; loader_ : option Z }.

(** The cloud server connects a user's databases and loaders. *)
Record CloudServer := mkServer {
  ConnectCloudDB : string -> Z -> Database.Database -> option Z;
  ConnectAssetLoader : string -> Z -> Database.Database -> option Z
}.

(* @src service/cloud/sync_manager.cpp 684-721 SyncManager::GetBindInfos *)
Fixpoint GetBindInfos_loop (instance : CloudServer) (meta : StoreMeta) (users : list Z) (db : Database.Database) (infos : gmap Z BindInfo) : gmap Z BindInfo :=
  match users with
  | [] => infos
  | activeUser :: users =>
      if activeUser =? 0 then GetBindInfos_loop instance meta users db infos
      else
        match ConnectCloudDB instance (StoreMetaData.bundleName meta) activeUser db with
        | None => ∅
        | Some cloudDB =>
            if (STORE_KV_BEGIN <=? StoreMetaData.storeType meta) && (StoreMetaData.storeType meta <=? STORE_KV_END)
            then GetBindInfos_loop instance meta users db (<[u32 activeUser := mkBind cloudDB None]> infos)
            else
              match ConnectAssetLoader instance (StoreMetaData.bundleName meta) activeUser db with
              | None => ∅
              | Some loader => GetBindInfos_loop instance meta users db (<[u32 activeUser := mkBind cloudDB (Some loader)]> infos)
              end
        end
  end.

Definition GetBindInfos (instance : option CloudServer) (meta : StoreMeta) (users : list Z) (db : Database.Database) : gmap Z BindInfo :=
  match instance with None => ∅ | Some s => GetBindInfos_loop s meta users db ∅ end.

(** What is known of each user for whom the store is to be bound: schema, connection, limits and account. *)
Definition UserBindInfo : Type := gmap Z (Schema * BindInfo * CloudConfig * string).

(* @src service/cloud/sync_manager.cpp 759-781 SyncManager::GetCloudInfos *)
Definition GetCloudInfos (foreground : list Z) (isLogin : Z -> bool) (user : Z) : list Cloud :=
  CloudSync.cloud_of_user <$> (if user =? SYSTEM_USER_ID then filter (fun u => isLogin u = true) foreground else [user]).

Section Store.
Context {MC : MetaStore Cloud} {MS : MetaStore Schema} {MM : MetaStore Mapping} {MT : MetaStore StoreMeta} {ML : MetaStore StoreMetaDataLocal.StoreMetaDataLocal}.

(** [isBound] is the store's answer whether it is bound for a user and account. *)
(* @src service/cloud/sync_manager.cpp 783-812 SyncManager::FillUserBindInfos *)
Definition FillUserBindInfos (instance : option CloudServer) (isBound : Z -> string -> bool) (cloudDb : meta_db Cloud) (schemaDb : meta_db Schema)
    (meta : StoreMeta) (mustBind : bool) (info : Cloud) (infos : UserBindInfo) : Z * UserBindInfo :=
  let loaded := (LoadMeta (CloudInfo.GetKey info) true cloudDb).1 in
  let config := match loaded with
                | Some c => mkConfig (CloudInfo.maxNumber c) (CloudInfo.maxSize c) (maxRetryConflictTimes default_config) false
                | None => default_config
                end in
  let info := default info loaded in
  if isBound (CloudInfo.user info) (CloudInfo.id info) then (E_OK, infos)
  else
    match (LoadMeta (CloudInfo.GetSchemaKey (StoreMetaData.bundleName meta) (StoreMetaData.instanceId meta) info) true schemaDb).1 with
    | None => (E_ERROR, infos)
    | Some schema =>
        let config := mkConfig (maxNumber config) (maxSize config) (maxRetryConflictTimes config) (SchemaMeta.e2eeEnable schema) in
        let bindInfos := GetBindInfos instance meta [CloudInfo.user info] (SchemaMeta.GetDataBase (StoreMetaData.storeId meta) schema) in
        if mustBind && negb (bool_decide (base.size bindInfos = 1%nat)) then (E_ERROR, infos)
        else (E_OK, ((fun b => (schema, b, config, CloudInfo.id info)) <$> bindInfos) ∪ infos)
    end.

(** The call of [Bind] at the store: the databases of the users and the common limits. The users
    come in ascending order. *)
Definition before (a b : Z * (Schema * BindInfo * CloudConfig * string)) : Prop := a.1 <= b.1.
#[local] Instance before_dec a b : Decision (before a b).
Proof. unfold before. apply _. Defined.

Definition ordered_users (m : UserBindInfo) : list (Z * (Schema * BindInfo * CloudConfig * string)) := merge_sort before (map_to_list m).

(* @src service/cloud/sync_manager.cpp 814-830 SyncManager::BindInfos *)
Definition BindInfos (userBindInfo : UserBindInfo) (storeId : string) : gmap Z (Database.Database * BindInfo * string) * CloudConfig :=
  ((fun '(schema, b, _, id) => (SchemaMeta.GetDataBase storeId schema, b, id)) <$> userBindInfo,
   fold_left (fun config e =>
       let '(schema, _, userConfig, _) := e.2 in
       mkConfig (if maxNumber config =? 0 then maxNumber userConfig else Z.min (maxNumber config) (maxNumber userConfig))
         (if maxSize config =? 0 then maxSize userConfig else Z.min (maxSize config) (maxSize userConfig))
         (maxRetryConflictTimes config) (isSupportEncrypt config || SchemaMeta.e2eeEnable schema))
     (ordered_users userBindInfo) default_config).

(** The status, whether there is a store, and the call of [Bind]. [open] is the answer of
    the cache: a status and whether there is a store. *)
(* @src service/cloud/sync_manager.cpp 723-757 SyncManager::GetStore *)
Definition GetStore (verified : Z -> bool) (foreground : list Z) (isLogin : Z -> bool) (instance : option CloudServer) (open : Z * bool)
    (isBound : Z -> string -> bool) (cloudDb : meta_db Cloud) (schemaDb : meta_db Schema) (meta : StoreMeta) (user : Z) (mustBind : bool)
    : Z * bool * option (gmap Z (Database.Database * BindInfo * string) * CloudConfig) :=
  if negb (user =? 0) && negb (verified user) then (E_USER_LOCKED, false, None)
  else match instance with
       | None => (E_NOT_SUPPORT, false, None)
       | Some _ =>
           let '(status, store) := open in
           if status =? E_SCREEN_LOCKED then (E_SCREEN_LOCKED, false, None)
           else if negb store then (E_ERROR, false, None)
           else match GetCloudInfos foreground isLogin user with
                | [] => (E_ERROR, false, None)
                | infos =>
                    let '(status, hasSuccess, binds) :=
                      fold_left (fun '(status, has, b) info =>
                          let '(ret, b) := FillUserBindInfos instance isBound cloudDb schemaDb meta mustBind info b in
                          if negb (ret =? E_OK) then (ret, has, b) else (status, true, b)) infos (status, false, ∅) in
                    (if hasSuccess then E_OK else status, true, Some (BindInfos binds (StoreMetaData.storeId meta)))
                end
       end.

(* @src service/cloud/sync_manager.cpp 1219-1224 SyncManager::GetPath *)
Definition GetPath (mappings : meta_db Mapping) (meta : StoreMeta) : string :=
  let made := StoreMetaMapping.mk meta "" "" "" in
  let mapping := default made (LoadMeta (StoreMetaMapping.GetKey made) true mappings).1 in
  if bool_decide (StoreMetaMapping.cloudPath mapping = "") then StoreMetaData.dataDir (StoreMetaMapping.meta mapping) else StoreMetaMapping.cloudPath mapping.

(** Metadata with given identifying fields and directory. *)
Definition meta_with (user dataDir : string) (m : StoreMeta) : StoreMeta :=
  StoreMetaData.mk (StoreMetaData.version m) (StoreMetaData.isAutoSync m) (StoreMetaData.autoSyncSwitch m) (StoreMetaData.isBackup m) (StoreMetaData.isDirty m)
    (StoreMetaData.isEncrypt m) (StoreMetaData.isManualClean m) (StoreMetaData.isManualCleanDevice m) (StoreMetaData.isSearchable m) (StoreMetaData.isNeedCompress m)
    (StoreMetaData.enableCloud m) (StoreMetaData.cloudAutoSync m) (StoreMetaData.customSwitch m) (StoreMetaData.dataType m) (StoreMetaData.storeType m)
    (StoreMetaData.securityLevel m) (StoreMetaData.area m) (StoreMetaData.uid m) (StoreMetaData.instanceId m) (StoreMetaData.haMode m) (StoreMetaData.tokenId m)
    (StoreMetaData.appId m) (StoreMetaData.appType m) (StoreMetaData.bundleName m) (StoreMetaData.hapName m) dataDir (StoreMetaData.customDir m)
    (StoreMetaData.deviceId m) (StoreMetaData.schema m) (StoreMetaData.storeId m) user (StoreMetaData.account m) (StoreMetaData.authType m)
    (StoreMetaData.asyncDownloadAsset m) (StoreMetaData.isNeedUpdateDeviceId m) (StoreMetaData.assetConflictPolicy m) (StoreMetaData.assetTempPath m)
    (StoreMetaData.assetDownloadOnDemand m) (StoreMetaData.filterMode m).

(* @src framework/metadata/store_meta_data.cpp 144-148 StoreMetaData::StoreMetaData *)
Definition meta_of (deviceId : string) (s : CloudSync.StoreInfo) : StoreMeta :=
  let m := StoreMetaData.blank_m in
  StoreMetaData.mk (StoreMetaData.version m) (StoreMetaData.isAutoSync m) (StoreMetaData.autoSyncSwitch m) (StoreMetaData.isBackup m) (StoreMetaData.isDirty m)
    (StoreMetaData.isEncrypt m) (StoreMetaData.isManualClean m) (StoreMetaData.isManualCleanDevice m) (StoreMetaData.isSearchable m) (StoreMetaData.isNeedCompress m)
    (StoreMetaData.enableCloud m) (StoreMetaData.cloudAutoSync m) (StoreMetaData.customSwitch m) (StoreMetaData.dataType m) (StoreMetaData.storeType m)
    (StoreMetaData.securityLevel m) (StoreMetaData.area m) (StoreMetaData.uid m) (CloudSync.instanceId s) (StoreMetaData.haMode m) (StoreMetaData.tokenId m)
    (StoreMetaData.appId m) (StoreMetaData.appType m) (CloudSync.bundleName s) (StoreMetaData.hapName m) "" (StoreMetaData.customDir m)
    deviceId (StoreMetaData.schema m) (CloudSync.storeName s) (to_string (CloudSync.user s)) (StoreMetaData.account m) (StoreMetaData.authType m)
    (StoreMetaData.asyncDownloadAsset m) (StoreMetaData.isNeedUpdateDeviceId m) (StoreMetaData.assetConflictPolicy m) (StoreMetaData.assetTempPath m)
    (StoreMetaData.assetDownloadOnDemand m) (StoreMetaData.filterMode m).

Definition at_path (mappings : meta_db Mapping) (user : string) (m : StoreMeta) : StoreMeta :=
  let m := meta_with user (StoreMetaData.dataDir m) m in meta_with user (GetPath mappings m) m.

(** The metadata of a store: the user's own, otherwise that of a public store. *)
(* @src service/cloud/sync_manager.cpp 1226-1248 SyncManager::GetMetaData *)
Definition GetMetaData (deviceId : string) (mappings : meta_db Mapping) (metas : meta_db StoreMeta) (locals : meta_db StoreMetaDataLocal.StoreMetaDataLocal)
    (s : CloudSync.StoreInfo) : option StoreMeta :=
  let m := at_path mappings (to_string (CloudSync.user s)) (meta_of deviceId s) in
  let own := if bool_decide (StoreMetaData.dataDir m = "") then None else (LoadMeta (StoreMetaData.GetKey m) true metas).1 in
  match own with
  | Some found => Some found
  | None =>
      let m := at_path mappings "0" m in
      if bool_decide (StoreMetaData.dataDir m = "") then None
      else match (LoadMeta (StoreMetaData.GetKey m) true metas).1 with
           | None => None
           | Some found =>
               match (LoadMeta (StoreMetaData.GetKeyLocal found) true locals).1 with
               | Some l => if StoreMetaDataLocal.isPublic l then Some found else None
               | None => None
               end
           end
  end.

(** ** Limits *)

Definition user_limits (binds : UserBindInfo) : list CloudConfig := (fun e => e.2.1.2) <$> ordered_users binds.

Lemma limits_fold (l : list (Z * (Schema * BindInfo * CloudConfig * string))) c :
  0 < maxNumber c -> 0 < maxSize c -> Forall (fun e => 0 < maxNumber e.2.1.2 /\ 0 < maxSize e.2.1.2) l ->
  let r := fold_left (fun config e =>
       let '(schema, _, userConfig, _) := e.2 in
       mkConfig (if maxNumber config =? 0 then maxNumber userConfig else Z.min (maxNumber config) (maxNumber userConfig))
         (if maxSize config =? 0 then maxSize userConfig else Z.min (maxSize config) (maxSize userConfig))
         (maxRetryConflictTimes config) (isSupportEncrypt config || SchemaMeta.e2eeEnable schema)) l c in
  maxNumber r = foldr (fun e n => Z.min (maxNumber e.2.1.2) n) (maxNumber c) l /\
  maxSize r = foldr (fun e n => Z.min (maxSize e.2.1.2) n) (maxSize c) l.
Proof.
  revert c. induction l as [|[u [[[s b] uc] id]] l IH]; intros c Hn Hs Hl; cbn; [done|].
  apply Forall_cons in Hl as [[Hn' Hs'] Hl]. cbn in Hn', Hs'. rewrite !(proj2 (Z.eqb_neq _ _)) by lia.
  match goal with |- context [fold_left ?f l ?c'] => destruct (IH c') as [E1 E2]; cbn; [lia|lia|done|] end.
  cbn in E1, E2. rewrite E1, E2.
  assert (forall (f : Z * (Schema * BindInfo * CloudConfig * string) -> Z) a b l, foldr (fun e n => Z.min (f e) n) (Z.min a b) l = Z.min b (foldr (fun e n => Z.min (f e) n) a l)) as H.
  { clear. intros f a b l. induction l as [|e l IH]; cbn; [lia|]. rewrite IH. lia. }
  by rewrite !H.
Qed.

Lemma foldr_min_spec {A} (f : A -> Z) d l : let r := foldr (fun e n => Z.min (f e) n) d l in
  r <= d /\ (forall e, e ∈ l -> r <= f e) /\ (r = d \/ exists e, e ∈ l /\ r = f e).
Proof.
  cbn. induction l as [|e l IH]; cbn; [split_and!; [lia|intros e He; by apply not_elem_of_nil in He|by left]|].
  destruct IH as (H1 & H2 & H3). split_and!; [lia| |].
  - intros e' [->|He]%elem_of_cons; [lia|]. specialize (H2 e' He). lia.
  - destruct (Z.min_spec (f e) (foldr (fun e n => Z.min (f e) n) d l)) as [[_ ->]|[_ ->]].
    + right. exists e. split; [by apply elem_of_cons; left|done].
    + destruct H3 as [->|(e' & He & ->)]; [by left|]. right. exists e'. split; [by apply elem_of_cons; right|done].
Qed.

(** The batch limits a store is bound with are the smallest of its users' limits, but never
    more than the built-in defaults of 30 records and 1.5 MB: the code starts from the default
    limits, not from none, so that a larger limit of the cloud server has no effect. *)
Lemma bound_limits binds storeId :
  (forall u s b c id, binds !! u = Some (s, b, c, id) -> 0 < maxNumber c /\ 0 < maxSize c) ->
  let config := (BindInfos binds storeId).2 in
  maxNumber config <= 30 /\ maxSize config <= 1572864 /\
  (forall u s b c id, binds !! u = Some (s, b, c, id) -> maxNumber config <= maxNumber c /\ maxSize config <= maxSize c) /\
  (maxNumber config = 30 \/ exists u s b c id, binds !! u = Some (s, b, c, id) /\ maxNumber config = maxNumber c) /\
  (maxSize config = 1572864 \/ exists u s b c id, binds !! u = Some (s, b, c, id) /\ maxSize config = maxSize c).
Proof.
  intros Hpos config. unfold config, BindInfos. cbn [snd].
  assert (forall e, e ∈ ordered_users binds <-> binds !! e.1 = Some e.2) as He.
  { intros [u x]. unfold ordered_users. rewrite sorting.merge_sort_Permutation. apply elem_of_map_to_list. }
  destruct (limits_fold (ordered_users binds) default_config) as [E1 E2]; [done|done| |].
  { apply Forall_forall. intros [u [[[s b] c] id]] Hin. apply He in Hin. by eapply Hpos. }
  cbn in E1, E2. rewrite E1, E2.
  destruct (foldr_min_spec (fun e : Z * (Schema * BindInfo * CloudConfig * string) => maxNumber e.2.1.2) 30 (ordered_users binds)) as (N1 & N2 & N3).
  destruct (foldr_min_spec (fun e : Z * (Schema * BindInfo * CloudConfig * string) => maxSize e.2.1.2) (1024 * 512 * 3) (ordered_users binds)) as (S1 & S2 & S3).
  split_and!; [exact N1|exact S1| | |].
  - intros u s b c id Hin. split; [apply (N2 (u, (s, b, c, id)))|apply (S2 (u, (s, b, c, id)))]; by apply He.
  - destruct N3 as [->|([u [[[s b] c] id]] & Hin & ->)]; [by left|]. right. exists u, s, b, c, id. split; [by apply He in Hin|done].
  - destruct S3 as [->|([u [[[s b] c] id]] & Hin & ->)]; [by left|]. right. exists u, s, b, c, id. split; [by apply He in Hin|done].
Qed.

(** ** Opening *)

Lemma GetStore_codes verified foreground isLogin instance open isBound cloudDb schemaDb meta user mustBind :
  let '(status, has, bound) := GetStore verified foreground isLogin instance open isBound cloudDb schemaDb meta user mustBind in
  (has = true <-> (user = 0 \/ verified user = true) /\ is_Some instance /\ open.1 <> E_SCREEN_LOCKED /\ open.2 = true /\
                  GetCloudInfos foreground isLogin user <> []) /\
  (is_Some bound <-> has = true).
Proof.
  unfold GetStore. destruct (Z.eqb_spec user 0) as [E|E]; [|destruct (verified user) eqn:Ev]; cbn [negb andb].
  3: { split; [split; [done|]; intros ([?|?] & _); done|]. split; [by intros [? ?]|done]. }
  all: destruct instance as [i|]; [|split; [split; [done|]; intros (_ & [? ?] & _); done|split; [by intros [? ?]|done]]].
  all: destruct open as [status store]; cbn [fst snd]; destruct (Z.eqb_spec status E_SCREEN_LOCKED); [split; [split; [done|]; intros (_ & _ & ? & _); done|split; [by intros [? ?]|done]]|].
  all: destruct store; cbn [negb]; [|split; [split; [done|]; intros (_ & _ & _ & ? & _); done|split; [by intros [? ?]|done]]].
  all: destruct (GetCloudInfos foreground isLogin user) as [|c cs] eqn:Ec; [split; [split; [done|]; intros (_ & _ & _ & _ & ?); done|split; [by intros [? ?]|done]]|].
  all: destruct (fold_left _ _ _) as [[st has] binds]; split; [split; [intros _; split_and!; auto; by eexists|done]|split; [done|by eexists]].
Qed.

(** ** Locking the cloud container *)

(** The arguments of the answer to a lock or unlock event, when there is one. [valid] is the code of the check of the
    request, [open] whether the store can be opened; the cloud path selects the metadata
    that is used. *)
(* @src service/cloud/sync_manager.cpp 192-238 SyncManager::GetLockChangeHandler *)
Definition LockChange (hasCallback : bool) (valid : Z) (deviceId : string) (mappings : meta_db Mapping) (metas : meta_db StoreMeta)
    (s : CloudSync.StoreInfo) (open : StoreMeta -> bool) (isLock : bool) (LockCloudDB : Z * Z) (UnLockCloudDB : Z) : option (Z * Z) :=
  if negb hasCallback then None
  else if negb (valid =? E_OK) then None
  else
    let made := StoreMetaMapping.mk (meta_of deviceId s) "" "" "" in
    match (LoadMeta (StoreMetaMapping.GetKey made) true mappings).1 with
    | None => None
    | Some mapping =>
        let meta := StoreMetaMapping.meta mapping in
        let meta :=
          if negb (bool_decide (StoreMetaMapping.cloudPath mapping = "")) && negb (bool_decide (StoreMetaData.dataDir meta = StoreMetaMapping.cloudPath mapping))
          then (LoadMeta (StoreMetaMapping.GetCloudStoreMetaKey mapping) true metas).1 else Some meta in
        match meta with
        | None => None
        | Some meta => if negb (open meta) then None else Some (if isLock then LockCloudDB else (UnLockCloudDB, 0))
        end
    end.

Section Reliable.
Context (reliable : forall k l d, (LoadMeta (V := StoreMeta) k l d).1 = stored d l k).
Context (reliable_local : forall k l d, (LoadMeta (V := StoreMetaDataLocal.StoreMetaDataLocal) k l d).1 = stored d l k).

(** A store that is not filed under the user's own key is reached only when it is declared public. *)
Lemma GetMetaData_public deviceId mappings metas locals s found :
  GetMetaData deviceId mappings metas locals s = Some found ->
  stored metas true (StoreMetaData.GetKey (at_path mappings (to_string (CloudSync.user s)) (meta_of deviceId s))) = Some found \/
  exists l, stored locals true (StoreMetaData.GetKeyLocal found) = Some l /\ StoreMetaDataLocal.isPublic l = true.
Proof.
  unfold GetMetaData. set (m := at_path mappings _ (meta_of deviceId s)). set (own := if bool_decide _ then _ else _).
  destruct own as [f|] eqn:E.
  - intros [= <-]. left. unfold own in E. case_bool_decide; [done|]. by rewrite reliable in E.
  - clear E own. match goal with |- (if ?b then _ else _) = _ -> _ => destruct b; [done|] end.
    match goal with |- match ?x with _ => _ end = _ -> _ => destruct x as [f|]; [|done] end. rewrite reliable_local.
    destruct (stored locals true _) as [l|] eqn:El; [|done]. destruct (StoreMetaDataLocal.isPublic l) eqn:Ep; [|done]. intros [= <-]. right. eauto.
Qed.
End Reliable.
End Store.

(** One user with a limit of 20 records and one whose server grants 100. *)
Lemma bound_limits_witness :
  let binds : UserBindInfo := {[100 := (SchemaMeta.blank_m, mkBind 1 None, mkConfig 20 2000000 3 false, "a");
                                101 := (SchemaMeta.blank_m, mkBind 2 None, mkConfig 100 2000000 3 false, "b")]} in
  maxNumber (BindInfos binds "st").2 <= 30 /\ maxSize (BindInfos binds "st").2 = 1572864 /\ maxNumber (BindInfos binds "st").2 = 20.
Proof.
  intros binds. destruct (bound_limits binds "st") as (H1 & _).
  - intros u s b c id Hin. unfold binds, UserBindInfo in Hin.
    apply lookup_insert_Some in Hin as [[_ [= _ _ <- _]] | [_ [_ [= _ _ <- _]]%lookup_singleton_Some]]; cbn; lia.
  - split; [exact H1|]. split; by_vm.
Defined.
End CloudStore.
