(* ===== verification/CloudService.v ===== *)
(** * The cloud service ([service/cloud/cloud_service_impl.cpp])

    The service switches the cloud synchronisation of users and applications on and
    off, keeps the account information and the schemas of the applications up to
    date with the cloud server, and cleans the stores when accounts change.

    The metadata is a table per class ([MetaStore]); a load does not change the
    contents, so that only saves and deletes change the state. What the service asks of others (the synchronisation
    manager of [CloudSync], the stores, the cloud server, the thread pool, the event centre) is
    recorded in order in [trace]. The answers of the network, the server, the account service and
    the bundle manager are those of an environment ([Env]). Reports for diagnosis are left out. *)

From stdpp Require Import sorting.
From S2P Require Import Prelude CppString Interfaces Constant Serializable MetaData CloudData CloudPolicy SyncRecords CloudSync CloudStore.
Import Serializable MetaData CloudData GeneralError.

(** The occasions of a task of the service. *)
Inductive CloudSyncScene : Type :=
| ENABLE_CLOUD | DISABLE_CLOUD | SCENE_SWITCH_ON | SCENE_SWITCH_OFF | QUERY_SYNC_INFO | USER_CHANGE
| USER_UNLOCK | NETWORK_RECOVERY | SERVICE_INIT | ACCOUNT_STOP | PUSH.

#[export] Instance CloudSyncScene_eq_dec : EqDecision CloudSyncScene.
Proof. solve_decision. Defined.

(** The enumerations of the client interface, which is another project: their
    values are distinct, and success is the success of the service's own codes. *)
Class CloudCodes := {
  SUCCESS : Z; ERROR : Z; INVALID_ARGUMENT : Z; SERVER_UNAVAILABLE : Z; NOT_SUPPORT : Z; CLOUD_DISABLE : Z;
  CLOUD_DISABLE_SWITCH : Z; NETWORK_ERROR : Z; SCHEMA_INVALID : Z; INVALID_ARGUMENT_V20 : Z;
  SWITCH_ON : Z; SWITCH_OFF : Z;
  CLEAR_CLOUD_INFO : Z; CLEAR_CLOUD_DATA_AND_INFO : Z; CLEAR_CLOUD_NONE : Z;
  scene_code : CloudSyncScene -> Z;
  TRIGGER_ENABLE_CLOUD : Z; TRIGGER_SWITCH_ON : Z; TRIGGER_NETWORK_RECOVERY : Z; TRIGGER_PUSH : Z; TRIGGER_USER_CHANGE : Z;
  SUCCESS_E_OK : SUCCESS = E_OK;
  codes_distinct : NoDup [SUCCESS; ERROR; INVALID_ARGUMENT; SERVER_UNAVAILABLE; NOT_SUPPORT; CLOUD_DISABLE; CLOUD_DISABLE_SWITCH; NETWORK_ERROR; SCHEMA_INVALID; INVALID_ARGUMENT_V20];
  switches_distinct : SWITCH_ON <> SWITCH_OFF;
  actions_distinct : NoDup [CLEAR_CLOUD_INFO; CLEAR_CLOUD_DATA_AND_INFO; CLEAR_CLOUD_NONE];
  scene_code_inj : Inj (=) (=) scene_code
}.

#[local] Program Instance SampleCodes : CloudCodes := {
  SUCCESS := 0; ERROR := 1; INVALID_ARGUMENT := 2; SERVER_UNAVAILABLE := 3; NOT_SUPPORT := 4; CLOUD_DISABLE := 5;
  CLOUD_DISABLE_SWITCH := 6; NETWORK_ERROR := 7; SCHEMA_INVALID := 8; INVALID_ARGUMENT_V20 := 9;
  SWITCH_ON := 0; SWITCH_OFF := 1;
  CLEAR_CLOUD_INFO := 0; CLEAR_CLOUD_DATA_AND_INFO := 1; CLEAR_CLOUD_NONE := 2;
  scene_code s := match s with
    | ENABLE_CLOUD => 0 | DISABLE_CLOUD => 1 | SCENE_SWITCH_ON => 2 | SCENE_SWITCH_OFF => 3 | QUERY_SYNC_INFO => 4 | USER_CHANGE => 5
    | USER_UNLOCK => 6 | NETWORK_RECOVERY => 7 | SERVICE_INIT => 8 | ACCOUNT_STOP => 9 | PUSH => 10 end;
  TRIGGER_ENABLE_CLOUD := 0; TRIGGER_SWITCH_ON := 1; TRIGGER_NETWORK_RECOVERY := 2; TRIGGER_PUSH := 3; TRIGGER_USER_CHANGE := 4
}.
Next Obligation. reflexivity. Qed.
Next Obligation. by apply (bool_decide_unpack _). Qed.
Next Obligation. done. Qed.
Next Obligation. by apply (bool_decide_unpack _). Qed.
Next Obligation. intros [] []; done. Qed.

Module CloudService.
Abbreviation Cloud := CloudInfo.CloudInfo.
Abbreviation Schema := SchemaMeta.SchemaMeta.
Abbreviation StoreMeta := StoreMetaData.StoreMetaData.
Abbreviation Mapping := StoreMetaMapping.StoreMetaMapping.
Abbreviation Local := StoreMetaDataLocal.StoreMetaDataLocal.
Abbreviation Sub := Subscription.Subscription.
Abbreviation Strategy := NetworkSyncStrategy.StrategyInfo.

(* @src framework/include/store/general_store.h 64-72 GeneralStore::CleanMode *)
Definition CLOUD_DATA : Z := 1.
Definition CLOUD_INFO : Z := 2.
Definition CLEAN_WATER : Z := 4.
Definition CLOUD_NONE : Z := 5.
Definition CLEAN_MODE_BUTT : Z := 6.

Definition CURRENT_VERSION : Z := 65537.
Definition CLEAN_WATER_VERSION : Z := 65537.
Definition DEFAULT_USER : Z := 0.
Definition INVALID_USER_ID : Z := -1.

(* @src framework/include/cloud/schema_meta.h 120-123 SchemaMeta::GetHighVersion *)
Definition GetHighVersion (metaVersion : Z) : Z := Z.land metaVersion (Z.shiftl 65535 16).

(** ** Comparison of schemas *)

Definition list_eqb {A} (e : A -> A -> bool) (l k : list A) : bool :=
  bool_decide (length l = length k) && forallb (fun p => e p.1 p.2) (zip l k).

(* @src framework/cloud/schema_meta.cpp 237-242 Table::operator== *)
Definition Table_eqb (a b : Table.Table) : bool :=
  bool_decide (Table.name a = Table.name b) && bool_decide (Table.alias a = Table.alias b) && list_eqb Field.eqb (Table.fields a) (Table.fields b)
  && bool_decide (Table.deviceSyncFields a = Table.deviceSyncFields b) && bool_decide (Table.cloudSyncFields a = Table.cloudSyncFields b)
  && bool_decide (Table.sharedTableName a = Table.sharedTableName b).

(* @src framework/cloud/schema_meta.cpp 204-212 Database::operator== *)
Definition Database_eqb (a b : Database.Database) : bool :=
  bool_decide (Database.name a = Database.name b) && bool_decide (Database.alias a = Database.alias b)
  && list_eqb Table_eqb (Database.tables a) (Database.tables b) && (Database.version a =? Database.version b)
  && bool_decide (Database.bundleName a = Database.bundleName b) && bool_decide (Database.user a = Database.user b)
  && bool_decide (Database.deviceId a = Database.deviceId b) && (Database.autoSyncType a =? Database.autoSyncType b)
  && bool_decide (Database.backwardCompatiblePolicies a = Database.backwardCompatiblePolicies b).

(* @src framework/cloud/schema_meta.cpp 102-106 SchemaMeta::operator== *)
Definition Schema_eqb (a b : Schema) : bool :=
  (SchemaMeta.metaVersion a =? SchemaMeta.metaVersion b) && (SchemaMeta.version a =? SchemaMeta.version b)
  && bool_decide (SchemaMeta.bundleName a = SchemaMeta.bundleName b) && list_eqb Database_eqb (SchemaMeta.databases a) (SchemaMeta.databases b)
  && eqb (SchemaMeta.e2eeEnable a) (SchemaMeta.e2eeEnable b).

(** ** The mark that the water mark of a store is to be cleared *)

(* @src framework/include/cloud/cloud_mark.h 22-43 CloudMark *)
Record CloudMark := mkMark { isClearWaterMark : bool; m_bundleName : string; m_deviceId : string; m_storeId : string; m_userId : Z; m_index : Z }.
#[export] Instance CloudMark_eq_dec : EqDecision CloudMark.
Proof. solve_decision. Defined.

(** Only the flag is written ([Marshal]); the fields of the key are empty after loading. *)
(* @src framework/cloud/cloud_mark.cpp 28-32 CloudMark::Unmarshal *)
Definition loaded_mark (flag : bool) : CloudMark := mkMark flag "" "" "" 0 0.

(* @src framework/cloud/cloud_mark.cpp 46-49 CloudMark::GetKey *)
Definition mark_key (m : CloudMark) : string :=
  Constant.Join "CloudMark" Constant.KEY_SEPARATOR [m_deviceId m; to_string (m_userId m); "default"; m_bundleName m; m_storeId m; to_string (m_index m)].

(** ** What is asked of others *)

(** The works of a task of the service. *)
Inductive Work : Type :=
| WORK_CLOUD_INFO_UPDATE | WORK_SCHEMA_UPDATE | WORK_SUB | WORK_RELEASE | WORK_DO_CLOUD_SYNC | WORK_STOP_CLOUD_SYNC.

#[export] Instance Work_eq_dec : EqDecision Work.
Proof. solve_decision. Defined.

Inductive Effect : Type :=
| EStopCloudSync (user : Z)
| EClearLastSyncInfo (user : Z) (id bundle : string)
| ECleanCompensateSync (user : Z)
| EDoCloudSync (user : Z) (bundle store : string) (tables : list string) (mode : Z) (prepareTraceId : string)
| ECleanDataEvent (bundle : string) (user : string) (store path : string)
| EClean (meta : StoreMeta) (action : Z) (tables : list string)
| EReleaseUserInfo (user : Z)
| ESubscribe (user : Z) (dbs : gmap string (list Database.Database))
| EUnsubscribe (user : Z) (dbs : gmap string (list Database.Database))
| EExecute (retry user : Z) (scene : CloudSyncScene) (works : list Work)
| ESchedule (seconds retry user : Z) (scene : CloudSyncScene) (works : list Work)
| EUpdateSchemaFromServer (user : Z)
| EUpdateSchemaFromHap (user index : Z) (bundle : string)
| EGetSchemaEvent (bundle : string) (index user : Z)
| ETrigger (bundle : string) (user mode : Z).

Record Server := mkServer {
  GetServerInfo : Z -> Z * Cloud;
  GetAppSchema : Z -> string -> Z * Schema;
  CloudDriverUpdated : string -> bool
}.

(* @src service/cloud/cloud_service_impl.h 137-141 CloudServiceImpl::HapInfo *)
Record HapInfo := mkHap { h_user : Z; instIndex : Z; h_bundleName : string }.

Record Env `{JsonText} := mkEnv {
  network : bool;
  server : option Server;
  verified : Z -> bool;
  device : string;
  hapSchemas : HapInfo -> list text;             (* the schema files of an installed application *)
  opens : StoreMeta -> bool                      (* whether the cache opens the store *)
}.

Section Service.
Context {CC : CloudCodes} {JT : JsonText}.
Context {MC : MetaStore Cloud} {MS : MetaStore Schema} {MU : MetaStore Sub} {MR : MetaStore Relation.Relation} {MM : MetaStore Mapping}
        {MT : MetaStore StoreMeta} {ML : MetaStore Local} {MK : MetaStore bool} {MG : MetaStore Strategy} {MF : MetaStore SyncConfig.Config}
        {MA : MetaStore CloudLastSyncInfo.CloudLastSyncInfo}.

Record Service := mkService {
  cloudDb : meta_db Cloud;
  schemaDb : meta_db Schema;
  subDb : meta_db Sub;
  relationDb : meta_db Relation.Relation;
  mappingDb : meta_db Mapping;
  storeDb : meta_db StoreMeta;
  localDb : meta_db Local;
  markDb : meta_db bool;
  strategyDb : meta_db Strategy;
  configDb : meta_db SyncConfig.Config;
  lastDb : meta_db CloudLastSyncInfo.CloudLastSyncInfo;
  executor_ : bool;
  trace : list Effect
}.

Definition set_cloudDb d s := mkService d (schemaDb s) (subDb s) (relationDb s) (mappingDb s) (storeDb s) (localDb s) (markDb s) (strategyDb s) (configDb s) (lastDb s) (executor_ s) (trace s).
Definition set_schemaDb d s := mkService (cloudDb s) d (subDb s) (relationDb s) (mappingDb s) (storeDb s) (localDb s) (markDb s) (strategyDb s) (configDb s) (lastDb s) (executor_ s) (trace s).
Definition set_subDb d s := mkService (cloudDb s) (schemaDb s) d (relationDb s) (mappingDb s) (storeDb s) (localDb s) (markDb s) (strategyDb s) (configDb s) (lastDb s) (executor_ s) (trace s).
Definition set_relationDb d s := mkService (cloudDb s) (schemaDb s) (subDb s) d (mappingDb s) (storeDb s) (localDb s) (markDb s) (strategyDb s) (configDb s) (lastDb s) (executor_ s) (trace s).
Definition set_markDb d s := mkService (cloudDb s) (schemaDb s) (subDb s) (relationDb s) (mappingDb s) (storeDb s) (localDb s) d (strategyDb s) (configDb s) (lastDb s) (executor_ s) (trace s).
Definition set_strategyDb d s := mkService (cloudDb s) (schemaDb s) (subDb s) (relationDb s) (mappingDb s) (storeDb s) (localDb s) (markDb s) d (configDb s) (lastDb s) (executor_ s) (trace s).
Definition set_configDb d s := mkService (cloudDb s) (schemaDb s) (subDb s) (relationDb s) (mappingDb s) (storeDb s) (localDb s) (markDb s) (strategyDb s) d (lastDb s) (executor_ s) (trace s).
Definition set_lastDb d s := mkService (cloudDb s) (schemaDb s) (subDb s) (relationDb s) (mappingDb s) (storeDb s) (localDb s) (markDb s) (strategyDb s) (configDb s) d (executor_ s) (trace s).
Definition emit (es : list Effect) s := mkService (cloudDb s) (schemaDb s) (subDb s) (relationDb s) (mappingDb s) (storeDb s) (localDb s) (markDb s) (strategyDb s) (configDb s) (lastDb s) (executor_ s) (trace s ++ es).

Definition load {V} `{MetaStore V} (k : string) (d : meta_db V) : option V := (LoadMeta k true d).1.

Definition SaveCloud (c : Cloud) (s : Service) : bool * Service :=
  let '(ok, d) := SaveMeta (CloudInfo.GetKey c) c true (cloudDb s) in (ok, set_cloudDb d s).
Definition SaveSchema (k : string) (m : Schema) (s : Service) : Service := set_schemaDb (SaveMeta k m true (schemaDb s)).2 s.

(* @src service/cloud/cloud_service_impl.cpp 1939-1946 CloudServiceImpl::Execute *)
Definition Execute (e : Effect) (s : Service) : Service := if executor_ s then emit [e] s else s.

(** ** The account information *)

(* @src service/cloud/cloud_service_impl.cpp 1115-1125 CloudServiceImpl::GetCloudInfoFromMeta *)
Definition GetCloudInfoFromMeta (userId : Z) (s : Service) : Z * Cloud :=
  match load (CloudInfo.GetKey (CloudSync.cloud_of_user userId)) (cloudDb s) with
  | None => (ERROR, CloudSync.cloud_of_user userId)
  | Some c => (SUCCESS, c)
  end.

(* @src service/cloud/cloud_service_impl.cpp 1127-1142 CloudServiceImpl::GetCloudInfoFromServer *)
Definition GetCloudInfoFromServer (env : Env) (userId : Z) : Z * Cloud :=
  if negb (network env) then (NETWORK_ERROR, CloudSync.cloud_of_user userId)
  else match server env with
       | None => (SERVER_UNAVAILABLE, CloudSync.cloud_of_user userId)
       | Some srv =>
           let '(code, info) := GetServerInfo srv userId in
           (if negb (code =? E_OK) then code else if CloudSync.CloudIsValid info then E_OK else E_ERROR, info)
       end.

(* @src service/cloud/cloud_service_impl.cpp 1396-1413 CloudServiceImpl::GetCloudInfo *)
Definition GetCloudInfo (env : Env) (userId : Z) (s : Service) : Z * Cloud * Service :=
  let '(status, cloudInfo) := GetCloudInfoFromMeta userId s in
  if status =? SUCCESS then (status, cloudInfo, s)
  else if negb (verified env userId) then (ERROR, cloudInfo, s)
  else let '(status, cloudInfo) := GetCloudInfoFromServer env userId in
       if negb (status =? SUCCESS) then (status, cloudInfo, s)
       else (SUCCESS, cloudInfo, (SaveCloud cloudInfo s).2).

(** The information is saved unless it is stored already; the result is whether it is stored now. *)
Definition UpdateCloudMeta (c : Cloud) (s : Service) : bool * Service :=
  match load (CloudInfo.GetKey c) (cloudDb s) with
  | Some old => if CloudSync.CloudEqual old c then (true, s) else SaveCloud c s
  | None => SaveCloud c s
  end.

(* @src service/cloud/cloud_service_impl.cpp 1144-1156 CloudServiceImpl::UpdateCloudInfoFromServer *)
Definition UpdateCloudInfoFromServer (env : Env) (user : Z) (s : Service) : Z * Service :=
  let '(status, cloudInfo) := GetCloudInfoFromServer env user in
  if negb (status =? SUCCESS) || negb (CloudSync.CloudIsValid cloudInfo) then (E_ERROR, s)
  else let '(ok, s) := UpdateCloudMeta cloudInfo s in (if ok then E_OK else E_ERROR, s).

Definition set_app (bundle : string) (on : bool) (c : Cloud) : Cloud :=
  let a := default AppInfo.blank_m (CloudInfo.apps c !! bundle) in
  CloudInfo.mk (CloudInfo.user c) (CloudInfo.id c) (CloudInfo.totalSpace c) (CloudInfo.remainSpace c) (CloudInfo.maxNumber c) (CloudInfo.maxSize c) (CloudInfo.enableCloud c)
    (<[bundle := AppInfo.mk (AppInfo.bundleName a) (AppInfo.appId a) (AppInfo.version a) (AppInfo.instanceId a) on]> (CloudInfo.apps c)).
Definition set_enabled (on : bool) (id : string) (c : Cloud) : Cloud :=
  CloudInfo.mk (CloudInfo.user c) id (CloudInfo.totalSpace c) (CloudInfo.remainSpace c) (CloudInfo.maxNumber c) (CloudInfo.maxSize c) on (CloudInfo.apps c).

(* @src service/cloud/cloud_service_impl.cpp 1632-1641 CloudServiceImpl::ReleaseUserInfo *)
Definition ReleaseUserInfo (env : Env) (user : Z) (s : Service) : bool * Service :=
  (true, match server env with None => s | Some _ => emit [EReleaseUserInfo user] s end).

(** [user] is the user of the caller. *)
(* @src service/cloud/cloud_service_impl.cpp 131-162 CloudServiceImpl::EnableCloud *)
Definition EnableCloud (env : Env) (user : Z) (id : string) (switches : gmap string Z) (s : Service) : Z * Service :=
  let '(status, cloudInfo, s) := GetCloudInfo env user s in
  if negb (status =? SUCCESS) then (status, s)
  else
    let cloudInfo := fold_left (fun c e => if CloudInfo.Exist e.1 0 c then set_app e.1 (e.2 =? SWITCH_ON) c else c)
                       (ordered_entries switches) (set_enabled true id cloudInfo) in
    let '(ok, s) := UpdateCloudMeta cloudInfo s in
    if negb ok then (ERROR, s)
    else (SUCCESS, Execute (EExecute 0 (CloudInfo.user cloudInfo) ENABLE_CLOUD [WORK_CLOUD_INFO_UPDATE; WORK_SCHEMA_UPDATE; WORK_DO_CLOUD_SYNC; WORK_SUB]) s).

(* @src service/cloud/cloud_service_impl.cpp 175-204 CloudServiceImpl::DisableCloud *)
Definition DisableCloud (env : Env) (user : Z) (id : string) (s : Service) : Z * Service :=
  let '(_, s) := ReleaseUserInfo env user s in
  let '(status, cloudInfo, s) := GetCloudInfo env user s in
  if negb (status =? SUCCESS) then (status, s)
  else if negb (bool_decide (CloudInfo.id cloudInfo = id)) then (INVALID_ARGUMENT, s)
  else
    let cloudInfo := set_enabled false (CloudInfo.id cloudInfo) cloudInfo in
    let '(ok, s) := UpdateCloudMeta cloudInfo s in
    if negb ok then (ERROR, s)
    else (SUCCESS, emit [EClearLastSyncInfo (CloudInfo.user cloudInfo) (CloudInfo.id cloudInfo) ""]
                     (Execute (EExecute 0 (CloudInfo.user cloudInfo) DISABLE_CLOUD [WORK_STOP_CLOUD_SYNC; WORK_SUB]) s)).

(** ** Cleaning *)

(** The cleaning of a database and its tables, and of an application ([DBActionInfo], [ClearConfig]). *)
Record DBActionInfo := mkAction { action : Z; tableInfo : gmap string Z }.
Definition ClearConfig : Type := gmap string DBActionInfo.

(* @src service/cloud/cloud_service_impl.cpp 1948-1961 CloudServiceImpl::ConvertActionType *)
Definition ConvertActionType (cloudAction : Z) : Z :=
  if cloudAction =? CLEAR_CLOUD_INFO then CLOUD_INFO
  else if cloudAction =? CLEAR_CLOUD_DATA_AND_INFO then CLOUD_DATA
  else if cloudAction =? CLEAR_CLOUD_NONE then CLOUD_NONE
  else CLEAN_MODE_BUTT.

(* @src service/cloud/cloud_service_impl.cpp 1963-1973 CloudServiceImpl::ConvertAction *)
Definition ConvertAction (actions : gmap string Z) : gmap string Z :=
  omap (fun a => let a := ConvertActionType a in if a =? CLEAN_MODE_BUTT then None else Some a) actions.

(* @src service/cloud/cloud_service_impl.cpp 1975-1992 CloudServiceImpl::ConvertConfig *)
Definition ConvertConfig (configs : gmap string ClearConfig) : gmap string ClearConfig :=
  (fun config : ClearConfig => (fun info => mkAction (ConvertActionType (action info)) (ConvertActionType <$> tableInfo info)) <$> config) <$> configs.

(** The metadata of a store: of its user, otherwise of a public store. The metadata
    that is passed in and out is overwritten by what is loaded. *)
(* @src service/cloud/cloud_service_impl.cpp 398-420 CloudServiceImpl::GetStoreMetaData *)
Definition GetStoreMetaData (s : Service) (meta : StoreMeta) : bool * StoreMeta :=
  let meta := CloudStore.meta_with (StoreMetaData.user meta) (CloudStore.GetPath (mappingDb s) meta) meta in
  match (if bool_decide (StoreMetaData.dataDir meta = "") then None else load (StoreMetaData.GetKey meta) (storeDb s)) with
  | Some found => (true, found)
  | None =>
      let meta := CloudStore.at_path (mappingDb s) "0" meta in
      if bool_decide (StoreMetaData.dataDir meta = "") then (false, meta)
      else match load (StoreMetaData.GetKey meta) (storeDb s) with
           | None => (false, meta)
           | Some found => (match load (StoreMetaData.GetKeyLocal found) (localDb s) with Some l => StoreMetaDataLocal.isPublic l | None => false end, found)
           end
  end.

(* @src service/cloud/cloud_service_impl.cpp 371-396 CloudServiceImpl::ExecuteDatabaseClean *)
Definition ExecuteDatabaseClean (env : Env) (meta : StoreMeta) (action : Z) (tableList : list string) (s : Service) : Service :=
  if negb (opens env meta) then s
  else emit ((if action =? CLEAN_WATER then []
              else [ECleanDataEvent (StoreMetaData.bundleName meta) (StoreMetaData.user meta) (StoreMetaData.storeId meta) (StoreMetaData.dataDir meta)])
             ++ [EClean meta action tableList]) s.

(** A [std::map] from actions to the tables they are to be done for. *)
Fixpoint push_table (a : Z) (t : string) (m : list (Z * list string)) : list (Z * list string) :=
  match m with
  | [] => [(a, [t])]
  | (b, ts) :: m => if a <? b then (a, [t]) :: (b, ts) :: m else if a =? b then (b, ts ++ [t]) :: m else (b, ts) :: push_table a t m
  end.

(** The action of a table: its own, otherwise the database's, otherwise the application's. *)
Definition table_action (tableActions : gmap string Z) (dbDefaultAction appDefaultAction : Z) (t : string) : Z :=
  match tableActions !! t with
  | Some a => a
  | None => if dbDefaultAction =? CLOUD_NONE then appDefaultAction else dbDefaultAction
  end.

(* @src service/cloud/cloud_service_impl.cpp 346-369 CloudServiceImpl::ExecuteTableLevelClean *)
Definition ExecuteTableLevelClean (env : Env) (meta : StoreMeta) (database : Database.Database) (tableActions : gmap string Z)
    (dbDefaultAction appDefaultAction : Z) (s : Service) : Service :=
  let actionToTablesMap := fold_left (fun m tableName =>
      match tableActions !! tableName with
      | Some a => if a =? CLOUD_NONE then m else push_table a tableName m
      | None =>
          if negb (dbDefaultAction =? CLOUD_NONE) then push_table dbDefaultAction tableName m
          else if negb (appDefaultAction =? CLOUD_NONE) then push_table appDefaultAction tableName m
          else m
      end) (Database.GetTableNames database) [] in
  fold_left (fun s e => match e.2 with [] => s | _ => ExecuteDatabaseClean env meta e.1 e.2 s end) actionToTablesMap s.

Definition set_meta_store (user storeId : string) (m : StoreMeta) : StoreMeta :=
  let m := CloudStore.meta_with user (StoreMetaData.dataDir m) m in
  StoreMetaData.mk (StoreMetaData.version m) (StoreMetaData.isAutoSync m) (StoreMetaData.autoSyncSwitch m) (StoreMetaData.isBackup m) (StoreMetaData.isDirty m)
    (StoreMetaData.isEncrypt m) (StoreMetaData.isManualClean m) (StoreMetaData.isManualCleanDevice m) (StoreMetaData.isSearchable m) (StoreMetaData.isNeedCompress m)
    (StoreMetaData.enableCloud m) (StoreMetaData.cloudAutoSync m) (StoreMetaData.customSwitch m) (StoreMetaData.dataType m) (StoreMetaData.storeType m)
    (StoreMetaData.securityLevel m) (StoreMetaData.area m) (StoreMetaData.uid m) (StoreMetaData.instanceId m) (StoreMetaData.haMode m) (StoreMetaData.tokenId m)
    (StoreMetaData.appId m) (StoreMetaData.appType m) (StoreMetaData.bundleName m) (StoreMetaData.hapName m) (StoreMetaData.dataDir m) (StoreMetaData.customDir m)
    (StoreMetaData.deviceId m) (StoreMetaData.schema m) storeId (StoreMetaData.user m) (StoreMetaData.account m) (StoreMetaData.authType m)
    (StoreMetaData.asyncDownloadAsset m) (StoreMetaData.isNeedUpdateDeviceId m) (StoreMetaData.assetConflictPolicy m) (StoreMetaData.assetTempPath m)
    (StoreMetaData.assetDownloadOnDemand m) (StoreMetaData.filterMode m).

(** The metadata the loops begin with. *)
Definition first_meta (env : Env) (schemaMeta : Schema) : StoreMeta :=
  CloudStore.meta_of (device env) (CloudSync.mkStore (SchemaMeta.bundleName schemaMeta) "" 0 0 0).

(** The loop over the databases of a schema: the stores that are found are cleaned by [clean]. *)
Fixpoint clean_databases (user : Z) (clean : StoreMeta -> Database.Database -> Service -> Service) (meta : StoreMeta)
    (databases : list Database.Database) (s : Service) : Service :=
  match databases with
  | [] => s
  | database :: databases =>
      let '(found, meta) := GetStoreMetaData s (set_meta_store (to_string user) (Database.name database) meta) in
      clean_databases user clean meta databases (if (found : bool) then clean meta database s else s)
  end.

(* @src service/cloud/cloud_service_impl.cpp 296-313 CloudServiceImpl::DoAppLevelClean *)
Definition DoAppLevelClean (env : Env) (user : Z) (schemaMeta : Schema) (appAction : Z) (s : Service) : Service :=
  if appAction =? CLOUD_NONE then s
  else clean_databases user (fun meta _ => ExecuteDatabaseClean env meta appAction []) (first_meta env schemaMeta) (SchemaMeta.databases schemaMeta) s.

(* @src service/cloud/cloud_service_impl.cpp 315-344 CloudServiceImpl::DoDbTableLevelClean *)
Definition DoDbTableLevelClean (env : Env) (user : Z) (schemaMeta : Schema) (config : ClearConfig) (appDefaultAction : Z) (s : Service) : Service :=
  clean_databases user (fun meta database s =>
      match config !! Database.name database with
      | None => if appDefaultAction =? CLOUD_NONE then s else ExecuteDatabaseClean env meta appDefaultAction [] s
      | Some info =>
          if negb (bool_decide (tableInfo info = ∅)) then ExecuteTableLevelClean env meta database (tableInfo info) (action info) appDefaultAction s
          else if negb (action info =? CLOUD_NONE) then ExecuteDatabaseClean env meta (action info) [] s
          else if negb (appDefaultAction =? CLOUD_NONE) then ExecuteDatabaseClean env meta appDefaultAction [] s
          else s
      end) (first_meta env schemaMeta) (SchemaMeta.databases schemaMeta) s.

(* @src service/cloud/cloud_service_impl.cpp 258-294 CloudServiceImpl::DoClean *)
Definition DoClean (env : Env) (cloudInfo : Cloud) (actions : gmap string Z) (configs : gmap string ClearConfig) (s : Service) : Z * Service :=
  let s := emit [EStopCloudSync (CloudInfo.user cloudInfo)] s in
  let allBundles := (ordered_entries (((fun _ => tt) <$> actions) ∪ ((fun _ => tt) <$> configs))).*1 in
  (SUCCESS, fold_left (fun s bundle =>
      if negb (CloudInfo.Exist bundle 0 cloudInfo) then s
      else match load (CloudInfo.GetSchemaKey bundle 0 cloudInfo) (schemaDb s) with
           | None => s
           | Some schemaMeta =>
               let appDefaultAction := default CLOUD_NONE (actions !! bundle) in
               match configs !! bundle with
               | Some config => DoDbTableLevelClean env (CloudInfo.user cloudInfo) schemaMeta config appDefaultAction s
               | None => DoAppLevelClean env (CloudInfo.user cloudInfo) schemaMeta appDefaultAction s
               end
           end) allBundles s).

(* @src service/cloud/cloud_service_impl.cpp 422-448 CloudServiceImpl::Clean *)
Definition Clean (env : Env) (user : Z) (id : string) (actions : gmap string Z) (configs : gmap string ClearConfig) (s : Service) : Z * Service :=
  let '(status, cloudInfo) := GetCloudInfoFromMeta user s in
  if negb (status =? SUCCESS) then (ERROR, s)
  else if negb (bool_decide (id = CloudInfo.id cloudInfo)) then (ERROR, s)
  else let dbActions := ConvertAction actions in
       if bool_decide (dbActions = ∅) then (ERROR, s)
       else DoClean env cloudInfo dbActions (ConvertConfig configs) s.


(** ** Schemas of the applications *)

(** The schema files are read one after the other into the same object until one is accepted. *)
(* @src service/cloud/cloud_service_impl.cpp 1543-1555 CloudServiceImpl::GetSchemaFromHap *)
Fixpoint read_schemas (schemas : list text) (schemaMeta : Schema) : Z * Schema :=
  match schemas with
  | [] => (ERROR, schemaMeta)
  | schema :: schemas => let '(ok, schemaMeta) := UnmarshallObject SchemaMeta.Unmarshal schema schemaMeta in if (ok : bool) then (SUCCESS, schemaMeta) else read_schemas schemas schemaMeta
  end.
Definition GetSchemaFromHap (env : Env) (hapInfo : HapInfo) : Z * Schema := read_schemas (hapSchemas env hapInfo) SchemaMeta.blank_m.

(* @src service/cloud/cloud_service_impl.cpp 1282-1301 CloudServiceImpl::GetAppSchemaFromServer *)
Definition GetAppSchemaFromServer (env : Env) (user : Z) (bundleName : string) : Z * Schema :=
  if negb (network env) then (NETWORK_ERROR, SchemaMeta.blank_m)
  else match server env with
       | None => (SERVER_UNAVAILABLE, SchemaMeta.blank_m)
       | Some srv =>
           let '(status, schemaMeta) := GetAppSchema srv user bundleName in
           if negb (status =? E_OK) || negb (SchemaMeta.IsValid schemaMeta)
           then (if status =? E_NOT_SUPPORT then NOT_SUPPORT else SCHEMA_INVALID, schemaMeta)
           else (SUCCESS, schemaMeta)
       end.

(* @src service/cloud/cloud_service_impl.cpp 1303-1314 CloudServiceImpl::UpgradeSchemaMeta *)
Definition UpgradeSchemaMeta (env : Env) (user : Z) (schemaMeta : Schema) (s : Service) : Service :=
  if SchemaMeta.metaVersion schemaMeta =? CURRENT_VERSION then s
  else if negb (GetHighVersion (SchemaMeta.metaVersion schemaMeta) =? GetHighVersion CURRENT_VERSION)
  then DoAppLevelClean env user schemaMeta CLOUD_INFO s else s.

(** The versions of the databases by name; a later entry of a name replaces an earlier one. *)
Definition db_versions (databases : list Database.Database) : gmap string Z :=
  fold_left (fun m d => <[Database.name d := Database.version d]> m) databases ∅.

(* @src service/cloud/cloud_service_impl.cpp 1511-1541 CloudServiceImpl::UpdateClearWaterMark *)
Definition UpdateClearWaterMark (env : Env) (hapInfo : HapInfo) (newSchemaMeta schemaMeta : Schema) (s : Service) : Service :=
  if SchemaMeta.version newSchemaMeta =? SchemaMeta.version schemaMeta then s
  else
    let dbMap := db_versions (SchemaMeta.databases schemaMeta) in
    fold_left (fun s database =>
        match dbMap !! Database.name database with
        | Some v =>
            if Database.version database =? v then s
            else
              let metaData := mkMark true (h_bundleName hapInfo) (device env) (Database.name database) (h_user hapInfo) (instIndex hapInfo) in
              match load (mark_key metaData) (markDb s) with
              | Some flag => if bool_decide (loaded_mark flag = metaData) then s else set_markDb (SaveMeta (mark_key metaData) true true (markDb s)).2 s
              | None => set_markDb (SaveMeta (mark_key metaData) true true (markDb s)).2 s
              end
        | None => s
        end) (SchemaMeta.databases newSchemaMeta) s.

Definition DelCloud (c : Cloud) (s : Service) : Service := set_cloudDb (DelMeta (CloudInfo.GetKey c) true (cloudDb s)).2 s.

(** The loop over the applications ends early when the server does not support one; the result is whether it did not. *)
(* @src service/cloud/cloud_service_impl.cpp 1193-1232 CloudServiceImpl::UpdateSchema *)
Fixpoint update_schemas (env : Env) (user : Z) (cloudInfo : Cloud) (keys : list (string * string)) (s : Service) : bool * Service :=
  match keys with
  | [] => (true, s)
  | (bundle, key) :: keys =>
      let hapInfo := mkHap user (match CloudInfo.GetAppInfo bundle cloudInfo with Some a => AppInfo.instanceId a | None => 0 end) bundle in
      let '(status, schemaMeta) := GetSchemaFromHap env hapInfo in
      let '(status, schemaMeta) := if negb (status =? SUCCESS) then GetAppSchemaFromServer env user bundle else (status, schemaMeta) in
      if status =? NOT_SUPPORT then (false, DelCloud cloudInfo s)
      else if negb (status =? SUCCESS) then update_schemas env user cloudInfo keys s
      else
        let '(oldMeta, s) :=
          match load key (schemaDb s) with
          | Some oldMeta => (oldMeta, UpdateClearWaterMark env hapInfo schemaMeta oldMeta (UpgradeSchemaMeta env user oldMeta s))
          | None => (SchemaMeta.blank_m, s)
          end in
        update_schemas env user cloudInfo keys (if Schema_eqb oldMeta schemaMeta then s else SaveSchema key schemaMeta s)
  end.
Definition UpdateSchema (env : Env) (user : Z) (s : Service) : bool * Service :=
  let '(status, cloudInfo, s) := GetCloudInfo env user s in
  if negb (status =? SUCCESS) then (false, s)
  else update_schemas env user cloudInfo (ordered_entries (CloudInfo.GetSchemaKeys cloudInfo)) s.

(* @src service/cloud/cloud_service_impl.cpp 1265-1280 CloudServiceImpl::UpdateE2eeEnable *)
Definition UpdateE2eeEnable (schemaKey : string) (newE2eeEnable : bool) (s : Service) : Service :=
  match load schemaKey (schemaDb s) with
  | None => s
  | Some oldMeta =>
      if eqb (SchemaMeta.e2eeEnable oldMeta) newE2eeEnable then s
      else SaveSchema schemaKey (SchemaMeta.mk (SchemaMeta.metaVersion oldMeta) (SchemaMeta.version oldMeta) (SchemaMeta.bundleName oldMeta)
                                   (SchemaMeta.databases oldMeta) newE2eeEnable) s
  end.

(* @src service/cloud/cloud_service_impl.cpp 1247-1263 CloudServiceImpl::UpdateSchemaFromServer *)
Fixpoint update_e2ee (env : Env) (user : Z) (cloudInfo : Cloud) (keys : list (string * string)) (s : Service) : Z * Service :=
  match keys with
  | [] => (SUCCESS, s)
  | (bundle, key) :: keys =>
      let '(status, schemaMeta) := GetAppSchemaFromServer env user bundle in
      if status =? NOT_SUPPORT then (status, DelCloud cloudInfo s)
      else if negb (status =? SUCCESS) then update_e2ee env user cloudInfo keys s
      else update_e2ee env user cloudInfo keys (UpdateE2eeEnable key (SchemaMeta.e2eeEnable schemaMeta) s)
  end.

(* @src service/cloud/cloud_service_impl.cpp 1237-1245 CloudServiceImpl::UpdateSchemaFromServer *)
Definition UpdateSchemaFromServer (env : Env) (user : Z) (s : Service) : Z * Service :=
  let '(status, cloudInfo, s) := GetCloudInfo env user s in
  if negb (status =? SUCCESS) then (status, s)
  else update_e2ee env user cloudInfo (ordered_entries (CloudInfo.GetSchemaKeys cloudInfo)) s.

(* @src service/cloud/cloud_service_impl.cpp 1354-1394 CloudServiceImpl::GetSchemaMeta *)
Definition GetSchemaMeta (env : Env) (userId : Z) (bundleName : string) (instanceId : Z) (s : Service) : Z * Schema * Service :=
  let '(status, cloudInfo) := GetCloudInfoFromMeta userId s in
  if negb (status =? SUCCESS) then (status, SchemaMeta.blank_m, s)
  else if negb (bool_decide (bundleName = "")) && negb (CloudInfo.Exist bundleName instanceId cloudInfo) then (ERROR, SchemaMeta.blank_m, s)
  else
    let schemaKey := CloudInfo.GetSchemaKey bundleName instanceId cloudInfo in
    let loaded := load schemaKey (schemaDb s) in
    let schemaMeta := default SchemaMeta.blank_m loaded in
    if bool_decide (is_Some loaded) && (SchemaMeta.metaVersion schemaMeta =? CURRENT_VERSION) then (SUCCESS, schemaMeta, s)
    else
      let s := UpgradeSchemaMeta env userId schemaMeta s in
      let '(status, schemaMeta) := GetSchemaFromHap env (mkHap userId instanceId bundleName) in
      if status =? SUCCESS then (status, schemaMeta, SaveSchema schemaKey schemaMeta s)
      else if negb (verified env userId) then (ERROR, schemaMeta, s)
      else
        let '(status, schemaMeta) := GetAppSchemaFromServer env userId bundleName in
        if status =? NOT_SUPPORT then (status, schemaMeta, DelCloud cloudInfo s)
        else if negb (status =? SUCCESS) then (status, schemaMeta, s)
        else (SUCCESS, schemaMeta, SaveSchema schemaKey schemaMeta s).

(* @src service/cloud/cloud_service_impl.cpp 1481-1509 CloudServiceImpl::UpdateSchemaFromHap *)
Definition UpdateSchemaFromHap (env : Env) (hapInfo : HapInfo) (s : Service) : Z * Service :=
  let '(status, cloudInfo) := GetCloudInfoFromMeta (h_user hapInfo) s in
  if negb (status =? SUCCESS) then (status, s)
  else if negb (CloudInfo.Exist (h_bundleName hapInfo) (instIndex hapInfo) cloudInfo) then (ERROR, s)
  else
    let schemaKey := CloudInfo.GetSchemaKey (h_bundleName hapInfo) (instIndex hapInfo) (CloudSync.cloud_of_user (h_user hapInfo)) in
    let '(ret, newSchemaMeta) := GetSchemaFromHap env hapInfo in
    let '(ret, newSchemaMeta) := if negb (ret =? SUCCESS) then GetAppSchemaFromServer env (h_user hapInfo) (h_bundleName hapInfo) else (ret, newSchemaMeta) in
    if negb (ret =? SUCCESS) then (ret, set_schemaDb (DelMeta schemaKey true (schemaDb s)).2 s)
    else
      let '(schemaMeta, s) :=
        match load schemaKey (schemaDb s) with
        | Some schemaMeta => (schemaMeta, UpdateClearWaterMark env hapInfo newSchemaMeta schemaMeta s)
        | None => (SchemaMeta.blank_m, s)
        end in
      (SUCCESS, if Schema_eqb newSchemaMeta schemaMeta then s else SaveSchema schemaKey newSchemaMeta s).


(* @src service/cloud/cloud_service_impl.cpp 1158-1191 CloudServiceImpl::UpdateCloudInfo *)
Definition UpdateCloudInfo (env : Env) (user : Z) (s : Service) : bool * Service :=
  let '(status, cloudInfo) := GetCloudInfoFromServer env user in
  if negb (status =? SUCCESS) then (false, s)
  else match load (CloudInfo.GetKey cloudInfo) (cloudDb s) with
       | None => (true, (SaveCloud cloudInfo s).2)
       | Some oldInfo =>
           let s := if CloudSync.CloudEqual cloudInfo oldInfo then s else (SaveCloud cloudInfo s).2 in
           if bool_decide (CloudInfo.id oldInfo = CloudInfo.id cloudInfo) then (true, s)
           else
             let '(_, s) := ReleaseUserInfo env user s in
             let s := set_subDb (DelMeta (Subscription.GetKey user) true (subDb s)).2 s in
             let s := fold_left (fun s e => set_relationDb (DelMeta (Subscription.GetRelationKey user e.1) true (relationDb s)).2 s)
                        (ordered_entries (CloudInfo.apps cloudInfo)) s in
             (true, (DoClean env oldInfo ((fun _ => CLOUD_INFO) <$> CloudInfo.apps cloudInfo) ∅ s).2)
       end.

(** [stores] are the applications of the static and dynamic stores. *)
(* @src service/cloud/cloud_service_impl.cpp 1000-1027 CloudServiceImpl::CleanWaterVersion *)
Definition CleanWaterVersion (env : Env) (stores : list string) (user : Z) (s : Service) : bool * Service :=
  let '(status, cloudInfo) := GetCloudInfoFromMeta user s in
  if negb (status =? SUCCESS) then (false, s)
  else
    (true, fold_left (fun s e =>
       let loaded := load e.2 (schemaDb s) in
       let schemaMeta := default SchemaMeta.blank_m loaded in
       if bool_decide (is_Some loaded) && (SchemaMeta.metaVersion schemaMeta <? CLEAN_WATER_VERSION) then
         if negb (bool_decide (SchemaMeta.bundleName schemaMeta ∈ stores)) then s
         else SaveSchema e.2 (SchemaMeta.mk CLEAN_WATER_VERSION (SchemaMeta.version schemaMeta) (SchemaMeta.bundleName schemaMeta)
                                (SchemaMeta.databases schemaMeta) (SchemaMeta.e2eeEnable schemaMeta))
                (DoAppLevelClean env user schemaMeta CLEAN_WATER s)
       else SaveSchema e.2 schemaMeta s) (ordered_entries (CloudInfo.GetSchemaKeys cloudInfo)) s).

(** ** Installed and removed applications *)

Definition without_sub (bundle : string) (sub : Sub) : Sub :=
  Subscription.mk (Subscription.userId sub) (Subscription.id sub) (delete bundle (Subscription.expiresTime sub)).
Definition without_app (bundle : string) (c : Cloud) : Cloud :=
  CloudInfo.mk (CloudInfo.user c) (CloudInfo.id c) (CloudInfo.totalSpace c) (CloudInfo.remainSpace c) (CloudInfo.maxNumber c)
    (CloudInfo.maxSize c) (CloudInfo.enableCloud c) (delete bundle (CloudInfo.apps c)).

(** The first two parts of [OnAppUninstall]: the subscription and the account information. *)
(* @src service/cloud/cloud_service_impl.cpp 1419-1424 CloudServiceImpl::CloudStatic::OnAppUninstall *)
Definition forget_subscription (bundleName : string) (user : Z) (s : Service) : Service :=
  match load (Subscription.GetKey user) (subDb s) with
  | Some sub =>
      if bool_decide (is_Some (Subscription.expiresTime sub !! bundleName))
      then set_subDb (SaveMeta (Subscription.GetKey user) (without_sub bundleName sub) true (subDb s)).2 s
      else s
  | None => s
  end.
(* @src service/cloud/cloud_service_impl.cpp 1426-1433 CloudServiceImpl::CloudStatic::OnAppUninstall *)
Definition forget_app (bundleName : string) (user : Z) (s : Service) : Service :=
  match load (CloudInfo.GetKey (CloudSync.cloud_of_user user)) (cloudDb s) with
  | Some c =>
      if bool_decide (is_Some (CloudInfo.apps c !! bundleName)) then
        let s := (SaveCloud (without_app bundleName c) s).2 in
        set_lastDb (DelMeta (LastSync.GetKeyOfBundle user bundleName) true (lastDb s)).2 s
      else s
  | None => s
  end.

(* @src service/cloud/cloud_service_impl.cpp 1415-1439 CloudServiceImpl::CloudStatic::OnAppUninstall *)
Definition OnAppUninstall (bundleName : string) (user index : Z) (s : Service) : Z * Service :=
  let s := forget_app bundleName user (forget_subscription bundleName user s) in
  let s := set_relationDb (DelMeta (Subscription.GetRelationKey user bundleName) true (relationDb s)).2 s in
  let s := set_schemaDb (DelMeta (CloudInfo.GetSchemaKey bundleName index (CloudSync.cloud_of_user user)) true (schemaDb s)).2 s in
  (E_OK, set_strategyDb (DelMeta (NetworkSyncStrategy.GetKey user bundleName) true (strategyDb s)).2 s).

(* @src service/cloud/cloud_service_impl.cpp 1466-1479 CloudServiceImpl::CloudStatic::CloudDriverCheck *)
Definition CloudDriverCheck (env : Env) (bundleName : string) (user : Z) (s : Service) : bool * Service :=
  match server env with
  | None => (false, s)
  | Some srv => if CloudDriverUpdated srv bundleName then (true, emit [EUpdateSchemaFromServer user] s) else (false, s)
  end.

(* @src service/cloud/cloud_service_impl.cpp 1441-1453 CloudServiceImpl::CloudStatic::OnAppInstall *)
Definition OnAppInstall (env : Env) (bundleName : string) (user index : Z) (s : Service) : Z * Service :=
  let '(driver, s) := CloudDriverCheck env bundleName user s in
  if driver then (SUCCESS, s)
  else let '(ret, s) := UpdateCloudInfoFromServer env user s in
       (ret, if ret =? E_OK then emit [EGetSchemaEvent bundleName index user] s else s).

(* @src service/cloud/cloud_service_impl.cpp 1455-1464 CloudServiceImpl::CloudStatic::OnAppUpdate *)
Definition OnAppUpdate (env : Env) (bundleName : string) (user index : Z) (s : Service) : Z * Service :=
  let '(driver, s) := CloudDriverCheck env bundleName user s in
  (SUCCESS, if driver then s else emit [EUpdateSchemaFromHap user index bundleName] s).

(** The answer of [QueryUsers]: whether it succeeded, and the users. *)
(* @src service/cloud/cloud_service_impl.cpp 1557-1574 CloudServiceImpl::GetSchema *)
Definition GetSchema (env : Env) (users : bool * list Z) (bundleName : string) (instanceId user : Z) (s : Service) : Service :=
  if user =? 0 then
    match users with
    | (true, u :: _) => (GetSchemaMeta env u bundleName instanceId s).2
    | _ => s
    end
  else (GetSchemaMeta env user bundleName instanceId s).2.

(** ** Requests for synchronisations *)

Definition MODE_PUSH : Z := 1.
Definition MODE_CONSISTENCY : Z := 5.

(* @src service/cloud/cloud_service_impl.h 149-157 CloudServiceImpl::DatabaseSyncContext *)
Record DatabaseSyncContext := mkContext {
  c_user : Z; c_bundleName : string; c_instanceId : Z; dbName : string; c_tables : list string; triggerMode : Z; prepareTraceId : string
}.

Definition mapping_of (env : Env) (bundle store : string) (user instance : Z) (s : Service) : Mapping :=
  let made := StoreMetaMapping.mk (CloudStore.meta_of (device env) (CloudSync.mkStore bundle store instance user 0)) "" "" "" in
  let meta := default made (load (StoreMetaMapping.GetKey made) (mappingDb s)) in
  if negb (bool_decide (StoreMetaMapping.cloudPath meta = "")) && negb (bool_decide (StoreMetaMapping.cloudPath meta = StoreMetaData.dataDir (StoreMetaMapping.meta meta)))
  then StoreMetaMapping.mk (default (StoreMetaMapping.meta meta) (load (StoreMetaMapping.GetCloudStoreMetaKey meta) (storeDb s)))
         (StoreMetaMapping.cloudPath meta) (StoreMetaMapping.devicePath meta) (StoreMetaMapping.searchPath meta)
  else meta.

(* @src service/cloud/cloud_service_impl.cpp 590-619 CloudServiceImpl::ProcessDatabaseSync *)
Definition ProcessDatabaseSync (env : Env) (context : DatabaseSyncContext) (s : Service) : Service :=
  let meta := mapping_of env (c_bundleName context) (dbName context) (c_user context) (c_instanceId context) s in
  if negb (StoreMetaData.autoSyncSwitch (StoreMetaMapping.meta meta))
  then emit [ETrigger (c_bundleName context) (c_user context) (triggerMode context)] s
  else let mode := if triggerMode context =? scene_code PUSH then MODE_PUSH else triggerMode context in
       emit [EDoCloudSync (c_user context) (c_bundleName context) (dbName context) (c_tables context) mode (prepareTraceId context)] s.

(* @src service/cloud/cloud_service_impl.cpp 621-649 CloudServiceImpl::TriggerAppDatabaseSync *)
Definition TriggerAppDatabaseSync (env : Env) (user : Z) (bundleName : string) (cloudInfo : Cloud) (scene : CloudSyncScene) (s : Service) : Service :=
  match CloudInfo.apps cloudInfo !! bundleName with
  | None => s
  | Some app =>
      let '(schemaStatus, schemaMeta, s) := GetSchemaMeta env user bundleName (AppInfo.instanceId app) s in
      if negb (schemaStatus =? SUCCESS) then s
      else fold_left (fun s database =>
               ProcessDatabaseSync env (mkContext (CloudInfo.user cloudInfo) bundleName (AppInfo.instanceId app) (Database.name database) [] (scene_code scene) "") s)
             (SchemaMeta.databases schemaMeta) s
  end.

(** [user] is the user of the caller. *)
(* @src service/cloud/cloud_service_impl.cpp 206-256 CloudServiceImpl::ChangeAppSwitch *)
Definition ChangeAppSwitch (env : Env) (user : Z) (id bundleName : string) (appSwitch : Z) (config : list (string * SyncConfig.DBSwitchInfo)) (s : Service) : Z * Service :=
  let scene := if appSwitch =? SWITCH_ON then SCENE_SWITCH_ON else SCENE_SWITCH_OFF in
  let '(status, cloudInfo, s) := GetCloudInfo env user s in
  if negb (status =? SUCCESS) || negb (CloudInfo.enableCloud cloudInfo) then (status, s)
  else if negb (bool_decide (CloudInfo.id cloudInfo = id))
  then (INVALID_ARGUMENT, Execute (EExecute 0 (CloudInfo.user cloudInfo) scene [WORK_CLOUD_INFO_UPDATE; WORK_SCHEMA_UPDATE; WORK_SUB; WORK_DO_CLOUD_SYNC]) s)
  else
    let '(status, cloudInfo) := if negb (CloudInfo.Exist bundleName 0 cloudInfo) then GetCloudInfoFromServer env user else (SUCCESS, cloudInfo) in
    if negb (status =? SUCCESS) || negb (CloudInfo.enableCloud cloudInfo) || negb (bool_decide (CloudInfo.id cloudInfo = id))
       || negb (CloudInfo.Exist bundleName 0 cloudInfo) then (INVALID_ARGUMENT, s)
    else
      let cloudInfo := set_app bundleName (appSwitch =? SWITCH_ON) cloudInfo in
      let '(ok, s) := UpdateCloudMeta cloudInfo s in
      if negb ok then (ERROR, s)
      else
        let s := set_configDb (SyncConfig.UpdateConfig user bundleName config (configDb s)).2 s in
        let s := Execute (EExecute 0 (CloudInfo.user cloudInfo) scene [WORK_CLOUD_INFO_UPDATE; WORK_SCHEMA_UPDATE; WORK_SUB]) s in
        let s := if appSwitch =? SWITCH_OFF then emit [EClearLastSyncInfo (CloudInfo.user cloudInfo) (CloudInfo.id cloudInfo) bundleName] s else s in
        (SUCCESS, if CloudInfo.enableCloud cloudInfo && (appSwitch =? SWITCH_ON) then TriggerAppDatabaseSync env user bundleName cloudInfo scene s else s).


(** ** What is cleaned *)

Lemma emit_nil s : emit [] s = s.
Proof. destruct s. unfold emit. cbn. by rewrite app_nil_r. Qed.

Lemma emit_emit es es' s : emit es' (emit es s) = emit (es ++ es') s.
Proof. unfold emit. cbn. by rewrite app_assoc. Qed.

(** The effects of one call of the store. *)
Definition cleaning (env : Env) (meta : StoreMeta) (a : Z) (tables : list string) : list Effect :=
  if opens env meta then
    (if a =? CLEAN_WATER then [] else [ECleanDataEvent (StoreMetaData.bundleName meta) (StoreMetaData.user meta) (StoreMetaData.storeId meta) (StoreMetaData.dataDir meta)])
    ++ [EClean meta a tables]
  else [].

Lemma ExecuteDatabaseClean_emit env meta a tables s : ExecuteDatabaseClean env meta a tables s = emit (cleaning env meta a tables) s.
Proof. unfold ExecuteDatabaseClean, cleaning. destruct (opens env meta); cbn [negb]; [done|by rewrite emit_nil]. Qed.

Lemma cleaning_elem env meta a tables meta' b ts :
  EClean meta' b ts ∈ cleaning env meta a tables <-> opens env meta = true /\ meta' = meta /\ b = a /\ ts = tables.
Proof.
  unfold cleaning. destruct (opens env meta).
  - rewrite elem_of_app, list_elem_of_singleton. split.
    + intros [Hin|Heq]; [|by injection Heq]. destruct (a =? CLEAN_WATER); [by apply elem_of_nil in Hin|]. apply list_elem_of_singleton in Hin. discriminate.
    + intros (_ & -> & -> & ->). by right.
  - split; [intros Hin; by apply elem_of_nil in Hin|intros [? _]; done].
Qed.

(** A table is among those of an action. *)
Definition listed (m : list (Z * list string)) (a : Z) (t : string) : Prop := exists ts, (a, ts) ∈ m /\ t ∈ ts.

Lemma listed_cons b ts m a t : listed ((b, ts) :: m) a t <-> (a = b /\ t ∈ ts) \/ listed m a t.
Proof.
  unfold listed. split.
  - intros (ts' & Hin & Ht). apply elem_of_cons in Hin as [[= -> ->]|Hin]; [by left|right; by exists ts'].
  - intros [[-> Ht]|(ts' & Hin & Ht)]; [exists ts|exists ts']; (split; [apply elem_of_cons; auto|done]).
Qed.

Lemma push_table_listed b x m a t : listed (push_table b x m) a t <-> (a = b /\ t = x) \/ listed m a t.
Proof.
  induction m as [|[c ts] m IH]; cbn [push_table].
  - rewrite listed_cons, list_elem_of_singleton. tauto.
  - destruct (Z.ltb_spec b c); [rewrite !listed_cons, list_elem_of_singleton; tauto|].
    destruct (Z.eqb_spec b c) as [->|]; rewrite !listed_cons.
    + rewrite elem_of_app, list_elem_of_singleton. tauto.
    + rewrite IH. tauto.
Qed.

Lemma push_table_filled b x m : Forall (fun e => e.2 <> []) m -> Forall (fun e => e.2 <> []) (push_table b x m).
Proof.
  induction m as [|[c ts] m IH]; cbn [push_table]; intros Hm; [repeat constructor; discriminate|].
  apply Forall_cons in Hm as [Hts Hm]. destruct (b <? c); [repeat (constructor; [done|]); done|].
  destruct (b =? c); constructor; try done; [|by apply IH]. cbn. by destruct ts.
Qed.

(** The tables are distributed by their actions; [CLOUD_NONE] leaves a table alone. *)
Lemma tables_listed (acts : gmap string Z) (db app : Z) (tables : list string) (m : list (Z * list string)) :
  let m' := fold_left (fun m tableName =>
      match acts !! tableName with
      | Some a => if a =? CLOUD_NONE then m else push_table a tableName m
      | None => if negb (db =? CLOUD_NONE) then push_table db tableName m
                else if negb (app =? CLOUD_NONE) then push_table app tableName m else m
      end) tables m in
  (Forall (fun e => e.2 <> []) m -> Forall (fun e => e.2 <> []) m') /\
  forall a t, listed m' a t <-> listed m a t \/ (t ∈ tables /\ a = table_action acts db app t /\ a <> CLOUD_NONE).
Proof.
  revert m. induction tables as [|x tables IH]; intros m; cbn [fold_left].
  - split; [done|]. intros a t. rewrite elem_of_nil. tauto.
  - set (step := match acts !! x with Some a => _ | None => _ end).
    assert (step = if table_action acts db app x =? CLOUD_NONE then m else push_table (table_action acts db app x) x m) as Es.
    { unfold step, table_action. destruct (acts !! x); [done|]. by destruct (db =? CLOUD_NONE) eqn:Ed; cbn [negb]; [destruct (app =? CLOUD_NONE)|rewrite Ed]. }
    clearbody step. destruct (IH step) as [IH1 IH2]. split.
    + intros Hm. apply IH1. rewrite Es. by destruct (table_action acts db app x =? CLOUD_NONE); [|apply push_table_filled].
    + intros a t. rewrite IH2, elem_of_cons, Es. destruct (Z.eqb_spec (table_action acts db app x) CLOUD_NONE) as [E|E].
      * split; [tauto|]. intros [|[[->|] [-> ]]]; [tauto|done|tauto].
      * rewrite push_table_listed. split.
        { intros [[[-> ->]|]|]; tauto. }
        { intros [|[[->|] [-> ]]]; tauto. }
Qed.


Lemma table_clean_emit env meta (m : list (Z * list string)) s :
  fold_left (fun s e => match e.2 with [] => s | _ => ExecuteDatabaseClean env meta e.1 e.2 s end) m s
  = emit (m ≫= fun e => match e.2 with [] => [] | _ => cleaning env meta e.1 e.2 end) s.
Proof.
  revert s. induction m as [|[a ts] m IH]; intros s; cbn [fold_left].
  - cbn. by rewrite emit_nil.
  - rewrite bind_cons, <- emit_emit. rewrite IH. cbn [fst snd]. destruct ts; [by rewrite emit_nil|by rewrite ExecuteDatabaseClean_emit].
Qed.

(** The store is told to do action [a] for the table [t]: by name, or with the whole database. *)
Definition cleans (es : list Effect) (meta : StoreMeta) (t : string) (a : Z) : Prop :=
  exists ts, EClean meta a ts ∈ es /\ (ts = [] \/ t ∈ ts).

(** The action a request intends for a table: the most specific that is given. *)
Definition intended (config : ClearConfig) (appAction : Z) (db : string) (t : string) : Z :=
  match config !! db with
  | None => appAction
  | Some info => table_action (tableInfo info) (action info) appAction t
  end.

(** The step of the loop for one store. *)
Definition clean_store (env : Env) (config : ClearConfig) (app : Z) (meta : StoreMeta) (database : Database.Database) (s : Service) : Service :=
  match config !! Database.name database with
  | None => if app =? CLOUD_NONE then s else ExecuteDatabaseClean env meta app [] s
  | Some info =>
      if negb (bool_decide (tableInfo info = ∅)) then ExecuteTableLevelClean env meta database (tableInfo info) (action info) app s
      else if negb (action info =? CLOUD_NONE) then ExecuteDatabaseClean env meta (action info) [] s
      else if negb (app =? CLOUD_NONE) then ExecuteDatabaseClean env meta app [] s
      else s
  end.

(** What is to happen to one store. *)
Definition as_intended (env : Env) (config : ClearConfig) (app : Z) (meta : StoreMeta) (database : Database.Database) (es : list Effect) : Prop :=
  (forall meta' a ts, EClean meta' a ts ∈ es -> meta' = meta) /\
  forall t a, t ∈ Database.GetTableNames database ->
    (cleans es meta t a <-> opens env meta = true /\ a = intended config app (Database.name database) t /\ a <> CLOUD_NONE).

Lemma whole_as_intended env config app meta database a :
  (forall t, t ∈ Database.GetTableNames database -> intended config app (Database.name database) t = a) ->
  as_intended env config app meta database (if a =? CLOUD_NONE then [] else cleaning env meta a []).
Proof.
  intros Hi. destruct (Z.eqb_spec a CLOUD_NONE) as [->|Hne]; split.
  - intros ??? Hin. by apply elem_of_nil in Hin.
  - intros t a Ht. rewrite (Hi t Ht). split; [intros (ts & Hin & _); by apply elem_of_nil in Hin|]. intros (_ & -> & ?). done.
  - intros ??? Hin. by apply cleaning_elem in Hin as (_ & -> & _).
  - intros t b Ht. rewrite (Hi t Ht). unfold cleans. split.
    + intros (ts & Hin & _). by apply cleaning_elem in Hin as (? & _ & -> & _).
    + intros (Ho & -> & _). exists []. split; [by apply cleaning_elem|by left].
Qed.

Lemma tables_as_intended env config app meta database info :
  config !! Database.name database = Some info ->
  exists es, (forall s, ExecuteTableLevelClean env meta database (tableInfo info) (action info) app s = emit es s) /\ as_intended env config app meta database es.
Proof.
  intros Hc. unfold ExecuteTableLevelClean.
  destruct (tables_listed (tableInfo info) (action info) app (Database.GetTableNames database) []) as [Hf Hl].
  set (m := fold_left _ (Database.GetTableNames database) []) in *. specialize (Hf (Forall_nil_2 _)).
  eexists. split; [intros s; apply table_clean_emit|].
  assert (forall meta' a ts, EClean meta' a ts ∈ (m ≫= fun e => match e.2 with [] => [] | _ => cleaning env meta e.1 e.2 end)
          <-> opens env meta = true /\ meta' = meta /\ (a, ts) ∈ m) as He.
  { intros meta' a ts. rewrite list_elem_of_bind. split.
    - intros ([b us] & Hin & Hm). cbn [fst snd] in Hin. destruct us; [by apply elem_of_nil in Hin|]. by apply cleaning_elem in Hin as (? & -> & -> & ->).
    - intros (Ho & -> & Hm). exists (a, ts). split; [|done]. rewrite Forall_forall in Hf. specialize (Hf _ Hm). cbn [fst snd] in *.
      destruct ts; [done|]. by apply cleaning_elem. }
  split; [intros meta' a ts Hin; by apply He in Hin as (_ & -> & _)|].
  intros t a Ht. unfold intended. rewrite Hc. unfold cleans. split.
  - intros (ts & Hin & Hts). apply He in Hin as (Ho & _ & Hm). split; [done|].
    rewrite Forall_forall in Hf. pose proof (Hf _ Hm) as Hne. cbn [snd] in Hne. destruct Hts as [->|Hts]; [done|].
    assert (listed m a t) as H' by by exists ts. apply Hl in H' as [(us & Hin & _)|(_ & ? & ?)]; [by apply elem_of_nil in Hin|done].
  - intros (Ho & Ha & Hne). assert (listed m a t) as (ts & Hm & Hts) by (apply Hl; by right).
    exists ts. split; [by apply He|by right].
Qed.

Lemma clean_store_intended env config app meta database :
  exists es, (forall s, clean_store env config app meta database s = emit es s) /\ as_intended env config app meta database es.
Proof.
  assert (forall a, (forall s, (if a =? CLOUD_NONE then s else ExecuteDatabaseClean env meta a [] s) = emit (if a =? CLOUD_NONE then [] else cleaning env meta a []) s)) as Hw.
  { intros a s. destruct (a =? CLOUD_NONE); [by rewrite emit_nil|apply ExecuteDatabaseClean_emit]. }
  unfold clean_store. destruct (config !! Database.name database) as [info|] eqn:Hc.
  - case_bool_decide as He; cbn [negb]; [|by apply tables_as_intended].
    set (a := if action info =? CLOUD_NONE then app else action info).
    exists (if a =? CLOUD_NONE then [] else cleaning env meta a []). split.
    + intros s. rewrite <- Hw. unfold a. destruct (action info =? CLOUD_NONE) eqn:Ea; cbn [negb]; [by destruct (app =? CLOUD_NONE)|by rewrite Ea].
    + apply whole_as_intended. intros t _. unfold intended, table_action. by rewrite Hc, He, lookup_empty.
  - exists (if app =? CLOUD_NONE then [] else cleaning env meta app []). split; [apply Hw|].
    apply whole_as_intended. intros t _. unfold intended. by rewrite Hc.
Qed.

(** The metadata found for each of the databases. *)
Fixpoint found_stores (user : Z) (meta : StoreMeta) (databases : list Database.Database) (s : Service) : list (option StoreMeta) :=
  match databases with
  | [] => []
  | database :: databases =>
      let '(found, meta) := GetStoreMetaData s (set_meta_store (to_string user) (Database.name database) meta) in
      (if found then Some meta else None) :: found_stores user meta databases s
  end.

Lemma found_stores_emit user meta databases es s : found_stores user meta databases (emit es s) = found_stores user meta databases s.
Proof.
  revert meta. induction databases as [|db databases IH]; intros meta; cbn [found_stores]; [done|].
  change (GetStoreMetaData (emit es s)) with (GetStoreMetaData s). destruct (GetStoreMetaData s _). by rewrite IH.
Qed.

Lemma clean_databases_intended env config app user databases meta s :
  exists calls, clean_databases user (clean_store env config app) meta databases s = emit (concat calls) s /\
    Forall2 (fun p es => match p.2 with None => es = [] | Some m => as_intended env config app m p.1 es end)
      (zip databases (found_stores user meta databases s)) calls.
Proof.
  revert meta s. induction databases as [|db databases IH]; intros meta s; cbn [clean_databases found_stores].
  - exists []. cbn. by rewrite emit_nil.
  - destruct (GetStoreMetaData s _) as [found m]. destruct (clean_store_intended env config app m db) as (es & He & Hi).
    destruct found.
    + rewrite He. destruct (IH m (emit es s)) as (calls & E & HF). exists (es :: calls). cbn [concat zip]. rewrite E, emit_emit.
      split; [done|]. constructor; [done|]. by rewrite found_stores_emit in HF.
    + destruct (IH m s) as (calls & E & HF). exists ([] :: calls). cbn [concat zip Datatypes.app]. split; [done|]. by constructor.
Qed.

(** C21: Cleaning the cloud data of an application does what the request intends for every table of
    every database of its schema: a store whose metadata is not found or that does not open is left alone, and
    any other store is told to do an action for a table, by name or for the whole
    database, exactly when that is the table's own action, without one the database's, without that
    the application's, and nothing where the answer is [CLOUD_NONE]. *)
Theorem clean_most_specific env user schema config app s :
  exists calls, DoDbTableLevelClean env user schema config app s = emit (concat calls) s /\
    Forall2 (fun p es => match p.2 with None => es = [] | Some meta => as_intended env config app meta p.1 es end)
      (zip (SchemaMeta.databases schema) (found_stores user (first_meta env schema) (SchemaMeta.databases schema) s)) calls.
Proof. apply clean_databases_intended. Qed.


(** ** Removed applications *)

(** A table of the metadata that does not fail. *)
Definition reliable (V : Type) `{MetaStore V} : Prop :=
  (forall k l d, (LoadMeta k l d).1 = stored d l k) /\
  (forall k v l d, (SaveMeta k v l d).1 = true) /\ (forall k l d, (DelMeta k l d).1 = true).

Section Reliable.
Context {V : Type} {M : MetaStore V} (HR : reliable V).

Lemma load_stored k (d : meta_db V) : load k d = stored d true k.
Proof. apply HR. Qed.

Lemma stored_save k v (d : meta_db V) k' : stored (SaveMeta k v true d).2 true k' = if bool_decide (k' = k) then Some v else stored d true k'.
Proof.
  destruct HR as (_ & Hs & _). specialize (Hs k v true d). destruct (SaveMeta k v true d) as [ok d'] eqn:E. cbn in Hs. subst ok. cbn [snd].
  rewrite (SaveMeta_ok _ _ _ _ _ E true k'). by rewrite (bool_decide_ext (true = true /\ k' = k) (k' = k)) by tauto.
Qed.

Lemma stored_del k (d : meta_db V) k' : stored (DelMeta k true d).2 true k' = if bool_decide (k' = k) then None else stored d true k'.
Proof.
  case_bool_decide as Hk.
  - subst. destruct HR as (_ & _ & Hd). specialize (Hd k true d). destruct (DelMeta k true d) as [ok d'] eqn:E. cbn in Hd. subst ok. by apply DelMeta_ok in E.
  - apply DelMeta_other. by intros [= ->].
Qed.
End Reliable.

Lemma forget_subscription_stored bundle user s k : reliable Sub ->
  stored (subDb (forget_subscription bundle user s)) true k =
  if bool_decide (k = Subscription.GetKey user) then without_sub bundle <$> stored (subDb s) true k else stored (subDb s) true k.
Proof.
  intros HU. unfold forget_subscription. rewrite (load_stored HU). case_bool_decide as Hk; subst.
  - destruct (stored (subDb s) true (Subscription.GetKey user)) as [sub|] eqn:Es; [|by rewrite Es]. case_bool_decide as Hb; cbn [subDb set_subDb].
    + by rewrite (stored_save HU), bool_decide_true.
    + rewrite Es. cbn [fmap option_fmap option_map]. unfold without_sub. rewrite delete_id by (by apply eq_None_not_Some). by destruct sub.
  - destruct (stored (subDb s) true (Subscription.GetKey user)); [|done]. case_bool_decide; [|done]. cbn [subDb set_subDb]. by rewrite (stored_save HU), bool_decide_false.
Qed.

Lemma forget_app_stored bundle user s k : reliable Cloud ->
  (forall c, stored (cloudDb s) true (CloudInfo.GetKey (CloudSync.cloud_of_user user)) = Some c -> CloudInfo.user c = user) ->
  stored (cloudDb (forget_app bundle user s)) true k =
  if bool_decide (k = CloudInfo.GetKey (CloudSync.cloud_of_user user)) then without_app bundle <$> stored (cloudDb s) true k else stored (cloudDb s) true k.
Proof.
  intros HC Hown. unfold forget_app, SaveCloud. rewrite (load_stored HC).
  destruct (stored (cloudDb s) true (CloudInfo.GetKey (CloudSync.cloud_of_user user))) as [c|] eqn:Es; [|by case_bool_decide as Hk; [subst; rewrite Es|]].
  assert (CloudInfo.GetKey (without_app bundle c) = CloudInfo.GetKey (CloudSync.cloud_of_user user)) as -> by (unfold CloudInfo.GetKey; cbn; by rewrite (Hown c eq_refl)).
  pose proof (stored_save HC (CloudInfo.GetKey (CloudSync.cloud_of_user user)) (without_app bundle c) (cloudDb s) k) as Hs.
  destruct (SaveMeta _ _ _ _) as [ok d]. cbn [snd] in Hs.
  destruct (bool_decide_reflect (is_Some (CloudInfo.apps c !! bundle))) as [Hb|Hb]; cbn [cloudDb set_cloudDb set_lastDb snd].
  - rewrite Hs. case_bool_decide as Hk; [subst; by rewrite Es|done].
  - case_bool_decide as Hk; [|done]. subst. rewrite Es. cbn [fmap option_fmap option_map]. unfold without_app.
    rewrite delete_id by (by apply eq_None_not_Some). by destruct c.
Qed.

Lemma forget_subscription_frame bundle user s :
  let s' := forget_subscription bundle user s in
  cloudDb s' = cloudDb s /\ relationDb s' = relationDb s /\ schemaDb s' = schemaDb s /\ strategyDb s' = strategyDb s /\ trace s' = trace s.
Proof. cbv zeta. unfold forget_subscription. destruct (load _ (subDb s)); [case_bool_decide|]; done. Qed.

Lemma forget_app_frame bundle user s :
  let s' := forget_app bundle user s in
  subDb s' = subDb s /\ relationDb s' = relationDb s /\ schemaDb s' = schemaDb s /\ strategyDb s' = strategyDb s /\ trace s' = trace s.
Proof.
  cbv zeta. unfold forget_app, SaveCloud. destruct (load _ (cloudDb s)); [|done]. case_bool_decide; [|done]. by destruct (SaveMeta _ _ _ _).
Qed.

(** C23: Removing an application removes it from everything the cloud service has stored for the user: its
    subscription, its entry in the account information, its relation, its schema and its network
    strategy are gone; all the rest of these tables is as it was. *)
Theorem uninstalled_forgotten bundle user index s :
  reliable Cloud -> reliable Schema -> reliable Sub -> reliable Relation.Relation -> reliable Strategy ->
  (forall c, stored (cloudDb s) true (CloudInfo.GetKey (CloudSync.cloud_of_user user)) = Some c -> CloudInfo.user c = user) ->
  let s' := (OnAppUninstall bundle user index s).2 in
  (forall k, stored (subDb s') true k =
     if bool_decide (k = Subscription.GetKey user) then without_sub bundle <$> stored (subDb s) true k else stored (subDb s) true k) /\
  (forall k, stored (cloudDb s') true k =
     if bool_decide (k = CloudInfo.GetKey (CloudSync.cloud_of_user user)) then without_app bundle <$> stored (cloudDb s) true k else stored (cloudDb s) true k) /\
  (forall k, stored (relationDb s') true k = if bool_decide (k = Subscription.GetRelationKey user bundle) then None else stored (relationDb s) true k) /\
  (forall k, stored (schemaDb s') true k =
     if bool_decide (k = CloudInfo.GetSchemaKey bundle index (CloudSync.cloud_of_user user)) then None else stored (schemaDb s) true k) /\
  (forall k, stored (strategyDb s') true k = if bool_decide (k = NetworkSyncStrategy.GetKey user bundle) then None else stored (strategyDb s) true k) /\
  trace s' = trace s.
Proof.
  intros HC HS HU HL HG Hown. unfold OnAppUninstall.
  destruct (forget_subscription_frame bundle user s) as (E1 & E2 & E3 & E4 & E5).
  destruct (forget_app_frame bundle user (forget_subscription bundle user s)) as (F1 & F2 & F3 & F4 & F5).
  cbn [snd subDb cloudDb relationDb schemaDb strategyDb trace set_relationDb set_schemaDb set_strategyDb].
  rewrite F1, F2, F3, F4, F5, E2, E3, E4, E5. repeat split; intros k.
  - by apply forget_subscription_stored.
  - rewrite forget_app_stored by (by rewrite ?E1). by rewrite E1.
  - apply (stored_del HL).
  - apply (stored_del HS).
  - apply (stored_del HG).
Qed.

(** While the cloud is disabled, switching an application reports success and changes nothing. *)
Lemma switch_ignored_when_disabled env user id bundle sw config s c :
  load (CloudInfo.GetKey (CloudSync.cloud_of_user user)) (cloudDb s) = Some c -> CloudInfo.enableCloud c = false ->
  ChangeAppSwitch env user id bundle sw config s = (SUCCESS, s).
Proof.
  intros Hl He. unfold ChangeAppSwitch, GetCloudInfo, GetCloudInfoFromMeta. rewrite Hl, Z.eqb_refl, He. cbn [negb]. by rewrite Z.eqb_refl.
Qed.

(** A cleaning that names databases or tables only, and no application, is refused. *)
Lemma config_without_actions_refused env user id configs s : (Clean env user id ∅ configs s).1 = ERROR.
Proof.
  unfold Clean. destruct (GetCloudInfoFromMeta user s) as [status c]. destruct (status =? SUCCESS); [|done]. cbn [negb].
  case_bool_decide; [|done]. cbn [negb]. by rewrite bool_decide_true.
Qed.


End Service.
(** ** Samples *)

#[local] Existing Instance MapMetaStore.
#[local] Existing Instance TreeText.

Lemma MapMetaStore_reliable V : reliable V.
Proof. by repeat split. Qed.

Definition notes_app : AppInfo.AppInfo := AppInfo.mk "com.notes" "1" 1 0 true.
Definition todo_app : AppInfo.AppInfo := AppInfo.mk "com.todo" "2" 1 0 true.
Definition account (id : string) (apps : gmap string AppInfo.AppInfo) : Cloud := CloudInfo.mk 100 id 0 0 30 1024 true apps.
Definition notes_schema : Schema :=
  SchemaMeta.mk 65537 1 "com.notes" [Database.mk "notes.db" "n" [Table.mk "t1" "" "a1" [] [] []; Table.mk "t2" "t2_shared" "a2" [] [] []] [] 0 "" "" 1 ""] false.
Definition todo_schema : Schema := SchemaMeta.mk 65537 1 "com.todo" [Database.mk "todo.db" "t" [] [] 0 "" "" 1 ""] false.
Definition store_meta (bundle store : string) : StoreMeta :=
  CloudStore.meta_with "100" "/data/x" (CloudStore.meta_of "dev" (CloudSync.mkStore bundle store 0 100 0)).
Definition mapping (bundle store : string) : Mapping := StoreMetaMapping.mk (store_meta bundle store) "" "" "".

Definition old_account : Cloud := account "alice" {["com.notes" := notes_app; "com.todo" := todo_app]}.
Definition new_account : Cloud := account "bob" {["com.notes" := notes_app]}.

Definition serving : Env := mkEnv _ true (Some (mkServer (fun _ => (E_OK, new_account)) (fun _ b => (E_OK, if bool_decide (b = "com.notes") then notes_schema else todo_schema)) (fun _ => false)))
  (fun _ => true) "dev" (fun _ => []) (fun _ => true).

Definition stores_of (l : list (string * string)) : gmap (bool * string) StoreMeta :=
  list_to_map ((fun p => ((true, StoreMetaData.GetKey (store_meta p.1 p.2)), store_meta p.1 p.2)) <$> l).
Definition mappings_of (l : list (string * string)) : gmap (bool * string) Mapping :=
  list_to_map ((fun p => ((true, StoreMetaMapping.GetKey (mapping p.1 p.2)), mapping p.1 p.2)) <$> l).
Definition both_stores : list (string * string) := [("com.notes", "notes.db"); ("com.todo", "todo.db")].

Definition signed_in : Service :=
  mkService (SaveMeta (CloudInfo.GetKey old_account) old_account true ∅).2
    (SaveMeta (CloudInfo.GetSchemaKey "com.notes" 0 old_account) notes_schema true (SaveMeta (CloudInfo.GetSchemaKey "com.todo" 0 old_account) todo_schema true ∅).2).2
    (SaveMeta (Subscription.GetKey 100) (Subscription.mk 100 "alice" {["com.notes" := 7; "com.todo" := 9]}) true ∅).2
    ∅ (mappings_of both_stores) (stores_of both_stores) ∅ ∅ ∅ ∅ ∅ true [].

Lemma uninstalled_forgotten_witness :
  let s' := (OnAppUninstall "com.todo" 100 0 signed_in).2 in
  stored (schemaDb s') true (CloudInfo.GetSchemaKey "com.todo" 0 old_account) = None /\
  stored (schemaDb s') true (CloudInfo.GetSchemaKey "com.notes" 0 old_account) = Some notes_schema /\
  (CloudInfo.apps <$> stored (cloudDb s') true (CloudInfo.GetKey old_account)) = Some {["com.notes" := notes_app]} /\
  (Subscription.expiresTime <$> stored (subDb s') true (Subscription.GetKey 100)) = Some {["com.notes" := 7]}.
Proof.
  destruct (uninstalled_forgotten "com.todo" 100 0 signed_in) as (Hsub & Hcloud & _ & Hschema & _).
  1-5: apply MapMetaStore_reliable.
  { intros c Hc. vm_compute in Hc. by injection Hc as <-. }
  cbv zeta. refine (conj _ (conj _ (conj _ _))).
  - rewrite Hschema. by vm_compute.
  - rewrite Hschema. by vm_compute.
  - rewrite Hcloud. by vm_compute.
  - rewrite Hsub. by vm_compute.
Defined.

(** When the account changes, only the applications the new account knows are cleaned: the store of an application
    that only the old account had keeps its cloud data. *)
Lemma old_apps_not_cleaned :
  trace (UpdateCloudInfo serving 100 signed_in).2 =
    [EReleaseUserInfo 100; EStopCloudSync 100; ECleanDataEvent "com.notes" "100" "notes.db" "/data/x"; EClean (store_meta "com.notes" "notes.db") CLOUD_INFO []].
Proof. by vm_compute. Qed.

(** At start-up, an application without a stored schema gets an empty one, which counts as current: the
    schema is then not asked for, although the server has one. *)
Definition no_schema : Service :=
  mkService (SaveMeta (CloudInfo.GetKey old_account) old_account true ∅).2 ∅ ∅ ∅ ∅ ∅ ∅ ∅ ∅ ∅ ∅ true [].

Lemma empty_schema_saved :
  (GetSchemaMeta serving 100 "com.notes" 0 no_schema).1 = (SUCCESS, notes_schema) /\
  (GetSchemaMeta serving 100 "com.notes" 0 (CleanWaterVersion serving [] 100 no_schema).2).1 = (SUCCESS, SchemaMeta.blank_m).
Proof. split; by vm_compute. Qed.

(** An unknown action for a table is passed on to the store as [CLEAN_MODE_BUTT]; an unknown action of an application is dropped. *)
Lemma invalid_table_action_passed :
  let configs : gmap string ClearConfig := {["com.notes" := {["notes.db" := mkAction CLEAR_CLOUD_NONE {["t1" := 77]}]}]} in
  trace (Clean serving 100 "alice" {["com.notes" := CLEAR_CLOUD_NONE]} configs signed_in).2 =
    [EStopCloudSync 100; ECleanDataEvent "com.notes" "100" "notes.db" "/data/x"; EClean (store_meta "com.notes" "notes.db") CLEAN_MODE_BUTT ["t1"]].
Proof. by vm_compute. Qed.


End CloudService.
