(* ===== verification/CloudWork.v ===== *)
(** * The works of the cloud service ([service/cloud/cloud_service_impl.cpp])

    A switch, a change of the user or of the network makes the service execute a list of works one
    after the other, each a task of the thread pool that is retried after a failure: updating the account
    information and the schemas, synchronising, subscribing to the changes of the
    server. Notifications of the server and requests of clients become synchronisations.

    The state is that of [CloudService]; a task of the pool is described by what it was made from. *)

From stdpp Require Import sorting.
From S2P Require Import Prelude CppString Interfaces Constant Serializable MetaData CloudData CloudPolicy SyncRecords FlowControl CloudSync CloudStore CloudService.
Import Serializable MetaData CloudData GeneralError CloudService.

(** ** The extra data of a notification *)
Module ExtraData.

(* @src framework/include/cloud/cloud_extra_data.h 31-43 ExtensionInfo *)
Record ExtensionInfo := mkExt {
  accountId : string; bundleName : string; containerName : string; databaseScopes : string; scopes : list string;
  recordTypes : string; tables : list string; context : Context.Context
}.
Definition blank_ext : ExtensionInfo := mkExt "" "" "" "" [] "" [] Context.blank_m.

(* @src framework/include/cloud/cloud_extra_data.h 45-58 ExtraData *)
Record ExtraData := mkExtra { header : string; data : string; info : ExtensionInfo }.
Definition blank_m : ExtraData := mkExtra "" "" blank_ext.

Section Extra.
Context {JT : JsonText} (text_of : string -> text).

(** The bundle names of the cloud and of the device. *)
(* @src framework/cloud/cloud_config_manager.cpp 28-35 CloudConfigManager::Initialize *)
Definition Initialize (mapper : list (string * string)) (m : gmap string string * gmap string string) : gmap string string * gmap string string :=
  fold_left (fun m p => (<[p.2 := p.1]> m.1, <[p.1 := p.2]> m.2)) mapper m.

(* @src framework/cloud/cloud_config_manager.cpp 37-41 CloudConfigManager::ToLocal *)
Definition ToLocal (m : gmap string string * gmap string string) (bundleName : string) : string := default bundleName (m.1 !! bundleName).

(* @src framework/cloud/cloud_config_manager.cpp 43-47 CloudConfigManager::ToCloud *)
Definition ToCloud (m : gmap string string * gmap string string) (bundleName : string) : string := default bundleName (m.2 !! bundleName).

(** The lists and the context are texts within the text. *)
(* @src framework/cloud/cloud_extra_data.cpp 44-64 ExtensionInfo::Unmarshal *)
Definition Ext_Unmarshal (names : gmap string string * gmap string string) (node : json) (m : ExtensionInfo) : bool * ExtensionInfo :=
  let acc := Got string_c node "accountId" (accountId m) in
  let bundle := ToLocal names (Got string_c node "bundleName" (bundleName m)) in
  let container := Got string_c node "containerName" (containerName m) in
  let dbScopes := Got string_c node "databaseScopes" (databaseScopes m) in
  let '(ok, scopes) := Unmarshall (vector_c string_c) (text_of dbScopes) (scopes m) in
  if negb ok then (false, mkExt acc bundle container dbScopes scopes (recordTypes m) (tables m) (context m))
  else
    let types := Got string_c node "recordTypes" (recordTypes m) in
    let '(ok, tables) := Unmarshall (vector_c string_c) (text_of types) (tables m) in
    if negb ok then (false, mkExt acc bundle container dbScopes scopes types tables (context m))
    else
      let data := Got string_c node "context" "" in
      if bool_decide (data = "") then (true, mkExt acc bundle container dbScopes scopes types tables (context m))
      else let '(ok, ctx) := UnmarshallObject Context.Unmarshal (text_of data) (context m) in
           (ok, mkExt acc bundle container dbScopes scopes types tables ctx).

(* @src framework/cloud/cloud_extra_data.cpp 73-78 ExtraData::Unmarshal *)
Definition Unmarshal (names : gmap string string * gmap string string) (node : json) (m : ExtraData) : bool * ExtraData :=
  let h := Got string_c node "header" (header m) in
  let d := Got string_c node "data" (data m) in
  let '(ok, i) := UnmarshallObject (Ext_Unmarshal names) (text_of d) (info m) in (ok, mkExtra h d i).
End Extra.

(* @src framework/cloud/cloud_extra_data.cpp 80-83 ExtraData::isPrivate *)
Definition isPrivate (m : ExtraData) : bool := bool_decide ("private" ∈ scopes (info m)).

(* @src framework/cloud/cloud_extra_data.cpp 85-88 ExtraData::isShared *)
Definition isShared (m : ExtraData) : bool := bool_decide ("shared" ∈ scopes (info m)).

(** The names on the device and in the cloud are translated back and forth when no name occurs twice. *)
Lemma Initialize_lookup mapper m :
  NoDup mapper.*1 -> NoDup mapper.*2 -> forall l c, (l, c) ∈ mapper ->
  ToLocal (Initialize mapper m) c = l /\ ToCloud (Initialize mapper m) l = c.
Proof.
  unfold Initialize, ToLocal, ToCloud. revert m. induction mapper as [|[l0 c0] mapper IH] using rev_ind; intros m H1 H2 l c Hin; [by apply elem_of_nil in Hin|].
  rewrite fmap_app in H1, H2. cbn in H1, H2. apply NoDup_app in H1 as (H1 & Hl & _), H2 as (H2 & Hc & _).
  rewrite fold_left_app. cbn. apply elem_of_app in Hin as [Hin|Hin].
  - destruct (IH m H1 H2 l c Hin) as [E1 E2]. rewrite !lookup_insert_ne; [done| |]; intros ->.
    + apply (Hl l); [by apply (list_elem_of_fmap_2 fst) in Hin|by apply list_elem_of_singleton].
    + apply (Hc c); [by apply (list_elem_of_fmap_2 snd) in Hin|by apply list_elem_of_singleton].
  - apply list_elem_of_singleton in Hin as [= -> ->]. by rewrite !lookup_insert_eq.
Qed.
End ExtraData.

Module CloudWork.

Definition E_NOT_LOGIN : Z := 13.
Definition RETRY_TIMES : Z := 3.
Definition RETRY_INTERVAL : Z := 60.
Definition EXPIRE_INTERVAL : Z := 48 * 60 * 60 * 1000.      (* two days, in milliseconds *)

Section Work.
Context {CC : CloudCodes} {JT : JsonText}.
Context {MC : MetaStore Cloud} {MS : MetaStore Schema} {MU : MetaStore Sub} {MR : MetaStore Relation.Relation} {MM : MetaStore Mapping}
        {MT : MetaStore StoreMeta} {ML : MetaStore Local} {MK : MetaStore bool} {MG : MetaStore Strategy} {MF : MetaStore SyncConfig.Config}
        {MA : MetaStore CloudLastSyncInfo.CloudLastSyncInfo}.

(** ** Subscriptions at the server *)

(* @src service/cloud/cloud_service_impl.cpp 1928-1937 CloudServiceImpl::CleanSubscription *)
Definition CleanSubscription (sub : Sub) (s : Service) : Sub * Service :=
  let s := set_subDb (DelMeta (Subscription.GetKey (Subscription.userId sub)) true (subDb s)).2 s in
  let s := fold_left (fun s e => set_relationDb (DelMeta (Subscription.GetRelationKey (Subscription.userId sub) e.1) true (relationDb s)).2 s)
             (ordered_entries (Subscription.expiresTime sub)) s in
  (Subscription.mk (Subscription.userId sub) "" ∅, s).

(** The databases to subscribe to and those to unsubscribe from, chosen application by application. *)
Definition choose (now : Z) (cloudInfo : Cloud) (expires : gmap string Z) (schemas : meta_db Schema)
    (dbs : gmap string (list Database.Database) * gmap string (list Database.Database)) (e : string * AppInfo.AppInfo)
    : gmap string (list Database.Database) * gmap string (list Database.Database) :=
  let '(subDbs, unsubDbs) := dbs in
  let '(bundle, app) := e in
  let enabled := CloudInfo.enableCloud cloudInfo && AppInfo.cloudSwitch app in
  let it := expires !! bundle in
  if enabled && match it with Some t => now + EXPIRE_INTERVAL <=? t | None => false end then dbs
  else if negb enabled && match it with None => true | Some t => t <=? now end then dbs
  else match load (CloudInfo.GetSchemaKey bundle 0 cloudInfo) schemas with
       | None => dbs
       | Some m => if enabled then (<[bundle := SchemaMeta.databases m]> subDbs, unsubDbs) else (subDbs, <[bundle := SchemaMeta.databases m]> unsubDbs)
       end.

(* @src service/cloud/cloud_service_impl.cpp 1876-1926 CloudServiceImpl::DoSubscribe *)
Definition DoSubscribe (env : Env) (now : Z) (user : Z) (s : Service) : bool * Service :=
  let sub := default (Subscription.mk user "" ∅) (load (Subscription.GetKey user) (subDb s)) in
  match server env with
  | None => (true, s)
  | Some _ =>
      match load (CloudInfo.GetKey (CloudSync.cloud_of_user (Subscription.userId sub))) (cloudDb s) with
      | None => (false, s)
      | Some cloudInfo =>
          let '(sub, s) :=
            if negb (bool_decide (Subscription.id sub = "")) && negb (bool_decide (Subscription.id sub = CloudInfo.id cloudInfo))
            then CleanSubscription sub s else (sub, s) in
          let '(subDbs, unsubDbs) := fold_left (choose now cloudInfo (Subscription.expiresTime sub) (schemaDb s)) (ordered_entries (CloudInfo.apps cloudInfo)) (∅, ∅) in
          (bool_decide (subDbs = ∅) && bool_decide (unsubDbs = ∅),
           emit [ESubscribe (Subscription.userId sub) subDbs; EUnsubscribe (Subscription.userId sub) unsubDbs] s)
      end
  end.

(** ** The other works *)

(* @src service/cloud/cloud_service_impl.cpp 1783-1788 CloudServiceImpl::NeedCheckAutoSync *)
Definition NeedCheckAutoSync (scene : CloudSyncScene) : bool :=
  match scene with ENABLE_CLOUD | SERVICE_INIT | SCENE_SWITCH_ON | NETWORK_RECOVERY => true | _ => false end.

(* @src service/cloud/cloud_service_impl.cpp 1790-1808 CloudServiceImpl::DoCloudSync *)
Definition DoCloudSync (env : Env) (user : Z) (scene : CloudSyncScene) (s : Service) : bool * Service :=
  let '(status, cloudInfo, s) := GetCloudInfo env user s in
  if negb (status =? SUCCESS) then (false, s)
  else (true, fold_left (fun s e =>
          if NeedCheckAutoSync scene then TriggerAppDatabaseSync env user e.1 cloudInfo scene s
          else emit [EDoCloudSync user e.1 "" [] 0 ""] s) (ordered_entries (CloudInfo.apps cloudInfo)) s).

(* @src service/cloud/cloud_service_impl.cpp 1869-1874 CloudServiceImpl::StopCloudSync *)
Definition StopCloudSync (user : Z) (s : Service) : bool * Service := (true, emit [EStopCloudSync user; ECleanCompensateSync user] s).

Definition run_work (w : Work) (env : Env) (now user : Z) (scene : CloudSyncScene) (s : Service) : bool * Service :=
  match w with
  | WORK_CLOUD_INFO_UPDATE => UpdateCloudInfo env user s
  | WORK_SCHEMA_UPDATE => UpdateSchema env user s
  | WORK_SUB => DoSubscribe env now user s
  | WORK_RELEASE => ReleaseUserInfo env user s
  | WORK_DO_CLOUD_SYNC => DoCloudSync env user scene s
  | WORK_STOP_CLOUD_SYNC => StopCloudSync user s
  end.

(** ** Tasks *)

Record Task := mkTask { retry : Z; t_user : Z; t_scene : CloudSyncScene; works : list Work }.

(** The answers while a task runs: of the system, the time, and of the query for all users. *)
Record Answers := mkAnswers { a_env : Env; a_now : Z; a_users : bool * list Z }.

(** The work is done for every user who has unlocked the device; the answer is whether that went well for all of them. *)
(* @src service/cloud/cloud_service_impl.cpp 1335-1341 CloudServiceImpl::GenTask *)
Definition work_for (w : Work) (a : Answers) (scene : CloudSyncScene) (st : bool * Service) (user : Z) : bool * Service :=
  let '(finished, s) := st in
  if (user =? 0) || negb (verified (a_env a) user) then (finished, s)
  else let '(ok, s) := run_work w (a_env a) (a_now a) user scene s in (ok && finished, s).

(** What a run of a task was: nothing, a failure that is retried, or a success, each with the task that follows. *)
Inductive Outcome : Type := Dropped | Failed (next : Task) | Done (next : option Task).

Definition enqueue (o : Outcome) (s : Service) : Service :=
  match o with
  | Dropped | Done None => s
  | Failed t => emit [ESchedule RETRY_INTERVAL (retry t) (t_user t) (t_scene t) (works t)] s
  | Done (Some t) => emit [EExecute (retry t) (t_user t) (t_scene t) (works t)] s
  end.

(* @src service/cloud/cloud_service_impl.cpp 1316-1352 CloudServiceImpl::GenTask *)
Definition GenTask (a : Answers) (t : Task) (s : Service) : Outcome * Service :=
  match works t with
  | [] => (Dropped, s)
  | handle :: rest =>
      if (RETRY_TIMES <=? retry t) || negb (executor_ s) then (Dropped, s)
      else if negb (network (a_env a)) then (Dropped, s)
      else
        let '(finished, users) := if t_user t =? 0 then a_users a else (true, [t_user t]) in
        let '(finished, s) := fold_left (work_for handle a (t_scene t)) users (finished, s) in
        let o := if negb finished || bool_decide (users = []) then Failed (mkTask (retry t + 1) (t_user t) (t_scene t) (works t))
                 else Done (match rest with [] => None | _ => Some (mkTask (retry t) (t_user t) (t_scene t) rest) end) in
        (o, enqueue o s)
  end.

(** ** Notifications of the server *)

(* @src service/cloud/cloud_service_impl.cpp 450-472 CloudServiceImpl::CheckNotifyConditions *)
Definition CheckNotifyConditions (id bundleName : string) (cloudInfo : Cloud) : Z :=
  if negb (bool_decide (CloudInfo.id cloudInfo = id)) then INVALID_ARGUMENT
  else if negb (CloudInfo.enableCloud cloudInfo) then CLOUD_DISABLE
  else if negb (CloudInfo.Exist bundleName 0 cloudInfo) then INVALID_ARGUMENT
  else if negb (AppInfo.cloudSwitch (default AppInfo.blank_m (CloudInfo.apps cloudInfo !! bundleName))) then CLOUD_DISABLE_SWITCH
  else SUCCESS.

(** The tables of a database that the notification is about. *)
Definition changed_tables (extraData : ExtraData.ExtraData) (db : Database.Database) : list string :=
  table ← Database.tables db;
  if negb (bool_decide (Table.alias table ∈ ExtraData.tables (ExtraData.info extraData))) then []
  else (if ExtraData.isPrivate extraData then [Table.name table] else [])
       ++ (if ExtraData.isShared extraData && negb (bool_decide (Table.sharedTableName table = "")) then [Table.sharedTableName table] else []).

(** [emplace] keeps the entry of a name that is there already. *)
Definition emplace (k : string) (v : list string) (m : gmap string (list string)) : gmap string (list string) :=
  match m !! k with Some _ => m | None => <[k := v]> m end.

(* @src service/cloud/cloud_service_impl.cpp 474-515 CloudServiceImpl::GetDbInfoFromExtraData *)
Definition GetDbInfoFromExtraData (extraData : ExtraData.ExtraData) (schemaMeta : Schema) : gmap string (list string) :=
  let named (db : Database.Database) := bool_decide (Database.alias db = ExtraData.containerName (ExtraData.info extraData)) in
  let dbInfos := fold_left (fun m db =>
      if negb (named db) then m
      else match ExtraData.tables (ExtraData.info extraData) with
           | [] => emplace (Database.name db) [] m
           | _ => match changed_tables extraData db with [] => m | tables => emplace (Database.name db) tables m end
           end) (SchemaMeta.databases schemaMeta) ∅ in
  if bool_decide (dbInfos = ∅)
  then fold_left (fun m db => if named db then emplace (Database.name db) [] m else m) (SchemaMeta.databases schemaMeta) dbInfos
  else dbInfos.

(* @src service/cloud/cloud_service_impl.cpp 651-697 CloudServiceImpl::ProcessUserNotifyDataChange *)
Definition ProcessUserNotifyDataChange (env : Env) (user : Z) (exData : ExtraData.ExtraData) (s : Service) : Z * Service :=
  let bundleName := ExtraData.bundleName (ExtraData.info exData) in
  let '(_, cloudInfo) := GetCloudInfoFromMeta user s in
  if negb (CheckNotifyConditions (ExtraData.accountId (ExtraData.info exData)) bundleName cloudInfo =? E_OK) then (INVALID_ARGUMENT, s)
  else match load (CloudInfo.GetSchemaKey bundleName 0 (CloudSync.cloud_of_user user)) (schemaDb s) with
       | None => (INVALID_ARGUMENT, s)
       | Some schemaMeta =>
           let dbInfos := GetDbInfoFromExtraData exData schemaMeta in
           if bool_decide (dbInfos = ∅) then (INVALID_ARGUMENT, s)
           else match CloudInfo.apps cloudInfo !! bundleName with
                | None => (INVALID_ARGUMENT, s)
                | Some app =>
                    (SUCCESS, fold_left (fun s e =>
                        ProcessDatabaseSync env (mkContext (CloudInfo.user cloudInfo) bundleName (AppInfo.instanceId app) e.1 e.2 (scene_code PUSH)
                          (Context.prepareTraceId (ExtraData.context (ExtraData.info exData)))) s) (ordered_entries dbInfos) s)
                end
       end.

(** The old form of a notification names the account and the application only. *)
(* @src service/cloud/cloud_service_impl.cpp 699-709 CloudServiceImpl::NotifyDataChange *)
Definition NotifyDataChangeOfBundle (user : Z) (id bundleName : string) (s : Service) : Z * Service :=
  let '(_, cloudInfo) := GetCloudInfoFromMeta user s in
  if negb (CheckNotifyConditions id bundleName cloudInfo =? E_OK) then (INVALID_ARGUMENT, s)
  else (SUCCESS, emit [EDoCloudSync (CloudInfo.user cloudInfo) bundleName "" [] 0 ""] s).

Fixpoint notify_users (env : Env) (exData : ExtraData.ExtraData) (users : list Z) (s : Service) : Z * Service :=
  match users with
  | [] => (SUCCESS, s)
  | user :: users =>
      if user =? DEFAULT_USER then notify_users env exData users s
      else let '(ret, s) := ProcessUserNotifyDataChange env user exData s in
           if negb (ret =? E_OK) then (ret, s) else notify_users env exData users s
  end.

(** [parsed] is the extra data when it is not empty and could be read. *)
(* @src service/cloud/cloud_service_impl.cpp 711-736 CloudServiceImpl::NotifyDataChange *)
Definition NotifyDataChange (env : Env) (names : gmap string string * gmap string string) (text_of : string -> text) (foreground : list Z)
    (DATA_CHANGE_EVENT_ID eventId extraData : string) (userId : Z) (s : Service) : Z * Service :=
  let '(ok, exData) := UnmarshallObject (ExtraData.Unmarshal text_of names) (text_of extraData) ExtraData.blank_m in
  if negb (bool_decide (eventId = DATA_CHANGE_EVENT_ID)) || bool_decide (extraData = "") || negb ok then (INVALID_ARGUMENT, s)
  else notify_users env exData (if negb (userId =? INVALID_USER_ID) then [userId] else foreground) s.

(** [stores] are the applications and stores of the checkers, dynamic before static. *)
(* @src service/cloud/cloud_service_impl.cpp 517-542 CloudServiceImpl::DoKvCloudSync *)
Definition DoKvCloudSync (stores : list (string * string)) (foreground : list Z) (userId : Z) (bundleName : string) (triggerMode : Z) (s : Service) : bool * Service :=
  if negb (existsb (fun st => bool_decide (bundleName = "") || bool_decide (st.1 = bundleName)) stores) then (false, s)
  else
    let users := if negb (userId =? INVALID_USER_ID) then [userId] else foreground in
    (true, fold_left (fun s user => fold_left (fun s st =>
        let mode := if negb (bool_decide (st.1 = bundleName)) && (triggerMode =? MODE_PUSH) then MODE_CONSISTENCY else triggerMode in
        emit [EDoCloudSync user st.1 st.2 [] mode ""] s) stores s) users s).

(** ** Changes of users and of the network *)

(* @src framework/include/account/account_delegate.h 28-37 AccountStatus *)
Inductive AccountStatus : Type :=
| HARMONY_ACCOUNT_LOGIN | HARMONY_ACCOUNT_LOGOUT | HARMONY_ACCOUNT_DELETE | DEVICE_ACCOUNT_DELETE | DEVICE_ACCOUNT_SWITCHED
| DEVICE_ACCOUNT_UNLOCKED | DEVICE_ACCOUNT_STOPPING | DEVICE_ACCOUNT_STOPPED.

Definition UPDATE_ALL : list Work := [WORK_CLOUD_INFO_UPDATE; WORK_SCHEMA_UPDATE; WORK_DO_CLOUD_SYNC; WORK_SUB].

(* @src service/cloud/cloud_service_impl.cpp 1044-1068 CloudServiceImpl::OnUserChange *)
Definition OnUserChange (code : AccountStatus) (userId : Z) (s : Service) : Z * Service :=
  (E_OK, match code with
         | DEVICE_ACCOUNT_SWITCHED => Execute (EExecute 0 userId USER_CHANGE UPDATE_ALL) s
         | DEVICE_ACCOUNT_DELETE | DEVICE_ACCOUNT_STOPPING | DEVICE_ACCOUNT_STOPPED => Execute (EExecute 0 userId ACCOUNT_STOP [WORK_STOP_CLOUD_SYNC; WORK_RELEASE]) s
         | DEVICE_ACCOUNT_UNLOCKED => Execute (EExecute 0 userId USER_UNLOCK UPDATE_ALL) s
         | HARMONY_ACCOUNT_LOGIN | HARMONY_ACCOUNT_LOGOUT | HARMONY_ACCOUNT_DELETE => s
         end).

(** The status and the users for whom the synchronisation manager is to recover ([OnNetworkConnected]). *)
(* @src service/cloud/cloud_service_impl.cpp 1070-1096 CloudServiceImpl::OnReady *)
Definition OnReady (CLOUD_DEVICE_UUID device : string) (login networkAvailable : bool) (foreground : list Z) (s : Service) : Z * list Z * Service :=
  if negb (bool_decide (device = CLOUD_DEVICE_UUID)) then (SUCCESS, [], s)
  else if negb login then (E_NOT_LOGIN, [], s)
  else if bool_decide (foreground = []) then (SUCCESS, [], s)
  else if negb networkAvailable then (NETWORK_ERROR, [], s)
  else (SUCCESS, foreground,
        fold_left (fun s user => Execute (EExecute 0 user NETWORK_RECOVERY [WORK_CLOUD_INFO_UPDATE; WORK_SCHEMA_UPDATE; WORK_SUB]) s) foreground s).

(** The answer is whether the synchronisation manager is told of the loss ([OnNetworkDisconnected]). *)
(* @src service/cloud/cloud_service_impl.cpp 1098-1113 CloudServiceImpl::Offline *)
Definition Offline (CLOUD_DEVICE_UUID device : string) (users : list Z) (s : Service) : Z * bool * Service :=
  if negb (bool_decide (device = CLOUD_DEVICE_UUID)) then (SUCCESS, false, s)
  else match users with [] => (SUCCESS, false, s) | u :: _ => (SUCCESS, true, emit [EStopCloudSync u] s) end.

(** ** Requests of clients *)

(* @src service/cloud/cloud_service_impl.cpp 1751-1781 CloudServiceImpl::ParseStoreIdsIfNeed *)
Definition ParseStoreIdsIfNeed (env : Env) (user : Z) (bundleName storeId : string) (s : Service) : Z * list string * Service :=
  if negb (bool_decide (storeId = "")) then (SUCCESS, [storeId], s)
  else
    let '(status, cloudInfo, s) := GetCloudInfo env user s in
    if negb (status =? SUCCESS) then (status, [], s)
    else match CloudInfo.apps cloudInfo !! bundleName with
         | None => (INVALID_ARGUMENT, [], s)
         | Some app =>
             let '(schemaStatus, schemaMeta, s) := GetSchemaMeta env user bundleName (AppInfo.instanceId app) s in
             if negb (schemaStatus =? SUCCESS) then (schemaStatus, [], s)
             else match SchemaMeta.databases schemaMeta with
                  | [] => (INVALID_ARGUMENT, [], s)
                  | dbs => (SUCCESS, Database.name <$> dbs, s)
                  end
         end.

(** The status and the stores for which a change event is posted. [syncMode] is to be in the range of the cloud modes. *)
(* @src service/cloud/cloud_service_impl.cpp 1714-1746 CloudServiceImpl::CloudSync *)
Definition CloudSyncRequest (CLOUD_BEGIN CLOUD_END : Z) (env : Env) (user : Z) (bundleName storeId : string) (syncMode : Z) (s : Service) : Z * list string * Service :=
  if (syncMode <? CLOUD_BEGIN) || (CLOUD_END <=? syncMode) then (INVALID_ARGUMENT, [], s)
  else let '(ret, storeNames, s) := ParseStoreIdsIfNeed env user bundleName storeId s in
       if negb (ret =? SUCCESS) then (ret, [], s) else (SUCCESS, storeNames, s).

(** The stores whose synchronisation is stopped, as application and store. *)
(* @src service/cloud/cloud_service_impl.cpp 1810-1834 CloudServiceImpl::StopCloudSyncTask *)
Definition StopCloudSyncTask (user : Z) (bundleInfos : list (string * string)) (s : Service) : list (string * string) :=
  '(bundleName, storeId) ← bundleInfos;
  if bool_decide (bundleName = "") then []
  else if negb (bool_decide (storeId = "")) then [(bundleName, storeId)]
  else match load (CloudInfo.GetSchemaKey bundleName 0 (CloudSync.cloud_of_user user)) (schemaDb s) with
       | Some m => (fun d => (bundleName, Database.name d)) <$> SchemaMeta.databases m
       | None => []
       end.

(** ** The network strategy *)

(** A value of a strategy: only integers count. *)
(* @src service/cloud/cloud_service_impl.cpp 2358-2380 CloudServiceImpl::SaveNetworkStrategy *)
Definition SaveNetworkStrategy (values : list (option Z)) (user : Z) (bundle : string) (s : Service) : Z * Service :=
  let key := NetworkSyncStrategy.GetKey user bundle in
  match values with
  | [] => let '(ok, d) := DelMeta key true (strategyDb s) in (if ok then SUCCESS else ERROR, set_strategyDb d s)
  | _ =>
      let info := NetworkSyncStrategy.mkInfo user bundle (fold_left (fun st v => match v with Some z => Z.lor st (u32 z) | None => st end) values 0) in
      let save := let '(ok, d) := SaveMeta key info true (strategyDb s) in (if (ok : bool) then SUCCESS else ERROR, set_strategyDb d s) in
      match load key (strategyDb s) with
      | Some old => if (NetworkSyncStrategy.user old =? user) && bool_decide (NetworkSyncStrategy.bundleName old = bundle)
                       && (NetworkSyncStrategy.strategy old =? NetworkSyncStrategy.strategy info) then (SUCCESS, s) else save
      | None => save
      end
  end.

(** [hap] are the user and the application of the caller. *)
(* @src service/cloud/cloud_service_impl.cpp 2342-2356 CloudServiceImpl::SetCloudStrategy *)
Definition SetCloudStrategy (STRATEGY_BUTT strategy : Z) (values : list (option Z)) (hap : Z * string) (s : Service) : Z * Service :=
  if STRATEGY_BUTT <=? strategy then (INVALID_ARGUMENT, s)
  else if bool_decide (hap.2 = "") || (hap.1 =? INVALID_USER_ID) || (hap.1 =? 0) then (ERROR, s)
  else SaveNetworkStrategy values hap.1 hap.2 s.

(* @src service/cloud/cloud_service_impl.cpp 858-874 CloudServiceImpl::SetGlobalCloudStrategy *)
Definition SetGlobalCloudStrategy (STRATEGY_BUTT strategy : Z) (values : list (option Z)) (user : Z) (s : Service) : Z * Service :=
  if STRATEGY_BUTT <=? strategy then (INVALID_ARGUMENT, s)
  else if (user =? INVALID_USER_ID) || (user =? 0) then (ERROR, s)
  else SaveNetworkStrategy values user NetworkSyncStrategy.GLOBAL_BUNDLE s.


(** ** The course of a list of works *)

Inductive Ending : Type := Finished | GaveUp.

(** The runs of a task and of those that follow it: each with its work and whether it went well. *)
Fixpoint chain (fuel : nat) (answers : nat -> Answers) (t : Task) (s : Service) : option (list (Work * bool) * Ending * Service) :=
  match fuel with
  | O => None
  | S fuel =>
      let w := default WORK_SUB (head (works t)) in
      let follow ok t s := '(log, e, s) ← chain fuel (fun n => answers (S n)) t s; Some ((w, ok) :: log, e, s) in
      match GenTask (answers O) t s with
      | (Dropped, s) => Some ([], GaveUp, s)
      | (Failed t, s) => follow false t s
      | (Done None, s) => Some ([(w, true)], Finished, s)
      | (Done (Some t), s) => follow true t s
      end
  end.

Definition successes (log : list (Work * bool)) : nat := length (filter (fun e => e.2 = true) log).
Definition failures (log : list (Work * bool)) : nat := length (filter (fun e => e.2 = false) log).

Lemma successes_cons w ok log : successes ((w, ok) :: log) = ((if ok then 1 else 0) + successes log)%nat.
Proof. unfold successes. destruct ok; [by rewrite filter_cons_True|by rewrite filter_cons_False]. Qed.
Lemma failures_cons w ok log : failures ((w, ok) :: log) = ((if ok then 0 else 1) + failures log)%nat.
Proof. unfold failures. destruct ok; [by rewrite filter_cons_False|by rewrite filter_cons_True]. Qed.

(** The course of the works [ws] after [r] failures. *)
Definition course (answers : nat -> Answers) (r : Z) (ws : list Work) (log : list (Work * bool)) (e : Ending) (s : Service) : Prop :=
  (forall i w ok, log !! i = Some (w, ok) -> ws !! successes (take i log) = Some w) /\
  r + Z.of_nat (failures log) <= RETRY_TIMES /\
  match e with
  | Finished => successes log = length ws
  | GaveUp => (successes log < length ws)%nat /\
      (r + Z.of_nat (failures log) = RETRY_TIMES \/ network (a_env (answers (length log))) = false \/ executor_ s = false)
  end.

(** The possible outcomes of a run. *)
Lemma GenTask_outcome a t s w rest : works t = w :: rest ->
  match GenTask a t s with
  | (Dropped, s') => s' = s /\ (RETRY_TIMES <= retry t \/ network (a_env a) = false \/ executor_ s = false)
  | (Failed t', s') => retry t < RETRY_TIMES /\ t' = mkTask (retry t + 1) (t_user t) (t_scene t) (works t)
  | (Done None, s') => retry t < RETRY_TIMES /\ rest = []
  | (Done (Some t'), s') => retry t < RETRY_TIMES /\ rest <> [] /\ t' = mkTask (retry t) (t_user t) (t_scene t) rest
  end.
Proof.
  intros Hw. unfold GenTask. rewrite Hw. destruct (Z.leb_spec RETRY_TIMES (retry t)); cbn [orb]; [by auto|].
  destruct (executor_ s) eqn:Ee; cbn [negb]; [|by auto]. destruct (network (a_env a)) eqn:En; cbn [negb]; [|by auto].
  destruct (if t_user t =? 0 then _ else _) as [f us]. destruct (fold_left _ us _) as [f' s'].
  destruct (_ || _); [done|]. by destruct rest.
Qed.

Lemma course_failed answers t w rest log e s :
  works t = w :: rest -> retry t < RETRY_TIMES ->
  course (fun n => answers (S n)) (retry t + 1) (works t) log e s -> course answers (retry t) (works t) ((w, false) :: log) e s.
Proof.
  intros Hw Hr (H1 & H2 & H3). unfold course. rewrite successes_cons, failures_cons. split_and!; [|lia|].
  - intros [|i] w' ok Hi; cbn in Hi; [injection Hi as <- <-; by rewrite Hw|]. cbn [take]. rewrite successes_cons. by eapply H1.
  - destruct e; [done|]. destruct H3 as [? [?|[?|?]]]; (split; [done|]); [left; lia|auto..].
Qed.

Lemma course_done answers t w rest log e s :
  works t = w :: rest ->
  course (fun n => answers (S n)) (retry t) rest log e s -> course answers (retry t) (works t) ((w, true) :: log) e s.
Proof.
  intros Hw (H1 & H2 & H3). unfold course. rewrite successes_cons, failures_cons, Hw. split_and!; [|lia|].
  - intros [|i] w' ok Hi; cbn in Hi; [by injection Hi as <- <-|]. cbn [take]. rewrite successes_cons. cbn. by eapply H1.
  - cbn [length]. destruct e; [lia|]. destruct H3 as [? H3]. split; [lia|exact H3].
Qed.



(** ** What is subscribed *)

(** A loop that puts an entry into a map for some of the entries of another. *)
Lemma fold_imap {A B} (f : string -> A -> option B) (m : gmap string A) :
  fold_left (fun acc e => match f e.1 e.2 with Some v => <[e.1 := v]> acc | None => acc end) (ordered_entries m) ∅ = map_imap f m.
Proof.
  assert (forall l (acc : gmap string B), (forall e, e ∈ l -> m !! e.1 = Some e.2) -> forall b,
    fold_left (fun acc e => match f e.1 e.2 with Some v => <[e.1 := v]> acc | None => acc end) l acc !! b =
    match (if bool_decide (b ∈ l.*1) then m !! b ≫= f b else None) with Some v => Some v | None => acc !! b end) as Hl.
  { induction l as [|[k a] l IH]; intros acc Hm b; [done|]. cbn [fold_left fmap list_fmap fst snd].
    rewrite IH by (intros e He; apply Hm; by apply list_elem_of_further). pose proof (Hm (k, a) (list_elem_of_here _ _)) as Hk. cbn [fst snd] in Hk.
    destruct (decide (b = k)) as [->|Hne].
    - rewrite (bool_decide_true (k ∈ k :: l.*1)) by apply list_elem_of_here. rewrite Hk. cbn [mbind option_bind].
      destruct (f k a) as [v|]; [rewrite lookup_insert_eq|]; by case_bool_decide.
    - rewrite (bool_decide_ext (b ∈ k :: l.*1) (b ∈ l.*1)) by (rewrite elem_of_cons; tauto). destruct (f k a); [rewrite lookup_insert_ne by done|]; done. }
  apply map_eq. intros b. rewrite map_lookup_imap, Hl by (intros e He; by apply ordered_entries_elem).
  case_bool_decide as Hb; [by destruct (m !! b ≫= f b)|]. destruct (m !! b) as [a|] eqn:Ea; [|done].
  destruct Hb. apply (list_elem_of_fmap_2' fst _ (b, a)); [by apply ordered_entries_elem|done].
Qed.

(** The databases of an application that are to be subscribed to: the cloud is switched on for it and its subscription
    is missing or ends within two days. *)
Definition to_subscribe (now : Z) (c : Cloud) (expires : gmap string Z) (schemas : meta_db Schema) (bundle : string) (app : AppInfo.AppInfo) : option (list Database.Database) :=
  if CloudInfo.enableCloud c && AppInfo.cloudSwitch app && match expires !! bundle with Some t => t <? now + EXPIRE_INTERVAL | None => true end
  then SchemaMeta.databases <$> load (CloudInfo.GetSchemaKey bundle 0 c) schemas else None.

(** Those to be unsubscribed from: the cloud is switched off for it and its subscription has not ended. *)
Definition to_unsubscribe (now : Z) (c : Cloud) (expires : gmap string Z) (schemas : meta_db Schema) (bundle : string) (app : AppInfo.AppInfo) : option (list Database.Database) :=
  if negb (CloudInfo.enableCloud c && AppInfo.cloudSwitch app) && match expires !! bundle with Some t => now <? t | None => false end
  then SchemaMeta.databases <$> load (CloudInfo.GetSchemaKey bundle 0 c) schemas else None.

Lemma choose_step now c expires schemas a b e :
  choose now c expires schemas (a, b) e =
    (match to_subscribe now c expires schemas e.1 e.2 with Some v => <[e.1 := v]> a | None => a end,
     match to_unsubscribe now c expires schemas e.1 e.2 with Some v => <[e.1 := v]> b | None => b end).
Proof.
  destruct e as [bundle app]. unfold choose, to_subscribe, to_unsubscribe. cbn [fst snd]. destruct (_ && AppInfo.cloudSwitch app); cbn [andb negb].
  - destruct (expires !! bundle) as [t|]; [rewrite Z.leb_antisym; destruct (t <? now + EXPIRE_INTERVAL); cbn [negb]; [|done]|]; by destruct (load _ schemas).
  - destruct (expires !! bundle) as [t|]; [|done]. rewrite Z.leb_antisym. destruct (now <? t); cbn [negb]; [|done]. by destruct (load _ schemas).
Qed.

Lemma choose_all now c expires schemas :
  fold_left (choose now c expires schemas) (ordered_entries (CloudInfo.apps c)) (∅, ∅) =
    (map_imap (to_subscribe now c expires schemas) (CloudInfo.apps c), map_imap (to_unsubscribe now c expires schemas) (CloudInfo.apps c)).
Proof.
  rewrite <- !fold_imap.
  enough (forall l x y, fold_left (choose now c expires schemas) l (x, y) =
    (fold_left (fun acc e => match to_subscribe now c expires schemas e.1 e.2 with Some v => <[e.1 := v]> acc | None => acc end) l x,
     fold_left (fun acc e => match to_unsubscribe now c expires schemas e.1 e.2 with Some v => <[e.1 := v]> acc | None => acc end) l y)) as Hl by apply Hl.
  induction l as [|e l IH]; intros x y; [done|]. cbn [fold_left]. by rewrite choose_step, IH.
Qed.

Lemma CleanSubscription_schemas sub s : schemaDb (CleanSubscription sub s).2 = schemaDb s.
Proof.
  unfold CleanSubscription. cbn [snd]. generalize (ordered_entries (Subscription.expiresTime sub)) as l. intros l.
  enough (forall s, schemaDb (fold_left (fun s (e : string * Z) => set_relationDb (DelMeta (Subscription.GetRelationKey (Subscription.userId sub) e.1) true (relationDb s)).2 s) l s) = schemaDb s)
    as Hl by (by rewrite Hl). induction l as [|e l IH]; intros s'; [done|]. cbn [fold_left]. by rewrite IH.
Qed.

(** C22: The service subscribes at the server for exactly the applications of the account that are
    switched on and whose subscription is missing or ends within two days, and unsubscribes exactly those that are switched off and whose
    subscription has not ended, each with the databases of its schema; the subscriptions of another
    account count as missing. The work is done when there is nothing to subscribe or unsubscribe. *)
Theorem subscribe_exact env now user s srv c :
  let sub := default (Subscription.mk user "" ∅) (load (Subscription.GetKey user) (subDb s)) in
  let expires := if bool_decide (Subscription.id sub = "" \/ Subscription.id sub = CloudInfo.id c) then Subscription.expiresTime sub else ∅ in
  let subs := map_imap (to_subscribe now c expires (schemaDb s)) (CloudInfo.apps c) in
  let unsubs := map_imap (to_unsubscribe now c expires (schemaDb s)) (CloudInfo.apps c) in
  server env = Some srv ->
  load (CloudInfo.GetKey (CloudSync.cloud_of_user (Subscription.userId sub))) (cloudDb s) = Some c ->
  (DoSubscribe env now user s).1 = bool_decide (subs = ∅ /\ unsubs = ∅) /\
  exists es, trace (DoSubscribe env now user s).2 = es ++ [ESubscribe (Subscription.userId sub) subs; EUnsubscribe (Subscription.userId sub) unsubs].
Proof.
  intros sub expires subs unsubs Hs Hc. unfold DoSubscribe. rewrite Hs. fold sub. rewrite Hc.
  set (r := if negb _ && negb _ then CleanSubscription sub s else (sub, s)).
  assert (Subscription.expiresTime r.1 = expires /\ schemaDb r.2 = schemaDb s /\ Subscription.userId r.1 = Subscription.userId sub) as (E1 & E2 & E3).
  { unfold r, expires. destruct (bool_decide_reflect (Subscription.id sub = "")) as [Hi|Hi]; cbn [negb andb]; [by rewrite bool_decide_true by auto|].
    destruct (bool_decide_reflect (Subscription.id sub = CloudInfo.id c)) as [Hj|Hj]; cbn [negb]; [by rewrite bool_decide_true by auto|].
    rewrite bool_decide_false by tauto. split_and!; [done|apply CleanSubscription_schemas|done]. }
  destruct r as [sub' s']. cbn [fst snd] in E1, E2, E3. rewrite E1, E2, choose_all, E3. fold subs unsubs. cbn [fst snd]. split.
  - by rewrite <- bool_decide_and.
  - by eexists.
Qed.


End Work.
(** ** Samples *)

#[local] Existing Instance SampleCodes.
#[local] Existing Instance MapMetaStore.
#[local] Existing Instance TreeText.

(** The server fails in the first run; later all is well. *)
Definition unstable : Env := mkEnv _ true (Some (mkServer (fun _ => (E_ERROR, new_account)) (fun _ _ => (E_ERROR, notes_schema)) (fun _ => false)))
  (fun _ => true) "dev" (fun _ => []) (fun _ => true).
Definition course_of_answers (n : nat) : Answers := mkAnswers (match n with O => unstable | _ => serving end) 0 (true, [100]).
Definition switch_task : Task := mkTask 0 100 SCENE_SWITCH_ON [WORK_CLOUD_INFO_UPDATE; WORK_SCHEMA_UPDATE].


Definition DAY : Z := 24 * 60 * 60 * 1000.

(** A subscription that lasts, one that is about to end, one of an application that is switched off, and an application without one. *)
Definition four_apps : Cloud := account "alice"
  {["com.lasts" := AppInfo.mk "com.lasts" "1" 1 0 true; "com.ends" := AppInfo.mk "com.ends" "1" 1 0 true;
    "com.off" := AppInfo.mk "com.off" "1" 1 0 false; "com.new" := AppInfo.mk "com.new" "1" 1 0 true]}.
Definition subscribed : Service :=
  mkService {[(true, CloudInfo.GetKey four_apps) := four_apps]}
    (list_to_map ((fun b => ((true, CloudInfo.GetSchemaKey b 0 four_apps), SchemaMeta.mk 65537 1 b [] false)) <$> ["com.lasts"; "com.ends"; "com.off"; "com.new"]))
    {[(true, Subscription.GetKey 100) := Subscription.mk 100 "alice" {["com.lasts" := 100 * DAY; "com.ends" := 11 * DAY; "com.off" := 100 * DAY]}]}
    ∅ ∅ ∅ ∅ ∅ ∅ ∅ ∅ true [].

Lemma subscribe_exact_witness :
  (DoSubscribe serving (10 * DAY) 100 subscribed).1 = false /\
  exists es, trace (DoSubscribe serving (10 * DAY) 100 subscribed).2 =
    es ++ [ESubscribe 100 {["com.ends" := []; "com.new" := []]}; EUnsubscribe 100 {["com.off" := []]}].
Proof.
  destruct (subscribe_exact serving (10 * DAY) 100 subscribed (default (mkServer (fun _ => (0, four_apps)) (fun _ _ => (0, notes_schema)) (fun _ => false)) (server serving)) four_apps)
    as [E1 [es E2]]; [by vm_compute|by vm_compute|].
  split; [rewrite E1; by vm_compute|]. exists es. rewrite E2. by f_equal.
Defined.
End CloudWork.
