(* ===== verification/CloudNotify.v ===== *)
(** * Notifications of the clients of the cloud service ([service/cloud/cloud_service_impl.cpp])

    Clients subscribe to the results of synchronisations. A result is put among the pending
    notifications of the subscribed tokens, and a timer of the thread pool sends them in one batch. Clients
    that do not synchronise automatically are told when a synchronisation would be due.

    The sections under a lock are functions, [step] interleaves them with the timers of
    [ExecutorPool] and the clock. The maps of the clients are [ConcurrentMap]s; a client is known by
    its token, its processes by their numbers, a notifier by a number. *)

From stdpp Require Import sorting.
From S2P Require Import Prelude CppString Interfaces Constant CloudData FlowControl CloudService.

Module CloudNotify.

Definition NOTIFY_DELAY : Z := 5000.
Definition TIME_BEFORE_SUB : Z := 12 * 60 * 60 * 1000.
Definition INVALID_SUB_TIME : Z := 0.

(** The entries of a map with numeric keys in their order. *)
Definition key_le {A} (a b : Z * A) : Prop := a.1 <= b.1.
#[local] Instance key_le_dec {A} (a b : Z * A) : Decision (key_le a b).
Proof. unfold key_le. apply _. Defined.
Definition by_key {A} (m : gmap Z A) : list (Z * A) := merge_sort key_le (map_to_list m).

Lemma by_key_elem {A} (m : gmap Z A) k v : (k, v) ∈ by_key m <-> m !! k = Some v.
Proof. unfold by_key. rewrite <- elem_of_map_to_list. by rewrite (merge_sort_Permutation key_le). Qed.

Inductive CloudSubscribeType : Type := SYNC_INFO_CHANGED | OTHER_TYPE (n : Z).
#[export] Instance CloudSubscribeType_eq_dec : EqDecision CloudSubscribeType.
Proof. solve_decision. Defined.
#[export] Program Instance CloudSubscribeType_countable : Countable CloudSubscribeType :=
  inj_countable' (fun t => match t with SYNC_INFO_CHANGED => None | OTHER_TYPE n => Some n end) (fun o => match o with None => SYNC_INFO_CHANGED | Some n => OTHER_TYPE n end) _.
Next Obligation. by intros []. Qed.

Record CloudSyncInfo := mkInfo { startTime : Z; finishTime : Z; code : Z; syncStatus : Z }.

(** Results by application and store. *)
Abbreviation Batch := (gmap string (gmap string CloudSyncInfo)).

Section Notify.
Context {CC : CloudCodes} {EP : ExecutorPool} {CA : ConcurrentMap Z (gmap Z (option Z))} {CO : ConcurrentMap string Z}.

(** What the clients receive: the results of synchronisations, the completion of a request, and the occasion for a synchronisation. *)
Inductive Message : Type :=
| OnSyncInfoNotify (tokenId pid notifier : Z) (data : Batch)
| OnComplete (notifier seqNum : Z)
| OnCloudSyncTrigger (tokenId pid notifier mode : Z).

(* @src service/cloud/cloud_service_impl.h 261-271 syncAgents_ *)
Record State := mkState {
  syncAgents_ : cmap Z (gmap Z (option Z));
  cloudSyncTriggerObservers_ : cmap string Z;
  subscribes_ : gmap CloudSubscribeType (gmap string (list Z));
  pendingNotifies_ : gmap Z Batch;
  notifyTaskId_ : Z;
  executor_ : pool;
  sent : list Message
}.

Definition set_agents a s := mkState a (cloudSyncTriggerObservers_ s) (subscribes_ s) (pendingNotifies_ s) (notifyTaskId_ s) (executor_ s) (sent s).
Definition set_observers o s := mkState (syncAgents_ s) o (subscribes_ s) (pendingNotifies_ s) (notifyTaskId_ s) (executor_ s) (sent s).
Definition set_subscribes m s := mkState (syncAgents_ s) (cloudSyncTriggerObservers_ s) m (pendingNotifies_ s) (notifyTaskId_ s) (executor_ s) (sent s).
Definition set_pending p i e s := mkState (syncAgents_ s) (cloudSyncTriggerObservers_ s) (subscribes_ s) p i e (sent s).
Definition send ms s := mkState (syncAgents_ s) (cloudSyncTriggerObservers_ s) (subscribes_ s) (pendingNotifies_ s) (notifyTaskId_ s) (executor_ s) (sent s ++ ms).

(** ** Processes of the clients *)

(* @src service/cloud/cloud_service_impl.cpp 1654-1674 CloudServiceImpl::InitNotifier *)
Definition InitNotifier (tokenId pid : Z) (notifier : option Z) (s : State) : Z * State :=
  match notifier with
  | None => (INVALID_ARGUMENT, s)
  | Some n => (SUCCESS, set_agents (cm_compute ∅ tokenId (fun agents => (true, <[pid := Some n]> agents, tt)) (syncAgents_ s)).1 s)
  end.

(* @src service/cloud/cloud_service_impl.cpp 1643-1652 CloudServiceImpl::OnFeatureExit *)
Definition OnFeatureExit (tokenId pid : Z) (s : State) : Z * State :=
  (SUCCESS, set_agents (cm_compute_if_present tt tokenId (fun agents => let agents := delete pid agents in (negb (bool_decide (agents = ∅)), agents, tt)) (syncAgents_ s)).1 s).

(* @src service/cloud/cloud_service_impl.cpp 2570-2583 CloudServiceImpl::CollectNotifiersByTokenId *)
Definition CollectNotifiersByTokenId (tokenId : Z) (s : State) : list (Z * Z) * State :=
  let '(m, ns) := cm_compute_if_present [] tokenId
      (fun agents => (true, agents, omap (fun e => (fun n => (e.1, n)) <$> e.2) (by_key agents))) (syncAgents_ s) in
  (ns, set_agents m s).

(* @src service/cloud/cloud_service_impl.cpp 1692-1706 CloudServiceImpl::OnAsyncComplete *)
Definition OnAsyncComplete (tokenId pid seqNum : Z) (s : State) : State :=
  let '(m, notifier) := cm_compute_if_present None tokenId (fun agents => (true, agents, agents !! pid ≫= id)) (syncAgents_ s) in
  match notifier with Some n => send [OnComplete n seqNum] (set_agents m s) | None => set_agents m s end.

(** ** Occasions for synchronisations *)

(** [bundle] is the application of the caller's token, when it is one. *)
(* @src service/cloud/cloud_service_impl.cpp 2388-2400 CloudServiceImpl::GetTriggerKey *)
Definition GetTriggerKey (bundle : option string) (user : Z) : option string := (fun b => b +:+ to_string user) <$> bundle.

(* @src service/cloud/cloud_service_impl.cpp 2402-2414 CloudServiceImpl::SubscribeCloudSyncTrigger *)
Definition SubscribeCloudSyncTrigger (bundle : option string) (user tokenId : Z) (s : State) : bool * State :=
  match GetTriggerKey bundle user with
  | None => (false, s)
  | Some key => (true, set_observers (InsertOrAssign key tokenId (cloudSyncTriggerObservers_ s)) s)
  end.

(* @src service/cloud/cloud_service_impl.cpp 2416-2425 CloudServiceImpl::UnSubscribeCloudSyncTrigger *)
Definition UnSubscribeCloudSyncTrigger (bundle : option string) (user : Z) (s : State) : bool * State :=
  match GetTriggerKey bundle user with
  | None => (false, s)
  | Some key => (true, set_observers (Erase key (cloudSyncTriggerObservers_ s)) s)
  end.

(* @src service/cloud/cloud_service_impl.cpp 580-588 CloudServiceImpl::NotifySyncAgentsByTokenId *)
Definition NotifySyncAgentsByTokenId (tokenId innerTriggerMode : Z) (s : State) : State :=
  let '(notifiers, s) := CollectNotifiersByTokenId tokenId s in
  send ((fun e => OnCloudSyncTrigger tokenId e.1 e.2 innerTriggerMode) <$> notifiers) s.

(** The mode of a notification for an occasion; none for the occasions that are not told. *)
Definition inner_mode (triggerMode : Z) : option Z :=
  if triggerMode =? scene_code ENABLE_CLOUD then Some TRIGGER_ENABLE_CLOUD
  else if triggerMode =? scene_code SCENE_SWITCH_ON then Some TRIGGER_SWITCH_ON
  else if triggerMode =? scene_code NETWORK_RECOVERY then Some TRIGGER_NETWORK_RECOVERY
  else if triggerMode =? scene_code PUSH then Some TRIGGER_PUSH
  else if triggerMode =? scene_code USER_CHANGE then Some TRIGGER_USER_CHANGE
  else None.

(* @src service/cloud/cloud_service_impl.cpp 544-578 CloudServiceImpl::NotifyCloudSyncTriggerObservers *)
Definition NotifyCloudSyncTriggerObservers (bundleName : string) (user triggerMode : Z) (s : State) : State :=
  match inner_mode triggerMode with
  | None => s
  | Some mode =>
      let '(m, tokenId) := cm_compute_if_present 0 (bundleName +:+ to_string user) (fun v => (true, v, v)) (cloudSyncTriggerObservers_ s) in
      let s := set_observers m s in
      if negb (tokenId =? 0) then NotifySyncAgentsByTokenId tokenId mode s else s
  end.

(** ** Results of synchronisations *)

Definition bundle_key (bundle : string) (user : Z) : string := bundle +:+ "_" +:+ to_string user.

(* @src service/cloud/cloud_service_impl.cpp 2442-2471 CloudServiceImpl::Subscribe *)
Definition Subscribe (type : CloudSubscribeType) (bundles : list string) (tokenId user : Z) (s : State) : Z * State :=
  match bundles with
  | [] => (INVALID_ARGUMENT_V20, s)
  | _ =>
      (SUCCESS, set_subscribes (fold_left (fun m bundle =>
           if bool_decide (bundle = "") then m
           else
             let keys := default ∅ (m !! type) in
             let vec := default [] (keys !! bundle_key bundle user) in
             let vec := if bool_decide (tokenId ∈ vec) then vec else vec ++ [tokenId] in
             <[type := <[bundle_key bundle user := vec]> keys]> m) bundles (subscribes_ s)) s)
  end.

(* @src service/cloud/cloud_service_impl.cpp 2473-2511 CloudServiceImpl::Unsubscribe *)
Definition Unsubscribe (type : CloudSubscribeType) (bundles : list string) (tokenId user : Z) (s : State) : Z * State :=
  match bundles with
  | [] => (INVALID_ARGUMENT_V20, s)
  | _ =>
      match subscribes_ s !! type with
      | None => (SUCCESS, s)
      | Some keys =>
          (SUCCESS, set_subscribes (<[type := fold_left (fun keys bundle =>
               if bool_decide (bundle = "") then keys
               else match keys !! bundle_key bundle user with
                    | None => keys
                    | Some vec =>
                        match filter (fun t => t <> tokenId) vec with
                        | [] => delete (bundle_key bundle user) keys
                        | vec => <[bundle_key bundle user := vec]> keys
                        end
                    end) bundles keys]> (subscribes_ s)) s)
      end
  end.

(** The tokens subscribed to the results of an application of a user. *)
Definition subscribers (type : CloudSubscribeType) (bundle : string) (user : Z) (s : State) : list Z :=
  default [] (subscribes_ s !! type ≫= fun keys => keys !! bundle_key bundle user).

Definition add_result (bundle store : string) (info : CloudSyncInfo) (p : gmap Z Batch) (tokenId : Z) : gmap Z Batch :=
  let batch := default ∅ (p !! tokenId) in
  let results := default ∅ (batch !! bundle) in
  <[tokenId := <[bundle := <[store := info]> results]> batch]> p.

(** The tokens are read under one lock and the notifications added under another. *)
(* @src service/cloud/cloud_service_impl.cpp 2513-2536 CloudServiceImpl::OnSyncInfoChanged *)
Definition OnSyncInfoChanged_read (bundleName : string) (user : Z) (s : State) : option (list Z) :=
  if bool_decide (bundleName = "") then None
  else subscribes_ s !! SYNC_INFO_CHANGED ≫= fun keys => keys !! bundle_key bundleName user.
(* @src service/cloud/cloud_service_impl.cpp 2537-2549 CloudServiceImpl::OnSyncInfoChanged *)
Definition OnSyncInfoChanged_add (tokenIds : list Z) (bundleName storeId : string) (info : CloudSyncInfo) (now : Z) (s : State) : State :=
  let pending := fold_left (add_result bundleName storeId info) tokenIds (pendingNotifies_ s) in
  if negb (notifyTaskId_ s =? INVALID_TASK_ID) then set_pending pending (notifyTaskId_ s) (executor_ s) s
  else let '(i, p) := pool_Schedule now NOTIFY_DELAY (executor_ s) in set_pending pending i p s.

(** The pending notifications are taken out, then sent token by token. *)
(* @src service/cloud/cloud_service_impl.cpp 2553-2559 CloudServiceImpl::ExecuteBatchNotify *)
Definition ExecuteBatchNotify_take (s : State) : list (Z * Batch) * State :=
  (by_key (pendingNotifies_ s), set_pending ∅ INVALID_TASK_ID (executor_ s) s).
(* @src service/cloud/cloud_service_impl.cpp 2560-2567 CloudServiceImpl::ExecuteBatchNotify *)
Definition ExecuteBatchNotify_send (tasks : list (Z * Batch)) (s : State) : State :=
  fold_left (fun s t =>
      let '(notifiers, s) := CollectNotifiersByTokenId t.1 s in
      send ((fun e => OnSyncInfoNotify t.1 e.1 e.2 t.2) <$> notifiers) s) tasks s.
(* @src service/cloud/cloud_service_impl.cpp 2551-2568 CloudServiceImpl::ExecuteBatchNotify *)
Definition ExecuteBatchNotify (s : State) : State :=
  let '(tasks, s) := ExecuteBatchNotify_take s in ExecuteBatchNotify_send tasks s.

(** ** Threads, timers and the clock

    [reading] are the threads between the two locks of [OnSyncInfoChanged], [firing] the number of
    callbacks of timers that have not taken the lock yet, [sending] the batches being sent. *)
Record System := mkSys {
  st : State;
  clock : Z;
  reading : list (list Z * string * string * CloudSyncInfo);
  firing : nat;
  sending : list (list (Z * Batch))
}.

Inductive step : System -> System -> Prop :=
| step_init tokenId pid n s c r f g : step (mkSys s c r f g) (mkSys (InitNotifier tokenId pid n s).2 c r f g)
| step_exit tokenId pid s c r f g : step (mkSys s c r f g) (mkSys (OnFeatureExit tokenId pid s).2 c r f g)
| step_complete tokenId pid q s c r f g : step (mkSys s c r f g) (mkSys (OnAsyncComplete tokenId pid q s) c r f g)
| step_subscribe ty bs t u s c r f g : step (mkSys s c r f g) (mkSys (Subscribe ty bs t u s).2 c r f g)
| step_unsubscribe ty bs t u s c r f g : step (mkSys s c r f g) (mkSys (Unsubscribe ty bs t u s).2 c r f g)
| step_trigger_on b u t s c r f g : step (mkSys s c r f g) (mkSys (SubscribeCloudSyncTrigger b u t s).2 c r f g)
| step_trigger_off b u s c r f g : step (mkSys s c r f g) (mkSys (UnSubscribeCloudSyncTrigger b u s).2 c r f g)
| step_trigger b u m s c r f g : step (mkSys s c r f g) (mkSys (NotifyCloudSyncTriggerObservers b u m s) c r f g)
| step_read b u store info ts s c r f g : OnSyncInfoChanged_read b u s = Some ts -> step (mkSys s c r f g) (mkSys s c ((ts, b, store, info) :: r) f g)
| step_add ts b store info s c r1 r2 f g :
    step (mkSys s c (r1 ++ (ts, b, store, info) :: r2) f g) (mkSys (OnSyncInfoChanged_add ts b store info c s) c (r1 ++ r2) f g)
| step_clock c' s c r f g : c <= c' -> step (mkSys s c r f g) (mkSys s c' r f g)
| step_fire i d s c r f g : timers (executor_ s) !! i = Some d -> d <= c ->
    step (mkSys s c r f g) (mkSys (set_pending (pendingNotifies_ s) (notifyTaskId_ s) (pool_Remove i (executor_ s)) s) c r (S f) g)
| step_take s c r f g : step (mkSys s c r (S f) g) (mkSys (ExecuteBatchNotify_take s).2 c r f ((ExecuteBatchNotify_take s).1 :: g))
| step_send ts s c r f g1 g2 : step (mkSys s c r f (g1 ++ ts :: g2)) (mkSys (ExecuteBatchNotify_send ts s) c r f (g1 ++ g2)).

Definition init (y : System) : Prop :=
  pendingNotifies_ (st y) = ∅ /\ notifyTaskId_ (st y) = INVALID_TASK_ID /\ timers (executor_ (st y)) = ∅ /\ firing y = O /\ reading y = [].

(** The timer of the notifications: none is needed, it is armed, or its callback is about to run. *)
Inductive phase (s : State) (c : Z) (f : nat) : Prop :=
| Idle : notifyTaskId_ s = INVALID_TASK_ID -> pendingNotifies_ s = ∅ -> timers (executor_ s) = ∅ -> f = O -> phase s c f
| Armed d : notifyTaskId_ s <> INVALID_TASK_ID -> timers (executor_ s) = {[notifyTaskId_ s := d]} -> d <= c + NOTIFY_DELAY -> f = O -> phase s c f
| Fired : notifyTaskId_ s <> INVALID_TASK_ID -> timers (executor_ s) = ∅ -> f = 1%nat -> phase s c f.

(** Only the results and the timer matter for the phase. *)
Definition timing (s : State) := (pendingNotifies_ s, notifyTaskId_ s, executor_ s).

Lemma phase_timing s s' c f : timing s' = timing s -> phase s c f -> phase s' c f.
Proof.
  unfold timing. intros [= E1 E2 E3] [H1 H2 H3 H4|d H1 H2 H3 H4|H1 H2 H3].
  - apply Idle; by rewrite ?E1, ?E2, ?E3.
  - eapply Armed; rewrite ?E2, ?E3; eauto.
  - apply Fired; by rewrite ?E2, ?E3.
Qed.

Lemma CollectNotifiersByTokenId_timing t s : timing (CollectNotifiersByTokenId t s).2 = timing s.
Proof. unfold CollectNotifiersByTokenId. by destruct (cm_compute_if_present _ _ _ _). Qed.

Lemma NotifySyncAgentsByTokenId_timing t m s : timing (NotifySyncAgentsByTokenId t m s) = timing s.
Proof.
  unfold NotifySyncAgentsByTokenId. pose proof (CollectNotifiersByTokenId_timing t s) as Ht. by destruct (CollectNotifiersByTokenId t s).
Qed.

Lemma send_timing ts s : timing (ExecuteBatchNotify_send ts s) = timing s.
Proof.
  unfold ExecuteBatchNotify_send. revert s. induction ts as [|t ts IH]; intros s; [done|]. cbn [fold_left]. rewrite IH.
  pose proof (CollectNotifiersByTokenId_timing t.1 s) as Ht. by destruct (CollectNotifiersByTokenId t.1 s).
Qed.

Lemma client_timing s :
  (forall t p n, timing (InitNotifier t p n s).2 = timing s) /\ (forall t p q, timing (OnAsyncComplete t p q s) = timing s) /\
  (forall ty bs t u, timing (Subscribe ty bs t u s).2 = timing s) /\ (forall ty bs t u, timing (Unsubscribe ty bs t u s).2 = timing s) /\
  (forall b u t, timing (SubscribeCloudSyncTrigger b u t s).2 = timing s) /\ (forall b u, timing (UnSubscribeCloudSyncTrigger b u s).2 = timing s) /\
  (forall b u m, timing (NotifyCloudSyncTriggerObservers b u m s) = timing s).
Proof.
  split_and!; intros.
  - by destruct n.
  - unfold OnAsyncComplete. by destruct (cm_compute_if_present _ _ _ _) as [? []].
  - by destruct bs.
  - unfold Unsubscribe. by destruct bs, (subscribes_ s !! ty).
  - by destruct b.
  - by destruct b.
  - unfold NotifyCloudSyncTriggerObservers. destruct (inner_mode m); [|done]. destruct (cm_compute_if_present _ _ _ _) as [o t].
    destruct (t =? 0); [done|]. cbn [negb]. by rewrite NotifySyncAgentsByTokenId_timing.
Qed.

Lemma notify_step_phase y y' : phase (st y) (clock y) (firing y) -> step y y' -> phase (st y') (clock y') (firing y').
Proof.
  intros Hp Hs. destruct Hs; cbn [st clock firing] in *; destruct (client_timing s) as (T1 & T2 & T3 & T4 & T5 & T6 & T7); try (eapply phase_timing; [|exact Hp]; auto; done).
  - unfold OnSyncInfoChanged_add. destruct Hp as [H1 H2 H3 H4|d H1 H2 H3 H4|H1 H2 H3]; destruct (Z.eqb_spec (notifyTaskId_ s) INVALID_TASK_ID); try done; cbn [negb].
    + pose proof (pool_Schedule_spec c NOTIFY_DELAY (executor_ s)) as Hs. destruct (pool_Schedule c NOTIFY_DELAY (executor_ s)) as [i p].
      destruct Hs as (Hi & _ & _ & Ht). apply Armed with (d := c + NOTIFY_DELAY); cbn; [done| |lia|done]. by rewrite Ht, H3.
    + by apply Armed with d.
    + by apply Fired.
  - destruct Hp as [H1 H2 H3 H4|d H1 H2 H3 H4|H1 H2 H3]; [by apply Idle|apply Armed with d; try done; lia|by apply Fired].
  - destruct Hp as [H1 H2 H3 H4|d' H1 H2 H3 H4|H1 H2 H3]; match goal with H : timers _ !! _ = Some _ |- _ => rewrite ?H2, ?H3 in H; try by rewrite lookup_empty in H end.
    match goal with H : {[_ := _]} !! _ = Some _ |- _ => apply lookup_singleton_Some in H as [<- <-] end.
    apply Fired; cbn; [done| |by rewrite H4]. destruct (pool_Remove_spec (notifyTaskId_ s) (executor_ s)) as [_ ->]. rewrite H2. apply delete_singleton_eq.
  - destruct Hp as [H1 H2 H3 H4|d H1 H2 H3 H4|H1 H2 H3]; [discriminate..|]. injection H3 as ->. by apply Idle.
  - eapply phase_timing; [|exact Hp]. apply send_timing.
Qed.


(** ** Who is told what *)

(** The result waiting for a token. *)
Definition pending (s : State) (tokenId : Z) (bundle store : string) : option CloudSyncInfo :=
  pendingNotifies_ s !! tokenId ≫= fun batch => batch !! bundle ≫= fun results => results !! store.

Definition waiting (p : gmap Z Batch) (tokenId : Z) (bundle store : string) : option CloudSyncInfo :=
  p !! tokenId ≫= fun batch => batch !! bundle ≫= fun results => results !! store.

Lemma add_result_waiting b store info p t t' b' store' :
  waiting (add_result b store info p t) t' b' store' = if bool_decide (t' = t /\ b' = b /\ store' = store) then Some info else waiting p t' b' store'.
Proof.
  unfold waiting, add_result. destruct (decide (t' = t)) as [->|Ht].
  2: { rewrite lookup_insert_ne by done. by rewrite bool_decide_false by tauto. }
  rewrite lookup_insert_eq. cbn [mbind option_bind]. destruct (decide (b' = b)) as [->|Hb].
  2: { rewrite lookup_insert_ne by done. rewrite bool_decide_false by tauto. by destruct (p !! t); cbn; rewrite ?lookup_empty. }
  rewrite lookup_insert_eq. cbn [mbind option_bind]. destruct (decide (store' = store)) as [->|Hs].
  - rewrite lookup_insert_eq. by rewrite bool_decide_true.
  - rewrite lookup_insert_ne by done. rewrite bool_decide_false by tauto. destruct (p !! t) as [batch|]; cbn; [|by rewrite lookup_empty].
    by destruct (batch !! b); cbn; rewrite ?lookup_empty.
Qed.

Lemma add_results_waiting b store info ts p t' b' store' :
  waiting (fold_left (add_result b store info) ts p) t' b' store' =
    if bool_decide (t' ∈ ts /\ b' = b /\ store' = store) then Some info else waiting p t' b' store'.
Proof.
  revert p. induction ts as [|t ts IH]; intros p; cbn [fold_left].
  - rewrite bool_decide_false; [done|]. intros [Hin _]. by apply elem_of_nil in Hin.
  - rewrite IH, add_result_waiting. repeat case_bool_decide; try done; rewrite elem_of_cons in *; tauto.
Qed.

Lemma add_pending ts b store info now s t' b' store' :
  pending (OnSyncInfoChanged_add ts b store info now s) t' b' store' =
    if bool_decide (t' ∈ ts /\ b' = b /\ store' = store) then Some info else pending s t' b' store'.
Proof.
  rewrite <- (add_results_waiting b store info ts (pendingNotifies_ s)). unfold OnSyncInfoChanged_add, pending.
  destruct (negb _); [done|]. by destruct (pool_Schedule _ _ _).
Qed.

(** The processes of a token with their notifiers. *)
Definition notifiers_of (agents : gmap Z (gmap Z (option Z))) (tokenId : Z) : list (Z * Z) :=
  match agents !! tokenId with Some m => omap (fun e => (fun n => (e.1, n)) <$> e.2) (by_key m) | None => [] end.

Lemma notifiers_of_elem agents tokenId pid n : (pid, n) ∈ notifiers_of agents tokenId <-> exists m, agents !! tokenId = Some m /\ m !! pid = Some (Some n).
Proof.
  unfold notifiers_of. destruct (agents !! tokenId) as [m|].
  - rewrite list_elem_of_omap. split.
    + intros ([p o] & Hin & Ho). apply by_key_elem in Hin. cbn in Ho. destruct o; [|done]. injection Ho as -> ->. by exists m.
    + intros (m' & [= <-] & Hm). exists (pid, Some n). by rewrite by_key_elem.
  - split; [intros Hin; by apply elem_of_nil in Hin|intros (? & ? & _); done].
Qed.

Lemma CollectNotifiersByTokenId_spec tokenId s :
  (CollectNotifiersByTokenId tokenId s).1 = notifiers_of (cm_view (syncAgents_ s)) tokenId /\
  cm_view (syncAgents_ (CollectNotifiersByTokenId tokenId s).2) = cm_view (syncAgents_ s) /\ sent (CollectNotifiersByTokenId tokenId s).2 = sent s.
Proof.
  unfold CollectNotifiersByTokenId, notifiers_of. match goal with |- context [cm_compute_if_present ?z ?t ?f ?m] => pose proof (cm_compute_if_present_spec _ z t f m) as Hs end.
  destruct (cm_compute_if_present _ _ _ _) as [m ns]. cbn in *. unfold compute_if_present_ref in Hs.
  destruct (cm_view (syncAgents_ s) !! tokenId) eqn:E; injection Hs as -> ->; [|done]. by rewrite insert_id.
Qed.

Definition messages (agents : gmap Z (gmap Z (option Z))) (t : Z * Batch) : list Message :=
  (fun e => OnSyncInfoNotify t.1 e.1 e.2 t.2) <$> notifiers_of agents t.1.

Lemma send_sent tasks s : sent (ExecuteBatchNotify_send tasks s) = sent s ++ (tasks ≫= messages (cm_view (syncAgents_ s))).
Proof.
  unfold ExecuteBatchNotify_send. revert s. induction tasks as [|t tasks IH]; intros s; cbn [fold_left]; [by rewrite app_nil_r|].
  destruct (CollectNotifiersByTokenId_spec t.1 s) as (E1 & E2 & E3). destruct (CollectNotifiersByTokenId t.1 s) as [ns s']. cbn [fst snd] in *.
  rewrite IH. cbn [sent syncAgents_ send]. rewrite E2, E3, E1, bind_cons, app_assoc. done.
Qed.

(** C20: No result of a synchronisation is lost for a subscribed client, whatever the order of the requests, timers and callbacks. When a
    result is added, the latest result of that store is the one waiting for every subscribed token, and no other waiting result is touched.
    While a result waits, a timer is armed that is due in at most five seconds, or its callback is about to run; when
    that runs, every process of the token that has a notifier receives a batch with the result, and each batch
    sent contains only results that were waiting for its token. *)
Theorem results_notified y :
  reachable init step y ->
  (forall ts b store info t' b' store', pending (OnSyncInfoChanged_add ts b store info (clock y) (st y)) t' b' store' =
     if bool_decide (t' ∈ ts /\ b' = b /\ store' = store) then Some info else pending (st y) t' b' store') /\
  (forall t b store info, pending (st y) t b store = Some info ->
     ((exists d, timers (executor_ (st y)) = {[notifyTaskId_ (st y) := d]} /\ d <= clock y + NOTIFY_DELAY) \/ firing y = 1%nat) /\
     (forall m pid n, cm_view (syncAgents_ (st y)) !! t = Some m -> m !! pid = Some (Some n) ->
        exists data, OnSyncInfoNotify t pid n data ∈ drop (length (sent (st y))) (sent (ExecuteBatchNotify (st y))) /\ (data !! b ≫= fun results => results !! store) = Some info)) /\
  (forall t pid n data, OnSyncInfoNotify t pid n data ∈ drop (length (sent (st y))) (sent (ExecuteBatchNotify (st y))) -> pendingNotifies_ (st y) !! t = Some data) /\
  pendingNotifies_ (ExecuteBatchNotify (st y)) = ∅.
Proof.
  intros Hr. assert (phase (st y) (clock y) (firing y)) as Hp.
  { apply (reachable_invariant init step (fun y => phase (st y) (clock y) (firing y))); [|intros ??; apply notify_step_phase|done].
    intros z (E1 & E2 & E3 & E4 & _). by apply Idle. }
  assert (forall mg, mg ∈ drop (length (sent (st y))) (sent (ExecuteBatchNotify (st y))) <-> exists t, t ∈ by_key (pendingNotifies_ (st y)) /\ mg ∈ messages (cm_view (syncAgents_ (st y))) t) as Hm.
  { intros mg. unfold ExecuteBatchNotify, ExecuteBatchNotify_take. rewrite send_sent. cbn [sent syncAgents_ set_pending]. rewrite drop_app_length, list_elem_of_bind.
    split; intros (t & ? & ?); exists t; done. }
  split_and!.
  - intros. apply add_pending.
  - intros t b store info Hpend. split.
    + destruct Hp as [_ H2 _ _|d _ H2 H3 _|_ _ ->]; [unfold pending in Hpend; by rewrite H2, lookup_empty in Hpend|by left; exists d|by right].
    + intros m pid n Ha Hn. unfold pending in Hpend. destruct (pendingNotifies_ (st y) !! t) as [data|] eqn:Ed; [|done]. exists data. split; [|done].
      apply Hm. exists (t, data). split; [by apply by_key_elem|]. apply list_elem_of_fmap. exists (pid, n). split; [done|]. apply notifiers_of_elem. by exists m.
  - intros t pid n data Hin. apply Hm in Hin as ([t' data'] & Ht & Hin). apply list_elem_of_fmap in Hin as (e & [= -> _ _ ->] & _). by apply by_key_elem.
  - unfold ExecuteBatchNotify, ExecuteBatchNotify_take. pose proof (send_timing (by_key (pendingNotifies_ (st y))) (set_pending ∅ INVALID_TASK_ID (executor_ (st y)) (st y))) as Ht.
    unfold timing in Ht. by injection Ht as -> _ _.
Qed.


(** After subscribing, a token is among the subscribers of each named application; after unsubscribing, of none. *)
Definition subscribed_in (ty : CloudSubscribeType) (b : string) (u : Z) (m : gmap CloudSubscribeType (gmap string (list Z))) : list Z :=
  default [] (m !! ty ≫= fun keys => keys !! bundle_key b u).

Lemma Subscribe_subscribers ty bundles t u s b : b ∈ bundles -> b <> "" -> t ∈ subscribers ty b u (Subscribe ty bundles t u s).2.
Proof.
  intros Hin Hb. unfold Subscribe. destruct bundles as [|b0 bundles]; [by apply elem_of_nil in Hin|]. cbn [snd]. unfold subscribers. cbn [subscribes_ set_subscribes].
  set (f := fun m bundle => _). revert Hin. generalize (b0 :: bundles) as l, (subscribes_ s) as m. intros l.
  enough (forall m, (b ∈ l \/ t ∈ subscribed_in ty b u m) -> t ∈ subscribed_in ty b u (fold_left f l m)) as Hl by (intros m Hin; apply Hl; auto).
  induction l as [|b1 l IH]; intros m Hor; cbn [fold_left]; [destruct Hor as [Hin|]; [by apply elem_of_nil in Hin|done]|].
  apply IH. unfold f, subscribed_in in *. case_bool_decide as Hb1; [subst; destruct Hor as [Hin|]; [apply elem_of_cons in Hin as [->|]; [done|auto]|auto]|].
  destruct (decide (b ∈ l)) as [|Hl]; [by left|]. right. rewrite lookup_insert_eq. cbn [mbind option_bind].
  destruct (decide (bundle_key b u = bundle_key b1 u)) as [E|E].
  - rewrite E, lookup_insert_eq. cbn [default]. case_bool_decide; [done|]. apply elem_of_app. right. by apply list_elem_of_singleton.
  - rewrite lookup_insert_ne by done. destruct Hor as [Hin|Hin]; [apply elem_of_cons in Hin as [->|]; done|].
    destruct (m !! ty); cbn in *; [done|by apply elem_of_nil in Hin].
Qed.

Lemma Unsubscribe_subscribers ty bundles t u s b : b ∈ bundles -> b <> "" -> t ∉ subscribers ty b u (Unsubscribe ty bundles t u s).2.
Proof.
  intros Hin Hb. unfold Unsubscribe. destruct bundles as [|b0 bundles]; [by apply elem_of_nil in Hin|].
  destruct (subscribes_ s !! ty) as [keys|] eqn:Ek; cbn [snd]; unfold subscribers; [|rewrite Ek; cbn; apply not_elem_of_nil].
  cbn [subscribes_ set_subscribes]. rewrite lookup_insert_eq. cbn [mbind option_bind].
  set (f := fun keys bundle => _). revert Hin. generalize (b0 :: bundles) as l. intros l Hin.
  enough (forall l keys, (b ∈ l \/ t ∉ default [] (keys !! bundle_key b u)) -> t ∉ default [] (fold_left f l keys !! bundle_key b u)) as Hl by (apply Hl; auto).
  clear l Hin keys Ek. intros l. induction l as [|b1 l IH]; intros keys Hor; cbn [fold_left]; [destruct Hor as [Hin|]; [by apply elem_of_nil in Hin|done]|].
  apply IH. destruct (decide (b ∈ l)) as [|Hl]; [by left|]. right. unfold f. case_bool_decide as Hb1.
  { subst. destruct Hor as [Hin|]; [|done]. apply elem_of_cons in Hin as [->|]; done. }
  destruct (decide (bundle_key b u = bundle_key b1 u)) as [E|E].
  - rewrite E. destruct (keys !! bundle_key b1 u) as [vec|] eqn:Ev; [|rewrite Ev; cbn; apply not_elem_of_nil].
    destruct (filter (fun t' => t' <> t) vec) as [|x v] eqn:Ef; [rewrite lookup_delete_eq; cbn; apply not_elem_of_nil|].
    rewrite lookup_insert_eq. assert (t ∉ x :: v) as Hx; [|exact Hx]. rewrite <- Ef, list_elem_of_filter. tauto.
  - destruct Hor as [Hin|Hin]; [apply elem_of_cons in Hin as [->|]; done|].
    destruct (keys !! bundle_key b1 u) as [vec|]; [|done]. destruct (filter _ vec); [by rewrite lookup_delete_ne by done|by rewrite lookup_insert_ne by done].
Qed.

End Notify.
(** ** Samples *)

#[local] Existing Instances GmapConcurrent FlowControl.SetPool SampleCodes.

Definition quiet : State := mkState ∅ ∅ ∅ ∅ INVALID_TASK_ID (∅, ∅) [].
Definition client : State := (Subscribe SYNC_INFO_CHANGED ["com.notes"] 7 100 (InitNotifier 7 42 (Some 1) quiet).2).2.
Definition result : CloudSyncInfo := mkInfo 10 20 0 1.
Definition notified : System := mkSys (OnSyncInfoChanged_add [7] "com.notes" "notes.db" result 1000 client) 1000 [] 0 [].

Lemma notified_reachable : reachable init step notified.
Proof.
  apply (reach_step _ _ (mkSys client 1000 [([7], "com.notes", "notes.db", result)] 0 [])).
  2: apply (step_add [7] "com.notes" "notes.db" result client 1000 [] []).
  apply (reach_step _ _ (mkSys client 1000 [] 0 [])); [|by apply (step_read "com.notes" 100)].
  apply (reach_step _ _ (mkSys (InitNotifier 7 42 (Some 1) quiet).2 1000 [] 0 [])); [|apply step_subscribe].
  apply (reach_step _ _ (mkSys quiet 1000 [] 0 [])); [by apply reach_init|apply step_init].
Qed.

Lemma results_notified_witness :
  pending (st notified) 7 "com.notes" "notes.db" = Some result /\
  ((exists d, timers (executor_ (st notified)) = {[notifyTaskId_ (st notified) := d]} /\ d <= 1000 + NOTIFY_DELAY) \/ firing notified = 1%nat) /\
  exists data, OnSyncInfoNotify 7 42 1 data ∈ sent (ExecuteBatchNotify (st notified)) /\ (data !! "com.notes" ≫= fun results => results !! "notes.db") = Some result.
Proof.
  destruct (results_notified notified notified_reachable) as (_ & Hp & _). destruct (Hp 7 "com.notes" "notes.db" result) as [Ht Hs]; [by vm_compute|].
  refine (conj _ (conj Ht _)); [by vm_compute|].
  destruct (Hs {[42 := Some 1]} 42 1) as (data & Hin & Hd); [by vm_compute..|]. exists data. split; [|done].
  change (length (sent (st notified))) with O in Hin. by rewrite drop_0 in Hin.
Defined.

(** The keys of the observers of occasions have no separator: the user's number continues the name of the application. *)
Lemma trigger_keys_collide : GetTriggerKey (Some "com.app1") 0 = GetTriggerKey (Some "com.app") 10.
Proof. by vm_compute. Qed.

End CloudNotify.

(** ** The renewal of subscriptions

    One timer of the thread pool renews the subscriptions at the server before they end. *)
Module SubTask.
Import CloudNotify.

Section SubTask.
Context {EP : ExecutorPool}.

(** [owners] is the user each timer was made for. *)
Record State := mkState { subTask_ : Z; expireTime_ : Z; executor_ : option pool; owners : gmap Z Z }.

(* @src service/cloud/cloud_service_impl.cpp 2316-2340 CloudServiceImpl::InitSubTask *)
Definition InitSubTask (sub : CloudData.Subscription.Subscription) (minInterval now : Z) (s : State) : State :=
  let expire := CloudData.Subscription.GetMinExpireTime sub in
  if expire =? INVALID_SUB_TIME then s
  else match executor_ s with
       | None => s
       | Some p =>
           let expire := u64 (expire - TIME_BEFORE_SUB) in
           let delay := Z.max (if now <? expire then expire - now else 0) minInterval in
           let time := if now <? expire then expire else now in
           if negb (subTask_ s =? INVALID_TASK_ID) then
             if expire <? expireTime_ s then mkState (subTask_ s) time (Some (pool_Reset (subTask_ s) now delay p)) (owners s) else s
           else let '(i, p) := pool_Schedule now delay p in
                mkState i time (Some p) (<[i := CloudData.Subscription.userId sub]> (owners s))
       end.

(** The callback of a timer: the user whose subscriptions are renewed, if the cloud is in use. [cloudInfo] is the stored information of a user. *)
(* @src service/cloud/cloud_service_impl.cpp 2299-2314 CloudServiceImpl::GenSubTask *)
Definition GenSubTask (cloudInfo : Z -> option CloudData.CloudInfo.CloudInfo) (i : Z) (s : State) : option Z * State :=
  let s' := mkState INVALID_TASK_ID (expireTime_ s) (executor_ s) (owners s) in
  (owners s !! i ≫= fun user =>
     cloudInfo user ≫= fun c =>
       if CloudData.CloudInfo.enableCloud c && negb (CloudData.CloudInfo.IsAllSwitchOff c) then Some user else None, s').

(** The time a subscription has to be renewed: twelve hours before the earliest end. *)
Definition renewal (sub : CloudData.Subscription.Subscription) : Z := u64 (CloudData.Subscription.GetMinExpireTime sub - TIME_BEFORE_SUB).

(** While a timer is armed for [subTask_], it is due no later than the renewal of the subscription that was just announced (or the minimal
    interval), provided the timer that was armed before is due at [expireTime_] at the latest. *)
Lemma InitSubTask_in_time sub minInterval now s p :
  0 <= minInterval -> executor_ s = Some p -> CloudData.Subscription.GetMinExpireTime sub <> INVALID_SUB_TIME ->
  (subTask_ s <> INVALID_TASK_ID -> exists d, timers p !! subTask_ s = Some d /\ d <= Z.max (expireTime_ s) (now + minInterval)) ->
  exists p' d, executor_ (InitSubTask sub minInterval now s) = Some p' /\ timers p' !! subTask_ (InitSubTask sub minInterval now s) = Some d /\
    d <= Z.max (renewal sub) (now + minInterval).
Proof.
  intros Hm Hp Hs Ht. unfold InitSubTask. rewrite (proj2 (Z.eqb_neq _ _) Hs), Hp. fold (renewal sub).
  set (delay := Z.max _ minInterval). assert (now + delay <= Z.max (renewal sub) (now + minInterval)) as Hd.
  { unfold delay. destruct (Z.ltb_spec now (renewal sub)); lia. }
  destruct (Z.eqb_spec (subTask_ s) INVALID_TASK_ID) as [Hi|Hi]; cbn [negb].
  - pose proof (pool_Schedule_spec now delay p) as Hsp. destruct (pool_Schedule now delay p) as [i p']. destruct Hsp as (_ & _ & _ & E).
    exists p', (now + delay). split_and!; [done| |done]. cbn. by rewrite E, lookup_insert_eq.
  - destruct (Ht Hi) as (d & Ed & Hle). destruct (Z.ltb_spec (renewal sub) (expireTime_ s)) as [Hlt|Hge].
    + exists (pool_Reset (subTask_ s) now delay p), (now + delay). split_and!; [done| |done]. cbn.
      destruct (pool_Reset_spec (subTask_ s) now delay p) as [_ ->]. by rewrite Ed, lookup_insert_eq.
    + exists p, d. split_and!; [done..|lia].
Qed.
End SubTask.

#[local] Existing Instance FlowControl.SetPool.

(** The timer belongs to the user it was first armed for: an earlier subscription of another user only moves it, and when it fires that
    user's subscriptions are not renewed. *)
Lemma second_user_not_renewed :
  let sub u t := CloudData.Subscription.mk u "id" {["com.app" := t]} in
  let s := InitSubTask (sub 101 (20 * 86400000)) 0 0 (InitSubTask (sub 100 (30 * 86400000)) 0 0 (mkState INVALID_TASK_ID 0 (Some (∅, ∅)) ∅)) in
  (fun p => timers p !! subTask_ s) <$> executor_ s = Some (Some (20 * 86400000 - TIME_BEFORE_SUB)) /\ owners s !! subTask_ s = Some 100.
Proof. by vm_compute. Qed.
End SubTask.
