(* ===== verification/DataShare.v ===== *)
(** * Subscribers of shared data ([service/data_share])

    Applications subscribe to changes of shared databases, of published data and of proxy data.
    [RdbSubscriber] ([subscriber_managers/rdb_subscriber_manager.cpp]) keeps the observers of databases, tells them
    of changes and remembers for a disabled observer that it missed one; [Scheduler]
    ([common/scheduler_manager.cpp]) keeps the timers by which the templates of the subscribers remind;
    [PublishedSubscriber] ([subscriber_managers/published_data_subscriber_manager.cpp]) keeps the observers of published data.

    The maps of the observers are [ConcurrentMap]s, an observer is a number. The templates, the
    databases behind them and the service of timers are parameters; what the observers are told is recorded in order. *)

From stdpp Require Import sorting.
From S2P Require Import Prelude CppString Interfaces.

Definition E_OK : Z := 0.
Definition DATA_PROXY_SCHEMA : string := "datashareproxy://".

(* @src service/data_share/common/utils.cpp 54-57 URIUtils::IsDataProxyURI *)
Definition IsDataProxyURI (uri : string) : bool := String.prefix DATA_PROXY_SCHEMA uri.

(* @src service/data_share/subscriber_managers/rdb_subscriber_manager.h 31-42 Key *)
Record Key := mkKey { uri : string; subscriberId : Z; bundleName : string }.
#[export] Instance Key_eq_dec : EqDecision Key.
Proof. solve_decision. Defined.
#[export] Program Instance Key_countable : Countable Key :=
  inj_countable' (fun k => (uri k, subscriberId k, bundleName k)) (fun p => mkKey p.1.1 p.1.2 p.2) _.
Next Obligation. by intros []. Qed.

(* @src service/data_share/subscriber_managers/rdb_subscriber_manager.cpp 71-86 Key::operator< *)
Definition Key_lt (a b : Key) : bool :=
  if String.ltb (uri a) (uri b) then true
  else if String.ltb (uri b) (uri a) then false
  else if subscriberId a <? subscriberId b then true
  else if subscriberId b <? subscriberId a then false
  else String.ltb (bundleName a) (bundleName b).

(** The entries of a map in the order of its keys. *)
Definition key_le {A} (a b : Key * A) : Prop := Key_lt b.1 a.1 = false.
#[local] Instance key_le_dec {A} (a b : Key * A) : Decision (key_le a b).
Proof. unfold key_le. apply _. Defined.
Definition by_key {A} (m : gmap Key A) : list (Key * A) := merge_sort key_le (map_to_list m).

Lemma by_key_perm {A} (m : gmap Key A) : by_key m ≡ₚ map_to_list m.
Proof. apply merge_sort_Permutation. Qed.

Lemma key_entries_elem {A} (m : gmap Key A) k v : (k, v) ∈ by_key m <-> m !! k = Some v.
Proof. rewrite <- elem_of_map_to_list. by rewrite by_key_perm. Qed.

(** ** The service of timers

    [live] are the timers that have been created and not destroyed, with the time they are set to; the
    identifier 0 reports that none could be created. *)
Class TimeService := {
  time_service : Type;
  live : time_service -> gmap Z Z;
  CreateTimer : time_service -> Z * time_service;
  StartTimer : Z -> Z -> time_service -> time_service;
  DestroyTimer : Z -> time_service -> time_service;
  CreateTimer_spec t : let '(i, t') := CreateTimer t in
    (i = 0 /\ live t' = live t) \/ (0 < i /\ live t !! i = None /\ exists due, live t' = <[i := due]> (live t));
  StartTimer_spec i due t : live (StartTimer i due t) = match live t !! i with Some _ => <[i := due]> (live t) | None => live t end;
  DestroyTimer_spec i t : live (DestroyTimer i t) = delete i (live t)
}.

(** ** The scheduler *)
Module Scheduler.

Definition MAX_MILLISECONDS : Z := 31536000000.
Definition DELAYED_MILLISECONDS : Z := 200.

Section Scheduler.
Context {TS : TimeService}.

(* @src service/data_share/common/scheduler_manager.h 59-61 timerCache_ *)
Record Sched := mkSched {
  timerCache_ : gmap Key Z;
  schedulerStatusCache_ : gmap Key bool;
  executor_ : bool;
  service : time_service
}.

(* @src service/data_share/common/scheduler_manager.cpp 66-71 SchedulerManager::Add *)
Definition Add (key : Key) (s : Sched) : bool * Sched :=
  match schedulerStatusCache_ s !! key with
  | Some _ => (false, s)
  | None => (true, mkSched (timerCache_ s) (<[key := true]> (schedulerStatusCache_ s)) (executor_ s) (service s))
  end.

(* @src service/data_share/common/scheduler_manager.cpp 149-154 SchedulerManager::DestoryTimerTask *)
Definition DestoryTimerTask (timerId : Z) (s : Sched) : Sched :=
  if 0 <? timerId then mkSched (timerCache_ s) (schedulerStatusCache_ s) (executor_ s) (DestroyTimer timerId (service s)) else s.

(* @src service/data_share/common/scheduler_manager.cpp 289-302 SchedulerManager::RemoveTimer *)
Definition RemoveTimer (key : Key) (s : Sched) : Sched :=
  if negb (executor_ s) then s
  else match timerCache_ s !! key with
       | None => s
       | Some timerId =>
           let s := DestoryTimerTask timerId s in
           mkSched (delete key (timerCache_ s)) (schedulerStatusCache_ s) (executor_ s) (service s)
       end.

(* @src service/data_share/common/scheduler_manager.cpp 80-88 SchedulerManager::Stop *)
Definition Stop (key : Key) (s : Sched) : Sched :=
  let s := RemoveTimer key s in
  mkSched (timerCache_ s) (delete key (schedulerStatusCache_ s)) (executor_ s) (service s).

Definition set_status (key : Key) (b : bool) (s : Sched) : Sched :=
  match schedulerStatusCache_ s !! key with
  | Some _ => mkSched (timerCache_ s) (<[key := b]> (schedulerStatusCache_ s)) (executor_ s) (service s)
  | None => s
  end.

(** The locked part of [Enable]: the answer is whether no timer is set, so that the template is to be executed. *)
(* @src service/data_share/common/scheduler_manager.cpp 90-118 SchedulerManager::Enable *)
Definition Enable_locked (key : Key) (s : Sched) : bool * Sched :=
  let s := set_status key true s in (bool_decide (timerCache_ s !! key = None), s).

(* @src service/data_share/common/scheduler_manager.cpp 120-130 SchedulerManager::Disable *)
Definition Disable (key : Key) (s : Sched) : Sched := set_status key false s.

(* @src service/data_share/common/scheduler_manager.cpp 156-160 SchedulerManager::ResetTimerTask *)
Definition ResetTimerTask (timerId reminderTime : Z) (s : Sched) : Sched :=
  mkSched (timerCache_ s) (schedulerStatusCache_ s) (executor_ s) (StartTimer timerId (u64 reminderTime) (service s)).

(* @src service/data_share/common/scheduler_manager.cpp 162-172 SchedulerManager::EraseTimerTaskId *)
Definition EraseTimerTaskId (key : Key) (s : Sched) : Z * Sched :=
  match timerCache_ s !! key with
  | Some timerId => (timerId, mkSched (delete key (timerCache_ s)) (schedulerStatusCache_ s) (executor_ s) (service s))
  | None => (-1, s)
  end.

(* @src service/data_share/common/scheduler_manager.cpp 174-192 SchedulerManager::GetSchedulerStatus *)
Definition GetSchedulerStatus (key : Key) (s : Sched) : bool := default false (schedulerStatusCache_ s !! key).

(* @src service/data_share/common/scheduler_manager.cpp 132-147 SchedulerManager::SetTimerTask *)
Definition SetTimerTask (reminderTime : Z) (s : Sched) : Z * Sched :=
  let '(timerId, t) := CreateTimer (service s) in
  (timerId, mkSched (timerCache_ s) (schedulerStatusCache_ s) (executor_ s) (if timerId =? 0 then t else StartTimer timerId (u64 reminderTime) t)).

(** Timers are set for the future, and no more than a year ahead. *)
(* @src service/data_share/common/scheduler_manager.cpp 194-239 SchedulerManager::SetTimer *)
Definition SetTimer (key : Key) (now reminderTime : Z) (s : Sched) : Sched :=
  if negb (executor_ s) then s
  else if (reminderTime <=? now) || (MAX_MILLISECONDS <=? reminderTime - now) then s
  else match timerCache_ s !! key with
       | Some timerId => ResetTimerTask timerId reminderTime s
       | None =>
           let '(timerId, s) := SetTimerTask reminderTime s in
           if timerId =? 0 then s
           else mkSched (<[key := timerId]> (timerCache_ s)) (schedulerStatusCache_ s) (executor_ s) (service s)
       end.

(* @src service/data_share/common/scheduler_manager.cpp 304-317 SchedulerManager::ClearTimer *)
Definition ClearTimer (s : Sched) : Sched :=
  if negb (executor_ s) then s
  else let s' := fold_left (fun s e => DestoryTimerTask e.2 s) (by_key (timerCache_ s)) s in
       mkSched ∅ (schedulerStatusCache_ s') (executor_ s') (service s').

(* @src service/data_share/common/scheduler_manager.cpp 324-334 SchedulerManager::ReExecuteAll *)
Definition ReExecuteAll (now : Z) (s : Sched) : Sched :=
  fold_left (fun s e => ResetTimerTask e.2 (now + DELAYED_MILLISECONDS) s) (by_key (timerCache_ s)) s.

(* @src service/data_share/common/scheduler_manager.cpp 319-322 SchedulerManager::SetExecutorPool *)
Definition SetExecutorPool (executor : bool) (s : Sched) : Sched := mkSched (timerCache_ s) (schedulerStatusCache_ s) executor (service s).

(** ** Interleaving: the callback of a timer runs in two sections, between which others may run. [firing] are the
    callbacks that have not erased their entry, [closing] the timers about to be destroyed. *)
Record System := mkSys { sched : Sched; firing : list Key; closing : list Z }.

Inductive step : System -> System -> Prop :=
| step_add k s f c : step (mkSys s f c) (mkSys (Add k s).2 f c)
| step_stop k s f c : step (mkSys s f c) (mkSys (Stop k s) f c)
| step_enable k s f c : step (mkSys s f c) (mkSys (Enable_locked k s).2 f c)
| step_disable k s f c : step (mkSys s f c) (mkSys (Disable k s) f c)
| step_set k now r s f c : step (mkSys s f c) (mkSys (SetTimer k now r s) f c)
| step_clear s f c : step (mkSys s f c) (mkSys (ClearTimer s) f c)
| step_again now s f c : step (mkSys s f c) (mkSys (ReExecuteAll now s) f c)
| step_pool b s f c : step (mkSys s f c) (mkSys (SetExecutorPool b s) f c)
| step_fire k s f c : step (mkSys s f c) (mkSys s (k :: f) c)
| step_erase k s f1 f2 c : step (mkSys s (f1 ++ k :: f2) c) (mkSys (EraseTimerTaskId k s).2 (f1 ++ f2) ((EraseTimerTaskId k s).1 :: c))
| step_destroy i s f c1 c2 : step (mkSys s f (c1 ++ i :: c2)) (mkSys (DestoryTimerTask i s) f (c1 ++ c2)).

Definition init (y : System) : Prop :=
  timerCache_ (sched y) = ∅ /\ live (service (sched y)) = ∅ /\ firing y = [] /\ closing y = [].

(** The timers that exist are exactly those named by [ids], each once. *)
Definition accounts (ids : list Z) (t : time_service) : Prop :=
  NoDup ids /\ (forall i, i ∈ ids <-> is_Some (live t !! i)) /\ Forall (fun i => 0 < i) ids.

Lemma accounts_perm ids ids' t : ids ≡ₚ ids' -> accounts ids t -> accounts ids' t.
Proof. intros Hp (H1 & H2 & H3). unfold accounts. rewrite <- Hp. split_and!; [done| |done]. intros i. by rewrite <- Hp. Qed.

#[local] Instance accounts_Proper : Proper (Permutation ==> eq ==> iff) accounts.
Proof. intros l l' Hp t ? <-. split; by apply accounts_perm. Qed.

Lemma accounts_destroy i ids t : accounts (i :: ids) t -> accounts ids (DestroyTimer i t).
Proof.
  intros (H1 & H2 & H3). apply NoDup_cons in H1 as [Hi H1]. apply Forall_cons in H3 as [_ H3]. split_and!; [done| |done].
  intros j. rewrite DestroyTimer_spec. destruct (decide (j = i)) as [->|Hne].
  - rewrite lookup_delete_eq. split; [done|by intros [? ?]].
  - rewrite lookup_delete_ne by done. rewrite <- H2, elem_of_cons. tauto.
Qed.

Lemma accounts_start i due ids t : accounts ids t -> accounts ids (StartTimer i due t).
Proof.
  intros (H1 & H2 & H3). split_and!; [done| |done]. intros j. rewrite H2, StartTimer_spec. destruct (live t !! i) as [d|] eqn:E; [|done].
  destruct (decide (j = i)) as [->|]; [rewrite E, lookup_insert_eq|rewrite lookup_insert_ne by done]; by split.
Qed.

Lemma accounts_create ids t i t' : CreateTimer t = (i, t') -> accounts ids t -> accounts (if i =? 0 then ids else i :: ids) t'.
Proof.
  intros E (H1 & H2 & H3). pose proof (CreateTimer_spec t) as Hc. rewrite E in Hc. destruct Hc as [[-> El]|(Hi & Hn & due & El)].
  - cbn. unfold accounts. by rewrite El.
  - rewrite (proj2 (Z.eqb_neq _ _)) by lia. split_and!; [constructor; [|done]| |by constructor].
    + rewrite H2, Hn. by intros [? ?].
    + intros j. rewrite elem_of_cons, H2, El. destruct (decide (j = i)) as [->|]; [rewrite lookup_insert_eq|rewrite lookup_insert_ne by done]; naive_solver.
Qed.

(** The timers known to the scheduler: those of its keys and those about to be destroyed. *)
Definition owned (y : System) : list Z := (map_to_list (timerCache_ (sched y))).*2 ++ filter (fun i => 0 < i) (closing y).

Definition Inv (y : System) : Prop := accounts (owned y) (service (sched y)).

Lemma cache_split (m : gmap Key Z) k i : m !! k = Some i -> (map_to_list m).*2 ≡ₚ i :: (map_to_list (delete k m)).*2.
Proof. intros Hk. by rewrite <- (map_to_list_delete m k i Hk). Qed.

Lemma remove_timer_Inv k s f c : Inv (mkSys s f c) -> Inv (mkSys (RemoveTimer k s) f c).
Proof.
  unfold RemoveTimer. destruct (executor_ s); [|done]. cbn [negb]. destruct (timerCache_ s !! k) as [i|] eqn:Ek; [|done].
  unfold Inv, owned. cbn [sched closing]. rewrite (cache_split _ k i Ek). intros HI. assert (0 < i) as Hi by (destruct HI as (_ & _ & HF); by apply Forall_cons in HF as [? _]).
  unfold DestoryTimerTask. rewrite (proj2 (Z.ltb_lt _ _)) by done. by apply accounts_destroy.
Qed.

Lemma clear_Inv s f c : Inv (mkSys s f c) -> Inv (mkSys (ClearTimer s) f c).
Proof.
  unfold ClearTimer. destruct (executor_ s); [|done]. cbn [negb]. unfold Inv, owned. cbn [sched closing timerCache_ service]. rewrite map_to_list_empty. cbn [fmap list_fmap app].
  rewrite <- (by_key_perm (timerCache_ s)). generalize (by_key (timerCache_ s)) as l. intros l. revert s.
  induction l as [|[k i] l IH]; intros s HI; cbn [fold_left]; [done|]. apply IH. cbn [fmap list_fmap snd app] in HI.
  assert (0 < i) as Hi by (destruct HI as (_ & _ & HF); by apply Forall_cons in HF as [? _]).
  unfold DestoryTimerTask. cbn [snd]. rewrite (proj2 (Z.ltb_lt _ _)) by done. by apply accounts_destroy.
Qed.

Lemma again_Inv now s f c : Inv (mkSys s f c) -> Inv (mkSys (ReExecuteAll now s) f c).
Proof.
  unfold ReExecuteAll. generalize (by_key (timerCache_ s)) as l. intros l. revert s. induction l as [|e l IH]; intros s HI; cbn [fold_left]; [done|].
  apply IH. by apply accounts_start.
Qed.

Lemma set_Inv k now r s f c : Inv (mkSys s f c) -> Inv (mkSys (SetTimer k now r s) f c).
Proof.
  intros HI. unfold SetTimer. destruct (negb _); [done|]. destruct (_ || _); [done|]. destruct (timerCache_ s !! k) as [i|] eqn:Ek; [by apply accounts_start|].
  unfold SetTimerTask. destruct (CreateTimer (service s)) as [i t] eqn:Ec. pose proof (accounts_create _ _ _ _ Ec HI) as HI'.
  destruct (i =? 0) eqn:Ei; [done|]. unfold Inv, owned in *. cbn [sched closing timerCache_ service] in *.
  apply accounts_start. eapply accounts_perm; [|exact HI']. by rewrite map_to_list_insert.
Qed.

Lemma scheduler_step_Inv y y' : Inv y -> step y y' -> Inv y'.
Proof.
  intros HI Hs. destruct Hs.
  - unfold Add. by destruct (schedulerStatusCache_ s !! k).
  - by apply (remove_timer_Inv k s f c).
  - unfold Enable_locked, set_status. by destruct (schedulerStatusCache_ s !! k).
  - unfold Disable, set_status. by destruct (schedulerStatusCache_ s !! k).
  - by apply set_Inv.
  - by apply clear_Inv.
  - by apply again_Inv.
  - done.
  - done.
  - unfold EraseTimerTaskId. destruct (timerCache_ s !! k) as [i|] eqn:Ek; cbn [fst snd].
    + unfold Inv, owned in *. cbn [sched closing timerCache_ service] in *. rewrite (cache_split _ k i Ek) in HI.
      assert (0 < i) as Hi by (destruct HI as (_ & _ & HF); by apply Forall_cons in HF as [? _]). rewrite filter_cons_True by done.
      eapply accounts_perm; [|exact HI]. cbn [app]. by rewrite Permutation_middle.
    + unfold Inv, owned in *. cbn [sched closing] in *. by rewrite filter_cons_False by lia.
  - unfold Inv, owned, DestoryTimerTask in *. cbn [sched closing] in *. rewrite filter_app in *.
    destruct (Z.ltb_spec 0 i) as [Hi|Hi]; cbn [timerCache_ service].
    + rewrite filter_cons_True in HI by done. apply accounts_destroy. by rewrite <- Permutation_middle, <- Permutation_middle in HI.
    + by rewrite filter_cons_False in HI by lia.
Qed.

(** C28: The scheduler neither loses nor shares a timer, however the subscriptions, reminders and callbacks of timers interleave. In every reachable
    state the timers that exist in the time service are exactly those recorded for a subscriber and
    those whose callback is about to destroy them, no timer stands for two subscribers, and setting a reminder for a subscriber within a year leaves exactly one timer
    for it, unless the time service cannot create one. *)
Theorem timers_accounted y key now r :
  reachable init step y ->
  (forall i, is_Some (live (service (sched y)) !! i) <-> (exists k, timerCache_ (sched y) !! k = Some i) \/ (0 < i /\ i ∈ closing y)) /\
  (forall k k' i, timerCache_ (sched y) !! k = Some i -> timerCache_ (sched y) !! k' = Some i -> k = k') /\
  (executor_ (sched y) = true -> now < r < now + MAX_MILLISECONDS -> 0 <= r < 2 ^ 64 ->
   let s' := SetTimer key now r (sched y) in
   match timerCache_ s' !! key with
   | Some i => live (service s') !! i = Some r
   | None => (CreateTimer (service (sched y))).1 = 0
   end).
Proof.
  intros Hr. assert (Inv y) as HI.
  { apply (reachable_invariant init step Inv); [|apply scheduler_step_Inv|done]. intros z (E1 & E2 & _ & E4).
    unfold Inv, owned. rewrite E1, E4. split_and!; [constructor| |constructor]. intros i. rewrite E2, lookup_empty. split; [intros Hin; by apply elem_of_nil in Hin|by intros [? ?]]. }
  destruct HI as (Hd & Hl & Hp). split_and!.
  - intros i. rewrite <- Hl. unfold owned. rewrite elem_of_app, list_elem_of_filter, list_elem_of_fmap. split.
    + intros [([k j] & -> & Hin)|]; [left; exists k; by apply elem_of_map_to_list|auto].
    + intros [[k Hk]|]; [left; exists (k, i); by rewrite elem_of_map_to_list|auto].
  - intros k k' i Hk Hk'. destruct (decide (k = k')) as [|Hne]; [done|]. exfalso. apply NoDup_app in Hd as (Hd & _ & _).
    rewrite (cache_split _ k i Hk) in Hd. apply NoDup_cons in Hd as [Hd _]. apply Hd. apply list_elem_of_fmap. exists (k', i).
    split; [done|]. apply elem_of_map_to_list. by rewrite lookup_delete_ne.
  - intros He [Hn1 Hn2] Hu. unfold SetTimer. rewrite He. cbn [negb]. rewrite (proj2 (Z.leb_gt r now)) by lia. rewrite (proj2 (Z.leb_gt MAX_MILLISECONDS (r - now))) by lia. cbn [orb].
    assert (u64 r = r) as Eu by (by apply wrap_id).
    destruct (timerCache_ (sched y) !! key) as [i|] eqn:Ek.
    + cbn [timerCache_ ResetTimerTask service]. rewrite Ek, StartTimer_spec, Eu. assert (is_Some (live (service (sched y)) !! i)) as [d ->]; [|apply lookup_insert_eq].
      apply Hl. unfold owned. apply elem_of_app. left. apply list_elem_of_fmap. exists (key, i). by rewrite elem_of_map_to_list.
    + unfold SetTimerTask. pose proof (CreateTimer_spec (service (sched y))) as Hc. destruct (CreateTimer (service (sched y))) as [i t].
      destruct (Z.eqb_spec i 0) as [->|Hi]; cbn [timerCache_ service]; [by rewrite Ek|]. rewrite lookup_insert_eq, StartTimer_spec, Eu.
      destruct Hc as [[? _]|(_ & _ & due & ->)]; [done|]. rewrite lookup_insert_eq. apply lookup_insert_eq.
Qed.

End Scheduler.
End Scheduler.

(** ** Observers of shared databases *)
Module RdbSubscriber.
Import Scheduler.

Definition E_ERROR : Z := -1.
Definition REMIND_TIMER_FUNC : string := "remindTimer(".

(* @src service/data_share/subscriber_managers/rdb_subscriber_manager.h 74-84 ObserverNode *)
Record ObserverNode := mkNode {
  observer : option Z; firstCallerTokenId : Z; callerTokenId : Z; callerPid : Z; enabled : bool; isNotifyOnEnabled : bool; userId : Z
}.

(** A template: the named queries whose results are sent, the statement of the scheduler and the update done after a notification. *)
Record Template := mkTpl { predicates_ : list (string * string); scheduler_ : string; update_ : string }.

(** The part of a store's metadata the statements use, and what is known of a caller. *)
Record Meta := mkMeta { tokenId : Z; dataDir : string; storeId : string; haMode : Z; isEncrypt : bool; m_bundleName : string; m_user : string }.
Record Ctx := mkCtx {
  c_callerTokenId : Z; visitedUserId : Z; calledTokenId : Z; calledSourceDir : string; calledStoreName : string; c_haMode : Z; isEncryptDb : bool;
  calledBundleName : string; accountId : Z
}.

(** What an observer is told: the subscription and the results of the queries. *)
Record RdbChangeNode := mkChange { ch_uri : string; ch_subscriberId : Z; ch_bundleName : string; data_ : list string }.

Inductive Effect : Type :=
| OnChangeFromRdb (observer : Z) (change : RdbChangeNode)
| EUpdateSql (meta : Meta) (sql : string)
| EQuerySql (meta : Meta) (sql : string).

(** The environment: the templates, the answers of the database of a store (none when it cannot be opened), and the lookup of a caller's store. *)
Record Env := mkEnv {
  template : Key -> Z -> option Template;
  delegate : Meta -> string -> Z -> option (string -> string);
  loadDataInfo : Ctx -> option Ctx
}.

Section Rdb.
Context {TS : TimeService} {CM : ConcurrentMap Key (list ObserverNode)}.
Context (E_TEMPLATE_NOT_EXIST E_SUBSCRIBER_NOT_EXIST : Z).

Record State := mkState { rdbCache_ : cmap Key (list ObserverNode); scheduler : Sched; trace : list Effect }.
Definition set_cache c s := mkState c (scheduler s) (trace s).
Definition set_sched h s := mkState (rdbCache_ s) h (trace s).
Definition emit es s := mkState (rdbCache_ s) (scheduler s) (trace s ++ es).

(* @src service/data_share/subscriber_managers/rdb_subscriber_manager.cpp 452-462 RdbSubscriberManager::GenMetaDataFromContext *)
Definition GenMetaDataFromContext (c : Ctx) : Meta :=
  mkMeta (calledTokenId c) (calledSourceDir c) (calledStoreName c) (c_haMode c) (isEncryptDb c) (calledBundleName c) "".

Definition quote : string := String (Ascii.ascii_of_nat 34) EmptyString.

Definition set_user (u : Z) (m : Meta) : Meta := mkMeta (tokenId m) (dataDir m) (storeId m) (haMode m) (isEncrypt m) (m_bundleName m) (to_string u).

(** The parameters that identify the subscriber are put in front of those the template gives to the reminder. *)
(* @src service/data_share/common/scheduler_manager.cpp 273-287 SchedulerManager::GenRemindTimerFuncParams *)
Definition GenRemindTimerFuncParams (user : Z) (m : Meta) (key : Key) (schedulerSQL : string) : string :=
  match find schedulerSQL REMIND_TIMER_FUNC 0 with
  | None => schedulerSQL
  | Some index =>
      let index := (index + size REMIND_TIMER_FUNC)%nat in
      let keyStr := "'" +:+ dataDir m +:+ "', " +:+ to_string (tokenId m) +:+ ", '" +:+ uri key +:+ "', " +:+ to_string (subscriberId key) +:+ ", '"
                    +:+ bundleName key +:+ "', " +:+ to_string user +:+ ", '" +:+ storeId m +:+ "', " +:+ to_string (haMode m) +:+ ", " in
      str_of (take index (chars schedulerSQL)) +:+ keyStr +:+ str_of (drop index (chars schedulerSQL))
  end.

(* @src service/data_share/common/scheduler_manager.cpp 241-271 SchedulerManager::ExecuteSchedulerSQL *)
Definition ExecuteSchedulerSQL (env : Env) (user : Z) (m : Meta) (key : Key) : list Effect :=
  match template env key user with
  | None => []
  | Some tpl => if bool_decide (scheduler_ tpl = "") then [] else [EQuerySql m (GenRemindTimerFuncParams user m key (scheduler_ tpl))]
  end.

(* @src service/data_share/common/scheduler_manager.cpp 53-64 SchedulerManager::Execute *)
Definition Execute (env : Env) (key : Key) (user : Z) (m : Meta) (s : State) : State :=
  let m := set_user user (mkMeta (tokenId m) (dataDir m) (storeId m) (haMode m) (isEncrypt m) (bundleName key) (m_user m)) in
  match delegate env m "" (-1) with None => s | Some _ => emit (ExecuteSchedulerSQL env user m key) s end.

(* @src service/data_share/subscriber_managers/rdb_subscriber_manager.cpp 323-334 RdbSubscriberManager::GetKeysByUri *)
Definition GetKeysByUri (u : string) (s : State) : list Key := (by_key (filter (fun e => uri e.1 = u) (cm_view (rdbCache_ s)))).*1.

(* @src service/data_share/common/scheduler_manager.cpp 36-51 SchedulerManager::Execute *)
Definition ExecuteUri (env : Env) (u : string) (user : Z) (m : Meta) (s : State) : State :=
  if negb (IsDataProxyURI u) then s
  else let m := set_user user m in
       match delegate env m "" (-1) with
       | None => s
       | Some _ => emit (GetKeysByUri u s ≫= ExecuteSchedulerSQL env user m) s
       end.

(* @src service/data_share/common/scheduler_manager.cpp 73-78 SchedulerManager::Start *)
Definition Start (env : Env) (key : Key) (user : Z) (m : Meta) (s : State) : State :=
  let '(first, h) := Scheduler.Add key (scheduler s) in
  let s := set_sched h s in if first then Execute env key user m s else s.

(** The observers of a change: those that are enabled and of the user, or of user 0, or the change is of user 0. *)
Definition told (user : Z) (n : ObserverNode) : option Z :=
  if negb (userId n =? user) && negb (user =? 0) && negb (userId n =? 0) then None
  else if enabled n then observer n else None.

(* @src service/data_share/subscriber_managers/rdb_subscriber_manager.cpp 367-417 RdbSubscriberManager::Notify *)
Definition Notify (env : Env) (key : Key) (user : Z) (val : list ObserverNode) (m : Meta) (account : Z) (s : State) : Z * State :=
  match template env key user with
  | None => (E_TEMPLATE_NOT_EXIST, s)
  | Some tpl =>
      let meta := set_user user m in
      match delegate env meta (uri key) account with
      | None => (E_ERROR, s)
      | Some query =>
          let data := omap (fun p => let r := query p.2 in if bool_decide (r = "") then None else Some ("{" +:+ quote +:+ p.1 +:+ quote +:+ ":" +:+ r +:+ "}")) (predicates_ tpl) in
          let change := mkChange (uri key) (subscriberId key) (bundleName key) data in
          (E_OK, emit ((if bool_decide (update_ tpl = "") then [] else [EUpdateSql meta (update_ tpl)])
                       ++ ((fun o => OnChangeFromRdb o change) <$> omap (told user) val)) s)
      end
  end.

(** The task of [Add] runs later, in the thread pool. *)
Record Task := mkTask { t_key : Key; t_node : ObserverNode; t_ctx : Ctx; isFirstSubscribe : bool }.

(** [caller] are the token and the process of the calling. *)
(* @src service/data_share/subscriber_managers/rdb_subscriber_manager.cpp 114-146 RdbSubscriberManager::Add *)
Definition Add (key : Key) (obs : option Z) (c : Ctx) (caller : Z * Z) (on : bool) (s : State) : Z * Task * State :=
  let node := mkNode obs (c_callerTokenId c) caller.1 caller.2 on false (visitedUserId c) in
  let '(first, h) := Scheduler.Add key (scheduler s) in
  (E_OK, mkTask key node c first, set_sched h (set_cache (cm_compute [] key (fun value => (true, value ++ [node], tt)) (rdbCache_ s)).1 s)).

(* @src service/data_share/subscriber_managers/rdb_subscriber_manager.cpp 126-138 RdbSubscriberManager::Add *)
Definition RunAdd (env : Env) (t : Task) (s : State) : State :=
  match loadDataInfo env (t_ctx t) with
  | None => s
  | Some c =>
      let m := GenMetaDataFromContext c in
      let s := (Notify env (t_key t) (visitedUserId c) [t_node t] m (-1) s).2 in
      if isFirstSubscribe t then Execute env (t_key t) (visitedUserId c) m s else s
  end.

(* @src service/data_share/subscriber_managers/rdb_subscriber_manager.cpp 148-169 RdbSubscriberManager::Delete *)
Definition Delete (key : Key) (token : Z) (s : State) : Z * State :=
  let '(m, r) := cm_compute_if_present None key (fun value =>
      let value := filter (fun n => firstCallerTokenId n <> token) value in
      (negb (bool_decide (value = [])), value, Some (bool_decide (value = [])))) (rdbCache_ s) in
  let s := set_cache m s in
  match r with
  | None => (E_SUBSCRIBER_NOT_EXIST, s)
  | Some true => (E_OK, set_sched (Stop key (scheduler s)) s)
  | Some false => (E_OK, s)
  end.

Definition not_of (token pid : Z) (n : ObserverNode) : Prop := ~ (callerTokenId n = token /\ callerPid n = pid).
#[local] Instance not_of_dec token pid n : Decision (not_of token pid n).
Proof. unfold not_of. apply _. Defined.

(** The observers of a process that has ended; the timers of the subscriptions that have none left are stopped. *)
(* @src service/data_share/subscriber_managers/rdb_subscriber_manager.cpp 171-189 RdbSubscriberManager::Delete *)
Definition DeleteProcess (token pid : Z) (s : State) : State :=
  let left value := filter (not_of token pid) value in
  let emptied := (by_key (filter (fun e => left e.2 = []) (cm_view (rdbCache_ s)))).*1 in
  set_sched (fold_left (fun h k => Stop k h) emptied (scheduler s))
    (set_cache (cm_erase_if (fun _ value => (bool_decide (left value = []), left value)) (rdbCache_ s)) s).

Definition disable_node (token : Z) (n : ObserverNode) : ObserverNode :=
  if firstCallerTokenId n =? token then mkNode (observer n) (firstCallerTokenId n) (callerTokenId n) (callerPid n) false false (userId n) else n.
Definition enable_node (token : Z) (n : ObserverNode) : ObserverNode :=
  if firstCallerTokenId n =? token then mkNode (observer n) (firstCallerTokenId n) (callerTokenId n) (callerPid n) true (isNotifyOnEnabled n) (userId n) else n.
Definition mark_node (n : ObserverNode) : ObserverNode :=
  if enabled n then n else mkNode (observer n) (firstCallerTokenId n) (callerTokenId n) (callerPid n) (enabled n) true (userId n).

(* @src service/data_share/subscriber_managers/rdb_subscriber_manager.cpp 191-216 RdbSubscriberManager::Disable *)
Definition Disable (key : Key) (token : Z) (s : State) : Z * State :=
  let '(m, r) := cm_compute_if_present None key (fun value =>
      let value := disable_node token <$> value in (true, value, Some (forallb (fun n => negb (enabled n)) value))) (rdbCache_ s) in
  let s := set_cache m s in
  let s := if default true r then set_sched (Scheduler.Disable key (scheduler s)) s else s in
  (match r with Some _ => E_OK | None => E_SUBSCRIBER_NOT_EXIST end, s).

(* @src service/data_share/subscriber_managers/rdb_subscriber_manager.cpp 314-321 RdbSubscriberManager::SetObserverNotifyOnEnabled *)
Definition SetObserverNotifyOnEnabled (nodes : list ObserverNode) : list ObserverNode := mark_node <$> nodes.

(* @src service/data_share/subscriber_managers/rdb_subscriber_manager.cpp 336-350 RdbSubscriberManager::EmitByKey *)
Definition EmitByKey (env : Env) (key : Key) (user : Z) (m : Meta) (s : State) : State :=
  if negb (IsDataProxyURI (uri key)) then s
  else
    let '(c, observers) := cm_compute_if_present [] key (fun value => (true, SetObserverNotifyOnEnabled value, value)) (rdbCache_ s) in
    let s := set_cache c s in
    match observers with [] => s | _ => (Notify env key user observers m (-1) s).2 end.

(* @src service/data_share/common/scheduler_manager.cpp 90-118 SchedulerManager::Enable *)
Definition SchedulerEnable (env : Env) (key : Key) (user : Z) (m : Meta) (s : State) : State :=
  match template env key user with
  | None => s
  | Some tpl =>
      if bool_decide (scheduler_ tpl = "") || negb (bool_decide (is_Some (find (scheduler_ tpl) REMIND_TIMER_FUNC 0))) then s
      else
        let '(isTimerStopped, h) := Enable_locked key (scheduler s) in
        let s := set_sched h s in
        if isTimerStopped then EmitByKey env key user m (Execute env key user m s) else s
  end.

(** The loop of [Enable]: the nodes of the caller are enabled one by one until the lookup of the store fails, which is at the first if at all. *)
Fixpoint enable_nodes (token : Z) (loaded : bool) (value : list ObserverNode) : list ObserverNode :=
  match value with
  | [] => []
  | n :: value =>
      if negb (firstCallerTokenId n =? token) then n :: enable_nodes token loaded value
      else if loaded then enable_node token n :: enable_nodes token loaded value
      else enable_node token n :: value
  end.

(** Those told at once have missed a change; they are told without regard to the user. *)
(* @src service/data_share/subscriber_managers/rdb_subscriber_manager.cpp 218-253 RdbSubscriberManager::Enable *)
Definition Enable (env : Env) (key : Key) (c : Ctx) (s : State) : Z * State :=
  let loaded := loadDataInfo env c in
  let token := c_callerTokenId c in
  let '(m, r) := cm_compute_if_present None key (fun value =>
      let mine := filter (fun n => firstCallerTokenId n = token) value in
      (true, enable_nodes token (bool_decide (is_Some loaded)) value,
       Some (match loaded with
             | None => None
             | Some _ => match mine with [] => None | _ => Some ((fun n => mkNode (observer n) token 0 0 true false 0) <$> filter (fun n => isNotifyOnEnabled n = true) mine) end
             end))) (rdbCache_ s) in
  let s := set_cache m s in
  let s := match r, loaded with
           | Some (Some observers), Some c =>
               let meta := GenMetaDataFromContext c in
               let s := match observers with [] => s | _ => (Notify env key (visitedUserId c) observers meta (-1) s).2 end in
               SchedulerEnable env key (visitedUserId c) meta s
           | _, _ => s
           end in
  (match r with Some _ => E_OK | None => E_SUBSCRIBER_NOT_EXIST end, s).

(** The loops over the map: the nodes of the keys that qualify are marked. *)
Definition mark (hit : Key -> bool) (s : State) : State :=
  set_cache (cm_erase_if (fun k value => (false, if hit k then SetObserverNotifyOnEnabled value else value)) (rdbCache_ s)) s.

Definition notify_all (env : Env) (user : Z) (m : Meta) (account : Z) (obsMap : list (Key * list ObserverNode)) (s : State) : State :=
  fold_left (fun s e => (Notify env e.1 user e.2 m account s).2) obsMap s.

Definition context_of (env : Env) (c : Ctx) : Ctx := if bool_decide (calledSourceDir c = "") then default c (loadDataInfo env c) else c.

(* @src service/data_share/subscriber_managers/rdb_subscriber_manager.cpp 255-284 RdbSubscriberManager::Emit *)
Definition EmitContext (env : Env) (u : string) (c : Ctx) (s : State) : State :=
  if negb (IsDataProxyURI u) then s
  else
    let c := context_of env c in
    let m := GenMetaDataFromContext c in
    let obsMap := by_key (filter (fun e => uri e.1 = u /\ existsb enabled e.2 = true) (cm_view (rdbCache_ s))) in
    let s := mark (fun k => bool_decide (uri k = u)) s in
    ExecuteUri env u (visitedUserId c) m (notify_all env (visitedUserId c) m (-1) obsMap s).

(* @src service/data_share/subscriber_managers/rdb_subscriber_manager.cpp 286-312 RdbSubscriberManager::Emit *)
Definition EmitMeta (env : Env) (u : string) (user : Z) (m : Meta) (s : State) : State :=
  if negb (IsDataProxyURI u) then s
  else
    let obsMap := by_key (filter (fun e => uri e.1 = u) (cm_view (rdbCache_ s))) in
    let s := mark (fun k => bool_decide (uri k = u)) s in
    match obsMap with
    | [] => s
    | _ => ExecuteUri env u user m (notify_all env user m (-1) obsMap s)
    end.

(* @src service/data_share/subscriber_managers/rdb_subscriber_manager.cpp 424-450 RdbSubscriberManager::Emit *)
Definition EmitSubscriber (env : Env) (u : string) (sub : Z) (bundle : string) (c : Ctx) (s : State) : State :=
  if negb (IsDataProxyURI u) then s
  else
    let c := context_of env c in
    let m := GenMetaDataFromContext c in
    let obsMap := by_key (filter (fun e => uri e.1 = u /\ subscriberId e.1 = sub) (cm_view (rdbCache_ s))) in
    let s := mark (fun k => bool_decide (uri k = u /\ subscriberId k = sub)) s in
    Start env (mkKey u sub bundle) (visitedUserId c) m (notify_all env (visitedUserId c) m (accountId c) obsMap s).

(* @src service/data_share/subscriber_managers/rdb_subscriber_manager.cpp 352-365 RdbSubscriberManager::GetEnableObserverCount *)
Definition GetEnableObserverCount (key : Key) (s : State) : nat :=
  match cm_view (rdbCache_ s) !! key with Some v => length (filter (fun n => enabled n = true) v) | None => O end.

(** ** Changes and disabled observers *)
Inductive Emission : Type :=
| ByContext (u : string) (c : Ctx)
| ByMeta (u : string) (user : Z) (m : Meta)
| BySubscriber (u : string) (sub : Z) (bundle : string) (c : Ctx).

Definition run_emission (env : Env) (s : State) (e : Emission) : State :=
  match e with
  | ByContext u c => EmitContext env u c s
  | ByMeta u user m => EmitMeta env u user m s
  | BySubscriber u sub bundle c => EmitSubscriber env u sub bundle c s
  end.

(** A change concerns a subscription when the address is one of proxy data and is the subscription's, and the subscriber if one is given. *)
Definition hits (k : Key) (e : Emission) : bool :=
  match e with
  | ByContext u _ | ByMeta u _ _ => IsDataProxyURI u && bool_decide (uri k = u)
  | BySubscriber u sub _ _ => IsDataProxyURI u && bool_decide (uri k = u /\ subscriberId k = sub)
  end.

Lemma Notify_effects env key user val m account s :
  rdbCache_ (Notify env key user val m account s).2 = rdbCache_ s /\
  exists es, trace (Notify env key user val m account s).2 = trace s ++ es /\
    forall o ch, OnChangeFromRdb o ch ∈ es -> mkKey (ch_uri ch) (ch_subscriberId ch) (ch_bundleName ch) = key /\ exists n, n ∈ val /\ told user n = Some o.
Proof.
  unfold Notify. destruct (template env key user) as [tpl|]; [|split; [done|]; exists []; split; [by rewrite app_nil_r|]; intros ? ? Hin; by apply elem_of_nil in Hin].
  destruct (delegate env _ _ _) as [q|]; [|split; [done|]; exists []; split; [by rewrite app_nil_r|]; intros ? ? Hin; by apply elem_of_nil in Hin].
  split; [done|]. eexists. split; [reflexivity|]. intros o ch Hin. apply elem_of_app in Hin as [Hin|Hin].
  - case_bool_decide; [by apply elem_of_nil in Hin|]. by apply list_elem_of_singleton in Hin.
  - apply list_elem_of_fmap in Hin as (o' & E & Hin). injection E as -> ->. apply list_elem_of_omap in Hin as (n & Hn & Ht). destruct key; eauto.
Qed.

(** What is told by a run of code that leaves the observers alone comes from the groups in [obs]. *)
Definition tells (obs : Key -> list ObserverNode) (s s' : State) : Prop :=
  rdbCache_ s' = rdbCache_ s /\
  exists es, trace s' = trace s ++ es /\
    forall o ch, OnChangeFromRdb o ch ∈ es ->
      exists n user, n ∈ obs (mkKey (ch_uri ch) (ch_subscriberId ch) (ch_bundleName ch)) /\ told user n = Some o.

Lemma tells_refl obs s : tells obs s s.
Proof. split; [done|]. exists []. split; [by rewrite app_nil_r|]. intros ? ? Hin. by apply elem_of_nil in Hin. Qed.

Lemma tells_trans obs s1 s2 s3 : tells obs s1 s2 -> tells obs s2 s3 -> tells obs s1 s3.
Proof.
  intros (E1 & es1 & T1 & H1) (E2 & es2 & T2 & H2). split; [by rewrite E2|]. exists (es1 ++ es2).
  split; [by rewrite T2, T1, app_assoc|]. intros o ch. rewrite elem_of_app. intros [?|?]; eauto.
Qed.

Lemma tells_queries obs s s' es : rdbCache_ s' = rdbCache_ s -> trace s' = trace s ++ es ->
  (forall e, e ∈ es -> exists m q, e = EQuerySql m q) -> tells obs s s'.
Proof. intros E T He. split; [done|]. exists es. split; [done|]. intros o ch Hin. by destruct (He _ Hin) as (? & ? & [=]). Qed.

Lemma ExecuteSchedulerSQL_queries env user m key e : e ∈ ExecuteSchedulerSQL env user m key -> exists m q, e = EQuerySql m q.
Proof.
  unfold ExecuteSchedulerSQL. destruct (template _ _ _); [|intros Hin; by apply elem_of_nil in Hin].
  case_bool_decide; [intros Hin; by apply elem_of_nil in Hin|]. intros ->%list_elem_of_singleton. eauto.
Qed.

Lemma Execute_tells obs env key user m s : tells obs s (Execute env key user m s).
Proof.
  unfold Execute. destruct (delegate _ _ _ _); [|apply tells_refl]. eapply tells_queries; [done|done|]. apply ExecuteSchedulerSQL_queries.
Qed.

Lemma ExecuteUri_tells obs env u user m s : tells obs s (ExecuteUri env u user m s).
Proof.
  unfold ExecuteUri. destruct (negb _); [apply tells_refl|]. destruct (delegate _ _ _ _); [|apply tells_refl].
  eapply tells_queries; [done|done|]. intros e. rewrite list_elem_of_bind. intros (k & Hin & _). by eapply ExecuteSchedulerSQL_queries.
Qed.

Lemma Start_tells obs env key user m s : tells obs s (Start env key user m s).
Proof.
  unfold Start. destruct (Scheduler.Add key (scheduler s)) as [[] h]; [|by eapply (tells_queries obs s _ []); [done|by rewrite app_nil_r|intros e Hin; apply elem_of_nil in Hin]].
  apply (Execute_tells obs env key user m (set_sched h s)).
Qed.

Lemma notify_all_tells obs env user m account obsMap s :
  (forall k v, (k, v) ∈ obsMap -> obs k = v) -> tells obs s (notify_all env user m account obsMap s).
Proof.
  intros Ho. unfold notify_all. revert s. induction obsMap as [|[k v] l IH]; intros s; cbn [fold_left]; [apply tells_refl|].
  eapply tells_trans; [|apply IH; intros; apply Ho; by right].
  destruct (Notify_effects env k user v m account s) as (E & es & T & H). split; [done|]. exists es. split; [done|].
  intros o ch Hin. destruct (H o ch Hin) as (Ek & n & Hn & Ht). exists n, user. split; [|done]. rewrite Ek, (Ho k v); [done|by left].
Qed.

Definition nodes_of (s : State) (k : Key) : list ObserverNode := default [] (cm_view (rdbCache_ s) !! k).

Lemma notify_cache_tells env user m account (P : Key * list ObserverNode -> Prop) `{!forall e, Decision (P e)} s s0 :
  tells (nodes_of s) s0 (notify_all env user m account (by_key (filter P (cm_view (rdbCache_ s)))) s0).
Proof.
  apply notify_all_tells. intros k v Hin%key_entries_elem. apply map_lookup_filter_Some in Hin as [Hin _]. unfold nodes_of. by rewrite Hin.
Qed.

Lemma mark_view hit s k :
  cm_view (rdbCache_ (mark hit s)) !! k = (fun v => if hit k then SetObserverNotifyOnEnabled v else v) <$> cm_view (rdbCache_ s) !! k.
Proof.
  unfold mark, set_cache. cbn [rdbCache_]. rewrite cm_erase_if_spec. unfold erase_if_ref. rewrite map_lookup_imap. by destruct (cm_view _ !! k).
Qed.

(** One change: the observers told are enabled ones of the subscription, the others are marked. *)
Lemma run_emission_effects env e s :
  (forall k, cm_view (rdbCache_ (run_emission env s e)) !! k = (fun v => if hits k e then SetObserverNotifyOnEnabled v else v) <$> cm_view (rdbCache_ s) !! k) /\
  exists es, trace (run_emission env s e) = trace s ++ es /\
    forall o ch, OnChangeFromRdb o ch ∈ es ->
      exists n user, n ∈ nodes_of s (mkKey (ch_uri ch) (ch_subscriberId ch) (ch_bundleName ch)) /\ told user n = Some o.
Proof.
  assert (forall hit s', tells (nodes_of s) (mark hit s) s' ->
    (forall k, cm_view (rdbCache_ s') !! k = (fun v => if hit k then SetObserverNotifyOnEnabled v else v) <$> cm_view (rdbCache_ s) !! k) /\
    exists es, trace s' = trace s ++ es /\
    forall o ch, OnChangeFromRdb o ch ∈ es ->
      exists n user, n ∈ nodes_of s (mkKey (ch_uri ch) (ch_subscriberId ch) (ch_bundleName ch)) /\ told user n = Some o) as Hgen.
  { intros hit s' (E & es & T & H). split; [intros k; rewrite E; apply mark_view|]. by exists es. }
  assert (forall k, (fun v : list ObserverNode => v) <$> cm_view (rdbCache_ s) !! k = cm_view (rdbCache_ s) !! k) as Hid by (intros k; by destruct (_ !! k)).
  destruct e as [u c|u user m|u sub bundle c]; cbn [run_emission hits]; unfold EmitContext, EmitMeta, EmitSubscriber;
    (destruct (IsDataProxyURI u) eqn:Eu; cbn [negb andb];
     [|split; [intros k; by rewrite Hid|]; exists []; split; [by rewrite app_nil_r|]; intros ? ? Hin; by apply elem_of_nil in Hin]).
  - apply (Hgen (fun k => bool_decide (uri k = u))). eapply tells_trans; [|apply ExecuteUri_tells]. apply notify_cache_tells.
  - destruct (by_key _) as [|e0 l] eqn:El; [by apply (Hgen (fun k => bool_decide (uri k = u))), tells_refl|]. rewrite <- El.
    apply (Hgen (fun k => bool_decide (uri k = u))). eapply tells_trans; [|apply ExecuteUri_tells]. apply notify_cache_tells.
  - apply (Hgen (fun k => bool_decide (uri k = u /\ subscriberId k = sub))). eapply tells_trans; [|apply Start_tells]. apply notify_cache_tells.
Qed.

(** The observer of a node, by whom it was subscribed and whether it is enabled: what marking leaves alone. *)
Definition identity (n : ObserverNode) : option Z * Z * bool := (observer n, firstCallerTokenId n, enabled n).

Lemma mark_identity v : identity <$> SetObserverNotifyOnEnabled v = identity <$> v.
Proof. unfold SetObserverNotifyOnEnabled. rewrite <- list_fmap_compose. apply list_fmap_ext. intros i n _. cbn. unfold mark_node. by destruct n as [? ? ? ? []]. Qed.

(** The nodes subscribed by [token] are disabled and marked or not, as [b] says. *)
Definition waiting (token : Z) (b : bool) (n : ObserverNode) : Prop := firstCallerTokenId n = token -> enabled n = false /\ isNotifyOnEnabled n = b.

Lemma mark_waiting token b v : Forall (waiting token b) v -> Forall (waiting token true) (SetObserverNotifyOnEnabled v).
Proof.
  intros H. apply Forall_fmap. eapply Forall_impl; [exact H|]. intros n Hn. unfold waiting, mark_node, compose in *.
  destruct (enabled n) eqn:E; cbn; [|auto]. intros Et. destruct (Hn Et). congruence.
Qed.

Lemma run_emissions_effects env token k es s v b :
  cm_view (rdbCache_ s) !! k = Some v -> Forall (waiting token b) v ->
  let s' := fold_left (run_emission env) es s in
  (exists v', cm_view (rdbCache_ s') !! k = Some v' /\ identity <$> v' = identity <$> v /\ Forall (waiting token (b || existsb (hits k) es)) v') /\
  exists fx, trace s' = trace s ++ fx /\
    forall o ch, OnChangeFromRdb o ch ∈ fx -> mkKey (ch_uri ch) (ch_subscriberId ch) (ch_bundleName ch) = k ->
      exists t, (Some o, t, true) ∈ identity <$> v /\ t <> token.
Proof.
  revert s v b. induction es as [|e es IH]; intros s v b Hv Hw; cbn [fold_left existsb].
  { rewrite orb_false_r. split; [by exists v|]. exists []. split; [by rewrite app_nil_r|]. intros ? ? Hin. by apply elem_of_nil in Hin. }
  destruct (run_emission_effects env e s) as (Hc & fx1 & T1 & H1). specialize (Hc k). rewrite Hv in Hc. cbn in Hc.
  assert (forall o ch, OnChangeFromRdb o ch ∈ fx1 -> mkKey (ch_uri ch) (ch_subscriberId ch) (ch_bundleName ch) = k ->
    exists t, (Some o, t, true) ∈ identity <$> v /\ t <> token) as H1'.
  { intros o ch Hin Ek. destruct (H1 o ch Hin) as (n & user & Hn & Ht). rewrite Ek in Hn. unfold nodes_of in Hn. rewrite Hv in Hn. cbn in Hn.
    unfold told in Ht. destruct (_ && _); [done|]. destruct (enabled n) eqn:En; [|done]. exists (firstCallerTokenId n). split.
    - apply list_elem_of_fmap. exists n. split; [|done]. unfold identity. by rewrite Ht, En.
    - intros Et. rewrite Forall_forall in Hw. destruct (Hw n Hn Et). congruence. }
  set (s1 := run_emission env s e) in *.
  assert (exists v1 b1, cm_view (rdbCache_ s1) !! k = Some v1 /\ identity <$> v1 = identity <$> v /\ Forall (waiting token b1) v1 /\ b1 = b || hits k e) as (v1 & b1 & Hv1 & Ei & Hw1 & ->).
  { destruct (hits k e); [exists (SetObserverNotifyOnEnabled v), true|exists v, b]; rewrite ?orb_true_r, ?orb_false_r; split_and!; try done; [apply mark_identity|by eapply mark_waiting]. }
  destruct (IH s1 v1 _ Hv1 Hw1) as ((v' & Hv' & Ei' & Hw') & fx2 & T2 & H2). split.
  - exists v'. rewrite orb_assoc. split_and!; [done|by rewrite Ei'|done].
  - exists (fx1 ++ fx2). split; [by rewrite T2, T1, app_assoc|]. intros o ch. rewrite elem_of_app, <- Ei. intros [Hin|Hin] Ek; [|eauto].
    rewrite Ei. eauto.
Qed.

Lemma Disable_waiting k token s v : cm_view (rdbCache_ s) !! k = Some v ->
  cm_view (rdbCache_ (Disable k token s).2) !! k = Some (disable_node token <$> v) /\ trace (Disable k token s).2 = trace s.
Proof.
  intros Hv. unfold Disable.
  match goal with |- context [cm_compute_if_present ?z ?t ?f ?m] => pose proof (cm_compute_if_present_spec _ z t f m) as Hs; destruct (cm_compute_if_present z t f m) as [c r] end.
  unfold compute_if_present_ref in Hs. rewrite Hv in Hs. cbn [fst snd] in Hs. injection Hs as Hc _.
  destruct (default true r); (split; [|done]); cbn [snd rdbCache_ set_sched set_cache]; by rewrite Hc, lookup_insert_eq.
Qed.

Lemma enable_nodes_loaded token v : enable_nodes token true v = enable_node token <$> v.
Proof. induction v as [|n v IH]; cbn; [done|]. rewrite IH. unfold enable_node. by destruct (firstCallerTokenId n =? token). Qed.

Lemma waiting_observers token b v : Forall (waiting token b) v ->
  omap observer (filter (fun n => isNotifyOnEnabled n = true) (filter (fun n => firstCallerTokenId n = token) v))
  = if b then omap observer (filter (fun n => firstCallerTokenId n = token) v) else [].
Proof.
  intros Hw. assert (Forall (fun n => isNotifyOnEnabled n = b) (filter (fun n => firstCallerTokenId n = token) v)) as H.
  { apply Forall_forall. intros n [Ht Hin]%list_elem_of_filter. rewrite Forall_forall in Hw. by destruct (Hw n Hin Ht). }
  revert H. generalize (filter (fun n => firstCallerTokenId n = token) v). intros l. induction 1 as [|n l Hn _ IH]; [by destruct b|].
  destruct b; [rewrite filter_cons_True by done|rewrite filter_cons_False by congruence]; [|done]. cbn. by rewrite IH.
Qed.

Lemma mine_observers token (v v' : list ObserverNode) :
  (fun n => (observer n, firstCallerTokenId n)) <$> v = (fun n => (observer n, firstCallerTokenId n)) <$> v' ->
  observer <$> filter (fun n => firstCallerTokenId n = token) v = observer <$> filter (fun n => firstCallerTokenId n = token) v'.
Proof.
  revert v'. induction v as [|n v IH]; intros [|n' v']; try done. intros E. cbn [fmap list_fmap] in E. injection E as Eo Et E.
  specialize (IH _ E). rewrite !filter_cons, Et. destruct (decide _); cbn; [|done]. by rewrite Eo; f_equal.
Qed.

Lemma observers_omap (l l' : list ObserverNode) : observer <$> l = observer <$> l' -> omap observer l = omap observer l' /\ (l = [] <-> l' = []).
Proof.
  revert l'. induction l as [|n l IH]; intros [|n' l']; try done. intros E. cbn in E. injection E as En E. destruct (IH _ E) as [IH' _].
  split; [|done]. cbn. by rewrite En, IH'.
Qed.

(** What the observers are told by a list of effects. *)
Definition told_to (e : Effect) : option Z := match e with OnChangeFromRdb o _ => Some o | _ => None end.

Lemma Notify_enabled env key user obs m tpl q s :
  template env key user = Some tpl -> delegate env (set_user user m) (uri key) (-1) = Some q ->
  exists now, (Notify env key user ((fun o => mkNode o.1 o.2 0 0 true false 0) <$> obs) m (-1) s).2 = emit now s /\ omap told_to now = omap fst obs.
Proof.
  intros Ht Hd. unfold Notify. rewrite Ht, Hd. eexists. split; [reflexivity|]. rewrite omap_app.
  assert (forall A (l : list A) (f : A -> Effect) g, (forall a, told_to (f a) = g a) -> omap told_to (f <$> l) = omap g l) as Hf.
  { intros A l f g Hfg. induction l as [|a l IH]; cbn; [done|]. rewrite Hfg, IH. done. }
  rewrite (Hf _ _ _ Some) by done. replace (omap told_to _) with (@nil Z) by (by case_bool_decide). cbn [app].
  induction obs as [|[o t] obs IH]; [done|]. cbn. unfold told. cbn [userId enabled observer]. rewrite andb_false_r. destruct o as [o|]; cbn in IH |- *; [by f_equal|done].
Qed.

(** Enabling the subscriptions of a caller whose nodes are all marked, or all not. *)
Lemma Enable_told env k c c' s b v tpl q :
  cm_view (rdbCache_ s) !! k = Some v -> loadDataInfo env c = Some c' ->
  template env k (visitedUserId c') = Some tpl ->
  delegate env (set_user (visitedUserId c') (GenMetaDataFromContext c')) (uri k) (-1) = Some q ->
  let token := c_callerTokenId c in
  let mine := filter (fun n => firstCallerTokenId n = token) v in
  Forall (waiting token b) v -> mine <> [] ->
  exists now s', trace s' = trace s ++ now /\ Forall (fun n => firstCallerTokenId n = token -> enabled n = true) (nodes_of s' k) /\
    Enable env k c s = (E_OK, SchedulerEnable env k (visitedUserId c') (GenMetaDataFromContext c') s') /\
    omap told_to now = if b then omap observer mine else [].
Proof.
  intros Hv Hl Ht Hd. cbn zeta. set (token := c_callerTokenId c). intros Hw Hmine.
  unfold Enable. rewrite Hl. rewrite bool_decide_true by eauto.
  match goal with |- context [cm_compute_if_present ?z ?t ?f ?m] => pose proof (cm_compute_if_present_spec _ z t f m) as Hs; destruct (cm_compute_if_present z t f m) as [cc r] end.
  unfold compute_if_present_ref in Hs. rewrite Hv in Hs. cbn [fst snd] in Hs. injection Hs as Hc ->. fold token in Hc |- *.
  pose proof (waiting_observers token _ v Hw) as Ho.
  set (mine := filter (fun n => firstCallerTokenId n = token) v) in *. destruct mine as [|n0 l0] eqn:Em; [done|]. rewrite <- Em in *. cbn [fst snd].
  set (obs := (fun n => (observer n, token)) <$> filter (fun n => isNotifyOnEnabled n = true) mine).
  assert ((fun n => mkNode (observer n) token 0 0 true false 0) <$> filter (fun n => isNotifyOnEnabled n = true) mine
    = (fun o => mkNode o.1 o.2 0 0 true false 0) <$> obs) as -> by (unfold obs; by rewrite <- list_fmap_compose).
  assert (omap fst obs = if b then omap observer mine else []) as Eobs.
  { rewrite <- Ho. unfold obs. generalize (filter (fun n => isNotifyOnEnabled n = true) mine). intros l. induction l as [|n l IH]; cbn; [done|]. cbn in IH. by rewrite IH. }
  assert (Forall (fun n => firstCallerTokenId n = token -> enabled n = true) (nodes_of (set_cache cc s) k)) as Hen.
  { unfold nodes_of. cbn [rdbCache_ set_cache]. rewrite Hc, lookup_insert_eq, enable_nodes_loaded. apply Forall_fmap, Forall_true.
    intros n. unfold compose, enable_node. destruct (Z.eqb_spec (firstCallerTokenId n) token); cbn; done. }
  destruct (Notify_enabled env k (visitedUserId c') obs (GenMetaDataFromContext c') tpl q (set_cache cc s) Ht Hd) as (now & En & Et).
  destruct obs as [|o1 obs1] eqn:Eo; cbn [fmap list_fmap].
  + exists [], (set_cache cc s). split_and!; [by rewrite app_nil_r|done|done|by rewrite <- Eobs].
  + exists now, (emit now (set_cache cc s)). cbn [fmap list_fmap] in En. split_and!; [done|done|by rewrite En|by rewrite <- Eobs, Et].
Qed.


End Rdb.
End RdbSubscriber.

(** ** Observers of published data *)
Module PublishedSubscriber.
Import RdbSubscriber.

(* @src service/data_share/subscriber_managers/published_data_subscriber_manager.h 28-40 PublishedDataKey *)
Record PublishedDataKey := mkPKey { p_key : string; p_bundleName : string; p_subscriberId : Z }.
#[export] Instance PublishedDataKey_eq_dec : EqDecision PublishedDataKey.
Proof. solve_decision. Defined.
#[export] Program Instance PublishedDataKey_countable : Countable PublishedDataKey :=
  inj_countable' (fun k => (p_key k, p_bundleName k, p_subscriberId k)) (fun p => mkPKey p.1.1 p.1.2 p.2) _.
Next Obligation. by intros []. Qed.

(* @src service/data_share/subscriber_managers/published_data_subscriber_manager.cpp 241-256 PublishedDataKey::operator< *)
Definition PKey_lt (a b : PublishedDataKey) : bool :=
  if String.ltb (p_key a) (p_key b) then true
  else if String.ltb (p_key b) (p_key a) then false
  else if String.ltb (p_bundleName a) (p_bundleName b) then true
  else if String.ltb (p_bundleName b) (p_bundleName a) then false
  else p_subscriberId a <? p_subscriberId b.

Definition pkey_le {A} (a b : PublishedDataKey * A) : Prop := PKey_lt b.1 a.1 = false.
#[local] Instance pkey_le_dec {A} (a b : PublishedDataKey * A) : Decision (pkey_le a b).
Proof. unfold pkey_le. apply _. Defined.
Definition by_pkey {A} (m : gmap PublishedDataKey A) : list (PublishedDataKey * A) := merge_sort pkey_le (map_to_list m).

(** A key that is an address takes the bundle from it, if it names one. *)
(* @src service/data_share/subscriber_managers/published_data_subscriber_manager.cpp 230-239 PublishedDataKey::PublishedDataKey *)
Definition NewKey (authority : string -> string) (key bundle : string) (sub : Z) : PublishedDataKey :=
  mkPKey key (if IsDataProxyURI key && negb (bool_decide (authority key = "")) then authority key else bundle) sub.

Abbreviation PData := string.
Abbreviation Told := (gmap Z (list (string * Z * PData))).

Section Published.
Context {CM : ConcurrentMap PublishedDataKey (list ObserverNode)} (E_SUBSCRIBER_NOT_EXIST : Z).
Abbreviation Cache := (cmap PublishedDataKey (list ObserverNode)).

(* @src service/data_share/subscriber_managers/published_data_subscriber_manager.cpp 35-48 PublishedDataSubscriberManager::Add *)
Definition Add (key : PublishedDataKey) (obs : option Z) (first : Z) (caller : Z * Z) (user : Z) (m : Cache) : Z * Cache :=
  (E_OK, (cm_compute [] key (fun value => (true, value ++ [mkNode obs first caller.1 caller.2 true false user], tt)) m).1).

(* @src service/data_share/subscriber_managers/published_data_subscriber_manager.cpp 50-67 PublishedDataSubscriberManager::Delete *)
Definition Delete (key : PublishedDataKey) (first : Z) (m : Cache) : Z * Cache :=
  let '(m, found) := cm_compute_if_present false key (fun value =>
      let value := filter (fun n => firstCallerTokenId n <> first) value in (negb (bool_decide (value = [])), value, true)) m in
  (if found then E_OK else E_SUBSCRIBER_NOT_EXIST, m).

(* @src service/data_share/subscriber_managers/published_data_subscriber_manager.cpp 69-83 PublishedDataSubscriberManager::Delete *)
Definition DeleteProcess (token pid : Z) (m : Cache) : Cache :=
  cm_erase_if (fun _ value => let value := filter (not_of token pid) value in (bool_decide (value = []), value)) m.

(* @src service/data_share/subscriber_managers/published_data_subscriber_manager.cpp 85-103 PublishedDataSubscriberManager::Disable *)
Definition Disable (key : PublishedDataKey) (first : Z) (m : Cache) : Z * Cache :=
  let '(m, found) := cm_compute_if_present false key (fun value => (true, disable_node first <$> value, true)) m in
  (if found then E_OK else E_SUBSCRIBER_NOT_EXIST, m).

(* @src service/data_share/subscriber_managers/published_data_subscriber_manager.cpp 105-122 PublishedDataSubscriberManager::Enable *)
Definition Enable (key : PublishedDataKey) (first : Z) (m : Cache) : Z * Cache :=
  let '(m, found) := cm_compute_if_present false key (fun value => (true, enable_node first <$> value, true)) m in
  (if found then E_OK else E_SUBSCRIBER_NOT_EXIST, m).

(** An observer given with the request is the only one told. *)
Definition put_for (observer : option Z) (user : Z) (n : ObserverNode) : option Z :=
  if enabled n
  then match RdbSubscriber.observer n with
       | None => None
       | Some o =>
           if match observer with Some o' => negb (o =? o') | None => false end then None
           else if negb (userId n =? 0) && negb (userId n =? user) && negb (user =? 0) then None
           else Some o
       end
  else None.

(* @src service/data_share/subscriber_managers/published_data_subscriber_manager.cpp 167-185 PublishedDataSubscriberManager::PutInto *)
Definition PutInto (item : string * Z * PData) (val : list ObserverNode) (observer : option Z) (user : Z) (callbacks : Told) : Told :=
  fold_left (fun cb n => match put_for observer user n with Some o => <[o := default [] (cb !! o) ++ [item]]> cb | None => cb end) val callbacks.

Definition emit_key (keys : list PublishedDataKey) (query : PublishedDataKey -> option PData) (observer : option Z) (user : Z) (cb : Told)
    (e : PublishedDataKey * list ObserverNode) : Told :=
  if bool_decide (e.1 ∈ keys)
  then match query e.1 with Some d => PutInto (p_key e.1, p_subscriberId e.1, d) e.2 observer user cb | None => cb end
  else cb.

(** [query] are the data published under a key for the user; what each observer is told. *)
(* @src service/data_share/subscriber_managers/published_data_subscriber_manager.cpp 125-165 PublishedDataSubscriberManager::Emit *)
Definition Emit (keys : list PublishedDataKey) (query : PublishedDataKey -> option PData) (user : Z) (observer : option Z) (m : Cache) : Told :=
  fold_left (emit_key keys query observer user) (by_pkey (cm_view m)) ∅.

(* @src service/data_share/subscriber_managers/published_data_subscriber_manager.cpp 192-200 PublishedDataSubscriberManager::GetCount *)
Definition GetCount (key : PublishedDataKey) (m : Cache) : nat := length (default [] (cm_view m !! key)).

(* @src service/data_share/subscriber_managers/published_data_subscriber_manager.cpp 202-214 PublishedDataSubscriberManager::IsNotifyOnEnabled *)
Definition IsNotifyOnEnabled (key : PublishedDataKey) (token : Z) (m : Cache) : bool :=
  existsb (fun n => (firstCallerTokenId n =? token) && isNotifyOnEnabled n) (default [] (cm_view m !! key)).

(* @src service/data_share/subscriber_managers/published_data_subscriber_manager.cpp 216-228 PublishedDataSubscriberManager::SetObserversNotifiedOnEnabled *)
Definition SetObserversNotifiedOnEnabled (keys : list PublishedDataKey) (m : Cache) : Cache :=
  fold_left (fun m k => (cm_compute_if_present tt k (fun value => (true, SetObserverNotifyOnEnabled value, tt)) m).1) keys m.

(** What one observer is told of one key. *)
Definition told_of_key (keys : list PublishedDataKey) (query : PublishedDataKey -> option PData) (observer : option Z) (user o : Z) (e : PublishedDataKey * list ObserverNode) : list (string * Z * PData) :=
  match (if bool_decide (e.1 ∈ keys) then query e.1 else None) with
  | Some d => (fun _ => (p_key e.1, p_subscriberId e.1, d)) <$> filter (fun n => put_for observer user n = Some o) e.2
  | None => []
  end.

Lemma PutInto_at item val observer user cb o :
  default [] (PutInto item val observer user cb !! o) = default [] (cb !! o) ++ ((fun _ => item) <$> filter (fun n => put_for observer user n = Some o) val).
Proof.
  unfold PutInto. revert cb. induction val as [|n val IH]; intros cb; cbn [fold_left]; [by rewrite filter_nil, app_nil_r|]. rewrite IH.
  destruct (put_for observer user n) as [o'|] eqn:E; [|by rewrite filter_cons_False by congruence]. destruct (decide (o' = o)) as [->|Hne].
  - rewrite lookup_insert_eq, filter_cons_True by done. cbn. by rewrite <- app_assoc.
  - rewrite lookup_insert_ne by done. by rewrite filter_cons_False by congruence.
Qed.

(** Each observer is told of the keys that were published and have data, once for each of its subscriptions that is enabled and of the user, in the order of the keys. *)
Lemma published_data_told keys query user observer m o :
  default [] (Emit keys query user observer m !! o) = by_pkey (cm_view m) ≫= told_of_key keys query observer user o.
Proof.
  assert (forall l cb, default [] (fold_left (emit_key keys query observer user) l cb !! o) = default [] (cb !! o) ++ (l ≫= told_of_key keys query observer user o)) as H; [|apply H].
  induction l as [|e l IH]; intros cb; cbn [fold_left]; [by rewrite app_nil_r|].
  rewrite IH. cbn [mbind list_bind]. rewrite app_assoc. f_equal. unfold emit_key, told_of_key. case_bool_decide; [|by rewrite app_nil_r].
  destruct (query e.1); [apply PutInto_at|by rewrite app_nil_r].
Qed.
End Published.
End PublishedSubscriber.

(** ** A time service, and a subscription on it *)
(** The next identifier is that of no timer. *)
Definition fresh_timer (t : gmap Z Z) : Z := Z.pos (fresh (set_map (C := gset Z) (D := gset positive) Z.to_pos (dom t))).

Lemma fresh_timer_new t : t !! fresh_timer t = None.
Proof.
  apply not_elem_of_dom. intros Hin. apply (is_fresh (set_map (C := gset Z) (D := gset positive) Z.to_pos (dom t))).
  apply elem_of_map. exists (fresh_timer t). split; [|done]. reflexivity.
Qed.

#[local] Program Instance MapTime : TimeService := {|
  time_service := gmap Z Z;
  live t := t;
  CreateTimer t := (fresh_timer t, <[fresh_timer t := 0]> t);
  StartTimer i due t := match t !! i with Some _ => <[i := due]> t | None => t end;
  DestroyTimer i t := delete i t
|}.
Next Obligation. intros t. cbn. right. split_and!; [done|apply fresh_timer_new|by exists 0]. Qed.
Next Obligation. intros i due t. cbn. by destruct (t !! i). Qed.
Next Obligation. by intros. Qed.

#[local] Existing Instances GmapConcurrent.

Section Samples.
Import Scheduler RdbSubscriber.
Definition sample_key : Key := mkKey "datashareproxy://app/table" 7 "app".
Definition sample_sched : Sched := mkSched ∅ ∅ true (∅ : gmap Z Z).
Definition sample_sys : System := mkSys (SetTimer sample_key 1000 5000 sample_sched) [] [].

Lemma timers_accounted_witness :
  reachable init step sample_sys /\
  timerCache_ (SetTimer sample_key 2000 9000 (sched sample_sys)) !! sample_key = Some 1 /\
  live (service (SetTimer sample_key 2000 9000 (sched sample_sys))) !! 1 = Some 9000.
Proof.
  assert (reachable init step sample_sys) as Hr.
  { eapply reach_step; [apply (reach_init _ _ (mkSys sample_sched [] []))|apply step_set]. by repeat split. }
  split; [done|]. split; [by vm_compute|].
  destruct (timers_accounted sample_sys sample_key 2000 9000 Hr) as (_ & _ & H).
  specialize (H ltac:(reflexivity) ltac:(unfold MAX_MILLISECONDS; lia) ltac:(lia)). exact H.
Defined.

Definition sample_ctx : Ctx := mkCtx 42 100 9 "/data/app" "store" 0 false "app" 0.
Definition sample_env : Env :=
  mkEnv (fun _ _ => Some (mkTpl [("k", "select")] "" "")) (fun _ _ _ => Some (fun _ => "[]")) (fun c => Some c).
Definition sample_state : State :=
  let s := mkState (∅ : gmap Key (list ObserverNode)) sample_sched [] in
  (Add sample_key (Some 1) sample_ctx (42, 10) true (Add sample_key (Some 2) (mkCtx 43 100 9 "/data/app" "store" 0 false "app" 0) (43, 11) true s).2).2.
Definition sample_changes : list Emission := [ByContext "datashareproxy://app/table" sample_ctx; ByContext "datashareproxy://app/other" sample_ctx].


(** Enabling does not clear the mark: a subscription that is enabled twice is told twice of the change it missed. *)
Lemma enabled_twice_told_twice :
  let s2 := fold_left (run_emission (-3) sample_env) sample_changes (Disable (-2) sample_key 42 sample_state).2 in
  let s3 := (Enable (-3) (-2) sample_env sample_key sample_ctx s2).2 in
  omap told_to (trace (Enable (-3) (-2) sample_env sample_key sample_ctx s3).2) = [2; 1; 1].
Proof. by vm_compute. Qed.
End Samples.
