(* ===== verification/ProxyData.v ===== *)
(** * Proxy data shared between applications ([service/data_share])

    Applications publish values under addresses and other applications read, extend and observe them.
    [PublishedProxyData] ([common/proxy_data_manager.cpp]) keeps the values of an address as a row of a table, and for each publisher a row with the
    addresses it has published; [ProxySubscriber] ([subscriber_managers/proxy_data_subscriber_manager.cpp]) keeps the observers,
    and [ProxyService] are the operations of [data_share_service_impl.cpp] that compose the two.

    The table is a parameter (a document database): a write either succeeds or leaves the rows as they are. So are the text of a row, the authority of an
    address ([Uri]) and the limits that are given by the interface library. *)

From Stdlib Require Import Ascii.
From stdpp Require Import sorting.
From S2P Require Import Prelude CppString Interfaces.

(** The error codes of the operations; [E_OK] and [SUCCESS] are the same. *)
Inductive Code : Type := SUCCESS | INNER_ERROR | OVER_LIMIT | NO_PERMISSION | URI_NOT_EXIST | KEY_NOT_EXIST | INCOMPATIBLE_CONFIG_TYPE.
#[export] Instance Code_eq_dec : EqDecision Code.
Proof. solve_decision. Defined.

(** A number with a fraction is known by its bits. *)
Inductive DataProxyValue : Type := VALUE_INT (z : Z) | VALUE_DOUBLE (bits : Z) | VALUE_STRING (s : string) | VALUE_BOOL (b : bool).
#[export] Instance DataProxyValue_eq_dec : EqDecision DataProxyValue.
Proof. solve_decision. Defined.

Inductive ChangeType : Type := INVAILD | INSERT | DELETE | UPDATE.
#[export] Instance ChangeType_eq_dec : EqDecision ChangeType.
Proof. solve_decision. Defined.

(* @src service/data_share/common/proxy_data_manager.h 25-30 ProxyDataUpsertMode *)
Inductive ProxyDataUpsertMode : Type := NORMAL_PUBLISH | PUBLISH_MULTIVALUES | PUT_MULTIVALUES | REMOVE_MULTIVALUES.
#[export] Instance ProxyDataUpsertMode_eq_dec : EqDecision ProxyDataUpsertMode.
Proof. solve_decision. Defined.

(* @src service/data_share/common/proxy_data_manager.h 32-36 QueryMode *)
Inductive QueryMode : Type := QUERY_VALUE | QUERY_MULTIVALUES | ANY_QUERY.
#[export] Instance QueryMode_eq_dec : EqDecision QueryMode.
Proof. solve_decision. Defined.

Abbreviation KeyMap := (gmap string DataProxyValue).
Abbreviation MultiValues := (gmap string KeyMap).

(** The data of a request; the fields an operation leaves at their defaults are not read again. *)
Record DataShareProxyData := mkData {
  uri_ : string; value_ : DataProxyValue; allowList_ : list string; isValueUndefined : bool; isAllowListUndefined : bool;
  isMultiValues_ : bool; multiValues_ : MultiValues; trustProviders_ : list string; maxValueLength_ : Z
}.

(* @src service/data_share/data_share_profile_config.h 73-88 SerialDataShareProxyData *)
Record SerialDataShareProxyData := mkSerial {
  uri : string; value : DataProxyValue; allowList : list string; multiValues : MultiValues; trustProviders : list string;
  isMultiValues : bool; maxValueLength : Z
}.

(* @src service/data_share/common/proxy_data_manager.h 64-75 ProxyDataNode *)
Record ProxyDataNode := mkNode { proxyData : SerialDataShareProxyData; n_userId : Z; n_tokenId : Z }.

(* @src service/data_share/common/proxy_data_manager.h 38-49 ProxyDataListNode *)
Record ProxyDataListNode := mkListNode { uris : list string; l_userId : Z; l_tokenId : Z }.

Record BundleInfo := mkBundle { bundleName : string; userId : Z; tokenId : Z; appIdentifier : string }.

(** Values of several applications and the list of those trusted to add are written for addresses of several values only. *)
(* @src service/data_share/data_share_profile_config.cpp 140-156 SerialDataShareProxyData::Marshal *)
Definition kept_serial (d : SerialDataShareProxyData) : SerialDataShareProxyData :=
  if isMultiValues d then d else mkSerial (uri d) (value d) (allowList d) ∅ [] false (maxValueLength d).
(* @src service/data_share/common/proxy_data_manager.cpp 80-86 ProxyDataNode::Marshal *)
Definition kept (n : ProxyDataNode) : ProxyDataNode := mkNode (kept_serial (proxyData n)) (n_userId n) (n_tokenId n).

(** The entries of a [std::map] in the order of its keys. *)
Definition name_le {A} (a b : string * A) : Prop := String.le a.1 b.1.
#[local] Instance name_le_dec {A} (a b : string * A) : Decision (name_le a b).
Proof. unfold name_le. apply _. Defined.
Definition in_order {A} (m : gmap string A) : list (string * A) := merge_sort name_le (map_to_list m).

Lemma in_order_perm {A} (m : gmap string A) : in_order m ≡ₚ map_to_list m.
Proof. apply merge_sort_Permutation. Qed.

Lemma in_order_elem {A} (m : gmap string A) k v : (k, v) ∈ in_order m <-> m !! k = Some v.
Proof. rewrite <- elem_of_map_to_list. by rewrite in_order_perm. Qed.

(** ** What the operations rely on *)
Class ProxyLimits := {
  URI_MAX_SIZE : nat; APPIDENTIFIER_MAX_SIZE : nat; ALLOW_LIST_MAX_COUNT : nat; PROXY_DATA_MAX_COUNT : nat;
  MAX_SINGLE_MULTIVALUE_LENGTH : nat; MAX_MULTIVALUE_COUNT_PER_APP : nat;
  MAX_LENGTH_4K : Z; MAX_LENGTH_100K : Z; ALLOW_ALL : string;
  double_length : Z -> nat;
  max_lengths : 0 < MAX_LENGTH_4K < MAX_LENGTH_100K
}.

(** The authority of an address: a number has none. *)
Class UriSyntax := { authority : string -> string; authority_number z : authority (to_string z) = "" }.

(** The text of the rows and of their identifiers. *)
Class RowText := {
  id_text : string -> string;
  id_text_inj a b : id_text a = id_text b -> a = b;
  text : Type;
  text_eq_dec :: EqDecision text;
  no_text : text;
  node_text : ProxyDataNode -> text;
  list_text : ProxyDataListNode -> text;
  parse_node : text -> option ProxyDataNode;
  parse_list : text -> option ProxyDataListNode;
  parse_node_text n : parse_node (node_text n) = Some (kept n);
  parse_list_text l : parse_list (list_text l) = Some l;
  parse_node_list l : parse_node (list_text l) = None;
  parse_list_node n : parse_list (node_text n) = None;
  parse_node_empty : parse_node no_text = None;
  parse_list_empty : parse_list no_text = None
}.

(** The table: a write that reports an error has changed nothing. *)
Class KvTable `{RowText} := {
  table : Type;
  rows : table -> gmap string text;
  kv_Upsert : string -> text -> table -> bool * table;
  kv_Delete : string -> table -> bool * table;
  kv_Upsert_spec i v t : rows (kv_Upsert i v t).2 = if (kv_Upsert i v t).1 then <[i := v]> (rows t) else rows t;
  kv_Delete_spec i t : rows (kv_Delete i t).2 = if (kv_Delete i t).1 then delete i (rows t) else rows t
}.

(** A column of numbers over the entries of a map. *)
Definition sum_over {A} (f : A -> nat) (m : gmap string A) : nat := sum_list_with (fun e => f e.2) (map_to_list m).

Lemma sum_with_perm {A} (f : A -> nat) l l' : l ≡ₚ l' -> sum_list_with f l = sum_list_with f l'.
Proof. induction 1; cbn; lia. Qed.

Lemma sum_over_empty {A} (f : A -> nat) : sum_over f ∅ = O.
Proof. unfold sum_over. by rewrite map_to_list_empty. Qed.

Lemma sum_over_insert_new {A} (f : A -> nat) m k a : m !! k = None -> sum_over f (<[k := a]> m) = (f a + sum_over f m)%nat.
Proof. intros Hk. unfold sum_over. by rewrite (sum_with_perm _ _ _ (map_to_list_insert m k a Hk)). Qed.

Lemma sum_over_delete {A} (f : A -> nat) m k a : m !! k = Some a -> sum_over f m = (f a + sum_over f (delete k m))%nat.
Proof. intros Hk. rewrite <- (insert_delete_id m k a Hk) at 1. apply sum_over_insert_new, lookup_delete_eq. Qed.

(** Replacing an entry replaces its share. *)
Lemma sum_over_insert {A} (f : A -> nat) m k a :
  (sum_over f (<[k := a]> m) + match m !! k with Some b => f b | None => 0 end = f a + sum_over f m)%nat.
Proof.
  destruct (m !! k) as [b|] eqn:Hk; [|rewrite sum_over_insert_new by done; lia].
  rewrite <- insert_delete_eq, sum_over_insert_new by apply lookup_delete_eq. rewrite (sum_over_delete f m k b Hk). lia.
Qed.

(** ** The published data *)
Module PublishedProxyData.
Section Published.
Context {PL : ProxyLimits} {US : UriSyntax} {RT : RowText} {KT : KvTable}.

(** No delegate: the database has not been opened. *)
Definition Db : Type := option table.

(* @src service/data_share/common/db_delegate.cpp 201-210 Id::Marshal *)
Definition Id (id : string) (user : Z) : string := id_text (if user =? -1 then id else id +:+ "_" +:+ to_string user).

Definition Get (i : string) (t : table) : text := default no_text (rows t !! i).

(* @src service/data_share/common/utils.cpp 59-66 URIUtils::GetBundleNameFromProxyURI *)
Definition GetBundleNameFromProxyURI (u : string) (bundle : string) : string := if bool_decide (authority u = "") then bundle else authority u.

(* @src service/data_share/common/proxy_data_manager.cpp 111-130 PublishedProxyData::VerifyPermission *)
Definition VerifyPermission (caller : BundleInfo) (data : ProxyDataNode) : bool :=
  (tokenId caller =? n_tokenId data)
  || existsb (fun item => bool_decide (item = ALLOW_ALL) || bool_decide (appIdentifier caller = item)) (allowList (proxyData data)).

(* @src service/data_share/common/proxy_data_manager.cpp 132-151 PublishedProxyData::GetValueLength *)
Definition GetValueLength (v : DataProxyValue) : nat :=
  match v with
  | VALUE_INT z => size (to_string z)
  | VALUE_DOUBLE bits => double_length bits
  | VALUE_STRING s => size s
  | VALUE_BOOL b => if b then 4%nat else 5%nat
  end.

(** The loop of the correction: names that are too long are erased until one more than the limit has been kept. *)
Fixpoint correct_loop (count : nat) (l : list string) : list string :=
  match l with
  | [] => []
  | x :: l =>
      if (APPIDENTIFIER_MAX_SIZE <? size x)%nat then correct_loop count l
      else if (ALLOW_LIST_MAX_COUNT <? count)%nat then x :: l
      else x :: correct_loop (S count) l
  end.

(* @src service/data_share/common/proxy_data_manager.cpp 153-175 CheckAndCorrectAppIdentifierList *)
Definition CheckAndCorrectAppIdentifierList (l : list string) : list string :=
  let l := correct_loop 1 l in
  if (ALLOW_LIST_MAX_COUNT <? length l)%nat then take ALLOW_LIST_MAX_COUNT l else l.

Definition over_length (v : DataProxyValue) (max : Z) : bool :=
  match v with VALUE_STRING s => max <? Z.of_nat (size s) | _ => false end.

(* @src service/data_share/common/proxy_data_manager.cpp 177-208 PublishedProxyData::CheckAndCorrectProxyData *)
Definition CheckAndCorrectProxyData (d : DataShareProxyData) (maxLength : Z) : option DataShareProxyData :=
  if negb (maxLength =? MAX_LENGTH_4K) && negb (maxLength =? MAX_LENGTH_100K) then None
  else if over_length (value_ d) maxLength then None
  else if (URI_MAX_SIZE <? size (uri_ d))%nat then None
  else Some (mkData (uri_ d) (value_ d) (CheckAndCorrectAppIdentifierList (allowList_ d)) (isValueUndefined d) (isAllowListUndefined d)
               (isMultiValues_ d) (multiValues_ d) (CheckAndCorrectAppIdentifierList (trustProviders_ d)) maxLength).

(* @src service/data_share/common/proxy_data_manager.cpp 210-244 PublishedProxyData::PutIntoTable *)
Definition PutIntoTable (db : Db) (user token : Z) (proxyDataList : list string) (d : DataShareProxyData) : Code * Db :=
  match db with
  | None => (INNER_ERROR, db)
  | Some t =>
      let serial := mkSerial (uri_ d) (value_ d) (allowList_ d) (if isMultiValues_ d then multiValues_ d else ∅) (trustProviders_ d) (isMultiValues_ d) (maxValueLength_ d) in
      let '(ok, t) := kv_Upsert (Id (uri_ d) user) (node_text (mkNode serial user token)) t in
      if negb ok then (INNER_ERROR, Some t)
      else match proxyDataList with
           | [] => (SUCCESS, Some t)
           | _ => let '(ok, t) := kv_Upsert (Id (to_string token) user) (list_text (mkListNode proxyDataList user token)) t in
                  (if ok then SUCCESS else INNER_ERROR, Some t)
           end
  end.

(* @src service/data_share/common/proxy_data_manager.cpp 246-282 PublishedProxyData::InsertProxyData *)
Definition InsertProxyData (db : Db) (bundle : string) (user token : Z) (d : DataShareProxyData) : Code * Db :=
  match db with
  | None => (INNER_ERROR, db)
  | Some t =>
      let listQueryResult := Get (Id (to_string token) user) t in
      match (if bool_decide (listQueryResult = no_text) then Some [] else uris <$> parse_list listQueryResult) with
      | None => (INNER_ERROR, db)
      | Some l =>
          if (PROXY_DATA_MAX_COUNT <=? length l)%nat then (OVER_LIMIT, db)
          else if negb (bool_decide (GetBundleNameFromProxyURI (uri_ d) "" = bundle)) then (NO_PERMISSION, db)
          else PutIntoTable db user token (if bool_decide (uri_ d ∈ l) then l else l ++ [uri_ d]) d
      end
  end.

(* @src service/data_share/common/proxy_data_manager.cpp 284-293 PublishedProxyData::UpdateProxyData *)
Definition UpdateProxyData (db : Db) (user token : Z) (d : DataShareProxyData) : Code * Db := PutIntoTable db user token [] d.

(* @src service/data_share/common/proxy_data_manager.cpp 295-342 PublishedProxyData::Query *)
Definition Query (u : string) (caller : BundleInfo) (mode : QueryMode) (db : Db) : Code + DataShareProxyData :=
  match db with
  | None => inl INNER_ERROR
  | Some t =>
      let queryResult := Get (Id u (userId caller)) t in
      if bool_decide (queryResult = no_text) then inl URI_NOT_EXIST
      else match parse_node queryResult with
           | None => inl INNER_ERROR
           | Some data =>
               let d := proxyData data in
               if negb (VerifyPermission caller data) then inl NO_PERMISSION
               else if bool_decide (mode = QUERY_VALUE) && isMultiValues d then inl INCOMPATIBLE_CONFIG_TYPE
               else if bool_decide (mode = QUERY_MULTIVALUES) && negb (isMultiValues d) then inl INCOMPATIBLE_CONFIG_TYPE
               else let own := tokenId caller =? n_tokenId data in
                    inr (mkData (uri d) (value d) (if own then allowList d else []) false false (isMultiValues d)
                           (if bool_decide (mode = QUERY_MULTIVALUES) then multiValues d else ∅) (if own then trustProviders d else []) MAX_LENGTH_100K)
           end
  end.

(* @src service/data_share/common/proxy_data_manager.cpp 819-828 PublishedProxyData::IsConfigCompatible *)
Definition IsConfigCompatible (mode : ProxyDataUpsertMode) (existingIsMultiValues : bool) : bool :=
  match mode with
  | NORMAL_PUBLISH => negb existingIsMultiValues
  | PUT_MULTIVALUES | REMOVE_MULTIVALUES => existingIsMultiValues
  | PUBLISH_MULTIVALUES => true
  end.

(* @src service/data_share/common/proxy_data_manager.cpp 830-841 PublishedProxyData::CanInsertMultiValues *)
Definition CanInsertMultiValues (caller : BundleInfo) (data : ProxyDataNode) : bool :=
  (tokenId caller =? n_tokenId data)
  || existsb (fun item => bool_decide (item = ALLOW_ALL) || bool_decide (appIdentifier caller = item)) (trustProviders (proxyData data)).

(** The first application in the order of the names that has the key decides. *)
Fixpoint can_modify (key : string) (own : bool) (app : string) (l : list (string * KeyMap)) : bool :=
  match l with
  | [] => false
  | (a, keyMap) :: l => if bool_decide (is_Some (keyMap !! key)) then own || bool_decide (app = a) else can_modify key own app l
  end.

(* @src service/data_share/common/proxy_data_manager.cpp 843-859 PublishedProxyData::CanModifyMultiValue *)
Definition CanModifyMultiValue (data : ProxyDataNode) (key : string) (caller : BundleInfo) : bool :=
  can_modify key (tokenId caller =? n_tokenId data) (appIdentifier caller) (in_order (multiValues (proxyData data))).

Definition total_length (mv : MultiValues) : nat := sum_over (sum_over GetValueLength) mv.

(* @src service/data_share/common/proxy_data_manager.cpp 861-886 PublishedProxyData::BuildInitMultiValues *)
Definition BuildInitMultiValues (d : DataShareProxyData) (app : string) : Code + DataShareProxyData :=
  let with_values mv := mkData (uri_ d) (VALUE_STRING "") (allowList_ d) (isValueUndefined d) (isAllowListUndefined d) true mv (trustProviders_ d) (maxValueLength_ d) in
  if bool_decide (multiValues_ d = ∅) then inr (with_values ∅)
  else
    let mergedData := fold_left (fun acc e => e.2 ∪ acc) (in_order (multiValues_ d)) (∅ : KeyMap) in
    if maxValueLength_ d <? Z.of_nat (total_length (multiValues_ d)) then inl OVER_LIMIT
    else inr (with_values {[app := mergedData]}).

Definition rebuilt (existing : ProxyDataNode) (mv : MultiValues) : DataShareProxyData :=
  let d := proxyData existing in
  mkData (uri d) (VALUE_STRING "") (allowList d) false false true mv (trustProviders d) (maxValueLength d).

(* @src service/data_share/common/proxy_data_manager.cpp 888-906 PublishedProxyData::BuildMultiValuesAfterRemove *)
Definition BuildMultiValuesAfterRemove (existing : ProxyDataNode) (key : string) (caller : BundleInfo) : DataShareProxyData :=
  rebuilt existing (alter (delete key) (appIdentifier caller) (multiValues (proxyData existing))).

(* @src service/data_share/common/proxy_data_manager.cpp 908-923 PublishedProxyData::BuildMultiValuesAfterPut *)
Definition BuildMultiValuesAfterPut (existing : ProxyDataNode) (key : string) (v : DataProxyValue) (caller : BundleInfo) : DataShareProxyData :=
  let mv := multiValues (proxyData existing) in
  rebuilt existing (<[appIdentifier caller := <[key := v]> (default ∅ (mv !! appIdentifier caller))]> mv).

(* @src service/data_share/common/proxy_data_manager.cpp 513-522 PublishedProxyData::CalculateCurrentTotal *)
Definition CalculateCurrentTotal (oldData : ProxyDataNode) : nat := total_length (multiValues (proxyData oldData)).

(* @src service/data_share/common/proxy_data_manager.cpp 524-540 PublishedProxyData::CheckValueAndTotalLimits *)
Definition CheckValueAndTotalLimits (v : DataProxyValue) (currentTotal : nat) (maxLength : Z) : Code :=
  let valueLength := GetValueLength v in
  if (MAX_SINGLE_MULTIVALUE_LENGTH <? valueLength)%nat then OVER_LIMIT
  else if (maxLength <? Z.of_nat currentTotal) || (maxLength - Z.of_nat currentTotal <? Z.of_nat valueLength) then OVER_LIMIT
  else SUCCESS.

(** The outcome of an update: the code, the kind of change, the data after it and the table. *)
Record Outcome := mkOut { code : Code; change : ChangeType; updatedData : DataShareProxyData; after : Db }.

Definition refused (c : Code) (d : DataShareProxyData) (db : Db) : Outcome := mkOut c INVAILD d db.

Definition store_for (db : Db) (oldData : ProxyDataNode) (caller : BundleInfo) (d : DataShareProxyData) : Outcome :=
  let '(c, db) := UpdateProxyData db (userId caller) (n_tokenId oldData) d in mkOut c INVAILD d db.

(* @src service/data_share/common/proxy_data_manager.cpp 502-511 PublishedProxyData::UpsertRemoveValue *)
Definition UpsertRemoveValue (db : Db) (oldData : ProxyDataNode) (caller : BundleInfo) (key : string) (blank : DataShareProxyData) : Outcome :=
  if negb (CanModifyMultiValue oldData key caller) then refused KEY_NOT_EXIST blank db
  else store_for db oldData caller (BuildMultiValuesAfterRemove oldData key caller).

(* @src service/data_share/common/proxy_data_manager.cpp 542-549 PublishedProxyData::UpsertMultiValueData *)
Definition UpsertMultiValueData (db : Db) (oldData : ProxyDataNode) (caller : BundleInfo) (key : string) (v : DataProxyValue) : Outcome :=
  store_for db oldData caller (BuildMultiValuesAfterPut oldData key v caller).

(* @src service/data_share/common/proxy_data_manager.cpp 551-604 PublishedProxyData::UpsertPutValue *)
Definition UpsertPutValue (db : Db) (oldData : ProxyDataNode) (caller : BundleInfo) (key : string) (v : DataProxyValue) (blank : DataShareProxyData) : Outcome :=
  let currentTotal := CalculateCurrentTotal oldData in
  let maxLength := maxValueLength (proxyData oldData) in
  let checked := match CheckValueAndTotalLimits v currentTotal maxLength with
                 | SUCCESS => UpsertMultiValueData db oldData caller key v
                 | c => refused c blank db
                 end in
  match multiValues (proxyData oldData) !! appIdentifier caller with
  | None => if negb (CanInsertMultiValues caller oldData) then refused NO_PERMISSION blank db else checked
  | Some keyMap =>
      match keyMap !! key with
      | Some old =>
          let oldSize := GetValueLength old in
          let newSize := GetValueLength v in
          if (oldSize <? newSize)%nat
             && ((maxLength <? Z.of_nat currentTotal) || (maxLength - Z.of_nat currentTotal <? Z.of_nat (newSize - oldSize)))
          then refused OVER_LIMIT blank db
          else UpsertMultiValueData db oldData caller key v
      | None => if (MAX_MULTIVALUE_COUNT_PER_APP <=? map_size keyMap)%nat then refused OVER_LIMIT blank db else checked
      end
  end.

(** The first key of the first application that has one. *)
Fixpoint target (l : list (string * KeyMap)) : option (string * DataProxyValue) :=
  match l with [] => None | (_, keyMap) :: l => match in_order keyMap with e :: _ => Some e | [] => target l end end.

(* @src service/data_share/common/proxy_data_manager.cpp 453-500 PublishedProxyData::UpsertUpdate *)
Definition UpsertUpdate (db : Db) (oldData : ProxyDataNode) (caller : BundleInfo) (d : DataShareProxyData) (mode : ProxyDataUpsertMode) : Outcome :=
  let old := proxyData oldData in
  let multi (f : string -> DataProxyValue -> Outcome) := match target (in_order (multiValues_ d)) with None => refused KEY_NOT_EXIST d db | Some (k, v) => f k v end in
  match mode with
  | NORMAL_PUBLISH =>
      if negb (tokenId caller =? n_tokenId oldData) then refused NO_PERMISSION d db
      else
        let v := if isValueUndefined d then value old else value_ d in
        let updateData := mkData (uri_ d) v (if isAllowListUndefined d then allowList old else allowList_ d) (isValueUndefined d) (isAllowListUndefined d)
                            (isMultiValues_ d) (multiValues_ d) (trustProviders_ d) (maxValueLength_ d) in
        let '(c, db) := UpdateProxyData db (userId caller) (tokenId caller) updateData in
        mkOut c (if bool_decide (value old = v) then INVAILD else UPDATE) d db
  | PUT_MULTIVALUES => multi (fun k v => UpsertPutValue db oldData caller k v d)
  | REMOVE_MULTIVALUES => multi (fun k _ => UpsertRemoveValue db oldData caller k d)
  | PUBLISH_MULTIVALUES => multi (fun _ _ => refused INNER_ERROR d db)
  end.

(* @src service/data_share/common/proxy_data_manager.cpp 431-451 PublishedProxyData::UpsertInsert *)
Definition UpsertInsert (db : Db) (d : DataShareProxyData) (caller : BundleInfo) (mode : ProxyDataUpsertMode) : Outcome :=
  let insert d' := let '(c, db) := InsertProxyData db (bundleName caller) (userId caller) (tokenId caller) d' in mkOut c INSERT d db in
  match mode with
  | NORMAL_PUBLISH => insert d
  | PUBLISH_MULTIVALUES => match BuildInitMultiValues d (appIdentifier caller) with inl c => refused c d db | inr initData => insert initData end
  | _ => refused URI_NOT_EXIST d db
  end.

(* @src service/data_share/common/proxy_data_manager.cpp 344-381 PublishedProxyData::Upsert *)
Definition Upsert (request : DataShareProxyData) (caller : BundleInfo) (maxLength : Z) (mode : ProxyDataUpsertMode) (db : Db) : Outcome :=
  match db with
  | None => refused INNER_ERROR request db
  | Some t =>
      match CheckAndCorrectProxyData request maxLength with
      | None => refused OVER_LIMIT request db
      | Some d =>
          let queryResult := Get (Id (uri_ d) (userId caller)) t in
          if bool_decide (queryResult = no_text) then UpsertInsert db d caller mode
          else if bool_decide (mode = PUBLISH_MULTIVALUES) then refused INCOMPATIBLE_CONFIG_TYPE d db
          else match parse_node queryResult with
               | None => refused INNER_ERROR d db
               | Some oldData =>
                   if negb (IsConfigCompatible mode (isMultiValues (proxyData oldData))) then refused INCOMPATIBLE_CONFIG_TYPE d db
                   else UpsertUpdate db oldData caller d mode
               end
      end
  end.

(* @src service/data_share/common/proxy_data_manager.cpp 383-429 PublishedProxyData::UpsertMultiValues *)
Definition UpsertMultiValues (request : DataShareProxyData) (caller : BundleInfo) (maxLength : Z) (mode : ProxyDataUpsertMode) (db : Db) : Outcome :=
  match db with
  | None => refused INNER_ERROR request db
  | Some t =>
      match CheckAndCorrectProxyData request maxLength with
      | None => refused OVER_LIMIT request db
      | Some d =>
          let queryResult := Get (Id (uri_ d) (userId caller)) t in
          if bool_decide (queryResult = no_text) then refused URI_NOT_EXIST d db
          else match parse_node queryResult with
               | None => refused INNER_ERROR d db
               | Some oldData =>
                   if negb (IsConfigCompatible mode (isMultiValues (proxyData oldData))) then refused INCOMPATIBLE_CONFIG_TYPE d db
                   else UpsertUpdate db oldData caller d mode
               end
      end
  end.

(** [ProxyDataList::Query]: the addresses of a publisher; none stands for a negative count. *)
(* @src service/data_share/common/proxy_data_manager.cpp 690-712 ProxyDataList::Query *)
Definition QueryList (token user : Z) (db : Db) : option (list string) :=
  match db with None => None | Some t => uris <$> parse_list (Get (Id (to_string token) user) t) end.

Definition erase_first (u : string) (l : list string) : list string :=
  match list_find (eq u) l with Some (i, _) => delete i l | None => l end.

(* @src service/data_share/common/proxy_data_manager.cpp 606-640 PublishedProxyData::UpdateProxyDataList *)
Definition UpdateProxyDataList (db : Db) (u : string) (caller : BundleInfo) : Code * Db :=
  match db with
  | None => (INNER_ERROR, db)
  | Some t =>
      match QueryList (tokenId caller) (userId caller) db with
      | None | Some [] => (INNER_ERROR, db)
      | Some l =>
          let i := Id (to_string (tokenId caller)) (userId caller) in
          let '(ok, t) := match erase_first u l with
                          | [] => kv_Delete i t
                          | l => kv_Upsert i (list_text (mkListNode l (userId caller) (tokenId caller))) t
                          end in
          (if ok then SUCCESS else INNER_ERROR, Some t)
      end
  end.

(* @src service/data_share/common/proxy_data_manager.cpp 642-688 PublishedProxyData::Delete *)
Definition Delete (u : string) (caller : BundleInfo) (db : Db) : Code * option DataShareProxyData * Db :=
  match db with
  | None => (INNER_ERROR, None, db)
  | Some t =>
      if negb (bool_decide (bundleName caller = GetBundleNameFromProxyURI u "")) then (NO_PERMISSION, None, db)
      else
        let queryResult := Get (Id u (userId caller)) t in
        if bool_decide (queryResult = no_text) then (URI_NOT_EXIST, None, db)
        else match parse_node queryResult with
             | None => (INNER_ERROR, None, db)
             | Some oldData =>
                 if negb (tokenId caller =? n_tokenId oldData) then (NO_PERMISSION, None, db)
                 else
                   let '(ok, t) := kv_Delete (Id u (userId caller)) t in
                   if negb ok then (INNER_ERROR, None, Some t)
                   else
                     let '(c, db) := UpdateProxyDataList (Some t) u caller in
                     let d := proxyData oldData in
                     match c with
                     | SUCCESS => (SUCCESS, Some (mkData (uri d) (value d) (allowList d) false false (isMultiValues d) (multiValues d) [] MAX_LENGTH_100K), db)
                     | _ => (c, None, db)
                     end
             end
  end.

(** The configuration of the modules of an application, as read from its resources. *)
(* @src service/data_share/common/proxy_data_manager.cpp 714-741 ProxyDataManager::GetCrossAppSharedConfig *)
Definition GetCrossAppSharedConfig (modules : option (list (option (list SerialDataShareProxyData)))) : option (list DataShareProxyData) :=
  ls ← modules;
  Some ((fun d => mkData (uri d) (value d) (allowList d) false false false ∅ [] MAX_LENGTH_100K) <$> mjoin (default [] <$> ls)).

Definition installed (bundle : string) (user token : Z) : BundleInfo := mkBundle bundle user token "".
Definition publish_all (caller : BundleInfo) (ds : list DataShareProxyData) (db : Db) : Db :=
  fold_left (fun db d => after (Upsert d caller MAX_LENGTH_100K NORMAL_PUBLISH db)) ds db.
Definition delete_all (caller : BundleInfo) (us : list string) (db : Db) : Db := fold_left (fun db u => (Delete u caller db).2) us db.

(* @src service/data_share/common/proxy_data_manager.cpp 743-763 ProxyDataManager::OnAppInstall *)
Definition OnAppInstall (bundle : string) (user token : Z) modules (db : Db) : Db :=
  match GetCrossAppSharedConfig modules with None => db | Some ds => publish_all (installed bundle user token) ds db end.

(* @src service/data_share/common/proxy_data_manager.cpp 765-794 ProxyDataManager::OnAppUpdate *)
Definition OnAppUpdate (bundle : string) (user token : Z) modules (db : Db) : Db :=
  match GetCrossAppSharedConfig modules with
  | None => db
  | Some ds => publish_all (installed bundle user token) ds (delete_all (installed bundle user token) (default [] (QueryList token user db)) db)
  end.

(* @src service/data_share/common/proxy_data_manager.cpp 796-817 ProxyDataManager::OnAppUninstall *)
Definition OnAppUninstall (bundle : string) (user token : Z) (db : Db) : Db :=
  delete_all (installed bundle user token) (default [] (QueryList token user db)) db.

(** ** The correction of the lists of names *)
Definition short_name (x : string) : Prop := (size x <= APPIDENTIFIER_MAX_SIZE)%nat.
#[local] Instance short_name_dec x : Decision (short_name x).
Proof. unfold short_name. apply _. Defined.

Lemma correct_loop_take count l : (count <= S ALLOW_LIST_MAX_COUNT)%nat ->
  take (S ALLOW_LIST_MAX_COUNT - count) (correct_loop count l) = take (S ALLOW_LIST_MAX_COUNT - count) (filter short_name l).
Proof.
  revert count. induction l as [|x l IH]; intros count Hc; cbn [correct_loop]; [by rewrite filter_nil|].
  destruct (Nat.ltb_spec APPIDENTIFIER_MAX_SIZE (size x)) as [Hx|Hx].
  { rewrite filter_cons_False by (unfold short_name; lia). by apply IH. }
  rewrite filter_cons_True by done. destruct (Nat.ltb_spec ALLOW_LIST_MAX_COUNT count) as [Hl|Hl].
  - replace (S ALLOW_LIST_MAX_COUNT - count)%nat with O by lia. done.
  - replace (S ALLOW_LIST_MAX_COUNT - count)%nat with (S (S ALLOW_LIST_MAX_COUNT - S count)) by lia. cbn [take].
    by rewrite (IH (S count)) by lia.
Qed.

(** Correcting a list of names keeps, in their order, the first names that are not too long, up to the limit, no more and no fewer. *)
Lemma allow_list_corrected l :
  CheckAndCorrectAppIdentifierList l = take ALLOW_LIST_MAX_COUNT (filter short_name l).
Proof.
  unfold CheckAndCorrectAppIdentifierList. pose proof (correct_loop_take 1 l ltac:(lia)) as Ht.
  replace (S ALLOW_LIST_MAX_COUNT - 1)%nat with ALLOW_LIST_MAX_COUNT in * by lia. rewrite <- Ht.
  destruct (Nat.ltb_spec ALLOW_LIST_MAX_COUNT (length (correct_loop 1 l))) as [|Hlen]; [done|]. by rewrite take_ge.
Qed.

Lemma corrected_names l :
  (length (CheckAndCorrectAppIdentifierList l) <= ALLOW_LIST_MAX_COUNT)%nat /\ Forall short_name (CheckAndCorrectAppIdentifierList l).
Proof.
  rewrite allow_list_corrected. split; [rewrite length_take; lia|]. apply Forall_take, Forall_forall. intros x Hx. by apply list_elem_of_filter in Hx as [? _].
Qed.

(** ** The rows of the table

    [bundle_of] is the bundle a token was given to. *)
Context (bundle_of : Z -> string).

Definition names_ok (l : list string) : Prop := (length l <= ALLOW_LIST_MAX_COUNT)%nat /\ Forall short_name l.

(** A stored address: of the bundle of its publisher and within the limits. *)
Record node_ok (n : ProxyDataNode) : Prop := mk_node_ok {
  ok_user : n_userId n <> -1;
  ok_owner : authority (uri (proxyData n)) = bundle_of (n_tokenId n);
  ok_authority : authority (uri (proxyData n)) <> "";
  ok_uri : (size (uri (proxyData n)) <= URI_MAX_SIZE)%nat;
  ok_allow : names_ok (allowList (proxyData n));
  ok_trust : names_ok (trustProviders (proxyData n));
  ok_value : over_length (value (proxyData n)) MAX_LENGTH_100K = false;
  ok_max : maxValueLength (proxyData n) = MAX_LENGTH_4K \/ maxValueLength (proxyData n) = MAX_LENGTH_100K;
  ok_total : Z.of_nat (total_length (multiValues (proxyData n))) <= maxValueLength (proxyData n)
}.

Record list_ok (l : ProxyDataListNode) : Prop := mk_list_ok {
  okl_user : l_userId l <> -1;
  okl_count : (length (uris l) <= PROXY_DATA_MAX_COUNT)%nat;
  okl_nodup : NoDup (uris l);
  okl_some : uris l <> []
}.

Definition row_ok (i : string) (x : text) : Prop :=
  (exists n, x = node_text n /\ i = Id (uri (proxyData n)) (n_userId n) /\ node_ok (kept n))
  \/ (exists l, x = list_text l /\ i = Id (to_string (l_tokenId l)) (l_userId l) /\ list_ok l).

Definition RowInv (t : table) : Prop := forall i x, rows t !! i = Some x -> row_ok i x.

Lemma separator_inj {A} (c : A) l1 l2 r1 r2 : c ∉ r1 -> c ∉ r2 -> l1 ++ c :: r1 = l2 ++ c :: r2 -> l1 = l2 /\ r1 = r2.
Proof.
  revert l2. induction l1 as [|a l1 IH]; intros [|b l2] H1 H2 E; cbn in E; [by injection E|injection E as -> ->|injection E as -> <-|injection E as -> E].
  - exfalso. apply H1, elem_of_app. right. by left.
  - exfalso. apply H2, elem_of_app. right. by left.
  - by destruct (IH l2 H1 H2 E) as [-> ->].
Qed.

Lemma Id_inj a b u v : u <> -1 -> v <> -1 -> Id a u = Id b v -> a = b /\ u = v.
Proof.
  unfold Id. intros Hu Hv E. apply id_text_inj in E. rewrite (proj2 (Z.eqb_neq u (-1))), (proj2 (Z.eqb_neq v (-1))) in E by done.
  apply (f_equal chars) in E. rewrite !chars_app in E. cbn [chars app] in E.
  apply separator_inj in E as [E1 E2]; [|apply to_string_chars; set_solver..]. split; [by apply chars_inj|]. by apply to_string_inj, chars_inj.
Qed.

Lemma RowInv_upsert i x t : RowInv t -> row_ok i x -> RowInv (kv_Upsert i x t).2.
Proof.
  intros HI Hx j y. rewrite kv_Upsert_spec. destruct (kv_Upsert i x t).1; [|apply HI].
  destruct (decide (j = i)) as [->|]; [rewrite lookup_insert_eq; by intros [= <-]|rewrite lookup_insert_ne by done; apply HI].
Qed.

Lemma RowInv_delete i t : RowInv t -> RowInv (kv_Delete i t).2.
Proof.
  intros HI j y. rewrite kv_Delete_spec. destruct (kv_Delete i t).1; [|apply HI]. rewrite lookup_delete_Some. intros [_ ?]. by apply HI.
Qed.

(** Reading a row of the table. *)
Lemma kept_uri n : uri (proxyData (kept n)) = uri (proxyData n).
Proof. destruct n as [[] ? ?]. unfold kept, kept_serial. cbn. by destruct isMultiValues0. Qed.

Lemma read_node t u user n : RowInv t -> user <> -1 -> parse_node (Get (Id u user) t) = Some n ->
  node_ok n /\ uri (proxyData n) = u /\ n_userId n = user /\ exists n', rows t !! Id u user = Some (node_text n') /\ kept n' = n.
Proof.
  intros HI Hu. unfold Get. destruct (rows t !! Id u user) as [x|] eqn:E; cbn; [|by rewrite parse_node_empty].
  destruct (HI _ _ E) as [(n' & -> & Hi & Hok)|(l & -> & _)]; [|by rewrite parse_node_list].
  rewrite parse_node_text. intros [= <-]. apply Id_inj in Hi as [-> ->]; [|done|apply Hok]. rewrite kept_uri. eauto 6.
Qed.

Lemma read_list t token user l : RowInv t -> user <> -1 -> parse_list (Get (Id (to_string token) user) t) = Some l ->
  list_ok l /\ l_tokenId l = token /\ l_userId l = user.
Proof.
  intros HI Hu. unfold Get. destruct (rows t !! Id (to_string token) user) as [x|] eqn:E; cbn; [|by rewrite parse_list_empty].
  destruct (HI _ _ E) as [(n' & -> & _)|(l' & -> & Hi & Hok)]; [by rewrite parse_list_node|].
  rewrite parse_list_text. intros [= ->]. apply Id_inj in Hi as [Hi <-]; [|done|apply Hok]. by apply to_string_inj in Hi.
Qed.

Lemma read_empty t i : RowInv t -> Get i t = no_text -> rows t !! i = None.
Proof.
  intros HI E. unfold Get in E. destruct (rows t !! i) as [x|] eqn:Ei; [|done]. cbn in E. subst x.
  destruct (HI _ _ Ei) as [(n & E & _)|(l & E & _)]; [pose proof (parse_node_text n) as Hp|pose proof (parse_list_text l) as Hp]; rewrite <- E in Hp;
    [by rewrite parse_node_empty in Hp|by rewrite parse_list_empty in Hp].
Qed.

Definition DbInv (db : Db) : Prop := match db with Some t => RowInv t | None => True end.

(** Callers are known by a token, which is given to one bundle. *)
Definition caller_ok (c : BundleInfo) : Prop := userId c <> -1 /\ bundleName c = bundle_of (tokenId c) /\ bundleName c <> "".

(** The node [PutIntoTable] writes. *)
Definition node_of (d : DataShareProxyData) (user token : Z) : ProxyDataNode :=
  mkNode (mkSerial (uri_ d) (value_ d) (allowList_ d) (if isMultiValues_ d then multiValues_ d else ∅) (trustProviders_ d) (isMultiValues_ d) (maxValueLength_ d)) user token.

Lemma PutIntoTable_inv db user token l d :
  DbInv db -> node_ok (kept (node_of d user token)) -> (l <> [] -> list_ok (mkListNode l user token)) -> DbInv (PutIntoTable db user token l d).2.
Proof.
  intros HI Hn Hl. destruct db as [t|]; [|done]. cbn [PutIntoTable].
  assert (RowInv (kv_Upsert (Id (uri_ d) user) (node_text (node_of d user token)) t).2) as HI1 by (apply RowInv_upsert; [done|left; by exists (node_of d user token)]).
  fold (node_of d user token). destruct (kv_Upsert (Id (uri_ d) user) _ t) as [[] t1]; cbn [negb snd] in *; [|done].
  destruct l as [|u l]; [done|].
  assert (RowInv (kv_Upsert (Id (to_string token) user) (list_text (mkListNode (u :: l) user token)) t1).2) as HI2.
  { apply RowInv_upsert; [done|]. right. exists (mkListNode (u :: l) user token). split_and!; [done|done|by apply Hl]. }
  by destruct (kv_Upsert (Id (to_string token) user) _ t1) as [[] t2].
Qed.

(** What the check leaves of a request. *)
Definition checked (d : DataShareProxyData) : Prop :=
  (size (uri_ d) <= URI_MAX_SIZE)%nat /\ names_ok (allowList_ d) /\ names_ok (trustProviders_ d) /\
  over_length (value_ d) MAX_LENGTH_100K = false /\ (maxValueLength_ d = MAX_LENGTH_4K \/ maxValueLength_ d = MAX_LENGTH_100K).

Lemma CheckAndCorrect_checked request max d : CheckAndCorrectProxyData request max = Some d ->
  checked d /\ uri_ d = uri_ request /\ isMultiValues_ d = isMultiValues_ request /\ multiValues_ d = multiValues_ request.
Proof.
  unfold CheckAndCorrectProxyData. destruct (_ && _) eqn:Em; [done|]. destruct (over_length _ _) eqn:Eo; [done|].
  destruct (Nat.ltb_spec URI_MAX_SIZE (size (uri_ request))); [done|]. intros [= <-]. split; [|done].
  assert (max = MAX_LENGTH_4K \/ max = MAX_LENGTH_100K) as Hm by (apply andb_false_iff in Em as [Em|Em]; apply negb_false_iff, Z.eqb_eq in Em; auto).
  split_and!; cbn; [done|apply corrected_names|apply corrected_names| |done].
  destruct (value_ request); try done. cbn in *. pose proof max_lengths. apply Z.ltb_ge in Eo. apply Z.ltb_ge. destruct Hm; lia.
Qed.

Lemma node_of_ok d user token :
  checked d -> user <> -1 -> authority (uri_ d) = bundle_of token -> authority (uri_ d) <> "" ->
  (isMultiValues_ d = true -> Z.of_nat (total_length (multiValues_ d)) <= maxValueLength_ d) -> node_ok (kept (node_of d user token)).
Proof.
  intros (H1 & H2 & H3 & H4 & H5) Hu Ho Ha Ht. unfold kept, kept_serial, node_of. cbn. destruct (isMultiValues_ d); split; cbn; try done; [by apply Ht|by split; [cbn; lia|constructor]|].
  unfold total_length. rewrite sum_over_empty. pose proof max_lengths. destruct H5; lia.
Qed.

Lemma InsertProxyData_inv db c d :
  DbInv db -> caller_ok c -> checked d -> (isMultiValues_ d = true -> Z.of_nat (total_length (multiValues_ d)) <= maxValueLength_ d) ->
  DbInv (InsertProxyData db (bundleName c) (userId c) (tokenId c) d).2.
Proof.
  intros HI (Hu & Hb & Hne) Hd Ht. destruct db as [t|]; [|done]. cbn [InsertProxyData].
  destruct (if bool_decide _ then _ else _) as [l|] eqn:El; [|done].
  destruct (Nat.leb_spec PROXY_DATA_MAX_COUNT (length l)) as [|Hlen]; [done|].
  destruct (bool_decide_reflect (GetBundleNameFromProxyURI (uri_ d) "" = bundleName c)) as [Ha|]; [|done]. cbn [negb].
  unfold GetBundleNameFromProxyURI in Ha. destruct (bool_decide_reflect (authority (uri_ d) = "")) as [Ea|Ea]; [congruence|].
  apply PutIntoTable_inv; [done|apply node_of_ok; try done; congruence|]. intros Hl.
  assert (NoDup l) as Hnd.
  { clear Hl. destruct (bool_decide_reflect (Get (Id (to_string (tokenId c)) (userId c)) t = no_text)); [injection El as <-; constructor|]. destruct (parse_list _) as [ln|] eqn:Ep; [|done]. injection El as <-. by apply (read_list _ _ _ _ HI Hu Ep). }
  case_bool_decide as Hin; split; cbn; try done; [lia|rewrite length_app; cbn; lia|].
  apply NoDup_app. split_and!; [done|intros x Hx ->%list_elem_of_singleton; done|apply NoDup_singleton].
Qed.

(** ** The lengths of the values *)
Lemma sum_over_union (f : DataProxyValue -> nat) (m1 m2 : KeyMap) : (sum_over f (m1 ∪ m2) <= sum_over f m1 + sum_over f m2)%nat.
Proof.
  induction m1 as [|k v m1 Hk IH] using map_ind; [rewrite map_empty_union; lia|].
  rewrite <- insert_union_l, (sum_over_insert_new f m1) by done. pose proof (sum_over_insert f (m1 ∪ m2) k v). lia.
Qed.

Lemma sum_over_order {A} (f : A -> nat) (m : gmap string A) : sum_over f m = sum_list_with (fun e => f e.2) (in_order m).
Proof. unfold sum_over. apply sum_with_perm. by rewrite in_order_perm. Qed.

Lemma merged_length (l : list (string * KeyMap)) acc :
  (sum_over GetValueLength (fold_left (fun acc e => e.2 ∪ acc) l acc)
   <= sum_list_with (fun e => sum_over GetValueLength e.2) l + sum_over GetValueLength acc)%nat.
Proof.
  revert acc. induction l as [|e l IH]; intros acc; cbn; [lia|]. pose proof (IH (e.2 ∪ acc)). pose proof (sum_over_union GetValueLength e.2 acc). lia.
Qed.

Lemma BuildInit_total d app d' : BuildInitMultiValues d app = inr d' -> checked d ->
  checked d' /\ uri_ d' = uri_ d /\ isMultiValues_ d' = true /\ Z.of_nat (total_length (multiValues_ d')) <= maxValueLength_ d'.
Proof.
  intros E (H1 & H2 & H3 & H4 & H5). pose proof max_lengths. unfold BuildInitMultiValues in E.
  assert (forall z : string, size z = O -> (MAX_LENGTH_100K <? Z.of_nat (size z)) = false) as Hz by (intros z ->; apply Z.ltb_ge; lia).
  case_bool_decide as Em.
  - injection E as <-. unfold checked. cbn. split_and!; try done; [by apply (Hz "")|]. unfold total_length. rewrite sum_over_empty. destruct H5; lia.
  - destruct (Z.ltb_spec (maxValueLength_ d) (Z.of_nat (total_length (multiValues_ d)))) as [|Hle]; [done|]. injection E as <-. unfold checked. cbn.
    split_and!; try done; [by apply (Hz "")|]. eapply Z.le_trans; [apply Nat2Z.inj_le|exact Hle]. unfold total_length.
    rewrite <- (insert_empty (M := gmap string)), sum_over_insert_new, sum_over_empty by apply lookup_empty.
    pose proof (merged_length (in_order (multiValues_ d)) ∅) as Hm. rewrite sum_over_empty in Hm. rewrite (sum_over_order _ (multiValues_ d)). lia.
Qed.

(** The total after an application puts or removes a value. *)
Lemma total_put (mv : MultiValues) app key v :
  (total_length (<[app := <[key := v]> (default ∅ (mv !! app))]> mv)
   + match mv !! app with Some km => match km !! key with Some o => GetValueLength o | None => 0 end | None => 0 end
   = total_length mv + GetValueLength v)%nat.
Proof.
  unfold total_length. pose proof (sum_over_insert (sum_over GetValueLength) mv app (<[key := v]> (default ∅ (mv !! app)))) as H1.
  destruct (mv !! app) as [km|]; cbn [default id] in *.
  - pose proof (sum_over_insert GetValueLength km key v). lia.
  - pose proof (sum_over_insert GetValueLength ∅ key v) as H2. rewrite lookup_empty, sum_over_empty in H2. lia.
Qed.

Lemma total_remove (mv : MultiValues) app key : (total_length (alter (delete key) app mv) <= total_length mv)%nat.
Proof.
  unfold total_length. destruct (mv !! app) as [km|] eqn:E.
  - rewrite <- (insert_id mv app km E) at 1. rewrite alter_insert_eq. pose proof (sum_over_insert (sum_over GetValueLength) mv app (delete key km)) as H1. rewrite E in H1.
    destruct (km !! key) as [o|] eqn:Ek; [|by rewrite (delete_id km) in * by done; lia].
    pose proof (sum_over_delete GetValueLength km key o Ek). lia.
  - rewrite alter_id; [done|]. intros km. congruence.
Qed.

Lemma rebuilt_checked n mv : node_ok n -> checked (rebuilt n mv).
Proof. intros []. pose proof max_lengths. unfold checked. cbn. split_and!; try done. apply Z.ltb_ge. lia. Qed.

Lemma store_for_inv db n c mv :
  DbInv db -> node_ok n -> userId c <> -1 -> Z.of_nat (total_length mv) <= maxValueLength (proxyData n) -> DbInv (after (store_for db n c (rebuilt n mv))).
Proof.
  intros HI Hn Hu Ht. unfold store_for, UpdateProxyData.
  assert (DbInv (PutIntoTable db (userId c) (n_tokenId n) [] (rebuilt n mv)).2) as H; [|by destruct (PutIntoTable _ _ _ _ _)].
  apply PutIntoTable_inv; [done| |done]. apply node_of_ok; [by apply rebuilt_checked|done|apply Hn|apply Hn|done].
Qed.

Lemma UpsertPutValue_inv db n c key v blank : DbInv db -> node_ok n -> userId c <> -1 -> DbInv (after (UpsertPutValue db n c key v blank)).
Proof.
  intros HI Hn Hu. pose proof (total_put (multiValues (proxyData n)) (appIdentifier c) key v) as Hp. pose proof (ok_total _ Hn) as Ht.
  unfold UpsertPutValue, UpsertMultiValueData, BuildMultiValuesAfterPut, CheckValueAndTotalLimits, CalculateCurrentTotal.
  destruct (multiValues (proxyData n) !! appIdentifier c) as [km|] eqn:Ea; [destruct (km !! key) as [o|] eqn:Ek|].
  - destruct (_ && _) eqn:E; [done|]. apply store_for_inv; try done. cbn [default id] in *. apply andb_false_iff in E as [E|E].
    + apply Nat.ltb_ge in E. lia.
    + apply orb_false_iff in E as [E1 E2]. apply Z.ltb_ge in E1, E2. lia.
  - destruct (_ <=? _)%nat; [done|]. destruct (_ <? _)%nat; [done|]. destruct (_ || _) eqn:E; [done|]. apply orb_false_iff in E as [E1 E2]. apply Z.ltb_ge in E1, E2.
    apply store_for_inv; try done. cbn [default id] in *. lia.
  - destruct (negb _); [done|]. destruct (_ <? _)%nat; [done|]. destruct (_ || _) eqn:E; [done|]. apply orb_false_iff in E as [E1 E2]. apply Z.ltb_ge in E1, E2.
    apply store_for_inv; try done. cbn [default id] in *. lia.
Qed.

Lemma UpsertRemoveValue_inv db n c key blank : DbInv db -> node_ok n -> userId c <> -1 -> DbInv (after (UpsertRemoveValue db n c key blank)).
Proof.
  intros HI Hn Hu. unfold UpsertRemoveValue. destruct (negb _); [done|]. apply store_for_inv; try done.
  pose proof (total_remove (multiValues (proxyData n)) (appIdentifier c) key). pose proof (ok_total _ Hn). lia.
Qed.

Lemma UpsertUpdate_inv db n c d mode :
  DbInv db -> node_ok n -> userId c <> -1 -> checked d -> uri (proxyData n) = uri_ d -> (mode = NORMAL_PUBLISH -> isMultiValues_ d = false) ->
  DbInv (after (UpsertUpdate db n c d mode)).
Proof.
  intros HI Hn Hu Hd Eu Hm. unfold UpsertUpdate. destruct mode.
  - destruct (Z.eqb_spec (tokenId c) (n_tokenId n)) as [Et|]; [|done]. cbn [negb]. specialize (Hm eq_refl).
    set (d' := mkData _ _ _ _ _ _ _ _ _). unfold UpdateProxyData.
    assert (DbInv (PutIntoTable db (userId c) (tokenId c) [] d').2) as H; [|by destruct (PutIntoTable _ _ _ _ _)].
    apply PutIntoTable_inv; [done| |done]. destruct Hd as (H1 & H2 & H3 & H4 & H5), Hn as [N1 N2 N3 N4 N5 N6 N7 N8 N9].
    apply node_of_ok; [|done|subst d'; cbn; congruence|subst d'; cbn; congruence|subst d'; cbn; congruence].
    unfold checked. subst d'. cbn. split_and!; try done; [by destruct (isAllowListUndefined d)..|by destruct (isValueUndefined d)].
  - destruct (target _) as [[k v]|]; done.
  - destruct (target _) as [[k v]|]; [by apply UpsertPutValue_inv|done].
  - destruct (target _) as [[k v]|]; [by apply UpsertRemoveValue_inv|done].
Qed.

Lemma Upsert_inv request c max mode db :
  DbInv db -> caller_ok c -> (mode = NORMAL_PUBLISH -> isMultiValues_ request = false) -> DbInv (after (Upsert request c max mode db)).
Proof.
  intros HI Hc Hm. destruct db as [t|]; [|done]. unfold Upsert. destruct (CheckAndCorrectProxyData request max) as [d|] eqn:Ed; [|done].
  apply CheckAndCorrect_checked in Ed as (Hd & _ & Em & _). case_bool_decide as Eq.
  - unfold UpsertInsert. destruct mode; try done.
    + pose proof (InsertProxyData_inv (Some t) c d HI Hc Hd ltac:(rewrite Em, Hm; done)) as H. by destruct (InsertProxyData _ _ _ _ _).
    + destruct (BuildInitMultiValues d (appIdentifier c)) as [|d'] eqn:Ei; [done|]. destruct (BuildInit_total d _ d' Ei Hd) as (Hd' & _ & _ & Ht).
      pose proof (InsertProxyData_inv (Some t) c d' HI Hc Hd' (fun _ => Ht)) as H. by destruct (InsertProxyData _ _ _ _ _).
  - case_bool_decide; [done|]. destruct (parse_node _) as [n|] eqn:En; [|done]. destruct (negb _); [done|]. destruct Hc as (Hu & _).
    destruct (read_node t _ _ n HI Hu En) as (Hn & Eu & _). apply UpsertUpdate_inv; try done. rewrite Em. apply Hm.
Qed.

Lemma UpsertMultiValues_inv request c max mode db :
  DbInv db -> caller_ok c -> mode <> NORMAL_PUBLISH -> DbInv (after (UpsertMultiValues request c max mode db)).
Proof.
  intros HI (Hu & _) Hm. destruct db as [t|]; [|done]. unfold UpsertMultiValues. destruct (CheckAndCorrectProxyData request max) as [d|] eqn:Ed; [|done].
  apply CheckAndCorrect_checked in Ed as (Hd & _ & Em & _). case_bool_decide as Eq; [done|].
  destruct (parse_node _) as [n|] eqn:En; [|done]. destruct (negb _); [done|]. destruct (read_node t _ _ n HI Hu En) as (Hn & Eu & _). by apply UpsertUpdate_inv.
Qed.

Lemma erase_first_sublist u l : sublist (erase_first u l) l.
Proof. unfold erase_first. destruct (list_find _ _) as [[i x]|]; [apply sublist_delete|done]. Qed.

Lemma UpdateProxyDataList_inv db u c : DbInv db -> userId c <> -1 -> DbInv (UpdateProxyDataList db u c).2.
Proof.
  intros HI Hu. destruct db as [t|]; [|done]. cbn [UpdateProxyDataList QueryList].
  destruct (parse_list _) as [l|] eqn:El; [|done]. destruct (read_list t _ _ l HI Hu El) as ([L1 L2 L3 L4] & E1 & E2).
  cbn [fmap option_fmap option_map]. destruct (uris l) as [|u0 us] eqn:Eu; [done|]. rewrite <- Eu in *.
  pose proof (erase_first_sublist u (uris l)) as Hs. destruct (erase_first u (uris l)) as [|u1 us'].
  - pose proof (RowInv_delete (Id (to_string (tokenId c)) (userId c)) t HI) as H. by destruct (kv_Delete _ t).
  - assert (row_ok (Id (to_string (tokenId c)) (userId c)) (list_text (mkListNode (u1 :: us') (userId c) (tokenId c)))) as Hr.
    { right. eexists. split_and!; [done|done|]. split; cbn [uris l_userId]; try done; [|by eapply sublist_NoDup].
      apply sublist_length in Hs. lia. }
    pose proof (RowInv_upsert _ _ t HI Hr) as H. by destruct (kv_Upsert _ _ t).
Qed.

Lemma Delete_inv u c db : DbInv db -> userId c <> -1 -> DbInv (Delete u c db).2.
Proof.
  intros HI Hu. destruct db as [t|]; [|done]. cbn [Delete]. destruct (negb _); [done|]. case_bool_decide; [done|].
  destruct (parse_node _) as [n|] eqn:En; [|done]. destruct (negb _); [done|].
  pose proof (RowInv_delete (Id u (userId c)) t HI) as H1. destruct (kv_Delete (Id u (userId c)) t) as [[] t1]; [|done]. cbn [negb].
  pose proof (UpdateProxyDataList_inv (Some t1) u c H1 Hu) as H2. by destruct (UpdateProxyDataList (Some t1) u c) as [[] db'].
Qed.

(** ** Operations in any order *)
Inductive Op : Type :=
| OUpsert (request : DataShareProxyData) (c : BundleInfo) (max : Z) (mode : ProxyDataUpsertMode)
| OMulti (request : DataShareProxyData) (c : BundleInfo) (max : Z) (mode : ProxyDataUpsertMode)
| ODelete (u : string) (c : BundleInfo).

(** As the service issues them: a plain publication has a single value. *)
Definition op_ok (o : Op) : Prop :=
  match o with
  | OUpsert request c _ mode => caller_ok c /\ (mode = NORMAL_PUBLISH -> isMultiValues_ request = false)
  | OMulti _ c _ mode => caller_ok c /\ mode <> NORMAL_PUBLISH
  | ODelete _ c => caller_ok c
  end.

Definition exec (o : Op) (db : Db) : Db :=
  match o with
  | OUpsert request c max mode => after (Upsert request c max mode db)
  | OMulti request c max mode => after (UpsertMultiValues request c max mode db)
  | ODelete u c => (Delete u c db).2
  end.

Inductive step : table -> table -> Prop :=
| step_op o t t' : op_ok o -> exec o (Some t) = Some t' -> step t t'.

Definition empty (t : table) : Prop := rows t = ∅.

Lemma exec_inv o db : DbInv db -> op_ok o -> DbInv (exec o db).
Proof. intros HI Ho. destruct o as [r c m mode|r c m mode|u c]; cbn in *; destruct_and?; [by apply Upsert_inv|by apply UpsertMultiValues_inv|apply Delete_inv; [done|apply Ho]]. Qed.

Lemma reachable_RowInv t : reachable empty step t -> RowInv t.
Proof.
  apply (reachable_invariant empty step RowInv).
  - intros s Es i x. by rewrite Es, lookup_empty.
  - intros s s' HI Hs. destruct Hs as [o t0 t' Ho Et]. pose proof (exec_inv o (Some t0) HI Ho) as H. by rewrite Et in H.
Qed.


(** ** Publishers and their lists

    What the rows say of an address and of a publisher. *)
Definition node_at (t : table) (u : string) (user : Z) : option ProxyDataNode := parse_node (Get (Id u user) t).
Definition list_at (t : table) (token user : Z) : option (list string) := uris <$> parse_list (Get (Id (to_string token) user) t).

Definition address_row (u : string) (user : Z) (row : option ProxyDataNode) (t t' : table) : Prop :=
  (forall u' user', user' <> -1 -> node_at t' u' user' = if decide (u' = u /\ user' = user) then row else node_at t u' user') /\
  (forall token user', user' <> -1 -> list_at t' token user' = list_at t token user').

Definition list_row (token user : Z) (row : option (list string)) (t t' : table) : Prop :=
  (forall u user', user' <> -1 -> node_at t' u user' = node_at t u user') /\
  (forall token' user', user' <> -1 -> list_at t' token' user' = if decide (token' = token /\ user' = user) then row else list_at t token' user').

Lemma Get_insert t t' i j x : rows t' = <[i := x]> (rows t) -> Get j t' = if decide (j = i) then x else Get j t.
Proof. intros E. unfold Get. rewrite E. destruct (decide (j = i)) as [->|]; [by rewrite lookup_insert_eq|by rewrite lookup_insert_ne]. Qed.

Lemma Get_delete t t' i j : rows t' = delete i (rows t) -> Get j t' = if decide (j = i) then no_text else Get j t.
Proof. intros E. unfold Get. rewrite E. destruct (decide (j = i)) as [->|]; [by rewrite lookup_delete_eq|by rewrite lookup_delete_ne]. Qed.

Lemma Id_eq_decide {A} u u' user user' (a b : A) : user <> -1 -> user' <> -1 ->
  (if decide (Id u' user' = Id u user) then a else b) = (if decide (u' = u /\ user' = user) then a else b).
Proof.
  intros H1 H2. destruct (decide (u' = u /\ user' = user)) as [[-> ->]|Hne]; [by rewrite decide_True|].
  rewrite decide_False; [done|]. intros E. by apply Id_inj in E.
Qed.

(** A row of an address is not that of a list. *)
Lemma number_not_address u token user user' : user <> -1 -> user' <> -1 -> authority u <> "" -> Id (to_string token) user' <> Id u user.
Proof. intros H1 H2 Ha E. apply Id_inj in E as [<- _]; [|done..]. by rewrite authority_number in Ha. Qed.

Lemma node_at_number t token user : RowInv t -> user <> -1 -> node_at t (to_string token) user = None.
Proof.
  intros HI Hu. destruct (node_at t (to_string token) user) as [n|] eqn:E; [|done]. destruct (read_node t _ _ n HI Hu E) as ([_ _ Ha _ _ _ _ _ _] & Eu & _).
  by rewrite Eu, authority_number in Ha.
Qed.

Lemma write_address t t' u user x : user <> -1 -> authority u <> "" -> rows t' = <[Id u user := x]> (rows t) -> address_row u user (parse_node x) t t'.
Proof.
  intros Hu Ha E. split; intros u0 user' Hu'; unfold node_at, list_at; rewrite (Get_insert t t' _ _ _ E).
  - rewrite (Id_eq_decide u u0 user user') by done. by destruct (decide _).
  - rewrite decide_False; [done|]. by apply number_not_address.
Qed.

Lemma erase_address t t' u user : user <> -1 -> authority u <> "" -> rows t' = delete (Id u user) (rows t) -> address_row u user None t t'.
Proof.
  intros Hu Ha E. split; intros u0 user' Hu'; unfold node_at, list_at; rewrite (Get_delete t t' _ _ E).
  - rewrite (Id_eq_decide u u0 user user') by done. destruct (decide _); [apply parse_node_empty|done].
  - rewrite decide_False; [done|]. by apply number_not_address.
Qed.

Lemma list_row_intro t t' token user row x : RowInv t -> user <> -1 -> parse_node x = None -> uris <$> parse_list x = row ->
  (forall j, Get j t' = if decide (j = Id (to_string token) user) then x else Get j t) -> list_row token user row t t'.
Proof.
  intros HI Hu Hx <- E. split; [intros u user' Hu'|intros token' user' Hu']; unfold node_at, list_at; rewrite E.
  - destruct (decide (Id u user' = Id (to_string token) user)) as [Ei|]; [|done]. apply Id_inj in Ei as [-> ->]; [|done..].
    rewrite Hx. symmetry. by apply node_at_number.
  - rewrite (Id_eq_decide (to_string token) (to_string token') user user') by done.
    destruct (decide (to_string token' = to_string token /\ user' = user)) as [[Et ->]|Hne].
    + apply to_string_inj in Et as ->. by rewrite decide_True.
    + rewrite decide_False; [done|]. intros [-> ->]. by apply Hne.
Qed.

Lemma write_list t t' token user l : RowInv t -> user <> -1 -> rows t' = <[Id (to_string token) user := list_text l]> (rows t) ->
  list_row token user (Some (uris l)) t t'.
Proof. intros HI Hu E. eapply list_row_intro; [done|done|apply parse_node_list|by rewrite parse_list_text|]. intros j. by apply Get_insert. Qed.

Lemma erase_list t t' token user : RowInv t -> user <> -1 -> rows t' = delete (Id (to_string token) user) (rows t) -> list_row token user None t t'.
Proof. intros HI Hu E. eapply list_row_intro; [done|done|apply parse_node_empty|by rewrite parse_list_empty|]. intros j. by apply Get_delete. Qed.

(** The addresses stored for a publisher are those of its list. *)
Definition Consistent (t : table) : Prop :=
  forall u user token, user <> -1 ->
    (exists n, node_at t u user = Some n /\ n_tokenId n = token) <-> (exists l, list_at t token user = Some l /\ u ∈ l).

Lemma consistent_update t t' u user n n' : Consistent t -> user <> -1 -> node_at t u user = Some n -> n_tokenId n' = n_tokenId n ->
  address_row u user (Some n') t t' -> Consistent t'.
Proof.
  intros HC Hu En Et [HN HL] u' user' token Hu'. rewrite HL, <- (HC u' user' token), HN by done.
  destruct (decide _) as [[-> ->]|]; [|done]. rewrite En. split; intros (m & [= <-] & E); eexists; (split; [done|congruence]).
Qed.

Lemma consistent_insert t t1 t' u user token n l l' : Consistent t -> user <> -1 -> node_at t u user = None -> n_tokenId n = token ->
  default [] (list_at t token user) = l -> (forall x, x ∈ l' <-> x ∈ l \/ x = u) ->
  address_row u user (Some n) t t1 -> list_row token user (Some l') t1 t' -> Consistent t'.
Proof.
  intros HC Hu En Et El Hl' [HN1 HL1] [HN HL] u' user' token' Hu'. rewrite HL, HL1, HN, HN1 by done.
  assert (forall x, x ∈ l <-> exists l0, list_at t token user = Some l0 /\ x ∈ l0) as Hl.
  { intros x. rewrite <- El. destruct (list_at t token user) as [l0|]; cbn; [naive_solver|]. split; [intros Hx; by apply elem_of_nil in Hx|by intros (? & ? & _)]. }
  destruct (decide (token' = token /\ user' = user)) as [[-> ->]|Hne].
  - destruct (decide (u' = u /\ user = user)) as [[-> _]|Hne'].
    + split; [intros _; exists l'; split; [done|]; apply Hl'; by right|intros _; by exists n].
    + rewrite (HC u' user token), <- Hl by done. split; [intros Hx; exists l'; split; [done|]; apply Hl'; by left|].
      intros (? & [= <-] & Hx). apply Hl' in Hx as [?| ->]; [done|]. by destruct Hne'.
  - rewrite <- (HC u' user' token') by done. destruct (decide (u' = u /\ user' = user)) as [[-> ->]|]; [|done]. rewrite En.
    split; [intros (m & [= <-] & E); exfalso; apply Hne; by rewrite <- Et, <- E|by intros (? & ? & _)].
Qed.

Lemma erase_first_elem u l x : NoDup l -> x ∈ erase_first u l <-> x ∈ l /\ x <> u.
Proof.
  intros Hd. unfold erase_first. destruct (list_find (eq u) l) as [[i y]|] eqn:E.
  - apply list_find_Some in E as (Hi & <- & _). pose proof (delete_Permutation l i u Hi) as Hp. rewrite Hp in Hd. apply NoDup_cons in Hd as [Hn _].
    assert (x ∈ l <-> x ∈ u :: delete i l) as -> by (by rewrite <- Hp). rewrite elem_of_cons. split; [intros Hx; split; [by right|by intros ->]|intros [[-> |] ?]; done].
  - apply list_find_None in E. split; [|by intros [? _]]. intros Hx. split; [done|]. intros ->. rewrite Forall_forall in E. by apply (E u Hx).
Qed.

Lemma consistent_delete t t1 t' u user n l row : Consistent t -> user <> -1 -> node_at t u user = Some n -> list_at t (n_tokenId n) user = Some l -> NoDup l ->
  default [] row = erase_first u l -> address_row u user None t t1 -> list_row (n_tokenId n) user row t1 t' -> Consistent t'.
Proof.
  intros HC Hu En El Hd Hrow [HN1 HL1] [HN HL] u' user' token' Hu'. rewrite HL, HL1, HN, HN1 by done.
  assert (forall x, (exists l0, row = Some l0 /\ x ∈ l0) <-> x ∈ erase_first u l) as Hr.
  { intros x. rewrite <- Hrow. destruct row as [l0|]; cbn; [naive_solver|]. split; [by intros (? & ? & _)|intros Hx; by apply elem_of_nil in Hx]. }
  destruct (decide (token' = n_tokenId n /\ user' = user)) as [[-> ->]|Hne].
  - rewrite Hr, erase_first_elem by done. destruct (decide (u' = u /\ user = user)) as [[-> _]|Hne']; [split; [by intros (? & ? & _)|by intros [_ ?]]|].
    rewrite (HC u' user (n_tokenId n)), El by done. split; [intros (? & [= <-] & ?); split; [done|]; intros ->; by destruct Hne'|intros [? _]; by exists l].
  - rewrite <- (HC u' user' token') by done. destruct (decide (u' = u /\ user' = user)) as [[-> ->]|]; [|done]. rewrite En.
    split; [by intros (? & ? & _)|intros (m & [= <-] & E); exfalso; by apply Hne].
Qed.

(** Writes that do not fail. *)
Definition reliable : Prop := (forall i x t, (kv_Upsert i x t).1 = true) /\ (forall i t, (kv_Delete i t).1 = true).
Definition DbConsistent (db : Db) : Prop := match db with Some t => Consistent t | None => True end.

(** ** Who may change what *)
Lemma target_single app k v : target (in_order {[app := {[k := v]}]}) = Some (k, v).
Proof.
  unfold in_order at 1. rewrite map_to_list_singleton. change (target [(app, {[k := v]})] = Some (k, v)). cbn [target].
  unfold in_order. by rewrite map_to_list_singleton.
Qed.

(** The table after a node has been rewritten, or not at all. *)
Definition only_row (i : string) (t t' : table) : Prop := forall j, j <> i -> rows t' !! j = rows t !! j.

Lemma store_for_effect t n c mv : userId c <> -1 ->
  code (store_for (Some t) n c (rebuilt n mv)) = SUCCESS ->
  exists t', after (store_for (Some t) n c (rebuilt n mv)) = Some t' /\ only_row (Id (uri (proxyData n)) (userId c)) t t' /\
    node_at t' (uri (proxyData n)) (userId c) = Some (node_of (rebuilt n mv) (userId c) (n_tokenId n)).
Proof.
  intros Hu. unfold store_for, UpdateProxyData, PutIntoTable. fold (node_of (rebuilt n mv) (userId c) (n_tokenId n)). cbn [uri_ rebuilt].
  pose proof (kv_Upsert_spec (Id (uri (proxyData n)) (userId c)) (node_text (node_of (rebuilt n mv) (userId c) (n_tokenId n))) t) as Hs.
  destruct (kv_Upsert _ _ t) as [[] t']; cbn in *; [|done]. intros _. exists t'. split_and!; [done|intros j Hj; by rewrite Hs, lookup_insert_ne|].
  unfold node_at, Get. rewrite Hs, lookup_insert_eq. cbn. by rewrite parse_node_text.
Qed.

Lemma UpsertPutValue_shape db n c key v blank : code (UpsertPutValue db n c key v blank) = SUCCESS ->
  UpsertPutValue db n c key v blank = store_for db n c (BuildMultiValuesAfterPut n key v c) /\
  (CanInsertMultiValues c n = true \/ is_Some (multiValues (proxyData n) !! appIdentifier c)).
Proof.
  unfold UpsertPutValue, CheckValueAndTotalLimits. destruct (multiValues (proxyData n) !! appIdentifier c) as [km|]; [destruct (km !! key) as [o|]|destruct (CanInsertMultiValues c n)];
    cbn [negb]; repeat case_match; try done; intros _; (split; [done|]); eauto.
Qed.

Lemma can_modify_own key own app l : can_modify key own app l = true -> own = true \/ exists km, (app, km) ∈ l.
Proof.
  induction l as [|[a km] l IH]; cbn; [done|]. case_bool_decide; [|intros Hm; destruct (IH Hm) as [|[km' ?]]; [auto|right; exists km'; by right]].
  intros [->|Ha]%orb_true_iff; [auto|]. apply bool_decide_eq_true in Ha as ->. right. exists km. by left.
Qed.

Lemma UpsertRemoveValue_shape db n c key blank : code (UpsertRemoveValue db n c key blank) = SUCCESS ->
  UpsertRemoveValue db n c key blank = store_for db n c (BuildMultiValuesAfterRemove n key c) /\
  (CanInsertMultiValues c n = true \/ is_Some (multiValues (proxyData n) !! appIdentifier c)).
Proof.
  unfold UpsertRemoveValue. destruct (CanModifyMultiValue n key c) eqn:E; [|done]. intros _. split; [done|].
  unfold CanModifyMultiValue in E. apply can_modify_own in E as [E|[km Hin]]; [left; unfold CanInsertMultiValues; by rewrite E|right; exists km; by apply in_order_elem].
Qed.

(** C24: An application that puts or removes a value under an address changes nothing that others have put there. When the operation succeeds, the address is one of several
    values; the caller published it, or is trusted by its publisher, or has values under it already; and after it, whatever the publisher, the names allowed and trusted, the limit
    and the values under the identifiers of the other applications are as before, under the caller's identifier at most the named key has changed, and no other row of the table has. *)
Theorem others_values_untouched t c u key v max mode n :
  reachable empty step t -> userId c <> -1 -> node_at t u (userId c) = Some n ->
  (mode = PUT_MULTIVALUES \/ mode = REMOVE_MULTIVALUES) ->
  let request := mkData u v [] false false true {[appIdentifier c := {[key := v]}]} [] max in
  let out := UpsertMultiValues request c max mode (Some t) in
  code out = SUCCESS ->
  isMultiValues (proxyData n) = true /\
  (CanInsertMultiValues c n = true \/ is_Some (multiValues (proxyData n) !! appIdentifier c)) /\
  exists t' n', after out = Some t' /\ only_row (Id u (userId c)) t t' /\ node_at t' u (userId c) = Some n' /\
    n_tokenId n' = n_tokenId n /\ uri (proxyData n') = u /\ allowList (proxyData n') = allowList (proxyData n) /\ trustProviders (proxyData n') = trustProviders (proxyData n) /\
    maxValueLength (proxyData n') = maxValueLength (proxyData n) /\
    (forall a, a <> appIdentifier c -> multiValues (proxyData n') !! a = multiValues (proxyData n) !! a) /\
    (forall k, k <> key -> (multiValues (proxyData n') !! appIdentifier c ≫= (.!! k)) = (multiValues (proxyData n) !! appIdentifier c ≫= (.!! k))) /\
    (mode = PUT_MULTIVALUES -> (multiValues (proxyData n') !! appIdentifier c ≫= (.!! key)) = Some v).
Proof.
  intros Hr Hu En Hmode request out. apply reachable_RowInv in Hr. destruct (read_node t u (userId c) n Hr Hu En) as (Hok & Eu & _).
  unfold out, UpsertMultiValues. destruct (CheckAndCorrectProxyData request max) as [d|] eqn:Ed; [|done].
  apply CheckAndCorrect_checked in Ed as (_ & Eud & _ & Emv). rewrite Eud. cbn [uri_ request].
  case_bool_decide; [done|]. unfold node_at in En. rewrite En.
  assert (IsConfigCompatible mode (isMultiValues (proxyData n)) = isMultiValues (proxyData n)) as -> by (by destruct Hmode as [-> | ->]).
  destruct (isMultiValues (proxyData n)) eqn:Em; [|done]. cbn [negb]. unfold UpsertUpdate. rewrite Emv. cbn [multiValues_ request]. rewrite target_single.
  intros Hcode. assert (forall mv, Id (uri (proxyData n)) (userId c) = Id u (userId c) /\ uri (proxyData (node_of (rebuilt n mv) (userId c) (n_tokenId n))) = u) as Hrow by (intros mv; cbn; by rewrite Eu).
  split; [done|]. destruct Hmode as [-> | ->].
  - destruct (UpsertPutValue_shape _ _ _ _ _ _ Hcode) as [Es Hp]. rewrite Es in *. split; [done|].
    destruct (store_for_effect t n c _ Hu Hcode) as (t' & Et & Ho & Hn). eexists t', _. destruct (Hrow ∅) as [Hid _]. rewrite Hid in Ho. rewrite Eu in Hn.
    split_and!; [done|done|exact Hn|done|done|done|done|done|..]; cbn.
    + intros a Ha. by rewrite lookup_insert_ne.
    + intros k Hk. rewrite lookup_insert_eq. cbn. rewrite lookup_insert_ne by done. destruct (multiValues (proxyData n) !! appIdentifier c); [done|]. cbn. by rewrite lookup_empty.
    + intros _. rewrite lookup_insert_eq. cbn. apply lookup_insert_eq.
  - destruct (UpsertRemoveValue_shape _ _ _ _ _ Hcode) as [Es Hp]. rewrite Es in *. split; [done|].
    destruct (store_for_effect t n c _ Hu Hcode) as (t' & Et & Ho & Hn). eexists t', _. destruct (Hrow ∅) as [Hid _]. rewrite Hid in Ho. rewrite Eu in Hn.
    split_and!; [done|done|exact Hn|done|done|done|done|done|..]; cbn; [|..|done].
    + intros a Ha. by rewrite lookup_alter_ne.
    + intros k Hk. rewrite lookup_alter_eq. destruct (multiValues (proxyData n) !! appIdentifier c); [|done]. cbn. by rewrite lookup_delete_ne.
Qed.

Section Reliable.
Context (Hrel : reliable).

Lemma upsert_rows i x t : exists t', kv_Upsert i x t = (true, t') /\ rows t' = <[i := x]> (rows t).
Proof. pose proof (kv_Upsert_spec i x t) as H. rewrite (proj1 Hrel i x t) in H. exists (kv_Upsert i x t).2. split; [|done]. pose proof (proj1 Hrel i x t). by destruct (kv_Upsert i x t); cbn in *; subst. Qed.

Lemma delete_rows i t : exists t', kv_Delete i t = (true, t') /\ rows t' = delete i (rows t).
Proof. pose proof (kv_Delete_spec i t) as H. rewrite (proj2 Hrel i t) in H. exists (kv_Delete i t).2. split; [|done]. pose proof (proj2 Hrel i t). by destruct (kv_Delete i t); cbn in *; subst. Qed.

Lemma update_consistent t n c d : RowInv t -> Consistent t -> userId c <> -1 -> node_at t (uri_ d) (userId c) = Some n ->
  DbConsistent (UpdateProxyData (Some t) (userId c) (n_tokenId n) d).2.
Proof.
  intros HI HC Hu En. unfold UpdateProxyData, PutIntoTable. fold (node_of d (userId c) (n_tokenId n)).
  destruct (upsert_rows (Id (uri_ d) (userId c)) (node_text (node_of d (userId c) (n_tokenId n))) t) as (t1 & -> & Er). cbn.
  destruct (read_node t _ _ n HI Hu En) as ([_ _ Ha _ _ _ _ _ _] & Eu & _). rewrite Eu in Ha.
  apply (consistent_update t t1 (uri_ d) (userId c) n (kept (node_of d (userId c) (n_tokenId n)))); try done.
  rewrite <- parse_node_text. by apply write_address.
Qed.

Lemma UpsertUpdate_consistent t n c d mode : RowInv t -> Consistent t -> userId c <> -1 -> node_at t (uri_ d) (userId c) = Some n ->
  DbConsistent (after (UpsertUpdate (Some t) n c d mode)).
Proof.
  intros HI HC Hu En. destruct (read_node t _ _ n HI Hu En) as (_ & Eu & _).
  assert (forall mv, DbConsistent (after (store_for (Some t) n c (rebuilt n mv)))) as Hs.
  { intros mv. unfold store_for. pose proof (update_consistent t n c (rebuilt n mv) HI HC Hu ltac:(cbn; by rewrite Eu)) as H. by destruct (UpdateProxyData _ _ _ _). }
  unfold UpsertUpdate. destruct mode.
  - destruct (Z.eqb_spec (tokenId c) (n_tokenId n)) as [Et|]; [|done]. cbn [negb]. set (d' := mkData _ _ _ _ _ _ _ _ _). rewrite Et.
    pose proof (update_consistent t n c d' HI HC Hu En) as H. by destruct (UpdateProxyData _ _ _ _).
  - by destruct (target _) as [[k v]|].
  - destruct (target _) as [[k v]|]; [|done]. unfold UpsertPutValue, UpsertMultiValueData, BuildMultiValuesAfterPut.
    destruct (_ !! _) as [km|]; [destruct (km !! k)|]; repeat case_match; apply Hs || done.
  - destruct (target _) as [[k v]|]; [|done]. unfold UpsertRemoveValue. destruct (negb _); [done|]. apply Hs.
Qed.

Lemma InsertProxyData_consistent t c d : RowInv t -> Consistent t -> caller_ok c -> checked d ->
  (isMultiValues_ d = true -> Z.of_nat (total_length (multiValues_ d)) <= maxValueLength_ d) -> Get (Id (uri_ d) (userId c)) t = no_text ->
  DbConsistent (InsertProxyData (Some t) (bundleName c) (userId c) (tokenId c) d).2.
Proof.
  intros HI HC (Hu & Hb & Hne) Hd Ht Hg. cbn [InsertProxyData].
  destruct (if bool_decide _ then _ else _) as [l|] eqn:El; [|done]. destruct (_ <=? _)%nat; [done|].
  destruct (bool_decide_reflect (GetBundleNameFromProxyURI (uri_ d) "" = bundleName c)) as [Ha|]; [|done]. cbn [negb].
  unfold GetBundleNameFromProxyURI in Ha. destruct (bool_decide_reflect (authority (uri_ d) = "")) as [Ea|Ea]; [congruence|].
  assert (default [] (list_at t (tokenId c) (userId c)) = l) as Edef.
  { unfold list_at. destruct (bool_decide_reflect (Get (Id (to_string (tokenId c)) (userId c)) t = no_text)) as [Ee|]; [injection El as <-; by rewrite Ee, parse_list_empty|by rewrite El]. }
  set (l' := if bool_decide (uri_ d ∈ l) then l else l ++ [uri_ d]).
  assert (forall x, x ∈ l' <-> x ∈ l \/ x = uri_ d) as Hl'.
  { intros x. unfold l'. destruct (bool_decide_reflect (uri_ d ∈ l)); [split; [by left|by intros [?| ->]]|]. by rewrite elem_of_app, list_elem_of_singleton. }
  assert (l' <> []) as Hl'ne by (intros E; specialize (Hl' (uri_ d)); rewrite E in Hl'; apply (not_elem_of_nil (uri_ d)), Hl'; by right).
  unfold PutIntoTable. fold (node_of d (userId c) (tokenId c)).
  destruct (upsert_rows (Id (uri_ d) (userId c)) (node_text (node_of d (userId c) (tokenId c))) t) as (t1 & E1 & Er1). rewrite E1. cbn [negb].
  assert (RowInv t1) as HI1.
  { pose proof (RowInv_upsert (Id (uri_ d) (userId c)) (node_text (node_of d (userId c) (tokenId c))) t HI) as H. rewrite E1 in H. apply H.
    left. exists (node_of d (userId c) (tokenId c)). split_and!; [done|done|]. apply node_of_ok; try done; congruence. }
  destruct (upsert_rows (Id (to_string (tokenId c)) (userId c)) (list_text (mkListNode l' (userId c) (tokenId c))) t1) as (t2 & E2 & Er2).
  destruct l' as [|u0 l0]; [done|]. rewrite E2. cbn.
  eapply (consistent_insert t t1 t2 (uri_ d) (userId c) (tokenId c) (kept (node_of d (userId c) (tokenId c))) l (u0 :: l0)); try done.
  - unfold node_at. by rewrite Hg, parse_node_empty.
  - rewrite <- parse_node_text. by apply write_address.
  - by apply (write_list t1 t2 (tokenId c) (userId c) (mkListNode (u0 :: l0) (userId c) (tokenId c))).
Qed.

Lemma Delete_effect t u c n : RowInv t -> Consistent t -> caller_ok c -> node_at t u (userId c) = Some n -> n_tokenId n = tokenId c ->
  exists t' l, (Delete u c (Some t)).1.1 = SUCCESS /\ (Delete u c (Some t)).2 = Some t' /\ Consistent t' /\
    list_at t (tokenId c) (userId c) = Some l /\ NoDup l /\ default [] (list_at t' (tokenId c) (userId c)) = erase_first u l.
Proof.
  intros HI HC (Hu & Hb & Hne) En Et. destruct (read_node t _ _ n HI Hu En) as ([_ Ho Ha _ _ _ _ _ _] & Eu & _ & n0 & Er & _). rewrite Eu in *.
  destruct (proj1 (HC u (userId c) (tokenId c) Hu)) as (l & El & Hin); [by exists n|].
  assert (NoDup l /\ l <> []) as [Hd Hl].
  { unfold list_at in El. destruct (parse_list _) as [ln|] eqn:Ep; [|done]. injection El as <-. destruct (read_list t _ _ ln HI Hu Ep) as ([] & _). done. }
  cbn [Delete]. rewrite bool_decide_true by (unfold GetBundleNameFromProxyURI; rewrite bool_decide_false by done; congruence). cbn [negb].
  rewrite bool_decide_false by (intros E; unfold node_at in En; by rewrite E, parse_node_empty in En).
  change (parse_node (Get (Id u (userId c)) t)) with (node_at t u (userId c)). rewrite En, Et, Z.eqb_refl. cbn [negb].
  destruct (delete_rows (Id u (userId c)) t) as (t1 & E1 & Er1). rewrite E1. cbn [negb].
  assert (RowInv t1) as HI1 by (pose proof (RowInv_delete (Id u (userId c)) t HI) as H; by rewrite E1 in H).
  pose proof (erase_address t t1 u (userId c) Hu Ha Er1) as HA. cbn [UpdateProxyDataList QueryList].
  change (uris <$> parse_list (Get (Id (to_string (tokenId c)) (userId c)) t1)) with (list_at t1 (tokenId c) (userId c)).
  rewrite (proj2 HA), El by done. destruct l as [|u0 l0] eqn:Ell; [done|]. rewrite <- Ell in *. rewrite <- Et in *.
  destruct (erase_first u l) as [|u1 l1] eqn:Ef.
  - destruct (delete_rows (Id (to_string (n_tokenId n)) (userId c)) t1) as (t2 & E2 & Er2). rewrite E2. exists t2, l.
    pose proof (erase_list t1 t2 _ _ HI1 Hu Er2) as HLr. split_and!; try done; [by eapply (consistent_delete t t1 t2 u (userId c) n l None)|].
    rewrite (proj2 HLr), decide_True by done. done.
  - destruct (upsert_rows (Id (to_string (n_tokenId n)) (userId c)) (list_text (mkListNode (u1 :: l1) (userId c) (n_tokenId n))) t1) as (t2 & E2 & Er2). rewrite E2. exists t2, l.
    pose proof (write_list t1 t2 _ _ _ HI1 Hu Er2) as HLr. split_and!; try done; [by eapply (consistent_delete t t1 t2 u (userId c) n l (Some (u1 :: l1)))|].
    rewrite (proj2 HLr), decide_True by done. done.
Qed.

Lemma exec_consistent o t : RowInv t -> Consistent t -> op_ok o -> DbConsistent (exec o (Some t)).
Proof.
  intros HI HC Ho. destruct o as [r c max mode|r c max mode|u c]; cbn [exec op_ok] in *.
  - destruct Ho as [Hc Hm]. unfold Upsert. destruct (CheckAndCorrectProxyData r max) as [d|] eqn:Ed; [|done].
    apply CheckAndCorrect_checked in Ed as (Hd & _ & Em & _). destruct (bool_decide_reflect (Get (Id (uri_ d) (userId c)) t = no_text)) as [Eq|Eq].
    + unfold UpsertInsert. destruct mode; try done.
      * pose proof (InsertProxyData_consistent t c d HI HC Hc Hd ltac:(rewrite Em, Hm; done) Eq) as H. by destruct (InsertProxyData _ _ _ _ _).
      * destruct (BuildInitMultiValues d (appIdentifier c)) as [|d'] eqn:Ei; [done|]. destruct (BuildInit_total d _ d' Ei Hd) as (Hd' & Eu & _ & Ht).
        pose proof (InsertProxyData_consistent t c d' HI HC Hc Hd' (fun _ => Ht) ltac:(by rewrite Eu)) as H. by destruct (InsertProxyData _ _ _ _ _).
    + case_bool_decide; [done|]. destruct (parse_node _) as [n|] eqn:En; [|done]. destruct (negb _); [done|]. destruct Hc as (Hu & _). by apply UpsertUpdate_consistent.
  - destruct Ho as [(Hu & _) Hm]. unfold UpsertMultiValues. destruct (CheckAndCorrectProxyData r max) as [d|] eqn:Ed; [|done].
    case_bool_decide; [done|]. destruct (parse_node _) as [n|] eqn:En; [|done]. destruct (negb _); [done|]. by apply UpsertUpdate_consistent.
  - destruct (node_at t u (userId c)) as [n|] eqn:En.
    + destruct (decide (n_tokenId n = tokenId c)) as [Et|Ht]; [by destruct (Delete_effect t u c n HI HC Ho En Et) as (t' & l & _ & -> & ? & _)|].
      unfold Delete. destruct (negb _); [done|]. case_bool_decide; [done|]. unfold node_at in En. rewrite En, (proj2 (Z.eqb_neq _ _)) by congruence. done.
    + unfold Delete. destruct (negb _); [done|]. case_bool_decide; [done|]. unfold node_at in En. by rewrite En.
Qed.

Lemma reachable_consistent t : reachable empty step t -> RowInv t /\ Consistent t.
Proof.
  apply (reachable_invariant empty step (fun t => RowInv t /\ Consistent t)).
  - intros s Es. assert (forall i, Get i s = no_text) as Hg by (intros i; unfold Get; by rewrite Es, lookup_empty). split; [intros i x; by rewrite Es, lookup_empty|].
    intros u user token Hu. unfold node_at, list_at. rewrite !Hg, parse_node_empty, parse_list_empty. split; by intros (? & ? & _).
  - intros s s' [HI HC] Hs. destruct Hs as [o t0 t' Ho Et]. pose proof (exec_inv o (Some t0) HI Ho) as H. pose proof (exec_consistent o t0 HI HC Ho) as H'. by rewrite Et in H, H'.
Qed.

Lemma delete_all_empties us t c : RowInv t -> Consistent t -> caller_ok c -> default [] (list_at t (tokenId c) (userId c)) = us -> NoDup us ->
  exists t', delete_all c us (Some t) = Some t' /\ RowInv t' /\ Consistent t' /\ default [] (list_at t' (tokenId c) (userId c)) = [].
Proof.
  intros HI HC Hc. unfold delete_all. revert t HI HC. induction us as [|u us IH]; intros t HI HC El Hd; cbn [fold_left]; [by exists t|].
  destruct Hc as (Hu & Hb & Hne). destruct (list_at t (tokenId c) (userId c)) as [l|] eqn:Elist; [|done]. cbn in El. subst l.
  destruct (proj2 (HC u (userId c) (tokenId c) Hu)) as (n & En & Et); [exists (u :: us); split; [done|by left]|].
  destruct (Delete_effect t u c n HI HC (conj Hu (conj Hb Hne)) En Et) as (t1 & l & _ & E1 & HC1 & El & _ & Ef). rewrite E1.
  assert (RowInv t1) as HI1 by (pose proof (Delete_inv u c (Some t) HI Hu) as H; by rewrite E1 in H).
  apply (IH t1 HI1 HC1); [|by apply NoDup_cons in Hd as [_ ?]]. rewrite Ef. rewrite Elist in El. injection El as <-.
  unfold erase_first. cbn. by rewrite decide_True.
Qed.

(** C25: With a database whose writes succeed, the list kept for a publisher names exactly the addresses it has published, in every state that publications, changes of
    values and deletions of any applications can lead to; so that when the application is uninstalled none of its addresses and no list remains. *)
Theorem proxy_lists_exact t c :
  reachable empty step t -> caller_ok c ->
  (forall u token user, user <> -1 ->
     (exists n, node_at t u user = Some n /\ n_tokenId n = token) <-> (exists l, list_at t token user = Some l /\ u ∈ l)) /\
  exists t', OnAppUninstall (bundleName c) (userId c) (tokenId c) (Some t) = Some t' /\ list_at t' (tokenId c) (userId c) = None /\
    forall u n, node_at t' u (userId c) = Some n -> n_tokenId n <> tokenId c.
Proof.
  intros Hr Hc. apply reachable_consistent in Hr as [HI HC]. split; [intros; by apply HC|].
  set (c' := installed (bundleName c) (userId c) (tokenId c)).
  assert (forall l t, RowInv t -> list_at t (tokenId c) (userId c) = Some l -> NoDup l /\ l <> []) as Hlist.
  { intros l t0 HI0 El. unfold list_at in El. destruct (parse_list _) as [ln|] eqn:Ep; [|done]. injection El as <-. by destruct (read_list t0 _ _ ln HI0 (proj1 Hc) Ep) as ([] & _). }
  destruct (delete_all_empties (default [] (list_at t (tokenId c) (userId c))) t c' HI HC Hc eq_refl) as (t' & E & HI' & HC' & El).
  { destruct (list_at t (tokenId c) (userId c)) as [l|] eqn:El; [by apply (Hlist l t)|constructor]. }
  exists t'. split; [exact E|]. cbn [tokenId userId c' installed] in El.
  assert (list_at t' (tokenId c) (userId c) = None) as Hnone.
  { destruct (list_at t' (tokenId c) (userId c)) as [l|] eqn:El'; [|done]. cbn in El. by destruct (Hlist l t' HI' El'). }
  split; [done|]. intros u n En Et. destruct (proj1 (HC' u (userId c) (tokenId c) (proj1 Hc))) as (l & E' & _); [by exists n|]. congruence.
Qed.

End Reliable.
End Published.
End PublishedProxyData.

(** ** Observers of proxy data *)
Module ProxySubscriber.
Import PublishedProxyData.

(* @src service/data_share/subscriber_managers/proxy_data_subscriber_manager.h 48-55 ObserverNode *)
Record ObserverNode := mkObserver { observer : option Z; callerTokenId : Z; o_bundleName : string; callerAppIdentifier : string; o_userId : Z }.

Record DataProxyChangeInfo := mkInfo { c_type : ChangeType; c_uri : string; c_value : DataProxyValue; c_multi : bool; c_values : list DataProxyValue }.

Abbreviation Callbacks := (gmap Z (list DataProxyChangeInfo)).

Section Subscriber.
Context {PL : ProxyLimits} {US : UriSyntax} {CM : ConcurrentMap string (list ObserverNode)}.

(** Keys are ordered by the address alone, which is therefore the key of the map. *)
(* @src service/data_share/subscriber_managers/proxy_data_subscriber_manager.cpp 34-45 ProxyDataSubscriberManager::Add *)
Definition Add (u : string) (obs : option Z) (c : BundleInfo) (m : cmap string (list ObserverNode)) : Code * cmap string (list ObserverNode) :=
  (SUCCESS, (cm_compute [] u (fun value => (true, value ++ [mkObserver obs (tokenId c) (bundleName c) (appIdentifier c) (userId c)], tt)) m).1).

Definition not_of (token user : Z) (n : ObserverNode) : Prop := ~ (callerTokenId n = token /\ o_userId n = user).
#[local] Instance not_of_dec token user n : Decision (not_of token user n).
Proof. unfold not_of. apply _. Defined.

(* @src service/data_share/subscriber_managers/proxy_data_subscriber_manager.cpp 47-65 ProxyDataSubscriberManager::Delete *)
Definition DeleteSubscriber (u : string) (token user : Z) (m : cmap string (list ObserverNode)) : Code * cmap string (list ObserverNode) :=
  let '(m, found) := cm_compute_if_present false u (fun value =>
      let value := filter (not_of token user) value in (negb (bool_decide (value = [])), value, true)) m in
  (if found then SUCCESS else URI_NOT_EXIST, m).

(* @src service/data_share/subscriber_managers/proxy_data_subscriber_manager.cpp 67-76 ProxyDataSubscriberManager::CheckAllowList *)
Definition CheckAllowList (allow : list string) (app : string) : bool :=
  existsb (fun item => bool_decide (app = item) || bool_decide (item = ALLOW_ALL)) allow.

(* @src service/data_share/subscriber_managers/proxy_data_subscriber_manager.cpp 79-92 ProxyDataSubscriberManager::BuildChangeInfo *)
Definition BuildChangeInfo (type : ChangeType) (d : DataShareProxyData) : DataProxyChangeInfo :=
  if isMultiValues_ d
  then mkInfo type (uri_ d) (value_ d) true (in_order (multiValues_ d) ≫= (fun a => (in_order a.2).*2))
  else mkInfo type (uri_ d) (value_ d) false [].

(** Whether an observer is told of a change of [d] by an application of [user]. *)
Definition may_be_told (d : DataShareProxyData) (user : Z) (n : ObserverNode) : bool :=
  (CheckAllowList (allowList_ d) (callerAppIdentifier n) || bool_decide (GetBundleNameFromProxyURI (uri_ d) "" = o_bundleName n)) && (o_userId n =? user).

(** [callbacks[obs.observer].push_back]; the entry of the null observer is skipped in the end. *)
Definition push_back (o : option Z) (i : DataProxyChangeInfo) (cb : Callbacks) : Callbacks :=
  match o with Some o => <[o := default [] (cb !! o) ++ [i]]> cb | None => cb end.

Definition collect_nodes (type : ChangeType) (d : DataShareProxyData) (user : Z) (nodes : list ObserverNode) (cb : Callbacks) : Callbacks :=
  fold_left (fun cb n => if may_be_told d user n then push_back (observer n) (BuildChangeInfo type d) cb else cb) nodes cb.

Definition collect (m : cmap string (list ObserverNode)) (user : Z) (cb : Callbacks) (e : ChangeType * DataShareProxyData) : Callbacks :=
  match cm_view m !! uri_ e.2 with None => cb | Some nodes => collect_nodes e.1 e.2 user nodes cb end.

(** What each observer is told; [datas] are the changes in the order of their types. *)
(* @src service/data_share/subscriber_managers/proxy_data_subscriber_manager.cpp 94-125 ProxyDataSubscriberManager::Emit *)
Definition Emit (datas : list (ChangeType * list DataShareProxyData)) (user : Z) (m : cmap string (list ObserverNode)) : Callbacks :=
  fold_left (collect m user) (datas ≫= (fun e => (fun d => (e.1, d)) <$> e.2)) ∅.

(** What one observer is told of one change: once for each of its subscriptions that may be told. *)
Definition told_of (o : Z) (user : Z) (m : cmap string (list ObserverNode)) (e : ChangeType * DataShareProxyData) : list DataProxyChangeInfo :=
  (fun _ => BuildChangeInfo e.1 e.2) <$> filter (fun n => observer n = Some o /\ may_be_told e.2 user n = true) (default [] (cm_view m !! uri_ e.2)).

Lemma collect_nodes_at type d user nodes cb o :
  default [] (collect_nodes type d user nodes cb !! o)
  = default [] (cb !! o) ++ ((fun _ => BuildChangeInfo type d) <$> filter (fun n => observer n = Some o /\ may_be_told d user n = true) nodes).
Proof.
  unfold collect_nodes. revert cb. induction nodes as [|n nodes IH]; intros cb; cbn [fold_left]; [by rewrite filter_nil, app_nil_r|]. rewrite IH.
  destruct (may_be_told d user n) eqn:Em; [|by rewrite (filter_cons_False _ n) by (intros [? ?]; congruence)].
  unfold push_back. destruct (observer n) as [o'|] eqn:Eo; [|by rewrite (filter_cons_False _ n) by (intros [? ?]; congruence)].
  destruct (decide (o' = o)) as [->|Hne].
  - rewrite lookup_insert_eq, filter_cons_True by done. cbn. by rewrite <- app_assoc.
  - rewrite lookup_insert_ne by done. by rewrite (filter_cons_False _ n) by (intros [? ?]; congruence).
Qed.

Lemma collect_all_at m user l cb o : default [] (fold_left (collect m user) l cb !! o) = default [] (cb !! o) ++ (l ≫= told_of o user m).
Proof.
  revert cb. induction l as [|e l IH]; intros cb; cbn [fold_left]; [by rewrite app_nil_r|]. rewrite IH. cbn [mbind list_bind]. rewrite app_assoc. f_equal.
  unfold collect, told_of. destruct (cm_view m !! uri_ e.2) as [nodes|]; [apply collect_nodes_at|]. by rewrite app_nil_r.
Qed.
End Subscriber.
End ProxySubscriber.

(** ** The operations of the service *)
Module ProxyService.
Import PublishedProxyData ProxySubscriber.
Section Service.
Context {PL : ProxyLimits} {US : UriSyntax} {RT : RowText} {KT : KvTable} {CM : ConcurrentMap string (list ObserverNode)}.

Record State := mkState { db_ : Db; subscribers_ : cmap string (list ObserverNode) }.
Definition set_db d s := mkState d (subscribers_ s).

(** The loop of a publication: the results, the changes to be told by type, and the table. *)
Record Published := mkPublished { results : list (string * Code); inserted : list DataShareProxyData; updated : list DataShareProxyData; now : Db }.

Definition publish_one (c : BundleInfo) (max : Z) (p : Published) (d : DataShareProxyData) : Published :=
  let out := Upsert d c max (if isMultiValues_ d then PUBLISH_MULTIVALUES else NORMAL_PUBLISH) (now p) in
  let ok := bool_decide (code out = SUCCESS) in
  mkPublished (results p ++ [(uri_ d, code out)])
    (if ok && bool_decide (change out = INSERT) then inserted p ++ [d] else inserted p)
    (if ok && bool_decide (change out = UPDATE) then updated p ++ [d] else updated p)
    (after out).

(** [GetCallerBundleInfo] yields the caller, or fails. *)
(* @src service/data_share/data_share_service_impl.cpp 1153-1178 DataShareServiceImpl::PublishProxyData *)
Definition PublishProxyData (caller : option BundleInfo) (ds : list DataShareProxyData) (max : Z) (s : State) : list (string * Code) * Callbacks * State :=
  match caller with
  | None => ([], ∅, s)
  | Some c =>
      let p := fold_left (publish_one c max) ds (mkPublished [] [] [] (db_ s)) in
      (results p, Emit [(INSERT, inserted p); (UPDATE, updated p)] (userId c) (subscribers_ s), set_db (now p) s)
  end.

Definition delete_one (c : BundleInfo) (p : list (string * Code) * list DataShareProxyData * Db) (u : string) : list (string * Code) * list DataShareProxyData * Db :=
  let '(rs, ds, db) := p in
  let '(r, old, db) := Delete u c db in
  (rs ++ [(u, r)], match old with Some d => ds ++ [d] | None => ds end, db).

(* @src service/data_share/data_share_service_impl.cpp 1208-1226 DataShareServiceImpl::DeleteAndNotifyProxyData *)
Definition DeleteAndNotifyProxyData (us : list string) (c : BundleInfo) (s : State) : list (string * Code) * Callbacks * State :=
  let '(rs, ds, db) := fold_left (delete_one c) us ([], [], db_ s) in
  (rs, Emit [(DELETE, ds)] (userId c) (subscribers_ s), set_db db s).

(* @src service/data_share/data_share_service_impl.cpp 1180-1189 DataShareServiceImpl::DeleteProxyData *)
Definition DeleteProxyData (caller : option BundleInfo) (us : list string) (s : State) : list (string * Code) * Callbacks * State :=
  match caller with None => ([], ∅, s) | Some c => DeleteAndNotifyProxyData us c s end.

(* @src service/data_share/data_share_service_impl.cpp 1191-1205 DataShareServiceImpl::DeleteAllProxyData *)
Definition DeleteAllProxyData (caller : option BundleInfo) (s : State) : list (string * Code) * Callbacks * State :=
  match caller with
  | None => ([], ∅, s)
  | Some c => match QueryList (tokenId c) (userId c) (db_ s) with
              | None | Some [] => ([], ∅, s)
              | Some us => DeleteAndNotifyProxyData us c s
              end
  end.

(** A read: the address, the code, the value and the names allowed. *)
(* @src service/data_share/data_share_service_impl.cpp 1228-1258 DataShareServiceImpl::GetProxyData *)
Definition GetProxyData (caller : option BundleInfo) (us : list string) (max : Z) (s : State) : list (string * Code * option (DataProxyValue * list string)) :=
  match caller with
  | None => []
  | Some c =>
      if negb (max =? MAX_LENGTH_4K) && negb (max =? MAX_LENGTH_100K) then []
      else (fun u => match Query u c QUERY_VALUE (db_ s) with
                     | inl e => (u, e, None)
                     | inr d => if over_length (value_ d) max then (u, OVER_LIMIT, None) else (u, SUCCESS, Some (value_ d, allowList_ d))
                     end) <$> us
  end.

Definition subscribe_one (c : BundleInfo) (obs : option Z) (p : list (string * Code) * State) (u : string) : list (string * Code) * State :=
  match Query u c ANY_QUERY (db_ p.2) with
  | inl e => (p.1 ++ [(u, e)], p.2)
  | inr _ => let '(r, m) := Add u obs c (subscribers_ p.2) in (p.1 ++ [(u, r)], mkState (db_ p.2) m)
  end.

(* @src service/data_share/data_share_service_impl.cpp 1260-1280 DataShareServiceImpl::SubscribeProxyData *)
Definition SubscribeProxyData (caller : option BundleInfo) (us : list string) (obs : option Z) (s : State) : list (string * Code) * State :=
  match caller with None => ([], s) | Some c => fold_left (subscribe_one c obs) us ([], s) end.

(* @src service/data_share/data_share_service_impl.cpp 1282-1293 DataShareServiceImpl::UnsubscribeProxyData *)
Definition UnsubscribeProxyData (token user : Z) (us : list string) (s : State) : list (string * Code) * State :=
  fold_left (fun p u => let '(r, m) := DeleteSubscriber u token user (subscribers_ p.2) in (p.1 ++ [(u, r)], mkState (db_ p.2) m)) us ([], s).

Definition change_value (c : BundleInfo) (u key : string) (v : DataProxyValue) (max : Z) (mode : ProxyDataUpsertMode) (s : State) : Code * Callbacks * State :=
  let request := mkData u v [] false false true {[appIdentifier c := {[key := v]}]} [] max in
  let out := UpsertMultiValues request c max mode (db_ s) in
  (code out, if bool_decide (code out = SUCCESS) then Emit [(UPDATE, [updatedData out])] (userId c) (subscribers_ s) else ∅, set_db (after out) s).

(* @src service/data_share/data_share_service_impl.cpp 1569-1593 DataShareServiceImpl::PutValue *)
Definition PutValue (caller : option BundleInfo) (u key : string) (v : DataProxyValue) (max : Z) (s : State) : Code * Callbacks * State :=
  match caller with None => (INNER_ERROR, ∅, s) | Some c => change_value c u key v max PUT_MULTIVALUES s end.

(* @src service/data_share/data_share_service_impl.cpp 1595-1619 DataShareServiceImpl::RemoveValue *)
Definition RemoveValue (caller : option BundleInfo) (u key : string) (max : Z) (s : State) : Code * Callbacks * State :=
  match caller with None => (INNER_ERROR, ∅, s) | Some c => change_value c u key (VALUE_STRING "") max REMOVE_MULTIVALUES s end.

(* @src service/data_share/data_share_service_impl.cpp 1621-1653 DataShareServiceImpl::GetValues *)
Definition GetValues (caller : option BundleInfo) (u : string) (s : State) : Code + (DataProxyValue * list string * list DataProxyValue) :=
  match caller with
  | None => inl INNER_ERROR
  | Some c => match Query u c QUERY_MULTIVALUES (db_ s) with
              | inl e => inl e
              | inr d => inr (value_ d, allowList_ d, in_order (multiValues_ d) ≫= (fun a => (in_order a.2).*2))
              end
  end.

(** The changes told of were requested and succeeded. *)
Lemma publish_one_sound c max p d0 (D : list DataShareProxyData) :
  (forall d, d ∈ inserted p \/ d ∈ updated p -> d ∈ D /\ (uri_ d, SUCCESS) ∈ results p) ->
  forall d, d ∈ inserted (publish_one c max p d0) \/ d ∈ updated (publish_one c max p d0) -> d ∈ D ++ [d0] /\ (uri_ d, SUCCESS) ∈ results (publish_one c max p d0).
Proof.
  intros Hp x Hx. cbn [publish_one inserted updated results] in *. rewrite !elem_of_app. set (out := Upsert _ _ _ _ _) in *.
  destruct (bool_decide_reflect (code out = SUCCESS)) as [Ec|Ec]; cbn [andb] in Hx; [|destruct (Hp x Hx); auto].
  assert ((x ∈ inserted p \/ x ∈ updated p) \/ x = d0) as [Hx'| ->]; [|destruct (Hp x Hx'); auto|rewrite Ec; split; right; by left].
  destruct (bool_decide (change out = INSERT)), (bool_decide (change out = UPDATE)); rewrite ?elem_of_app, ?list_elem_of_singleton in Hx; tauto.
Qed.

Lemma published_sound c max ds p (D : list DataShareProxyData) :
  (forall d, d ∈ inserted p \/ d ∈ updated p -> d ∈ D /\ (uri_ d, SUCCESS) ∈ results p) ->
  forall d, d ∈ inserted (fold_left (publish_one c max) ds p) \/ d ∈ updated (fold_left (publish_one c max) ds p) ->
    d ∈ D ++ ds /\ (uri_ d, SUCCESS) ∈ results (fold_left (publish_one c max) ds p).
Proof.
  revert p D. induction ds as [|d0 ds IH]; intros p D Hp d Hd; cbn [fold_left] in *; [rewrite app_nil_r; by apply Hp|].
  destruct (IH (publish_one c max p d0) (D ++ [d0]) (publish_one_sound c max p d0 D Hp) d Hd) as [H1 H2]. by rewrite <- app_assoc in H1.
Qed.

(** A change is told to exactly those who may see it. When data are published, each observer is told, in the order of the publications of each kind, once for each of its
    subscriptions to the address whose application is allowed by the publication or is of the publisher's bundle, and whose user is
    the publisher's, of every publication that created the address or changed its value, and of nothing else. *)
Lemma published_told_exact c ds max s o :
  let '(rs, cb, s') := PublishProxyData (Some c) ds max s in
  let p := fold_left (publish_one c max) ds (mkPublished [] [] [] (db_ s)) in
  default [] (cb !! o) = (((fun d => (INSERT, d)) <$> inserted p) ++ ((fun d => (UPDATE, d)) <$> updated p)) ≫= told_of o (userId c) (subscribers_ s) /\
  length rs = length ds /\ (forall d, d ∈ inserted p \/ d ∈ updated p -> d ∈ ds /\ (uri_ d, SUCCESS) ∈ rs).
Proof.
  cbn zeta. unfold PublishProxyData. split_and!.
  - unfold Emit. rewrite collect_all_at, lookup_empty. cbn. by rewrite app_nil_r.
  - assert (forall p, length (results (fold_left (publish_one c max) ds p)) = (length (results p) + length ds)%nat) as H by
      (induction ds as [|d ds IH]; intros p; cbn; [lia|]; rewrite IH; cbn; rewrite length_app; cbn; lia). by rewrite H.
  - intros d Hd. apply (published_sound c max ds (mkPublished [] [] [] (db_ s)) []); [|done]. intros x [Hx|Hx]; by apply elem_of_nil in Hx.
Qed.
End Service.
End ProxyService.

(** ** A table with texts, limits and addresses *)
#[local] Instance Serial_eq_dec : EqDecision SerialDataShareProxyData.
Proof. solve_decision. Defined.
#[local] Instance Node_eq_dec : EqDecision ProxyDataNode.
Proof. solve_decision. Defined.
#[local] Instance ListNode_eq_dec : EqDecision ProxyDataListNode.
Proof. solve_decision. Defined.

(** Texts as the values they stand for. *)
Inductive Text : Type := NoText | NodeText (n : ProxyDataNode) | ListText (l : ProxyDataListNode).
#[local] Instance Text_eq_dec : EqDecision Text.
Proof. solve_decision. Defined.

#[local] Instance ValueText : RowText := {|
  id_text i := i; id_text_inj a b E := E;
  text := Text; no_text := NoText; node_text := NodeText; list_text := ListText;
  parse_node x := match x with NodeText n => Some (kept n) | _ => None end;
  parse_list x := match x with ListText l => Some l | _ => None end;
  parse_node_text n := eq_refl; parse_list_text l := eq_refl;
  parse_node_list l := eq_refl; parse_list_node n := eq_refl; parse_node_empty := eq_refl; parse_list_empty := eq_refl
|}.

#[local] Program Instance MapTable : KvTable := {|
  table := gmap string Text; rows t := t; kv_Upsert i x t := (true, <[i := x]> t); kv_Delete i t := (true, delete i t)
|}.
Next Obligation. done. Qed.
Next Obligation. done. Qed.

#[local] Program Instance SmallLimits : ProxyLimits := {|
  URI_MAX_SIZE := 40; APPIDENTIFIER_MAX_SIZE := 8; ALLOW_LIST_MAX_COUNT := 2; PROXY_DATA_MAX_COUNT := 2;
  MAX_SINGLE_MULTIVALUE_LENGTH := 4; MAX_MULTIVALUE_COUNT_PER_APP := 1; MAX_LENGTH_4K := 10; MAX_LENGTH_100K := 20; ALLOW_ALL := "all"; double_length _ := 8%nat
|}.
Next Obligation. lia. Qed.

(** The authority follows the scheme and ends at the next slash. *)
Definition scheme : string := "datashareproxy://".
Fixpoint until_slash (s : string) : string :=
  match s with EmptyString => "" | String c s => if bool_decide (c = "/"%char) then "" else String c (until_slash s) end.
Definition authority_of (u : string) : string := if String.prefix scheme u then until_slash (substr_from u (size scheme)) else "".

Lemma authority_of_number z : authority_of (to_string z) = "".
Proof.
  unfold authority_of. destruct (String.prefix scheme (to_string z)) eqn:E; [|done]. exfalso.
  assert ("d"%char ∉ chars (to_string z)) as Hd by (apply to_string_chars; set_solver).
  destruct (to_string z) as [|a s]; [done|]. apply Hd. unfold scheme in E. cbn [String.prefix] in E. destruct (ascii_dec "d"%char a) as [->|Hne]; [by left|done].
Qed.

#[local] Instance SchemeUri : UriSyntax := {| authority := authority_of; authority_number := authority_of_number |}.
#[local] Existing Instance GmapConcurrent.

Module ProxySamples.
Import PublishedProxyData ProxySubscriber ProxyService.

Definition page : string := "datashareproxy://app/page".
Definition publisher : BundleInfo := mkBundle "app" 100 1 "id1".
Definition reader : BundleInfo := mkBundle "other" 100 2 "id2".
Definition bundles (token : Z) : string := if token =? 1 then "app" else "other".

Definition several : DataShareProxyData := mkData page (VALUE_STRING "") ["id2"] false false true {[ "x" := {[ "k" := VALUE_STRING "one" ]} ]} ["id2"] 0.
Definition store0 : gmap string Text := ∅.
Definition store1 : Db := after (Upsert several publisher 10 PUBLISH_MULTIVALUES (Some store0)).
Definition t1 : table := default store0 store1.

Lemma store1_reachable : reachable empty (step bundles) t1.
Proof.
  refine (reach_step empty (step bundles) store0 t1 (reach_init empty (step bundles) store0 eq_refl) (step_op bundles (OUpsert several publisher 10 PUBLISH_MULTIVALUES) store0 t1 _ _)).
  - split; [by split_and!|done].
  - vm_compute. reflexivity.
Qed.

Definition n0 : ProxyDataNode := mkNode (mkSerial "" (VALUE_INT 0) [] ∅ [] false 0) 0 0.

Lemma proxy_lists_exact_witness : exists t', OnAppUninstall "app" 100 1 (Some t1) = Some t' /\ list_at t' 1 100 = None /\ list_at t1 1 100 = Some [page].
Proof.
  destruct (proxy_lists_exact bundles ltac:(split; reflexivity) t1 publisher store1_reachable ltac:(by split_and!)) as (_ & t' & H1 & H2 & _).
  exists t'. split; [exact H1|]. split; [exact H2|]. by vm_compute.
Defined.

Definition n1 : ProxyDataNode := default n0 (node_at t1 page 100).


Lemma others_values_untouched_witness :
  exists t' n', node_at t' page 100 = Some n' /\ multiValues (proxyData n') !! "id1" = Some {[ "k" := VALUE_STRING "one" ]} /\
    (multiValues (proxyData n') !! "id2" ≫= (.!! "m")) = Some (VALUE_STRING "two").
Proof.
  destruct (others_values_untouched bundles t1 reader page "m" (VALUE_STRING "two") 10 PUT_MULTIVALUES n1 store1_reachable ltac:(done) ltac:(by vm_compute) ltac:(by left) ltac:(by vm_compute))
    as (_ & _ & t' & n' & _ & _ & En & _ & _ & _ & _ & _ & H1 & _ & H2).
  exists t', n'. split; [exact En|]. split; [|by apply H2]. rewrite (H1 "id1") by done. by vm_compute.
Defined.

(** ** What the operations do not do *)

(** The publisher may remove a value another application has put: the operation reports success and removes nothing. *)
Definition with_other : Db := after (UpsertMultiValues (mkData page (VALUE_STRING "two") [] false false true {[ "id2" := {[ "m" := VALUE_STRING "two" ]} ]} [] 10) reader 10 PUT_MULTIVALUES (Some t1)).
Definition node_in (db : Db) : option MultiValues := t ← db; n ← node_at t page 100; Some (multiValues (proxyData n)).
Definition value_in (db : Db) (app key : string) : option DataProxyValue := mv ← node_in db; km ← (mv : MultiValues) !! app; (km : KeyMap) !! key.

Lemma publisher_removal_without_effect :
  let out := UpsertMultiValues (mkData page (VALUE_STRING "") [] false false true {[ "id1" := {[ "m" := VALUE_STRING "" ]} ]} [] 10) publisher 10 REMOVE_MULTIVALUES with_other in
  code out = SUCCESS /\ node_in (after out) = node_in with_other /\ value_in with_other "id2" "m" = Some (VALUE_STRING "two").
Proof. split_and!; by vm_compute. Qed.

(** An application cannot remove its own value when one before it has a value of the same key. *)
Definition same_key : Db := after (UpsertMultiValues (mkData page (VALUE_STRING "two") [] false false true {[ "id2" := {[ "k" := VALUE_STRING "two" ]} ]} [] 10) reader 10 PUT_MULTIVALUES (Some t1)).

Lemma own_value_not_removed :
  value_in same_key "id2" "k" = Some (VALUE_STRING "two") /\
  code (UpsertMultiValues (mkData page (VALUE_STRING "") [] false false true {[ "id2" := {[ "k" := VALUE_STRING "" ]} ]} [] 10) reader 10 REMOVE_MULTIVALUES same_key) = KEY_NOT_EXIST.
Proof. split; by vm_compute. Qed.

(** The limit of a single value is checked when a key is new, not when it is given another value. *)
Lemma single_limit_not_checked_on_update :
  let put v := UpsertMultiValues (mkData page v [] false false true {[ "id1" := {[ "k" := v ]} ]} [] 10) publisher 10 PUT_MULTIVALUES (Some t1) in
  code (put (VALUE_STRING "12345678")) = SUCCESS /\ (MAX_SINGLE_MULTIVALUE_LENGTH < size "12345678")%nat.
Proof. split; [by vm_compute|]. cbn. lia. Qed.

(** When the names allowed are left as they were, the observers they allow are not told of the new value. *)
Definition single (v : string) (undefined : bool) : DataShareProxyData := mkData page (VALUE_STRING v) (if undefined then [] else ["id2"]) false undefined false ∅ [] 10.
Definition subscribed : State :=
  (SubscribeProxyData (Some reader) [page] (Some 7) (PublishProxyData (Some publisher) [single "old" false] 10 (mkState (Some store0) ∅)).2).2.

Lemma kept_allow_list_not_told :
  (PublishProxyData (Some publisher) [single "new" false] 10 subscribed).1.2 !! 7 <> None /\
  (PublishProxyData (Some publisher) [single "new" true] 10 subscribed).1 = ([(page, SUCCESS)], ∅) /\
  GetProxyData (Some reader) [page] 10 (PublishProxyData (Some publisher) [single "new" true] 10 subscribed).2 = [(page, SUCCESS, Some (VALUE_STRING "new", []))].
Proof. split_and!; by vm_compute. Qed.
End ProxySamples.
