(* ===== verification/UdmfData.v ===== *)
(** * The stores of unified data ([service/udmf/store/runtime_store.cpp], [service/udmf/preprocess/data_handler.cpp])

    Applications exchange unified data (drag and drop, shared and picked data) through stores of the service, one per intention. [DataHandler]
    splits the data into entries of a key-value store and puts them together again; [RuntimeStore] are the operations of a store.

    Records, keys and the test whether data are complete belong to the library of unified data: the class [UdLib] has their operations and what the
    service relies on. A value of the store is represented by what it was written from: the writer and reader of the library give back with the same tag
    what was written and refuse another tag. The key-value store is a list of entries in the order in which they were written; whether
    overwriting an entry counts as writing it anew is a parameter ([rewrite_moves]). The answers of the database are a list in the state, and the
    database answers OK when the list is empty; a write that is not answered with OK changes nothing. *)

From Stdlib Require Import Ascii.
From stdpp Require Import sorting.
From S2P Require Import Prelude CppString.

Inductive Status : Type :=
| E_OK | E_ERROR | E_DB_ERROR | E_DB_CORRUPTED | E_NOT_FOUND | E_INVALID_PARAMETERS | E_NO_PERMISSION | E_READ_PARCEL_ERROR | E_SETTINGS_EXISTED | E_FS_ERROR.
#[export] Instance Status_eq_dec : EqDecision Status.
Proof. solve_decision. Defined.

Inductive DBStatus : Type := OK | NOT_FOUND | INVALID_PASSWD_OR_CORRUPTED_DB | DB_ERROR.
#[export] Instance DBStatus_eq_dec : EqDecision DBStatus.
Proof. solve_decision. Defined.

Definition DRAG : string := "drag".
Definition DATA_PREFIX : string := "udmf://".

(** ** The data *)
Record UnifiedKey := mkUKey { ukey : string; intention : string; bundleName : string; groupId : string }.
Record Privilege := mkPrivilege { p_tokenId : Z; readPermission : string }.
#[export] Instance Privilege_eq_dec : EqDecision Privilege.
Proof. solve_decision. Defined.

Record Runtime := mkRuntime {
  r_key : UnifiedKey; privileges : list Privilege; createTime : Z; lastModifiedTime : Z; sourcePackage : string; createPackage : string; deviceId : string;
  recordTotalNum : Z; tokenId : Z; sdkVersion : string; own_process : bool; appId : string; waiting : bool; permissionPolicyMode : Z
}.

(** An object of a record: its members are texts, 32-bit and 64-bit integers and the details, an object of its own. *)
Inductive Prim : Type := PText (s : string) | PInt (z : Z) | PInt64 (z : Z).
Abbreviation UDDetails := (gmap string Prim).
Inductive Member : Type := MPrim (p : Prim) | MDetails (d : UDDetails).
Abbreviation Object := (gmap string Member).
(** An entry of a record holds an object, which may be null, or another value. *)
Inductive ValueType : Type := VObject (o : option Object) | VOther (z : Z).
Record UriInfo := mkUri { oriUri : string; dfsUri : string; authUri : string; u_permission : Z; permissionMask : Z }.
Record UnifiedDataProperties := mkProps { uriAuthorizationPolicies : list Z; p_tag : Z }.
Definition no_properties : UnifiedDataProperties := mkProps [] 0.

Record Summary := mkSummary { summary : gmap string Z; totalSize : Z }.
Record DataLoadInfo := mkLoad { sequenceKey : string; recordCount : Z; types : list string }.

(** The library: names, keys and records. The inner entries are those that are added to a record; [GetEntries] are all its entries, the objects of which are shared
    with the record ([with_object] applies a change of the object of an entry). The addresses of images taken from a text have no permission yet. Adding the inner entries to the record they were cleared from gives the record,
    in whatever order they are added. *)
Inductive Intention : Type := UD_INTENTION_DRAG | UD_INTENTION_DATA_HUB | UD_INTENTION_SYSTEM_SHARE | UD_INTENTION_PICKER | UD_INTENTION_MENU | UD_INTENTION_BASE | UD_INTENTION_BUTT.
#[export] Instance Intention_eq_dec : EqDecision Intention.
Proof. solve_decision. Defined.

Class UdLib := {
  UD_INTENTION_MAP : Intention -> option string;
  DETAILS : string; ORI_URI : string; REMOTE_URI : string; UNIFORM_DATA_TYPE : string; PERMISSION_POLICY : string; URI_PERMISSION_MASK : string;
  URI_AUTHORIZATION_POLICIES : string; GENERAL_FILE_URI : string; HTML : string;
  parse_key : string -> UnifiedKey;
  NewKey : string -> string -> string -> UnifiedKey;
  IsValid : UnifiedKey -> bool;
  GetUnifiedKey : UnifiedKey -> string;
  GetKeyCommonPrefix : UnifiedKey -> string;
  UnifiedRecord : Type;
  GetUid : UnifiedRecord -> string;
  SetUid : string -> UnifiedRecord -> UnifiedRecord;
  IsFile : UnifiedRecord -> bool;
  GetOriginValue : UnifiedRecord -> ValueType;
  GetInnerEntries : UnifiedRecord -> gmap string ValueType;
  ClearInnerEntries : UnifiedRecord -> UnifiedRecord;
  AddEntry : string -> ValueType -> UnifiedRecord -> UnifiedRecord;
  GetEntries : UnifiedRecord -> option (gmap string ValueType);
  with_object : string -> (Object -> Object) -> UnifiedRecord -> UnifiedRecord;
  GetUris : UnifiedRecord -> list UriInfo;
  ComputeUris : (UriInfo -> UriInfo) -> UnifiedRecord -> UnifiedRecord;
  GetUriFromHtmlRecord : UnifiedRecord -> UnifiedRecord;
  intention_drag : UD_INTENTION_MAP UD_INTENTION_DRAG = Some "drag";
  intention_name_inj i j n : UD_INTENTION_MAP i = Some n -> UD_INTENTION_MAP j = Some n -> i = j;
  new_key i b g : intention (NewKey i b g) = i;
  member_names : NoDup [DETAILS; ORI_URI; REMOTE_URI; UNIFORM_DATA_TYPE; PERMISSION_POLICY; URI_PERMISSION_MASK; URI_AUTHORIZATION_POLICIES];
  with_object_entries k f r : GetEntries (with_object k f r) = alter (fun v => match v with VObject (Some o) => VObject (Some (f o)) | _ => v end) k <$> GetEntries r;
  uid_entries u r : GetEntries (SetUid u r) = GetEntries r;
  uid_uris u r : GetUris (SetUid u r) = GetUris r;
  uid_set u r : GetUid (SetUid u r) = u;
  uid_inner u r : GetInnerEntries (SetUid u r) = GetInnerEntries r;
  with_object_uris k f r : GetUris (with_object k f r) = GetUris r;
  compute_uris f r : GetUris (ComputeUris f r) = f <$> GetUris r;
  compute_entries f r : GetEntries (ComputeUris f r) = GetEntries r;
  html_entries r : GetEntries (GetUriFromHtmlRecord r) = GetEntries r;
  html_no_permission r u : u ∈ GetUris (GetUriFromHtmlRecord r) -> permissionMask u = 0;
  added_back r l : l ≡ₚ map_to_list (GetInnerEntries r) -> fold_left (fun r e => AddEntry e.1 e.2 r) l (ClearInnerEntries r) = r
}.

Section Data.
Context {UL : UdLib}.

Record UnifiedData := mkData { records : list (option UnifiedRecord); runtime : option Runtime; properties : UnifiedDataProperties }.
Definition no_data : UnifiedData := mkData [] None no_properties.

(** A value of the store, by the tag it is written with. *)
Inductive Value : Type :=
| VRuntime (r : Runtime) | VProperties (p : UnifiedDataProperties) | VRecord (r : UnifiedRecord) | VInner (m : gmap string ValueType) | VSummary (s : Summary).
End Data.
Abbreviation Entry := (string * Value)%type.

(** ** Data and entries *)
Module DataHandler.
Section DataHandler.
Context {UL : UdLib}.

Definition UD_KEY_SEPARATOR : string := "/".
Definition UD_KEY_ENTRY_SEPARATOR : string := "#".
Definition UD_KEY_PROPERTIES_SEPARATOR : string := "#properties".

Definition record_key (unifiedKey : string) (r : UnifiedRecord) : string := unifiedKey +:+ UD_KEY_SEPARATOR +:+ GetUid r.
Definition inner_key (unifiedKey : string) (r : UnifiedRecord) (utdId : string) : string := record_key unifiedKey r +:+ UD_KEY_ENTRY_SEPARATOR +:+ utdId.

(** The record that is written has lost its inner entries, which have entries of their own. *)
(* @src service/udmf/preprocess/data_handler.cpp 126-162 DataHandler::BuildEntries *)
Definition BuildEntries (rs : list (option UnifiedRecord)) (unifiedKey : string) : list Entry :=
  rs ≫= (fun r => match r with
                  | None => []
                  | Some r => ((fun e => (inner_key unifiedKey r e.1, VInner {[e.1 := e.2]})) <$> in_order (GetInnerEntries r))
                                ++ [(record_key unifiedKey r, VRecord (ClearInnerEntries r))]
                  end).

(* @src service/udmf/preprocess/data_handler.cpp 28-51 DataHandler::MarshalToEntries *)
Definition MarshalToEntries (d : UnifiedData) (r : Runtime) : list Entry :=
  let unifiedKey := GetUnifiedKey (r_key r) in
  [(unifiedKey, VRuntime r); (GetKeyCommonPrefix (r_key r) +:+ UD_KEY_PROPERTIES_SEPARATOR, VProperties (properties d))] ++ BuildEntries (records d) unifiedKey.

(** What the loop over the entries has found: the data, the keys of its records, and the inner entries. *)
Record Found := mkFound { f_data : UnifiedData; f_keys : list string; f_inner : gmap string (gmap string ValueType) }.

Definition read_item (key : string) (e : Entry) (f : Found) : option Found :=
  let d := f_data f in
  if bool_decide (e.1 = key) then
    match e.2 with VRuntime r => Some (mkFound (mkData (records d) (Some r) (properties d)) (f_keys f) (f_inner f)) | _ => None end
  else
    let isStartWithKey := String.prefix key e.1 in
    if negb isStartWithKey && bool_decide (e.1 = GetKeyCommonPrefix (parse_key key) +:+ UD_KEY_PROPERTIES_SEPARATOR) then
      match e.2 with VProperties p => Some (mkFound (mkData (records d) (runtime d) p) (f_keys f) (f_inner f)) | _ => None end
    else
      let isEntryItem := bool_decide (is_Some (rfind e.1 UD_KEY_ENTRY_SEPARATOR)) in
      if isStartWithKey && negb isEntryItem then
        match e.2 with VRecord r => Some (mkFound (mkData (records d ++ [Some r]) (runtime d) (properties d)) (f_keys f ++ [e.1]) (f_inner f)) | _ => None end
      else if isStartWithKey && isEntryItem then
        match e.2 with VInner m => Some (mkFound d (f_keys f) (match f_inner f !! e.1 with None => <[e.1 := m]> (f_inner f) | Some _ => f_inner f end)) | _ => None end
      else Some f.

(** An entry that cannot be read ends the loop. *)
(* @src service/udmf/preprocess/data_handler.cpp 74-124 DataHandler::UnmarshalEntryItem *)
Fixpoint UnmarshalEntryItem (key : string) (es : list Entry) (f : Found) : Status * Found :=
  match es with
  | [] => (E_OK, f)
  | e :: es => match read_item key e f with None => (E_READ_PARCEL_ERROR, f) | Some f => UnmarshalEntryItem key es f end
  end.

(** Where an inner entry belongs: the key of the record, the type and the value, when the entry has a value of that type. *)
Definition target (e : string * gmap string ValueType) : option (string * (string * ValueType)) :=
  let idx := default O (rfind e.1 UD_KEY_ENTRY_SEPARATOR) in
  let entryUtdId := substr_from e.1 (S idx) in
  v ← e.2 !! entryUtdId; Some (substr e.1 0 idx, (entryUtdId, v)).

(** [records.find(recordKey)] is the first record read from that key, which is shared with the data. *)
Definition add_inner (keys : list string) (rs : list (option UnifiedRecord)) (e : string * gmap string ValueType) : list (option UnifiedRecord) :=
  match target e with
  | None => rs
  | Some (recordKey, (utdId, v)) =>
      match list_find (eq recordKey) keys with
      | None => rs
      | Some (i, _) => alter (fmap (AddEntry utdId v)) i rs
      end
  end.

(* @src service/udmf/preprocess/data_handler.cpp 53-72 DataHandler::UnmarshalEntries *)
Definition UnmarshalEntries (key : string) (es : list Entry) (d : UnifiedData) : Status * UnifiedData :=
  match UnmarshalEntryItem key es (mkFound d [] ∅) with
  | (E_OK, f) => (E_OK, mkData (fold_left (add_inner (f_keys f)) (in_order (f_inner f)) (records (f_data f))) (runtime (f_data f)) (properties (f_data f)))
  | (status, f) => (status, f_data f)
  end.

(* @src service/udmf/preprocess/data_handler.cpp 164-183 DataHandler::UnmarshalRuntimes *)
Fixpoint UnmarshalRuntimes (keySet : list string) (es : list Entry) : option (list Runtime) :=
  match es with
  | [] => Some []
  | (k, v) :: es =>
      if bool_decide (k ∈ keySet)
      then match v with VRuntime r => rs ← UnmarshalRuntimes keySet es; Some (r :: rs) | _ => None end
      else UnmarshalRuntimes keySet es
  end.

(** *** Reading back what was written *)

(** What the round trip needs: the keys have no separator of entries, the records have different identifiers, and the key is more than its prefix. *)
Record writable (key cp : string) (rs : list UnifiedRecord) : Prop := mkWritable {
  w_key : "#"%char ∉ chars key;
  w_prefix : exists c s, key = cp +:+ String c s;
  w_common : GetKeyCommonPrefix (parse_key key) = cp;
  w_uids : NoDup (GetUid <$> rs);
  w_uid r : r ∈ rs -> "#"%char ∉ chars (GetUid r);
  w_utds r u : r ∈ rs -> is_Some (GetInnerEntries r !! u) -> "#"%char ∉ chars u
}.

(** The inner entries of the records with their keys. *)
Definition inner_list (key : string) (rs : list UnifiedRecord) : list (string * gmap string ValueType) :=
  rs ≫= (fun r => (fun e => (inner_key key r e.1, {[e.1 := e.2]})) <$> in_order (GetInnerEntries r)).

Lemma rfind_last a b : "#"%char ∉ chars b -> rfind (a +:+ UD_KEY_ENTRY_SEPARATOR +:+ b) UD_KEY_ENTRY_SEPARATOR = Some (size a).
Proof.
  intros Hb. unfold rfind, size. rewrite !chars_app. change (chars UD_KEY_ENTRY_SEPARATOR) with ["#"%char]. set (x := "#"%char) in *. generalize (chars a) as la. generalize dependent (chars b). intros lb Hb la.
  assert (lrfind [x] lb = None) as E.
  { destruct (lrfind [x] lb) as [i|] eqn:E; [|done]. apply lrfind_Some in E as [Ho _]. apply occurs_at_split in Ho as [c Hc].
    exfalso. apply Hb. rewrite Hc. set_solver. }
  induction la as [|c la IH].
  - cbn -[decide]. rewrite E. cbn. by rewrite decide_True by (by exists lb).
  - cbn -[decide]. cbn -[decide] in IH. by rewrite IH.
Qed.

Lemma rfind_none a : "#"%char ∉ chars a -> rfind a UD_KEY_ENTRY_SEPARATOR = None.
Proof.
  intros Ha. unfold rfind. cbn. destruct (lrfind _ _) as [i|] eqn:E; [|done]. apply lrfind_Some in E as [Ho _].
  apply occurs_at_split in Ho as [c Hc]. exfalso. apply Ha. rewrite Hc. set_solver.
Qed.

Lemma target_inner key r u v : "#"%char ∉ chars u -> target (inner_key key r u, {[u := v]}) = Some (record_key key r, (u, v)).
Proof.
  intros Hu. unfold target, inner_key. cbn [fst snd]. rewrite rfind_last by done. cbn [default].
  change (UD_KEY_ENTRY_SEPARATOR +:+ u) with (String "#" u). rewrite substr_second, substr_first, lookup_singleton_eq. done.
Qed.

Lemma record_key_plain key cp rs r : writable key cp rs -> r ∈ rs -> "#"%char ∉ chars (record_key key r).
Proof.
  intros W Hr. unfold record_key. rewrite !chars_app. pose proof (w_key _ _ _ W). pose proof (w_uid _ _ _ W r Hr).
  change (chars UD_KEY_SEPARATOR) with ["/"%char]. rewrite !elem_of_app, list_elem_of_singleton. by intros [?|[?|?]].
Qed.

Lemma longer_ne a b c : a +:+ String c b <> a.
Proof. intros E. apply (f_equal size) in E. rewrite size_app in E. unfold size in E. cbn in E. lia. Qed.

(** An entry that starts with the key is not taken for the properties. *)
Lemma read_record key cp rs r x f : writable key cp rs -> r ∈ rs ->
  read_item key (record_key key r, VRecord x) f
  = Some (mkFound (mkData (records (f_data f) ++ [Some x]) (runtime (f_data f)) (properties (f_data f))) (f_keys f ++ [record_key key r]) (f_inner f)).
Proof.
  intros W Hr. unfold read_item. cbn [fst snd]. rewrite bool_decide_false by apply longer_ne.
  assert (String.prefix key (record_key key r) = true) as -> by apply prefix_app. cbn [negb andb].
  rewrite (rfind_none (record_key key r)) by (eapply record_key_plain; done). done.
Qed.

Lemma read_inner key cp rs r u m f : writable key cp rs -> r ∈ rs -> "#"%char ∉ chars u -> f_inner f !! inner_key key r u = None ->
  read_item key (inner_key key r u, VInner m) f = Some (mkFound (f_data f) (f_keys f) (<[inner_key key r u := m]> (f_inner f))).
Proof.
  intros W Hr Hu Hn. unfold read_item. cbn [fst snd].
  assert (inner_key key r u = key +:+ String "/" (GetUid r +:+ "#" +:+ u)) as E.
  { unfold inner_key, record_key. rewrite !string_app_assoc. done. }
  rewrite bool_decide_false by (rewrite E; apply longer_ne).
  assert (String.prefix key (inner_key key r u) = true) as -> by (rewrite E; apply prefix_app). cbn [negb andb].
  assert (rfind (inner_key key r u) UD_KEY_ENTRY_SEPARATOR = Some (size (record_key key r))) as -> by (by apply rfind_last).
  cbn. by rewrite Hn.
Qed.

Lemma read_inner_entries key cp rs r l : writable key cp rs -> r ∈ rs -> forall f,
  NoDup l.*1 -> (forall e, e ∈ l -> "#"%char ∉ chars e.1) -> (forall e, e ∈ l -> f_inner f !! inner_key key r e.1 = None) ->
  exists m, (forall es, UnmarshalEntryItem key (((fun e => (inner_key key r e.1, VInner {[e.1 := e.2]})) <$> l) ++ es) f
                        = UnmarshalEntryItem key es (mkFound (f_data f) (f_keys f) m)) /\
    map_to_list m ≡ₚ ((fun e => (inner_key key r e.1, {[e.1 := e.2]})) <$> l) ++ map_to_list (f_inner f).
Proof.
  intros W Hr. induction l as [|[u v] l IH]; intros f Hnd Hu Hf; cbn.
  { exists (f_inner f). split; [by destruct f|done]. }
  apply NoDup_cons in Hnd as [Hn Hnd].
  destruct (IH (mkFound (f_data f) (f_keys f) (<[inner_key key r u := {[u := v]}]> (f_inner f)))) as (m & H1 & H2); cbn.
  - done.
  - intros e He. apply Hu. by right.
  - intros e He. rewrite lookup_insert_ne; [apply Hf; by right|]. unfold inner_key. intros E. do 2 apply string_app_inj_l in E.
    subst u. apply Hn. apply list_elem_of_fmap. by exists e.
  - exists m. split.
    + intros es. rewrite (read_inner key cp rs r u); [apply H1|done|done| |]; [apply (Hu (u, v))|apply (Hf (u, v))]; by left.
    + rewrite H2. cbn. rewrite map_to_list_insert by (apply (Hf (u, v)); by left). by rewrite Permutation_middle.
Qed.

Lemma inner_key_inj key r r' u u' : "#"%char ∉ chars u -> "#"%char ∉ chars u' ->
  inner_key key r u = inner_key key r' u' -> GetUid r = GetUid r' /\ u = u'.
Proof.
  intros Hu Hu' E. assert (target (inner_key key r u, {[u := VOther 0]}) = Some (record_key key r, (u, VOther 0))) as H by (by apply target_inner).
  assert (rfind (inner_key key r u) UD_KEY_ENTRY_SEPARATOR = Some (size (record_key key r))) as E1 by (by apply rfind_last).
  assert (rfind (inner_key key r' u') UD_KEY_ENTRY_SEPARATOR = Some (size (record_key key r'))) as E2 by (by apply rfind_last).
  rewrite E, E2 in E1. injection E1 as E1.
  assert (record_key key r = record_key key r') as ER.
  { rewrite <- (substr_first (record_key key r) (UD_KEY_ENTRY_SEPARATOR +:+ u)), <- (substr_first (record_key key r') (UD_KEY_ENTRY_SEPARATOR +:+ u')).
    by rewrite <- E1; unfold inner_key in E; rewrite E. }
  split; [by do 2 apply string_app_inj_l in ER|]. unfold inner_key in E. rewrite ER in E. by do 2 apply string_app_inj_l in E.
Qed.

Lemma utd_plain key cp rs r e : writable key cp rs -> r ∈ rs -> e ∈ in_order (GetInnerEntries r) -> "#"%char ∉ chars e.1.
Proof.
  intros W Hr He. apply (w_utds _ _ _ W r); [done|]. rewrite in_order_elements in He. destruct e as [u v]. apply elem_of_map_to_list in He. by exists v.
Qed.

Lemma in_order_NoDup {A} (m : gmap string A) : NoDup (in_order m).*1.
Proof. rewrite in_order_elements. apply NoDup_fst_map_to_list. Qed.

Lemma read_build key cp rs0 : writable key cp rs0 -> forall rs f, (forall r, r ∈ rs -> r ∈ rs0) -> NoDup (GetUid <$> rs) ->
  (forall r e, r ∈ rs -> e ∈ in_order (GetInnerEntries r) -> f_inner f !! inner_key key r e.1 = None) ->
  exists m, UnmarshalEntryItem key (BuildEntries (Some <$> rs) key) f
    = (E_OK, mkFound (mkData (records (f_data f) ++ (Some ∘ ClearInnerEntries <$> rs)) (runtime (f_data f)) (properties (f_data f))) (f_keys f ++ (record_key key <$> rs)) m) /\
    map_to_list m ≡ₚ inner_list key rs ++ map_to_list (f_inner f).
Proof.
  intros W. induction rs as [|r rs IH]; intros f Hsub Hnd Hf.
  { exists (f_inner f). cbn. rewrite !app_nil_r. destruct f as [[] ? ?]. done. }
  apply NoDup_cons in Hnd as [Hn Hnd]. assert (r ∈ rs0) as Hr by (apply Hsub; by left).
  destruct (read_inner_entries key cp rs0 r (in_order (GetInnerEntries r)) W Hr f) as (m1 & H1 & P1).
  { apply in_order_NoDup. } { intros e. by apply (utd_plain key cp rs0). } { intros e. apply Hf. by left. }
  unfold BuildEntries. rewrite fmap_cons, bind_cons, <- app_assoc, H1.
  cbn [app UnmarshalEntryItem]. rewrite (read_record key cp rs0) by done. cbn [f_data f_keys f_inner].
  destruct (IH (mkFound (mkData (records (f_data f) ++ [Some (ClearInnerEntries r)]) (runtime (f_data f)) (properties (f_data f))) (f_keys f ++ [record_key key r]) m1)) as (m & H2 & P2);
    cbn [f_data f_keys f_inner records runtime properties] in *.
  - intros x Hx. apply Hsub. by right.
  - done.
  - intros x e Hx He. destruct (m1 !! inner_key key x e.1) as [v|] eqn:E; [|done]. exfalso. apply elem_of_map_to_list in E. rewrite P1 in E.
    apply elem_of_app in E as [E|E].
    + apply list_elem_of_fmap in E as (e' & E & He'). injection E as E _. apply inner_key_inj in E as [E _].
      * apply Hn. rewrite <- E. by apply list_elem_of_fmap_2.
      * apply (utd_plain key cp rs0 x); [done|apply Hsub; by right|done].
      * by apply (utd_plain key cp rs0 r).
    + apply elem_of_map_to_list in E. rewrite Hf in E; [done|by right|done].
  - exists m. unfold BuildEntries in H2. rewrite H2. split; [by rewrite <- !app_assoc|].
    rewrite P2, P1. unfold inner_list. rewrite bind_cons. rewrite !app_assoc. f_equiv. by rewrite Permutation_app_comm.
Qed.

(** The entries among the inner ones that belong to the record of a key. *)
Definition mine (k : string) (e : string * gmap string ValueType) : option (string * ValueType) :=
  match target e with Some (k', uv) => if bool_decide (k' = k) then Some uv else None | None => None end.

Definition add_all (l : list (string * ValueType)) (r : UnifiedRecord) : UnifiedRecord := fold_left (fun r e => AddEntry e.1 e.2 r) l r.

Lemma add_inner_at keys L i k : NoDup keys -> keys !! i = Some k -> forall rs,
  fold_left (add_inner keys) L rs !! i = fmap (add_all (omap (mine k) L)) <$> rs !! i.
Proof.
  intros Hnd Hk. induction L as [|e L IH]; intros rs; cbn [fold_left].
  { destruct (rs !! i) as [[r|]|]; done. }
  rewrite IH. clear IH. cbn [omap list_omap]. unfold mine at 2, add_inner.
  destruct (target e) as [[k' [u v]]|]; [|done].
  destruct (list_find (eq k') keys) as [[j x]|] eqn:E.
  - apply list_find_Some in E as (Hj & -> & _). destruct (decide (j = i)) as [->|Hne].
    + rewrite Hk in Hj. injection Hj as ->. rewrite bool_decide_true by done. rewrite list_lookup_alter, decide_True by done. destruct (rs !! i) as [[r|]|]; reflexivity.
    + rewrite bool_decide_false; [by rewrite list_lookup_alter_ne|]. intros ->. apply Hne. by eapply NoDup_lookup.
  - rewrite bool_decide_false; [done|]. intros ->. apply list_find_None in E. rewrite Forall_lookup in E. by apply (E i k).
Qed.

Lemma fold_add_length keys L : forall rs, length (fold_left (add_inner keys) L rs) = length rs.
Proof.
  induction L as [|e L IH]; intros rs; [done|]. cbn. rewrite IH. unfold add_inner. repeat case_match; rewrite ?length_alter; done.
Qed.

Lemma record_key_inj key r r' : record_key key r = record_key key r' -> GetUid r = GetUid r'.
Proof. intros E. by do 2 apply string_app_inj_l in E. Qed.

Lemma mine_block key cp rs r r' : writable key cp rs -> r' ∈ rs ->
  omap (mine (record_key key r)) ((fun e => (inner_key key r' e.1, {[e.1 := e.2]})) <$> in_order (GetInnerEntries r'))
  = if bool_decide (GetUid r' = GetUid r) then in_order (GetInnerEntries r') else [].
Proof.
  intros W Hr. assert (forall e, e ∈ in_order (GetInnerEntries r') -> "#"%char ∉ chars e.1) as Hu by (intros; by eapply utd_plain).
  revert Hu. generalize (in_order (GetInnerEntries r')) as l. induction l as [|[u v] l IH]; intros Hu; [by case_bool_decide|].
  cbn [fmap list_fmap omap list_omap]. unfold mine at 1. cbn [fst snd]. rewrite target_inner by (apply (Hu (u, v)); by left).
  rewrite IH by (intros e He; apply Hu; by right).
  destruct (bool_decide_reflect (GetUid r' = GetUid r)) as [E|E].
  - rewrite bool_decide_true; [done|]. unfold record_key. by rewrite E.
  - rewrite bool_decide_false; [done|]. intros E'. by apply record_key_inj in E'.
Qed.

Lemma mine_all key cp rs0 r : writable key cp rs0 -> forall rs, (forall x, x ∈ rs -> x ∈ rs0) -> NoDup (GetUid <$> rs) -> r ∈ rs ->
  omap (mine (record_key key r)) (inner_list key rs) = in_order (GetInnerEntries r).
Proof.
  intros W. induction rs as [|x rs IH]; intros Hsub Hnd Hr; [by apply not_elem_of_nil in Hr|].
  apply NoDup_cons in Hnd as [Hn Hnd]. unfold inner_list. rewrite bind_cons, omap_app. rewrite (mine_block key cp rs0) by (done || (apply Hsub; by left)).
  apply elem_of_cons in Hr as [->|Hr].
  - rewrite bool_decide_true by done. rewrite <- (app_nil_r (in_order (GetInnerEntries x))) at 2. f_equal.
    clear IH Hnd. fold (inner_list key rs). revert Hsub Hn. induction rs as [|y rs IH]; intros Hsub Hn; [done|].
    unfold inner_list. rewrite bind_cons, omap_app, (mine_block key cp rs0) by (done || (apply Hsub; right; by left)).
    change (GetUid x ∉ GetUid y :: (GetUid <$> rs)) in Hn. apply not_elem_of_cons in Hn as [Hne Hn]. rewrite bool_decide_false by done. cbn [app]. apply IH; [|done].
    intros z [->|Hz]%elem_of_cons; apply Hsub; [by left|by right; right].
  - rewrite bool_decide_false; [|intros E; apply Hn; rewrite E; by apply list_elem_of_fmap_2]. apply IH; [|done|done]. intros z Hz. apply Hsub. by right.
Qed.

Lemma records_restored key cp rs L : writable key cp rs -> L ≡ₚ inner_list key rs ->
  fold_left (add_inner (record_key key <$> rs)) L (Some ∘ ClearInnerEntries <$> rs) = Some <$> rs.
Proof.
  intros W HL. apply list_eq. intros i. destruct (rs !! i) as [r|] eqn:E.
  - assert (NoDup (record_key key <$> rs)) as Hnd.
    { pose proof (w_uids _ _ _ W) as Hu. revert Hu. clear. induction rs as [|x rs IH]; [constructor|]. rewrite !fmap_cons, !NoDup_cons.
      intros [Hn Hu]. split; [|by apply IH]. intros (y & Ey & Hy)%list_elem_of_fmap. apply record_key_inj in Ey. apply Hn. rewrite Ey. by apply list_elem_of_fmap_2. }
    rewrite (add_inner_at _ L i (record_key key r)) by (done || (rewrite list_lookup_fmap, E; done)).
    rewrite !list_lookup_fmap, E. cbn. do 2 f_equal. apply added_back.
    rewrite <- in_order_elements. rewrite <- (mine_all key cp rs r W rs); [by rewrite HL|done|apply (w_uids _ _ _ W)|by eapply list_elem_of_lookup_2].
  - rewrite (proj2 (lookup_ge_None _ _)), list_lookup_fmap, E; [done|]. rewrite fold_add_length, length_fmap. by apply lookup_ge_None.
Qed.

Lemma suffix_not_under key cp rs s : writable key cp rs -> String.prefix key (cp +:+ String "#" s) = false.
Proof.
  intros W. apply not_true_is_false. intros H%prefix_chars. destruct (w_prefix _ _ _ W) as (c & x & ->). rewrite !chars_app in H. apply prefix_app_inv in H.
  cbn [chars] in H. apply prefix_cons_inv_1 in H. subst c. apply (w_key _ _ _ W). rewrite chars_app. apply elem_of_app. right. by left.
Qed.

(** What is read back from the entries of written data is the data, when nothing else under the key is among them. *)
Lemma entries_read_back d r rs key cp : records d = Some <$> rs -> GetUnifiedKey (r_key r) = key -> GetKeyCommonPrefix (r_key r) = cp ->
  writable key cp rs -> forall d0, records d0 = [] ->
  UnmarshalEntries key (MarshalToEntries d r) d0 = (E_OK, mkData (records d) (Some r) (properties d)).
Proof.
  intros Hd Hk Hc W d0 H0. unfold UnmarshalEntries, MarshalToEntries. rewrite Hk, Hc. cbn [app UnmarshalEntryItem].
  unfold read_item at 1. cbn [fst snd]. rewrite bool_decide_true by done. cbn [f_data f_keys f_inner records runtime properties].
  assert (String.prefix key (cp +:+ UD_KEY_PROPERTIES_SEPARATOR) = false) as Hp by (by eapply suffix_not_under).
  unfold read_item at 1. cbn [fst snd]. rewrite bool_decide_false. 2:{ intros E. rewrite E in Hp. assert (String.prefix key key = true) as H by (by apply prefix_chars). congruence. }
  rewrite Hp. cbn [negb andb]. rewrite bool_decide_true by (by rewrite (w_common _ _ _ W)). cbn [f_data f_keys f_inner records runtime properties].
  rewrite Hd. edestruct (read_build key cp rs W rs) as (m & -> & Hm); [done|apply (w_uids _ _ _ W)|done|].
  cbn [f_data f_keys f_inner records runtime properties app] in *. rewrite H0. cbn [app]. rewrite (records_restored key cp) by (done || rewrite in_order_elements, Hm, map_to_list_empty, app_nil_r; done).
  done.
Qed.

(** Another entry of the data, such as the summary, is passed over. *)
Lemma other_entry_ignored key k v es d : String.prefix key k = false -> k <> GetKeyCommonPrefix (parse_key key) +:+ UD_KEY_PROPERTIES_SEPARATOR ->
  UnmarshalEntries key ((k, v) :: es) d = UnmarshalEntries key es d.
Proof.
  intros Hp Hk. unfold UnmarshalEntries. cbn [UnmarshalEntryItem]. unfold read_item at 1. cbn [fst snd]. rewrite bool_decide_false.
  2:{ intros ->. assert (String.prefix key key = true) as H by (by apply prefix_chars). congruence. }
  rewrite Hp, (bool_decide_false (k = _)) by done. done.
Qed.


(** *** The keys of the entries are different *)

Lemma build_keys key rs k : k ∈ (BuildEntries (Some <$> rs) key).*1 ->
  exists r, r ∈ rs /\ (k = record_key key r \/ exists e, e ∈ in_order (GetInnerEntries r) /\ k = inner_key key r e.1).
Proof.
  induction rs as [|r rs IH]; [by intros ?%not_elem_of_nil|]. unfold BuildEntries. rewrite fmap_cons, bind_cons, !fmap_app, !elem_of_app.
  intros [[Hk|Hk]|Hk].
  - rewrite <- list_fmap_compose in Hk. apply list_elem_of_fmap in Hk as (e & -> & He). exists r. split; [by left|]. right. by exists e.
  - apply list_elem_of_singleton in Hk as ->. exists r. split; [by left|by left].
  - destruct (IH Hk) as (x & Hx & H). exists x. split; [by right|done].
Qed.

Lemma inner_has_sep key r u : "#"%char ∈ chars (inner_key key r u).
Proof. unfold inner_key. rewrite !chars_app. apply elem_of_app. right. apply elem_of_app. left. by left. Qed.

Lemma build_NoDup key cp rs0 : writable key cp rs0 -> forall rs, (forall r, r ∈ rs -> r ∈ rs0) -> NoDup (GetUid <$> rs) -> NoDup (BuildEntries (Some <$> rs) key).*1.
Proof.
  intros W. induction rs as [|r rs IH]; intros Hsub Hnd; [constructor|]. apply NoDup_cons in Hnd as [Hn Hnd].
  assert (r ∈ rs0) as Hr by (apply Hsub; by left). assert (forall x, x ∈ rs -> x ∈ rs0) as Hsub' by (intros x Hx; apply Hsub; by right).
  unfold BuildEntries. rewrite fmap_cons, bind_cons, !fmap_app. apply NoDup_app. split_and!.
  - apply NoDup_app. split_and!.
    + rewrite <- list_fmap_compose. pose proof (in_order_NoDup (GetInnerEntries r)) as Hu. revert Hu. generalize (in_order (GetInnerEntries r)) as l.
      induction l as [|e l IHl]; [constructor|]. rewrite !fmap_cons, !NoDup_cons. intros [He Hl]. split; [|by apply IHl].
      intros (e' & E & He')%list_elem_of_fmap. cbn in E. do 2 apply string_app_inj_l in E. apply He. rewrite E. by apply list_elem_of_fmap_2.
    + intros k Hk. rewrite <- list_fmap_compose in Hk. apply list_elem_of_fmap in Hk as (e & -> & _). cbn. rewrite list_elem_of_singleton. intros E.
      apply (record_key_plain key cp rs0 r W Hr). rewrite <- E. apply inner_has_sep.
    + apply NoDup_singleton.
  - intros k Hk Hk'. apply build_keys in Hk' as (x & Hx & Hk'). rewrite elem_of_app in Hk. destruct Hk as [Hk|Hk].
    + rewrite <- list_fmap_compose in Hk. apply list_elem_of_fmap in Hk as (e & -> & He). cbn in Hk'. destruct Hk' as [E|(e' & He' & E)].
      * apply (record_key_plain key cp rs0 x W); [by apply Hsub'|]. rewrite <- E. apply inner_has_sep.
      * apply inner_key_inj in E as [E _]; [|by eapply (utd_plain key cp rs0 r)|eapply (utd_plain key cp rs0 x); eauto].
        apply Hn. rewrite E. by apply list_elem_of_fmap_2.
    + apply list_elem_of_singleton in Hk as ->. cbn in Hk'. destruct Hk' as [E|(e' & He' & E)].
      * apply record_key_inj in E. apply Hn. rewrite E. by apply list_elem_of_fmap_2.
      * apply (record_key_plain key cp rs0 r W Hr). rewrite E. apply inner_has_sep.
  - by apply IH.
Qed.

(** The keys of the entries of the data: all under the common prefix, and different. *)
Lemma marshal_keys d r rs key cp : records d = Some <$> rs -> GetUnifiedKey (r_key r) = key -> GetKeyCommonPrefix (r_key r) = cp -> writable key cp rs ->
  NoDup (MarshalToEntries d r).*1 /\ (forall k, k ∈ (MarshalToEntries d r).*1 -> String.prefix cp k = true) /\ cp +:+ "#summary" ∉ (MarshalToEntries d r).*1.
Proof.
  intros Hd Hk Hc W. unfold MarshalToEntries. rewrite Hd, Hk, Hc. cbn [app fmap list_fmap fst]. fold (fmap (M := list) (@fst string Value)).
  assert (forall k, k ∈ (BuildEntries (Some <$> rs) key).*1 -> exists x, k = key +:+ String "/" x) as Hb.
  { intros k (x & _ & [->|(e & _ & ->)])%build_keys; [by exists (GetUid x)|]. exists (GetUid x +:+ UD_KEY_ENTRY_SEPARATOR +:+ e.1).
    unfold inner_key, record_key. by rewrite !string_app_assoc. }
  assert (forall x, String.prefix key (cp +:+ String "#" x) = false) as Hp by (intros x; by eapply suffix_not_under).
  assert (forall k x, k ∈ (BuildEntries (Some <$> rs) key).*1 -> k <> cp +:+ String "#" x) as Hs.
  { intros k x (y & ->)%Hb E. specialize (Hp x). rewrite <- E, prefix_app in Hp. done. }
  assert (forall x, key <> cp +:+ String "#" x) as Hks.
  { intros x E. specialize (Hp x). rewrite <- E in Hp. assert (String.prefix key key = true) as H by (by apply prefix_chars). congruence. }
  split_and!.
  - rewrite !NoDup_cons, not_elem_of_cons. split_and!; [apply Hks| | |].
    + intros (y & E)%Hb. symmetry in E. by apply longer_ne in E.
    + intros H. by apply (Hs _ "properties" H).
    + eapply build_NoDup; [done|done|apply (w_uids _ _ _ W)].
  - destruct (w_prefix _ _ _ W) as (c & s & Ek). intros k [->|[->|H]%elem_of_cons]%elem_of_cons.
    + rewrite Ek. apply prefix_app.
    + apply prefix_app.
    + apply Hb in H as (y & ->). rewrite Ek, string_app_assoc. apply prefix_app.
  - rewrite !not_elem_of_cons. split_and!.
    + intros E. symmetry in E. by apply Hks in E.
    + intros E. apply string_app_inj_l in E. done.
    + intros H. by apply (Hs _ "summary" H).
Qed.


(** The runtime that is read is the one stored under the key. *)
Lemma item_runtime key es : forall f r, runtime (f_data (UnmarshalEntryItem key es f).2) = Some r -> runtime (f_data f) = Some r \/ (key, VRuntime r) ∈ es.
Proof.
  induction es as [|[k v] es IH]; intros f r; cbn [UnmarshalEntryItem]; [by left|].
  destruct (read_item key (k, v) f) as [f'|] eqn:E; [|by left]. intros [H|H]%IH; [|right; by right].
  revert E. unfold read_item. cbn [fst snd]. destruct (bool_decide_reflect (k = key)) as [->|Hne].
  - destruct v; try done. intros [= <-]. cbn in H. injection H as ->. right. by left.
  - repeat case_match; try done; intros [= <-]; cbn in H; by left.
Qed.

Lemma entries_runtime key es d r : runtime (UnmarshalEntries key es d).2 = Some r -> runtime d = Some r \/ (key, VRuntime r) ∈ es.
Proof.
  unfold UnmarshalEntries. pose proof (item_runtime key es (mkFound d [] ∅) r) as H. destruct (UnmarshalEntryItem _ _ _) as [st f]. cbn in *. by destruct st.
Qed.
End DataHandler.
End DataHandler.

(** ** A store *)
Module RuntimeStore.
Section RuntimeStore.
Context {UL : UdLib}.
(** Whether overwriting an entry counts as writing it anew. *)
Context (rewrite_moves : bool).

(** A pull or push of the store with other devices. *)
Inductive SyncMode : Type := SYNC_PULL | SYNC_PULL_PROCESS | SYNC_PUSH.

(** The database ([entries_], [locals_]), its coming answers, and the members of the store. [clock_] is the steady clock in milliseconds. *)
(* @src service/udmf/store/runtime_store.h 28-81 RuntimeStore *)
Record Store := mkStore {
  entries_ : list Entry; locals_ : gmap string string; answers_ : list DBStatus; syncs_ : list (list string * SyncMode);
  isCorrupted_ : bool; hasRegisterPullNotify_ : bool; time_ : Z; clock_ : Z
}.

Definition INTERVAL : Z := 1 * 60 * 1000.
Definition SUMMARY_SUFIX : string := "#summary".
Definition SLASH_COUNT_IN_KEY : nat := 4.
Definition TEMP_UNIFIED_DATA_FLAG : string := "temp_udmf_file_flag".

Definition with_db (es : list Entry) (l : gmap string string) (s : Store) : Store := mkStore es l (answers_ s) (syncs_ s) (isCorrupted_ s) (hasRegisterPullNotify_ s) (time_ s) (clock_ s).

(* @src service/udmf/store/store.h 60-64 Store::UpdateTime *)
Definition UpdateTime (s : Store) : Store :=
  mkStore (entries_ s) (locals_ s) (answers_ s) (syncs_ s) (isCorrupted_ s) (hasRegisterPullNotify_ s) (clock_ s + INTERVAL) (clock_ s).

(** The next answer of the database. *)
Definition answer (s : Store) : DBStatus * Store :=
  match answers_ s with
  | [] => (OK, s)
  | a :: l => (a, mkStore (entries_ s) (locals_ s) l (syncs_ s) (isCorrupted_ s) (hasRegisterPullNotify_ s) (time_ s) (clock_ s))
  end.

(* @src service/udmf/store/runtime_store.cpp 654-662 RuntimeStore::MarkWhenCorrupted *)
Definition MarkWhenCorrupted (st : DBStatus) (s : Store) : Status * Store :=
  if bool_decide (st = INVALID_PASSWD_OR_CORRUPTED_DB)
  then (E_DB_CORRUPTED, mkStore (entries_ s) (locals_ s) (answers_ s) (syncs_ s) true (hasRegisterPullNotify_ s) (time_ s) (clock_ s))
  else (E_DB_ERROR, s).

(** One entry written by the database. *)
Fixpoint overwrite (e : Entry) (es : list Entry) : list Entry :=
  match es with [] => [e] | x :: es => if bool_decide (x.1 = e.1) then e :: es else x :: overwrite e es end.
Definition put1 (es : list Entry) (e : Entry) : list Entry :=
  if rewrite_moves then filter (fun x => x.1 <> e.1) es ++ [e] else overwrite e es.

(* @src service/udmf/store/runtime_store.cpp 620-632 RuntimeStore::GetEntries *)
Definition GetEntries (dataPrefix : string) (s : Store) : Status * list Entry * Store :=
  let '(a, s) := answer s in
  match a with
  | OK => (E_OK, filter (fun e => String.prefix dataPrefix e.1 = true) (entries_ s), s)
  | NOT_FOUND => (E_OK, [], s)
  | _ => let '(st, s) := MarkWhenCorrupted a s in (st, [], s)
  end.

(* @src service/udmf/store/runtime_store.cpp 634-642 RuntimeStore::PutEntries *)
Definition PutEntries (es : list Entry) (s : Store) : Status * Store :=
  let '(a, s) := answer s in
  if bool_decide (a = OK) then (E_OK, with_db (fold_left put1 es (entries_ s)) (locals_ s) s) else MarkWhenCorrupted a s.

(* @src service/udmf/store/runtime_store.cpp 644-652 RuntimeStore::DeleteEntries *)
Definition DeleteEntries (ks : list string) (s : Store) : Status * Store :=
  let '(a, s) := answer s in
  if bool_decide (a = OK) then (E_OK, with_db (filter (fun e => e.1 ∉ ks) (entries_ s)) (locals_ s) s) else MarkWhenCorrupted a s.

(* @src service/udmf/store/runtime_store.cpp 58-70 RuntimeStore::PutLocal *)
Definition PutLocal (key value : string) (s : Store) : Status * Store :=
  let '(a, s) := answer (UpdateTime s) in
  if bool_decide (a = OK) then (E_OK, with_db (entries_ s) (<[key := value]> (locals_ s)) s) else MarkWhenCorrupted a s.

(* @src service/udmf/store/runtime_store.cpp 72-88 RuntimeStore::GetLocal *)
Definition GetLocal (key : string) (s : Store) : Status * string * Store :=
  let '(a, s) := answer (UpdateTime s) in
  match a with
  | OK | NOT_FOUND =>
      let value := if bool_decide (a = OK) then default "" (locals_ s !! key) else "" in
      if bool_decide (value = "") then (E_NOT_FOUND, "", s) else (E_OK, value, s)
  | _ => let '(st, s) := MarkWhenCorrupted a s in (st, "", s)
  end.

(* @src service/udmf/store/runtime_store.cpp 90-101 RuntimeStore::DeleteLocal *)
Definition DeleteLocal (key : string) (s : Store) : Status * Store :=
  let '(a, s) := answer (UpdateTime s) in
  match a with
  | OK => (E_OK, with_db (entries_ s) (delete key (locals_ s)) s)
  | NOT_FOUND => (E_OK, s)
  | _ => MarkWhenCorrupted a s
  end.

(** The details of data that consist of one file of which only a description is kept. *)
(* @src service/udmf/preprocess/preprocess_utils.cpp 753-787 PreProcessUtils::GetDetailsFromUData *)
Definition GetDetailsFromUData (d : UnifiedData) : option UDDetails :=
  match records d with
  | [Some r] =>
      if IsFile r then
        match GetOriginValue r with
        | VObject (Some o) =>
            match o !! DETAILS with
            | Some (MDetails det) => if bool_decide (is_Some (det !! TEMP_UNIFIED_DATA_FLAG)) then Some det else None
            | _ => None
            end
        | _ => None
        end
      else None
  | _ => None
  end.

(* @src service/udmf/preprocess/preprocess_utils.cpp 789-802 PreProcessUtils::GetSummaryFromDetails *)
Definition GetSummaryFromDetails (det : UDDetails) (summ : Summary) : Summary :=
  fold_left (fun summ item =>
    if bool_decide (item.1 = TEMP_UNIFIED_DATA_FLAG) then summ
    else match item.2 with PInt64 z => mkSummary (<[item.1 := z]> (summary summ)) (totalSize summ + z) | _ => summ end) (in_order det) summ.

(* @src service/udmf/preprocess/preprocess_utils.cpp 804-810 PreProcessUtils::GetSummaryFromLoadInfo *)
Definition GetSummaryFromLoadInfo (info : DataLoadInfo) (summ : Summary) : Summary :=
  mkSummary (fold_left (fun m t => match m !! t with None => <[t := 0]> m | Some _ => m end) (types info) (summary summ)) (recordCount info).

Definition no_summary : Summary := mkSummary ∅ 0.

(* @src service/udmf/store/runtime_store.cpp 159-179 RuntimeStore::PutSummary *)
Definition PutSummary_data (d : UnifiedData) (r : Runtime) (summ : Summary) : Summary * list Entry :=
  let summ := match GetDetailsFromUData d with Some det => GetSummaryFromDetails det no_summary | None => summ end in
  (summ, [(GetKeyCommonPrefix (r_key r) +:+ SUMMARY_SUFIX, VSummary summ)]).

(* @src service/udmf/store/runtime_store.cpp 181-193 RuntimeStore::PutSummary *)
Definition PutSummary_key (key : UnifiedKey) (summ : Summary) (s : Store) : Status * Store :=
  PutEntries [(GetKeyCommonPrefix key +:+ SUMMARY_SUFIX, VSummary summ)] s.

(** [r] is the runtime of the data, which the code dereferences. *)
(* @src service/udmf/store/runtime_store.cpp 103-116 RuntimeStore::Put *)
Definition Put (d : UnifiedData) (r : Runtime) (summ : Summary) (s : Store) : Status * Summary * Store :=
  let s := UpdateTime s in
  let '(summ, es) := if bool_decide (Some (intention (r_key r)) = UD_INTENTION_MAP UD_INTENTION_DRAG) then PutSummary_data d r summ else (summ, []) in
  let '(st, s) := PutEntries (es ++ DataHandler.MarshalToEntries d r) s in (st, summ, s).

(* @src service/udmf/store/runtime_store.cpp 118-140 RuntimeStore::PutDelayData *)
Definition PutDelayData (d : UnifiedData) (info : DataLoadInfo) (s : Store) : Status * Store :=
  let s := UpdateTime s in
  match runtime d with
  | None => (E_INVALID_PARAMETERS, s)
  | Some r =>
      match PutSummary_key (r_key r) (GetSummaryFromLoadInfo info no_summary) s with
      | (E_OK, s) => PutEntries (DataHandler.MarshalToEntries d r) s
      | (st, s) => (st, s)
      end
  end.

(* @src service/udmf/store/runtime_store.cpp 143-157 RuntimeStore::Get *)
Definition Get (key : string) (d : UnifiedData) (s : Store) : Status * UnifiedData * Store :=
  match GetEntries (GetKeyCommonPrefix (parse_key key)) (UpdateTime s) with
  | (E_OK, [], s) => (E_NOT_FOUND, d, s)
  | (E_OK, es, s) => let '(st, d) := DataHandler.UnmarshalEntries key es d in (st, d, s)
  | (st, _, s) => (st, d, s)
  end.

(** [kvStore_->Get]: the answer and the value, if any. *)
Definition get1 (key : string) (s : Store) : DBStatus * option Value * Store :=
  let '(a, s) := answer s in
  if bool_decide (a = OK)
  then match list_find (fun e => e.1 = key) (entries_ s) with Some (_, e) => (OK, Some e.2, s) | None => (NOT_FOUND, None, s) end
  else (a, None, s).

(* @src service/udmf/store/runtime_store.cpp 195-222 RuntimeStore::GetSummary *)
Definition GetSummary (key : UnifiedKey) (summ : Summary) (s : Store) : Status * Summary * Store :=
  match get1 (GetKeyCommonPrefix key +:+ SUMMARY_SUFIX) (UpdateTime s) with
  | (_, Some v, s) => match v with VSummary x => (E_OK, x, s) | _ => (E_READ_PARCEL_ERROR, summ, s) end
  | (_, None, s) =>
      match Get (GetUnifiedKey key) no_data s with
      | (E_OK, d, s) => (E_OK, match GetDetailsFromUData d with Some det => GetSummaryFromDetails det summ | None => summ end, s)
      | (st, _, s) => (st, summ, s)
      end
  end.

(* @src service/udmf/store/runtime_store.cpp 224-239 RuntimeStore::PutRuntime *)
Definition PutRuntime (key : string) (r : Runtime) (s : Store) : Status * Store :=
  let '(a, s) := answer (UpdateTime s) in
  if bool_decide (a = OK) then (E_OK, with_db (put1 (entries_ s) (key, VRuntime r)) (locals_ s) s) else MarkWhenCorrupted a s.

(* @src service/udmf/store/runtime_store.cpp 241-260 RuntimeStore::GetRuntime *)
Definition GetRuntime (key : string) (s : Store) : Status * option Runtime * Store :=
  match get1 key (UpdateTime s) with
  | (NOT_FOUND, _, s) => (E_NOT_FOUND, None, s)
  | (_, Some v, s) => match v with VRuntime r => (E_OK, Some r, s) | _ => (E_READ_PARCEL_ERROR, None, s) end
  | (a, None, s) => let '(st, s) := MarkWhenCorrupted a s in (st, None, s)
  end.

Definition is_runtime_key (k : string) : bool :=
  bool_decide (length (filter (fun c => c = "/"%char) (chars k)) = SLASH_COUNT_IN_KEY) && bool_decide (length (filter (fun c => c = "#"%char) (chars k)) = O).

(* @src service/udmf/store/runtime_store.cpp 262-284 RuntimeStore::GetBatchRuntime *)
Definition GetBatchRuntime (dataPrefix : string) (s : Store) : Status * list Runtime * Store :=
  match GetEntries dataPrefix (UpdateTime s) with
  | (E_OK, es, s) =>
      let keySet := filter (fun k => is_runtime_key k = true) es.*1 in
      match DataHandler.UnmarshalRuntimes keySet es with Some rs => (E_OK, rs, s) | None => (E_READ_PARCEL_ERROR, [], s) end
  | (st, _, s) => (st, [], s)
  end.

(* @src service/udmf/store/runtime_store.cpp 303-320 RuntimeStore::Delete *)
Definition Delete (key : string) (s : Store) : Status * Store :=
  match GetEntries key s with
  | (E_OK, [], s) => (E_OK, s)
  | (E_OK, es, s) => DeleteEntries es.*1 s
  | (st, _, s) => (st, s)
  end.

(* @src service/udmf/store/runtime_store.cpp 286-301 RuntimeStore::Update *)
Definition Update (d : UnifiedData) (r : Runtime) (summ : Summary) (s : Store) : Status * Summary * Store :=
  match Delete (GetKeyCommonPrefix (parse_key (ukey (r_key r)))) s with
  | (E_OK, s) => Put d r summ s
  | (st, s) => (st, summ, UpdateTime s)
  end.

Definition delete_one (acc : Status * Store) (k : string) : Status * Store :=
  let '(res, s) := acc in let '(st, s) := Delete k s in (if bool_decide (st = E_OK) then res else E_DB_ERROR, s).

(** A key that cannot be deleted does not stop the others. *)
(* @src service/udmf/store/runtime_store.cpp 322-336 RuntimeStore::DeleteBatch *)
Definition DeleteBatch (unifiedKeys : list string) (s : Store) : Status * Store :=
  fold_left delete_one unifiedKeys (E_OK, UpdateTime s).

(* @src service/udmf/store/runtime_store.cpp 427-431 RuntimeStore::Clear *)
Definition Clear (s : Store) : Status * Store := Delete DATA_PREFIX (UpdateTime s).

Fixpoint unmarshal_keys (keys : list string) (es : list Entry) : option (list UnifiedData) :=
  match keys with
  | [] => Some []
  | k :: keys => match DataHandler.UnmarshalEntries k es no_data with (E_OK, d) => ds ← unmarshal_keys keys es; Some (d :: ds) | _ => None end
  end.

(* @src service/udmf/store/runtime_store.cpp 433-463 RuntimeStore::GetBatchData *)
Definition GetBatchData (dataPrefix : string) (s : Store) : Status * list UnifiedData * Store :=
  match GetEntries dataPrefix (UpdateTime s) with
  | (E_OK, es, s) =>
      let keySet := filter (fun k => is_runtime_key k = true) es.*1 in
      match unmarshal_keys keySet es with Some ds => (E_OK, ds, s) | None => (E_READ_PARCEL_ERROR, [], s) end
  | (st, _, s) => (st, [], s)
  end.

Definition start_sync (devices : list string) (m : SyncMode) (s : Store) : Status * Store :=
  if bool_decide (devices = []) then (E_INVALID_PARAMETERS, s)
  else let '(a, s) := answer s in
       if bool_decide (a = OK)
       then (E_OK, mkStore (entries_ s) (locals_ s) (answers_ s) (syncs_ s ++ [(devices, m)]) (isCorrupted_ s) (hasRegisterPullNotify_ s) (time_ s) (clock_ s))
       else (E_DB_ERROR, s).

(* @src service/udmf/store/runtime_store.cpp 372-399 RuntimeStore::Sync *)
Definition Sync (devices : list string) (s : Store) : Status * Store := start_sync devices SYNC_PULL_PROCESS (UpdateTime s).

(* @src service/udmf/store/runtime_store.cpp 718-748 RuntimeStore::PushSync *)
Definition PushSync (devices : list string) (s : Store) : Status * Store := start_sync devices SYNC_PUSH (UpdateTime s).

(* @src service/udmf/store/runtime_store.cpp 664-680 RuntimeStore::SetRemotePullStartNotify *)
Definition SetRemotePullStartNotify (s : Store) : Status * Store :=
  if hasRegisterPullNotify_ s then (E_OK, s)
  else let '(a, s) := answer s in
       if bool_decide (a = OK) then (E_OK, mkStore (entries_ s) (locals_ s) (answers_ s) (syncs_ s) (isCorrupted_ s) true (time_ s) (clock_ s)) else (E_DB_ERROR, s).

(** *** What the operations do to the entries *)

Lemma put1_fresh es e : e.1 ∉ es.*1 -> put1 es e = es ++ [e].
Proof.
  intros Hn. unfold put1. destruct rewrite_moves.
  - f_equal. apply filter_keeps_all. intros x Hx E. apply Hn. rewrite <- E. by apply list_elem_of_fmap_2.
  - induction es as [|x es IH]; [done|]. cbn. rewrite bool_decide_false; [rewrite IH; [done|]|].
    + intros H. apply Hn. by right.
    + intros E. apply Hn. rewrite <- E. by left.
Qed.

Lemma put_batch_fresh es : forall old, NoDup es.*1 -> (forall k, k ∈ es.*1 -> k ∉ old.*1) -> fold_left put1 es old = old ++ es.
Proof.
  induction es as [|e es IH]; intros old Hnd Hf; cbn; [by rewrite app_nil_r|]. apply NoDup_cons in Hnd as [Hn Hnd].
  rewrite put1_fresh by (apply Hf; by left). rewrite IH; [by rewrite <- app_assoc|done|]. intros k Hk. rewrite fmap_app, elem_of_app.
  intros [H|H]; [by apply (Hf k); [right|]|]. cbn in H. apply list_elem_of_singleton in H as ->. done.
Qed.

Definition under (p : string) (e : Entry) : Prop := String.prefix p e.1 = true.
#[global] Instance under_dec p e : Decision (under p e).
Proof. unfold under. apply _. Defined.

(** Deleting removes the entries under the prefix and no other. *)
Lemma keys_of_filter p es : filter (fun e => e.1 ∉ (filter (fun e => String.prefix p e.1 = true) es).*1) es = filter (fun e : Entry => ~ under p e) es.
Proof.
  apply filter_same. intros e He. split; intros H1 H2; apply H1.
  - apply list_elem_of_fmap_2. apply list_elem_of_filter. done.
  - apply list_elem_of_fmap in H2 as (x & E & Hx). apply list_elem_of_filter in Hx as [Hx _]. unfold under. by rewrite E.
Qed.

Lemma none_under p es : filter (fun e : Entry => String.prefix p e.1 = true) es = [] -> filter (fun e => ~ under p e) es = es.
Proof.
  intros H. apply filter_keeps_all. intros e He Hu.
  assert (e ∈ filter (fun e : Entry => String.prefix p e.1 = true) es) as Hin by (by apply list_elem_of_filter). rewrite H in Hin. by apply not_elem_of_nil in Hin.
Qed.

Lemma delete_cases p s : entries_ (Delete p s).2 = entries_ s \/ entries_ (Delete p s).2 = filter (fun e => ~ under p e) (entries_ s).
Proof.
  unfold Delete, GetEntries, DeleteEntries, MarkWhenCorrupted, answer. destruct (answers_ s) as [|a l] eqn:Ea.
  - pose proof (keys_of_filter p (entries_ s)) as K. destruct (filter (fun e : Entry => String.prefix p e.1 = true) (entries_ s)) as [|e es]; [by left|]. rewrite Ea. cbn -[filter]. right. exact K.
  - destruct a; [|by left|by left|by left]. cbn [entries_]. pose proof (keys_of_filter p (entries_ s)) as K. destruct (filter (fun e : Entry => String.prefix p e.1 = true) (entries_ s)) as [|e es]; [by left|]. cbn [answers_].
    destruct l as [|b l]; cbn -[filter].
    + right. exact K.
    + destruct b; cbn -[filter]; [right; exact K|by left|by left|by left].
Qed.

Lemma delete_ok p s : answers_ s = [] -> Delete p s = (E_OK, with_db (filter (fun e => ~ under p e) (entries_ s)) (locals_ s) s).
Proof.
  intros Ea. unfold Delete, GetEntries, DeleteEntries, answer. rewrite Ea. pose proof (keys_of_filter p (entries_ s)) as K. destruct (filter (fun e : Entry => String.prefix p e.1 = true) (entries_ s)) as [|e es] eqn:E.
  - rewrite none_under by done. by destruct s.
  - rewrite Ea. cbn -[filter]. do 2 f_equal. exact K.
Qed.

Lemma batch_ok ks : forall s, answers_ s = [] ->
  fold_left delete_one ks (E_OK, s) = (E_OK, with_db (filter (fun e => Forall (fun k => ~ under k e) ks) (entries_ s)) (locals_ s) s).
Proof.
  induction ks as [|k ks IH]; intros s Ea; cbn [fold_left].
  - rewrite filter_keeps_all by (intros; by apply Forall_nil). by destruct s.
  - cbn [delete_one]. rewrite delete_ok by done. rewrite bool_decide_true by done. rewrite IH by done. unfold with_db. cbn -[filter]. do 2 f_equal.
    rewrite list_filter_filter. apply list_filter_iff. intros e. rewrite Forall_cons. tauto.
Qed.

(** The runtimes found under a prefix. *)
Lemma runtimes_found p s : answers_ s = [] -> (forall k v, (k, v) ∈ entries_ s -> is_runtime_key k = true -> exists r, v = VRuntime r) ->
  exists rs, GetBatchRuntime p s = (E_OK, rs, UpdateTime s) /\
    forall r, r ∈ rs <-> exists k, (k, VRuntime r) ∈ entries_ s /\ String.prefix p k = true /\ is_runtime_key k = true.
Proof.
  intros Ea H. unfold GetBatchRuntime, GetEntries, answer. cbn -[filter]. rewrite Ea. cbn -[filter]. set (es := filter (fun e : Entry => String.prefix p e.1 = true) (entries_ s)).
  assert (forall l, (forall e, e ∈ l -> e ∈ es) -> exists rs, DataHandler.UnmarshalRuntimes (filter (fun k => is_runtime_key k = true) es.*1) l = Some rs /\
    forall r, r ∈ rs <-> exists k, (k, VRuntime r) ∈ l /\ is_runtime_key k = true) as HU.
  { induction l as [|[k v] l IH]; intros Hl; cbn -[filter].
    - exists []. split; [done|]. intros r. split; [by intros ?%not_elem_of_nil|]. by intros (k & ?%not_elem_of_nil & _).
    - destruct IH as (rs & E & Hrs); [intros e He; apply Hl; by right|]. assert ((k, v) ∈ es) as Hkv by (apply Hl; by left).
      assert (k ∈ filter (fun k => is_runtime_key k = true) es.*1 <-> is_runtime_key k = true) as Hk.
      { rewrite list_elem_of_filter. split; [by intros [? _]|]. intros Hk. split; [done|]. apply list_elem_of_fmap. by exists (k, v). }
      case_bool_decide as Hin.
      + apply Hk in Hin. destruct (H k v) as [r ->]; [|done|]. { subst es. by apply list_elem_of_filter in Hkv as [_ ?]. }
        rewrite E. cbn. exists (r :: rs). split; [done|]. intros r'. rewrite elem_of_cons, Hrs. split.
        * intros [-> |(k' & H1 & H2)]; [exists k; split; [by left|done]|exists k'; split; [by right|done]].
        * intros (k' & [[= -> ->]|H1]%elem_of_cons & H2); [by left|right; by exists k'].
      + rewrite E. exists rs. split; [done|]. intros r'. rewrite Hrs. split; intros (k' & H1 & H2); exists k'; [split; [by right|done]|].
        apply elem_of_cons in H1 as [[= -> ->]|H1]; [by rewrite Hk in Hin|done]. }
  destruct (HU es) as (rs & E & Hrs); [done|]. rewrite E. exists rs. split; [done|]. intros r. rewrite Hrs. subst es.
  setoid_rewrite list_elem_of_filter. cbn. firstorder.
Qed.

(** Entries written under a prefix that has none are what is found under it. *)
Lemma found_after_put p es new : (forall e, e ∈ es -> ~ under p e) -> (forall e, e ∈ new -> under p e) ->
  filter (fun e : Entry => String.prefix p e.1 = true) (es ++ new) = new.
Proof.
  intros H1 H2. rewrite filter_app, (filter_keeps_all _ new) by done.
  by rewrite filter_keeps_none.
Qed.

(** *** Data are read back as they were written *)

(** The entries [Put] writes. *)
Definition put_list (d : UnifiedData) (r : Runtime) (summ : Summary) : list Entry :=
  (if bool_decide (Some (intention (r_key r)) = UD_INTENTION_MAP UD_INTENTION_DRAG) then (PutSummary_data d r summ).2 else []) ++ DataHandler.MarshalToEntries d r.

Lemma put_entries d r summ s : answers_ s = [] ->
  exists summ', Put d r summ s = (E_OK, summ', with_db (fold_left put1 (put_list d r summ) (entries_ s)) (locals_ s) (UpdateTime s)).
Proof.
  intros Ea. unfold Put, put_list, PutEntries, answer. case_bool_decide; cbn -[fold_left PutSummary_data]; rewrite Ea; cbn -[fold_left]; eexists; reflexivity.
Qed.

Lemma put_list_keys d r rs key cp summ : records d = Some <$> rs -> GetUnifiedKey (r_key r) = key -> GetKeyCommonPrefix (r_key r) = cp ->
  DataHandler.writable key cp rs ->
  NoDup (put_list d r summ).*1 /\ (forall e, e ∈ put_list d r summ -> under cp e) /\ put_list d r summ <> [] /\
  DataHandler.UnmarshalEntries key (put_list d r summ) no_data = (E_OK, mkData (records d) (Some r) (properties d)).
Proof.
  intros Hd Hk Hc W. destruct (DataHandler.marshal_keys d r rs key cp Hd Hk Hc W) as (Hnd & Hu & Hn).
  pose proof (DataHandler.entries_read_back d r rs key cp Hd Hk Hc W no_data eq_refl) as Hr.
  assert (forall e, e ∈ DataHandler.MarshalToEntries d r -> under cp e) as Hu' by (intros e He; apply Hu; by apply list_elem_of_fmap_2).
  unfold put_list. case_bool_decide; cbn -[DataHandler.MarshalToEntries DataHandler.UnmarshalEntries]; [|done]. rewrite Hc. split_and!.
  - apply NoDup_cons. done.
  - intros e [->|He]%elem_of_cons; [apply prefix_app|by apply Hu'].
  - done.
  - rewrite DataHandler.other_entry_ignored; [done|by eapply DataHandler.suffix_not_under|].
    rewrite (DataHandler.w_common _ _ _ W). intros E. by apply string_app_inj_l in E.
Qed.

Lemma get_after_put d r rs key cp summ s : records d = Some <$> rs -> GetUnifiedKey (r_key r) = key -> GetKeyCommonPrefix (r_key r) = cp ->
  DataHandler.writable key cp rs -> answers_ s = [] -> (forall e, e ∈ entries_ s -> ~ under cp e) ->
  exists summ' s', Put d r summ s = (E_OK, summ', s') /\ (Get key no_data s').1 = (E_OK, mkData (records d) (Some r) (properties d)) /\
    filter (fun e => ~ under cp e) (entries_ s') = entries_ s.
Proof.
  intros Hd Hk Hc W Ea Hn. destruct (put_entries d r summ s Ea) as (summ' & ->). exists summ'. eexists. split; [done|].
  destruct (put_list_keys d r rs key cp summ Hd Hk Hc W) as (Hnd & Hu & Hne & Hr).
  assert (fold_left put1 (put_list d r summ) (entries_ s) = entries_ s ++ put_list d r summ) as Ef.
  { apply put_batch_fresh; [done|]. intros k Hk' Hk''. apply list_elem_of_fmap in Hk' as (e & -> & He). apply list_elem_of_fmap in Hk'' as (e' & E & He').
    apply (Hn e' He'). unfold under. rewrite <- E. by apply Hu. }
  rewrite Ef. split.
  - unfold Get, GetEntries, answer. cbn -[filter DataHandler.UnmarshalEntries]. rewrite Ea. cbn -[filter DataHandler.UnmarshalEntries].
    rewrite (DataHandler.w_common _ _ _ W), found_after_put by done. destruct (put_list d r summ) as [|e es] eqn:E; [done|]. by rewrite Hr.
  - cbn -[filter]. rewrite filter_app, (filter_keeps_all _ (entries_ s)) by done. rewrite filter_keeps_none, app_nil_r; [done|].
    intros e He Hn'. by apply Hn', Hu.
Qed.

(** C14: data are read back exactly as they were written. Data whose records have different identifiers and whose keys have no separator are, after an
    update of a working store, or after they are put into a store that has nothing under their key, read from the store with the same records in the same
    order, each with all its entries, and the same runtime and properties; and nothing outside of their key has changed. *)
Theorem unified_data_roundtrip d r rs summ s : records d = Some <$> rs -> answers_ s = [] ->
  DataHandler.writable (GetUnifiedKey (r_key r)) (GetKeyCommonPrefix (r_key r)) rs ->
  let key := GetUnifiedKey (r_key r) in let cp := GetKeyCommonPrefix (r_key r) in
  (GetKeyCommonPrefix (parse_key (ukey (r_key r))) = cp ->
    exists summ' s', Update d r summ s = (E_OK, summ', s') /\ (Get key no_data s').1 = (E_OK, mkData (records d) (Some r) (properties d)) /\
      filter (fun e => ~ under cp e) (entries_ s') = filter (fun e => ~ under cp e) (entries_ s)) /\
  ((forall e, e ∈ entries_ s -> ~ under cp e) ->
    exists summ' s', Put d r summ s = (E_OK, summ', s') /\ (Get key no_data s').1 = (E_OK, mkData (records d) (Some r) (properties d)) /\
      filter (fun e => ~ under cp e) (entries_ s') = entries_ s).
Proof.
  intros Hd Ea W key cp. split.
  - intros Hc. unfold Update. rewrite Hc, delete_ok by done. destruct (get_after_put d r rs key cp summ (with_db (filter (fun e => ~ under cp e) (entries_ s)) (locals_ s) s)) as (summ' & s' & H1 & H2 & H3); try done.
    { cbn. by intros e [He _]%list_elem_of_filter. }
    by exists summ', s'.
  - intros Hn. by apply (get_after_put d r rs key cp).
Qed.

(** *** What is known of all runtimes in a store *)
Section Runtimes.
Context (P : string -> Runtime -> Prop).

Definition runtimes_ok (es : list Entry) : Prop := forall k r, (k, VRuntime r) ∈ es -> P k r.
(** An operation after which it is still known. *)
Definition op_ok {A} (op : Store -> A * Store) : Prop := forall s, runtimes_ok (entries_ s) -> runtimes_ok (entries_ (op s).2).

Lemma runtimes_filter Q `{forall e, Decision (Q e)} es : runtimes_ok es -> runtimes_ok (filter Q es).
Proof. intros H' k r [_ Hin]%list_elem_of_filter. by apply H'. Qed.

Lemma overwrite_elem e es x : x ∈ overwrite e es -> x = e \/ x ∈ es.
Proof.
  induction es as [|y es IH]; cbn; [intros ->%list_elem_of_singleton; by left|]. case_if; intros [->|H]%elem_of_cons; rewrite elem_of_cons; auto. destruct (IH H); auto.
Qed.

Lemma put1_elem es e x : x ∈ put1 es e -> x = e \/ x ∈ es.
Proof.
  unfold put1. destruct rewrite_moves; [|apply overwrite_elem]. rewrite elem_of_app, list_elem_of_singleton. intros [[_ H]%list_elem_of_filter|H]; auto.
Qed.

Lemma put_all_elem new : forall es x, x ∈ fold_left put1 new es -> x ∈ new \/ x ∈ es.
Proof.
  induction new as [|e new IH]; intros es x; cbn; [by right|]. intros [H|[->|H]%put1_elem]%IH; [left; by right|left; by left|by right].
Qed.

Lemma runtimes_put new es : (forall k r, (k, VRuntime r) ∈ new -> P k r) -> runtimes_ok es -> runtimes_ok (fold_left put1 new es).
Proof. intros H1 H2 k r [H|H]%put_all_elem; auto. Qed.

Lemma build_no_runtime rs key k r : (k, VRuntime r) ∉ DataHandler.BuildEntries rs key.
Proof.
  unfold DataHandler.BuildEntries. rewrite list_elem_of_bind. intros ([x|] & H & _); [|by apply not_elem_of_nil in H].
  apply elem_of_app in H as [H|H]; [by apply list_elem_of_fmap in H as (e & [=] & _)|by apply list_elem_of_singleton in H].
Qed.

Lemma marshal_runtime d r k r' : (k, VRuntime r') ∈ DataHandler.MarshalToEntries d r -> k = GetUnifiedKey (r_key r) /\ r' = r.
Proof.
  unfold DataHandler.MarshalToEntries. cbn [app]. intros [H|[H|H]%elem_of_cons]%elem_of_cons; [by injection H as -> ->|done|by apply build_no_runtime in H].
Qed.

Lemma entries_same s : entries_ (answer s).2 = entries_ s /\ entries_ (UpdateTime s) = entries_ s /\ (forall st, entries_ (MarkWhenCorrupted st s).2 = entries_ s) /\
  (forall p, entries_ (GetEntries p s).2 = entries_ s).
Proof.
  assert (forall s, entries_ (answer s).2 = entries_ s) as Ha by (intros x; unfold answer; by destruct (answers_ x)).
  assert (forall st s, entries_ (MarkWhenCorrupted st s).2 = entries_ s) as Hm by (intros st x; unfold MarkWhenCorrupted; by case_if).
  split_and!; [apply Ha|done|intros; apply Hm|]. intros p. unfold GetEntries. specialize (Ha s). destruct (answer s) as [a s']. cbn in Ha.
  by destruct a.
Qed.

Lemma get_entries_from p s e : e ∈ (GetEntries p s).1.2 -> e ∈ entries_ s.
Proof.
  unfold GetEntries. pose proof (proj1 (entries_same s)) as Ha. destruct (answer s) as [a s']. cbn in Ha. rewrite <- Ha.
  destruct a; cbn -[filter]; [by intros [_ ?]%list_elem_of_filter|by intros ?%not_elem_of_nil| |]; destruct (MarkWhenCorrupted _ _); by intros ?%not_elem_of_nil.
Qed.

Lemma keeps_entries {A} (op : Store -> A * Store) : (forall s, entries_ (op s).2 = entries_ s) -> op_ok op.
Proof. intros H s. by rewrite H. Qed.

Lemma Get_entries key d s : entries_ (Get key d s).2 = entries_ s.
Proof.
  unfold Get. destruct (entries_same (UpdateTime s)) as (_ & _ & _ & H). specialize (H (GetKeyCommonPrefix (parse_key key))).
  destruct (GetEntries _ _) as [[st es] s']. cbn in H. destruct st, es; cbn; try done; destruct (DataHandler.UnmarshalEntries _ _ _); done.
Qed.

(** The runtime of data that are read is in the store. *)
Lemma Get_runtime key s r : runtime (Get key no_data s).1.2 = Some r -> (key, VRuntime r) ∈ entries_ s.
Proof.
  unfold Get. pose proof (get_entries_from (GetKeyCommonPrefix (parse_key key)) (UpdateTime s)) as H. destruct (GetEntries _ _) as [[st es] s']. cbn in H.
  destruct st, es as [|e es]; cbn [fst snd]; try done. pose proof (DataHandler.entries_runtime key (e :: es) no_data r) as Hr.
  destruct (DataHandler.UnmarshalEntries _ _ _) as [st d]. cbn in *. intros [E|E]%Hr; [done|]. by apply H.
Qed.

Lemma get1_entries key s : entries_ (get1 key s).2 = entries_ s.
Proof. unfold get1. pose proof (proj1 (entries_same s)) as Ha. destruct (answer s) as [a s']. cbn in Ha. repeat case_match; by simplify_eq/=. Qed.

Lemma get1_value key s v : (get1 key s).1.2 = Some v -> (key, v) ∈ entries_ s.
Proof.
  unfold get1. pose proof (proj1 (entries_same s)) as Ha. destruct (answer s) as [a s']. cbn in Ha. rewrite <- Ha. case_if; [|done].
  destruct (list_find _ _) as [[i [k x]]|] eqn:E; [|done]. cbn. intros [= <-]. apply list_find_Some in E as (E & <- & _). by eapply list_elem_of_lookup_2.
Qed.

Lemma GetRuntime_entries key s : entries_ (GetRuntime key s).2 = entries_ s.
Proof.
  unfold GetRuntime. pose proof (get1_entries key (UpdateTime s)) as H. destruct (get1 key (UpdateTime s)) as [[a v] s']. cbn in H.
  assert (forall st, entries_ (MarkWhenCorrupted st s').2 = entries_ s') as Hm by (intros; apply (entries_same s')).
  rewrite <- H. specialize (Hm a). destruct a, v as [[]|]; cbn; try done; destruct (MarkWhenCorrupted _ s'); done.
Qed.

Lemma GetRuntime_from key s r : (GetRuntime key s).1.2 = Some r -> (key, VRuntime r) ∈ entries_ s.
Proof.
  unfold GetRuntime. pose proof (get1_value key (UpdateTime s)) as H. destruct (get1 key (UpdateTime s)) as [[a v] s']. cbn in H.
  destruct a, v as [[]|]; cbn; try done; try (destruct (MarkWhenCorrupted _ s'); done); intros [= <-]; by apply H.
Qed.

Lemma PutEntries_ok es : (forall k r, (k, VRuntime r) ∈ es -> P k r) -> op_ok (PutEntries es).
Proof.
  intros H s Hs. unfold PutEntries. pose proof (proj1 (entries_same s)) as Ha. destruct (answer s) as [a s']. cbn in Ha.
  case_if; cbn; [by apply runtimes_put; rewrite ?Ha|]. by rewrite (proj1 (proj2 (proj2 (entries_same s')))), Ha.
Qed.

Lemma Put_ok d r summ : P (GetUnifiedKey (r_key r)) r -> op_ok (Put d r summ).
Proof.
  intros H s Hs. unfold Put. set (x := if bool_decide _ then _ else _).
  assert (forall k r', (k, VRuntime r') ∈ x.2 ++ DataHandler.MarshalToEntries d r -> P k r') as Hx.
  { intros k r' [E|E]%elem_of_app; [|by apply marshal_runtime in E as [-> ->]]. subst x. revert E. case_if; cbn.
    - by intros ?%list_elem_of_singleton.
    - by intros ?%not_elem_of_nil. }
  destruct x as [summ' es]. cbn in Hx. pose proof (PutEntries_ok _ Hx (UpdateTime s) Hs) as HP. by destruct (PutEntries _ _).
Qed.

Lemma Delete_ok p : op_ok (Delete p).
Proof. intros s Hs. destruct (delete_cases p s) as [-> | ->]; [done|by apply runtimes_filter]. Qed.

Lemma Clear_ok : op_ok Clear.
Proof. intros s Hs. by apply (Delete_ok DATA_PREFIX (UpdateTime s)). Qed.

Lemma DeleteBatch_ok ks : op_ok (DeleteBatch ks).
Proof.
  assert (forall ks st x, runtimes_ok (entries_ x) -> runtimes_ok (entries_ (fold_left delete_one ks (st, x)).2)) as H.
  { clear ks. induction ks as [|k ks IH]; intros st x Hx; cbn [fold_left]; [done|]. pose proof (Delete_ok k x Hx) as Hd. cbn [delete_one].
    destruct (Delete k x) as [st' x']. by apply IH. }
  intros s Hs. by apply H.
Qed.

Lemma Update_ok d r summ : P (GetUnifiedKey (r_key r)) r -> op_ok (Update d r summ).
Proof.
  intros H s Hs. unfold Update. pose proof (Delete_ok (GetKeyCommonPrefix (parse_key (ukey (r_key r)))) s Hs) as Hd. destruct (Delete _ s) as [st s']. cbn in Hd.
  destruct st; cbn; try done. by apply Put_ok.
Qed.

Lemma PutRuntime_ok key r : P key r -> op_ok (PutRuntime key r).
Proof.
  intros H s Hs. unfold PutRuntime. pose proof (proj1 (entries_same (UpdateTime s))) as Ha. destruct (answer (UpdateTime s)) as [a s']. cbn in Ha.
  case_if; cbn.
  - rewrite Ha. intros k r' [E|E]%put1_elem; [by injection E as -> ->|by apply Hs].
  - by rewrite (proj1 (proj2 (proj2 (entries_same s')))), Ha.
Qed.

Lemma PutDelayData_ok d r info : runtime d = Some r -> P (GetUnifiedKey (r_key r)) r -> op_ok (PutDelayData d info).
Proof.
  intros E H s Hs. unfold PutDelayData. rewrite E. unfold PutSummary_key.
  assert (op_ok (PutEntries [(GetKeyCommonPrefix (r_key r) +:+ SUMMARY_SUFIX, VSummary (GetSummaryFromLoadInfo info no_summary))])) as H1
    by (apply PutEntries_ok; by intros k r' ?%list_elem_of_singleton).
  specialize (H1 (UpdateTime s) Hs). destruct (PutEntries _ (UpdateTime s)) as [st s']. cbn in H1. destruct st; try done.
  apply PutEntries_ok; [|done]. by intros k r' [-> ->]%marshal_runtime.
Qed.

(** Operations that leave the entries as they are. *)
Lemma read_only : (forall p s, entries_ (GetBatchRuntime p s).2 = entries_ s) /\ (forall p s, entries_ (GetBatchData p s).2 = entries_ s) /\
  (forall k x s, entries_ (GetSummary k x s).2 = entries_ s) /\ (forall k v s, entries_ (PutLocal k v s).2 = entries_ s) /\
  (forall k s, entries_ (GetLocal k s).2 = entries_ s) /\ (forall k s, entries_ (DeleteLocal k s).2 = entries_ s) /\
  (forall ds s, entries_ (PushSync ds s).2 = entries_ s) /\ (forall ds s, entries_ (Sync ds s).2 = entries_ s) /\
  (forall s, entries_ (SetRemotePullStartNotify s).2 = entries_ s).
Proof.
  assert (forall p s, entries_ (GetEntries p (UpdateTime s)).2 = entries_ s) as HE by (intros p s; apply (entries_same (UpdateTime s))).
  assert (forall s, entries_ (answer s).2 = entries_ s) as HA by (intros s; apply (entries_same s)).
  assert (forall st s, entries_ (MarkWhenCorrupted st s).2 = entries_ s) as HM by (intros st s; apply (entries_same s)).
  split_and!.
  - intros p s. unfold GetBatchRuntime. specialize (HE p s). destruct (GetEntries _ _) as [[st es] s']. cbn in HE. repeat case_match; done.
  - intros p s. unfold GetBatchData. specialize (HE p s). destruct (GetEntries _ _) as [[st es] s']. cbn in HE. repeat case_match; done.
  - intros k x s. unfold GetSummary. pose proof (get1_entries (GetKeyCommonPrefix k +:+ SUMMARY_SUFIX) (UpdateTime s)) as H. destruct (get1 _ _) as [[a v] s']. cbn in H.
    destruct v as [v|]; [by destruct v|]. pose proof (Get_entries (GetUnifiedKey k) no_data s') as H'. destruct (Get _ _ s') as [[st d] s'']. cbn in *.
    rewrite <- H, <- H'. by destruct st.
  - intros k v s. unfold PutLocal. specialize (HA (UpdateTime s)). destruct (answer _) as [a s']. cbn in HA. case_if; [done|]. by rewrite HM.
  - intros k s. unfold GetLocal. specialize (HA (UpdateTime s)). destruct (answer _) as [a s']. cbn in HA. specialize (HM a s').
    destruct a; repeat case_match; cbn in *; congruence.
  - intros k s. unfold DeleteLocal. specialize (HA (UpdateTime s)). destruct (answer _) as [a s']. cbn in HA. destruct a; cbn; try done; by rewrite HM.
  - intros ds s. unfold PushSync, start_sync. case_if; [done|]. specialize (HA (UpdateTime s)). destruct (answer _) as [a s']. cbn in HA. by case_if.
  - intros ds s. unfold Sync, start_sync. case_if; [done|]. specialize (HA (UpdateTime s)). destruct (answer _) as [a s']. cbn in HA. by case_if.
  - intros s. unfold SetRemotePullStartNotify. case_if; [done|]. specialize (HA s). destruct (answer _) as [a s']. cbn in HA. by case_if.
Qed.
End Runtimes.
End RuntimeStore.
End RuntimeStore.

(** ** An instance of the library

    Records are maps of entries; a key is split at its slashes, and the common prefix is the key without its last eight characters. *)
Module PlainLib.

Record Rec := mkRec { rec_uid : string; rec_file : bool; rec_origin : ValueType; rec_entries : gmap string ValueType; rec_uris : list UriInfo }.

Fixpoint split (sep : ascii) (l : list ascii) : list (list ascii) :=
  match l with
  | [] => [[]]
  | c :: l => if bool_decide (c = sep) then [] :: split sep l else match split sep l with w :: ws => (c :: w) :: ws | [] => [[c]] end
  end.
Definition word (s : string) (n : nat) : string := str_of (nth n (split "/" (chars s)) []).

Definition on_object (f : Object -> Object) (v : ValueType) : ValueType := match v with VObject (Some o) => VObject (Some (f o)) | _ => v end.

Lemma fold_insert {A} (l : list (string * A)) : forall m : gmap string A, fold_left (fun m e => <[e.1 := e.2]> m) l m = list_to_map (reverse l) ∪ m.
Proof.
  induction l as [|[k v] l IH]; intros m; cbn [fold_left]; [symmetry; apply (left_id_L ∅ (∪))|].
  rewrite IH, reverse_cons, list_to_map_app. cbn. rewrite insert_empty, <- (assoc_L (∪)). f_equal. apply insert_union_singleton_l.
Qed.

Lemma added_all l : forall r, fold_left (fun r e => mkRec (rec_uid r) (rec_file r) (rec_origin r) (<[e.1 := e.2]> (rec_entries r)) (rec_uris r)) l r
  = mkRec (rec_uid r) (rec_file r) (rec_origin r) (fold_left (fun m (e : string * ValueType) => <[e.1 := e.2]> m) l (rec_entries r)) (rec_uris r).
Proof. induction l as [|e l IH]; intros r; [by destruct r|]. cbn [fold_left]. by rewrite IH. Qed.

Definition names (i : Intention) : option string :=
  match i with
  | UD_INTENTION_DRAG => Some "drag" | UD_INTENTION_DATA_HUB => Some "DataHub" | UD_INTENTION_SYSTEM_SHARE => Some "SystemShare"
  | UD_INTENTION_PICKER => Some "Picker" | UD_INTENTION_MENU => Some "Menu" | UD_INTENTION_BASE | UD_INTENTION_BUTT => None
  end.

#[refine] Instance plain : UdLib := {|
  UD_INTENTION_MAP := names;
  DETAILS := "details"; ORI_URI := "oriUri"; REMOTE_URI := "remoteUri"; UNIFORM_DATA_TYPE := "uniformDataType"; PERMISSION_POLICY := "permissionPolicy";
  URI_PERMISSION_MASK := "uriPermissionMask"; URI_AUTHORIZATION_POLICIES := "uriAuthorizationPolicies"; GENERAL_FILE_URI := "general.file-uri"; HTML := "general.html";
  parse_key s := mkUKey s (word s 2) (word s 3) (word s 4);
  NewKey i b g := mkUKey (DATA_PREFIX +:+ i +:+ "/" +:+ b +:+ "/" +:+ g) i b g;
  IsValid k := bool_decide (groupId k <> "");
  GetUnifiedKey := ukey;
  GetKeyCommonPrefix k := substr (ukey k) 0 (size (ukey k) - 8);
  UnifiedRecord := Rec;
  GetUid := rec_uid;
  SetUid u r := mkRec u (rec_file r) (rec_origin r) (rec_entries r) (rec_uris r);
  IsFile := rec_file;
  GetOriginValue := rec_origin;
  GetInnerEntries := rec_entries;
  ClearInnerEntries r := mkRec (rec_uid r) (rec_file r) (rec_origin r) ∅ (rec_uris r);
  AddEntry k v r := mkRec (rec_uid r) (rec_file r) (rec_origin r) (<[k := v]> (rec_entries r)) (rec_uris r);
  GetEntries r := Some (rec_entries r);
  with_object k f r := mkRec (rec_uid r) (rec_file r) (rec_origin r) (alter (on_object f) k (rec_entries r)) (rec_uris r);
  GetUris := rec_uris;
  ComputeUris f r := mkRec (rec_uid r) (rec_file r) (rec_origin r) (rec_entries r) (f <$> rec_uris r);
  GetUriFromHtmlRecord r := mkRec (rec_uid r) (rec_file r) (rec_origin r) (rec_entries r) ((fun u => mkUri (oriUri u) "" "" 0 0) <$> rec_uris r)
|}.
Proof.
  - done.
  - intros [] []; done || (cbn; congruence).
  - done.
  - by_decide.
  - done.
  - done.
  - done.
  - done.
  - done.
  - done.
  - done.
  - done.
  - done.
  - by intros r u (x & -> & _)%list_elem_of_fmap.
  - intros r l Hl. rewrite added_all, fold_insert. cbn. rewrite (right_id_L ∅ (∪)). destruct r as [u f o m ur]. cbn in *. f_equal.
    rewrite <- (list_to_map_to_list m). apply list_to_map_proper; [|by rewrite reverse_Permutation].
    rewrite reverse_Permutation, Hl. apply NoDup_fst_map_to_list.
Defined.


(** Data of two records, the first with two entries of its own. *)
Definition sample_key : string := "udmf://drag/com.app/0123456789ABCDEF".
Definition sample_runtime : Runtime :=
  mkRuntime (parse_key sample_key) [mkPrivilege 7 ""] 1000 0 "com.app" "com.app" "dev" 2 7 "20" false "id" false 1.
Definition sample_records : list Rec :=
  [mkRec "r0" false (VOther 1) (<["a" := VOther 2]> {["b" := VOther 3]}) []; mkRec "r1" false (VOther 4) {["a" := VOther 5]} []].
Definition sample_data : UnifiedData := mkData (Some <$> sample_records : list (option UnifiedRecord)) (Some sample_runtime) no_properties.
Definition sample_store : RuntimeStore.Store :=
  RuntimeStore.mkStore [(sample_key, VSummary (mkSummary ∅ 0)); ("udmf://drag/com.other/11111111", VProperties no_properties)] ∅ [] [] false false 0 0.

Lemma sample_writable : DataHandler.writable (GetUnifiedKey (r_key sample_runtime)) (GetKeyCommonPrefix (r_key sample_runtime)) sample_records.
Proof.
  split.
  - by_decide.
  - by exists "8"%char, "9ABCDEF".
  - done.
  - by_decide.
  - intros r Hr. unfold sample_records in Hr. repeat (apply elem_of_cons in Hr as [->|Hr]; [by_decide|]). by apply not_elem_of_nil in Hr.
  - intros r u Hr Hu. unfold sample_records in Hr. repeat (apply elem_of_cons in Hr as [->|Hr]).
    + cbn in Hu. destruct (decide (u = "a")) as [->|H1]; [by_decide|]. destruct (decide (u = "b")) as [->|H2]; [by_decide|].
      rewrite lookup_insert_ne, lookup_singleton_ne in Hu by done. by destruct Hu.
    + cbn in Hu. destruct (decide (u = "a")) as [->|H1]; [by_decide|]. rewrite lookup_singleton_ne in Hu by done. by destruct Hu.
    + by apply not_elem_of_nil in Hr.
Qed.

Lemma unified_data_roundtrip_witness :
  exists summ' s', RuntimeStore.Update true sample_data sample_runtime RuntimeStore.no_summary sample_store = (E_OK, summ', s') /\
    (RuntimeStore.Get sample_key no_data s').1 = (E_OK, sample_data) /\
    (filter (fun e => ~ RuntimeStore.under (GetKeyCommonPrefix (r_key sample_runtime)) e) (RuntimeStore.entries_ s')).*1 = ["udmf://drag/com.other/11111111"].
Proof.
  pose proof (RuntimeStore.unified_data_roundtrip true sample_data sample_runtime sample_records RuntimeStore.no_summary sample_store eq_refl eq_refl sample_writable) as [H _].
  destruct (H eq_refl) as (summ' & s' & H1 & H2 & H3). exists summ', s'. split; [exact H1|]. split; [exact H2|]. rewrite H3. by_vm.
Defined.
End PlainLib.
