(* ===== verification/UdmfPreprocess.v ===== *)
(** * Permissions of the files in unified data ([service/udmf/preprocess/preprocess_utils.cpp], [service/udmf/permission/*.cpp])

    When data are set, the addresses of files and images in their records are checked against what the sender may do with them, and the records keep the
    permission that may be passed on; when the data are handed out, the receiver is granted these permissions. [Tokens] are the questions about the owner of a
    token, [PolicyUtils] the arithmetic of permissions, [PreProcessUtils] the treatment of records, [UriPermissionManager] the grants.

    The parser of addresses, the file system, the types of files, and the services that check and grant permissions are the classes [TokenKit], [UriLib] and
    [UriWorld]. *)

From Stdlib Require Import Ascii.
From stdpp Require Import sorting.
From S2P Require Import Prelude CppString UdmfData.

(** ** Tokens *)
Record HapTokenInfo := mkHap { hap_bundleName : string; instIndex : Z; userID : Z; apiVersion : Z }.
Class TokenKit := {
  IsTokenNative : Z -> bool;
  IsTokenHap : Z -> bool;
  native_process : Z -> option string;
  hap_info : Z -> option HapTokenInfo;
  (** [GetDirByBundleNameAndAppIndex] of the bundle manager; [None] when there is no manager. *)
  bundle_mgr : option (string -> Z -> option string)
}.

Module Tokens.
Section Tokens.
Context {TK : TokenKit}.

(* @src service/udmf/preprocess/preprocess_utils.cpp 216-225 PreProcessUtils::GetNativeProcessNameByToken *)
Definition GetNativeProcessNameByToken (tokenId : Z) : option string := native_process tokenId.

(* @src service/udmf/preprocess/preprocess_utils.cpp 195-214 PreProcessUtils::GetHapBundleNameByToken *)
Definition GetHapBundleNameByToken (tokenId : Z) : option string :=
  if IsTokenNative tokenId then GetNativeProcessNameByToken tokenId else hap_bundleName <$> hap_info tokenId.

(* @src service/udmf/preprocess/preprocess_utils.cpp 179-193 PreProcessUtils::GetHapUidByToken *)
Definition GetHapUidByToken (tokenId : Z) : option Z := if IsTokenHap tokenId then userID <$> hap_info tokenId else None.

(* @src service/udmf/preprocess/preprocess_utils.cpp 477-491 PreProcessUtils::GetInstIndex *)
Definition GetInstIndex (tokenId : Z) : option Z := if IsTokenHap tokenId then instIndex <$> hap_info tokenId else Some 0.

(* @src service/udmf/preprocess/preprocess_utils.cpp 812-826 PreProcessUtils::GetSdkVersionByToken *)
Definition GetSdkVersionByToken (tokenId : Z) : string :=
  if IsTokenHap tokenId then match hap_info tokenId with Some i => to_string (apiVersion i) | None => "" end else "".

(* @src service/udmf/preprocess/preprocess_utils.cpp 870-885 PreProcessUtils::GetSpecificBundleName *)
Definition GetSpecificBundleName (bundleName : string) (appIndex : Z) : option string := mgr ← bundle_mgr; mgr bundleName appIndex.

(** The bundle name and the name of the instance. A native token without a process name is looked up as an application. *)
(* @src service/udmf/preprocess/preprocess_utils.cpp 828-848 PreProcessUtils::GetSpecificBundleNameByTokenId *)
Definition GetSpecificBundleNameByTokenId (tokenId : Z) : option (string * string) :=
  match (if IsTokenNative tokenId then GetNativeProcessNameByToken tokenId else None) with
  | Some p => Some (p, p)
  | None => i ← hap_info tokenId; sp ← GetSpecificBundleName (hap_bundleName i) (instIndex i); Some (sp, hap_bundleName i)
  end.
End Tokens.
End Tokens.

(** ** The arithmetic of permissions *)
Definition READ_FLAG : Z := 1.
Definition WRITE_FLAG : Z := 2.
Definition PERSIST_FLAG : Z := 4.

(** The library's masks: normalising a mask only clears bits. The flags of a grant have no bit in common. *)
Class UriLib := {
  NormalizeMask : Z -> Z;
  ToMask : list Z -> Z;
  PERMISSION_POLICY_MODE_LEGACY : Z;
  PERMISSION_POLICY_MODE_MASK : Z;
  NO_PERMISSION : Z; ONLY_READ : Z; READ_WRITE : Z; UNKNOW : Z;
  GRANT_READ_URI_PERMISSION : Z; GRANT_WRITE_URI_PERMISSION : Z; GRANT_PERSIST_URI_PERMISSION : Z;
  GetScheme : string -> string;
  GetAuthority : string -> string;
  GetPath : string -> string;
  normalize_shrinks m : 0 <= m -> 0 <= NormalizeMask m /\ Z.land (NormalizeMask m) m = NormalizeMask m;
  grant_flags : Z.land GRANT_READ_URI_PERMISSION GRANT_WRITE_URI_PERMISSION = 0 /\ Z.land GRANT_READ_URI_PERMISSION GRANT_PERSIST_URI_PERMISSION = 0 /\
                Z.land GRANT_WRITE_URI_PERMISSION GRANT_PERSIST_URI_PERMISSION = 0
}.

Definition has_flag (m f : Z) : bool := negb (Z.land m f =? 0).

Module PolicyUtils.
Section PolicyUtils.
Context {UL : UdLib} {RL : UriLib}.

(* @src service/udmf/permission/permission_policy_utils.cpp 29-35 PermissionPolicyUtils::GetPermissionPolicyMode *)
Definition GetPermissionPolicyMode (r : option Runtime) : Z := match r with None => PERMISSION_POLICY_MODE_LEGACY | Some r => permissionPolicyMode r end.

(* @src service/udmf/permission/permission_policy_utils.cpp 37-51 PermissionPolicyUtils::ConvertToGrantUriPermission *)
Definition ConvertToGrantUriPermission (mask : Z) : Z :=
  let mask := NormalizeMask mask in
  let g := if has_flag mask READ_FLAG then GRANT_READ_URI_PERMISSION else 0 in
  let g := if has_flag mask WRITE_FLAG then Z.lor g GRANT_WRITE_URI_PERMISSION else g in
  if has_flag mask PERSIST_FLAG then Z.lor g GRANT_PERSIST_URI_PERMISSION else g.

(* @src service/udmf/permission/permission_policy_utils.cpp 53-63 PermissionPolicyUtils::ToPermissionMaskByLegacyPolicy *)
Definition ToPermissionMaskByLegacyPolicy (policy : Z) : Z :=
  if policy =? ONLY_READ then READ_FLAG
  else if (policy =? READ_WRITE) || (policy =? UNKNOW) then Z.lor (Z.lor READ_FLAG WRITE_FLAG) PERSIST_FLAG else 0.

(** [GetValue] of a member of the type [int32_t], and of text. *)
Definition get_int (o : Object) (k : string) : option Z := match o !! k with Some (MPrim (PInt z)) => Some z | _ => None end.
Definition get_text (o : Object) (k : string) : option string := match o !! k with Some (MPrim (PText s)) => Some s | _ => None end.

Definition legacy_mask (o : Object) : Z := match get_int o PERMISSION_POLICY with Some p => ToPermissionMaskByLegacyPolicy p | None => 0 end.

(* @src service/udmf/permission/permission_policy_utils.cpp 65-81 PermissionPolicyUtils::ToPermissionMask *)
Definition ToPermissionMask_object (o : Object) (mode : Z) : Z :=
  if PERMISSION_POLICY_MODE_MASK <=? mode then
    match get_int o URI_PERMISSION_MASK with Some m => if 0 <=? m then NormalizeMask m else legacy_mask o | None => legacy_mask o end
  else legacy_mask o.

(* @src service/udmf/permission/permission_policy_utils.cpp 83-89 PermissionPolicyUtils::ToPermissionMask *)
Definition ToPermissionMask_uri (u : UriInfo) (mode : Z) : Z :=
  if PERMISSION_POLICY_MODE_MASK <=? mode then NormalizeMask (permissionMask u) else ToPermissionMaskByLegacyPolicy (u_permission u).

(* @src service/udmf/permission/permission_policy_utils.cpp 91-104 PermissionPolicyUtils::ToPermissionPolicyByLegacyMask *)
Definition ToPermissionPolicyByLegacyMask (mask : Z) : Z :=
  let mask := NormalizeMask mask in
  if mask =? 0 then NO_PERMISSION else if mask =? READ_FLAG then ONLY_READ else if has_flag mask WRITE_FLAG then READ_WRITE else NO_PERMISSION.

(* @src service/udmf/permission/permission_policy_utils.cpp 106-109 PermissionPolicyUtils::ToPermissionPolicy *)
Definition ToPermissionPolicy (mask : Z) : Z := ToPermissionPolicyByLegacyMask mask.

(* @src service/udmf/permission/permission_policy_utils.cpp 111-119 PermissionPolicyUtils::GetPropertiesUriAuthorizationMask *)
Definition GetPropertiesUriAuthorizationMask (p : UnifiedDataProperties) : option Z :=
  match uriAuthorizationPolicies p with [] => None | ps => Some (ToMask ps) end.

(** The mask to grant, when it is not 0. *)
(* @src service/udmf/permission/permission_policy_utils.cpp 121-145 PermissionPolicyUtils::GetAuthorizedUriPermissionMask *)
Definition GetAuthorizedUriPermissionMask (p : UnifiedDataProperties) (o : Object) (availableMask : Z) : option Z :=
  let availableMask := NormalizeMask availableMask in
  if availableMask =? 0 then None
  else
    let configuredMask :=
      match get_int o URI_AUTHORIZATION_POLICIES with
      | Some z => if 0 <=? z then NormalizeMask z else default availableMask (GetPropertiesUriAuthorizationMask p)
      | None => default availableMask (GetPropertiesUriAuthorizationMask p)
      end in
    let grantMask := NormalizeMask (Z.land availableMask configuredMask) in
    if grantMask =? 0 then None else Some grantMask.

(* @src service/udmf/permission/permission_policy_utils.cpp 147-170 PermissionPolicyUtils::AppendGrantUriPermission *)
Definition AppendGrantUriPermission (strUris : list (string * Z)) (uriPermissions : gmap string Z) : gmap string Z :=
  fold_left (fun m item =>
    let availableMask := NormalizeMask item.2 in
    if bool_decide (item.1 = "") then m
    else if availableMask =? 0 then m
    else let g := ConvertToGrantUriPermission availableMask in
         if g =? 0 then m
         else match m !! item.1 with None => <[item.1 := g]> m | Some p => <[item.1 := Z.lor p g]> m end) strUris uriPermissions.

End PolicyUtils.
End PolicyUtils.

(** ** The records of data *)

(** The file system and the services: [stat] answers whether a path is there, cannot be entered or is a directory. The check of permissions gives one answer for
    each address. *)
Record GrantCall := mkGrant { g_uris : list string; g_permission : Z; g_bundleName : string; g_index : Z; g_source : option Z }.
Inductive Stat : Type := Missing | AccessDenied | Dir | File.
Class UriWorld := {
  Decode : string -> string;
  GetPhysicalPath : string -> Z -> option string;
  stat : string -> Stat;
  (** [GetUniformDataTypesByFilenameExtension] for images. *)
  image_types : string -> option (list string);
  FLEXIBLE_TYPE_FLAG : string;
  LocalDeviceId : string;
  RemoteDevices : list string;
  GetDfsUrisDirFromLocal : list string -> Z -> gmap string string;
  may_use : bool -> Z -> string -> bool;
  CheckUris : bool -> list string -> Z -> list bool;
  (** Whether a grant succeeds. *)
  Grant : GrantCall -> bool;
  checked_each w us t : CheckUris w us t = may_use w t <$> us
}.

(** The library's tests of data. *)
Class DataLib {UL : UdLib} := {
  data_IsValid : UnifiedData -> bool;
  data_IsEmpty : UnifiedData -> bool;
  data_IsComplete : UnifiedData -> bool;
  IsNeedTransferToEntries : UnifiedData -> bool;
  ConvertRecordsToEntries : UnifiedData -> UnifiedData;
  convert_runtime d : runtime (ConvertRecordsToEntries d) = runtime d
}.

Record CustomOption := mkOption { o_intention : Intention; o_tokenId : Z; o_own_process : bool }.

Module PreProcessUtils.
Section PreProcessUtils.
Context {UL : UdLib} {TK : TokenKit} {RL : UriLib} {UW : UriWorld} {DL : DataLib}.
Import PolicyUtils.

Definition FILE_SCHEME : string := "file".
Definition FILE_SCHEME_PREFIX : string := "file://".
Definition DOCS_LOCAL_TAG : string := "/docs/".
Definition VERIFY_URI_PERMISSION_MAX_SIZE : nat := 500.
Definition PREFIX_LEN : nat := 24.
Definition INDEX_LEN : nat := 8.
Definition SPECIAL : Z := 94.

(** [DOC_LEVEL_SEPERATOR] *)
Definition is_separator (c : ascii) : bool := bool_decide (c = "/"%char) || bool_decide (c = Ascii.ascii_of_nat 92).

(** The text up to the next separator, and what follows the separator. *)
Fixpoint segment (l : list ascii) : list ascii * option (list ascii) :=
  match l with
  | [] => ([], None)
  | c :: l => if is_separator c then ([], Some l) else let '(s, r) := segment l in (c :: s, r)
  end.

Fixpoint segments_loop (fuel : nat) (l : list ascii) : bool :=
  match fuel with
  | O => false
  | S fuel =>
      let '(s, r) := segment l in
      if bool_decide (s = [".";"."]%char) then true else match r with None => false | Some l => segments_loop fuel l end
  end.

(* @src service/udmf/preprocess/preprocess_utils.cpp 65-86 HasPathTraversal *)
Definition HasPathTraversal (path : string) : bool :=
  let l := chars (Decode path) in
  if bool_decide (Ascii.zero ∈ l) then true else segments_loop (S (length l)) l.

(* @src service/udmf/preprocess/preprocess_utils.cpp 159-169 PreProcessUtils::GenerateId *)
Definition GenerateId (random : list Z) : string := str_of ((fun a => Ascii.ascii_of_nat (Z.to_nat (if SPECIAL <=? a then a + 1 else a))) <$> random).

Definition lower (s : string) : string :=
  str_of ((fun c => let n := Ascii.nat_of_ascii c in if (65 <=? n)%nat && (n <=? 90)%nat then Ascii.ascii_of_nat (n + 32) else c) <$> chars s).

(** Whether the address may be used, and whether it is in error. *)
(* @src service/udmf/preprocess/preprocess_utils.cpp 683-698 PreProcessUtils::ValidateUriScheme *)
Definition ValidateUriScheme (uri : string) : bool * bool :=
  let scheme := lower (GetScheme uri) in
  if negb (bool_decide (scheme = "")) && negb (bool_decide (scheme = FILE_SCHEME)) then (false, false)
  else if bool_decide (scheme = "") || bool_decide (GetAuthority uri = "") then (false, true)
  else (true, false).

(* @src service/udmf/preprocess/preprocess_utils.cpp 887-921 PreProcessUtils::JudgeFileUriExist *)
Definition JudgeFileUriExist (uri : string) (tokenId : Z) : bool :=
  match Tokens.GetHapUidByToken tokenId with
  | None => false
  | Some userId =>
      match GetPhysicalPath uri userId with
      | None => false
      | Some path => match stat path with Missing => false | AccessDenied => true | Dir => false | File => true end
      end
  end.

(** What follows the last character with a property. *)
Fixpoint after_last (P : ascii -> bool) (l : list ascii) : option (list ascii) :=
  match l with
  | [] => None
  | c :: l => match after_last P l with Some r => Some r | None => if P c then Some l else None end
  end.

Definition is_alnum (c : ascii) : bool :=
  let n := Ascii.nat_of_ascii c in ((48 <=? n)%nat && (n <=? 57)%nat) || ((65 <=? n)%nat && (n <=? 90)%nat) || ((97 <=? n)%nat && (n <=? 122)%nat).

Fixpoint take_while (P : ascii -> bool) (l : list ascii) : list ascii :=
  match l with [] => [] | c :: l => if P c then c :: take_while P l else [] end.

(* @src service/udmf/preprocess/preprocess_utils.cpp 923-948 PreProcessUtils::MatchImgExtension *)
Definition MatchImgExtension (uri : string) : bool :=
  let fileName := default (chars uri) (after_last is_separator (chars uri)) in
  match after_last (fun c => bool_decide (c = "."%char)) fileName with
  | None | Some [] => false
  | Some rest =>
      let ext := str_of ("."%char :: take_while is_alnum rest) in
      match image_types ext with
      | Some (t :: _) => negb (String.prefix FLEXIBLE_TYPE_FLAG t)
      | _ => false
      end
  end.

(** The address of an image and whether it is taken up. *)
Definition html_uri (tokenId : Z) (isLocal : bool) (u : UriInfo) : UriInfo * option string :=
  let done (u : UriInfo) (newUriStr : string) :=
    (u, if bool_decide (GetAuthority newUriStr = "") then None
        else if negb (bool_decide (lower (GetScheme newUriStr) = FILE_SCHEME)) || negb (MatchImgExtension newUriStr) then None
        else if JudgeFileUriExist newUriStr tokenId then Some newUriStr else None) in
  if isLocal && bool_decide (authUri u = "") then
    let path := GetPath (oriUri u) in
    if HasPathTraversal path then (u, None)
    else match Tokens.GetHapBundleNameByToken tokenId with
         | None => (u, None)
         | Some bundleName =>
             let newUriStr := if String.prefix DOCS_LOCAL_TAG path then FILE_SCHEME_PREFIX +:+ substr_from path 1 else FILE_SCHEME_PREFIX +:+ bundleName +:+ path in
             done (mkUri (oriUri u) (dfsUri u) newUriStr (u_permission u) (permissionMask u)) newUriStr
         end
  else done u (if isLocal then authUri u else dfsUri u).

(* @src service/udmf/preprocess/preprocess_utils.cpp 545-586 PreProcessUtils::ProcessHtmlRecord *)
Definition ProcessHtmlRecord (r : UnifiedRecord) (tokenId : Z) (isLocal : bool) : UnifiedRecord * list string :=
  (ComputeUris (fun u => (html_uri tokenId isLocal u).1) r, omap (fun u => (html_uri tokenId isLocal u).2) (GetUris r)).

Definition is_object (es : gmap string ValueType) (k : string) : bool := match es !! k with Some (VObject _) => true | _ => false end.

(** The object of the file of a record. *)
Definition file_object (r : UnifiedRecord) : option Object :=
  es ← GetEntries r; match es !! GENERAL_FILE_URI with Some (VObject (Some o)) => Some o | _ => None end.

(** The remote address and the permissions the sender has written are discarded. *)
Definition reset_file (o : Object) : Object :=
  <[URI_PERMISSION_MASK := MPrim (PInt 0)]> (<[PERMISSION_POLICY := MPrim (PInt NO_PERMISSION)]> (<[REMOTE_URI := MPrim (PText "")]> o)).

(** One record when data are set: the record, the addresses of its file and of its images. *)
Definition handle_record (tokenId : Z) (r : UnifiedRecord) : UnifiedRecord * list string * list string :=
  match GetEntries r with
  | None => (r, [], [])
  | Some es =>
      let '(r, html) := if is_object es HTML then ProcessHtmlRecord (GetUriFromHtmlRecord r) tokenId true else (r, []) in
      match file_object r with
      | None => (r, [], html)
      | Some o =>
          let uri := default "" (get_text o ORI_URI) in
          (with_object GENERAL_FILE_URI reset_file r, if (ValidateUriScheme uri).1 then [uri] else [], html)
      end
  end.

Fixpoint handle_records (tokenId : Z) (rs : list (option UnifiedRecord)) : list (option UnifiedRecord) * list string * list string :=
  match rs with
  | [] => ([], [], [])
  | None :: rs => let '(rs, f, h) := handle_records tokenId rs in (None :: rs, f, h)
  | Some r :: rs =>
      let '(r, f, h) := handle_record tokenId r in
      let '(rs, f', h') := handle_records tokenId rs in (Some r :: rs, f ++ f', h ++ h')
  end.

(** The permissions the owner of the token has for one address, when there are any. *)
Definition mask_of (readOnly rd wr : bool) : option Z :=
  let m := if rd then READ_FLAG else 0 in
  let m := if negb readOnly && wr then Z.lor m WRITE_FLAG else m in
  let m := if negb readOnly && (has_flag m READ_FLAG || has_flag m WRITE_FLAG) then Z.lor m PERSIST_FLAG else m in
  if readOnly && negb (has_flag m READ_FLAG) then None else if m =? 0 then None else Some m.

(** [results[i]], where there is one. *)
Definition answer_at (results : list bool) (i : nat) : bool := default false (results !! i).

Fixpoint check_items (readOnly : bool) (reads writes : list bool) (i : nat) (us : list string) (m : gmap string Z) : option (gmap string Z) :=
  match us with
  | [] => Some m
  | u :: us => mask ← mask_of readOnly (answer_at reads i) (answer_at writes i); check_items readOnly reads writes (S i) us (<[u := mask]> m)
  end.

Fixpoint check_chunks (fuel : nat) (us : list string) (tokenId : Z) (readOnly : bool) (m : gmap string Z) : option (gmap string Z) :=
  match us, fuel with
  | [], _ => Some m
  | _, O => None
  | _, S fuel =>
      let urisToBeChecked := take VERIFY_URI_PERMISSION_MAX_SIZE us in
      m ← check_items readOnly (CheckUris false urisToBeChecked tokenId) (CheckUris true urisToBeChecked tokenId) 0 urisToBeChecked m;
      check_chunks fuel (drop VERIFY_URI_PERMISSION_MAX_SIZE us) tokenId readOnly m
  end.

(* @src service/udmf/preprocess/preprocess_utils.cpp 441-475 PreProcessUtils::CheckUriAuthorization *)
Definition CheckUriAuthorization (us : list string) (tokenId : Z) (readOnly : bool) : option (gmap string Z) := check_chunks (length us) us tokenId readOnly ∅.

(* @src service/udmf/preprocess/preprocess_utils.cpp 514-543 PreProcessUtils::ProcessFileType *)
Definition ProcessFileType (callback : Object -> Object) (r : UnifiedRecord) : UnifiedRecord :=
  match file_object r with
  | Some o => if bool_decide (get_text o UNIFORM_DATA_TYPE = Some GENERAL_FILE_URI) then with_object GENERAL_FILE_URI callback r else r
  | None => r
  end.

(* @src service/udmf/preprocess/preprocess_utils.cpp 355-391 PreProcessUtils::FillHtmlEntry *)
Definition FillHtmlEntry (p : UnifiedDataProperties) (dfsUris : gmap string string) (permissionUris : gmap string Z) (r : UnifiedRecord) : UnifiedRecord :=
  match (es ← GetEntries r; es !! HTML) with
  | Some (VObject (Some o)) =>
      ComputeUris (fun u =>
        match permissionUris !! authUri u with
        | None => u
        | Some available =>
            let '(permission, mask) := match GetAuthorizedUriPermissionMask p o available with None => (NO_PERMISSION, 0) | Some m => (ToPermissionPolicy m, m) end in
            mkUri (oriUri u) (default (dfsUri u) (dfsUris !! authUri u)) (authUri u) permission mask
        end) r
  | _ => r
  end.

Definition fill_file (p : UnifiedDataProperties) (dfsUris : gmap string string) (permissionUris : gmap string Z) (o : Object) : Object :=
  let oriUri := default "" (get_text o ORI_URI) in
  match permissionUris !! oriUri with
  | None => o
  | Some available =>
      let '(policy, mask) := match GetAuthorizedUriPermissionMask p o available with None => (NO_PERMISSION, 0) | Some m => (ToPermissionPolicy m, m) end in
      let o := <[URI_PERMISSION_MASK := MPrim (PInt mask)]> (<[PERMISSION_POLICY := MPrim (PInt policy)]> o) in
      match dfsUris !! oriUri with Some d => <[REMOTE_URI := MPrim (PText d)]> o | None => o end
  end.

(* @src service/udmf/preprocess/preprocess_utils.cpp 393-419 PreProcessUtils::FillFileEntry *)
Definition FillFileEntry (p : UnifiedDataProperties) (dfsUris : gmap string string) (permissionUris : gmap string Z) (r : UnifiedRecord) : UnifiedRecord :=
  ProcessFileType (fill_file p dfsUris permissionUris) r.

(* @src service/udmf/preprocess/preprocess_utils.cpp 421-439 PreProcessUtils::FillUris *)
Definition FillUris (dfsUris : gmap string string) (permissionUris : gmap string Z) (d : UnifiedData) : UnifiedData :=
  if bool_decide (permissionUris = ∅) then d
  else mkData (option_map (fun r => match GetEntries r with
                                    | None => r
                                    | Some _ => FillFileEntry (properties d) dfsUris permissionUris (FillHtmlEntry (properties d) dfsUris permissionUris r)
                                    end) <$> records d)
              (runtime d) (properties d).

(* @src service/udmf/preprocess/preprocess_utils.cpp 493-502 PreProcessUtils::IsNetworkingEnabled *)
Definition IsNetworkingEnabled : bool := negb (bool_decide (RemoteDevices = [])).

(* @src service/udmf/preprocess/preprocess_utils.cpp 504-512 PreProcessUtils::GetRemoteDeviceIds *)
Definition GetRemoteDeviceIds : list string := RemoteDevices.

(* @src service/udmf/preprocess/preprocess_utils.cpp 335-353 PreProcessUtils::GetDfsUrisFromLocal *)
Definition GetDfsUrisFromLocal (us : list string) (userId : Z) : gmap string string := GetDfsUrisDirFromLocal us userId.

(* @src service/udmf/preprocess/preprocess_utils.cpp 307-333 PreProcessUtils::ReadCheckUri *)
Definition ReadCheckUri (tokenId : Z) (us : list string) (readOnly : bool) (d : UnifiedData) : Status * UnifiedData :=
  if bool_decide (us = []) then (E_OK, d)
  else match CheckUriAuthorization us tokenId readOnly with
       | None => (E_NO_PERMISSION, d)
       | Some permissionUris =>
           let dfsUris := if IsNetworkingEnabled then match Tokens.GetHapUidByToken tokenId with Some u => GetDfsUrisFromLocal us u | None => ∅ end else ∅ in
           (E_OK, FillUris dfsUris permissionUris d)
       end.

(* @src service/udmf/preprocess/preprocess_utils.cpp 263-305 PreProcessUtils::HandleFileUris *)
Definition HandleFileUris (tokenId : Z) (d : UnifiedData) : Status * UnifiedData :=
  let '(rs, fileUris, htmlUris) := handle_records tokenId (records d) in
  let d := mkData rs (runtime d) (properties d) in
  match ReadCheckUri tokenId fileUris false d with
  | (E_OK, d) => ReadCheckUri tokenId htmlUris true d
  | (st, d) => (st, d)
  end.

(** [strUris.emplace]: the first permission of an address stays. *)
Definition emplace (m : gmap string Z) (u : string) (mask : Z) : gmap string Z := match m !! u with None => <[u := mask]> m | Some _ => m end.

Definition html_grant (isLocal : bool) (mode : Z) (m : gmap string Z) (u : UriInfo) : gmap string Z :=
  let mask := ToPermissionMask_uri u mode in
  if mask =? 0 then m
  else
    let uriStr := if isLocal then authUri u else dfsUri u in
    if bool_decide (uriStr = "") then m
    else if bool_decide (GetAuthority uriStr = "") then m
    else if negb (bool_decide (lower (GetScheme uriStr) = FILE_SCHEME)) || negb (MatchImgExtension uriStr) then m
    else emplace m uriStr mask.

(* @src service/udmf/preprocess/preprocess_utils.cpp 588-617 PreProcessUtils::ProcessHtmlEntryAuthorization *)
Definition ProcessHtmlEntryAuthorization (isLocal : bool) (mode : Z) (es : gmap string ValueType) (r : UnifiedRecord) (m : gmap string Z) : gmap string Z :=
  if is_object es HTML then fold_left (html_grant isLocal mode) (GetUris r) m else m.

(** Whether the entry may be used, whether it is in error, and the object: data of another device have their remote address as their address. *)
(* @src service/udmf/preprocess/preprocess_utils.cpp 700-736 PreProcessUtils::ValidateFileEntry *)
Definition ValidateFileEntry (isLocal : bool) (o : Object) : bool * bool * Object :=
  if negb (bool_decide (get_text o UNIFORM_DATA_TYPE = Some GENERAL_FILE_URI)) then (false, false, o)
  else
    let oriUri := default "" (get_text o ORI_URI) in
    if bool_decide (oriUri = "") then (false, false, o)
    else
      let '(ok, hasError) := ValidateUriScheme oriUri in
      if negb ok then (false, hasError, o)
      else if isLocal then (true, hasError, o)
      else
        let remoteUri := default "" (get_text o REMOTE_URI) in
        if bool_decide (remoteUri = "") then (false, true, o)
        else
          let o := <[ORI_URI := MPrim (PText remoteUri)]> o in
          let '(ok, hasError) := ValidateUriScheme remoteUri in (ok, hasError, o).

(* @src service/udmf/preprocess/preprocess_utils.cpp 619-640 PreProcessUtils::ProcessFileEntryAuthorization *)
Definition ProcessFileEntryAuthorization (isLocal : bool) (mode : Z) (r : UnifiedRecord) (m : gmap string Z) : bool * UnifiedRecord * gmap string Z :=
  match file_object r with
  | Some o =>
      if bool_decide (get_text o UNIFORM_DATA_TYPE = Some GENERAL_FILE_URI) then
        let '(isValid, hasError, o') := ValidateFileEntry isLocal o in
        let r := with_object GENERAL_FILE_URI (fun o => (ValidateFileEntry isLocal o).2) r in
        if hasError || negb isValid then (hasError, r, m)
        else
          let uriStr := default "" (get_text o' (if isLocal then ORI_URI else REMOTE_URI)) in
          if bool_decide (uriStr = "") then (hasError, r, m)
          else let mask := ToPermissionMask_object o' mode in
               if mask =? 0 then (hasError, r, m) else (hasError, r, emplace m uriStr mask)
      else (false, r, m)
  | None => (false, r, m)
  end.

(* @src service/udmf/preprocess/preprocess_utils.cpp 642-653 PreProcessUtils::ClearHtmlDfsUris *)
Definition ClearHtmlDfsUris (rs : list (option UnifiedRecord)) : list (option UnifiedRecord) :=
  option_map (ComputeUris (fun u => mkUri (oriUri u) "" (authUri u) (u_permission u) (permissionMask u))) <$> rs.

Fixpoint authorize_records (isLocal : bool) (mode : Z) (rs : list (option UnifiedRecord)) (g : gmap string Z) : bool * list (option UnifiedRecord) * gmap string Z :=
  match rs with
  | [] => (false, [], g)
  | None :: rs => let '(e, rs, g) := authorize_records isLocal mode rs g in (e, None :: rs, g)
  | Some r :: rs =>
      match GetEntries r with
      | None => let '(e, rs, g) := authorize_records isLocal mode rs g in (e, Some r :: rs, g)
      | Some es =>
          let m := ProcessHtmlEntryAuthorization isLocal mode es r ∅ in
          let '(e, r, m) := ProcessFileEntryAuthorization isLocal mode r m in
          if e then (true, Some r :: rs, g)
          else let '(e, rs, g) := authorize_records isLocal mode rs (AppendGrantUriPermission (in_order m) g) in (e, Some r :: rs, g)
      end
  end.

(** Whether there was an error, the data and the permission for each address. *)
(* @src service/udmf/preprocess/preprocess_utils.cpp 655-681 PreProcessUtils::ProcessFileAuthorization *)
Definition ProcessFileAuthorization (isLocal : bool) (d : UnifiedData) : bool * UnifiedData * gmap string Z :=
  let '(hasError, rs, g) := authorize_records isLocal (GetPermissionPolicyMode (runtime d)) (records d) ∅ in
  let rs := if isLocal && negb hasError then ClearHtmlDfsUris rs else rs in
  (hasError, mkData rs (runtime d) (properties d), g).

Definition set_remote (isLocal : bool) (o : Object) : Object :=
  if isLocal then <[REMOTE_URI := MPrim (PText "")]> o
  else match o !! DETAILS with
       | Some (MDetails det) => <[DETAILS := MDetails (match det !! "isRemote" with None => <["isRemote" := PText "true"]> det | Some _ => det end)]> o
       | _ => o
       end.

(* @src service/udmf/preprocess/preprocess_utils.cpp 234-261 PreProcessUtils::SetRemoteData *)
Definition SetRemoteData (r : Runtime) (d : UnifiedData) : UnifiedData :=
  if data_IsEmpty d then d
  else mkData (option_map (ProcessFileType (set_remote (bool_decide (deviceId r = LocalDeviceId)))) <$> records d) (runtime d) (properties d).

(** [std::setw(INDEX_LEN)] with zeros. *)
Definition padded (n : nat) : string := let s := to_string (Z.of_nat n) in str_of (replicate (INDEX_LEN - size s) "0"%char) +:+ s.

Fixpoint set_uids (prefix : string) (index : nat) (rs : list (option UnifiedRecord)) : list (option UnifiedRecord) :=
  match rs with
  | [] => []
  | None :: rs => None :: set_uids prefix index rs
  | Some r :: rs => Some (SetUid (prefix +:+ padded index) r) :: set_uids prefix (S index) rs
  end.

(* @src service/udmf/preprocess/preprocess_utils.cpp 738-751 PreProcessUtils::SetRecordUid *)
Definition SetRecordUid (random : list Z) (d : UnifiedData) : UnifiedData :=
  mkData (set_uids (substr (GenerateId random) 0 PREFIX_LEN) 0 (records d)) (runtime d) (properties d).

(** [appId] is what the checkers answer for the caller, [now] the time. *)
Definition runtime_of (key : UnifiedKey) (option : CustomOption) (bundleName : string) (total : Z) (appId : string) (now : Z) (waiting : bool) : Runtime :=
  mkRuntime key [mkPrivilege (o_tokenId option) ""] now 0 bundleName bundleName LocalDeviceId total (o_tokenId option) (Tokens.GetSdkVersionByToken (o_tokenId option))
    (o_own_process option) appId waiting PERMISSION_POLICY_MODE_MASK.

(* @src service/udmf/preprocess/preprocess_utils.cpp 93-126 PreProcessUtils::FillRuntimeInfo *)
Definition FillRuntimeInfo (option : CustomOption) (random : list Z) (appId : string) (now : Z) (d : UnifiedData) : Status * UnifiedData :=
  match UD_INTENTION_MAP (o_intention option), Tokens.GetSpecificBundleNameByTokenId (o_tokenId option) with
  | Some intention, Some (specificBundleName, bundleName) =>
      let key := NewKey intention specificBundleName (GenerateId random) in
      (E_OK, mkData (records d) (Some (runtime_of key option bundleName (Z.of_nat (length (records d))) appId now false)) (properties d))
  | _, _ => (E_ERROR, d)
  end.

(* @src service/udmf/preprocess/preprocess_utils.cpp 128-157 PreProcessUtils::FillDelayRuntimeInfo *)
Definition FillDelayRuntimeInfo (option : CustomOption) (info : DataLoadInfo) (appId : string) (now : Z) (d : UnifiedData) : Status * UnifiedData :=
  match Tokens.GetSpecificBundleNameByTokenId (o_tokenId option) with
  | Some (specificBundleName, bundleName) =>
      let key := NewKey DRAG specificBundleName (sequenceKey info) in
      (E_OK, mkData (records d) (Some (runtime_of key option bundleName (recordCount info) appId now true)) (properties d))
  | None => (E_ERROR, d)
  end.

(** *** No permission is passed on that the sender does not have *)

(** A mask for an address that gives nothing the owner of the token may not do. *)
Definition safe_mask (tok : Z) (u : string) (m : Z) : Prop :=
  0 <= m /\ (has_flag m READ_FLAG = true -> may_use false tok u = true) /\ (has_flag m WRITE_FLAG = true -> may_use true tok u = true).
Definition safe_masks (tok : Z) (g : gmap string Z) : Prop := map_Forall (safe_mask tok) g.
Definition safe_grant (tok : Z) (u : string) (p : Z) : Prop :=
  (has_flag p GRANT_READ_URI_PERMISSION = true -> may_use false tok u = true) /\ (has_flag p GRANT_WRITE_URI_PERMISSION = true -> may_use true tok u = true).

Lemma has_flag_sub m m' f : Z.land m' m = m' -> has_flag m' f = true -> has_flag m f = true.
Proof.
  unfold has_flag. intros E H. apply negb_true_iff, Z.eqb_neq in H. apply negb_true_iff, Z.eqb_neq. intros H0. apply H. rewrite <- E, <- Z.land_assoc, H0. apply Z.land_0_r.
Qed.

Lemma safe_mask_0 tok u : safe_mask tok u 0.
Proof. split_and!; [lia|done|done]. Qed.

Lemma safe_mask_sub tok u m m' : 0 <= m' -> Z.land m' m = m' -> safe_mask tok u m -> safe_mask tok u m'.
Proof. intros Hm E (_ & H1 & H2). split_and!; [done| |]; intros H; [apply H1|apply H2]; by eapply has_flag_sub. Qed.

Lemma safe_normalize tok u m : safe_mask tok u m -> safe_mask tok u (NormalizeMask m).
Proof. intros H. destruct (normalize_shrinks m) as [H1 H2]; [apply H|]. by eapply safe_mask_sub. Qed.

Lemma safe_land tok u m c : safe_mask tok u m -> 0 <= Z.land m c -> safe_mask tok u (Z.land m c).
Proof. intros H Hn. eapply safe_mask_sub; [done| |done]. rewrite <- Z.land_assoc, (Z.land_comm c m), Z.land_assoc, Z.land_diag. done. Qed.

Lemma mask_of_safe tok u ro m : mask_of ro (may_use false tok u) (may_use true tok u) = Some m -> safe_mask tok u m.
Proof.
  unfold mask_of, safe_mask. destruct ro, (may_use false tok u), (may_use true tok u); cbn; intros [= <-]; split_and!; done.
Qed.

Lemma check_items_safe tok ro us0 us i m g : us = drop i us0 -> safe_masks tok m ->
  check_items ro (CheckUris false us0 tok) (CheckUris true us0 tok) i us m = Some g -> safe_masks tok g.
Proof.
  revert i m. induction us as [|u us IH]; intros i m Hd Hm; cbn.
  - by intros [= <-].
  - assert (us0 !! i = Some u) as Hi by (by rewrite <- (Nat.add_0_r i), <- lookup_drop, <- Hd).
    unfold answer_at. rewrite !checked_each, !list_lookup_fmap, Hi. cbn. destruct (mask_of _ _ _) as [mask|] eqn:E; [|done].
    intros H. rewrite <- !checked_each in H. eapply (IH (S i)); [|by apply map_Forall_insert_2; [eapply mask_of_safe|]|exact H].
    by rewrite <- Nat.add_1_r, <- drop_drop, <- Hd.
Qed.

Lemma check_chunks_safe tok ro fuel : forall us m g, safe_masks tok m -> check_chunks fuel us tok ro m = Some g -> safe_masks tok g.
Proof.
  induction fuel as [|fuel IH]; intros us m g Hm; destruct us as [|u us]; cbn -[VERIFY_URI_PERMISSION_MAX_SIZE]; try (by intros [= <-]) || done.
  destruct (check_items _ _ _ _ _ m) as [m'|] eqn:E; [|done]. cbn -[VERIFY_URI_PERMISSION_MAX_SIZE]. apply IH.
  refine (check_items_safe tok ro (take VERIFY_URI_PERMISSION_MAX_SIZE (u :: us)) _ 0 m m' _ Hm E). by rewrite drop_0.
Qed.

Lemma authorized_safe tok u p o available g : safe_mask tok u available -> GetAuthorizedUriPermissionMask p o available = Some g -> safe_mask tok u g.
Proof.
  intros H%safe_normalize. unfold GetAuthorizedUriPermissionMask. case_if; [done|]. set (c := match get_int _ _ with Some _ => _ | None => _ end).
  case_if; [done|]. intros [= <-]. apply safe_normalize, safe_land; [done|]. apply Z.land_nonneg. left. apply H.
Qed.

(** The permission a record keeps for its file, and for its images. *)
Definition file_safe (tok : Z) (o : Object) : Prop := exists m, get_int o URI_PERMISSION_MASK = Some m /\ safe_mask tok (default "" (get_text o ORI_URI)) m.
Definition record_safe (tok : Z) (r : UnifiedRecord) : Prop :=
  (forall o, file_object r = Some o -> file_safe tok o) /\
  (forall es, GetEntries r = Some es -> is_object es HTML = true -> forall u, u ∈ GetUris r -> safe_mask tok (authUri u) (permissionMask u)).

Lemma names_differ : ORI_URI <> URI_PERMISSION_MASK /\ ORI_URI <> PERMISSION_POLICY /\ ORI_URI <> REMOTE_URI /\ REMOTE_URI <> URI_PERMISSION_MASK.
Proof.
  pose proof member_names as H. rewrite !NoDup_cons, !not_elem_of_cons in H. tauto.
Qed.

Lemma get_insert_ne o k k' m : k <> k' -> get_text (<[k' := m]> o) k = get_text o k /\ get_int (<[k' := m]> o) k = get_int o k.
Proof. intros H. unfold get_text, get_int. by rewrite lookup_insert_ne. Qed.

Lemma reset_safe tok o : file_safe tok (reset_file o).
Proof.
  exists 0. split; [|apply safe_mask_0]. unfold reset_file, get_int. by rewrite lookup_insert_eq.
Qed.

Lemma fill_file_safe tok p dfs g o : safe_masks tok g -> file_safe tok o -> file_safe tok (fill_file p dfs g o).
Proof.
  intros Hg Ho. unfold fill_file. destruct (g !! _) as [available|] eqn:E; [|done]. pose proof (map_Forall_lookup_1 _ _ _ _ Hg E) as Ha. cbn in Ha.
  destruct names_differ as (N1 & N2 & N3 & N4).
  set (pm := match GetAuthorizedUriPermissionMask p o available with None => _ | Some m => _ end).
  assert (safe_mask tok (default "" (get_text o ORI_URI)) pm.2) as Hm.
  { subst pm. destruct (GetAuthorizedUriPermissionMask p o available) as [m|] eqn:Em; [by eapply authorized_safe|apply safe_mask_0]. }
  destruct pm as [policy mask]. cbn [snd] in Hm.
  assert (forall o', get_text o' ORI_URI = get_text o ORI_URI -> get_int o' URI_PERMISSION_MASK = Some mask -> file_safe tok o') as Hs.
  { intros o' E1 E2. exists mask. by rewrite E1. }
  set (o1 := <[URI_PERMISSION_MASK := MPrim (PInt mask)]> _).
  assert (get_text o1 ORI_URI = get_text o ORI_URI) as E1.
  { unfold o1. rewrite (proj1 (get_insert_ne _ _ _ _ N1)), (proj1 (get_insert_ne _ _ _ _ N2)). done. }
  assert (get_int o1 URI_PERMISSION_MASK = Some mask) as E2 by (unfold o1, get_int; by rewrite lookup_insert_eq).
  destruct (dfs !! _); apply Hs; [| |done|done].
  - by rewrite (proj1 (get_insert_ne _ _ _ _ N3)).
  - by rewrite (proj2 (get_insert_ne _ _ _ _ (not_eq_sym N4))).
Qed.

Lemma file_object_with f r : file_object (with_object GENERAL_FILE_URI f r) = f <$> file_object r.
Proof.
  unfold file_object. rewrite with_object_entries. destruct (GetEntries r) as [es|]; [|done]. cbn. rewrite lookup_alter.
  rewrite decide_True by done. destruct (es !! GENERAL_FILE_URI) as [[[o|]|]|]; done.
Qed.

Lemma html_with k f r : match GetEntries (with_object k f r) with Some es => is_object es HTML | None => false end
  = match GetEntries r with Some es => is_object es HTML | None => false end.
Proof.
  rewrite with_object_entries. destruct (GetEntries r) as [es|]; [|done]. cbn. unfold is_object. rewrite lookup_alter. case_decide; [|done]. subst k.
  destruct (es !! HTML) as [[[o|]|]|]; done.
Qed.

(** The second half, in a form that does not name the entries. *)
Definition has_html (r : UnifiedRecord) : bool := match GetEntries r with Some es => is_object es HTML | None => false end.
Lemma record_safe_iff tok r : record_safe tok r <->
  (forall o, file_object r = Some o -> file_safe tok o) /\ (has_html r = true -> forall u, u ∈ GetUris r -> safe_mask tok (authUri u) (permissionMask u)).
Proof.
  unfold record_safe, has_html. split; intros [H1 H2]; (split; [done|]).
  - destruct (GetEntries r) as [es|] eqn:E; [|done]. by apply H2.
  - intros es E. rewrite E in H2. done.
Qed.

Lemma with_file_safe tok f r : (forall o, file_object r = Some o -> file_safe tok (f o)) ->
  (has_html r = true -> forall u, u ∈ GetUris r -> safe_mask tok (authUri u) (permissionMask u)) -> record_safe tok (with_object GENERAL_FILE_URI f r).
Proof.
  intros H1 H2. apply record_safe_iff. split.
  - intros o. rewrite file_object_with. intros (o' & Ho & ->)%fmap_Some. by apply H1.
  - unfold has_html. rewrite html_with, with_object_uris. apply H2.
Qed.

Lemma compute_same f r : file_object (ComputeUris f r) = file_object r /\ has_html (ComputeUris f r) = has_html r.
Proof. unfold file_object, has_html. by rewrite compute_entries. Qed.

Lemma html_uri_mask tok l u : permissionMask (html_uri tok l u).1 = permissionMask u.
Proof. unfold html_uri. repeat case_match; done. Qed.

Lemma handle_record_safe tok r : record_safe tok (handle_record tok r).1.1.
Proof.
  unfold handle_record. destruct (GetEntries r) as [es|] eqn:E.
  2:{ apply record_safe_iff. unfold file_object, has_html. cbn [fst]. rewrite E. done. }
  set (rh := if is_object es HTML then _ else _).
  assert (file_object rh.1 = file_object r) as Ef.
  { subst rh. destruct (is_object es HTML); [|done]. unfold ProcessHtmlRecord. cbn [fst]. rewrite (proj1 (compute_same _ _)). unfold file_object. by rewrite html_entries. }
  assert (has_html rh.1 = true -> forall u, u ∈ GetUris rh.1 -> safe_mask tok (authUri u) (permissionMask u)) as Hh.
  { subst rh. destruct (is_object es HTML) eqn:Eo; cbn [fst].
    - intros _ u. unfold ProcessHtmlRecord. cbn [fst]. rewrite compute_uris. intros (x & -> & Hx)%list_elem_of_fmap.
      rewrite html_uri_mask, (html_no_permission _ _ Hx). apply safe_mask_0.
    - unfold has_html. by rewrite E, Eo. }
  destruct rh as [r1 html]. cbn [fst] in *. destruct (file_object r1) as [o|] eqn:Eo; cbn [fst].
  - apply with_file_safe; [|done]. intros o' _. apply reset_safe.
  - apply record_safe_iff. rewrite Eo. done.
Qed.

Lemma handle_records_safe tok rs : Forall (fun r => forall x, r = Some x -> record_safe tok x) (handle_records tok rs).1.1.
Proof.
  induction rs as [|[r|] rs IH]; cbn; [constructor| |].
  - pose proof (handle_record_safe tok r) as H. destruct (handle_record tok r) as [[r' f] h]. destruct (handle_records tok rs) as [[rs' f'] h'].
    cbn in *. constructor; [|done]. by intros x [= <-].
  - destruct (handle_records tok rs) as [[rs' f'] h']. cbn in *. by constructor.
Qed.

Lemma process_file_safe tok f r : (forall o, file_safe tok o -> file_safe tok (f o)) -> record_safe tok r -> record_safe tok (ProcessFileType f r).
Proof.
  intros Hf Hr. unfold ProcessFileType. destruct (file_object r) as [o|] eqn:E; [|done]. case_if; [|done].
  apply record_safe_iff in Hr as [H1 H2]. apply with_file_safe; [|done]. intros o' Ho. apply Hf. by apply H1.
Qed.

Lemma fill_html_safe tok p dfs g r : safe_masks tok g -> record_safe tok r -> record_safe tok (FillHtmlEntry p dfs g r).
Proof.
  intros Hg Hr. unfold FillHtmlEntry. destruct (GetEntries r ≫= _) as [[[o|]|]|]; try done.
  apply record_safe_iff in Hr as [H1 H2]. apply record_safe_iff. rewrite (proj1 (compute_same _ _)), (proj2 (compute_same _ _)). split; [done|].
  intros Hh u. rewrite compute_uris. intros (x & -> & Hx)%list_elem_of_fmap. destruct (g !! authUri x) as [available|] eqn:E; [|by apply H2].
  destruct (GetAuthorizedUriPermissionMask p o available) as [m|] eqn:Em; cbn; [|apply safe_mask_0].
  eapply authorized_safe; [|exact Em]. apply (map_Forall_lookup_1 _ _ _ _ Hg E).
Qed.

Definition data_safe (tok : Z) (d : UnifiedData) : Prop := Forall (fun r => forall x, r = Some x -> record_safe tok x) (records d).

Lemma fill_uris_safe tok dfs g d : safe_masks tok g -> data_safe tok d -> data_safe tok (FillUris dfs g d).
Proof.
  intros Hg Hd. unfold FillUris, data_safe in *. case_if; [done|]. cbn. apply Forall_fmap. eapply Forall_impl; [exact Hd|]. intros [r|] H x; cbn; [|done].
  intros [= <-]. specialize (H r eq_refl). destruct (GetEntries r); [|done]. apply process_file_safe; [|by apply fill_html_safe]. intros o. by apply fill_file_safe.
Qed.

Lemma read_check_safe tok us ro d : data_safe tok d -> data_safe tok (ReadCheckUri tok us ro d).2.
Proof.
  intros Hd. unfold ReadCheckUri. case_if; [done|]. destruct (CheckUriAuthorization us tok ro) as [g|] eqn:E; [|done]. cbn.
  apply fill_uris_safe; [|done]. eapply check_chunks_safe; [|exact E]. apply map_Forall_empty.
Qed.

(** Whatever the sender wrote into the records, what they keep after the check is within what it may do. *)
Lemma handle_safe tok d : data_safe tok (HandleFileUris tok d).2.
Proof.
  unfold HandleFileUris. pose proof (handle_records_safe tok (records d)) as H. destruct (handle_records tok (records d)) as [[rs f] h]. cbn in H.
  pose proof (read_check_safe tok f false (mkData rs (runtime d) (properties d)) H) as H1. destruct (ReadCheckUri tok f false _) as [st d1]. cbn in H1.
  destruct st; try done. by apply read_check_safe.
Qed.

Lemma lor_flag a b f : has_flag (Z.lor a b) f = true -> has_flag a f = true \/ has_flag b f = true.
Proof.
  unfold has_flag. rewrite !negb_true_iff, !Z.eqb_neq, Z.land_lor_distr_l. intros H.
  destruct (Z.eq_dec (Z.land a f) 0) as [E|E]; [|by left]. rewrite E, Z.lor_0_l in H. by right.
Qed.

Lemma convert_safe tok u m : safe_mask tok u m -> safe_grant tok u (ConvertToGrantUriPermission m).
Proof.
  intros (_ & H1 & H2)%safe_normalize. unfold ConvertToGrantUriPermission. destruct grant_flags as (F1 & F2 & F3).
  assert (forall f g, Z.land f g = 0 -> has_flag f g = false) as Hz by (intros f g E; unfold has_flag; by rewrite E).
  assert (forall f, has_flag 0 f = false) as H0 by (intros f; unfold has_flag; by rewrite Z.land_0_l).
  set (nm := NormalizeMask m) in *.
  split; intros H; [destruct (has_flag nm READ_FLAG) eqn:E; [by apply H1|]|destruct (has_flag nm WRITE_FLAG) eqn:E; [by apply H2|]]; exfalso.
  - repeat case_if; repeat (apply lor_flag in H as [H|H]); rewrite ?H0 in H; try done; rewrite Hz in H; try done; by rewrite Z.land_comm.
  - repeat case_if; repeat (apply lor_flag in H as [H|H]); rewrite ?H0 in H; try done; rewrite Hz in H; try done; by rewrite Z.land_comm.
Qed.

Lemma safe_grant_lor tok u a b : safe_grant tok u a -> safe_grant tok u b -> safe_grant tok u (Z.lor a b).
Proof. intros [A1 A2] [B1 B2]. split; intros [H|H]%lor_flag; auto. Qed.

Lemma append_safe tok l g : Forall (fun e => safe_mask tok e.1 e.2) l -> map_Forall (safe_grant tok) g -> map_Forall (safe_grant tok) (AppendGrantUriPermission l g).
Proof.
  unfold AppendGrantUriPermission. revert g. induction l as [|[u m] l IH]; intros g Hl Hg; cbn [fold_left]; [done|].
  apply Forall_cons in Hl as [Hu Hl]. apply IH; [done|]. cbn [fst snd] in *. case_if; [done|]. case_if; [done|]. case_if; [done|].
  assert (safe_grant tok u (ConvertToGrantUriPermission (NormalizeMask m))) as Hc by (by apply convert_safe, safe_normalize).
  destruct (g !! u) as [p|] eqn:E; apply map_Forall_insert_2; try done. apply safe_grant_lor; [|done]. apply (map_Forall_lookup_1 _ _ _ _ Hg E).
Qed.

Lemma emplace_safe tok m u mask : safe_masks tok m -> safe_mask tok u mask -> safe_masks tok (emplace m u mask).
Proof. intros Hm Hu. unfold emplace. destruct (m !! u); [done|]. by apply map_Forall_insert_2. Qed.

Lemma html_grants_safe tok mode us : PERMISSION_POLICY_MODE_MASK <= mode -> (forall u, u ∈ us -> safe_mask tok (authUri u) (permissionMask u)) ->
  forall m, safe_masks tok m -> safe_masks tok (fold_left (html_grant true mode) us m).
Proof.
  intros Hmode. induction us as [|u us IH]; intros Hu m Hm; cbn [fold_left]; [done|]. apply IH; [intros x Hx; apply Hu; by right|].
  unfold html_grant, ToPermissionMask_uri. rewrite (proj2 (Z.leb_le _ _) Hmode). case_if; [done|]. case_if; [done|]. case_if; [done|]. case_if; [done|].
  apply emplace_safe; [done|]. apply safe_normalize, Hu. by left.
Qed.

Lemma file_entry_safe tok mode r m : PERMISSION_POLICY_MODE_MASK <= mode -> record_safe tok r -> safe_masks tok m ->
  safe_masks tok (ProcessFileEntryAuthorization true mode r m).2.
Proof.
  intros Hmode [Hr _] Hm. unfold ProcessFileEntryAuthorization. destruct (file_object r) as [o|] eqn:E; [|done]. case_if; [|done].
  destruct (ValidateFileEntry true o) as [[ok err] o'] eqn:Ev.
  assert (o' = o) as ->.
  { revert Ev. unfold ValidateFileEntry. destruct (ValidateUriScheme _) as [a b]. repeat case_if; by intros [=]. }
  case_if; [done|]. case_if; [done|]. case_if; [done|]. cbn [snd]. apply emplace_safe; [done|].
  destruct (Hr o eq_refl) as (mask & Em & Hs). unfold ToPermissionMask_object. rewrite (proj2 (Z.leb_le _ _) Hmode), Em.
  rewrite (proj2 (Z.leb_le _ _) (proj1 Hs)). by apply safe_normalize.
Qed.

Lemma authorize_safe tok mode rs : PERMISSION_POLICY_MODE_MASK <= mode -> Forall (fun r => forall x, r = Some x -> record_safe tok x) rs ->
  forall g, map_Forall (safe_grant tok) g -> map_Forall (safe_grant tok) (authorize_records true mode rs g).2.
Proof.
  intros Hmode. induction rs as [|[r|] rs IH]; intros Hrs g Hg; cbn; [done| |].
  - apply Forall_cons in Hrs as [Hr Hrs]. specialize (Hr r eq_refl). specialize (IH Hrs). destruct (GetEntries r) as [es|] eqn:E.
    + assert (safe_masks tok (ProcessHtmlEntryAuthorization true mode es r ∅)) as Hm.
      { unfold ProcessHtmlEntryAuthorization. destruct (is_object es HTML) eqn:Eo; [|apply map_Forall_empty].
        apply html_grants_safe; [done| |apply map_Forall_empty]. by apply (proj2 Hr es E). }
      pose proof (file_entry_safe tok mode r _ Hmode Hr Hm) as Hf. destruct (ProcessFileEntryAuthorization _ _ _ _) as [[e r'] m]. cbn [snd] in Hf.
      destruct e; [done|]. specialize (IH (AppendGrantUriPermission (in_order m) g)). destruct (authorize_records true mode rs _) as [[e' rs'] g']. apply IH.
      apply append_safe; [|done]. rewrite Forall_forall. intros [u mask] Hu. rewrite in_order_elements in Hu. apply elem_of_map_to_list in Hu. apply (map_Forall_lookup_1 _ _ _ _ Hf Hu).
    + specialize (IH g Hg). by destruct (authorize_records true mode rs g) as [[e' rs'] g'].
  - apply Forall_cons in Hrs as [_ Hrs]. specialize (IH Hrs g Hg). by destruct (authorize_records true mode rs g) as [[e' rs'] g'].
Qed.

Lemma uid_safe tok u r : record_safe tok r -> record_safe tok (SetUid u r).
Proof. unfold record_safe, file_object. by rewrite uid_entries, uid_uris. Qed.

Lemma set_uids_safe tok p rs : forall n, Forall (fun r => forall x, r = Some x -> record_safe tok x) rs -> Forall (fun r => forall x, r = Some x -> record_safe tok x) (set_uids p n rs).
Proof.
  induction rs as [|[r|] rs IH]; intros n H; cbn; [constructor| |]; apply Forall_cons in H as [Hr H]; constructor; auto.
  intros x [= <-]. apply uid_safe. by apply Hr.
Qed.

(** *** Parent directories are found *)

(** The components of a path. *)
Fixpoint components (l : list ascii) : list (list ascii) :=
  match l with
  | [] => [[]]
  | c :: l => if is_separator c then [] :: components l else match components l with w :: ws => (c :: w) :: ws | [] => [[c]] end
  end.

Lemma components_segment l : components l = (segment l).1 :: match (segment l).2 with Some r => components r | None => [] end.
Proof. induction l as [|c l IH]; [done|]. cbn. destruct (is_separator c); [done|]. rewrite IH. by destruct (segment l) as [s [r|]]. Qed.

Lemma segment_shorter l r : (segment l).2 = Some r -> (length r < length l)%nat.
Proof.
  induction l as [|c l IH]; cbn; [done|]. destruct (is_separator c); [cbn; intros [= ->]; lia|]. destruct (segment l) as [s x]. cbn in *. intros ->. specialize (IH eq_refl). lia.
Qed.

(** The loop ends, and finds a component that names the parent directory exactly when there is one. *)
Lemma segments_loop_spec fuel : forall l, (length l < fuel)%nat -> segments_loop fuel l = bool_decide ([".";"."]%char ∈ components l).
Proof.
  induction fuel as [|fuel IH]; intros l Hl; [lia|]. cbn. rewrite components_segment. pose proof (segment_shorter l) as Hs. destruct (segment l) as [s r]. cbn [fst snd] in *.
  destruct (bool_decide_reflect (s = [".";"."]%char)) as [->|Hne].
  - rewrite bool_decide_true; [done|by left].
  - destruct r as [r|].
    + rewrite IH by (specialize (Hs r eq_refl); lia). apply bool_decide_ext. rewrite elem_of_cons. split; [by right|]. intros [E|?]; congruence || done.
    + rewrite bool_decide_false; [done|]. intros H%list_elem_of_singleton. congruence.
Qed.

Lemma HasPathTraversal_spec path : HasPathTraversal path = true <-> Ascii.zero ∈ chars (Decode path) \/ [".";"."]%char ∈ components (chars (Decode path)).
Proof.
  unfold HasPathTraversal. rewrite segments_loop_spec by lia. destruct (bool_decide_reflect (Ascii.zero ∈ chars (Decode path))) as [H|H].
  - split; [by left|done].
  - rewrite bool_decide_eq_true. tauto.
Qed.

(** *** Identifiers *)

(** Random numbers between the bounds of the code give no separator of keys or entries. *)
Lemma GenerateId_plain random c : Forall (fun a => 48 <= a <= 121) random -> c ∈ chars (GenerateId random) -> c <> "#"%char /\ c <> "/"%char.
Proof.
  intros H. unfold GenerateId. rewrite chars_str_of. intros (a & -> & Ha)%list_elem_of_fmap. rewrite Forall_forall in H. specialize (H a Ha).
  set (b := if SPECIAL <=? a then a + 1 else a). assert (48 <= b <= 122) as Hb by (unfold b; case_if; lia).
  split; intros E; apply (f_equal Ascii.nat_of_ascii) in E; rewrite Ascii.nat_ascii_embedding in E by lia; change (Ascii.nat_of_ascii _) with 35%nat in E || change (Ascii.nat_of_ascii _) with 47%nat in E; lia.
Qed.

(** Reading a decimal number back, with zeros in front of it. *)
Lemma digits_of n : forall s, atoi_digits 0 (chars (pretty_N_go n s)) = atoi_digits (Z.of_N n) (chars s).
Proof.
  induction (N.lt_wf_0 n) as [n _ IH]; intros s. destruct (decide (n = 0%N)) as [->|Hn]; [by rewrite pretty_N_go_0|].
  rewrite pretty_N_go_step by lia. rewrite IH by (apply N.div_lt; lia).
  assert (Ascii.is_nat (pretty_N_char (n mod 10)) = Some (N.to_nat (n mod 10))) as Ed.
  { pose proof (N.mod_lt n 10). destruct (n mod 10)%N as [|p]; [done|]. do 9 (destruct p as [p|p|]; try done; try lia). }
  cbn [chars atoi_digits]. rewrite Ed. f_equal. rewrite N_nat_Z, N2Z.inj_div, N2Z.inj_mod. pose proof (Z.div_mod (Z.of_N n) 10). lia.
Qed.

Lemma digits_zeros k l : atoi_digits 0 (replicate k "0"%char ++ l) = atoi_digits 0 l.
Proof. induction k as [|k IH]; [done|]. exact IH. Qed.

Lemma padded_inj n n' : padded n = padded n' -> n = n'.
Proof.
  assert (forall n, atoi_digits 0 (chars (padded n)) = Z.of_nat n) as H.
  { intros m. unfold padded. rewrite chars_app, chars_str_of, digits_zeros. unfold to_string. destruct m as [|m]; [done|].
    change (pretty (Z.of_nat (S m))) with (pretty (Npos (Pos.of_succ_nat m))). unfold pretty, pretty_N. rewrite decide_False by done. rewrite digits_of. cbn. lia. }
  intros E. apply (f_equal (fun s => atoi_digits 0 (chars s))) in E. rewrite !H in E. lia.
Qed.

Lemma padded_plain n : "#"%char ∉ chars (padded n).
Proof.
  unfold padded. rewrite chars_app, chars_str_of, elem_of_app. intros [H|H].
  - apply elem_of_replicate in H as [[=] _].
  - revert H. apply to_string_chars. by_decide.
Qed.

(** The records of written data. *)
Definition present (rs : list (option UnifiedRecord)) : list UnifiedRecord := omap id rs.

Lemma set_uids_uid p rs : forall n r, r ∈ present (set_uids p n rs) -> exists k, (n <= k)%nat /\ GetUid r = p +:+ padded k.
Proof.
  induction rs as [|[x|] rs IH]; intros n r; cbn; [by intros ?%not_elem_of_nil| |].
  - intros [->|H]%elem_of_cons; [exists n; split; [lia|apply uid_set]|]. destruct (IH (S n) r H) as (k & Hk & E). exists k. split; [lia|done].
  - apply IH.
Qed.

Lemma set_uids_NoDup p rs : forall n, NoDup (GetUid <$> present (set_uids p n rs)).
Proof.
  induction rs as [|[x|] rs IH]; intros n; cbn; [constructor| |apply IH]. apply NoDup_cons. split; [|apply IH].
  intros (r & E & H)%list_elem_of_fmap. apply set_uids_uid in H as (k & Hk & Ek). rewrite uid_set, Ek in E. apply string_app_inj_l, padded_inj in E. lia.
Qed.

(** The identifiers given to the records are different and have no separator of entries, as reading the data back requires. *)
Lemma uids_readable random d : Forall (fun a => 48 <= a <= 121) random ->
  let rs := present (records (SetRecordUid random d)) in NoDup (GetUid <$> rs) /\ forall r, r ∈ rs -> "#"%char ∉ chars (GetUid r).
Proof.
  intros Hr rs. split; [apply set_uids_NoDup|]. intros r Hin. apply set_uids_uid in Hin as (k & _ & ->). rewrite chars_app, elem_of_app. intros [H|H].
  - unfold substr in H. rewrite chars_str_of, drop_0 in H. apply elem_of_take in H as (j & H & _). apply list_elem_of_lookup_2 in H.
    by apply (GenerateId_plain random) in H as [? _].
  - by apply padded_plain in H.
Qed.

(** The runtime of the data is not changed by the check. *)
Lemma handle_runtime tok d : runtime (HandleFileUris tok d).2 = runtime d.
Proof.
  assert (forall us ro x, runtime (ReadCheckUri tok us ro x).2 = runtime x) as H.
  { intros us ro x. unfold ReadCheckUri, FillUris. repeat case_match; done. }
  unfold HandleFileUris. destruct (handle_records tok (records d)) as [[rs f] h]. set (x := mkData rs (runtime d) (properties d)).
  pose proof (H f false x) as H1. destruct (ReadCheckUri tok f false x) as [st y]. cbn in H1. rewrite <- H1. destruct st; done || apply H.
Qed.
End PreProcessUtils.
End PreProcessUtils.

(** ** Grants *)
Module UriPermissionManager.
Section UriPermissionManager.
Context {TK : TokenKit} {UW : UriWorld}.

Definition GRANT_URI_PERMISSION_MAX_SIZE : nat := 10000.

(** The calls that are made, in their order; a call that fails is the last one. *)
Fixpoint grant_chunks (fuel : nat) (us : list string) (call : list string -> GrantCall) : Status * list GrantCall :=
  match us, fuel with
  | [], _ => (E_OK, [])
  | _, O => (E_OK, [])
  | _, S fuel =>
      let c := call (take GRANT_URI_PERMISSION_MAX_SIZE us) in
      if Grant c then let '(st, cs) := grant_chunks fuel (drop GRANT_URI_PERMISSION_MAX_SIZE us) call in (st, c :: cs) else (E_NO_PERMISSION, [c])
  end.

(** The source of data of another device is not named. *)
(* @src service/udmf/permission/uri_permission_manager.cpp 74-96 UriPermissionManager::ProcessUriPermission *)
Definition ProcessUriPermission (us : list string) (bundleName : string) (index tokenId permission : Z) (isLocal : bool) : Status * list GrantCall :=
  grant_chunks (length us) us (fun chunk => mkGrant chunk permission bundleName index (if isLocal then Some tokenId else None)).

Fixpoint grant_groups (gs : list (Z * list string)) (bundleName : string) (index src : Z) (isLocal : bool) : Status * list GrantCall :=
  match gs with
  | [] => (E_OK, [])
  | (permission, us) :: gs =>
      if (permission =? 0) || bool_decide (us = []) then grant_groups gs bundleName index src isLocal
      else match ProcessUriPermission us bundleName index src permission isLocal with
           | (E_OK, cs) => let '(st, cs') := grant_groups gs bundleName index src isLocal in (st, cs ++ cs')
           | (_, cs) => (E_NO_PERMISSION, cs)
           end
  end.

(* @src service/udmf/permission/uri_permission_manager.cpp 33-72 UriPermissionManager::GrantUriPermission *)
Definition GrantUriPermission (gs : list (Z * list string)) (dstTokenId srcTokenId : Z) (isLocal : bool) : Status * list GrantCall :=
  match Tokens.GetHapBundleNameByToken dstTokenId, Tokens.GetInstIndex dstTokenId with
  | Some bundleName, Some index => grant_groups gs bundleName index srcTokenId isLocal
  | _, _ => (E_ERROR, [])
  end.

Lemma grant_chunks_within fuel : forall us call, forall c, c ∈ (grant_chunks fuel us call).2 -> exists l, c = call l /\ l ⊆ us.
Proof.
  induction fuel as [|fuel IH]; intros us call c; cbn -[GRANT_URI_PERMISSION_MAX_SIZE]; [destruct us; by intros ?%not_elem_of_nil|].
  destruct us as [|u us]; [by intros ?%not_elem_of_nil|]. set (l := u :: us).
  assert (take GRANT_URI_PERMISSION_MAX_SIZE l ⊆ l) as Ht by (intros x; apply subseteq_take).
  destruct (Grant _).
  - specialize (IH (drop GRANT_URI_PERMISSION_MAX_SIZE l) call c). destruct (grant_chunks fuel _ call) as [st cs]. cbn [snd] in *.
    intros [->|Hc]%elem_of_cons; [by eexists|]. destruct (IH Hc) as (k & -> & Hk). exists k. split; [done|]. etrans; [exact Hk|]. intros x. apply subseteq_drop.
  - intros ->%list_elem_of_singleton. by eexists.
Qed.

(** Every call grants the permission of the group its addresses are in. *)
Lemma granted_as_asked gs dst src isLocal c : c ∈ (GrantUriPermission gs dst src isLocal).2 ->
  exists us, (g_permission c, us) ∈ gs /\ g_uris c ⊆ us /\ Tokens.GetHapBundleNameByToken dst = Some (g_bundleName c).
Proof.
  unfold GrantUriPermission. destruct (Tokens.GetHapBundleNameByToken dst) as [b|]; [|by intros ?%not_elem_of_nil].
  destruct (Tokens.GetInstIndex dst) as [i|]; [|by intros ?%not_elem_of_nil].
  induction gs as [|[p us] gs IH]; cbn [grant_groups]; [by intros ?%not_elem_of_nil|]. intros Hc.
  destruct ((p =? 0) || bool_decide (us = [])).
  { destruct (IH Hc) as (us' & H1 & H2 & H3). exists us'. split; [by right|done]. }
  pose proof (grant_chunks_within (length us) us (fun chunk => mkGrant chunk p b i (if isLocal then Some src else None)) c) as Hg.
  unfold ProcessUriPermission in Hc. destruct (grant_chunks _ us _) as [st cs]. cbn [snd] in Hg.
  assert (c ∈ cs \/ c ∈ (grant_groups gs b i src isLocal).2) as [H|H].
  { destruct st; cbn [snd] in Hc; auto. destruct (grant_groups gs b i src isLocal) as [st' cs']. cbn [snd] in *. by apply elem_of_app in Hc. }
  - destruct (Hg H) as (l & -> & Hl). exists us. split; [by left|done].
  - destruct (IH H) as (us' & H1 & H2 & H3). exists us'. split; [by right|done].
Qed.

(** *** Handing out data with files *)
Context {UL : UdLib} {RL : UriLib}.

(** The addresses by permission. *)
Definition group_uri (gs : gmap Z (list string)) (e : string * Z) : gmap Z (list string) :=
  if e.2 =? 0 then gs else <[e.2 := default [] (gs !! e.2) ++ [e.1]]> gs.

(* @src service/udmf/udmf_service_impl.cpp 418-440 UdmfServiceImpl::ProcessCrossDeviceData *)
Definition ProcessCrossDeviceData (d : UnifiedData) : Status * UnifiedData * gmap Z (list string) :=
  match runtime d with
  | None => (E_DB_ERROR, d, ∅)
  | Some r =>
      let isLocal := bool_decide (LocalDeviceId = deviceId r) in
      let '(hasError, d, g) := PreProcessUtils.ProcessFileAuthorization isLocal d in
      if hasError then (E_INVALID_PARAMETERS, d, ∅) else (E_OK, d, fold_left group_uri (in_order g) ∅)
  end.

Definition group_le (a b : Z * list string) : Prop := a.1 <= b.1.
#[local] Instance group_le_dec a b : Decision (group_le a b).
Proof. unfold group_le. apply _. Defined.
Definition groups (gs : gmap Z (list string)) : list (Z * list string) := merge_sort group_le (map_to_list gs).

Lemma grouped (P : string -> Z -> Prop) l : (forall u p, (u, p) ∈ l -> P u p) -> forall gs,
  (forall p us u, gs !! p = Some us -> u ∈ us -> P u p) -> forall p us u, fold_left group_uri l gs !! p = Some us -> u ∈ us -> P u p.
Proof.
  intros Hl. induction l as [|[v q] l IH]; intros gs Hgs; cbn [fold_left]; [done|]. apply IH; [intros u p Hu; apply Hl; by right|].
  intros p us u. unfold group_uri. cbn [fst snd]. case_if; [apply Hgs|]. destruct (decide (p = q)) as [->|Hne].
  - rewrite lookup_insert_eq. intros [= <-]. rewrite elem_of_app, list_elem_of_singleton. intros [H| ->]; [|apply Hl; by left].
    destruct (gs !! q) as [us|] eqn:E; [by eapply Hgs|by apply not_elem_of_nil in H].
  - rewrite lookup_insert_ne by done. apply Hgs.
Qed.


Lemma cross_runtime d : runtime (ProcessCrossDeviceData d).1.2 = runtime d.
Proof.
  unfold ProcessCrossDeviceData, PreProcessUtils.ProcessFileAuthorization. destruct (runtime d) as [r|] eqn:E; [|done].
  destruct (PreProcessUtils.authorize_records _ _ _ _) as [[e rs] g]. by destruct e.
Qed.
End UriPermissionManager.
End UriPermissionManager.

(** ** An instance of the services, for the examples *)
Module PlainUris.
Export PlainLib.
#[export] Existing Instance plain.

Definition normalize (m : Z) : Z := let k := Z.land m 7 in if Z.land k 3 =? 0 then 0 else k.
Lemma normalize_ok m : 0 <= m -> 0 <= normalize m /\ Z.land (normalize m) m = normalize m.
Proof.
  intros Hm. unfold normalize. case_if; [done|]. split; [apply Z.land_nonneg; by left|].
  rewrite <- Z.land_assoc, (Z.land_comm 7), Z.land_assoc, Z.land_diag. done.
Qed.

(** Tokens 7, 8 and 9 are applications, 3 is a native process. *)
#[export] Instance tokens : TokenKit := {|
  IsTokenNative t := t =? 3; IsTokenHap t := negb (t =? 3);
  native_process t := if t =? 3 then Some "msdp" else None;
  hap_info t := if t =? 7 then Some (mkHap "com.app" 0 100 20) else if t =? 9 then Some (mkHap "com.reader" 0 100 20)
    else if t =? 8 then Some (mkHap "com.third" 0 100 20) else None;
  bundle_mgr := Some (fun b _ => Some b)
|}.

Definition scheme (u : string) : string := if String.prefix "file://" u then "file" else "".
#[export, refine] Instance uris : UriLib := {|
  NormalizeMask := normalize; ToMask l := fold_right Z.lor 0 l; PERMISSION_POLICY_MODE_LEGACY := 0; PERMISSION_POLICY_MODE_MASK := 1;
  NO_PERMISSION := 1; ONLY_READ := 2; READ_WRITE := 3; UNKNOW := 0;
  GRANT_READ_URI_PERMISSION := 1; GRANT_WRITE_URI_PERMISSION := 2; GRANT_PERSIST_URI_PERMISSION := 64;
  GetScheme := scheme; GetAuthority u := word u 2; GetPath u := u
|}.
Proof. - apply normalize_ok. - done. Defined.

(** Application 7 may read every file and write the one called a. *)
#[export, refine] Instance world : UriWorld := {|
  Decode s := s; GetPhysicalPath u _ := Some u; stat _ := File; image_types e := if bool_decide (e = ".png") then Some ["general.png"] else None;
  FLEXIBLE_TYPE_FLAG := "flex."; LocalDeviceId := "dev"; RemoteDevices := []; GetDfsUrisDirFromLocal _ _ := ∅;
  may_use w t u := if w then bool_decide (t = 7) && bool_decide (u = "file://com.app/a") else bool_decide (t = 7);
  CheckUris w us t := (fun u => if w then bool_decide (t = 7) && bool_decide (u = "file://com.app/a") else bool_decide (t = 7)) <$> us;
  Grant _ := true
|}.
Proof. done. Defined.

#[export, refine] Instance tests : DataLib := {|
  data_IsValid d := negb (bool_decide (length (records d) = O)); data_IsEmpty d := bool_decide (length (records d) = O);
  data_IsComplete d := match runtime d with Some r => negb (waiting r) && (recordTotalNum r =? Z.of_nat (length (records d))) | None => false end;
  IsNeedTransferToEntries _ := false; ConvertRecordsToEntries d := d
|}.
Proof. done. Defined.

(** A record of a file in which the sender claims every permission. *)
Definition claiming (uri : string) : Rec :=
  mkRec "" false (VOther 0) {["general.file-uri" := VObject (Some (<["uniformDataType" := MPrim (PText "general.file-uri")]> (<["oriUri" := MPrim (PText uri)]>
    {["uriPermissionMask" := MPrim (PInt 7)]})))]} [].
Definition claimed_data : UnifiedData := mkData [Some (claiming "file://com.app/a" : UnifiedRecord); Some (claiming "file://com.app/b" : UnifiedRecord)] None no_properties.
Definition random_bytes : list Z := replicate 32 65.

Definition handed_out : Status * UnifiedData * gmap Z (list string) :=
  UriPermissionManager.ProcessCrossDeviceData
    (PreProcessUtils.SetRecordUid random_bytes (mkData (records (PreProcessUtils.HandleFileUris 7 claimed_data).2) (Some sample_runtime) (properties (PreProcessUtils.HandleFileUris 7 claimed_data).2))).

End PlainUris.
