(* ===== verification/UdmfService.v ===== *)
(** * The service of unified data ([service/udmf/udmf_service_impl.cpp], [store/store_cache.cpp], [lifecycle/*.cpp], [delay_data/*.cpp], [store/drag_observer.cpp])

    [Stores] are the open stores of the user in the foreground and the databases behind them, [DelayData] the containers of data that are provided only when they are
    asked for, [Service] the operations of the service with the life of the data. An operation is a function of the state ([M]); a call that waits for data that
    another application provides is two operations. The thread pool is a list of tasks, which run at any time later.

    The answers of the databases are a list in the state (see [UdmfData]). Opening a store takes three of them: for its metadata, for the database and for its
    property. Which user is in the foreground, the clocks and the caller are inputs. *)

From Stdlib Require Import Ascii.
From stdpp Require Import sorting.
From S2P Require Import Prelude CppString UdmfData UdmfPreprocess.

(** ** Open stores *)
Module Stores.
Section Stores.
Context {UL : UdLib} (rewrite_moves : bool).

(** A database, and an open store of it: the members of [RuntimeStore]. *)
Record Db := mkDb { db_entries : list Entry; db_locals : gmap string string }.
Definition no_db : Db := mkDb [] ∅.
Record Handle := mkHandle { h_intention : string; h_user : Z; h_corrupted : bool; h_notify : bool; h_time : Z }.

(** [foreground] is the answer of the account service, [clock] the time in milliseconds, [pushed] the synchronisations that were started. *)
(* @src service/udmf/store/store_cache.h 25-50 StoreCache *)
Record Cache := mkCache {
  foreground : option Z; clock : Z; answers : list DBStatus; disk : gmap (string * Z) Db; stores_ : gmap string Handle; has_task : bool; has_pool : bool;
  pushed : list (list string * RuntimeStore.SyncMode)
}.

Definition set_answers (l : list DBStatus) (c : Cache) : Cache := mkCache (foreground c) (clock c) l (disk c) (stores_ c) (has_task c) (has_pool c) (pushed c).
Definition set_disk (d : gmap (string * Z) Db) (c : Cache) : Cache := mkCache (foreground c) (clock c) (answers c) d (stores_ c) (has_task c) (has_pool c) (pushed c).
Definition set_stores (m : gmap string Handle) (c : Cache) : Cache := mkCache (foreground c) (clock c) (answers c) (disk c) m (has_task c) (has_pool c) (pushed c).
Definition set_task (b : bool) (c : Cache) : Cache := mkCache (foreground c) (clock c) (answers c) (disk c) (stores_ c) b (has_pool c) (pushed c).

Definition answer (c : Cache) : DBStatus * Cache := match answers c with [] => (OK, c) | a :: l => (a, set_answers l c) end.

Definition cache_key (intention : string) (user : Z) : string := intention +:+ to_string user.

(** The intention with a name ([UnifiedDataUtils::GetIntentionByString] of the library). *)
Definition GetIntentionByString (name : string) : Intention :=
  default UD_INTENTION_BUTT (List.find (fun i => bool_decide (UD_INTENTION_MAP i = Some name)) [UD_INTENTION_DRAG; UD_INTENTION_DATA_HUB; UD_INTENTION_SYSTEM_SHARE; UD_INTENTION_PICKER; UD_INTENTION_MENU]).

(* @src service/udmf/store/store_cache.cpp 112-115 StoreCache::IsValidIntention *)
Definition IsValidIntention (intention : string) : bool := negb (bool_decide (GetIntentionByString intention = UD_INTENTION_BUTT)).

(** A database that cannot be read is deleted, and the opening fails. *)
(* @src service/udmf/store/runtime_store.cpp 465-510 RuntimeStore::Init *)
Definition Init (intention : string) (user : Z) (c : Cache) : option Handle * Cache :=
  let '(meta, c) := answer c in
  if negb (bool_decide (meta = OK)) then (None, c)
  else
    let '(a, c) := answer c in
    match a with
    | OK =>
        let '(p, c) := answer c in
        if bool_decide (p = OK) then (Some (mkHandle intention user false false (clock c + RuntimeStore.INTERVAL)), c) else (None, c)
    | INVALID_PASSWD_OR_CORRUPTED_DB =>
        let '(b, c) := answer c in (None, if bool_decide (b = OK) then set_disk (delete (intention, user) (disk c)) c else c)
    | _ => (None, c)
    end.

(** Only the store of dragged data has an observer; that it cannot be registered does not matter. *)
(* @src service/udmf/store/runtime_store.cpp 682-698 RuntimeStore::RegisterDataChangedObserver *)
Definition RegisterDataChangedObserver (intention : string) (c : Cache) : Cache := if bool_decide (intention = DRAG) then (answer c).2 else c.

(* @src service/udmf/store/store_cache.cpp 30-67 StoreCache::GetStore *)
Definition GetStore (intention : string) (c : Cache) : option Handle * Cache :=
  match foreground c with
  | None => (None, c)
  | Some user =>
      let key := cache_key intention user in
      let '(h, c) :=
        match stores_ c !! key with
        | Some h => (Some h, c)
        | None =>
            if IsValidIntention intention
            then match Init intention user c with
                 | (Some h, c) => (Some h, set_stores (<[key := h]> (stores_ c)) (RegisterDataChangedObserver intention c))
                 | (None, c) => (None, c)
                 end
            else (None, c)
        end in
      (h, if negb (has_task c) && has_pool c then set_task true c else c)
  end.

(** Closing a store: the database of a store that was found corrupted is deleted. *)
(* @src service/udmf/store/runtime_store.cpp 592-608 RuntimeStore::ReleaseStore *)
Definition ReleaseStore (h : Handle) (c : Cache) : Cache :=
  let '(a, c) := answer c in
  if bool_decide (a = OK) && h_corrupted h
  then let '(b, c) := answer c in if bool_decide (b = OK) then set_disk (delete (h_intention h, h_user h) (disk c)) c else c
  else c.

Definition release_all (hs : list Handle) (c : Cache) : Cache := fold_left (fun c h => ReleaseStore h c) hs c.

(* @src service/udmf/store/store_cache.cpp 69-86 StoreCache::GarbageCollect *)
Definition GarbageCollect (c : Cache) : Cache :=
  let old := filter (fun kh => h_time kh.2 < clock c) (stores_ c) in
  let kept := filter (fun kh => ~ (h_time kh.2 < clock c)) (stores_ c) in
  let c := release_all (map_to_list old).*2 (set_stores kept c) in
  set_task (negb (bool_decide (kept = ∅)) && has_pool c) c.

(* @src service/udmf/store/store_cache.cpp 93-97 StoreCache::CloseStores *)
Definition CloseStores (c : Cache) : Cache := release_all (map_to_list (stores_ c)).*2 (set_stores ∅ c).

(* @src service/udmf/store/store_cache.cpp 99-110 StoreCache::RemoveStore *)
Definition RemoveStore (intention : string) (c : Cache) : Cache :=
  match foreground c with
  | None => c
  | Some user =>
      match stores_ c !! cache_key intention user with
      | None => c
      | Some h => ReleaseStore h (set_stores (delete (cache_key intention user) (stores_ c)) c)
      end
  end.

(** An operation of an open store on its database. *)
Definition on_store {A} (h : Handle) (op : RuntimeStore.Store -> A * RuntimeStore.Store) (c : Cache) : A * Cache :=
  let key := cache_key (h_intention h) (h_user h) in
  let now := default h (stores_ c !! key) in
  let db := default no_db (disk c !! (h_intention h, h_user h)) in
  let '(a, s) := op (RuntimeStore.mkStore (db_entries db) (db_locals db) (answers c) (pushed c) (h_corrupted now) (h_notify now) (h_time now) (clock c)) in
  let h' := mkHandle (h_intention h) (h_user h) (RuntimeStore.isCorrupted_ s) (RuntimeStore.hasRegisterPullNotify_ s) (RuntimeStore.time_ s) in
  (a, mkCache (foreground c) (clock c) (RuntimeStore.answers_ s)
        (<[(h_intention h, h_user h) := mkDb (RuntimeStore.entries_ s) (RuntimeStore.locals_ s)]> (disk c))
        (alter (fun _ => h') key (stores_ c)) (has_task c) (has_pool c) (RuntimeStore.syncs_ s)).

(** *** Opening and closing stores only ever removes databases *)
Definition shrinks (c c' : Cache) : Prop := disk c' ⊆ disk c.
#[global] Instance shrinks_pre : PreOrder shrinks.
Proof. split; [intros c; unfold shrinks; done|intros a b c H1 H2; unfold shrinks in *; by etrans]. Qed.

Lemma answer_disk c : disk (answer c).2 = disk c.
Proof. unfold answer. by destruct (answers c). Qed.

Lemma Init_shrinks i u c : shrinks c (Init i u c).2.
Proof.
  unfold Init, shrinks. pose proof (answer_disk c) as H0. destruct (answer c) as [a0 c0]. cbn in H0. case_if; [by rewrite <- H0|].
  pose proof (answer_disk c0) as H1. destruct (answer c0) as [a1 c1]. cbn in H1. rewrite <- H0, <- H1. destruct a1; try done.
  - pose proof (answer_disk c1) as H2. destruct (answer c1) as [a2 c2]. cbn in H2. rewrite <- H2. by case_if.
  - pose proof (answer_disk c1) as H2. destruct (answer c1) as [a2 c2]. cbn in H2. rewrite <- H2. case_if; [apply delete_subseteq|done].
Qed.

Lemma GetStore_shrinks i c : shrinks c (GetStore i c).2.
Proof.
  unfold GetStore. destruct (foreground c) as [u|]; [|done]. set (x := match stores_ c !! _ with Some h => _ | None => _ end).
  assert (shrinks c x.2) as Hx.
  { subst x. destruct (stores_ c !! _); [done|]. case_if; [|done]. pose proof (Init_shrinks i u c) as H. destruct (Init i u c) as [[h|] c']; [|done].
    cbn in *. unfold shrinks in *. cbn. unfold RegisterDataChangedObserver. case_if; [by rewrite answer_disk|done]. }
  destruct x as [h c']. cbn in *. by case_if.
Qed.

Lemma Release_shrinks h c : shrinks c (ReleaseStore h c).
Proof.
  unfold ReleaseStore, shrinks. pose proof (answer_disk c) as H0. destruct (answer c) as [a0 c0]. cbn in H0. rewrite <- H0. case_if; [|done].
  pose proof (answer_disk c0) as H1. destruct (answer c0) as [a1 c1]. cbn in H1. rewrite <- H1. case_if; [apply delete_subseteq|done].
Qed.

Lemma release_all_shrinks hs : forall c, shrinks c (release_all hs c).
Proof. induction hs as [|h hs IH]; intros c; cbn; [done|]. etrans; [apply (Release_shrinks h)|apply IH]. Qed.

Lemma Close_shrinks c : shrinks c (CloseStores c).
Proof. unfold CloseStores. apply (release_all_shrinks _ (set_stores ∅ c)). Qed.

Lemma Remove_shrinks i c : shrinks c (RemoveStore i c).
Proof. unfold RemoveStore. destruct (foreground c) as [u|]; [|done]. destruct (stores_ c !! _) as [h|]; [|done]. apply (Release_shrinks h (set_stores _ c)). Qed.

Lemma Garbage_shrinks c : shrinks c (GarbageCollect c).
Proof. apply (release_all_shrinks _ (set_stores _ c)). Qed.
End Stores.
End Stores.

(** ** Data that are provided when they are asked for *)
Module DelayData.
Section DelayData.
Context {UL : UdLib}.

(** A call that waits for data has a block, which holds the data when they are there; [b_key] and [b_token] say for whom it was made. *)
Record Block := mkBlock { b_key : string; b_token : Z; b_value : option UnifiedData }.
(** What is sent to applications: a request to provide data, and data for which an application waits. *)
Inductive Told : Type := LoadAsked (callback : Z) (key : string) | Delivered (callback : Z) (key : string) (token : Z) (d : UnifiedData).

(** [dataLoadCallback_] has the applications that provide data, [blockDelayDataCache_] the calls that wait, [delayDataCallback_] the applications that are
    called back (their token and, if there is one, their callback), [pulledDeviceInfo_] the devices that have pulled, until when. *)
(* @src service/udmf/delay_data/delay_data_prepare_container.h 25-61 DelayDataPrepareContainer *)
Record Delay := mkDelay {
  dataLoadCallback_ : gmap string Z; blockDelayDataCache_ : gmap string (Z * nat); blocks : list Block;
  delayDataCallback_ : gmap string (Z * option Z); pulledDeviceInfo_ : list (string * Z); told : list Told
}.
Definition set_load (m : gmap string Z) (d : Delay) : Delay := mkDelay m (blockDelayDataCache_ d) (blocks d) (delayDataCallback_ d) (pulledDeviceInfo_ d) (told d).
Definition set_wait (m : gmap string (Z * nat)) (bs : list Block) (d : Delay) : Delay := mkDelay (dataLoadCallback_ d) m bs (delayDataCallback_ d) (pulledDeviceInfo_ d) (told d).
Definition set_callbacks (m : gmap string (Z * option Z)) (d : Delay) : Delay :=
  mkDelay (dataLoadCallback_ d) (blockDelayDataCache_ d) (blocks d) m (pulledDeviceInfo_ d) (told d).
Definition set_pulled (l : list (string * Z)) (d : Delay) : Delay := mkDelay (dataLoadCallback_ d) (blockDelayDataCache_ d) (blocks d) (delayDataCallback_ d) l (told d).
Definition tell (t : Told) (d : Delay) : Delay :=
  mkDelay (dataLoadCallback_ d) (blockDelayDataCache_ d) (blocks d) (delayDataCallback_ d) (pulledDeviceInfo_ d) (told d ++ [t]).

Inductive DelayLoadStatus : Type := NOT_DELAY_DATA | WAITING | DATA_READY | NO_PERMISSION | LOAD_ERROR.

(** Up to the wait: the outcome, or the block that is waited for. The first application that asks is the one for which the data are loaded. *)
(* @src service/udmf/delay_data/delay_data_prepare_container.cpp 30-63 DelayDataPrepareContainer::HandleDelayLoad *)
Definition HandleDelayLoad_begin (key : string) (tokenId : Z) (d : Delay) : (DelayLoadStatus + nat) * Delay :=
  if bool_decide (key = "") then (inl NOT_DELAY_DATA, d)
  else match dataLoadCallback_ d !! key with
       | None => (inl NOT_DELAY_DATA, d)
       | Some callback =>
           match blockDelayDataCache_ d !! key with
           | Some (t, id) => if t =? tokenId then (inr id, d) else (inl NO_PERMISSION, d)
           | None =>
               let id := length (blocks d) in
               (inr id, tell (LoadAsked callback key) (set_wait (<[key := (tokenId, id)]> (blockDelayDataCache_ d)) (blocks d ++ [mkBlock key tokenId None]) d))
           end
       end.

(** After the wait, with or without data. *)
(* @src service/udmf/delay_data/delay_data_prepare_container.cpp 64-74 DelayDataPrepareContainer::HandleDelayLoad *)
Definition HandleDelayLoad_end (key : string) (id : nat) (d : Delay) : DelayLoadStatus * option UnifiedData * Delay :=
  match blocks d !! id with
  | None => (LOAD_ERROR, None, d)
  | Some b =>
      match b_value b with
      | Some v => (DATA_READY, Some v, set_load (delete key (dataLoadCallback_ d)) (set_wait (delete key (blockDelayDataCache_ d)) (blocks d) d))
      | None => (WAITING, None, d)
      end
  end.

(** [SetValue] of the data a call waits for. *)
Definition SetValue (id : nat) (v : UnifiedData) (d : Delay) : Delay :=
  set_wait (blockDelayDataCache_ d) (alter (fun b => mkBlock (b_key b) (b_token b) (Some v)) id (blocks d)) d.

(* @src service/udmf/delay_data/delay_data_prepare_container.cpp 76-84 DelayDataPrepareContainer::RegisterDataLoadCallback *)
Definition RegisterDataLoadCallback (key : string) (callback : option Z) (d : Delay) : Delay :=
  match callback with None => d | Some cb => if bool_decide (key = "") then d else set_load (<[key := cb]> (dataLoadCallback_ d)) d end.

(* @src service/udmf/delay_data/delay_data_prepare_container.cpp 92-110 DelayDataPrepareContainer::ExecDataLoadCallback *)
Definition ExecDataLoadCallback (key : string) (d : Delay) : bool * Delay :=
  match dataLoadCallback_ d !! key with
  | None => (false, d)
  | Some cb => (true, tell (LoadAsked cb key) (set_load (delete key (dataLoadCallback_ d)) d))
  end.

(* @src service/udmf/delay_data/delay_data_prepare_container.cpp 112-126 DelayDataPrepareContainer::ExecAllDataLoadCallback *)
Definition ExecAllDataLoadCallback (d : Delay) : Delay :=
  fold_left (fun d kc => tell (LoadAsked kc.2 kc.1) d) (in_order (dataLoadCallback_ d)) (set_load ∅ d).

(* @src service/udmf/delay_data/delay_data_prepare_container.cpp 128-137 DelayDataPrepareContainer::QueryBlockDelayData *)
Definition QueryBlockDelayData (key : string) (d : Delay) : option (Z * nat) := blockDelayDataCache_ d !! key.

(* @src service/udmf/delay_data/delay_data_acquire_container.cpp 32-45 DelayDataAcquireContainer::RegisterDelayDataCallback *)
Definition RegisterDelayDataCallback (key : string) (tokenId : Z) (callback : option Z) (d : Delay) : Delay :=
  if bool_decide (key = "") then d
  else match delayDataCallback_ d !! key with
       | Some (t, _) => if t =? tokenId then set_callbacks (<[key := (tokenId, callback)]> (delayDataCallback_ d)) d else d
       | None => set_callbacks (<[key := (tokenId, callback)]> (delayDataCallback_ d)) d
       end.

(* @src service/udmf/delay_data/delay_data_acquire_container.cpp 47-66 DelayDataAcquireContainer::HandleDelayDataCallback *)
Definition HandleDelayDataCallback (key : string) (v : UnifiedData) (d : Delay) : bool * Delay :=
  match delayDataCallback_ d !! key with
  | None => (false, d)
  | Some (t, cb) =>
      let d := set_callbacks (delete key (delayDataCallback_ d)) d in
      match cb with None => (false, d) | Some cb => (true, tell (Delivered cb key t v) d) end
  end.

(* @src service/udmf/delay_data/delay_data_acquire_container.cpp 68-77 DelayDataAcquireContainer::QueryDelayGetDataInfo *)
Definition QueryDelayGetDataInfo (key : string) (d : Delay) : option Z := fst <$> delayDataCallback_ d !! key.

(* @src service/udmf/delay_data/delay_data_acquire_container.cpp 92-96 DelayDataAcquireContainer::IsContainDelayData *)
Definition IsContainDelayData (key : string) (d : Delay) : bool := bool_decide (is_Some (delayDataCallback_ d !! key)).

(** A device is remembered for twelve hours. *)
Definition DEVICE_TIME : Z := 12 * 3600 * 1000.

(* @src service/udmf/delay_data/synced_device_container.cpp 30-49 SyncedDeviceContainer::SaveSyncedDeviceInfo *)
Definition SaveSyncedDeviceInfo (deviceId : string) (now : Z) (d : Delay) : Delay :=
  if bool_decide (deviceId = "") then d
  else set_pulled (filter (fun i => ~ (i.2 < now)) (pulledDeviceInfo_ d) ++ [(deviceId, now + DEVICE_TIME)]) d.

(* @src service/udmf/delay_data/synced_device_container.cpp 51-65 SyncedDeviceContainer::QueryDeviceInfo *)
Definition QueryDeviceInfo (now : Z) (d : Delay) : list string * Delay :=
  let l := filter (fun i => ~ (i.2 < now)) (pulledDeviceInfo_ d) in (l.*1, set_pulled l d).
End DelayData.
End DelayData.

(** ** The service *)
Record QueryOption := mkQuery { q_key : string; q_intention : Intention; q_tokenId : Z }.
Record Caller := mkCaller { c_tokenId : Z; c_fullToken : Z; c_uid : Z }.
Record AsyncProcessInfo := mkAsync { syncStatus : Z; srcDevName : string; syncId : Z; syncFinished : Z; syncTotal : Z; a_tokenId : Z }.
(** The progress of a synchronisation with a device. *)
Record DeviceSyncProcess := mkProcess { process_finished : bool; errCode : DBStatus; pr_syncId : Z; finishedCount : Z; pr_total : Z }.

(** What the service asks others: whether data of an application may be dragged, the rights of a caller, the identifier of an application (see [Checker]), whether key
    and intention of a query fit, the kinds of device an application is made for; the metadata of other devices, the masks of the device matrix, and what comes of
    synchronising metadata with some devices ([None]: it cannot be started). A valid key is printed as it was read. *)
Class SvcEnv {UL : UdLib} := {
  IsDraggable : Z -> bool;
  IsSystemApp : Z -> bool;
  VerifyPermission : string -> Z -> bool;
  IsNativeCaller : Caller -> bool;
  GetAppId : Z -> Z -> string -> string;
  IsValidOptions : UnifiedKey -> string -> bool;
  LargeDevice : bool;
  ModuleDeviceTypes : Z -> option (list (list string));
  CheckSyncPermission : Z -> bool;
  ToUUID : string -> string; DeviceName : string -> string;
  HasCapMeta : string -> bool; HasStoreMeta : string -> Z -> string -> bool;
  RemoteMask : string -> Z; LocalMask : string -> Z; META_STORE_MASK : Z;
  MetaSync : list string -> option (list (string * DBStatus));
  ShareText : Z -> string;
  ShareNumber : string -> Z;
  SHARE_OPTIONS_BUTT : Z; IN_APP : Z; ASYNC_INITIAL : Z; ASYNC_SUCCESS : Z; ASYNC_RUNNING : Z; ASYNC_FAILURE : Z;
  parse_print k : IsValid (parse_key k) = true -> GetUnifiedKey (parse_key k) = k
}.

Module Service.
Section Service.
Context {UL : UdLib} {TK : TokenKit} {RL : UriLib} {UW : UriWorld} {DL : DataLib} {SE : SvcEnv} (rewrite_moves : bool).
Import Stores DelayData.

(** A task of the thread pool, removing data that were taken, and what is done when metadata have been synchronised: pulling from the devices or pushing to them. *)
Inductive Task : Type := TGot (key : UnifiedKey) (tokenId : Z) (isNeedPush : bool) | TMeta (push : bool) (h : Handle) (results : list (string * DBStatus)).

(* @src service/udmf/udmf_service_impl.h 129-133 UdmfServiceImpl *)
Record Svc := mkSvc {
  cache : Cache; delay : Delay; privilegeCache_ : gmap string (list Privilege); asyncProcessInfoMap_ : gmap string AsyncProcessInfo;
  udKeys_ : gmap Z (gset string); tasks : list Task; grants : list GrantCall; exchanged : list string
}.
Definition set_cache (c : Cache) (s : Svc) : Svc := mkSvc c (delay s) (privilegeCache_ s) (asyncProcessInfoMap_ s) (udKeys_ s) (tasks s) (grants s) (exchanged s).
Definition set_delay (d : Delay) (s : Svc) : Svc := mkSvc (cache s) d (privilegeCache_ s) (asyncProcessInfoMap_ s) (udKeys_ s) (tasks s) (grants s) (exchanged s).
Definition set_privileges (m : gmap string (list Privilege)) (s : Svc) : Svc := mkSvc (cache s) (delay s) m (asyncProcessInfoMap_ s) (udKeys_ s) (tasks s) (grants s) (exchanged s).
Definition set_async (m : gmap string AsyncProcessInfo) (s : Svc) : Svc := mkSvc (cache s) (delay s) (privilegeCache_ s) m (udKeys_ s) (tasks s) (grants s) (exchanged s).
Definition set_udKeys (m : gmap Z (gset string)) (s : Svc) : Svc := mkSvc (cache s) (delay s) (privilegeCache_ s) (asyncProcessInfoMap_ s) m (tasks s) (grants s) (exchanged s).
Definition set_tasks (l : list Task) (s : Svc) : Svc := mkSvc (cache s) (delay s) (privilegeCache_ s) (asyncProcessInfoMap_ s) (udKeys_ s) l (grants s) (exchanged s).
Definition set_grants (l : list GrantCall) (s : Svc) : Svc := mkSvc (cache s) (delay s) (privilegeCache_ s) (asyncProcessInfoMap_ s) (udKeys_ s) (tasks s) l (exchanged s).
Definition set_exchanged (l : list string) (s : Svc) : Svc := mkSvc (cache s) (delay s) (privilegeCache_ s) (asyncProcessInfoMap_ s) (udKeys_ s) (tasks s) (grants s) l.

(** *** Operations on the state *)
Definition M (A : Type) : Type := Svc -> A * Svc.
#[global] Instance M_ret : MRet M := fun A a s => (a, s).
#[global] Instance M_bind : MBind M := fun A B f m s => let '(a, s) := m s in f a s.
Definition get : M Svc := fun s => (s, s).
Definition modify (f : Svc -> Svc) : M unit := fun s => (tt, f s).
Definition on_cache {A} (f : Cache -> A * Cache) : M A := fun s => let '(a, c) := f (cache s) in (a, set_cache c s).
Definition on_delay {A} (f : Delay -> A * Delay) : M A := fun s => let '(a, d) := f (delay s) in (a, set_delay d s).
Definition delay_do (f : Delay -> Delay) : M unit := fun s => (tt, set_delay (f (delay s)) s).
Definition store (intention : string) : M (option Handle) := on_cache (GetStore intention).
Definition with_store {A} (h : Handle) (op : RuntimeStore.Store -> A * RuntimeStore.Store) : M A := on_cache (on_store h op).

Definition SERVICE_READ_AND_KEEP : string := "readAndKeep".
Definition DRAG_AUTHORIZED_PROCESSES : list string := ["msdp"; "collaboration_service"].
Definition HAP_LIST : list string := ["com.ohos.pasteboarddialog"].
Definition FOUNDATION_UID : Z := 5523.
Definition MANAGE_UDMF_APP_SHARE_OPTION : string := "ohos.permission.MANAGE_UDMF_APP_SHARE_OPTION".
(** An hour. *)
Definition LIFE_INTERVAL : Z := 3600 * 1000.

(* @src service/udmf/udmf_service_impl.cpp 1468-1475 UdmfServiceImpl::HandleDbError *)
Definition HandleDbError (intention : string) (status : Status) : M Status :=
  if bool_decide (status = E_DB_CORRUPTED) then _ ← on_cache (fun c => (tt, RemoveStore intention c)); mret E_DB_ERROR else mret status.

(* @src service/udmf/udmf_service_impl.cpp 1219-1223 UdmfServiceImpl::FindIntentionMap *)
Definition FindIntentionMap (i : Intention) : string := default "" (UD_INTENTION_MAP i).

(* @src service/udmf/udmf_service_impl.cpp 255-266 UdmfServiceImpl::CheckDragParams *)
Definition CheckDragParams (key : UnifiedKey) : bool := IsValid key && bool_decide (intention key = DRAG).

(** *** The life of the data *)

(* @src service/udmf/lifecycle/lifecycle_manager.cpp 26-32 LifeCycleManager::intentionPolicy_ *)
Definition intentionPolicy_ : list Intention := [UD_INTENTION_DRAG; UD_INTENTION_PICKER; UD_INTENTION_MENU; UD_INTENTION_SYSTEM_SHARE; UD_INTENTION_DATA_HUB].
Definition has_policy (intention : string) : bool := bool_decide (Exists (fun i => UD_INTENTION_MAP i = Some intention) intentionPolicy_).

(** Removing data is left to the thread pool. *)
(* @src service/udmf/lifecycle/lifecycle_manager.cpp 40-65 LifeCycleManager::OnGot *)
Definition OnGot (key : UnifiedKey) (tokenId : Z) (isNeedPush : bool) : M Status :=
  s ← get;
  if negb (has_pool (cache s)) then mret E_ERROR
  else if negb (has_policy (intention key)) then mret E_INVALID_PARAMETERS
  else _ ← modify (set_tasks (tasks s ++ [TGot key tokenId isNeedPush])); mret E_OK.

(* @src service/udmf/lifecycle/drag_lifecycle_policy.cpp 80-94 DragLifeCyclePolicy::OnGotToRemote *)
Definition OnGotToRemote (h : Handle) : M unit :=
  if bool_decide (h_intention h = DRAG) && negb (bool_decide (RemoteDevices = [])) then _ ← with_store h (RuntimeStore.PushSync RemoteDevices); mret tt else mret tt.

(* @src service/udmf/lifecycle/lifecycle_policy.cpp 26-41 LifeCyclePolicy::OnGot *)
Definition Policy_OnGot (key : UnifiedKey) (isNeedPush : bool) : M Status :=
  h ← store (intention key);
  match h with
  | None => mret E_DB_ERROR
  | Some h =>
      st ← with_store h (RuntimeStore.Delete (GetKeyCommonPrefix (parse_key (ukey key))));
      if bool_decide (st = E_OK) then _ ← (if isNeedPush then OnGotToRemote h else mret tt); mret E_OK else mret E_DB_ERROR
  end.

(* @src service/udmf/lifecycle/lifecycle_manager.cpp 146-154 LifeCycleManager::EraseUdkey *)
Definition EraseUdkey (udKey : string) (tokenId : Z) (s : Svc) : Svc :=
  match udKeys_ s !! tokenId with
  | None => s
  | Some set => let set := set ∖ {[udKey]} in set_udKeys (if bool_decide (set = ∅) then delete tokenId (udKeys_ s) else <[tokenId := set]> (udKeys_ s)) s
  end.

(** The devices with which the metadata have been synchronised; the device matrix is told. *)
(* @src service/udmf/udmf_service_impl.cpp 1486-1497 UdmfServiceImpl::ProcessResult *)
Definition ProcessResult (results : list (string * DBStatus)) : M (list string) :=
  let devices := (filter (fun r => r.2 = OK) results).*1 in
  _ ← modify (fun s => set_exchanged (exchanged s ++ devices) s); mret devices.

(** A task of the pool runs. *)
Definition run_task (t : Task) : M unit :=
  match t with
  | TGot key tokenId isNeedPush =>
      st ← Policy_OnGot key isNeedPush;
      if bool_decide (st = E_OK) then modify (EraseUdkey (GetUnifiedKey key) tokenId) else mret tt
  | TMeta push h results =>
      devices ← ProcessResult results;
      if bool_decide (devices = []) then mret tt else _ ← with_store h (if push then RuntimeStore.PushSync devices else RuntimeStore.Sync devices); mret tt
  end.

(* @src service/udmf/lifecycle/lifecycle_manager.cpp 131-138 LifeCycleManager::InsertUdKey *)
Definition InsertUdKey (tokenId : Z) (udKey : string) (s : Svc) : Svc := set_udKeys (<[tokenId := default ∅ (udKeys_ s !! tokenId) ∪ {[udKey]}]> (udKeys_ s)) s.

(* @src service/udmf/lifecycle/lifecycle_policy.cpp 43-55 LifeCyclePolicy::OnStart *)
Definition Policy_OnStart (intention : string) : M Status :=
  h ← store intention;
  match h with
  | None => mret E_DB_ERROR
  | Some h => st ← with_store h RuntimeStore.Clear; mret (if bool_decide (st = E_OK) then E_OK else E_DB_ERROR)
  end.

Fixpoint for_policies (f : string -> M Status) (l : list Intention) (status : Status) : M Status :=
  match l with
  | [] => mret status
  | i :: l => st ← f (FindIntentionMap i); for_policies f l (if bool_decide (st = E_OK) then status else st)
  end.

(* @src service/udmf/lifecycle/lifecycle_manager.cpp 67-87 LifeCycleManager::OnStart *)
Definition OnStart : M Status :=
  status ← for_policies Policy_OnStart intentionPolicy_ E_OK;
  if bool_decide (status = E_OK) then _ ← modify (set_udKeys ∅); mret E_OK else mret status.

(** Older than an hour, or from the future. *)
(* @src service/udmf/lifecycle/drag_lifecycle_policy.cpp 72-73 DragLifeCyclePolicy::GetTimeoutRuntime *)
Definition timed_out (now : Z) (r : Runtime) : bool := (createTime r + LIFE_INTERVAL <? now) || (now <? createTime r).

(* @src service/udmf/lifecycle/lifecycle_policy.cpp 77-98 LifeCyclePolicy::GetTimeoutKeys *)
Definition GetTimeoutKeys (now : Z) (rs : list Runtime) : list string :=
  (fun r => GetKeyCommonPrefix (parse_key (ukey (r_key r)))) <$> filter (fun r => timed_out now r = true) rs.

(* @src service/udmf/lifecycle/lifecycle_policy.cpp 57-75 LifeCyclePolicy::OnTimeout *)
Definition Policy_OnTimeout (now : Z) (intention : string) : M Status :=
  h ← store intention;
  match h with
  | None => mret E_DB_ERROR
  | Some h =>
      '(st, rs) ← with_store h (RuntimeStore.GetBatchRuntime DATA_PREFIX);
      if bool_decide (st = E_OK)
      then st ← with_store h (RuntimeStore.DeleteBatch (GetTimeoutKeys now rs)); mret (if bool_decide (st = E_OK) then E_OK else E_DB_ERROR)
      else mret E_DB_ERROR
  end.

(** [timeoutRuntimes] maps a common prefix to the first runtime found for it. *)
(* @src service/udmf/lifecycle/drag_lifecycle_policy.cpp 57-78 DragLifeCyclePolicy::GetTimeoutRuntime *)
Definition GetTimeoutRuntime (now : Z) (rs : list Runtime) : gmap string Runtime :=
  fold_left (fun m r => if timed_out now r then match m !! GetKeyCommonPrefix (r_key r) with None => <[GetKeyCommonPrefix (r_key r) := r]> m | Some _ => m end else m) rs ∅.

(* @src service/udmf/lifecycle/drag_lifecycle_policy.cpp 27-55 DragLifeCyclePolicy::OnTimeout *)
Definition Drag_OnTimeout (now : Z) : M Status :=
  h ← store DRAG;
  match h with
  | None => mret E_DB_ERROR
  | Some h =>
      '(st, rs) ← with_store h (RuntimeStore.GetBatchRuntime DATA_PREFIX);
      if negb (bool_decide (st = E_OK)) then mret st
      else
        let out := GetTimeoutRuntime now rs in
        if bool_decide (map_to_list out = []) then mret E_OK
        else
          st ← with_store h (RuntimeStore.DeleteBatch (map_to_list out).*1);
          if bool_decide (st = E_OK)
          then _ ← modify (fun s => fold_left (fun s r => EraseUdkey (ukey (r_key r)) (tokenId r) s) (map_to_list out).*2 s); mret E_OK
          else mret E_DB_ERROR
  end.

(** The task that runs every hour. *)
(* @src service/udmf/lifecycle/lifecycle_manager.cpp 104-124 LifeCycleManager::GetTask *)
Definition timer_task (now : Z) : M Status :=
  for_policies (fun i => if bool_decide (i = DRAG) then Drag_OnTimeout now else Policy_OnTimeout now i) intentionPolicy_ E_OK.

Fixpoint got_all (tokenId : Z) (ks : list string) : M unit :=
  match ks with
  | [] => mret tt
  | k :: ks => if IsValid (parse_key k) then _ ← OnGot (parse_key k) tokenId true; got_all tokenId ks else got_all tokenId ks
  end.

(* @src service/udmf/lifecycle/lifecycle_manager.cpp 156-171 LifeCycleManager::OnAppUninstall *)
Definition OnAppUninstall (tokenId : Z) : M Status :=
  s ← get;
  match udKeys_ s !! tokenId with
  | None => mret E_OK
  | Some keys => _ ← got_all tokenId (elements keys); mret E_OK
  end.

(** *** Setting data *)

(** [rnd] are the random numbers of the key and of the records, [now] the time. The key is returned. *)
(* @src service/udmf/udmf_service_impl.cpp 163-206 UdmfServiceImpl::SaveData *)
Definition SaveData (option : CustomOption) (uid : Z) (rnd rnd' : list Z) (now : Z) (d : UnifiedData) (summ : Summary) : M (Status * Summary * string) :=
  if negb (data_IsValid d) then mret (E_INVALID_PARAMETERS, summ, "")
  else if bool_decide (UD_INTENTION_MAP (o_intention option) = None) then mret (E_INVALID_PARAMETERS, summ, "")
  else
    let appId := match Tokens.GetSpecificBundleNameByTokenId (o_tokenId option) with Some (_, b) => GetAppId uid (o_tokenId option) b | None => "" end in
    match PreProcessUtils.FillRuntimeInfo option rnd appId now d with
    | (E_OK, d) =>
        match runtime d with
        | None => mret (E_ERROR, summ, "")
        | Some r =>
            let intention := intention (r_key r) in
            let '(st, d) := if bool_decide (intention = DRAG) then PreProcessUtils.HandleFileUris (o_tokenId option) d else (E_OK, d) in
            if negb (bool_decide (st = E_OK)) then mret (st, summ, "")
            else
              let d := PreProcessUtils.SetRecordUid rnd' d in
              h ← store intention;
              match h with
              | None => mret (E_DB_ERROR, summ, "")
              | Some h =>
                  '(st, summ) ← with_store h (RuntimeStore.Put rewrite_moves d r summ);
                  if negb (bool_decide (st = E_OK)) then _ ← HandleDbError intention st; mret (E_DB_ERROR, summ, "")
                  else
                    let key := GetUnifiedKey (r_key r) in
                    _ ← (if bool_decide (intention = DRAG) then modify (InsertUdKey (o_tokenId option) key) else mret tt);
                    mret (E_OK, summ, key)
              end
        end
    | (_, _) => mret (E_ERROR, summ, "")
    end.

(* @src service/udmf/udmf_service_impl.cpp 122-161 UdmfServiceImpl::SetData *)
Definition SetData (option : CustomOption) (uid : Z) (rnd rnd' : list Z) (now : Z) (d : UnifiedData) (summ : Summary) : M (Status * Summary * string) :=
  if negb (IsDraggable (o_tokenId option)) then mret (E_NO_PERMISSION, summ, "")
  else match Tokens.GetHapBundleNameByToken (o_tokenId option) with
       | None => mret (E_ERROR, summ, "")
       | Some _ => SaveData option uid rnd rnd' now d summ
       end.

(** *** Getting data *)

(* @src service/udmf/permission/data_checker.cpp 35-44 DataChecker::IsValid *)
Definition DataChecker_IsValid (ps : list Privilege) (tokenId : Z) : bool := existsb (fun p => p_tokenId p =? tokenId) ps.

(* @src service/udmf/udmf_service_impl.cpp 336-349 UdmfServiceImpl::IsPermissionInCache *)
Definition IsPermissionInCache (q : QueryOption) (s : Svc) : bool :=
  match privilegeCache_ s !! q_key q with None => false | Some ps => existsb (fun p => p_tokenId p =? q_tokenId q) ps end.

Definition keeps (tokenId : Z) (p : Privilege) : bool := (p_tokenId p =? tokenId) && bool_decide (readPermission p = SERVICE_READ_AND_KEEP).

(* @src service/udmf/udmf_service_impl.cpp 351-370 UdmfServiceImpl::IsReadAndKeep *)
Definition IsReadAndKeep (ps : list Privilege) (q : QueryOption) (s : Svc) : bool :=
  existsb (keeps (q_tokenId q)) ps || match privilegeCache_ s !! q_key q with None => false | Some ps => existsb (keeps (q_tokenId q)) ps end.

(* @src service/udmf/udmf_service_impl.cpp 320-334 UdmfServiceImpl::VerifyDataAccessPermission *)
Definition VerifyDataAccessPermission (r : Runtime) (q : QueryOption) (s : Svc) : bool := DataChecker_IsValid (privileges r) (q_tokenId q) || IsPermissionInCache q s.

(* @src service/udmf/udmf_service_impl.cpp 404-416 UdmfServiceImpl::VerifySavedTokenId *)
Definition VerifySavedTokenId (r : Runtime) : bool := bool_decide (Tokens.GetHapBundleNameByToken (tokenId r) = Some (sourcePackage r)).

(** The reader gets the permissions for the files; [r] is the runtime of the data. *)
(* @src service/udmf/udmf_service_impl.cpp 372-402 UdmfServiceImpl::ProcessUri *)
Definition ProcessUri (q : QueryOption) (r : Runtime) (d : UnifiedData) : M (Status * UnifiedData) :=
  match Tokens.GetHapBundleNameByToken (q_tokenId q) with
  | None => mret (E_ERROR, d)
  | Some _ =>
      let isLocal := bool_decide (LocalDeviceId = deviceId r) in
      if isLocal && (q_tokenId q =? tokenId r) then mret (E_OK, d)
      else
        let '(st, d, gs) := UriPermissionManager.ProcessCrossDeviceData d in
        if negb (bool_decide (st = E_OK)) then mret (st, d)
        else if isLocal && negb (VerifySavedTokenId r) then mret (E_ERROR, d)
        else
          let '(st, cs) := UriPermissionManager.GrantUriPermission (UriPermissionManager.groups gs) (q_tokenId q) (tokenId r) isLocal in
          s ← get;
          _ ← modify (set_grants (grants s ++ cs));
          mret (if bool_decide (st = E_OK) then E_OK else E_NO_PERMISSION, d)
  end.

(* @src service/udmf/udmf_service_impl.cpp 1095-1126 UdmfServiceImpl::IsNeedTransferDeviceType *)
Definition IsNeedTransferDeviceType (q : QueryOption) : bool :=
  if negb LargeDevice then false
  else match ModuleDeviceTypes (q_tokenId q) with
       | None => false
       | Some ms => existsb (fun ts => negb (bool_decide ("phone" ∈ ts)) && negb (bool_decide ("default" ∈ ts)) && bool_decide ("2in1" ∈ ts)) ms
       end.

(* @src service/udmf/udmf_service_impl.cpp 1088-1093 UdmfServiceImpl::TransferToEntriesIfNeed *)
Definition TransferToEntriesIfNeed (q : QueryOption) (d : UnifiedData) : UnifiedData :=
  if IsNeedTransferToEntries d && IsNeedTransferDeviceType q then ConvertRecordsToEntries d else d.

(** The data are filled in before the permission is checked: they are returned with every status. *)
(* @src service/udmf/udmf_service_impl.cpp 268-318 UdmfServiceImpl::RetrieveData *)
Definition RetrieveData (q : QueryOption) (d : UnifiedData) : M (Status * UnifiedData) :=
  let key := parse_key (q_key q) in
  if negb (CheckDragParams key) then mret (E_INVALID_PARAMETERS, d)
  else
    h ← store DRAG;
    match h with
    | None => mret (E_DB_ERROR, d)
    | Some h =>
        '(res, d) ← with_store h (RuntimeStore.Get (q_key q) d);
        if negb (bool_decide (res = E_OK)) then res ← HandleDbError DRAG res; mret (res, d)
        else if negb (data_IsComplete d) then mret (E_NOT_FOUND, d)
        else match runtime d with
             | None => mret (E_DB_ERROR, d)
             | Some r =>
                 s ← get;
                 if negb (VerifyDataAccessPermission r q s) then mret (E_NO_PERMISSION, d)
                 else
                   st ← (if IsReadAndKeep (privileges r) q s then mret E_OK else OnGot key (tokenId r) false);
                   if negb (bool_decide (st = E_OK)) then mret (E_DB_ERROR, d)
                   else
                     '(ret, d) ← ProcessUri q r d;
                     if negb (bool_decide (ret = E_OK)) then mret (ret, d)
                     else
                       _ ← modify (fun s => set_privileges (delete (q_key q) (privilegeCache_ s)) s);
                       mret (E_OK, TransferToEntriesIfNeed q (PreProcessUtils.SetRemoteData r d))
             end
    end.

(** A call either ends or waits for the block whose number is returned. *)
(* @src service/udmf/udmf_service_impl.cpp 208-253 UdmfServiceImpl::GetData *)
Definition GetData_begin (q : QueryOption) : M ((Status * UnifiedData) + nat) :=
  match Tokens.GetHapBundleNameByToken (q_tokenId q) with
  | None => mret (inl (E_ERROR, no_data))
  | Some _ =>
      r ← on_delay (HandleDelayLoad_begin (q_key q) (q_tokenId q));
      match r with
      | inr id => mret (inr id)
      | inl NOT_DELAY_DATA => res ← RetrieveData q no_data; mret (inl res)
      | inl DelayData.NO_PERMISSION => mret (inl (E_NO_PERMISSION, no_data))
      | inl LOAD_ERROR => mret (inl (E_ERROR, no_data))
      | inl WAITING => mret (inl (E_NOT_FOUND, no_data))
      | inl DATA_READY => mret (inl (E_OK, no_data))
      end
  end.

(* @src service/udmf/udmf_service_impl.cpp 226-235 UdmfServiceImpl::GetData *)
Definition GetData_end (q : QueryOption) (id : nat) : M (Status * UnifiedData) :=
  '(st, v) ← on_delay (HandleDelayLoad_end (q_key q) id);
  let d := default no_data v in
  match st with
  | LOAD_ERROR => mret (E_ERROR, d)
  | DATA_READY => mret (if data_IsComplete d then E_OK else E_NOT_FOUND, d)
  | _ => mret (E_NOT_FOUND, d)
  end.

(* @src service/udmf/udmf_service_impl.cpp 1225-1231 UdmfServiceImpl::IsValidOptionsNonDrag *)
Definition IsValidOptionsNonDrag (key : UnifiedKey) (intention : string) : bool :=
  IsValidOptions key intention && (negb (bool_decide (ukey key = "")) || bool_decide (UD_INTENTION_MAP UD_INTENTION_DATA_HUB = Some intention)).

(** The data of a query and the store they are in. *)
(* @src service/udmf/udmf_service_impl.cpp 939-972 UdmfServiceImpl::QueryDataCommon *)
Definition QueryDataCommon (q : QueryOption) : M (Status * list UnifiedData * option Handle) :=
  let key := parse_key (q_key q) in
  if negb (IsValid key) && negb (bool_decide (ukey key = "")) then mret (E_INVALID_PARAMETERS, [], None)
  else
    let intention := FindIntentionMap (q_intention q) in
    if negb (IsValidOptionsNonDrag key intention) then mret (E_INVALID_PARAMETERS, [], None)
    else
      let '(dataPrefix, intention) :=
        if bool_decide (ukey key = "") then (DATA_PREFIX +:+ intention, intention) else (GetKeyCommonPrefix (parse_key (ukey key)), UdmfData.intention key) in
      h ← store intention;
      match h with
      | None => mret (E_DB_ERROR, [], None)
      | Some h =>
          '(st, ds) ← with_store h (RuntimeStore.GetBatchData dataPrefix);
          if bool_decide (st = E_OK) then mret (E_OK, ds, Some h) else _ ← HandleDbError intention st; mret (E_DB_ERROR, ds, Some h)
      end.

(* @src service/udmf/udmf_service_impl.cpp 1187-1206 UdmfServiceImpl::VerifyIntentionPermission *)
Definition VerifyIntentionPermission (q : QueryOption) (d : UnifiedData) (key : UnifiedKey) : M Status :=
  match runtime d with
  | None => mret E_DB_ERROR
  | Some r =>
      if negb (DataChecker_IsValid (privileges r) (q_tokenId q)) then mret E_NO_PERMISSION
      else
        s ← get;
        if IsReadAndKeep (privileges r) q s then mret E_OK
        else st ← OnGot key (tokenId r) false; mret (if bool_decide (st = E_OK) then E_OK else E_DB_ERROR)
  end.

Fixpoint verify_all (q : QueryOption) (key : UnifiedKey) (ds : list UnifiedData) : M Status :=
  match ds with
  | [] => mret E_OK
  | d :: ds => st ← VerifyIntentionPermission q d key; if bool_decide (st = E_OK) then verify_all q key ds else mret st
  end.

(** Data of the hub are public. *)
(* @src service/udmf/udmf_service_impl.cpp 1163-1185 UdmfServiceImpl::ProcessData *)
Definition ProcessData (q : QueryOption) (ds : list UnifiedData) : M Status :=
  let key := parse_key (q_key q) in
  if negb (bool_decide (ukey key = "")) && negb (IsValid key) then mret E_INVALID_PARAMETERS
  else if bool_decide (UD_INTENTION_MAP UD_INTENTION_DATA_HUB = Some (FindIntentionMap (q_intention q))) || bool_decide (UD_INTENTION_MAP UD_INTENTION_DATA_HUB = Some (intention key))
  then mret E_OK
  else verify_all q key ds.

(* @src service/udmf/udmf_service_impl.cpp 1154-1161 UdmfServiceImpl::IsFileMangerSa *)
Definition IsFileMangerSa (uid : Z) : bool := uid =? FOUNDATION_UID.

Definition hidden (q : QueryOption) (d : UnifiedData) : bool :=
  bool_decide (q_intention q = UD_INTENTION_DATA_HUB) && match runtime d with Some r => own_process r && negb (q_tokenId q =? tokenId r) | None => false end.

(* @src service/udmf/udmf_service_impl.cpp 442-470 UdmfServiceImpl::GetBatchData *)
Definition GetBatchData (q : QueryOption) (uid : Z) : M (Status * list UnifiedData) :=
  '(st, ds, _) ← QueryDataCommon q;
  if negb (bool_decide (st = E_OK)) then mret (st, [])
  else
    let out := filter (fun d => hidden q d = false) ds in
    if bool_decide (length ds = O) then mret (E_OK, [])
    else if IsFileMangerSa uid then mret (E_OK, out)
    else st ← ProcessData q out; mret (if bool_decide (st = E_OK) then (E_OK, out) else (E_NO_PERMISSION, out)).

(** *** Changing and deleting data *)

(* @src service/udmf/udmf_service_impl.cpp 1061-1066 UdmfServiceImpl::HasDatahubPriviledge *)
Definition HasDatahubPriviledge (bundleName : string) (caller : Caller) : bool := bool_decide (bundleName ∈ HAP_LIST) && IsSystemApp (c_fullToken caller).

(* @src service/udmf/udmf_service_impl.cpp 537-551 UdmfServiceImpl::CheckAppId *)
Definition CheckAppId (r : Runtime) (bundleName : string) (caller : Caller) : bool :=
  negb (bool_decide (appId r = "")) &&
  (let id := GetAppId (c_uid caller) (tokenId r) bundleName in negb (bool_decide (id = "")) && bool_decide (id = appId r)).

(* @src service/udmf/udmf_service_impl.cpp 518-535 UdmfServiceImpl::VerifyUpdatePermission *)
Definition VerifyUpdatePermission (q : QueryOption) (d : UnifiedData) (bundleName : string) (caller : Caller) : Status + Runtime :=
  if data_IsEmpty d then inl E_INVALID_PARAMETERS
  else match runtime d with
       | None => inl E_DB_ERROR
       | Some r =>
           if negb (tokenId r =? q_tokenId q) && negb (HasDatahubPriviledge bundleName caller) && negb (CheckAppId r bundleName caller) then inl E_INVALID_PARAMETERS
           else inr r
       end.

(* @src service/udmf/udmf_service_impl.cpp 1445-1458 UdmfServiceImpl::IsValidInput *)
Definition IsValidInput (q : QueryOption) (d : UnifiedData) (key : UnifiedKey) : bool :=
  data_IsValid d && IsValid key && IsValidOptionsNonDrag key (FindIntentionMap (q_intention q)) && bool_decide (UD_INTENTION_MAP UD_INTENTION_DATA_HUB = Some (intention key)).

Definition touch (now : Z) (r : Runtime) : Runtime :=
  mkRuntime (r_key r) (privileges r) (createTime r) now (sourcePackage r) (createPackage r) (deviceId r) (recordTotalNum r) (tokenId r) (sdkVersion r) (own_process r) (appId r)
    (waiting r) (permissionPolicyMode r).

(* @src service/udmf/udmf_service_impl.cpp 472-516 UdmfServiceImpl::UpdateData *)
Definition UpdateData (q : QueryOption) (caller : Caller) (rnd : list Z) (now : Z) (d : UnifiedData) : M Status :=
  let key := parse_key (q_key q) in
  if negb (IsValidInput q d key) then mret E_INVALID_PARAMETERS
  else match Tokens.GetSpecificBundleNameByTokenId (q_tokenId q) with
       | None => mret E_ERROR
       | Some (specificBundleName, bundleName) =>
           if negb (bool_decide (UdmfData.bundleName key = specificBundleName)) && negb (HasDatahubPriviledge bundleName caller) then mret E_INVALID_PARAMETERS
           else
             h ← store (intention key);
             match h with
             | None => mret E_DB_ERROR
             | Some h =>
                 '(res, stored) ← with_store h (RuntimeStore.Get (q_key q) no_data);
                 if negb (bool_decide (res = E_OK)) then HandleDbError (intention key) res
                 else match VerifyUpdatePermission q stored bundleName caller with
                      | inl st => mret st
                      | inr r =>
                          let r := touch now r in
                          let d := PreProcessUtils.SetRecordUid rnd (mkData (records d) (Some r) (properties d)) in
                          '(res, _) ← with_store h (RuntimeStore.Update rewrite_moves d r RuntimeStore.no_summary);
                          if bool_decide (res = E_OK) then mret E_OK else _ ← HandleDbError (intention key) res; mret E_DB_ERROR
                      end
             end
       end.

(* @src service/udmf/udmf_service_impl.cpp 602-623 UdmfServiceImpl::CheckDeleteDataPermission *)
Definition CheckDeleteDataPermission (r : option Runtime) (q : QueryOption) (caller : Caller) : bool :=
  match r with
  | None => false
  | Some r =>
      if tokenId r =? q_tokenId q then true
      else match Tokens.GetSpecificBundleNameByTokenId (q_tokenId q) with None => false | Some (_, bundleName) => CheckAppId r bundleName caller end
  end.

Definition delete_key (d : UnifiedData) : list string := match runtime d with Some r => [GetKeyCommonPrefix (parse_key (ukey (r_key r)))] | None => [] end.

(* @src service/udmf/udmf_service_impl.cpp 553-600 UdmfServiceImpl::DeleteData *)
Definition DeleteData (q : QueryOption) (caller : Caller) : M (Status * list UnifiedData) :=
  let key := parse_key (q_key q) in
  if negb (IsValid key) && negb (bool_decide (ukey key = "")) then mret (E_INVALID_PARAMETERS, [])
  else if negb (IsValidOptionsNonDrag key (FindIntentionMap (q_intention q))) then mret (E_INVALID_PARAMETERS, [])
  else
    '(st, ds, h) ← QueryDataCommon q;
    if negb (bool_decide (st = E_OK)) then mret (st, [])
    else
      let out := filter (fun d => CheckDeleteDataPermission (runtime d) q caller = true) ds in
      let deleteKeys := out ≫= delete_key in
      if bool_decide (deleteKeys = []) then mret (E_OK, out)
      else match h with
           | None => mret (E_OK, out)
           | Some h =>
               st ← with_store h (RuntimeStore.DeleteBatch deleteKeys);
               if bool_decide (st = E_OK) then mret (E_OK, out) else _ ← HandleDbError (intention key) st; mret (E_DB_ERROR, out)
           end.

(* @src service/udmf/udmf_service_impl.cpp 625-646 UdmfServiceImpl::GetSummary *)
Definition GetSummary (q : QueryOption) : M (Status * Summary) :=
  let key := parse_key (q_key q) in
  if negb (IsValid key) then mret (E_INVALID_PARAMETERS, RuntimeStore.no_summary)
  else
    h ← store (intention key);
    match h with
    | None => mret (E_DB_ERROR, RuntimeStore.no_summary)
    | Some h =>
        '(st, summ) ← with_store h (RuntimeStore.GetSummary key RuntimeStore.no_summary);
        if bool_decide (st = E_OK) then mret (E_OK, summ) else _ ← HandleDbError (intention key) st; mret (E_DB_ERROR, summ)
    end.

(** *** Privileges *)

(* @src service/udmf/udmf_service_impl.cpp 1208-1217 UdmfServiceImpl::IsFileMangerIntention *)
Definition IsFileMangerIntention (intention : string) : bool :=
  bool_decide (Exists (fun i => UD_INTENTION_MAP i = Some intention) [UD_INTENTION_SYSTEM_SHARE; UD_INTENTION_MENU; UD_INTENTION_PICKER]).

(* @src service/udmf/udmf_service_impl.cpp 1128-1152 UdmfServiceImpl::CheckAddPrivilegePermission *)
Definition CheckAddPrivilegePermission (key : UnifiedKey) (processName : string) (q : QueryOption) (uid : Z) : bool :=
  if IsFileMangerIntention (intention key) then
    IsFileMangerSa uid || (let i := FindIntentionMap (q_intention q) in bool_decide (i = "") || bool_decide (intention key = i))
  else bool_decide (intention key = DRAG) && bool_decide (processName ∈ DRAG_AUTHORIZED_PROCESSES).

Definition add_privilege (p : Privilege) (r : Runtime) : Runtime :=
  mkRuntime (r_key r) (privileges r ++ [p]) (createTime r) (lastModifiedTime r) (sourcePackage r) (createPackage r) (deviceId r) (recordTotalNum r) (tokenId r) (sdkVersion r)
    (own_process r) (appId r) (waiting r) (permissionPolicyMode r).

(** A privilege for data that are not there yet is kept for later. *)
(* @src service/udmf/udmf_service_impl.cpp 648-700 UdmfServiceImpl::AddPrivilege *)
Definition AddPrivilege (q : QueryOption) (caller : Caller) (p : Privilege) : M Status :=
  let key := parse_key (q_key q) in
  if negb (IsValid key) then mret E_INVALID_PARAMETERS
  else match Tokens.GetNativeProcessNameByToken (q_tokenId q) with
       | None => mret E_ERROR
       | Some processName =>
           if negb (CheckAddPrivilegePermission key processName q (c_uid caller)) then mret E_NO_PERMISSION
           else if negb (IsNativeCaller caller) then mret E_NO_PERMISSION
           else
             h ← store (intention key);
             match h with
             | None => mret E_DB_ERROR
             | Some h =>
                 '(res, r) ← with_store h (RuntimeStore.GetRuntime (q_key q));
                 if bool_decide (res = E_NOT_FOUND) || match r with Some r => waiting r | None => false end
                 then _ ← modify (fun s => set_privileges (<[q_key q := default [] (privilegeCache_ s !! q_key q) ++ [p]]> (privilegeCache_ s)) s); mret E_OK
                 else match r with
                      | Some r =>
                          res ← with_store h (RuntimeStore.PutRuntime rewrite_moves (q_key q) (add_privilege p r));
                          if bool_decide (res = E_OK) then mret E_OK else HandleDbError (intention key) res
                      | None => HandleDbError (intention key) res
                      end
             end
       end.

(* @src service/udmf/udmf_service_impl.cpp 809-836 UdmfServiceImpl::IsRemoteData *)
Definition IsRemoteData (q : QueryOption) : M (Status * bool) :=
  let key := parse_key (q_key q) in
  if negb (IsValid key) then mret (E_INVALID_PARAMETERS, false)
  else
    h ← store (intention key);
    match h with
    | None => mret (E_DB_ERROR, false)
    | Some h =>
        '(res, r) ← with_store h (RuntimeStore.GetRuntime (q_key q));
        match r with
        | Some r => if bool_decide (res = E_OK) then mret (E_OK, negb (bool_decide (LocalDeviceId = deviceId r))) else _ ← HandleDbError (intention key) res; mret (E_DB_ERROR, false)
        | None => _ ← HandleDbError (intention key) res; mret (E_DB_ERROR, false)
        end
    end.

(** *** Share options *)

Definition may_set_option (caller : Caller) : bool := IsSystemApp (c_fullToken caller) || VerifyPermission MANAGE_UDMF_APP_SHARE_OPTION (c_tokenId caller).

(* @src service/udmf/udmf_service_impl.cpp 838-871 UdmfServiceImpl::SetAppShareOption *)
Definition SetAppShareOption (intention : string) (shareOption : Z) (caller : Caller) : M Status :=
  if bool_decide (intention = "") || (SHARE_OPTIONS_BUTT <=? shareOption) || (shareOption <? IN_APP) then mret E_INVALID_PARAMETERS
  else if negb (may_set_option caller) then mret E_NO_PERMISSION
  else
    h ← store intention;
    match h with
    | None => mret E_DB_ERROR
    | Some h =>
        '(st, _) ← with_store h (RuntimeStore.GetLocal (to_string (c_fullToken caller)));
        if bool_decide (st = E_OK) then mret E_SETTINGS_EXISTED
        else
          st ← with_store h (RuntimeStore.PutLocal (to_string (c_fullToken caller)) (ShareText shareOption));
          if bool_decide (st = E_OK) then mret E_OK else _ ← HandleDbError intention st; mret E_DB_ERROR
    end.

(* @src service/udmf/udmf_service_impl.cpp 873-895 UdmfServiceImpl::GetAppShareOption *)
Definition GetAppShareOption (intention : string) (caller : Caller) : M (Status * Z) :=
  if bool_decide (intention = "") then mret (E_INVALID_PARAMETERS, 0)
  else
    h ← store intention;
    match h with
    | None => mret (E_DB_ERROR, 0)
    | Some h =>
        '(st, text) ← with_store h (RuntimeStore.GetLocal (to_string (c_fullToken caller)));
        if bool_decide (st = E_OK) then mret (E_OK, ShareNumber text) else st ← HandleDbError intention st; mret (st, 0)
    end.

(* @src service/udmf/udmf_service_impl.cpp 897-923 UdmfServiceImpl::RemoveAppShareOption *)
Definition RemoveAppShareOption (intention : string) (caller : Caller) : M Status :=
  if bool_decide (intention = "") then mret E_INVALID_PARAMETERS
  else if negb (may_set_option caller) then mret E_NO_PERMISSION
  else
    h ← store intention;
    match h with
    | None => mret E_DB_ERROR
    | Some h =>
        st ← with_store h (RuntimeStore.DeleteLocal (to_string (c_fullToken caller)));
        if bool_decide (st = E_OK) then mret E_OK else _ ← HandleDbError intention st; mret E_DB_ERROR
    end.

(** *** Progress of synchronisations *)

(* @src service/udmf/udmf_service_impl.cpp 1068-1075 UdmfServiceImpl::RegisterAsyncProcessInfo *)
Definition RegisterAsyncProcessInfo (key : string) (token : Z) (s : Svc) : Svc := set_async (<[key := mkAsync ASYNC_INITIAL "" 0 0 0 token]> (asyncProcessInfoMap_ s)) s.

(* @src service/udmf/udmf_service_impl.cpp 982-997 UdmfServiceImpl::ObtainAsynProcess *)
Definition ObtainAsynProcess (key : string) (s : Svc) : Status * option (Z * string) :=
  if bool_decide (key = "") then (E_INVALID_PARAMETERS, None)
  else match asyncProcessInfoMap_ s !! key with None => (E_OK, Some (ASYNC_SUCCESS, "Local")) | Some i => (E_OK, Some (syncStatus i, srcDevName i)) end.

(* @src service/udmf/udmf_service_impl.cpp 999-1008 UdmfServiceImpl::ClearAsynProcessByKey *)
Definition ClearAsynProcessByKey (key : string) (s : Svc) : Svc := set_async (delete key (asyncProcessInfoMap_ s)) s.

(** [stopped] tells a code of a user who is leaving from the others. *)
(* @src service/udmf/udmf_service_impl.cpp 1077-1086 UdmfServiceImpl::OnUserChange *)
Definition OnUserChange (stopped : bool) : M unit := if stopped then on_cache (fun c => (tt, CloseStores c)) else mret tt.

(* @src service/udmf/udmf_service_impl.cpp 925-937 UdmfServiceImpl::OnInitialize *)
Definition OnInitialize : M unit := _ ← OnStart; mret tt.

(** *** Data provided on demand *)

(* @src service/udmf/udmf_service_impl.cpp 1499-1513 UdmfServiceImpl::RegisterRemotePullObserver *)
Definition RegisterRemotePullObserver : M Status :=
  h ← store DRAG; match h with None => mret E_ERROR | Some h => with_store h RuntimeStore.SetRemotePullStartNotify end.

(* @src service/udmf/udmf_service_impl.cpp 1233-1271 UdmfServiceImpl::SetDelayInfo *)
Definition SetDelayInfo (caller : Caller) (info : DataLoadInfo) (notifier : option Z) (now : Z) : M (Status * string) :=
  if negb (IsDraggable (c_tokenId caller)) then mret (E_NO_PERMISSION, "")
  else
    let appId := match Tokens.GetSpecificBundleNameByTokenId (c_tokenId caller) with Some (_, b) => GetAppId (c_uid caller) (c_tokenId caller) b | None => "" end in
    match PreProcessUtils.FillDelayRuntimeInfo (mkOption UD_INTENTION_DRAG (c_tokenId caller) false) info appId now no_data with
    | (E_OK, d) =>
        match runtime d with
        | None => mret (E_ERROR, "")
        | Some r =>
            let key := GetUnifiedKey (r_key r) in
            _ ← delay_do (RegisterDataLoadCallback key notifier);
            h ← store DRAG;
            match h with
            | None => mret (E_DB_ERROR, key)
            | Some h =>
                st ← with_store h (RuntimeStore.PutDelayData rewrite_moves d info);
                if bool_decide (st = E_OK) then _ ← RegisterRemotePullObserver; mret (E_OK, key) else _ ← HandleDbError DRAG st; mret (E_DB_ERROR, key)
            end
        end
    | (_, _) => mret (E_ERROR, "")
    end.

Definition with_key (key : UnifiedKey) (r : Runtime) : Runtime :=
  mkRuntime key (privileges r) (createTime r) (lastModifiedTime r) (sourcePackage r) (createPackage r) (deviceId r) (recordTotalNum r) (tokenId r) (sdkVersion r) (own_process r)
    (appId r) (waiting r) (permissionPolicyMode r).

(** The data with the caller as their owner. *)
(* @src service/udmf/udmf_service_impl.cpp 1322-1345 UdmfServiceImpl::FillDelayUnifiedData *)
Definition FillDelayUnifiedData (caller : Caller) (key : UnifiedKey) (rnd rnd' : list Z) (now : Z) (d : UnifiedData) : Status * UnifiedData :=
  let appId := match Tokens.GetSpecificBundleNameByTokenId (c_tokenId caller) with Some (_, b) => GetAppId (c_uid caller) (c_tokenId caller) b | None => "" end in
  match PreProcessUtils.FillRuntimeInfo (mkOption UD_INTENTION_DRAG (c_tokenId caller) false) rnd appId now d with
  | (E_OK, d) =>
      match runtime d with
      | None => (E_ERROR, d)
      | Some r =>
          let d := PreProcessUtils.SetRecordUid rnd' (mkData (records d) (Some (with_key key r)) (properties d)) in
          PreProcessUtils.HandleFileUris (c_tokenId caller) d
      end
  | (_, d) => (E_ERROR, d)
  end.

(* @src service/udmf/udmf_service_impl.cpp 1395-1406 UdmfServiceImpl::GetDevicesForDelayData *)
Definition GetDevicesForDelayData : M (list string) :=
  s ← get;
  devices ← on_delay (QueryDeviceInfo (clock (cache s)));
  mret (filter (fun d => d ∈ devices) RemoteDevices).

(** [user] is the user in the foreground. *)
(* @src service/udmf/udmf_service_impl.cpp 781-807 UdmfServiceImpl::IsNeedMetaSync *)
Definition IsNeedMetaSync (storeId : string) (user : Z) (uuids : list string) : bool :=
  existsb (fun uuid => negb (HasCapMeta uuid) || negb (HasStoreMeta storeId user uuid) || (Z.land (RemoteMask uuid) META_STORE_MASK =? META_STORE_MASK)
                       || (Z.land (LocalMask uuid) META_STORE_MASK =? META_STORE_MASK)) uuids.

(** Synchronising, after the metadata when these have changed; [op] is what the store does, [push] tells which of the two it is. *)
Definition sync_store (intention : string) (push : bool) (devices : list string) (h : Handle) : M Status :=
  s ← get;
  match foreground (cache s) with
  | None => mret E_ERROR
  | Some user =>
      let uuids := ToUUID <$> devices in
      if IsNeedMetaSync intention user uuids
      then match MetaSync uuids with
           | None => mret E_DB_ERROR
           | Some results => _ ← modify (set_tasks (tasks s ++ [TMeta push h results])); mret E_OK
           end
      else st ← with_store h (if push then RuntimeStore.PushSync devices else RuntimeStore.Sync devices); mret (if bool_decide (st = E_OK) then E_OK else E_DB_ERROR)
  end.

(* @src service/udmf/udmf_service_impl.cpp 722-779 UdmfServiceImpl::StoreSync *)
Definition StoreSync (key : UnifiedKey) (devices : list string) : M Status :=
  h ← store (intention key); match h with None => mret E_DB_ERROR | Some h => sync_store (intention key) false devices h end.

(* @src service/udmf/udmf_service_impl.cpp 702-720 UdmfServiceImpl::Sync *)
Definition Sync (q : QueryOption) (devices : list string) : M Status :=
  if negb (IsTokenNative (q_tokenId q)) || negb (CheckSyncPermission (q_tokenId q)) then mret E_NO_PERMISSION
  else if negb (IsValid (parse_key (q_key q))) then mret E_INVALID_PARAMETERS
  else _ ← modify (RegisterAsyncProcessInfo (q_key q) (q_tokenId q)); StoreSync (parse_key (q_key q)) devices.

(** The progress of the devices: [None] when a device has no name. *)
(* @src service/udmf/store/runtime_store.cpp 401-425 RuntimeStore::NotifySyncProcss *)
Fixpoint NotifySyncProcss (names : gmap string string) (ps : list (string * DeviceSyncProcess)) (info : AsyncProcessInfo) : option AsyncProcessInfo :=
  match ps with
  | [] => Some info
  | (d, p) :: ps =>
      match names !! d with
      | None => None
      | Some n =>
          let st := if negb (process_finished p) then ASYNC_RUNNING else if bool_decide (errCode p = OK) then ASYNC_SUCCESS else ASYNC_FAILURE in
          NotifySyncProcss names ps (mkAsync st n (pr_syncId p) (finishedCount p) (pr_total p) (a_tokenId info))
      end
  end.

(** The names under which [RuntimeStore::Sync] remembers the devices; the first entry of a name counts. *)
Definition device_names (devices : list string) : gmap string string := list_to_map ((fun d => (ToUUID d, DeviceName d)) <$> devices).

(** A synchronisation that [Sync] has started tells how far it is. *)
Definition on_progress (q : QueryOption) (devices : list string) (ps : list (string * DeviceSyncProcess)) : M unit :=
  match NotifySyncProcss (device_names devices) ps (mkAsync ASYNC_INITIAL "" 0 0 0 0) with
  | None => mret tt
  | Some i => if bool_decide (q_key q = "") then mret tt
              else modify (fun s => set_async (<[q_key q := mkAsync (syncStatus i) (srcDevName i) (syncId i) (syncFinished i) (syncTotal i) (q_tokenId q)]> (asyncProcessInfoMap_ s)) s)
  end.

(* @src service/udmf/udmf_service_impl.cpp 1515-1567 UdmfServiceImpl::PushDelayDataToRemote *)
Definition PushDelayDataToRemote (key : string) (devices : list string) : M Status :=
  if bool_decide (devices = []) then mret E_OK
  else if negb (CheckDragParams (parse_key key)) then mret E_INVALID_PARAMETERS
  else h ← store DRAG; match h with None => mret E_DB_ERROR | Some h => sync_store DRAG true devices h end.

(* @src service/udmf/udmf_service_impl.cpp 1347-1393 UdmfServiceImpl::UpdateDelayData *)
Definition UpdateDelayData (caller : Caller) (key : string) (r : Runtime) (d : UnifiedData) (summ : Summary) : M Status :=
  let udKey := parse_key key in
  if negb (CheckDragParams udKey) then mret E_INVALID_PARAMETERS
  else
    h ← store (intention udKey);
    match h with
    | None => mret E_DB_ERROR
    | Some h =>
        '(res, stored) ← with_store h (RuntimeStore.Get key no_data);
        if negb (bool_decide (res = E_OK)) then res ← HandleDbError (intention udKey) res; mret (if bool_decide (res = E_DB_ERROR) then E_DB_ERROR else E_ERROR)
        else match runtime stored with
             | None => mret E_DB_ERROR
             | Some r0 =>
                 if negb (tokenId r0 =? c_tokenId caller) then mret E_NO_PERMISSION
                 else
                   '(res, _) ← with_store h (RuntimeStore.Update rewrite_moves d r summ);
                   if negb (bool_decide (res = E_OK)) then _ ← HandleDbError (intention udKey) res; mret E_DB_ERROR
                   else
                     devices ← GetDevicesForDelayData;
                     if bool_decide (devices = []) then mret E_ERROR else _ ← PushDelayDataToRemote key devices; mret E_OK
             end
    end.

(* @src service/udmf/udmf_service_impl.cpp 1273-1320 UdmfServiceImpl::PushDelayData *)
Definition PushDelayData (caller : Caller) (key : string) (rnd rnd' : list Z) (now : Z) (d : UnifiedData) (summ : Summary) : M Status :=
  if negb (IsDraggable (c_tokenId caller)) then mret E_NO_PERMISSION
  else
    let udKey := parse_key key in
    if negb (CheckDragParams udKey) then mret E_INVALID_PARAMETERS
    else
      s ← get;
      let loading := QueryDelayGetDataInfo key (delay s) in
      let block := QueryBlockDelayData key (delay s) in
      match FillDelayUnifiedData caller udKey rnd rnd' now d with
      | (E_OK, d) =>
          match runtime d, loading, block with
          | None, _, _ => mret E_ERROR
          | Some r, None, None => UpdateDelayData caller key r d summ
          | Some r, _, _ =>
              let token := match loading, block with Some t, _ => t | None, Some (t, _) => t | None, None => 0 end in
              let q := mkQuery key UD_INTENTION_BASE token in
              if negb (c_tokenId caller =? token) && negb (IsPermissionInCache q s) then mret E_NO_PERMISSION
              else
                '(ret, d) ← ProcessUri q r d;
                if negb (bool_decide (ret = E_OK)) then mret E_NO_PERMISSION
                else
                  _ ← modify (fun s => set_privileges (delete key (privilegeCache_ s)) s);
                  let d := TransferToEntriesIfNeed q (PreProcessUtils.SetRemoteData r d) in
                  match loading, block with
                  | Some _, _ => ok ← on_delay (HandleDelayDataCallback key d); mret (if (ok : bool) then E_OK else E_ERROR)
                  | None, Some (_, id) => _ ← delay_do (SetValue id d); mret E_OK
                  | None, None => mret E_OK
                  end
          end
      | (st, _) => mret st
      end.

(** Data that are not there are asked for; the data found so far are returned with every status. *)
(* @src service/udmf/udmf_service_impl.cpp 1408-1443 UdmfServiceImpl::GetDataIfAvailable *)
Definition GetDataIfAvailable (caller : Caller) (key : string) (notifier : option Z) : M (Status * UnifiedData) :=
  let q := mkQuery key UD_INTENTION_BASE (c_tokenId caller) in
  '(st, d) ← RetrieveData q no_data;
  if bool_decide (st = E_OK) then mret (E_OK, d)
  else if negb (bool_decide (st = E_NOT_FOUND)) then mret (st, d)
  else
    _ ← delay_do (RegisterDelayDataCallback key (c_tokenId caller) notifier);
    ok ← on_delay (ExecDataLoadCallback key);
    mret (if (ok : bool) then E_OK else match runtime d with Some r => if bool_decide (deviceId r = LocalDeviceId) then E_ERROR else E_OK | None => E_ERROR end, d).

(* @src service/udmf/udmf_service_impl.cpp 1581-1611 UdmfServiceImpl::HandleRemoteDelayData *)
Definition HandleRemoteDelayData (key : string) : M Status :=
  s ← get;
  let loading := QueryDelayGetDataInfo key (delay s) in
  let block := QueryBlockDelayData key (delay s) in
  match loading, block with
  | None, None => mret E_ERROR
  | _, _ =>
      let token := match loading, block with Some t, _ => t | None, Some (t, _) => t | None, None => 0 end in
      '(st, d) ← RetrieveData (mkQuery key UD_INTENTION_BASE token) no_data;
      if negb (bool_decide (st = E_OK)) then mret st
      else match loading, block with
           | Some _, _ => ok ← on_delay (HandleDelayDataCallback key d); mret (if (ok : bool) then E_OK else E_ERROR)
           | None, Some (_, id) => _ ← delay_do (SetValue id d); mret E_OK
           | None, None => mret E_OK
           end
  end.

(** *** Changes that come from other devices *)

(* @src service/udmf/store/drag_observer.cpp 69-94 DragObserver::ProcessRuntimeInfo *)
Fixpoint ProcessRuntimeInfo (rs : list Runtime) : M unit :=
  match rs with
  | [] => mret tt
  | r :: rs =>
      if waiting r then ProcessRuntimeInfo rs
      else
        _ ← modify (InsertUdKey (tokenId r) (ukey (r_key r)));
        s ← get;
        _ ← (if IsContainDelayData (ukey (r_key r)) (delay s) then _ ← HandleRemoteDelayData (ukey (r_key r)); mret tt else mret tt);
        ProcessRuntimeInfo rs
  end.

(* @src service/udmf/store/drag_observer.cpp 96-114 DragObserver::ProcessDelete *)
Fixpoint ProcessDelete (rs : list Runtime) : M unit :=
  match rs with [] => mret tt | r :: rs => _ ← OnGot (r_key r) (tokenId r) false; ProcessDelete rs end.

(** [CollectIfRuntimeKey] and [UnmarshalRuntimes] of the entries that have changed. *)
(* @src service/udmf/store/drag_observer.cpp 59-67 DragObserver::CollectIfRuntimeKey *)
Definition runtimes_of (es : list Entry) : list Runtime :=
  let es := filter (fun e => RuntimeStore.is_runtime_key e.1 = true) es in default [] (DataHandler.UnmarshalRuntimes es.*1 es).

(* @src service/udmf/store/drag_observer.cpp 31-42 DragObserver::OnChange *)
Definition OnChange (changed deleted : list Entry) : M unit :=
  _ ← ProcessRuntimeInfo (runtimes_of changed);
  ProcessDelete (runtimes_of deleted).

(** Another device starts to pull ([SetRemotePullStartNotify]). *)
Definition OnPullStarted (device : string) : M unit :=
  s ← get; delay_do (fun d => ExecAllDataLoadCallback (SaveSyncedDeviceInfo device (clock (cache s)) d)).

(** *** The calls of applications

    A call names the data and the intention; whose call it is is told by the system. What is sent back are the results, whatever the status. *)
Definition with_token (q : QueryOption) (caller : Caller) : QueryOption := mkQuery (q_key q) (q_intention q) (c_tokenId caller).

(** The query with the intention of its key. *)
(* @src service/udmf/udmf_service_stub.cpp 32-60 UdmfServiceStub::NormalizeQueryOption *)
Definition NormalizeQueryOption (q : QueryOption) : Status + QueryOption :=
  if bool_decide (q_key q = "") then if bool_decide (q_intention q = UD_INTENTION_BASE) then inl E_INVALID_PARAMETERS else inr q
  else
    let key := parse_key (q_key q) in
    if negb (IsValid key) then inl E_INVALID_PARAMETERS
    else
      let keyIntention := GetIntentionByString (intention key) in
      if bool_decide (keyIntention = UD_INTENTION_BUTT) then inl E_INVALID_PARAMETERS
      else if bool_decide (q_intention q = UD_INTENTION_BASE) then inr (mkQuery (q_key q) keyIntention (q_tokenId q))
      else if bool_decide (q_intention q = keyIntention) then inr q else inl E_INVALID_PARAMETERS.

(* @src service/udmf/udmf_service_stub.cpp 82-101 UdmfServiceStub::OnSetData *)
Definition OnSetData (option : CustomOption) (caller : Caller) (rnd rnd' : list Z) (now : Z) (d : UnifiedData) (summ : Summary) : M (Status * string) :=
  '(st, _, key) ← SetData (mkOption (o_intention option) (c_tokenId caller) (o_own_process option)) (c_uid caller) rnd rnd' now d summ; mret (st, key).

(* @src service/udmf/udmf_service_stub.cpp 103-120 UdmfServiceStub::OnGetData *)
Definition OnGetData (q : QueryOption) (caller : Caller) : M ((Status * UnifiedData) + nat) := GetData_begin (with_token q caller).

(* @src service/udmf/udmf_service_stub.cpp 122-142 UdmfServiceStub::OnGetBatchData *)
Definition OnGetBatchData (q : QueryOption) (caller : Caller) : M (Status * list UnifiedData) :=
  match NormalizeQueryOption (with_token q caller) with inl st => mret (st, []) | inr q => GetBatchData q (c_uid caller) end.

(* @src service/udmf/udmf_service_stub.cpp 144-164 UdmfServiceStub::OnUpdateData *)
Definition OnUpdateData (q : QueryOption) (caller : Caller) (rnd : list Z) (now : Z) (d : UnifiedData) : M Status :=
  match NormalizeQueryOption (with_token q caller) with inl st => mret st | inr q => UpdateData q caller rnd now d end.

(* @src service/udmf/udmf_service_stub.cpp 166-186 UdmfServiceStub::OnDeleteData *)
Definition OnDeleteData (q : QueryOption) (caller : Caller) : M (Status * list UnifiedData) :=
  match NormalizeQueryOption (with_token q caller) with inl st => mret (st, []) | inr q => DeleteData q caller end.

(* @src service/udmf/udmf_service_stub.cpp 188-205 UdmfServiceStub::OnGetSummary *)
Definition OnGetSummary (q : QueryOption) (caller : Caller) : M (Status * Summary) := GetSummary (with_token q caller).

(* @src service/udmf/udmf_service_stub.cpp 207-224 UdmfServiceStub::OnAddPrivilege *)
Definition OnAddPrivilege (q : QueryOption) (caller : Caller) (p : Privilege) : M Status := AddPrivilege (with_token q caller) caller p.

(* @src service/udmf/udmf_service_stub.cpp 226-243 UdmfServiceStub::OnSync *)
Definition OnSync (q : QueryOption) (caller : Caller) (devices : list string) : M Status := Sync (with_token q caller) devices.

(** The token of this query is not set: it is not looked at. *)
(* @src service/udmf/udmf_service_stub.cpp 245-259 UdmfServiceStub::OnIsRemoteData *)
Definition OnIsRemoteData (q : QueryOption) : M (Status * bool) := IsRemoteData q.

(* @src service/udmf/udmf_service_stub.cpp 261-275 UdmfServiceStub::OnSetAppShareOption *)
Definition OnSetAppShareOption (intention : string) (shareOption : Z) (caller : Caller) : M Status := SetAppShareOption intention shareOption caller.

(* @src service/udmf/udmf_service_stub.cpp 277-291 UdmfServiceStub::OnGetAppShareOption *)
Definition OnGetAppShareOption (intention : string) (caller : Caller) : M (Status * Z) :=
  '(st, o) ← GetAppShareOption intention caller; mret (st, if bool_decide (st = E_OK) then o else SHARE_OPTIONS_BUTT).

(* @src service/udmf/udmf_service_stub.cpp 293-306 UdmfServiceStub::OnRemoveAppShareOption *)
Definition OnRemoveAppShareOption (intention : string) (caller : Caller) : M Status := RemoveAppShareOption intention caller.

(* @src service/udmf/udmf_service_stub.cpp 308-322 UdmfServiceStub::OnObtainAsynProcess *)
Definition OnObtainAsynProcess (key : string) : M (Status * option (Z * string)) := s ← get; mret (ObtainAsynProcess key s).

(* @src service/udmf/udmf_service_stub.cpp 324-338 UdmfServiceStub::OnClearAsynProcessByKey *)
Definition OnClearAsynProcessByKey (key : string) : M Status := _ ← modify (ClearAsynProcessByKey key); mret E_OK.

(* @src service/udmf/udmf_service_stub.cpp 340-361 UdmfServiceStub::OnSetDelayInfo *)
Definition OnSetDelayInfo (caller : Caller) (info : DataLoadInfo) (notifier : option Z) (now : Z) : M (Status * string) :=
  match notifier with None => mret (E_ERROR, "") | Some n => SetDelayInfo caller info (Some n) now end.

(* @src service/udmf/udmf_service_stub.cpp 363-380 UdmfServiceStub::OnPushDelayData *)
Definition OnPushDelayData (caller : Caller) (key : string) (rnd rnd' : list Z) (now : Z) (d : UnifiedData) (summ : Summary) : M Status :=
  PushDelayData caller key rnd rnd' now d summ.

(* @src service/udmf/udmf_service_stub.cpp 382-407 UdmfServiceStub::OnGetDataIfAvailable *)
Definition OnGetDataIfAvailable (caller : Caller) (key : string) (notifier : option Z) : M (Status * UnifiedData) :=
  match notifier with None => mret (E_ERROR, no_data) | Some n => GetDataIfAvailable caller key (Some n) end.

(** *** Who may have which data

    [G] are the keys and tokens for which access has been granted, [W] the calls that wait. A runtime in a store stands under its own key, and its owner and everybody it names have access;
    the privileges kept for later and the data given to calls that wait are for those who have access or are owners of the data. *)
Section Access.
Context (G : list (string * Z)) (W : list (QueryOption * nat)).

Definition run_ok (k : string) (r : Runtime) : Prop :=
  GetUnifiedKey (r_key r) = k /\ (k, tokenId r) ∈ G /\ forall p, p ∈ privileges r -> (k, p_tokenId p) ∈ G.
Definition allowed (k : string) (t : Z) (d : UnifiedData) : Prop := (k, t) ∈ G \/ exists r, runtime d = Some r /\ tokenId r = t.

Definition disk_ok (c : Cache) : Prop := forall id db, disk c !! id = Some db -> RuntimeStore.runtimes_ok run_ok (db_entries db).
(** A call that waits waits for a block of its own. *)
Definition waits_for (q : QueryOption) (id : nat) (d : Delay) : Prop := exists b, blocks d !! id = Some b /\ b_key b = q_key q /\ b_token b = q_tokenId q.
Record delay_ok (d : Delay) : Prop := mkDelayOk {
  blocks_ok b v : b ∈ blocks d -> b_value b = Some v -> allowed (b_key b) (b_token b) v;
  waits_ok k t id : blockDelayDataCache_ d !! k = Some (t, id) -> exists b, blocks d !! id = Some b /\ b_key b = k /\ b_token b = t;
  told_ok cb k t v : Delivered cb k t v ∈ told d -> allowed k t v;
  calls_ok q id : (q, id) ∈ W -> waits_for q id d
}.
Record Inv (s : Svc) : Prop := mkInv {
  inv_disk : disk_ok (cache s);
  inv_cache k ps p : privilegeCache_ s !! k = Some ps -> p ∈ ps -> (k, p_tokenId p) ∈ G;
  inv_delay : delay_ok (delay s)
}.

(** [m] keeps the invariant from [s] on, and [Q] is true of its result and the state it leaves. *)
Definition good {A} (s : Svc) (m : M A) (Q : A -> Svc -> Prop) : Prop := Inv s -> Inv (m s).2 /\ Q (m s).1 (m s).2.
(** What is not the business of stores is left alone. *)
Definition framed {A} (s : Svc) (m : M A) (Q : A -> Prop) : Prop := good s m (fun a s' => Q a /\ delay s' = delay s /\ privilegeCache_ s' = privilegeCache_ s).

Lemma good_ret {A} s (a : A) (Q : A -> Svc -> Prop) : Q a s -> good s (mret a) Q.
Proof. by intros ? ?. Qed.

Lemma good_bind {A B} s (m : M A) (f : A -> M B) (Q : A -> Svc -> Prop) (R : B -> Svc -> Prop) :
  good s m Q -> (forall a s', Inv s' -> Q a s' -> good s' (f a) R) -> good s (m ≫= f) R.
Proof.
  intros Hm Hf Hs. unfold mbind, M_bind. destruct (Hm Hs) as [H1 H2]. destruct (m s) as [a s']. by apply Hf.
Qed.

Lemma good_weaken {A} s (m : M A) (Q R : A -> Svc -> Prop) : good s m Q -> (forall a s', Inv s' -> Q a s' -> R a s') -> good s m R.
Proof. intros Hm H Hs. destruct (Hm Hs). auto. Qed.

Lemma good_get {B} s (f : Svc -> M B) (R : B -> Svc -> Prop) : (Inv s -> good s (f s) R) -> good s (get ≫= f) R.
Proof. intros H Hs. by apply (H Hs). Qed.

Lemma framed_bind {A B} s (m : M A) (f : A -> M B) (Q : A -> Prop) (R : B -> Prop) :
  framed s m Q -> (forall a s', Inv s' -> delay s' = delay s -> privilegeCache_ s' = privilegeCache_ s -> Q a -> framed s' (f a) R) -> framed s (m ≫= f) R.
Proof.
  intros Hm Hf. eapply good_bind; [exact Hm|]. intros a s' Hs (HQ & E1 & E2). eapply good_weaken; [by apply Hf|]. cbn. intros b s'' _ (H & E3 & E4).
  split_and!; congruence || done.
Qed.

Lemma framed_ret {A} s (a : A) (Q : A -> Prop) : Q a -> framed s (mret a) Q.
Proof. intros H. by apply good_ret. Qed.

Lemma framed_get {B} s (f : Svc -> M B) (R : B -> Prop) : (Inv s -> framed s (f s) R) -> framed s (get ≫= f) R.
Proof. apply good_get. Qed.

Lemma disk_shrinks c c' : shrinks c c' -> disk_ok c -> disk_ok c'.
Proof. intros H Hc id db Hd. apply (Hc id). by eapply lookup_weaken. Qed.

Lemma framed_cache {A} s (f : Cache -> A * Cache) (Q : A -> Prop) : (forall c, disk_ok c -> disk_ok (f c).2 /\ Q (f c).1) -> framed s (on_cache f) Q.
Proof.
  intros H [H1 H2 H3]. unfold on_cache. destruct (H (cache s) H1) as [H4 H5]. destruct (f (cache s)) as [a c]. split; [by split|done].
Qed.

Lemma framed_store s i : framed s (store i) (fun _ => True).
Proof. apply framed_cache. intros c Hc. split; [|done]. eapply disk_shrinks; [apply GetStore_shrinks|done]. Qed.

Lemma framed_with {A} s h (op : RuntimeStore.Store -> A * RuntimeStore.Store) (Q : A -> Prop) :
  (forall x, RuntimeStore.runtimes_ok run_ok (RuntimeStore.entries_ x) -> RuntimeStore.runtimes_ok run_ok (RuntimeStore.entries_ (op x).2) /\ Q (op x).1) ->
  framed s (with_store h op) Q.
Proof.
  intros H. apply framed_cache. intros c Hc. unfold on_store. set (x := RuntimeStore.mkStore _ _ _ _ _ _ _ _).
  destruct (H x) as [H1 H2].
  { subst x. cbn. destruct (disk c !! (h_intention h, h_user h)) as [db|] eqn:E; cbn; [by eapply Hc|]. by intros k r ?%not_elem_of_nil. }
  destruct (op x) as [a x']. cbn in *. split; [|done]. intros id db. cbn. destruct (decide (id = (h_intention h, h_user h))) as [->|Hne].
  - rewrite lookup_insert_eq. intros [= <-]. done.
  - rewrite lookup_insert_ne by done. apply Hc.
Qed.

Lemma framed_op {A} s h (op : RuntimeStore.Store -> A * RuntimeStore.Store) : RuntimeStore.op_ok run_ok op -> framed s (with_store h op) (fun _ => True).
Proof. intros H. apply framed_with. intros x Hx. split; [by apply H|done]. Qed.

Lemma framed_modify s f (Q : unit -> Prop) : (forall s, cache (f s) = cache s /\ delay (f s) = delay s /\ privilegeCache_ (f s) = privilegeCache_ s) -> Q tt -> framed s (modify f) Q.
Proof. intros H HQ [H1 H2 H3]. destruct (H s) as (E1 & E2 & E3). split; [|done]. split; cbn; [by rewrite E1|by rewrite E3|by rewrite E2]. Qed.

Lemma framed_db_error s i st : framed s (HandleDbError i st) (fun st' => st <> E_OK -> st' <> E_OK).
Proof.
  unfold HandleDbError. case_if.
  - eapply framed_bind; [apply (framed_cache _ _ (fun _ => True))|]; [|intros; by apply framed_ret].
    intros c Hc. split; [|done]. eapply disk_shrinks; [apply Remove_shrinks|done].
  - by apply framed_ret.
Qed.

Lemma good_delay_do s f (Q : unit -> Svc -> Prop) : (delay_ok (delay s) -> delay_ok (f (delay s))) -> Q tt (set_delay (f (delay s)) s) -> good s (delay_do f) Q.
Proof. intros H HQ [H1 H2 H3]. split; [split; cbn; auto|done]. Qed.

Lemma good_on_delay {A} s (f : Delay -> A * Delay) (Q : A -> Prop) : (delay_ok (delay s) -> delay_ok (f (delay s)).2 /\ Q (f (delay s)).1) -> good s (on_delay f) (fun a _ => Q a).
Proof. intros H [H1 H2 H3]. unfold on_delay. destruct (H H3) as [H4 H5]. destruct (f (delay s)) as [a d]. split; [by split|done]. Qed.

(** *** Operations that hand out nothing *)
Lemma framed_OnGot s key t b : framed s (OnGot key t b) (fun _ => True).
Proof.
  unfold OnGot. apply framed_get. intros _. case_if; [by apply framed_ret|]. case_if; [by apply framed_ret|].
  eapply framed_bind; [apply (framed_modify _ _ (fun _ => True)); done|]. intros. by apply framed_ret.
Qed.

Lemma framed_ProcessUri s q r d : framed s (ProcessUri q r d) (fun res => runtime res.2 = runtime d).
Proof.
  unfold ProcessUri. destruct (Tokens.GetHapBundleNameByToken _); [|by apply framed_ret]. case_if; [by apply framed_ret|].
  pose proof (UriPermissionManager.cross_runtime d) as Hc. destruct (UriPermissionManager.ProcessCrossDeviceData d) as [[st d'] gs]. cbn in Hc.
  case_if; [by apply framed_ret|]. case_if; [by apply framed_ret|]. destruct (UriPermissionManager.GrantUriPermission _ _ _ _) as [st' cs].
  apply framed_get. intros _. eapply framed_bind; [apply (framed_modify _ _ (fun _ => True)); done|]. intros. by apply framed_ret.
Qed.

Lemma privilege_in ps t : existsb (fun p => p_tokenId p =? t) ps = true -> exists p, p ∈ ps /\ p_tokenId p = t.
Proof. intros (p & Hp & E%Z.eqb_eq)%existsb_exists. exists p. split; [by apply list_elem_of_In|done]. Qed.

(** Data are handed out only to those who have access. *)
Lemma good_Retrieve s q : good s (RetrieveData q no_data) (fun res s' => delay s' = delay s /\ (res.1 = E_OK -> (q_key q, q_tokenId q) ∈ G)).
Proof.
  unfold RetrieveData. case_if; [by apply good_ret|]. eapply good_bind; [apply framed_store|]. intros [h|] s1 Hs1 (_ & E1 & P1); [|by apply good_ret].
  eapply good_bind.
  { apply (framed_with _ _ _ (fun res => forall r, runtime res.2 = Some r -> run_ok (q_key q) r)). intros x Hx.
    rewrite (RuntimeStore.Get_entries _ _ _). split; [done|]. intros r Hr. apply Hx. by apply RuntimeStore.Get_runtime in Hr. }
  intros [res d] s2 Hs2 (Hr & E2 & P2). cbn in Hr. case_if.
  { eapply good_bind; [apply framed_db_error|]. intros st s3 _ (H & E3 & P3). apply good_ret. split; [congruence|]. cbn. intros ->. exfalso. bool_prop. by apply H. }
  case_if; [apply good_ret; split; [congruence|done]|]. destruct (runtime d) as [r|] eqn:Er; [|apply good_ret; split; [congruence|done]].
  specialize (Hr r eq_refl). apply good_get. intros _. destruct (VerifyDataAccessPermission r q s2) eqn:Hv; cbn [negb].
  2:{ apply good_ret. split; [congruence|done]. }
  assert ((q_key q, q_tokenId q) ∈ G) as Hin.
  { unfold VerifyDataAccessPermission in Hv. apply orb_true_iff in Hv as [Hv|Hv].
    - apply privilege_in in Hv as (p & Hp & <-). by apply Hr.
    - unfold IsPermissionInCache in Hv. destruct (privilegeCache_ s2 !! q_key q) as [ps|] eqn:E; [|done]. apply privilege_in in Hv as (p & Hp & <-).
      by apply (inv_cache _ Hs2 _ ps). }
  eapply good_bind with (Q := fun _ s' => delay s' = delay s).
  { case_if; [apply good_ret; congruence|]. eapply good_weaken; [apply framed_OnGot|]. intros a s' _ (_ & E & _). congruence. }
  intros st s3 _ E3. case_if; [by apply good_ret|]. eapply good_bind; [apply framed_ProcessUri|]. intros [ret d'] s4 _ (_ & E4 & _).
  case_if; [apply good_ret; split; [congruence|done]|]. eapply good_bind with (Q := fun _ s' => delay s' = delay s).
  { intros [I1 I2 I3]. split; [|cbn; congruence]. split; cbn; [done| |done]. intros k ps p. rewrite lookup_delete_Some. intros [_ Hk]. by apply I2. }
  intros _ s5 _ E5. apply good_ret. done.
Qed.

(** *** The containers of data provided on demand *)
Lemma delay_same d d' : blocks d' = blocks d -> blockDelayDataCache_ d' = blockDelayDataCache_ d -> (forall cb k t v, Delivered cb k t v ∈ told d' -> Delivered cb k t v ∈ told d) ->
  delay_ok d -> delay_ok d'.
Proof.
  intros E1 E2 E3 [H1 H2 H3 H4]. unfold waits_for in H4. split; unfold waits_for; rewrite ?E1, ?E2; auto. intros cb k t v H. by eapply H3, E3.
Qed.

Lemma told_asked l cb0 k0 cb k t v : Delivered cb k t v ∈ l ++ [LoadAsked cb0 k0] -> Delivered cb k t v ∈ l.
Proof. by intros [H|H%list_elem_of_singleton]%elem_of_app. Qed.

Lemma begin_ok k t d : delay_ok d -> delay_ok (HandleDelayLoad_begin k t d).2 /\ (HandleDelayLoad_begin k t d).1 <> inl DATA_READY /\
  (forall id, (HandleDelayLoad_begin k t d).1 = inr id -> exists b, blocks (HandleDelayLoad_begin k t d).2 !! id = Some b /\ b_key b = k /\ b_token b = t).
Proof.
  intros Hd. unfold HandleDelayLoad_begin. case_if; [done|]. destruct (dataLoadCallback_ d !! k) as [cb|]; [|done].
  destruct (blockDelayDataCache_ d !! k) as [[t' id]|] eqn:E.
  - case_if; [|done]. cbn. bool_prop. subst t'. split; [done|]. split; [done|]. intros id' [= <-]. by apply (waits_ok _ Hd).
  - cbn -[lookup]. split_and!; [|done|].
    + destruct Hd as [H1 H2 H3 H4]. split; cbn -[lookup].
      * intros b v [Hb|Hb%list_elem_of_singleton]%elem_of_app; [by apply H1|]. by subst b.
      * intros k' t' id. destruct (decide (k' = k)) as [->|Hne].
        -- rewrite lookup_insert_eq. intros [= <- <-]. exists (mkBlock k t None). split; [|done]. rewrite lookup_app_r by lia. by rewrite Nat.sub_diag.
        -- rewrite lookup_insert_ne by done. intros (b & Hb & H)%H2. exists b. split; [|done]. by apply lookup_app_l_Some.
      * intros cb' k' t' v H%told_asked. by eapply H3.
      * intros q id (b & Hb & H)%H4. exists b. split; [|done]. by apply lookup_app_l_Some.
    + intros id [= <-]. exists (mkBlock k t None). split; [|done]. rewrite lookup_app_r by lia. by rewrite Nat.sub_diag.
Qed.

Lemma end_ok k id d : delay_ok d -> delay_ok (HandleDelayLoad_end k id d).2 /\
  (forall v, (HandleDelayLoad_end k id d).1.2 = Some v -> exists b, blocks d !! id = Some b /\ allowed (b_key b) (b_token b) v).
Proof.
  intros Hd. unfold HandleDelayLoad_end. destruct (blocks d !! id) as [b|] eqn:E; [|done]. destruct (b_value b) as [v|] eqn:Ev; [|done]. cbn. split.
  - destruct Hd as [H1 H2 H3 H4]. split; cbn; [done| |done|done]. intros k' t' id'. rewrite lookup_delete_Some. intros [_ H]. by apply H2.
  - intros v' [= <-]. exists b. split; [done|]. apply (blocks_ok _ Hd); [by eapply list_elem_of_lookup_2|done].
Qed.

Lemma SetValue_ok k t id v d : delay_ok d -> blockDelayDataCache_ d !! k = Some (t, id) -> allowed k t v -> delay_ok (SetValue id v d).
Proof.
  intros Hd Hk Hv. destruct (waits_ok _ Hd _ _ _ Hk) as (b & Hb & <- & <-). destruct Hd as [H1 H2 H3 H4].
  assert (forall id' b', blocks d !! id' = Some b' -> exists b'', blocks (SetValue id v d) !! id' = Some b'' /\ b_key b'' = b_key b' /\ b_token b'' = b_token b') as Hkeep.
  { intros id' b' Hb'. cbn. rewrite list_lookup_alter. case_decide; [|by exists b']. subst id'. rewrite Hb'. cbn. eexists. split; [done|]. by split. }
  split.
  - cbn. intros b' v' Hin Hv'. apply list_elem_of_lookup in Hin as [j Hj]. rewrite list_lookup_alter in Hj. case_decide as Ej.
    + subst j. rewrite Hb in Hj. cbn in Hj. injection Hj as <-. cbn in *. by injection Hv' as <-.
    + apply H1; [by eapply list_elem_of_lookup_2|done].
  - intros k' t' id' (b' & Hb' & <- & <-)%H2. by apply Hkeep.
  - done.
  - intros q' id' (b' & Hb' & E1 & E2)%H4. unfold waits_for. rewrite <- E1, <- E2. by apply Hkeep.
Qed.

Lemma callback_ok k v d : delay_ok d -> (forall t cb, delayDataCallback_ d !! k = Some (t, cb) -> allowed k t v) -> delay_ok (HandleDelayDataCallback k v d).2.
Proof.
  intros Hd Hv. unfold HandleDelayDataCallback. destruct (delayDataCallback_ d !! k) as [[t [cb|]]|] eqn:E; [|by apply (delay_same d)|done].
  destruct Hd as [H1 H2 H3 H4]. split; cbn; [done|done| |done]. intros cb' k' t' v' [H|H%list_elem_of_singleton]%elem_of_app; [by eapply H3|].
  injection H as -> -> -> ->. by eapply Hv.
Qed.

Lemma exec_ok k d : delay_ok d -> delay_ok (ExecDataLoadCallback k d).2.
Proof. unfold ExecDataLoadCallback. destruct (dataLoadCallback_ d !! k); [|done]. apply delay_same; [done|done|]. cbn. intros *. apply told_asked. Qed.

Lemma exec_all_ok d : delay_ok d -> delay_ok (ExecAllDataLoadCallback d).
Proof.
  intros Hd. unfold ExecAllDataLoadCallback. assert (delay_ok (set_load ∅ d)) as H by (by apply (delay_same d)). revert H. generalize (set_load ∅ d) as x.
  induction (in_order (dataLoadCallback_ d)) as [|kc l IH]; intros x Hx; cbn; [done|]. apply IH. revert Hx. apply delay_same; [done|done|]. cbn. intros *. apply told_asked.
Qed.

Lemma good_on_delay_st {A} s (f : Delay -> A * Delay) (Q : A -> Delay -> Prop) :
  (delay_ok (delay s) -> delay_ok (f (delay s)).2 /\ Q (f (delay s)).1 (f (delay s)).2) -> good s (on_delay f) (fun a s' => Q a (delay s')).
Proof. intros H [H1 H2 H3]. unfold on_delay. destruct (H H3) as [H4 H5]. destruct (f (delay s)) as [a d]. split; [by split|done]. Qed.

(** *** The operations keep the invariant *)
Lemma good_any {A} s (m : M A) (Q : A -> Svc -> Prop) : good s m Q -> good s m (fun _ _ => True).
Proof. intros H. by eapply good_weaken. Qed.

Lemma good_begin s q : good s (GetData_begin q) (fun res s' =>
  match res with inl (st, d) => st = E_OK -> allowed (q_key q) (q_tokenId q) d | inr id => waits_for q id (delay s') end).
Proof.
  unfold GetData_begin. destruct (Tokens.GetHapBundleNameByToken _); [|by apply good_ret].
  eapply good_bind; [apply (good_on_delay_st _ _ (fun r d => r <> inl DATA_READY /\ forall id, r = inr id -> waits_for q id d)), begin_ok|].
  intros [[]|id] s1 _ [H1 H2]; try (by apply good_ret).
  - eapply good_bind; [apply good_Retrieve|]. intros [st d] s2 _ [_ H]. apply good_ret. intros ->. left. by apply H.
  - apply good_ret. by apply H2.
Qed.

Lemma good_end s q id : waits_for q id (delay s) -> good s (GetData_end q id) (fun res _ => res.1 = E_OK -> allowed (q_key q) (q_tokenId q) res.2).
Proof.
  intros (b & Hb & Hk & Ht). unfold GetData_end.
  eapply good_bind; [apply (good_on_delay _ _ (fun r => r.1 = DATA_READY -> exists v, r.2 = Some v /\ allowed (q_key q) (q_tokenId q) v))|].
  - intros Hd. destruct (end_ok (q_key q) id (delay s) Hd) as [H1 H2]. split; [done|]. revert H2. unfold HandleDelayLoad_end. rewrite Hb.
    destruct (b_value b) as [v|]; [|done]. cbn. intros H2 _. destruct (H2 v eq_refl) as (b' & E & H). injection E as <-. exists v. by rewrite <- Hk, <- Ht.
  - intros [st v] s' _ H. destruct st; try (by apply good_ret). destruct (H eq_refl) as (x & E & Hx). cbn in E. subst v. by apply good_ret.
Qed.

Definition created (option : CustomOption) (group : string) : list (string * Z) :=
  match UD_INTENTION_MAP (o_intention option), Tokens.GetSpecificBundleNameByTokenId (o_tokenId option) with
  | Some i, Some (sp, _) => [(GetUnifiedKey (NewKey i sp group), o_tokenId option)]
  | _, _ => []
  end.

Lemma runtime_of_ok key option b n id now w : (GetUnifiedKey key, o_tokenId option) ∈ G -> run_ok (GetUnifiedKey key) (PreProcessUtils.runtime_of key option b n id now w).
Proof. intros H. split_and!; [done|done|]. by intros p ->%list_elem_of_singleton. Qed.

Lemma framed_Save s option uid rnd rnd' now d summ : created option (PreProcessUtils.GenerateId rnd) ⊆ G -> framed s (SaveData option uid rnd rnd' now d summ) (fun _ => True).
Proof.
  intros HG. unfold SaveData. case_if; [by apply framed_ret|]. case_if; [by apply framed_ret|]. unfold PreProcessUtils.FillRuntimeInfo. unfold created in HG.
  destruct (UD_INTENTION_MAP _) as [i|]; [|by apply framed_ret]. destruct (Tokens.GetSpecificBundleNameByTokenId _) as [[sp b]|]; [|by apply framed_ret]. cbn [runtime].
  set (r := PreProcessUtils.runtime_of _ _ _ _ _ _ _).
  assert (run_ok (GetUnifiedKey (r_key r)) r) as Hr by (apply runtime_of_ok, HG; by left).
  destruct (if bool_decide _ then _ else _) as [st d']. case_if; [by apply framed_ret|].
  eapply framed_bind; [apply framed_store|]. intros [h|] s1 _ _ _ _; [|by apply framed_ret].
  eapply framed_bind; [by apply framed_op, RuntimeStore.Put_ok|]. intros [st' summ'] s2 _ _ _ _. case_if.
  - eapply framed_bind; [apply framed_db_error|]. intros. by apply framed_ret.
  - eapply framed_bind with (Q := fun _ => True); [|intros; by apply framed_ret]. case_if; [by apply framed_modify|by apply framed_ret].
Qed.

Lemma framed_batch_error {A} s i st (a : A) : framed s (_ ← HandleDbError i st; mret a) (fun _ => True).
Proof. eapply framed_bind; [apply framed_db_error|]. intros. by apply framed_ret. Qed.

Lemma framed_Query s q : framed s (QueryDataCommon q) (fun _ => True).
Proof.
  unfold QueryDataCommon. case_if; [by apply framed_ret|]. case_if; [by apply framed_ret|]. destruct (if bool_decide _ then _ else _) as [p i].
  eapply framed_bind; [apply framed_store|]. intros [h|] s1 _ _ _ _; [|by apply framed_ret].
  eapply framed_bind; [apply framed_op, RuntimeStore.keeps_entries, (RuntimeStore.read_only)|]. intros [st ds] s2 _ _ _ _.
  case_if; [by apply framed_ret|apply framed_batch_error].
Qed.

Lemma framed_verify q key ds : forall s, framed s (verify_all q key ds) (fun _ => True).
Proof.
  induction ds as [|d ds IH]; intros s; cbn; [by apply framed_ret|]. eapply framed_bind with (Q := fun _ => True).
  - unfold VerifyIntentionPermission. destruct (runtime d); [|by apply framed_ret]. case_if; [by apply framed_ret|]. apply framed_get. intros _. case_if; [by apply framed_ret|].
    eapply framed_bind; [apply framed_OnGot|]. intros. by apply framed_ret.
  - intros st s' _ _ _ _. case_if; [apply IH|by apply framed_ret].
Qed.

Lemma framed_GetBatch s q uid : framed s (GetBatchData q uid) (fun _ => True).
Proof.
  unfold GetBatchData. eapply framed_bind; [apply framed_Query|]. intros [[st ds] h] s1 _ _ _ _. case_if; [by apply framed_ret|]. case_if; [by apply framed_ret|].
  case_if; [by apply framed_ret|]. eapply framed_bind with (Q := fun _ => True); [|intros; by apply framed_ret].
  unfold ProcessData. case_if; [by apply framed_ret|]. case_if; [by apply framed_ret|]. apply framed_verify.
Qed.

Lemma framed_Update s q caller rnd now d : framed s (UpdateData q caller rnd now d) (fun _ => True).
Proof.
  unfold UpdateData. case_if; [by apply framed_ret|]. destruct (Tokens.GetSpecificBundleNameByTokenId _) as [[sp b]|]; [|by apply framed_ret].
  case_if; [by apply framed_ret|]. eapply framed_bind; [apply framed_store|]. intros [h|] s1 _ _ _ _; [|by apply framed_ret].
  eapply framed_bind.
  { apply (framed_with _ _ _ (fun res => forall r, runtime res.2 = Some r -> run_ok (q_key q) r)). intros x Hx.
    rewrite (RuntimeStore.Get_entries _ _ _). split; [done|]. intros r Hr. apply Hx. by apply RuntimeStore.Get_runtime in Hr. }
  intros [res stored] s2 _ _ _ Hr. cbn in Hr. case_if; [eapply good_weaken; [apply framed_db_error|]; by intros ? ? _ (_ & ? & ?)|].
  unfold VerifyUpdatePermission. case_if; [by apply framed_ret|]. destruct (runtime stored) as [r|]; [|by apply framed_ret]. case_if; [by apply framed_ret|].
  destruct (Hr r eq_refl) as (E1 & E2 & E3).
  eapply framed_bind; [apply framed_op, RuntimeStore.Update_ok; split_and!; cbn; rewrite ?E1; done|]. intros [res' summ] s3 _ _ _ _.
  case_if; [by apply framed_ret|apply framed_batch_error].
Qed.

Lemma framed_Delete s q caller : framed s (DeleteData q caller) (fun _ => True).
Proof.
  unfold DeleteData. case_if; [by apply framed_ret|]. case_if; [by apply framed_ret|]. eapply framed_bind; [apply framed_Query|]. intros [[st ds] h] s1 _ _ _ _.
  case_if; [by apply framed_ret|]. case_if; [by apply framed_ret|]. destruct h as [h|]; [|by apply framed_ret].
  eapply framed_bind; [apply framed_op, RuntimeStore.DeleteBatch_ok|]. intros st' s2 _ _ _ _. case_if; [by apply framed_ret|apply framed_batch_error].
Qed.

(** Whether a privilege is added by one who may do so. *)
Definition authorised (q : QueryOption) (caller : Caller) : bool :=
  IsValid (parse_key (q_key q)) && IsNativeCaller caller &&
  match Tokens.GetNativeProcessNameByToken (q_tokenId q) with Some p => CheckAddPrivilegePermission (parse_key (q_key q)) p q (c_uid caller) | None => false end.

Lemma good_AddPrivilege s q caller p : (authorised q caller = true -> (q_key q, p_tokenId p) ∈ G) -> good s (AddPrivilege q caller p) (fun _ _ => True).
Proof.
  intros HG. unfold AddPrivilege. unfold authorised in HG. destruct (IsValid (parse_key (q_key q))); [|by apply good_ret]. cbn [negb].
  destruct (Tokens.GetNativeProcessNameByToken _) as [n|]; [|by apply good_ret]. destruct (CheckAddPrivilegePermission _ _ _ _); [|by apply good_ret]. cbn [negb].
  destruct (IsNativeCaller caller); [|by apply good_ret]. cbn [negb]. specialize (HG eq_refl).
  eapply good_bind; [apply framed_store|]. intros [h|] s1 _ _; [|by apply good_ret].
  eapply good_bind.
  { apply (framed_with _ _ _ (fun res => forall r, res.2 = Some r -> run_ok (q_key q) r)). intros x Hx. rewrite RuntimeStore.GetRuntime_entries. split; [done|].
    intros r Hr. apply Hx. by apply RuntimeStore.GetRuntime_from. }
  intros [res r] s2 _ (Hr & _). cbn in Hr. case_if.
  - eapply good_bind with (Q := fun _ _ => True); [|intros; by apply good_ret]. intros [I1 I2 I3]. split; [|done]. split; cbn; [done| |done].
    intros k ps p'. destruct (decide (k = q_key q)) as [->|Hne]; [|rewrite lookup_insert_ne by done; apply I2]. rewrite lookup_insert_eq. intros [= <-].
    rewrite elem_of_app, list_elem_of_singleton. intros [H| ->]; [|done]. destruct (privilegeCache_ s2 !! q_key q) as [ps|] eqn:E; [by eapply I2|by apply not_elem_of_nil in H].
  - destruct r as [r|]; [|eapply good_any, framed_db_error]. destruct (Hr r eq_refl) as (E1 & E2 & E3). eapply good_bind; [apply framed_op, RuntimeStore.PutRuntime_ok|].
    + split_and!; [done|done|]. cbn. intros p' [H|H%list_elem_of_singleton]%elem_of_app; [by apply E3|by subst p'].
    + intros st s3 _ _. case_if; [by apply good_ret|]. eapply good_any, framed_db_error.
Qed.

Lemma framed_DelayInfo s caller info cb now :
  created (mkOption UD_INTENTION_DRAG (c_tokenId caller) false) (sequenceKey info) ⊆ G -> good s (SetDelayInfo caller info cb now) (fun _ _ => True).
Proof.
  intros HG. unfold SetDelayInfo. case_if; [by apply good_ret|]. unfold PreProcessUtils.FillDelayRuntimeInfo. unfold created in HG. cbn [o_intention o_tokenId] in *.
  rewrite intention_drag in HG. destruct (Tokens.GetSpecificBundleNameByTokenId _) as [[sp b]|]; [|by apply good_ret]. cbn [runtime].
  set (r := PreProcessUtils.runtime_of _ _ _ _ _ _ _).
  assert (run_ok (GetUnifiedKey (r_key r)) r) as Hr by (apply runtime_of_ok, HG; by left).
  eapply good_bind; [apply (good_delay_do _ _ (fun _ _ => True)); [|done]|].
  { intros Hd. unfold RegisterDataLoadCallback. destruct cb; [|done]. case_if; [done|]. by apply (delay_same (delay s)). }
  intros _ s1 _ _. eapply good_bind; [apply framed_store|]. intros [h|] s2 _ _; [|by apply good_ret].
  eapply good_bind; [eapply framed_op, RuntimeStore.PutDelayData_ok; done|]. intros st s3 _ _. case_if; [|eapply good_any, framed_batch_error].
  eapply good_bind with (Q := fun _ _ => True); [|intros; by apply good_ret]. unfold RegisterRemotePullObserver. eapply good_bind; [apply framed_store|].
  intros [h'|] s4 _ _; [|by apply good_ret]. eapply good_any, framed_op, RuntimeStore.keeps_entries. apply RuntimeStore.read_only.
Qed.

Lemma fill_runtime caller key rnd rnd' now d d' : FillDelayUnifiedData caller key rnd rnd' now d = (E_OK, d') ->
  exists r, runtime d' = Some r /\ r_key r = key /\ tokenId r = c_tokenId caller /\ privileges r = [mkPrivilege (c_tokenId caller) ""].
Proof.
  unfold FillDelayUnifiedData, PreProcessUtils.FillRuntimeInfo. cbn [o_intention o_tokenId]. rewrite intention_drag.
  destruct (Tokens.GetSpecificBundleNameByTokenId _) as [[sp b]|]; [|done]. cbn [runtime]. intros E.
  match goal with H : PreProcessUtils.HandleFileUris ?t ?x = _ |- _ => pose proof (PreProcessUtils.handle_runtime t x) as Hr end. rewrite E in Hr. cbn in Hr.
  eexists. split; [exact Hr|]. done.
Qed.

(** *** Operations on stores only *)
Lemma framed_any {A} s (m : M A) (Q : A -> Prop) : framed s m Q -> framed s m (fun _ => True).
Proof. intros H. eapply good_weaken; [exact H|]. by intros ? ? _ (_ & ? & ?). Qed.

(** An operation that opens a store and works on it. *)
Lemma framed_open {B} s i (none : B) (f : Handle -> M B) :
  (forall h s', framed s' (f h) (fun _ => True)) -> framed s (h ← store i; match h with None => mret none | Some h => f h end) (fun _ => True).
Proof. intros H. eapply framed_bind; [apply framed_store|]. intros [h|] s' _ _ _ _; [apply H|by apply framed_ret]. Qed.

(** An operation on a store of which one looks at the result only. *)
Lemma framed_then {A B} s h (op : RuntimeStore.Store -> A * RuntimeStore.Store) (f : A -> M B) :
  RuntimeStore.op_ok run_ok op -> (forall a s', framed s' (f a) (fun _ => True)) -> framed s (with_store h op ≫= f) (fun _ => True).
Proof. intros H Hf. eapply framed_bind; [by apply framed_op|]. intros. apply Hf. Qed.

Lemma sync_op (push : bool) devices : RuntimeStore.op_ok run_ok (if push then RuntimeStore.PushSync devices else RuntimeStore.Sync devices).
Proof. destruct push; apply RuntimeStore.keeps_entries, RuntimeStore.read_only. Qed.

Lemma framed_sync_store s i push devices h : framed s (sync_store i push devices h) (fun _ => True).
Proof.
  apply framed_get. intros _. destruct (foreground _); [|by apply framed_ret]. cbv zeta. case_if.
  - destruct (MetaSync _); [|by apply framed_ret]. eapply framed_bind; [by apply (framed_modify _ _ (fun _ => True))|]. intros. by apply framed_ret.
  - apply framed_then; [apply sync_op|]. intros. by apply framed_ret.
Qed.

Lemma framed_push s key devices : framed s (PushDelayDataToRemote key devices) (fun _ => True).
Proof.
  unfold PushDelayDataToRemote. case_if; [by apply framed_ret|]. case_if; [by apply framed_ret|]. apply framed_open. intros. apply framed_sync_store.
Qed.

Lemma framed_Sync s q devices : framed s (Sync q devices) (fun _ => True).
Proof.
  unfold Sync. case_if; [by apply framed_ret|]. case_if; [by apply framed_ret|]. eapply framed_bind; [by apply (framed_modify _ _ (fun _ => True))|]. intros.
  apply framed_open. intros. apply framed_sync_store.
Qed.

Lemma good_UpdateDelay s caller key r d summ : r_key r = parse_key key -> tokenId r = c_tokenId caller -> privileges r = [mkPrivilege (c_tokenId caller) ""] ->
  good s (UpdateDelayData caller key r d summ) (fun _ _ => True).
Proof.
  intros Ek Et Ep. unfold UpdateDelayData. destruct (CheckDragParams (parse_key key)) eqn:Hc; cbn [negb]; [|by apply good_ret].
  assert (GetUnifiedKey (r_key r) = key) as EK by (rewrite Ek; apply parse_print; unfold CheckDragParams in Hc; by bool_prop).
  eapply good_bind; [apply framed_store|]. intros [h|] s1 _ _; [|by apply good_ret]. eapply good_bind.
  { apply (framed_with _ _ _ (fun res => forall r, runtime res.2 = Some r -> run_ok key r)). intros x Hx.
    rewrite (RuntimeStore.Get_entries _ _ _). split; [done|]. intros r' Hr. apply Hx. by apply RuntimeStore.Get_runtime in Hr. }
  intros [res stored] s2 _ (Hr & _). cbn in Hr. case_if; [eapply good_bind; [apply framed_db_error|]; intros; by apply good_ret|].
  destruct (runtime stored) as [r0|]; [|by apply good_ret]. destruct (Hr r0 eq_refl) as (_ & Hin & _). case_if; [by apply good_ret|]. bool_prop.
  assert ((key, c_tokenId caller) ∈ G) as Hc' by congruence. eapply good_bind; [apply framed_op, RuntimeStore.Update_ok|].
  { rewrite EK. split_and!; [done|congruence|]. rewrite Ep. by intros p ->%list_elem_of_singleton. }
  intros [res' x] s3 _ _. case_if; [eapply good_any, framed_batch_error|].
  eapply good_bind with (Q := fun _ _ => True).
  { unfold GetDevicesForDelayData. apply good_get. intros _. eapply good_bind; [apply (good_on_delay _ _ (fun _ => True))|intros; by apply good_ret].
    intros Hd. split; [|done]. by apply (delay_same (delay s3)). }
  intros devices s4 _ _. case_if; [by apply good_ret|]. eapply good_bind with (Q := fun _ _ => True); [|intros; by apply good_ret].
  eapply good_any, framed_push.
Qed.

Lemma transfer_runtime q r d : runtime (TransferToEntriesIfNeed q (PreProcessUtils.SetRemoteData r d)) = runtime d.
Proof. unfold TransferToEntriesIfNeed, PreProcessUtils.SetRemoteData. repeat case_if; rewrite ?convert_runtime; done. Qed.

(** Delivering to the one who waits. *)
Lemma good_deliver s key d t loading block :
  loading = QueryDelayGetDataInfo key (delay s) -> block = QueryBlockDelayData key (delay s) ->
  t = match loading, block with Some t, _ => t | None, Some (t, _) => t | None, None => 0 end -> allowed key t d ->
  good s (match loading, block with
          | Some _, _ => ok ← on_delay (HandleDelayDataCallback key d); mret (if (ok : bool) then E_OK else E_ERROR)
          | None, Some (_, id) => _ ← delay_do (SetValue id d); mret E_OK
          | None, None => mret E_OK
          end) (fun _ _ => True).
Proof.
  intros -> -> Ht Ha. unfold QueryDelayGetDataInfo, QueryBlockDelayData in *. destruct (delayDataCallback_ (delay s) !! key) as [[t1 cb]|] eqn:E1; cbn in *.
  - eapply good_bind; [apply (good_on_delay _ _ (fun _ => True))|intros; by apply good_ret]. intros Hd. split; [|done]. apply callback_ok; [done|].
    intros t2 cb2. rewrite E1. intros [= <- <-]. by subst t1.
  - destruct (blockDelayDataCache_ (delay s) !! key) as [[t1 id]|] eqn:E2; [|by apply good_ret]. subst t1.
    eapply good_bind; [apply (good_delay_do _ _ (fun _ _ => True)); [|done]|intros; by apply good_ret]. intros Hd. by eapply SetValue_ok.
Qed.
Lemma good_erase s key : good s (modify (fun s => set_privileges (delete key (privilegeCache_ s)) s)) (fun _ s' => delay s' = delay s).
Proof. intros [I1 I2 I3]. split; [|done]. split; cbn; [done| |done]. intros k ps p. rewrite lookup_delete_Some. intros [_ Hk]. by apply I2. Qed.

Lemma cached q s : Inv s -> IsPermissionInCache q s = true -> (q_key q, q_tokenId q) ∈ G.
Proof.
  intros Hs. unfold IsPermissionInCache. destruct (privilegeCache_ s !! q_key q) as [ps|] eqn:E; [|done]. intros (p & Hp & <-)%privilege_in. by apply (inv_cache _ Hs _ ps).
Qed.

(** The data that are pushed belong to the caller: whoever is given them has access or is the caller. *)
Lemma good_hand s key d r t loading block :
  loading = QueryDelayGetDataInfo key (delay s) -> block = QueryBlockDelayData key (delay s) ->
  t = match loading, block with Some t, _ => t | None, Some (t, _) => t | None, None => 0 end -> runtime d = Some r -> tokenId r = t \/ (key, t) ∈ G ->
  good s ('(ret, d) ← ProcessUri (mkQuery key UD_INTENTION_BASE t) r d;
          if negb (bool_decide (ret = E_OK)) then mret E_NO_PERMISSION
          else
            _ ← modify (fun s => set_privileges (delete key (privilegeCache_ s)) s);
            let d := TransferToEntriesIfNeed (mkQuery key UD_INTENTION_BASE t) (PreProcessUtils.SetRemoteData r d) in
            match loading, block with
            | Some _, _ => ok ← on_delay (HandleDelayDataCallback key d); mret (if (ok : bool) then E_OK else E_ERROR)
            | None, Some (_, id) => _ ← delay_do (SetValue id d); mret E_OK
            | None, None => mret E_OK
            end) (fun _ _ => True).
Proof.
  intros El Eb Et Er Ha. eapply good_bind; [apply framed_ProcessUri|]. intros [ret d'] s1 _ (Hr & E1 & _). cbn in Hr. case_if; [by apply good_ret|].
  eapply good_bind; [apply good_erase|]. intros [] s2 _ E2. cbv zeta.
  apply (good_deliver _ _ _ t); [by rewrite E2, E1|by rewrite E2, E1|done|].
  destruct Ha as [Ha|Ha]; [right|by left]. exists r. by rewrite transfer_runtime, Hr.
Qed.

Lemma good_Push s caller key rnd rnd' now d summ : good s (PushDelayData caller key rnd rnd' now d summ) (fun _ _ => True).
Proof.
  unfold PushDelayData. case_if; [by apply good_ret|]. case_if; [by apply good_ret|]. apply good_get. intros Hs.
  destruct (FillDelayUnifiedData _ _ _ _ _ _) as [st d'] eqn:E. destruct st; try (by apply good_ret). destruct (fill_runtime _ _ _ _ _ _ _ E) as (r & Hr & Hk & Ht & Hp).
  rewrite Hr. destruct (QueryDelayGetDataInfo key (delay s)) as [t1|] eqn:E1; destruct (QueryBlockDelayData key (delay s)) as [[t2 id]|] eqn:E2;
    [| | |by apply good_UpdateDelay];
    (destruct (_ && _) eqn:Hc; [by apply good_ret|]; apply (good_hand _ _ _ _ _ _ _ (eq_sym E1) (eq_sym E2) eq_refl Hr);
     apply andb_false_iff in Hc as [Hc|Hc]; apply negb_false_iff in Hc; [left; rewrite Ht; by apply Z.eqb_eq|right; by apply (cached _ _ Hs) in Hc]).
Qed.

Lemma register_ok k t cb d : delay_ok d -> delay_ok (RegisterDelayDataCallback k t cb d).
Proof.
  intros Hd. unfold RegisterDelayDataCallback. case_if; [done|]. destruct (delayDataCallback_ d !! k) as [[t' cb']|]; [case_if; [|done]|]; by apply (delay_same d).
Qed.

Lemma good_Available s caller key cb : good s (GetDataIfAvailable caller key cb) (fun _ _ => True).
Proof.
  unfold GetDataIfAvailable. eapply good_bind; [apply good_Retrieve|]. intros [st d] s1 _ _. case_if; [by apply good_ret|]. case_if; [by apply good_ret|].
  eapply good_bind; [apply (good_delay_do _ _ (fun _ _ => True)); [apply register_ok|done]|]. intros _ s2 _ _.
  eapply good_bind; [apply (good_on_delay _ _ (fun _ => True)); split; [by apply exec_ok|done]|]. intros. by apply good_ret.
Qed.

Lemma good_Remote s key : good s (HandleRemoteDelayData key) (fun _ _ => True).
Proof.
  unfold HandleRemoteDelayData. apply good_get. intros _.
  destruct (QueryDelayGetDataInfo key (delay s)) as [t1|] eqn:E1; destruct (QueryBlockDelayData key (delay s)) as [[t2 id]|] eqn:E2; [| | |by apply good_ret];
    (eapply good_bind; [apply good_Retrieve|]; intros [st d] s1 _ [E H]; cbn [fst] in H; case_if; [by apply good_ret|]; bool_prop;
     rewrite <- E in E1, E2; apply (good_deliver _ _ _ _ _ _ (eq_sym E1) (eq_sym E2) eq_refl); left; by apply H).
Qed.

Lemma good_Runtimes rs : forall s, good s (ProcessRuntimeInfo rs) (fun _ _ => True).
Proof.
  induction rs as [|r rs IH]; intros s; cbn [ProcessRuntimeInfo]; [by apply good_ret|]. case_if; [apply IH|].
  eapply good_bind; [by apply (framed_modify _ _ (fun _ => True))|]. intros _ s1 _ _. apply good_get. intros _.
  eapply good_bind with (Q := fun _ _ => True); [|intros; apply IH]. case_if; [|by apply good_ret]. eapply good_bind; [apply good_Remote|]. intros. by apply good_ret.
Qed.

Lemma good_Deleted rs : forall s, good s (ProcessDelete rs) (fun _ _ => True).
Proof. induction rs as [|r rs IH]; intros s; cbn; [by apply good_ret|]. eapply good_bind; [apply framed_OnGot|]. intros. apply IH. Qed.

Lemma good_Change s changed deleted : good s (OnChange changed deleted) (fun _ _ => True).
Proof. eapply good_bind; [apply good_Runtimes|]. intros. apply good_Deleted. Qed.

Lemma good_Pull s device : good s (OnPullStarted device) (fun _ _ => True).
Proof.
  apply good_get. intros _. apply good_delay_do; [|done]. intros Hd. apply exec_all_ok. unfold SaveSyncedDeviceInfo. case_if; [done|]. by apply (delay_same (delay s)).
Qed.

Lemma framed_Got s key b : framed s (Policy_OnGot key b) (fun _ => True).
Proof.
  apply framed_open. intros h s1. apply framed_then; [apply RuntimeStore.Delete_ok|]. intros st s2. case_if; [|by apply framed_ret].
  eapply framed_bind with (Q := fun _ => True); [|intros; by apply framed_ret]. case_if; [|by apply framed_ret]. unfold OnGotToRemote. case_if; [|by apply framed_ret].
  apply framed_then; [apply RuntimeStore.keeps_entries, RuntimeStore.read_only|]. intros. by apply framed_ret.
Qed.

Lemma erase_frame k t s : cache (EraseUdkey k t s) = cache s /\ delay (EraseUdkey k t s) = delay s /\ privilegeCache_ (EraseUdkey k t s) = privilegeCache_ s.
Proof. unfold EraseUdkey. by destruct (udKeys_ s !! t). Qed.

Lemma framed_task s t : framed s (run_task t) (fun _ => True).
Proof.
  destruct t as [key t b|push h rs]; cbn [run_task].
  - eapply framed_bind; [apply framed_Got|]. intros st s1 _ _ _ _. case_if; [|by apply framed_ret]. apply framed_modify; [|done]. intros. apply erase_frame.
  - eapply framed_bind with (Q := fun _ => True).
    { unfold ProcessResult. cbv zeta. eapply framed_bind; [by apply (framed_modify _ _ (fun _ => True))|]. intros. by apply framed_ret. }
    intros devices s1 _ _ _ _. case_if; [by apply framed_ret|]. apply framed_then; [apply sync_op|]. intros. by apply framed_ret.
Qed.

Lemma framed_policies f l : (forall i s, framed s (f i) (fun _ => True)) -> forall st s, framed s (for_policies f l st) (fun _ => True).
Proof. intros Hf. induction l as [|i l IH]; intros st s; cbn; [by apply framed_ret|]. eapply framed_bind; [apply Hf|]. intros. apply IH. Qed.

Lemma framed_Start s : framed s OnStart (fun _ => True).
Proof.
  eapply framed_bind.
  - apply framed_policies. intros i s'. apply framed_open. intros h s1. apply framed_then; [apply RuntimeStore.Clear_ok|]. intros. by apply framed_ret.
  - intros st s' _ _ _ _. case_if; [|by apply framed_ret]. eapply framed_bind; [by apply (framed_modify _ _ (fun _ => True))|]. intros. by apply framed_ret.
Qed.

Lemma erase_all_frame l : forall s, let s' := fold_left (fun s r => EraseUdkey (ukey (r_key r)) (tokenId r) s) l s in
  cache s' = cache s /\ delay s' = delay s /\ privilegeCache_ s' = privilegeCache_ s.
Proof.
  induction l as [|r l IH]; intros s; [done|]. cbn. destruct (IH (EraseUdkey (ukey (r_key r)) (tokenId r) s)) as (-> & -> & ->). apply erase_frame.
Qed.

Lemma framed_Timeout s now i : framed s (Policy_OnTimeout now i) (fun _ => True).
Proof.
  apply framed_open. intros h s1. apply framed_then; [apply RuntimeStore.keeps_entries, RuntimeStore.read_only|]. intros [st rs] s2. case_if; [|by apply framed_ret].
  apply framed_then; [apply RuntimeStore.DeleteBatch_ok|]. intros. by apply framed_ret.
Qed.

Lemma framed_DragTimeout s now : framed s (Drag_OnTimeout now) (fun _ => True).
Proof.
  apply framed_open. intros h s1. apply framed_then; [apply RuntimeStore.keeps_entries, RuntimeStore.read_only|]. intros [st rs] s2. case_if; [by apply framed_ret|].
  cbv zeta. case_if; [by apply framed_ret|]. apply framed_then; [apply RuntimeStore.DeleteBatch_ok|]. intros st' s3. case_if; [|by apply framed_ret].
  eapply framed_bind; [apply (framed_modify _ _ (fun _ => True)); [|done]|intros; by apply framed_ret]. intros s4. apply erase_all_frame.
Qed.

Lemma framed_timer s now : framed s (timer_task now) (fun _ => True).
Proof. apply framed_policies. intros i s'. case_if; [apply framed_DragTimeout|apply framed_Timeout]. Qed.

Lemma framed_Uninstall s t : framed s (OnAppUninstall t) (fun _ => True).
Proof.
  apply framed_get. intros _. destruct (udKeys_ s !! t) as [ks|]; [|by apply framed_ret]. eapply framed_bind with (Q := fun _ => True); [|intros; by apply framed_ret].
  generalize (elements ks) as l. intros l. clear ks. revert s. induction l as [|k l IH]; intros s; cbn; [by apply framed_ret|]. case_if; [|apply IH].
  eapply framed_bind; [apply framed_OnGot|]. intros. apply IH.
Qed.

Lemma framed_Summary s q : framed s (GetSummary q) (fun _ => True).
Proof.
  unfold GetSummary. cbv zeta. case_if; [by apply framed_ret|]. apply framed_open. intros h s1. apply framed_then; [apply RuntimeStore.keeps_entries; intros; apply RuntimeStore.read_only|].
  intros [st x] s2. case_if; [by apply framed_ret|apply framed_batch_error].
Qed.

Lemma framed_IsRemote s q : framed s (IsRemoteData q) (fun _ => True).
Proof.
  unfold IsRemoteData. cbv zeta. case_if; [by apply framed_ret|]. apply framed_open. intros h s1. apply framed_then; [apply RuntimeStore.keeps_entries, RuntimeStore.GetRuntime_entries|].
  intros [st [r|]] s2; [case_if; [by apply framed_ret|]|]; apply framed_batch_error.
Qed.

Lemma framed_close s f : (forall c, shrinks c (f c)) -> framed s (on_cache (fun c => (tt, f c))) (fun _ => True).
Proof. intros H. apply framed_cache. intros c Hc. split; [|done]. by apply (disk_shrinks c); [apply H|]. Qed.
Lemma framed_SetShare s i o caller : framed s (SetAppShareOption i o caller) (fun _ => True).
Proof.
  unfold SetAppShareOption. case_if; [by apply framed_ret|]. case_if; [by apply framed_ret|]. apply framed_open. intros h s1.
  apply framed_then; [apply RuntimeStore.keeps_entries; intros; apply RuntimeStore.read_only|]. intros [st x] s2. case_if; [by apply framed_ret|].
  apply framed_then; [apply RuntimeStore.keeps_entries; intros; apply RuntimeStore.read_only|]. intros st' s3. case_if; [by apply framed_ret|apply framed_batch_error].
Qed.

Lemma framed_GetShare s i caller : framed s (GetAppShareOption i caller) (fun _ => True).
Proof.
  unfold GetAppShareOption. case_if; [by apply framed_ret|]. apply framed_open. intros h s1.
  apply framed_then; [apply RuntimeStore.keeps_entries; intros; apply RuntimeStore.read_only|]. intros [st x] s2. case_if; [by apply framed_ret|].
  eapply framed_bind; [apply framed_db_error|]. intros. by apply framed_ret.
Qed.

Lemma framed_RemoveShare s i caller : framed s (RemoveAppShareOption i caller) (fun _ => True).
Proof.
  unfold RemoveAppShareOption. case_if; [by apply framed_ret|]. case_if; [by apply framed_ret|]. apply framed_open. intros h s1.
  apply framed_then; [apply RuntimeStore.keeps_entries; intros; apply RuntimeStore.read_only|]. intros st s2. case_if; [by apply framed_ret|apply framed_batch_error].
Qed.
End Access.

(** *** Everything that can happen

    [OArrive] are changes of the database of dragged data by a synchronisation, [OWorld] is a change of what the service sees of the world, [ORestart] the end of the
    process: the databases are left. *)
Inductive Op : Type :=
| OSet (option : CustomOption) (caller : Caller) (rnd rnd' : list Z) (now : Z) (d : UnifiedData) (summ : Summary)
| OGet (q : QueryOption) (caller : Caller)
| OGetEnd (q : QueryOption) (id : nat)
| OBatch (q : QueryOption) (caller : Caller)
| OUpdate (q : QueryOption) (caller : Caller) (rnd : list Z) (now : Z) (d : UnifiedData)
| ODelete (q : QueryOption) (caller : Caller)
| OSummary (q : QueryOption) (caller : Caller)
| OPrivilege (q : QueryOption) (caller : Caller) (p : Privilege)
| OIsRemote (q : QueryOption)
| OSetShare (intention : string) (o : Z) (caller : Caller)
| OGetShare (intention : string) (caller : Caller)
| ORemoveShare (intention : string) (caller : Caller)
| OSync (q : QueryOption) (caller : Caller) (devices : list string)
| OProgress (q : QueryOption) (devices : list string) (ps : list (string * DeviceSyncProcess))
| OAsync (key : string)
| OClearAsync (key : string)
| OUser (stopped : bool)
| OStarted
| ODelayInfo (caller : Caller) (info : DataLoadInfo) (notifier : option Z) (now : Z)
| OPush (caller : Caller) (key : string) (rnd rnd' : list Z) (now : Z) (d : UnifiedData) (summ : Summary)
| OAvailable (caller : Caller) (key : string) (notifier : option Z)
| OArrive (user : Z) (changed deleted : list Entry)
| OPull (device : string)
| OTask (n : nat)
| OTimer (now : Z)
| OUninstall (t : Z)
| OGarbage
| OWorld (foreground : option Z) (clock : Z) (answers : list DBStatus) (pool : bool)
| ORestart.

(** What the service says to a caller who asks for data: a status with data, or that it waits. *)
Inductive Reply : Type := RDone | RGot (q : QueryOption) (st : Status) (d : UnifiedData) | RWaits (q : QueryOption) (id : nat).

Definition quiet {A} (m : M A) : M Reply := _ ← m; mret RDone.
Definition no_delay (told : list Told) : Delay := mkDelay ∅ ∅ [] ∅ [] told.

Definition arrive (user : Z) (changed deleted : list Entry) (c : Cache) : Cache :=
  let db := default no_db (disk c !! (DRAG, user)) in
  let es := fold_left (RuntimeStore.put1 rewrite_moves) changed (filter (fun e => e.1 ∉ deleted.*1) (db_entries db)) in
  set_disk (<[(DRAG, user) := mkDb es (db_locals db)]> (disk c)) c.

Definition run (op : Op) : M Reply :=
  match op with
  | OSet option caller rnd rnd' now d summ => quiet (OnSetData option caller rnd rnd' now d summ)
  | OGet q caller => r ← OnGetData q caller; mret match r with inl (st, d) => RGot (with_token q caller) st d | inr id => RWaits (with_token q caller) id end
  | OGetEnd q id => '(st, d) ← GetData_end q id; mret (RGot q st d)
  | OBatch q caller => quiet (OnGetBatchData q caller)
  | OUpdate q caller rnd now d => quiet (OnUpdateData q caller rnd now d)
  | ODelete q caller => quiet (OnDeleteData q caller)
  | OSummary q caller => quiet (OnGetSummary q caller)
  | OPrivilege q caller p => quiet (OnAddPrivilege q caller p)
  | OIsRemote q => quiet (OnIsRemoteData q)
  | OSetShare i o caller => quiet (OnSetAppShareOption i o caller)
  | OGetShare i caller => quiet (OnGetAppShareOption i caller)
  | ORemoveShare i caller => quiet (OnRemoveAppShareOption i caller)
  | OSync q caller devices => quiet (OnSync q caller devices)
  | OProgress q devices ps => quiet (on_progress q devices ps)
  | OAsync key => quiet (OnObtainAsynProcess key)
  | OClearAsync key => quiet (OnClearAsynProcessByKey key)
  | OUser stopped => quiet (OnUserChange stopped)
  | OStarted => quiet OnInitialize
  | ODelayInfo caller info notifier now => quiet (OnSetDelayInfo caller info notifier now)
  | OPush caller key rnd rnd' now d summ => quiet (OnPushDelayData caller key rnd rnd' now d summ)
  | OAvailable caller key notifier => quiet (OnGetDataIfAvailable caller key notifier)
  | OArrive user changed deleted => quiet (_ ← on_cache (fun c => (tt, arrive user changed deleted c)); OnChange changed deleted)
  | OPull device => quiet (OnPullStarted device)
  | OTask n => quiet (s ← get; match tasks s !! n with None => mret tt | Some t => _ ← modify (set_tasks (delete n (tasks s))); run_task t end)
  | OTimer now => quiet (timer_task now)
  | OUninstall t => quiet (OnAppUninstall t)
  | OGarbage => quiet (on_cache (fun c => (tt, GarbageCollect c)))
  | OWorld fg cl ans pool => quiet (on_cache (fun c => (tt, mkCache fg cl ans (disk c) (stores_ c) (has_task c) pool (pushed c))))
  | ORestart => quiet (modify (fun s => mkSvc (set_task false (set_stores ∅ (cache s))) (no_delay (told (delay s))) ∅ ∅ ∅ [] (grants s) (exchanged s)))
  end.

(** Who is granted access by an operation: the one who sets data, the one for whom an authorised process adds a privilege, and those named by data of other devices. *)
Definition named (e : Entry) : list (string * Z) := match e.2 with VRuntime r => (e.1, tokenId r) :: ((fun p => (e.1, p_tokenId p)) <$> privileges r) | _ => [] end.
Definition granted (op : Op) : list (string * Z) :=
  match op with
  | OSet option caller rnd _ _ _ _ =>
      if IsDraggable (c_tokenId caller) then created (mkOption (o_intention option) (c_tokenId caller) (o_own_process option)) (PreProcessUtils.GenerateId rnd) else []
  | OPrivilege q caller p => if authorised (with_token q caller) caller then [(q_key q, p_tokenId p)] else []
  | ODelayInfo caller info _ _ => if IsDraggable (c_tokenId caller) then created (mkOption UD_INTENTION_DRAG (c_tokenId caller) false) (sequenceKey info) else []
  | OArrive _ changed _ => changed ≫= named
  | _ => []
  end.

(** A call ends its wait only if it waits; the data of other devices stand under their own keys. *)
Definition enabled (W : list (QueryOption * nat)) (op : Op) : Prop :=
  match op with
  | OGetEnd q id => (q, id) ∈ W
  | OArrive _ changed _ => forall k r, (k, VRuntime r) ∈ changed -> GetUnifiedKey (r_key r) = k
  | _ => True
  end.
Definition waiting_now (op : Op) (r : Reply) (W : list (QueryOption * nat)) : list (QueryOption * nat) :=
  match op, r with ORestart, _ => [] | _, RWaits q id => (q, id) :: W | _, _ => W end.

Definition fresh (s : Svc) : Prop := disk (cache s) = ∅ /\ privilegeCache_ s = ∅ /\ delay s = no_delay [].

(** The states the service comes to, with the accesses granted so far and the calls that wait. *)
Inductive reach : list (string * Z) -> list (QueryOption * nat) -> Svc -> Prop :=
| reach_fresh s : fresh s -> reach [] [] s
| reach_step G W s op : reach G W s -> enabled W op -> reach (granted op ++ G) (waiting_now op (run op s).1 W) (run op s).2.

Definition answered (G : list (string * Z)) (r : Reply) : Prop := match r with RGot q E_OK d => allowed G (q_key q) (q_tokenId q) d | _ => True end.

(** *** The invariant in every such state *)
Lemma allowed_mono G G' k t d : G ⊆ G' -> allowed G k t d -> allowed G' k t d.
Proof. intros H [Ha|Ha]; [left; by apply H|by right]. Qed.

Lemma Inv_mono G G' W s : G ⊆ G' -> Inv G W s -> Inv G' W s.
Proof.
  intros H [I1 I2 [D1 D2 D3 D4]]. split.
  - intros id db Hd k r Hk. destruct (I1 id db Hd k r Hk) as (H1 & H2 & H3). split_and!; [done|by apply H|]. intros p Hp. by apply H, H3.
  - intros k ps p Hk Hp. apply H. by eapply I2.
  - split; [| |intros; by eapply allowed_mono, D3|]; [|done|done]. intros b v Hb Hv. by eapply allowed_mono, D1.
Qed.

Lemma Inv_waits G W s q id : waits_for q id (delay s) -> Inv G W s -> Inv G ((q, id) :: W) s.
Proof. intros H [I1 I2 [D1 D2 D3 D4]]. split; [done|done|]. split; [done|done|done|]. intros q' id' [[= -> ->]|Hin]%elem_of_cons; [done|by apply D4]. Qed.

Lemma good_quiet {A} G W s (m : M A) (Q : A -> Svc -> Prop) : good G W s m Q -> good G W s (quiet m) (fun r _ => r = RDone).
Proof. intros H. eapply good_bind; [exact H|]. intros. by apply good_ret. Qed.
Lemma named_ok changed G : changed ≫= named ⊆ G -> (forall k r, (k, VRuntime r) ∈ changed -> GetUnifiedKey (r_key r) = k) -> forall k r, (k, VRuntime r) ∈ changed -> run_ok G k r.
Proof.
  intros HG He k r Hin. assert (forall x, x ∈ named (k, VRuntime r) -> x ∈ G) as H by (intros x Hx; apply HG, list_elem_of_bind; by exists (k, VRuntime r)).
  split_and!; [by apply He|apply H; by left|]. intros p Hp. apply H. right. apply list_elem_of_fmap. by exists p.
Qed.

Lemma framed_arrive G W s user changed deleted : (forall k r, (k, VRuntime r) ∈ changed -> run_ok G k r) ->
  framed G W s (on_cache (fun c => (tt, arrive user changed deleted c))) (fun _ => True).
Proof.
  intros H. apply framed_cache. intros c Hc. split; [|done]. intros id db. cbn. destruct (decide (id = (DRAG, user))) as [->|Hne].
  - rewrite lookup_insert_eq. intros [= <-]. cbn. apply RuntimeStore.runtimes_put; [done|]. apply RuntimeStore.runtimes_filter.
    destruct (disk c !! (DRAG, user)) as [db|] eqn:E; [by eapply Hc|]. by intros k r ?%not_elem_of_nil.
  - rewrite lookup_insert_ne by done. apply Hc.
Qed.

(** The reply to a call, and the wait it begins. *)
Definition fair (G : list (string * Z)) (r : Reply) (s : Svc) : Prop := answered G r /\ match r with RWaits q id => waits_for q id (delay s) | _ => True end.

Lemma good_fair {A} G W s (m : M A) (Q : A -> Svc -> Prop) : good G W s m Q -> good G W s (quiet m) (fair G).
Proof. intros H. eapply good_weaken; [by eapply good_quiet|]. by intros r s' _ ->. Qed.

Lemma good_get_data G W s q caller : good G W s (run (OGet q caller)) (fair G).
Proof.
  cbn [run]. eapply good_bind; [apply good_begin|]. intros [[st d]|id] s' _ H; apply good_ret; [|done]. split; [|done]. cbn in *. destruct st; try done. by apply H.
Qed.

Lemma good_get_end G W s q id : (q, id) ∈ W -> good G W s (run (OGetEnd q id)) (fair G).
Proof.
  intros Hw Hs. assert (waits_for q id (delay s)) as Hq by (eapply calls_ok; [apply Hs|done]). revert Hs. cbn [run].
  eapply good_bind; [by apply good_end|]. intros [st d] s' _ H. apply good_ret. split; [|done]. cbn in *. destruct st; try done. by apply H.
Qed.

Lemma good_set G W s option uid rnd rnd' now d summ :
  (if IsDraggable (o_tokenId option) then created option (PreProcessUtils.GenerateId rnd) else []) ⊆ G -> framed G W s (SetData option uid rnd rnd' now d summ) (fun _ => True).
Proof.
  intros H. unfold SetData. destruct (IsDraggable (o_tokenId option)); [|by apply framed_ret]. cbn [negb].
  destruct (Tokens.GetHapBundleNameByToken _); [by apply framed_Save|by apply framed_ret].
Qed.

Lemma good_delay_info G W s caller info cb now :
  (if IsDraggable (c_tokenId caller) then created (mkOption UD_INTENTION_DRAG (c_tokenId caller) false) (sequenceKey info) else []) ⊆ G ->
  good G W s (SetDelayInfo caller info cb now) (fun _ _ => True).
Proof.
  intros H. destruct (IsDraggable (c_tokenId caller)) eqn:E; [by apply framed_DelayInfo|]. unfold SetDelayInfo. rewrite E. by apply good_ret.
Qed.

Lemma framed_normal {B} G W s q (f : QueryOption -> M B) (none : Status -> B) :
  (forall q s', framed G W s' (f q) (fun _ => True)) -> framed G W s (match NormalizeQueryOption q with inl st => mret (none st) | inr q => f q end) (fun _ => True).
Proof. intros H. destruct (NormalizeQueryOption q); [by apply framed_ret|apply H]. Qed.

Lemma run_fair G W s op : op <> ORestart -> granted op ⊆ G -> enabled W op -> good G W s (run op) (fair G).
Proof.
  intros Hop HG He. destruct op; cbn [granted enabled] in HG, He; try congruence; try (eapply good_fair).
  - eapply framed_bind; [by apply good_set|]. intros [[st sm] k] s1 _ _ _ _. apply (framed_ret _ _ _ _ (fun _ => True)). exact I.
  - apply good_get_data.
  - by apply good_get_end.
  - apply (framed_normal _ _ _ _ (fun q => GetBatchData q _)). intros. apply framed_GetBatch.
  - apply (framed_normal _ _ _ _ (fun q => UpdateData q _ _ _ _)). intros. apply framed_Update.
  - apply (framed_normal _ _ _ _ (fun q => DeleteData q _)). intros. apply framed_Delete.
  - apply framed_Summary.
  - apply good_AddPrivilege. intros E. rewrite E in HG. apply HG. by left.
  - apply framed_IsRemote.
  - apply framed_SetShare.
  - eapply framed_bind; [apply framed_GetShare|]. intros [st o] s1 _ _ _ _. apply (framed_ret _ _ _ _ (fun _ => True)). exact I.
  - apply framed_RemoveShare.
  - apply framed_Sync.
  - unfold on_progress. instantiate (1 := fun _ _ => True). destruct (NotifySyncProcss _ _ _); [|by apply good_ret]. case_if; [by apply good_ret|].
    by eapply good_any, (framed_modify _ _ _ _ (fun _ => True)).
  - apply good_get. intros _. by apply (good_ret _ _ _ _ (fun _ _ => True)).
  - eapply framed_bind; [by apply (framed_modify _ _ _ _ (fun _ => True))|]. intros. by apply (framed_ret _ _ _ _ (fun _ => True)).
  - unfold OnUserChange. instantiate (1 := fun _ _ => True). case_if; [|by apply good_ret]. eapply good_any, framed_close. apply Close_shrinks.
  - instantiate (1 := fun _ _ => True). eapply good_bind; [apply framed_Start|]. intros. by apply good_ret.
  - instantiate (1 := fun _ _ => True). unfold OnSetDelayInfo. destruct notifier; [by apply good_delay_info|by apply good_ret].
  - apply good_Push.
  - instantiate (1 := fun _ _ => True). unfold OnGetDataIfAvailable. destruct notifier; [apply good_Available|by apply good_ret].
  - eapply good_bind; [by apply framed_arrive, named_ok|]. intros. apply good_Change.
  - apply good_Pull.
  - apply good_get. intros _. instantiate (1 := fun _ _ => True). destruct (tasks s !! n) as [t|]; [|by apply good_ret].
    eapply good_bind; [by apply (framed_modify _ _ _ _ (fun _ => True))|]. intros. eapply good_any, framed_task.
  - apply framed_timer.
  - apply framed_Uninstall.
  - apply framed_close. apply Garbage_shrinks.
  - apply (framed_cache _ _ _ _ (fun _ => True)). by intros c Hc.
Qed.

Lemma restart_ok G W s : Inv G W s -> Inv G [] (run ORestart s).2.
Proof.
  intros [I1 I2 [D1 D2 D3 D4]]. cbv [run quiet modify mbind M_bind mret M_ret snd]. split; cbn; [done|by intros k ps p ?%lookup_empty_Some|]. split; cbn; [by intros b v ?%not_elem_of_nil|by intros k t id ?%lookup_empty_Some|done|].
  by intros q id ?%not_elem_of_nil.
Qed.

Lemma is_restart op : op = ORestart \/ op <> ORestart.
Proof. destruct op; (by left) || (by right). Qed.

Lemma reach_inv G W s : reach G W s -> Inv G W s.
Proof.
  induction 1 as [s (H1 & H2 & H3)|G W s op _ IH He].
  - split.
    + intros id db. rewrite H1. by intros ?%lookup_empty_Some.
    + intros k ps p. rewrite H2. by intros ?%lookup_empty_Some.
    + rewrite H3. split; cbn; [by intros b v ?%not_elem_of_nil|by intros k t id ?%lookup_empty_Some|by intros cb k t v ?%not_elem_of_nil|by intros q id ?%not_elem_of_nil].
  - apply (Inv_mono _ (granted op ++ G)) in IH; [|set_solver]. destruct (is_restart op) as [->|Hop]; [by apply (restart_ok _ W)|].
    destruct (run_fair (granted op ++ G) W s op Hop ltac:(set_solver) He IH) as [HI [_ Hw]]. destruct (run op s) as [r s']. cbn in *.
    unfold waiting_now. destruct op, r; try done; by apply Inv_waits.
Qed.

(** *** The end of the data

    The store of dragged data of the user in the foreground is open, and its database works. *)
Record drag_open (u : Z) (db : Db) (s : Svc) : Prop := mkOpen {
  open_user : foreground (cache s) = Some u;
  open_answers : answers (cache s) = [];
  open_disk : disk (cache s) !! (DRAG, u) = Some db;
  open_handle : exists h, stores_ (cache s) !! cache_key DRAG u = Some h /\ h_intention h = DRAG /\ h_user h = u
}.
(** What is not the business of stores. *)
Definition rest (s : Svc) := (delay s, privilegeCache_ s, asyncProcessInfoMap_ s, udKeys_ s, tasks s, grants s, exchanged s, has_pool (cache s)).

Lemma open_store u db s : drag_open u db s -> exists h s', store DRAG s = (Some h, s') /\ h_intention h = DRAG /\ h_user h = u /\ drag_open u db s' /\ rest s' = rest s.
Proof.
  intros [E1 E2 E3 (h & E4 & E5 & E6)]. unfold store, on_cache, GetStore. rewrite E1, E4. exists h. eexists. split; [done|]. split_and!; [done|done| |by case_if].
  split; case_if; cbn; eauto.
Qed.

Definition as_store (u : Z) (db : Db) (s : Svc) : RuntimeStore.Store :=
  let h := default (mkHandle DRAG u false false 0) (stores_ (cache s) !! cache_key DRAG u) in
  RuntimeStore.mkStore (db_entries db) (db_locals db) [] (pushed (cache s)) (h_corrupted h) (h_notify h) (h_time h) (clock (cache s)).

Lemma open_with {A} u db s h (op : RuntimeStore.Store -> A * RuntimeStore.Store) a x : drag_open u db s -> h_intention h = DRAG -> h_user h = u ->
  op (as_store u db s) = (a, x) -> RuntimeStore.answers_ x = [] ->
  exists s', with_store h op s = (a, s') /\ drag_open u (mkDb (RuntimeStore.entries_ x) (RuntimeStore.locals_ x)) s' /\ rest s' = rest s.
Proof.
  intros [E1 E2 E3 (h0 & E4 & E5 & E6)] Hi Hu Hop Hx. unfold with_store, on_cache, on_store. rewrite Hi, Hu, E3, E4, E2. unfold as_store in Hop. rewrite E4 in Hop.
  cbv zeta in *. cbn [from_option] in *. unfold id in *. rewrite Hop. eexists. split; [done|]. split; [|done]. split; cbn.
  - done.
  - done.
  - by rewrite lookup_insert_eq.
  - rewrite lookup_alter_eq, E4. cbn. eexists. split; [done|]. done.
Qed.

(** The runtimes of a database that are too old, and what stands under their keys. *)
Definition expired (now : Z) (es : list Entry) (e : Entry) : Prop :=
  exists k r, (k, VRuntime r) ∈ es /\ String.prefix DATA_PREFIX k = true /\ RuntimeStore.is_runtime_key k = true /\
    (createTime r + LIFE_INTERVAL < now \/ now < createTime r) /\ RuntimeStore.under (GetKeyCommonPrefix (r_key r)) e.

Lemma timed_out_iff now r : timed_out now r = true <-> createTime r + LIFE_INTERVAL < now \/ now < createTime r.
Proof. unfold timed_out. rewrite orb_true_iff, !Z.ltb_lt. done. Qed.

Lemma timeout_keys now rs : forall m, (forall k, k ∈ (map_to_list (fold_left (fun m r => if timed_out now r then
    match m !! GetKeyCommonPrefix (r_key r) with None => <[GetKeyCommonPrefix (r_key r) := r]> m | Some _ => m end else m) rs m)).*1 <->
  is_Some (m !! k) \/ exists r, r ∈ rs /\ timed_out now r = true /\ GetKeyCommonPrefix (r_key r) = k).
Proof.
  induction rs as [|r rs IH]; intros m k.
  - cbn. rewrite list_elem_of_fmap. split.
    + intros ([k' v] & -> & Hin). left. apply elem_of_map_to_list in Hin. cbn. by exists v.
    + intros [[v Hv]|(r & ?%not_elem_of_nil & _)]; [|done]. exists (k, v). split; [done|]. by apply elem_of_map_to_list.
  - cbn [fold_left]. rewrite IH. destruct (timed_out now r) eqn:Et.
    + destruct (m !! GetKeyCommonPrefix (r_key r)) as [v|] eqn:E.
      * split; [intros [H|(r' & H1 & H2)]; [by left|right; exists r'; split; [by right|done]]|].
        intros [H|(r' & [-> |H1]%elem_of_cons & H2 & H3)]; [by left|left; rewrite <- H3, E; by exists v|right; by exists r'].
      * split.
        -- intros [H|(r' & H1 & H2)]; [|right; exists r'; split; [by right|done]]. destruct (decide (GetKeyCommonPrefix (r_key r) = k)) as [Ek|Hne].
           ++ right. exists r. split; [by left|done].
           ++ rewrite lookup_insert_ne in H by done. by left.
        -- intros [H|(r' & [-> |H1]%elem_of_cons & H2 & H3)].
           ++ left. destruct (decide (GetKeyCommonPrefix (r_key r) = k)) as [Ek|Hne]; [rewrite Ek, lookup_insert_eq; by eexists|by rewrite lookup_insert_ne].
           ++ left. rewrite H3, lookup_insert_eq. by eexists.
           ++ right. by exists r'.
    + split; [intros [H|(r' & H1 & H2)]; [by left|right; exists r'; split; [by right|done]]|].
      intros [H|(r' & [-> |H1]%elem_of_cons & H2 & H3)]; [by left|congruence|right; by exists r'].
Qed.
(** C18: data that are too old are removed, and no others. When the hourly timer runs on an open store whose database works, every entry under the key of data that were made
    more than an hour ago, or in the future, is gone afterwards, and every other entry is still there. *)
Theorem timed_out_removed now u db s : drag_open u db s ->
  (forall k v, (k, v) ∈ db_entries db -> RuntimeStore.is_runtime_key k = true -> exists r, v = VRuntime r) ->
  exists s' db', Drag_OnTimeout now s = (E_OK, s') /\ drag_open u db' s' /\ db_locals db' = db_locals db /\
    forall e, e ∈ db_entries db' <-> e ∈ db_entries db /\ ~ expired now (db_entries db) e.
Proof.
  intros Ho Hr. unfold Drag_OnTimeout, mbind, M_bind. destruct (open_store _ _ _ Ho) as (h & s1 & -> & Hi & Hu & Ho1 & _).
  destruct (RuntimeStore.runtimes_found DATA_PREFIX (as_store u db s1) eq_refl Hr) as (rs & Er & Hrs). cbn [RuntimeStore.entries_ as_store] in Hrs.
  destruct (open_with _ _ _ _ _ _ _ Ho1 Hi Hu Er eq_refl) as (s2 & -> & Ho2 & _). rewrite bool_decide_true by done. cbn [negb].
  change (mkDb _ _) with (mkDb (db_entries db) (db_locals db)) in Ho2. destruct db as [es ls]. cbn in *.
  pose proof (timeout_keys now rs ∅) as Hk. fold (GetTimeoutRuntime now rs) in Hk.
  assert (forall e, Forall (fun k => ~ RuntimeStore.under k e) (map_to_list (GetTimeoutRuntime now rs)).*1 <-> ~ expired now es e) as He.
  { intros e. rewrite Forall_forall. split.
    - intros H (k & r & H1 & H2 & H3 & H4 & H5). apply (H (GetKeyCommonPrefix (r_key r))); [|done]. apply Hk. right. exists r. rewrite timed_out_iff. split; [apply Hrs; by exists k|done].
    - intros H k [[v Hv]|(r & H1 & H2%timed_out_iff & <-)]%Hk Hu'; [by rewrite lookup_empty in Hv|]. apply Hrs in H1 as (k & H3 & H4 & H5). apply H. by exists k, r. }
  case_bool_decide as Em.
  - exists s2, (mkDb es ls). split_and!; [done|done|done|]. intros e. rewrite <- He, Em. cbn. split; [by intros ?|by intros [? _]].
  - assert (RuntimeStore.DeleteBatch (map_to_list (GetTimeoutRuntime now rs)).*1 (as_store u (mkDb es ls) s2) = _) as Ed by (apply RuntimeStore.batch_ok; done).
    destruct (open_with _ _ _ _ _ _ _ Ho2 Hi Hu Ed eq_refl) as (s3 & -> & Ho3 & _). rewrite bool_decide_true by done. cbn -[filter] in Ho3.
    eexists _, _. split; [done|]. split.
    + destruct (erase_all_frame (map_to_list (GetTimeoutRuntime now rs)).*2 s3) as (E & _). destruct Ho3. split; rewrite E; eauto.
    + split; [done|]. intros e. cbn -[filter]. rewrite list_elem_of_filter, He. tauto.
Qed.

Lemma uri_tasks q r d s : tasks (ProcessUri q r d s).2 = tasks s.
Proof.
  unfold ProcessUri, mbind, M_bind, mret, M_ret. destruct (Tokens.GetHapBundleNameByToken _); [|done]. case_if; [done|].
  destruct (UriPermissionManager.ProcessCrossDeviceData d) as [[st d'] gs]. case_if; [done|]. case_if; [done|]. by destruct (UriPermissionManager.GrantUriPermission _ _ _ _).
Qed.

Lemma uri_runtime q r d s : runtime (ProcessUri q r d s).1.2 = runtime d.
Proof.
  unfold ProcessUri, mbind, M_bind, mret, M_ret. destruct (Tokens.GetHapBundleNameByToken _); [|done]. case_if; [done|].
  pose proof (UriPermissionManager.cross_runtime d) as Hc. destruct (UriPermissionManager.ProcessCrossDeviceData d) as [[st d'] gs]. cbn in Hc.
  case_if; [done|]. case_if; [done|]. by destruct (UriPermissionManager.GrantUriPermission _ _ _ _).
Qed.

(** A call that is answered has left a task that removes the data, unless its reader may keep them. *)
Lemma read_leaves_task q s d s1 : RetrieveData q no_data s = ((E_OK, d), s1) -> exists r, runtime d = Some r /\ intention (parse_key (q_key q)) = DRAG /\
  (IsReadAndKeep (privileges r) q s = false -> TGot (parse_key (q_key q)) (tokenId r) false ∈ tasks s1).
Proof.
  unfold RetrieveData, mbind, M_bind, mret, M_ret. destruct (CheckDragParams (parse_key (q_key q))) eqn:Hc; cbn [negb]; [|done].
  assert (intention (parse_key (q_key q)) = DRAG) as Hi by (unfold CheckDragParams in Hc; by bool_prop). unfold store, on_cache at 1. destruct (GetStore DRAG (cache s)) as [[h|] c]; [|done].
  unfold with_store, on_cache at 1. destruct (on_store _ _ _) as [[res d0] c'].
  assert (forall x st d, HandleDbError DRAG res x = (st, s1) -> (st, d) = (E_OK, d0) -> res = E_OK) as HD.
  { intros x st d' H [= -> _]. unfold HandleDbError, mbind, M_bind, mret, M_ret in H. case_bool_decide; [|by injection H]. destruct (on_cache _ _). by injection H. }
  case_bool_decide as Hres; cbn [negb].
  2:{ destruct (HandleDbError _ _ _) as [st s'] eqn:E. intros [= -> <- ->]. exfalso. apply Hres. by apply (HD _ _ d0 E). }
  case_if; [done|]. destruct (runtime d0) as [r|] eqn:Er; [|done]. unfold get. cbn -[IsReadAndKeep VerifyDataAccessPermission].
  case_if; [done|]. set (s0 := set_cache c' _).
  assert (IsReadAndKeep (privileges r) q s0 = IsReadAndKeep (privileges r) q s) as -> by done.
  destruct (IsReadAndKeep (privileges r) q s) eqn:Ek.
  - rewrite bool_decide_true by done. cbn [negb]. pose proof (uri_runtime q r d0 s0) as Hrt. destruct (ProcessUri q r d0 s0) as [[ret d'] s']. cbn in Hrt.
    case_bool_decide; cbn [negb]; [|by intros [= -> _ _]]. intros [= <- <-]. exists r. rewrite transfer_runtime, Hrt. split_and!; [done|done|congruence].
  - assert (forall st s', OnGot (parse_key (q_key q)) (tokenId r) false s0 = (st, s') -> st = E_OK -> TGot (parse_key (q_key q)) (tokenId r) false ∈ tasks s') as HG.
    { unfold OnGot, get, modify, mbind, M_bind, mret, M_ret. intros st s' H ->. case_if; [done|]. case_if; [done|]. injection H as <-. cbn. apply elem_of_app. right. by left. }
    destruct (OnGot _ _ _ s0) as [st s'] eqn:EG. case_bool_decide as Hst; cbn [negb]; [|done]. specialize (HG _ _ eq_refl Hst).
    pose proof (uri_runtime q r d0 s') as Hrt. pose proof (uri_tasks q r d0 s') as Ht. destruct (ProcessUri q r d0 s') as [[ret d'] s'']. cbn in Hrt, Ht.
    case_bool_decide; cbn [negb]; [|by intros [= -> _ _]]. intros [= <- <-]. exists r. rewrite transfer_runtime, Hrt. split_and!; [done|done|]. intros _. cbn. by rewrite Ht.
Qed.
Lemma got_removed u db s key t : drag_open u db s -> intention key = DRAG ->
  exists s', run_task (TGot key t false) s = (tt, s') /\
    drag_open u (mkDb (filter (fun e => ~ RuntimeStore.under (GetKeyCommonPrefix (parse_key (ukey key))) e) (db_entries db)) (db_locals db)) s'.
Proof.
  intros Ho Hi. cbn [run_task]. unfold Policy_OnGot, mbind, M_bind. rewrite Hi. destruct (open_store _ _ _ Ho) as (h & s1 & -> & H1 & H2 & Ho1 & _).
  destruct (open_with _ _ _ _ _ _ _ Ho1 H1 H2 (RuntimeStore.delete_ok (GetKeyCommonPrefix (parse_key (ukey key))) (as_store u db s1) eq_refl) eq_refl) as (s2 & -> & Ho2 & _). eexists. split; [done|].
  destruct (erase_frame (GetUnifiedKey key) t s2) as (E & _). destruct Ho2. split; cbn in *; rewrite E; eauto.
Qed.

(** C15: data are read once. When a reader that was not given the data to keep has got them, a task waits that removes them: run on an open store whose database works, whatever
    has happened meanwhile, it leaves no entry under their key, and every other entry as it was. *)
Theorem read_once q s d s1 : RetrieveData q no_data s = ((E_OK, d), s1) -> exists r, runtime d = Some r /\
  (IsReadAndKeep (privileges r) q s = false -> exists t, t ∈ tasks s1 /\
    forall u db s2, drag_open u db s2 -> exists s3, run_task t s2 = (tt, s3) /\
      drag_open u (mkDb (filter (fun e => ~ RuntimeStore.under (GetKeyCommonPrefix (parse_key (ukey (parse_key (q_key q))))) e) (db_entries db)) (db_locals db)) s3).
Proof.
  intros (r & Hr & Hi & Ht)%read_leaves_task. exists r. split; [done|]. intros Hk. eexists. split; [by apply Ht|]. intros u db s2 Ho. by apply got_removed.
Qed.
End Service.
End Service.

(** ** An instance *)
Module PlainService.
Export PlainUris.

Definition env_of : SvcEnv (UL := plain).
Proof.
  refine {| IsDraggable t := negb (t =? 3); IsSystemApp _ := false; VerifyPermission _ _ := false; IsNativeCaller c := c_tokenId c =? 3; GetAppId _ _ b := b;
    IsValidOptions _ _ := true; LargeDevice := false; ModuleDeviceTypes _ := None; CheckSyncPermission _ := true; ToUUID d := d; DeviceName d := d; HasCapMeta _ := true; HasStoreMeta _ _ _ := true;
    RemoteMask _ := 0; LocalMask _ := 0; META_STORE_MASK := 1; MetaSync ds := Some ((fun d => (d, OK)) <$> ds); ShareText _ := "0"; ShareNumber _ := 0;
    SHARE_OPTIONS_BUTT := 2; IN_APP := 0; ASYNC_INITIAL := 0; ASYNC_SUCCESS := 1; ASYNC_RUNNING := 2; ASYNC_FAILURE := 3 |}.
  done.
Defined.
#[export] Existing Instance env_of.

Definition start : Service.Svc :=
  Service.mkSvc (Stores.mkCache (Some 100) 0 [] ∅ ∅ false true []) (Service.no_delay []) ∅ ∅ ∅ [] [] [].
Definition some_record : Rec := mkRec "" false (VOther 0) {["a" := VOther 2]} [].
Definition some_data : UnifiedData := mkData [Some (some_record : UnifiedRecord)] None no_properties.
Definition as_app (t : Z) : Caller := mkCaller t t 20010000.

(** Application 7 sets data. *)
Definition set_op : Service.Op := Service.OSet (mkOption UD_INTENTION_DRAG 0 false) (as_app 7) random_bytes random_bytes 1000 some_data RuntimeStore.no_summary.
Definition set_key : string := nth 0 ((Service.granted set_op).*1) "".
Definition after_set : Service.Svc := (Service.run true set_op start).2.
(** The process that drags gives access to application 9. *)
Definition privilege_op : Service.Op := Service.OPrivilege (mkQuery set_key UD_INTENTION_DRAG 3) (as_app 3) (mkPrivilege 9 "").
Definition after_privilege : Service.Svc := (Service.run true privilege_op after_set).2.
Definition get_op : Service.Op := Service.OGet (mkQuery set_key UD_INTENTION_DRAG 0) (as_app 9).

Definition reply_status (r : Service.Reply) : option Status := match r with Service.RGot _ st _ => Some st | _ => None end.
Definition reply_records (r : Service.Reply) : nat := match r with Service.RGot _ _ d => length (records d) | _ => O end.

(** Data that application 7 will provide, with a privilege for application 9. *)
Definition delay_op : Service.Op := Service.ODelayInfo (as_app 7) (mkLoad "0123456789ABCDEF0123456789ABCDEF" 1 []) (Some 70) 1000.
Definition delay_key : string := nth 0 ((Service.granted delay_op).*1) "".
Definition for_reader (t : Z) (p : string) : Service.Op := Service.OPrivilege (mkQuery delay_key UD_INTENTION_DRAG 3) (as_app 3) (mkPrivilege t p).
Definition push_op (t : Z) : Service.Op := Service.OPush (as_app t) delay_key random_bytes random_bytes 1000 some_data RuntimeStore.no_summary.
Definition ask_op (t : Z) : Service.Op := Service.OGet (mkQuery delay_key UD_INTENTION_DRAG 0) (as_app t).
Definition run_all (ops : list Service.Op) (s : Service.Svc) : Service.Svc := fold_left (fun s op => (Service.run true op s).2) ops s.
Definition reply_owner (r : Service.Reply) : option Z := match r with Service.RGot _ _ d => tokenId <$> runtime d | _ => None end.

Lemma reach_start : Service.reach true [] [] start.
Proof. apply Service.reach_fresh. done. Qed.

Lemma waits_before_get : Service.waiting_now privilege_op (Service.run true privilege_op after_set).1 (Service.waiting_now set_op (Service.run true set_op start).1 []) = [].
Proof. by_vm. Qed.


Definition db_of (s : Service.Svc) : Stores.Db := default Stores.no_db (Stores.disk (Service.cache s) !! (DRAG, 100)).
Definition handle_of (s : Service.Svc) : Stores.Handle := default (Stores.mkHandle "" 0 false false 0) (Stores.stores_ (Service.cache s) !! Stores.cache_key DRAG 100).
Definition is_runtime (v : Value) : bool := match v with VRuntime _ => true | _ => false end.

Lemma open_after_set : Service.drag_open 100 (db_of after_set) after_set.
Proof. split; [by_vm|by_vm|by_vm|]. exists (handle_of after_set). split_and!; by_vm. Qed.

Lemma runtimes_checked es k v : forallb (fun e => negb (RuntimeStore.is_runtime_key e.1) || is_runtime e.2) es = true -> (k, v) ∈ es -> RuntimeStore.is_runtime_key k = true ->
  exists r, v = VRuntime r.
Proof.
  intros H Hin%list_elem_of_In Hk. rewrite forallb_forall in H. specialize (H _ Hin). cbn [fst snd] in H. rewrite Hk in H. destruct v; try discriminate. eauto.
Qed.

Lemma runtimes_after_set k v : (k, v) ∈ Stores.db_entries (db_of after_set) -> RuntimeStore.is_runtime_key k = true -> exists r, v = VRuntime r.
Proof. apply runtimes_checked. by_vm. Qed.

(** An hour later the data of application 7 are gone. *)
Lemma timed_out_removed_witness :
  length (Stores.db_entries (db_of after_set)) = 5%nat /\ length (Stores.db_entries (db_of (Service.Drag_OnTimeout 3601001 after_set).2)) = O /\
  exists s' db', Service.Drag_OnTimeout 3601001 after_set = (E_OK, s') /\
    forall e, e ∈ Stores.db_entries db' <-> e ∈ Stores.db_entries (db_of after_set) /\ ~ Service.expired 3601001 (Stores.db_entries (db_of after_set)) e.
Proof.
  split; [by_vm|]. split; [by_vm|].
  destruct (Service.timed_out_removed 3601001 100 (db_of after_set) after_set open_after_set runtimes_after_set) as (s' & db' & H1 & _ & _ & H2). exists s', db'. split; [exact H1|exact H2].
Defined.

Definition read_by_9 := Service.RetrieveData (mkQuery set_key UD_INTENTION_DRAG 9) no_data after_privilege.

Lemma status_of {A B C} (x : A * B * C) a : x.1.1 = a -> x = (a, x.1.2, x.2).
Proof. by destruct x as [[? ?] ?]; intros <-. Qed.

Lemma read_by_9_ok : read_by_9 = (E_OK, read_by_9.1.2, read_by_9.2).
Proof. apply status_of. by_vm. Qed.

Lemma read_once_witness : exists r, runtime read_by_9.1.2 = Some r /\
  (Service.IsReadAndKeep (privileges r) (mkQuery set_key UD_INTENTION_DRAG 9) after_privilege = false -> exists t, t ∈ Service.tasks read_by_9.2 /\
    forall u db s2, Service.drag_open u db s2 -> exists s3, Service.run_task t s2 = (tt, s3) /\
      Service.drag_open u (Stores.mkDb (filter (fun e => ~ RuntimeStore.under (GetKeyCommonPrefix (parse_key (ukey (parse_key set_key)))) e) (Stores.db_entries db)) (Stores.db_locals db)) s3).
Proof.
  pose proof read_by_9_ok as H. unfold read_by_9 in H at 1. exact (Service.read_once _ _ _ _ H).
Defined.

(** *** What these operations also show *)

(** The reply that refuses access has the data in it. *)
Lemma refused_reply_has_data : reply_status (Service.run true get_op after_set).1 = Some E_NO_PERMISSION /\ reply_records (Service.run true get_op after_set).1 = 1%nat.
Proof. split; by_vm. Qed.

(** Application 9 waits for data of application 7, application 8 pushes others under the same key, and 9 gets those. *)
Lemma pushed_by_another :
  let r := (Service.run true (Service.OGetEnd (mkQuery delay_key UD_INTENTION_DRAG 9) 0) (run_all [delay_op; for_reader 9 ""; ask_op 9; push_op 8] start)).1 in
  reply_status r = Some E_OK /\ reply_owner r = Some 8.
Proof. split; by_vm. Qed.

(** Two applications have been given access for keeping; when the first has read, the second is refused. *)
Lemma first_reader_revokes :
  let s := run_all [delay_op; for_reader 9 "readAndKeep"; for_reader 8 "readAndKeep"; push_op 7; Service.OPull "dev2"] start in
  reply_status (Service.run true (ask_op 8) s).1 = Some E_OK /\ reply_status (Service.run true (ask_op 8) (run_all [ask_op 9] s)).1 = Some E_NO_PERMISSION.
Proof. split; by_vm. Qed.
End PlainService.
