(* ===== verification/ObjectKeys.v ===== *)
(** * Keys and records of distributed objects ([service/object/src/object_manager.cpp])

    A property of an object is kept in the database under a key made of the application, the session, the device it comes from, the device it goes to, the time and the
    name of the property. [ObjectKeys] makes these keys and takes them apart, reads the changes that come from other devices, and finds the assets in a record. A
    record is a map of names to bytes; bytes are strings. *)

From Stdlib Require Import Ascii.
From S2P Require Import Prelude CppString Serializable AssetMachine.
Import Serializable AssetMachine.

(** The library of distributed objects: names of the members of an asset, and the text in the bytes of a member; the text that the bytes of a description
    hold. *)
Class ObjLib {JT : JsonText} := {
  ASSET_DOT : string; NAME_SUFFIX : string; URI_SUFFIX : string; PATH_SUFFIX : string; CREATE_TIME_SUFFIX : string; MODIFY_TIME_SUFFIX : string; SIZE_SUFFIX : string;
  STRING_PREFIX : string; STRING_PREFIX_LEN : nat; DEVICEID_FIELD : string;
  BytesToStr : string -> string;
  of_bytes : string -> text
}.

Abbreviation ObjectRecord := (gmap string string).

Module SaveInfo.
(* @src service/object/include/object_manager.h 149-160 ObjectStoreManager::SaveInfo *)
Record SaveInfo := mk { bundleName : string; sessionId : string; sourceDeviceId : string; targetDeviceId : string; timestamp : string }.
Definition blank_m : SaveInfo := mk "" "" "" "" "".

(* @src service/object/src/object_manager.cpp 1330-1338 ObjectStoreManager::SaveInfo::Marshal *)
Definition Marshal (m : SaveInfo) : json -> json :=
  write [ ("bundleName", SetValue string_c (bundleName m));
          ("sessionId", SetValue string_c (sessionId m));
          ("sourceDeviceId", SetValue string_c (sourceDeviceId m));
          ("targetDeviceId", SetValue string_c (targetDeviceId m));
          ("timestamp", SetValue string_c (timestamp m)) ].

(* @src service/object/src/object_manager.cpp 1340-1348 ObjectStoreManager::SaveInfo::Unmarshal *)
Definition Unmarshal (node : json) (m : SaveInfo) : bool * SaveInfo :=
  (true,
   mk (Got string_c node "bundleName" (bundleName m))
      (Got string_c node "sessionId" (sessionId m))
      (Got string_c node "sourceDeviceId" (sourceDeviceId m))
      (Got string_c node "targetDeviceId" (targetDeviceId m))
      (Got string_c node "timestamp" (timestamp m))).

Definition valid_m (m : SaveInfo) : Prop := True.
Definition fresh_m (m : SaveInfo) : Prop := True.
Definition kept_m (m : SaveInfo) : Prop := True.

Definition c : codec SaveInfo.
Proof. solve_codec Marshal Unmarshal blank_m valid_m kept_m fresh_m. Defined.
End SaveInfo.
Import SaveInfo.

Module ObjectKeys.

Definition SEPERATOR : string := "_".
Definition SAVE_INFO : string := "p_###SAVEINFO###".

(* @src service/object/include/object_manager.h 208-211 ObjectStoreManager::GetPropertyPrefix *)
Definition GetPropertyPrefix (udid appId sessionId : string) : string := appId +:+ SEPERATOR +:+ sessionId +:+ SEPERATOR +:+ udid +:+ SEPERATOR.

(* @src service/object/include/object_manager.h 212-217 ObjectStoreManager::GetPropertyPrefix *)
Definition GetPropertyPrefix_to (udid appId sessionId toDeviceId : string) : string :=
  appId +:+ SEPERATOR +:+ sessionId +:+ SEPERATOR +:+ udid +:+ SEPERATOR +:+ toDeviceId +:+ SEPERATOR.

(* @src service/object/include/object_manager.h 218-221 ObjectStoreManager::GetPrefixWithoutDeviceId *)
Definition GetPrefixWithoutDeviceId (appId sessionId : string) : string := appId +:+ SEPERATOR +:+ sessionId +:+ SEPERATOR.

(* @src service/object/src/object_manager.cpp 1350-1358 ObjectStoreManager::SaveInfo::ToPropertyPrefix *)
Definition ToPropertyPrefix (i : SaveInfo) : string :=
  if bool_decide (bundleName i = "") || bool_decide (sessionId i = "") || bool_decide (sourceDeviceId i = "") || bool_decide (targetDeviceId i = "")
     || bool_decide (timestamp i = "") then ""
  else bundleName i +:+ SEPERATOR +:+ sessionId i +:+ SEPERATOR +:+ sourceDeviceId i +:+ SEPERATOR +:+ targetDeviceId i +:+ SEPERATOR +:+ timestamp i +:+ SEPERATOR.

(** *** Taking a key apart *)

Definition is_digit (c : ascii) : bool := let n := N_of_ascii c in (48 <=? n)%N && (n <=? 57)%N.

(** The expression [_\d{10}_p_] matches at the beginning. *)
Definition time_at (l : list ascii) : bool :=
  bool_decide (take 1 l = ["_"%char]) && forallb is_digit (take 10 (drop 1 l)) && bool_decide (take 3 (drop 11 l) = ["_"%char; "p"%char; "_"%char]).

(** What is before the first match, and the rest. *)
Fixpoint find_time (l : list ascii) : option (list ascii * list ascii) :=
  match l with
  | [] => None
  | x :: l' => if time_at l then Some ([], l) else '(a, b) ← find_time l'; Some (x :: a, b)
  end.

(** What is before and after the last separator, and the first one. *)
Fixpoint split_last (l : list ascii) : option (list ascii * list ascii) :=
  match l with
  | [] => None
  | x :: l => match split_last l with Some (a, b) => Some (x :: a, b) | None => if bool_decide (x = "_"%char) then Some ([], l) else None end
  end.
Fixpoint split_first (l : list ascii) : option (list ascii * list ascii) :=
  match l with
  | [] => None
  | x :: l => if bool_decide (x = "_"%char) then Some ([], l) else '(a, b) ← split_first l; Some (x :: a, b)
  end.

Record Split := mkSplit { s_bundle : string; s_session : string; s_source : string; s_target : string; s_time : string; s_property : string }.

(* @src service/object/src/object_manager.cpp 1360-1405 ObjectStoreManager::SplitEntryKey *)
Definition SplitEntryKey (key : string) : option Split :=
  '(beforeTime, match_) ← find_time (chars key);
  let fromTime := drop 1 match_ in
  '(beforeTarget, target) ← split_last beforeTime;
  '(beforeSource, source) ← split_last beforeTarget;
  '(bundle, session) ← split_last beforeSource;
  '(time, property) ← split_first fromTime;
  Some (mkSplit (str_of bundle) (str_of session) (str_of source) (str_of target) (str_of time) (str_of property)).

Abbreviation ObjectData := (gmap string ObjectRecord).

Section Records.
Context {JT : JsonText} {OL : ObjLib}.

(* @src service/object/src/object_manager.cpp 819-822 ObjectStoreManager::IsAssetKey *)
Definition IsAssetKey (key : string) : bool := bool_decide (is_Some (find key ASSET_DOT 0)).

(* @src service/object/src/object_manager.cpp 824-835 ObjectStoreManager::IsAssetComplete *)
Definition IsAssetComplete (result : ObjectRecord) (assetPrefix : string) : bool :=
  forallb (fun s => bool_decide (is_Some (result !! (assetPrefix +:+ s)))) [NAME_SUFFIX; URI_SUFFIX; PATH_SUFFIX; CREATE_TIME_SUFFIX; MODIFY_TIME_SUFFIX; SIZE_SUFFIX].

(** The text of a member, without the mark of its type. *)
Definition member (result : ObjectRecord) (key : string) : string :=
  let t := BytesToStr (default "" (result !! key)) in if bool_decide (is_Some (find t STRING_PREFIX 0)) then substr_from t STRING_PREFIX_LEN else t.

Definition asset_of (result : ObjectRecord) (p : string) : Asset :=
  let m := member result (p +:+ MODIFY_TIME_SUFFIX) in let z := member result (p +:+ SIZE_SUFFIX) in
  mkAsset 0 0 0 "" (member result (p +:+ NAME_SUFFIX)) (member result (p +:+ URI_SUFFIX)) "" m z (m +:+ "_" +:+ z) "" "".

Definition asset_step (result : ObjectRecord) (acc : list Asset * list string) (kv : string * string) : list Asset * list string :=
  let '(assets, assetKey) := acc in
  let assetPrefix := match find kv.1 ASSET_DOT 0 with Some n => substr kv.1 0 n | None => kv.1 end in
  if negb (IsAssetKey kv.1) || bool_decide (assetPrefix ∈ assetKey)
     || negb (forallb (fun s => bool_decide (is_Some (result !! (assetPrefix +:+ s)))) [NAME_SUFFIX; URI_SUFFIX; MODIFY_TIME_SUFFIX; SIZE_SUFFIX])
  then acc else (assets ++ [asset_of result assetPrefix], assetKey ++ [assetPrefix]).

(* @src service/object/src/object_manager.cpp 837-876 ObjectStoreManager::GetAssetsFromDBRecords *)
Definition GetAssetsFromDBRecords (result : ObjectRecord) : list Asset := (fold_left (asset_step result) (in_order result) ([], [])).1.

(** Whether the record of an object names its device; only then its assets are sent. *)
Definition sends_assets (result : ObjectRecord) : bool := negb (bool_decide (GetAssetsFromDBRecords result = [])) && bool_decide (is_Some (result !! DEVICEID_FIELD)).

Definition is_save_info (key : string) : bool := bool_decide (is_Some (find key SAVE_INFO 0)).

(** The description of the save among some changes: that of the first key that has one. *)
Definition find_info (changed : ObjectRecord) : SaveInfo :=
  match List.find (fun kv => is_save_info kv.1) (in_order changed) with
  | Some (_, v) => (Unmarshall SaveInfo.c (of_bytes v) SaveInfo.blank_m).2
  | None => SaveInfo.blank_m
  end.

Definition add_property (k p v : string) (d : ObjectData) : ObjectData := <[k := <[p := v]> (default ∅ (d !! k))]> d.

Definition described (i : SaveInfo) (acc : ObjectData * bool) (kv : string * string) : ObjectData * bool :=
  let '(data, hasAsset) := acc in
  if (size kv.1 <? size (ToPropertyPrefix i))%nat || is_save_info kv.1 then acc
  else let p := substr_from kv.1 (size (ToPropertyPrefix i)) in (add_property (bundleName i +:+ sessionId i) p kv.2 data, hasAsset || IsAssetKey p).

(** An older device describes nothing: every key is taken apart. *)
Definition undescribed (acc : ObjectData * SaveInfo * bool) (kv : string * string) : ObjectData * SaveInfo * bool :=
  let '(data, i, hasAsset) := acc in
  match SplitEntryKey kv.1 with
  | None => acc
  | Some k =>
      let i := if bool_decide (sourceDeviceId i = "") || bool_decide (bundleName i = "") then SaveInfo.mk (s_bundle k) (s_session k) (s_source k) (targetDeviceId i) (s_time k) else i in
      (add_property (s_bundle k +:+ s_session k) (s_property k) kv.2 data, i, hasAsset || IsAssetKey (s_property k))
  end.

(* @src service/object/src/object_manager.cpp 595-633 ObjectStoreManager::GetObjectData *)
Definition GetObjectData (changed : ObjectRecord) (i : SaveInfo) : ObjectData * SaveInfo * bool :=
  if bool_decide (ToPropertyPrefix i = "") then fold_left undescribed (in_order changed) (∅, i, false)
  else let '(data, hasAsset) := fold_left (described i) (in_order changed) (∅, false) in (data, i, hasAsset).
End Records.

(** *** A key is taken apart into what it was made of *)

Lemma split_last_app a b : "_"%char ∉ b -> split_last (a ++ "_"%char :: b) = Some (a, b).
Proof.
  intros Hb. assert (split_last b = None) as H.
  { induction b as [|x b IH]; [done|]. cbn. rewrite not_elem_of_cons in Hb. destruct Hb as [H1 H2]. rewrite IH by done. by rewrite bool_decide_false. }
  induction a as [|x a IH]; cbn; [by rewrite H|]. by rewrite IH.
Qed.

Lemma split_first_app a b : "_"%char ∉ a -> split_first (a ++ "_"%char :: b) = Some (a, b).
Proof.
  induction a as [|x a IH]; intros Ha; cbn; [done|]. rewrite not_elem_of_cons in Ha. destruct Ha as [H1 H2]. rewrite bool_decide_false by done. by rewrite IH.
Qed.

Lemma find_time_app a b : time_at b = true -> (forall i, (i < length a)%nat -> time_at (drop i (a ++ b)) = false) -> find_time (a ++ b) = Some (a, b).
Proof.
  intros Hb. induction a as [|x a IH]; intros Ha.
  - destruct b as [|y b]; [done|]. cbn [app find_time]. by rewrite Hb.
  - cbn [app find_time]. assert (time_at (x :: a ++ b) = false) as H0 by (apply (Ha O); cbn; lia). rewrite H0.
    rewrite IH; [done|]. intros i Hi. apply (Ha (S i)). cbn. lia.
Qed.

(** What a key is made of: no part but the name of the application and of the property has a separator, the time has ten digits, and nothing before it looks like a time. *)
Record parts_ok (k : Split) : Prop := mkParts {
  p_session : "_"%char ∉ chars (s_session k);
  p_source : "_"%char ∉ chars (s_source k);
  p_target : "_"%char ∉ chars (s_target k);
  p_time : length (chars (s_time k)) = 10%nat /\ forallb is_digit (chars (s_time k)) = true;
  p_property : String.prefix "p_" (s_property k) = true;
  p_before i : let a := chars (s_bundle k +:+ "_" +:+ s_session k +:+ "_" +:+ s_source k +:+ "_" +:+ s_target k) in
    (i < length a)%nat -> time_at (drop i (a ++ chars ("_" +:+ s_time k +:+ "_" +:+ s_property k))) = false
}.

Definition make_key (k : Split) : string :=
  s_bundle k +:+ "_" +:+ s_session k +:+ "_" +:+ s_source k +:+ "_" +:+ s_target k +:+ "_" +:+ s_time k +:+ "_" +:+ s_property k.

Lemma digits_no_separator l : forallb is_digit l = true -> "_"%char ∉ l.
Proof. intros H Hin. rewrite forallb_forall in H. specialize (H "_"%char). rewrite <- list_elem_of_In in H. by specialize (H Hin). Qed.

Lemma split_made k : parts_ok k -> SplitEntryKey (make_key k) = Some k.
Proof.
  intros [H1 H2 H3 [H4 H5] H6 H7]. destruct k as [b s u t m p]. cbn in *. unfold SplitEntryKey, make_key. cbn [s_bundle s_session s_source s_target s_time s_property].
  assert (chars (b +:+ "_" +:+ s +:+ "_" +:+ u +:+ "_" +:+ t +:+ "_" +:+ m +:+ "_" +:+ p) = chars (b +:+ "_" +:+ s +:+ "_" +:+ u +:+ "_" +:+ t) ++ chars ("_" +:+ m +:+ "_" +:+ p)) as ->
    by (rewrite !chars_app, <- !app_assoc; done).
  rewrite find_time_app; [| |exact H7].
  2:{ apply prefix_chars in H6 as [r Hr]. unfold time_at. rewrite !chars_app, Hr. cbn [chars app]. cbn [take drop].
      rewrite drop_0, take_0, (take_app_len _ _ 10), (drop_app_len _ _ 10) by done. by rewrite H5. }
  unfold mbind, option_bind. cbv iota beta.
  assert (forall x y, chars (x +:+ "_" +:+ y) = chars x ++ "_"%char :: chars y) as Hc by (intros; by rewrite !chars_app).
  rewrite <- !string_app_assoc, (string_app_assoc _ "_" t), Hc, split_last_app by done.
  rewrite (string_app_assoc _ "_" u), Hc, split_last_app by done. rewrite (string_app_assoc _ "_" s), Hc, split_last_app by done.
  rewrite !string_app_assoc, (chars_app "_"). cbn [chars app drop]. rewrite drop_0, Hc, split_first_app by (by apply digits_no_separator). by rewrite !str_of_chars.
Qed.
End ObjectKeys.
