(* ===== verification/ObjectRestore.v ===== *)
(** * Restoring distributed objects ([service/object/src/object_manager.cpp], [object_data_listener.cpp])

    An object that another device has saved arrives in two parts: its record with the changes of the database, and its assets by file transfer, in either order.
    [ObjectRestore] is the part of the manager that tells the observers of an object how far it is: the registered observers, the status of each object, the timers
    that wait for assets, and the progress of transfers. What is sent to applications and to the loader of assets is recorded in order.

    The actions on a [ConcurrentMap] run under its lock; an action that changes the same map again has its effect at once. A timer that has fired first pulls the assets,
    which takes time, and then tells the observers: these are two operations. *)

From stdpp Require Import sorting.
From S2P Require Import Prelude CppString Serializable AssetMachine ObjectKeys.
Import Serializable AssetMachine SaveInfo ObjectKeys.

(** The entries of a map of tokens in the order of the tokens. *)
Definition by_token {A} (m : gmap Z A) : list (Z * A) := omap (fun t => (t,.) <$> m !! t) (merge_sort Z.le (elements (dom m))).

#[local] Instance Z_le_total : Total Z.le.
Proof. intros a b. lia. Qed.
#[local] Instance Z_le_anti : AntiSymm (=) Z.le.
Proof. intros a b. lia. Qed.

Lemma omap_filter {A B} (g : A -> option B) (l : list A) : omap g (filter (fun x => is_Some (g x)) l) = omap g l.
Proof.
  induction l as [|x l IH]; [done|]. destruct (g x) as [y|] eqn:E.
  - rewrite filter_cons_True by (rewrite E; by eexists). cbn. rewrite E. by f_equal.
  - rewrite filter_cons_False by (rewrite E; by intros [? ?]). cbn. by rewrite E.
Qed.

Lemma sorted_filter {A} (R : relation A) P `{forall x, Decision (P x)} (l : list A) : StronglySorted R l -> StronglySorted R (filter P l).
Proof.
  induction 1 as [|x l _ IH HF]; [constructor|]. destruct (decide (P x)).
  - rewrite filter_cons_True by done. constructor; [done|]. rewrite Forall_forall in *. intros y [_ Hy]%list_elem_of_filter. by apply HF.
  - by rewrite filter_cons_False.
Qed.

Lemma by_token_omap {A B} (f : A -> option B) (m : gmap Z A) : by_token (omap f m) = omap (fun tv => (tv.1,.) <$> f tv.2) (by_token m).
Proof.
  set (g := fun t => (t,.) <$> (m !! t ≫= f)). unfold by_token.
  assert (forall l : list Z, omap (fun tv : Z * A => (tv.1,.) <$> f tv.2) (omap (fun t => (t,.) <$> m !! t) l) = omap g l) as ->.
  { induction l as [|t l IH]; [done|]. cbn. unfold g at 1. destruct (m !! t) as [a|]; cbn; [|done]. destruct (f a); cbn; by rewrite IH. }
  assert (forall l : list Z, omap (fun t => (t,.) <$> (omap f m : gmap Z B) !! t) l = omap g l) as ->.
  { induction l as [|t l IH]; [done|]. cbn. rewrite lookup_omap, IH. done. }
  assert (merge_sort Z.le (elements (dom (omap f m : gmap Z B))) = filter (fun t => is_Some (g t)) (merge_sort Z.le (elements (dom m)))) as ->; [|apply omap_filter].
  apply (StronglySorted_unique Z.le).
  - apply (StronglySorted_merge_sort Z.le).
  - apply sorted_filter, (StronglySorted_merge_sort Z.le).
  - rewrite merge_sort_Permutation. apply NoDup_Permutation; [apply NoDup_elements|apply NoDup_filter; rewrite merge_sort_Permutation; apply NoDup_elements|].
    intros t. rewrite list_elem_of_filter, merge_sort_Permutation, !elem_of_elements, !elem_of_dom, lookup_omap. unfold g. rewrite fmap_is_Some.
    destruct (m !! t) as [a|]; cbn.
    + split; [intros H; split; [done|by exists a]|by intros [? _]].
    + split; [by intros [? ?]|by intros [? _]].
Qed.

Lemma by_token_nil {A} (m : gmap Z A) : by_token m = [] <-> m = ∅.
Proof.
  split; [|by intros ->]. intros H. apply map_empty. intros t. destruct (m !! t) as [a|] eqn:E; [|done]. exfalso.
  assert ((t, a) ∈ by_token m) as Hin; [|rewrite H in Hin; by apply not_elem_of_nil in Hin].
  unfold by_token. apply list_elem_of_omap. exists t. rewrite E. split; [|done]. rewrite merge_sort_Permutation. apply elem_of_elements, elem_of_dom. by exists a.
Qed.

Module ObjectRestore.

Definition PROGRESS_MAX : Z := 100.
Definition PROGRESS_INVALID : Z := -1.

(** [STATUS_BUTT], the number of values, is left out. *)
(* @src service/object/include/object_manager.h 70-77 ObjectStoreManager::RestoreStatus *)
Inductive RestoreStatus : Type := NONE | DATA_READY | DATA_NOTIFIED | ASSETS_READY | ALL_READY.
#[export] Instance RestoreStatus_eq_dec : EqDecision RestoreStatus.
Proof. solve_decision. Defined.

(* @src service/object/include/object_manager.h 133-148 ObjectStoreManager::CallbackInfo *)
Record CallbackInfo := mkCb { pid : Z; observers_ : gmap string Z }.

(** What is sent: to an observer of changes, for the object [key]; to an observer of progress; to the loader of assets. *)
Inductive Sent : Type :=
| Changed (cb : Z) (key : string) (r : ObjectRecord) (allReady : bool)
| Progress (cb : Z) (n : Z)
| Pull (bundle networkId : string) (assets : list Asset).

Section Restore.
Context {JT : JsonText} {OL : ObjLib} (ToNetworkID : string -> string) (percent : Z -> Z -> Z).

(** [timers] are the tasks of the pool, with the number of the next one; [pulling] the objects whose timer has fired and whose assets are being pulled. *)
(* @src service/object/include/object_manager.h 237-247 ObjectStoreManager *)
Record Mgr := mkMgr {
  executors_ : bool; callbacks_ : gmap Z CallbackInfo; processCallbacks_ : gmap Z CallbackInfo;
  restoreStatus_ : gmap string RestoreStatus; objectTimer_ : gmap string nat; assetsRecvProgress_ : gmap string Z; progressInfo_ : gmap string Z;
  timers : gmap nat (string * ObjectData * SaveInfo); next : nat; pulling : list string; sent : list Sent
}.
Definition set_callbacks c (m : Mgr) : Mgr :=
  mkMgr (executors_ m) c (processCallbacks_ m) (restoreStatus_ m) (objectTimer_ m) (assetsRecvProgress_ m) (progressInfo_ m) (timers m) (next m) (pulling m) (sent m).
Definition set_process c (m : Mgr) : Mgr :=
  mkMgr (executors_ m) (callbacks_ m) c (restoreStatus_ m) (objectTimer_ m) (assetsRecvProgress_ m) (progressInfo_ m) (timers m) (next m) (pulling m) (sent m).
Definition set_status st (m : Mgr) : Mgr :=
  mkMgr (executors_ m) (callbacks_ m) (processCallbacks_ m) st (objectTimer_ m) (assetsRecvProgress_ m) (progressInfo_ m) (timers m) (next m) (pulling m) (sent m).
Definition set_timers o ts n (m : Mgr) : Mgr :=
  mkMgr (executors_ m) (callbacks_ m) (processCallbacks_ m) (restoreStatus_ m) o (assetsRecvProgress_ m) (progressInfo_ m) ts n (pulling m) (sent m).
Definition set_progress a p (m : Mgr) : Mgr :=
  mkMgr (executors_ m) (callbacks_ m) (processCallbacks_ m) (restoreStatus_ m) (objectTimer_ m) a p (timers m) (next m) (pulling m) (sent m).
Definition set_pulling l (m : Mgr) : Mgr :=
  mkMgr (executors_ m) (callbacks_ m) (processCallbacks_ m) (restoreStatus_ m) (objectTimer_ m) (assetsRecvProgress_ m) (progressInfo_ m) (timers m) (next m) l (sent m).
Definition send x (m : Mgr) : Mgr :=
  mkMgr (executors_ m) (callbacks_ m) (processCallbacks_ m) (restoreStatus_ m) (objectTimer_ m) (assetsRecvProgress_ m) (progressInfo_ m) (timers m) (next m) (pulling m)
    (sent m ++ [x]).

(** *** Observers *)

(** [Compute] on the observers of a token: a new process of the application starts with none. *)
Definition register_in (t p : Z) (key : string) (cb : Z) (c : gmap Z CallbackInfo) : gmap Z CallbackInfo :=
  let v := default (mkCb 0 ∅) (c !! t) in
  let v := if pid v =? p then v else mkCb p ∅ in <[t := mkCb (pid v) (<[key := cb]> (observers_ v))]> c.

Definition unregister_in (t p : Z) (bundleName sessionId : string) (c : gmap Z CallbackInfo) : gmap Z CallbackInfo :=
  let v := default (mkCb 0 ∅) (c !! t) in
  if negb (pid v =? p) then <[t := v]> c
  else if bool_decide (sessionId = "") then delete t c
  else <[t := mkCb (pid v) (delete (bundleName +:+ sessionId) (observers_ v))]> c.

(* @src service/object/src/object_manager.cpp 447-471 ObjectStoreManager::RegisterRemoteCallback *)
Definition RegisterRemoteCallback (bundleName sessionId : string) (p t : Z) (callback : option Z) (m : Mgr) : Mgr :=
  match callback with
  | None => m
  | Some cb => if bool_decide (bundleName = "") || bool_decide (sessionId = "") then m else set_callbacks (register_in t p (bundleName +:+ sessionId) cb (callbacks_ m)) m
  end.

(* @src service/object/src/object_manager.cpp 473-497 ObjectStoreManager::UnregisterRemoteCallback *)
Definition UnregisterRemoteCallback (bundleName : string) (p t : Z) (sessionId : string) (m : Mgr) : Mgr :=
  if bool_decide (bundleName = "") then m else set_callbacks (unregister_in t p bundleName sessionId (callbacks_ m)) m.

Definition forget_progress (key : string) (m : Mgr) : Mgr := set_progress (delete key (assetsRecvProgress_ m)) (delete key (progressInfo_ m)) m.

(** The new observer is told the progress that was remembered. *)
(* @src service/object/src/object_manager.cpp 499-541 ObjectStoreManager::RegisterProgressObserverCallback *)
Definition RegisterProgressObserverCallback (bundleName sessionId : string) (p t : Z) (callback : option Z) (m : Mgr) : Mgr :=
  match callback with
  | None => m
  | Some cb =>
      if bool_decide (bundleName = "") || bool_decide (sessionId = "") then m
      else
        let key := bundleName +:+ sessionId in
        let m := set_process (register_in t p key cb (processCallbacks_ m)) m in
        match progressInfo_ m !! key with
        | None => m
        | Some n =>
            let m := if n =? PROGRESS_INVALID then m else send (Progress cb n) m in
            if n =? PROGRESS_MAX then forget_progress key m else m
        end
  end.

(* @src service/object/src/object_manager.cpp 543-568 ObjectStoreManager::UnregisterProgressObserverCallback *)
Definition UnregisterProgressObserverCallback (bundleName : string) (p t : Z) (sessionId : string) (m : Mgr) : Mgr :=
  if bool_decide (bundleName = "") then m else set_process (unregister_in t p bundleName sessionId (processCallbacks_ m)) m.

(** *** Changes of data *)

Definition notify_one (data : ObjectData) (allReady : bool) (m : Mgr) (o : string * Z) : Mgr :=
  match data !! o.1 with
  | None => m
  | Some r =>
      let m := send (Changed o.2 o.1 r allReady) m in
      if allReady then set_status (delete o.1 (restoreStatus_ m)) m else set_status (alter (fun _ => DATA_NOTIFIED) o.1 (restoreStatus_ m)) m
  end.

(* @src service/object/src/object_manager.cpp 878-898 ObjectStoreManager::DoNotify *)
Definition DoNotify (v : CallbackInfo) (data : ObjectData) (allReady : bool) (m : Mgr) : Mgr := fold_left (notify_one data allReady) (in_order (observers_ v)) m.

Definition notify_all (data : ObjectData) (allReady : bool) (m : Mgr) : Mgr := fold_left (fun m tv => DoNotify tv.2 data allReady m) (by_token (callbacks_ m)) m.

(** A timer is set for the assets; it is remembered only when none is. *)
(* @src service/object/src/object_manager.cpp 700-718 ObjectStoreManager::WaitAssets *)
Definition WaitAssets (key : string) (i : SaveInfo) (data : ObjectData) (m : Mgr) : Mgr :=
  if executors_ m
  then set_timers (match objectTimer_ m !! key with Some _ => objectTimer_ m | None => <[key := next m]> (objectTimer_ m) end) (<[next m := (key, data, i)]> (timers m)) (S (next m)) m
  else m.

(* @src service/object/src/object_manager.cpp 635-659 ObjectStoreManager::ComputeStatus *)
Definition ComputeStatus (key : string) (i : SaveInfo) (data : ObjectData) (m : Mgr) : Mgr :=
  if bool_decide (restoreStatus_ m !! key = Some ASSETS_READY)
  then notify_all data true (set_status (<[key := ALL_READY]> (restoreStatus_ m)) m)
  else WaitAssets key i data (notify_all data false (set_status (<[key := DATA_READY]> (restoreStatus_ m)) m)).

Definition status_there (key : string) (m : Mgr) : Mgr := set_status (<[key := default NONE (restoreStatus_ m !! key)]> (restoreStatus_ m)) m.

(* @src service/object/src/object_manager.cpp 689-698 ObjectStoreManager::NotifyDataChanged *)
Definition NotifyDataChanged (data : ObjectData) (i : SaveInfo) (m : Mgr) : Mgr :=
  fold_left (fun m kv => ComputeStatus kv.1 i data (status_there kv.1 m)) (in_order data) m.

(** [SaveUserToMeta], which follows, is in [ObjectStore]. *)
(* @src service/object/src/object_manager.cpp 570-593 ObjectStoreManager::NotifyChange *)
Definition NotifyChange (changed : ObjectRecord) (m : Mgr) : Mgr :=
  let '(data, i, hasAsset) := GetObjectData changed (find_info changed) in
  if hasAsset then NotifyDataChanged data i m else notify_all data true m.

(** The changes of the database; an entry that was inserted and updated has its new value. *)
(* @src service/object/src/object_data_listener.cpp 36-50 ObjectDataListener::OnChange *)
Definition OnChange (inserted updated : list (string * string)) (m : Mgr) : Mgr :=
  NotifyChange (fold_left (fun r kv => <[kv.1 := kv.2]> r) (inserted ++ updated) ∅) m.

(** *** Arrival of assets *)

Definition remove_timer (key : string) (m : Mgr) : Mgr :=
  match objectTimer_ m !! key with Some id => set_timers (delete key (objectTimer_ m)) (delete id (timers m)) (next m) m | None => m end.

(* @src service/object/src/object_manager.cpp 900-923 ObjectStoreManager::DoNotifyAssetsReady *)
Definition DoNotifyAssetsReady (v : CallbackInfo) (key : string) (m : Mgr) : Mgr :=
  if negb (executors_ m) then m
  else match observers_ v !! key with
       | None => m
       | Some cb => let m := send (Changed cb key ∅ true) m in remove_timer key (set_status (delete key (restoreStatus_ m)) m)
       end.
Definition assets_ready_all (key : string) (m : Mgr) : Mgr := fold_left (fun m tv => DoNotifyAssetsReady tv.2 key m) (by_token (callbacks_ m)) m.

(* @src service/object/src/object_manager.cpp 773-809 ObjectStoreManager::NotifyAssetsReady *)
Definition NotifyAssetsReady (key : string) (m : Mgr) : Mgr :=
  if negb (executors_ m) then m
  else match default NONE (restoreStatus_ m !! key) with
       | DATA_NOTIFIED => assets_ready_all key (set_status (<[key := ALL_READY]> (restoreStatus_ m)) m)
       | DATA_READY => remove_timer key (set_status (<[key := ALL_READY]> (restoreStatus_ m)) m)
       | _ => set_status (<[key := ASSETS_READY]> (restoreStatus_ m)) m
       end.

(* @src service/object/src/object_manager.cpp 811-817 ObjectStoreManager::NotifyAssetsStart *)
Definition NotifyAssetsStart (key : string) (m : Mgr) : Mgr := status_there key m.

(** Progress is remembered when an application has no observer left. *)
(* @src service/object/src/object_manager.cpp 739-771 ObjectStoreManager::NotifyAssetsRecvProgress *)
Definition NotifyAssetsRecvProgress (key : string) (n : Z) (m : Mgr) : Mgr :=
  let cs := (by_token (processCallbacks_ m)).*2 in
  let flag := existsb (fun c => bool_decide (observers_ c = ∅)) cs in
  let observers := omap (fun c => observers_ c !! key) cs in
  let m := set_progress (<[key := n mod 2 ^ 64]> (assetsRecvProgress_ m)) (if flag then <[key := n]> (progressInfo_ m) else progressInfo_ m) m in
  let m := fold_left (fun m cb => send (Progress cb n) m) observers m in
  if negb (bool_decide (observers = [])) && (n =? PROGRESS_MAX) then forget_progress key m else m.

(* @src service/object/src/object_data_listener.cpp 52-60 ObjectAssetsRecvListener::OnStart *)
Definition OnStart (sessionId dstBundleName : string) (m : Mgr) : Mgr :=
  NotifyAssetsRecvProgress (dstBundleName +:+ sessionId) 0 (NotifyAssetsStart (dstBundleName +:+ sessionId) m).

(** [obj] is the bundle and session of the transfer. *)
(* @src service/object/src/object_data_listener.cpp 62-82 ObjectAssetsRecvListener::OnFinished *)
Definition OnFinished (obj : option (string * string)) (success : bool) (m : Mgr) : Mgr :=
  match obj with
  | None => m
  | Some (b, s) => NotifyAssetsRecvProgress (b +:+ s) (if success then PROGRESS_MAX else PROGRESS_INVALID) (NotifyAssetsReady (b +:+ s) m)
  end.

(** The progress is nine tenths of what has been received, in per cent; [percent] is the computation with floating point numbers. *)
(* @src service/object/src/object_data_listener.cpp 86-102 ObjectAssetsRecvListener::OnRecvProgress *)
Definition OnRecvProgress (obj : option (string * string)) (totalBytes processBytes : Z) (m : Mgr) : bool * Mgr :=
  match obj with
  | None => (false, m)
  | Some (b, s) => if totalBytes =? 0 then (false, m) else (true, NotifyAssetsRecvProgress (b +:+ s) (percent processBytes totalBytes) m)
  end.

(** *** A timer fires *)

(* @src service/object/src/object_manager.cpp 720-737 ObjectStoreManager::PullAssets *)
Definition PullAssets (data : ObjectData) (i : SaveInfo) (m : Mgr) : Mgr :=
  fold_left (fun m kv => send (Pull (bundleName i) (ToNetworkID (sourceDeviceId i)) (GetAssetsFromDBRecords kv.2)) m) (in_order data) m.

Definition timer_fires (id : nat) (m : Mgr) : Mgr :=
  match timers m !! id with
  | None => m
  | Some (key, data, i) => let m := PullAssets data i (set_timers (objectTimer_ m) (delete id (timers m)) (next m) m) in set_pulling (pulling m ++ [key]) m
  end.

(* @src service/object/src/object_manager.cpp 925-950 ObjectStoreManager::DoNotifyWaitAssetTimeout *)
Definition DoNotifyWaitAssetTimeout (key : string) (m : Mgr) : Mgr := if negb (executors_ m) then m else assets_ready_all key m.

Definition timer_ends (n : nat) (m : Mgr) : Mgr :=
  match pulling m !! n with None => m | Some key => DoNotifyWaitAssetTimeout key (set_pulling (delete n (pulling m)) m) end.

(** *** Retrieving: whether everything is there *)

(* @src service/object/src/object_manager.cpp 342-353 ObjectStoreManager::RetrieveInternal *)
Definition retrieve_status (key : string) (m : Mgr) : bool * Mgr :=
  match restoreStatus_ m !! key with
  | Some ALL_READY => (true, set_status (delete key (restoreStatus_ m)) m)
  | Some DATA_READY => (false, set_status (<[key := DATA_NOTIFIED]> (restoreStatus_ m)) m)
  | _ => (false, m)
  end.
(** *** What happens to one object

    [ORetrieve] is the part of a retrieval that looks at the status. *)
Inductive Op : Type :=
| ORegister (bundleName sessionId : string) (p t : Z) (cb : option Z)
| OUnregister (bundleName : string) (p t : Z) (sessionId : string)
| ORegisterProgress (bundleName sessionId : string) (p t : Z) (cb : option Z)
| OUnregisterProgress (bundleName : string) (p t : Z) (sessionId : string)
| OChange (inserted updated : list (string * string))
| OStart (sessionId dstBundleName : string)
| OFinished (obj : option (string * string)) (success : bool)
| OProgress (obj : option (string * string)) (totalBytes processBytes : Z)
| OTimer (id : nat)
| OTimerEnd (n : nat)
| ORetrieve (key : string).

Definition run (op : Op) (m : Mgr) : Mgr :=
  match op with
  | ORegister b s p t cb => RegisterRemoteCallback b s p t cb m
  | OUnregister b p t s => UnregisterRemoteCallback b p t s m
  | ORegisterProgress b s p t cb => RegisterProgressObserverCallback b s p t cb m
  | OUnregisterProgress b p t s => UnregisterProgressObserverCallback b p t s m
  | OChange ins upd => OnChange ins upd m
  | OStart s b => OnStart s b m
  | OFinished obj ok => OnFinished obj ok m
  | OProgress obj total done => (OnRecvProgress obj total done m).2
  | OTimer id => timer_fires id m
  | OTimerEnd n => timer_ends n m
  | ORetrieve key => (retrieve_status key m).2
  end.

(** The abstract object: its status, its observers with the process and the callback of each application, whether a timer is remembered for it, and what has been told
    to whom. *)
Record Obj := mkObj { o_status : option RestoreStatus; o_obs : gmap Z (Z * Z); o_timer : bool; o_told : list (Z * bool) }.

(** What an operation means for an object. *)
Inductive Event : Type :=
| EObserve (t p cb : Z) | EOther (t p : Z) | EUnobserve (t p : Z) | EData | EPlain | EStart | EAssets | ETimeout | ERetrieve.

Definition tell (b : bool) (o : Obj) : Obj := mkObj (o_status o) (o_obs o) (o_timer o) (o_told o ++ ((fun tv => (tv.2.2, b)) <$> by_token (o_obs o))).
Definition observed (o : Obj) : bool := negb (bool_decide (o_obs o = ∅)).
Definition with_status st (o : Obj) : Obj := mkObj st (o_obs o) (o_timer o) (o_told o).
Definition with_obs obs (o : Obj) : Obj := mkObj (o_status o) obs (o_timer o) (o_told o).
Definition with_timer b (o : Obj) : Obj := mkObj (o_status o) (o_obs o) b (o_told o).

(** The observers that are told that everything is there forget the status. *)
Definition complete (o : Obj) : Obj := if observed o then with_status None (tell true o) else o.

Definition obj_step (e : Event) (o : Obj) : Obj :=
  match e with
  | EObserve t p cb => with_obs (<[t := (p, cb)]> (o_obs o)) o
  | EOther t p => match o_obs o !! t with Some (p', _) => if p' =? p then o else with_obs (delete t (o_obs o)) o | None => o end
  | EUnobserve t p => match o_obs o !! t with Some (p', _) => if p' =? p then with_obs (delete t (o_obs o)) o else o | None => o end
  | EData =>
      match o_status o with
      | Some ASSETS_READY => complete (with_status (Some ALL_READY) o)
      | _ => with_timer true (with_status (Some (if observed o then DATA_NOTIFIED else DATA_READY)) (tell false o))
      end
  | EPlain => complete o
  | EStart => with_status (Some (default NONE (o_status o))) o
  | EAssets =>
      match default NONE (o_status o) with
      | DATA_NOTIFIED => let o := with_status (Some ALL_READY) o in if observed o then with_timer false (complete o) else o
      | DATA_READY => with_timer false (with_status (Some ALL_READY) o)
      | _ => with_status (Some ASSETS_READY) o
      end
  | ETimeout => if observed o then with_timer false (complete o) else o
  | ERetrieve => match o_status o with Some ALL_READY => with_status None o | Some DATA_READY => with_status (Some DATA_NOTIFIED) o | _ => o end
  end.

Definition valid_name (b s : string) : bool := negb (bool_decide (b = "") || bool_decide (s = "")).
Definition changed_of (ins upd : list (string * string)) : ObjectData * SaveInfo * bool :=
  let changed := fold_left (fun r kv => <[kv.1 := kv.2]> r) (ins ++ upd) ∅ in GetObjectData changed (find_info changed).

Definition events (k : string) (op : Op) (m : Mgr) : list Event :=
  match op with
  | ORegister b s p t (Some cb) => if valid_name b s then [if bool_decide (b +:+ s = k) then EObserve t p cb else EOther t p] else []
  | OUnregister b p t s => if bool_decide (b = "") then [] else if bool_decide (s = "") || bool_decide (b +:+ s = k) then [EUnobserve t p] else []
  | OChange ins upd => let '(data, _, hasAsset) := changed_of ins upd in if bool_decide (is_Some (data !! k)) then [if hasAsset then EData else EPlain] else []
  | OStart s b => if bool_decide (b +:+ s = k) then [EStart] else []
  | OFinished (Some (b, s)) _ => if bool_decide (b +:+ s = k) then [EAssets] else []
  | OTimerEnd n => match pulling m !! n with Some key => if bool_decide (key = k) then [ETimeout] else [] | None => [] end
  | ORetrieve key => if bool_decide (key = k) then [ERetrieve] else []
  | _ => []
  end.

(** The object [k] in the manager. *)
Definition told_to (k : string) (x : Sent) : option (Z * bool) := match x with Changed cb key _ b => if bool_decide (key = k) then Some (cb, b) else None | _ => None end.
Definition obs_of (k : string) (c : CallbackInfo) : option (Z * Z) := (pid c,.) <$> observers_ c !! k.
Definition object (k : string) (m : Mgr) : Obj :=
  mkObj (restoreStatus_ m !! k) (omap (obs_of k) (callbacks_ m)) (bool_decide (is_Some (objectTimer_ m !! k))) (omap (told_to k) (sent m)).

(** A change of one object at most, as every device makes them that describes its saves. *)
Definition single (op : Op) : bool := match op with OChange ins upd => (base.size (changed_of ins upd).1.1 <=? 1)%nat | _ => true end.

(** *** The manager treats every object as the abstract one *)

(** A loop over the entries of a map, of which only that of [k] matters. *)
Lemma fold_key {A} (f : Mgr -> string * A -> Mgr) (g : A -> Obj -> Obj) k (c : gmap string A) m :
  (forall m x, x.1 <> k -> object k (f m x) = object k m) -> (forall m v, object k (f m (k, v)) = g v (object k m)) ->
  object k (fold_left f (in_order c) m) = match c !! k with Some v => g v (object k m) | None => object k m end.
Proof.
  intros H1 H2. assert (NoDup (in_order c).*1) as Hn by (rewrite in_order_elements; apply NoDup_fst_map_to_list).
  assert (forall v, c !! k = Some v <-> (k, v) ∈ in_order c) as Hc by (intros v; rewrite in_order_elements; symmetry; apply elem_of_map_to_list).
  assert (forall l m, (forall x, x ∈ l -> x.1 <> k) -> object k (fold_left f l m) = object k m) as Hskip.
  { induction l as [|x l IH]; intros m' Hl; cbn; [done|]. rewrite IH by (intros; apply Hl; by right). apply H1, Hl. by left. }
  destruct (c !! k) as [v|] eqn:E.
  - assert ((k, v) ∈ in_order c) as Hin by (by apply Hc). apply list_elem_of_split in Hin as (l1 & l2 & El). rewrite El in Hn |- *. rewrite fmap_app, fmap_cons, NoDup_app, NoDup_cons in Hn. destruct Hn as (_ & Hn1 & Hn2 & _).
    rewrite fold_left_app. cbn [fold_left]. rewrite Hskip, H2, Hskip; [done| |].
    + intros x Hx Ex. apply (Hn1 x.1); [by apply list_elem_of_fmap_2|]. rewrite Ex. by left.
    + intros x Hx Ex. apply Hn2. cbn. rewrite <- Ex. by apply list_elem_of_fmap_2.
  - apply Hskip. intros [k' v] Hx. cbn. intros ->. apply Hc in Hx. congruence.
Qed.

Lemma object_ext k m m' : restoreStatus_ m' !! k = restoreStatus_ m !! k -> callbacks_ m' = callbacks_ m -> objectTimer_ m' !! k = objectTimer_ m !! k -> sent m' = sent m -> object k m' = object k m.
Proof. intros E1 E2 E3 E4. unfold object. by rewrite E1, E2, E3, E4. Qed.

Definition notified (b : bool) (cb : Z) (o : Obj) : Obj := mkObj (if b then None else const DATA_NOTIFIED <$> o_status o) (o_obs o) (o_timer o) (o_told o ++ [(cb, b)]).

Lemma DoNotify_object k v data b m :
  object k (DoNotify v data b m) = match data !! k, observers_ v !! k with Some _, Some cb => notified b cb (object k m) | _, _ => object k m end.
Proof.
  unfold DoNotify. rewrite (fold_key _ (fun cb o => match data !! k with Some _ => notified b cb o | None => o end)).
  - by destruct (data !! k), (observers_ v !! k).
  - clear m. intros m [k' cb] Hne. unfold notify_one. cbn in *. destruct (data !! k') as [r|]; [|done]. unfold object. destruct b; cbn.
    + rewrite lookup_delete_ne by done. rewrite omap_app. cbn. rewrite (bool_decide_false (k' = k)) by done. cbn. by rewrite app_nil_r.
    + rewrite lookup_alter_ne by done. rewrite omap_app. cbn. rewrite (bool_decide_false (k' = k)) by done. cbn. by rewrite app_nil_r.
  - clear m. intros m cb. unfold notify_one. cbn. destruct (data !! k) as [r|]; [|done]. unfold object, notified. destruct b; cbn.
    + rewrite lookup_delete_eq, omap_app. cbn. by rewrite (bool_decide_true (k = k)).
    + rewrite lookup_alter_eq, omap_app. cbn. by rewrite (bool_decide_true (k = k)).
Qed.

Lemma DoNotify_frame v data b m : callbacks_ (DoNotify v data b m) = callbacks_ m /\ executors_ (DoNotify v data b m) = executors_ m.
Proof.
  unfold DoNotify. revert m. induction (in_order (observers_ v)) as [|o l IH]; intros m; cbn; [done|]. destruct (IH (notify_one data b m o)) as [-> ->].
  unfold notify_one. destruct (data !! o.1); [|done]. by destruct b.
Qed.

Definition watchers (k : string) (m : Mgr) : list Z := omap (fun tv => observers_ tv.2 !! k) (by_token (callbacks_ m)).

Lemma watchers_obs k m : (fun tv => tv.2.2) <$> by_token (o_obs (object k m)) = watchers k m.
Proof.
  unfold object, watchers. cbn. rewrite by_token_omap. induction (by_token (callbacks_ m)) as [|[t c] l IH]; [done|]. cbn. unfold obs_of at 1.
  destruct (observers_ c !! k); cbn; by rewrite IH.
Qed.

Lemma watchers_none k m : watchers k m = [] <-> o_obs (object k m) = ∅.
Proof. rewrite <- watchers_obs. split; [intros H%fmap_nil_inv; by apply by_token_nil|intros H%by_token_nil; by rewrite H]. Qed.

(** Every observer of the object is told, in the order of the applications. *)
Lemma notify_all_object k data b m :
  object k (notify_all data b m) = match data !! k with
  | None => object k m
  | Some _ => mkObj (if bool_decide (watchers k m = []) then o_status (object k m) else if b then None else const DATA_NOTIFIED <$> o_status (object k m))
                (o_obs (object k m)) (o_timer (object k m)) (o_told (object k m) ++ ((., b) <$> watchers k m))
  end.
Proof.
  unfold notify_all, watchers. generalize (by_token (callbacks_ m)) as l. intros l. revert m. induction l as [|[t c] l IH]; intros m; cbn [fold_left].
  - destruct (data !! k); [|done]. cbn. by rewrite app_nil_r.
  - rewrite IH, !DoNotify_object. cbn [snd omap list_omap]. destruct (data !! k) as [r|] eqn:Ed; [|done]. destruct (observers_ c !! k) as [cb|]; [|done].
    rewrite (bool_decide_false (cb :: _ = [])) by done. cbn. rewrite <- app_assoc. f_equal. case_bool_decide; [done|]. destruct b; [done|]. by destruct (restoreStatus_ m !! k).
Qed.
Lemma remove_timer_frame key m : restoreStatus_ (remove_timer key m) = restoreStatus_ m /\ callbacks_ (remove_timer key m) = callbacks_ m /\ executors_ (remove_timer key m) = executors_ m
  /\ sent (remove_timer key m) = sent m /\ objectTimer_ (remove_timer key m) = delete key (objectTimer_ m).
Proof. unfold remove_timer. destruct (objectTimer_ m !! key) eqn:E; [done|]. split_and!; try done. by rewrite delete_id. Qed.

Lemma remove_timer_object k key m : object k (remove_timer key m) = if bool_decide (key = k) then with_timer false (object k m) else object k m.
Proof.
  destruct (remove_timer_frame key m) as (E1 & E2 & _ & E3 & E4). unfold object. rewrite E1, E2, E3, E4. destruct (decide (key = k)) as [->|E].
  - by rewrite (bool_decide_true (k = k)), lookup_delete_eq.
  - by rewrite (bool_decide_false (key = k)), lookup_delete_ne.
Qed.

Lemma ready_one_object k v key m : executors_ m = true ->
  object k (DoNotifyAssetsReady v key m) = match observers_ v !! key with
  | Some cb => if bool_decide (key = k) then mkObj None (o_obs (object k m)) false (o_told (object k m) ++ [(cb, true)]) else object k m
  | None => object k m
  end.
Proof.
  intros Hx. unfold DoNotifyAssetsReady. rewrite Hx. cbn [negb]. destruct (observers_ v !! key) as [cb|]; [|done]. rewrite remove_timer_object. case_bool_decide as E.
  - subst key. unfold object, with_timer. cbn. rewrite lookup_delete_eq, omap_app. cbn. by rewrite (bool_decide_true (k = k)).
  - unfold object. cbn. rewrite lookup_delete_ne by done. rewrite omap_app. cbn. rewrite (bool_decide_false (key = k)) by done. cbn. by rewrite app_nil_r.
Qed.

Lemma ready_one_frame v key m : callbacks_ (DoNotifyAssetsReady v key m) = callbacks_ m /\ executors_ (DoNotifyAssetsReady v key m) = executors_ m.
Proof.
  unfold DoNotifyAssetsReady. case_if; [done|]. destruct (observers_ v !! key); [|done].
  destruct (remove_timer_frame key (set_status (delete key (restoreStatus_ m)) (send (Changed z key ∅ true) m))) as (_ & E1 & E2 & _). by split; [exact E1|exact E2].
Qed.

Lemma ready_all_frame key m : executors_ m = true -> executors_ (assets_ready_all key m) = true.
Proof.
  unfold assets_ready_all. generalize (by_token (callbacks_ m)) as l. intros l. revert m. induction l as [|tv l IH]; intros m Hm; cbn; [done|].
  apply IH. by rewrite (proj2 (ready_one_frame _ _ _)).
Qed.

Lemma ready_all_object k key m : executors_ m = true ->
  object k (assets_ready_all key m) = if bool_decide (key = k) && negb (bool_decide (watchers k m = []))
    then mkObj None (o_obs (object k m)) false (o_told (object k m) ++ ((., true) <$> watchers k m)) else object k m.
Proof.
  unfold assets_ready_all, watchers. generalize (by_token (callbacks_ m)) as l. intros l. revert m. induction l as [|[t c] l IH]; intros m Hx; cbn [fold_left].
  - cbn. by rewrite andb_false_r.
  - rewrite IH by (by rewrite (proj2 (ready_one_frame _ _ _))). rewrite !ready_one_object by done. cbn [snd omap list_omap]. case_bool_decide as E; cbn [andb].
    + subst key. destruct (observers_ c !! k) as [cb|]; [|done]. rewrite (bool_decide_false (cb :: _ = [])) by done. cbn. case_bool_decide as Ew; cbn [negb].
      * by rewrite Ew.
      * by rewrite <- app_assoc.
    + by destruct (observers_ c !! key).
Qed.

(** What the watchers mean for the abstract object. *)
Lemma observed_watchers k m : observed (object k m) = negb (bool_decide (watchers k m = [])).
Proof. unfold observed. f_equal. apply bool_decide_ext. symmetry. apply watchers_none. Qed.

Lemma tell_object k b m : tell b (object k m) = mkObj (o_status (object k m)) (o_obs (object k m)) (o_timer (object k m)) (o_told (object k m) ++ ((., b) <$> watchers k m)).
Proof. unfold tell. rewrite <- watchers_obs, <- list_fmap_compose. done. Qed.

Lemma complete_object k m : complete (object k m) = if bool_decide (watchers k m = []) then object k m
  else mkObj None (o_obs (object k m)) (o_timer (object k m)) (o_told (object k m) ++ ((., true) <$> watchers k m)).
Proof. unfold complete. rewrite observed_watchers, tell_object. by case_bool_decide. Qed.

Lemma notify_ready_object k data m : is_Some (data !! k) -> object k (notify_all data true m) = complete (object k m).
Proof. intros [r Hr]. rewrite notify_all_object, Hr, complete_object. case_bool_decide as E; [|done]. rewrite E. cbn. by rewrite app_nil_r. Qed.

Lemma notify_absent_object k data b m : data !! k = None -> object k (notify_all data b m) = object k m.
Proof. intros Hr. by rewrite notify_all_object, Hr. Qed.

Lemma notify_all_frame data b m : callbacks_ (notify_all data b m) = callbacks_ m /\ executors_ (notify_all data b m) = executors_ m.
Proof.
  unfold notify_all. generalize (by_token (callbacks_ m)) as l. intros l. revert m. induction l as [|tv l IH]; intros m; cbn; [done|].
  destruct (IH (DoNotify tv.2 data b m)) as [-> ->]. apply DoNotify_frame.
Qed.

Lemma set_status_watchers k st m : watchers k (set_status st m) = watchers k m.
Proof. done. Qed.

Lemma set_status_object k key st m : object k (set_status (<[key := st]> (restoreStatus_ m)) m) = if bool_decide (key = k) then with_status (Some st) (object k m) else object k m.
Proof.
  unfold object, with_status. cbn. destruct (decide (key = k)) as [->|E].
  - by rewrite (bool_decide_true (k = k)), lookup_insert_eq.
  - by rewrite (bool_decide_false (key = k)), lookup_insert_ne.
Qed.

Lemma WaitAssets_object k key i data m : executors_ m = true -> object k (WaitAssets key i data m) = if bool_decide (key = k) then with_timer true (object k m) else object k m.
Proof.
  intros Hx. unfold WaitAssets. rewrite Hx. unfold object, with_timer. cbn. destruct (decide (key = k)) as [->|E].
  - rewrite (bool_decide_true (k = k)) by done. destruct (objectTimer_ m !! k) as [id|] eqn:Et; [by rewrite Et|]. by rewrite lookup_insert_eq.
  - rewrite (bool_decide_false (key = k)) by done. destruct (objectTimer_ m !! key); [done|]. by rewrite lookup_insert_ne.
Qed.

(** The record of the only object of a change arrives. *)
Lemma data_object k key i data m : executors_ m = true -> is_Some (data !! key) -> (forall k', is_Some (data !! k') -> k' = key) ->
  object k (ComputeStatus key i data (status_there key m)) = if bool_decide (key = k) then obj_step EData (object k m) else object k m.
Proof.
  intros Hx Hd Hs. set (m1 := status_there key m). assert (object k m1 = if bool_decide (key = k) then with_status (Some (default NONE (o_status (object k m)))) (object k m) else object k m) as E1.
  { unfold m1, status_there. rewrite set_status_object. case_bool_decide as E; [by subst key|done]. }
  unfold ComputeStatus. case_bool_decide as E.
  - subst key. assert (restoreStatus_ m1 !! k = Some (default NONE (restoreStatus_ m !! k))) as E2 by (unfold m1, status_there; cbn; by rewrite lookup_insert_eq).
    assert (forall st, object k (set_status (<[k := st]> (restoreStatus_ m1)) m1) = with_status (Some st) (object k m)) as E3.
    { intros st. rewrite set_status_object, bool_decide_true, E1 by done. done. }
    rewrite E2. cbn [obj_step]. change (o_status (object k m)) with (restoreStatus_ m !! k). destruct (restoreStatus_ m !! k) as [st|] eqn:Est.
    + case_bool_decide as Ea; cbn in Ea.
      * injection Ea as ->. rewrite notify_ready_object by done. by rewrite E3.
      * rewrite WaitAssets_object, bool_decide_true by (try done; rewrite (proj2 (notify_all_frame _ _ _)); done).
        rewrite notify_all_object. destruct Hd as [r Hr]. rewrite Hr, E3. rewrite observed_watchers, tell_object. unfold m1, status_there. rewrite !set_status_watchers.
        destruct st; try done; cbn; by case_bool_decide.
    + rewrite bool_decide_false by done. rewrite WaitAssets_object, bool_decide_true by (try done; rewrite (proj2 (notify_all_frame _ _ _)); done).
      rewrite notify_all_object. destruct Hd as [r Hr]. rewrite Hr, E3. rewrite observed_watchers, tell_object. unfold m1, status_there. rewrite !set_status_watchers.
      cbn. by case_bool_decide.
  - assert (data !! k = None) as Hn by (destruct (data !! k) eqn:Ed; [exfalso; apply E; symmetry; apply Hs; by rewrite Ed|done]).
    assert (forall st, object k (set_status (<[key := st]> (restoreStatus_ m1)) m1) = object k m) as E3 by (intros st; by rewrite set_status_object, bool_decide_false, E1 by done).
    case_bool_decide; [by rewrite notify_absent_object, E3|].
    rewrite WaitAssets_object by (rewrite (proj2 (notify_all_frame _ _ _)); done). rewrite bool_decide_false by done. by rewrite notify_absent_object, E3.
Qed.
(** *** Every operation *)

(** Only the application [t] changes. *)
Lemma obs_at k t (c c' : gmap Z CallbackInfo) (obs' : gmap Z (Z * Z)) : (forall t', t' <> t -> c' !! t' = c !! t') ->
  (forall t', t' <> t -> obs' !! t' = (omap (obs_of k) c : gmap Z (Z * Z)) !! t') -> c' !! t ≫= obs_of k = obs' !! t -> omap (obs_of k) c' = obs'.
Proof.
  intros H1 H2 H3. apply map_eq. intros t'. rewrite lookup_omap. destruct (decide (t' = t)) as [->|Ht]; [done|]. by rewrite H1, H2, lookup_omap by done.
Qed.

Lemma register_obs k t p key cb c :
  omap (obs_of k) (register_in t p key cb c) = let obs : gmap Z (Z * Z) := omap (obs_of k) c in
  if bool_decide (key = k) then <[t := (p, cb)]> obs else match obs !! t with Some (p', _) => if p' =? p then obs else delete t obs | None => obs end.
Proof.
  cbv zeta. unfold register_in. set (v := default _ _). assert (obs_of k v = (omap (obs_of k) c : gmap Z (Z * Z)) !! t) as Hv by (rewrite lookup_omap; subst v; by destruct (c !! t)).
  apply obs_at with t c.
  - intros t' Ht. by rewrite lookup_insert_ne.
  - intros t' Ht. repeat case_match; by rewrite ?lookup_insert_ne, ?lookup_delete_ne by done.
  - rewrite lookup_insert_eq. cbn. unfold obs_of at 1. cbn. destruct (decide (key = k)) as [->|Hk].
    + rewrite (bool_decide_true (k = k)) by done. rewrite !lookup_insert_eq. cbn. by destruct (Z.eqb_spec (pid v) p) as [->|].
    + rewrite (bool_decide_false (key = k)) by done. rewrite lookup_insert_ne by done. revert Hv. unfold obs_of at 1.
      destruct (observers_ v !! k) as [x|] eqn:Ex; cbn; intros Hv; rewrite <- Hv; destruct (Z.eqb_spec (pid v) p); rewrite ?Ex; cbn; rewrite <- ?Hv, ?lookup_delete_eq, ?lookup_empty; done.
Qed.

Lemma unregister_obs k t p b s c :
  omap (obs_of k) (unregister_in t p b s c) = let obs : gmap Z (Z * Z) := omap (obs_of k) c in
  if bool_decide (s = "") || bool_decide (b +:+ s = k) then match obs !! t with Some (p', _) => if p' =? p then delete t obs else obs | None => obs end else obs.
Proof.
  cbv zeta. unfold unregister_in. set (v := default _ _). assert (obs_of k v = (omap (obs_of k) c : gmap Z (Z * Z)) !! t) as Hv by (rewrite lookup_omap; subst v; by destruct (c !! t)).
  apply obs_at with t c.
  - intros t' Ht. repeat case_match; by rewrite ?lookup_insert_ne, ?lookup_delete_ne by done.
  - intros t' Ht. repeat case_match; by rewrite ?lookup_delete_ne by done.
  - destruct (Z.eqb_spec (pid v) p) as [Ep|Ep]; cbn [negb].
    + assert (forall x : bool, (if x then None else obs_of k v) = (if x then match (omap (obs_of k) c : gmap Z (Z * Z)) !! t with Some (p', _) => if p' =? p then delete t (omap (obs_of k) c) else omap (obs_of k) c | None => omap (obs_of k) c end else omap (obs_of k) c : gmap Z (Z * Z)) !! t) as Hx.
      { intros [|]; [|done]. rewrite <- Hv. unfold obs_of at 1. destruct (observers_ v !! k) eqn:Ex; cbn.
        - rewrite Ep, Z.eqb_refl. by rewrite lookup_delete_eq.
        - rewrite <- Hv. unfold obs_of. by rewrite Ex. }
      rewrite <- Hx. case_bool_decide as Es; cbn [orb]; [by rewrite lookup_delete_eq|]. rewrite lookup_insert_eq. cbn. unfold obs_of. cbn.
      case_bool_decide as Ek; [by rewrite Ek, lookup_delete_eq|by rewrite lookup_delete_ne].
    + rewrite lookup_insert_eq. cbn. destruct (_ || _); [|done]. rewrite <- Hv. unfold obs_of at 2. destruct (observers_ v !! k) as [x|] eqn:Ex; cbn; [|done].
      by rewrite (proj2 (Z.eqb_neq _ _) Ep).
Qed.
(** What is sent to others says nothing about the object. *)
Lemma sends_object {A} k (f : A -> Sent) l m : (forall x, told_to k (f x) = None) ->
  object k (fold_left (fun m x => send (f x) m) l m) = object k m /\ executors_ (fold_left (fun m x => send (f x) m) l m) = executors_ m
  /\ assetsRecvProgress_ (fold_left (fun m x => send (f x) m) l m) = assetsRecvProgress_ m.
Proof.
  intros Hf. revert m. induction l as [|x l IH]; intros m; cbn; [done|]. destruct (IH (send (f x) m)) as (-> & -> & ->). split_and!; try done.
  unfold object. cbn. rewrite omap_app. cbn. by rewrite Hf, app_nil_r.
Qed.

Lemma progress_object k key n m : object k (NotifyAssetsRecvProgress key n m) = object k m /\ executors_ (NotifyAssetsRecvProgress key n m) = executors_ m.
Proof.
  unfold NotifyAssetsRecvProgress. cbv zeta. set (m1 := set_progress _ _ m). set (l := omap _ _).
  destruct (sends_object k (fun cb => Progress cb n) l m1) as (E1 & E2 & _); [done|]. destruct (_ && _); by split.
Qed.

Lemma ready_object k key m : executors_ m = true ->
  object k (NotifyAssetsReady key m) = (if bool_decide (key = k) then obj_step EAssets (object k m) else object k m) /\ executors_ (NotifyAssetsReady key m) = true.
Proof.
  intros Hx. unfold NotifyAssetsReady. rewrite Hx. cbn [negb]. set (m1 := set_status (<[key := ALL_READY]> _) m).
  assert (object k m1 = if bool_decide (key = k) then with_status (Some ALL_READY) (object k m) else object k m) as E1 by apply set_status_object.
  split; [|by destruct (default NONE _); try done; [destruct (remove_timer_frame key m1) as (_ & _ & -> & _)|apply ready_all_frame]].
  destruct (decide (key = k)) as [->|Hk].
  - rewrite bool_decide_true by done. rewrite bool_decide_true in E1 by done. cbn [obj_step]. change (o_status (object k m)) with (restoreStatus_ m !! k).
    destruct (default NONE (restoreStatus_ m !! k)).
    + by rewrite set_status_object, bool_decide_true.
    + by rewrite remove_timer_object, E1, bool_decide_true.
    + rewrite ready_all_object by done. rewrite bool_decide_true by done. cbv zeta. rewrite <- E1, complete_object, observed_watchers. cbn [andb]. by case_bool_decide.
    + by rewrite set_status_object, bool_decide_true.
    + by rewrite set_status_object, bool_decide_true.
  - rewrite bool_decide_false by done. rewrite bool_decide_false in E1 by done.
    destruct (default NONE (restoreStatus_ m !! key)).
    + by rewrite set_status_object, bool_decide_false.
    + by rewrite remove_timer_object, E1, bool_decide_false.
    + rewrite ready_all_object by done. by rewrite bool_decide_false.
    + by rewrite set_status_object, bool_decide_false.
    + by rewrite set_status_object, bool_decide_false.
Qed.

Lemma timeout_object k key m : executors_ m = true ->
  object k (DoNotifyWaitAssetTimeout key m) = if bool_decide (key = k) then obj_step ETimeout (object k m) else object k m.
Proof.
  intros Hx. unfold DoNotifyWaitAssetTimeout. rewrite Hx. cbn [negb]. rewrite ready_all_object by done. destruct (bool_decide (key = k)); [|done]. cbn [andb obj_step].
  rewrite observed_watchers, complete_object. by case_bool_decide.
Qed.

Lemma status_there_object k key m : object k (status_there key m) = if bool_decide (key = k) then obj_step EStart (object k m) else object k m.
Proof. unfold status_there. rewrite set_status_object. case_bool_decide as E; [by subst key|done]. Qed.

Lemma retrieve_object k key m : object k (retrieve_status key m).2 = if bool_decide (key = k) then obj_step ERetrieve (object k m) else object k m.
Proof.
  unfold retrieve_status. destruct (decide (key = k)) as [->|Hk].
  - rewrite bool_decide_true by done. cbn [obj_step]. change (o_status (object k m)) with (restoreStatus_ m !! k). destruct (restoreStatus_ m !! k) as [[]|]; try done; cbn [snd].
    + by rewrite set_status_object, bool_decide_true.
    + unfold object, with_status. cbn. by rewrite lookup_delete_eq.
  - rewrite bool_decide_false by done. destruct (restoreStatus_ m !! key) as [[]|]; try done; cbn [snd].
    + by rewrite set_status_object, bool_decide_false.
    + unfold object. cbn. by rewrite lookup_delete_ne.
Qed.
Lemma single_key (data : ObjectData) : (base.size data <=? 1)%nat = true -> forall k k', is_Some (data !! k) -> is_Some (data !! k') -> k = k'.
Proof.
  intros H k k' Hk Hk'. apply Nat.leb_le in H. rewrite <- size_dom in H. apply elem_of_dom in Hk, Hk'. apply (size_singleton_inv (dom data)); [|done..].
  assert (base.size (dom data) <> 0%nat); [|lia]. intros E%size_empty_inv. set_solver.
Qed.

(** The changes of a single object, with or without assets. *)
Lemma change_object k ins upd m : executors_ m = true -> single (OChange ins upd) = true ->
  object k (OnChange ins upd m) = (let '(data, _, hasAsset) := changed_of ins upd in if bool_decide (is_Some (data !! k)) then obj_step (if hasAsset then EData else EPlain) (object k m) else object k m)
  /\ executors_ (OnChange ins upd m) = true.
Proof.
  intros Hx. unfold single, OnChange, NotifyChange. fold (changed_of ins upd). destruct (changed_of ins upd) as [[data i] h]; cbn [fst]; intros Hs0. pose proof (single_key _ Hs0) as Hs. destruct h.
  - unfold NotifyDataChanged. destruct (map_choose_or_empty data) as [(key & r & Hr)| Ed].
    + assert ((data : gmap string ObjectRecord) = {[key := r]}) as Ed.
      { apply map_eq. intros k'. destruct (decide (k' = key)) as [->|Hk]; [by rewrite Hr, lookup_singleton_eq|]. rewrite lookup_singleton_ne by done.
        destruct (data !! k') eqn:E; [|done]. exfalso. apply Hk, Hs; by eexists. }
      assert (in_order data = [(key, r)]) as -> by (apply Permutation_singleton_r; rewrite Ed, in_order_elements; by rewrite map_to_list_singleton).
      cbn [fold_left fst]. rewrite data_object; [|done|by exists r|intros k' Hk'; apply Hs; [done|by exists r]]. split.
      * destruct (decide (key = k)) as [->|Hk]; [rewrite !bool_decide_true by (try done; by exists r); done|].
        rewrite !bool_decide_false; [done| |done]. intros H. apply Hk, Hs; [by exists r|done].
      * unfold ComputeStatus. case_bool_decide; [by rewrite (proj2 (notify_all_frame _ _ _))|].
        unfold WaitAssets. case_match; cbn; by rewrite (proj2 (notify_all_frame _ _ _)).
    + by rewrite Ed.
  - rewrite (proj2 (notify_all_frame _ _ _)). split; [|done]. case_bool_decide as Hd; [by apply notify_ready_object|].
    apply notify_absent_object. by apply eq_None_not_Some.
Qed.

Lemma if_event (b : bool) e o : (if b then obj_step e o else o) = fold_left (flip obj_step) (if b then [e] else []) o.
Proof. by destruct b. Qed.

(** One operation is for the object what its events are for the abstract object. *)
Lemma run_object k op m : executors_ m = true -> single op = true ->
  object k (run op m) = fold_left (flip obj_step) (events k op m) (object k m) /\ executors_ (run op m) = true.
Proof.
  intros Hx Hs. destruct op as [b s p t [cb|]|b p t s|b s p t [cb|]|b p t s|ins upd|s b|[[b s]|] ok|[[b s]|] tot dn|id|n|key]; cbn [run events]; try done.
  - unfold RegisterRemoteCallback, valid_name. destruct (_ || _); cbn [negb]; [done|]. split; [|done]. cbn. unfold object at 1. cbn. rewrite register_obs. cbn.
    case_bool_decide; [done|]. cbn. unfold object. cbn. repeat case_match; done.
  - unfold UnregisterRemoteCallback. destruct (bool_decide (b = "")); [done|]. split; [|done]. unfold object at 1. cbn. rewrite unregister_obs. cbn. destruct (_ || _); [|done]. cbn.
    repeat case_match; done.
  - unfold RegisterProgressObserverCallback. destruct (_ || _); [done|]. cbv zeta. case_match; [|done]. repeat case_match; split; try done; unfold object; cbn; by rewrite omap_app, app_nil_r.
  - unfold UnregisterProgressObserverCallback. by case_match.
  - destruct (change_object k ins upd m Hx Hs) as [-> ->]. split; [|done]. destruct (changed_of ins upd) as [[data i] h]. apply if_event.
  - unfold OnStart, NotifyAssetsStart. destruct (progress_object k (b +:+ s) 0 (status_there (b +:+ s) m)) as [-> ->]. split; [|done]. rewrite status_there_object. apply if_event.
  - unfold OnFinished. destruct (progress_object k (b +:+ s) (if ok then PROGRESS_MAX else PROGRESS_INVALID) (NotifyAssetsReady (b +:+ s) m)) as [-> ->].
    destruct (ready_object k (b +:+ s) m Hx) as [-> ->]. split; [|done]. apply if_event.
  - unfold OnRecvProgress. case_match; [done|]. cbn [snd]. by destruct (progress_object k (b +:+ s) (percent dn tot) m) as [-> ->].
  - unfold timer_fires. destruct (timers m !! id) as [[[key data] i]|]; [|done]. cbv zeta. unfold PullAssets. set (m1 := set_timers _ _ _ m).
    destruct (sends_object k (fun kv : string * ObjectRecord => Pull (bundleName i) (ToNetworkID (sourceDeviceId i)) (GetAssetsFromDBRecords kv.2)) (in_order data) m1) as (E1 & E2 & _); [done|].
    split; [exact E1|]. etransitivity; [exact E2|done].
  - unfold timer_ends. destruct (pulling m !! n) as [key|]; [|done]. set (m1 := set_pulling _ m). split; [rewrite timeout_object by done; apply if_event|].
    unfold DoNotifyWaitAssetTimeout. case_match; [done|]. by apply ready_all_frame.
  - split; [rewrite retrieve_object; apply if_event|]. unfold retrieve_status. repeat case_match; done.
Qed.

(** The events of a sequence of operations for the object [k]. *)
Fixpoint trace (k : string) (ops : list Op) (m : Mgr) : list Event :=
  match ops with [] => [] | op :: ops => events k op m ++ trace k ops (run op m) end.

Lemma runs_object k ops m : executors_ m = true -> forallb single ops = true ->
  object k (fold_left (flip run) ops m) = fold_left (flip obj_step) (trace k ops m) (object k m) /\ executors_ (fold_left (flip run) ops m) = true.
Proof.
  revert m. induction ops as [|op ops IH]; intros m Hx Hs; cbn [fold_left trace]; [done|]. apply andb_true_iff in Hs as [H1 H2]. destruct (run_object k op m Hx H1) as [E1 E2].
  destruct (IH (run op m) E2 H2) as [E3 E4]. change (flip run m op) with (run op m). rewrite E3, E4, fold_left_app, E1. done.
Qed.
(** *** The abstract object

    An object that is not known and one that nothing is known of are the same. *)
#[export] Instance Event_eq_dec : EqDecision Event.
Proof. solve_decision. Defined.

#[export] Instance Obj_equiv : Equiv Obj := fun o o' =>
  default NONE (o_status o) = default NONE (o_status o') /\ o_obs o = o_obs o' /\ o_timer o = o_timer o' /\ o_told o = o_told o'.
#[export] Instance Obj_equivalence : Equivalence (≡@{Obj}).
Proof.
  split.
  - by intros o.
  - intros o o' (? & ? & ? & ?). by split_and!.
  - intros o1 o2 o3 (? & ? & ? & ?) (? & ? & ? & ?). split_and!; by etransitivity.
Qed.

#[export] Instance obj_step_proper e : Proper ((≡) ==> (≡)) (obj_step e).
Proof.
  intros [st obs tm told] [st' obs' tm' told'] (E1 & E2 & E3 & E4). cbn in *. subst obs' tm' told'. unfold obj_step, complete, observed, tell. cbn. rewrite <- E1.
  destruct e; cbn; repeat case_match; cbn in *; simplify_eq; try (by split_and!); destruct st as [[]|], st' as [[]|]; cbn in *; simplify_eq; by split_and!.
Qed.

Lemma start_same o : obj_step EStart o ≡ o.
Proof. by split_and!. Qed.

(** The start of a transfer changes nothing. *)
Lemma starts_skipped es o : fold_left (flip obj_step) es o ≡ fold_left (flip obj_step) (filter (fun e => e <> EStart) es) o.
Proof.
  assert (forall es o o', o ≡ o' -> fold_left (flip obj_step) es o ≡ fold_left (flip obj_step) es o') as Hp.
  { induction es0 as [|e es0 IH]; intros o1 o2 E; cbn; [done|]. apply IH. unfold flip. by rewrite E. }
  revert o. induction es as [|e es IH]; intros o; cbn [fold_left]; [done|]. destruct (decide (e = EStart)) as [->|He].
  - rewrite filter_cons_False by (by intros []). rewrite IH. apply Hp, start_same.
  - rewrite filter_cons_True by done. cbn [fold_left]. apply IH.
Qed.

Definition cbs (b : bool) (obs : gmap Z (Z * Z)) : list (Z * bool) := (fun tv => (tv.2.2, b)) <$> by_token obs.

(** An observed object that nothing is known of, when the record and the assets come. *)
Lemma completes es o : observed o = true -> default NONE (o_status o) = NONE -> es ∈ [[EData; EAssets]; [EData; ETimeout]; [EAssets; EData]] ->
  fold_left (flip obj_step) es o
  ≡ mkObj None (o_obs o) (if bool_decide (head es = Some EData) then false else o_timer o)
      (o_told o ++ (if bool_decide (head es = Some EData) then cbs false (o_obs o) else []) ++ cbs true (o_obs o)).
Proof.
  destruct o as [st obs tm tld]. cbn. intros Ho Hst Hes. unfold observed in Ho. cbn in Ho.
  rewrite !elem_of_cons, elem_of_nil in Hes. destruct Hes as [->|[->|[->|[]]]]; cbn [fold_left head bool_decide];
    unfold flip, obj_step, complete, tell, observed; destruct st as [[]|]; try done; cbn; rewrite ?Ho; cbn; rewrite ?Ho; cbn; rewrite <- ?app_assoc; by split_and!.
Qed.

Definition told (k : string) (m : Mgr) : list (Z * bool) := omap (told_to k) (sent m).


End Restore.

(** *** Concrete runs *)
Module Demo.
#[local] Existing Instance TreeText.
#[local] Instance lib : ObjLib :=
  {| ASSET_DOT := "."; NAME_SUFFIX := ".name"; URI_SUFFIX := ".uri"; PATH_SUFFIX := ".path"; CREATE_TIME_SUFFIX := ".createTime"; MODIFY_TIME_SUFFIX := ".modifyTime"; SIZE_SUFFIX := ".size";
     STRING_PREFIX := "[STRING]"; STRING_PREFIX_LEN := 8; DEVICEID_FIELD := "p___deviceId"; BytesToStr s := s; of_bytes _ := JNull |}.

Definition m0 : Mgr := mkMgr true ∅ ∅ ∅ ∅ ∅ ∅ ∅ 0 [] [].
Definition go (ops : list Op) (m : Mgr) : Mgr := fold_left (flip (run (fun d => d) (fun a b => a * 90 / b))) ops m.
Definition watch : Op := ORegister "com.app" "s1" 5 7 (Some 1).
Definition record : Op := OChange [("com.app_s1_udidA_udidB_1234567890_p_photo.name", "a.jpg")] [].
Definition other : Op := OChange [("com.other_s1_udidA_udidB_1234567890_p_title", "x")] [].
Definition assets : Op := OFinished (Some ("com.app", "s1")) true.
Definition m1 : Mgr := go [watch] m0.
End Demo.



(** *** What the code does besides *)

(** The name of the application and the session are joined without a separator: an application is told of the record of another one. *)
Lemma told_of_another_app :
  sent (Demo.go [ORegister "com.app" "2x" 5 7 (Some 1); OChange [("com.app2_x_udidA_udidB_1234567890_p_secret", "v")] []] Demo.m0) = [Changed 1 "com.app2x" {["p_secret" := "v"]} true].
Proof. vm_compute. reflexivity. Qed.

(** Of two timers for an object only the first is remembered; the other one fires after everything has arrived, pulls the assets again and tells the observers again. *)
Lemma second_timer_tells_again :
  let m := Demo.go [Demo.record; Demo.record; Demo.assets; OTimer 1; OTimerEnd 0] Demo.m1 in
  told "com.apps1" m = [(1, false); (1, false); (1, true); (1, true)] /\ last (sent m) = Some (Changed 1 "com.apps1" ∅ true) /\ Pull "com.app" "udidA" [] ∈ sent m.
Proof. split_and!; [vm_compute; reflexivity..|]. apply list_elem_of_In. vm_compute. tauto. Qed.

(** A timer that fires when the object has no observer stays remembered; the next record's timer then is not, and is not removed when its assets arrive. *)
Lemma expired_timer_remembered :
  let m := Demo.go [Demo.record; OTimer 0; OTimerEnd 0; Demo.record; Demo.assets] Demo.m0 in
  objectTimer_ (Demo.go [Demo.record; OTimer 0; OTimerEnd 0] Demo.m0) = {["com.apps1" := 0%nat]} /\ dom (timers m) = {[1%nat]}.
Proof. split; vm_compute; reflexivity. Qed.

(** Progress is remembered for later observers only while some application has a registration without observers: without any registration it is lost. *)
Lemma progress_forgotten :
  sent (Demo.go [Demo.assets; ORegisterProgress "com.app" "s1" 5 7 (Some 1)] Demo.m0) = []
  /\ sent (Demo.go [ORegisterProgress "com.x" "y" 6 8 (Some 2); OUnregisterProgress "com.x" 6 8 "y"; Demo.assets; ORegisterProgress "com.app" "s1" 5 7 (Some 1)] Demo.m0) = [Progress 1 100].
Proof. split; vm_compute; reflexivity. Qed.
End ObjectRestore.
